(* ===== verification/_CoqProject ===== *)
-Q . S2P
Prelude.v
SsTypes.v
ConfigTypes.v
Platform.v
CellularCallRegister.v
Samples.v
Standardize.v
StdMap.v
Connection.v
Regex.v
MmiCode.v
Emergency.v
ControlBase.v
CallMap.v
CallReport.v
ConnectionCS.v
CsControl.v
CsControlFacts.v
CsRefinement.v
CsUser.v
ConnectionIMS.v
ImsControl.v
ImsControlFacts.v
ImsUser.v
ConnectionSatellite.v
SatelliteControl.v
SatelliteFacts.v
VideoControl.v
Service.v
ServiceFacts.v
Handler.v
PhoneNumber.v
SupplementRequestCs.v
SupplementRequestIms.v
Supplement.v
MmiCodeMessage.v
SupplementCodes.v
SupplementHandler.v
SupplementFacts.v
SupplementUser.v
ConfigRequest.v
Config.v
ConfigEcc.v
ConfigHandler.v
ConfigFacts.v
ConfigEccFacts.v
ConfigSystem.v
Parcel.v
IpcCodes.v
CellularCallRdbHelper.v
CellularCallHiSysEvent.v
CellularCallStub.v
ImsCallProxy.v
SatelliteCallProxy.v
SatelliteCallClient.v
SatelliteCallCallbackProxy.v
SatelliteCallCallbackStub.v
ImsCallClient.v
ServiceLife.v
ImsClientFacts.v
ImsClientUser.v
ServiceLifeFacts.v
SatelliteClientFacts.v
ImsCallCallbackProxy.v
ImsCallCallbackStub.v
HandlerEvents.v
ModemEvents.v
ImsReportFacts.v
ImsReportUser.v
HandlerFacts.v
System.v
CellularEntry.v
ServiceUser.v
HandlerUser.v
SatelliteIpcFacts.v
WitnessCalls.v
WitnessTables.v
WitnessProcess.v
