(* ===== verification/Prelude.v ===== *)
(** * Cellular call: a model of the call control of the telephony subsystem

    The program (C++, under [src/]) carries calls over circuit-switched (CS),
    IMS and satellite bearers.  call_manager, in another process, sends its
    operations to the system ability ([CellularCallStub], [CellularCallService]);
    the service chooses a bearer and runs the operation on the control of the slot
    and bearer.  A control keeps a map from call index to connection, turns an
    operation into requests to the modem (RIL) or, through a client and a proxy, to
    the IMS or satellite service, and compares the call lists these report with its
    map; what changed goes back up to call_manager ([CellularCallRegister]).
    Answers and reports arrive as events of the slot's [CellularCallHandler].
    Dial strings may be MMI codes ([MMICodeUtils], [CellularCallSupplement]),
    emergency numbers ([EmergencyUtils], with the lists of [CellularCallConfig]),
    or carry post-dial digits.

    ** How the code is modelled

    An operation of a class is a function in the effect monad of this file: it
    takes the object's state and the history of everything sent so far, and
    returns a value, the new state and the effects it sends, in order.  An early
    [return] is a branch that does not run the rest.  Everything outside the
    repository is the environment: a singleton that may be missing, the answer to a
    request, the modem's or the network's state, a build flag.  An answer is a
    function of the history, so it may differ after every effect; two questions with
    no effect of the object in between get the same answer.  Constants of headers
    outside the repository are fields of classes ([Platform.CallConsts] and the
    [...Env] class of a component); what those headers document of them is
    [CallConstsOk] and [ParcelEnvOk], and the documented behaviour of memset_s,
    strcpy_s and memcpy_s is [SecurecOk].  Where a component reads another one
    through its environment (the controls read the configuration, a control the
    radio flag of the service), the file that owns both ties the knot
    ([Service.linked], [CellularEntry]).

    Each control takes its recursive mutex for a whole operation, so an
    interleaving of threads is a sequence of operations; the inductive relations
    [cs_step], [ims_step], [sat_step] and [sys_step] are those sequences, with
    arbitrary activity of other components in between.  Where a class locks and
    unlocks within an operation the locks are effects: the five mutexes of the
    configuration ([ConfigEffect]), those of the clients ([IpcEvent]), of the
    register and of the service's handler map ([LifeEvent]).  Threads are
    interleaved in [ConfigSystem]; elsewhere an operation is one uninterrupted run,
    so what a client's operations can do to each other when a service dies between
    two of their steps is outside the theorems.  Logging and traces are left out;
    the records of faults and behaviour are effects, whose content is in
    [CellularCallHiSysEvent].

    Integers are [Z].  Where the code converts or wraps, the model says so:
    [i32], [i64] and [size_t] for int32_t, int64_t and size_t, [u64] for the hash.
    Strings are byte strings; [c_str] is a [std::string] seen through [c_str()].  A
    [std::map<int32_t, V>] is an ordered association list whose [insert] does not
    overwrite ([StdMap]), or a [gmap] where the order is not observed; a pointer to
    an element is its key, and a use of the pointer reads or writes the element as it
    is then ([CallMap.on_conn]).  A message between processes is the list of the
    values written into it ([Parcel]); a handler or a listener that several maps hold
    is an object with an identity ([ServiceLife]).

    ** Files

    Under src/ the sources are in services/ (control, connection, utils, common,
    manager, ims_service_interaction, satellite_service_interaction) and
    interfaces/innerkits.

    - Prelude: the monad, [wp] (what one run returns, leaves and sends),
      [preserves], [keeps], [sends], their rules and the automation.
    - SsTypes, ConfigTypes, Platform: the structs, the effects, the environment.
      Samples: concrete constants and environments, in which the witnesses run.
    - Standardize: standardize_utils.  Regex and MmiCode: mmi_code_utils.
      Emergency: emergency_utils.  PhoneNumber: the numbers of a call list.
    - StdMap: std::map.  Connection: base_connection, the post-dial machine, and
      the interface ([PostDial]) of the virtual method it calls.
    - ControlBase: control_base and module_service_utils.  CallMap, CallReport: the
      theory the three controls share: well-formed maps ([conns_inv]), mark and
      sweep ([marked], [compared]), the post-dial step.
    - ConnectionCS, CsControl, with CsControlFacts (invariant, comparison of call
      lists), CsRefinement (the view of call_manager), CsUser (user operations);
      ConnectionIMS, ImsControl, ImsControlFacts, ImsUser; VideoControl
      (ims_video_call_control); ConnectionSatellite, SatelliteControl,
      SatelliteFacts.
    - Service: cellular_call_service, the operations on calls and the tables;
      ServiceFacts, ServiceUser.  ServiceLife, ServiceLifeFacts: its start, stop,
      handlers and listeners, and the dump helper.
    - Handler, HandlerEvents, ModemEvents: cellular_call_handler; the methods, the
      dispatch of the events of the two services, the dispatch of all events and the
      broadcasts.  HandlerFacts, HandlerUser, and the module ModemFacts of
      ModemEvents.
    - System: service and handlers together, their reachable states.
    - SupplementRequestCs, SupplementRequestIms, Supplement, SupplementHandler,
      MmiCodeMessage: the supplementary services; SupplementCodes, SupplementFacts,
      SupplementUser.
    - ConfigRequest, Config, ConfigEcc, ConfigHandler: cellular_call_config,
      config_request and their callers; ConfigFacts, ConfigEccFacts, and
      ConfigSystem with its modules ConfigUser and ConfigSwitch.
    - CellularCallRegister: the way up to call_manager.  CellularCallStub: the way
      down.  CellularEntry: the process, a transaction at a time.  The theorems of
      each are in a module at its end: CellularRegisterFacts, CellularStubFacts,
      CellularEntryFacts.
    - Parcel, IpcCodes: messages.  ImsCallProxy (with the module
      ImsCallProxyFacts), ImsCallClient (requests to the IMS service) with
      ImsClientFacts, ImsClientUser; ImsCallCallbackProxy,
      ImsCallCallbackStub (its reports) with ImsReportFacts, ImsReportUser.
      SatelliteCallProxy, SatelliteCallClient, SatelliteCallCallbackProxy,
      SatelliteCallCallbackStub with SatelliteClientFacts, SatelliteIpcFacts.
    - CellularCallRdbHelper, with the module RdbHelperFacts:
      cellular_call_rdb_helper.
      CellularCallHiSysEvent: cellular_call_hisysevent.
    - WitnessCalls (controls, service and handlers), WitnessTables (supplementary
      services, configuration), WitnessProcess (messages, life cycle, database): the
      properties at concrete inputs, a module per part.

    A definition has the name of the method it translates; a record field has
    the member's name.  The class is the file ([CsControl.Dial] is
    [CSControl::Dial]); a method that several connection classes have is
    prefixed with the bearer ([CS_], [IMS_], [Sat_]), one of the service whose name
    another component has with [service_].

    ** What is shown

    - Refinement: after any sequence of user operations and modem reports, the
      live calls that the reports to call_manager describe are exactly the calls
      in the CS control's map.
    - Invariants over all reachable states: of each control, of the service with
      its handlers ([System]), of the process whatever transactions arrive
      ([CellularEntryFacts]); slots do not interfere.
    - Calls: the comparison of a call list with the map (one call per listed index,
      one report, every lost call reported once); the end-reason protocol; SRVCC;
      a dial goes to exactly one bearer; the dial that waits for a hold goes out
      exactly once; refused calls touch nothing.
    - Dial strings: separators, the split into address and post-dial part, the
      MMI grammar (round trip with a printer), dispatch by hash is dispatch by
      code; every post-dial character is delivered once and in order.
    - Supplementary services: from the code or the setting to the request, from the
      answer to the command it belongs to and to the report.
    - Configuration: mutexes in order and released, no index out of range, threads
      make progress; the kept lists are invisible, also across a change of network;
      which reported emergency numbers a check finds; what setting the switch does.
    - Messages: a call of the system ability, a report of the IMS service and a
      report of the satellite service is read back as it was sent where the parcel
      allows it, and for the satellite's call list it says when not; the message of a
      request to the IMS or satellite service determines the request; a transaction
      runs at most one method and only for a permitted caller; no cast of a posted
      event gives null; a client's locks are balanced.
    - Life cycle: after a start every slot is served; the registration with the core
      service is bounded; what a stop does not take back and a second start parts;
      the sleep of the device is answered once, to the handler told last; the death
      of the satellite service reports every call as ended; the reading of the database, which may
      not end.

    Where the code does not do what it means to, the property states what it does:
    a setting whose index is occupied is answered as the older command, a password
    that is too long ends a code silently, a list reported before the SIM's operator
    is known is not found once it is.

    ** Fuel

    [Standardize.Split] runs its loop with one more unit of fuel than the string
    has characters; [Split_join_roundtrip] shows that it always returns.
    [ControlBase.wait_ready] counts the wake-ups that arrive before the timed
    wait of the condition variable expires, a number of the environment; it
    returns for each.  [Connection.drain] drives the post-dial machine once per
    character and once more.  [ServiceLife.RegisterHandler_loop] has the code's own
    bound of twenty.  [MmiCodeMessage.each_class] has nine turns for eight masks
    ([each_class_bits]: it returns).  [CellularCallRdbHelper.read_beans] has fuel
    because the loop need not end: [ecc_query_outcome] says when it does, with any
    fuel from two, and that otherwise no fuel is enough.  Every other recursion is
    structural.

    ** What is not modelled

    The extension wrapper (dlopen of one optional symbol; its answer is the
    parameter [ext_isMmiCode]) and the vendor's sample of an IMS service
    (src/vendor), which answers every request with a fixed response and reads some
    requests differently from what the interface sends.  Traces, logs, and struct fields
    nothing reads.  The libraries (the IPC framework, the data share library, the
    system ability manager, core_service, libphonenumber) are parameters.  An
    operation of a control is one uninterrupted step, so the release of the mutex of
    [ControlBase::HandleEcc] while it waits shows only as the wake-ups counted
    above. *)

From stdpp Require Import base tactics option list numbers strings gmap.
From Stdlib Require Import ZArith Lia Ascii String.

#[global] Set Default Goal Selector "!".

Declare Scope cc_scope.
Delimit Scope cc_scope with cc.

(** ** The effect monad

    An operation of a component runs in a local state [S] and in a history of
    everything the program has sent out so far; it returns a value, the new
    state and the effects it sends, in order. *)

Section Monad.
Context {E : Type}.

Definition M (S A : Type) : Type := S → list E → A * S * list E.

Definition run {S A} (m : M S A) (s : S) (h : list E) : A * S * list E := m s h.

Definition mret {S A} (a : A) : M S A := λ s _, (a, s, []).

Definition mthen {S A B} (m : M S A) (f : A → M S B) : M S B :=
  λ s h,
    let '(a, s1, e1) := m s h in
    let '(b, s2, e2) := f a s1 (h ++ e1) in
    (b, s2, e1 ++ e2).

Definition mget {S} : M S S := λ s _, (s, s, []).
Definition mgets {S A} (f : S → A) : M S A := λ s _, (f s, s, []).
Definition mmodify {S} (f : S → S) : M S () := λ s _, ((), f s, []).

(** Send [e]; nothing is read back. *)
Definition emit {S} (e : E) : M S () := λ s _, ((), s, [e]).

(** Read an answer of the environment that depends on the history. *)
Definition query {S A} (q : list E → A) : M S A := λ s h, (q h, s, []).

(** Send [e] and read the answer the environment gives to it. *)
Definition call {S A} (answer : list E → E → A) (e : E) : M S A :=
  λ s h, (answer h e, s, [e]).
End Monad.

Arguments M : clear implicits.

Notation "'let!' x := m 'in' k" := (mthen m (λ x, k))
  (at level 10, x pattern, m at level 200, k at level 200) : cc_scope.
Notation "m ;; k" := (mthen m (λ _, k))
  (at level 100, k at level 200, right associativity) : cc_scope.
Open Scope cc_scope.

(** *** Loops *)

Section Loops.
Context {E S A : Type}.

(** [for (auto &x : l) body(x)] *)
Fixpoint mfor (l : list A) (body : A → M E S ()) : M E S () :=
  match l with
  | [] => mret ()
  | x :: l' => body x ;; mfor l' body
  end.

(** [for (auto &x : l) { ... if (...) return r; }]: the first [Some r] wins. *)
Fixpoint mfor_return {R} (l : list A) (body : A → M E S (option R)) : M E S (option R) :=
  match l with
  | [] => mret None
  | x :: l' =>
      let! r := body x in
      match r with
      | Some _ => mret r
      | None => mfor_return l' body
      end
  end.

(** [for (const auto &x : l) v.push_back(body(x))], the values collected. *)
Fixpoint mcollect {B} (l : list A) (body : A → M E S B) : M E S (list B) :=
  match l with
  | [] => mret []
  | x :: l' =>
      let! b := body x in
      let! bs := mcollect l' body in
      mret (b :: bs)
  end.
End Loops.

(** *** Reasoning about runs *)

Section Wp.
Context {E : Type}.

(** [wp m Q s h]: running [m] from [s] after [h] ends in a value, a state and
    a list of new effects that satisfy [Q]. *)
Definition wp {S A} (m : M E S A) (Q : A → S → list E → Prop)
    (s : S) (h : list E) : Prop :=
  let '(a, s', e) := m s h in Q a s' e.

(** [preserves I m]: every run of [m] keeps [I]. *)
Definition preserves {S A} (I : S → Prop) (m : M E S A) : Prop :=
  ∀ s h, I s → wp m (λ _ s' _, I s') s h.

(** [keeps m]: [m] leaves the state as it is. *)
Definition keeps {S A} (m : M E S A) : Prop :=
  ∀ s h, wp m (λ _ s' _, s' = s) s h.

(** [sends P m]: every effect of [m] satisfies [P]. *)
Definition sends {S A} (P : E → Prop) (m : M E S A) : Prop :=
  ∀ s h, wp m (λ _ _ e, Forall P e) s h.

Lemma wp_ret {S A} (a : A) Q (s : S) h : Q a s [] → wp (mret a) Q s h.
Proof. done. Qed.

Lemma wp_then {S A B} (m : M E S A) (f : A → M E S B) Q s h :
  wp m (λ a s1 e1, wp (f a) (λ b s2 e2, Q b s2 (e1 ++ e2)) s1 (h ++ e1)) s h →
  wp (mthen m f) Q s h.
Proof.
  unfold wp, mthen. destruct (m s h) as [[a s1] e1].
  by destruct (f a s1 (h ++ e1)) as [[b s2] e2].
Qed.

Lemma wp_mono {S A} (m : M E S A) (Q Q' : A → S → list E → Prop) s h :
  wp m Q s h → (∀ a s' e, Q a s' e → Q' a s' e) → wp m Q' s h.
Proof. unfold wp. destruct (m s h) as [[a s'] e]. eauto. Qed.

(** The result of a run. *)
Lemma wp_result {S A} (m : M E S A) (Q : A → S → list E → Prop) s h a s' e : wp m Q s h → m s h = (a, s', e) → Q a s' e.
Proof. unfold wp. intros HQ Hrun. by rewrite Hrun in HQ. Qed.
Lemma wp_and {S A} (m : M E S A) (Q Q' : A → S → list E → Prop) s h :
  wp m Q s h → wp m Q' s h → wp m (λ a s' e, Q a s' e ∧ Q' a s' e) s h.
Proof. unfold wp. by destruct (m s h) as [[a s'] e]. Qed.

Context {S A B : Type}.
Implicit Types (I : S → Prop) (P : E → Prop).

Lemma preserves_ret I (a : A) : preserves I (mret a).
Proof. by intros s h. Qed.
Lemma preserves_then I (m : M E S A) (f : A → M E S B) :
  preserves I m → (∀ a, preserves I (f a)) → preserves I (mthen m f).
Proof.
  intros Hm Hf s h Hs. apply wp_then. eapply wp_mono; [by apply Hm|].
  intros a s' e HI. by apply Hf.
Qed.
Lemma preserves_keeps I (m : M E S A) : keeps m → preserves I m.
Proof. intros Hk s h Hs. eapply wp_mono; [apply Hk|]. by intros ? ? ? ->. Qed.

(** A step that keeps the state and only does [P]s, before anything. *)
Lemma wp_then_quiet P (m : M E S A) (f : A → M E S B) (Q : B → S → list E → Prop) s h :
  keeps m → sends P m →
  (∀ a e, Forall P e → wp (f a) (λ b s' e', Q b s' (e ++ e')) s (h ++ e)) →
  wp (mthen m f) Q s h.
Proof.
  intros Hk Hs Hf. apply wp_then. eapply wp_mono; [apply wp_and; [apply Hk|apply Hs]|].
  intros a s' e [-> He]. by apply Hf.
Qed.

Lemma wp_quiet P (m : M E S A) (Q : A → S → list E → Prop) s h :
  keeps m → sends P m → (∀ a e, Forall P e → Q a s e) → wp m Q s h.
Proof.
  intros Hk Hs HQ. eapply wp_mono; [apply wp_and; [apply Hk|apply Hs]|]. intros a s' e [-> He]. by apply HQ.
Qed.

Lemma keeps_ret (a : A) : keeps (mret a : M E S A).
Proof. by intros s h. Qed.
Lemma keeps_then (m : M E S A) (f : A → M E S B) :
  keeps m → (∀ a, keeps (f a)) → keeps (mthen m f).
Proof.
  intros Hm Hf s h. apply wp_then. eapply wp_mono; [by apply Hm|].
  intros a s' e ->. by apply Hf.
Qed.
Lemma keeps_emit (e : E) : keeps (emit e : M E S ()).
Proof. by intros s h. Qed.
Lemma keeps_query (q : list E → A) : keeps (query q : M E S A).
Proof. by intros s h. Qed.
Lemma keeps_call (an : list E → E → A) e : keeps (call an e : M E S A).
Proof. by intros s h. Qed.
Lemma keeps_get : keeps (mget : M E S S).
Proof. by intros s h. Qed.
Lemma keeps_gets (f : S → A) : keeps (mgets f : M E S A).
Proof. by intros s h. Qed.
Lemma preserves_modify I (f : S → S) :
  (∀ s, I s → I (f s)) → preserves I (mmodify f : M E S ()).
Proof. intros Hf s h Hs. by apply Hf. Qed.

Lemma sends_ret P (a : A) : sends P (mret a : M E S A).
Proof. intros s h. constructor. Qed.
Lemma sends_mono P P' (m : M E S A) : (∀ e, P e → P' e) → sends P m → sends P' m.
Proof.
  intros HP Hm s h. eapply wp_mono; [apply Hm|]. intros a s' e He. eapply Forall_impl; [exact He|exact HP].
Qed.
Lemma sends_then P (m : M E S A) (f : A → M E S B) :
  sends P m → (∀ a, sends P (f a)) → sends P (mthen m f).
Proof.
  intros Hm Hf s h. apply wp_then. eapply wp_mono; [by apply Hm|].
  intros a s' e He. cbn beta in *. eapply wp_mono; [by apply Hf|].
  intros b s2 e2 He2. by apply Forall_app.
Qed.
Lemma sends_emit P (e : E) : P e → sends P (emit e : M E S ()).
Proof. intros HP s h. by constructor. Qed.
Lemma sends_call P (an : list E → E → A) e : P e → sends P (call an e : M E S A).
Proof. intros HP s h. by constructor. Qed.
Lemma sends_query P (q : list E → A) : sends P (query q : M E S A).
Proof. intros s h. constructor. Qed.
Lemma sends_get P : sends P (mget : M E S S).
Proof. intros s h. constructor. Qed.
Lemma sends_gets P (f : S → A) : sends P (mgets f : M E S A).
Proof. intros s h. constructor. Qed.
Lemma sends_modify P (f : S → S) : sends P (mmodify f : M E S ()).
Proof. intros s h. constructor. Qed.
End Wp.

Section WpLoops.
Context {E S A : Type}.
Implicit Types (I : S → Prop) (body : A → M E S ()).

Lemma preserves_mfor I (l : list A) body :
  (∀ x, preserves I (body x)) → preserves I (mfor l body).
Proof.
  intros Hb. induction l as [|x l IH]; simpl; [apply preserves_ret|].
  by apply preserves_then.
Qed.

Lemma preserves_mfor_return I {R} (l : list A) (body : A → M E S (option R)) :
  (∀ x, preserves I (body x)) → preserves I (mfor_return l body).
Proof.
  intros Hb. induction l as [|x l IH]; simpl; [apply preserves_ret|].
  apply preserves_then; [done|]. intros []; [apply preserves_ret|done].
Qed.

Lemma preserves_mcollect I {B} (l : list A) (body : A → M E S B) :
  (∀ x, preserves I (body x)) → preserves I (mcollect l body).
Proof.
  intros Hb. induction l as [|x l IH]; simpl; [apply preserves_ret|].
  apply preserves_then; [done|]. intros b.
  apply preserves_then; [done|]. intros bs. apply preserves_ret.
Qed.

Lemma keeps_mfor (l : list A) body :
  (∀ x, keeps (body x)) → keeps (mfor l body).
Proof.
  intros Hb. induction l as [|x l IH]; simpl; [apply keeps_ret|].
  by apply keeps_then.
Qed.
Lemma keeps_mfor_return {R} (l : list A) (body : A → M E S (option R)) :
  (∀ x, keeps (body x)) → keeps (mfor_return l body).
Proof.
  intros Hb. induction l as [|x l IH]; simpl; [apply keeps_ret|].
  apply keeps_then; [done|]. intros []; [apply keeps_ret|done].
Qed.
End WpLoops.

Section WpCollect.
Context {E S A B : Type}.

(** A collecting loop with an invariant on what was done so far. *)
Lemma wp_mcollect (I : list A → list B → S → list E → Prop) (l : list A)
    (body : A → M E S B) s h :
  I [] [] s [] →
  (∀ done x bs s' e, done ++ [x] `prefix_of` l → I done bs s' e →
     wp (body x) (λ b s'' e', I (done ++ [x]) (bs ++ [b]) s'' (e ++ e')) s' (h ++ e)) →
  wp (mcollect l body) (λ bs s' e, I l bs s' e) s h.
Proof.
  intros H0 Hstep.
  assert (∀ post done bs0 s' e0, done ++ post = l → I done bs0 s' e0 →
    wp (mcollect post body) (λ bs s'' e, I l (bs0 ++ bs) s'' (e0 ++ e)) s' (h ++ e0)) as Hgen.
  { induction post as [|x post IH]; intros done bs0 s' e0 Hl HI; simpl.
    - rewrite app_nil_r in Hl. subst. unfold wp. simpl. by rewrite !app_nil_r.
    - apply wp_then. eapply wp_mono.
      { apply Hstep; [|done]. exists post. by rewrite <-app_assoc. }
      intros b s'' e' HI'. apply wp_then. rewrite <-app_assoc.
      cbn beta in HI'. eapply wp_mono;
        [apply (IH (done ++ [x]) (bs0 ++ [b]) s'' (e0 ++ e')); [by rewrite <-app_assoc|done]|].
      intros bs s3 e3 HI3. unfold wp. simpl. rewrite app_nil_r.
      cbn beta in HI3. by rewrite <-!app_assoc in HI3. }
  specialize (Hgen l [] [] s [] eq_refl H0). rewrite app_nil_r in Hgen. done.
Qed.

Lemma sends_mcollect P (l : list A) (body : A → M E S B) :
  (∀ x, sends P (body x)) → sends P (mcollect l body).
Proof.
  intros Hb. induction l as [|x l IH]; simpl; [apply sends_ret|].
  apply sends_then; [done|]. intros b. apply sends_then; [done|]. intros bs. apply sends_ret.
Qed.
Lemma sends_mfor P (l : list A) (body : A → M E S ()) :
  (∀ x, sends P (body x)) → sends P (mfor l body).
Proof.
  intros Hb. induction l as [|x l IH]; simpl; [apply sends_ret|]. by apply sends_then.
Qed.
Lemma sends_mfor_return {R} P (l : list A) (body : A → M E S (option R)) :
  (∀ x, sends P (body x)) → sends P (mfor_return l body).
Proof.
  intros Hb. induction l as [|x l IH]; simpl; [apply sends_ret|].
  apply sends_then; [done|]. intros []; [apply sends_ret|done].
Qed.
End WpCollect.

(** ** Automation

    [cc] holds the preservation lemmas of the monad; the component files add
    the preservation lemmas of their operations. *)

Create HintDb cc discriminated.
Create Rewrite HintDb cc_base.
#[export] Hint Resolve preserves_ret keeps_ret keeps_emit keeps_query keeps_call
  keeps_get keeps_gets sends_ret sends_query sends_get sends_gets sends_modify : cc.

(** Operation combinators of the components add their step here. *)
Ltac mstep_hook := fail.
Ltac mstep_actions := fail.

(** Split the binds and the case analyses of a [preserves], [keeps] or [sends]
    goal; leaves the goals [auto with cc] does not close. *)
Ltac mstep :=
  match goal with
  | |- preserves _ (mthen _ _) => apply preserves_then; [|intros ?]
  | |- keeps (mthen _ _) => apply keeps_then; [|intros ?]
  | |- sends _ (mthen _ _) => apply sends_then; [|intros ?]
  | |- sends _ (emit _) => apply sends_emit
  | |- sends _ (call _ _) => apply sends_call
  | |- preserves _ (mmodify _) => apply preserves_modify
  | |- preserves _ (mfor _ _) => apply preserves_mfor; intros ?
  | |- preserves _ (mfor_return _ _) => apply preserves_mfor_return; intros ?
  | |- preserves _ (mcollect _ _) => apply preserves_mcollect; intros ?
  | |- sends _ (mcollect _ _) => apply sends_mcollect; intros ?
  | |- sends _ (mfor _ _) => apply sends_mfor; intros ?
  | |- sends _ (mfor_return _ _) => apply sends_mfor_return; intros ?
  | |- keeps (mfor _ _) => apply keeps_mfor; intros ?
  | |- keeps (mfor_return _ _) => apply keeps_mfor_return; intros ?
  | |- preserves _ (if ?b then _ else _) => destruct b eqn:?
  | |- keeps (if ?b then _ else _) => destruct b eqn:?
  | |- sends _ (if ?b then _ else _) => destruct b eqn:?
  | |- preserves _ (match ?x with _ => _ end) => destruct x eqn:?
  | |- keeps (match ?x with _ => _ end) => destruct x eqn:?
  | |- sends _ (match ?x with _ => _ end) => destruct x eqn:?
  | |- preserves _ (let '_ := ?x in _) => destruct x eqn:?
  end.

Ltac mauto :=
  repeat first
    [ progress (intros; cbn beta iota)
    | solve [auto with cc]
    | solve [apply preserves_keeps; auto with cc]
    | mstep_hook
    | mstep_actions
    | mstep ].

(** Run a concrete or partly concrete operation. *)
Ltac mrun := unfold run, mthen, mret, mget, mgets, mmodify, emit, query, call; cbn.
