(* ===== verification/SsTypes.v ===== *)
(** * SsTypes: the data of the supplementary services

    The structs a supplementary service request carries to the modem or to the
    IMS service, the results that come back, and what is reported of them to
    call_manager (tel_ril_call_parcel.h, ims_call_types.h, call_manager's
    [MmiCodeInfo] and responses; [PinPukResponse] of
    services/common/include/cellular_call_data_struct.h).  A field the code
    neither reads nor writes is left out. *)

From stdpp Require Import base strings.
From Stdlib Require Import ZArith String.

Open Scope Z_scope.

(** ** Requests *)

Record CallTransferInfo := {
  ct_transferNum : string;
  ct_settingType : Z;
  ct_type : Z;
  ct_startHour : Z;
  ct_startMinute : Z;
  ct_endHour : Z;
  ct_endMinute : Z
}.
Record CallTransferParam := {
  tp_mode : Z;
  tp_reason : Z;
  tp_number : string;
  tp_classx : Z
}.
Record CallRestrictionInfo := {
  cri_password : string;
  cri_fac : Z;
  cri_mode : Z
}.
Record CallRestrictionParam := {
  rp_mode : Z;
  rp_fac : string;
  rp_password : string
}.

(** Event ids of radio_event.h the answers arrive under. *)
Inductive SsEvent :=
  | RADIO_GET_CALL_CLIP | RADIO_SET_CALL_CLIP | RADIO_GET_CALL_CLIR | RADIO_SET_CALL_CLIR
  | RADIO_GET_CALL_FORWARD | RADIO_SET_CALL_FORWARD
  | RADIO_GET_CALL_RESTRICTION | RADIO_SET_CALL_RESTRICTION | RADIO_SET_CALL_RESTRICTION_PWD
  | RADIO_GET_CALL_WAIT | RADIO_SET_CALL_WAIT
  | RADIO_IMS_GET_COLR | RADIO_IMS_SET_COLR | RADIO_IMS_GET_COLP | RADIO_IMS_SET_COLP.
#[export] Instance SsEvent_eq_dec : EqDecision SsEvent.
Proof. solve_decision. Defined.

(** Requests to [CoreManagerInner]. *)
Inductive CsSsRequest :=
  | CsGetClip
  | CsSetClir (action : Z)
  | CsGetClir
  | CsGetCallTransferInfo (reason : Z)
  | CsSetCallTransferInfo (callTransferParam : CallTransferParam)
  | CsGetCallRestriction (fac : string)
  | CsSetCallRestriction (callRestrictionParam : CallRestrictionParam)
  | CsSetBarringPassword (oldPassword newPassword restrictionType : string)
  | CsSetCallWaiting (activate : bool)
  | CsGetCallWaiting.

(** Requests to [ImsCallClient]. *)
Inductive ImsSsRequest :=
  | ImsSetClip (action : Z)
  | ImsGetClip
  | ImsSetClir (action : Z)
  | ImsGetClir
  | ImsSetColr (presentation : Z)
  | ImsGetColr
  | ImsSetColp (action : Z)
  | ImsGetColp
  | ImsGetCallTransfer (reason : Z)
  | ImsSetCallTransfer (cfInfo : CallTransferInfo) (classType : Z)
  | ImsGetCallRestriction (fac : string)
  | ImsSetCallRestriction (fac : string) (mode : Z) (pw : string)
  | ImsSetCallWaiting (activate : bool) (classType : Z)
  | ImsGetCallWaiting.

(** The PIN and PUK calls of [CoreManagerInner]. *)
Inductive PinOperation := AlterPin | UnlockPuk_ | AlterPin2 | UnlockPuk2_.

Record PinPukResponse := { pp_result : Z; pp_remain : Z }.

(** ** Results *)

Record SsBaseResult := {
  sb_index : Z;
  sb_result : Z;
  sb_reason : Z;
  sb_message : string
}.
Record CallWaitResult := { cw_result : SsBaseResult; cw_status : Z; cw_classCw : Z }.
Record CallRestrictionResult := { rs_result : SsBaseResult; rs_status : Z; rs_classCw : Z }.
(** [GetClipResult], [GetClirResult], [GetColrResult] and [GetColpResult],
    which have the same fields. *)
Record IdentityResult := { id_result : SsBaseResult; id_action : Z; id_stat : Z }.
Record CallForwardQueryResult := {
  cq_serial : Z;
  cq_result : Z;
  cq_status : Z;
  cq_classx : Z;
  cq_number : string;
  cq_type : Z;
  cq_reason : Z;
  cq_time : Z;
  cq_startHour : Z;
  cq_startMinute : Z;
  cq_endHour : Z;
  cq_endMinute : Z
}.
Record CallForwardQueryInfoList := {
  cfl_result : SsBaseResult;
  cfl_callSize : Z;
  cfl_flag : Z;
  cfl_calls : list CallForwardQueryResult
}.
Record SsNoticeInfo := { sn_serviceType : Z; sn_requestType : Z; sn_result : Z }.
Record UssdNoticeInfo := { un_m : Z; un_str : string }.

(** ** Reports *)

Record MmiCodeInfo := {
  mi_result : Z;
  mi_message : string;
  mi_mmiCodeType : Z;
  mi_action : Z;
  mi_status : Z;
  mi_classCw : Z;
  mi_reason : Z;
  mi_number : string;
  mi_time : Z
}.
(** [CallWaitResponse] and [CallRestrictionResponse]. *)
Record StatusResponse := { sr_result : Z; sr_status : Z; sr_classCw : Z }.
(** [ClipResponse], [ClirResponse], [ColrResponse] and [ColpResponse]. *)
Record IdentityResponse := { ip_result : Z; ip_action : Z; ip_stat : Z }.
Record CallTransferResponse := {
  tr_result : Z;
  tr_status : Z;
  tr_classx : Z;
  tr_number : string;
  tr_type : Z;
  tr_reason : Z;
  tr_time : Z;
  tr_startHour : Z;
  tr_startMinute : Z;
  tr_endHour : Z;
  tr_endMinute : Z
}.

(** Calls of [CellularCallRegister] about the supplementary services. *)
Inductive SsReport :=
  | ReportMmiCodeResult (info : MmiCodeInfo)
  | ReportGetWaitingResult (response : StatusResponse)
  | ReportSetWaitingResult (result : Z)
  | ReportGetTransferResult (response : CallTransferResponse)
  | ReportSetTransferResult (result : Z)
  | ReportGetRestrictionResult (response : StatusResponse)
  | ReportSetRestrictionResult (result : Z)
  | ReportSetBarringPasswordResult (result : Z)
  | ReportGetClipResult (response : IdentityResponse)
  | ReportGetClirResult (response : IdentityResponse)
  | ReportSetClirResult (result : Z)
  | ReportSendUssdResult (result : Z)
  | ReportCloseUnFinishedUssdResult (result : Z).
