(* ===== verification/ConfigTypes.v ===== *)
(** * ConfigTypes: the data of the configuration

    The structs that [CellularCallConfig] and [ConfigRequest] keep, read or
    send: the emergency numbers (core_service's [EmergencyCall] and
    [EmergencyInfo], the [EccNum] rows of the global parameters database), the
    network state, the operator configuration, the IMS capabilities
    (interfaces/innerkits/ims_common/ims_feature.h), and the requests the two
    classes send.  A field the code neither reads nor writes is left out. *)

From stdpp Require Import base strings gmap.
From Stdlib Require Import ZArith String.

Open Scope Z_scope.

(** The static mutexes of [CellularCallConfig]. *)
Inductive Mutex := mutex_ | operatorMutex_ | simStateLock_ | plmnMutex_ | modeMutex_.
#[export] Instance Mutex_eq_dec : EqDecision Mutex.
Proof. solve_decision. Defined.

(** ** Emergency numbers *)

Record EmergencyCall := {
  eccNum : string;
  ecc_mcc : string;
  ecc_eccType : Z;
  ecc_simpresent : Z;
  ecc_abnormalService : Z
}.

(** What the modem reports. *)
Record EmergencyInfo := {
  ei_eccNum : string;
  ei_category : Z;
  ei_simpresent : Z;
  ei_mcc : string;
  ei_abnormalService : Z;
  ei_index : Z;
  ei_total : Z
}.

(** A row of the emergency number table. *)
Record EccNum := {
  bean_id : Z;
  bean_name : string;
  bean_mcc : string;
  bean_mnc : string;
  bean_numeric : string;
  ecc_withcard : string;
  ecc_nocard : string;
  ecc_fake : string
}.

(** ** Network and operator *)

Record NetworkState := {
  ns_regStatus : Z;
  ns_roaming : bool
}.

Record OperatorConfig := {
  boolValue : gmap string bool;
  intValue : gmap string Z;
  intArrayValue : gmap string (list Z);
  stringArrayValue : gmap string (list string)
}.

(** ** IMS capabilities *)

Inductive ImsCapabilityType := CAPABILITY_TYPE_VOICE | CAPABILITY_TYPE_VIDEO | CAPABILITY_TYPE_UT.
#[export] Instance ImsCapabilityType_eq_dec : EqDecision ImsCapabilityType.
Proof. solve_decision. Defined.
(** [ImsRegTech], the enumerators used. *)
Inductive ImsRegTech := IMS_REG_TECH_LTE | IMS_REG_TECH_NR.
#[export] Instance ImsRegTech_eq_dec : EqDecision ImsRegTech.
Proof. solve_decision. Defined.

Record ImsCapability := {
  imsCapabilityType : ImsCapabilityType;
  imsRadioTech : ImsRegTech;
  enable : bool
}.

(** ** Requests *)

Inductive ConfigEffect :=
  (* std::lock_guard, std::unique_lock (exclusive) and std::shared_lock *)
  | Lock (m : Mutex) (shared : bool)
  | Unlock (m : Mutex)
  (* v\[i\] past the end of a vector: undefined behaviour *)
  | OutOfRange (i : Z)
  (* ImsCallClient *)
  | ImsSetDomainPreferenceMode (slotId mode : Z)
  | ImsGetDomainPreferenceMode (slotId : Z)
  | ImsSetImsSwitchStatus (slotId : Z) (active : bool)
  | ImsSetCarrierVtConfig (slotId : Z) (active : bool)
  | ImsGetImsSwitchStatus (slotId : Z)
  | ImsSetImsConfigString (item : Z) (value : string)
  | ImsSetImsConfigInt (item value : Z)
  | ImsGetImsConfig (item : Z)
  | ImsSetImsFeatureValue (type value : Z)
  | ImsGetImsFeatureValue (type : Z)
  | ImsSetMute (slotId mute : Z)
  | ImsGetMute (slotId : Z)
  | ImsUpdateImsCapabilities (slotId : Z) (imsCapabilities : list ImsCapability)
  | ImsNotifyOperatorConfigChanged (slotId state : Z)
  | ImsSetVideoCallWaiting (slotId : Z) (activate : bool)
  | ImsGetImsCapabilities (slotId : Z)
  (* CoreManagerInner, with the handler of the slot to answer *)
  | RilSetCallPreferenceMode (slotId mode : Z)
  | RilGetCallPreferenceMode (slotId : Z)
  | RilSetVoNRSwitch (slotId state : Z)
  | RilSetMuteMode (slotId mute : Z)
  | RilGetMuteMode (slotId : Z)
  | RilGetEmergencyCallList (slotId : Z)
  | RilSetEmergencyCallList (slotId : Z) (eccVec : list EmergencyCall)
  | CoreSaveImsSwitch (slotId imsSwitchValue : Z)
  | CoreSetMatchSimStateTracker (slotId : Z)
  | CoreUpdateImsCapFromChip (slotId volteCap : Z)
  (* system parameters *)
  | SetParameter (key value : string)
  (* CellularCallHiSysEvent *)
  | WriteVoNRSwitchChangeEvent (state : Z)
  (* TELEPHONY_EXT_WRAPPER *)
  | HandleRedcapFactoryReset (slotId : Z)
  | ExtSetPreferredNetworkByConfig (slotId : Z)
  (* CellularCallRegister *)
  | ReportGetImsFeatureResult (result value : Z)
  | ReportSetMuteResult (result : Z)
  | ReportGetMuteResult (result value : Z)
  | ReportSetEmergencyCallListResponse (result : Z)
  | ReportPreferenceModeResult (success : bool).
