(* ===== verification/Platform.v ===== *)
(** * Platform: the data the components exchange and the world outside

    - the structs and enums of this repository that cross component borders
      (dial requests, MMI data, post-dial data, IMS and satellite call info);
    - the structs of call_manager and core_service the code fills or reads;
    - [CallConsts]: the named constants and the default-initialised structs of
      the headers that are not part of this repository (call_manager_errors.h,
      call_manager_inner_type.h, tel_ril_call_parcel.h, ...).  They are
      parameters; [CallConstsOk] states what is documented of them;
    - [Effect]: everything the modelled code sends to other parties;
    - [Env]: the answers of those parties.  An answer is a function of the
      whole history of effects, so no answer is assumed to stay the same
      between two questions. *)

From stdpp Require Import base tactics option list numbers strings.
From Stdlib Require Import ZArith Lia Ascii String.
From S2P Require Import Prelude SsTypes ConfigTypes.

Open Scope Z_scope.

(** ** Structs and enums of this repository *)

Inductive CLIRMode := DEFAULT | TRANSFER | INHIBITION.

Record DialRequestStruct := {
  dr_phoneNum : string;
  dr_clirMode : CLIRMode
}.

(** [ImsDialInfoStruct] extends [DialRequestStruct]. *)
Record ImsDialInfoStruct := {
  di_phoneNum : string;
  di_clirMode : CLIRMode;
  di_videoState : Z;
  di_bEmergencyCall : bool;
  di_bImsCallFirst : bool;
  di_bRoaming : bool;
  di_isRTT : bool
}.
Definition ImsDialInfoStruct_init : ImsDialInfoStruct :=
  {| di_phoneNum := ""; di_clirMode := DEFAULT; di_videoState := 0;
     di_bEmergencyCall := false; di_bImsCallFirst := false;
     di_bRoaming := false; di_isRTT := false |}.

Record MMIData := {
  fullString : string;
  actionString : string;
  serviceCode : string;
  serviceInfoA : string;
  serviceInfoB : string;
  serviceInfoC : string;
  pwdString : string;
  dialString : string
}.
Definition MMIData_init : MMIData :=
  {| fullString := ""; actionString := ""; serviceCode := ""; serviceInfoA := "";
     serviceInfoB := ""; serviceInfoC := ""; pwdString := ""; dialString := "" |}.

Inductive PostDialCallState :=
  | POST_DIAL_CALL_NOT_STARTED
  | POST_DIAL_CALL_STARTED
  | POST_DIAL_CALL_DELAY
  | POST_DIAL_CALL_WILD
  | POST_DIAL_CALL_COMPLETE
  | POST_DIAL_CALL_CANCELED
  | POST_DIAL_CALL_PAUSE.
#[export] Instance PostDialCallState_eq_dec : EqDecision PostDialCallState.
Proof. solve_decision. Defined.

Record PostDialData := { pd_callId : Z; pd_isIms : bool }.

Definition kMaxNumberLength : Z := 255.
Definition SLOT_0 : Z := 0.
Definition SLOT_1 : Z := 1.

(** [enum ImsCallType]: an [int] that a parcel or a cast may set to any value. *)
Definition TEL_IMS_CALL_TYPE_VOICE : Z := 0.
Definition TEL_IMS_CALL_TYPE_VT_TX : Z := 1.
Definition TEL_IMS_CALL_TYPE_VT_RX : Z := 2.
Definition TEL_IMS_CALL_TYPE_VT : Z := 3.
Definition TEL_IMS_CALL_TYPE_PAUSE : Z := 4.

Record ImsCallInfo := {
  ic_phoneNum : string;
  ic_slotId : Z;
  ic_videoState : Z;
  ic_index : Z;
  ic_isRTT : bool
}.
Definition ImsCallInfo_zero : ImsCallInfo :=
  {| ic_phoneNum := ""; ic_slotId := 0; ic_videoState := 0; ic_index := 0;
     ic_isRTT := false |}.

Record ImsCurrentCall := {
  im_index : Z;
  im_dir : Z;
  im_state : Z;
  im_mode : Z;
  im_mpty : Z;
  im_voiceDomain : Z;
  im_callType : Z;
  im_number : string;
  im_name : string;
  im_type : Z;
  im_alpha : string;
  im_toa : Z;
  im_toneType : Z;
  im_callInitialType : Z;
  im_namePresentation : Z;
  im_newCallUseBox : Z;
  im_rttState : Z;
  im_rttChannelId : Z;
  im_imsDomain : Z
}.
Record ImsCurrentCallList := {
  iml_callSize : Z;
  iml_flag : Z;
  iml_calls : list ImsCurrentCall
}.

(** [RadioResponseInfo] (tel_ril_base_parcel.h), with the fields used. *)
Record RadioResponseInfo := { rr_flag : Z; rr_error : Z }.
(** [RingbackVoice] (tel_ril_call_parcel.h), [MuteControlResponse] and
    [ImsCapFromChip], with the fields used. *)
Record RingbackVoice := { rb_status : Z }.
Record MuteControlResponse := { mc_result : Z; mc_value : Z }.
Record ImsCapFromChip := { volteCap : Z; vowifiCap : Z; vonrCap : Z; vtCap : Z }.
(** [DisconnectedDetails]: the reason is a [DisconnectedReason]. *)
Record DisconnectedDetails := { dd_reason : Z; dd_message : string }.

(** Enumerations as [int32_t]. *)
Record ImsCallModeReceiveInfo := { mr_callIndex : Z; mr_result : Z; mr_callType : Z }.
Record ImsCallSessionEventInfo := { se_callIndex : Z; se_eventType : Z }.
Record ImsCallPeerDimensionsInfo := { pd_callIndex : Z; pd_width : Z; pd_height : Z }.
Record ImsCallDataUsageInfo := { du_callIndex : Z; du_dataUsage : Z }.
Record CameraCapabilitiesInfo := { cc_callIndex : Z; cc_width : Z; cc_height : Z }.
Record ImsSuppExtInfo := { sx_slotId : Z; sx_code : Z; sx_callId : Z }.
Record ImsCallRttEventInfo := { re_callId : Z; re_eventType : Z; re_reason : Z }.
Record ImsCallRttErrorInfo := {
  rx_callId : Z; rx_operationType : Z; rx_causeCode : Z; rx_reasonText : string
}.

Record SatelliteCallInfo := {
  sc_phoneNum : string;
  sc_slotId : Z;
  sc_index : Z
}.
Definition SatelliteCallInfo_zero : SatelliteCallInfo :=
  {| sc_phoneNum := ""; sc_slotId := 0; sc_index := 0 |}.

Record SatelliteCurrentCall := {
  sa_index : Z;
  sa_dir : Z;
  sa_state : Z;
  sa_mode : Z;
  sa_mpty : Z;
  sa_voiceDomain : Z;
  sa_callType : Z;
  sa_number : string;
  sa_type : Z;
  sa_alpha : string;
  sa_toa : Z
}.
Record SatelliteCurrentCallList := {
  sal_callSize : Z;
  sal_flag : Z;
  sal_calls : list SatelliteCurrentCall
}.

(** ** Structs of call_manager and core_service, with the fields used here *)

(** A [char\[\]] field is the string up to its terminating NUL. *)
Record CellularCallInfo := {
  ci_callId : Z;
  ci_phoneNum : string;
  ci_slotId : Z;
  ci_accountId : Z;
  ci_callType : Z;
  ci_videoState : Z;
  ci_index : Z;
  ci_isRTT : bool
}.

Record CallInfo := {
  ca_index : Z;
  ca_dir : Z;
  ca_state : Z;
  ca_mpty : Z;
  ca_voiceDomain : Z;
  ca_number : string;
  ca_type : Z;
  ca_name : string;
  ca_namePresentation : Z
}.
Record CallInfoList := {
  cal_callSize : Z;
  cal_calls : list CallInfo
}.

Record CallReportInfo := {
  cr_accountNum : string;
  cr_index : Z;
  cr_accountId : Z;
  cr_voiceDomain : Z;
  cr_state : Z;
  cr_callType : Z;
  cr_callMode : Z;
  cr_mpty : Z;
  cr_name : string;
  cr_namePresentation : Z;
  cr_reason : Z;
  cr_message : string;
  cr_crsType : Z;
  cr_originalCallType : Z;
  cr_newCallUseBox : Z;
  cr_rttState : Z;
  cr_rttChannelId : Z;
  cr_imsDomain : Z;
  cr_isPendingHold : bool
}.
(** The struct after [memset_s(&info, sizeof(info), 0, sizeof(info))]. *)
Definition CallReportInfo_zero : CallReportInfo :=
  {| cr_accountNum := ""; cr_index := 0; cr_accountId := 0; cr_voiceDomain := 0;
     cr_state := 0; cr_callType := 0; cr_callMode := 0; cr_mpty := 0; cr_name := "";
     cr_namePresentation := 0; cr_reason := 0; cr_message := ""; cr_crsType := 0;
     cr_originalCallType := 0; cr_newCallUseBox := 0; cr_rttState := 0;
     cr_rttChannelId := 0; cr_imsDomain := 0; cr_isPendingHold := false |}.

Record CallsReportInfo := {
  crs_callVec : list CallReportInfo;
  crs_slotId : Z
}.

(** Assignments to the fields of a [CallReportInfo] (all others kept). *)
Definition cr_set_state (v : Z) (r : CallReportInfo) : CallReportInfo :=
  {| cr_accountNum := cr_accountNum r; cr_index := cr_index r;
     cr_accountId := cr_accountId r; cr_voiceDomain := cr_voiceDomain r;
     cr_state := v; cr_callType := cr_callType r; cr_callMode := cr_callMode r;
     cr_mpty := cr_mpty r; cr_name := cr_name r;
     cr_namePresentation := cr_namePresentation r; cr_reason := cr_reason r;
     cr_message := cr_message r; cr_crsType := cr_crsType r;
     cr_originalCallType := cr_originalCallType r;
     cr_newCallUseBox := cr_newCallUseBox r; cr_rttState := cr_rttState r;
     cr_rttChannelId := cr_rttChannelId r; cr_imsDomain := cr_imsDomain r;
     cr_isPendingHold := cr_isPendingHold r |}.
Definition cr_set_accountId (v : Z) (r : CallReportInfo) : CallReportInfo :=
  {| cr_accountNum := cr_accountNum r; cr_index := cr_index r;
     cr_accountId := v; cr_voiceDomain := cr_voiceDomain r;
     cr_state := cr_state r; cr_callType := cr_callType r; cr_callMode := cr_callMode r;
     cr_mpty := cr_mpty r; cr_name := cr_name r;
     cr_namePresentation := cr_namePresentation r; cr_reason := cr_reason r;
     cr_message := cr_message r; cr_crsType := cr_crsType r;
     cr_originalCallType := cr_originalCallType r;
     cr_newCallUseBox := cr_newCallUseBox r; cr_rttState := cr_rttState r;
     cr_rttChannelId := cr_rttChannelId r; cr_imsDomain := cr_imsDomain r;
     cr_isPendingHold := cr_isPendingHold r |}.
Definition cr_set_reason (v : Z) (r : CallReportInfo) : CallReportInfo :=
  {| cr_accountNum := cr_accountNum r; cr_index := cr_index r;
     cr_accountId := cr_accountId r; cr_voiceDomain := cr_voiceDomain r;
     cr_state := cr_state r; cr_callType := cr_callType r; cr_callMode := cr_callMode r;
     cr_mpty := cr_mpty r; cr_name := cr_name r;
     cr_namePresentation := cr_namePresentation r; cr_reason := v;
     cr_message := cr_message r; cr_crsType := cr_crsType r;
     cr_originalCallType := cr_originalCallType r;
     cr_newCallUseBox := cr_newCallUseBox r; cr_rttState := cr_rttState r;
     cr_rttChannelId := cr_rttChannelId r; cr_imsDomain := cr_imsDomain r;
     cr_isPendingHold := cr_isPendingHold r |}.
Definition cr_set_message (v : string) (r : CallReportInfo) : CallReportInfo :=
  {| cr_accountNum := cr_accountNum r; cr_index := cr_index r;
     cr_accountId := cr_accountId r; cr_voiceDomain := cr_voiceDomain r;
     cr_state := cr_state r; cr_callType := cr_callType r; cr_callMode := cr_callMode r;
     cr_mpty := cr_mpty r; cr_name := cr_name r;
     cr_namePresentation := cr_namePresentation r; cr_reason := cr_reason r;
     cr_message := v; cr_crsType := cr_crsType r;
     cr_originalCallType := cr_originalCallType r;
     cr_newCallUseBox := cr_newCallUseBox r; cr_rttState := cr_rttState r;
     cr_rttChannelId := cr_rttChannelId r; cr_imsDomain := cr_imsDomain r;
     cr_isPendingHold := cr_isPendingHold r |}.
Definition cr_set_isPendingHold (v : bool) (r : CallReportInfo) : CallReportInfo :=
  {| cr_accountNum := cr_accountNum r; cr_index := cr_index r;
     cr_accountId := cr_accountId r; cr_voiceDomain := cr_voiceDomain r;
     cr_state := cr_state r; cr_callType := cr_callType r; cr_callMode := cr_callMode r;
     cr_mpty := cr_mpty r; cr_name := cr_name r;
     cr_namePresentation := cr_namePresentation r; cr_reason := cr_reason r;
     cr_message := cr_message r; cr_crsType := cr_crsType r;
     cr_originalCallType := cr_originalCallType r;
     cr_newCallUseBox := cr_newCallUseBox r; cr_rttState := cr_rttState r;
     cr_rttChannelId := cr_rttChannelId r; cr_imsDomain := cr_imsDomain r;
     cr_isPendingHold := v |}.
Definition cr_set_name (v : string) (r : CallReportInfo) : CallReportInfo :=
  {| cr_accountNum := cr_accountNum r; cr_index := cr_index r;
     cr_accountId := cr_accountId r; cr_voiceDomain := cr_voiceDomain r;
     cr_state := cr_state r; cr_callType := cr_callType r; cr_callMode := cr_callMode r;
     cr_mpty := cr_mpty r; cr_name := v;
     cr_namePresentation := cr_namePresentation r; cr_reason := cr_reason r;
     cr_message := cr_message r; cr_crsType := cr_crsType r;
     cr_originalCallType := cr_originalCallType r;
     cr_newCallUseBox := cr_newCallUseBox r; cr_rttState := cr_rttState r;
     cr_rttChannelId := cr_rttChannelId r; cr_imsDomain := cr_imsDomain r;
     cr_isPendingHold := cr_isPendingHold r |}.

(** ** Constants of the headers outside this repository *)

Class CallConsts := {
  (* telephony_errors.h, call_manager_errors.h: [int32_t] codes *)
  TELEPHONY_SUCCESS : Z;
  TELEPHONY_ERR_SUCCESS : Z;
  TELEPHONY_ERROR : Z;
  TELEPHONY_ERR_FAIL : Z;
  TELEPHONY_ERR_LOCAL_PTR_NULL : Z;
  TELEPHONY_ERR_ARGUMENT_INVALID : Z;
  TELEPHONY_ERR_ARGUMENT_MISMATCH : Z;
  TELEPHONY_ERR_MEMSET_FAIL : Z;
  TELEPHONY_ERR_MEMCPY_FAIL : Z;
  TELEPHONY_ERR_STRCPY_FAIL : Z;
  TELEPHONY_ERR_AIRPLANE_MODE_ON : Z;
  TELEPHONY_ERR_NETWORK_NOT_IN_SERVICE : Z;
  CALL_ERR_RESOURCE_UNAVAILABLE : Z;
  CALL_ERR_CALL_CONNECTION_NOT_EXIST : Z;
  CALL_ERR_CALL_STATE : Z;
  CALL_ERR_CALL_COUNTS_EXCEED_LIMIT : Z;
  CALL_ERR_GET_RADIO_STATE_FAILED : Z;
  CALL_ERR_UNSUPPORTED_NETWORK_TYPE : Z;
  CALL_ERR_PHONE_NUMBER_EMPTY : Z;
  CALL_ERR_PARAMETER_OUT_OF_RANGE : Z;
  CALL_ERR_DIAL_FAILED : Z;
  CALL_ERR_INVALID_SLOT_ID : Z;
  CALL_ERROR_IMS_SERVICE_NOT_EXIST : Z;
  CALL_ERROR_UNEXPECTED_SRVCC_STATE : Z;
  RETURN_TYPE_MMI : Z;
  INVALID_PARAMETER : Z;
  (* call_manager_inner_type.h: enumerators, by value *)
  CALL_STATUS_ACTIVE : Z;
  CALL_STATUS_HOLDING : Z;
  CALL_STATUS_DIALING : Z;
  CALL_STATUS_ALERTING : Z;
  CALL_STATUS_INCOMING : Z;
  CALL_STATUS_WAITING : Z;
  CALL_STATUS_DISCONNECTED : Z;
  CALL_STATUS_DISCONNECTING : Z;
  TYPE_CS : Z;
  TYPE_IMS : Z;
  TYPE_SATELLITE : Z;
  TYPE_VOICE : Z;
  TYPE_SEND_ONLY : Z;
  TYPE_RECEIVE_ONLY : Z;
  TYPE_VIDEO : Z;
  CALL_MODE_AUDIO_ONLY : Z;
  CALL_MODE_SEND_ONLY : Z;
  CALL_MODE_RECEIVE_ONLY : Z;
  CALL_MODE_SEND_RECEIVE : Z;
  CALL_MODE_VIDEO_PAUSED : Z;
  TYPE_DEFAULT : Z;
  TYPE_HANG_UP_HOLD_WAIT : Z;
  TYPE_HANG_UP_ACTIVE : Z;
  TYPE_HANG_UP_ALL : Z;
  kMaxNumberLen : Z;
  CallReportInfo_init : CallReportInfo;
  CellularCallInfo_init : CellularCallInfo;
  (* the RIL and core_service headers *)
  DISCONNECTED_REASON_INVALID : Z;
  DISCONNECTED_REASON_USER_TERMINATED : Z;
  DISCONNECTED_REASON_USER_DECLINE : Z;
  CORE_SERVICE_POWER_ON : Z;
  REG_STATE_IN_SERVICE : Z;
  PHONE_TYPE_IS_GSM : Z;
  PHONE_TYPE_IS_CDMA : Z
}.

(** What those headers document and the code relies on: enumerators of one
    enum differ, the error codes returned by this code are not the success
    code, and the number buffers have room for a number. *)
Class CallConstsOk `{CallConsts} : Prop := {
  call_status_nodup :
    NoDup [CALL_STATUS_ACTIVE; CALL_STATUS_HOLDING; CALL_STATUS_DIALING;
           CALL_STATUS_ALERTING; CALL_STATUS_INCOMING; CALL_STATUS_WAITING;
           CALL_STATUS_DISCONNECTED; CALL_STATUS_DISCONNECTING];
  call_type_nodup : NoDup [TYPE_CS; TYPE_IMS; TYPE_SATELLITE];
  supplement_type_nodup :
    NoDup [TYPE_DEFAULT; TYPE_HANG_UP_HOLD_WAIT; TYPE_HANG_UP_ACTIVE; TYPE_HANG_UP_ALL];
  call_mode_nodup :
    NoDup [CALL_MODE_AUDIO_ONLY; CALL_MODE_SEND_ONLY; CALL_MODE_RECEIVE_ONLY;
           CALL_MODE_SEND_RECEIVE; CALL_MODE_VIDEO_PAUSED];
  reason_nodup :
    NoDup [DISCONNECTED_REASON_INVALID; DISCONNECTED_REASON_USER_TERMINATED;
           DISCONNECTED_REASON_USER_DECLINE];
  errors_not_success :
    TELEPHONY_SUCCESS ∉ [TELEPHONY_ERROR; TELEPHONY_ERR_FAIL;
      TELEPHONY_ERR_LOCAL_PTR_NULL; TELEPHONY_ERR_ARGUMENT_INVALID;
      TELEPHONY_ERR_STRCPY_FAIL; TELEPHONY_ERR_AIRPLANE_MODE_ON;
      TELEPHONY_ERR_NETWORK_NOT_IN_SERVICE;
      CALL_ERR_RESOURCE_UNAVAILABLE; CALL_ERR_CALL_CONNECTION_NOT_EXIST;
      CALL_ERR_CALL_STATE; CALL_ERR_CALL_COUNTS_EXCEED_LIMIT;
      CALL_ERR_GET_RADIO_STATE_FAILED; CALL_ERR_UNSUPPORTED_NETWORK_TYPE;
      CALL_ERR_PHONE_NUMBER_EMPTY; CALL_ERR_PARAMETER_OUT_OF_RANGE;
      CALL_ERR_DIAL_FAILED; CALL_ERR_INVALID_SLOT_ID; RETURN_TYPE_MMI];
  kMaxNumberLen_pos : 0 < kMaxNumberLen < 2 ^ 15
}.

(** ** Effects *)

(** Event ids the RIL answers under (radio_event.h). *)
Inductive RadioEvent :=
  | RADIO_DIAL | RADIO_HANGUP_CONNECT | RADIO_SET_CMUT | RADIO_ACCEPT_CALL
  | RADIO_REJECT_CALL | RADIO_HOLD_CALL | RADIO_ACTIVE_CALL | RADIO_SWAP_CALL
  | RADIO_JOIN_CALL | RADIO_SPLIT_CALL | RADIO_CALL_SUPPLEMENT | RADIO_SEND_DTMF
  | RADIO_COMBINE_CALL | RADIO_START_DTMF | RADIO_STOP_DTMF | RADIO_CURRENT_CALLS
  | RADIO_GET_CALL_FAIL_REASON
  (* satellite_radio_event.h *)
  | SATELLITE_RADIO_DIAL | SATELLITE_RADIO_HANGUP | SATELLITE_RADIO_ANSWER
  | SATELLITE_RADIO_REJECT | SATELLITE_RADIO_GET_CALL_DATA
  | SATELLITE_RADIO_CALL_STATE_CHANGED.

(** ** What the IMS service sends to the handler of a slot *)

(** Ids of radio_event.h. *)
Inductive TelEventId :=
  | Basic (ev : RadioEvent)
  | Supplementary (ev : SsEvent)
  | RADIO_IMS_CALL_STATUS_INFO | RADIO_IMS_GET_CALL_DATA | RADIO_CALL_RINGBACK_VOICE
  | RADIO_SET_IMS_SWITCH_STATUS | RADIO_GET_IMS_SWITCH_STATUS | RADIO_GET_IMS_CAPABILITY_FINISHED
  | RADIO_RECV_CALL_MEDIA_MODE_REQUEST | RADIO_RECV_CALL_MEDIA_MODE_RESPONSE
  | RADIO_CALL_SESSION_EVENT_CHANGED | RADIO_CALL_PEER_DIMENSIONS_CHANGED
  | RADIO_CALL_DATA_USAGE_CHANGED | RADIO_CAMERA_CAPABILITIES_CHANGED
  | RADIO_START_RTT | RADIO_STOP_RTT
  | RADIO_RTT_UPGRADE_OR_DOWNGRADE_EVT | RADIO_RTT_UPGRADE_OR_DOWNGRADE_ERR
  | RADIO_SUPP_EXT_CHANGED.

(** The shared object of the event. *)
Inductive TelObject :=
  | NoObject
  | ObjResponseInfo (info : RadioResponseInfo)
  | ObjCallList (callList : ImsCurrentCallList)
  | ObjInt32 (v : Z)
  | ObjRingback (info : RingbackVoice)
  | ObjDetails (details : DisconnectedDetails)
  | ObjSsResult (result : SsBaseResult)
  | ObjClip (result : IdentityResult)
  | ObjClir (result : IdentityResult)
  | ObjColr (result : IdentityResult)
  | ObjColp (result : IdentityResult)
  | ObjRestriction (result : CallRestrictionResult)
  | ObjWaiting (result : CallWaitResult)
  | ObjForwarding (list : CallForwardQueryInfoList)
  | ObjMediaMode (info : ImsCallModeReceiveInfo)
  | ObjSessionEvent (info : ImsCallSessionEventInfo)
  | ObjPeerDimensions (info : ImsCallPeerDimensionsInfo)
  | ObjDataUsage (info : ImsCallDataUsageInfo)
  | ObjCamera (info : CameraCapabilitiesInfo)
  | ObjRttEvent (info : ImsCallRttEventInfo)
  | ObjRttError (info : ImsCallRttErrorInfo)
  | ObjSuppExt (info : ImsSuppExtInfo)
  | ObjImsCap (imsCap : ImsCapFromChip)
  | ObjSatelliteCalls (callList : SatelliteCurrentCallList).

(** [InnerEvent::Get(id, object, param)] *)
Record TelEvent := { te_id : TelEventId; te_object : TelObject; te_param : Z }.

(** Requests to [CoreManagerInner] that go to the modem. *)
Inductive RilRequest :=
  | RilDial (address : string) (clirMode : CLIRMode)
  | RilHangup (index : Z)
  | RilSetMute (mute : bool)
  | RilAnswer
  | RilReject
  | RilHoldCall
  | RilUnHoldCall
  | RilSwitchCall
  | RilCombineConference (voiceCall : Z)
  | RilSeparateConference (index voiceCall : Z)
  | RilCallSupplement (type : Z)
  | RilSendDTMF (c : ascii) (index : Z)
  | RilStartDTMF (c : ascii) (index : Z)
  | RilStopDTMF (index : Z)
  | RilGetCallList
  | RilGetCallFailReason.

(** Requests to [ImsCallClient]. *)
Inductive ImsRequest :=
  | ImsDial (info : ImsCallInfo) (clirMode : CLIRMode)
  | ImsHangUp (info : ImsCallInfo)
  | ImsAnswer (info : ImsCallInfo)
  | ImsReject (info : ImsCallInfo)
  | ImsHoldCall (slotId callType : Z) (isRTT : bool)
  | ImsUnHoldCall (slotId callType : Z) (isRTT : bool)
  | ImsSwitchCall (slotId callType : Z) (isRTT : bool)
  | ImsCombineConference (slotId : Z)
  | ImsInviteToConference (slotId : Z) (numberList : list string)
  | ImsKickOutFromConference (slotId index : Z)
  | ImsGetImsCallsData (slotId lastCallsDataFlag : Z)
  | ImsSendDtmf (slotId : Z) (c : ascii) (index : Z)
  | ImsStartDtmf (slotId : Z) (c : ascii) (index : Z)
  | ImsStopDtmf (slotId index : Z)
  | ImsUpdateRttCallMode (slotId callId mode : Z)
  | ImsGetLastCallFailReason (slotId : Z)
  | ImsControlCamera (slotId callIndex : Z) (cameraId : string)
  | ImsSetPreviewWindow (slotId callIndex : Z) (surfaceID : string) (surface : Z)
  | ImsSetDisplayWindow (slotId callIndex : Z) (surfaceID : string) (surface : Z)
  | ImsSetCameraZoom (zoomRatio : Z)
  | ImsSetPausePicture (slotId callIndex : Z) (path : string)
  | ImsSetDeviceDirection (slotId callIndex rotation : Z)
  | ImsSendUpdateCallMediaModeRequest (info : ImsCallInfo) (callType : Z)
  | ImsSendUpdateCallMediaModeResponse (info : ImsCallInfo) (callType : Z)
  | ImsCancelCallUpgrade (slotId callIndex : Z)
  | ImsRequestCameraCapabilities (slotId callIndex : Z).

(** Requests to [SatelliteCallClient]. *)
Inductive SatRequest :=
  | SatDial (info : SatelliteCallInfo) (clirMode : CLIRMode)
  | SatHangUp (slotId index : Z)
  | SatAnswer (slotId : Z)
  | SatReject (slotId : Z)
  | SatGetSatelliteCallsData (slotId lastCallsDataFlag : Z).

(** The enumerators of call_manager's [RequestResultEventId] the handler reports. *)
Inductive RequestResultEventId :=
  | INVALID_REQUEST_RESULT_EVENT_ID
  | RESULT_DIAL_NO_CARRIER | RESULT_DIAL_SEND_FAILED
  | RESULT_END_SEND_FAILED | RESULT_REJECT_SEND_FAILED | RESULT_ACCEPT_SEND_FAILED
  | RESULT_HOLD_SEND_FAILED | RESULT_ACTIVE_SEND_FAILED | RESULT_SWAP_SEND_FAILED
  | RESULT_COMBINE_SEND_FAILED | RESULT_SPLIT_SEND_FAILED | RESULT_SUPPLEMENT_SEND_FAILED
  | RESULT_SEND_DTMF_SUCCESS | RESULT_SEND_DTMF_FAILED
  | RESULT_GET_CURRENT_CALLS_FAILED.
#[export] Instance RequestResultEventId_eq_dec : EqDecision RequestResultEventId.
Proof. solve_decision. Defined.

(** Calls on [CellularCallRegister], the way up to call_manager. *)
Inductive RegisterReport :=
  | ReportCallsInfo (info : CallsReportInfo)
  | ReportSingleCallInfo (info : CallReportInfo) (callState : Z)
  | ReportPostDialChar (c : ascii)
  | ReportPostDialDelay (left : string)
  | ReportEventResultInfo (eventId : RequestResultEventId)
  | ReportCallFailReason (reason : Z) (message : string)
  | ReportGetCallDataResult (result : Z)
  | ReportStartDtmfResult (result : Z)
  | ReportStopDtmfResult (result : Z)
  | ReportStartRttResult (result : Z)
  | ReportStopRttResult (result : Z)
  | ReportCallRingBackResult (status : Z)
  | ReportMediaModeRequest (slotId : Z) (info : ImsCallModeReceiveInfo)
  | ReportMediaModeResponse (slotId : Z) (info : ImsCallModeReceiveInfo)
  | ReportSessionEvent (info : ImsCallSessionEventInfo)
  | ReportPeerDimensions (info : ImsCallPeerDimensionsInfo)
  | ReportDataUsage (info : ImsCallDataUsageInfo)
  | ReportCameraCapabilities (info : CameraCapabilitiesInfo)
  | ReportSuppExt (info : ImsSuppExtInfo)
  | ReportRttEvent (slotId : Z) (info : ImsCallRttEventInfo)
  | ReportRttError (slotId : Z) (info : ImsCallRttErrorInfo)
  | ReportCallTransferStatus (slotId : Z) (enabled : bool)
  | ReportSs (rp : SsReport).

(** Events sent to the slot's [CellularCallHandler]. *)
Inductive HandlerEvent :=
  | EVENT_MMI_Id (data : MMIData) (isNeedUseIms : bool)
  | EVENT_EXECUTE_POST_DIAL (data : PostDialData) (delay : Z)
  | GET_CS_CALL_DATA_ID
  | GET_IMS_CALL_DATA_ID
  | GET_SATELLITE_CALL_DATA_ID
  | EVENT_SET_UNLOCK_PIN_PUK_ID (pinResData : PinPukResponse)
  | OPERATOR_CONFIG_CHANGED_ID (operatorState delay : Z)
  | NETWORK_STATE_CHANGED
  (* an answer or a report of the IMS service *)
  | TEL_EVENT (event : TelEvent).

(** [CellularCallHiSysEvent]: fault and behaviour records. *)
Inductive HiSysEvent :=
  | SetCallParameterInfo (slotId callType videoState : Z) (isRTT : bool)
  | WriteDialCallFaultEvent (accountId callType videoState errCode : Z) (desc : string)
  | WriteHangUpFaultEvent (slotId callId errCode : Z) (desc : string)
  | WriteAnswerCallFaultEvent (slotId callId videoState errCode : Z) (desc : string)
  | WriteImsCallModeBehaviorEvent_request (mode : Z)
  | WriteImsCallModeBehaviorEvent_response (mode : Z)
  | WriteImsCallModeBehaviorEvent_received_request (result : Z)
  | WriteImsCallModeBehaviorEvent_received_response (mode result : Z)
  | WriteDialCallBehaviorEvent (success : bool)
  | WriteHangUpCallBehaviorEvent (success : bool)
  | WriteAnswerCallBehaviorEvent (success : bool)
  | WriteCallEndBehaviorEvent (slotId reason : Z)
  | WriteFoundationRestartFaultEvent (count : Z)
  | WriteCallTansferEvent (state : Z).

Inductive Effect :=
  | Ril (slotId : Z) (ev : RadioEvent) (rq : RilRequest)
  | Ims (rq : ImsRequest)
  | Sat (rq : SatRequest)
  | Report (rp : RegisterReport)
  | SendEvent (slotId : Z) (ev : HandlerEvent)
  | HiSys (ev : HiSysEvent)
  | SetMute (slotId mute : Z)
  | UpdateRadioOn (slotId : Z)
  | SetActiveSim (slotId : Z) (active : bool)
  | ConfigSetReadyToCall (slotId : Z) (isReadyToCall : bool)
  | FfrtSubmitRadioOnTimeout (delay : Z)
  | FfrtSkip
  | CvWaitFor (seconds : Z)
  | CvNotifyAll
  | ConfigSetRadioOn (on : bool)
  | ConfigSetClearCode (slotId reason : Z)
  | ConfigGetImsSwitchStatusRequest (slotId : Z)
  | StartCallManager
  (* the result of a broadcast, named as its handler finds it in [OnEnterStr] *)
  | GoAsyncCommonEvent (result : nat)
  | FinishCommonEvent (result : nat)
  | RilSs (slotId : Z) (ev : SsEvent) (index : Z) (rq : CsSsRequest)
  | ImsSs (slotId index : Z) (rq : ImsSsRequest)
  | RilSetUssd (slotId : Z) (msg : string)
  | RilCloseUnFinishedUssd (slotId : Z)
  | SimPin (slotId : Z) (op : PinOperation) (newPin old : string)
  | ImsCanSetCallTransferTime (slotId : Z)
  | CoreSetVoiceCallForwarding (slotId : Z) (enable : bool) (number : string)
  (* CellularCallHiSysEvent::SetCallForwardingInfo *)
  | SetCallForwardingInfo (slotId : Z) (enable : bool) (number : string)
  (* CellularCallConfig and ConfigRequest *)
  | Config (e : ConfigEffect).

(** ** The environment *)

Class Env := {
  (* build flags *)
  CELLULAR_CALL_SATELLITE : bool;
  BASE_POWER_IMPROVEMENT_FEATURE : bool;
  (* [char] is signed on some targets (x86), unsigned on others (arm) *)
  char_is_signed : bool;
  (* answers to the requests sent *)
  reply : list Effect → Effect → Z;
  reply_bool : list Effect → Effect → bool;
  (* DelayedSingleton<T>::GetInstance() != nullptr *)
  service_instance : list Effect → bool;
  register_instance : list Effect → bool;
  ims_client_instance : list Effect → bool;
  ims_call_proxy : list Effect → bool;
  satellite_client_instance : list Effect → bool;
  hisysevent_instance : list Effect → bool;
  (* CellularCallService::GetHandler(slotId) != nullptr *)
  GetHandler : list Effect → Z → bool;
  (* CellularCallService: size of a control's connection map, None: no control *)
  ims_connections : list Effect → Z → option Z;
  cs_connections : list Effect → Z → option Z;
  satellite_connections : list Effect → Z → option Z;
  isRadioOnFlag : list Effect → Z → bool;
  (* CellularCallRegister *)
  IsCallManagerCallBackRegistered : list Effect → bool;
  (* CellularCallConfig *)
  IsReadyToCall : list Effect → Z → bool;
  (* how often the condition variable wakes the waiting dial before a wait
     of it times out (it is notified by SetReadyToCall only) *)
  wakeups_before_timeout : list Effect → nat;
  GetEccCallList : list Effect → Z → list EmergencyCall;
  GetMcc : list Effect → Z → string;
  (* CoreManagerInner *)
  core_GetRadioState : list Effect → Z → Z;
  core_GetAirplaneMode : list Effect → Z * bool;
  core_HasSimCard : list Effect → Z → bool;
  core_IsSimActive : list Effect → Z → bool;
  core_GetCsRegState : list Effect → Z → Z;
  core_GetPsRegState : list Effect → Z → Z;
  core_GetPhoneType : list Effect → Z → Z;
  core_GetIsoCountryCodeForNetwork : list Effect → Z → string;
  core_GetISOCountryCodeForSim : list Effect → Z → string;
  core_IsSatelliteEnabled : list Effect → bool;
  core_GetMaxSimCount : list Effect → Z;
  (* libphonenumber and system parameters *)
  IsEmergencyNumber : string → string → bool;
  DYNAMIC_POWEROFF_MODEM : list Effect → bool;
  (* TELEPHONY_EXT_WRAPPER.isMmiCode_: may be null, may rewrite the number *)
  ext_isMmiCode : option (list Effect → Z → string → bool * string);
  (* securec: EOK or not *)
  memset_s_ok : bool;
  strcpy_s_ok : Z → string → bool;
  memcpy_s_ok : Z → Z → bool
}.

(** Documented behaviour of securec: a whole object can be zeroed, a string is
    copied when it and its NUL fit, [n] bytes are copied when they fit. *)
Class SecurecOk `{Env} : Prop := {
  memset_s_EOK : memset_s_ok = true;
  strcpy_s_EOK : ∀ n s, Z.of_nat (String.length s) < n → strcpy_s_ok n s = true;
  memcpy_s_EOK : ∀ n k, k ≤ n → memcpy_s_ok n k = true
}.

(** An object after its declaration and [memset_s(&x, sizeof(x), 0, sizeof(x))]. *)
Definition zeroed `{Env} {A} (declared zero : A) : A :=
  if memset_s_ok then zero else declared.

(** ** Machine integers *)

Definition i32 (x : Z) : Z := (x + 2 ^ 31) mod 2 ^ 32 - 2 ^ 31.
Definition size_t (x : Z) : Z := x mod 2 ^ 64.

Lemma i32_id x : - 2 ^ 31 ≤ x < 2 ^ 31 → i32 x = x.
Proof. intros Hx. unfold i32. rewrite Z.mod_small; lia. Qed.
Lemma size_t_id x : 0 ≤ x < 2 ^ 64 → size_t x = x.
Proof. intros Hx. by apply Z.mod_small. Qed.

(** ** Sending and asking *)

Abbreviation Op S A := (M Effect S A).

Section Actions.
Context `{Env} {S : Type}.

(** Send a request and return its [int32_t] answer. *)
Definition request (e : Effect) : Op S Z := call reply e.
Definition request_bool (e : Effect) : Op S bool := call reply_bool e.
(** Send a request whose answer the code drops. *)
Definition send (e : Effect) : Op S () := emit e.
Definition ask {A} (q : list Effect → A) : Op S A := query q.
Definition hisys (ev : HiSysEvent) : Op S () := emit (HiSys ev).
Definition report (rp : RegisterReport) : Op S () := emit (Report rp).

(** Run an operation of a local object [x]: its value and final state. *)
Definition with_local {X A} (m : Op X A) (x : X) : Op S (A * X) :=
  λ s h, let '(a, x', e) := m x h in ((a, x'), s, e).

Lemma keeps_with_local {X A} (m : Op X A) x : keeps (with_local m x).
Proof. intros s h. unfold wp, with_local. by destruct (m x h) as [[??]?]. Qed.
Lemma sends_with_local {X A} P (m : Op X A) x : sends P m → sends P (with_local m x).
Proof.
  intros Hm s h. specialize (Hm x h). unfold wp, with_local in *. by destruct (m x h) as [[??]?].
Qed.
Lemma keeps_request e : keeps (request e).
Proof. apply keeps_call. Qed.
Lemma keeps_request_bool e : keeps (request_bool e).
Proof. apply keeps_call. Qed.
Lemma keeps_send e : keeps (send e).
Proof. apply keeps_emit. Qed.
Lemma keeps_ask {A} (q : list Effect → A) : keeps (ask q).
Proof. apply keeps_query. Qed.
Lemma keeps_hisys ev : keeps (hisys ev).
Proof. apply keeps_emit. Qed.
Lemma keeps_report rp : keeps (report rp).
Proof. apply keeps_emit. Qed.
End Actions.
#[export] Hint Resolve keeps_with_local sends_with_local keeps_request keeps_request_bool keeps_send keeps_ask
  keeps_hisys keeps_report : cc.


(** Weakest preconditions of the primitive actions. *)
Section WpActions.
Context `{Env} {S : Type}.
Implicit Types (s : S) (h : list Effect).

Lemma wp_request e (Q : Z → S → list Effect → Prop) s h :
  Q (reply h e) s [e] → wp (request e) Q s h.
Proof. done. Qed.
Lemma wp_request_bool e (Q : bool → S → list Effect → Prop) s h :
  Q (reply_bool h e) s [e] → wp (request_bool e) Q s h.
Proof. done. Qed.
Lemma wp_send e (Q : () → S → list Effect → Prop) s h : Q () s [e] → wp (send e) Q s h.
Proof. done. Qed.
Lemma wp_hisys ev (Q : () → S → list Effect → Prop) s h :
  Q () s [HiSys ev] → wp (hisys ev) Q s h.
Proof. done. Qed.
Lemma wp_report rp (Q : () → S → list Effect → Prop) s h :
  Q () s [Report rp] → wp (report rp) Q s h.
Proof. done. Qed.
Lemma wp_ask {A} (q : list Effect → A) (Q : A → S → list Effect → Prop) s h :
  Q (q h) s [] → wp (ask q) Q s h.
Proof. done. Qed.
Lemma wp_get (Q : S → S → list Effect → Prop) s h : Q s s [] → wp mget Q s h.
Proof. done. Qed.
Lemma wp_gets {A} (f : S → A) (Q : A → S → list Effect → Prop) s h :
  Q (f s) s [] → wp (mgets f) Q s h.
Proof. done. Qed.
Lemma wp_modify (f : S → S) (Q : () → S → list Effect → Prop) s h :
  Q () (f s) [] → wp (mmodify f) Q s h.
Proof. done. Qed.
End WpActions.

(** A run whose first action sends nothing. *)
Section RunActions.
Context `{Env} {S A B : Type}.
Implicit Types (s : S) (h : list Effect).

Lemma mthen_silent (m : Op S A) (f : A → Op S B) a s' s h :
  m s h = (a, s', []) → mthen m f s h = f a s' h.
Proof. intros Hm. unfold mthen. rewrite Hm, app_nil_r. by destruct (f a s' h) as [[b s2] e]. Qed.
Lemma mthen_ask (q : list Effect → A) (f : A → Op S B) s h : mthen (ask q) f s h = f (q h) s h.
Proof. by apply mthen_silent. Qed.
Lemma mthen_gets (g : S → A) (f : A → Op S B) s h : mthen (mgets g) f s h = f (g s) s h.
Proof. by apply mthen_silent. Qed.
End RunActions.

(** One step of symbolic execution of a [wp] goal; [wsteps] runs to the next
    case analysis or operation with a specification of its own. *)
Ltac wstep :=
  lazymatch goal with
  | |- wp (mret _) _ _ _ => apply wp_ret
  | |- wp (mthen _ _) _ _ _ => apply wp_then
  | |- wp (request _) _ _ _ => apply wp_request
  | |- wp (request_bool _) _ _ _ => apply wp_request_bool
  | |- wp (send _) _ _ _ => apply wp_send
  | |- wp (hisys _) _ _ _ => apply wp_hisys
  | |- wp (report _) _ _ _ => apply wp_report
  | |- wp (ask _) _ _ _ => apply wp_ask
  | |- wp mget _ _ _ => apply wp_get
  | |- wp (mgets _) _ _ _ => apply wp_gets
  | |- wp (mmodify _) _ _ _ => apply wp_modify
  end.
Ltac wsteps := repeat (wstep; cbn beta iota); rewrite ?app_nil_r; cbn beta iota.
(** An error code is not the success code. *)
Ltac err_ne :=
  let Herr := fresh in
  intros Herr; apply errors_not_success; rewrite <-Herr; repeat first [by left | right].

Ltac mstep_actions ::=
  match goal with
  | |- sends _ (send _) => apply sends_emit
  | |- sends _ (hisys _) => apply sends_emit
  | |- sends _ (report _) => apply sends_emit
  | |- sends _ (request _) => apply sends_call
  | |- sends _ (request_bool _) => apply sends_call
  | |- sends _ (ask _) => apply sends_query
  end.

Ltac mrun ::=
  unfold run, mthen, mret, mget, mgets, mmodify, request, request_bool, send,
    ask, hisys, report, emit, query, call; cbn -[app].
