(* ===== verification/CellularCallRegister.v ===== *)
(** * CellularCallRegister: the way up to call_manager
    (services/manager/src/cellular_call_register.cpp)

    call_manager registers one callback; a report takes the mutex, and calls the
    method of the callback it is about when there is one.  The reports are the
    [Report] effects, and some [Config] ones, of the rest of the model.

    Module [CellularRegisterFacts]: what call_manager hears. *)

From stdpp Require Import base tactics option list numbers strings.
From Stdlib Require Import ZArith Lia Ascii String.
From S2P Require Import Prelude SsTypes ConfigTypes Platform.

Open Scope Z_scope.

(** The methods of [ICallStatusCallback] (call_manager), with what they are given;
    the structs of the reports are filled field by field. *)
Inductive StatusCallback :=
  | UpdateCallsReportInfo (info : CallsReportInfo)
  | UpdateCallReportInfo (info : CallReportInfo)
  (* [inr]: whether the preferred domain was set *)
  | UpdateEventResultInfo (eventId : RequestResultEventId + bool)
  | UpdateDisconnectedCause (reason : Z) (message : string)
  | UpdateRBTPlayInfo (status : Z)
  | UpdateGetWaitingResult (response : StatusResponse)
  | UpdateSetWaitingResult (result : Z)
  | UpdateGetRestrictionResult (response : StatusResponse)
  | UpdateSetRestrictionResult (result : Z)
  | UpdateSetRestrictionPasswordResult (result : Z)
  | UpdateGetTransferResult (response : CallTransferResponse)
  | UpdateSetTransferResult (result : Z)
  | UpdateCallTransferStatus (slotId : Z) (enabled : bool)
  | UpdateGetCallClipResult (response : IdentityResponse)
  | UpdateGetCallClirResult (response : IdentityResponse)
  | UpdateSetCallClirResult (result : Z)
  | GetImsConfigResult (value : Z)
  | SetImsConfigResult (result : Z)
  | SetImsFeatureValueResult (result : Z)
  | GetImsFeatureValueResult (result value : Z)
  | InviteToConferenceResult (result : Z)
  | GetImsCallDataResult (result : Z)
  | StartDtmfResult (result : Z)
  | StopDtmfResult (result : Z)
  | StartRttResult (result : Z)
  | StopRttResult (result : Z)
  | SendUssdResult (result : Z)
  | SendMmiCodeResult (info : MmiCodeInfo)
  | CloseUnFinishedUssdResult (result : Z)
  | CbReportPostDialChar (str : string)
  | CbReportPostDialDelay (str : string)
  (* [CallModeReportInfo] *)
  | CbReceiveUpdateCallMediaModeRequest (callIndex result slotId callMode : Z)
  | CbReceiveUpdateCallMediaModeResponse (callIndex result slotId callMode : Z)
  (* [CallSessionReportInfo], [PeerDimensionsReportInfo], [CameraCapabilitiesReportInfo],
     [ImsSuppExtReportInfo] *)
  | CbHandleCallSessionEventChanged (index eventId : Z)
  | CbHandlePeerDimensionsChanged (index width height : Z)
  | CbHandleCallDataUsageChanged (response : Z)
  | CbHandleCameraCapabilitiesChanged (index width height : Z)
  | HandleImsSuppExtChanged (slotId code callIndex : Z)
  (* [RttEventInfo], [RttErrorInfo] *)
  | HandleRttEvtChanged (callId eventType reason slotId : Z)
  | HandleRttErrReport (callId operationType causeCode : Z) (reasonText : string) (slotId : Z).

Inductive RegisterEvent :=
  | LockRegister
  | UnlockRegister
  | NotifyCallStatusToNetworkSearch (accountId state : Z)
  | SetIncomingCallParameterInfo (callType callMode : Z)
  | FinishAsyncTrace
  (* a call of the registered callback *)
  | Callback (object : Z) (cb : StatusCallback).

(** What of a [CallDetailInfo] is as declared, and an enumerator of
    [TelCallState]. *)
Class RegisterEnv := {
  CALL_STATUS_UNKNOWN : Z;
  CallDetailInfo_callType : Z;
  CallDetailInfo_accountId : Z;
  CallDetailInfo_callMode : Z
}.

Record CellularCallRegister := { callManagerCallBack_ : option Z }.
Definition CellularCallRegister_new : CellularCallRegister := {| callManagerCallBack_ := None |}.

Section Register.
Context `{CallConsts, RegisterEnv}.
Abbreviation Reg A := (M RegisterEvent CellularCallRegister A).

(** The scope of [std::lock_guard<std::mutex> lock(mutex_)]. *)
Definition locked {A} (k : Reg A) : Reg A :=
  emit LockRegister ;; let! r := k in emit UnlockRegister ;; mret r.
(** [if (callManagerCallBack_ == nullptr) { absent; return; } k] *)
Definition with_callback (absent : Reg ()) (k : Z → Reg ()) : Reg () :=
  locked (let! s := mget in
          match callManagerCallBack_ s with None => absent | Some callback => k callback end).
(** The reports that call one method. *)
Definition report_up (cb : StatusCallback) : Reg () :=
  with_callback (mret ()) (λ callback, emit (Callback callback cb)).

Definition RegisterCallManagerCallBack (callback : option Z) : Reg Z :=
  locked (mmodify (λ _, {| callManagerCallBack_ := callback |}) ;; mret TELEPHONY_SUCCESS).
Definition UnRegisterCallManagerCallBack : Reg Z :=
  locked (mmodify (λ _, {| callManagerCallBack_ := None |}) ;; mret TELEPHONY_SUCCESS).
Definition IsCallManagerCallBackRegistered : Reg bool :=
  locked (mgets (λ s, bool_decide (is_Some (callManagerCallBack_ s)))).

(** ** Calls *)

(** The account, the state, the type and the mode of the last call of the list. *)
Definition detailInfo (callVec : list CallReportInfo) : Z * Z * Z * Z :=
  match last callVec with
  | None => (CallDetailInfo_accountId, CALL_STATUS_UNKNOWN, CallDetailInfo_callType, CallDetailInfo_callMode)
  | Some c => (cr_accountId c, cr_state c, cr_callType c, cr_callMode c)
  end.
Definition ReportCallsInfo (callsReportInfo : CallsReportInfo) : Reg () :=
  let '(accountId, state, callType, callMode) := detailInfo (crs_callVec callsReportInfo) in
  let incoming := state =? CALL_STATUS_INCOMING in
  with_callback (if incoming then emit FinishAsyncTrace else mret ()) (λ callback,
    emit (NotifyCallStatusToNetworkSearch accountId state) ;;
    (if incoming then emit (SetIncomingCallParameterInfo callType callMode) ;; emit FinishAsyncTrace
     else mret ()) ;;
    emit (Callback callback (UpdateCallsReportInfo callsReportInfo))).
Definition ReportSingleCallInfo (info : CallReportInfo) (callState : Z) : Reg () :=
  report_up (UpdateCallReportInfo (cr_set_state callState info)).
Definition ReportEventResultInfo (eventId : RequestResultEventId + bool) : Reg () :=
  report_up (UpdateEventResultInfo eventId).
Definition ReportCallRingBackResult (status : Z) : Reg () := report_up (UpdateRBTPlayInfo status).
Definition ReportCallFailReason (reason : Z) (message : string) : Reg () :=
  report_up (UpdateDisconnectedCause reason message).
Definition ReportInviteToConferenceResult (result : Z) : Reg () := report_up (InviteToConferenceResult result).
Definition ReportGetCallDataResult (result : Z) : Reg () := report_up (GetImsCallDataResult result).
Definition ReportStartDtmfResult (result : Z) : Reg () := report_up (StartDtmfResult result).
Definition ReportStopDtmfResult (result : Z) : Reg () := report_up (StopDtmfResult result).
Definition ReportStartRttResult (result : Z) : Reg () := report_up (StartRttResult result).
Definition ReportStopRttResult (result : Z) : Reg () := report_up (StopRttResult result).
(** [std::string nextDtmf(CHAR_LENG, c)] *)
Definition ReportPostDialChar (c : ascii) : Reg () := report_up (CbReportPostDialChar (String c "")).
Definition ReportPostDialDelay (str : string) : Reg () := report_up (CbReportPostDialDelay str).

(** ** Supplementary services *)

Definition ReportGetWaitingResult (response : StatusResponse) : Reg () :=
  report_up (UpdateGetWaitingResult response).
Definition ReportSetWaitingResult (result : Z) : Reg () := report_up (UpdateSetWaitingResult result).
Definition ReportGetRestrictionResult (response : StatusResponse) : Reg () :=
  report_up (UpdateGetRestrictionResult response).
Definition ReportSetRestrictionResult (result : Z) : Reg () := report_up (UpdateSetRestrictionResult result).
Definition ReportGetTransferResult (response : CallTransferResponse) : Reg () :=
  report_up (UpdateGetTransferResult response).
Definition ReportSetBarringPasswordResult (result : Z) : Reg () :=
  report_up (UpdateSetRestrictionPasswordResult result).
Definition ReportSetTransferResult (result : Z) : Reg () := report_up (UpdateSetTransferResult result).
Definition ReportCallTransferStatus (slotId : Z) (enabled : bool) : Reg () :=
  report_up (UpdateCallTransferStatus slotId enabled).
Definition ReportGetClipResult (response : IdentityResponse) : Reg () :=
  report_up (UpdateGetCallClipResult response).
Definition ReportGetClirResult (response : IdentityResponse) : Reg () :=
  report_up (UpdateGetCallClirResult response).
Definition ReportSetClirResult (result : Z) : Reg () := report_up (UpdateSetCallClirResult result).
Definition ReportSendUssdResult (result : Z) : Reg () := report_up (SendUssdResult result).
Definition ReportMmiCodeResult (info : MmiCodeInfo) : Reg () := report_up (SendMmiCodeResult info).
Definition ReportCloseUnFinishedUssdResult (result : Z) : Reg () :=
  report_up (CloseUnFinishedUssdResult result).

(** ** Configuration *)

Definition ReportGetImsConfigResult (value : Z) : Reg () := report_up (GetImsConfigResult value).
Definition ReportSetImsConfigResult (result : Z) : Reg () := report_up (SetImsConfigResult result).
Definition ReportSetImsFeatureResult (result : Z) : Reg () := report_up (SetImsFeatureValueResult result).
Definition ReportGetImsFeatureResult (result value : Z) : Reg () :=
  report_up (GetImsFeatureValueResult result value).
(** The callback is looked for and not called. *)
Definition ReportGetMuteResult (result value : Z) : Reg () := with_callback (mret ()) (λ _, mret ()).
(** These two only log. *)
Definition ReportSetMuteResult (result : Z) : Reg () := mret ().
Definition ReportSetEmergencyCallListResponse (result : Z) : Reg () := mret ().

(** ** Video *)

Definition ConverToImsCallMode (callType : Z) : Z :=
  if callType =? TEL_IMS_CALL_TYPE_VOICE then CALL_MODE_AUDIO_ONLY
  else if callType =? TEL_IMS_CALL_TYPE_VT_TX then CALL_MODE_SEND_ONLY
  else if callType =? TEL_IMS_CALL_TYPE_VT_RX then CALL_MODE_RECEIVE_ONLY
  else if callType =? TEL_IMS_CALL_TYPE_VT then CALL_MODE_SEND_RECEIVE
  else if callType =? TEL_IMS_CALL_TYPE_PAUSE then CALL_MODE_VIDEO_PAUSED
  else CALL_MODE_AUDIO_ONLY.
Definition ReceiveUpdateCallMediaModeRequest (slotId : Z) (info : ImsCallModeReceiveInfo) : Reg () :=
  report_up (CbReceiveUpdateCallMediaModeRequest (mr_callIndex info) (mr_result info) slotId
               (ConverToImsCallMode (mr_callType info))).
Definition ReceiveUpdateCallMediaModeResponse (slotId : Z) (info : ImsCallModeReceiveInfo) : Reg () :=
  report_up (CbReceiveUpdateCallMediaModeResponse (mr_callIndex info) (mr_result info) slotId
               (ConverToImsCallMode (mr_callType info))).
Definition HandleCallSessionEventChanged (info : ImsCallSessionEventInfo) : Reg () :=
  report_up (CbHandleCallSessionEventChanged (se_callIndex info) (se_eventType info)).
Definition HandlePeerDimensionsChanged (info : ImsCallPeerDimensionsInfo) : Reg () :=
  report_up (CbHandlePeerDimensionsChanged (pd_callIndex info) (pd_width info) (pd_height info)).
Definition HandleCallDataUsageChanged (info : ImsCallDataUsageInfo) : Reg () :=
  report_up (CbHandleCallDataUsageChanged (du_dataUsage info)).
Definition HandleCameraCapabilitiesChanged (info : CameraCapabilitiesInfo) : Reg () :=
  report_up (CbHandleCameraCapabilitiesChanged (cc_callIndex info) (cc_width info) (cc_height info)).
Definition HandleImsSuppExtResponse (info : ImsSuppExtInfo) : Reg () :=
  report_up (HandleImsSuppExtChanged (sx_slotId info) (sx_code info) (sx_callId info)).
(** SUPPORT_RTT_CALL *)
Definition ReceiveUpdateCallRttEvtResponse (slotId : Z) (info : ImsCallRttEventInfo) : Reg () :=
  report_up (HandleRttEvtChanged (re_callId info) (re_eventType info) (re_reason info) slotId).
Definition ReceiveUpdateCallRttErrResponse (slotId : Z) (info : ImsCallRttErrorInfo) : Reg () :=
  report_up (HandleRttErrReport (rx_callId info) (rx_operationType info) (rx_causeCode info)
               (rx_reasonText info) slotId).

(** ** The reports of the rest of the model *)

Definition ss_report (rp : SsReport) : Reg () :=
  match rp with
  | SsTypes.ReportMmiCodeResult info => ReportMmiCodeResult info
  | SsTypes.ReportGetWaitingResult r => ReportGetWaitingResult r
  | SsTypes.ReportSetWaitingResult r => ReportSetWaitingResult r
  | SsTypes.ReportGetTransferResult r => ReportGetTransferResult r
  | SsTypes.ReportSetTransferResult r => ReportSetTransferResult r
  | SsTypes.ReportGetRestrictionResult r => ReportGetRestrictionResult r
  | SsTypes.ReportSetRestrictionResult r => ReportSetRestrictionResult r
  | SsTypes.ReportSetBarringPasswordResult r => ReportSetBarringPasswordResult r
  | SsTypes.ReportGetClipResult r => ReportGetClipResult r
  | SsTypes.ReportGetClirResult r => ReportGetClirResult r
  | SsTypes.ReportSetClirResult r => ReportSetClirResult r
  | SsTypes.ReportSendUssdResult r => ReportSendUssdResult r
  | SsTypes.ReportCloseUnFinishedUssdResult r => ReportCloseUnFinishedUssdResult r
  end.
Definition run_report (rp : RegisterReport) : Reg () :=
  match rp with
  | Platform.ReportCallsInfo info => ReportCallsInfo info
  | Platform.ReportSingleCallInfo info callState => ReportSingleCallInfo info callState
  | Platform.ReportPostDialChar c => ReportPostDialChar c
  | Platform.ReportPostDialDelay str => ReportPostDialDelay str
  | Platform.ReportEventResultInfo eventId => ReportEventResultInfo (inl eventId)
  | Platform.ReportCallFailReason reason message => ReportCallFailReason reason message
  | Platform.ReportGetCallDataResult result => ReportGetCallDataResult result
  | Platform.ReportStartDtmfResult result => ReportStartDtmfResult result
  | Platform.ReportStopDtmfResult result => ReportStopDtmfResult result
  | Platform.ReportStartRttResult result => ReportStartRttResult result
  | Platform.ReportStopRttResult result => ReportStopRttResult result
  | Platform.ReportCallRingBackResult status => ReportCallRingBackResult status
  | ReportMediaModeRequest slotId info => ReceiveUpdateCallMediaModeRequest slotId info
  | ReportMediaModeResponse slotId info => ReceiveUpdateCallMediaModeResponse slotId info
  | ReportSessionEvent info => HandleCallSessionEventChanged info
  | ReportPeerDimensions info => HandlePeerDimensionsChanged info
  | ReportDataUsage info => HandleCallDataUsageChanged info
  | ReportCameraCapabilities info => HandleCameraCapabilitiesChanged info
  | ReportSuppExt info => HandleImsSuppExtResponse info
  | ReportRttEvent slotId info => ReceiveUpdateCallRttEvtResponse slotId info
  | ReportRttError slotId info => ReceiveUpdateCallRttErrResponse slotId info
  | Platform.ReportCallTransferStatus slotId enabled => ReportCallTransferStatus slotId enabled
  | ReportSs rp => ss_report rp
  end.
(** What an effect of the rest of the model makes the register do. *)
Definition run_effect (e : Effect) : Reg () :=
  match e with
  | Report rp => run_report rp
  | Config (ConfigTypes.ReportGetImsFeatureResult result value) => ReportGetImsFeatureResult result value
  | Config (ConfigTypes.ReportSetMuteResult result) => ReportSetMuteResult result
  | Config (ConfigTypes.ReportGetMuteResult result value) => ReportGetMuteResult result value
  | Config (ConfigTypes.ReportSetEmergencyCallListResponse result) => ReportSetEmergencyCallListResponse result
  | Config (ReportPreferenceModeResult success) => ReportEventResultInfo (inr success)
  | _ => mret ()
  end.
End Register.

(** ** CellularCallCallback (services/manager/src/cellular_call_callback.cpp)

    What another process calls to reach the service. *)

Inductive CallbackEvent :=
  | RemoteHangUpAllConnection (slotId : Z)
  | RemoteSetReadyToCall (slotId callType : Z) (isReadyToCall : bool).
Class CallbackEnv := {
  callback_GetSystemAbilityManager : list CallbackEvent → bool;
  callback_CheckSystemAbility : list CallbackEvent → bool
}.

Section Callback.
Context `{CallbackEnv} {S : Type}.
(** The system ability manager, the service, then [k] on its proxy. *)
Definition with_cellular_call (k : M CallbackEvent S ()) : M CallbackEvent S () :=
  let! systemAbilityMgr := query callback_GetSystemAbilityManager in
  if negb systemAbilityMgr then mret ()
  else let! remote := query callback_CheckSystemAbility in if negb remote then mret () else k.
Definition ClearCellularCallList (slotId : Z) : M CallbackEvent S () :=
  with_cellular_call (emit (RemoteHangUpAllConnection slotId)).
Definition callback_SetReadyToCall (slotId callType : Z) (isReadyToCall : bool) : M CallbackEvent S () :=
  with_cellular_call (emit (RemoteSetReadyToCall slotId callType isReadyToCall)).
End Callback.

(** ** CellularRegisterFacts: what call_manager hears

    [message] is the table of what each report is to call_manager; [deliveries]
    follows the registration.  The callbacks a sequence of registrations and
    reports makes are the deliveries, in order, all of them with the mutex held. *)

Module CellularRegisterFacts.
Open Scope Z_scope.

Inductive RegisterAction :=
  | ActRegister (callback : option Z)
  | ActUnregister
  | ActEffect (e : Effect).

Section Facts.
Context `{CallConsts, RegisterEnv}.
Abbreviation Reg A := (M RegisterEvent CellularCallRegister A).

Definition run_register_action (act : RegisterAction) : Reg () :=
  match act with
  | ActRegister callback => RegisterCallManagerCallBack callback ;; mret ()
  | ActUnregister => UnRegisterCallManagerCallBack ;; mret ()
  | ActEffect e => run_effect e
  end.
Definition run_register_actions (acts : list RegisterAction) : Reg () := mfor acts run_register_action.

(** ** What a report says *)

Definition ss_message (rp : SsReport) : StatusCallback :=
  match rp with
  | SsTypes.ReportMmiCodeResult info => SendMmiCodeResult info
  | SsTypes.ReportGetWaitingResult r => UpdateGetWaitingResult r
  | SsTypes.ReportSetWaitingResult r => UpdateSetWaitingResult r
  | SsTypes.ReportGetTransferResult r => UpdateGetTransferResult r
  | SsTypes.ReportSetTransferResult r => UpdateSetTransferResult r
  | SsTypes.ReportGetRestrictionResult r => UpdateGetRestrictionResult r
  | SsTypes.ReportSetRestrictionResult r => UpdateSetRestrictionResult r
  | SsTypes.ReportSetBarringPasswordResult r => UpdateSetRestrictionPasswordResult r
  | SsTypes.ReportGetClipResult r => UpdateGetCallClipResult r
  | SsTypes.ReportGetClirResult r => UpdateGetCallClirResult r
  | SsTypes.ReportSetClirResult r => UpdateSetCallClirResult r
  | SsTypes.ReportSendUssdResult r => SendUssdResult r
  | SsTypes.ReportCloseUnFinishedUssdResult r => CloseUnFinishedUssdResult r
  end.
Definition report_message (rp : RegisterReport) : StatusCallback :=
  match rp with
  | Platform.ReportCallsInfo info => UpdateCallsReportInfo info
  | Platform.ReportSingleCallInfo info callState => UpdateCallReportInfo (cr_set_state callState info)
  | Platform.ReportPostDialChar c => CbReportPostDialChar (String c "")
  | Platform.ReportPostDialDelay str => CbReportPostDialDelay str
  | Platform.ReportEventResultInfo eventId => UpdateEventResultInfo (inl eventId)
  | Platform.ReportCallFailReason reason message => UpdateDisconnectedCause reason message
  | Platform.ReportGetCallDataResult r => GetImsCallDataResult r
  | Platform.ReportStartDtmfResult r => StartDtmfResult r
  | Platform.ReportStopDtmfResult r => StopDtmfResult r
  | Platform.ReportStartRttResult r => StartRttResult r
  | Platform.ReportStopRttResult r => StopRttResult r
  | Platform.ReportCallRingBackResult status => UpdateRBTPlayInfo status
  | ReportMediaModeRequest slotId i =>
      CbReceiveUpdateCallMediaModeRequest (mr_callIndex i) (mr_result i) slotId (ConverToImsCallMode (mr_callType i))
  | ReportMediaModeResponse slotId i =>
      CbReceiveUpdateCallMediaModeResponse (mr_callIndex i) (mr_result i) slotId (ConverToImsCallMode (mr_callType i))
  | ReportSessionEvent i => CbHandleCallSessionEventChanged (se_callIndex i) (se_eventType i)
  | ReportPeerDimensions i => CbHandlePeerDimensionsChanged (pd_callIndex i) (pd_width i) (pd_height i)
  | ReportDataUsage i => CbHandleCallDataUsageChanged (du_dataUsage i)
  | ReportCameraCapabilities i => CbHandleCameraCapabilitiesChanged (cc_callIndex i) (cc_width i) (cc_height i)
  | ReportSuppExt i => HandleImsSuppExtChanged (sx_slotId i) (sx_code i) (sx_callId i)
  | ReportRttEvent slotId i => HandleRttEvtChanged (re_callId i) (re_eventType i) (re_reason i) slotId
  | ReportRttError slotId i =>
      HandleRttErrReport (rx_callId i) (rx_operationType i) (rx_causeCode i) (rx_reasonText i) slotId
  | Platform.ReportCallTransferStatus slotId enabled => UpdateCallTransferStatus slotId enabled
  | ReportSs rp => ss_message rp
  end.
(** The answers to a mute and to an emergency list are told to nobody. *)
Definition message (e : Effect) : option StatusCallback :=
  match e with
  | Report rp => Some (report_message rp)
  | Config (ConfigTypes.ReportGetImsFeatureResult result value) => Some (GetImsFeatureValueResult result value)
  | Config (ReportPreferenceModeResult success) => Some (UpdateEventResultInfo (inr success))
  | _ => None
  end.

(** The messages of a sequence, each with the object registered when it is sent. *)
Fixpoint deliveries (object : option Z) (acts : list RegisterAction) : list (Z * StatusCallback) :=
  match acts with
  | [] => []
  | ActRegister callback :: acts => deliveries callback acts
  | ActUnregister :: acts => deliveries None acts
  | ActEffect e :: acts =>
      match object, message e with
      | Some o, Some m => (o, m) :: deliveries object acts
      | _, _ => deliveries object acts
      end
  end.
Fixpoint registered (object : option Z) (acts : list RegisterAction) : option Z :=
  match acts with
  | [] => object
  | ActRegister callback :: acts => registered callback acts
  | ActUnregister :: acts => registered None acts
  | ActEffect _ :: acts => registered object acts
  end.

(** ** What a run does *)

Definition callbacks (es : list RegisterEvent) : list (Z * StatusCallback) :=
  omap (λ ev, match ev with Callback o cb => Some (o, cb) | _ => None end) es.
(** Locks and unlocks alternate, and what is between is done under the lock. *)
Fixpoint under_lock (held : bool) (es : list RegisterEvent) : bool :=
  match es with
  | [] => negb held
  | LockRegister :: es => negb held && under_lock true es
  | UnlockRegister :: es => held && under_lock false es
  | _ :: es => held && under_lock held es
  end.
Lemma under_lock_app es es' : under_lock false es → under_lock false es' → under_lock false (es ++ es').
Proof.
  generalize false at 1 3. induction es as [|[] es IH]; intros held; simpl; [by destruct held|..].
  all: rewrite !andb_True; intros [??] ?; eauto.
Qed.

(** What an action does: the state after it, its callbacks, the lock free again. *)
Definition does (act : RegisterAction) : Prop :=
  ∀ s h, wp (run_register_action act)
    (λ _ s' e, callManagerCallBack_ s' = registered (callManagerCallBack_ s) [act] ∧
               callbacks e = deliveries (callManagerCallBack_ s) [act] ∧ under_lock false e) s h.
Lemma ReportCallsInfo_does info : does (ActEffect (Report (Platform.ReportCallsInfo info))).
Proof.
  intros [o] h. cbn [run_register_action run_effect run_report]. unfold ReportCallsInfo.
  destruct (detailInfo _) as [[[? ?] ?] ?]. destruct o, (_ =? CALL_STATUS_INCOMING); done.
Qed.
Lemma register_action_does act : does act.
Proof.
  destruct act as [callback| |e]; [by intros [o] h..|].
  destruct e as [| | |rp| | | | | | | | | | | | | | | | | | | | | | | | |c]; try (intros [[o|]] h; done).
  - destruct rp as [| | | | | | | | | | | | | | | | | | | | | |rp]; try (intros [[o|]] h; done).
    + apply ReportCallsInfo_does.
    + destruct rp; intros [[o|]] h; done.
  - destruct c; intros [[o|]] h; done.
Qed.

Lemma deliveries_cons o act acts :
  deliveries o (act :: acts) = deliveries o [act] ++ deliveries (registered o [act]) acts.
Proof. destruct act as [| |e]; [done..|]. simpl. destruct o, (message e); done. Qed.

Lemma deliveries_app o es es' :
  deliveries o (ActEffect <$> es ++ es') = deliveries o (ActEffect <$> es) ++ deliveries o (ActEffect <$> es').
Proof. induction es as [|e es IH]; csimpl; [done|]. destruct o, (message e); csimpl; by rewrite IH. Qed.

(** C12: over any sequence of registrations and reports, the calls of registered
    objects are the messages of the reports made while one was registered, in order
    and to the object registered at the time; each is made with the mutex held, the
    mutex is free at the end and is never taken twice. *)
Theorem register_delivers acts s h :
  wp (run_register_actions acts)
    (λ _ s' e, callManagerCallBack_ s' = registered (callManagerCallBack_ s) acts ∧
               callbacks e = deliveries (callManagerCallBack_ s) acts ∧ under_lock false e) s h.
Proof.
  revert s h. induction acts as [|act acts IH]; intros s h; [done|].
  unfold run_register_actions in *. cbn [mfor]. apply wp_then. eapply wp_mono; [apply register_action_does|].
  intros _ s1 e1 (Hs1 & He1 & Hl1). cbn beta. eapply wp_mono; [apply IH|].
  intros _ s2 e2 (-> & He2 & Hl2). rewrite deliveries_cons, <-Hs1. split_and!.
  - rewrite Hs1. by destruct act.
  - unfold callbacks in *. by rewrite omap_app, He1, He2.
  - by apply under_lock_app.
Qed.
End Facts.

End CellularRegisterFacts.
