(* ===== verification/Samples.v ===== *)
(** * Samples: concrete instances of the external parameters

    One set of constants and one quiet environment in which everything is
    available and every request succeeds.  The witnesses of the properties are
    evaluated in them; they show that the hypotheses [CallConstsOk] and
    [SecurecOk] can hold. *)

From stdpp Require Import base tactics option list numbers strings.
From Stdlib Require Import ZArith Lia Ascii String.
From S2P Require Import Prelude ConfigTypes Platform.

Open Scope Z_scope.

Definition sample_consts : CallConsts :=
  {| TELEPHONY_SUCCESS := 0; TELEPHONY_ERR_SUCCESS := 0; TELEPHONY_ERROR := -1;
     TELEPHONY_ERR_FAIL := 1; TELEPHONY_ERR_LOCAL_PTR_NULL := 2;
     TELEPHONY_ERR_ARGUMENT_INVALID := 3; TELEPHONY_ERR_ARGUMENT_MISMATCH := 4;
     TELEPHONY_ERR_MEMSET_FAIL := 5; TELEPHONY_ERR_MEMCPY_FAIL := 6;
     TELEPHONY_ERR_STRCPY_FAIL := 7; TELEPHONY_ERR_AIRPLANE_MODE_ON := 8;
     TELEPHONY_ERR_NETWORK_NOT_IN_SERVICE := 9; CALL_ERR_RESOURCE_UNAVAILABLE := 10;
     CALL_ERR_CALL_CONNECTION_NOT_EXIST := 11; CALL_ERR_CALL_STATE := 12;
     CALL_ERR_CALL_COUNTS_EXCEED_LIMIT := 13; CALL_ERR_GET_RADIO_STATE_FAILED := 14;
     CALL_ERR_UNSUPPORTED_NETWORK_TYPE := 15; CALL_ERR_PHONE_NUMBER_EMPTY := 16;
     CALL_ERR_PARAMETER_OUT_OF_RANGE := 17; CALL_ERR_DIAL_FAILED := 18;
     CALL_ERR_INVALID_SLOT_ID := 19; CALL_ERROR_IMS_SERVICE_NOT_EXIST := 20;
     CALL_ERROR_UNEXPECTED_SRVCC_STATE := 21; RETURN_TYPE_MMI := 22;
     INVALID_PARAMETER := 0;
     CALL_STATUS_ACTIVE := 0; CALL_STATUS_HOLDING := 1; CALL_STATUS_DIALING := 2;
     CALL_STATUS_ALERTING := 3; CALL_STATUS_INCOMING := 4; CALL_STATUS_WAITING := 5;
     CALL_STATUS_DISCONNECTED := 6; CALL_STATUS_DISCONNECTING := 7;
     TYPE_CS := 0; TYPE_IMS := 1; TYPE_SATELLITE := 2;
     TYPE_VOICE := 0; TYPE_SEND_ONLY := 1; TYPE_RECEIVE_ONLY := 2; TYPE_VIDEO := 3;
     CALL_MODE_AUDIO_ONLY := 0; CALL_MODE_SEND_ONLY := 1; CALL_MODE_RECEIVE_ONLY := 2;
     CALL_MODE_SEND_RECEIVE := 3; CALL_MODE_VIDEO_PAUSED := 4;
     TYPE_DEFAULT := 0; TYPE_HANG_UP_HOLD_WAIT := 1; TYPE_HANG_UP_ACTIVE := 2;
     TYPE_HANG_UP_ALL := 3; kMaxNumberLen := 100;
     CallReportInfo_init := cr_set_state (-1) CallReportInfo_zero;
     CellularCallInfo_init :=
       {| ci_callId := 0; ci_phoneNum := ""; ci_slotId := 0; ci_accountId := 0;
          ci_callType := 0; ci_videoState := 0; ci_index := 0; ci_isRTT := false |};
     DISCONNECTED_REASON_INVALID := 0; DISCONNECTED_REASON_USER_TERMINATED := 1;
     DISCONNECTED_REASON_USER_DECLINE := 2; CORE_SERVICE_POWER_ON := 1;
     REG_STATE_IN_SERVICE := 1; PHONE_TYPE_IS_GSM := 1; PHONE_TYPE_IS_CDMA := 2 |}.

Lemma sample_consts_ok : @CallConstsOk sample_consts.
Proof.
  split; simpl; try (apply (bool_decide_unpack _); vm_compute; exact I); lia.
Defined.

(** The environment, for a build with or without
    BASE_POWER_IMPROVEMENT_FEATURE and with the radio in the given state. *)
Definition sample_env_ecc (ecc : list EmergencyCall) (power_feature : bool) (radio : Z) : Env :=
  {| CELLULAR_CALL_SATELLITE := true; BASE_POWER_IMPROVEMENT_FEATURE := power_feature;
     char_is_signed := false;
     reply := λ _ _, 0; reply_bool := λ _ _, true;
     service_instance := λ _, true; register_instance := λ _, true;
     ims_client_instance := λ _, true; ims_call_proxy := λ _, true;
     satellite_client_instance := λ _, true; hisysevent_instance := λ _, true;
     GetHandler := λ _ _, true;
     ims_connections := λ _ _, Some 0; cs_connections := λ _ _, Some 0;
     satellite_connections := λ _ _, None; isRadioOnFlag := λ _ _, radio =? 1;
     IsCallManagerCallBackRegistered := λ _, true;
     IsReadyToCall := λ _ _, true; wakeups_before_timeout := λ _, 0%nat; GetEccCallList := λ _ _, ecc; GetMcc := λ _ _, "460";
     core_GetRadioState := λ _ _, radio; core_GetAirplaneMode := λ _, (0, false);
     core_HasSimCard := λ _ _, true; core_IsSimActive := λ _ _, true;
     core_GetCsRegState := λ _ _, 1; core_GetPsRegState := λ _ _, 1;
     core_GetPhoneType := λ _ _, 1; core_GetIsoCountryCodeForNetwork := λ _ _, "cn";
     core_GetISOCountryCodeForSim := λ _ _, "cn"; core_IsSatelliteEnabled := λ _, false;
     core_GetMaxSimCount := λ _, 2;
     IsEmergencyNumber := λ num iso, bool_decide (num = "110" ∧ iso = "CN");
     DYNAMIC_POWEROFF_MODEM := λ _, false; ext_isMmiCode := None;
     memset_s_ok := true;
     strcpy_s_ok := λ n s, Z.of_nat (String.length s) <? n;
     memcpy_s_ok := λ n k, k <=? n |}.
Definition sample_env_with : bool → Z → Env := sample_env_ecc [].

Definition sample_env : Env := sample_env_with false 1.
(** The radio is off. *)
Definition sample_env_off : Env := sample_env_with true 0.

Lemma sample_env_securec power radio : @SecurecOk (sample_env_with power radio).
Proof. split; [done| |]; simpl; intros; [by apply Z.ltb_lt|by apply Z.leb_le]. Defined.

(** Weaken the conclusion of a property to the goal's. *)
Ltac weaken_spec thm :=
  let Hp := fresh "Hp" in
  pose proof thm as Hp; cbv zeta in Hp; eapply wp_mono; [exact Hp|clear Hp].
