(* ===== verification/Standardize.v ===== *)
(** * Standardize: phone-number strings (services/utils/standardize_utils)

    [StandardizeUtils]: separator removal, type-of-address formatting, the
    split of a dial string into network address and post-dial part, [Split],
    the FNV hash used to dispatch MMI codes, and the DTMF, pause and wait key
    tests.  A [char] is an [ascii]; a [std::string] is a [string]. *)

From stdpp Require Import base tactics option list numbers strings.
From Stdlib Require Import ZArith Lia Ascii String.
From S2P Require Import Prelude Platform.

Open Scope Z_scope.

(** ** C strings *)

(** [s.c_str()] read as a C string ends at the first NUL. *)
Fixpoint c_str (s : string) : string :=
  match s with
  | EmptyString => EmptyString
  | String c s' => if bool_decide (c = "000"%char) then EmptyString else String c (c_str s')
  end.
Definition strlen (s : string) : Z := Z.of_nat (String.length (c_str s)).

Definition string_empty (s : string) : bool := bool_decide (s = "").
Definition string_size (s : string) : Z := Z.of_nat (String.length s).
Definition string_front (s : string) : option ascii := String.get 0 s.
Definition string_back (s : string) : option ascii :=
  String.get (pred (String.length s)) s.
Definition string_contains (sub s : string) : bool :=
  match String.index 0 sub s with Some _ => true | None => false end.
Fixpoint string_filter (p : ascii → bool) (s : string) : string :=
  match s with
  | EmptyString => EmptyString
  | String c s' => if p c then String c (string_filter p s') else string_filter p s'
  end.
Fixpoint string_all (p : ascii → bool) (s : string) : bool :=
  match s with
  | EmptyString => true
  | String c s' => p c && string_all p s'
  end.

(** [lo <= c && c <= hi] on characters. *)
Definition char_in (lo hi c : ascii) : bool :=
  (N_of_ascii lo <=? N_of_ascii c)%N && (N_of_ascii c <=? N_of_ascii hi)%N.
Definition char_eq (a b : ascii) : bool := Ascii.eqb a b.

(** ** StandardizeUtils *)

Definition is_kept_separator (c : ascii) : bool :=
  char_in "0" "9" c || char_eq c "*" || char_eq c "#" || char_eq c "+" ||
  char_eq c "N" || char_eq c "," || char_eq c ";".

(** The loop appends every dialable character to [newString]. *)
Fixpoint remove_separators_loop (phoneString newString : string) : string :=
  match phoneString with
  | EmptyString => newString
  | String c rest =>
      remove_separators_loop rest
        (if is_kept_separator c then newString +:+ String c "" else newString)
  end.
Definition RemoveSeparatorsPhoneNumber (phoneString : string) : string :=
  if string_empty phoneString then "" else remove_separators_loop phoneString "".

Definition TOA_INTER : Z := 145.
Definition FormatNumberAndToa (phoneNumber : string) (callToa : Z) : string :=
  if string_empty phoneNumber then phoneNumber
  else if bool_decide (callToa = TOA_INTER) && negb (string_empty phoneNumber) &&
          negb (bool_decide (string_front phoneNumber = Some "+"%char))
       then String "+" phoneNumber
       else phoneNumber.

Definition is_address_char (c : ascii) : bool :=
  char_in "0" "9" c || char_eq c "*" || char_eq c "#" || char_eq c "+" || char_eq c "N".
Definition is_post_dial_start (c : ascii) : bool := char_eq c "," || char_eq c ";".

(** The first loop: the network address so far, and what is left from
    [postDialIndex] on (empty when no ',' or ';' is met). *)
Fixpoint extract_loop (phoneString networkAddress : string) : string * string :=
  match phoneString with
  | EmptyString => (networkAddress, "")
  | String c rest =>
      if is_address_char c then extract_loop rest (networkAddress +:+ String c "")
      else if is_post_dial_start c then (networkAddress, phoneString)
      else extract_loop rest networkAddress
  end.
(** Both out-parameters are appended to. *)
Definition ExtractAddressAndPostDial (phoneString networkAddress postDial : string)
    : string * string :=
  if string_empty phoneString then (networkAddress, postDial)
  else
    let '(addr, rest) := extract_loop phoneString networkAddress in
    (addr, postDial +:+ rest).

(** [while ((pos = str.find(flag, start)) != npos)], with fuel. *)
Fixpoint Split_loop (fuel : nat) (str flag : string) (start : nat) (vec : list string)
    : option (list string * nat) :=
  match fuel with
  | O => None
  | S fuel' =>
      match String.index start flag str with
      | Some pos =>
          Split_loop fuel' str flag (pos + String.length flag)
            (vec ++ [String.substring start (pos - start) str])
      | None => Some (vec, start)
      end
  end.
Definition Split_fuel (fuel : nat) (str flag : string) : option (list string) :=
  match Split_loop fuel str flag 0 [] with
  | None => None
  | Some (vec, start) =>
      Some (if bool_decide (start = String.length str) then vec
            else vec ++ [String.substring start (String.length str - start) str])
  end.
Definition Split (str flag : string) : option (list string) :=
  Split_fuel (S (String.length str)) str flag.

(** *** The hash *)

Definition u64 (x : Z) : Z := x mod 2 ^ 64.
Definition cellular_call_p : Z := 0x100000001B3.
Definition cellular_call_b : Z := 0xCBF29CE484222325.

Section Hash.
Context `{Env}.

(** A [char] promoted and converted to [uint64_t]. *)
Definition char_u64 (c : ascii) : Z :=
  let n := Z.of_N (N_of_ascii c) in
  if char_is_signed && (128 <=? n) then u64 (n - 256) else n.

(** [while ( *hashStr) {...}] over a C string. *)
Fixpoint hash_loop (hashStr : string) (result : Z) : Z :=
  match hashStr with
  | EmptyString => result
  | String c rest => hash_loop rest (u64 (Z.lxor result (char_u64 c) * cellular_call_p))
  end.
Definition Hash_ (hashStr : string) : Z := hash_loop (c_str hashStr) cellular_call_b.

Fixpoint HashCompileTime_from (str : string) (last_value : Z) : Z :=
  match str with
  | EmptyString => last_value
  | String c rest =>
      if bool_decide (c = "000"%char) then last_value
      else HashCompileTime_from rest (u64 (Z.lxor (char_u64 c) last_value * cellular_call_p))
  end.
Definition HashCompileTime (str : string) : Z := HashCompileTime_from str cellular_call_b.
End Hash.

Definition IsDtmfKey (c : ascii) : bool :=
  char_in "0" "9" c || char_in "A" "D" c || char_eq c "*" || char_eq c "#".
Definition IsPauseKey (c : ascii) : bool := char_eq c ",".
Definition IsWaitKey (c : ascii) : bool := char_eq c ";".

(** ** Lemmas on strings *)

#[local] Arguments String.append : simpl nomatch.

Lemma string_app_nil_r s : s +:+ "" = s.
Proof. induction s as [|c s IH]; simpl; congruence. Qed.
Lemma string_app_assoc a b c : (a +:+ b) +:+ c = a +:+ (b +:+ c).
Proof. induction a as [|x a IH]; simpl; congruence. Qed.
Lemma string_app_length a b :
  String.length (a +:+ b) = (String.length a + String.length b)%nat.
Proof. induction a as [|x a IH]; simpl; congruence. Qed.
Lemma string_filter_app p a b :
  string_filter p (a +:+ b) = string_filter p a +:+ string_filter p b.
Proof. induction a as [|x a IH]; simpl; [done|]. destruct (p x); simpl; congruence. Qed.
Lemma string_all_app p a b : string_all p (a +:+ b) = string_all p a && string_all p b.
Proof. induction a as [|x a IH]; simpl; [done|]. by rewrite IH, andb_assoc. Qed.
Lemma string_filter_all p s : string_all p (string_filter p s) = true.
Proof. induction s as [|x s IH]; simpl; [done|]. destruct (p x) eqn:E; simpl; by rewrite ?E. Qed.
Lemma string_filter_id p s : string_all p s = true → string_filter p s = s.
Proof.
  induction s as [|x s IH]; simpl; [done|]. intros [-> Hs]%andb_true_iff. f_equal; auto.
Qed.
Lemma string_all_weaken p q s :
  (∀ c, p c = true → q c = true) → string_all p s = true → string_all q s = true.
Proof.
  intros Hpq. induction s as [|x s IH]; simpl; [done|].
  intros [Hx Hs]%andb_true_iff. by rewrite Hpq, IH.
Qed.
Lemma string_empty_true s : string_empty s = true ↔ s = "".
Proof. unfold string_empty. by rewrite bool_decide_eq_true. Qed.
Lemma string_empty_false s : string_empty s = false ↔ s ≠ "".
Proof. unfold string_empty. by rewrite bool_decide_eq_false. Qed.

Lemma remove_separators_loop_filter s acc :
  remove_separators_loop s acc = acc +:+ string_filter is_kept_separator s.
Proof.
  revert acc. induction s as [|c s IH]; intros acc; simpl; [by rewrite string_app_nil_r|].
  rewrite IH. destruct (is_kept_separator c); [by rewrite string_app_assoc|done].
Qed.
Lemma RemoveSeparators_filter s :
  RemoveSeparatorsPhoneNumber s = string_filter is_kept_separator s.
Proof.
  unfold RemoveSeparatorsPhoneNumber, string_empty. case_bool_decide; [by subst|].
  by rewrite remove_separators_loop_filter.
Qed.

Lemma extract_loop_acc s acc :
  extract_loop s acc = (acc +:+ (extract_loop s "").1, (extract_loop s "").2).
Proof.
  revert acc. induction s as [|c s IH]; intros acc; simpl; [by rewrite string_app_nil_r|].
  destruct (is_address_char c).
  - rewrite IH, (IH (String c "")). simpl. by rewrite string_app_assoc.
  - destruct (is_post_dial_start c); simpl; [by rewrite string_app_nil_r|]. apply IH.
Qed.

Lemma extract_loop_spec s :
  ∃ pre post,
    s = pre +:+ post ∧
    string_all (λ c, negb (is_post_dial_start c)) pre = true ∧
    (post = "" ∨ ∃ c rest, post = String c rest ∧ is_post_dial_start c = true) ∧
    extract_loop s "" = (string_filter is_address_char pre, post).
Proof.
  induction s as [|c s IH]; [exists "", ""; naive_solver|].
  destruct IH as (pre & post & -> & Hpre & Hpost & IH). simpl.
  destruct (is_address_char c) eqn:Ha.
  - assert (is_post_dial_start c = false) as Hp by (destruct c as [[][][][][][][][]]; done).
    exists (String c pre), post. simpl. rewrite extract_loop_acc, IH, Hp, Ha, Hpre. done.
  - destruct (is_post_dial_start c) eqn:Hp.
    + exists "", (String c (pre +:+ post)). repeat split; eauto.
    + exists (String c pre), post. simpl. by rewrite IH, Hp, Ha, Hpre.
Qed.

Lemma kept_address_or_post c :
  is_kept_separator c = true → is_post_dial_start c = false → is_address_char c = true.
Proof. by destruct c as [[][][][][][][][]]. Qed.

Lemma substring_app a n m s :
  String.substring a n s +:+ String.substring (a + n) m s = String.substring a (n + m) s.
Proof.
  revert a n. induction s as [|c s IH]; intros a n.
  - by destruct a, n, m.
  - destruct a as [|a], n as [|n]; simpl.
    + done.
    + f_equal. apply (IH 0%nat).
    + apply (IH a 0%nat).
    + apply (IH a (S n)).
Qed.
Lemma substring_all s : String.substring 0 (String.length s) s = s.
Proof. induction s as [|c s IH]; simpl; congruence. Qed.
Lemma substring_length_le a n s :
  (a + String.length (String.substring a n s) ≤ String.length s)%nat ∨
  String.substring a n s = "".
Proof.
  revert a n. induction s as [|c s IH]; intros a n; [destruct a, n; auto|].
  destruct a as [|a], n as [|n]; simpl; auto.
  - destruct (IH 0%nat n) as [?| ->]; left; simpl in *; lia.
  - destruct (IH a 0%nat) as [?|?]; [left; lia|auto].
  - destruct (IH a (S n)) as [?|?]; [left; lia|auto].
Qed.
Lemma index_ge n s1 s2 m : String.index n s1 s2 = Some m → (n ≤ m)%nat.
Proof.
  revert n m. induction s2 as [|c s2 IH]; intros n m.
  - destruct n; simpl; [lia|done].
  - destruct n as [|n]; simpl; [lia|].
    destruct (String.index n s1 s2) as [k|] eqn:E; [|done]. intros [= <-].
    apply IH in E. lia.
Qed.
Lemma index_bound n s1 s2 m :
  s1 ≠ "" → String.index n s1 s2 = Some m → (m + String.length s1 ≤ String.length s2)%nat.
Proof.
  intros Hne Hi. pose proof (String.index_correct1 _ _ _ _ Hi) as Hs.
  destruct (substring_length_le m (String.length s1) s2) as [Hl|Hl]; [by rewrite Hs in Hl|].
  by rewrite Hs in Hl.
Qed.
Lemma concat_snoc flag vec s :
  vec ≠ [] → String.concat flag (vec ++ [s]) = String.concat flag vec +:+ flag +:+ s.
Proof.
  induction vec as [|x vec IH]; [done|]. intros _. destruct vec as [|y vec]; [done|].
  change ((x :: y :: vec) ++ [s]) with (x :: (y :: vec) ++ [s]).
  change (String.concat flag (x :: (y :: vec) ++ [s]))
    with (x +:+ flag +:+ String.concat flag ((y :: vec) ++ [s])).
  rewrite IH by done.
  change (String.concat flag (x :: y :: vec)) with (x +:+ flag +:+ String.concat flag (y :: vec)).
  by rewrite !string_app_assoc.
Qed.

(** What the loop has consumed is the collected pieces, each followed by the flag. *)
Definition pieces (flag : string) (vec : list string) : string :=
  foldr (λ p acc, p +:+ flag +:+ acc) "" vec.
Lemma pieces_snoc flag vec s : pieces flag (vec ++ [s]) = pieces flag vec +:+ s +:+ flag.
Proof.
  induction vec as [|x vec IH]; simpl; [by rewrite string_app_nil_r|].
  by rewrite IH, !string_app_assoc.
Qed.
Lemma pieces_concat flag vec :
  vec ≠ [] → pieces flag vec = String.concat flag vec +:+ flag.
Proof.
  induction vec as [|x vec IH]; [done|]. intros _. destruct vec as [|y vec].
  { simpl. by rewrite string_app_nil_r. }
  change (pieces flag (x :: y :: vec)) with (x +:+ flag +:+ pieces flag (y :: vec)).
  rewrite IH by done.
  change (String.concat flag (x :: y :: vec)) with (x +:+ flag +:+ String.concat flag (y :: vec)).
  by rewrite !string_app_assoc.
Qed.

Lemma Split_loop_spec fuel str flag start vec :
  flag ≠ "" →
  (start ≤ String.length str < start + fuel)%nat →
  pieces flag vec = String.substring 0 start str →
  ∃ vec' start', Split_loop fuel str flag start vec = Some (vec', start') ∧
    (start' ≤ String.length str)%nat ∧ pieces flag vec' = String.substring 0 start' str.
Proof.
  intros Hf. revert start vec. induction fuel as [|fuel IH]; intros start vec Hlen Hp; [lia|].
  simpl. destruct (String.index start flag str) as [pos|] eqn:Hi.
  - pose proof (index_ge _ _ _ _ Hi) as Hge. pose proof (index_bound _ _ _ _ Hf Hi) as Hb.
    assert (String.length flag ≠ 0%nat) by (by destruct flag).
    apply IH; [lia|]. rewrite pieces_snoc, Hp.
    pose proof (substring_app 0 start (pos - start) str) as E1.
    pose proof (substring_app 0 pos (String.length flag) str) as E2.
    rewrite Nat.add_0_l in E1, E2. replace (start + (pos - start))%nat with pos in E1 by lia.
    by rewrite <-E2, (String.index_correct1 _ _ _ _ Hi), <-E1, string_app_assoc.
  - exists vec, start. repeat split; [lia|done].
Qed.

(** ** Properties *)

(** RemoveSeparatorsPhoneNumber keeps only dialable characters (digits,
    star, hash, plus, 'N', comma, semicolon), is idempotent, and leaves exactly
    the numbers that hold nothing else unchanged. *)
Theorem RemoveSeparators_dialable s :
  string_all is_kept_separator (RemoveSeparatorsPhoneNumber s) = true ∧
  RemoveSeparatorsPhoneNumber (RemoveSeparatorsPhoneNumber s) = RemoveSeparatorsPhoneNumber s ∧
  (RemoveSeparatorsPhoneNumber s = s ↔ string_all is_kept_separator s = true).
Proof.
  rewrite !RemoveSeparators_filter. split_and!; [apply string_filter_all| |split].
  - apply string_filter_id, string_filter_all.
  - intros <-. apply string_filter_all.
  - apply string_filter_id.
Qed.

(** What a dial does to a number loses nothing: after separator removal,
    the network address sent to the modem and the post-dial part kept for later
    concatenate to the cleaned number, the address has address characters only,
    and the post-dial part is empty or starts with a pause or wait key. *)
Theorem dial_number_split_lossless s :
  let n := RemoveSeparatorsPhoneNumber s in
  let '(address, postDial) := ExtractAddressAndPostDial n "" "" in
  address +:+ postDial = n ∧
  string_all is_address_char address = true ∧
  (postDial = "" ∨ ∃ c rest, postDial = String c rest ∧ (IsPauseKey c || IsWaitKey c) = true).
Proof.
  rewrite RemoveSeparators_filter. set (n := string_filter _ _).
  assert (string_all is_kept_separator n = true) as Hn by apply string_filter_all.
  unfold ExtractAddressAndPostDial, string_empty. simpl. case_bool_decide as He.
  { rewrite He. split_and!; auto. }
  destruct (extract_loop_spec n) as (pre & post & Hs & Hpre & Hpost & ->).
  rewrite Hs, string_all_app, andb_true_iff in Hn. destruct Hn as [Hk _].
  assert (string_all is_address_char pre = true) as Ha.
  { clear -Hpre Hk. induction pre as [|c pre IH]; simpl in *; [done|].
    apply andb_true_iff in Hpre as [Hc Hpre], Hk as [Hkc Hk].
    rewrite IH, andb_true_r by done. apply kept_address_or_post; [done|].
    by apply negb_true_iff. }
  rewrite string_filter_id by done. split_and!; [done|done|].
  destruct Hpost as [->|(c & rest & -> & Hc)]; [by left|right; eauto].
Qed.

(** For a non-empty flag Split terminates within length+1 rounds, and
    joining the pieces with the flag gives the string back, up to one trailing
    flag (which yields no empty last piece). *)
Theorem Split_join_roundtrip str flag (Hflag : flag ≠ "") :
  ∃ vec, Split str flag = Some vec ∧
    (String.concat flag vec = str ∨ String.concat flag vec +:+ flag = str).
Proof.
  destruct (Split_loop_spec (S (String.length str)) str flag 0 []) as (vec & start & Hl & Hs & Hp);
    [done|lia|by destruct str|].
  unfold Split, Split_fuel. rewrite Hl. eexists. split; [done|].
  case_bool_decide as He.
  - subst start. rewrite substring_all in Hp. destruct vec as [|p vec]; [by left|right].
    by rewrite <-pieces_concat, Hp.
  - left. destruct vec as [|p vec].
    + destruct start as [|start]; [|by destruct str].
      simpl. rewrite Nat.sub_0_r. apply substring_all.
    + rewrite concat_snoc by done. rewrite <-string_app_assoc, <-pieces_concat by done.
      pose proof (substring_app 0 start (String.length str - start) str) as E.
      rewrite Nat.add_0_l in E.
      replace (start + (String.length str - start))%nat with (String.length str) in E by lia.
      by rewrite Hp, E, substring_all.
Qed.
Lemma Split_join_roundtrip_witness :
  ∃ vec, Split "a,b,,c" "," = Some vec ∧
    (String.concat "," vec = "a,b,,c" ∨ String.concat "," vec +:+ "," = "a,b,,c").
Proof. apply (Split_join_roundtrip "a,b,,c" ","). discriminate. Defined.

Lemma hash_loop_compile_time `{Env} s v :
  hash_loop (c_str s) v = HashCompileTime_from s v.
Proof.
  revert v. induction s as [|c s IH]; intros v; simpl; [done|].
  case_bool_decide; [done|]. simpl. by rewrite IH, Z.lxor_comm.
Qed.

(** The hash computed at run time by the loop of Hash_ and the constexpr
    recursion HashCompileTime behind the [_hash] literals agree on every
    string, whatever the signedness of char, and stay in 64 bits. *)
Theorem Hash_compile_time_equivalence `{Env} s :
  Hash_ s = HashCompileTime s ∧ 0 ≤ Hash_ s < 2 ^ 64.
Proof.
  split; [apply hash_loop_compile_time|]. unfold Hash_.
  assert (0 ≤ cellular_call_b < 2 ^ 64) as Hb by done.
  revert Hb. generalize cellular_call_b as v. generalize (c_str s) as t.
  induction t as [|c t IH]; intros v Hv; simpl; [done|].
  apply IH. unfold u64. by apply Z.mod_pos_bound.
Qed.

(** On ASCII the hash does not depend on the signedness of char. *)
Fixpoint ascii_hash (s : string) (v : Z) : Z :=
  match s with
  | EmptyString => v
  | String c rest => ascii_hash rest (u64 (Z.lxor v (Z.of_N (N_of_ascii c)) * cellular_call_p))
  end.
Definition is_ascii7 (c : ascii) : bool :=
  (N_of_ascii c <? 128)%N && negb (bool_decide (c = "000"%char)).
Lemma Hash_ascii `{Env} s :
  string_all is_ascii7 s = true → Hash_ s = ascii_hash s cellular_call_b.
Proof.
  unfold Hash_. generalize cellular_call_b as v.
  induction s as [|c s IH]; intros v; simpl; [done|].
  intros [Hc Hs]%andb_true_iff. unfold is_ascii7 in Hc.
  apply andb_true_iff in Hc as [Hlt%N.ltb_lt Hz%negb_true_iff]. rewrite Hz. simpl.
  rewrite IH by done. unfold char_u64.
  replace (128 <=? Z.of_N (N_of_ascii c)) with false; [by rewrite andb_false_r|].
  symmetry. apply Z.leb_gt. lia.
Qed.
Lemma HashCompileTime_ascii `{Env} s :
  string_all is_ascii7 s = true → HashCompileTime s = ascii_hash s cellular_call_b.
Proof.
  intros Hs. rewrite <-Hash_ascii by done. unfold HashCompileTime, Hash_.
  by rewrite hash_loop_compile_time.
Qed.
