(* ===== verification/StdMap.v ===== *)
(** * StdMap: [std::map<int32_t, V>] as an ordered association list

    The connection maps of the controls are iterated in key order, and some
    operations stop at the first element that matches, so the order is part of
    the model.  [smap_ok] is the representation invariant (strictly increasing
    keys); [sm_insert] does not overwrite, as [std::map::insert]. *)

From stdpp Require Import base tactics option list numbers gmap.
From Stdlib Require Import ZArith Lia Sorted.
From S2P Require Import Prelude.

Open Scope Z_scope.

Abbreviation smap V := (list (Z * V)).

Section StdMap.
Context {V : Type}.
Implicit Types (m : smap V) (k : Z) (v : V).

Definition sm_keys m : list Z := m.*1.
Definition sm_size m : Z := Z.of_nat (length m).
Definition sm_empty m : bool := match m with [] => true | _ => false end.

Fixpoint sm_lookup k m : option V :=
  match m with
  | [] => None
  | (k', v) :: m' => if bool_decide (k = k') then Some v else sm_lookup k m'
  end.

(** The first element, in key order, whose value satisfies [p]. *)
Fixpoint sm_find (p : V → bool) m : option (Z * V) :=
  match m with
  | [] => None
  | (k, v) :: m' => if p v then Some (k, v) else sm_find p m'
  end.

(** [m.insert({k, v})]: keeps the element already there. *)
Fixpoint sm_insert k v m : smap V :=
  match m with
  | [] => [(k, v)]
  | (k', v') :: m' =>
      if k <? k' then (k, v) :: m
      else if k =? k' then m
      else (k', v') :: sm_insert k v m'
  end.

(** Writing through a pointer to the element under [k]. *)
Definition sm_alter (f : V → V) k m : smap V :=
  map (λ '(k', v), (k', if bool_decide (k = k') then f v else v)) m.

(** [for (auto &it : m) it.second = f(it.second)] *)
Definition sm_map (f : V → V) m : smap V := map (λ '(k, v), (k, f v)) m.

(** Erasing the elements whose value does not satisfy [p]. *)
Definition sm_filter (p : V → bool) m : smap V := List.filter (λ '(_, v), p v) m.

(** [m.erase(k)] *)
Definition sm_erase k m : smap V := List.filter (λ '(k', _), negb (k' =? k)) m.

Definition sm_any (p : V → bool) m : bool := existsb (λ '(_, v), p v) m.

Definition smap_ok m : Prop := StronglySorted Z.lt (sm_keys m).
Definition sm_dom m : gset Z := list_to_set (sm_keys m).

(** ** Lookups *)

Lemma sm_lookup_alter f k k' m :
  sm_lookup k' (sm_alter f k m) =
    if bool_decide (k' = k) then f <$> sm_lookup k' m else sm_lookup k' m.
Proof.
  induction m as [|[k1 v1] m IH]; simpl; [by case_bool_decide|].
  rewrite IH. destruct (decide (k' = k1)) as [->|]; repeat case_bool_decide; simplify_eq;
    done || congruence.
Qed.
Lemma sm_lookup_alter_const k c c' m :
  sm_lookup k m = Some c → sm_lookup k (sm_alter (λ _, c') k m) = Some c'.
Proof. intros Hk. by rewrite sm_lookup_alter, bool_decide_true, Hk. Qed.
Lemma sm_alter_alter k f c m : sm_alter (λ _, c) k (sm_alter f k m) = sm_alter (λ _, c) k m.
Proof.
  unfold sm_alter. rewrite map_map. apply map_ext. intros [k' v']. by case_bool_decide.
Qed.
Lemma sm_lookup_map f k m : sm_lookup k (sm_map f m) = f <$> sm_lookup k m.
Proof.
  induction m as [|[k1 v1] m IH]; simpl; [done|]. rewrite IH. by case_bool_decide.
Qed.

(** ** Keys *)

Lemma sm_keys_alter f k m : sm_keys (sm_alter f k m) = sm_keys m.
Proof. unfold sm_keys. induction m as [|[k1 v1] m IH]; simpl; [done|]. f_equal. apply IH. Qed.
Lemma sm_keys_map f m : sm_keys (sm_map f m) = sm_keys m.
Proof. unfold sm_keys. induction m as [|[k1 v1] m IH]; simpl; [done|]. f_equal. apply IH. Qed.
Lemma sm_lookup_keys k m : is_Some (sm_lookup k m) ↔ k ∈ sm_keys m.
Proof.
  unfold sm_keys. induction m as [|[k1 v1] m IH]; simpl.
  { split; [by intros []|by intros ?%not_elem_of_nil]. }
  rewrite elem_of_cons, <-IH. case_bool_decide; naive_solver.
Qed.
Lemma sm_lookup_None k m : sm_lookup k m = None ↔ k ∉ sm_keys m.
Proof. rewrite <-sm_lookup_keys, eq_None_not_Some. done. Qed.
Lemma sm_elem_of_keys_insert k k' v m :
  k' ∈ sm_keys (sm_insert k v m) ↔ k' = k ∨ k' ∈ sm_keys m.
Proof.
  unfold sm_keys. induction m as [|[k1 v1] m IH]; simpl.
  { rewrite elem_of_cons. done. }
  destruct (Z.ltb_spec k k1); simpl; [by rewrite !elem_of_cons|].
  destruct (Z.eqb_spec k k1); simpl; [subst; rewrite elem_of_cons; naive_solver|].
  rewrite !elem_of_cons, IH. naive_solver.
Qed.
Lemma elem_of_sm_dom k m : k ∈ sm_dom m ↔ is_Some (sm_lookup k m).
Proof. unfold sm_dom. by rewrite elem_of_list_to_set, sm_lookup_keys. Qed.

(** ** The invariant *)

Lemma smap_ok_nil : smap_ok [].
Proof. constructor. Qed.
Lemma smap_ok_insert k v m : smap_ok m → smap_ok (sm_insert k v m).
Proof.
  unfold smap_ok. induction m as [|[k1 v1] m IH]; simpl; intros Hm; [by repeat constructor|].
  apply StronglySorted_inv in Hm as [Hm Hk1].
  destruct (Z.ltb_spec k k1); simpl.
  { constructor; [by constructor|]. constructor; [done|].
    eapply Forall_impl; [done|]. simpl. lia. }
  destruct (Z.eqb_spec k k1); simpl; [by constructor|].
  constructor; [by apply IH|]. rewrite Forall_forall in Hk1 |- *.
  intros k' [->|?]%sm_elem_of_keys_insert; [lia|auto].
Qed.
Lemma smap_ok_alter f k m : smap_ok m → smap_ok (sm_alter f k m).
Proof. unfold smap_ok. by rewrite sm_keys_alter. Qed.
Lemma smap_ok_map f m : smap_ok m → smap_ok (sm_map f m).
Proof. unfold smap_ok. by rewrite sm_keys_map. Qed.
Lemma smap_ok_filter p m : smap_ok m → smap_ok (sm_filter p m).
Proof.
  unfold smap_ok. induction m as [|[k v] m IH]; simpl; intros Hm; [done|].
  apply StronglySorted_inv in Hm as [Hm Hk]. destruct (p v); simpl; [|auto].
  constructor; [auto|]. rewrite Forall_forall in Hk |- *. intros k' Hin. apply Hk.
  clear -Hin. unfold sm_keys in *. induction m as [|[k1 v1] m IH]; simpl in *; [done|].
  destruct (p v1); simpl in *; rewrite elem_of_cons in *; [naive_solver|auto].
Qed.
Lemma smap_ok_lookup_head k v m : smap_ok ((k, v) :: m) → sm_lookup k m = None.
Proof.
  intros [_ Hk]%StronglySorted_inv. apply sm_lookup_None. intros Hin.
  rewrite Forall_forall in Hk. specialize (Hk _ Hin). simpl in Hk. lia.
Qed.
Lemma sm_lookup_insert_fresh k k' v m :
  smap_ok m → sm_lookup k m = None →
  sm_lookup k' (sm_insert k v m) = if bool_decide (k' = k) then Some v else sm_lookup k' m.
Proof.
  induction m as [|[k1 v1] m IH]; simpl; intros Hm Hk; [done|].
  pose proof (smap_ok_lookup_head _ _ _ Hm) as Hh.
  apply StronglySorted_inv in Hm as [Hm _].
  destruct (Z.ltb_spec k k1); simpl; [done|].
  destruct (Z.eqb_spec k k1); simpl; [by rewrite bool_decide_true in Hk|].
  rewrite bool_decide_false in Hk by done. rewrite IH by done.
  repeat case_bool_decide; subst; done || congruence.
Qed.
Lemma sm_insert_present k v m : smap_ok m → is_Some (sm_lookup k m) → sm_insert k v m = m.
Proof.
  induction m as [|[k1 v1] m IH]; simpl; intros Hm [v' Hk]; [done|].
  pose proof (smap_ok_lookup_head _ _ _ Hm) as Hh.
  pose proof (StronglySorted_inv Hm) as [Hm' Hall].
  destruct (Z.ltb_spec k k1); simpl.
  { rewrite bool_decide_false in Hk by lia.
    assert (k ∈ sm_keys m) as Hin by (apply sm_lookup_keys; eauto).
    rewrite Forall_forall in Hall. specialize (Hall _ Hin). simpl in Hall. lia. }
  destruct (Z.eqb_spec k k1); simpl; [done|].
  rewrite bool_decide_false in Hk by done. f_equal. apply IH; eauto.
Qed.
Lemma sm_elem_of_lookup k v m : smap_ok m → (k, v) ∈ m ↔ sm_lookup k m = Some v.
Proof.
  induction m as [|[k1 v1] m IH]; intros Hm; simpl.
  { split; [by intros ?%not_elem_of_nil|done]. }
  pose proof (smap_ok_lookup_head _ _ _ Hm) as Hh.
  apply StronglySorted_inv in Hm as [Hm _].
  rewrite elem_of_cons, IH by done. case_bool_decide; [subst; naive_solver|naive_solver].
Qed.
Lemma sm_lookup_filter p k m :
  smap_ok m →
  sm_lookup k (sm_filter p m) =
    match sm_lookup k m with Some v => if p v then Some v else None | None => None end.
Proof.
  induction m as [|[k1 v1] m IH]; intros Hm; simpl; [done|].
  pose proof (smap_ok_lookup_head _ _ _ Hm) as Hh.
  apply StronglySorted_inv in Hm as [Hm _]. specialize (IH Hm).
  destruct (p v1) eqn:E; simpl; case_bool_decide; subst; rewrite ?E; try done.
  by rewrite IH, Hh.
Qed.

Lemma sm_lookup_erase k k' m :
  sm_lookup k' (sm_erase k m) = if bool_decide (k' = k) then None else sm_lookup k' m.
Proof.
  unfold sm_erase. induction m as [|[k1 v1] m IH]; simpl; [by case_bool_decide|].
  destruct (Z.eqb_spec k1 k); simpl; repeat case_bool_decide; subst; try done.
Qed.
Lemma smap_ok_erase k m : smap_ok m → smap_ok (sm_erase k m).
Proof.
  unfold smap_ok. induction m as [|[k1 v1] m IH]; simpl; intros Hm; [done|].
  apply StronglySorted_inv in Hm as [Hm Hk]. destruct (k1 =? k); simpl; [auto|].
  constructor; [auto|]. rewrite Forall_forall in Hk |- *. intros k' Hin. apply Hk.
  apply sm_lookup_keys in Hin. rewrite sm_lookup_erase in Hin. case_bool_decide; [by destruct Hin|].
  by apply sm_lookup_keys.
Qed.
Lemma sm_keys_erase k k' m : k' ∈ sm_keys (sm_erase k m) → k' ∈ sm_keys m.
Proof.
  rewrite <-!sm_lookup_keys, sm_lookup_erase. case_bool_decide; [by intros []|done].
Qed.
(** Two maps with the same lookups are the same list. *)
Lemma smap_ok_cons k v m : smap_ok ((k, v) :: m) → smap_ok m ∧ ∀ k', k' ∈ sm_keys m → k < k'.
Proof.
  intros [Hm Hk]%StronglySorted_inv. split; [done|]. by apply Forall_forall.
Qed.
Lemma sm_ext m1 m2 :
  smap_ok m1 → smap_ok m2 → (∀ k, sm_lookup k m1 = sm_lookup k m2) → m1 = m2.
Proof.
  revert m2. induction m1 as [|[k1 v1] m1 IH]; intros [|[k2 v2] m2] H1 H2 Hl.
  - done.
  - specialize (Hl k2). simpl in Hl. by rewrite bool_decide_true in Hl.
  - specialize (Hl k1). simpl in Hl. by rewrite bool_decide_true in Hl.
  - pose proof (smap_ok_lookup_head _ _ _ H1) as Hn1.
    pose proof (smap_ok_lookup_head _ _ _ H2) as Hn2.
    apply smap_ok_cons in H1 as [H1 Hk1], H2 as [H2 Hk2].
    assert (k1 = k2) as <-.
    { destruct (decide (k1 = k2)) as [|Hne]; [done|].
      pose proof (Hl k1) as Hl1. pose proof (Hl k2) as Hl2. simpl in Hl1, Hl2.
      rewrite bool_decide_true, bool_decide_false in Hl1 by done.
      rewrite (bool_decide_true (k2 = k2)), bool_decide_false in Hl2 by done.
      assert (k2 < k1) by (apply Hk2, sm_lookup_keys; eauto).
      assert (k1 < k2) by (apply Hk1, sm_lookup_keys; eauto). lia. }
    pose proof (Hl k1) as Hv. simpl in Hv. rewrite !bool_decide_true in Hv by done.
    injection Hv as <-. f_equal. apply IH; [done..|]. intros k.
    specialize (Hl k). simpl in Hl. case_bool_decide; [subst; congruence|done].
Qed.

Lemma sm_erase_insert k v m :
  smap_ok m → sm_lookup k m = None → sm_erase k (sm_insert k v m) = m.
Proof.
  intros Hm Hk. apply sm_ext; [by apply smap_ok_erase, smap_ok_insert|done|]. intros k'.
  rewrite sm_lookup_erase, sm_lookup_insert_fresh by done. case_bool_decide; by subst.
Qed.
Lemma sm_alter_const f k c m :
  smap_ok m → sm_lookup k m = Some c → sm_alter (λ _, f c) k m = sm_alter f k m.
Proof.
  intros Hm Hk. apply sm_ext; [by apply smap_ok_alter..|]. intros k'.
  rewrite !sm_lookup_alter. case_bool_decide; [|done]. subst. by rewrite Hk.
Qed.

(** ** Searching *)

Lemma sm_find_Some p m k v : sm_find p m = Some (k, v) → (k, v) ∈ m ∧ p v = true.
Proof.
  induction m as [|[k1 v1] m IH]; simpl; [done|].
  destruct (p v1) eqn:E; [intros [= -> ->]; split; [by left|done]|].
  intros [? ?]%IH. split; [by right|done].
Qed.
Lemma sm_find_None p m : sm_find p m = None ↔ Forall (λ '(_, v), p v = false) m.
Proof.
  induction m as [|[k1 v1] m IH]; simpl; [by split|]. rewrite Forall_cons, <-IH.
  destruct (p v1); naive_solver.
Qed.
Lemma sm_any_find p m : sm_any p m = true ↔ is_Some (sm_find p m).
Proof.
  unfold sm_any. induction m as [|[k1 v1] m IH]; simpl; [by split; [|intros []]|].
  destruct (p v1); simpl; [naive_solver|done].
Qed.

(** Changing one element of a map none of whose elements satisfies [p]. *)
Lemma sm_find_alter p k c c' m :
  smap_ok m → sm_find p m = None → sm_lookup k m = Some c →
  sm_find p (sm_alter (λ _, c') k m) = if p c' then Some (k, c') else None.
Proof.
  induction m as [|[k1 c1] m IH]; simpl; intros Hm Hf Hk; [done|].
  destruct (p c1) eqn:Hp; [done|]. apply smap_ok_cons in Hm as [Hm Hlt].
  case_bool_decide as Hk1.
  - subst. destruct (p c') eqn:Hc'; [done|]. rewrite <-Hf. f_equal. clear -Hlt.
    assert (∀ k', k' ∈ sm_keys m → k1 ≠ k') as Hne by (intros k' ?%Hlt; lia). clear Hlt.
    induction m as [|[k2 c2] m IH]; simpl; [done|]. unfold sm_keys in *. simpl in Hne.
    rewrite bool_decide_false by (apply Hne; by left). f_equal. apply IH.
    intros k' Hk'. apply Hne. by right.
  - rewrite Hp. by apply IH.
Qed.
End StdMap.

#[export] Hint Resolve smap_ok_nil smap_ok_insert smap_ok_alter smap_ok_map smap_ok_filter : cc.
