(* ===== verification/Connection.v ===== *)
(** * Connection: one call session (services/connection/base_connection)

    [BaseConnection] holds what the CS, IMS and satellite connections share:
    the last report, the mark used when the call list is compared, the index,
    the number, and the post-dial machine.  [Conn] is the interface of a
    derived connection: access to its base part.  [PostDial] is the interface
    of the virtual [ProcessPostDialCallChar] that the post-dial machine calls,
    with what each implementation must promise. *)

From stdpp Require Import base tactics option list numbers strings.
From Stdlib Require Import ZArith Lia Ascii String.
From S2P Require Import Prelude Platform Standardize.

Open Scope Z_scope.

Record BaseConnection := {
  phoneNumber_ : string;
  flag_ : bool;
  index_ : Z;
  number_ : string;
  callReportInfo_ : CallReportInfo;
  postDialCalltate_ : PostDialCallState;
  nextPostDialCallCode_ : Z;
  postDialCallString_ : string
}.

Definition PAUSE_DELAY_TIME : Z := 3 * 1000.

(** ** Fields *)

Definition set_phoneNumber (v : string) (b : BaseConnection) : BaseConnection :=
  {| phoneNumber_ := v; flag_ := flag_ b; index_ := index_ b; number_ := number_ b;
     callReportInfo_ := callReportInfo_ b; postDialCalltate_ := postDialCalltate_ b;
     nextPostDialCallCode_ := nextPostDialCallCode_ b;
     postDialCallString_ := postDialCallString_ b |}.
Definition SetFlag (v : bool) (b : BaseConnection) : BaseConnection :=
  {| phoneNumber_ := phoneNumber_ b; flag_ := v; index_ := index_ b; number_ := number_ b;
     callReportInfo_ := callReportInfo_ b; postDialCalltate_ := postDialCalltate_ b;
     nextPostDialCallCode_ := nextPostDialCallCode_ b;
     postDialCallString_ := postDialCallString_ b |}.
Definition SetIndex (v : Z) (b : BaseConnection) : BaseConnection :=
  {| phoneNumber_ := phoneNumber_ b; flag_ := flag_ b; index_ := v; number_ := number_ b;
     callReportInfo_ := callReportInfo_ b; postDialCalltate_ := postDialCalltate_ b;
     nextPostDialCallCode_ := nextPostDialCallCode_ b;
     postDialCallString_ := postDialCallString_ b |}.
Definition SetNumber (v : string) (b : BaseConnection) : BaseConnection :=
  {| phoneNumber_ := phoneNumber_ b; flag_ := flag_ b; index_ := index_ b; number_ := v;
     callReportInfo_ := callReportInfo_ b; postDialCalltate_ := postDialCalltate_ b;
     nextPostDialCallCode_ := nextPostDialCallCode_ b;
     postDialCallString_ := postDialCallString_ b |}.
Definition SetOrUpdateCallReportInfo (v : CallReportInfo) (b : BaseConnection) : BaseConnection :=
  {| phoneNumber_ := phoneNumber_ b; flag_ := flag_ b; index_ := index_ b; number_ := number_ b;
     callReportInfo_ := v; postDialCalltate_ := postDialCalltate_ b;
     nextPostDialCallCode_ := nextPostDialCallCode_ b;
     postDialCallString_ := postDialCallString_ b |}.
Definition SetPostDialCallState (v : PostDialCallState) (b : BaseConnection) : BaseConnection :=
  {| phoneNumber_ := phoneNumber_ b; flag_ := flag_ b; index_ := index_ b; number_ := number_ b;
     callReportInfo_ := callReportInfo_ b; postDialCalltate_ := v;
     nextPostDialCallCode_ := nextPostDialCallCode_ b;
     postDialCallString_ := postDialCallString_ b |}.
Definition set_nextPostDialCallCode (v : Z) (b : BaseConnection) : BaseConnection :=
  {| phoneNumber_ := phoneNumber_ b; flag_ := flag_ b; index_ := index_ b; number_ := number_ b;
     callReportInfo_ := callReportInfo_ b; postDialCalltate_ := postDialCalltate_ b;
     nextPostDialCallCode_ := v;
     postDialCallString_ := postDialCallString_ b |}.
Definition set_postDialCallString (v : string) (b : BaseConnection) : BaseConnection :=
  {| phoneNumber_ := phoneNumber_ b; flag_ := flag_ b; index_ := index_ b; number_ := number_ b;
     callReportInfo_ := callReportInfo_ b; postDialCalltate_ := postDialCalltate_ b;
     nextPostDialCallCode_ := nextPostDialCallCode_ b;
     postDialCallString_ := v |}.

(** The constructor, with the members' default initialisers. *)
Definition BaseConnection_new `{CallConsts, Env} : BaseConnection :=
  {| phoneNumber_ := ""; flag_ := false; index_ := 1; number_ := "";
     callReportInfo_ := zeroed CallReportInfo_init CallReportInfo_zero;
     postDialCalltate_ := POST_DIAL_CALL_NOT_STARTED;
     nextPostDialCallCode_ := 0; postDialCallString_ := "" |}.

Definition GetCallReportInfo (b : BaseConnection) : CallReportInfo := callReportInfo_ b.
Definition SetStatus (state : Z) (b : BaseConnection) : BaseConnection :=
  SetOrUpdateCallReportInfo (cr_set_state state (callReportInfo_ b)) b.
Definition GetStatus (b : BaseConnection) : Z := cr_state (callReportInfo_ b).
Definition GetFlag (b : BaseConnection) : bool := flag_ b.
Definition GetIndex (b : BaseConnection) : Z := index_ b.
Definition GetNumber (b : BaseConnection) : string := number_ b.
Definition IsRingingState `{CallConsts} (b : BaseConnection) : bool :=
  bool_decide (GetStatus b = CALL_STATUS_INCOMING) ||
  bool_decide (GetStatus b = CALL_STATUS_WAITING) ||
  bool_decide (GetStatus b = CALL_STATUS_ALERTING).
Definition UpdatePendingHoldFlag (isPendingHold : bool) (b : BaseConnection) : BaseConnection :=
  SetOrUpdateCallReportInfo (cr_set_isPendingHold isPendingHold (callReportInfo_ b)) b.
(** [phoneNumber_] and [postDialCallString_] are appended to, not replaced. *)
Definition UpdateCallNumber (phoneNum : string) (b : BaseConnection) : BaseConnection :=
  let '(address, postDial) :=
    ExtractAddressAndPostDial phoneNum (phoneNumber_ b) (postDialCallString_ b) in
  set_postDialCallString postDial (set_phoneNumber address b).

(** [postDialCallString_.empty() || postDialCallString_.length() <= (size_t)next] *)
Definition post_dial_exhausted (b : BaseConnection) : bool :=
  string_empty (postDialCallString_ b) ||
  (string_size (postDialCallString_ b) <=? size_t (nextPostDialCallCode_ b)).
(** [postDialCallString_.at(next)]; in range by [post_dial_at_in_range]. *)
Definition post_dial_at (b : BaseConnection) : ascii :=
  default "000"%char
    (String.get (Z.to_nat (size_t (nextPostDialCallCode_ b))) (postDialCallString_ b)).
Definition GetLeftPostDialCallString (b : BaseConnection) : string :=
  if post_dial_exhausted b then ""
  else
    let n := Z.to_nat (size_t (nextPostDialCallCode_ b)) in
    String.substring n (String.length (postDialCallString_ b) - n) (postDialCallString_ b).

(** ** Derived connections *)

Class Conn (C : Type) := {
  conn_base : C → BaseConnection;
  conn_set_base : BaseConnection → C → C;
  conn_base_set : ∀ b c, conn_base (conn_set_base b c) = b
}.

(** A [BaseConnection] method called on a derived object. *)
Definition upd `{Conn C} (f : BaseConnection → BaseConnection) (c : C) : C :=
  conn_set_base (f (conn_base c)) c.

Lemma conn_base_upd `{Conn C} f (c : C) : conn_base (upd f c) = f (conn_base c).
Proof. apply conn_base_set. Qed.
#[export] Hint Rewrite @conn_base_upd @conn_base_set : cc_base.

Section PostDial.
Context `{CallConsts, Env}.

(** The state a post-dial character leaves the machine in. *)
Definition post_dial_next_state (c : ascii) : PostDialCallState :=
  if IsDtmfKey c then POST_DIAL_CALL_STARTED
  else if IsPauseKey c then POST_DIAL_CALL_PAUSE
  else if IsWaitKey c then POST_DIAL_CALL_DELAY
  else POST_DIAL_CALL_STARTED.

(** The virtual method and its contract: of the base part it may change the
    post-dial state only, in the way the kind of key says. *)
Class PostDial (C : Type) `{Conn C} := {
  ProcessPostDialCallChar : Z → ascii → Op C Z;
  process_char_spec : ∀ slotId ch (c : C) h,
    postDialCalltate_ (conn_base c) = POST_DIAL_CALL_STARTED →
    wp (ProcessPostDialCallChar slotId ch)
      (λ _ c' _, conn_base c' =
         SetPostDialCallState (post_dial_next_state ch) (conn_base c)) c h
}.

Definition ProcessNextChar `{PostDial C} (slotId : Z)
    : Op C (PostDialCallState * option ascii) :=
  let! this := mgets conn_base in
  if bool_decide (postDialCalltate_ this = POST_DIAL_CALL_CANCELED) then
    mret (POST_DIAL_CALL_CANCELED, None)
  else if post_dial_exhausted this then
    mmodify (upd (SetPostDialCallState POST_DIAL_CALL_COMPLETE)) ;;
    mret (POST_DIAL_CALL_COMPLETE, None)
  else
    mmodify (upd (SetPostDialCallState POST_DIAL_CALL_STARTED)) ;;
    let c := post_dial_at this in
    mmodify (upd (set_nextPostDialCallCode (i32 (nextPostDialCallCode_ this + 1)))) ;;
    ProcessPostDialCallChar slotId c ;;
    let! this' := mgets conn_base in
    mret (postDialCalltate_ this', Some c).

(** Nothing reported is out of range: [at] never throws. *)
Lemma post_dial_at_in_range b :
  post_dial_exhausted b = false →
  String.get (Z.to_nat (size_t (nextPostDialCallCode_ b))) (postDialCallString_ b) =
    Some (post_dial_at b).
Proof.
  unfold post_dial_exhausted, post_dial_at, string_size.
  intros [_ Hlt%Z.leb_gt]%orb_false_iff.
  assert (0 ≤ size_t (nextPostDialCallCode_ b)) by (apply Z.mod_pos_bound; lia).
  destruct (String.get _ _) eqn:Eg; [done|]. exfalso. revert Eg.
  set (n := Z.to_nat _). assert (n < String.length (postDialCallString_ b))%nat as Hn by lia.
  clearbody n. revert n Hn. generalize (postDialCallString_ b) as s.
  induction s as [|x s IH]; intros n Hn; simpl in *; [lia|].
  destruct n; [done|]. apply IH. lia.
Qed.

(** One step of the machine on a connection that still has characters. *)
Lemma ProcessNextChar_step `{PostDial C} slotId (c : C) h :
  postDialCalltate_ (conn_base c) ≠ POST_DIAL_CALL_CANCELED →
  post_dial_exhausted (conn_base c) = false →
  wp (ProcessNextChar slotId)
    (λ r c' _,
       let ch := post_dial_at (conn_base c) in
       r = (post_dial_next_state ch, Some ch) ∧
       conn_base c' =
         SetPostDialCallState (post_dial_next_state ch)
           (set_nextPostDialCallCode (i32 (nextPostDialCallCode_ (conn_base c) + 1))
             (conn_base c))) c h.
Proof.
  intros Hs He. unfold ProcessNextChar. apply wp_then. unfold wp at 1. simpl.
  rewrite bool_decide_false, He by done.
  apply wp_then. unfold wp at 1. simpl. apply wp_then. unfold wp at 1. simpl.
  apply wp_then.
  eapply wp_mono; [apply process_char_spec; by rewrite !conn_base_upd|].
  intros r c' e Hc'. cbn beta in *. unfold wp. simpl. rewrite !conn_base_upd in Hc'.
  rewrite Hc'. done.
Qed.

Lemma ProcessNextChar_done `{PostDial C} slotId (c : C) h :
  postDialCalltate_ (conn_base c) ≠ POST_DIAL_CALL_CANCELED →
  post_dial_exhausted (conn_base c) = true →
  ProcessNextChar slotId c h =
    ((POST_DIAL_CALL_COMPLETE, None),
     upd (SetPostDialCallState POST_DIAL_CALL_COMPLETE) c, []).
Proof.
  intros Hs He. unfold ProcessNextChar, mthen, mgets. simpl.
  by rewrite bool_decide_false, He by done.
Qed.

(** The machine changes its own two fields and nothing else. *)
Definition pd_frame (b b' : BaseConnection) : Prop :=
  ∃ st n, b' = SetPostDialCallState st (set_nextPostDialCallCode n b).

Lemma ProcessNextChar_frame `{PostDial C} slotId (c : C) h :
  wp (ProcessNextChar slotId) (λ _ c' _, pd_frame (conn_base c) (conn_base c')) c h.
Proof.
  destruct (decide (postDialCalltate_ (conn_base c) = POST_DIAL_CALL_CANCELED)) as [Hs|Hs].
  { unfold wp, ProcessNextChar, mthen, mgets. simpl. rewrite bool_decide_true by done. simpl.
    exists (postDialCalltate_ (conn_base c)), (nextPostDialCallCode_ (conn_base c)).
    by destruct (conn_base c). }
  destruct (post_dial_exhausted (conn_base c)) eqn:He.
  - unfold wp. rewrite ProcessNextChar_done by done. rewrite conn_base_upd.
    exists POST_DIAL_CALL_COMPLETE, (nextPostDialCallCode_ (conn_base c)).
    by destruct (conn_base c).
  - eapply wp_mono; [by apply ProcessNextChar_step|]. intros r c' e [_ ->].
    by eexists _, _.
Qed.

(** The machine driven [n] times: what each step hands out. *)
Fixpoint drain `{PostDial C} (n : nat) (slotId : Z)
    : Op C (list (PostDialCallState * option ascii)) :=
  match n with
  | O => mret []
  | S n' =>
      let! r := ProcessNextChar slotId in
      let! rs := drain n' slotId in
      mret (r :: rs)
  end.

(** The string not yet consumed. *)
Definition post_dial_left (b : BaseConnection) : string :=
  String.substring (Z.to_nat (nextPostDialCallCode_ b))
    (String.length (postDialCallString_ b)) (postDialCallString_ b).
(** The machine's counter is inside the string, and the string fits [int32_t]. *)
Definition post_dial_ok (b : BaseConnection) : Prop :=
  0 ≤ nextPostDialCallCode_ b ≤ string_size (postDialCallString_ b) ∧
  string_size (postDialCallString_ b) < 2 ^ 31 - 1.

Lemma substring_get n m s :
  (String.length s ≤ n + m)%nat →
  String.substring n m s =
    match String.get n s with
    | Some c => String c (String.substring (S n) m s)
    | None => ""
    end.
Proof.
  revert n m. induction s as [|x s IH]; intros n m; simpl; [by destruct n, m|].
  intros Hl. destruct n as [|n].
  - destruct m as [|m]; [lia|]. simpl. f_equal.
    assert (∀ a k, (String.length s ≤ a)%nat → (String.length s ≤ k)%nat →
      String.substring 0 a s = String.substring 0 k s) as Hsat.
    { clear. induction s as [|y s IH]; intros a k Ha Hk; simpl in *; [by destruct a, k|].
      destruct a, k; try lia. simpl. f_equal. apply IH; lia. }
    apply Hsat; lia.
  - rewrite IH by lia. by destruct (String.get n s).
Qed.

Lemma post_dial_left_cases b :
  post_dial_ok b →
  if post_dial_exhausted b then post_dial_left b = ""
  else post_dial_left b =
    String (post_dial_at b)
      (post_dial_left (set_nextPostDialCallCode (i32 (nextPostDialCallCode_ b + 1)) b)) ∧
    post_dial_ok (set_nextPostDialCallCode (i32 (nextPostDialCallCode_ b + 1)) b).
Proof.
  intros [Hn Hl]. pose proof (post_dial_at_in_range b) as Hat. revert Hat.
  unfold post_dial_exhausted, post_dial_left, post_dial_ok, string_size, string_empty in *.
  cbn [nextPostDialCallCode_ postDialCallString_ set_nextPostDialCallCode].
  rewrite size_t_id, i32_id by lia.
  rewrite substring_get by lia.
  case_bool_decide as He; simpl; [rewrite He in *; by destruct (Z.to_nat _)|].
  destruct (Z.leb_spec (Z.of_nat (String.length (postDialCallString_ b)))
    (nextPostDialCallCode_ b)) as [Hle|Hlt]; intros Hat.
  - destruct (String.get _ _) eqn:Eg; [|done]. exfalso.
    assert (String.length (postDialCallString_ b) ≤ Z.to_nat (nextPostDialCallCode_ b))%nat
      as Hle' by lia.
    clear -Eg Hle'. revert Eg Hle'. generalize (Z.to_nat (nextPostDialCallCode_ b)) as n.
    generalize (postDialCallString_ b) as s.
    induction s as [|x s IH]; intros n; simpl; [by destruct n|].
    destruct n; [lia|]. intros ??. eapply IH; [done|lia].
  - rewrite Hat by done. split; [|lia].
    by replace (Z.to_nat (nextPostDialCallCode_ b + 1))
      with (S (Z.to_nat (nextPostDialCallCode_ b))) by lia.
Qed.

Lemma drain_left `{PostDial C} slotId s (c : C) h :
  postDialCalltate_ (conn_base c) ≠ POST_DIAL_CALL_CANCELED →
  post_dial_ok (conn_base c) → post_dial_left (conn_base c) = s →
  wp (drain (S (String.length s)) slotId)
    (λ rs c' _,
       rs = ((λ ch, (post_dial_next_state ch, Some ch)) <$> list_ascii_of_string s) ++
            [(POST_DIAL_CALL_COMPLETE, None)] ∧
       post_dial_left (conn_base c') = "") c h.
Proof.
  revert c h. induction s as [|ch s IH]; intros c h Hs Hok Hleft;
    pose proof (post_dial_left_cases _ Hok) as Hcases;
    destruct (post_dial_exhausted (conn_base c)) eqn:Hex.
  - unfold wp, drain, mthen. rewrite ProcessNextChar_done by done. simpl.
    split; [done|]. by rewrite conn_base_upd.
  - destruct Hcases as [Heq _]. congruence.
  - congruence.
  - destruct Hcases as [Heq Hok']. rewrite Hleft in Heq. injection Heq as -> Hs'.
    change (drain (S (String.length (String (post_dial_at (conn_base c)) s))) slotId)
      with (let! r := ProcessNextChar slotId in
            let! rs := drain (S (String.length s)) slotId in mret (r :: rs)).
    apply wp_then. eapply wp_mono; [by apply ProcessNextChar_step|].
    intros r c' e [-> Hc']. cbn beta zeta in *. apply wp_then.
    eapply wp_mono; [apply IH; rewrite Hc'|].
    + simpl. unfold post_dial_next_state. by repeat case_match.
    + done.
    + by rewrite Hs'.
    + intros rs c'' e' [-> Hleft']. by split.
Qed.

(** C39: post-dial delivery.  Driven once per character (from the DTMF answer,
    the pause timer or the user's go-ahead), the machine hands out every
    character of the remaining post-dial string, in order and exactly once, is
    in state PAUSE after a comma and DELAY after a semicolon, never reads out
    of range, and the next drive reports COMPLETE. *)
Theorem post_dial_delivers_all `{PostDial C} slotId (c : C) h
  (Hs : postDialCalltate_ (conn_base c) ≠ POST_DIAL_CALL_CANCELED)
  (Hok : post_dial_ok (conn_base c)) :
  let left := post_dial_left (conn_base c) in
  wp (drain (S (String.length left)) slotId)
    (λ rs c' _,
       rs = ((λ ch, (post_dial_next_state ch, Some ch)) <$> list_ascii_of_string left) ++
            [(POST_DIAL_CALL_COMPLETE, None)] ∧
       post_dial_left (conn_base c') = "") c h.
Proof. by apply drain_left. Qed.
End PostDial.
