(* ===== verification/Regex.v ===== *)
(** * Regex: the part of [std::regex] (ECMAScript grammar) the MMI code uses

    Character classes, sequence, ordered alternative, greedy optional, greedy
    star of a class and capture groups, matched by backtracking in the order
    the standard prescribes.  [rmatches] is the declarative meaning, and
    [rmatch_sound] says that a successful run is a match in that sense. *)

From stdpp Require Import base tactics option list numbers strings.
From Stdlib Require Import ZArith Lia Ascii String.
From S2P Require Import Prelude Standardize.

#[local] Arguments String.append : simpl nomatch.

Inductive re :=
  | RChar (p : ascii → bool)
  | RSeq (a b : re)
  | RAlt (a b : re)
  | ROpt (a : re)
  | RStar (p : ascii → bool)
  | RGroup (n : nat) (a : re).

(** [results.str(n)]: empty for a group that took no part. *)
Definition captures : Type := nat → string.
Definition no_captures : captures := λ _, "".
Definition set_capture (n : nat) (v : string) (c : captures) : captures :=
  λ m, if Nat.eqb m n then v else c m.

(** The text between two suffixes of the subject. *)
Definition consumed (s rest : string) : string :=
  String.substring 0 (String.length s - String.length rest) s.

Section Match.
Context {R : Type}.

Fixpoint rstar (p : ascii → bool) (s : string) (k : string → option R) : option R :=
  match s with
  | EmptyString => k EmptyString
  | String c s' =>
      if p c then
        match rstar p s' k with
        | Some x => Some x
        | None => k s
        end
      else k s
  end.

Fixpoint rmatch (r : re) (s : string) (c : captures)
    (k : string → captures → option R) : option R :=
  match r with
  | RChar p =>
      match s with
      | String x s' => if p x then k s' c else None
      | EmptyString => None
      end
  | RSeq a b => rmatch a s c (λ s' c', rmatch b s' c' k)
  | RAlt a b =>
      match rmatch a s c k with
      | Some x => Some x
      | None => rmatch b s c k
      end
  | ROpt a =>
      match rmatch a s c k with
      | Some x => Some x
      | None => k s c
      end
  | RStar p => rstar p s (λ s', k s' c)
  | RGroup n a => rmatch a s c (λ s' c', k s' (set_capture n (consumed s s') c'))
  end.
End Match.

(** [regex_match(s, results, r)]: the whole subject must match. *)
Definition regex_match (r : re) (s : string) : option captures :=
  rmatch r s no_captures (λ s' c, if string_empty s' then Some c else None).

(** ** Declarative meaning *)

Fixpoint rmatches (r : re) (w : string) (c c' : captures) : Prop :=
  match r with
  | RChar p => ∃ x, w = String x "" ∧ p x = true ∧ c' = c
  | RSeq a b => ∃ w1 w2 c1, w = w1 +:+ w2 ∧ rmatches a w1 c c1 ∧ rmatches b w2 c1 c'
  | RAlt a b => rmatches a w c c' ∨ rmatches b w c c'
  | ROpt a => rmatches a w c c' ∨ (w = "" ∧ c' = c)
  | RStar p => string_all p w = true ∧ c' = c
  | RGroup n a => ∃ c1, rmatches a w c c1 ∧ c' = set_capture n w c1
  end.

Lemma consumed_app w rest : consumed (w +:+ rest) rest = w.
Proof.
  unfold consumed. rewrite string_app_length.
  replace (String.length w + String.length rest - String.length rest)%nat
    with (String.length w) by lia.
  induction w as [|x w IH]; simpl; [by destruct rest|]. by rewrite IH.
Qed.

Lemma rstar_sound {R} p s (k : string → option R) x :
  rstar p s k = Some x →
  ∃ w rest, s = w +:+ rest ∧ string_all p w = true ∧ k rest = Some x.
Proof.
  induction s as [|c s IH]; simpl; intros Hr; [by exists "", ""|].
  destruct (p c) eqn:Hp; [|by exists "", (String c s)].
  destruct (rstar p s k) eqn:E; [|by exists "", (String c s)].
  destruct (IH Hr) as (w & rest & -> & Hw & Hk).
  exists (String c w), rest. simpl. by rewrite Hp.
Qed.

Lemma rmatch_sound {R} r s c (k : string → captures → option R) x :
  rmatch r s c k = Some x →
  ∃ w rest c', s = w +:+ rest ∧ rmatches r w c c' ∧ k rest c' = Some x.
Proof.
  revert s c k. induction r as [p|a IHa b IHb|a IHa b IHb|a IHa|p|n a IHa];
    intros s c k; simpl.
  - destruct s as [|y s]; [done|]. destruct (p y) eqn:Hp; [|done]. intros Hk.
    exists (String y ""), s, c. repeat split; eauto.
  - intros (w1 & rest1 & c1 & -> & Ha & Hb)%IHa.
    apply IHb in Hb as (w2 & rest2 & c2 & -> & Hb & Hk).
    exists (w1 +:+ w2), rest2, c2. rewrite string_app_assoc. repeat split; eauto 10.
  - destruct (rmatch a s c k) eqn:E.
    + intros [= ->]. apply IHa in E as (w & rest & c1 & -> & Ha & Hk). eauto 10.
    + intros (w & rest & c1 & -> & Hb & Hk)%IHb. eauto 10.
  - destruct (rmatch a s c k) eqn:E.
    + intros [= ->]. apply IHa in E as (w & rest & c1 & -> & Ha & Hk). eauto 10.
    + intros Hk. exists "", s, c. eauto 10.
  - intros (w & rest & -> & Hw & Hk)%rstar_sound. eauto 10.
  - intros (w & rest & c1 & -> & Ha & Hk)%IHa. rewrite consumed_app in Hk. eauto 10.
Qed.

Lemma regex_match_sound r s c :
  regex_match r s = Some c → rmatches r s no_captures c.
Proof.
  intros (w & rest & c' & -> & Hm & Hk)%rmatch_sound.
  destruct (string_empty rest) eqn:He; [|done]. apply string_empty_true in He as ->.
  rewrite string_app_nil_r. by injection Hk as <-.
Qed.

(** ** Running the matcher on known text *)

(** A greedy star first tries the longest stretch of its class. *)
Lemma rstar_run {R} p w rest (k : string → option R) x :
  string_all p w = true →
  match rest with EmptyString => True | String c _ => p c = false end →
  k rest = Some x →
  rstar p (w +:+ rest) k = Some x.
Proof.
  intros Hw Hr Hk. induction w as [|y w IH]; simpl in *.
  - destruct rest as [|c rest]; simpl; [done|]. by rewrite Hr.
  - apply andb_true_iff in Hw as [-> Hw]. by rewrite IH.
Qed.
Lemma rstar_run_all {R} p w (k : string → option R) x :
  string_all p w = true → k "" = Some x → rstar p w k = Some x.
Proof. intros Hw Hk. rewrite <-(string_app_nil_r w). by apply rstar_run. Qed.
Lemma consumed_all w : consumed w "" = w.
Proof. rewrite <-(string_app_nil_r w) at 1. apply consumed_app. Qed.

(** ** Whether a match exists

    The captures do not influence it. *)

Definition is_some {A} (x : option A) : bool := match x with Some _ => true | None => false end.
Fixpoint bstar (p : ascii → bool) (s : string) (k : string → bool) : bool :=
  match s with
  | EmptyString => k EmptyString
  | String c s' => (p c && bstar p s' k) || k s
  end.
(** Whether a match exists, without the captures. *)
Fixpoint bmatch (r : re) (s : string) (k : string → bool) : bool :=
  match r with
  | RChar p => match s with String x s' => p x && k s' | EmptyString => false end
  | RSeq a b => bmatch a s (λ s', bmatch b s' k)
  | RAlt a b => bmatch a s k || bmatch b s k
  | ROpt a => bmatch a s k || k s
  | RStar p => bstar p s k
  | RGroup n a => bmatch a s k
  end.
Lemma rstar_bstar {R} p s (k : string → option R) kb :
  (∀ s, is_some (k s) = kb s) → is_some (rstar p s k) = bstar p s kb.
Proof.
  intros Hk. induction s as [|c s IH]; simpl; [done|]. rewrite <-IH.
  destruct (p c); simpl; [|done]. by destruct (rstar p s k); simpl; [|rewrite <-Hk].
Qed.
Lemma rmatch_bmatch {R} r s c (k : string → captures → option R) kb :
  (∀ s c, is_some (k s c) = kb s) → is_some (rmatch r s c k) = bmatch r s kb.
Proof.
  revert s c k kb. induction r as [p|a IHa b IHb|a IHa b IHb|a IHa|p|n a IHa]; intros s c k kb Hk; simpl.
  - destruct s as [|x s]; [done|]. destruct (p x); simpl; [apply Hk|done].
  - apply IHa. intros s' c'. by apply IHb.
  - rewrite <-(IHa _ c k) , <-(IHb _ c k) by done. by destruct (rmatch a s c k).
  - rewrite <-(IHa _ c k), <-(Hk _ c) by done. by destruct (rmatch a s c k).
  - by apply rstar_bstar.
  - by apply IHa.
Qed.
Lemma regex_match_bmatch r s : is_some (regex_match r s) = bmatch r s string_empty.
Proof. apply rmatch_bmatch. intros s' c. by destruct (string_empty s'). Qed.
