(* ===== verification/MmiCode.v ===== *)
(** * MmiCode: MMI codes (services/utils/mmi_code_utils)

    [MMICodeUtils]: recognition of short codes, of the MMI grammar of
    3GPP TS 22.030 6.5.2 (the regular expression of [RegexMatchMmi], written as
    its syntax tree), of other strings that go out as USSD, and the dispatch of
    a parsed code to the supplementary service that handles it.

    The supplementary services are the interface [SupplementOps]. *)

From stdpp Require Import base tactics option list numbers strings gmap.
From Stdlib Require Import ZArith Lia Ascii String.
From S2P Require Import Prelude Platform Standardize Regex.

Open Scope Z_scope.

Record MMICodeUtils := {
  mmiData_ : MMIData;
  isNeedUseIms_ : bool
}.
Definition MMICodeUtils_new : MMICodeUtils :=
  {| mmiData_ := MMIData_init; isNeedUseIms_ := false |}.
Definition set_mmiData (d : MMIData) (m : MMICodeUtils) : MMICodeUtils :=
  {| mmiData_ := d; isNeedUseIms_ := isNeedUseIms_ m |}.
Definition set_isNeedUseIms (b : bool) (m : MMICodeUtils) : MMICodeUtils :=
  {| mmiData_ := mmiData_ m; isNeedUseIms_ := b |}.
Definition set_fullString (v : string) (d : MMIData) : MMIData :=
  {| fullString := v; actionString := actionString d; serviceCode := serviceCode d;
     serviceInfoA := serviceInfoA d; serviceInfoB := serviceInfoB d;
     serviceInfoC := serviceInfoC d; pwdString := pwdString d; dialString := dialString d |}.

(** ** The grammar *)

Definition is_digit (c : ascii) : bool := char_in "0" "9" c.
Definition is_si_char (c : ascii) : bool := negb (char_eq c "*" || char_eq c "#").
(** [.] of the ECMAScript grammar on narrow characters. *)
Definition is_dot (c : ascii) : bool := negb (char_eq c "010" || char_eq c "013").

Definition rlit (c : ascii) : re := RChar (char_eq c).
(** Group 2: star, hash, star-hash, star-star or hash-hash, tried in that order. *)
Definition re_action : re :=
  RAlt (rlit "*") (RAlt (rlit "#") (RAlt (RSeq (rlit "*") (rlit "#"))
    (RAlt (RSeq (rlit "*") (rlit "*")) (RSeq (rlit "#") (rlit "#"))))).
(** Group 3: two or three digits, three first. *)
Definition re_code : re := RSeq (RChar is_digit) (RSeq (RChar is_digit) (ROpt (RChar is_digit))).
(** An optional star followed by a stretch free of star and hash, then [more]:
    the capture groups [n] (with the star) and [n + 1] (without). *)
Definition re_si (n : nat) (more : re) : re :=
  ROpt (RGroup n (RSeq (rlit "*") (RSeq (RGroup (S n) (RStar is_si_char)) more))).
Definition re_eps : re := RStar (λ _, false).
Fixpoint re_si_chain (depth n : nat) : re :=
  match depth with
  | O => re_eps
  | S d => re_si n (re_si_chain d (S (S n)))
  end.
(** The pattern [symbols]: up to four supplementary fields, groups 4 to 11. *)
Definition re_mmi : re :=
  RSeq
    (RGroup 1
      (RSeq (RGroup 2 re_action)
        (RSeq (RGroup 3 re_code)
          (RSeq (re_si_chain 4 4)
            (rlit "#")))))
    (RGroup 12 (RStar is_dot)).

Definition RegexMatchMmi (analyseString : string) : Op MMICodeUtils bool :=
  match regex_match re_mmi analyseString with
  | None => mret false
  | Some results =>
      let data :=
        {| fullString := results 1%nat; actionString := results 2%nat;
           serviceCode := results 3%nat; serviceInfoA := results 5%nat;
           serviceInfoB := results 7%nat; serviceInfoC := results 9%nat;
           pwdString := results 11%nat; dialString := results 12%nat |} in
      mmodify (set_mmiData data) ;;
      (if bool_decide (string_back analyseString = Some "#"%char) &&
          negb (string_empty (dialString data)) &&
          bool_decide (string_back (dialString data) = Some "#"%char)
       then mmodify (set_mmiData (set_fullString analyseString data))
       else mret ()) ;;
      mret true
  end.

(** ** Short codes *)

Definition MAX_LENGTH_SHORT_CODE : Z := 2.

Section ShortCode.
Context `{Env}.

(** The subscript operator; the character past the end is NUL. *)
Definition char_at (s : string) (i : nat) : ascii := default "000"%char (String.get i s).

Definition IsShortCodeWithoutCellularCall (analyseString : string) : bool :=
  if MAX_LENGTH_SHORT_CODE <? string_size analyseString then false
  else if char_eq (char_at analyseString 0) "1" && is_digit (char_at analyseString 1)
       then false else true.

Definition IsShortCodeWithCellularCall (analyseString : string) : bool :=
  if (string_size analyseString <? 1) || (MAX_LENGTH_SHORT_CODE <? string_size analyseString)
  then false else true.

Definition has_connections (o : option Z) : bool :=
  match o with Some n => negb (n =? 0) | None => false end.

(** [for (int32_t i = 0; i < simCount; i++)] *)
Definition HasCellularCallExist (h : list Effect) : bool :=
  let simCount := core_GetMaxSimCount h in
  if simCount =? 0 then false
  else if negb (service_instance h) then false
  else
    existsb (λ i,
      has_connections (ims_connections h i) || has_connections (cs_connections h i) ||
      (CELLULAR_CALL_SATELLITE && has_connections (satellite_connections h i)))
      (Z.of_nat <$> seq 0 (Z.to_nat simCount)).

Definition IsShortCode (h : list Effect) (analyseString : string) : bool :=
  if HasCellularCallExist h then IsShortCodeWithCellularCall analyseString
  else IsShortCodeWithoutCellularCall analyseString.

Definition IsNeedExecuteMmi (analyseString : string) (isNeedUseIms : bool)
    : Op MMICodeUtils bool :=
  mmodify (set_isNeedUseIms isNeedUseIms) ;;
  if string_empty analyseString then mret false
  else
    let! short := ask (λ h, IsShortCode h analyseString) in
    if (short : bool) then
      mmodify (λ m, set_mmiData (set_fullString analyseString (mmiData_ m)) m) ;;
      mret true
    else
      let! matched := RegexMatchMmi analyseString in
      if (matched : bool) then mret true
      else if (bool_decide (string_front analyseString = Some "*"%char) ||
               bool_decide (string_front analyseString = Some "#"%char)) &&
              bool_decide (string_back analyseString = Some "#"%char)
      then
        mmodify (λ m, set_mmiData (set_fullString analyseString (mmiData_ m)) m) ;;
        mret true
      else mret false.
End ShortCode.

Definition GetMMIData (m : MMICodeUtils) : MMIData := mmiData_ m.

(** ** Dispatch *)

(** The [CellularCallSupplement] method a code is bound to. *)
Inductive MmiHandler :=
  | HandleCallTransfer | HandleCallRestriction | HandleClip | HandleClir
  | AlterPinPassword | UnlockPuk | AlterPin2Password | UnlockPuk2
  | HandleCallWaiting | HandleColp | HandleColr.
#[export] Instance MmiHandler_eq_dec : EqDecision MmiHandler.
Proof. solve_decision. Defined.

Section Dispatch.
Context `{Env}.

Definition InitCallTransferMmiCodeFunc (f : gmap Z MmiHandler) : gmap Z MmiHandler :=
  <[HashCompileTime "004" := HandleCallTransfer]>
  (<[HashCompileTime "002" := HandleCallTransfer]>
  (<[HashCompileTime "67" := HandleCallTransfer]>
  (<[HashCompileTime "62" := HandleCallTransfer]>
  (<[HashCompileTime "61" := HandleCallTransfer]>
  (<[HashCompileTime "21" := HandleCallTransfer]> f))))).

Definition InitCallRestrictionCodeFunc (f : gmap Z MmiHandler) : gmap Z MmiHandler :=
  <[HashCompileTime "353" := HandleCallRestriction]>
  (<[HashCompileTime "351" := HandleCallRestriction]>
  (<[HashCompileTime "35" := HandleCallRestriction]>
  (<[HashCompileTime "333" := HandleCallRestriction]>
  (<[HashCompileTime "332" := HandleCallRestriction]>
  (<[HashCompileTime "331" := HandleCallRestriction]>
  (<[HashCompileTime "330" := HandleCallRestriction]>
  (<[HashCompileTime "33" := HandleCallRestriction]> f))))))).

Definition InitAdditionalMmiCodeFunc (f : gmap Z MmiHandler) : gmap Z MmiHandler :=
  <[HashCompileTime "43" := HandleCallWaiting]>
  (<[HashCompileTime "052" := UnlockPuk2]>
  (<[HashCompileTime "042" := AlterPin2Password]>
  (<[HashCompileTime "05" := UnlockPuk]>
  (<[HashCompileTime "04" := AlterPinPassword]>
  (<[HashCompileTime "31" := HandleClir]>
  (<[HashCompileTime "30" := HandleClip]> f)))))).

Definition InitImsMmiCodeFunc (f : gmap Z MmiHandler) : gmap Z MmiHandler :=
  <[HashCompileTime "77" := HandleColr]> (<[HashCompileTime "76" := HandleColp]> f).

Definition mmiCodeFunc (isNeedUseIms : bool) : gmap Z MmiHandler :=
  let f := InitAdditionalMmiCodeFunc
             (InitCallRestrictionCodeFunc (InitCallTransferMmiCodeFunc ∅)) in
  if isNeedUseIms then InitImsMmiCodeFunc f else f.

(** The supplementary services, as [ExecuteMmiCode] uses them. *)
Class SupplementOps (S : Type) := {
  supplement_handle : MmiHandler → Z → MMIData → Op S ();
  SendUssd : Z → string → Op S ()
}.

Definition ExecuteMmiCode {S} `{SupplementOps S} (this : MMICodeUtils) (slotId : Z)
    : Op S bool :=
  let data := mmiData_ this in
  let ussd :=
    if negb (string_empty (fullString data)) then
      SendUssd slotId (fullString data) ;; mret true
    else mret false in
  if negb (string_empty (serviceCode data)) then
    let code := Hash_ (serviceCode data) in
    if code =? HashCompileTime "03" then mret true
    else
      match mmiCodeFunc (isNeedUseIms_ this) !! code with
      | Some func => supplement_handle func slotId data ;; mret true
      | None => ussd
      end
  else ussd.
End Dispatch.

(** ** The grammar, declaratively *)

#[local] Arguments String.append : simpl nomatch.

Record MmiParts := {
  p_action : string;
  p_code : string;
  p_si : list string;
  p_dial : string
}.

Definition mmi_actions : list string := ["*"; "#"; "*#"; "**"; "##"].

Definition parts_ok (p : MmiParts) : Prop :=
  p_action p ∈ mmi_actions ∧
  (String.length (p_code p) = 2%nat ∨ String.length (p_code p) = 3%nat) ∧
  string_all is_digit (p_code p) = true ∧
  (List.length (p_si p) ≤ 4)%nat ∧
  Forall (λ x, string_all is_si_char x = true) (p_si p) ∧
  string_all is_dot (p_dial p) = true.

Definition stars (si : list string) : string := foldr (λ x acc, String "*" (x +:+ acc)) "" si.
Definition render_head (p : MmiParts) : string :=
  p_action p +:+ (p_code p +:+ (stars (p_si p) +:+ "#")).
Definition render (p : MmiParts) : string := render_head p +:+ p_dial p.

Definition ends_with_hash (s : string) : bool := bool_decide (string_back s = Some "#"%char).

Definition data_of (p : MmiParts) : MMIData :=
  {| fullString :=
       if ends_with_hash (render p) && negb (string_empty (p_dial p)) && ends_with_hash (p_dial p)
       then render p else render_head p;
     actionString := p_action p; serviceCode := p_code p;
     serviceInfoA := nth 0 (p_si p) ""; serviceInfoB := nth 1 (p_si p) "";
     serviceInfoC := nth 2 (p_si p) ""; pwdString := nth 3 (p_si p) "";
     dialString := p_dial p |}.

(** *** Every written code is read back *)

Fixpoint si_captures (n : nat) (si : list string) (c : captures) : captures :=
  match si with
  | [] => c
  | x :: si' =>
      set_capture n (stars (x :: si')) (si_captures (S (S n)) si' (set_capture (S n) x c))
  end.

Lemma stars_hash_head si t :
  match stars si +:+ String "#" t with
  | EmptyString => True
  | String c _ => is_si_char c = false ∧ is_digit c = false
  end.
Proof. by destruct si. Qed.

Lemma si_chain_run {R} d n si t c (k : string → captures → option R) x :
  (List.length si ≤ d)%nat → Forall (λ x, string_all is_si_char x = true) si →
  k (String "#" t) (si_captures n si c) = Some x →
  rmatch (re_si_chain d n) (stars si +:+ String "#" t) c k = Some x.
Proof.
  revert n si c k. induction d as [|d IH]; intros n si c k Hd Hsi Hk.
  { destruct si; [|simpl in *; lia]. done. }
  destruct si as [|y si]; [done|].
  apply Forall_cons in Hsi as [Hy Hsi].
  cbn [re_si_chain re_si rmatch rlit stars foldr String.append].
  fold (stars si). change (String.append (y +:+ stars si) (String "#" t))
    with ((y +:+ stars si) +:+ String "#" t).
  rewrite string_app_assoc. simpl (char_eq _ _). cbv iota.
  erewrite rstar_run; [done|done| |].
  { pose proof (stars_hash_head si t). destruct (stars si +:+ _); naive_solver. }
  rewrite consumed_app. apply IH; [simpl in *; lia|done|].
  rewrite <-string_app_assoc.
  change (String "*" ((y +:+ stars si) +:+ String "#" t))
    with (String "*" (y +:+ stars si) +:+ String "#" t).
  rewrite consumed_app. done.
Qed.

Lemma action_run {R} a d t c (k : string → captures → option R) x :
  a ∈ mmi_actions → is_digit d = true →
  (∀ ch s c, is_digit ch = false → k (String ch s) c = None) →
  k (String d t) c = Some x →
  rmatch re_action (a +:+ String d t) c k = Some x.
Proof.
  intros Ha Hd Hk Hx.
  assert (char_eq "*" d = false ∧ char_eq "#" d = false) as [Hs Hh]
    by (destruct d as [[][][][][][][][]]; done).
  unfold mmi_actions in Ha. rewrite !elem_of_cons, elem_of_nil in Ha.
  destruct Ha as [->|[->|[->|[->|[->|[]]]]]]; unfold re_action, rlit; simpl;
    rewrite ?Hs, ?Hh, ?Hk by done; by rewrite ?Hx.
Qed.

Lemma code_run {R} code ch t c (k : string → captures → option R) x :
  (String.length code = 2%nat ∨ String.length code = 3%nat) →
  string_all is_digit code = true → is_digit ch = false →
  k (String ch t) c = Some x →
  rmatch re_code (code +:+ String ch t) c k = Some x.
Proof.
  intros Hl Hd Hch Hx.
  destruct code as [|d1 [|d2 [|d3 [|d4 code]]]]; simpl in Hl; try lia; simpl in Hd;
    rewrite ?andb_true_iff in Hd; destruct_and?; unfold re_code; simpl;
    by repeat match goal with H : is_digit _ = _ |- _ => rewrite H end; rewrite ?Hx.
Qed.

Definition render_captures (p : MmiParts) : captures :=
  set_capture 12 (p_dial p)
    (set_capture 1 (render_head p)
      (si_captures 4 (p_si p)
        (set_capture 3 (p_code p) (set_capture 2 (p_action p) no_captures)))).

Lemma regex_match_render p :
  parts_ok p → regex_match re_mmi (render p) = Some (render_captures p).
Proof.
  intros (Ha & Hl & Hc & Hn & Hsi & Hdial). unfold regex_match, render, render_head.
  unfold re_mmi. cbn [rmatch]. rewrite !string_app_assoc.
  destruct (p_code p) as [|d code] eqn:Ecode; [simpl in Hl; lia|].
  change (String d code +:+ ?t) with (String d (code +:+ t)).
  apply action_run; [done| | |].
  - simpl in Hc. by apply andb_true_iff in Hc as [? _].
  - intros ch s c Hch. cbn [rmatch re_code]. by rewrite Hch.
  - change (String d (code +:+ ?t)) with (String d code +:+ t).
    destruct (stars (p_si p) +:+ ("#" +:+ p_dial p)) as [|ch t] eqn:Es.
    { destruct (p_si p); done. }
    assert (is_digit ch = false) as Hch
      by (pose proof (stars_hash_head (p_si p) (p_dial p)) as Hh;
          change ("#" +:+ p_dial p) with (String "#" (p_dial p)) in Es;
          rewrite Es in Hh; by destruct Hh).
    apply code_run; [done|done|done|]. rewrite <-Es.
    change ("#" +:+ p_dial p) with (String "#" (p_dial p)).
    apply si_chain_run; [done|done|].
    cbn [rmatch rlit]. simpl (char_eq "#" "#"). cbv iota.
    apply rstar_run_all; [done|]. change (string_empty "") with true. cbv iota. f_equal.
    assert (p_action p +:+ (String d code +:+ (stars (p_si p) +:+ String "#" (p_dial p))) =
            render_head p +:+ p_dial p) as E.
    { unfold render_head. by rewrite Ecode, !string_app_assoc. }
    unfold render_captures.
    by rewrite E, consumed_all, consumed_app, <-E, !consumed_app, Ecode.
Qed.

Lemma render_captures_fields p :
  parts_ok p →
  render_captures p 1%nat = render_head p ∧ render_captures p 2%nat = p_action p ∧
  render_captures p 3%nat = p_code p ∧ render_captures p 5%nat = nth 0 (p_si p) "" ∧
  render_captures p 7%nat = nth 1 (p_si p) "" ∧ render_captures p 9%nat = nth 2 (p_si p) "" ∧
  render_captures p 11%nat = nth 3 (p_si p) "" ∧ render_captures p 12%nat = p_dial p.
Proof.
  intros (_ & _ & _ & Hn & _). unfold render_captures.
  destruct (p_si p) as [|a [|b [|c [|d [|e si]]]]]; simpl in Hn; try lia; done.
Qed.

Lemma RegexMatchMmi_render p m h :
  parts_ok p → RegexMatchMmi (render p) m h = (true, set_mmiData (data_of p) m, []).
Proof.
  intros Hp. unfold RegexMatchMmi. rewrite regex_match_render by done.
  destruct (render_captures_fields p Hp) as (-> & -> & -> & -> & -> & -> & -> & ->).
  unfold mthen, mmodify, mret. cbn [dialString].
  unfold data_of, ends_with_hash.
  destruct (bool_decide (string_back (render p) = _) && _ && _) eqn:E; cbn; by rewrite ?E.
Qed.

(** *** Every string the expression accepts is a written code *)

Lemma si_chain_sound d n w c c' :
  rmatches (re_si_chain d n) w c c' →
  ∃ si, (List.length si ≤ d)%nat ∧ Forall (λ x, string_all is_si_char x = true) si ∧ w = stars si.
Proof.
  revert n w c c'. induction d as [|d IH]; intros n w c c';
    cbn [re_si_chain re_si re_eps rlit rmatches].
  - intros [Hw ->]. exists []. simpl. split_and!; [lia|done|]. by destruct w.
  - intros [(c1 & (w1 & w2 & c2 & -> & (x & -> & Hx & ->) & Hrest) & ->)|[-> ->]].
    + destruct Hrest as (w3 & w4 & c3 & -> & (c4 & [Hw3 ->] & ->) & Hmore).
      apply IH in Hmore as (si & Hl & Hsi & ->).
      apply Ascii.eqb_eq in Hx as <-.
      exists (w3 :: si). simpl. split_and!; [lia|by constructor|done].
    + exists []. simpl. split_and!; [lia|done|done].
Qed.

Lemma re_mmi_sound s c c' :
  rmatches re_mmi s c c' → ∃ p, parts_ok p ∧ s = render p.
Proof.
  intros (w1 & w2 & c1 & -> & (c2 & Hhead & ->) & (c3 & [Hdial ->] & ->)).
  destruct Hhead as (wa & wr & c4 & -> & (c5 & Ha & ->) & Hr).
  destruct Hr as (wc & ws & c6 & -> & (c7 & Hc & ->) & (wsi & wh & c8 & -> & Hsi & Hh)).
  destruct Hh as (x & -> & Hx%Ascii.eqb_eq & ->). subst x.
  apply si_chain_sound in Hsi as (si & Hl & Hsi & ->).
  exists {| p_action := wa; p_code := wc; p_si := si; p_dial := w2 |}.
  split; [|done]. unfold parts_ok. simpl.
  assert (wa ∈ mmi_actions) as Hact.
  { clear -Ha. unfold mmi_actions. rewrite !elem_of_cons.
    cbn [re_action rlit rmatches] in Ha.
    destruct Ha as [(x & -> & Hx & _)|[(x & -> & Hx & _)|[H|[H|H]]]];
      try (apply Ascii.eqb_eq in Hx as <-; auto; done);
      destruct H as (u & v & c1 & -> & (x & -> & Hx%Ascii.eqb_eq & _) &
        (y & -> & Hy%Ascii.eqb_eq & _)); subst; auto 10. }
  assert ((String.length wc = 2%nat ∨ String.length wc = 3%nat) ∧
          string_all is_digit wc = true) as [Hlen Hdig].
  { clear -Hc. destruct Hc as (u & v & c1 & -> & (x & -> & Hx & _) &
      (u' & v' & c2 & -> & (y & -> & Hy & _) & [(z & -> & Hz & _)|[-> _]]));
      simpl; rewrite ?Hx, ?Hy, ?Hz; auto. }
  split_and!; done.
Qed.

Lemma RegexMatchMmi_false s m h :
  regex_match re_mmi s = None → RegexMatchMmi s m h = (false, m, []).
Proof. intros Hr. unfold RegexMatchMmi. by rewrite Hr. Qed.

(** ** Properties of the grammar *)

(** C20: the MMI grammar, round trip.  Every code written as action (one of
    star, hash, star-hash, star-star, hash-hash), two or three digits, up to
    four supplementary fields each preceded by a star, a hash and a dial string
    is recognised with exactly these fields (missing fields are empty), and
    [fullString] is the code part, or the whole input when the dial string ends
    in a hash; conversely every recognised string is such a code. *)
Theorem mmi_grammar_roundtrip s m h :
  (∀ p, parts_ok p → s = render p →
     RegexMatchMmi s m h = (true, set_mmiData (data_of p) m, [])) ∧
  ((RegexMatchMmi s m h).1.1 = true → ∃ p, parts_ok p ∧ s = render p).
Proof.
  split; [intros p Hp ->; by apply RegexMatchMmi_render|].
  destruct (regex_match re_mmi s) as [c|] eqn:E; [|by rewrite RegexMatchMmi_false].
  intros _. apply regex_match_sound in E. by apply re_mmi_sound in E.
Qed.

(** *** Deciding what to execute *)

Section Decide.
Context `{Env}.

(** What goes out as supplementary service or USSD. *)
Definition mmi_wanted (h : list Effect) (s : string) : Prop :=
  s ≠ "" ∧
  (IsShortCode h s = true ∨ (∃ p, parts_ok p ∧ s = render p) ∨
   ((string_front s = Some "*"%char ∨ string_front s = Some "#"%char) ∧
    string_back s = Some "#"%char)).

Lemma render_head_nonempty p : render_head p ≠ "".
Proof.
  unfold render_head. intros Hh. apply (f_equal String.length) in Hh.
  rewrite !string_app_length in Hh. simpl in Hh. lia.
Qed.
Lemma data_of_fullString_nonempty p : fullString (data_of p) ≠ "".
Proof.
  unfold data_of. simpl. case_match; [|apply render_head_nonempty].
  unfold render. intros Hh. apply (f_equal String.length) in Hh.
  rewrite string_app_length in Hh. simpl in Hh.
  pose proof (render_head_nonempty p). destruct (render_head p); [done|simpl in *; lia].
Qed.

Lemma regex_match_render_iff s :
  (∃ p, parts_ok p ∧ s = render p) ↔ is_Some (regex_match re_mmi s).
Proof.
  split; [intros (p & Hp & ->); rewrite regex_match_render; eauto|].
  intros [c Hc%regex_match_sound]. by apply re_mmi_sound in Hc.
Qed.

Lemma IsNeedExecuteMmi_cases s ims m h :
  ∃ d, IsNeedExecuteMmi s ims m h =
         (bool_decide (d ≠ None),
          match d with
          | Some d => set_mmiData d (set_isNeedUseIms ims m)
          | None => set_isNeedUseIms ims m
          end, []) ∧
    (is_Some d ↔ mmi_wanted h s) ∧ (∀ d', d = Some d' → fullString d' ≠ "").
Proof.
  unfold IsNeedExecuteMmi, mmi_wanted. setoid_rewrite regex_match_render_iff.
  destruct (string_empty s) eqn:Hs.
  { apply string_empty_true in Hs. exists None. mrun. split_and!; [done| |done].
    split; [by intros []|by intros [Hne _]]. }
  apply string_empty_false in Hs.
  unfold mthen at 1, mmodify at 1. cbn [app].
  unfold ask, query, mthen at 1. rewrite app_nil_r.
  destruct (IsShortCode h s) eqn:Hshort.
  { exists (Some (set_fullString s (mmiData_ m))). mrun.
    split_and!; [done|split; eauto|]. by intros d' [= <-]. }
  unfold mthen at 1. rewrite app_nil_r.
  destruct (regex_match re_mmi s) as [c|] eqn:Hr.
  - assert (∃ p, parts_ok p ∧ s = render p) as (p & Hp & Hsp)
      by (apply regex_match_render_iff; eauto).
    rewrite Hsp, RegexMatchMmi_render by done. exists (Some (data_of p)).
    split_and!; [done| |].
    + split; [|eauto]. intros _. split; [by rewrite <-Hsp|eauto].
    + intros d' [= <-]. apply data_of_fullString_nonempty.
  - rewrite RegexMatchMmi_false by done.
    destruct ((bool_decide (string_front s = Some "*"%char) || _) && _) eqn:Hu.
    + rewrite andb_true_iff, orb_true_iff, !bool_decide_eq_true in Hu.
      exists (Some (set_fullString s (mmiData_ m))). mrun.
      split_and!; [done|split; eauto|]. by intros d' [= <-].
    + rewrite andb_false_iff, orb_false_iff, !bool_decide_eq_false in Hu.
      exists None. mrun. split_and!; [done| |done].
      split; [by intros []|]. intros (_ & [?|[[? ?]|[Hf Hb]]]); [congruence|done|naive_solver].
Qed.

Lemma render_length p : parts_ok p → (4 ≤ String.length (render p))%nat.
Proof.
  intros (Ha & Hl & _). unfold render, render_head. rewrite !string_app_length. simpl.
  assert (1 ≤ String.length (p_action p))%nat; [|lia].
  unfold mmi_actions in Ha. rewrite !elem_of_cons, elem_of_nil in Ha.
  destruct Ha as [->|[->|[->|[->|[->|[]]]]]]; simpl; lia.
Qed.
Lemma IsShortCode_long h s : (3 ≤ String.length s)%nat → IsShortCode h s = false.
Proof.
  intros Hl. unfold IsShortCode, IsShortCodeWithCellularCall, IsShortCodeWithoutCellularCall,
    string_size, MAX_LENGTH_SHORT_CODE.
  rewrite (proj2 (Z.ltb_lt 2 _)), orb_true_r by lia. by case_match.
Qed.
Lemma IsNeedExecuteMmi_render p ims m h :
  parts_ok p →
  IsNeedExecuteMmi (render p) ims m h =
    (true, set_mmiData (data_of p) (set_isNeedUseIms ims m), []).
Proof.
  intros Hp. pose proof (render_length p Hp) as Hl. unfold IsNeedExecuteMmi.
  destruct (string_empty (render p)) eqn:Hs.
  { apply string_empty_true in Hs. rewrite Hs in Hl. simpl in Hl. lia. }
  unfold mthen, mmodify, ask, query. rewrite IsShortCode_long by lia.
  by rewrite RegexMatchMmi_render.
Qed.

(** IsNeedExecuteMmi answers true exactly for a non-empty string that is
    a short code in the present call situation, a code of the MMI grammar, or
    starts with star or hash and ends with hash; and whenever it answers true,
    ExecuteMmiCode on the result executes something (it returns true, as the
    parsed [fullString] is never empty). *)
Theorem mmi_needed_is_executed {S} `{SupplementOps S} s ims h :
  ((IsNeedExecuteMmi s ims MMICodeUtils_new h).1.1 = true ↔ mmi_wanted h s) ∧
  ((IsNeedExecuteMmi s ims MMICodeUtils_new h).1.1 = true →
   ∀ slotId (st : S) h',
     (ExecuteMmiCode (IsNeedExecuteMmi s ims MMICodeUtils_new h).1.2 slotId st h').1.1 = true).
Proof.
  destruct (IsNeedExecuteMmi_cases s ims MMICodeUtils_new h) as (d & -> & Hiff & Hfull).
  cbn [fst snd]. rewrite bool_decide_eq_true, <-Hiff.
  split; [by rewrite not_eq_None_Some|]. intros Hd slotId st h'.
  destruct d as [d|]; [|done]. unfold ExecuteMmiCode. cbn [mmiData_ set_mmiData].
  specialize (Hfull d eq_refl). apply string_empty_false in Hfull. rewrite Hfull. simpl.
  destruct (string_empty (serviceCode d)); simpl.
  - unfold mthen, mret. by destruct (SendUssd _ _ _ _) as [[]].
  - destruct (Hash_ _ =? _); [done|]. case_match; unfold mthen, mret.
    + by destruct (supplement_handle _ _ _ _ _) as [[]].
    + by destruct (SendUssd _ _ _ _) as [[]].
Qed.
End Decide.

(** ** The dispatch table *)

(** The binding of service codes to handlers, by name
    (3GPP TS 22.030 Annex B; 76 and 77 only when IMS is used). *)
Definition handler_of_code (isNeedUseIms : bool) (code : string) : option MmiHandler :=
  if bool_decide (code ∈ ["21"; "61"; "62"; "67"; "002"; "004"]) then Some HandleCallTransfer
  else if bool_decide (code ∈ ["33"; "330"; "331"; "332"; "333"; "35"; "351"; "353"])
       then Some HandleCallRestriction
  else if bool_decide (code = "30") then Some HandleClip
  else if bool_decide (code = "31") then Some HandleClir
  else if bool_decide (code = "04") then Some AlterPinPassword
  else if bool_decide (code = "05") then Some UnlockPuk
  else if bool_decide (code = "042") then Some AlterPin2Password
  else if bool_decide (code = "052") then Some UnlockPuk2
  else if bool_decide (code = "43") then Some HandleCallWaiting
  else if isNeedUseIms && bool_decide (code = "76") then Some HandleColp
  else if isNeedUseIms && bool_decide (code = "77") then Some HandleColr
  else None.

Definition digit_chars : list ascii :=
  ["0"; "1"; "2"; "3"; "4"; "5"; "6"; "7"; "8"; "9"]%char.
Definition service_codes : list string :=
  (a ← digit_chars; b ← digit_chars; [String a (String b "")]) ++
  (a ← digit_chars; b ← digit_chars; c ← digit_chars;
   [String a (String b (String c ""))]).

Lemma is_digit_chars c : is_digit c = true → c ∈ digit_chars.
Proof.
  unfold digit_chars. destruct c as [[][][][][][][][]]; (try discriminate); intros _;
    repeat first [by left | right].
Qed.
Lemma service_codes_complete s :
  (String.length s = 2%nat ∨ String.length s = 3%nat) → string_all is_digit s = true →
  s ∈ service_codes.
Proof.
  intros Hl Hd. unfold service_codes. rewrite elem_of_app.
  destruct s as [|a [|b [|c [|d s]]]]; simpl in Hl; try lia; simpl in Hd;
    rewrite ?andb_true_iff in Hd; destruct_and?.
  - left. rewrite list_elem_of_bind. exists a. split; [|by apply is_digit_chars].
    rewrite list_elem_of_bind. exists b. split; [|by apply is_digit_chars]. by left.
  - right. rewrite list_elem_of_bind. exists a. split; [|by apply is_digit_chars].
    rewrite list_elem_of_bind. exists b. split; [|by apply is_digit_chars].
    rewrite list_elem_of_bind. exists c. split; [|by apply is_digit_chars]. by left.
Qed.

(** The table with the hashes computed, and the check over all 1100 codes that
    no two codes collide on an entry. *)
Definition ascii_table (isNeedUseIms : bool) : gmap Z MmiHandler :=
  list_to_map ((λ e, (ascii_hash e.1 cellular_call_b, e.2)) <$>
    ((if isNeedUseIms then [("77", HandleColr); ("76", HandleColp)] else []) ++
     [("43", HandleCallWaiting); ("052", UnlockPuk2); ("042", AlterPin2Password);
      ("05", UnlockPuk); ("04", AlterPinPassword); ("31", HandleClir); ("30", HandleClip)] ++
     ((λ c, (c, HandleCallRestriction)) <$>
        ["353"; "351"; "35"; "333"; "332"; "331"; "330"; "33"]) ++
     ((λ c, (c, HandleCallTransfer)) <$> ["004"; "002"; "67"; "62"; "61"; "21"]))).

Definition table_agrees (isNeedUseIms : bool) : bool :=
  let table := ascii_table isNeedUseIms in
  forallb (λ code,
    bool_decide (table !! ascii_hash code cellular_call_b = handler_of_code isNeedUseIms code) &&
    Bool.eqb (Z.eqb (ascii_hash code cellular_call_b) (ascii_hash "03" cellular_call_b))
        (bool_decide (code = "03"))) service_codes.

Lemma table_agrees_true b : table_agrees b = true.
Proof. destruct b; vm_compute; reflexivity. Qed.

Lemma mmiCodeFunc_ascii `{Env} b : mmiCodeFunc b = ascii_table b.
Proof.
  unfold mmiCodeFunc, InitImsMmiCodeFunc, InitAdditionalMmiCodeFunc,
    InitCallRestrictionCodeFunc, InitCallTransferMmiCodeFunc, ascii_table.
  rewrite !HashCompileTime_ascii by reflexivity. by destruct b.
Qed.

Lemma digits_ascii7 s : string_all is_digit s = true → string_all is_ascii7 s = true.
Proof. apply string_all_weaken. by intros [[][][][][][][][]]. Qed.

Lemma service_code_lookup `{Env} ims code :
  code ∈ service_codes →
  mmiCodeFunc ims !! Hash_ code = handler_of_code ims code ∧
  (Hash_ code =? HashCompileTime "03") = bool_decide (code = "03").
Proof.
  intros Hin. pose proof (table_agrees_true ims) as Ht. unfold table_agrees in Ht.
  rewrite forallb_forall in Ht. apply list_elem_of_In in Hin as Hin'. specialize (Ht _ Hin').
  apply andb_true_iff in Ht as [Ht%bool_decide_eq_true He%Bool.eqb_prop].
  assert (string_all is_ascii7 code = true) as Ha.
  { assert (forallb (string_all is_ascii7) service_codes = true) as Hall by reflexivity.
    rewrite forallb_forall in Hall. by apply Hall. }
  rewrite mmiCodeFunc_ascii, Hash_ascii, HashCompileTime_ascii by done. by split.
Qed.

(** Dispatch by hash is dispatch by name.  For every service code the
    grammar can produce (two or three digits), looking up its run-time hash in
    the table keyed by compile-time hashes finds exactly the handler bound to
    that code and nothing else (no collision among the 1100 codes), "03" is the
    code silently accepted, COLP and COLR exist only over IMS, and an unbound
    code falls back to USSD of the full string. *)
Theorem ExecuteMmiCode_dispatch `{Env} {S} `{SupplementOps S} d ims slotId
  (Hlen : String.length (serviceCode d) = 2%nat ∨ String.length (serviceCode d) = 3%nat)
  (Hdig : string_all is_digit (serviceCode d) = true)
  (Hfull : fullString d ≠ "") :
  ExecuteMmiCode {| mmiData_ := d; isNeedUseIms_ := ims |} slotId =
    if bool_decide (serviceCode d = "03") then mret true
    else match handler_of_code ims (serviceCode d) with
         | Some f => supplement_handle f slotId d ;; mret true
         | None => SendUssd slotId (fullString d) ;; mret true
         end.
Proof.
  pose proof (service_codes_complete _ Hlen Hdig) as Hin.
  destruct (service_code_lookup ims _ Hin) as [Hl Hz].
  unfold ExecuteMmiCode. cbn [mmiData_ isNeedUseIms_]. rewrite Hl, Hz.
  assert (serviceCode d ≠ "") as Hne by (destruct (serviceCode d); [simpl in Hlen; lia|done]).
  apply string_empty_false in Hne, Hfull. by rewrite Hne, Hfull.
Qed.
