(* ===== verification/Emergency.v ===== *)
(** * Emergency: is a number an emergency number? (services/utils/emergency_utils)

    [IsEmergencyCall] rejects what cannot be one by its form; the rest is
    decided from the slot's emergency list or, when that is empty, from a
    built-in list and the network's country.  [IsNeedExecuteMMI] and the dial
    paths ask it first. *)

From stdpp Require Import base tactics option list numbers strings.
From Stdlib Require Import ZArith Lia Ascii String.
From S2P Require Import Prelude ConfigTypes Platform Standardize Samples.

Open Scope Z_scope.

Definition char_toupper (c : ascii) : ascii :=
  if char_in "a" "z" c then ascii_of_N (N_of_ascii c - 32) else c.
Fixpoint string_toupper (s : string) : string :=
  match s with
  | EmptyString => EmptyString
  | String c s' => String (char_toupper c) (string_toupper s')
  end.

Definition default_ecc_list : list string :=
  ["110"; "120"; "119"; "122"; "112"; "000"; "911"; "08"; "118"; "999"].

Section Emergency.
Context `{CallConsts, Env}.

(** [ModuleServiceUtils::GetNetworkCountryCode] *)
Definition GetNetworkCountryCode (h : list Effect) (slotId : Z) : string :=
  core_GetIsoCountryCodeForNetwork h slotId.

(** The returned code and the value left in [enabled]. *)
Definition IsEmergencyCallProcessing (h : list Effect) (slotId : Z) (formatString : string)
    : Z * bool :=
  let countryIsoCode := GetNetworkCountryCode h slotId in
  let eccCallList := GetEccCallList h slotId in
  let mcc := GetMcc h slotId in
  match eccCallList with
  | [] =>
      if existsb (λ ecc, bool_decide (ecc = formatString)) default_ecc_list
      then (TELEPHONY_ERR_SUCCESS, true)
      else if negb (string_empty countryIsoCode)
           then (TELEPHONY_ERR_SUCCESS,
                 IsEmergencyNumber formatString (string_toupper countryIsoCode))
           else (TELEPHONY_ERR_SUCCESS, false)
  | _ =>
      let isDynamicPoweroffModem := DYNAMIC_POWEROFF_MODEM h in
      if existsb (λ it, (bool_decide (mcc = ecc_mcc it) || isDynamicPoweroffModem) &&
                        bool_decide (formatString = eccNum it)) eccCallList
      then (TELEPHONY_ERR_SUCCESS, true)
      else (TELEPHONY_ERR_SUCCESS, false)
  end.

(** [enabled] is the caller's variable: kept when the form is rejected. *)
Definition IsEmergencyCall (h : list Effect) (slotId : Z) (phoneNum : string) (enabled : bool)
    : Z * bool :=
  if string_empty phoneNum then (TELEPHONY_ERR_ARGUMENT_INVALID, enabled)
  else if string_contains "@" phoneNum || string_contains "%40" phoneNum
       then (TELEPHONY_ERR_ARGUMENT_INVALID, enabled)
  else if bool_decide (string_front phoneNum = Some "+"%char)
       then (TELEPHONY_ERR_ARGUMENT_INVALID, enabled)
  else IsEmergencyCallProcessing h slotId phoneNum.

(** Forms that are never emergency numbers: empty, SIP URI, international. *)
Definition ecc_form_rejected (n : string) : Prop :=
  n = "" ∨ string_contains "@" n = true ∨ string_contains "%40" n = true ∨
  string_front n = Some "+"%char.

Lemma IsEmergencyCall_rejected h slotId n enabled :
  ecc_form_rejected n →
  IsEmergencyCall h slotId n enabled = (TELEPHONY_ERR_ARGUMENT_INVALID, enabled).
Proof.
  unfold IsEmergencyCall. intros Hr. destruct (string_empty n) eqn:He; [done|].
  apply string_empty_false in He.
  destruct Hr as [?|[->|[->|Hf]]]; [done|done|by rewrite orb_true_r|].
  case_match; [done|]. by rewrite bool_decide_true.
Qed.
Lemma IsEmergencyCall_accepted h slotId n enabled :
  ¬ ecc_form_rejected n →
  IsEmergencyCall h slotId n enabled = IsEmergencyCallProcessing h slotId n.
Proof.
  unfold IsEmergencyCall, ecc_form_rejected. intros Hr.
  destruct (string_empty n) eqn:He; [apply string_empty_true in He; naive_solver|].
  destruct (string_contains "@" n); [naive_solver|].
  destruct (string_contains "%40" n); [naive_solver|]. simpl.
  rewrite bool_decide_false by naive_solver. done.
Qed.

(** What makes a well-formed number an emergency number on a slot: with a
    list for the slot, an entry for the number whose country matches the
    SIM's (any country on a modem that is powered off dynamically); without
    one, a built-in number, or the library's answer for the network's country
    when that is known. *)
Definition is_ecc (h : list Effect) (slotId : Z) (n : string) : Prop :=
  if bool_decide (GetEccCallList h slotId = [])
  then n ∈ default_ecc_list ∨
       (core_GetIsoCountryCodeForNetwork h slotId ≠ "" ∧
        IsEmergencyNumber n
          (string_toupper (core_GetIsoCountryCodeForNetwork h slotId)) = true)
  else ∃ e, e ∈ GetEccCallList h slotId ∧ eccNum e = n ∧
            (ecc_mcc e = GetMcc h slotId ∨ DYNAMIC_POWEROFF_MODEM h = true).

Lemma IsEmergencyCallProcessing_spec h slotId n :
  (IsEmergencyCallProcessing h slotId n).1 = TELEPHONY_ERR_SUCCESS ∧
  ((IsEmergencyCallProcessing h slotId n).2 = true ↔ is_ecc h slotId n).
Proof.
  unfold IsEmergencyCallProcessing, is_ecc, GetNetworkCountryCode.
  assert (∀ l, existsb (λ ecc, bool_decide (ecc = n)) l = true ↔ n ∈ l) as Hdef.
  { intros l. rewrite existsb_exists. setoid_rewrite bool_decide_eq_true.
    setoid_rewrite <-list_elem_of_In. naive_solver. }
  destruct (GetEccCallList h slotId) as [|e l] eqn:El; cbn [bool_decide decide].
  - rewrite bool_decide_true by done. rewrite <-Hdef.
    destruct (existsb _ default_ecc_list); simpl; [split; [done|split; auto]|].
    destruct (string_empty _) eqn:He; simpl.
    + apply string_empty_true in He. rewrite He. split; [done|]. naive_solver.
    + apply string_empty_false in He. split; [done|]. naive_solver.
  - rewrite bool_decide_false by done. case_match eqn:Ex; (split; [done|]); simpl;
      rewrite existsb_exists in Ex || apply not_true_iff_false in Ex;
      try rewrite existsb_exists in Ex.
    + split; [intros _|done]. destruct Ex as (x & Hx & Hc).
      rewrite andb_true_iff, orb_true_iff, !bool_decide_eq_true in Hc.
      exists x. rewrite list_elem_of_In. naive_solver.
    + split; [done|]. intros (x & Hx & Hn & Hm). destruct Ex. exists x.
      rewrite andb_true_iff, orb_true_iff, !bool_decide_eq_true, <-list_elem_of_In.
      naive_solver.
Qed.

(** The emergency decision, on every input.  A number of a form that
    cannot be an emergency number (empty, SIP URI, leading plus) is refused
    with TELEPHONY_ERR_ARGUMENT_INVALID and the caller's flag is untouched;
    every other number succeeds and is flagged exactly when the decision
    table says so: listed for the slot with a matching country (or dynamic
    power-off modem) when the slot has a list, otherwise built in or known
    for the network's country. *)
Theorem IsEmergencyCall_decision h slotId n enabled :
  (ecc_form_rejected n →
     IsEmergencyCall h slotId n enabled = (TELEPHONY_ERR_ARGUMENT_INVALID, enabled)) ∧
  (¬ ecc_form_rejected n →
     (IsEmergencyCall h slotId n enabled).1 = TELEPHONY_ERR_SUCCESS ∧
     ((IsEmergencyCall h slotId n enabled).2 = true ↔ is_ecc h slotId n)).
Proof.
  split; [apply IsEmergencyCall_rejected|]. intros Hn.
  rewrite IsEmergencyCall_accepted by done. apply IsEmergencyCallProcessing_spec.
Qed.
End Emergency.
