(* ===== verification/ControlBase.v ===== *)
(** * ControlBase: what the CS, IMS and satellite controls share
    (services/control/control_base, services/utils/module_service_utils)

    The checks before a dial, the emergency preparation with its wait, the MMI
    test on a dial string, and the templates over a connection map: search by
    index and by state, the call limit, DTMF. *)

From stdpp Require Import base tactics option list numbers strings sets.
From Stdlib Require Import ZArith Lia Ascii String.
From S2P Require Import Prelude Platform Standardize StdMap Connection Regex MmiCode Emergency.
From S2P Require Import Samples.

Open Scope Z_scope.

Section ControlBase.
Context `{CallConsts, Env}.

(** ** ModuleServiceUtils *)

Definition GetRadioState (h : list Effect) (slotId : Z) : bool :=
  bool_decide (core_GetRadioState h slotId = CORE_SERVICE_POWER_ON).
Definition GetAirplaneMode (h : list Effect) : Z * bool :=
  let '(ret, airplaneMode) := core_GetAirplaneMode h in
  if bool_decide (ret ≠ TELEPHONY_SUCCESS) then (ret, airplaneMode)
  else (TELEPHONY_SUCCESS, airplaneMode).
Definition UpdateRadioOn_ {S} (slotId : Z) : Op S Z :=
  send (ConfigSetReadyToCall slotId false) ;;
  let! ret := request (UpdateRadioOn slotId) in
  if bool_decide (ret ≠ TELEPHONY_SUCCESS) then mret ret else mret TELEPHONY_SUCCESS.
Definition GetNetworkStatus (h : list Effect) (slotId : Z) : Z := core_GetPhoneType h slotId.
Definition NeedCallImsService (h : list Effect) : bool :=
  if negb (ims_client_instance h) then false else ims_call_proxy h.
Definition GetCsRegState (h : list Effect) (slotId : Z) : Z := core_GetCsRegState h slotId.
Definition GetPsRegState (h : list Effect) (slotId : Z) : Z := core_GetPsRegState h slotId.

(** ** Preparing an emergency dial *)

Definition CheckAirplaneModeScene (h : list Effect) : bool :=
  let '(ret, isAirplaneModeOn) := GetAirplaneMode h in
  bool_decide (ret = TELEPHONY_SUCCESS) && isAirplaneModeOn.

Definition CheckActivateSimScene (h : list Effect) (slotId : Z) : bool :=
  let hasSimCard := core_HasSimCard h slotId in
  let isActivateSim := true in
  if hasSimCard then core_IsSimActive h slotId else isActivateSim.

Definition WAIT_TIME_SECOND : Z := 5.

(** [while (!IsReadyToCall(slotId)) { if (cv_.wait_for(...) == timeout) return ...; }];
    [wakeups] waits end before their timeout, the next one times out. *)
Fixpoint wait_ready {S} (wakeups : nat) (slotId : Z) : Op S Z :=
  let! ready := ask (λ h, IsReadyToCall h slotId) in
  if (ready : bool) then mret TELEPHONY_SUCCESS
  else
    send (CvWaitFor WAIT_TIME_SECOND) ;;
    match wakeups with
    | O => mret CALL_ERR_DIAL_FAILED
    | Datatypes.S wakeups' => wait_ready wakeups' slotId
    end.

Definition HandleEcc {S} (callInfo : CellularCallInfo)
    (isEcc isAirplaneModeOn isActivateSim : bool) : Op S Z :=
  let slotId := ci_slotId callInfo in
  let wait :=
    let! wakeups := ask wakeups_before_timeout in
    wait_ready wakeups slotId in
  let activate :=
    if negb isActivateSim then
      let! ret := request (SetActiveSim slotId true) in
      if bool_decide (ret ≠ TELEPHONY_SUCCESS) then mret ret
      else
        let otherSlotId := if bool_decide (slotId = SLOT_0) then SLOT_1 else SLOT_0 in
        let! otherActive := ask (λ h, CheckActivateSimScene h otherSlotId) in
        if negb otherActive then
          let! ret := request (SetActiveSim otherSlotId true) in
          if bool_decide (ret ≠ TELEPHONY_SUCCESS) then mret ret else wait
        else wait
    else wait in
  if negb isEcc then mret TELEPHONY_ERR_AIRPLANE_MODE_ON
  else if isAirplaneModeOn then
    let! ret := UpdateRadioOn_ slotId in
    if bool_decide (ret ≠ TELEPHONY_SUCCESS) then mret ret else activate
  else activate.

Definition SetReadyToCall {S} (slotId : Z) (isReadyToCall : bool) : Op S Z :=
  let! ready := ask (λ h, IsReadyToCall h slotId) in
  (if negb ready && isReadyToCall then
     send (ConfigSetReadyToCall slotId isReadyToCall) ;; send CvNotifyAll
   else mret ()) ;;
  mret TELEPHONY_SUCCESS.

(** The result of [HandleEcc] is dropped; what it does is not. *)
Definition DialPreJudgment {S} (callInfo : CellularCallInfo) (isEcc : bool) : Op S Z :=
  let! airplane := ask CheckAirplaneModeScene in
  let! active := ask (λ h, CheckActivateSimScene h (ci_slotId callInfo)) in
  HandleEcc callInfo isEcc airplane active ;;
  if string_empty (ci_phoneNum callInfo) then
    hisys (WriteDialCallFaultEvent (ci_accountId callInfo) (ci_callType callInfo)
      (ci_videoState callInfo) CALL_ERR_PHONE_NUMBER_EMPTY "dialString is empty") ;;
    mret CALL_ERR_PHONE_NUMBER_EMPTY
  else
    let radio_checked (isRadioOn : bool) : Op S Z :=
      if negb isRadioOn then
        hisys (WriteDialCallFaultEvent (ci_accountId callInfo) (ci_callType callInfo)
          (ci_videoState callInfo) CALL_ERR_GET_RADIO_STATE_FAILED "radio state error") ;;
        mret CALL_ERR_GET_RADIO_STATE_FAILED
      else mret TELEPHONY_SUCCESS in
    if BASE_POWER_IMPROVEMENT_FEATURE then
      let! service := ask service_instance in
      if negb service then mret TELEPHONY_ERR_LOCAL_PTR_NULL
      else
        let! radioOn := ask (λ h, isRadioOnFlag h (ci_slotId callInfo)) in radio_checked radioOn
    else
      let! radioOn := ask (λ h, GetRadioState h (ci_slotId callInfo)) in radio_checked radioOn.

(** ** MMI codes in a dial string *)

Definition IsEmergencyCall_ (h : list Effect) (slotId : Z) (phoneString : string) : bool :=
  (IsEmergencyCall h slotId phoneString false).2.

(** The answer, and the reference parameters [phoneString] and [clirMode]. *)
Definition IsNeedExecuteMMI {S} (slotId : Z) (phoneString : string) (clirMode : CLIRMode)
    (isNeedUseIms : bool) : Op S (bool * string * CLIRMode) :=
  let! ecc := ask (λ h, IsEmergencyCall_ h slotId phoneString) in
  if (ecc : bool) then mret (false, phoneString, clirMode)
  else
    let parse (phoneString : string) : Op S (bool * string * CLIRMode) :=
      let! (needed, mmi) := with_local (IsNeedExecuteMmi phoneString isNeedUseIms)
                               MMICodeUtils_new in
      if negb needed then mret (false, phoneString, clirMode)
      else
        let data := GetMMIData mmi in
        let submit : Op S (bool * string * CLIRMode) :=
          let! service := ask service_instance in
          if negb service then mret (false, phoneString, clirMode)
          else
            let! handler := ask (λ h, GetHandler h slotId) in
            if negb handler then mret (false, phoneString, clirMode)
            else
              let! sent := request_bool
                (SendEvent slotId (EVENT_MMI_Id data (isNeedUseIms_ mmi))) in
              mret (sent, phoneString, clirMode) in
        if negb (string_empty (serviceCode data)) && negb (string_empty (dialString data)) then
          if bool_decide (actionString data = "*") then
            mret (false, dialString data,
                  if bool_decide (serviceCode data = "31") then INHIBITION else clirMode)
          else if bool_decide (actionString data = "#") then
            mret (false, dialString data,
                  if bool_decide (serviceCode data = "31") then TRANSFER else clirMode)
          else submit
        else submit in
    match ext_isMmiCode with
    | Some isMmiCode =>
        let! (isMmi, phoneString') := ask (λ h, isMmiCode h slotId phoneString) in
        if negb isMmi then mret (false, phoneString', clirMode) else parse phoneString'
    | None => parse phoneString
    end.

Definition IsConnectedOut (preState curState : Z) : bool :=
  (bool_decide (preState = CALL_STATUS_DIALING) ||
   bool_decide (preState = CALL_STATUS_ALERTING)) &&
  negb (bool_decide (curState = CALL_STATUS_DIALING) ||
        bool_decide (curState = CALL_STATUS_ALERTING)).

(** [ControlBase::IsDtmfKey], the same test as [StandardizeUtils]'s. *)
Definition ControlBase_IsDtmfKey (c : ascii) : bool :=
  char_in "0" "9" c || char_in "A" "D" c || char_eq c "*" || char_eq c "#".

(** ** Templates over a connection map *)

Definition maximumCalls : Z := 6.
Definition CanCall {V} (t : smap V) : bool := sm_size t <=? maximumCalls.

(** The requests every connection class has ([const] methods). *)
Class ConnRequests (C : Type) := {
  SendDtmfRequest : ∀ {S}, Z → ascii → Z → Op S Z;
  StartDtmfRequest : ∀ {S}, Z → ascii → Z → Op S Z;
  StopDtmfRequest : ∀ {S}, Z → Z → Op S Z;
  GetCallFailReasonRequest : ∀ {S}, Z → Op S Z
}.

Section Templates.
Context {C : Type} `{Conn C}.

Definition FindConnectionByState (t : smap C) (state : Z) : option (Z * C) :=
  sm_find (λ c, bool_decide (GetStatus (conn_base c) = state)) t.
Definition FindConnectionByIndex (t : smap C) (index : Z) : option (Z * C) :=
  sm_find (λ c, bool_decide (GetIndex (conn_base c) = index)) t.
(** The result of [insert] and the map after it. *)
Definition SetConnectionData (t : smap C) (key : Z) (con : C) : bool * smap C :=
  (bool_decide (sm_lookup key t = None), sm_insert key con t).
Definition IsInState (t : smap C) (state : Z) : bool :=
  sm_any (λ c, bool_decide (GetStatus (conn_base c) = state)) t.

Definition StartDtmf `{ConnRequests C} {S} (t : smap C) (cDtmfCode : ascii)
    (callInfo : CellularCallInfo) : Op S Z :=
  match FindConnectionByIndex t (ci_index callInfo) with
  | None => mret CALL_ERR_CALL_CONNECTION_NOT_EXIST
  | Some (_, c) =>
      if negb (ControlBase_IsDtmfKey cDtmfCode) then mret CALL_ERR_PARAMETER_OUT_OF_RANGE
      else StartDtmfRequest (C := C) (ci_slotId callInfo) cDtmfCode (GetIndex (conn_base c))
  end.
Definition StopDtmf `{ConnRequests C} {S} (t : smap C) (callInfo : CellularCallInfo)
    : Op S Z :=
  match FindConnectionByIndex t (ci_index callInfo) with
  | None => mret CALL_ERR_CALL_CONNECTION_NOT_EXIST
  | Some (_, c) =>
      StopDtmfRequest (C := C) (ci_slotId callInfo) (GetIndex (conn_base c))
  end.
Definition SendDtmf `{ConnRequests C} {S} (t : smap C) (cDtmfCode : ascii)
    (callInfo : CellularCallInfo) : Op S Z :=
  match FindConnectionByIndex t (ci_index callInfo) with
  | None => mret CALL_ERR_CALL_CONNECTION_NOT_EXIST
  | Some (_, c) =>
      if negb (ControlBase_IsDtmfKey cDtmfCode) then mret CALL_ERR_PARAMETER_OUT_OF_RANGE
      else SendDtmfRequest (C := C) (ci_slotId callInfo) cDtmfCode (GetIndex (conn_base c))
  end.
(** On a fresh connection; the map only fixes its type. *)
Definition GetCallFailReason `{ConnRequests C} {S} (slotId : Z) (t : smap C) : Op S Z :=
  GetCallFailReasonRequest (C := C) slotId.
End Templates.
End ControlBase.

(** ** Lemmas *)

Section ControlBaseLemmas.
Context `{CallConsts, Env} {S : Type}.

Lemma wait_ready_spec n slotId (s : S) h :
  wp (wait_ready n slotId)
    (λ r s' e, s' = s ∧ ∃ k,
       e = replicate k (CvWaitFor WAIT_TIME_SECOND) ∧
       (∀ j, (j < k)%nat →
          IsReadyToCall (h ++ replicate j (CvWaitFor WAIT_TIME_SECOND)) slotId = false) ∧
       ((r = TELEPHONY_SUCCESS ∧ (k ≤ n)%nat ∧ IsReadyToCall (h ++ e) slotId = true) ∨
        (r = CALL_ERR_DIAL_FAILED ∧ k = Datatypes.S n))) s h.
Proof.
  revert h. induction n as [|n IH]; intros h; simpl; apply wp_then; unfold ask, query, wp at 1;
    (destruct (IsReadyToCall h slotId) eqn:Hr;
     [split; [done|]; exists 0%nat; rewrite app_nil_r; split_and!; [done|lia|left; repeat split; [lia|by rewrite app_nil_r]]|]);
    rewrite app_nil_r; apply wp_then; unfold send, emit, wp at 1.
  - split; [done|]. exists 1%nat. split_and!; [done| |by right].
    intros j Hj. assert (j = 0%nat) as -> by lia. by rewrite app_nil_r.
  - eapply wp_mono; [apply IH|]. intros r s' e [-> (k & -> & Hall & Hcase)].
    split; [done|]. exists (Datatypes.S k). split_and!; [done| |].
    + intros [|j] Hj; [by rewrite app_nil_r|]. simpl. rewrite cons_middle, app_assoc.
      apply Hall. lia.
    + destruct Hcase as [(-> & Hk & Hready)|[-> ->]]; [left|by right].
      repeat split; [lia|]. by rewrite <-app_assoc in Hready.
Qed.

Lemma keeps_wait_ready n slotId : keeps (wait_ready n slotId : Op S Z).
Proof. intros s h. eapply wp_mono; [apply wait_ready_spec|]. by intros r s' e [-> _]. Qed.
Lemma keeps_UpdateRadioOn slotId : keeps (UpdateRadioOn_ slotId : Op S Z).
Proof. unfold UpdateRadioOn_. mauto. Qed.
End ControlBaseLemmas.
#[export] Hint Resolve keeps_wait_ready keeps_UpdateRadioOn : cc.

Section ControlBaseKeeps.
Context `{CallConsts, Env} {S : Type}.
Lemma keeps_HandleEcc ci b1 b2 b3 : keeps (HandleEcc ci b1 b2 b3 : Op S Z).
Proof. unfold HandleEcc. mauto. Qed.
Lemma keeps_SetReadyToCall slotId b : keeps (SetReadyToCall slotId b : Op S Z).
Proof. unfold SetReadyToCall. mauto. Qed.
End ControlBaseKeeps.
#[export] Hint Resolve keeps_HandleEcc keeps_SetReadyToCall : cc.

Section ControlBaseKeeps2.
Context `{CallConsts, Env} {S : Type}.
Lemma keeps_DialPreJudgment ci b : keeps (DialPreJudgment ci b : Op S Z).
Proof. unfold DialPreJudgment. mauto. Qed.
Lemma keeps_IsNeedExecuteMMI slotId ph clir ims :
  keeps (IsNeedExecuteMMI slotId ph clir ims : Op S _).
Proof. unfold IsNeedExecuteMMI. mauto. Qed.
End ControlBaseKeeps2.
#[export] Hint Resolve keeps_DialPreJudgment keeps_IsNeedExecuteMMI : cc.

(** *** What the shared operations send *)

(** Not a report to call_manager. *)
Definition not_report (e : Effect) : Prop := match e with Report _ => False | _ => True end.

Section Sends.
Context `{CallConsts, Env} {S : Type}.

Lemma sends_wait_ready_not n slotId : sends not_report (wait_ready n slotId : Op S Z).
Proof. induction n; simpl; mauto; done. Qed.
Lemma sends_UpdateRadioOn_not slotId : sends not_report (UpdateRadioOn_ slotId : Op S Z).
Proof. unfold UpdateRadioOn_. mauto; done. Qed.
#[local] Hint Resolve sends_wait_ready_not sends_UpdateRadioOn_not : cc.
Lemma sends_HandleEcc_not ci b1 b2 b3 : sends not_report (HandleEcc ci b1 b2 b3 : Op S Z).
Proof. unfold HandleEcc. mauto; done. Qed.
#[local] Hint Resolve sends_HandleEcc_not : cc.
Lemma sends_DialPreJudgment_not ci b : sends not_report (DialPreJudgment ci b : Op S Z).
Proof. unfold DialPreJudgment. mauto; done. Qed.
Lemma sends_RegexMatchMmi_not str : sends not_report (RegexMatchMmi str).
Proof. unfold RegexMatchMmi. mauto; done. Qed.
#[local] Hint Resolve sends_RegexMatchMmi_not : cc.
Lemma sends_IsNeedExecuteMmi_not str ims : sends not_report (IsNeedExecuteMmi str ims).
Proof. unfold IsNeedExecuteMmi. mauto; done. Qed.
#[local] Hint Resolve sends_IsNeedExecuteMmi_not : cc.
Lemma sends_IsNeedExecuteMMI_not slotId ph clir ims :
  sends not_report (IsNeedExecuteMMI slotId ph clir ims : Op S _).
Proof. unfold IsNeedExecuteMMI. mauto; done. Qed.
End Sends.
#[export] Hint Resolve sends_DialPreJudgment_not sends_IsNeedExecuteMMI_not : cc.

(** ** Properties *)

Section EmergencyPreparation.
Context `{CallConsts, Env, !CallConstsOk} {S : Type}.

Lemma CALL_ERR_DIAL_FAILED_ne : CALL_ERR_DIAL_FAILED ≠ TELEPHONY_SUCCESS.
Proof. err_ne. Qed.

(** What preparing an emergency dial may send. *)
Definition ecc_effect (slotId : Z) (isAirplaneModeOn isActivateSim : bool) (e : Effect) : Prop :=
  match e with
  | UpdateRadioOn slot | ConfigSetReadyToCall slot false =>
      slot = slotId ∧ isAirplaneModeOn = true
  | SetActiveSim _ active => active = true ∧ isActivateSim = false
  | CvWaitFor t => t = WAIT_TIME_SECOND
  | _ => False
  end.

Lemma sends_wait_ready n slotId b1 b2 :
  sends (ecc_effect slotId b1 b2) (wait_ready n slotId : Op S Z).
Proof.
  intros s h. eapply wp_mono; [apply wait_ready_spec|].
  intros r s' e (_ & k & -> & _). by apply Forall_replicate.
Qed.

Definition is_wait (e : Effect) : bool := match e with CvWaitFor _ => true | _ => false end.
Definition waits (e : list Effect) : nat := List.length (List.filter is_wait e).

(** The tail of [HandleEcc]: activation of the SIM cards, then the wait. *)
Definition ecc_done (slotId : Z) (h : list Effect) (r : Z) (e : list Effect) : Prop :=
  (r = TELEPHONY_SUCCESS → IsReadyToCall (h ++ e) slotId = true) ∧
  ∃ e1, (waits e ≤ Datatypes.S (wakeups_before_timeout (h ++ e1)))%nat.

Lemma waits_app e1 e2 : waits (e1 ++ e2) = (waits e1 + waits e2)%nat.
Proof. unfold waits. by rewrite List.filter_app, length_app. Qed.
Lemma waits_replicate k t : waits (replicate k (CvWaitFor t)) = k.
Proof. unfold waits. induction k; simpl; congruence. Qed.

Lemma ecc_wait_done slotId (s : S) h :
  wp (wait_ready (wakeups_before_timeout h) slotId)
    (λ r _ e, ecc_done slotId h r e) s h.
Proof.
  eapply wp_mono; [apply wait_ready_spec|].
  intros r s' e (_ & k & -> & _ & Hcase). split.
  - destruct Hcase as [(_ & _ & ?)|[-> _]]; [done|]. intros []%CALL_ERR_DIAL_FAILED_ne.
  - exists []. rewrite app_nil_r, waits_replicate. destruct Hcase as [(_ & ? & _)|[_ ->]]; lia.
Qed.
Lemma ecc_wait_done' slotId b1 b2 (s : S) h :
  wp (wait_ready (wakeups_before_timeout h) slotId)
    (λ r s' e, s' = s ∧ Forall (ecc_effect slotId b1 b2) e ∧ ecc_done slotId h r e) s h.
Proof.
  apply wp_and; [|apply wp_and; [|apply ecc_wait_done]].
  - apply keeps_wait_ready.
  - apply sends_wait_ready.
Qed.
Lemma ecc_done_prefix slotId h e0 r e :
  waits e0 = 0%nat → ecc_done slotId (h ++ e0) r e → ecc_done slotId h r (e0 ++ e).
Proof.
  intros Hw [Hr (e1 & Hle)]. split; [by rewrite app_assoc|].
  exists (e0 ++ e1). rewrite app_assoc, waits_app. lia.
Qed.
Lemma ecc_done_failed slotId h r e :
  r ≠ TELEPHONY_SUCCESS → waits e = 0%nat → ecc_done slotId h r e.
Proof. intros Hr Hw. split; [done|]. exists []. lia. Qed.

(** Preparing a dial while the radio may be off.  A number that is not an
    emergency number is refused with TELEPHONY_ERR_AIRPLANE_MODE_ON and
    nothing is touched.  For an emergency number the radio is switched on
    only when airplane mode is on, SIM cards are only ever activated and only
    when the slot's card is inactive, success is reported only when the slot
    is ready to call at that moment, and the wait is bounded: one timed wait
    more than the notifications that arrive in time. *)
Theorem HandleEcc_ready (callInfo : CellularCallInfo) isEcc isAirplaneModeOn isActivateSim
  (s : S) h :
  let slotId := ci_slotId callInfo in
  wp (HandleEcc callInfo isEcc isAirplaneModeOn isActivateSim)
    (λ r s' e,
       s' = s ∧
       if isEcc then
         Forall (ecc_effect slotId isAirplaneModeOn isActivateSim) e ∧
         (isAirplaneModeOn = true → UpdateRadioOn slotId ∈ e) ∧
         ecc_done slotId h r e
       else r = TELEPHONY_ERR_AIRPLANE_MODE_ON ∧ e = []) s h.
Proof.
  intros slotId. unfold HandleEcc, UpdateRadioOn_. fold slotId.
  destruct isEcc; cbn [negb]; [|done].
  set (activate := if negb isActivateSim then _ else _).
  assert (∀ h, wp activate (λ r s' e, s' = s ∧
    Forall (ecc_effect slotId isAirplaneModeOn isActivateSim) e ∧ ecc_done slotId h r e) s h)
    as Hact.
  { intros h'. unfold activate. destruct isActivateSim; cbn [negb]; [wsteps; apply ecc_wait_done'|].
    wsteps. case_bool_decide; wsteps.
    { split_and!; [done|by repeat constructor|by apply ecc_done_failed]. }
    destruct (CheckActivateSimScene _ _); cbn [negb].
    { wsteps. eapply wp_mono; [apply ecc_wait_done'|]. intros r s' e (-> & He & Hd). cbn [app].
      split_and!; [done|by constructor|by apply (ecc_done_prefix _ _ [_])]. }
    wsteps. case_bool_decide; wsteps.
    { split_and!; [done|by repeat constructor|by apply ecc_done_failed]. }
    eapply wp_mono; [apply ecc_wait_done'|]. intros r s' e (-> & He & Hd). cbn [app].
    rewrite <-app_assoc in Hd.
    split_and!; [done|by repeat constructor|by apply (ecc_done_prefix _ _ [_; _])]. }
  destruct isAirplaneModeOn.
  - wsteps. case_bool_decide; wsteps; case_bool_decide; try done; wsteps; try done.
    + split_and!; [done|by repeat constructor|set_unfold; auto|by apply ecc_done_failed].
    + eapply wp_mono; [apply Hact|]. intros r s' e (-> & He & Hd).
      cbn [app] in *.
      split_and!; [done|by repeat constructor|intros _; set_unfold; auto|].
      by apply (ecc_done_prefix _ _ [_; _]).
  - eapply wp_mono; [apply Hact|]. intros r s' e (-> & He & Hd). by split_and!.
Qed.
End EmergencyPreparation.

Section DialChecks.
Context `{CallConsts, Env} {S : Type}.

Definition radio_ready (h : list Effect) (slotId : Z) : bool :=
  if BASE_POWER_IMPROVEMENT_FEATURE then isRadioOnFlag h slotId
  else GetRadioState h slotId.
(** What [DialPreJudgment] answers for a number, once the emergency
    preparation is over. *)
Definition dial_verdict (h : list Effect) (slotId : Z) (phoneNum : string) : Z :=
  if bool_decide (phoneNum = "") then CALL_ERR_PHONE_NUMBER_EMPTY
  else if BASE_POWER_IMPROVEMENT_FEATURE && negb (service_instance h)
       then TELEPHONY_ERR_LOCAL_PTR_NULL
  else if radio_ready h slotId then TELEPHONY_SUCCESS else CALL_ERR_GET_RADIO_STATE_FAILED.

Definition is_hisys (e : Effect) : Prop := match e with HiSys _ => True | _ => False end.

(** The checks before any dial.  After the emergency preparation [e1]
    (nothing at all for another number) the answer depends on the number and
    on the radio at that time only: the number must not be empty and the
    radio must be on; whatever the preparation returned is not looked at.
    A refusal writes one fault record and sends nothing else. *)
Theorem DialPreJudgment_verdict (callInfo : CellularCallInfo) isEcc (s : S) h :
  wp (DialPreJudgment callInfo isEcc)
    (λ r s' e, s' = s ∧ ∃ e1 e2, e = e1 ++ e2 ∧
       e1 = (HandleEcc callInfo isEcc (CheckAirplaneModeScene h)
               (CheckActivateSimScene h (ci_slotId callInfo)) s h).2 ∧
       (isEcc = false → e1 = []) ∧
       r = dial_verdict (h ++ e1) (ci_slotId callInfo) (ci_phoneNum callInfo) ∧
       Forall is_hisys e2 ∧ (List.length e2 ≤ 1)%nat) s h.
Proof.
  unfold DialPreJudgment. wsteps.
  set (m := HandleEcc _ _ _ _).
  assert (wp m (λ _ s' e, s' = s ∧ e = (m s h).2 ∧ (isEcc = false → e = [])) s h) as Hm.
  { apply wp_and; [apply keeps_HandleEcc|]. unfold wp. destruct (m s h) as [[r s'] e] eqn:Em.
    split; [done|]. intros ->. by injection Em. }
  eapply wp_mono; [apply Hm|]. clear Hm. intros r s' e1 (-> & He1 & Hecc). cbn beta.
  unfold dial_verdict, radio_ready, string_empty.
  destruct (bool_decide (ci_phoneNum callInfo = ""));
    [|destruct BASE_POWER_IMPROVEMENT_FEATURE;
      [wsteps; destruct (service_instance _) eqn:Es; cbn [negb andb];
        [wsteps; destruct (isRadioOnFlag _ _) eqn:Er|]
      |wsteps; destruct (GetRadioState _ _) eqn:Er]];
    cbn [negb andb]; wsteps; (split; [done|]);
    match goal with
    | |- context [HiSys ?ev] => exists e1, [HiSys ev]
    | _ => exists e1, []
    end; rewrite ?app_nil_r; cbn; rewrite ?Es, ?Er; split_and!; try done; try lia; by repeat constructor.
Qed.
End DialChecks.

Section DialMmi.
Context `{CallConsts, Env} {S : Type}.

(** The parsed code asks for a call (the dial string) with a caller-id mode. *)
Definition clir_call (p : MmiParts) : Prop :=
  p_dial p ≠ "" ∧ (p_action p = "*" ∨ p_action p = "#").
Definition clir_of (p : MmiParts) (clirMode : CLIRMode) : CLIRMode :=
  if bool_decide (p_code p = "31")
  then if bool_decide (p_action p = "*") then INHIBITION else TRANSFER
  else clirMode.

(** MMI codes in a dial string, on every branch (without the vendor
    extension).  An emergency number and a string that is no MMI code are
    dialled unchanged and nothing is sent.  A code with a dial string whose
    action is star or hash is dialled as that dial string, with caller id
    shown or hidden for code 31 and the caller's mode for every other code.
    Every other code goes to the slot's handler as one MMI event with the
    parsed fields, and is not dialled when the handler took it. *)
Theorem IsNeedExecuteMMI_decision slotId phone clir ims (s : S) h :
  (IsEmergencyCall_ h slotId phone = true →
     IsNeedExecuteMMI slotId phone clir ims s h = ((false, phone, clir), s, [])) ∧
  (IsEmergencyCall_ h slotId phone = false → ext_isMmiCode = None →
     (¬ mmi_wanted h phone →
        IsNeedExecuteMMI slotId phone clir ims s h = ((false, phone, clir), s, [])) ∧
     (∀ p, parts_ok p → phone = render p → clir_call p →
        IsNeedExecuteMMI slotId phone clir ims s h =
          ((false, p_dial p, clir_of p clir), s, [])) ∧
     (∀ p, parts_ok p → phone = render p → ¬ clir_call p →
        service_instance h = true → GetHandler h slotId = true →
        let event := SendEvent slotId (EVENT_MMI_Id (data_of p) ims) in
        IsNeedExecuteMMI slotId phone clir ims s h =
          ((reply_bool h event, phone, clir), s, [event]))).
Proof.
  unfold IsNeedExecuteMMI. split; [|intros Hecc Hext; split_and!].
  - intros Hecc. mrun. by rewrite Hecc.
  - intros Hw. unfold mthen at 1, ask at 1, query. rewrite Hecc, Hext, app_nil_r.
    destruct (IsNeedExecuteMmi_cases phone ims MMICodeUtils_new h) as (d & Heq & Hd & _).
    destruct d as [d|]; [destruct Hw; apply Hd; eauto|].
    unfold mthen, with_local. by rewrite Heq.
  - intros p Hp -> [Hdial Hact]. unfold mthen at 1, ask at 1, query.
    rewrite Hecc, Hext, app_nil_r.
    unfold mthen at 1, with_local. rewrite IsNeedExecuteMmi_render by done.
    cbn -[render bool_decide]. destruct Hp as (_ & Hlen & _).
    assert (string_empty (p_code p) = false) as ->
      by (apply string_empty_false; intros Hc; rewrite Hc in Hlen; simpl in Hlen; lia).
    apply string_empty_false in Hdial. rewrite Hdial. cbn [negb andb]. unfold clir_of.
    by destruct Hact as [-> | ->].
  - intros p Hp -> Hnc Hserv Hhand. unfold mthen at 1, ask at 1, query.
    rewrite Hecc, Hext, app_nil_r.
    unfold mthen at 1, with_local. rewrite IsNeedExecuteMmi_render by done.
    cbn -[render bool_decide].
    set (submit := mthen (ask service_instance) _).
    assert (submit s (h ++ []) = ((reply_bool h (SendEvent slotId (EVENT_MMI_Id (data_of p) ims)),
      render p, clir), s, [SendEvent slotId (EVENT_MMI_Id (data_of p) ims)])) as Hsub.
    { unfold submit. mrun. rewrite !app_nil_r, Hserv. cbn. rewrite !app_nil_r, Hhand. done. }
    unfold clir_call in Hnc.
    destruct (negb _ && negb _) eqn:Hne; [|by rewrite Hsub].
    apply andb_true_iff in Hne as [_ Hdial%negb_true_iff%string_empty_false].
    rewrite !bool_decide_false by naive_solver. by rewrite Hsub.
Qed.
End DialMmi.
