(* ===== verification/CallMap.v ===== *)
(** * CallMap: connection maps inside a control

    The operations the three controls run on an element of their map (through
    the pointer a search returned), and the theory of the comparison of a call
    list with the map: mark what the list reports, sweep what it does not. *)

From stdpp Require Import base tactics option list numbers strings gmap sets.
From Stdlib Require Import ZArith Lia Ascii String Sorted.
From S2P Require Import Prelude Platform StdMap Connection ControlBase.

Open Scope Z_scope.

(** A control that owns a connection map. *)
Class HasConns (S C : Type) := {
  conns : S → smap C;
  set_conns : smap C → S → S;
  conns_set : ∀ m s, conns (set_conns m s) = m
}.

Section OnConn.
Context {S C : Type} `{Env, HasConns S C}.

(** [pConnection->m()], where a search returned [p]: [m] runs on the element
    as it is now, and its changes are written back. *)
Definition on_conn {A} (p : Z * C) (m : Op C A) : Op S A :=
  λ s h,
    let c := default p.2 (sm_lookup p.1 (conns s)) in
    let '(a, c', e) := m c h in
    (a, set_conns (sm_alter (λ _, c') p.1 (conns s)) s, e).
Definition modify_conn (p : Z * C) (f : C → C) : Op S () := on_conn p (mmodify f).
Definition read_conn {A} (p : Z * C) (f : C → A) : Op S A :=
  mgets (λ s, f (default p.2 (sm_lookup p.1 (conns s)))).
Definition modify_conns (f : smap C → smap C) : Op S () :=
  mmodify (λ s, set_conns (f (conns s)) s).

Lemma wp_on_conn {A} k c0 c (m : Op C A) Q s h :
  sm_lookup k (conns s) = Some c →
  wp m (λ a c' e, Q a (set_conns (sm_alter (λ _, c') k (conns s)) s) e) c h →
  wp (on_conn (k, c0) m) Q s h.
Proof.
  unfold wp, on_conn. cbn [fst snd]. intros -> Hw. cbn [default from_option id].
  by destruct (m c h) as [[??]?].
Qed.
Lemma wp_modify_conn k c0 c f Q s h :
  sm_lookup k (conns s) = Some c →
  Q () (set_conns (sm_alter (λ _, f c) k (conns s)) s) [] →
  wp (modify_conn (k, c0) f) Q s h.
Proof. intros Hk HQ. eapply wp_on_conn; [done|]. done. Qed.
Lemma wp_read_conn {A} k c0 c (f : C → A) Q s h :
  sm_lookup k (conns s) = Some c → Q (f c) s [] → wp (read_conn (k, c0) f) Q s h.
Proof. intros Hk. unfold wp, read_conn, mgets. cbn [fst snd]. by rewrite Hk. Qed.
Lemma wp_modify_conns f Q s h :
  Q () (set_conns (f (conns s)) s) [] → wp (modify_conns f) Q s h.
Proof. done. Qed.
End OnConn.

(** ** Well-formed maps *)

Section CallMap.
Context {C : Type} `{Conn C}.
Implicit Types (m : smap C) (c : C) (k i : Z).

Definition c_index c : Z := GetIndex (conn_base c).
Definition c_flag c : bool := GetFlag (conn_base c).
Definition c_status c : Z := GetStatus (conn_base c).

(** Keys increase, and every call sits under its own index. *)
Definition conns_ok m : Prop :=
  smap_ok m ∧ ∀ k c, sm_lookup k m = Some c → c_index c = k.
(** Between two operations no call is marked. *)
Definition unmarked m : Prop := ∀ k c, sm_lookup k m = Some c → c_flag c = false.

Lemma conns_ok_nil : conns_ok [].
Proof. split; [apply smap_ok_nil|done]. Qed.
Lemma unmarked_nil : unmarked [].
Proof. done. Qed.

Lemma conns_ok_insert k c m : conns_ok m → c_index c = k → conns_ok (sm_insert k c m).
Proof.
  intros [Hs Hi] Hc. split; [by apply smap_ok_insert|]. intros k' c'.
  destruct (sm_lookup k m) as [c0|] eqn:Hk.
  - rewrite sm_insert_present by eauto. apply Hi.
  - rewrite sm_lookup_insert_fresh by done. case_bool_decide; [|apply Hi].
    intros [= <-]. congruence.
Qed.
Lemma conns_ok_alter k f m :
  conns_ok m → (∀ c, sm_lookup k m = Some c → c_index (f c) = k) → conns_ok (sm_alter f k m).
Proof.
  intros [Hs Hi] Hf. split; [by apply smap_ok_alter|]. intros k' c'.
  rewrite sm_lookup_alter. case_bool_decide as Hk; [|apply Hi]. subst.
  destruct (sm_lookup k m) as [c|] eqn:Hk; [|done]. intros [= <-]. by apply Hf.
Qed.
Lemma conns_ok_map f m : conns_ok m → (∀ c, c_index (f c) = c_index c) → conns_ok (sm_map f m).
Proof.
  intros [Hs Hi] Hf. split; [by apply smap_ok_map|]. intros k c.
  rewrite sm_lookup_map. intros (c' & Hc' & ->)%fmap_Some. rewrite Hf. by apply Hi.
Qed.
Lemma conns_ok_filter p m : conns_ok m → conns_ok (sm_filter p m).
Proof.
  intros [Hs Hi]. split; [by apply smap_ok_filter|]. intros k c.
  rewrite sm_lookup_filter by done. destruct (sm_lookup k m) eqn:Hk; [|done].
  case_match; [|done]. intros [= <-]. by apply Hi.
Qed.
Lemma unmarked_alter k f m :
  unmarked m → (∀ c, sm_lookup k m = Some c → c_flag (f c) = false) → unmarked (sm_alter f k m).
Proof.
  intros Hu Hf k' c'. rewrite sm_lookup_alter. case_bool_decide as Hk; [|apply Hu]. subst.
  destruct (sm_lookup k m) as [c|] eqn:Hk; [|done]. intros [= <-]. by apply Hf.
Qed.
Lemma unmarked_map f m :
  unmarked m → (∀ c, c_flag (f c) = c_flag c) → unmarked (sm_map f m).
Proof.
  intros Hu Hf k c. rewrite sm_lookup_map. intros (c' & Hc' & ->)%fmap_Some.
  rewrite Hf. by eapply Hu.
Qed.
Lemma unmarked_insert k c m :
  smap_ok m → unmarked m → c_flag c = false → unmarked (sm_insert k c m).
Proof.
  intros Hs Hu Hc k' c'. destruct (sm_lookup k m) as [c0|] eqn:Hk.
  - rewrite sm_insert_present by eauto. apply Hu.
  - rewrite sm_lookup_insert_fresh by done. case_bool_decide; [|apply Hu]. by intros [= <-].
Qed.

(** *** Searches *)

(** On a well-formed map the search by index is the lookup by key. *)
Lemma FindConnectionByIndex_lookup m i :
  conns_ok m → FindConnectionByIndex m i = (λ c, (i, c)) <$> sm_lookup i m.
Proof.
  intros [Hs Hi]. unfold FindConnectionByIndex.
  destruct (sm_find _ m) as [[k c]|] eqn:Hf.
  - apply sm_find_Some in Hf as [Hin Hp%bool_decide_eq_true].
    apply sm_elem_of_lookup in Hin; [|done].
    pose proof (Hi _ _ Hin) as Hk. unfold c_index in Hk. rewrite Hp in Hk. subst.
    by rewrite Hin.
  - rewrite sm_find_None, Forall_forall in Hf.
    destruct (sm_lookup i m) as [c|] eqn:Hk; [|done].
    apply sm_elem_of_lookup in Hk as Hin; [|done]. specialize (Hf _ Hin). simpl in Hf.
    apply bool_decide_eq_false in Hf. destruct Hf. by apply Hi.
Qed.
Lemma FindConnectionByState_Some m st k c :
  conns_ok m → FindConnectionByState m st = Some (k, c) →
  sm_lookup k m = Some c ∧ c_status c = st.
Proof.
  intros [Hs _] [Hin Hst%bool_decide_eq_true]%sm_find_Some.
  by rewrite <-sm_elem_of_lookup.
Qed.
Lemma IsInState_true m st :
  smap_ok m →
  IsInState m st = true ↔ ∃ k c, sm_lookup k m = Some c ∧ c_status c = st.
Proof.
  intros Hs. unfold IsInState. rewrite sm_any_find. split.
  - intros [[k c] [Hin Hst%bool_decide_eq_true]%sm_find_Some]. exists k, c.
    by rewrite <-sm_elem_of_lookup.
  - intros (k & c & Hk & Hst). destruct (sm_find _ m) eqn:Hf; [eauto|].
    rewrite sm_find_None, Forall_forall in Hf.
    apply sm_elem_of_lookup in Hk; [|done]. specialize (Hf _ Hk). simpl in Hf.
    by apply bool_decide_eq_false in Hf.
Qed.
Lemma IsInState_find m st : IsInState m st = bool_decide (is_Some (FindConnectionByState m st)).
Proof.
  unfold IsInState, FindConnectionByState. apply eq_bool_prop_intro.
  rewrite !Is_true_true, bool_decide_eq_true. apply sm_any_find.
Qed.

(** *** Sweeping *)

(** What [DeleteConnection] does to the map, in one pass. *)
Definition sweep m : smap C := sm_map (upd (SetFlag false)) (sm_filter c_flag m).
(** What it drops, in key order. *)
Definition unflagged m : list C := (sm_filter (negb ∘ c_flag) m).*2.

Lemma sweep_lookup m k :
  smap_ok m →
  sm_lookup k (sweep m) =
    match sm_lookup k m with
    | Some c => if c_flag c then Some (upd (SetFlag false) c) else None
    | None => None
    end.
Proof.
  intros Hs. unfold sweep. rewrite sm_lookup_map, sm_lookup_filter by done.
  destruct (sm_lookup k m); [|done]. by case_match.
Qed.
Lemma sweep_ok m : conns_ok m → conns_ok (sweep m) ∧ unmarked (sweep m).
Proof.
  intros Hm. split.
  - apply conns_ok_map; [by apply conns_ok_filter|].
    intros c. unfold c_index. by rewrite conn_base_upd.
  - intros k c. rewrite sweep_lookup by apply Hm.
    destruct (sm_lookup k m); [|done]. case_match; [|done]. intros [= <-].
    unfold c_flag. by rewrite conn_base_upd.
Qed.
End CallMap.

(** ** The invariant of a control *)

Section ConnsInv.
Context {S C : Type} `{Env, Conn C, !HasConns S C}.

Definition conns_inv (s : S) : Prop := conns_ok (conns s) ∧ unmarked (conns s).

(** [m] leaves the index and the mark of its connection alone. *)
Definition conn_stable {A} (m : Op C A) : Prop :=
  ∀ c h, wp m (λ _ c' _, c_index c' = c_index c ∧ c_flag c' = c_flag c) c h.
Definition base_stable (f : BaseConnection → BaseConnection) : Prop :=
  ∀ b, GetIndex (f b) = GetIndex b ∧ GetFlag (f b) = GetFlag b.

Lemma conn_stable_keeps {A} (m : Op C A) : keeps m → conn_stable m.
Proof. intros Hk c h. eapply wp_mono; [apply Hk|]. by intros ? ? ? ->. Qed.
Lemma conn_stable_upd f : base_stable f → conn_stable (mmodify (upd f)).
Proof. intros Hf c h. unfold wp, c_index, c_flag. simpl. rewrite conn_base_upd. apply Hf. Qed.
Lemma conn_stable_then {A B} (m : Op C A) (f : A → Op C B) :
  conn_stable m → (∀ a, conn_stable (f a)) → conn_stable (mthen m f).
Proof.
  intros Hm Hf c h. apply wp_then. eapply wp_mono; [apply Hm|]. intros a c1 e1 [Hi Hg].
  cbn beta. eapply wp_mono; [apply Hf|]. cbn beta. intros b c2 e2 [-> ->]. done.
Qed.

Lemma preserves_on_conn {A} p (m : Op C A) :
  conn_stable m → preserves conns_inv (on_conn p m).
Proof.
  intros Hm s h [Hok Hu]. destruct p as [k c0]. unfold wp, on_conn. simpl.
  specialize (Hm (default c0 (sm_lookup k (conns s))) h). unfold wp in Hm.
  destruct (m _ h) as [[a c'] e]. destruct Hm as [Hi Hg]. unfold conns_inv.
  rewrite conns_set. split.
  - apply conns_ok_alter; [done|]. intros c Hc. rewrite Hi, Hc. by apply Hok.
  - apply unmarked_alter; [done|]. intros c Hc. rewrite Hg, Hc. by eapply Hu.
Qed.
Lemma preserves_modify_conn p (f : C → C) :
  (∀ c, c_index (f c) = c_index c ∧ c_flag (f c) = c_flag c) →
  preserves conns_inv (modify_conn p f).
Proof. intros Hf. apply preserves_on_conn. intros c h. apply Hf. Qed.
Lemma preserves_modify_conns_map (f : C → C) :
  (∀ c, c_index (f c) = c_index c ∧ c_flag (f c) = c_flag c) →
  preserves conns_inv (modify_conns (sm_map f)).
Proof.
  intros Hf s h [Hok Hu]. apply wp_modify_conns. unfold conns_inv. rewrite conns_set. split.
  - apply conns_ok_map; [done|]. intros c. apply Hf.
  - apply unmarked_map; [done|]. intros c. apply Hf.
Qed.
Lemma preserves_clear : preserves conns_inv (modify_conns (λ _, [])).
Proof.
  intros s h _. apply wp_modify_conns. unfold conns_inv. rewrite conns_set.
  split; [apply conns_ok_nil|apply unmarked_nil].
Qed.
Lemma keeps_read_conn {A} p (f : C → A) : keeps (read_conn p f : Op S A).
Proof. apply keeps_gets. Qed.
Lemma sends_read_conn {A} P p (f : C → A) : sends P (read_conn p f : Op S A).
Proof. apply sends_gets. Qed.
Lemma sends_on_conn {A} P p (m : Op C A) : sends P m → sends P (on_conn p m : Op S A).
Proof.
  intros Hm s h. unfold wp, on_conn.
  specialize (Hm (default p.2 (sm_lookup p.1 (conns s))) h). unfold wp in Hm.
  by destruct (m _ h) as [[??]?].
Qed.
Lemma sends_modify_conn P p (f : C → C) : sends P (modify_conn p f : Op S ()).
Proof. apply sends_on_conn, sends_modify. Qed.
Lemma sends_modify_conns P (f : smap C → smap C) : sends P (modify_conns f : Op S ()).
Proof. apply sends_modify. Qed.
Lemma conn_stable_ProcessNextChar `{!PostDial C} slotId : conn_stable (ProcessNextChar slotId).
Proof.
  intros c h. eapply wp_mono; [apply ProcessNextChar_frame|]. unfold c_index, c_flag.
  by intros r c' e (st & n & ->).
Qed.
End ConnsInv.
#[export] Hint Resolve keeps_read_conn sends_read_conn sends_on_conn sends_modify_conn
  sends_modify_conns preserves_clear conn_stable_keeps
  conn_stable_ProcessNextChar : cc.
#[export] Hint Extern 2 (preserves conns_inv (on_conn _ _)) => apply preserves_on_conn : cc.
