(* ===== verification/CallReport.v ===== *)
(** * CallReport: comparing a call list with a connection map

    What the three controls share when the modem reports its calls: the
    post-dial step, the pass that drops the calls the list no longer has, and
    the theory of marking and sweeping.  A list entry has an index, a number
    and the report it is shown as; [extra] is what a connection keeps of its
    own across a comparison (the reason it ended, its message). *)

From stdpp Require Import base tactics option list numbers strings gmap sets.
From Stdlib Require Import ZArith Lia Ascii String Sorted.
From S2P Require Import Prelude Platform StdMap Connection ControlBase CallMap.

Open Scope Z_scope.

(** Not a report of the list of calls. *)
Definition not_calls_report (e : Effect) : Prop :=
  match e with Report (ReportCallsInfo _) => False | _ => True end.

Lemma not_report_calls e : not_report e → not_calls_report e.
Proof. by destruct e. Qed.

(** ** Definitions *)

Section Definitions.
Context {C : Type} `{Conn C}.

(** [isFind]: some entry of the list has the connection's index. *)
Definition is_listed {X} (x_index : X → Z) (l : list X) (c : C) : bool :=
  existsb (λ x, bool_decide (GetIndex (conn_base c) = x_index x)) l.

(** [while (it != end)]: an unmarked connection is reported as [gone] and
    erased, a marked one is unmarked. *)
Fixpoint DeleteConnection_loop (gone : C → CallReportInfo) (m : smap C)
    (callVec : list CallReportInfo) : smap C * list CallReportInfo :=
  match m with
  | [] => ([], callVec)
  | (k, c) :: m' =>
      if negb (GetFlag (conn_base c)) then
        DeleteConnection_loop gone m' (callVec ++ [gone c])
      else
        let '(m'', callVec') := DeleteConnection_loop gone m' callVec in
        ((k, upd (SetFlag false) c) :: m'', callVec')
  end.

(** [ExecutePostDial] of the CS and IMS controls. *)
Definition post_dial_step {S : Type} `{CallConsts, Env, !HasConns S C, !PostDial C}
    (slotId callId : Z) : Op S Z :=
  let! m := mgets conns in
  if sm_empty m then mret TELEPHONY_ERROR
  else
    match FindConnectionByIndex m callId with
    | None => mret TELEPHONY_ERR_LOCAL_PTR_NULL
    | Some p =>
        let! (state, currentChar) := on_conn p (ProcessNextChar slotId) in
        match state with
        | POST_DIAL_CALL_STARTED =>
            report (ReportPostDialChar (default "000"%char currentChar))
        | POST_DIAL_CALL_DELAY =>
            let! leftString := read_conn p (λ c, GetLeftPostDialCallString (conn_base c)) in
            report (ReportPostDialDelay leftString)
        | _ => mret ()
        end ;;
        mret TELEPHONY_SUCCESS
    end.
End Definitions.

(** ** Entries of a list *)

Section Listed.
Context {C X : Type} `{Conn C} (x_index : X → Z).
Implicit Types (l : list X) (c : C).

(** The last entry of the list for an index. *)
Definition last_call (k : Z) l : option X := last (filter (λ x, x_index x = k) l).

Lemma last_call_snoc k l x :
  last_call k (l ++ [x]) = if bool_decide (x_index x = k) then Some x else last_call k l.
Proof.
  unfold last_call. rewrite filter_app. case_bool_decide as Hx.
  - rewrite filter_cons_True, filter_nil, last_snoc by done. done.
  - by rewrite filter_cons_False, filter_nil, app_nil_r by done.
Qed.
Lemma last_call_Some k l x : last_call k l = Some x → x ∈ l ∧ x_index x = k.
Proof.
  intros Hl%last_Some_elem_of. apply list_elem_of_filter in Hl. naive_solver.
Qed.
Lemma last_call_None k l : last_call k l = None ↔ k ∉ x_index <$> l.
Proof.
  unfold last_call. rewrite last_None, list_elem_of_fmap. split.
  - intros Hn (x & -> & Hx). assert (x ∈ filter (λ y, x_index y = x_index x) l) as Hin
      by (by rewrite list_elem_of_filter).
    rewrite Hn in Hin. by apply not_elem_of_nil in Hin.
  - intros Hn. destruct (filter _ l) as [|x l'] eqn:El; [done|]. destruct Hn.
    assert (x ∈ filter (λ y, x_index y = k) l) as [? ?]%list_elem_of_filter
      by (rewrite El; by left). by exists x.
Qed.
Lemma is_listed_last_call l c :
  is_listed x_index l c = true ↔ last_call (c_index c) l ≠ None.
Proof.
  assert (is_listed x_index l c = true ↔ c_index c ∈ x_index <$> l) as ->.
  { unfold is_listed. rewrite existsb_exists, list_elem_of_fmap.
    setoid_rewrite bool_decide_eq_true. setoid_rewrite <-list_elem_of_In. naive_solver. }
  rewrite last_call_None. split; [naive_solver|]. intros Hn. by apply dec_stable.
Qed.

(** The calls of the map that the list no longer has, in key order. *)
Definition lost l (m : smap C) : list C := (sm_filter (negb ∘ is_listed x_index l) m).*2.
End Listed.

(** ** Marking and sweeping *)

Section Compare.
Context {S C X R T : Type} `{CallConsts, Env, Conn C, !HasConns S C}.
Context (x_index : X → Z) (x_number : X → string) (report_of : X → CallReportInfo).
Context (extra : C → R) (extra0 : R).
Implicit Types (l : list X) (m : smap C) (c : C) (s : S).

(** A listed call after the marking: marked, with the report and the number
    of the list, and its own extra data of before. *)
Definition updated (x : X) (c0 : option C) c : Prop :=
  c_flag c = true ∧ GetCallReportInfo (conn_base c) = report_of x ∧
  GetNumber (conn_base c) = x_number x ∧ extra c = default extra0 (extra <$> c0).

(** The map after the marking of a whole list. *)
Definition marked l m m' : Prop :=
  conns_ok m' ∧
  ∀ k, match last_call x_index k l with
       | None => sm_lookup k m' = sm_lookup k m
       | Some x => ∃ c, sm_lookup k m' = Some c ∧ updated x (sm_lookup k m) c
       end.

(** The map after a comparison: one unmarked call per listed index. *)
Definition compared l m m' : Prop :=
  conns_ok m' ∧ unmarked m' ∧
  ∀ k, match last_call x_index k l with
       | None => sm_lookup k m' = None
       | Some x => ∃ c, sm_lookup k m' = Some c ∧
           GetCallReportInfo (conn_base c) = report_of x ∧
           GetNumber (conn_base c) = x_number x ∧
           extra c = default extra0 (extra <$> sm_lookup k m)
       end.

Lemma marked_snoc l x m m1 m2 c :
  marked l m m1 → conns_ok m2 →
  (∀ k, k ≠ x_index x → sm_lookup k m2 = sm_lookup k m1) →
  sm_lookup (x_index x) m2 = Some c → updated x (sm_lookup (x_index x) m1) c →
  marked (l ++ [x]) m m2.
Proof.
  intros [_ Hm] Hok Hother Hc Hu. split; [done|]. intros k. rewrite last_call_snoc.
  specialize (Hm k). case_bool_decide as Hk; [subst|by rewrite Hother].
  exists c. split; [done|]. destruct Hu as (? & ? & ? & Hr). split_and!; [done..|].
  rewrite Hr. destruct (last_call x_index _ l) as [x'|]; [|by rewrite Hm].
  destruct Hm as (c' & -> & _ & _ & _ & Hr'). done.
Qed.

(** The marking loop, from what its body does to one call. *)
Lemma mark_phase {P : Effect → Prop} (aux : S → T) (body : X → Op S CallReportInfo) l s h :
  (∀ x, sends P (body x)) →
  (∀ x s h, conns_ok (conns s) →
     wp (body x) (λ r s' _, r = report_of x ∧ aux s' = aux s ∧ conns_ok (conns s') ∧
       (∀ k, k ≠ x_index x → sm_lookup k (conns s') = sm_lookup k (conns s)) ∧
       ∃ c, sm_lookup (x_index x) (conns s') = Some c ∧
            updated x (sm_lookup (x_index x) (conns s)) c) s h) →
  conns_ok (conns s) →
  wp (mcollect l body)
    (λ bs s' e, bs = report_of <$> l ∧ aux s' = aux s ∧
       marked l (conns s) (conns s') ∧ Forall P e) s h.
Proof.
  intros Hsends Hbody Hok. apply (wp_mcollect (λ l bs s' e,
    bs = report_of <$> l ∧ aux s' = aux s ∧ marked l (conns s) (conns s') ∧
    Forall P e)).
  { split_and!; [done|done| |by constructor]. split; [done|]. intros k. done. }
  intros don x bs s' e _ (-> & Haux & Hmark & He).
  eapply wp_mono; [apply wp_and; [apply Hbody, Hmark|apply Hsends]|].
  intros r s'' e' [(-> & Haux' & Hok' & Hother & c & Hc & Hu) He'].
  split_and!; [by rewrite fmap_app|congruence| |by apply Forall_app].
  by eapply marked_snoc.
Qed.

Lemma DeleteConnection_loop_sweep (gone : C → CallReportInfo) m v :
  DeleteConnection_loop gone m v = (sweep m, v ++ (gone <$> unflagged m)).
Proof.
  revert v. induction m as [|[k c] m IH]; intros v; simpl; [by rewrite app_nil_r|].
  unfold sweep, unflagged, c_flag in *. simpl.
  destruct (GetFlag (conn_base c)) eqn:Hf; simpl; rewrite IH; [done|].
  by rewrite <-app_assoc.
Qed.

Lemma marked_lost l m m' :
  conns_ok m → unmarked m → marked l m m' → unflagged m' = lost x_index l m.
Proof.
  intros [Hs Hi] Hu [[Hs' Hi'] Hm]. unfold unflagged, lost. f_equal.
  apply sm_ext; [by apply smap_ok_filter..|]. intros k.
  rewrite !sm_lookup_filter by done. specialize (Hm k).
  destruct (last_call x_index k l) as [x|] eqn:Hl.
  - destruct Hm as (c & Hc & Hf & _). rewrite Hc. simpl. rewrite Hf. simpl.
    destruct (sm_lookup k m) as [c0|] eqn:Hk; [|done]. simpl.
    assert (is_listed x_index l c0 = true) as ->; [|done].
    apply is_listed_last_call. by rewrite (Hi _ _ Hk), Hl.
  - rewrite Hm. destruct (sm_lookup k m) as [c0|] eqn:Hk; [|done]. simpl.
    rewrite (Hu _ _ Hk). simpl.
    assert (is_listed x_index l c0 = false) as ->; [|done].
    apply not_true_iff_false. rewrite is_listed_last_call, (Hi _ _ Hk), Hl. naive_solver.
Qed.

Context (extra_flag : ∀ b c, extra (upd (SetFlag b) c) = extra c).

Lemma marked_swept l m m' : unmarked m → marked l m m' → compared l m (sweep m').
Proof.
  intros Hu [Hok' Hm]. destruct (sweep_ok _ Hok') as [Hok Hun]. split_and!; [done..|].
  intros k. rewrite sweep_lookup by apply Hok'. specialize (Hm k).
  destruct (last_call x_index k l) as [x|].
  - destruct Hm as (c & -> & -> & Hrep & Hnum & Hex). eexists. split; [done|].
    by rewrite conn_base_upd, extra_flag.
  - rewrite Hm. destruct (sm_lookup k m) as [c|] eqn:Hk; [|done]. by rewrite (Hu _ _ Hk).
Qed.

Lemma compared_dom l m m' : compared l m m' → sm_dom m' = list_to_set (x_index <$> l).
Proof.
  intros (_ & _ & Hm). apply set_eq. intros k.
  rewrite elem_of_sm_dom, elem_of_list_to_set. specialize (Hm k).
  destruct (last_call x_index k l) as [x|] eqn:Hl.
  - destruct Hm as (c & -> & _). split; [|by eauto]. intros _.
    apply dec_stable. rewrite <-last_call_None, Hl. done.
  - rewrite Hm. apply last_call_None in Hl. split; [by intros []|done].
Qed.
End Compare.

(** ** The post-dial step *)

Section PostDialStep.
Context {S C R : Type} `{CallConsts, Env, Conn C, !HasConns S C, !PostDial C}.
Context (extra : C → R).
Context (extra_kept : ∀ slotId r, preserves (λ c, extra c = r) (ProcessNextChar (C := C) slotId)).
Context (sends_next : ∀ slotId, sends not_calls_report (ProcessNextChar (C := C) slotId)).

Lemma sends_post_dial_step slotId i :
  sends not_calls_report (post_dial_step slotId i : Op S Z).
Proof. unfold post_dial_step. mauto; done. Qed.
Lemma preserves_post_dial_step slotId i :
  preserves conns_inv (post_dial_step slotId i : Op S Z).
Proof. unfold post_dial_step. mauto. Qed.

Definition same_call (c c' : C) : Prop :=
  pd_frame (conn_base c) (conn_base c') ∧ extra c' = extra c.

(** It changes the post-dial fields of the call of this index, if it is there. *)
Lemma post_dial_step_frame slotId i (s : S) h :
  conns_ok (conns s) →
  wp (post_dial_step slotId i)
    (λ _ s' _, s' = s ∨
       ∃ c c', sm_lookup i (conns s) = Some c ∧ same_call c c' ∧
         s' = set_conns (sm_alter (λ _, c') i (conns s)) s) s h.
Proof.
  intros Hok. unfold post_dial_step. wsteps.
  destruct (sm_empty _); [wsteps; by left|].
  rewrite FindConnectionByIndex_lookup by done.
  destruct (sm_lookup i (conns s)) as [c|] eqn:Hc; cbn [fmap option_fmap option_map];
    [|wsteps; by left].
  wsteps. eapply wp_on_conn; [done|].
  eapply wp_mono; [apply wp_and; [apply ProcessNextChar_frame|by apply extra_kept]|].
  intros [st ch] c' e [Hframe Hextra]. cbn beta iota in *.
  assert (∀ (m : Op S ()) s' h', keeps m →
    wp (m ;; mret TELEPHONY_SUCCESS) (λ _ s'' _, s'' = s') s' h') as Htail.
  { intros m s' h' Hm. apply wp_then. eapply wp_mono; [apply Hm|]. intros ? ? ? ->.
    cbn beta. by wsteps. }
  eapply wp_mono; [destruct st; apply Htail; mauto|]. intros ? s' ? ->. right.
  exists c, c'. done.
Qed.
End PostDialStep.
#[export] Hint Resolve preserves_post_dial_step : cc.
