(* ===== verification/ConnectionCS.v ===== *)
(** * ConnectionCS: a circuit-switched call
    (services/connection/src/cellular_call_connection_cs.cpp)

    Every request looks up the service and the slot's handler, refuses with
    CALL_ERR_RESOURCE_UNAVAILABLE when one is missing, and otherwise sends one
    command (two for an answer) to the modem. *)

From stdpp Require Import base tactics option list numbers strings.
From Stdlib Require Import ZArith Lia Ascii String.
From S2P Require Import Prelude Platform Samples Standardize StdMap Connection ControlBase.

Open Scope Z_scope.

Record CellularCallConnectionCS := {
  cs_base : BaseConnection;
  cs_disconnectReason_ : Z
}.
Definition CsConnectionMap := smap CellularCallConnectionCS.

#[export] Instance Conn_cs : Conn CellularCallConnectionCS := {
  conn_base := cs_base;
  conn_set_base := λ b c, {| cs_base := b; cs_disconnectReason_ := cs_disconnectReason_ c |};
  conn_base_set := λ _ _, eq_refl
}.

(** Both guards of a request; [fault] writes the fault record, if any. *)
Definition with_handler `{CallConsts, Env} {S} (slotId : Z) (fault : string → Op S ())
    (k : Op S Z) : Op S Z :=
  let! service := ask service_instance in
  if negb service then
    fault "cellular service is nullptr"%string ;; mret CALL_ERR_RESOURCE_UNAVAILABLE
  else
    let! handle := ask (λ h, GetHandler h slotId) in
    if negb handle then
      fault "cellular service handle is nullptr"%string ;; mret CALL_ERR_RESOURCE_UNAVAILABLE
    else k.
Definition no_fault `{Env} {S} (_ : string) : Op S () := mret ().

Section ConnectionCS.
Context `{CallConsts, Env}.

Definition CellularCallConnectionCS_new : CellularCallConnectionCS :=
  {| cs_base := BaseConnection_new; cs_disconnectReason_ := DISCONNECTED_REASON_INVALID |}.

Definition CS_DialRequest (slotId : Z) (dialRequest : DialRequestStruct)
    : Op CellularCallConnectionCS Z :=
  with_handler slotId
    (λ desc, hisys (WriteDialCallFaultEvent slotId INVALID_PARAMETER INVALID_PARAMETER
                      CALL_ERR_RESOURCE_UNAVAILABLE desc))
    (mmodify (upd (UpdateCallNumber (dr_phoneNum dialRequest))) ;;
     let! this := mgets conn_base in
     send (Ril slotId RADIO_DIAL (RilDial (phoneNumber_ this) (dr_clirMode dialRequest))) ;;
     mmodify (upd (set_phoneNumber "")) ;;
     mret TELEPHONY_SUCCESS).

Definition CS_HangUpRequest (slotId : Z) : Op CellularCallConnectionCS Z :=
  with_handler slotId
    (λ desc, hisys (WriteHangUpFaultEvent slotId INVALID_PARAMETER
                      CALL_ERR_RESOURCE_UNAVAILABLE desc))
    (let! this := mgets conn_base in
     send (Ril slotId RADIO_HANGUP_CONNECT (RilHangup (GetIndex this))) ;;
     mret TELEPHONY_SUCCESS).

Definition CS_AnswerRequest {S} (slotId : Z) : Op S Z :=
  with_handler slotId
    (λ desc, hisys (WriteAnswerCallFaultEvent slotId INVALID_PARAMETER INVALID_PARAMETER
                      CALL_ERR_RESOURCE_UNAVAILABLE desc))
    (send (Ril slotId RADIO_SET_CMUT (RilSetMute false)) ;;
     send (Ril slotId RADIO_ACCEPT_CALL RilAnswer) ;;
     mret TELEPHONY_SUCCESS).

Definition CS_RejectRequest {S} (slotId : Z) : Op S Z :=
  with_handler slotId
    (λ desc, hisys (WriteHangUpFaultEvent slotId INVALID_PARAMETER
                      CALL_ERR_RESOURCE_UNAVAILABLE desc))
    (send (Ril slotId RADIO_REJECT_CALL RilReject) ;; mret TELEPHONY_SUCCESS).

Definition CS_HoldRequest {S} (slotId : Z) : Op S Z :=
  with_handler slotId no_fault
    (send (Ril slotId RADIO_HOLD_CALL RilHoldCall) ;; mret TELEPHONY_SUCCESS).
Definition CS_UnHoldCallRequest {S} (slotId : Z) : Op S Z :=
  with_handler slotId no_fault
    (send (Ril slotId RADIO_ACTIVE_CALL RilUnHoldCall) ;; mret TELEPHONY_SUCCESS).
Definition CS_SwitchCallRequest {S} (slotId : Z) : Op S Z :=
  with_handler slotId no_fault
    (send (Ril slotId RADIO_SWAP_CALL RilSwitchCall) ;; mret TELEPHONY_SUCCESS).
Definition CS_CombineConferenceRequest {S} (slotId voiceCall : Z) : Op S Z :=
  with_handler slotId no_fault
    (send (Ril slotId RADIO_JOIN_CALL (RilCombineConference voiceCall)) ;;
     mret TELEPHONY_SUCCESS).
Definition CS_SeparateConferenceRequest {S} (slotId index voiceCall : Z) : Op S Z :=
  with_handler slotId no_fault
    (send (Ril slotId RADIO_SPLIT_CALL (RilSeparateConference index voiceCall)) ;;
     mret TELEPHONY_SUCCESS).
Definition CS_CallSupplementRequest {S} (slotId type : Z) : Op S Z :=
  with_handler slotId no_fault
    (send (Ril slotId RADIO_CALL_SUPPLEMENT (RilCallSupplement type)) ;;
     mret TELEPHONY_SUCCESS).
Definition CS_SendCDMAThreeWayDialRequest {S} (slotId : Z) : Op S Z := mret TELEPHONY_SUCCESS.
Definition CS_SendDtmfRequest {S} (slotId : Z) (cDtmfCode : ascii) (index : Z) : Op S Z :=
  with_handler slotId no_fault
    (send (Ril slotId RADIO_SEND_DTMF (RilSendDTMF cDtmfCode index)) ;;
     mret TELEPHONY_SUCCESS).
Definition CS_StartDtmfRequest {S} (slotId : Z) (cDtmfCode : ascii) (index : Z) : Op S Z :=
  with_handler slotId no_fault
    (send (Ril slotId RADIO_START_DTMF (RilStartDTMF cDtmfCode index)) ;;
     mret TELEPHONY_SUCCESS).
Definition CS_StopDtmfRequest {S} (slotId index : Z) : Op S Z :=
  with_handler slotId no_fault
    (send (Ril slotId RADIO_STOP_DTMF (RilStopDTMF index)) ;; mret TELEPHONY_SUCCESS).
Definition CS_GetCsCallsDataRequest {S} (slotId lastCallsDataFlag : Z) : Op S Z :=
  with_handler slotId no_fault
    (send (Ril slotId RADIO_CURRENT_CALLS RilGetCallList) ;; mret TELEPHONY_SUCCESS).
Definition CS_GetCallFailReasonRequest {S} (slotId : Z) : Op S Z :=
  with_handler slotId no_fault
    (send (Ril slotId RADIO_GET_CALL_FAIL_REASON RilGetCallFailReason) ;;
     mret TELEPHONY_SUCCESS).

(** The pause branch takes the service for granted. *)
Definition CS_ProcessPostDialCallChar (slotId : Z) (c : ascii)
    : Op CellularCallConnectionCS Z :=
  let! this := mgets conn_base in
  if IsDtmfKey c then
    CS_SendDtmfRequest slotId c (GetIndex this) ;; mret TELEPHONY_SUCCESS
  else if IsPauseKey c then
    mmodify (upd (SetPostDialCallState POST_DIAL_CALL_PAUSE)) ;;
    let! handle := ask (λ h, GetHandler h slotId) in
    if negb handle then mret CALL_ERR_RESOURCE_UNAVAILABLE
    else
      send (SendEvent slotId (EVENT_EXECUTE_POST_DIAL
        {| pd_callId := GetIndex this; pd_isIms := false |} PAUSE_DELAY_TIME)) ;;
      mret TELEPHONY_SUCCESS
  else if IsWaitKey c then
    mmodify (upd (SetPostDialCallState POST_DIAL_CALL_DELAY)) ;; mret TELEPHONY_SUCCESS
  else mret TELEPHONY_SUCCESS.

Definition GetDisconnectReason (c : CellularCallConnectionCS) : Z := cs_disconnectReason_ c.
Definition SetDisconnectReason (reason : Z) (c : CellularCallConnectionCS)
    : CellularCallConnectionCS :=
  {| cs_base := cs_base c; cs_disconnectReason_ := reason |}.
End ConnectionCS.

#[export] Instance ConnRequests_cs `{CallConsts, Env} : ConnRequests CellularCallConnectionCS := {
  SendDtmfRequest := @CS_SendDtmfRequest _ _;
  StartDtmfRequest := @CS_StartDtmfRequest _ _;
  StopDtmfRequest := @CS_StopDtmfRequest _ _;
  GetCallFailReasonRequest := @CS_GetCallFailReasonRequest _ _
}.

(** ** Lemmas *)

Section Lemmas.
Context `{CallConsts, Env} {S : Type}.

(** The handlers of a slot are there. *)
Definition reachable_slot (h : list Effect) (slotId : Z) : bool :=
  service_instance h && GetHandler h slotId.

Lemma with_handler_run slotId (fault : string → Op S ()) k s h :
  reachable_slot h slotId = true → with_handler slotId fault k s h = k s h.
Proof.
  unfold reachable_slot. intros [Hs Hh]%andb_true_iff. unfold with_handler, mthen, ask, query.
  rewrite Hs. cbn. rewrite app_nil_r, Hh. cbn. rewrite app_nil_r.
  by destruct (k s h) as [[??]?].
Qed.
Lemma wp_with_handler slotId (fault : string → Op S ()) k Q s h :
  reachable_slot h slotId = true → wp k Q s h → wp (with_handler slotId fault k) Q s h.
Proof. intros Hr Hk. unfold wp. by rewrite with_handler_run. Qed.
Lemma with_handler_spec slotId (fault : string → Op S ()) k Q s h :
  (∀ d, sends is_hisys (fault d)) → (∀ d, keeps (fault d)) →
  (reachable_slot h slotId = true → wp k Q s h) →
  (∀ e, reachable_slot h slotId = false → Forall is_hisys e →
     Q CALL_ERR_RESOURCE_UNAVAILABLE s e) →
  wp (with_handler slotId fault k) Q s h.
Proof.
  intros Hf Hkeep Hk Hno. destruct (reachable_slot h slotId) eqn:Hr.
  { unfold wp. rewrite with_handler_run by done. by apply Hk. }
  assert (∀ d, wp (fault d ;; mret CALL_ERR_RESOURCE_UNAVAILABLE) Q s h) as Hfault.
  { intros d. apply wp_then. eapply wp_mono; [apply wp_and; [apply Hf|apply Hkeep]|].
    intros ? ? e [He ->]. cbn beta in *. unfold wp. simpl. rewrite app_nil_r. auto. }
  unfold with_handler. unfold reachable_slot in Hr. wsteps.
  destruct (service_instance h); cbn [negb]; [|apply Hfault].
  apply wp_then, wp_ask. rewrite app_nil_r. simpl in Hr. rewrite Hr. apply Hfault.
Qed.

Lemma keeps_with_handler slotId (fault : string → Op S ()) k :
  (∀ d, keeps (fault d)) → keeps k → keeps (with_handler slotId fault k).
Proof. intros Hf Hk. unfold with_handler. mauto. Qed.
Lemma preserves_with_handler I slotId (fault : string → Op S ()) k :
  (∀ d, keeps (fault d)) → preserves I k → preserves I (with_handler slotId fault k).
Proof. intros Hf Hk. unfold with_handler. mauto. Qed.
Lemma sends_with_handler P slotId (fault : string → Op S ()) k :
  (∀ d, sends P (fault d)) → sends P k → sends P (with_handler slotId fault k).
Proof. intros Hf Hk. unfold with_handler. mauto. Qed.
Lemma sends_no_fault P d : sends P (no_fault d : Op S ()).
Proof. apply sends_ret. Qed.
Lemma keeps_no_fault d : keeps (no_fault d : Op S ()).
Proof. apply keeps_ret. Qed.
End Lemmas.
#[export] Hint Resolve keeps_no_fault sends_no_fault : cc.

Ltac mstep_hook ::=
  match goal with
  | |- keeps (with_handler _ _ _) => apply keeps_with_handler; [intros ?|]
  | |- preserves _ (with_handler _ _ _) => apply preserves_with_handler; [intros ?|]
  | |- sends _ (with_handler _ _ _) => apply sends_with_handler; [intros ?|]
  end.

Section Requests.
Context `{CallConsts, Env} {S : Type}.

Lemma keeps_CS_AnswerRequest slotId : keeps (CS_AnswerRequest slotId : Op S Z).
Proof. unfold CS_AnswerRequest. mauto. Qed.
Lemma keeps_CS_RejectRequest slotId : keeps (CS_RejectRequest slotId : Op S Z).
Proof. unfold CS_RejectRequest. mauto. Qed.
Lemma keeps_CS_HoldRequest slotId : keeps (CS_HoldRequest slotId : Op S Z).
Proof. unfold CS_HoldRequest. mauto. Qed.
Lemma keeps_CS_UnHoldCallRequest slotId : keeps (CS_UnHoldCallRequest slotId : Op S Z).
Proof. unfold CS_UnHoldCallRequest. mauto. Qed.
Lemma keeps_CS_SwitchCallRequest slotId : keeps (CS_SwitchCallRequest slotId : Op S Z).
Proof. unfold CS_SwitchCallRequest. mauto. Qed.
Lemma keeps_CS_CombineConferenceRequest slotId v :
  keeps (CS_CombineConferenceRequest slotId v : Op S Z).
Proof. unfold CS_CombineConferenceRequest. mauto. Qed.
Lemma keeps_CS_SeparateConferenceRequest slotId i v :
  keeps (CS_SeparateConferenceRequest slotId i v : Op S Z).
Proof. unfold CS_SeparateConferenceRequest. mauto. Qed.
Lemma keeps_CS_CallSupplementRequest slotId t :
  keeps (CS_CallSupplementRequest slotId t : Op S Z).
Proof. unfold CS_CallSupplementRequest. mauto. Qed.
Lemma keeps_CS_SendDtmfRequest slotId c i : keeps (CS_SendDtmfRequest slotId c i : Op S Z).
Proof. unfold CS_SendDtmfRequest. mauto. Qed.
Lemma keeps_CS_StartDtmfRequest slotId c i : keeps (CS_StartDtmfRequest slotId c i : Op S Z).
Proof. unfold CS_StartDtmfRequest. mauto. Qed.
Lemma keeps_CS_StopDtmfRequest slotId i : keeps (CS_StopDtmfRequest slotId i : Op S Z).
Proof. unfold CS_StopDtmfRequest. mauto. Qed.
Lemma keeps_CS_GetCsCallsDataRequest slotId f :
  keeps (CS_GetCsCallsDataRequest slotId f : Op S Z).
Proof. unfold CS_GetCsCallsDataRequest. mauto. Qed.
Lemma keeps_CS_GetCallFailReasonRequest slotId :
  keeps (CS_GetCallFailReasonRequest slotId : Op S Z).
Proof. unfold CS_GetCallFailReasonRequest. mauto. Qed.
Lemma keeps_CS_HangUpRequest slotId : keeps (CS_HangUpRequest slotId).
Proof. unfold CS_HangUpRequest. mauto. Qed.
End Requests.
#[export] Hint Resolve keeps_CS_AnswerRequest keeps_CS_RejectRequest keeps_CS_HoldRequest
  keeps_CS_UnHoldCallRequest keeps_CS_SwitchCallRequest keeps_CS_CombineConferenceRequest
  keeps_CS_SeparateConferenceRequest keeps_CS_CallSupplementRequest keeps_CS_SendDtmfRequest
  keeps_CS_StartDtmfRequest keeps_CS_StopDtmfRequest keeps_CS_GetCsCallsDataRequest
  keeps_CS_GetCallFailReasonRequest keeps_CS_HangUpRequest : cc.

Section PostDialCS.
Context `{CallConsts, Env}.

Lemma CS_process_char_spec slotId ch (c : CellularCallConnectionCS) h :
  postDialCalltate_ (conn_base c) = POST_DIAL_CALL_STARTED →
  wp (CS_ProcessPostDialCallChar slotId ch)
    (λ _ c' _, conn_base c' =
       SetPostDialCallState (post_dial_next_state ch) (conn_base c)) c h.
Proof.
  intros Hs. unfold CS_ProcessPostDialCallChar, post_dial_next_state. wsteps.
  assert (SetPostDialCallState POST_DIAL_CALL_STARTED (conn_base c) = conn_base c) as Hid
    by (destruct c as [[] ?]; simpl in *; by subst).
  destruct (IsDtmfKey ch).
  { wsteps. eapply wp_mono; [apply keeps_CS_SendDtmfRequest|].
    intros ? ? ? ->. cbn beta. wsteps. by rewrite Hid. }
  destruct (IsPauseKey ch); [|destruct (IsWaitKey ch); wsteps; by rewrite ?Hid].
  wsteps. destruct (GetHandler _ _); cbn [negb]; by wsteps.
Qed.

#[export] Instance PostDial_cs : PostDial CellularCallConnectionCS := {
  ProcessPostDialCallChar := CS_ProcessPostDialCallChar;
  process_char_spec := CS_process_char_spec
}.

(** What a character of the post-dial string does outside. *)
Definition post_dial_effects (slotId index : Z) (ch : ascii) : list Effect :=
  if IsDtmfKey ch then [Ril slotId RADIO_SEND_DTMF (RilSendDTMF ch index)]
  else if IsPauseKey ch then
    [SendEvent slotId (EVENT_EXECUTE_POST_DIAL {| pd_callId := index; pd_isIms := false |}
                         PAUSE_DELAY_TIME)]
  else [].

Lemma CS_ProcessNextChar_effects slotId (c : CellularCallConnectionCS) h :
  (∀ h, reachable_slot h slotId = true) →
  postDialCalltate_ (conn_base c) ≠ POST_DIAL_CALL_CANCELED →
  post_dial_exhausted (conn_base c) = false →
  wp (ProcessNextChar slotId)
    (λ _ _ e, e = post_dial_effects slotId (GetIndex (conn_base c))
                    (post_dial_at (conn_base c))) c h.
Proof.
  intros Hr Hs He. unfold ProcessNextChar. wsteps. simpl in Hs, He |- *.
  rewrite bool_decide_false, He by done. wsteps.
  unfold ProcessPostDialCallChar, PostDial_cs, CS_ProcessPostDialCallChar, post_dial_effects.
  wsteps. destruct (IsDtmfKey _).
  { wsteps. unfold wp, CS_SendDtmfRequest. rewrite with_handler_run by done. done. }
  destruct (IsPauseKey _); [|destruct (IsWaitKey _); by wsteps]. wsteps.
  assert (∀ h, GetHandler h slotId = true) as ->
    by (intros h'; specialize (Hr h'); by apply andb_true_iff in Hr as [_ ?]).
  cbn [negb]. by wsteps.
Qed.

Lemma CS_drain_effects slotId s (c : CellularCallConnectionCS) h :
  (∀ h, reachable_slot h slotId = true) →
  postDialCalltate_ (conn_base c) ≠ POST_DIAL_CALL_CANCELED →
  post_dial_ok (conn_base c) → post_dial_left (conn_base c) = s →
  wp (drain (S (String.length s)) slotId)
    (λ _ _ e, e = list_ascii_of_string s ≫= post_dial_effects slotId (GetIndex (conn_base c)))
    c h.
Proof.
  intros Hr. revert c h. induction s as [|ch s IH]; intros c h Hs Hok Hleft;
    pose proof (post_dial_left_cases _ Hok) as Hcases;
    destruct (post_dial_exhausted (conn_base c)) eqn:Hex.
  - unfold wp, drain, mthen. by rewrite ProcessNextChar_done by done.
  - destruct Hcases as [Heq _]. congruence.
  - congruence.
  - destruct Hcases as [Heq Hok']. rewrite Hleft in Heq. injection Heq as -> Hs'.
    change (drain (S (String.length (String (post_dial_at (conn_base c)) s))) slotId)
      with (let! r := ProcessNextChar slotId in
            let! rs := drain (S (String.length s)) slotId in mret (r :: rs)).
    apply wp_then. eapply wp_mono;
      [apply wp_and; [by apply ProcessNextChar_step|by apply CS_ProcessNextChar_effects]|].
    intros r c' e [[-> Hc'] ->]. cbn beta zeta in *. apply wp_then.
    eapply wp_mono; [apply IH; rewrite Hc'|].
    + simpl. unfold post_dial_next_state. by repeat case_match.
    + done.
    + by rewrite Hs'.
    + intros rs c'' e' ->. wsteps. by rewrite Hc'.
Qed.

(** Post-dial digits on a circuit-switched call.  While the slot's handler
    is there, driving the machine to the end sends exactly one DTMF command to
    the modem for every digit of the remaining string, in order and on this
    call's index, arms the three-second timer for every comma, and nothing for
    any other character. *)
Theorem CS_post_dial_commands slotId (c : CellularCallConnectionCS) h
  (Hr : ∀ h, reachable_slot h slotId = true)
  (Hs : postDialCalltate_ (conn_base c) ≠ POST_DIAL_CALL_CANCELED)
  (Hok : post_dial_ok (conn_base c)) :
  let left := post_dial_left (conn_base c) in
  wp (drain (S (String.length left)) slotId)
    (λ _ _ e, e = list_ascii_of_string left ≫=
                    post_dial_effects slotId (GetIndex (conn_base c))) c h.
Proof. by apply CS_drain_effects. Qed.
End PostDialCS.
#[export] Existing Instance PostDial_cs.

(** A call with "5,1;2" left to send. *)
Definition sample_cs_call : CellularCallConnectionCS :=
  {| cs_base := set_postDialCallString "5,1;2" (SetIndex 3
       (@BaseConnection_new sample_consts sample_env));
     cs_disconnectReason_ := 0 |}.

#[local] Instance sample_post_dial : PostDial CellularCallConnectionCS :=
  @PostDial_cs sample_consts sample_env.

Lemma sample_cs_call_ok :
  postDialCalltate_ (conn_base sample_cs_call) ≠ POST_DIAL_CALL_CANCELED ∧
  post_dial_ok (conn_base sample_cs_call) ∧ post_dial_left (conn_base sample_cs_call) = "5,1;2".
Proof.
  split; [discriminate|]. split; [|reflexivity].
  split; [split; vm_compute; discriminate|vm_compute; reflexivity].
Qed.

Lemma post_dial_delivers_all_witness :
  wp (drain 6 0)
    (λ rs c' _, rs.*2 = [Some "5"; Some ","; Some "1"; Some ";"; Some "2"; None]%char ∧
                rs.*1 = [POST_DIAL_CALL_STARTED; POST_DIAL_CALL_PAUSE; POST_DIAL_CALL_STARTED;
                         POST_DIAL_CALL_DELAY; POST_DIAL_CALL_STARTED; POST_DIAL_CALL_COMPLETE])
    sample_cs_call [].
Proof.
  destruct sample_cs_call_ok as (Hs & Hok & Hl).
  pose proof (post_dial_delivers_all 0 sample_cs_call [] Hs Hok) as Hp.
  cbv zeta in Hp. rewrite Hl in Hp.
  eapply wp_mono; [exact Hp|]. intros rs c' e [-> _]. split; reflexivity.
Defined.

Lemma CS_post_dial_commands_witness :
  wp (drain 6 0)
    (λ _ _ e, e = [Ril 0 RADIO_SEND_DTMF (RilSendDTMF "5" 3);
                   SendEvent 0 (EVENT_EXECUTE_POST_DIAL {| pd_callId := 3; pd_isIms := false |} 3000);
                   Ril 0 RADIO_SEND_DTMF (RilSendDTMF "1" 3);
                   Ril 0 RADIO_SEND_DTMF (RilSendDTMF "2" 3)])
    sample_cs_call [].
Proof.
  destruct sample_cs_call_ok as (Hs & Hok & Hl).
  pose proof (@CS_post_dial_commands sample_consts sample_env 0 sample_cs_call []
    (λ _, eq_refl) Hs Hok) as Hp.
  cbv zeta in Hp. rewrite Hl in Hp.
  eapply wp_mono; [exact Hp|]. intros rs c' e ->. reflexivity.
Defined.
