(* ===== verification/CsControl.v ===== *)
(** * CsControl: control of circuit-switched calls
    (services/control/src/cs_control.cpp)

    The state is the connection map, the number of the dial under way and the
    flag of an incoming call that was not reported.  User operations (dial,
    hang up, answer, ...) turn into modem commands; reports of the modem's call
    list are compared with the map, and the differences go up to call_manager. *)

From stdpp Require Import base tactics option list numbers strings gmap sets.
From Stdlib Require Import ZArith Lia Ascii String Sorted.
From S2P Require Import Prelude Platform Samples Standardize StdMap Connection MmiCode.
From S2P Require Import Emergency ControlBase CallMap CallReport ConnectionCS.

Open Scope Z_scope.

Record CSControl := {
  connectionMap_ : CsConnectionMap;
  pendingPhoneNumber_ : string;
  isIgnoredIncomingCall_ : bool
}.
Definition CSControl_new : CSControl :=
  {| connectionMap_ := []; pendingPhoneNumber_ := ""; isIgnoredIncomingCall_ := false |}.
Definition set_connectionMap (m : CsConnectionMap) (s : CSControl) : CSControl :=
  {| connectionMap_ := m; pendingPhoneNumber_ := pendingPhoneNumber_ s;
     isIgnoredIncomingCall_ := isIgnoredIncomingCall_ s |}.
Definition set_pendingPhoneNumber (v : string) (s : CSControl) : CSControl :=
  {| connectionMap_ := connectionMap_ s; pendingPhoneNumber_ := v;
     isIgnoredIncomingCall_ := isIgnoredIncomingCall_ s |}.
Definition set_isIgnoredIncomingCall (v : bool) (s : CSControl) : CSControl :=
  {| connectionMap_ := connectionMap_ s; pendingPhoneNumber_ := pendingPhoneNumber_ s;
     isIgnoredIncomingCall_ := v |}.

#[export] Instance HasConns_cs : HasConns CSControl CellularCallConnectionCS := {
  conns := connectionMap_;
  set_conns := set_connectionMap;
  conns_set := λ _ _, eq_refl
}.

Definition VOICE_CALL : Z := 0.

Section CsControl.
Context `{CallConsts, Env}.

(** ** Dialling *)

Definition EncapsulateDialCommon (slotId : Z) (phoneNum : string) (clirMode : CLIRMode)
    : Op CSControl Z :=
  mmodify (set_pendingPhoneNumber phoneNum) ;;
  let dialRequest := {| dr_phoneNum := phoneNum; dr_clirMode := clirMode |} in
  let! service := ask service_instance in
  if negb service then mret CALL_ERR_RESOURCE_UNAVAILABLE
  else
    send (SetMute slotId 0) ;;
    let! (ret, _) := with_local (CS_DialRequest slotId dialRequest)
                       CellularCallConnectionCS_new in
    mret ret.

Definition dial_fault {S} (callInfo : CellularCallInfo) (err : Z) (desc : string) : Op S () :=
  hisys (WriteDialCallFaultEvent (ci_slotId callInfo) (ci_callType callInfo)
           (ci_videoState callInfo) err desc).

Definition DialCdma (callInfo : CellularCallInfo) : Op CSControl Z :=
  let newPhoneNum := RemoveSeparatorsPhoneNumber (ci_phoneNum callInfo) in
  let! (mmi, newPhoneNum, clirMode) :=
    IsNeedExecuteMMI (ci_slotId callInfo) newPhoneNum DEFAULT false in
  if (mmi : bool) then mret RETURN_TYPE_MMI
  else
    let! m := mgets connectionMap_ in
    if negb (CanCall m) then
      dial_fault callInfo CALL_ERR_CALL_COUNTS_EXCEED_LIMIT "cs cdma dial call state error" ;;
      mret CALL_ERR_CALL_COUNTS_EXCEED_LIMIT
    else if IsInState m CALL_STATUS_ACTIVE then
      CS_SendCDMAThreeWayDialRequest (ci_slotId callInfo)
    else EncapsulateDialCommon (ci_slotId callInfo) newPhoneNum clirMode.

Definition DialGsm (callInfo : CellularCallInfo) : Op CSControl Z :=
  let newPhoneNum := RemoveSeparatorsPhoneNumber (ci_phoneNum callInfo) in
  let! (mmi, newPhoneNum, clirMode) :=
    IsNeedExecuteMMI (ci_slotId callInfo) newPhoneNum DEFAULT false in
  if (mmi : bool) then mret RETURN_TYPE_MMI
  else
    let! m := mgets connectionMap_ in
    if negb (CanCall m) then
      dial_fault callInfo CALL_ERR_CALL_COUNTS_EXCEED_LIMIT "cs gsm dial call state error" ;;
      mret CALL_ERR_CALL_COUNTS_EXCEED_LIMIT
    else
      (if IsInState m CALL_STATUS_ACTIVE then
         CS_SwitchCallRequest (ci_slotId callInfo) ;; mret ()
       else mret ()) ;;
      EncapsulateDialCommon (ci_slotId callInfo) newPhoneNum clirMode.

Definition Dial (callInfo : CellularCallInfo) (isEcc : bool) : Op CSControl Z :=
  hisys (SetCallParameterInfo (ci_slotId callInfo) (ci_callType callInfo)
           (ci_videoState callInfo) (ci_isRTT callInfo)) ;;
  let! ret := DialPreJudgment callInfo isEcc in
  if bool_decide (ret ≠ TELEPHONY_SUCCESS) then mret ret
  else
    let! regState := ask (λ h, GetCsRegState h (ci_slotId callInfo)) in
    if negb (bool_decide (regState = REG_STATE_IN_SERVICE) || isEcc) then
      mret TELEPHONY_ERR_NETWORK_NOT_IN_SERVICE
    else
      let! netType := ask (λ h, GetNetworkStatus h (ci_slotId callInfo)) in
      if bool_decide (netType = PHONE_TYPE_IS_GSM) then DialGsm callInfo
      else if bool_decide (netType = PHONE_TYPE_IS_CDMA) then DialCdma callInfo
      else
        dial_fault callInfo CALL_ERR_UNSUPPORTED_NETWORK_TYPE "Network type error" ;;
        mret CALL_ERR_UNSUPPORTED_NETWORK_TYPE.

(** ** Ending calls *)

(** The first call with this index. *)
Definition UpdateCallDisconnectReason (callId reason : Z) : Op CSControl () :=
  let! m := mgets connectionMap_ in
  match FindConnectionByIndex m callId with
  | Some p => modify_conn p (SetDisconnectReason reason)
  | None => mret ()
  end.

Definition hangup_fault {S} (callInfo : CellularCallInfo) (err : Z) (desc : string) : Op S () :=
  hisys (WriteHangUpFaultEvent (ci_slotId callInfo) (ci_callId callInfo) err desc).

(** [ReportSingleCallInfo] of a connection, when the register is there. *)
Definition report_disconnecting (p : Z * CellularCallConnectionCS) : Op CSControl () :=
  let! register := ask register_instance in
  if (register : bool) then
    let! info := read_conn p (λ c, GetCallReportInfo (conn_base c)) in
    report (ReportSingleCallInfo info CALL_STATUS_DISCONNECTING)
  else mret ().

Definition HangUp (callInfo : CellularCallInfo) (type : Z) : Op CSControl Z :=
  if bool_decide (type = TYPE_DEFAULT) then
    let! m := mgets connectionMap_ in
    match FindConnectionByIndex m (ci_index callInfo) with
    | None =>
        hangup_fault callInfo CALL_ERR_CALL_CONNECTION_NOT_EXIST "HangUp pConnection is null" ;;
        mret CALL_ERR_CALL_CONNECTION_NOT_EXIST
    | Some p =>
        report_disconnecting p ;;
        modify_conn p (SetDisconnectReason DISCONNECTED_REASON_USER_TERMINATED) ;;
        on_conn p (CS_HangUpRequest (ci_slotId callInfo))
    end
  else if bool_decide (type = TYPE_HANG_UP_HOLD_WAIT) ||
          bool_decide (type = TYPE_HANG_UP_ACTIVE) then
    UpdateCallDisconnectReason (ci_callId callInfo) DISCONNECTED_REASON_USER_TERMINATED ;;
    CS_CallSupplementRequest (ci_slotId callInfo) type
  else if bool_decide (type = TYPE_HANG_UP_ALL) then
    modify_conns (sm_map (SetDisconnectReason DISCONNECTED_REASON_USER_TERMINATED)) ;;
    CS_RejectRequest (ci_slotId callInfo)
  else
    hangup_fault callInfo TELEPHONY_ERR_ARGUMENT_INVALID "HangUp type is invalid" ;;
    mret TELEPHONY_ERR_ARGUMENT_INVALID.

Definition Reject (callInfo : CellularCallInfo) : Op CSControl Z :=
  let! m := mgets connectionMap_ in
  match FindConnectionByIndex m (ci_index callInfo) with
  | None =>
      hangup_fault callInfo CALL_ERR_CALL_CONNECTION_NOT_EXIST "Reject pConnection is null" ;;
      mret CALL_ERR_CALL_CONNECTION_NOT_EXIST
  | Some p =>
      let! ringing := read_conn p (λ c, IsRingingState (conn_base c)) in
      if negb ringing then
        hangup_fault callInfo CALL_ERR_CALL_STATE "Reject call state error phone not ringing" ;;
        mret CALL_ERR_CALL_STATE
      else
        report_disconnecting p ;;
        modify_conn p (SetDisconnectReason DISCONNECTED_REASON_USER_DECLINE) ;;
        CS_RejectRequest (ci_slotId callInfo)
  end.

Definition HangUpAllConnection {S} (slotId : Z) : Op S Z := CS_RejectRequest slotId.

(** ** Answering *)

(** The loop works on copies of the connections. *)
Definition CheckAndHangupHoldingCall : Op CSControl Z :=
  let! m := mgets connectionMap_ in
  let! failed := mfor_return m (λ '(_, holdConn),
    if bool_decide (GetStatus (conn_base holdConn) = CALL_STATUS_HOLDING) then
      let callReportInfo := GetCallReportInfo (conn_base holdConn) in
      let! (result, _) := with_local (CS_HangUpRequest (cr_accountId callReportInfo)) holdConn in
      mret (if bool_decide (result ≠ TELEPHONY_SUCCESS) then Some result else None)
    else mret None) in
  mret (default TELEPHONY_SUCCESS failed).

Definition answer_fault {S} (callInfo : CellularCallInfo) (err : Z) (desc : string) : Op S () :=
  hisys (WriteAnswerCallFaultEvent (ci_slotId callInfo) (ci_callId callInfo)
           (ci_videoState callInfo) err desc).

Definition Answer (callInfo : CellularCallInfo) : Op CSControl Z :=
  let! m := mgets connectionMap_ in
  match FindConnectionByIndex m (ci_index callInfo) with
  | None =>
      answer_fault callInfo CALL_ERR_CALL_CONNECTION_NOT_EXIST "get connection data is null" ;;
      mret CALL_ERR_CALL_CONNECTION_NOT_EXIST
  | Some (_, c) =>
      let! ret :=
        if IsInState m CALL_STATUS_HOLDING && IsInState m CALL_STATUS_ACTIVE
        then CheckAndHangupHoldingCall
        else mret TELEPHONY_SUCCESS in
      if bool_decide (ret ≠ TELEPHONY_SUCCESS) then mret ret
      else
        (if IsInState m CALL_STATUS_ACTIVE ||
            bool_decide (GetStatus (conn_base c) = CALL_STATUS_WAITING) then
           match FindConnectionByState m CALL_STATUS_ACTIVE with
           | Some _ => CS_SwitchCallRequest (ci_slotId callInfo) ;; mret ()
           | None => mret ()
           end
         else mret ()) ;;
        if bool_decide (GetStatus (conn_base c) = CALL_STATUS_INCOMING) ||
           bool_decide (GetStatus (conn_base c) = CALL_STATUS_ALERTING) ||
           bool_decide (GetStatus (conn_base c) = CALL_STATUS_WAITING)
        then CS_AnswerRequest (ci_slotId callInfo)
        else
          answer_fault callInfo CALL_ERR_CALL_STATE "call state error phone not ringing" ;;
          mret CALL_ERR_CALL_STATE
  end.

(** ** Hold, switch, conferences *)

Definition HoldCall (slotId : Z) : Op CSControl Z :=
  let! m := mgets connectionMap_ in
  if IsInState m CALL_STATUS_INCOMING then mret CALL_ERR_CALL_STATE
  else CS_HoldRequest slotId.
Definition UnHoldCall (slotId : Z) : Op CSControl Z :=
  let! m := mgets connectionMap_ in
  if IsInState m CALL_STATUS_INCOMING then mret CALL_ERR_CALL_STATE
  else CS_UnHoldCallRequest slotId.
Definition SwitchCall (slotId : Z) : Op CSControl Z :=
  let! m := mgets connectionMap_ in
  if IsInState m CALL_STATUS_INCOMING then mret CALL_ERR_CALL_STATE
  else CS_SwitchCallRequest slotId.
Definition SeparateConference (slotId : Z) (splitString : string) (index : Z)
    : Op CSControl Z :=
  let! m := mgets connectionMap_ in
  match FindConnectionByIndex m index with
  | Some (_, c) => CS_SeparateConferenceRequest slotId (GetIndex (conn_base c)) VOICE_CALL
  | None => CS_SeparateConferenceRequest slotId index VOICE_CALL
  end.
Definition CombineConference {S} (slotId : Z) : Op S Z :=
  CS_CombineConferenceRequest slotId VOICE_CALL.

Definition GetIsoCountryCode (h : list Effect) (slotId : Z) : string :=
  core_GetISOCountryCodeForSim h slotId.
Definition CalculateInternationalRoaming (h : list Effect) (slotId : Z) : bool :=
  let operatorCountryIso := GetNetworkCountryCode h slotId in
  let simCountryIso := GetIsoCountryCode h slotId in
  let ret := negb (string_empty operatorCountryIso) && negb (string_empty simCountryIso) &&
             bool_decide (operatorCountryIso ≠ simCountryIso) in
  if ret then
    if bool_decide (simCountryIso = "us") then bool_decide (operatorCountryIso ≠ "vi")
    else if bool_decide (simCountryIso = "vi") then bool_decide (operatorCountryIso ≠ "us")
    else ret
  else ret.

(** ** Post-dial *)

(** [callId] is an int64_t; [FindConnectionByIndex] takes an int32_t.  The
    callers below pass an int32_t index, which the round trip keeps: they run
    the step itself. *)
Definition ExecutePostDial (slotId callId : Z) : Op CSControl Z :=
  post_dial_step slotId (i32 callId).

(** The address and post-dial string it extracts are not used. *)
Definition PostDialProceed (callInfo : CellularCallInfo) (proceed : bool) : Op CSControl Z :=
  let! m := mgets connectionMap_ in
  match FindConnectionByIndex m (ci_index callInfo) with
  | None => mret TELEPHONY_ERR_LOCAL_PTR_NULL
  | Some (k, c) =>
      (if proceed then
         post_dial_step (ci_slotId callInfo) (GetIndex (conn_base c)) ;; mret ()
       else modify_conn (k, c) (upd (SetPostDialCallState POST_DIAL_CALL_CANCELED))) ;;
      mret TELEPHONY_SUCCESS
  end.

(** ** Reports of the modem *)

Definition EncapsulationCallReportInfo (slotId : Z) (callInfo : CallInfo) : CallReportInfo :=
  let callReportInfo := zeroed CallReportInfo_init CallReportInfo_zero in
  if negb memset_s_ok then callReportInfo
  else
    let newString := FormatNumberAndToa (ca_number callInfo) (ca_type callInfo) in
    let cpyLen := strlen newString + 1 in
    if kMaxNumberLen + 1 <? cpyLen then callReportInfo
    else if negb (strcpy_s_ok cpyLen (c_str newString)) then callReportInfo
    else
      {| cr_accountNum := c_str newString;
         cr_index := ca_index callInfo;
         cr_accountId := slotId;
         cr_voiceDomain := ca_voiceDomain callInfo;
         cr_state := ca_state callInfo;
         cr_callType := TYPE_CS;
         cr_callMode := TYPE_VOICE;
         cr_mpty := ca_mpty callInfo;
         cr_name := if string_empty (ca_number callInfo) then "" else ca_name callInfo;
         cr_namePresentation := ca_namePresentation callInfo;
         cr_reason := cr_reason callReportInfo;
         cr_message := cr_message callReportInfo;
         cr_crsType := cr_crsType callReportInfo;
         cr_originalCallType := cr_originalCallType callReportInfo;
         cr_newCallUseBox := cr_newCallUseBox callReportInfo;
         cr_rttState := cr_rttState callReportInfo;
         cr_rttChannelId := cr_rttChannelId callReportInfo;
         cr_imsDomain := cr_imsDomain callReportInfo;
         cr_isPendingHold := cr_isPendingHold callReportInfo |}.

(** What a call that is no longer listed is reported as. *)
Definition lost_report (c : CellularCallConnectionCS) : CallReportInfo :=
  cr_set_reason (GetDisconnectReason c)
    (cr_set_state CALL_STATUS_DISCONNECTED (GetCallReportInfo (conn_base c))).
Definition DeleteConnection (callVec : list CallReportInfo) : Op CSControl (list CallReportInfo) :=
  let! m := mgets connectionMap_ in
  let '(m', callVec') := DeleteConnection_loop lost_report m callVec in
  mmodify (set_connectionMap m') ;;
  mret callVec'.

Definition ReportUpdateInfo_call (slotId : Z) (only_one : bool) (call : CallInfo)
    : Op CSControl CallReportInfo :=
  let reportInfo := EncapsulationCallReportInfo slotId call in
  let reportInfo :=
    if only_one && bool_decide (cr_state reportInfo = CALL_STATUS_WAITING)
    then cr_set_state CALL_STATUS_INCOMING reportInfo else reportInfo in
  let! m := mgets connectionMap_ in
  match FindConnectionByIndex m (ca_index call) with
  | None =>
      let connection :=
        upd (SetNumber (ca_number call)) (upd (SetIndex (ca_index call))
          (upd (SetFlag true) (upd (SetOrUpdateCallReportInfo reportInfo)
            CellularCallConnectionCS_new))) in
      modify_conns (λ m, (SetConnectionData m (ca_index call) connection).2)
  | Some p =>
      let! preCallState := read_conn p (λ c, GetStatus (conn_base c)) in
      modify_conn p (upd (SetFlag true)) ;;
      modify_conn p (upd (SetIndex (ca_index call))) ;;
      modify_conn p (upd (SetOrUpdateCallReportInfo reportInfo)) ;;
      modify_conn p (upd (SetNumber (ca_number call))) ;;
      let! curCallState := read_conn p (λ c, GetStatus (conn_base c)) in
      if IsConnectedOut preCallState curCallState then
        let! pending := mgets pendingPhoneNumber_ in
        modify_conn p (upd (UpdateCallNumber pending)) ;;
        mmodify (set_pendingPhoneNumber "") ;;
        let! index := read_conn p (λ c, GetIndex (conn_base c)) in
        post_dial_step slotId index ;; mret ()
      else mret ()
  end ;;
  mret reportInfo.

Definition ReportUpdateInfo (slotId : Z) (callInfoList : CallInfoList) : Op CSControl Z :=
  let only_one := bool_decide (List.length (cal_calls callInfoList) = 1%nat) in
  let! callVec := mcollect (cal_calls callInfoList) (ReportUpdateInfo_call slotId only_one) in
  let! callVec := DeleteConnection callVec in
  let! register := ask register_instance in
  if negb register then mret TELEPHONY_ERR_LOCAL_PTR_NULL
  else
    let! ignored := mgets isIgnoredIncomingCall_ in
    (if negb ignored
     then report (ReportCallsInfo {| crs_callVec := callVec; crs_slotId := slotId |})
     else mret ()) ;;
    mret TELEPHONY_SUCCESS.

Definition ReportIncomingInfo (slotId : Z) (callInfoList : CallInfoList) : Op CSControl Z :=
  let! callVec := mcollect (cal_calls callInfoList) (λ call,
    let cellularCallReportInfo := EncapsulationCallReportInfo slotId call in
    let connection :=
      upd (SetNumber (ca_number call))
        (upd (SetOrUpdateCallReportInfo cellularCallReportInfo)
          (upd (SetIndex (ca_index call)) (upd (SetStatus (ca_state call))
            CellularCallConnectionCS_new))) in
    modify_conns (λ m, (SetConnectionData m (ca_index call) connection).2) ;;
    mret cellularCallReportInfo) in
  let! register := ask register_instance in
  if negb register then mret TELEPHONY_ERR_ARGUMENT_INVALID
  else
    let! registered := ask IsCallManagerCallBackRegistered in
    (if negb registered &&
        match callVec with
        | first :: _ => bool_decide (cr_state first = CALL_STATUS_INCOMING)
        | [] => false
        end
     then mmodify (set_isIgnoredIncomingCall true)
     else report (ReportCallsInfo {| crs_callVec := callVec; crs_slotId := slotId |})) ;;
    mret TELEPHONY_SUCCESS.

Definition ReleaseAllConnection : Op CSControl () := modify_conns (λ _, []).

Definition ReportHangUpInfo (slotId : Z) : Op CSControl Z :=
  let! m := mgets connectionMap_ in
  let callVec := (λ '(_, c),
    cr_set_reason (GetDisconnectReason c)
      (cr_set_accountId slotId
        (cr_set_state CALL_STATUS_DISCONNECTED (GetCallReportInfo (conn_base c))))) <$> m in
  let callVec :=
    if sm_empty m then
      callVec ++ [cr_set_accountId slotId
                    (cr_set_state CALL_STATUS_DISCONNECTED CallReportInfo_init)]
    else callVec in
  let! register := ask register_instance in
  if negb register then mret TELEPHONY_ERR_LOCAL_PTR_NULL
  else
    let! ignored := mgets isIgnoredIncomingCall_ in
    (if (ignored : bool) then mmodify (set_isIgnoredIncomingCall false)
     else report (ReportCallsInfo {| crs_callVec := callVec; crs_slotId := slotId |})) ;;
    ReleaseAllConnection ;;
    mret TELEPHONY_SUCCESS.

Definition ReportCallsData (slotId : Z) (callInfoList : CallInfoList) : Op CSControl Z :=
  let! m := mgets connectionMap_ in
  if cal_callSize callInfoList <=? 0 then ReportHangUpInfo slotId
  else if (0 <? cal_callSize callInfoList) && sm_empty m then
    ReportIncomingInfo slotId callInfoList
  else if (0 <? cal_callSize callInfoList) && negb (sm_empty m) then
    ReportUpdateInfo slotId callInfoList
  else mret TELEPHONY_ERROR.

Definition UpdateDisconnectedReason (callInfoList : CallInfoList) (reason : Z)
    : Op CSControl () :=
  modify_conns (sm_map (λ c,
    if bool_decide (GetDisconnectReason c ≠ DISCONNECTED_REASON_INVALID) then c
    else if negb (is_listed ca_index (cal_calls callInfoList) c) then SetDisconnectReason reason c else c)).

Definition HasEndCallWithoutReason (m : CsConnectionMap) (callInfoList : CallInfoList) : bool :=
  sm_any (λ c,
    if bool_decide (GetDisconnectReason c ≠ DISCONNECTED_REASON_INVALID) then false
    else negb (is_listed ca_index (cal_calls callInfoList) c)) m.

Definition ReportCsCallsData (slotId : Z) (callInfoList : CallInfoList) (isNeedQuery : bool)
    : Op CSControl Z :=
  let! m := mgets connectionMap_ in
  if cal_callSize callInfoList <=? 0 then
    if isNeedQuery && HasEndCallWithoutReason m callInfoList then
      GetCallFailReason slotId m ;; mret TELEPHONY_SUCCESS
    else ReportHangUpInfo slotId
  else if (0 <? cal_callSize callInfoList) && sm_empty m then
    ReportIncomingInfo slotId callInfoList
  else if (0 <? cal_callSize callInfoList) && negb (sm_empty m) then
    if isNeedQuery && HasEndCallWithoutReason m callInfoList then
      GetCallFailReason slotId m ;; mret TELEPHONY_SUCCESS
    else ReportUpdateInfo slotId callInfoList
  else mret TELEPHONY_ERROR.

(** [inl r]: the function returns [r]; [inr l]: what the loop collected. *)
Fixpoint ReportHangUp_loop (infos : list CellularCallInfo) (slotId : Z) : Z + list CallReportInfo :=
  match infos with
  | [] => inr []
  | info :: infos' =>
      if bool_decide (ci_callType info = TYPE_CS) && bool_decide (ci_slotId info = slotId) then
        if negb memset_s_ok then inl TELEPHONY_ERR_MEMSET_FAIL
        else if negb (memcpy_s_ok kMaxNumberLen kMaxNumberLen) then inl TELEPHONY_ERR_MEMCPY_FAIL
        else
          let d := CallReportInfo_init in
          let csCallReportInfo :=
            {| cr_accountNum :=
                 String.substring 0 (Z.to_nat kMaxNumberLen) (ci_phoneNum info);
               cr_index := ci_index info; cr_accountId := ci_slotId info;
               cr_voiceDomain := cr_voiceDomain d; cr_state := CALL_STATUS_DISCONNECTED;
               cr_callType := TYPE_CS; cr_callMode := TYPE_VOICE; cr_mpty := cr_mpty d;
               cr_name := cr_name d; cr_namePresentation := cr_namePresentation d;
               cr_reason := cr_reason d; cr_message := cr_message d;
               cr_crsType := cr_crsType d; cr_originalCallType := cr_originalCallType d;
               cr_newCallUseBox := cr_newCallUseBox d; cr_rttState := cr_rttState d;
               cr_rttChannelId := cr_rttChannelId d; cr_imsDomain := cr_imsDomain d;
               cr_isPendingHold := cr_isPendingHold d |} in
          match ReportHangUp_loop infos' slotId with
          | inl r => inl r
          | inr callVec => inr (csCallReportInfo :: callVec)
          end
      else ReportHangUp_loop infos' slotId
  end.
Definition ReportHangUp (infos : list CellularCallInfo) (slotId : Z) : Op CSControl Z :=
  match ReportHangUp_loop infos slotId with
  | inl ret => mret ret
  | inr callVec =>
      let! register := ask register_instance in
      if negb register then mret TELEPHONY_ERR_LOCAL_PTR_NULL
      else
        report (ReportCallsInfo {| crs_callVec := callVec; crs_slotId := slotId |}) ;;
        ReleaseAllConnection ;;
        mret TELEPHONY_SUCCESS
  end.
End CsControl.
