(* ===== verification/CsControlFacts.v ===== *)
(** * CsControlFacts: what the circuit-switched control guarantees

    - the invariant of the connection map under every operation, in any order
      and with any activity of the other components in between;
    - the comparison of a modem call list with the map;
    - the view of call_manager as a refinement of the map;
    - the user operations. *)

From stdpp Require Import base tactics option list numbers strings gmap sets relations.
From Stdlib Require Import ZArith Lia Ascii String Sorted.
From S2P Require Import Prelude Platform Samples Standardize StdMap Connection MmiCode.
From S2P Require Import Emergency ControlBase CallMap CallReport ConnectionCS CsControl.

Open Scope Z_scope.

(** ** Stability of the connection's own operations *)

Section Stable.
Context `{CallConsts, Env}.

Lemma SetDisconnectReason_stable r (c : CellularCallConnectionCS) :
  c_index (SetDisconnectReason r c) = c_index c ∧ c_flag (SetDisconnectReason r c) = c_flag c.
Proof. done. Qed.
Lemma upd_stable f (c : CellularCallConnectionCS) :
  base_stable f → c_index (upd f c) = c_index c ∧ c_flag (upd f c) = c_flag c.
Proof. intros Hf. unfold c_index, c_flag. rewrite conn_base_upd. apply Hf. Qed.
Lemma SetPostDialCallState_stable st : base_stable (SetPostDialCallState st).
Proof. done. Qed.
Lemma UpdateCallNumber_stable n : base_stable (UpdateCallNumber n).
Proof. intros b. unfold UpdateCallNumber. by case_match. Qed.

Lemma preserves_SetDisconnectReason p r :
  preserves conns_inv (modify_conn p (SetDisconnectReason r) : Op CSControl ()).
Proof. by apply preserves_modify_conn. Qed.
Lemma cs_preserves_set_pending v :
  preserves conns_inv (mmodify (set_pendingPhoneNumber v) : Op CSControl ()).
Proof. by apply preserves_modify. Qed.
Lemma cs_preserves_set_ignored v :
  preserves conns_inv (mmodify (set_isIgnoredIncomingCall v) : Op CSControl ()).
Proof. by apply preserves_modify. Qed.
End Stable.
#[export] Hint Resolve preserves_SetDisconnectReason cs_preserves_set_pending cs_preserves_set_ignored
  SetPostDialCallState_stable UpdateCallNumber_stable : cc.

Section Preservation.
Context `{CallConsts, Env}.
Abbreviation inv := (conns_inv (S := CSControl)).

Lemma cs_preserves_report_disconnecting p : preserves inv (report_disconnecting p).
Proof. unfold report_disconnecting. mauto. Qed.
Lemma preserves_EncapsulateDialCommon slotId n c : preserves inv (EncapsulateDialCommon slotId n c).
Proof. unfold EncapsulateDialCommon. mauto. Qed.
Lemma cs_preserves_UpdateCallDisconnectReason i r :
  preserves inv (UpdateCallDisconnectReason i r).
Proof. unfold UpdateCallDisconnectReason. mauto. Qed.
Lemma cs_keeps_CheckAndHangupHoldingCall : keeps CheckAndHangupHoldingCall.
Proof.
  unfold CheckAndHangupHoldingCall. apply keeps_then; [auto with cc|]. intros m.
  apply keeps_then; [|auto with cc]. apply keeps_mfor_return. intros [k c]. mauto.
Qed.
End Preservation.
#[export] Hint Resolve cs_preserves_report_disconnecting preserves_EncapsulateDialCommon
  cs_preserves_UpdateCallDisconnectReason cs_keeps_CheckAndHangupHoldingCall : cc.

Section Preservation2.
Context `{CallConsts, Env}.
Abbreviation inv := (conns_inv (S := CSControl)).

Lemma preserves_DialCdma ci : preserves inv (DialCdma ci).
Proof. unfold DialCdma, dial_fault, CS_SendCDMAThreeWayDialRequest. mauto. Qed.
Lemma preserves_DialGsm ci : preserves inv (DialGsm ci).
Proof. unfold DialGsm, dial_fault. mauto. Qed.
Lemma cs_preserves_HangUp ci t : preserves inv (HangUp ci t).
Proof.
  unfold HangUp, hangup_fault. mauto. by apply preserves_modify_conns_map.
Qed.
Lemma cs_preserves_Reject ci : preserves inv (Reject ci).
Proof. unfold Reject, hangup_fault. mauto. Qed.
Lemma keeps_Answer ci : keeps (Answer ci).
Proof. unfold Answer, answer_fault. mauto. Qed.
Lemma cs_preserves_ExecutePostDial slotId i : preserves inv (ExecutePostDial slotId i).
Proof. apply preserves_post_dial_step. Qed.
End Preservation2.
#[export] Hint Resolve preserves_DialCdma preserves_DialGsm cs_preserves_HangUp cs_preserves_Reject
  keeps_Answer cs_preserves_ExecutePostDial : cc.

Section Preservation3.
Context `{CallConsts, Env}.
Abbreviation inv := (conns_inv (S := CSControl)).

Lemma cs_preserves_Dial ci ecc : preserves inv (Dial ci ecc).
Proof. unfold Dial, dial_fault. mauto. Qed.
Lemma cs_preserves_PostDialProceed ci b : preserves inv (PostDialProceed ci b).
Proof.
  unfold PostDialProceed. mauto. apply preserves_modify_conn. intros ?.
  apply upd_stable. auto with cc.
Qed.
Lemma cs_keeps_HoldCall slotId : keeps (HoldCall slotId).
Proof. unfold HoldCall. mauto. Qed.
Lemma keeps_UnHoldCall slotId : keeps (UnHoldCall slotId).
Proof. unfold UnHoldCall. mauto. Qed.
Lemma cs_keeps_SwitchCall slotId : keeps (SwitchCall slotId).
Proof. unfold SwitchCall. mauto. Qed.
Lemma keeps_SeparateConference slotId str i : keeps (SeparateConference slotId str i).
Proof. unfold SeparateConference. mauto. Qed.
Lemma keeps_CombineConference {S} slotId : keeps (CombineConference slotId : Op S Z).
Proof. unfold CombineConference. mauto. Qed.
Lemma cs_preserves_ReportHangUpInfo slotId : preserves inv (ReportHangUpInfo slotId).
Proof. unfold ReportHangUpInfo, ReleaseAllConnection. mauto. Qed.
Lemma cs_preserves_ReportHangUp infos slotId : preserves inv (ReportHangUp infos slotId).
Proof. unfold ReportHangUp, ReleaseAllConnection. mauto. Qed.
Lemma cs_preserves_UpdateDisconnectedReason l r : preserves inv (UpdateDisconnectedReason l r).
Proof. apply preserves_modify_conns_map. intros c. by repeat case_match. Qed.
Lemma cs_keeps_StartDtmf {S} b ci (m : CsConnectionMap) : keeps (StartDtmf m b ci : Op S Z).
Proof. unfold StartDtmf. simpl. mauto. Qed.
Lemma cs_keeps_SendDtmf {S} b ci (m : CsConnectionMap) : keeps (SendDtmf m b ci : Op S Z).
Proof. unfold SendDtmf. simpl. mauto. Qed.
Lemma cs_keeps_StopDtmf {S} ci (m : CsConnectionMap) : keeps (StopDtmf m ci : Op S Z).
Proof. unfold StopDtmf. simpl. mauto. Qed.
Lemma cs_keeps_GetCallFailReason {S} slotId (m : CsConnectionMap) :
  keeps (GetCallFailReason slotId m : Op S Z).
Proof. unfold GetCallFailReason. simpl. mauto. Qed.

(** A call that was not in the map starts with its report and no mark. *)
Lemma cs_preserves_ReportIncomingInfo slotId l : preserves inv (ReportIncomingInfo slotId l).
Proof.
  unfold ReportIncomingInfo. mauto. intros s h [Hok Hu]. apply wp_modify_conns.
  unfold conns_inv. rewrite conns_set. unfold SetConnectionData. simpl. split.
  - by apply conns_ok_insert.
  - apply unmarked_insert; [apply Hok|done|done].
Qed.
End Preservation3.
#[export] Hint Resolve cs_preserves_Dial cs_preserves_PostDialProceed cs_keeps_HoldCall keeps_UnHoldCall
  cs_keeps_SwitchCall keeps_SeparateConference keeps_CombineConference
  cs_keeps_StartDtmf cs_keeps_SendDtmf cs_keeps_StopDtmf cs_keeps_GetCallFailReason
  cs_preserves_ReportHangUpInfo cs_preserves_ReportHangUp cs_preserves_UpdateDisconnectedReason
  cs_preserves_ReportIncomingInfo : cc.

(** ** The comparison of a call list with the map *)

Section Update.
Context `{CallConsts, Env}.
Implicit Types (s : CSControl) (h e : list Effect) (l : list CallInfo).

(** What a listed call is reported as. *)
Definition listed_report (slotId : Z) (only_one : bool) (call : CallInfo) : CallReportInfo :=
  let r := EncapsulationCallReportInfo slotId call in
  if only_one && bool_decide (cr_state r = CALL_STATUS_WAITING)
  then cr_set_state CALL_STATUS_INCOMING r else r.
(** *** Post-dial inside the comparison *)

Lemma CS_reason_kept slotId r :
  preserves (λ c, GetDisconnectReason c = r)
    (ProcessNextChar (C := CellularCallConnectionCS) slotId).
Proof.
  unfold ProcessNextChar. simpl. unfold CS_ProcessPostDialCallChar. mauto; try done.
  all: by intros [].
Qed.
Lemma CS_ProcessNextChar_sends slotId :
  sends not_calls_report (ProcessNextChar (C := CellularCallConnectionCS) slotId).
Proof.
  unfold ProcessNextChar. simpl. unfold CS_ProcessPostDialCallChar, CS_SendDtmfRequest.
  mauto; done.
Qed.

Lemma cs_ExecutePostDial_sends slotId i :
  sends not_calls_report (post_dial_step slotId i : Op CSControl Z).
Proof. apply sends_post_dial_step, CS_ProcessNextChar_sends. Qed.

Lemma cs_wp_modify_conn_again i c0 c1 c' m f s Q h :
  sm_lookup i m = Some c0 →
  Q () (set_connectionMap (sm_alter (λ _, f c1) i m) s) [] →
  wp (modify_conn (i, c') f) Q (set_connectionMap (sm_alter (λ _, c1) i m) s) h.
Proof.
  intros Hc HQ. eapply wp_modify_conn; [by eapply sm_lookup_alter_const|].
  cbn [conns set_conns HasConns_cs connectionMap_ set_connectionMap pendingPhoneNumber_
       isIgnoredIncomingCall_].
  by rewrite sm_alter_alter.
Qed.

(** *** One listed call *)

Abbreviation updated slotId only_one :=
  (updated ca_number (listed_report slotId only_one) GetDisconnectReason
     DISCONNECTED_REASON_INVALID).
Abbreviation marked slotId only_one :=
  (marked ca_index ca_number (listed_report slotId only_one) GetDisconnectReason
     DISCONNECTED_REASON_INVALID).
Abbreviation compared slotId only_one :=
  (compared ca_index ca_number (listed_report slotId only_one) GetDisconnectReason
     DISCONNECTED_REASON_INVALID).
Abbreviation lost l := (lost ca_index (cal_calls l)).

Lemma cs_ReportUpdateInfo_call_spec slotId only_one call s h :
  conns_ok (connectionMap_ s) →
  wp (ReportUpdateInfo_call slotId only_one call)
    (λ r s' _, r = listed_report slotId only_one call ∧
       isIgnoredIncomingCall_ s' = isIgnoredIncomingCall_ s ∧
       conns_ok (connectionMap_ s') ∧
       (∀ k, k ≠ ca_index call →
          sm_lookup k (connectionMap_ s') = sm_lookup k (connectionMap_ s)) ∧
       ∃ c, sm_lookup (ca_index call) (connectionMap_ s') = Some c ∧
            updated slotId only_one call (sm_lookup (ca_index call) (connectionMap_ s)) c) s h.
Proof.
  intros Hok. unfold ReportUpdateInfo_call. fold (listed_report slotId only_one call).
  set (r := listed_report slotId only_one call). set (i := ca_index call).
  wsteps. rewrite FindConnectionByIndex_lookup by done.
  destruct (sm_lookup i (connectionMap_ s)) as [c|] eqn:Hc; cbn [fmap option_fmap option_map].
  - wsteps. eapply wp_read_conn; [done|]. wsteps.
    eapply wp_modify_conn; [done|]. cbn [conns set_conns HasConns_cs]. wsteps.
    do 3 (eapply cs_wp_modify_conn_again; [done|]; wsteps).
    eapply wp_read_conn; [by eapply sm_lookup_alter_const|]. wsteps.
    set (c1 := upd (SetNumber _) _).
    assert (updated slotId only_one call (Some c) c1 ∧ c_index c1 = i) as [Hc1 Hi1] by done.
    clearbody c1.
    destruct (IsConnectedOut _ _); wsteps.
    + eapply cs_wp_modify_conn_again; [done|]. wsteps.
      eapply wp_read_conn; [by eapply sm_lookup_alter_const|]. wsteps.
      set (c2 := upd (UpdateCallNumber _) c1).
      assert (updated slotId only_one call (Some c) c2 ∧ c_index c2 = i) as [Hc2 Hi2].
      { unfold CallReport.updated, c_index, c_flag, c2, upd, UpdateCallNumber in *. simpl.
        destruct (ExtractAddressAndPostDial _ _ _). done. }
      clearbody c2. change (GetIndex (conn_base c2)) with (c_index c2). rewrite Hi2.
      set (s2 := set_pendingPhoneNumber _ _).
      assert (sm_lookup i (connectionMap_ s2) = Some c2) as Hc2'
        by by eapply sm_lookup_alter_const.
      assert (conns_ok (connectionMap_ s2)) as Hok2 by by apply conns_ok_alter.
      assert (∀ k, k ≠ i → sm_lookup k (connectionMap_ s2) = sm_lookup k (connectionMap_ s))
        as Hother by (intros k Hk; simpl; by rewrite sm_lookup_alter, bool_decide_false).
      eapply wp_mono; [by apply (post_dial_step_frame GetDisconnectReason CS_reason_kept)|].
      intros r0 s' e Hs'. cbn beta in *. wsteps.
      destruct Hs' as [->|(c2' & c3 & Hc2'' & ((st & n & Hbase) & Hreason) & ->)].
      { split_and!; [done|done|done|done|by exists c2]. }
      change (conns s2) with (connectionMap_ s2) in Hc2''. rewrite Hc2' in Hc2''. injection Hc2'' as <-.
      split_and!; [done|done| | |].
      * apply conns_ok_alter; [done|]. intros _ _. unfold c_index. by rewrite Hbase.
      * intros k Hk. simpl. rewrite sm_lookup_alter, bool_decide_false by done.
        by apply Hother.
      * exists c3. split; [by eapply sm_lookup_alter_const|].
        unfold CallReport.updated, c_flag in *. by rewrite Hreason, Hbase.
    + split_and!; [done|done|by apply conns_ok_alter| |].
      * intros k Hk. simpl. by rewrite sm_lookup_alter, bool_decide_false.
      * exists c1. split; [by eapply sm_lookup_alter_const|done].
  - wsteps. apply wp_modify_conns. wsteps. simpl.
    split_and!; [done|done| | |].
    + by apply conns_ok_insert.
    + intros k Hk. by rewrite sm_lookup_insert_fresh, bool_decide_false by (done || apply Hok).
    + eexists. rewrite sm_lookup_insert_fresh, bool_decide_true by (done || apply Hok).
      done.
Qed.
Lemma cs_ReportUpdateInfo_call_sends slotId only_one call :
  sends not_calls_report (ReportUpdateInfo_call slotId only_one call).
Proof.
  unfold ReportUpdateInfo_call. mauto. apply cs_ExecutePostDial_sends.
Qed.

(** *** The whole comparison *)

Definition one_call l : bool := bool_decide (List.length l = 1%nat).

Definition update_post slotId (l : CallInfoList) s h (r : Z) s' e : Prop :=
  let only_one := one_call (cal_calls l) in
  compared slotId only_one (cal_calls l) (connectionMap_ s) (connectionMap_ s') ∧
  isIgnoredIncomingCall_ s' = isIgnoredIncomingCall_ s ∧
  ∃ e1, Forall not_calls_report e1 ∧
    if register_instance (h ++ e1) then
      r = TELEPHONY_SUCCESS ∧
      e = e1 ++
        if isIgnoredIncomingCall_ s then []
        else [Report (ReportCallsInfo
               {| crs_callVec :=
                    (listed_report slotId only_one <$> cal_calls l) ++
                    (lost_report <$> lost l (connectionMap_ s));
                  crs_slotId := slotId |})]
    else r = TELEPHONY_ERR_LOCAL_PTR_NULL ∧ e = e1.

Lemma cs_ReportUpdateInfo_spec slotId (l : CallInfoList) s h :
  conns_inv s → wp (ReportUpdateInfo slotId l) (update_post slotId l s h) s h.
Proof.
  intros [Hok Hu]. unfold update_post, ReportUpdateInfo, DeleteConnection.
  apply wp_then. eapply wp_mono;
    [apply (mark_phase (P := not_calls_report) ca_index ca_number
      (listed_report slotId (one_call (cal_calls l))) GetDisconnectReason
      DISCONNECTED_REASON_INVALID isIgnoredIncomingCall_); [apply cs_ReportUpdateInfo_call_sends|
      intros; by apply cs_ReportUpdateInfo_call_spec|done]|].
  intros bs s1 e1 (-> & Hig & Hmark & He1). cbn beta. wsteps.
  rewrite DeleteConnection_loop_sweep. wsteps.
  change (connectionMap_ s1) with (conns s1).
  rewrite (marked_lost _ _ _ _ _ _ _ _ Hok Hu Hmark).
  apply marked_swept in Hmark; [|done..].
  destruct (register_instance _) eqn:Hreg; cbn [negb]; wsteps.
  - cbn [isIgnoredIncomingCall_ set_connectionMap]. rewrite Hig.
    destruct (isIgnoredIncomingCall_ s) eqn:Hi; cbn [negb]; wsteps;
      (split_and!; [done|simpl; congruence|]);
      exists e1; (split; [done|]); by rewrite Hreg, ?app_nil_r.
  - split_and!; [done|done|]. exists e1. split; [done|]. by rewrite Hreg.
Qed.

(** C9: the comparison of a modem call list with the calls known so far.
    Afterwards the map holds exactly one call per listed index, each with the
    report and the number of the last entry for its index and with the
    disconnect reason it had (none when it is new); no call stays marked.
    Exactly one report goes up (unless an ignored incoming call suppresses
    it): every listed call in list order, with a lone waiting call shown as
    incoming, then every call that is gone, in index order, as disconnected
    with its reason. *)
Theorem ReportUpdateInfo_diff slotId (l : CallInfoList) s h
  (Hinv : conns_inv s) :
  wp (ReportUpdateInfo slotId l)
    (λ r s' e,
       let only_one := one_call (cal_calls l) in
       compared slotId only_one (cal_calls l) (connectionMap_ s) (connectionMap_ s') ∧
       isIgnoredIncomingCall_ s' = isIgnoredIncomingCall_ s ∧
       ∃ e1, Forall not_calls_report e1 ∧
         if register_instance (h ++ e1) then
           r = TELEPHONY_SUCCESS ∧
           e = e1 ++
             if isIgnoredIncomingCall_ s then []
             else [Report (ReportCallsInfo
                    {| crs_callVec :=
                         (listed_report slotId only_one <$> cal_calls l) ++
                         (lost_report <$> lost l (connectionMap_ s));
                       crs_slotId := slotId |})]
         else r = TELEPHONY_ERR_LOCAL_PTR_NULL ∧ e = e1) s h.
Proof. by apply cs_ReportUpdateInfo_spec. Qed.
Lemma cs_preserves_ReportUpdateInfo slotId (l : CallInfoList) :
  preserves (conns_inv (S := CSControl)) (ReportUpdateInfo slotId l).
Proof.
  intros s h Hinv. eapply wp_mono; [by apply cs_ReportUpdateInfo_spec|].
  intros r s' e [(Hok & Hu & _) _]. by split.
Qed.
End Update.
#[export] Hint Resolve cs_preserves_ReportUpdateInfo : cc.

(** ** The control as a state machine *)

Section Machine.
Context `{CallConsts, Env}.

(** Every operation of the control, and what it runs. *)
Inductive cs_op :=
  | OpDial (callInfo : CellularCallInfo) (isEcc : bool)
  | OpHangUp (callInfo : CellularCallInfo) (type : Z)
  | OpReject (callInfo : CellularCallInfo)
  | OpAnswer (callInfo : CellularCallInfo)
  | OpHoldCall (slotId : Z) | OpUnHoldCall (slotId : Z) | OpSwitchCall (slotId : Z)
  | OpSeparateConference (slotId : Z) (splitString : string) (index : Z)
  | OpCombineConference (slotId : Z)
  | OpHangUpAllConnection (slotId : Z)
  | OpStartDtmf (c : ascii) (callInfo : CellularCallInfo)
  | OpStopDtmf (callInfo : CellularCallInfo)
  | OpSendDtmf (c : ascii) (callInfo : CellularCallInfo)
  | OpExecutePostDial (slotId callId : Z)
  | OpPostDialProceed (callInfo : CellularCallInfo) (proceed : bool)
  | OpReportCallsData (slotId : Z) (list : CallInfoList)
  | OpReportCsCallsData (slotId : Z) (list : CallInfoList) (isNeedQuery : bool)
  | OpUpdateDisconnectedReason (list : CallInfoList) (reason : Z)
  | OpReportHangUp (infos : list CellularCallInfo) (slotId : Z)
  | OpReleaseAllConnection.

Definition run_op (op : cs_op) : Op CSControl () :=
  match op with
  | OpDial ci ecc => Dial ci ecc ;; mret ()
  | OpHangUp ci t => HangUp ci t ;; mret ()
  | OpReject ci => Reject ci ;; mret ()
  | OpAnswer ci => Answer ci ;; mret ()
  | OpHoldCall slotId => HoldCall slotId ;; mret ()
  | OpUnHoldCall slotId => UnHoldCall slotId ;; mret ()
  | OpSwitchCall slotId => SwitchCall slotId ;; mret ()
  | OpSeparateConference slotId str i => SeparateConference slotId str i ;; mret ()
  | OpCombineConference slotId => CombineConference slotId ;; mret ()
  | OpHangUpAllConnection slotId => HangUpAllConnection slotId ;; mret ()
  | OpStartDtmf c ci => let! m := mgets connectionMap_ in StartDtmf m c ci ;; mret ()
  | OpStopDtmf ci => let! m := mgets connectionMap_ in StopDtmf m ci ;; mret ()
  | OpSendDtmf c ci => let! m := mgets connectionMap_ in SendDtmf m c ci ;; mret ()
  | OpExecutePostDial slotId i => ExecutePostDial slotId i ;; mret ()
  | OpPostDialProceed ci b => PostDialProceed ci b ;; mret ()
  | OpReportCallsData slotId l => ReportCallsData slotId l ;; mret ()
  | OpReportCsCallsData slotId l q => ReportCsCallsData slotId l q ;; mret ()
  | OpUpdateDisconnectedReason l r => UpdateDisconnectedReason l r
  | OpReportHangUp infos slotId => ReportHangUp infos slotId ;; mret ()
  | OpReleaseAllConnection => ReleaseAllConnection
  end.

(** A step of the control, or of the rest of the system. *)
Inductive cs_step : CSControl * list Effect → CSControl * list Effect → Prop :=
  | cs_step_op op s h s' e :
      run_op op s h = ((), s', e) → cs_step (s, h) (s', h ++ e)
  | cs_step_other s h e : cs_step (s, h) (s, h ++ e).

Lemma cs_preserves_run_op op : preserves conns_inv (run_op op).
Proof.
  destruct op; simpl; try unfold ReportCallsData, ReportCsCallsData,
    HangUpAllConnection, ReleaseAllConnection; mauto.
Qed.

Lemma cs_steps_inv st st' : rtc cs_step st st' → conns_inv st.1 → conns_inv st'.1.
Proof.
  induction 1 as [st|st1 st2 st3 Hstep _ IH]; [done|]. intros Hinv. apply IH.
  destruct Hstep as [op s h s' e Hrun|]; [|done].
  pose proof (cs_preserves_run_op op s h Hinv) as Hp. unfold wp in Hp. by rewrite Hrun in Hp.
Qed.

(** The invariant of the control.  From an empty control, whatever
    operations are called with whatever arguments, in whatever order, and
    whatever the rest of the system does in between, the connection map stays
    ordered, every call sits under its own index (so the search by index finds
    exactly the call of that index) and no call is left marked. *)
Theorem cs_reachable_inv h0 s h
  (Hreach : rtc cs_step (CSControl_new, h0) (s, h)) :
  conns_inv s ∧
  ∀ i, FindConnectionByIndex (connectionMap_ s) i =
         (λ c, (i, c)) <$> sm_lookup i (connectionMap_ s).
Proof.
  assert (conns_inv s) as Hinv.
  { apply (cs_steps_inv _ _ Hreach). split; [apply conns_ok_nil|apply unmarked_nil]. }
  split; [done|]. intros i. apply FindConnectionByIndex_lookup, Hinv.
Qed.
End Machine.
