(* ===== verification/CsRefinement.v ===== *)
(** * CsRefinement: what call_manager knows of the circuit-switched calls

    The abstract state is the set of indices of live calls that the reports
    sent so far describe.  The control implements it: after every operation
    that set is the set of calls of the connection map that were not reported as
    disconnected, all of them when no list names a disconnected call. *)

From stdpp Require Import base tactics option list numbers strings gmap sets relations.
From Stdlib Require Import ZArith Lia Ascii String Sorted.
From S2P Require Import Prelude Platform Samples Standardize StdMap Connection MmiCode.
From S2P Require Import Emergency ControlBase CallMap CallReport ConnectionCS CsControl.
From S2P Require Import CsControlFacts.

Open Scope Z_scope.

(** ** The abstract view *)

Section View.
Context `{CallConsts}.

(** A live entry adds its index, a disconnected one removes it. *)
Definition view_entry (v : gset Z) (r : CallReportInfo) : gset Z :=
  if bool_decide (cr_state r = CALL_STATUS_DISCONNECTED) then v ∖ {[cr_index r]}
  else {[cr_index r]} ∪ v.
Definition view_effect (v : gset Z) (e : Effect) : gset Z :=
  match e with
  | Report (ReportCallsInfo info) => foldl view_entry v (crs_callVec info)
  | _ => v
  end.
Definition view (h : list Effect) : gset Z := foldl view_effect ∅ h.

Lemma view_app h e : view (h ++ e) = foldl view_effect (view h) e.
Proof. apply foldl_app. Qed.
Lemma view_silent v e : Forall not_calls_report e → foldl view_effect v e = v.
Proof.
  intros He. revert v. induction He as [|x e Hx _ IH]; intros v; simpl; [done|].
  rewrite IH. unfold view_effect. repeat case_match; by simplify_eq/=.
Qed.
Definition live (r : CallReportInfo) : Prop := cr_state r ≠ CALL_STATUS_DISCONNECTED.
(** A report whose entries of one call agree. *)
Lemma view_entries v rs k :
  (∀ r1 r2, r1 ∈ rs → r2 ∈ rs → cr_index r1 = cr_index r2 → live r1 → live r2) →
  k ∈ foldl view_entry v rs ↔
    (∃ r, r ∈ rs ∧ cr_index r = k ∧ live r) ∨ (k ∈ v ∧ k ∉ cr_index <$> rs).
Proof.
  revert v. induction rs as [|r rs IH]; intros v Hag; simpl.
  { split; [intros ?; right; split; [done|apply not_elem_of_nil]|].
    intros [(r & Hr & _)|[? _]]; [by apply not_elem_of_nil in Hr|done]. }
  rewrite IH by (intros r1 r2 H1 H2; apply Hag; by right). clear IH.
  assert (k ∈ view_entry v r ↔ (cr_index r = k ∧ live r) ∨ (k ∈ v ∧ cr_index r ≠ k)) as ->.
  { unfold view_entry, live. case_bool_decide.
    - rewrite elem_of_difference, elem_of_singleton. naive_solver.
    - rewrite elem_of_union, elem_of_singleton. destruct (decide (cr_index r = k)); naive_solver. }
  split.
  - intros [(r' & Hr' & Hk & Hl)|[[[Hk Hl]|[Hv Hk]] Hn]].
    + left. exists r'. split; [by right|done].
    + left. exists r. split; [by left|done].
    + right. split; [done|]. rewrite not_elem_of_cons. split; [congruence|done].
  - rewrite not_elem_of_cons. intros [(r' & [->|Hr']%elem_of_cons & Hk & Hl)|[Hv [Hk Hn]]].
    + destruct (decide (k ∈ cr_index <$> rs)) as [Hin|Hin]; [left|right; split; [by left|done]].
      apply list_elem_of_fmap in Hin as (r2 & Hk2 & H2). exists r2. split_and!; [done|done|].
      apply (Hag r r2); [by left|by right|congruence|done].
    + left. by exists r'.
    + right. split; [right; split; [done|congruence]|done].
Qed.
Lemma view_gone v rs :
  Forall (λ r, cr_state r = CALL_STATUS_DISCONNECTED) rs →
  foldl view_entry v rs = v ∖ list_to_set (cr_index <$> rs).
Proof.
  intros Hrs. revert v. induction Hrs as [|r rs Hr _ IH]; intros v; simpl; [set_solver|].
  rewrite IH. unfold view_entry. rewrite bool_decide_true by done. set_solver.
Qed.
End View.

(** ** User operations do not change what is known *)

Section Frame.
Context `{CallConsts, Env}.

Definition c_report (c : CellularCallConnectionCS) : CallReportInfo := GetCallReportInfo (conn_base c).
(** The keys are [ks], every stored report is about its own call, those that are not
    of an ended call are [v]'s, and no incoming call is being ignored. *)
Definition known (ks : list Z) (v : gset Z) (s : CSControl) : Prop :=
  sm_keys (connectionMap_ s) = ks ∧
  (∀ k c, sm_lookup k (connectionMap_ s) = Some c →
     cr_index (c_report c) = k ∧ (k ∈ v ↔ live (c_report c))) ∧
  isIgnoredIncomingCall_ s = false.

Lemma known_on_conn ks v {A} p (m : Op CellularCallConnectionCS A) :
  (∀ r, preserves (λ c, c_report c = r) m) → preserves (known ks v) (on_conn p m).
Proof.
  intros Hm s h (Hk & Hi & Hg). destruct p as [k c0]. unfold wp, on_conn.
  set (c := default _ _). specialize (Hm (c_report c) c h eq_refl). unfold wp in Hm.
  destruct (m c h) as [[a c'] e]. unfold known. simpl. rewrite sm_keys_alter.
  split_and!; [done| |done]. intros k' c''. rewrite sm_lookup_alter.
  case_bool_decide; [subst|apply Hi].
  destruct (sm_lookup k (connectionMap_ s)) as [c1|] eqn:Hc; [|done]. intros [= <-].
  rewrite Hm. unfold c. simpl. rewrite Hc. by apply Hi.
Qed.
Lemma known_modify_conn ks v p f :
  (∀ c, c_report (f c) = c_report c) → preserves (known ks v) (modify_conn p f).
Proof. intros Hf. apply known_on_conn. intros i c h Hc. unfold wp. simpl. by rewrite Hf. Qed.
Lemma known_modify_conns ks v f :
  (∀ c, c_report (f c) = c_report c) →
  preserves (known ks v) (modify_conns (sm_map f) : Op CSControl ()).
Proof.
  intros Hf s h (Hk & Hi & Hg). apply wp_modify_conns. unfold known. simpl.
  rewrite sm_keys_map. split_and!; [done| |done]. intros k c.
  rewrite sm_lookup_map. intros (c' & Hc' & ->)%fmap_Some. rewrite Hf. by apply Hi.
Qed.
Lemma known_set_pending ks v n : preserves (known ks v) (mmodify (set_pendingPhoneNumber n) : Op CSControl ()).
Proof. by apply preserves_modify. Qed.
Lemma known_ProcessNextChar r slotId :
  preserves (λ c, c_report c = r)
    (ProcessNextChar (C := CellularCallConnectionCS) slotId).
Proof.
  intros c h Hc. eapply wp_mono; [apply ProcessNextChar_frame|].
  intros r' c' e (st & n & Hf). unfold c_report. by rewrite Hf.
Qed.
End Frame.
#[export] Hint Resolve known_set_pending known_ProcessNextChar : cc.
#[export] Hint Extern 2 (preserves (known _ _) (on_conn _ _)) =>
  apply known_on_conn; intros ? : cc.

(** A user operation: quiet towards the list of calls. *)
Definition quiet `{CallConsts} {A} (m : Op CSControl A) : Prop :=
  (∀ ks v, preserves (known ks v) m) ∧ sends not_calls_report m.

Section Quiet.
Context `{CallConsts, Env}.

Lemma sends_DialPreJudgment {S} ci b : sends not_calls_report (DialPreJudgment ci b : Op S Z).
Proof. eapply sends_mono; [apply not_report_calls|]. auto with cc. Qed.
Lemma sends_IsNeedExecuteMMI {S} slotId ph clir ims :
  sends not_calls_report (IsNeedExecuteMMI slotId ph clir ims : Op S _).
Proof. eapply sends_mono; [apply not_report_calls|]. auto with cc. Qed.
#[local] Hint Resolve sends_DialPreJudgment sends_IsNeedExecuteMMI : cc.

Lemma sends_EncapsulateDialCommon slotId n c :
  sends not_calls_report (EncapsulateDialCommon slotId n c).
Proof. unfold EncapsulateDialCommon, CS_DialRequest. mauto; try done.
       apply sends_with_local. mauto; done. Qed.
Lemma quiet_EncapsulateDialCommon slotId n c : quiet (EncapsulateDialCommon slotId n c).
Proof.
  split; [|apply sends_EncapsulateDialCommon]. intros ks v. unfold EncapsulateDialCommon. mauto.
Qed.
#[local] Hint Resolve sends_EncapsulateDialCommon : cc.
#[local] Hint Extern 1 (preserves (known _ _) (EncapsulateDialCommon _ _ _)) =>
  apply quiet_EncapsulateDialCommon : cc.

Lemma quiet_Dial ci ecc : quiet (Dial ci ecc).
Proof.
  unfold Dial, DialGsm, DialCdma, dial_fault, CS_SwitchCallRequest,
    CS_SendCDMAThreeWayDialRequest.
  split; [intros ks v|]; mauto; done.
Qed.
Lemma quiet_keeps {A} (m : Op CSControl A) :
  keeps m → sends not_calls_report m → quiet m.
Proof. intros Hk Hs. split; [intros ks v; by apply preserves_keeps|done]. Qed.
Lemma quiet_report_disconnecting p : quiet (report_disconnecting p).
Proof. unfold report_disconnecting. split; [intros ks v|]; mauto; done. Qed.
#[local] Hint Extern 1 (preserves (known _ _) (report_disconnecting _)) =>
  apply quiet_report_disconnecting : cc.
#[local] Hint Extern 1 (sends not_calls_report (report_disconnecting _)) =>
  apply quiet_report_disconnecting : cc.
#[local] Hint Extern 1 (preserves (known _ _) (modify_conn _ (SetDisconnectReason _))) =>
  by apply known_modify_conn : cc.

Lemma quiet_HangUp ci t : quiet (HangUp ci t).
Proof.
  unfold HangUp, UpdateCallDisconnectReason, hangup_fault, CS_CallSupplementRequest,
    CS_RejectRequest. split; [intros ks v; mauto; [apply known_on_conn; intros ?; mauto|by apply known_modify_conns]|].
  mauto; try done. apply sends_on_conn. unfold CS_HangUpRequest. mauto; done.
Qed.
Lemma quiet_Reject ci : quiet (Reject ci).
Proof.
  unfold Reject, hangup_fault, CS_RejectRequest. split; [intros ks v|]; mauto; done.
Qed.
Lemma quiet_Answer ci : quiet (Answer ci).
Proof.
  apply quiet_keeps; [auto with cc|].
  unfold Answer, CheckAndHangupHoldingCall, answer_fault, CS_SwitchCallRequest,
    CS_AnswerRequest. mauto; try done.
  all: apply sends_with_local; unfold CS_HangUpRequest; mauto; done.
Qed.
Lemma quiet_HoldCall slotId : quiet (HoldCall slotId).
Proof. apply quiet_keeps; [auto with cc|]. unfold HoldCall, CS_HoldRequest. mauto; done. Qed.
Lemma quiet_UnHoldCall slotId : quiet (UnHoldCall slotId).
Proof.
  apply quiet_keeps; [auto with cc|]. unfold UnHoldCall, CS_UnHoldCallRequest. mauto; done.
Qed.
Lemma quiet_SwitchCall slotId : quiet (SwitchCall slotId).
Proof.
  apply quiet_keeps; [auto with cc|]. unfold SwitchCall, CS_SwitchCallRequest. mauto; done.
Qed.
Lemma quiet_SeparateConference slotId str i : quiet (SeparateConference slotId str i).
Proof.
  apply quiet_keeps; [auto with cc|].
  unfold SeparateConference, CS_SeparateConferenceRequest. mauto; done.
Qed.
Lemma quiet_CombineConference slotId : quiet (CombineConference slotId : Op CSControl Z).
Proof.
  apply quiet_keeps; [auto with cc|].
  unfold CombineConference, CS_CombineConferenceRequest. mauto; done.
Qed.
Lemma quiet_HangUpAllConnection slotId : quiet (HangUpAllConnection slotId : Op CSControl Z).
Proof.
  apply quiet_keeps; [unfold HangUpAllConnection; auto with cc|].
  unfold HangUpAllConnection, CS_RejectRequest. mauto; done.
Qed.
Lemma quiet_StartDtmf b ci (m : CsConnectionMap) : quiet (StartDtmf m b ci : Op CSControl Z).
Proof.
  apply quiet_keeps; [auto with cc|]. unfold StartDtmf. simpl.
  unfold CS_StartDtmfRequest. mauto; done.
Qed.
Lemma quiet_SendDtmf b ci (m : CsConnectionMap) : quiet (SendDtmf m b ci : Op CSControl Z).
Proof.
  apply quiet_keeps; [auto with cc|]. unfold SendDtmf. simpl.
  unfold CS_SendDtmfRequest. mauto; done.
Qed.
Lemma quiet_StopDtmf ci (m : CsConnectionMap) : quiet (StopDtmf m ci : Op CSControl Z).
Proof.
  apply quiet_keeps; [auto with cc|]. unfold StopDtmf. simpl.
  unfold CS_StopDtmfRequest. mauto; done.
Qed.
Lemma quiet_GetCallFailReason slotId (m : CsConnectionMap) :
  quiet (GetCallFailReason slotId m : Op CSControl Z).
Proof.
  apply quiet_keeps; [auto with cc|]. unfold GetCallFailReason. simpl.
  unfold CS_GetCallFailReasonRequest. mauto; done.
Qed.
Lemma quiet_ExecutePostDial slotId i : quiet (post_dial_step slotId i : Op CSControl Z).
Proof.
  split; [intros ks v|apply cs_ExecutePostDial_sends]. unfold post_dial_step. mauto.
Qed.
Lemma quiet_PostDialProceed ci b : quiet (PostDialProceed ci b).
Proof.
  unfold PostDialProceed. split; [intros ks v|]; mauto; try apply quiet_ExecutePostDial.
  by apply known_modify_conn.
Qed.
Lemma quiet_UpdateDisconnectedReason l r : quiet (UpdateDisconnectedReason l r).
Proof.
  unfold UpdateDisconnectedReason. split; [intros ks v|auto with cc].
  apply known_modify_conns. intros c. by repeat case_match.
Qed.
End Quiet.

(** ** Reports *)

Section Reports.
Context `{CallConsts, Env, !CallConstsOk, !SecurecOk}.
(** Whether the lists may name calls that have ended. *)
Context (ended : Prop).

(** An entry of a modem list: the formatted number fits the report. *)
Definition call_wf (call : CallInfo) : Prop :=
  strlen (FormatNumberAndToa (ca_number call) (ca_type call)) ≤ kMaxNumberLen ∧
  (ca_state call = CALL_STATUS_DISCONNECTED → ended).
(** Entries of a list that are about one call agree whether it has ended. *)
Definition list_wf (l : list CallInfo) : Prop :=
  Forall call_wf l ∧
  ∀ c1 c2, c1 ∈ l → c2 ∈ l → ca_index c1 = ca_index c2 →
    ca_state c1 = CALL_STATUS_DISCONNECTED → ca_state c2 = CALL_STATUS_DISCONNECTED.

Lemma ringing_live :
  CALL_STATUS_INCOMING ≠ CALL_STATUS_DISCONNECTED ∧ CALL_STATUS_WAITING ≠ CALL_STATUS_DISCONNECTED.
Proof.
  pose proof call_status_nodup as Hn. rewrite !NoDup_cons in Hn.
  destruct Hn as (_ & _ & _ & _ & Hi & Hw & _). split; intros Heq; [apply Hi|apply Hw]; rewrite Heq; set_solver.
Qed.

Lemma Encapsulation_wf slotId call :
  call_wf call →
  cr_index (EncapsulationCallReportInfo slotId call) = ca_index call ∧
  cr_state (EncapsulationCallReportInfo slotId call) = ca_state call.
Proof.
  intros [Hfit _]. unfold EncapsulationCallReportInfo. rewrite memset_s_EOK. cbn [negb].
  destruct (Z.ltb_spec (kMaxNumberLen + 1)
    (strlen (FormatNumberAndToa (ca_number call) (ca_type call)) + 1)); [lia|].
  rewrite strcpy_s_EOK; [done|]. unfold strlen. lia.
Qed.
Lemma listed_report_wf slotId b call :
  call_wf call →
  cr_index (listed_report slotId b call) = ca_index call ∧
  (live (listed_report slotId b call) ↔ ca_state call ≠ CALL_STATUS_DISCONNECTED).
Proof.
  intros Hwf. pose proof (Encapsulation_wf slotId call Hwf) as [Hi Hs].
  pose proof ringing_live as [Hin Hwa]. unfold listed_report, live. rewrite Hs.
  destruct (b && _) eqn:Hb; simpl; rewrite ?Hi, ?Hs; [|done].
  apply andb_true_iff in Hb as [_ Hb%bool_decide_eq_true]. rewrite Hb. done.
Qed.
(** The entries of a report of a list, as call_manager takes them. *)
Lemma listed_view slotId b l v k :
  list_wf l →
  k ∈ foldl view_entry v (listed_report slotId b <$> l) ↔
    (∃ call, call ∈ l ∧ ca_index call = k ∧ live (listed_report slotId b call)) ∨
    (k ∈ v ∧ k ∉ ca_index <$> l).
Proof.
  intros [Hwf Hag]. rewrite Forall_forall in Hwf. rewrite view_entries.
  - assert (cr_index <$> (listed_report slotId b <$> l) = ca_index <$> l) as ->.
    { rewrite <-list_fmap_compose. apply list_fmap_ext. intros i x Hx. simpl.
      by apply listed_report_wf, Hwf, (list_elem_of_lookup_2 _ i). }
    split; (intros [Hl|Hr]; [left|by right]).
    + destruct Hl as (r & (call & -> & Hc)%list_elem_of_fmap & Hk & Hl). exists call. split; [done|].
      by rewrite <-(proj1 (listed_report_wf slotId b call (Hwf _ Hc))).
    + destruct Hl as (call & Hc & Hk & Hl). exists (listed_report slotId b call).
      split; [by apply list_elem_of_fmap_2|]. by rewrite (proj1 (listed_report_wf slotId b call (Hwf _ Hc))).
  - intros r1 r2 (c1 & -> & Hc1)%list_elem_of_fmap (c2 & -> & Hc2)%list_elem_of_fmap.
    destruct (listed_report_wf slotId b c1 (Hwf _ Hc1)) as [-> ->].
    destruct (listed_report_wf slotId b c2 (Hwf _ Hc2)) as [-> ->].
    intros Hi Hn Hd. apply Hn. by apply (Hag c2 c1).
Qed.
Lemma agree_live slotId b l c1 c2 :
  list_wf l → c1 ∈ l → c2 ∈ l → ca_index c1 = ca_index c2 →
  live (listed_report slotId b c1) ↔ live (listed_report slotId b c2).
Proof.
  intros [Hwf Hag] Hc1 Hc2 Hi. rewrite Forall_forall in Hwf.
  rewrite (proj2 (listed_report_wf slotId b c1 (Hwf _ Hc1))), (proj2 (listed_report_wf slotId b c2 (Hwf _ Hc2))).
  split; intros Hn Hd; apply Hn; [by apply (Hag c2 c1)|by apply (Hag c1 c2)].
Qed.

(** The simulation relation; [v] is the abstract view. *)
Definition simulates (s : CSControl) (v : gset Z) : Prop :=
  conns_inv s ∧ known (sm_keys (connectionMap_ s)) v s ∧ v ⊆ sm_dom (connectionMap_ s) ∧
  (∀ k c, sm_lookup k (connectionMap_ s) = Some c → live (c_report c) ∨ ended).

(** One operation run from a simulated state. *)
Definition refines {A} (m : Op CSControl A) : Prop :=
  ∀ s h v, simulates s v →
    wp m (λ _ s' e, simulates s' (foldl view_effect v e)) s h.

Lemma refines_quiet {A} (m : Op CSControl A) :
  preserves conns_inv m → quiet m → refines m.
Proof.
  intros Hp [Hk Hs] s h v (Hinv & Hkn & Hv & Hend).
  eapply wp_mono; [apply wp_and; [by apply Hp|apply wp_and; [by apply Hk|apply Hs]]|].
  intros a s' e (Hinv' & Hkn' & He). cbn beta. rewrite view_silent by done.
  destruct Hkn' as (Hkeys & Hi & Hg). split; [done|]. rewrite Hkeys.
  assert (sm_dom (connectionMap_ s') = sm_dom (connectionMap_ s)) as Hdom by (unfold sm_dom; by rewrite Hkeys).
  split_and!; [by split|by rewrite Hdom|]. intros k c Hc.
  assert (k ∈ sm_dom (connectionMap_ s)) as [c0 Hc0]%elem_of_sm_dom
    by (rewrite <-Hdom; apply elem_of_sm_dom; eauto).
  destruct (Hi k c Hc) as [_ Hl]. destruct Hkn as (_ & Hi0 & _). destruct (Hi0 k c0 Hc0) as [_ Hl0].
  destruct (Hend k c0 Hc0) as [Hlive|?]; [left; by apply Hl, Hl0|by right].
Qed.
Lemma refines_then_ret {A} (m : Op CSControl A) : refines m → refines (m ;; mret ()).
Proof.
  intros Hm s h v Hs. apply wp_then. eapply wp_mono; [by apply Hm|]. intros a s' e Hs'.
  cbn beta. wsteps. done.
Qed.

Context (Hreg : ∀ h, register_instance h = true)
        (Hcb : ∀ h, IsCallManagerCallBackRegistered h = true).

Abbreviation compared slotId only_one :=
  (compared ca_index ca_number (listed_report slotId only_one) GetDisconnectReason
     DISCONNECTED_REASON_INVALID).
Abbreviation lost l := (lost ca_index (cal_calls l)).
Abbreviation last_call := (last_call ca_index).

Lemma lost_indices (l : CallInfoList) v s :
  conns_inv s → known (sm_keys (connectionMap_ s)) v s →
  list_to_set (cr_index <$> (lost_report <$> lost l (connectionMap_ s))) =
    sm_dom (connectionMap_ s) ∖ (list_to_set (ca_index <$> cal_calls l) : gset Z).
Proof.
  intros [[Hs Hi] _] (_ & Hkn & _). apply set_eq. intros k.
  rewrite elem_of_difference, elem_of_sm_dom, !elem_of_list_to_set.
  rewrite <-list_fmap_compose, list_elem_of_fmap. unfold CallReport.lost. split.
  - intros (c & -> & Hc). apply list_elem_of_fmap in Hc as ([k' c'] & -> & Hin). simpl.
    apply sm_elem_of_lookup in Hin; [|by apply smap_ok_filter].
    rewrite sm_lookup_filter in Hin by done.
    destruct (sm_lookup k' (connectionMap_ s)) as [c0|] eqn:Hk'; [|done].
    destruct ((negb ∘ is_listed ca_index (cal_calls l)) c0) eqn:Hl; [|done]. injection Hin as <-. simpl in Hl.
    change (cr_index _) with (cr_index (c_report c0)). rewrite (proj1 (Hkn _ _ Hk')), Hk'.
    split; [done|]. apply negb_true_iff, not_true_iff_false in Hl.
    rewrite is_listed_last_call, (Hi _ _ Hk') in Hl.
    apply last_call_None. by apply dec_stable.
  - intros [[c Hc] Hl%last_call_None]. exists c. split; [symmetry; by apply Hkn|].
    apply list_elem_of_fmap. exists (k, c). split; [done|].
    apply sm_elem_of_lookup; [by apply smap_ok_filter|].
    rewrite sm_lookup_filter, Hc by done. simpl.
    assert (is_listed ca_index (cal_calls l) c = false) as ->; [|done].
    apply not_true_iff_false. rewrite is_listed_last_call, (Hi _ _ Hc), Hl. naive_solver.
Qed.

Lemma ended_or_live slotId b call l : list_wf l → call ∈ l → live (listed_report slotId b call) ∨ ended.
Proof.
  intros [Hwf _] Hc. rewrite Forall_forall in Hwf. destruct (listed_report_wf slotId b call (Hwf _ Hc)) as [_ Hl].
  destruct (decide (ca_state call = CALL_STATUS_DISCONNECTED)) as [Hd|]; [right; by apply (Hwf call Hc)|left; by apply Hl].
Qed.
Lemma ReportUpdateInfo_refines slotId (l : CallInfoList) :
  list_wf (cal_calls l) → refines (ReportUpdateInfo slotId l).
Proof.
  intros Hwf s h v (Hinv & Hkn & Hv & Hend). eapply wp_mono; [by apply cs_ReportUpdateInfo_spec|].
  intros r s' e (Hcmp & Hig & e1 & He1 & Hres). rewrite Hreg in Hres.
  pose proof Hkn as (_ & _ & Hg). rewrite Hg in Hig, Hres. destruct Hres as [_ ->].
  set (b := one_call (cal_calls l)) in *.
  rewrite foldl_app, (view_silent _ e1) by done. cbn [foldl view_effect crs_callVec]. rewrite foldl_app.
  rewrite (view_gone _ (lost_report <$> _)).
  2:{ rewrite Forall_fmap. by apply Forall_true. }
  rewrite (lost_indices l v s) by done.
  set (v' := foldl view_entry v (listed_report slotId b <$> cal_calls l) ∖ _).
  assert (∀ k, k ∈ v' ↔ ∃ call, last_call k (cal_calls l) = Some call ∧ live (listed_report slotId b call)) as Hv'.
  { intros k. unfold v'. rewrite elem_of_difference, listed_view by done.
    rewrite elem_of_difference, elem_of_list_to_set.
    destruct (last_call k (cal_calls l)) as [call|] eqn:Hl.
    - pose proof (last_call_Some _ _ _ _ Hl) as [Hin Hi]. assert (k ∈ ca_index <$> cal_calls l) as Hk.
      { rewrite <-Hi. by apply list_elem_of_fmap_2. }
      split.
      + intros [[(c & Hc & Hci & Hlive)|[_ Hn]] _]; [|done]. exists call. split; [done|].
        apply (agree_live slotId b _ c call Hwf); [done|done|congruence|done].
      + intros (c & [= <-] & Hlive). split; [left; eauto|tauto].
    - apply last_call_None in Hl. split; [|by intros (? & ? & _)].
      intros [[(c & Hc & Hci & _)|[Hin _]] Hn]; exfalso.
      + apply Hl. rewrite <-Hci. by apply list_elem_of_fmap_2.
      + apply Hn. split; [by apply Hv|done]. }
  split; [by destruct Hcmp as (? & ? & _)|]. destruct Hcmp as (Hok & _ & Hm). split_and!.
  - split_and!; [done| |done]. intros k c Hc. specialize (Hm k). rewrite Hv'.
    destruct (last_call k (cal_calls l)) as [call|] eqn:Hl; [|congruence].
    destruct Hm as (c' & Hc' & Hr & _). rewrite Hc in Hc'. injection Hc' as <-.
    unfold c_report. rewrite Hr. apply last_call_Some in Hl as [Hin Hi].
    destruct Hwf as [Hall _]. rewrite Forall_forall in Hall. rewrite <-Hi.
    split; [by apply listed_report_wf, Hall|]. split; [|by eauto]. by intros (? & [= ->] & ?).
  - intros k (call & Hl & _)%Hv'. specialize (Hm k). rewrite Hl in Hm. destruct Hm as (c & Hc & _).
    apply elem_of_sm_dom. eauto.
  - intros k c Hc. specialize (Hm k). destruct (last_call k (cal_calls l)) as [call|] eqn:Hl; [|congruence].
    destruct Hm as (c' & Hc' & Hr & _). rewrite Hc in Hc'. injection Hc' as <-.
    unfold c_report. rewrite Hr. apply last_call_Some in Hl as [Hin _]. by eapply ended_or_live.
Qed.

Lemma sm_dom_insert {V} k (x : V) m : sm_dom (sm_insert k x m) = {[k]} ∪ sm_dom m.
Proof.
  apply set_eq. intros k'. unfold sm_dom.
  rewrite elem_of_union, elem_of_singleton, !elem_of_list_to_set. apply sm_elem_of_keys_insert.
Qed.

(** Inserting a call that carries a report about itself. *)
Lemma insert_call slotId call c (don : list CallInfo) s :
  c_index c = ca_index call → c_flag c = false → c_report c = EncapsulationCallReportInfo slotId call →
  conns_inv s →
  (∀ k c, sm_lookup k (connectionMap_ s) = Some c →
     ∃ x, x ∈ don ∧ ca_index x = k ∧ c_report c = EncapsulationCallReportInfo slotId x) →
  let s' := set_connectionMap (SetConnectionData (connectionMap_ s) (ca_index call) c).2 s in
  conns_inv s' ∧
  (∀ k c, sm_lookup k (connectionMap_ s') = Some c →
     ∃ x, x ∈ don ++ [call] ∧ ca_index x = k ∧ c_report c = EncapsulationCallReportInfo slotId x).
Proof.
  intros Hi Hf Hr [Hok Hu] Hkn. simpl. split.
  - split; [by apply conns_ok_insert|by apply unmarked_insert; [apply Hok|..]].
  - intros k c'. setoid_rewrite elem_of_app.
    destruct (sm_lookup (ca_index call) (connectionMap_ s)) eqn:Hk.
    + rewrite sm_insert_present by (done || apply Hok || eauto).
      intros (x & Hx & Hxk)%Hkn. exists x. by split; [left|].
    + rewrite sm_lookup_insert_fresh by (done || apply Hok).
      case_bool_decide; [intros [= <-]|intros (x & Hx & Hxk)%Hkn].
      * exists call. split; [right; by left|done].
      * exists x. by split; [left|].
Qed.

Lemma ReportIncomingInfo_refines slotId (l : CallInfoList) s h v :
  list_wf (cal_calls l) → simulates s v → connectionMap_ s = [] →
  wp (ReportIncomingInfo slotId l) (λ _ s' e, simulates s' (foldl view_effect v e)) s h.
Proof.
  intros Hwf (Hinv & Hkn & Hv & Hend) Hempty. unfold ReportIncomingInfo. apply wp_then.
  assert (v = ∅) as ->.
  { apply set_eq. intros k. split; [|set_solver]. intros [c Hc]%Hv%elem_of_sm_dom. by rewrite Hempty in Hc. }
  eapply wp_mono.
  { apply (wp_mcollect (λ don bs s' e,
      bs = EncapsulationCallReportInfo slotId <$> don ∧ e = [] ∧ conns_inv s' ∧
      isIgnoredIncomingCall_ s' = false ∧
      (∀ k c, sm_lookup k (connectionMap_ s') = Some c →
         ∃ x, x ∈ don ∧ ca_index x = k ∧ c_report c = EncapsulationCallReportInfo slotId x) ∧
      sm_dom (connectionMap_ s') = list_to_set (ca_index <$> don))).
    { split_and!; [done|done|done|apply Hkn| |].
      - intros k c. by rewrite Hempty.
      - by rewrite Hempty. }
    intros don call bs s' e [post Hl] (-> & -> & Hinv' & Hig & Hkn' & Hdom).
    apply wp_then, wp_modify_conns. wsteps.
    destruct (insert_call slotId call
      (upd (SetNumber (ca_number call))
        (upd (SetOrUpdateCallReportInfo (EncapsulationCallReportInfo slotId call))
          (upd (SetIndex (ca_index call)) (upd (SetStatus (ca_state call))
            CellularCallConnectionCS_new)))) don s') as [Hinv'' Hkn'']; [done..|].
    split_and!; [by rewrite fmap_app|done|done|done|done|].
    simpl. rewrite sm_dom_insert, Hdom, fmap_app, list_to_set_app_L. set_solver. }
  intros bs s' e (-> & -> & Hinv' & Hig & Hkn' & Hdom). cbn beta. wsteps.
  rewrite Hreg. cbn [negb]. wsteps. rewrite Hcb. cbn [negb andb]. wsteps.
  cbn [app foldl view_effect crs_callVec].
  change (EncapsulationCallReportInfo slotId <$> cal_calls l) with (listed_report slotId false <$> cal_calls l).
  change (EncapsulationCallReportInfo slotId) with (listed_report slotId false) in Hkn'.
  set (v' := foldl view_entry ∅ _).
  assert (∀ k, k ∈ v' ↔ ∃ call, call ∈ cal_calls l ∧ ca_index call = k ∧ live (listed_report slotId false call)) as Hv'.
  { intros k. unfold v'. rewrite listed_view by done. split; [intros [?|[? _]]; [done|set_solver]|by left]. }
  split; [done|split_and!].
  - split_and!; [done| |done]. intros k c (x & Hx & Hk & ->)%Hkn'. rewrite Hv'.
    pose proof Hwf as [Hall _]. rewrite Forall_forall in Hall. rewrite <-Hk.
    split; [by apply listed_report_wf, Hall|]. split.
    + intros (y & Hy & Hyk & Hlive). by apply (agree_live slotId false _ y x Hwf).
    + intros Hlive. by exists x.
  - intros k (x & Hx & Hk & _)%Hv'. rewrite Hdom, elem_of_list_to_set, <-Hk. by apply list_elem_of_fmap_2.
  - intros k c (x & Hx & _ & ->)%Hkn'. by eapply ended_or_live.
Qed.

Lemma ReportHangUpInfo_refines slotId : refines (ReportHangUpInfo slotId).
Proof.
  intros s h v (Hinv & (Hk1 & Hkn & Hg) & Hv & _). unfold ReportHangUpInfo, ReleaseAllConnection.
  wsteps. rewrite Hreg. cbn [negb]. wsteps. rewrite Hg. wsteps. apply wp_modify_conns. wsteps.
  cbn [app foldl view_effect crs_callVec]. rewrite view_gone.
  2:{ destruct (sm_empty _); rewrite ?Forall_app, Forall_fmap; [split; [|by constructor]|];
      apply Forall_true; by intros []. }
  match goal with |- simulates _ ?w => assert (w = ∅) as -> end.
  { apply set_eq. intros k. rewrite elem_of_difference, elem_of_list_to_set.
    split; [intros [Hin Hno]; exfalso; apply Hno|set_solver].
    apply Hv, elem_of_sm_dom in Hin as [c Hc].
    assert (k ∈ cr_index <$> ((λ '(_, c),
      cr_set_reason (GetDisconnectReason c)
        (cr_set_accountId slotId
          (cr_set_state CALL_STATUS_DISCONNECTED (GetCallReportInfo (conn_base c))))) <$>
        connectionMap_ s)) as Hk.
    { rewrite <-list_fmap_compose. apply list_elem_of_fmap. exists (k, c).
      split; [symmetry; by apply Hkn|]. apply sm_elem_of_lookup; [apply Hinv|done]. }
    simpl in Hk. destruct (sm_empty _); [|done]. rewrite fmap_app, elem_of_app. by left. }
  split; [split; [apply conns_ok_nil|apply unmarked_nil]|]. by split_and!.
Qed.

(** Two operations are left out: [ReportHangUp], which reports the calls
    call_manager names, not those of the map, and [ReleaseAllConnection], which
    drops the calls in silence when they move to another bearer. *)
Definition op_wf (op : cs_op) : Prop :=
  match op with
  | OpReportCallsData _ l | OpReportCsCallsData _ l _ => list_wf (cal_calls l)
  | OpReportHangUp _ _ | OpReleaseAllConnection => False
  | _ => True
  end.

Lemma refines_bind_gets {A B} (f : CSControl → A) (k : A → Op CSControl B) :
  (∀ a, refines (k a)) → refines (let! x := mgets f in k x).
Proof. intros Hk s h v Hs. wsteps. by apply Hk. Qed.
Lemma refines_quiet_then {A B} (m : Op CSControl A) (k : Op CSControl B) :
  refines m → refines k → refines (m ;; k).
Proof.
  intros Hm Hk s h v Hs. apply wp_then. eapply wp_mono; [by apply Hm|]. intros a s' e Hs'.
  cbn beta in *. eapply wp_mono; [by apply Hk|]. intros b s'' e' Hs''. cbn beta in *.
  by rewrite foldl_app.
Qed.
Lemma refines_ret {A} (a : A) : refines (mret a).
Proof. intros s h v Hs. by wsteps. Qed.
Lemma refines_query slotId (m : CsConnectionMap) :
  refines (GetCallFailReason slotId m ;; mret TELEPHONY_SUCCESS).
Proof.
  apply refines_quiet_then; [|apply refines_ret]. apply refines_quiet;
    [apply preserves_keeps; auto with cc|apply quiet_GetCallFailReason].
Qed.
Lemma refines_ReportCallsData slotId l : list_wf (cal_calls l) → refines (ReportCallsData slotId l).
Proof.
  intros Hwf s h v Hs. unfold ReportCallsData. wsteps.
  case_match; [by apply ReportHangUpInfo_refines|].
  destruct (connectionMap_ s) as [|p m] eqn:Hm; cbn [sm_empty negb]; rewrite ?andb_true_r, ?andb_false_r.
  - case_match; [by apply ReportIncomingInfo_refines|by apply refines_ret].
  - case_match; [by apply ReportUpdateInfo_refines|by apply refines_ret].
Qed.
Lemma refines_ReportCsCallsData slotId l b : list_wf (cal_calls l) → refines (ReportCsCallsData slotId l b).
Proof.
  intros Hwf s h v Hs. unfold ReportCsCallsData. wsteps.
  case_match; [case_match; [by apply refines_query|by apply ReportHangUpInfo_refines]|].
  destruct (connectionMap_ s) as [|p m] eqn:Hm; cbn [sm_empty negb]; rewrite ?andb_true_r, ?andb_false_r.
  - case_match; [by apply ReportIncomingInfo_refines|by apply refines_ret].
  - case_match; [|by apply refines_ret].
    case_match; [by apply refines_query|by apply ReportUpdateInfo_refines].
Qed.

Lemma refines_run_op op : op_wf op → refines (run_op op).
Proof.
  assert (∀ A (m : Op CSControl A), preserves conns_inv m → quiet m → refines (m ;; mret ()))
    as Hq by (intros A m ??; by apply refines_then_ret, refines_quiet).
  assert (∀ A (m : Op CSControl A), keeps m → quiet m → refines (m ;; mret ())) as Hqk
    by (intros A m ??; apply Hq; [by apply preserves_keeps|done]).
  destruct op; simpl; intros Hwf; try done.
  - apply Hq; [auto with cc|apply quiet_Dial].
  - apply Hq; [auto with cc|apply quiet_HangUp].
  - apply Hq; [auto with cc|apply quiet_Reject].
  - apply Hqk; [auto with cc|apply quiet_Answer].
  - apply Hqk; [auto with cc|apply quiet_HoldCall].
  - apply Hqk; [auto with cc|apply quiet_UnHoldCall].
  - apply Hqk; [auto with cc|apply quiet_SwitchCall].
  - apply Hqk; [auto with cc|apply quiet_SeparateConference].
  - apply Hqk; [auto with cc|apply quiet_CombineConference].
  - apply Hqk; [unfold HangUpAllConnection; auto with cc|apply quiet_HangUpAllConnection].
  - apply refines_bind_gets. intros m. apply Hqk; [auto with cc|apply quiet_StartDtmf].
  - apply refines_bind_gets. intros m. apply Hqk; [auto with cc|apply quiet_StopDtmf].
  - apply refines_bind_gets. intros m. apply Hqk; [auto with cc|apply quiet_SendDtmf].
  - apply Hq; [auto with cc|apply quiet_ExecutePostDial].
  - apply Hq; [auto with cc|apply quiet_PostDialProceed].
  - by apply refines_then_ret, refines_ReportCallsData.
  - by apply refines_then_ret, refines_ReportCsCallsData.
  - apply refines_quiet; [auto with cc|apply quiet_UpdateDisconnectedReason].
Qed.

Lemma refines_run_ops ops : Forall op_wf ops → refines (mfor ops run_op).
Proof.
  induction 1 as [|op ops Hop _ IH]; simpl; [apply refines_ret|].
  apply refines_quiet_then; [by apply refines_run_op|done].
Qed.
Lemma empty_simulates : simulates CSControl_new ∅.
Proof. split_and!; [split; [apply conns_ok_nil|apply unmarked_nil]|by split_and!|done|done]. Qed.
End Reports.

(** C1: call_manager and the control agree.  Take any sequence of user operations and
    modem reports on an empty control, with the call_manager callback registered; the
    numbers of the lists fit the report's field and the entries of a list that name
    the same call agree whether it is disconnected.  After it, the live calls that the
    reports sent so far describe (an entry that is not disconnected adds its index, a
    disconnected one removes it) are exactly the calls of the control's map whose last
    report was not of a disconnected call; and if no list named a disconnected call
    they are all calls of the map: none is lost and none lingers.  A call that the
    modem lists as disconnected stays in the map until a list leaves it out.  Two
    operations are left out: [ReportHangUp], which reports the calls call_manager
    names and not those of the map, and [ReleaseAllConnection], which drops the calls
    in silence when they move to another bearer. *)
Theorem cs_view_refines_map `{CallConsts, Env, !CallConstsOk, !SecurecOk} (ended : Prop) (ops : list cs_op) h
  (Hreg : ∀ h, register_instance h = true)
  (Hcb : ∀ h, IsCallManagerCallBackRegistered h = true)
  (Hwf : Forall (op_wf ended) ops) :
  wp (mfor ops run_op)
    (λ _ s e,
      (∀ k, k ∈ view e ↔ ∃ c, sm_lookup k (connectionMap_ s) = Some c ∧
                            cr_state (GetCallReportInfo (conn_base c)) ≠ CALL_STATUS_DISCONNECTED) ∧
      (¬ ended → view e = sm_dom (connectionMap_ s))) CSControl_new h.
Proof.
  eapply wp_mono; [apply (refines_run_ops ended Hreg Hcb ops Hwf _ h ∅), empty_simulates|].
  intros _ s e (_ & (_ & Hk & _) & Hv & Hend). change (foldl view_effect ∅ e) with (view e) in *.
  assert (∀ k, k ∈ view e ↔ ∃ c, sm_lookup k (connectionMap_ s) = Some c ∧ live (c_report c)) as Hview.
  { intros k. split.
    - intros Hin. pose proof (Hv _ Hin) as [c Hc]%elem_of_sm_dom. exists c. split; [done|]. by apply (Hk k c Hc).
    - intros (c & Hc & Hl). by apply (Hk k c Hc). }
  split; [exact Hview|]. intros Hne. apply set_eq. intros k. rewrite Hview, elem_of_sm_dom. split.
  - intros (c & Hc & _). eauto.
  - intros [c Hc]. exists c. split; [done|]. by destruct (Hend k c Hc).
Qed.
