(* ===== verification/CsUser.v ===== *)
(** * CsUser: user operations on circuit-switched calls

    What each operation sends to the modem and changes in the map, on every
    branch: dialling and its limit, hanging up, answering, rejecting, holding,
    and the protocol that fetches the reason of an ended call. *)

From stdpp Require Import base tactics option list numbers strings gmap sets relations.
From Stdlib Require Import ZArith Lia Ascii String Sorted.
From S2P Require Import Prelude Platform Samples Standardize StdMap Connection MmiCode.
From S2P Require Import Emergency ControlBase CallMap CallReport ConnectionCS CsControl.
From S2P Require Import CsControlFacts.

Open Scope Z_scope.


Section HangUp.
Context `{CallConsts, Env}.

Definition terminated (c : CellularCallConnectionCS) : CellularCallConnectionCS :=
  SetDisconnectReason DISCONNECTED_REASON_USER_TERMINATED c.
Definition disconnecting_report (h : list Effect) (c : CellularCallConnectionCS) : list Effect :=
  if register_instance h
  then [Report (ReportSingleCallInfo (GetCallReportInfo (conn_base c)) CALL_STATUS_DISCONNECTING)]
  else [].

Lemma set_connectionMap_twice m m' s :
  set_connectionMap m (set_connectionMap m' s) = set_connectionMap m s.
Proof. done. Qed.
Lemma set_connectionMap_same m s : m = connectionMap_ s → set_connectionMap m s = s.
Proof. intros ->. by destruct s. Qed.
Lemma report_disconnecting_run k c s h :
  sm_lookup k (connectionMap_ s) = Some c →
  report_disconnecting (k, c) s h = ((), s, disconnecting_report h c).
Proof.
  intros Hk. unfold report_disconnecting, disconnecting_report. mrun.
  destruct (register_instance h); [|done]. unfold read_conn. mrun. by rewrite Hk.
Qed.

(** C40: Hanging up, on every branch, while the slots' handlers are there.  By
    default exactly the call of the given index is ended: call_manager is told that
    it disconnects, its reason becomes USER_TERMINATED and one hang-up command with
    its index goes to the modem; an unknown index is an error and changes nothing.
    The two supplementary types send one CHLD command and mark the call whose index
    is the given call id, if there is one; hanging up all marks every call and sends
    one reject; any other type is an invalid argument. *)
Theorem HangUp_spec (callInfo : CellularCallInfo) type (s : CSControl) h
  (Hinv : conns_inv s) (Hr : ∀ h, reachable_slot h (ci_slotId callInfo) = true) :
  let slotId := ci_slotId callInfo in
  wp (HangUp callInfo type)
    (λ r s' e,
      if bool_decide (type = TYPE_DEFAULT) then
        match sm_lookup (ci_index callInfo) (connectionMap_ s) with
        | None => r = CALL_ERR_CALL_CONNECTION_NOT_EXIST ∧ s' = s ∧ Forall is_hisys e
        | Some c =>
            r = TELEPHONY_SUCCESS ∧
            s' = set_connectionMap
                   (sm_alter terminated (ci_index callInfo) (connectionMap_ s)) s ∧
            e = disconnecting_report h c ++
                [Ril slotId RADIO_HANGUP_CONNECT (RilHangup (ci_index callInfo))]
        end
      else if bool_decide (type = TYPE_HANG_UP_HOLD_WAIT ∨ type = TYPE_HANG_UP_ACTIVE) then
        r = TELEPHONY_SUCCESS ∧
        s' = set_connectionMap
               (sm_alter terminated (ci_callId callInfo) (connectionMap_ s)) s ∧
        e = [Ril slotId RADIO_CALL_SUPPLEMENT (RilCallSupplement type)]
      else if bool_decide (type = TYPE_HANG_UP_ALL) then
        r = TELEPHONY_SUCCESS ∧
        s' = set_connectionMap (sm_map terminated (connectionMap_ s)) s ∧
        e = [Ril slotId RADIO_REJECT_CALL RilReject]
      else r = TELEPHONY_ERR_ARGUMENT_INVALID ∧ s' = s ∧ Forall is_hisys e) s h.
Proof.
  cbv zeta. destruct Hinv as [Hok _]. unfold HangUp, hangup_fault.
  destruct (bool_decide (type = TYPE_DEFAULT)).
  { wsteps. rewrite FindConnectionByIndex_lookup by done.
    destruct (sm_lookup (ci_index callInfo) (connectionMap_ s)) as [c|] eqn:Hc;
      cbn [fmap option_fmap option_map]; [|wsteps; split_and!; [done|done|by repeat constructor]].
    apply wp_then. unfold wp at 1. rewrite (report_disconnecting_run _ c) by done. cbn beta.
    wsteps. eapply wp_modify_conn; [done|]. wsteps.
    eapply wp_on_conn; [by eapply sm_lookup_alter_const|].
    apply wp_with_handler; [done|]. wsteps. cbn [conns set_conns HasConns_cs].
    split_and!; [done| |].
    - change (connectionMap_ (set_connectionMap ?m s)) with m. rewrite sm_alter_alter.
      rewrite set_connectionMap_twice. f_equal. apply sm_alter_const; [apply Hok|done].
    - change (GetIndex _) with (c_index c). by rewrite (proj2 Hok _ _ Hc). }
  destruct (bool_decide (type = TYPE_HANG_UP_HOLD_WAIT) ||
            bool_decide (type = TYPE_HANG_UP_ACTIVE)) eqn:Ht.
  { rewrite bool_decide_true
      by (apply orb_true_iff in Ht; rewrite !bool_decide_eq_true in Ht; done).
    unfold UpdateCallDisconnectReason. wsteps. rewrite FindConnectionByIndex_lookup by done.
    assert (∀ s', wp (CS_CallSupplementRequest (ci_slotId callInfo) type : Op CSControl Z)
      (λ r s'' e, r = TELEPHONY_SUCCESS ∧ s'' = s' ∧
         e = [Ril (ci_slotId callInfo) RADIO_CALL_SUPPLEMENT (RilCallSupplement type)]) s' h)
      as Hreq.
    { intros s'. unfold wp, CS_CallSupplementRequest. by rewrite with_handler_run. }
    destruct (sm_lookup (ci_callId callInfo) (connectionMap_ s)) as [c|] eqn:Hc;
      cbn [fmap option_fmap option_map].
    - eapply wp_modify_conn; [done|]. wsteps. eapply wp_mono; [apply Hreq|].
      intros r s' e (-> & -> & ->). split_and!; [done| |done].
      cbn [conns set_conns HasConns_cs]. f_equal. apply sm_alter_const; [apply Hok|done].
    - wsteps. eapply wp_mono; [apply Hreq|].
      intros r s' e (-> & -> & ->). split_and!; [done| |done].
      symmetry. apply set_connectionMap_same.
      apply sm_ext; [apply smap_ok_alter, Hok|apply Hok|]. intros k.
      clear Ht. rewrite sm_lookup_alter. case_bool_decide as Hk; [|done]. by rewrite Hk, Hc. }
  rewrite (bool_decide_false (_ ∨ _))
    by (apply orb_false_iff in Ht; rewrite !bool_decide_eq_false in Ht; naive_solver).
  destruct (bool_decide (type = TYPE_HANG_UP_ALL)).
  - apply wp_then, wp_modify_conns. unfold wp, CS_RejectRequest. rewrite with_handler_run by done.
    done.
  - wsteps. split_and!; [done|done|by repeat constructor].
Qed.
End HangUp.

Section AnswerReject.
Context `{CallConsts, Env}.
Implicit Types (s : CSControl) (h : list Effect) (c : CellularCallConnectionCS).

Definition ringing c : bool :=
  bool_decide (c_status c = CALL_STATUS_INCOMING) ||
  bool_decide (c_status c = CALL_STATUS_ALERTING) ||
  bool_decide (c_status c = CALL_STATUS_WAITING).

Lemma IsRingingState_ringing c : IsRingingState (conn_base c) = ringing c.
Proof.
  unfold IsRingingState, ringing, c_status. repeat case_bool_decide; done.
Qed.

(** One hang-up command for every held call, in index order. *)
Definition hangup_held (m : CsConnectionMap) : list Effect :=
  (λ '(_, c), Ril (cr_accountId (GetCallReportInfo (conn_base c))) RADIO_HANGUP_CONNECT
                (RilHangup (c_index c))) <$>
  sm_filter (λ c, bool_decide (c_status c = CALL_STATUS_HOLDING)) m.

Lemma CheckAndHangupHoldingCall_run s h :
  (∀ h slotId, reachable_slot h slotId = true) →
  CheckAndHangupHoldingCall s h = (TELEPHONY_SUCCESS, s, hangup_held (connectionMap_ s)).
Proof.
  intros Hr. unfold CheckAndHangupHoldingCall. unfold mthen at 1, mgets. cbn [app].
  set (body := λ '(_, holdConn), _).
  assert (∀ m h', mfor_return m body s h' = (None, s, hangup_held m)) as Hloop.
  { induction m as [|[k c] m IH]; intros h'; [done|].
    unfold hangup_held, c_status in *. cbn [mfor_return sm_filter List.filter].
    unfold mthen at 1. unfold body at 1.
    destruct (bool_decide (GetStatus (conn_base c) = _)).
    - unfold mthen at 1, with_local, CS_HangUpRequest. rewrite with_handler_run by done.
      unfold mthen at 1 2, mgets, send, emit, mret. rewrite bool_decide_false by naive_solver.
      rewrite IH. done.
    - unfold mret. by rewrite IH. }
  unfold mthen. rewrite Hloop. unfold mret. simpl. by rewrite app_nil_r.
Qed.

(** Answering a call, while the slots' handlers are there.  For a ringing
    call (incoming, waiting or alerting): when there are both an active and a
    held call every held call is hung up, an active call is put on hold by one
    switch command, and then the microphone is unmuted and one answer command
    goes out.  For any other call the same room is made, and only then is the
    answer refused with CALL_ERR_CALL_STATE; for an unknown index it is
    refused with CALL_ERR_CALL_CONNECTION_NOT_EXIST before anything is sent.
    The control's state is never changed. *)
Theorem Answer_spec (callInfo : CellularCallInfo) s h
  (Hinv : conns_inv s) (Hr : ∀ h slotId, reachable_slot h slotId = true) :
  let slotId := ci_slotId callInfo in
  let m := connectionMap_ s in
  let active := IsInState m CALL_STATUS_ACTIVE in
  let make_room :=
    (if IsInState m CALL_STATUS_HOLDING && active then hangup_held m else []) ++
    (if active then [Ril slotId RADIO_SWAP_CALL RilSwitchCall] else []) in
  wp (Answer callInfo)
    (λ r s' e, s' = s ∧
      match sm_lookup (ci_index callInfo) m with
      | None => r = CALL_ERR_CALL_CONNECTION_NOT_EXIST ∧ Forall is_hisys e
      | Some c =>
          if ringing c then
            r = TELEPHONY_SUCCESS ∧
            e = make_room ++ [Ril slotId RADIO_SET_CMUT (RilSetMute false);
                              Ril slotId RADIO_ACCEPT_CALL RilAnswer]
          else r = CALL_ERR_CALL_STATE ∧ ∃ e', Forall is_hisys e' ∧ e = make_room ++ e'
      end) s h.
Proof.
  cbv zeta. unfold Answer, answer_fault. wsteps.
  rewrite FindConnectionByIndex_lookup by apply Hinv.
  destruct (sm_lookup (ci_index callInfo) (connectionMap_ s)) as [c|];
    cbn [fmap option_fmap option_map]; [|wsteps; split_and!; [done|done|by repeat constructor]].
  set (m := connectionMap_ s). apply wp_then.
  assert (∀ h, wp (if IsInState m CALL_STATUS_HOLDING && IsInState m CALL_STATUS_ACTIVE
                   then CheckAndHangupHoldingCall else mret TELEPHONY_SUCCESS)
    (λ r s' e, r = TELEPHONY_SUCCESS ∧ s' = s ∧
       e = if IsInState m CALL_STATUS_HOLDING && IsInState m CALL_STATUS_ACTIVE
           then hangup_held m else []) s h) as Hheld.
  { intros h'. case_match; [|done]. unfold wp. by rewrite CheckAndHangupHoldingCall_run. }
  eapply wp_mono; [apply Hheld|]. intros r s1 e1 (-> & -> & ->). cbn beta.
  rewrite bool_decide_false by naive_solver. apply wp_then.
  set (e1 := if _ && _ then hangup_held m else []).
  eapply (wp_mono _ (λ _ s' e, s' = s ∧
    e = if IsInState m CALL_STATUS_ACTIVE
        then [Ril (ci_slotId callInfo) RADIO_SWAP_CALL RilSwitchCall] else [])).
  { pose proof (IsInState_find m CALL_STATUS_ACTIVE) as Hfind.
    destruct (FindConnectionByState m _) as [[k' c']|].
    - rewrite bool_decide_true in Hfind by eauto. rewrite Hfind. cbn [orb].
      apply wp_then, wp_with_handler; [done|]. by wsteps.
    - rewrite bool_decide_false in Hfind by (by intros []). rewrite Hfind. cbn [orb].
      destruct (bool_decide _); by wsteps. }
  intros _ s2 e2 [-> ->]. cbn beta. fold (c_status c). unfold ringing.
  destruct (_ || _ || _) eqn:Hring.
  - apply wp_with_handler; [done|]. wsteps. split_and!; [done|done|].
    by rewrite <-app_assoc.
  - wsteps. split_and!; [done|done|]. eexists. split; [|by rewrite <-app_assoc].
    by repeat constructor.
Qed.

(** Rejecting a call, while the slot's handler is there.  A ringing call
    is reported as disconnecting, its reason becomes USER_DECLINE (that of no
    other call changes) and one reject command goes out; a call that does not
    ring and an unknown index are errors that change nothing and send no
    command. *)
Theorem Reject_spec (callInfo : CellularCallInfo) s h
  (Hinv : conns_inv s) (Hr : ∀ h, reachable_slot h (ci_slotId callInfo) = true) :
  let i := ci_index callInfo in
  wp (Reject callInfo)
    (λ r s' e,
      match sm_lookup i (connectionMap_ s) with
      | None => r = CALL_ERR_CALL_CONNECTION_NOT_EXIST ∧ s' = s ∧ Forall is_hisys e
      | Some c =>
          if ringing c then
            r = TELEPHONY_SUCCESS ∧
            s' = set_connectionMap
                   (sm_alter (SetDisconnectReason DISCONNECTED_REASON_USER_DECLINE) i
                      (connectionMap_ s)) s ∧
            e = disconnecting_report h c ++
                [Ril (ci_slotId callInfo) RADIO_REJECT_CALL RilReject]
          else r = CALL_ERR_CALL_STATE ∧ s' = s ∧ Forall is_hisys e
      end) s h.
Proof.
  cbv zeta. unfold Reject, hangup_fault. wsteps.
  rewrite FindConnectionByIndex_lookup by apply Hinv.
  destruct (sm_lookup (ci_index callInfo) (connectionMap_ s)) as [c|] eqn:Hc;
    cbn [fmap option_fmap option_map]; [|wsteps; split_and!; [done|done|by repeat constructor]].
  wsteps. eapply wp_read_conn; [done|]. wsteps. rewrite IsRingingState_ringing.
  destruct (ringing c); cbn [negb]; [|wsteps; split_and!; [done|done|by repeat constructor]].
  apply wp_then. unfold wp at 1. rewrite (report_disconnecting_run _ c) by done. cbn beta.
  wsteps. eapply wp_modify_conn; [done|]. wsteps. apply wp_with_handler; [done|]. wsteps.
  split_and!; [done| |done]. cbn [conns set_conns HasConns_cs]. f_equal.
  apply sm_alter_const; [apply Hinv|done].
Qed.

(** Hold, retrieve and swap, while the slot's handler is there: refused
    with CALL_ERR_CALL_STATE and without any command exactly while some call
    is incoming; otherwise exactly one command goes out.  The state is kept
    in both cases. *)
Theorem hold_switch_guard slotId s h
  (Hinv : conns_inv s) (Hr : ∀ h, reachable_slot h slotId = true) :
  let incoming := ∃ k c, sm_lookup k (connectionMap_ s) = Some c ∧
                         c_status c = CALL_STATUS_INCOMING in
  (incoming →
     HoldCall slotId s h = (CALL_ERR_CALL_STATE, s, []) ∧
     UnHoldCall slotId s h = (CALL_ERR_CALL_STATE, s, []) ∧
     SwitchCall slotId s h = (CALL_ERR_CALL_STATE, s, [])) ∧
  (¬ incoming →
     HoldCall slotId s h = (TELEPHONY_SUCCESS, s, [Ril slotId RADIO_HOLD_CALL RilHoldCall]) ∧
     UnHoldCall slotId s h =
       (TELEPHONY_SUCCESS, s, [Ril slotId RADIO_ACTIVE_CALL RilUnHoldCall]) ∧
     SwitchCall slotId s h =
       (TELEPHONY_SUCCESS, s, [Ril slotId RADIO_SWAP_CALL RilSwitchCall])).
Proof.
  cbv zeta. destruct Hinv as [[Hs _] _]. rewrite <-(IsInState_true _ _ Hs).
  unfold HoldCall, UnHoldCall, SwitchCall. unfold mthen at 1 2 3 4 5 6, mgets. cbn [app].
  change (conns s) with (connectionMap_ s).
  destruct (IsInState _ _); (split; [intros Hin|intros Hout]); try done.
  split_and!; unfold CS_HoldRequest, CS_UnHoldCallRequest, CS_SwitchCallRequest;
    by rewrite with_handler_run.
Qed.
End AnswerReject.

(** ** Dialling *)

Section Dialling.
Context `{CallConsts, Env}.
Implicit Types (s : CSControl) (h e : list Effect).

(** The address part of a number: up to the first pause or wait. *)
Definition dialled (n : string) : string := (ExtractAddressAndPostDial n "" "").1.

Lemma EncapsulateDialCommon_run slotId n clir s h :
  (∀ h, reachable_slot h slotId = true) →
  EncapsulateDialCommon slotId n clir s h =
    (TELEPHONY_SUCCESS, set_pendingPhoneNumber n s,
     [SetMute slotId 0; Ril slotId RADIO_DIAL (RilDial (dialled n) clir)]).
Proof.
  intros Hr. unfold EncapsulateDialCommon, dialled.
  unfold mthen, mmodify, ask, query, send, emit, with_local, CS_DialRequest.
  assert (∀ h, service_instance h = true) as Hs
    by (intros h'; specialize (Hr h'); by apply andb_true_iff in Hr as [? _]).
  rewrite Hs. cbn [negb]. rewrite with_handler_run by done.
  unfold mthen, mmodify, mgets, send, emit, mret. simpl. unfold UpdateCallNumber. simpl.
  by destruct (ExtractAddressAndPostDial n "" "").
Qed.

(** C19: dialling on GSM, while the slot's handler is there.  Separators are
    removed first; a string that is an MMI request is not dialled; with more
    than six calls in the map nothing is dialled; otherwise an active call is
    put on hold by one switch command, the microphone is unmuted, and exactly
    one dial command goes out, for the address part of the number and with
    the caller-id mode of the string; the whole number is remembered for the
    post-dial digits. *)
Theorem DialGsm_spec (callInfo : CellularCallInfo) s h
  (Hr : ∀ h, reachable_slot h (ci_slotId callInfo) = true) :
  let slotId := ci_slotId callInfo in
  let m := connectionMap_ s in
  wp (IsNeedExecuteMMI slotId (RemoveSeparatorsPhoneNumber (ci_phoneNum callInfo)) DEFAULT false)
    (λ '(mmi, n, clir) _ e_mmi,
      wp (DialGsm callInfo) (λ r s' e,
        if (mmi : bool) then r = RETURN_TYPE_MMI ∧ s' = s ∧ e = e_mmi
        else if 6 <? sm_size m then
          r = CALL_ERR_CALL_COUNTS_EXCEED_LIMIT ∧ s' = s ∧
          ∃ e', Forall is_hisys e' ∧ e = e_mmi ++ e'
        else
          r = TELEPHONY_SUCCESS ∧ s' = set_pendingPhoneNumber n s ∧
          e = e_mmi ++
              (if IsInState m CALL_STATUS_ACTIVE
               then [Ril slotId RADIO_SWAP_CALL RilSwitchCall] else []) ++
              [SetMute slotId 0; Ril slotId RADIO_DIAL (RilDial (dialled n) clir)]) s h) s h.
Proof.
  cbv zeta. unfold wp at 1.
  pose proof (keeps_IsNeedExecuteMMI (S := CSControl) (ci_slotId callInfo)
    (RemoveSeparatorsPhoneNumber (ci_phoneNum callInfo)) DEFAULT false s h) as Hk.
  unfold wp in Hk. destruct (IsNeedExecuteMMI _ _ _ _ s h) as [[[[mmi n] clir] s1] em] eqn:Em.
  subst s1. unfold DialGsm. apply wp_then. unfold wp at 1. rewrite Em. cbn beta iota.
  destruct mmi; [by wsteps|]. wsteps.
  unfold CanCall, maximumCalls. rewrite (Z.leb_antisym 6). cbn [conns HasConns_cs].
  destruct (6 <? sm_size _); cbn [negb].
  { unfold dial_fault. wsteps. split_and!; [done|done|]. eexists. split; [|done].
    by repeat constructor. }
  apply wp_then. unfold CS_SwitchCallRequest.
  destruct (IsInState _ _); wsteps.
  - apply wp_with_handler; [done|]. wsteps. unfold wp.
    by rewrite EncapsulateDialCommon_run.
  - unfold wp. by rewrite EncapsulateDialCommon_run.
Qed.

Definition is_dial (e : Effect) : bool :=
  match e with Ril _ RADIO_DIAL _ | Ril _ _ (RilDial _ _) => true | _ => false end.
Definition no_dial (e : Effect) : Prop := is_dial e = false.
Definition dials (e : list Effect) : list Effect := List.filter is_dial e.

Lemma dials_app e1 e2 : dials (e1 ++ e2) = dials e1 ++ dials e2.
Proof. apply List.filter_app. Qed.
Lemma dials_none e : Forall no_dial e → dials e = [].
Proof. induction 1 as [|x e Hx _ IH]; [done|]. unfold dials. simpl. by rewrite Hx. Qed.

(** What a dial may have done. *)
Definition dial_outcome (callInfo : CellularCallInfo) s (r : Z) s' e : Prop :=
  connectionMap_ s' = connectionMap_ s ∧
  (dials e = [] ∨
   ∃ n clir, dials e = [Ril (ci_slotId callInfo) RADIO_DIAL (RilDial n clir)] ∧
     r = TELEPHONY_SUCCESS ∧ sm_size (connectionMap_ s) ≤ 6).

Lemma EncapsulateDialCommon_outcome ci n clir s h :
  sm_size (connectionMap_ s) ≤ 6 →
  wp (EncapsulateDialCommon (ci_slotId ci) n clir) (dial_outcome ci s) s h.
Proof.
  intros Hs. unfold EncapsulateDialCommon. wsteps.
  destruct (service_instance _); cbn [negb]; wsteps; [|by split; [|left]].
  unfold wp, with_local, CS_DialRequest.
  set (fault := λ desc, hisys _). set (k := mthen (mmodify _) _).
  pose proof (with_handler_spec (ci_slotId ci) fault k
    (λ r _ e, Forall no_dial e ∨
       ∃ n, e = [Ril (ci_slotId ci) RADIO_DIAL (RilDial n clir)] ∧ r = TELEPHONY_SUCCESS)
    CellularCallConnectionCS_new (h ++ [SetMute (ci_slotId ci) 0])) as Hspec.
  unfold wp in Hspec. rewrite ?app_nil_r in *.
  destruct (with_handler _ _ _ _ _) as [[r c] e]. simpl.
  split; [done|]. destruct Hspec as [He|(n' & -> & ->)].
  - intros d. by apply sends_emit.
  - intros d. apply keeps_hisys.
  - intros _. unfold k. wsteps. right. by eexists.
  - intros e' _ He'. left. eapply Forall_impl; [done|]. by intros [].
  - left. unfold dials. simpl. rewrite app_nil_r. by apply dials_none.
  - right. by eexists _, _.
Qed.
Lemma not_dial_DialPreJudgment {S} ci b : sends no_dial (DialPreJudgment ci b : Op S Z).
Proof.
  assert (∀ n slotId, sends no_dial (wait_ready n slotId : Op S Z)) as Hw
    by (intros n slotId; induction n; simpl; mauto; done).
  unfold DialPreJudgment, HandleEcc, UpdateRadioOn_. mauto; done.
Qed.
Lemma not_dial_IsNeedExecuteMMI {S} slotId ph clir ims :
  sends no_dial (IsNeedExecuteMMI slotId ph clir ims : Op S _).
Proof.
  unfold IsNeedExecuteMMI. mauto; try done. all: apply sends_with_local.
  all: unfold IsNeedExecuteMmi, RegexMatchMmi; mauto; done.
Qed.

Lemma dial_outcome_prefix ci s r s' e0 e :
  Forall no_dial e0 → dial_outcome ci s r s' e → dial_outcome ci s r s' (e0 ++ e).
Proof.
  intros He [Hm Hd]. split; [done|]. by rewrite dials_app, (dials_none e0).
Qed.
Lemma dial_outcome_none ci s r e : Forall no_dial e → dial_outcome ci s r s e.
Proof. intros He. split; [done|]. left. by apply dials_none. Qed.

(** A step that keeps the state and does not dial, before something that may. *)
Lemma dial_outcome_then {A} (m : Op CSControl A) f ci s h :
  keeps m → sends no_dial m → (∀ a h, wp (f a) (dial_outcome ci s) s h) →
  wp (mthen m f) (dial_outcome ci s) s h.
Proof.
  intros Hk Hs Hf. apply wp_then. eapply wp_mono; [apply wp_and; [apply Hk|apply Hs]|].
  intros a s' e [-> He]. cbn beta. eapply wp_mono; [apply Hf|].
  intros r s2 e2 Ho. by apply dial_outcome_prefix.
Qed.
Lemma dial_outcome_stop {A} (m : Op CSControl A) (r : Z) ci s h :
  keeps m → sends no_dial m → wp (m ;; mret r) (dial_outcome ci s) s h.
Proof.
  intros Hk Hs. apply dial_outcome_then; [done..|]. intros _ h'. wsteps.
  by apply dial_outcome_none.
Qed.

Lemma DialNet_outcome ci (net : Op CSControl Z) s h :
  net = DialGsm ci ∨ net = DialCdma ci → wp net (dial_outcome ci s) s h.
Proof.
  assert (∀ k : string → CLIRMode → CsConnectionMap → Op CSControl Z, ∀ d,
    (∀ n c h, sm_size (connectionMap_ s) ≤ 6 →
       wp (k n c (connectionMap_ s)) (dial_outcome ci s) s h) →
    wp (let! (mmi, newPhoneNum, clirMode) :=
          IsNeedExecuteMMI (ci_slotId ci)
            (RemoveSeparatorsPhoneNumber (ci_phoneNum ci)) DEFAULT false in
        if (mmi : bool) then mret RETURN_TYPE_MMI
        else
          let! m := mgets connectionMap_ in
          if negb (CanCall m) then
            dial_fault ci CALL_ERR_CALL_COUNTS_EXCEED_LIMIT d ;;
            mret CALL_ERR_CALL_COUNTS_EXCEED_LIMIT
          else k newPhoneNum clirMode m) (dial_outcome ci s) s h) as Hgen.
  { intros k d Hk. apply dial_outcome_then; [auto with cc|apply not_dial_IsNeedExecuteMMI|].
    intros [[mmi n] clir] h'. destruct mmi; [wsteps; by apply dial_outcome_none|].
    apply wp_then, wp_gets. rewrite app_nil_r. unfold CanCall, maximumCalls.
    destruct (Z.leb_spec (sm_size (connectionMap_ s)) 6) as [Hle|Hgt]; cbn [negb].
    - eapply wp_mono; [by apply Hk|]. done.
    - eapply wp_mono; [apply dial_outcome_stop|done]; [apply keeps_hisys|by apply sends_emit]. }
  intros [-> | ->]; [unfold DialGsm|unfold DialCdma].
  - apply (Hgen (λ n clir m,
      (if IsInState m CALL_STATUS_ACTIVE
       then CS_SwitchCallRequest (ci_slotId ci) ;; mret () else mret ()) ;;
      EncapsulateDialCommon (ci_slotId ci) n clir)). intros n c h' Hsz.
    apply dial_outcome_then; [mauto|unfold CS_SwitchCallRequest; mauto; done|].
    intros _ h''. by apply EncapsulateDialCommon_outcome.
  - apply (Hgen (λ n clir m,
      if IsInState m CALL_STATUS_ACTIVE
      then CS_SendCDMAThreeWayDialRequest (ci_slotId ci)
      else EncapsulateDialCommon (ci_slotId ci) n clir)). intros n c h' Hsz.
    destruct (IsInState _ _); [by apply dial_outcome_none|].
    by apply EncapsulateDialCommon_outcome.
Qed.

(** A dial is safe on every path, whatever is missing.  Dial sends at most
    one dial command; it sends one only when it reports success and the map
    holds at most six calls; and it never touches the connection map (a new
    call enters it only when the modem reports it). *)
Theorem Dial_safe (callInfo : CellularCallInfo) isEcc s h :
  wp (Dial callInfo isEcc) (dial_outcome callInfo s) s h.
Proof.
  unfold Dial. apply dial_outcome_then; [auto with cc|by apply sends_emit|]. intros _ h1.
  apply dial_outcome_then; [auto with cc|apply not_dial_DialPreJudgment|]. intros r h2.
  case_bool_decide; [by apply dial_outcome_none|].
  apply dial_outcome_then; [auto with cc|apply sends_query|]. intros reg h3.
  destruct (negb _); [by apply dial_outcome_none|].
  apply dial_outcome_then; [auto with cc|apply sends_query|]. intros net h4.
  case_bool_decide; [apply DialNet_outcome; by left|].
  case_bool_decide; [apply DialNet_outcome; by right|].
  apply dial_outcome_stop; [apply keeps_hisys|by apply sends_emit].
Qed.
End Dialling.

(** ** Why a call ended *)

Section Reasons.
Context `{CallConsts, Env, !CallConstsOk}.
Implicit Types (s : CSControl) (h e : list Effect) (c : CellularCallConnectionCS).

Definition no_reason c : Prop := GetDisconnectReason c = DISCONNECTED_REASON_INVALID.
(** A call that the list no longer has and whose reason is unknown. *)
Definition ended_without_reason (l : CallInfoList) (m : CsConnectionMap) : Prop :=
  ∃ k c, sm_lookup k m = Some c ∧ is_listed ca_index (cal_calls l) c = false ∧ no_reason c.

Lemma HasEndCallWithoutReason_true m l :
  smap_ok m → HasEndCallWithoutReason m l = true ↔ ended_without_reason l m.
Proof.
  intros Hs. unfold HasEndCallWithoutReason, ended_without_reason, no_reason.
  rewrite sm_any_find. split.
  - intros [[k c] [Hin Hp]%sm_find_Some]. exists k, c.
    rewrite <-sm_elem_of_lookup by done. split; [done|].
    case_bool_decide as Hr; [done|]. apply negb_true_iff in Hp. split; [done|].
    done.
  - intros (k & c & Hk & Hl & Hr). destruct (sm_find _ m) eqn:Hf; [eauto|].
    rewrite sm_find_None, Forall_forall in Hf.
    apply sm_elem_of_lookup in Hk; [|done]. specialize (Hf _ Hk). simpl in Hf.
    rewrite bool_decide_false, Hl in Hf by naive_solver. done.
Qed.

(** A report while a reason is missing is a query for it. *)
Lemma ReportCsCallsData_query slotId l s h :
  (∀ h, reachable_slot h slotId = true) → HasEndCallWithoutReason (connectionMap_ s) l = true →
  ReportCsCallsData slotId l true s h =
    (TELEPHONY_SUCCESS, s, [Ril slotId RADIO_GET_CALL_FAIL_REASON RilGetCallFailReason]).
Proof.
  intros Hr Hend. unfold ReportCsCallsData. rewrite mthen_gets, Hend. cbn [andb].
  assert ((GetCallFailReason slotId (connectionMap_ s) ;; mret TELEPHONY_SUCCESS) s h =
    (TELEPHONY_SUCCESS, s, [Ril slotId RADIO_GET_CALL_FAIL_REASON RilGetCallFailReason])) as Hq.
  { unfold GetCallFailReason, mthen at 1. simpl. unfold CS_GetCallFailReasonRequest.
    by rewrite with_handler_run. }
  destruct (Z.leb_spec (cal_callSize l) 0); [by rewrite Hq|].
  rewrite (proj2 (Z.ltb_lt _ _)) by done.
  destruct (connectionMap_ s); [done|]. cbn [sm_empty andb negb]. by rewrite Hq.
Qed.

(** C11: an ended call is reported with its reason.  While the list shows that
    some call has ended whose reason is unknown, a report of the modem sends
    exactly one query for the fail reason, reports nothing and changes
    nothing.  Recording the answer gives every such call that reason, leaves
    every other reason and every listed call as it was, and the next report
    with the same list goes through as an ordinary one. *)
Theorem end_reason_protocol slotId (l : CallInfoList) reason s h
  (Hinv : conns_inv s) (Hr : ∀ h, reachable_slot h slotId = true)
  (Hreason : reason ≠ DISCONNECTED_REASON_INVALID) :
  (ended_without_reason l (connectionMap_ s) →
     ReportCsCallsData slotId l true s h =
       (TELEPHONY_SUCCESS, s, [Ril slotId RADIO_GET_CALL_FAIL_REASON RilGetCallFailReason])) ∧
  wp (UpdateDisconnectedReason l reason) (λ _ s1 e,
    e = [] ∧
    (∀ k c, sm_lookup k (connectionMap_ s) = Some c →
       sm_lookup k (connectionMap_ s1) =
         Some (if bool_decide (no_reason c) && negb (is_listed ca_index (cal_calls l) c)
               then SetDisconnectReason reason c else c)) ∧
    ReportCsCallsData slotId l true s1 h = ReportCallsData slotId l s1 h) s h.
Proof.
  pose proof Hinv as [[Hs _] _]. split.
  - intros Hend. apply ReportCsCallsData_query; [done|]. by apply HasEndCallWithoutReason_true.
  - apply wp_modify_conns. cbn [conns set_conns HasConns_cs].
    set (f := λ c, _). set (s1 := set_connectionMap _ s).
    assert (∀ c, f c = if bool_decide (no_reason c) && negb (is_listed ca_index (cal_calls l) c)
                       then SetDisconnectReason reason c else c) as Hf.
    { intros c. unfold f, no_reason.
      destruct (decide (GetDisconnectReason c = DISCONNECTED_REASON_INVALID)).
      - rewrite bool_decide_false, bool_decide_true by naive_solver. done.
      - rewrite bool_decide_true, bool_decide_false by naive_solver. done. }
    split_and!; [done| |].
    + intros k c Hk. unfold s1. simpl. by rewrite sm_lookup_map, Hk, <-Hf.
    + assert (HasEndCallWithoutReason (connectionMap_ s1) l = false) as Hno.
      { apply not_true_iff_false. rewrite HasEndCallWithoutReason_true
          by (by apply smap_ok_map). intros (k & c & Hk & Hl & Hc).
        unfold s1 in Hk. simpl in Hk. rewrite sm_lookup_map in Hk.
        apply fmap_Some in Hk as (c0 & Hk & ->). rewrite Hf in Hl, Hc. unfold no_reason in Hc.
        destruct (decide (GetDisconnectReason c0 = DISCONNECTED_REASON_INVALID)) as [Hn|Hn];
          destruct (is_listed ca_index (cal_calls l) c0) eqn:Hl0.
        - rewrite andb_false_r in Hl. congruence.
        - rewrite bool_decide_true in Hc by done. done.
        - rewrite andb_false_r in Hl. congruence.
        - rewrite bool_decide_false in Hc by done. done. }
      unfold ReportCsCallsData, ReportCallsData. unfold mthen at 1, mgets at 1.
      unfold mthen at 1, mgets at 1. by rewrite Hno.
Qed.

(** An incoming call that arrived while call_manager was not registered
    stays invisible.  Once it is being ignored, every later list report of
    the same session is compared with the map but not reported, and the flag
    stays; the report of the end of all calls clears it, silently. *)
Theorem ignored_incoming_is_silent slotId (l : CallInfoList) s h
  (Hinv : conns_inv s) (Hig : isIgnoredIncomingCall_ s = true)
  (Hne : connectionMap_ s ≠ []) (Hreg : ∀ h, register_instance h = true) :
  wp (ReportCallsData slotId l)
    (λ r s' e, r = TELEPHONY_SUCCESS ∧ Forall not_calls_report e ∧
       isIgnoredIncomingCall_ s' = bool_decide (0 < cal_callSize l) ∧
       (cal_callSize l ≤ 0 → connectionMap_ s' = [])) s h.
Proof.
  unfold ReportCallsData. wsteps.
  destruct (Z.leb_spec (cal_callSize l) 0) as [Hle|Hgt].
  - unfold ReportHangUpInfo, ReleaseAllConnection. wsteps. rewrite Hreg. cbn [negb]. wsteps.
    rewrite Hig. wsteps. apply wp_modify_conns. wsteps.
    rewrite bool_decide_false by lia. split_and!; [done|by constructor|done|done].
  - rewrite (proj2 (Z.ltb_lt _ _)) by done.
    destruct (connectionMap_ s) as [|p m] eqn:Hm; [done|]. cbn [sm_empty andb negb].
    eapply wp_mono; [by apply cs_ReportUpdateInfo_spec|].
    intros r s' e (_ & Hig' & e1 & He1 & Hres). rewrite Hreg, Hig in Hres.
    destruct Hres as [-> ->]. rewrite app_nil_r, bool_decide_true, Hig' by done.
    split_and!; [done|done|done|lia].
Qed.
End Reasons.
