(* ===== verification/ConnectionIMS.v ===== *)
(** * ConnectionIMS: an IMS call
    (services/connection/src/cellular_call_connection_ims.cpp)

    Requests go to the IMS service through its client: they are refused with
    TELEPHONY_ERROR when there is no IMS service.  The calls of the client are
    the boundary of the model; their answers come from the environment. *)

From stdpp Require Import base tactics option list numbers strings.
From Stdlib Require Import ZArith Lia Ascii String.
From S2P Require Import Prelude Platform Samples Standardize StdMap Connection ControlBase.
From S2P Require Import CallMap CallReport ConnectionCS.

Open Scope Z_scope.

Record CellularCallConnectionIMS := {
  ims_base : BaseConnection;
  isNeedToDial_ : bool;
  holdToDialInfo_ : ImsDialInfoStruct;
  isPendingHangup_ : bool;
  ims_disconnectReason_ : Z;
  disconnectMessage_ : string
}.
Definition ImsConnectionMap := smap CellularCallConnectionIMS.

Definition ims_set_base (b : BaseConnection) (c : CellularCallConnectionIMS)
    : CellularCallConnectionIMS :=
  {| ims_base := b; isNeedToDial_ := isNeedToDial_ c; holdToDialInfo_ := holdToDialInfo_ c;
     isPendingHangup_ := isPendingHangup_ c; ims_disconnectReason_ := ims_disconnectReason_ c;
     disconnectMessage_ := disconnectMessage_ c |}.

#[export] Instance Conn_ims : Conn CellularCallConnectionIMS := {
  conn_base := ims_base;
  conn_set_base := ims_set_base;
  conn_base_set := λ _ _, eq_refl
}.

Definition SetHoldToDialInfo (holdToDialNum : string) (holdToDialClirMode : CLIRMode)
    (holdToDialVideoState : Z) (isEmergency : bool) (c : CellularCallConnectionIMS)
    : CellularCallConnectionIMS :=
  let i := holdToDialInfo_ c in
  {| ims_base := ims_base c; isNeedToDial_ := isNeedToDial_ c;
     holdToDialInfo_ :=
       {| di_phoneNum := holdToDialNum; di_clirMode := holdToDialClirMode;
          di_videoState := holdToDialVideoState; di_bEmergencyCall := isEmergency;
          di_bImsCallFirst := di_bImsCallFirst i; di_bRoaming := di_bRoaming i;
          di_isRTT := di_isRTT i |};
     isPendingHangup_ := isPendingHangup_ c; ims_disconnectReason_ := ims_disconnectReason_ c;
     disconnectMessage_ := disconnectMessage_ c |}.
Definition IsNeedToDial (c : CellularCallConnectionIMS) : bool := isNeedToDial_ c.
Definition SetDialFlag (isNeedToDial : bool) (c : CellularCallConnectionIMS)
    : CellularCallConnectionIMS :=
  {| ims_base := ims_base c; isNeedToDial_ := isNeedToDial;
     holdToDialInfo_ := holdToDialInfo_ c; isPendingHangup_ := isPendingHangup_ c;
     ims_disconnectReason_ := ims_disconnectReason_ c;
     disconnectMessage_ := disconnectMessage_ c |}.
Definition GetHoldToDialInfo (c : CellularCallConnectionIMS) : ImsDialInfoStruct :=
  holdToDialInfo_ c.
Definition IsPendingHold (c : CellularCallConnectionIMS) : bool :=
  cr_isPendingHold (GetCallReportInfo (conn_base c)).
Definition IsPendingHangup (c : CellularCallConnectionIMS) : bool := isPendingHangup_ c.
Definition SetHangupFlag (isPendingHangup : bool) (c : CellularCallConnectionIMS)
    : CellularCallConnectionIMS :=
  {| ims_base := ims_base c; isNeedToDial_ := isNeedToDial_ c;
     holdToDialInfo_ := holdToDialInfo_ c; isPendingHangup_ := isPendingHangup;
     ims_disconnectReason_ := ims_disconnectReason_ c;
     disconnectMessage_ := disconnectMessage_ c |}.
Definition IMS_GetDisconnectReason (c : CellularCallConnectionIMS) : Z := ims_disconnectReason_ c.
Definition IMS_SetDisconnectReason (reason : Z) (c : CellularCallConnectionIMS)
    : CellularCallConnectionIMS :=
  {| ims_base := ims_base c; isNeedToDial_ := isNeedToDial_ c;
     holdToDialInfo_ := holdToDialInfo_ c; isPendingHangup_ := isPendingHangup_ c;
     ims_disconnectReason_ := reason; disconnectMessage_ := disconnectMessage_ c |}.
Definition GetDisconnectMessage (c : CellularCallConnectionIMS) : string := disconnectMessage_ c.
Definition SetDisconnectMessage (message : string) (c : CellularCallConnectionIMS)
    : CellularCallConnectionIMS :=
  {| ims_base := ims_base c; isNeedToDial_ := isNeedToDial_ c;
     holdToDialInfo_ := holdToDialInfo_ c; isPendingHangup_ := isPendingHangup_ c;
     ims_disconnectReason_ := ims_disconnectReason_ c; disconnectMessage_ := message |}.

Section ConnectionIMS.
Context `{CallConsts, Env}.

Definition CellularCallConnectionIMS_new : CellularCallConnectionIMS :=
  {| ims_base := BaseConnection_new; isNeedToDial_ := false;
     holdToDialInfo_ := ImsDialInfoStruct_init; isPendingHangup_ := false;
     ims_disconnectReason_ := DISCONNECTED_REASON_INVALID; disconnectMessage_ := "" |}.

(** [if (moduleUtils_.NeedCallImsService()) { ...; if (client == nullptr) return ...;
    return client->...; } ...; return TELEPHONY_ERROR;], where [prepare]
    is what comes before the client is looked up. *)
Definition with_ims_client {S} (fault : Op S ()) (prepare : option Z) (k : Op S Z) : Op S Z :=
  let! need := ask NeedCallImsService in
  if (need : bool) then
    match prepare with
    | Some err => mret err
    | None =>
        let! client := ask ims_client_instance in
        if negb client then mret CALL_ERR_RESOURCE_UNAVAILABLE else k
    end
  else fault ;; mret TELEPHONY_ERROR.

(** Zeroing an [ImsCallInfo] and copying the number into it: the error, if
    one of the steps fails. *)
Definition copy_number (phoneNum : string) : option Z :=
  if negb memset_s_ok then Some TELEPHONY_ERR_MEMSET_FAIL
  else if kMaxNumberLength <? i32 (string_size phoneNum + 1) then Some TELEPHONY_ERR_STRCPY_FAIL
  else if negb (strcpy_s_ok (strlen phoneNum + 1) (c_str phoneNum))
       then Some TELEPHONY_ERR_STRCPY_FAIL
  else None.

Definition IMS_DialRequest (slotId : Z) (dialRequest : ImsDialInfoStruct)
    : Op CellularCallConnectionIMS Z :=
  let fault (err : Z) (desc : string) :=
    hisys (WriteDialCallFaultEvent slotId INVALID_PARAMETER (di_videoState dialRequest) err desc)
  in
  if negb memset_s_ok then
    fault TELEPHONY_ERR_MEMSET_FAIL "memset_s error"%string ;; mret TELEPHONY_ERR_MEMSET_FAIL
  else
    mmodify (upd (UpdateCallNumber (di_phoneNum dialRequest))) ;;
    let! this := mgets conn_base in
    let cpyLen := strlen (phoneNumber_ this) + 1 in
    if kMaxNumberLength <? cpyLen then
      mmodify (upd (set_phoneNumber "")) ;; mret TELEPHONY_ERR_STRCPY_FAIL
    else if negb (strcpy_s_ok cpyLen (c_str (phoneNumber_ this))) then
      mmodify (upd (set_phoneNumber "")) ;;
      fault TELEPHONY_ERR_STRCPY_FAIL "strcpy_s fail"%string ;; mret TELEPHONY_ERR_STRCPY_FAIL
    else
      mmodify (upd (set_phoneNumber "")) ;;
      let callInfo :=
        {| ic_phoneNum := c_str (phoneNumber_ this); ic_slotId := slotId;
           ic_videoState := di_videoState dialRequest; ic_index := ic_index ImsCallInfo_zero;
           ic_isRTT := di_isRTT dialRequest |} in
      let! client := ask ims_client_instance in
      if negb client then
        fault CALL_ERR_RESOURCE_UNAVAILABLE "ims vendor service does not exist"%string ;;
        mret CALL_ERR_RESOURCE_UNAVAILABLE
      else request (Ims (ImsDial callInfo (di_clirMode dialRequest))).

Definition IMS_HangUpRequest {S} (slotId : Z) (phoneNum : string) (index : Z) : Op S Z :=
  with_ims_client
    (hisys (WriteHangUpFaultEvent slotId INVALID_PARAMETER CALL_ERROR_IMS_SERVICE_NOT_EXIST
              "HangUpRequest ims vendor service does not exist"))
    (copy_number phoneNum)
    (request (Ims (ImsHangUp
       {| ic_phoneNum := c_str phoneNum; ic_slotId := slotId;
          ic_videoState := ic_videoState ImsCallInfo_zero; ic_index := index;
          ic_isRTT := ic_isRTT ImsCallInfo_zero |}))).

Definition IMS_AnswerRequest {S} (slotId : Z) (phoneNum : string) (videoState index : Z)
    (isRTT : bool) : Op S Z :=
  with_ims_client
    (hisys (WriteAnswerCallFaultEvent slotId INVALID_PARAMETER INVALID_PARAMETER
              CALL_ERROR_IMS_SERVICE_NOT_EXIST "ims vendor service does not exist"))
    (copy_number phoneNum)
    (request (Ims (ImsAnswer
       {| ic_phoneNum := c_str phoneNum; ic_slotId := slotId; ic_videoState := videoState;
          ic_index := index; ic_isRTT := isRTT |}))).

Definition IMS_RejectRequest {S} (slotId : Z) (phoneNum : string) (index : Z) : Op S Z :=
  with_ims_client
    (hisys (WriteHangUpFaultEvent slotId INVALID_PARAMETER CALL_ERROR_IMS_SERVICE_NOT_EXIST
              "RejectRequest ims vendor service does not exist"))
    (copy_number phoneNum)
    (request (Ims (ImsReject
       {| ic_phoneNum := c_str phoneNum; ic_slotId := slotId;
          ic_videoState := ic_videoState ImsCallInfo_zero; ic_index := index;
          ic_isRTT := ic_isRTT ImsCallInfo_zero |}))).

Definition IMS_HoldCallRequest (slotId : Z) (isRTT : bool) : Op CellularCallConnectionIMS Z :=
  with_ims_client (mret ()) None
    (let! this := mgets conn_base in
     request (Ims (ImsHoldCall slotId (cr_callMode (GetCallReportInfo this)) isRTT))).
Definition IMS_UnHoldCallRequest (slotId : Z) (isRTT : bool) : Op CellularCallConnectionIMS Z :=
  with_ims_client (mret ()) None
    (let! this := mgets conn_base in
     request (Ims (ImsUnHoldCall slotId (cr_callMode (GetCallReportInfo this)) isRTT))).
Definition IMS_SwitchCallRequest (slotId videoState : Z) (isRTT : bool)
    : Op CellularCallConnectionIMS Z :=
  with_ims_client (mret ()) None
    (let! ret := request (Ims (ImsSwitchCall slotId videoState isRTT)) in
     (if bool_decide (ret = TELEPHONY_SUCCESS)
      then mmodify (upd (UpdatePendingHoldFlag true)) else mret ()) ;;
     mret ret).
Definition IMS_CombineConferenceRequest {S} (slotId voiceCall : Z) : Op S Z :=
  with_ims_client (mret ()) None (request (Ims (ImsCombineConference slotId))).
Definition InviteToConferenceRequest {S} (slotId : Z) (numberList : list string) : Op S Z :=
  with_ims_client (mret ()) None (request (Ims (ImsInviteToConference slotId numberList))).
Definition KickOutFromConferenceRequest {S} (slotId index : Z) : Op S Z :=
  with_ims_client (mret ()) None (request (Ims (ImsKickOutFromConference slotId index))).
Definition IMS_CallSupplementRequest {S} (slotId type : Z) : Op S Z :=
  with_handler slotId no_fault
    (send (Ril slotId RADIO_CALL_SUPPLEMENT (RilCallSupplement type)) ;;
     mret TELEPHONY_SUCCESS).
Definition GetImsCallsDataRequest {S} (slotId lastCallsDataFlag : Z) : Op S Z :=
  with_ims_client (mret ()) None (request (Ims (ImsGetImsCallsData slotId lastCallsDataFlag))).
Definition IMS_SendDtmfRequest {S} (slotId : Z) (cDtmfCode : ascii) (index : Z) : Op S Z :=
  with_ims_client (mret ()) None (request (Ims (ImsSendDtmf slotId cDtmfCode index))).
Definition IMS_StartDtmfRequest {S} (slotId : Z) (cDtmfCode : ascii) (index : Z) : Op S Z :=
  with_ims_client (mret ()) None (request (Ims (ImsStartDtmf slotId cDtmfCode index))).
Definition IMS_StopDtmfRequest {S} (slotId index : Z) : Op S Z :=
  with_ims_client (mret ()) None (request (Ims (ImsStopDtmf slotId index))).
Definition UpdateImsRttCallModeRequest {S} (slotId callId mode : Z) : Op S Z :=
  with_ims_client (mret ()) None (request (Ims (ImsUpdateRttCallMode slotId callId mode))).
Definition IMS_GetCallFailReasonRequest {S} (slotId : Z) : Op S Z :=
  with_ims_client (mret ()) None (request (Ims (ImsGetLastCallFailReason slotId))).

Definition IMS_ProcessPostDialCallChar (slotId : Z) (c : ascii)
    : Op CellularCallConnectionIMS Z :=
  let! this := mgets conn_base in
  if IsDtmfKey c then
    IMS_SendDtmfRequest slotId c (GetIndex this) ;; mret TELEPHONY_SUCCESS
  else if IsPauseKey c then
    mmodify (upd (SetPostDialCallState POST_DIAL_CALL_PAUSE)) ;;
    let! handle := ask (λ h, GetHandler h slotId) in
    if negb handle then mret CALL_ERR_RESOURCE_UNAVAILABLE
    else
      send (SendEvent slotId (EVENT_EXECUTE_POST_DIAL
        {| pd_callId := GetIndex this; pd_isIms := true |} PAUSE_DELAY_TIME)) ;;
      mret TELEPHONY_SUCCESS
  else if IsWaitKey c then
    mmodify (upd (SetPostDialCallState POST_DIAL_CALL_DELAY)) ;; mret TELEPHONY_SUCCESS
  else mret TELEPHONY_SUCCESS.
End ConnectionIMS.

#[export] Instance ConnRequests_ims `{CallConsts, Env} : ConnRequests CellularCallConnectionIMS := {
  SendDtmfRequest := @IMS_SendDtmfRequest _ _;
  StartDtmfRequest := @IMS_StartDtmfRequest _ _;
  StopDtmfRequest := @IMS_StopDtmfRequest _ _;
  GetCallFailReasonRequest := @IMS_GetCallFailReasonRequest _ _
}.

(** ** Lemmas *)

Section Lemmas.
Context `{CallConsts, Env} {S : Type}.

Lemma with_ims_client_run (fault : Op S ()) (k : Op S Z) s h :
  NeedCallImsService h = true → with_ims_client fault None k s h = k s h.
Proof.
  intros Hn. unfold with_ims_client, mthen, ask, query. rewrite Hn, app_nil_r.
  assert (ims_client_instance h = true) as ->
    by (unfold NeedCallImsService in Hn; by destruct (ims_client_instance h)).
  cbn. rewrite app_nil_r. by destruct (k s h) as [[??]?].
Qed.
Lemma wp_with_ims_client (fault : Op S ()) (k : Op S Z) Q s h :
  NeedCallImsService h = true → wp k Q s h → wp (with_ims_client fault None k) Q s h.
Proof. intros Hn Hk. unfold wp. by rewrite with_ims_client_run. Qed.

Lemma keeps_with_ims_client (fault : Op S ()) p k :
  keeps fault → keeps k → keeps (with_ims_client fault p k).
Proof. intros Hf Hk. unfold with_ims_client. mauto. Qed.
Lemma preserves_with_ims_client I (fault : Op S ()) p k :
  keeps fault → preserves I k → preserves I (with_ims_client fault p k).
Proof. intros Hf Hk. unfold with_ims_client. mauto. Qed.
Lemma sends_with_ims_client P (fault : Op S ()) p k :
  sends P fault → sends P k → sends P (with_ims_client fault p k).
Proof. intros Hf Hk. unfold with_ims_client. mauto. Qed.
Lemma copy_number_fits `{!SecurecOk} n :
  string_size n < kMaxNumberLength → copy_number n = None.
Proof.
  intros Hl. unfold copy_number, string_size, kMaxNumberLength in *. rewrite memset_s_EOK.
  rewrite i32_id by lia. cbn [negb].
  destruct (Z.ltb_spec 255 (Z.of_nat (String.length n) + 1)); [lia|].
  rewrite strcpy_s_EOK; [done|]. unfold strlen. lia.
Qed.
End Lemmas.

Ltac mstep_hook ::=
  match goal with
  | |- keeps (with_handler _ _ _) => apply keeps_with_handler; [intros ?|]
  | |- preserves _ (with_handler _ _ _) => apply preserves_with_handler; [intros ?|]
  | |- sends _ (with_handler _ _ _) => apply sends_with_handler; [intros ?|]
  | |- keeps (with_ims_client _ _ _) => apply keeps_with_ims_client
  | |- preserves _ (with_ims_client _ _ _) => apply preserves_with_ims_client
  | |- sends _ (with_ims_client _ _ _) => apply sends_with_ims_client
  end.

Section Requests.
Context `{CallConsts, Env} {S : Type}.

Lemma keeps_IMS_HangUpRequest slotId n i : keeps (IMS_HangUpRequest slotId n i : Op S Z).
Proof. unfold IMS_HangUpRequest. mauto. Qed.
Lemma keeps_IMS_AnswerRequest slotId n v i r :
  keeps (IMS_AnswerRequest slotId n v i r : Op S Z).
Proof. unfold IMS_AnswerRequest. mauto. Qed.
Lemma keeps_IMS_RejectRequest slotId n i : keeps (IMS_RejectRequest slotId n i : Op S Z).
Proof. unfold IMS_RejectRequest. mauto. Qed.
Lemma keeps_IMS_CombineConferenceRequest slotId v :
  keeps (IMS_CombineConferenceRequest slotId v : Op S Z).
Proof. unfold IMS_CombineConferenceRequest. mauto. Qed.
Lemma keeps_InviteToConferenceRequest slotId l :
  keeps (InviteToConferenceRequest slotId l : Op S Z).
Proof. unfold InviteToConferenceRequest. mauto. Qed.
Lemma keeps_KickOutFromConferenceRequest slotId i :
  keeps (KickOutFromConferenceRequest slotId i : Op S Z).
Proof. unfold KickOutFromConferenceRequest. mauto. Qed.
Lemma keeps_IMS_CallSupplementRequest slotId t :
  keeps (IMS_CallSupplementRequest slotId t : Op S Z).
Proof. unfold IMS_CallSupplementRequest. mauto. Qed.
Lemma keeps_IMS_SendDtmfRequest slotId c i : keeps (IMS_SendDtmfRequest slotId c i : Op S Z).
Proof. unfold IMS_SendDtmfRequest. mauto. Qed.
Lemma keeps_IMS_StartDtmfRequest slotId c i : keeps (IMS_StartDtmfRequest slotId c i : Op S Z).
Proof. unfold IMS_StartDtmfRequest. mauto. Qed.
Lemma keeps_IMS_StopDtmfRequest slotId i : keeps (IMS_StopDtmfRequest slotId i : Op S Z).
Proof. unfold IMS_StopDtmfRequest. mauto. Qed.
Lemma keeps_UpdateImsRttCallModeRequest slotId i m :
  keeps (UpdateImsRttCallModeRequest slotId i m : Op S Z).
Proof. unfold UpdateImsRttCallModeRequest. mauto. Qed.
Lemma keeps_IMS_GetCallFailReasonRequest slotId :
  keeps (IMS_GetCallFailReasonRequest slotId : Op S Z).
Proof. unfold IMS_GetCallFailReasonRequest. mauto. Qed.
Lemma keeps_IMS_HoldCallRequest slotId r : keeps (IMS_HoldCallRequest slotId r).
Proof. unfold IMS_HoldCallRequest. mauto. Qed.
Lemma keeps_IMS_UnHoldCallRequest slotId r : keeps (IMS_UnHoldCallRequest slotId r).
Proof. unfold IMS_UnHoldCallRequest. mauto. Qed.
Lemma conn_stable_IMS_SwitchCallRequest slotId v r :
  conn_stable (IMS_SwitchCallRequest slotId v r).
Proof.
  intros c h. unfold IMS_SwitchCallRequest.
  assert (preserves (λ c', c_index c' = c_index c ∧ c_flag c' = c_flag c)
    (IMS_SwitchCallRequest slotId v r)) as Hp.
  { unfold IMS_SwitchCallRequest. mauto. }
  by apply Hp.
Qed.
End Requests.
#[export] Hint Resolve keeps_IMS_HangUpRequest keeps_IMS_AnswerRequest keeps_IMS_RejectRequest
  keeps_IMS_CombineConferenceRequest keeps_InviteToConferenceRequest
  keeps_KickOutFromConferenceRequest keeps_IMS_CallSupplementRequest keeps_IMS_SendDtmfRequest
  keeps_IMS_StartDtmfRequest keeps_IMS_StopDtmfRequest keeps_UpdateImsRttCallModeRequest
  keeps_IMS_GetCallFailReasonRequest keeps_IMS_HoldCallRequest keeps_IMS_UnHoldCallRequest
  conn_stable_IMS_SwitchCallRequest : cc.

Section PostDialIMS.
Context `{CallConsts, Env}.

Lemma IMS_process_char_spec slotId ch (c : CellularCallConnectionIMS) h :
  postDialCalltate_ (conn_base c) = POST_DIAL_CALL_STARTED →
  wp (IMS_ProcessPostDialCallChar slotId ch)
    (λ _ c' _, conn_base c' =
       SetPostDialCallState (post_dial_next_state ch) (conn_base c)) c h.
Proof.
  intros Hs. unfold IMS_ProcessPostDialCallChar, post_dial_next_state. wsteps.
  assert (SetPostDialCallState POST_DIAL_CALL_STARTED (conn_base c) = conn_base c) as Hid
    by (destruct c as [[] ?]; simpl in *; by subst).
  destruct (IsDtmfKey ch).
  { wsteps. eapply wp_mono; [apply keeps_IMS_SendDtmfRequest|].
    intros ? ? ? ->. cbn beta. wsteps. by rewrite Hid. }
  destruct (IsPauseKey ch); [|destruct (IsWaitKey ch); wsteps; by rewrite ?Hid].
  wsteps. destruct (GetHandler _ _); cbn [negb]; by wsteps.
Qed.
End PostDialIMS.

#[export] Instance PostDial_ims `{CallConsts, Env} : PostDial CellularCallConnectionIMS := {
  ProcessPostDialCallChar := IMS_ProcessPostDialCallChar;
  process_char_spec := IMS_process_char_spec
}.
