(* ===== verification/ImsControl.v ===== *)
(** * ImsControl: control of IMS calls (services/control/src/ims_control.cpp)

    As the circuit-switched control, with what IMS adds: a dial that first puts
    the active call on hold and is completed when the hold is confirmed
    ([DialAfterHold]), the pending-hold and pending-hang-up marks, silent
    redial over CS, calls restored after a restart, and (on a build with
    BASE_POWER_IMPROVEMENT_FEATURE) an emergency dial that waits for the
    radio. *)

From stdpp Require Import base tactics option list numbers strings gmap sets.
From Stdlib Require Import ZArith Lia Ascii String Sorted.
From S2P Require Import Prelude Platform Samples Standardize StdMap Connection MmiCode.
From S2P Require Import Emergency ControlBase CallMap CallReport ConnectionCS ConnectionIMS.

Open Scope Z_scope.

Record IMSControl := {
  connectionMap_ : ImsConnectionMap;
  pendingPhoneNumber_ : string;
  isIgnoredIncomingCall_ : bool;
  isSilentCsRedial_ : bool;
  pendingEmcDialCallInfo_ : CellularCallInfo;
  isPendingEmc_ : bool;
  waitForRadioOn_ : bool
}.
Definition IMSControl_new `{CallConsts} : IMSControl :=
  {| connectionMap_ := []; pendingPhoneNumber_ := ""; isIgnoredIncomingCall_ := false;
     isSilentCsRedial_ := false; pendingEmcDialCallInfo_ := CellularCallInfo_init;
     isPendingEmc_ := false; waitForRadioOn_ := false |}.
Definition set_connectionMap (m : ImsConnectionMap) (s : IMSControl) : IMSControl :=
  {| connectionMap_ := m; pendingPhoneNumber_ := pendingPhoneNumber_ s;
     isIgnoredIncomingCall_ := isIgnoredIncomingCall_ s;
     isSilentCsRedial_ := isSilentCsRedial_ s;
     pendingEmcDialCallInfo_ := pendingEmcDialCallInfo_ s; isPendingEmc_ := isPendingEmc_ s;
     waitForRadioOn_ := waitForRadioOn_ s |}.
Definition set_pendingPhoneNumber (v : string) (s : IMSControl) : IMSControl :=
  {| connectionMap_ := connectionMap_ s; pendingPhoneNumber_ := v;
     isIgnoredIncomingCall_ := isIgnoredIncomingCall_ s;
     isSilentCsRedial_ := isSilentCsRedial_ s;
     pendingEmcDialCallInfo_ := pendingEmcDialCallInfo_ s; isPendingEmc_ := isPendingEmc_ s;
     waitForRadioOn_ := waitForRadioOn_ s |}.
Definition set_isIgnoredIncomingCall (v : bool) (s : IMSControl) : IMSControl :=
  {| connectionMap_ := connectionMap_ s; pendingPhoneNumber_ := pendingPhoneNumber_ s;
     isIgnoredIncomingCall_ := v; isSilentCsRedial_ := isSilentCsRedial_ s;
     pendingEmcDialCallInfo_ := pendingEmcDialCallInfo_ s; isPendingEmc_ := isPendingEmc_ s;
     waitForRadioOn_ := waitForRadioOn_ s |}.
Definition SetSilentCsRedialFlag (isSilentCsRedial : bool) (s : IMSControl) : IMSControl :=
  {| connectionMap_ := connectionMap_ s; pendingPhoneNumber_ := pendingPhoneNumber_ s;
     isIgnoredIncomingCall_ := isIgnoredIncomingCall_ s;
     isSilentCsRedial_ := isSilentCsRedial;
     pendingEmcDialCallInfo_ := pendingEmcDialCallInfo_ s; isPendingEmc_ := isPendingEmc_ s;
     waitForRadioOn_ := waitForRadioOn_ s |}.
Definition set_pendingEmcDialCallInfo (v : CellularCallInfo) (s : IMSControl) : IMSControl :=
  {| connectionMap_ := connectionMap_ s; pendingPhoneNumber_ := pendingPhoneNumber_ s;
     isIgnoredIncomingCall_ := isIgnoredIncomingCall_ s;
     isSilentCsRedial_ := isSilentCsRedial_ s; pendingEmcDialCallInfo_ := v;
     isPendingEmc_ := isPendingEmc_ s; waitForRadioOn_ := waitForRadioOn_ s |}.
Definition setPendingEmcFlag (v : bool) (s : IMSControl) : IMSControl :=
  {| connectionMap_ := connectionMap_ s; pendingPhoneNumber_ := pendingPhoneNumber_ s;
     isIgnoredIncomingCall_ := isIgnoredIncomingCall_ s;
     isSilentCsRedial_ := isSilentCsRedial_ s;
     pendingEmcDialCallInfo_ := pendingEmcDialCallInfo_ s; isPendingEmc_ := v;
     waitForRadioOn_ := waitForRadioOn_ s |}.
Definition set_waitForRadioOn (v : bool) (s : IMSControl) : IMSControl :=
  {| connectionMap_ := connectionMap_ s; pendingPhoneNumber_ := pendingPhoneNumber_ s;
     isIgnoredIncomingCall_ := isIgnoredIncomingCall_ s;
     isSilentCsRedial_ := isSilentCsRedial_ s;
     pendingEmcDialCallInfo_ := pendingEmcDialCallInfo_ s; isPendingEmc_ := isPendingEmc_ s;
     waitForRadioOn_ := v |}.
Definition GetPendingEmcCallInfo (s : IMSControl) : CellularCallInfo := pendingEmcDialCallInfo_ s.
Definition isPendingEmcFlag (s : IMSControl) : bool := isPendingEmc_ s.

#[export] Instance HasConns_ims : HasConns IMSControl CellularCallConnectionIMS := {
  conns := connectionMap_;
  set_conns := set_connectionMap;
  conns_set := λ _ _, eq_refl
}.

Section ImsControl.
Context `{CallConsts, Env}.

(** ** Dialling *)

Definition EncapsulateDial {S} (slotId : Z) (phoneNum : string) (clirMode : CLIRMode)
    (videoState : Z) (isRTT : bool) : Op S Z :=
  let! bEmergencyCall := ask (λ h, (IsEmergencyCall h slotId phoneNum false).2) in
  let dialInfo :=
    {| di_phoneNum := phoneNum; di_clirMode := clirMode; di_videoState := videoState;
       di_bEmergencyCall := bEmergencyCall;
       di_bImsCallFirst := di_bImsCallFirst ImsDialInfoStruct_init;
       di_bRoaming := di_bRoaming ImsDialInfoStruct_init; di_isRTT := isRTT |} in
  let! (ret, _) := with_local (IMS_DialRequest slotId dialInfo) CellularCallConnectionIMS_new in
  mret ret.

(** The first active call that is not being hung up. *)
Definition active_call (m : ImsConnectionMap) : option (Z * CellularCallConnectionIMS) :=
  sm_find (λ c, bool_decide (GetStatus (conn_base c) = CALL_STATUS_ACTIVE) &&
                negb (IsPendingHangup c)) m.

Definition DialJudgment (slotId : Z) (phoneNum : string) (clirMode : CLIRMode)
    (videoState : Z) (isRTT : bool) : Op IMSControl Z :=
  let! m := mgets connectionMap_ in
  if negb (CanCall m) then
    hisys (WriteDialCallFaultEvent slotId INVALID_PARAMETER videoState
             CALL_ERR_CALL_COUNTS_EXCEED_LIMIT "ims dial call state error") ;;
    mret CALL_ERR_CALL_COUNTS_EXCEED_LIMIT
  else
    mmodify (set_pendingPhoneNumber phoneNum) ;;
    match active_call m with
    | Some p =>
        let! isEmergency := ask (λ h, (IsEmergencyCall h slotId phoneNum false).2) in
        modify_conn p (SetHoldToDialInfo phoneNum clirMode videoState isEmergency) ;;
        modify_conn p (SetDialFlag true) ;;
        on_conn p (IMS_SwitchCallRequest slotId videoState false)
    | None => EncapsulateDial slotId phoneNum clirMode videoState isRTT
    end.

(** The dial that waits for the radio; the timer's task is
    [radio_on_timeout] below. *)
Definition WAIT_FOR_RADIO_ON : Z := 10000000.
Definition SavePendingEmcCallInfo (callInfo : CellularCallInfo) : Op IMSControl Z :=
  let! old := mgets pendingEmcDialCallInfo_ in
  let saved (phoneNum : string) :=
    {| ci_callId := ci_callId callInfo; ci_phoneNum := phoneNum;
       ci_slotId := ci_slotId callInfo; ci_accountId := ci_accountId callInfo;
       ci_callType := ci_callType callInfo; ci_videoState := ci_videoState callInfo;
       ci_index := ci_index callInfo; ci_isRTT := ci_isRTT old |} in
  mmodify (set_pendingEmcDialCallInfo (saved (ci_phoneNum old))) ;;
  if negb memset_s_ok then mret TELEPHONY_ERR_MEMSET_FAIL
  else if negb (memcpy_s_ok kMaxNumberLen kMaxNumberLen) then
    mmodify (set_pendingEmcDialCallInfo (saved "")) ;; mret TELEPHONY_ERR_MEMCPY_FAIL
  else
    mmodify (set_pendingEmcDialCallInfo
      (saved (String.substring 0 (Z.to_nat kMaxNumberLen) (ci_phoneNum callInfo)))) ;;
    mmodify (setPendingEmcFlag true) ;;
    send (FfrtSubmitRadioOnTimeout WAIT_FOR_RADIO_ON) ;;
    mmodify (set_waitForRadioOn true) ;;
    mret TELEPHONY_SUCCESS.
Definition SkipWaitForRadioOn : Op IMSControl () :=
  let! waiting := mgets waitForRadioOn_ in
  if (waiting : bool) then send FfrtSkip ;; mmodify (set_waitForRadioOn false) else mret ().

Definition Dial (callInfo : CellularCallInfo) (isEcc : bool) : Op IMSControl Z :=
  hisys (SetCallParameterInfo (ci_slotId callInfo) (ci_callType callInfo)
           (ci_videoState callInfo) (ci_isRTT callInfo)) ;;
  let! ret := DialPreJudgment callInfo isEcc in
  if BASE_POWER_IMPROVEMENT_FEATURE &&
     (bool_decide (ret = CALL_ERR_GET_RADIO_STATE_FAILED) && isEcc)
  then SavePendingEmcCallInfo callInfo
  else if bool_decide (ret ≠ TELEPHONY_SUCCESS) then mret ret
  else
    let! regState := ask (λ h, GetPsRegState h (ci_slotId callInfo)) in
    if negb (bool_decide (regState = REG_STATE_IN_SERVICE) || isEcc) then
      mret TELEPHONY_ERR_NETWORK_NOT_IN_SERVICE
    else
      let newPhoneNum := ci_phoneNum callInfo in
      let newPhoneNum :=
        if string_contains "@" newPhoneNum || string_contains "%40" newPhoneNum
        then RemoveSeparatorsPhoneNumber newPhoneNum else newPhoneNum in
      let! (mmi, newPhoneNum, clirMode) :=
        IsNeedExecuteMMI (ci_slotId callInfo) newPhoneNum DEFAULT true in
      if (mmi : bool) then mret RETURN_TYPE_MMI
      else DialJudgment (ci_slotId callInfo) newPhoneNum clirMode (ci_videoState callInfo)
             (ci_isRTT callInfo).

(** The hold was confirmed: dial the number that waits. *)
Definition DialAfterHold (slotId : Z) : Op IMSControl () :=
  let! m := mgets connectionMap_ in
  match sm_find IsNeedToDial m with
  | Some p =>
      let! holdToDialInfo := read_conn p GetHoldToDialInfo in
      with_local (IMS_DialRequest slotId holdToDialInfo) CellularCallConnectionIMS_new ;;
      modify_conn p (SetDialFlag false)
  | None => mret ()
  end.

Definition RecoverPendingHold : Op IMSControl () :=
  let! m := mgets connectionMap_ in
  match sm_find IsPendingHold m with
  | Some p => modify_conn p (upd (UpdatePendingHoldFlag false))
  | None => mret ()
  end.

(** ** Ending and answering calls *)

Definition UpdateCallDisconnectReason (callId reason : Z) (message : string)
    : Op IMSControl () :=
  let! m := mgets connectionMap_ in
  match FindConnectionByIndex m callId with
  | Some p =>
      modify_conn p (IMS_SetDisconnectReason reason) ;;
      modify_conn p (SetDisconnectMessage message)
  | None => mret ()
  end.

Definition report_disconnecting (p : Z * CellularCallConnectionIMS) : Op IMSControl () :=
  let! register := ask register_instance in
  if (register : bool) then
    let! info := read_conn p (λ c, GetCallReportInfo (conn_base c)) in
    report (ReportSingleCallInfo info CALL_STATUS_DISCONNECTING)
  else mret ().

Definition HangUp (callInfo : CellularCallInfo) (type : Z) : Op IMSControl Z :=
  let message := ""%string in
  if bool_decide (type = TYPE_DEFAULT) then
    let! m := mgets connectionMap_ in
    match FindConnectionByIndex m (ci_index callInfo) with
    | None => mret CALL_ERR_CALL_CONNECTION_NOT_EXIST
    | Some p =>
        modify_conn p (SetHangupFlag true) ;;
        report_disconnecting p ;;
        modify_conn p (IMS_SetDisconnectReason DISCONNECTED_REASON_USER_TERMINATED) ;;
        modify_conn p (SetDisconnectMessage message) ;;
        IMS_HangUpRequest (ci_slotId callInfo) (ci_phoneNum callInfo) (ci_index callInfo)
    end
  else if bool_decide (type = TYPE_HANG_UP_HOLD_WAIT) ||
          bool_decide (type = TYPE_HANG_UP_ACTIVE) then
    UpdateCallDisconnectReason (ci_callId callInfo) DISCONNECTED_REASON_USER_TERMINATED
      message ;;
    IMS_CallSupplementRequest (ci_slotId callInfo) type
  else if bool_decide (type = TYPE_HANG_UP_ALL) then
    modify_conns (sm_map (λ c, SetDisconnectMessage message
      (IMS_SetDisconnectReason DISCONNECTED_REASON_USER_TERMINATED c))) ;;
    IMS_RejectRequest (ci_slotId callInfo) (ci_phoneNum callInfo) (ci_index callInfo)
  else mret TELEPHONY_ERR_ARGUMENT_INVALID.

Definition CheckAndHangupHoldingCall : Op IMSControl Z :=
  let! m := mgets connectionMap_ in
  let! failed := mfor_return m (λ '(_, holdConn),
    if bool_decide (GetStatus (conn_base holdConn) = CALL_STATUS_HOLDING) then
      let callReportInfo := GetCallReportInfo (conn_base holdConn) in
      let! result := IMS_HangUpRequest (cr_accountId callReportInfo)
                       (cr_accountNum callReportInfo) (cr_index callReportInfo) in
      mret (if bool_decide (result ≠ TELEPHONY_SUCCESS) then Some result else None)
    else mret None) in
  mret (default TELEPHONY_SUCCESS failed).

Definition Answer (callInfo : CellularCallInfo) : Op IMSControl Z :=
  let! m := mgets connectionMap_ in
  match FindConnectionByIndex m (ci_index callInfo) with
  | None => mret CALL_ERR_CALL_CONNECTION_NOT_EXIST
  | Some (_, c) =>
      let! ret :=
        if IsInState m CALL_STATUS_HOLDING && IsInState m CALL_STATUS_ACTIVE
        then CheckAndHangupHoldingCall
        else mret TELEPHONY_SUCCESS in
      if bool_decide (ret ≠ TELEPHONY_SUCCESS) then mret ret
      else
        let status := GetStatus (conn_base c) in
        let answer :=
          if bool_decide (status = CALL_STATUS_ALERTING) ||
             bool_decide (status = CALL_STATUS_INCOMING) ||
             bool_decide (status = CALL_STATUS_WAITING)
          then IMS_AnswerRequest (ci_slotId callInfo) (ci_phoneNum callInfo)
                 (ci_videoState callInfo) (ci_index callInfo) (ci_isRTT callInfo)
          else mret CALL_ERR_CALL_STATE in
        match FindConnectionByState m CALL_STATUS_ACTIVE with
        | Some (k, con) =>
            if negb (IsPendingHold con) && bool_decide (status = CALL_STATUS_WAITING) then
              on_conn (k, con)
                (IMS_SwitchCallRequest (ci_slotId callInfo) (ci_videoState callInfo) false)
            else answer
        | None => answer
        end
  end.

Definition Reject (callInfo : CellularCallInfo) : Op IMSControl Z :=
  let! m := mgets connectionMap_ in
  match FindConnectionByIndex m (ci_index callInfo) with
  | None => mret CALL_ERR_CALL_CONNECTION_NOT_EXIST
  | Some p =>
      let! ringing := read_conn p (λ c, IsRingingState (conn_base c)) in
      if negb ringing then mret CALL_ERR_CALL_STATE
      else
        report_disconnecting p ;;
        modify_conn p (IMS_SetDisconnectReason DISCONNECTED_REASON_USER_DECLINE) ;;
        IMS_RejectRequest (ci_slotId callInfo) (ci_phoneNum callInfo) (ci_index callInfo)
  end.

(** ** Hold, switch, conferences *)

Definition HoldCall (slotId : Z) (isRTT : bool) : Op IMSControl Z :=
  let! m := mgets connectionMap_ in
  if IsInState m CALL_STATUS_INCOMING then mret CALL_ERR_CALL_STATE
  else
    let! (ret, _) := with_local (IMS_HoldCallRequest slotId isRTT)
                       CellularCallConnectionIMS_new in
    mret ret.

Definition UnHoldCall (slotId : Z) (isRTT : bool) : Op IMSControl Z :=
  let! m := mgets connectionMap_ in
  match sm_find (λ c,
    let reportInfo := GetCallReportInfo (conn_base c) in
    bool_decide (slotId = cr_accountId reportInfo) &&
    bool_decide (cr_state reportInfo = CALL_STATUS_HOLDING)) m with
  | Some p => on_conn p (IMS_UnHoldCallRequest slotId isRTT)
  | None => mret TELEPHONY_ERROR
  end.

Definition SwitchCall (slotId : Z) (isRTT : bool) : Op IMSControl Z :=
  let! m := mgets connectionMap_ in
  let callMode :=
    match sm_find (λ c, bool_decide (slotId = cr_accountId (GetCallReportInfo (conn_base c)))) m
    with
    | Some (_, c) => cr_callMode (GetCallReportInfo (conn_base c))
    | None => TYPE_VOICE
    end in
  let! (ret, _) := with_local (IMS_SwitchCallRequest slotId callMode isRTT)
                     CellularCallConnectionIMS_new in
  mret ret.

Definition CombineConference {S} (slotId : Z) : Op S Z := IMS_CombineConferenceRequest slotId 0.

Definition HangUpAllConnection (slotId : Z) : Op IMSControl Z :=
  let! m := mgets connectionMap_ in
  if sm_empty m then mret TELEPHONY_ERROR
  else
    mfor m (λ '(_, c),
      IMS_RejectRequest slotId (GetNumber (conn_base c)) (GetIndex (conn_base c)) ;; mret ()) ;;
    mret TELEPHONY_SUCCESS.

Definition InviteToConference {S} (slotId : Z) (numberList : list string) : Op S Z :=
  InviteToConferenceRequest slotId numberList.

Definition KickOutFromConference (slotId : Z) (KickOutString : string) (index : Z)
    : Op IMSControl Z :=
  let! m := mgets connectionMap_ in
  match FindConnectionByIndex m index with
  | Some (_, c) => KickOutFromConferenceRequest slotId (GetIndex (conn_base c))
  | None => KickOutFromConferenceRequest slotId index
  end.

Definition UpdateImsRttCallMode {S} (slotId callId mode : Z) : Op S Z :=
  UpdateImsRttCallModeRequest slotId callId mode.

(** ** Post-dial *)

(** [callId] is an int64_t; [FindConnectionByIndex] takes an int32_t.  The
    callers below pass an int32_t index, which the round trip keeps: they run
    the step itself. *)
Definition ExecutePostDial (slotId callId : Z) : Op IMSControl Z :=
  post_dial_step slotId (i32 callId).

Definition PostDialProceed (callInfo : CellularCallInfo) (proceed : bool) : Op IMSControl Z :=
  let! m := mgets connectionMap_ in
  match FindConnectionByIndex m (ci_index callInfo) with
  | None => mret TELEPHONY_ERR_LOCAL_PTR_NULL
  | Some (k, c) =>
      (if proceed then
         post_dial_step (ci_slotId callInfo) (GetIndex (conn_base c)) ;; mret ()
       else modify_conn (k, c) (upd (SetPostDialCallState POST_DIAL_CALL_CANCELED))) ;;
      mret TELEPHONY_SUCCESS
  end.

(** ** Reports of the IMS service *)

Definition GetCallMode (callType : Z) : Z :=
  if callType =? TEL_IMS_CALL_TYPE_VOICE then TYPE_VOICE
  else if callType =? TEL_IMS_CALL_TYPE_VT_TX then TYPE_SEND_ONLY
  else if callType =? TEL_IMS_CALL_TYPE_VT_RX then TYPE_RECEIVE_ONLY
  else if callType =? TEL_IMS_CALL_TYPE_VT then TYPE_VIDEO
  else TYPE_VOICE.

Definition EncapsulationCallReportInfo (slotId : Z) (callInfo : ImsCurrentCall)
    : CallReportInfo :=
  let callReportInfo := zeroed CallReportInfo_init CallReportInfo_zero in
  if negb memset_s_ok then callReportInfo
  else
    let name := if string_empty (im_number callInfo) then ""%string else im_name callInfo in
    let newString := FormatNumberAndToa (im_number callInfo) (im_toa callInfo) in
    let cpyLen := strlen newString + 1 in
    if kMaxNumberLen + 1 <? cpyLen then cr_set_name name callReportInfo
    else if negb (strcpy_s_ok cpyLen (c_str newString)) then cr_set_name name callReportInfo
    else
      {| cr_accountNum := c_str newString;
         cr_index := im_index callInfo;
         cr_accountId := slotId;
         cr_voiceDomain := im_voiceDomain callInfo;
         cr_state := im_state callInfo;
         cr_callType := TYPE_IMS;
         cr_callMode := GetCallMode (im_callType callInfo);
         cr_mpty := im_mpty callInfo;
         cr_name := name;
         cr_namePresentation := im_namePresentation callInfo;
         cr_reason := cr_reason callReportInfo;
         cr_message := cr_message callReportInfo;
         cr_crsType := im_toneType callInfo;
         cr_originalCallType := im_callInitialType callInfo;
         cr_newCallUseBox := im_newCallUseBox callInfo;
         cr_rttState := im_rttState callInfo;
         cr_rttChannelId := im_rttChannelId callInfo;
         cr_imsDomain := im_imsDomain callInfo;
         cr_isPendingHold := cr_isPendingHold callReportInfo |}.

(** What a call that is no longer listed is reported as. *)
Definition lost_report (c : CellularCallConnectionIMS) : CallReportInfo :=
  cr_set_message (GetDisconnectMessage c)
    (cr_set_reason (IMS_GetDisconnectReason c)
      (cr_set_state CALL_STATUS_DISCONNECTED (GetCallReportInfo (conn_base c)))).
Definition DeleteConnection (callVec : list CallReportInfo)
    : Op IMSControl (list CallReportInfo) :=
  let! m := mgets connectionMap_ in
  let '(m', callVec') := DeleteConnection_loop lost_report m callVec in
  mmodify (set_connectionMap m') ;;
  mret callVec'.

Definition ReportUpdateInfo_call (slotId : Z) (only_one : bool) (call : ImsCurrentCall)
    : Op IMSControl CallReportInfo :=
  let reportInfo := EncapsulationCallReportInfo slotId call in
  let reportInfo :=
    if only_one && bool_decide (cr_state reportInfo = CALL_STATUS_WAITING)
    then cr_set_state CALL_STATUS_INCOMING reportInfo else reportInfo in
  let! m := mgets connectionMap_ in
  match FindConnectionByIndex m (im_index call) with
  | None =>
      let connection :=
        upd (SetNumber (im_number call)) (upd (SetIndex (im_index call))
          (upd (SetFlag true) (upd (SetOrUpdateCallReportInfo reportInfo)
            CellularCallConnectionIMS_new))) in
      modify_conns (λ m, (SetConnectionData m (im_index call) connection).2)
  | Some p =>
      let! preCallState := read_conn p (λ c, GetStatus (conn_base c)) in
      modify_conn p (upd (SetFlag true)) ;;
      modify_conn p (upd (SetIndex (im_index call))) ;;
      modify_conn p (upd (SetNumber (im_number call))) ;;
      modify_conn p (upd (SetOrUpdateCallReportInfo reportInfo)) ;;
      let! curCallState := read_conn p (λ c, GetStatus (conn_base c)) in
      if IsConnectedOut preCallState curCallState then
        let! pending := mgets pendingPhoneNumber_ in
        modify_conn p (upd (UpdateCallNumber pending)) ;;
        mmodify (set_pendingPhoneNumber "") ;;
        let! index := read_conn p (λ c, GetIndex (conn_base c)) in
        post_dial_step slotId index ;; mret ()
      else mret ()
  end ;;
  mret reportInfo.

Definition ReportUpdateInfo (slotId : Z) (callInfoList : ImsCurrentCallList)
    : Op IMSControl Z :=
  let only_one := bool_decide (List.length (iml_calls callInfoList) = 1%nat) in
  let! callVec := mcollect (iml_calls callInfoList) (ReportUpdateInfo_call slotId only_one) in
  let! callVec := DeleteConnection callVec in
  let! register := ask register_instance in
  if negb register then mret TELEPHONY_ERR_LOCAL_PTR_NULL
  else
    let! ignored := mgets isIgnoredIncomingCall_ in
    (if (ignored : bool) then mmodify (set_isIgnoredIncomingCall false)
     else report (ReportCallsInfo {| crs_callVec := callVec; crs_slotId := slotId |})) ;;
    mret TELEPHONY_SUCCESS.

Definition ReportIncomingInfo (slotId : Z) (callInfoList : ImsCurrentCallList)
    : Op IMSControl Z :=
  let! callVec := mcollect (iml_calls callInfoList) (λ call,
    let reportInfo := EncapsulationCallReportInfo slotId call in
    let connection :=
      upd (SetOrUpdateCallReportInfo reportInfo)
        (upd (SetNumber (im_number call))
          (upd (SetIndex (im_index call)) (upd (SetStatus (im_state call))
            CellularCallConnectionIMS_new))) in
    modify_conns (λ m, (SetConnectionData m (im_index call) connection).2) ;;
    mret reportInfo) in
  let! register := ask register_instance in
  if negb register then mret TELEPHONY_ERR_ARGUMENT_INVALID
  else
    let! registered := ask IsCallManagerCallBackRegistered in
    (if negb registered &&
        match callVec with
        | first :: _ => bool_decide (cr_state first = CALL_STATUS_INCOMING)
        | [] => false
        end
     then mmodify (set_isIgnoredIncomingCall true)
     else report (ReportCallsInfo {| crs_callVec := callVec; crs_slotId := slotId |})) ;;
    mret TELEPHONY_SUCCESS.

Definition ReleaseAllConnection : Op IMSControl () := modify_conns (λ _, []).

Definition ReportHangUpInfo (slotId : Z) : Op IMSControl Z :=
  let! m := mgets connectionMap_ in
  let callVec := (λ '(_, c),
    cr_set_message (GetDisconnectMessage c)
      (cr_set_reason (IMS_GetDisconnectReason c)
        (cr_set_accountId slotId
          (cr_set_state CALL_STATUS_DISCONNECTED (GetCallReportInfo (conn_base c)))))) <$> m in
  let callVec :=
    if sm_empty m then
      callVec ++ [cr_set_accountId slotId
                    (cr_set_state CALL_STATUS_DISCONNECTED CallReportInfo_init)]
    else callVec in
  let! register := ask register_instance in
  if negb register then mret TELEPHONY_ERR_LOCAL_PTR_NULL
  else
    let! ignored := mgets isIgnoredIncomingCall_ in
    let! silent := mgets isSilentCsRedial_ in
    (if ignored || silent then
       mmodify (set_isIgnoredIncomingCall false) ;; mmodify (SetSilentCsRedialFlag false)
     else report (ReportCallsInfo {| crs_callVec := callVec; crs_slotId := slotId |})) ;;
    ReleaseAllConnection ;;
    mret TELEPHONY_SUCCESS.

(** The task [SavePendingEmcCallInfo] submits, when it is not skipped. *)
Definition radio_on_timeout : Op IMSControl () :=
  let! info := mgets pendingEmcDialCallInfo_ in
  ReportHangUpInfo (ci_slotId info) ;;
  mmodify (setPendingEmcFlag false).

Definition ReportImsCallsData (slotId : Z) (callInfoList : ImsCurrentCallList)
    (isNeedQuery : bool) : Op IMSControl Z :=
  let! m := mgets connectionMap_ in
  if iml_callSize callInfoList <=? 0 then
    if isNeedQuery then GetCallFailReason slotId m ;; mret TELEPHONY_SUCCESS
    else ReportHangUpInfo slotId
  else if (0 <? iml_callSize callInfoList) && sm_empty m then
    ReportIncomingInfo slotId callInfoList
  else if (0 <? iml_callSize callInfoList) && negb (sm_empty m) then
    if isNeedQuery then GetCallFailReason slotId m ;; mret TELEPHONY_SUCCESS
    else ReportUpdateInfo slotId callInfoList
  else mret TELEPHONY_ERROR.

Definition ReportCallsData {S} (slotId : Z) (callInfoList : CallInfoList) : Op S Z :=
  mret TELEPHONY_ERROR.

Definition UpdateDisconnectedReason (currentCallList : ImsCurrentCallList) (reason : Z)
    (message : string) : Op IMSControl () :=
  modify_conns (sm_map (λ c,
    if bool_decide (IMS_GetDisconnectReason c ≠ DISCONNECTED_REASON_INVALID) then c
    else if negb (is_listed im_index (iml_calls currentCallList) c)
         then SetDisconnectMessage message (IMS_SetDisconnectReason reason c) else c)).

Definition HasEndCallWithoutReason (m : ImsConnectionMap)
    (currentCallList : ImsCurrentCallList) : bool :=
  sm_any (λ c,
    if bool_decide (IMS_GetDisconnectReason c ≠ DISCONNECTED_REASON_INVALID) then false
    else negb (is_listed im_index (iml_calls currentCallList) c)) m.

(** ** Restart of the IMS service *)

Definition RestoreConnection (infos : list CellularCallInfo) (slotId : Z) : Op IMSControl Z :=
  mfor infos (λ info,
    if bool_decide (ci_callType info = TYPE_IMS) && bool_decide (ci_slotId info = slotId) then
      let connectionIMS :=
        upd (SetNumber (ci_phoneNum info))
          (upd (SetIndex (ci_index info)) CellularCallConnectionIMS_new) in
      modify_conns (λ m, (SetConnectionData m (ci_index info) connectionIMS).2)
    else mret ()) ;;
  mret TELEPHONY_SUCCESS.

Fixpoint ReportHangUp_loop (infos : list CellularCallInfo) (slotId : Z)
    : Z + list CallReportInfo :=
  match infos with
  | [] => inr []
  | info :: infos' =>
      if bool_decide (ci_callType info = TYPE_IMS) && bool_decide (ci_slotId info = slotId) then
        if negb memset_s_ok then inl TELEPHONY_ERR_MEMSET_FAIL
        else if negb (memcpy_s_ok kMaxNumberLen kMaxNumberLen) then inl TELEPHONY_ERR_MEMCPY_FAIL
        else
          let d := CallReportInfo_init in
          let imsCallReportInfo :=
            {| cr_accountNum :=
                 String.substring 0 (Z.to_nat kMaxNumberLen) (ci_phoneNum info);
               cr_index := ci_index info; cr_accountId := ci_slotId info;
               cr_voiceDomain := cr_voiceDomain d; cr_state := CALL_STATUS_DISCONNECTED;
               cr_callType := TYPE_IMS;
               cr_callMode := if negb (ci_callType info =? 0) then TYPE_VIDEO else TYPE_VOICE;
               cr_mpty := cr_mpty d;
               cr_name := cr_name d; cr_namePresentation := cr_namePresentation d;
               cr_reason := cr_reason d; cr_message := cr_message d;
               cr_crsType := cr_crsType d; cr_originalCallType := cr_originalCallType d;
               cr_newCallUseBox := cr_newCallUseBox d; cr_rttState := cr_rttState d;
               cr_rttChannelId := cr_rttChannelId d; cr_imsDomain := cr_imsDomain d;
               cr_isPendingHold := cr_isPendingHold d |} in
          match ReportHangUp_loop infos' slotId with
          | inl r => inl r
          | inr callVec => inr (imsCallReportInfo :: callVec)
          end
      else ReportHangUp_loop infos' slotId
  end.
(** The connections stay in the map. *)
Definition ReportHangUp {S} (infos : list CellularCallInfo) (slotId : Z) : Op S Z :=
  match ReportHangUp_loop infos slotId with
  | inl ret => mret ret
  | inr callVec =>
      let! register := ask register_instance in
      if negb register then mret TELEPHONY_ERR_LOCAL_PTR_NULL
      else
        report (ReportCallsInfo {| crs_callVec := callVec; crs_slotId := slotId |}) ;;
        mret TELEPHONY_SUCCESS
  end.
End ImsControl.
