(* ===== verification/ImsControlFacts.v ===== *)
(** * ImsControlFacts: what the IMS control guarantees

    - the invariant of the connection map under every operation;
    - the comparison of the IMS service's call list with the map;
    - the machine of all operations and its reachable states. *)

From stdpp Require Import base tactics option list numbers strings gmap sets relations.
From Stdlib Require Import ZArith Lia Ascii String Sorted.
From S2P Require Import Prelude Platform Samples Standardize StdMap Connection MmiCode.
From S2P Require Import Emergency ControlBase CallMap CallReport ConnectionCS ConnectionIMS.
From S2P Require Import ImsControl.

Open Scope Z_scope.

Abbreviation ims_inv := (conns_inv (S := IMSControl)).

Section Preservation.
Context `{CallConsts, Env}.

Lemma ims_upd_stable f (c : CellularCallConnectionIMS) :
  base_stable f → c_index (upd f c) = c_index c ∧ c_flag (upd f c) = c_flag c.
Proof. intros Hf. unfold c_index, c_flag. rewrite conn_base_upd. apply Hf. Qed.
(** Updates of the parts that are not in the base leave index and mark alone. *)
Lemma preserves_modify_own p (f : CellularCallConnectionIMS → CellularCallConnectionIMS) :
  (∀ c, conn_base (f c) = conn_base c) → preserves ims_inv (modify_conn p f).
Proof.
  intros Hf. apply preserves_modify_conn. intros c. unfold c_index, c_flag. by rewrite Hf.
Qed.
Lemma preserves_modify_base p f :
  base_stable f → preserves ims_inv (modify_conn p (upd f)).
Proof. intros Hf. apply preserves_modify_conn. intros c. by apply ims_upd_stable. Qed.
Lemma preserves_modify_rest (f : IMSControl → IMSControl) :
  (∀ s, connectionMap_ (f s) = connectionMap_ s) →
  preserves ims_inv (mmodify f : Op IMSControl ()).
Proof.
  intros Hf. apply preserves_modify. intros s [Hok Hu]. unfold conns_inv. simpl in *.
  by rewrite Hf.
Qed.
End Preservation.
#[export] Hint Extern 2 (preserves conns_inv (modify_conn _ (upd _))) =>
  apply preserves_modify_base; intros ?; done : cc.
#[export] Hint Extern 3 (preserves conns_inv (modify_conn _ _)) =>
  apply preserves_modify_own; intros ?; done : cc.
#[export] Hint Extern 2 (preserves conns_inv (mmodify _)) =>
  apply preserves_modify_rest; intros ?; done : cc.

Section Operations.
Context `{CallConsts, Env}.

Lemma keeps_EncapsulateDial {S} slotId n c v r : keeps (EncapsulateDial slotId n c v r : Op S Z).
Proof. unfold EncapsulateDial. mauto. Qed.
#[local] Hint Resolve keeps_EncapsulateDial : cc.
Lemma preserves_DialJudgment slotId n c v r : preserves ims_inv (DialJudgment slotId n c v r).
Proof. unfold DialJudgment. mauto. Qed.
Lemma preserves_SavePendingEmcCallInfo ci : preserves ims_inv (SavePendingEmcCallInfo ci).
Proof. unfold SavePendingEmcCallInfo. mauto. Qed.
#[local] Hint Resolve preserves_DialJudgment preserves_SavePendingEmcCallInfo : cc.
Lemma ims_preserves_Dial ci ecc : preserves ims_inv (Dial ci ecc).
Proof. unfold Dial. mauto. Qed.
Lemma preserves_SkipWaitForRadioOn : preserves ims_inv SkipWaitForRadioOn.
Proof. unfold SkipWaitForRadioOn. mauto. Qed.
Lemma preserves_DialAfterHold slotId : preserves ims_inv (DialAfterHold slotId).
Proof. unfold DialAfterHold. mauto. Qed.
Lemma preserves_RecoverPendingHold : preserves ims_inv RecoverPendingHold.
Proof. unfold RecoverPendingHold. mauto. Qed.
Lemma ims_preserves_report_disconnecting p : preserves ims_inv (report_disconnecting p).
Proof. unfold report_disconnecting. mauto. Qed.
Lemma ims_preserves_UpdateCallDisconnectReason i r msg :
  preserves ims_inv (UpdateCallDisconnectReason i r msg).
Proof. unfold UpdateCallDisconnectReason. mauto. Qed.
#[local] Hint Resolve ims_preserves_report_disconnecting ims_preserves_UpdateCallDisconnectReason : cc.
Lemma ims_preserves_HangUp ci t : preserves ims_inv (HangUp ci t).
Proof. unfold HangUp. mauto. by apply preserves_modify_conns_map. Qed.
Lemma ims_keeps_CheckAndHangupHoldingCall : keeps CheckAndHangupHoldingCall.
Proof.
  unfold CheckAndHangupHoldingCall. apply keeps_then; [auto with cc|]. intros m.
  apply keeps_then; [|auto with cc]. apply keeps_mfor_return. intros [k c]. mauto.
Qed.
#[local] Hint Resolve ims_keeps_CheckAndHangupHoldingCall : cc.
Lemma ims_preserves_Answer ci : preserves ims_inv (Answer ci).
Proof. unfold Answer. mauto. Qed.
Lemma ims_preserves_Reject ci : preserves ims_inv (Reject ci).
Proof. unfold Reject. mauto. Qed.
Lemma ims_keeps_HoldCall slotId r : keeps (HoldCall slotId r).
Proof. unfold HoldCall. mauto. Qed.
Lemma preserves_UnHoldCall slotId r : preserves ims_inv (UnHoldCall slotId r).
Proof. unfold UnHoldCall. mauto. Qed.
Lemma ims_keeps_SwitchCall slotId r : keeps (SwitchCall slotId r).
Proof. unfold SwitchCall. mauto. Qed.
Lemma keeps_HangUpAllConnection slotId : keeps (HangUpAllConnection slotId).
Proof. unfold HangUpAllConnection. mauto. Qed.
Lemma keeps_KickOutFromConference slotId str i : keeps (KickOutFromConference slotId str i).
Proof. unfold KickOutFromConference. mauto. Qed.
Lemma ims_preserves_ExecutePostDial slotId i : preserves ims_inv (ExecutePostDial slotId i).
Proof. apply preserves_post_dial_step. Qed.
#[local] Hint Resolve ims_preserves_ExecutePostDial : cc.
Lemma ims_preserves_PostDialProceed ci b : preserves ims_inv (PostDialProceed ci b).
Proof. unfold PostDialProceed. mauto. Qed.
Lemma ims_preserves_ReportHangUpInfo slotId : preserves ims_inv (ReportHangUpInfo slotId).
Proof. unfold ReportHangUpInfo, ReleaseAllConnection. mauto. Qed.
Lemma preserves_radio_on_timeout : preserves ims_inv radio_on_timeout.
Proof.
  unfold radio_on_timeout. apply preserves_then; [mauto|]. intros info.
  apply preserves_then; [apply ims_preserves_ReportHangUpInfo|]. mauto.
Qed.
Lemma ims_preserves_UpdateDisconnectedReason l r msg :
  preserves ims_inv (UpdateDisconnectedReason l r msg).
Proof. apply preserves_modify_conns_map. intros c. by repeat case_match. Qed.
Lemma keeps_ReportHangUp {S} infos slotId : keeps (ReportHangUp infos slotId : Op S Z).
Proof. unfold ReportHangUp. mauto. Qed.

(** A fresh call put under its own index. *)
Lemma preserves_insert_call i (c : CellularCallConnectionIMS) :
  c_index c = i → c_flag c = false →
  preserves ims_inv (modify_conns (λ m, (SetConnectionData m i c).2)).
Proof.
  intros Hi Hf s h [Hok Hu]. apply wp_modify_conns. unfold conns_inv. rewrite conns_set. split.
  - by apply conns_ok_insert.
  - apply unmarked_insert; [apply Hok|done|done].
Qed.
Lemma ims_preserves_ReportIncomingInfo slotId l : preserves ims_inv (ReportIncomingInfo slotId l).
Proof. unfold ReportIncomingInfo. mauto. by apply preserves_insert_call. Qed.
Lemma preserves_RestoreConnection infos slotId :
  preserves ims_inv (RestoreConnection infos slotId).
Proof. unfold RestoreConnection. mauto. by apply preserves_insert_call. Qed.
End Operations.

(** ** The comparison of a call list with the map *)

Section Update.
Context `{CallConsts, Env}.
Implicit Types (s : IMSControl) (h e : list Effect) (l : list ImsCurrentCall).

Definition listed_report (slotId : Z) (only_one : bool) (call : ImsCurrentCall)
    : CallReportInfo :=
  let r := EncapsulationCallReportInfo slotId call in
  if only_one && bool_decide (cr_state r = CALL_STATUS_WAITING)
  then cr_set_state CALL_STATUS_INCOMING r else r.

(** What a call keeps of its own across a comparison: the dial that waits for
    its hold, the hang-up mark, the reason and the message. *)
Definition ims_own (c : CellularCallConnectionIMS)
    : bool * ImsDialInfoStruct * bool * Z * string :=
  (isNeedToDial_ c, holdToDialInfo_ c, isPendingHangup_ c, ims_disconnectReason_ c,
   disconnectMessage_ c).
Definition ims_own_new := ims_own CellularCallConnectionIMS_new.

Lemma IMS_own_kept slotId r :
  preserves (λ c, ims_own c = r) (ProcessNextChar (C := CellularCallConnectionIMS) slotId).
Proof.
  unfold ProcessNextChar. simpl. unfold IMS_ProcessPostDialCallChar. mauto; done.
Qed.
Lemma IMS_ProcessNextChar_sends slotId :
  sends not_calls_report (ProcessNextChar (C := CellularCallConnectionIMS) slotId).
Proof.
  unfold ProcessNextChar. simpl. unfold IMS_ProcessPostDialCallChar, IMS_SendDtmfRequest.
  mauto; done.
Qed.
Lemma ims_ExecutePostDial_sends slotId i :
  sends not_calls_report (post_dial_step slotId i : Op IMSControl Z).
Proof. apply sends_post_dial_step, IMS_ProcessNextChar_sends. Qed.

Lemma ims_wp_modify_conn_again i c0 c1 c' m f s Q h :
  sm_lookup i m = Some c0 →
  Q () (set_connectionMap (sm_alter (λ _, f c1) i m) s) [] →
  wp (modify_conn (i, c') f) Q (set_connectionMap (sm_alter (λ _, c1) i m) s) h.
Proof.
  intros Hc HQ. eapply wp_modify_conn; [by eapply sm_lookup_alter_const|].
  change (conns (set_connectionMap ?m s)) with m. by rewrite sm_alter_alter.
Qed.

Abbreviation updated slotId only_one :=
  (updated im_number (listed_report slotId only_one) ims_own ims_own_new).
Abbreviation marked slotId only_one :=
  (marked im_index im_number (listed_report slotId only_one) ims_own ims_own_new).
Abbreviation compared slotId only_one :=
  (compared im_index im_number (listed_report slotId only_one) ims_own ims_own_new).
Abbreviation lost l := (lost im_index (iml_calls l)).
(** The flags a comparison does not touch. *)
Definition ims_flags s : bool * bool := (isIgnoredIncomingCall_ s, isSilentCsRedial_ s).

Lemma ims_ReportUpdateInfo_call_spec slotId only_one call s h :
  conns_ok (connectionMap_ s) →
  wp (ReportUpdateInfo_call slotId only_one call)
    (λ r s' _, r = listed_report slotId only_one call ∧
       ims_flags s' = ims_flags s ∧
       conns_ok (connectionMap_ s') ∧
       (∀ k, k ≠ im_index call →
          sm_lookup k (connectionMap_ s') = sm_lookup k (connectionMap_ s)) ∧
       ∃ c, sm_lookup (im_index call) (connectionMap_ s') = Some c ∧
            updated slotId only_one call (sm_lookup (im_index call) (connectionMap_ s)) c) s h.
Proof.
  intros Hok. unfold ReportUpdateInfo_call. fold (listed_report slotId only_one call).
  set (r := listed_report slotId only_one call). set (i := im_index call).
  wsteps. rewrite FindConnectionByIndex_lookup by done.
  destruct (sm_lookup i (connectionMap_ s)) as [c|] eqn:Hc; cbn [fmap option_fmap option_map].
  - wsteps. eapply wp_read_conn; [done|]. wsteps.
    eapply wp_modify_conn; [done|]. cbn [conns set_conns HasConns_ims]. wsteps.
    do 3 (eapply ims_wp_modify_conn_again; [done|]; wsteps).
    eapply wp_read_conn; [by eapply sm_lookup_alter_const|]. wsteps.
    set (c1 := upd (SetOrUpdateCallReportInfo _) _).
    assert (updated slotId only_one call (Some c) c1 ∧ c_index c1 = i) as [Hc1 Hi1] by done.
    clearbody c1.
    destruct (IsConnectedOut _ _); wsteps.
    + eapply ims_wp_modify_conn_again; [done|]. wsteps.
      eapply wp_read_conn; [by eapply sm_lookup_alter_const|]. wsteps.
      set (c2 := upd (UpdateCallNumber _) c1).
      assert (updated slotId only_one call (Some c) c2 ∧ c_index c2 = i) as [Hc2 Hi2].
      { unfold CallReport.updated, c_index, c_flag, c2, upd, UpdateCallNumber in *. simpl.
        destruct (ExtractAddressAndPostDial _ _ _). done. }
      clearbody c2. change (GetIndex (conn_base c2)) with (c_index c2). rewrite Hi2.
      set (s2 := set_pendingPhoneNumber _ _).
      assert (sm_lookup i (connectionMap_ s2) = Some c2) as Hc2'
        by by eapply sm_lookup_alter_const.
      assert (conns_ok (connectionMap_ s2)) as Hok2 by by apply conns_ok_alter.
      assert (∀ k, k ≠ i → sm_lookup k (connectionMap_ s2) = sm_lookup k (connectionMap_ s))
        as Hother by (intros k Hk; simpl; by rewrite sm_lookup_alter, bool_decide_false).
      eapply wp_mono; [by apply (post_dial_step_frame ims_own IMS_own_kept)|].
      intros r0 s' e Hs'. cbn beta in *. wsteps.
      destruct Hs' as [->|(c2' & c3 & Hc2'' & ((st & n & Hbase) & Hown) & ->)].
      { split_and!; [done|done|done|done|by exists c2]. }
      change (conns s2) with (connectionMap_ s2) in Hc2''. rewrite Hc2' in Hc2''.
      injection Hc2'' as <-. split_and!; [done|done| | |].
      * apply conns_ok_alter; [done|]. intros _ _. unfold c_index. by rewrite Hbase.
      * intros k Hk. simpl. rewrite sm_lookup_alter, bool_decide_false by done.
        by apply Hother.
      * exists c3. split; [by eapply sm_lookup_alter_const|].
        unfold CallReport.updated, c_flag in *. by rewrite Hown, Hbase.
    + split_and!; [done|done|by apply conns_ok_alter| |].
      * intros k Hk. simpl. by rewrite sm_lookup_alter, bool_decide_false.
      * exists c1. split; [by eapply sm_lookup_alter_const|done].
  - wsteps. apply wp_modify_conns. wsteps. simpl.
    split_and!; [done|done| | |].
    + by apply conns_ok_insert.
    + intros k Hk. by rewrite sm_lookup_insert_fresh, bool_decide_false by (done || apply Hok).
    + eexists. rewrite sm_lookup_insert_fresh, bool_decide_true by (done || apply Hok).
      done.
Qed.

Lemma ims_ReportUpdateInfo_call_sends slotId only_one call :
  sends not_calls_report (ReportUpdateInfo_call slotId only_one call).
Proof. unfold ReportUpdateInfo_call. mauto. apply ims_ExecutePostDial_sends. Qed.

Definition one_call l : bool := bool_decide (List.length l = 1%nat).

Definition update_post slotId (l : ImsCurrentCallList) s h (r : Z) s' e : Prop :=
  let only_one := one_call (iml_calls l) in
  compared slotId only_one (iml_calls l) (connectionMap_ s) (connectionMap_ s') ∧
  isSilentCsRedial_ s' = isSilentCsRedial_ s ∧
  ∃ e1, Forall not_calls_report e1 ∧
    if register_instance (h ++ e1) then
      r = TELEPHONY_SUCCESS ∧ isIgnoredIncomingCall_ s' = false ∧
      e = e1 ++
        if isIgnoredIncomingCall_ s then []
        else [Report (ReportCallsInfo
               {| crs_callVec :=
                    (listed_report slotId only_one <$> iml_calls l) ++
                    (lost_report <$> lost l (connectionMap_ s));
                  crs_slotId := slotId |})]
    else
      r = TELEPHONY_ERR_LOCAL_PTR_NULL ∧
      isIgnoredIncomingCall_ s' = isIgnoredIncomingCall_ s ∧ e = e1.

Lemma ims_ReportUpdateInfo_spec slotId (l : ImsCurrentCallList) s h :
  conns_inv s → wp (ReportUpdateInfo slotId l) (update_post slotId l s h) s h.
Proof.
  intros [Hok Hu]. unfold update_post, ReportUpdateInfo, DeleteConnection.
  apply wp_then. eapply wp_mono;
    [apply (mark_phase (P := not_calls_report) im_index im_number (listed_report slotId (one_call (iml_calls l)))
              ims_own ims_own_new ims_flags);
     [apply ims_ReportUpdateInfo_call_sends|intros; by apply ims_ReportUpdateInfo_call_spec|done]|].
  intros bs s1 e1 (-> & Hfl & Hmark & He1). cbn beta. injection Hfl as Hig Hsil. wsteps.
  rewrite DeleteConnection_loop_sweep. wsteps.
  change (connectionMap_ s1) with (conns s1).
  rewrite (marked_lost _ _ _ _ _ _ _ _ Hok Hu Hmark).
  apply marked_swept in Hmark; [|done..].
  destruct (register_instance _) eqn:Hreg; cbn [negb]; wsteps.
  - cbn [isIgnoredIncomingCall_ set_connectionMap]. rewrite Hig.
    destruct (isIgnoredIncomingCall_ s) eqn:Hi; wsteps;
      (split_and!; [done|simpl; congruence|]);
      exists e1; (split; [done|]); rewrite Hreg, ?app_nil_r; split_and!; done.
  - split_and!; [done|done|]. exists e1. split; [done|]. by rewrite Hreg.
Qed.

(** C18: the comparison of an IMS call list with the calls known so far.
    Afterwards the map holds exactly one call per listed index, each with the
    report and the number of the last entry for its index (so a pending hold
    is over) and with its own waiting dial, hang-up mark, reason and message
    of before; no call stays marked.  One report goes up with the listed
    calls in list order and then every call that is gone, as disconnected
    with its reason and message; when an ignored incoming call suppresses
    it, it suppresses only this one. *)
Theorem IMS_ReportUpdateInfo_diff slotId (l : ImsCurrentCallList) s h
  (Hinv : conns_inv s) :
  wp (ReportUpdateInfo slotId l)
    (λ r s' e,
       let only_one := one_call (iml_calls l) in
       compared slotId only_one (iml_calls l) (connectionMap_ s) (connectionMap_ s') ∧
       isSilentCsRedial_ s' = isSilentCsRedial_ s ∧
       ∃ e1, Forall not_calls_report e1 ∧
         if register_instance (h ++ e1) then
           r = TELEPHONY_SUCCESS ∧ isIgnoredIncomingCall_ s' = false ∧
           e = e1 ++
             if isIgnoredIncomingCall_ s then []
             else [Report (ReportCallsInfo
                    {| crs_callVec :=
                         (listed_report slotId only_one <$> iml_calls l) ++
                         (lost_report <$> lost l (connectionMap_ s));
                       crs_slotId := slotId |})]
         else
           r = TELEPHONY_ERR_LOCAL_PTR_NULL ∧
           isIgnoredIncomingCall_ s' = isIgnoredIncomingCall_ s ∧ e = e1) s h.
Proof. by apply ims_ReportUpdateInfo_spec. Qed.

Lemma ims_preserves_ReportUpdateInfo slotId (l : ImsCurrentCallList) :
  preserves ims_inv (ReportUpdateInfo slotId l).
Proof.
  intros s h Hinv. eapply wp_mono; [by apply ims_ReportUpdateInfo_spec|].
  intros r s' e [(Hok & Hu & _) _]. by split.
Qed.
End Update.

(** ** The control as a state machine *)

Section Machine.
Context `{CallConsts, Env}.

(** Every operation of the control, and what it runs. *)
Inductive ims_op :=
  | OpDial (callInfo : CellularCallInfo) (isEcc : bool)
  | OpDialAfterHold (slotId : Z)
  | OpRecoverPendingHold
  | OpSkipWaitForRadioOn
  | OpRadioOnTimeout
  | OpSetPendingEmcFlag (flag : bool)
  | OpHangUp (callInfo : CellularCallInfo) (type : Z)
  | OpReject (callInfo : CellularCallInfo)
  | OpAnswer (callInfo : CellularCallInfo)
  | OpHoldCall (slotId : Z) (isRTT : bool)
  | OpUnHoldCall (slotId : Z) (isRTT : bool)
  | OpSwitchCall (slotId : Z) (isRTT : bool)
  | OpCombineConference (slotId : Z)
  | OpHangUpAllConnection (slotId : Z)
  | OpInviteToConference (slotId : Z) (numberList : list string)
  | OpKickOutFromConference (slotId : Z) (str : string) (index : Z)
  | OpUpdateImsRttCallMode (slotId callId mode : Z)
  | OpStartDtmf (c : ascii) (callInfo : CellularCallInfo)
  | OpStopDtmf (callInfo : CellularCallInfo)
  | OpSendDtmf (c : ascii) (callInfo : CellularCallInfo)
  | OpExecutePostDial (slotId callId : Z)
  | OpPostDialProceed (callInfo : CellularCallInfo) (proceed : bool)
  | OpReportImsCallsData (slotId : Z) (l : ImsCurrentCallList) (isNeedQuery : bool)
  | OpUpdateDisconnectedReason (l : ImsCurrentCallList) (reason : Z) (message : string)
  | OpSetSilentCsRedialFlag (flag : bool)
  | OpRestoreConnection (infos : list CellularCallInfo) (slotId : Z)
  | OpReportHangUp (infos : list CellularCallInfo) (slotId : Z)
  | OpReleaseAllConnection.

Definition run_op (op : ims_op) : Op IMSControl () :=
  match op with
  | OpDial ci ecc => Dial ci ecc ;; mret ()
  | OpDialAfterHold slotId => DialAfterHold slotId
  | OpRecoverPendingHold => RecoverPendingHold
  | OpSkipWaitForRadioOn => SkipWaitForRadioOn
  | OpRadioOnTimeout => radio_on_timeout
  | OpSetPendingEmcFlag b => mmodify (setPendingEmcFlag b)
  | OpHangUp ci t => HangUp ci t ;; mret ()
  | OpReject ci => Reject ci ;; mret ()
  | OpAnswer ci => Answer ci ;; mret ()
  | OpHoldCall slotId r => HoldCall slotId r ;; mret ()
  | OpUnHoldCall slotId r => UnHoldCall slotId r ;; mret ()
  | OpSwitchCall slotId r => SwitchCall slotId r ;; mret ()
  | OpCombineConference slotId => CombineConference slotId ;; mret ()
  | OpHangUpAllConnection slotId => HangUpAllConnection slotId ;; mret ()
  | OpInviteToConference slotId l => InviteToConference slotId l ;; mret ()
  | OpKickOutFromConference slotId str i => KickOutFromConference slotId str i ;; mret ()
  | OpUpdateImsRttCallMode slotId i mode => UpdateImsRttCallMode slotId i mode ;; mret ()
  | OpStartDtmf c ci => let! m := mgets connectionMap_ in StartDtmf m c ci ;; mret ()
  | OpStopDtmf ci => let! m := mgets connectionMap_ in StopDtmf m ci ;; mret ()
  | OpSendDtmf c ci => let! m := mgets connectionMap_ in SendDtmf m c ci ;; mret ()
  | OpExecutePostDial slotId i => ExecutePostDial slotId i ;; mret ()
  | OpPostDialProceed ci b => PostDialProceed ci b ;; mret ()
  | OpReportImsCallsData slotId l q => ReportImsCallsData slotId l q ;; mret ()
  | OpUpdateDisconnectedReason l r msg => UpdateDisconnectedReason l r msg
  | OpSetSilentCsRedialFlag b => mmodify (SetSilentCsRedialFlag b)
  | OpRestoreConnection infos slotId => RestoreConnection infos slotId ;; mret ()
  | OpReportHangUp infos slotId => ReportHangUp infos slotId ;; mret ()
  | OpReleaseAllConnection => ReleaseAllConnection
  end.

(** A step of the control, or of the rest of the system. *)
Inductive ims_step : IMSControl * list Effect → IMSControl * list Effect → Prop :=
  | ims_step_op op s h s' e :
      run_op op s h = ((), s', e) → ims_step (s, h) (s', h ++ e)
  | ims_step_other s h e : ims_step (s, h) (s, h ++ e).

Lemma ims_keeps_StartDtmf {S} b ci (m : ImsConnectionMap) : keeps (StartDtmf m b ci : Op S Z).
Proof. unfold StartDtmf. simpl. mauto. Qed.
Lemma ims_keeps_SendDtmf {S} b ci (m : ImsConnectionMap) : keeps (SendDtmf m b ci : Op S Z).
Proof. unfold SendDtmf. simpl. mauto. Qed.
Lemma ims_keeps_StopDtmf {S} ci (m : ImsConnectionMap) : keeps (StopDtmf m ci : Op S Z).
Proof. unfold StopDtmf. simpl. mauto. Qed.
Lemma ims_keeps_GetCallFailReason {S} slotId (m : ImsConnectionMap) :
  keeps (GetCallFailReason slotId m : Op S Z).
Proof. unfold GetCallFailReason. simpl. mauto. Qed.

#[local] Hint Resolve ims_preserves_Dial preserves_DialAfterHold preserves_RecoverPendingHold
  preserves_SkipWaitForRadioOn preserves_radio_on_timeout ims_preserves_HangUp ims_preserves_Reject
  ims_preserves_Answer ims_keeps_HoldCall preserves_UnHoldCall ims_keeps_SwitchCall
  keeps_HangUpAllConnection keeps_KickOutFromConference ims_keeps_StartDtmf ims_keeps_StopDtmf
  ims_keeps_SendDtmf ims_keeps_GetCallFailReason ims_preserves_ExecutePostDial ims_preserves_PostDialProceed
  ims_preserves_ReportUpdateInfo ims_preserves_ReportIncomingInfo ims_preserves_ReportHangUpInfo
  ims_preserves_UpdateDisconnectedReason preserves_RestoreConnection keeps_ReportHangUp : cc.

Lemma ims_preserves_run_op op : preserves ims_inv (run_op op).
Proof.
  destruct op; simpl; try unfold ReportImsCallsData, CombineConference, InviteToConference,
    UpdateImsRttCallMode, ReleaseAllConnection; mauto.
Qed.

Lemma ims_steps_inv st st' : rtc ims_step st st' → conns_inv st.1 → conns_inv st'.1.
Proof.
  induction 1 as [st|st1 st2 st3 Hstep _ IH]; [done|]. intros Hinv. apply IH.
  destruct Hstep as [op s h s' e Hrun|]; [|done].
  pose proof (ims_preserves_run_op op s h Hinv) as Hp. unfold wp in Hp. by rewrite Hrun in Hp.
Qed.

(** The invariant of the IMS control.  From an empty control, whatever
    operations run in whatever order (dials that wait for a hold, restored
    calls and the radio timer included) and whatever the rest of the system
    does in between, the map stays ordered, every call sits under its own
    index, and no call is left marked. *)
Theorem ims_reachable_inv h0 s h
  (Hreach : rtc ims_step (IMSControl_new, h0) (s, h)) :
  conns_inv s ∧
  ∀ i, FindConnectionByIndex (connectionMap_ s) i =
         (λ c, (i, c)) <$> sm_lookup i (connectionMap_ s).
Proof.
  assert (conns_inv s) as Hinv.
  { apply (ims_steps_inv _ _ Hreach). split; [apply conns_ok_nil|apply unmarked_nil]. }
  split; [done|]. intros i. apply FindConnectionByIndex_lookup, Hinv.
Qed.
End Machine.
