(* ===== verification/ImsUser.v ===== *)
(** * ImsUser: user operations on IMS calls

    The dial that waits for a hold, answering with a call on the line, numbers
    and their buffer, the emergency dial that waits for the radio. *)

From stdpp Require Import base tactics option list numbers strings gmap sets relations.
From Stdlib Require Import ZArith Lia Ascii String Sorted.
From S2P Require Import Prelude Platform Samples Standardize StdMap Connection MmiCode.
From S2P Require Import Emergency ControlBase CallMap CallReport ConnectionCS ConnectionIMS.
From S2P Require Import ImsControl ImsControlFacts.

Open Scope Z_scope.

Section HoldToDial.
Context `{CallConsts, Env, !SecurecOk}.
Implicit Types (s : IMSControl) (h e : list Effect) (c : CellularCallConnectionIMS).

(** The address part of a number: up to the first pause or wait. *)
Definition ims_address (n : string) : string := c_str (ExtractAddressAndPostDial n "" "").1.
(** What is handed to the IMS service for a dial. *)
Definition dial_request (slotId : Z) (info : ImsDialInfoStruct) : Effect :=
  Ims (ImsDial {| ic_phoneNum := ims_address (di_phoneNum info); ic_slotId := slotId;
                  ic_videoState := di_videoState info; ic_index := 0;
                  ic_isRTT := di_isRTT info |} (di_clirMode info)).

Lemma IMS_DialRequest_new {S} slotId info (s : S) h :
  NeedCallImsService h = true →
  strlen (ExtractAddressAndPostDial (di_phoneNum info) "" "").1 < kMaxNumberLength →
  ∃ c', with_local (IMS_DialRequest slotId info) CellularCallConnectionIMS_new s h =
    ((reply h (dial_request slotId info), c'), s, [dial_request slotId info]).
Proof.
  intros Hn Hl. unfold with_local, IMS_DialRequest, dial_request, ims_address.
  rewrite memset_s_EOK. cbn [negb]. unfold mthen, mmodify, mgets, mret. cbn [app].
  unfold UpdateCallNumber. simpl.
  destruct (ExtractAddressAndPostDial (di_phoneNum info) "" "") as [addr pd]. simpl in *.
  destruct (Z.ltb_spec kMaxNumberLength (strlen addr + 1)); [lia|].
  rewrite strcpy_s_EOK by (unfold strlen; lia). cbn [negb].
  unfold ask, query. rewrite !app_nil_r.
  assert (ims_client_instance h = true) as ->
    by (unfold NeedCallImsService in Hn; by destruct (ims_client_instance h)).
  simpl. unfold request, call. by eexists.
Qed.

(** What a dial with an active call on the line remembers in that call. *)
Definition held_dial (h : list Effect) slotId (n : string) clir video (c : CellularCallConnectionIMS) : ImsDialInfoStruct :=
  {| di_phoneNum := n; di_clirMode := clir; di_videoState := video;
     di_bEmergencyCall := (IsEmergencyCall h slotId n false).2;
     di_bImsCallFirst := di_bImsCallFirst (holdToDialInfo_ c);
     di_bRoaming := di_bRoaming (holdToDialInfo_ c);
     di_isRTT := di_isRTT (holdToDialInfo_ c) |}.

Lemma DialJudgment_switches slotId n clir video isRTT s h k c :
  (∀ h, NeedCallImsService h = true) → sm_size (connectionMap_ s) ≤ 6 →
  active_call (connectionMap_ s) = Some (k, c) → sm_lookup k (connectionMap_ s) = Some c →
  let switch := Ims (ImsSwitchCall slotId video false) in
  wp (DialJudgment slotId n clir video isRTT)
    (λ r s1 e1, r = reply h switch ∧ e1 = [switch] ∧
      ∃ c2, connectionMap_ s1 = sm_alter (λ _, c2) k (connectionMap_ s) ∧
        IsNeedToDial c2 = true ∧ holdToDialInfo_ c2 = held_dial h slotId n clir video c) s h.
Proof.
  intros Hims Hcan Hactive Hin. unfold DialJudgment. wsteps. unfold CanCall, maximumCalls.
  destruct (Z.leb_spec (sm_size (connectionMap_ s)) 6); [|lia]. cbn [negb]. wsteps.
  rewrite Hactive. wsteps.
  set (emergency := (IsEmergencyCall _ _ _ _).2).
  eapply wp_modify_conn; [done|]. cbn [conns set_conns HasConns_ims]. wsteps.
  change (connectionMap_ (set_pendingPhoneNumber n s)) with (connectionMap_ s).
  eapply ims_wp_modify_conn_again; [done|]. wsteps.
  eapply wp_on_conn; [by eapply sm_lookup_alter_const|].
  unfold IMS_SwitchCallRequest. apply wp_with_ims_client; [done|]. wsteps.
  case_bool_decide; wsteps;
    change (conns (set_connectionMap ?m ?s)) with m; rewrite sm_alter_alter;
    (split; [done|split; [done|]]; eexists; split; [done|]; by split).
Qed.

(** The first confirmation of the hold: one dial, and the call is marked as
    having no dial to make. *)
Lemma DialAfterHold_dials slotId s h k c c2 (m : smap CellularCallConnectionIMS) :
  (∀ h, NeedCallImsService h = true) → smap_ok m → sm_lookup k m = Some c →
  sm_find IsNeedToDial m = None →
  connectionMap_ s = sm_alter (λ _, c2) k m → IsNeedToDial c2 = true →
  strlen (ExtractAddressAndPostDial (di_phoneNum (holdToDialInfo_ c2)) "" "").1 < kMaxNumberLength →
  wp (DialAfterHold slotId)
    (λ _ s2 e2, e2 = [dial_request slotId (holdToDialInfo_ c2)] ∧
       connectionMap_ s2 = sm_alter (λ _, SetDialFlag false c2) k m) s h.
Proof.
  intros Hims Hs Hin Hidle Hm Hn2 Hl. unfold DialAfterHold. wsteps. rewrite Hm.
  rewrite (sm_find_alter _ _ c), Hn2 by done. wsteps.
  eapply wp_read_conn; [change (conns s) with (connectionMap_ s); rewrite Hm;
    by eapply sm_lookup_alter_const|]. wsteps.
  destruct (IMS_DialRequest_new slotId (GetHoldToDialInfo c2) s h) as [cl Hdial]; [done|done|].
  unfold wp at 1. rewrite Hdial. cbn beta. wsteps.
  eapply wp_modify_conn; [change (conns s) with (connectionMap_ s); rewrite Hm;
    by eapply sm_lookup_alter_const|]. wsteps.
  change (conns s) with (connectionMap_ s). rewrite Hm, sm_alter_alter.
  by change (connectionMap_ (set_conns ?m s)) with m.
Qed.

(** C10: a dial with a call on the line, protocol, phase by phase.  While the
    IMS service is there, at most six calls are in the map, none waits to
    dial, some call is active (and not being hung up), and the address part
    of the number fits its buffer, the dial itself only sends one switch
    command, whose answer it returns; nothing is dialled yet.  The first
    confirmation of the hold, whenever it comes, sends exactly one dial, for
    the address part of the number, with its caller-id mode and video state.
    A second confirmation sends nothing and changes nothing, and no call is
    left waiting to dial.  The dial goes out whatever the switch answered,
    and with the RTT flag the connection had, not the caller's. *)
Theorem hold_to_dial_once slotId n clir video isRTT s h k c
  (Hinv : conns_inv s) (Hims : ∀ h, NeedCallImsService h = true)
  (Hcan : sm_size (connectionMap_ s) ≤ 6)
  (Hactive : active_call (connectionMap_ s) = Some (k, c))
  (Hidle : sm_find IsNeedToDial (connectionMap_ s) = None)
  (Hfits : strlen (ExtractAddressAndPostDial n "" "").1 < kMaxNumberLength) :
  let switch := Ims (ImsSwitchCall slotId video false) in
  wp (DialJudgment slotId n clir video isRTT)
    (λ r s1 e1, r = reply h switch ∧ e1 = [switch] ∧
      ∀ h1, wp (DialAfterHold slotId)
        (λ _ s2 e2,
          e2 = [dial_request slotId (held_dial h slotId n clir video c)] ∧
          sm_keys (connectionMap_ s2) = sm_keys (connectionMap_ s) ∧
          ∀ h2, wp (DialAfterHold slotId)
            (λ _ s3 e3, e3 = [] ∧ s3 = s2 ∧ sm_find IsNeedToDial (connectionMap_ s3) = None)
            s2 h2) s1 h1) s h.
Proof.
  cbv zeta. destruct Hinv as [[Hs Hi] _].
  pose proof (sm_find_Some _ _ _ _ Hactive) as [Hin _].
  apply sm_elem_of_lookup in Hin; [|done].
  eapply wp_mono; [by eapply DialJudgment_switches|].
  intros r s1 e1 (-> & -> & c2 & Hm & Hn2 & Hi2). split_and!; [done..|]. intros h1.
  eapply wp_mono; [eapply DialAfterHold_dials; try done; by rewrite Hi2|].
  intros [] s2 e2 (-> & Hm2). rewrite Hi2.
  assert (sm_find IsNeedToDial (connectionMap_ s2) = None) as Hnone
    by (rewrite Hm2; by rewrite (sm_find_alter _ _ c)).
  split_and!; [done|by rewrite Hm2, sm_keys_alter|]. intros h2.
  unfold DialAfterHold. wsteps. rewrite Hnone. by wsteps.
Qed.
End HoldToDial.

(** ** Numbers and their buffers *)

Section Numbers.
Context `{CallConsts, Env}.

Definition number_fits (e : Effect) : Prop :=
  match e with
  | Ims (ImsDial i _) | Ims (ImsHangUp i) | Ims (ImsAnswer i) | Ims (ImsReject i) =>
      string_size (ic_phoneNum i) < kMaxNumberLength
  | _ => True
  end.

Lemma c_str_length s : (String.length (c_str s) ≤ String.length s)%nat.
Proof. induction s as [|x s IH]; simpl; [lia|]. case_match; simpl; lia. Qed.

Lemma sends_with_copied_number {S} (fault : Op S ()) n k :
  string_size n < 2 ^ 31 - 1 → (∀ s h, wp fault (λ _ _ e, Forall number_fits e) s h) →
  (string_size (c_str n) < kMaxNumberLength → sends number_fits k) →
  sends number_fits (with_ims_client fault (copy_number n) k).
Proof.
  intros Hn Hf Hk. unfold with_ims_client. mauto; try done. apply Hk.
  unfold copy_number in *. pose proof (c_str_length n). unfold string_size in *.
  rewrite i32_id in * by lia. repeat case_match; simplify_eq.
  match goal with H : (kMaxNumberLength <? _) = false |- _ => apply Z.ltb_ge in H; lia end.
Qed.

(** No number overruns its buffer.  Every number that a request hands to
    the IMS service, for a dial, a hang-up, an answer or a reject, fits the
    255-byte field of [ImsCallInfo] with its terminating NUL, whatever the
    caller passed (the length is computed in 32 bits, so the passed string
    must be shorter than that range); longer numbers are refused. *)
Theorem ims_numbers_fit {S} slotId n videoState index isRTT info
  (Hn : string_size n < 2 ^ 31 - 1) :
  sends number_fits (IMS_DialRequest slotId info) ∧
  sends number_fits (IMS_HangUpRequest slotId n index : Op S Z) ∧
  sends number_fits (IMS_AnswerRequest slotId n videoState index isRTT : Op S Z) ∧
  sends number_fits (IMS_RejectRequest slotId n index : Op S Z).
Proof.
  split_and!.
  - unfold IMS_DialRequest. mauto; try done. simpl. unfold string_size, strlen in *.
    match goal with H : (kMaxNumberLength <? _) = false |- _ => apply Z.ltb_ge in H; lia end.
  - apply sends_with_copied_number; [done|intros; by repeat constructor|].
    intros Hf. by apply sends_call.
  - apply sends_with_copied_number; [done|intros; by repeat constructor|].
    intros Hf. by apply sends_call.
  - apply sends_with_copied_number; [done|intros; by repeat constructor|].
    intros Hf. by apply sends_call.
Qed.
End Numbers.

(** ** Answering *)

Section AnswerIMS.
Context `{CallConsts, Env, !SecurecOk}.
Implicit Types (s : IMSControl) (h e : list Effect) (c : CellularCallConnectionIMS).

Definition ims_ringing c : bool :=
  bool_decide (c_status c = CALL_STATUS_ALERTING) ||
  bool_decide (c_status c = CALL_STATUS_INCOMING) ||
  bool_decide (c_status c = CALL_STATUS_WAITING).
Definition answer_request (ci : CellularCallInfo) : Effect :=
  Ims (ImsAnswer {| ic_phoneNum := c_str (ci_phoneNum ci); ic_slotId := ci_slotId ci;
                    ic_videoState := ci_videoState ci; ic_index := ci_index ci;
                    ic_isRTT := ci_isRTT ci |}).

(** Answering an IMS call, while the IMS service is there, no call is held
    and the number fits.  A waiting call with an active call on the line that
    is not already being held is answered by one switch command on the active
    call, which is marked as pending hold exactly when the service accepts
    it; so a repeated answer goes through as an answer command.  Any other
    ringing call is answered by one answer command; a call that does not ring
    and an unknown index are errors, and send nothing. *)
Theorem IMS_Answer_spec (ci : CellularCallInfo) s h
  (Hinv : conns_inv s) (Hims : ∀ h, NeedCallImsService h = true)
  (Hheld : IsInState (connectionMap_ s) CALL_STATUS_HOLDING = false)
  (Hfits : string_size (ci_phoneNum ci) < kMaxNumberLength) :
  let m := connectionMap_ s in
  wp (Answer ci)
    (λ r s' e,
      match sm_lookup (ci_index ci) m with
      | None => r = CALL_ERR_CALL_CONNECTION_NOT_EXIST ∧ s' = s ∧ e = []
      | Some c =>
          let answer :=
            s' = s ∧
            if ims_ringing c
            then r = reply h (answer_request ci) ∧ e = [answer_request ci]
            else r = CALL_ERR_CALL_STATE ∧ e = [] in
          match FindConnectionByState m CALL_STATUS_ACTIVE with
          | Some (k, con) =>
              if negb (IsPendingHold con) && bool_decide (c_status c = CALL_STATUS_WAITING) then
                let switch := Ims (ImsSwitchCall (ci_slotId ci) (ci_videoState ci) false) in
                r = reply h switch ∧ e = [switch] ∧
                ∃ con', sm_lookup k (connectionMap_ s') = Some con' ∧
                  IsPendingHold con' = bool_decide (reply h switch = TELEPHONY_SUCCESS)
              else answer
          | None => answer
          end
      end) s h.
Proof.
  cbv zeta. unfold Answer. wsteps. rewrite FindConnectionByIndex_lookup by apply Hinv.
  destruct (sm_lookup (ci_index ci) (connectionMap_ s)) as [c|] eqn:Hc;
    cbn [fmap option_fmap option_map]; [|by wsteps].
  rewrite Hheld. cbn [andb]. wsteps. rewrite bool_decide_false by naive_solver.
  change (GetStatus (conn_base c)) with (c_status c). fold (ims_ringing c).
  assert (wp (if ims_ringing c
              then IMS_AnswerRequest (ci_slotId ci) (ci_phoneNum ci) (ci_videoState ci)
                     (ci_index ci) (ci_isRTT ci)
              else mret CALL_ERR_CALL_STATE)
    (λ r s' e, s' = s ∧ if ims_ringing c
       then r = reply h (answer_request ci) ∧ e = [answer_request ci]
       else r = CALL_ERR_CALL_STATE ∧ e = []) s h) as Hans.
  { destruct (ims_ringing c); [|by wsteps]. unfold IMS_AnswerRequest.
    rewrite copy_number_fits by done. apply wp_with_ims_client; [done|]. by wsteps. }
  destruct (FindConnectionByState _ _) as [[k con]|] eqn:Hcon; [|done].
  destruct (negb (IsPendingHold con) && _) eqn:Hcase; [|done].
  apply andb_true_iff in Hcase as [Hpend%negb_true_iff _].
  apply FindConnectionByState_Some in Hcon as [Hk _]; [|apply Hinv].
  eapply wp_on_conn; [done|]. unfold IMS_SwitchCallRequest.
  apply wp_with_ims_client; [done|]. wsteps.
  case_bool_decide as Hok; wsteps; (split_and!; [done|done|]);
    (eexists; split; [by eapply sm_lookup_alter_const|]); [done|by rewrite Hpend].
Qed.
End AnswerIMS.

(** ** The emergency dial that waits for the radio *)

Section PendingEmergency.
Context `{CallConsts, Env, !SecurecOk, !CallConstsOk}.
Implicit Types (s : IMSControl) (h e : list Effect).

(** The report that ends every call of the slot. *)
Definition all_ended (slotId : Z) (e : list Effect) : Prop :=
  ∃ info, e = [Report (ReportCallsInfo info)] ∧ crs_slotId info = slotId ∧
    Forall (λ r, cr_state r = CALL_STATUS_DISCONNECTED ∧ cr_accountId r = slotId)
      (crs_callVec info) ∧ crs_callVec info ≠ [].
Lemma ims_wp_ReportHangUpInfo slotId s h :
  (∀ h, register_instance h = true) →
  wp (ReportHangUpInfo slotId) (λ r s2 e2, r = TELEPHONY_SUCCESS ∧ connectionMap_ s2 = [] ∧
    if isIgnoredIncomingCall_ s || isSilentCsRedial_ s then e2 = [] else all_ended slotId e2) s h.
Proof.
  intros Hreg. unfold ReportHangUpInfo, ReleaseAllConnection. wsteps.
  rewrite Hreg. cbn [negb]. wsteps. destruct (_ || _) eqn:Hsup.
  { wsteps. apply wp_modify_conns. by wsteps. }
  wsteps. apply wp_modify_conns. wsteps. split_and!; [done|done|]. eexists. split; [done|].
  split; [done|]. simpl. split.
  - destruct (sm_empty _); rewrite ?Forall_app, Forall_fmap;
      [split; [|by repeat constructor]|]; apply Forall_true; by intros [].
  - destruct (connectionMap_ s); done.
Qed.

(** An emergency dial with the radio still off (on a build with
    BASE_POWER_IMPROVEMENT_FEATURE) is neither refused nor dialled: the call
    is remembered, marked pending, and the ten-second timer starts.  If the
    timer fires, the mark is cleared, no call is left and call_manager is
    told that the dial ended (unless the report is being suppressed). *)
Theorem emergency_dial_waits_for_radio (ci : CellularCallInfo) s h
  (Hpower : BASE_POWER_IMPROVEMENT_FEATURE = true)
  (Hreg : ∀ h, register_instance h = true) :
  let h0 := h ++ [HiSys (SetCallParameterInfo (ci_slotId ci) (ci_callType ci)
                           (ci_videoState ci) (ci_isRTT ci))] in
  wp (DialPreJudgment ci true)
    (λ verdict _ _, verdict = CALL_ERR_GET_RADIO_STATE_FAILED →
      wp (Dial ci true)
        (λ r s1 e1,
           r = TELEPHONY_SUCCESS ∧ isPendingEmc_ s1 = true ∧ waitForRadioOn_ s1 = true ∧
           connectionMap_ s1 = connectionMap_ s ∧
           ci_slotId (pendingEmcDialCallInfo_ s1) = ci_slotId ci ∧
           last e1 = Some (FfrtSubmitRadioOnTimeout WAIT_FOR_RADIO_ON) ∧
           ∀ h', wp radio_on_timeout
             (λ _ s2 e2, isPendingEmc_ s2 = false ∧ connectionMap_ s2 = [] ∧
                if isIgnoredIncomingCall_ s || isSilentCsRedial_ s then e2 = []
                else all_ended (ci_slotId ci) e2) s1 h') s h) s h0.
Proof.
  cbv zeta. unfold wp at 1.
  pose proof (keeps_DialPreJudgment (S := IMSControl) ci true s
    (h ++ [HiSys (SetCallParameterInfo (ci_slotId ci) (ci_callType ci)
                    (ci_videoState ci) (ci_isRTT ci))])) as Hk.
  unfold wp in Hk. destruct (DialPreJudgment ci true s _) as [[v s1] ed] eqn:Ed. subst s1.
  intros ->. unfold Dial. wsteps. unfold wp at 1. rewrite Ed. cbn beta. rewrite Hpower.
  rewrite bool_decide_true by done. cbn [andb].
  unfold SavePendingEmcCallInfo. wsteps. rewrite memset_s_EOK, memcpy_s_EOK by lia.
  cbn [negb]. wsteps. split_and!;
    [done|done|done|done|done|by cbn [app]; rewrite app_comm_cons, last_snoc|].
  intros h'. unfold radio_on_timeout. wsteps. eapply wp_mono; [by apply ims_wp_ReportHangUpInfo|].
  intros r s2 e2 (_ & Hm & He). wsteps. split_and!; [done|done|]. exact He.
Qed.
End PendingEmergency.
