(* ===== verification/ConnectionSatellite.v ===== *)
(** * ConnectionSatellite: a satellite call
    (services/connection/src/cellular_call_connection_satellite.cpp)

    Call requests go to the satellite client, DTMF goes to the modem as for a
    circuit-switched call.  The client's methods are the boundary; their
    answers come from the environment. *)

From stdpp Require Import base tactics option list numbers strings.
From Stdlib Require Import ZArith Lia Ascii String.
From S2P Require Import Prelude Platform Samples Standardize StdMap Connection ControlBase.
From S2P Require Import CallMap CallReport ConnectionCS.

Open Scope Z_scope.

Record CellularCallConnectionSatellite := { sat_base : BaseConnection }.
Definition SatelliteConnectionMap := smap CellularCallConnectionSatellite.

#[export] Instance Conn_sat : Conn CellularCallConnectionSatellite := {
  conn_base := sat_base;
  conn_set_base := λ b _, {| sat_base := b |};
  conn_base_set := λ _ _, eq_refl
}.

Section ConnectionSatellite.
Context `{CallConsts, Env}.

Definition CellularCallConnectionSatellite_new : CellularCallConnectionSatellite :=
  {| sat_base := BaseConnection_new |}.

(** The guard of a request. *)
Definition with_sat_client {S} (fault : Op S ()) (k : Op S Z) : Op S Z :=
  let! client := ask satellite_client_instance in
  if negb client then fault ;; mret CALL_ERR_RESOURCE_UNAVAILABLE else k.

Definition Sat_DialRequest (slotId : Z) (dialRequest : DialRequestStruct)
    : Op CellularCallConnectionSatellite Z :=
  let fault (err : Z) (desc : string) :=
    hisys (WriteDialCallFaultEvent slotId INVALID_PARAMETER INVALID_PARAMETER err desc) in
  if negb memset_s_ok then
    fault TELEPHONY_ERR_MEMSET_FAIL "memset_s error"%string ;; mret TELEPHONY_ERR_MEMSET_FAIL
  else
    mmodify (upd (UpdateCallNumber (dr_phoneNum dialRequest))) ;;
    let! this := mgets conn_base in
    let cpyLen := strlen (phoneNumber_ this) + 1 in
    if kMaxNumberLength <? cpyLen then
      mmodify (upd (set_phoneNumber "")) ;; mret TELEPHONY_ERR_STRCPY_FAIL
    else if negb (strcpy_s_ok cpyLen (c_str (phoneNumber_ this))) then
      mmodify (upd (set_phoneNumber "")) ;;
      fault TELEPHONY_ERR_STRCPY_FAIL "strcpy_s fail"%string ;; mret TELEPHONY_ERR_STRCPY_FAIL
    else
      mmodify (upd (set_phoneNumber "")) ;;
      let callInfo :=
        {| sc_phoneNum := c_str (phoneNumber_ this); sc_slotId := slotId;
           sc_index := sc_index SatelliteCallInfo_zero |} in
      with_sat_client
        (fault CALL_ERR_RESOURCE_UNAVAILABLE "satellite vendor service does not exist"%string)
        (request (Sat (SatDial callInfo (dr_clirMode dialRequest)))).

Definition Sat_HangUpRequest (slotId : Z) : Op CellularCallConnectionSatellite Z :=
  with_sat_client (mret ())
    (let! this := mgets conn_base in request (Sat (SatHangUp slotId (GetIndex this)))).
Definition Sat_AnswerRequest {S} (slotId : Z) : Op S Z :=
  with_sat_client (mret ()) (request (Sat (SatAnswer slotId))).
Definition Sat_RejectRequest {S} (slotId : Z) : Op S Z :=
  with_sat_client (mret ()) (request (Sat (SatReject slotId))).
Definition GetSatelliteCallsDataRequest {S} (slotId lastCallsDataFlag : Z) : Op S Z :=
  with_sat_client (mret ()) (request (Sat (SatGetSatelliteCallsData slotId lastCallsDataFlag))).
(** There is no such request: the client is not called. *)
Definition Sat_GetCallFailReasonRequest {S} (slotId : Z) : Op S Z :=
  mret CALL_ERR_RESOURCE_UNAVAILABLE.
Definition Sat_SendDtmfRequest {S} (slotId : Z) (cDtmfCode : ascii) (index : Z) : Op S Z :=
  with_handler slotId no_fault
    (send (Ril slotId RADIO_SEND_DTMF (RilSendDTMF cDtmfCode index)) ;;
     mret TELEPHONY_SUCCESS).
Definition Sat_StartDtmfRequest {S} (slotId : Z) (cDtmfCode : ascii) (index : Z) : Op S Z :=
  with_handler slotId no_fault
    (send (Ril slotId RADIO_START_DTMF (RilStartDTMF cDtmfCode index)) ;;
     mret TELEPHONY_SUCCESS).
Definition Sat_StopDtmfRequest {S} (slotId index : Z) : Op S Z :=
  with_handler slotId no_fault
    (send (Ril slotId RADIO_STOP_DTMF (RilStopDTMF index)) ;; mret TELEPHONY_SUCCESS).

Definition Sat_ProcessPostDialCallChar (slotId : Z) (c : ascii)
    : Op CellularCallConnectionSatellite Z :=
  let! this := mgets conn_base in
  if IsDtmfKey c then
    Sat_SendDtmfRequest slotId c (GetIndex this) ;; mret TELEPHONY_SUCCESS
  else if IsPauseKey c then
    mmodify (upd (SetPostDialCallState POST_DIAL_CALL_PAUSE)) ;;
    let! handle := ask (λ h, GetHandler h slotId) in
    if negb handle then mret CALL_ERR_RESOURCE_UNAVAILABLE
    else
      send (SendEvent slotId (EVENT_EXECUTE_POST_DIAL
        {| pd_callId := GetIndex this; pd_isIms := false |} PAUSE_DELAY_TIME)) ;;
      mret TELEPHONY_SUCCESS
  else if IsWaitKey c then
    mmodify (upd (SetPostDialCallState POST_DIAL_CALL_DELAY)) ;; mret TELEPHONY_SUCCESS
  else mret TELEPHONY_SUCCESS.
End ConnectionSatellite.

#[export] Instance ConnRequests_sat `{CallConsts, Env}
    : ConnRequests CellularCallConnectionSatellite := {
  SendDtmfRequest := @Sat_SendDtmfRequest _ _;
  StartDtmfRequest := @Sat_StartDtmfRequest _ _;
  StopDtmfRequest := @Sat_StopDtmfRequest _ _;
  GetCallFailReasonRequest := @Sat_GetCallFailReasonRequest _
}.

(** ** Lemmas *)

Section Lemmas.
Context `{CallConsts, Env} {S : Type}.

Lemma wp_with_sat_client (fault : Op S ()) (k : Op S Z) Q s h :
  satellite_client_instance h = true → wp k Q s h → wp (with_sat_client fault k) Q s h.
Proof. intros Hn Hk. unfold with_sat_client. wsteps. rewrite Hn. by wsteps. Qed.
Lemma keeps_with_sat_client (fault : Op S ()) k :
  keeps fault → keeps k → keeps (with_sat_client fault k).
Proof. intros Hf Hk. unfold with_sat_client. mauto. Qed.
Lemma sends_with_sat_client P (fault : Op S ()) k :
  sends P fault → sends P k → sends P (with_sat_client fault k).
Proof. intros Hf Hk. unfold with_sat_client. mauto. Qed.

End Lemmas.

Section Requests.
Context `{CallConsts, Env} {S : Type}.

Lemma keeps_Sat_AnswerRequest slotId : keeps (Sat_AnswerRequest slotId : Op S Z).
Proof. unfold Sat_AnswerRequest. apply keeps_with_sat_client; mauto. Qed.
Lemma keeps_Sat_RejectRequest slotId : keeps (Sat_RejectRequest slotId : Op S Z).
Proof. unfold Sat_RejectRequest. apply keeps_with_sat_client; mauto. Qed.
Lemma keeps_Sat_HangUpRequest slotId : keeps (Sat_HangUpRequest slotId).
Proof. unfold Sat_HangUpRequest. apply keeps_with_sat_client; mauto. Qed.
Lemma keeps_Sat_SendDtmfRequest slotId c i : keeps (Sat_SendDtmfRequest slotId c i : Op S Z).
Proof. unfold Sat_SendDtmfRequest. mauto. Qed.
Lemma keeps_Sat_StartDtmfRequest slotId c i : keeps (Sat_StartDtmfRequest slotId c i : Op S Z).
Proof. unfold Sat_StartDtmfRequest. mauto. Qed.
Lemma keeps_Sat_StopDtmfRequest slotId i : keeps (Sat_StopDtmfRequest slotId i : Op S Z).
Proof. unfold Sat_StopDtmfRequest. mauto. Qed.
End Requests.
#[export] Hint Resolve keeps_Sat_AnswerRequest keeps_Sat_RejectRequest keeps_Sat_HangUpRequest
  keeps_Sat_SendDtmfRequest keeps_Sat_StartDtmfRequest keeps_Sat_StopDtmfRequest : cc.

Section PostDialSat.
Context `{CallConsts, Env}.

Lemma Sat_process_char_spec slotId ch (c : CellularCallConnectionSatellite) h :
  postDialCalltate_ (conn_base c) = POST_DIAL_CALL_STARTED →
  wp (Sat_ProcessPostDialCallChar slotId ch)
    (λ _ c' _, conn_base c' =
       SetPostDialCallState (post_dial_next_state ch) (conn_base c)) c h.
Proof.
  intros Hs. unfold Sat_ProcessPostDialCallChar, post_dial_next_state. wsteps.
  assert (SetPostDialCallState POST_DIAL_CALL_STARTED (conn_base c) = conn_base c) as Hid
    by (destruct c as [[]]; simpl in *; by subst).
  destruct (IsDtmfKey ch).
  { wsteps. eapply wp_mono; [apply keeps_Sat_SendDtmfRequest|].
    intros ? ? ? ->. cbn beta. wsteps. by rewrite Hid. }
  destruct (IsPauseKey ch); [|destruct (IsWaitKey ch); wsteps; by rewrite ?Hid].
  wsteps. destruct (GetHandler _ _); cbn [negb]; by wsteps.
Qed.
End PostDialSat.

#[export] Instance PostDial_sat `{CallConsts, Env} : PostDial CellularCallConnectionSatellite := {
  ProcessPostDialCallChar := Sat_ProcessPostDialCallChar;
  process_char_spec := Sat_process_char_spec
}.
