(* ===== verification/SatelliteControl.v ===== *)
(** * SatelliteControl: control of satellite calls
    (services/control/src/satellite_control.cpp)

    As the circuit-switched control, with less: no hold, no conference, no
    reason for the end of a call, and an emergency number is dialled as any
    other. *)

From stdpp Require Import base tactics option list numbers strings gmap sets.
From Stdlib Require Import ZArith Lia Ascii String Sorted.
From S2P Require Import Prelude Platform Samples Standardize StdMap Connection MmiCode.
From S2P Require Import Emergency ControlBase CallMap CallReport ConnectionCS.
From S2P Require Import ConnectionSatellite.

Open Scope Z_scope.

Record SatelliteControl := {
  connectionMap_ : SatelliteConnectionMap;
  pendingPhoneNumber_ : string;
  isIgnoredIncomingCall_ : bool
}.
Definition SatelliteControl_new : SatelliteControl :=
  {| connectionMap_ := []; pendingPhoneNumber_ := ""; isIgnoredIncomingCall_ := false |}.
Definition set_connectionMap (m : SatelliteConnectionMap) (s : SatelliteControl)
    : SatelliteControl :=
  {| connectionMap_ := m; pendingPhoneNumber_ := pendingPhoneNumber_ s;
     isIgnoredIncomingCall_ := isIgnoredIncomingCall_ s |}.
Definition set_pendingPhoneNumber (v : string) (s : SatelliteControl) : SatelliteControl :=
  {| connectionMap_ := connectionMap_ s; pendingPhoneNumber_ := v;
     isIgnoredIncomingCall_ := isIgnoredIncomingCall_ s |}.
Definition set_isIgnoredIncomingCall (v : bool) (s : SatelliteControl) : SatelliteControl :=
  {| connectionMap_ := connectionMap_ s; pendingPhoneNumber_ := pendingPhoneNumber_ s;
     isIgnoredIncomingCall_ := v |}.

#[export] Instance HasConns_sat : HasConns SatelliteControl CellularCallConnectionSatellite := {
  conns := connectionMap_;
  set_conns := set_connectionMap;
  conns_set := λ _ _, eq_refl
}.

Section SatelliteControl.
Context `{CallConsts, Env}.

(** ** User operations *)

Definition EncapsulateDialCommon (slotId : Z) (phoneNum : string) (clirMode : CLIRMode)
    : Op SatelliteControl Z :=
  mmodify (set_pendingPhoneNumber phoneNum) ;;
  let dialRequest := {| dr_phoneNum := phoneNum; dr_clirMode := clirMode |} in
  let! (ret, _) := with_local (Sat_DialRequest slotId dialRequest)
                     CellularCallConnectionSatellite_new in
  mret ret.

(** [isEcc] is not used. *)
Definition Dial (callInfo : CellularCallInfo) (isEcc : bool) : Op SatelliteControl Z :=
  hisys (SetCallParameterInfo (ci_slotId callInfo) (ci_callType callInfo)
           (ci_videoState callInfo) (ci_isRTT callInfo)) ;;
  let! ret := DialPreJudgment callInfo false in
  if bool_decide (ret ≠ TELEPHONY_SUCCESS) then mret ret
  else
    let newPhoneNum := RemoveSeparatorsPhoneNumber (ci_phoneNum callInfo) in
    let! (mmi, newPhoneNum, clirMode) :=
      IsNeedExecuteMMI (ci_slotId callInfo) newPhoneNum DEFAULT false in
    if (mmi : bool) then mret RETURN_TYPE_MMI
    else
      let! m := mgets connectionMap_ in
      if negb (CanCall m) then
        hisys (WriteDialCallFaultEvent (ci_slotId callInfo) (ci_callType callInfo)
                 (ci_videoState callInfo) CALL_ERR_CALL_COUNTS_EXCEED_LIMIT
                 "DSatellite dial call state error") ;;
        mret CALL_ERR_CALL_COUNTS_EXCEED_LIMIT
      else EncapsulateDialCommon (ci_slotId callInfo) newPhoneNum clirMode.

Definition hangup_fault {S} (callInfo : CellularCallInfo) (err : Z) (desc : string) : Op S () :=
  hisys (WriteHangUpFaultEvent (ci_slotId callInfo) (ci_callId callInfo) err desc).
Definition report_disconnecting (p : Z * CellularCallConnectionSatellite)
    : Op SatelliteControl () :=
  let! register := ask register_instance in
  if (register : bool) then
    let! info := read_conn p (λ c, GetCallReportInfo (conn_base c)) in
    report (ReportSingleCallInfo info CALL_STATUS_DISCONNECTING)
  else mret ().

Definition HangUp (callInfo : CellularCallInfo) (type : Z) : Op SatelliteControl Z :=
  if bool_decide (type = TYPE_DEFAULT) then
    let! m := mgets connectionMap_ in
    match FindConnectionByIndex m (ci_index callInfo) with
    | None =>
        hangup_fault callInfo CALL_ERR_CALL_CONNECTION_NOT_EXIST "HangUp pConnection is null" ;;
        mret CALL_ERR_CALL_CONNECTION_NOT_EXIST
    | Some p =>
        report_disconnecting p ;;
        on_conn p (Sat_HangUpRequest (ci_slotId callInfo))
    end
  else
    hangup_fault callInfo TELEPHONY_ERR_ARGUMENT_INVALID "HangUp type is invalid" ;;
    mret TELEPHONY_ERR_ARGUMENT_INVALID.

Definition answer_fault {S} (callInfo : CellularCallInfo) (err : Z) (desc : string) : Op S () :=
  hisys (WriteAnswerCallFaultEvent (ci_slotId callInfo) (ci_callId callInfo)
           (ci_videoState callInfo) err desc).

Definition Answer (callInfo : CellularCallInfo) : Op SatelliteControl Z :=
  let! m := mgets connectionMap_ in
  match FindConnectionByIndex m (ci_index callInfo) with
  | None =>
      answer_fault callInfo CALL_ERR_CALL_CONNECTION_NOT_EXIST "get connection data is null" ;;
      mret CALL_ERR_CALL_CONNECTION_NOT_EXIST
  | Some (_, c) =>
      (if IsInState m CALL_STATUS_ACTIVE ||
          bool_decide (GetStatus (conn_base c) = CALL_STATUS_WAITING) then
         match FindConnectionByState m CALL_STATUS_ACTIVE with
         | Some con => on_conn con (Sat_HangUpRequest (ci_slotId callInfo)) ;; mret ()
         | None => mret ()
         end
       else mret ()) ;;
      if bool_decide (GetStatus (conn_base c) = CALL_STATUS_INCOMING) ||
         bool_decide (GetStatus (conn_base c) = CALL_STATUS_ALERTING) ||
         bool_decide (GetStatus (conn_base c) = CALL_STATUS_WAITING)
      then Sat_AnswerRequest (ci_slotId callInfo)
      else
        answer_fault callInfo CALL_ERR_CALL_STATE "call state error phone not ringing" ;;
        mret CALL_ERR_CALL_STATE
  end.

Definition Reject (callInfo : CellularCallInfo) : Op SatelliteControl Z :=
  let! m := mgets connectionMap_ in
  match FindConnectionByIndex m (ci_index callInfo) with
  | None =>
      hangup_fault callInfo CALL_ERR_CALL_CONNECTION_NOT_EXIST "Reject pConnection is null" ;;
      mret CALL_ERR_CALL_CONNECTION_NOT_EXIST
  | Some p =>
      let! ringing := read_conn p (λ c, IsRingingState (conn_base c)) in
      if negb ringing then
        hangup_fault callInfo CALL_ERR_CALL_STATE "Reject call state error phone not ringing" ;;
        mret CALL_ERR_CALL_STATE
      else
        report_disconnecting p ;;
        Sat_RejectRequest (ci_slotId callInfo)
  end.

Definition HoldCall {S} (slotId : Z) (isRTT : bool) : Op S Z := mret TELEPHONY_ERROR.
Definition UnHoldCall {S} (slotId : Z) (isRTT : bool) : Op S Z := mret TELEPHONY_ERROR.
Definition SwitchCall {S} (slotId : Z) (isRTT : bool) : Op S Z := mret TELEPHONY_ERROR.
Definition CombineConference {S} (slotId : Z) : Op S Z := mret TELEPHONY_ERROR.
Definition HangUpAllConnection {S} (slotId : Z) : Op S Z :=
  Sat_RejectRequest slotId ;; mret TELEPHONY_SUCCESS.
Definition ReportCallsData {S} (slotId : Z) (callInfoList : CallInfoList) : Op S Z :=
  mret TELEPHONY_ERROR.

(** The int64_t [callId] is narrowed; see [CsControl.ExecutePostDial]. *)
Definition ExecutePostDial (slotId callId : Z) : Op SatelliteControl Z :=
  post_dial_step slotId (i32 callId).
Definition PostDialProceed (callInfo : CellularCallInfo) (proceed : bool)
    : Op SatelliteControl Z :=
  let! m := mgets connectionMap_ in
  match FindConnectionByIndex m (ci_index callInfo) with
  | None => mret TELEPHONY_ERR_LOCAL_PTR_NULL
  | Some (k, c) =>
      (if proceed then
         post_dial_step (ci_slotId callInfo) (GetIndex (conn_base c)) ;; mret ()
       else modify_conn (k, c) (upd (SetPostDialCallState POST_DIAL_CALL_CANCELED))) ;;
      mret TELEPHONY_SUCCESS
  end.

(** ** Reports of the satellite service *)

Definition EncapsulationCallReportInfo (slotId : Z) (callInfo : SatelliteCurrentCall)
    : CallReportInfo :=
  let d := zeroed CallReportInfo_init CallReportInfo_zero in
  if negb memset_s_ok then d
  else
    let cpyLen := strlen (sa_number callInfo) + 1 in
    if kMaxNumberLen + 1 <? cpyLen then d
    else if negb (strcpy_s_ok cpyLen (c_str (sa_number callInfo))) then d
    else
      {| cr_accountNum := c_str (sa_number callInfo);
         cr_index := sa_index callInfo;
         cr_accountId := slotId;
         cr_voiceDomain := sa_voiceDomain callInfo;
         cr_state := sa_state callInfo;
         cr_callType := TYPE_SATELLITE;
         cr_callMode := TYPE_VOICE;
         cr_mpty := sa_mpty callInfo;
         cr_name := cr_name d; cr_namePresentation := cr_namePresentation d;
         cr_reason := cr_reason d; cr_message := cr_message d; cr_crsType := cr_crsType d;
         cr_originalCallType := cr_originalCallType d;
         cr_newCallUseBox := cr_newCallUseBox d; cr_rttState := cr_rttState d;
         cr_rttChannelId := cr_rttChannelId d; cr_imsDomain := cr_imsDomain d;
         cr_isPendingHold := cr_isPendingHold d |}.

Definition lost_report (c : CellularCallConnectionSatellite) : CallReportInfo :=
  cr_set_state CALL_STATUS_DISCONNECTED (GetCallReportInfo (conn_base c)).
(** One query of the fail reason per erased call; it has no effect here. *)
Definition DeleteConnection (slotId : Z) (callVec : list CallReportInfo)
    : Op SatelliteControl (list CallReportInfo) :=
  let! m := mgets connectionMap_ in
  let '(m', callVec') := DeleteConnection_loop lost_report m callVec in
  mmodify (set_connectionMap m') ;;
  mfor (unflagged m) (λ _, GetCallFailReason slotId m ;; mret ()) ;;
  mret callVec'.

Definition ReportUpdateInfo_call (slotId : Z) (call : SatelliteCurrentCall)
    : Op SatelliteControl CallReportInfo :=
  let reportInfo := EncapsulationCallReportInfo slotId call in
  let! m := mgets connectionMap_ in
  match FindConnectionByIndex m (sa_index call) with
  | None =>
      let connection :=
        upd (SetNumber (sa_number call)) (upd (SetIndex (sa_index call))
          (upd (SetFlag true) (upd (SetOrUpdateCallReportInfo reportInfo)
            CellularCallConnectionSatellite_new))) in
      modify_conns (λ m, (SetConnectionData m (sa_index call) connection).2)
  | Some p =>
      modify_conn p (upd (SetFlag true)) ;;
      modify_conn p (upd (SetIndex (sa_index call))) ;;
      modify_conn p (upd (SetOrUpdateCallReportInfo reportInfo)) ;;
      modify_conn p (upd (SetNumber (sa_number call)))
  end ;;
  mret reportInfo.

Definition ReportUpdateInfo (slotId : Z) (callInfoList : SatelliteCurrentCallList)
    : Op SatelliteControl Z :=
  let! callVec := mcollect (sal_calls callInfoList) (ReportUpdateInfo_call slotId) in
  let! callVec := DeleteConnection slotId callVec in
  let! register := ask register_instance in
  if negb register then mret TELEPHONY_ERR_LOCAL_PTR_NULL
  else
    let! ignored := mgets isIgnoredIncomingCall_ in
    (if negb ignored
     then report (ReportCallsInfo {| crs_callVec := callVec; crs_slotId := slotId |})
     else mret ()) ;;
    mret TELEPHONY_SUCCESS.

Definition ReportIncomingInfo (slotId : Z) (callInfoList : SatelliteCurrentCallList)
    : Op SatelliteControl Z :=
  let! callVec := mcollect (sal_calls callInfoList) (λ call,
    let cellularCallReportInfo := EncapsulationCallReportInfo slotId call in
    let connection :=
      upd (SetNumber (sa_number call))
        (upd (SetOrUpdateCallReportInfo cellularCallReportInfo)
          (upd (SetIndex (sa_index call)) (upd (SetStatus (sa_state call))
            CellularCallConnectionSatellite_new))) in
    modify_conns (λ m, (SetConnectionData m (sa_index call) connection).2) ;;
    mret cellularCallReportInfo) in
  let! register := ask register_instance in
  if negb register then mret TELEPHONY_ERR_ARGUMENT_INVALID
  else
    let! registered := ask IsCallManagerCallBackRegistered in
    (if negb registered &&
        match callVec with
        | first :: _ => bool_decide (cr_state first = CALL_STATUS_INCOMING)
        | [] => false
        end
     then mmodify (set_isIgnoredIncomingCall true)
     else report (ReportCallsInfo {| crs_callVec := callVec; crs_slotId := slotId |})) ;;
    mret TELEPHONY_SUCCESS.

Definition ReleaseAllConnection : Op SatelliteControl () := modify_conns (λ _, []).
Definition GetConnectionMap : Op SatelliteControl SatelliteConnectionMap := mgets connectionMap_.

Definition ReportHangUpInfo (slotId : Z) : Op SatelliteControl Z :=
  let! m := mgets connectionMap_ in
  let callVec := (λ '(_, c),
    cr_set_accountId slotId
      (cr_set_state CALL_STATUS_DISCONNECTED (GetCallReportInfo (conn_base c)))) <$> m in
  mfor m (λ _, GetCallFailReason slotId m ;; mret ()) ;;
  let callVec :=
    if sm_empty m then
      callVec ++ [cr_set_accountId slotId
                    (cr_set_state CALL_STATUS_DISCONNECTED CallReportInfo_init)]
    else callVec in
  let! register := ask register_instance in
  if negb register then mret TELEPHONY_ERR_LOCAL_PTR_NULL
  else
    let! ignored := mgets isIgnoredIncomingCall_ in
    (if (ignored : bool) then mmodify (set_isIgnoredIncomingCall false)
     else report (ReportCallsInfo {| crs_callVec := callVec; crs_slotId := slotId |})) ;;
    ReleaseAllConnection ;;
    mret TELEPHONY_SUCCESS.

Definition ReportSatelliteCallsData (slotId : Z) (callInfoList : SatelliteCurrentCallList)
    : Op SatelliteControl Z :=
  let! m := mgets connectionMap_ in
  if sal_callSize callInfoList <=? 0 then ReportHangUpInfo slotId
  else if (0 <? sal_callSize callInfoList) && sm_empty m then
    ReportIncomingInfo slotId callInfoList
  else if (0 <? sal_callSize callInfoList) && negb (sm_empty m) then
    ReportUpdateInfo slotId callInfoList
  else mret TELEPHONY_ERROR.

(** [inl r]: the function returns [r]; [inr l]: what the loop collected. *)
Fixpoint ReportHangUp_loop (infos : list CellularCallInfo) (slotId : Z)
    : Z + list CallReportInfo :=
  match infos with
  | [] => inr []
  | info :: infos' =>
      if bool_decide (ci_callType info = TYPE_SATELLITE) && bool_decide (ci_slotId info = slotId)
      then
        if negb memset_s_ok then inl TELEPHONY_ERR_MEMSET_FAIL
        else if negb (memcpy_s_ok kMaxNumberLen kMaxNumberLen) then inl TELEPHONY_ERR_MEMCPY_FAIL
        else
          let d := CallReportInfo_init in
          let satelliteCallReportInfo :=
            {| cr_accountNum :=
                 String.substring 0 (Z.to_nat kMaxNumberLen) (ci_phoneNum info);
               cr_index := ci_index info; cr_accountId := ci_slotId info;
               cr_voiceDomain := cr_voiceDomain d; cr_state := CALL_STATUS_DISCONNECTED;
               cr_callType := TYPE_SATELLITE; cr_callMode := TYPE_VOICE; cr_mpty := cr_mpty d;
               cr_name := cr_name d; cr_namePresentation := cr_namePresentation d;
               cr_reason := cr_reason d; cr_message := cr_message d;
               cr_crsType := cr_crsType d; cr_originalCallType := cr_originalCallType d;
               cr_newCallUseBox := cr_newCallUseBox d; cr_rttState := cr_rttState d;
               cr_rttChannelId := cr_rttChannelId d; cr_imsDomain := cr_imsDomain d;
               cr_isPendingHold := cr_isPendingHold d |} in
          match ReportHangUp_loop infos' slotId with
          | inl r => inl r
          | inr callVec => inr (satelliteCallReportInfo :: callVec)
          end
      else ReportHangUp_loop infos' slotId
  end.
Definition ReportHangUp (infos : list CellularCallInfo) (slotId : Z) : Op SatelliteControl Z :=
  match ReportHangUp_loop infos slotId with
  | inl ret => mret ret
  | inr callVec =>
      let! register := ask register_instance in
      if negb register then mret TELEPHONY_ERR_LOCAL_PTR_NULL
      else
        report (ReportCallsInfo {| crs_callVec := callVec; crs_slotId := slotId |}) ;;
        ReleaseAllConnection ;;
        mret TELEPHONY_SUCCESS
  end.
End SatelliteControl.
