(* ===== verification/SatelliteFacts.v ===== *)
(** * SatelliteFacts: what the satellite control guarantees

    - the comparison of a satellite call list with the calls known so far;
    - the invariant of the connection map under every operation, in any order;
    - answering: satellite has no hold, so an active call is hung up;
    - dialling: at most one dial goes out, for a number that fits. *)

From stdpp Require Import base tactics option list numbers strings gmap sets relations.
From Stdlib Require Import ZArith Lia Ascii String Sorted.
From S2P Require Import Prelude Platform Samples Standardize StdMap Connection MmiCode.
From S2P Require Import Emergency ControlBase CallMap CallReport ConnectionCS.
From S2P Require Import ConnectionSatellite SatelliteControl.

Open Scope Z_scope.

(** ** The comparison of a call list with the map *)

Section Update.
Context `{CallConsts, Env}.
Implicit Types (s : SatelliteControl) (h e : list Effect) (l : list SatelliteCurrentCall).

(** Satellite connections keep nothing of their own across a comparison. *)
Definition sat_own (c : CellularCallConnectionSatellite) : () := ().

Abbreviation updated slotId :=
  (updated sa_number (EncapsulationCallReportInfo slotId) sat_own ()).
Abbreviation compared slotId :=
  (compared sa_index sa_number (EncapsulationCallReportInfo slotId) sat_own ()).
Abbreviation lost l := (lost sa_index (sal_calls l)).

Lemma sat_wp_modify_conn_again i c0 c1 c' m f s Q h :
  sm_lookup i m = Some c0 →
  Q () (set_connectionMap (sm_alter (λ _, f c1) i m) s) [] →
  wp (modify_conn (i, c') f) Q (set_connectionMap (sm_alter (λ _, c1) i m) s) h.
Proof.
  intros Hc HQ. eapply wp_modify_conn; [by eapply sm_lookup_alter_const|].
  cbn [conns set_conns HasConns_sat connectionMap_ set_connectionMap pendingPhoneNumber_
       isIgnoredIncomingCall_].
  by rewrite sm_alter_alter.
Qed.

Lemma sat_ReportUpdateInfo_call_spec slotId call s h :
  conns_ok (connectionMap_ s) →
  wp (ReportUpdateInfo_call slotId call)
    (λ r s' _, r = EncapsulationCallReportInfo slotId call ∧
       isIgnoredIncomingCall_ s' = isIgnoredIncomingCall_ s ∧
       conns_ok (connectionMap_ s') ∧
       (∀ k, k ≠ sa_index call →
          sm_lookup k (connectionMap_ s') = sm_lookup k (connectionMap_ s)) ∧
       ∃ c, sm_lookup (sa_index call) (connectionMap_ s') = Some c ∧
            updated slotId call (sm_lookup (sa_index call) (connectionMap_ s)) c) s h.
Proof.
  intros Hok. unfold ReportUpdateInfo_call.
  set (r := EncapsulationCallReportInfo slotId call). set (i := sa_index call).
  wsteps. rewrite FindConnectionByIndex_lookup by done.
  destruct (sm_lookup i (connectionMap_ s)) as [c|] eqn:Hc; cbn [fmap option_fmap option_map].
  - wsteps. eapply wp_modify_conn; [done|]. cbn [conns set_conns HasConns_sat]. wsteps.
    do 3 (eapply sat_wp_modify_conn_again; [done|]; wsteps).
    split_and!; [done|done|by apply conns_ok_alter| |].
    + intros k Hk. simpl. by rewrite sm_lookup_alter, bool_decide_false.
    + eexists. split; [by eapply sm_lookup_alter_const|done].
  - wsteps. apply wp_modify_conns. wsteps. simpl.
    split_and!; [done|done| | |].
    + by apply conns_ok_insert.
    + intros k Hk. by rewrite sm_lookup_insert_fresh, bool_decide_false by (done || apply Hok).
    + eexists. rewrite sm_lookup_insert_fresh, bool_decide_true by (done || apply Hok).
      done.
Qed.
Lemma sat_ReportUpdateInfo_call_sends slotId call :
  sends (λ _, False) (ReportUpdateInfo_call slotId call).
Proof. unfold ReportUpdateInfo_call. mauto. Qed.

(** The query of the fail reason does nothing. *)
Lemma wp_fail_reason_loop {A} slotId (m : SatelliteConnectionMap) (l : list A)
  (Q : () → SatelliteControl → list Effect → Prop) s h :
  Q () s [] → wp (mfor l (λ _, GetCallFailReason slotId m ;; mret ())) Q s h.
Proof.
  intros HQ. induction l as [|x l IH]; simpl; [done|]. apply wp_then.
  unfold GetCallFailReason. simpl. unfold Sat_GetCallFailReasonRequest. by wsteps.
Qed.

Definition update_post slotId (l : SatelliteCurrentCallList) s h (r : Z) s' e : Prop :=
  compared slotId (sal_calls l) (connectionMap_ s) (connectionMap_ s') ∧
  isIgnoredIncomingCall_ s' = isIgnoredIncomingCall_ s ∧
  if register_instance h then
    r = TELEPHONY_SUCCESS ∧
    e = if isIgnoredIncomingCall_ s then []
        else [Report (ReportCallsInfo
               {| crs_callVec :=
                    (EncapsulationCallReportInfo slotId <$> sal_calls l) ++
                    (lost_report <$> lost l (connectionMap_ s));
                  crs_slotId := slotId |})]
  else r = TELEPHONY_ERR_LOCAL_PTR_NULL ∧ e = [].

Lemma sat_ReportUpdateInfo_spec slotId (l : SatelliteCurrentCallList) s h :
  conns_inv s → wp (ReportUpdateInfo slotId l) (update_post slotId l s h) s h.
Proof.
  intros [Hok Hu]. unfold update_post, ReportUpdateInfo, DeleteConnection.
  apply wp_then. eapply wp_mono;
    [apply (mark_phase (P := λ _, False) sa_index sa_number (EncapsulationCallReportInfo slotId) sat_own ()
      isIgnoredIncomingCall_); [apply sat_ReportUpdateInfo_call_sends|
      intros; by apply sat_ReportUpdateInfo_call_spec|done]|].
  intros bs s1 e1 (-> & Hig & Hmark & He1). cbn beta.
  destruct e1 as [|x e1]; [|by inversion He1]. clear He1. wsteps.
  rewrite DeleteConnection_loop_sweep. wsteps.
  change (connectionMap_ s1) with (conns s1).
  rewrite (marked_lost _ _ _ _ _ _ _ _ Hok Hu Hmark).
  apply marked_swept in Hmark; [|done..].
  apply wp_fail_reason_loop. wsteps.
  destruct (register_instance _) eqn:Hreg; cbn [negb]; wsteps.
  - cbn [isIgnoredIncomingCall_ set_connectionMap]. rewrite Hig.
    destruct (isIgnoredIncomingCall_ s) eqn:Hi; cbn [negb]; wsteps;
      (split_and!; [done|simpl; congruence|done|done]).
  - done.
Qed.

(** The comparison of a satellite call list with the calls known so far.
    Afterwards the map holds exactly one call per listed index, with the
    report and the number of the last entry for its index; no call stays
    marked.  Exactly one report goes up and nothing else is sent (unless an
    ignored incoming call suppresses it): every listed call in list order,
    then every call that is gone, as disconnected, with its last report
    otherwise unchanged: a satellite call has no reason of its own. *)
Theorem Sat_ReportUpdateInfo_diff slotId (l : SatelliteCurrentCallList) s h
  (Hinv : conns_inv s) :
  wp (ReportUpdateInfo slotId l)
    (λ r s' e,
       compared slotId (sal_calls l) (connectionMap_ s) (connectionMap_ s') ∧
       isIgnoredIncomingCall_ s' = isIgnoredIncomingCall_ s ∧
       if register_instance h then
         r = TELEPHONY_SUCCESS ∧
         e = if isIgnoredIncomingCall_ s then []
             else [Report (ReportCallsInfo
                    {| crs_callVec :=
                         (EncapsulationCallReportInfo slotId <$> sal_calls l) ++
                         (lost_report <$> lost l (connectionMap_ s));
                       crs_slotId := slotId |})]
       else r = TELEPHONY_ERR_LOCAL_PTR_NULL ∧ e = []) s h.
Proof. by apply sat_ReportUpdateInfo_spec. Qed.

Lemma sat_preserves_ReportUpdateInfo slotId (l : SatelliteCurrentCallList) :
  preserves (conns_inv (S := SatelliteControl)) (ReportUpdateInfo slotId l).
Proof.
  intros s h Hinv. eapply wp_mono; [by apply sat_ReportUpdateInfo_spec|].
  intros r s' e [(Hok & Hu & _) _]. by split.
Qed.
End Update.
#[export] Hint Resolve sat_preserves_ReportUpdateInfo : cc.

(** ** The control as a state machine *)

Section Preservation.
Context `{CallConsts, Env}.
Abbreviation inv := (conns_inv (S := SatelliteControl)).

Lemma sat_preserves_set_pending v :
  preserves inv (mmodify (set_pendingPhoneNumber v) : Op SatelliteControl ()).
Proof. by apply preserves_modify. Qed.
Lemma sat_preserves_set_ignored v :
  preserves inv (mmodify (set_isIgnoredIncomingCall v) : Op SatelliteControl ()).
Proof. by apply preserves_modify. Qed.
Lemma preserves_fail_reason {A} slotId (m : SatelliteConnectionMap) (l : list A) :
  preserves inv (mfor l (λ _, GetCallFailReason slotId m ;; mret ())).
Proof. intros s h Hs. by apply wp_fail_reason_loop. Qed.
#[local] Hint Resolve sat_preserves_set_pending sat_preserves_set_ignored preserves_fail_reason : cc.

Lemma sat_preserves_Dial ci ecc : preserves inv (Dial ci ecc).
Proof. unfold Dial, EncapsulateDialCommon. mauto. Qed.
Lemma sat_preserves_HangUp ci t : preserves inv (HangUp ci t).
Proof. unfold HangUp, hangup_fault, report_disconnecting. mauto. Qed.
Lemma keeps_Reject ci : keeps (Reject ci).
Proof. unfold Reject, hangup_fault, report_disconnecting. mauto. Qed.
Lemma sat_preserves_Answer ci : preserves inv (Answer ci).
Proof. unfold Answer, answer_fault. mauto. Qed.
Lemma sat_preserves_ExecutePostDial slotId i : preserves inv (ExecutePostDial slotId i).
Proof. apply preserves_post_dial_step. Qed.
Lemma sat_preserves_PostDialProceed ci b : preserves inv (PostDialProceed ci b).
Proof. unfold PostDialProceed. mauto. by apply preserves_modify_conn. Qed.
Lemma sat_preserves_ReportHangUpInfo slotId : preserves inv (ReportHangUpInfo slotId).
Proof. unfold ReportHangUpInfo, ReleaseAllConnection. mauto. Qed.
Lemma sat_preserves_ReportHangUp infos slotId : preserves inv (ReportHangUp infos slotId).
Proof. unfold ReportHangUp, ReleaseAllConnection. mauto. Qed.
Lemma sat_preserves_ReportIncomingInfo slotId l : preserves inv (ReportIncomingInfo slotId l).
Proof.
  unfold ReportIncomingInfo. mauto. intros s h [Hok Hu]. apply wp_modify_conns.
  unfold conns_inv. rewrite conns_set. unfold SetConnectionData. simpl. split.
  - by apply conns_ok_insert.
  - apply unmarked_insert; [apply Hok|done|done].
Qed.
End Preservation.

Section Machine.
Context `{CallConsts, Env}.

(** Every operation of the control, and what it runs. *)
Inductive sat_op :=
  | OpDial (callInfo : CellularCallInfo) (isEcc : bool)
  | OpHangUp (callInfo : CellularCallInfo) (type : Z)
  | OpReject (callInfo : CellularCallInfo)
  | OpAnswer (callInfo : CellularCallInfo)
  | OpHoldCall (slotId : Z) (isRTT : bool)
  | OpUnHoldCall (slotId : Z) (isRTT : bool)
  | OpSwitchCall (slotId : Z) (isRTT : bool)
  | OpCombineConference (slotId : Z)
  | OpHangUpAllConnection (slotId : Z)
  | OpStartDtmf (c : ascii) (callInfo : CellularCallInfo)
  | OpStopDtmf (callInfo : CellularCallInfo)
  | OpSendDtmf (c : ascii) (callInfo : CellularCallInfo)
  | OpExecutePostDial (slotId callId : Z)
  | OpPostDialProceed (callInfo : CellularCallInfo) (proceed : bool)
  | OpReportCallsData (slotId : Z) (l : CallInfoList)
  | OpReportSatelliteCallsData (slotId : Z) (l : SatelliteCurrentCallList)
  | OpReportHangUpInfo (slotId : Z)
  | OpReportHangUp (infos : list CellularCallInfo) (slotId : Z)
  | OpReleaseAllConnection.

Definition run_op (op : sat_op) : Op SatelliteControl () :=
  match op with
  | OpDial ci ecc => Dial ci ecc ;; mret ()
  | OpHangUp ci t => HangUp ci t ;; mret ()
  | OpReject ci => Reject ci ;; mret ()
  | OpAnswer ci => Answer ci ;; mret ()
  | OpHoldCall slotId r => HoldCall slotId r ;; mret ()
  | OpUnHoldCall slotId r => UnHoldCall slotId r ;; mret ()
  | OpSwitchCall slotId r => SwitchCall slotId r ;; mret ()
  | OpCombineConference slotId => CombineConference slotId ;; mret ()
  | OpHangUpAllConnection slotId => HangUpAllConnection slotId ;; mret ()
  | OpStartDtmf c ci => let! m := mgets connectionMap_ in StartDtmf m c ci ;; mret ()
  | OpStopDtmf ci => let! m := mgets connectionMap_ in StopDtmf m ci ;; mret ()
  | OpSendDtmf c ci => let! m := mgets connectionMap_ in SendDtmf m c ci ;; mret ()
  | OpExecutePostDial slotId i => ExecutePostDial slotId i ;; mret ()
  | OpPostDialProceed ci b => PostDialProceed ci b ;; mret ()
  | OpReportCallsData slotId l => ReportCallsData slotId l ;; mret ()
  | OpReportSatelliteCallsData slotId l => ReportSatelliteCallsData slotId l ;; mret ()
  | OpReportHangUpInfo slotId => ReportHangUpInfo slotId ;; mret ()
  | OpReportHangUp infos slotId => ReportHangUp infos slotId ;; mret ()
  | OpReleaseAllConnection => ReleaseAllConnection
  end.

(** A step of the control, or of the rest of the system. *)
Inductive sat_step : SatelliteControl * list Effect → SatelliteControl * list Effect → Prop :=
  | sat_step_op op s h s' e :
      run_op op s h = ((), s', e) → sat_step (s, h) (s', h ++ e)
  | sat_step_other s h e : sat_step (s, h) (s, h ++ e).

Lemma sat_keeps_StartDtmf {S} b ci (m : SatelliteConnectionMap) : keeps (StartDtmf m b ci : Op S Z).
Proof. unfold StartDtmf. simpl. mauto. Qed.
Lemma sat_keeps_SendDtmf {S} b ci (m : SatelliteConnectionMap) : keeps (SendDtmf m b ci : Op S Z).
Proof. unfold SendDtmf. simpl. mauto. Qed.
Lemma sat_keeps_StopDtmf {S} ci (m : SatelliteConnectionMap) : keeps (StopDtmf m ci : Op S Z).
Proof. unfold StopDtmf. simpl. mauto. Qed.

#[local] Hint Resolve sat_preserves_Dial sat_preserves_HangUp keeps_Reject sat_preserves_Answer
  sat_keeps_StartDtmf sat_keeps_SendDtmf sat_keeps_StopDtmf sat_preserves_ExecutePostDial
  sat_preserves_PostDialProceed sat_preserves_ReportHangUpInfo sat_preserves_ReportIncomingInfo
  sat_preserves_ReportHangUp : cc.

Lemma sat_preserves_run_op op : preserves conns_inv (run_op op).
Proof.
  destruct op; simpl; try unfold HoldCall, UnHoldCall, SwitchCall, CombineConference,
    HangUpAllConnection, ReportCallsData, ReportSatelliteCallsData, ReleaseAllConnection; mauto.
Qed.

Lemma sat_steps_inv st st' : rtc sat_step st st' → conns_inv st.1 → conns_inv st'.1.
Proof.
  induction 1 as [st|st1 st2 st3 Hstep _ IH]; [done|]. intros Hinv. apply IH.
  destruct Hstep as [op s h s' e Hrun|]; [|done].
  pose proof (sat_preserves_run_op op s h Hinv) as Hp. unfold wp in Hp. by rewrite Hrun in Hp.
Qed.

(** The invariant of the satellite control.  From an empty control,
    whatever operations run in whatever order and whatever the rest of the
    system does in between, the map stays ordered, every call sits under its
    own index, and no call is left marked. *)
Theorem sat_reachable_inv h0 s h
  (Hreach : rtc sat_step (SatelliteControl_new, h0) (s, h)) :
  conns_inv s ∧
  ∀ i, FindConnectionByIndex (connectionMap_ s) i =
         (λ c, (i, c)) <$> sm_lookup i (connectionMap_ s).
Proof.
  assert (conns_inv s) as Hinv.
  { apply (sat_steps_inv _ _ Hreach). split; [apply conns_ok_nil|apply unmarked_nil]. }
  split; [done|]. intros i. apply FindConnectionByIndex_lookup, Hinv.
Qed.
End Machine.

(** ** User operations *)

Section User.
Context `{CallConsts, Env}.
Implicit Types (s : SatelliteControl) (h e : list Effect)
  (c : CellularCallConnectionSatellite).

Definition sat_ringing c : bool :=
  bool_decide (c_status c = CALL_STATUS_INCOMING) ||
  bool_decide (c_status c = CALL_STATUS_ALERTING) ||
  bool_decide (c_status c = CALL_STATUS_WAITING).

(** A request that leaves its connection as it is leaves the control as it is. *)
Lemma wp_on_conn_keeps {A} k c0 c (m : Op CellularCallConnectionSatellite A) Q s h :
  conns_ok (connectionMap_ s) → sm_lookup k (connectionMap_ s) = Some c →
  wp m (λ a c' e, c' = c ∧ Q a s e) c h → wp (on_conn (k, c0) m) Q s h.
Proof.
  intros [Hs _] Hk Hm. eapply wp_on_conn; [done|]. eapply wp_mono; [exact Hm|].
  intros a c' e [-> HQ]. cbn beta.
  assert (set_conns (sm_alter (λ _, c) k (conns s)) s = s) as ->; [|done].
  destruct s as [m' p i]. cbn [conns set_conns HasConns_sat connectionMap_] in *.
  unfold set_connectionMap. simpl in *. f_equal. apply sm_ext; [by apply smap_ok_alter|done|].
  intros k'. rewrite sm_lookup_alter. case_bool_decide as Heq; [|done]. by rewrite Heq, Hk.
Qed.

(** Answering a satellite call, while the satellite client is there.
    There is no hold: an active call is hung up by one request, whatever the
    answer is, and only then is a ringing call (incoming, alerting or
    waiting) answered, by one request whose answer is returned.  A call that
    does not ring is refused with CALL_ERR_CALL_STATE, after the active call
    has been hung up; an unknown index is an error that sends nothing.  The
    control's state is never changed. *)
Theorem Sat_Answer_spec (callInfo : CellularCallInfo) s h
  (Hinv : conns_inv s) (Hcl : ∀ h, satellite_client_instance h = true) :
  let slotId := ci_slotId callInfo in
  let m := connectionMap_ s in
  let make_room :=
    match FindConnectionByState m CALL_STATUS_ACTIVE with
    | Some (k, _) => [Sat (SatHangUp slotId k)]
    | None => []
    end in
  wp (Answer callInfo)
    (λ r s' e, s' = s ∧
      match sm_lookup (ci_index callInfo) m with
      | None => r = CALL_ERR_CALL_CONNECTION_NOT_EXIST ∧ Forall is_hisys e
      | Some c =>
          if sat_ringing c then
            r = reply (h ++ make_room) (Sat (SatAnswer slotId)) ∧
            e = make_room ++ [Sat (SatAnswer slotId)]
          else r = CALL_ERR_CALL_STATE ∧ ∃ e', Forall is_hisys e' ∧ e = make_room ++ e'
      end) s h.
Proof.
  cbv zeta. unfold Answer, answer_fault. wsteps.
  rewrite FindConnectionByIndex_lookup by apply Hinv.
  destruct (sm_lookup (ci_index callInfo) (connectionMap_ s)) as [c|] eqn:Hc;
    cbn [fmap option_fmap option_map]; [|wsteps; split; [done|split; [done|by repeat constructor]]].
  wsteps. rewrite IsInState_find. change (GetStatus (conn_base c)) with (c_status c).
  fold (sat_ringing c).
  assert (∀ Q h', (if sat_ringing c then Q (reply h' (Sat (SatAnswer (ci_slotId callInfo)))) s
                      [Sat (SatAnswer (ci_slotId callInfo))]
                   else ∀ e', Forall is_hisys e' → Q CALL_ERR_CALL_STATE s e') →
    wp (if sat_ringing c then Sat_AnswerRequest (ci_slotId callInfo)
        else hisys (WriteAnswerCallFaultEvent (ci_slotId callInfo) (ci_callId callInfo)
               (ci_videoState callInfo) CALL_ERR_CALL_STATE
               "call state error phone not ringing") ;; mret CALL_ERR_CALL_STATE) Q s h') as Hans.
  { intros Q h' HQ. destruct (sat_ringing c).
    - unfold Sat_AnswerRequest. apply wp_with_sat_client; [done|]. by wsteps.
    - wsteps. apply HQ. by repeat constructor. }
  destruct (FindConnectionByState _ _) as [[k con]|] eqn:Hcon.
  - rewrite bool_decide_true by done. cbn [orb].
    apply FindConnectionByState_Some in Hcon as [Hk _]; [|apply Hinv].
    wsteps. eapply wp_on_conn_keeps; [apply Hinv|done|].
    unfold Sat_HangUpRequest. apply wp_with_sat_client; [done|]. wsteps. split; [done|].
    change (GetIndex (conn_base con)) with (c_index con).
    rewrite (proj2 (proj1 Hinv) _ _ Hk). apply Hans.
    destruct (sat_ringing c); [done|]. intros e' He'. split; [done|]. split; [done|].
    by exists e'.
  - rewrite bool_decide_false by (by intros []). cbn [orb].
    destruct (bool_decide _); wsteps; apply Hans;
      (destruct (sat_ringing c); [done|]);
      intros e' He'; (split; [done|]); (split; [done|]); by exists e'.
Qed.

(** *** Dialling *)

Definition no_sat (e : Effect) : Prop := match e with Sat _ => False | _ => True end.

Lemma no_sat_DialPreJudgment {S} ci b : sends no_sat (DialPreJudgment ci b : Op S Z).
Proof.
  assert (∀ n slotId, sends no_sat (wait_ready n slotId : Op S Z)) as Hw
    by (intros n slotId; induction n; simpl; mauto; done).
  unfold DialPreJudgment, HandleEcc, UpdateRadioOn_. mauto; done.
Qed.
Lemma no_sat_IsNeedExecuteMMI {S} slotId ph clir ims :
  sends no_sat (IsNeedExecuteMMI slotId ph clir ims : Op S _).
Proof.
  unfold IsNeedExecuteMMI. mauto; try done. all: apply sends_with_local.
  all: unfold IsNeedExecuteMmi, RegexMatchMmi; mauto; done.
Qed.

(** Nothing reached the satellite service, or one dial did, last, for a number
    that fits and with room for the call; its answer is returned. *)
Definition sat_dial_outcome slotId s h (r : Z) s' e : Prop :=
  connectionMap_ s' = connectionMap_ s ∧
  (Forall no_sat e ∨
   ∃ info clir e0, e = e0 ++ [Sat (SatDial info clir)] ∧ Forall no_sat e0 ∧
     r = reply (h ++ e0) (Sat (SatDial info clir)) ∧ sc_slotId info = slotId ∧
     string_size (sc_phoneNum info) < kMaxNumberLength ∧ sm_size (connectionMap_ s) ≤ 6).

Lemma sat_outcome_prefix slotId s h e0 r s' e :
  Forall no_sat e0 → sat_dial_outcome slotId s (h ++ e0) r s' e →
  sat_dial_outcome slotId s h r s' (e0 ++ e).
Proof.
  intros He0 [Hm [He|(i & c & e1 & -> & He & -> & Hrest)]]; (split; [done|]).
  - left. by apply Forall_app.
  - right. exists i, c, (e0 ++ e1). rewrite <-!app_assoc. split; [done|].
    split; [by apply Forall_app|done].
Qed.
Lemma sat_outcome_then {A} (m : Op SatelliteControl A) f slotId s h :
  keeps m → sends no_sat m → (∀ a h, wp (f a) (sat_dial_outcome slotId s h) s h) →
  wp (mthen m f) (sat_dial_outcome slotId s h) s h.
Proof.
  intros Hk Hs Hf. eapply wp_then_quiet; [done|done|]. intros a e He.
  eapply wp_mono; [apply Hf|]. intros r s' e'. by apply sat_outcome_prefix.
Qed.
Lemma sat_outcome_none slotId s h r e : Forall no_sat e → sat_dial_outcome slotId s h r s e.
Proof. intros He. by split; [|left]. Qed.

Lemma Sat_DialRequest_outcome slotId q c h :
  wp (Sat_DialRequest slotId q)
    (λ r _ e, Forall no_sat e ∨
       ∃ info, e = [Sat (SatDial info (dr_clirMode q))] ∧ r = reply h (Sat (SatDial info (dr_clirMode q))) ∧
         sc_slotId info = slotId ∧ string_size (sc_phoneNum info) < kMaxNumberLength) c h.
Proof.
  unfold Sat_DialRequest. destruct (negb memset_s_ok); wsteps; [left; by repeat constructor|].
  destruct (Z.ltb_spec kMaxNumberLength
    (strlen (phoneNumber_ (conn_base (upd (UpdateCallNumber (dr_phoneNum q)) c))) + 1)) as [|Hle]; cbn iota;
    [wsteps; left; constructor|].
  destruct (negb (strcpy_s_ok _ _)); [wsteps; left; by repeat constructor|].
  unfold with_sat_client. wsteps. destruct (satellite_client_instance h); cbn [negb]; wsteps;
    [right|left; by repeat constructor].
  eexists. split_and!; [done|done|done|]. simpl. unfold string_size, strlen in *. simpl in *.
  lia.
Qed.

(** A satellite dial is safe on every path, whatever is missing.  At most
    one dial reaches the satellite service, it is the last thing the
    operation does, its number fits the 255-byte field with its NUL, the map
    holds at most six calls then, and its answer is returned; the connection
    map is never touched. *)
Theorem Sat_Dial_safe (callInfo : CellularCallInfo) isEcc s h :
  wp (Dial callInfo isEcc) (sat_dial_outcome (ci_slotId callInfo) s h) s h.
Proof.
  unfold Dial. apply sat_outcome_then; [auto with cc|by apply sends_emit|]. intros _ h1.
  apply sat_outcome_then; [auto with cc|apply no_sat_DialPreJudgment|]. intros r h2.
  case_bool_decide; [by apply sat_outcome_none|].
  apply sat_outcome_then; [auto with cc|apply no_sat_IsNeedExecuteMMI|].
  intros [[mmi n] clir] h3. destruct mmi; [by apply sat_outcome_none|].
  wsteps. unfold CanCall, maximumCalls.
  destruct (Z.leb_spec (sm_size (connectionMap_ s)) 6) as [Hle|]; cbn [negb];
    [|wsteps; apply sat_outcome_none; by repeat constructor].
  unfold EncapsulateDialCommon. wsteps.
  pose proof (Sat_DialRequest_outcome (ci_slotId callInfo) {| dr_phoneNum := n; dr_clirMode := clir |}
    CellularCallConnectionSatellite_new h3) as Hd.
  unfold wp, with_local in *. destruct (Sat_DialRequest _ _ _ _) as [[r' c'] e]. simpl.
  split; [done|]. destruct Hd as [He|(info & -> & -> & ? & ?)]; [by left; rewrite app_nil_r|right].
  exists info, clir, []. rewrite !app_nil_r. by repeat split.
Qed.
End User.
