(* ===== verification/VideoControl.v ===== *)
(** * VideoControl: video of IMS calls
    (services/control/src/ims_video_call_control.cpp)

    The control has no state.  Every operation needs the IMS service: without
    it it answers TELEPHONY_ERROR, and when the service goes away between the
    two looks CALL_ERR_RESOURCE_UNAVAILABLE.  A media mode request and its
    response are recorded, carry the number of the call, and name the mode by
    the call type of the IMS service.  A surface and a [float] zoom ratio are
    passed on as they are; the model carries a number for each. *)

From stdpp Require Import base tactics option list numbers strings.
From Stdlib Require Import ZArith Lia Ascii String.
From S2P Require Import Prelude Platform Samples Standardize StdMap Connection ControlBase.
From S2P Require Import CallMap CallReport ConnectionCS ConnectionIMS.

Open Scope Z_scope.

Section VideoControl.
Context `{CallConsts, Env} {S : Type}.

(** The guard: [NeedCallImsService], then the client and its proxy once more. *)
Definition with_video_client (k : Op S Z) : Op S Z :=
  let! need := ask NeedCallImsService in
  if (need : bool) then
    let! client := ask (λ h, ims_client_instance h && ims_call_proxy h) in
    if negb client then mret CALL_ERR_RESOURCE_UNAVAILABLE else k
  else mret TELEPHONY_ERROR.

Definition ControlCamera (slotId callIndex : Z) (cameraId : string) : Op S Z :=
  with_video_client (request (Ims (ImsControlCamera slotId callIndex cameraId))).
Definition SetPreviewWindow (slotId callIndex : Z) (surfaceID : string) (surface : Z) : Op S Z :=
  with_video_client (request (Ims (ImsSetPreviewWindow slotId callIndex surfaceID surface))).
Definition SetDisplayWindow (slotId callIndex : Z) (surfaceID : string) (surface : Z) : Op S Z :=
  with_video_client (request (Ims (ImsSetDisplayWindow slotId callIndex surfaceID surface))).
Definition SetCameraZoom (zoomRatio : Z) : Op S Z :=
  with_video_client (request (Ims (ImsSetCameraZoom zoomRatio))).
Definition SetPausePicture (slotId callIndex : Z) (path : string) : Op S Z :=
  with_video_client (request (Ims (ImsSetPausePicture slotId callIndex path))).
Definition SetDeviceDirection (slotId callIndex rotation : Z) : Op S Z :=
  with_video_client (request (Ims (ImsSetDeviceDirection slotId callIndex rotation))).
Definition CancelCallUpgrade (slotId callIndex : Z) : Op S Z :=
  with_video_client (request (Ims (ImsCancelCallUpgrade slotId callIndex))).
Definition RequestCameraCapabilities (slotId callIndex : Z) : Op S Z :=
  with_video_client (request (Ims (ImsRequestCameraCapabilities slotId callIndex))).

Definition ConverToImsCallType (mode : Z) : Z :=
  if bool_decide (mode = CALL_MODE_AUDIO_ONLY) then TEL_IMS_CALL_TYPE_VOICE
  else if bool_decide (mode = CALL_MODE_RECEIVE_ONLY) then TEL_IMS_CALL_TYPE_VT_RX
  else if bool_decide (mode = CALL_MODE_SEND_ONLY) then TEL_IMS_CALL_TYPE_VT_TX
  else if bool_decide (mode = CALL_MODE_SEND_RECEIVE) then TEL_IMS_CALL_TYPE_VT
  else if bool_decide (mode = CALL_MODE_VIDEO_PAUSED) then TEL_IMS_CALL_TYPE_PAUSE
  else TEL_IMS_CALL_TYPE_VOICE.

(** Zeroing the struct and copying the number, from a [char\[\]] of
    kMaxNumberLen + 1 bytes: the error, if a step fails. *)
Definition copy_media_number (phoneNum : string) : option Z :=
  if negb memset_s_ok then Some TELEPHONY_ERR_MEMSET_FAIL
  else if kMaxNumberLen <? i32 (size_t (strlen phoneNum + 1)) then Some TELEPHONY_ERR_STRCPY_FAIL
  else if negb (strcpy_s_ok (strlen phoneNum + 1) (c_str phoneNum))
       then Some TELEPHONY_ERR_STRCPY_FAIL
  else None.

(** What the request and the response share. *)
Definition send_media_mode (ev : Z → HiSysEvent) (rq : ImsCallInfo → Z → ImsRequest)
    (callInfo : CellularCallInfo) (mode : Z) : Op S Z :=
  let! need := ask NeedCallImsService in
  if (need : bool) then
    let! event := ask hisysevent_instance in
    if negb event then mret TELEPHONY_ERR_LOCAL_PTR_NULL
    else
      hisys (ev mode) ;;
      match copy_media_number (ci_phoneNum callInfo) with
      | Some err => mret err
      | None =>
          let imsCallInfo :=
            {| ic_phoneNum := c_str (ci_phoneNum callInfo); ic_slotId := ci_slotId callInfo;
               ic_videoState := ci_videoState callInfo; ic_index := ci_index callInfo;
               ic_isRTT := ic_isRTT ImsCallInfo_zero |} in
          let! client := ask (λ h, ims_client_instance h && ims_call_proxy h) in
          if negb client then mret CALL_ERR_RESOURCE_UNAVAILABLE
          else request (Ims (rq imsCallInfo (ConverToImsCallType mode)))
      end
  else mret TELEPHONY_ERROR.

Definition SendUpdateCallMediaModeRequest : CellularCallInfo → Z → Op S Z :=
  send_media_mode WriteImsCallModeBehaviorEvent_request ImsSendUpdateCallMediaModeRequest.
Definition SendUpdateCallMediaModeResponse : CellularCallInfo → Z → Op S Z :=
  send_media_mode WriteImsCallModeBehaviorEvent_response ImsSendUpdateCallMediaModeResponse.
End VideoControl.

(** ** Properties *)

Section Facts.
Context `{CallConsts, Env, !CallConstsOk, !SecurecOk} {S : Type}.
Implicit Types (s : S) (h e : list Effect).

Definition call_modes : list Z :=
  [CALL_MODE_AUDIO_ONLY; CALL_MODE_SEND_ONLY; CALL_MODE_RECEIVE_ONLY;
   CALL_MODE_SEND_RECEIVE; CALL_MODE_VIDEO_PAUSED].

Lemma ConverToImsCallType_modes :
  ConverToImsCallType <$> call_modes =
    [TEL_IMS_CALL_TYPE_VOICE; TEL_IMS_CALL_TYPE_VT_TX; TEL_IMS_CALL_TYPE_VT_RX;
     TEL_IMS_CALL_TYPE_VT; TEL_IMS_CALL_TYPE_PAUSE].
Proof.
  pose proof call_mode_nodup as Hn. rewrite !NoDup_cons in Hn.
  rewrite !elem_of_cons, !elem_of_nil in Hn.
  unfold call_modes, ConverToImsCallType. simpl.
  repeat (f_equal; [repeat case_bool_decide; intuition congruence|]).
  f_equal. repeat case_bool_decide; intuition congruence.
Qed.

Lemma copy_media_number_fits n : strlen n < kMaxNumberLen → copy_media_number n = None.
Proof.
  intros Hn. pose proof kMaxNumberLen_pos. unfold copy_media_number. rewrite memset_s_EOK.
  assert (0 ≤ strlen n) by (unfold strlen; lia).
  rewrite size_t_id, i32_id by lia. cbn [negb].
  destruct (Z.ltb_spec kMaxNumberLen (strlen n + 1)); [lia|].
  rewrite strcpy_s_EOK by (unfold strlen; lia). done.
Qed.
Lemma copy_media_number_full n :
  strlen n = kMaxNumberLen → copy_media_number n = Some TELEPHONY_ERR_STRCPY_FAIL.
Proof.
  intros Hn. pose proof kMaxNumberLen_pos. unfold copy_media_number. rewrite memset_s_EOK.
  rewrite size_t_id, i32_id by lia. cbn [negb].
  destruct (Z.ltb_spec kMaxNumberLen (strlen n + 1)); [done|lia].
Qed.

(** The message a media mode operation sends. *)
Definition media_message (rq : ImsCallInfo → Z → ImsRequest) (ci : CellularCallInfo)
    (mode : Z) : Effect :=
  Ims (rq {| ic_phoneNum := c_str (ci_phoneNum ci); ic_slotId := ci_slotId ci;
             ic_videoState := ci_videoState ci; ic_index := ci_index ci; ic_isRTT := false |}
         (ConverToImsCallType mode)).

Lemma send_media_mode_spec ev rq ci mode s h :
  NeedCallImsService h = true → hisysevent_instance h = true →
  strlen (ci_phoneNum ci) < kMaxNumberLen →
  NeedCallImsService (h ++ [HiSys (ev mode)]) = true →
  send_media_mode ev rq ci mode s h =
    (reply (h ++ [HiSys (ev mode)]) (media_message rq ci mode), s,
     [HiSys (ev mode); media_message rq ci mode]).
Proof.
  intros Hn He Hl Hn'.
  assert (ims_client_instance (h ++ [HiSys (ev mode)]) &&
          ims_call_proxy (h ++ [HiSys (ev mode)]) = true) as Hc
    by (unfold NeedCallImsService in Hn'; by destruct (ims_client_instance _)).
  unfold send_media_mode, mthen, ask, query, hisys, emit, request, call.
  rewrite !app_nil_r, Hn, He. cbn [negb].
  rewrite copy_media_number_fits by done. rewrite !app_nil_r, Hc. done.
Qed.

(** Negotiating the media of an IMS call, while the IMS service and the
    event writer are there.  The request and the response each write one
    behaviour record and send exactly one message, for the number, slot and
    index of the call, whose answer they return; the message's call type
    tells the five modes apart, so the peer learns the mode that was asked
    for.  A number that fills its buffer in [CellularCallInfo] is recorded
    but refused. *)
Theorem media_mode_exchange (ci : CellularCallInfo) mode s h
  (Hims : ∀ h, NeedCallImsService h = true) (Hev : ∀ h, hisysevent_instance h = true)
  (Hmode : mode ∈ call_modes) :
  let e1 := [HiSys (WriteImsCallModeBehaviorEvent_request mode)] in
  let e2 := [HiSys (WriteImsCallModeBehaviorEvent_response mode)] in
  let m1 := media_message ImsSendUpdateCallMediaModeRequest ci mode in
  let m2 := media_message ImsSendUpdateCallMediaModeResponse ci mode in
  (strlen (ci_phoneNum ci) < kMaxNumberLen →
     SendUpdateCallMediaModeRequest ci mode s h = (reply (h ++ e1) m1, s, e1 ++ [m1]) ∧
     SendUpdateCallMediaModeResponse ci mode s h = (reply (h ++ e2) m2, s, e2 ++ [m2]) ∧
     ∀ mode', mode' ∈ call_modes →
       media_message ImsSendUpdateCallMediaModeRequest ci mode' = m1 → mode' = mode) ∧
  (strlen (ci_phoneNum ci) = kMaxNumberLen →
     SendUpdateCallMediaModeRequest ci mode s h = (TELEPHONY_ERR_STRCPY_FAIL, s, e1) ∧
     SendUpdateCallMediaModeResponse ci mode s h = (TELEPHONY_ERR_STRCPY_FAIL, s, e2)).
Proof.
  cbv zeta. split; intros Hl.
  - split_and!; [by apply send_media_mode_spec..|].
    intros mode' Hmode' [= Heq].
    apply list_elem_of_lookup in Hmode as [i Hi]. apply list_elem_of_lookup in Hmode' as [j Hj].
    pose proof ConverToImsCallType_modes as Hc.
    assert (NoDup (ConverToImsCallType <$> call_modes)) as Hnd.
    { rewrite Hc. apply (bool_decide_unpack _). vm_compute. exact I. }
    assert (i = j) as <-; [|congruence].
    eapply NoDup_lookup; [exact Hnd| |]; rewrite list_lookup_fmap, ?Hi, ?Hj; simpl; [done|].
    by rewrite Heq.
  - assert (∀ ev rq, send_media_mode ev rq ci mode s h =
              (TELEPHONY_ERR_STRCPY_FAIL, s, [HiSys (ev mode)])) as Hg; [|by split; apply Hg].
    intros ev rq. unfold send_media_mode, mthen, ask, query, hisys, emit.
    rewrite Hims, Hev. cbn [negb]. by rewrite copy_media_number_full.
Qed.
End Facts.
