(* ===== verification/Service.v ===== *)
(** * Service: the entry of call_manager's operations
    (services/manager/src/cellular_call_service.cpp)

    The service owns the controls of every slot and bearer, the SRVCC state and
    the radio flags.  An operation checks the slot and the SRVCC state, chooses
    a bearer, and runs on the control of that slot and bearer. *)

From stdpp Require Import base tactics option list numbers strings gmap.
From Stdlib Require Import ZArith Lia Ascii String.
From S2P Require Import Prelude Platform Standardize StdMap Connection MmiCode Emergency ControlBase.
From S2P Require Import CallMap ConnectionCS CsControl ConnectionIMS ImsControl.
From S2P Require Import ConnectionSatellite SatelliteControl VideoControl.

Open Scope Z_scope.

(** [enum SrvccState] (interfaces/innerkits/ims/ims_call_types.h). *)
Definition SRVCC_NONE : Z := -1.
Definition STARTED : Z := 0.
Definition COMPLETED : Z := 1.
Definition FAILED : Z := 2.
Definition CANCELED : Z := 3.

(** What the service reads of the platform and of the configuration. *)
Class ServiceEnv := {
  (* telephony_types.h *)
  SIM_SLOT_COUNT : Z;
  DEFAULT_SIM_SLOT_ID : Z;
  SIM_SLOT_0 : Z;
  SIM_SLOT_1 : Z;
  CS_VOICE_ONLY : Z;
  (* CoreManagerInner::GetImsRegStatus reports IMS_REGISTERED *)
  core_ImsRegistered : list Effect → Z → bool;
  (* DelayedSingleton<ImsVideoCallControl>::GetInstance() != nullptr *)
  video_instance : list Effect → bool;
  (* CellularCallConfig *)
  GetPreferenceMode : list Effect → Z → Z;
  GetImsPreferForEmergencyConfig : list Effect → Z → bool
}.

(** A table [std::map<int32_t, std::shared_ptr<Control>>]: a slot without an
    entry and a slot whose pointer is null are the same to every user of it,
    so a table holds the controls that exist. *)
Record CellularCallService := {
  srvccState_ : Z;
  csControlMap_ : gmap Z CSControl;
  imsControlMap_ : gmap Z IMSControl;
  satelliteControlMap_ : gmap Z SatelliteControl;
  isRadioOn_ : gmap Z bool
}.
Definition CellularCallService_new : CellularCallService :=
  {| srvccState_ := SRVCC_NONE; csControlMap_ := ∅; imsControlMap_ := ∅;
     satelliteControlMap_ := ∅; isRadioOn_ := ∅ |}.

Definition SetSrvccState (v : Z) (s : CellularCallService) : CellularCallService :=
  {| srvccState_ := v; csControlMap_ := csControlMap_ s; imsControlMap_ := imsControlMap_ s;
     satelliteControlMap_ := satelliteControlMap_ s; isRadioOn_ := isRadioOn_ s |}.
Definition GetSrvccState (s : CellularCallService) : Z := srvccState_ s.
Definition set_csControlMap (m : gmap Z CSControl) (s : CellularCallService) : CellularCallService :=
  {| srvccState_ := srvccState_ s; csControlMap_ := m; imsControlMap_ := imsControlMap_ s;
     satelliteControlMap_ := satelliteControlMap_ s; isRadioOn_ := isRadioOn_ s |}.
Definition set_imsControlMap (m : gmap Z IMSControl) (s : CellularCallService)
    : CellularCallService :=
  {| srvccState_ := srvccState_ s; csControlMap_ := csControlMap_ s; imsControlMap_ := m;
     satelliteControlMap_ := satelliteControlMap_ s; isRadioOn_ := isRadioOn_ s |}.
Definition set_satelliteControlMap (m : gmap Z SatelliteControl) (s : CellularCallService)
    : CellularCallService :=
  {| srvccState_ := srvccState_ s; csControlMap_ := csControlMap_ s;
     imsControlMap_ := imsControlMap_ s; satelliteControlMap_ := m;
     isRadioOn_ := isRadioOn_ s |}.
Definition setRadioOnFlag (flag : bool) (slotId : Z) (s : CellularCallService)
    : CellularCallService :=
  {| srvccState_ := srvccState_ s; csControlMap_ := csControlMap_ s;
     imsControlMap_ := imsControlMap_ s; satelliteControlMap_ := satelliteControlMap_ s;
     isRadioOn_ := <[slotId := flag]> (isRadioOn_ s) |}.
(** [isRadioOn_\[slotId\]]: a missing entry is value-initialised. *)
Definition isRadioOnFlag_ (s : CellularCallService) (slotId : Z) : bool :=
  default false (isRadioOn_ s !! slotId).

(** ** Slots and control tables *)

Section Tables.
Context `{CallConsts, ServiceEnv}.

Definition IsValidSlotId (slotId : Z) : bool :=
  let slotSingle := 1 in
  let slotDouble := 2 in
  if SIM_SLOT_COUNT =? slotSingle then slotId =? DEFAULT_SIM_SLOT_ID
  else if SIM_SLOT_COUNT =? slotDouble then (slotId =? SIM_SLOT_0) || (slotId =? SIM_SLOT_1)
  else false.

(** [ModuleServiceUtils::GetSlotInfo] *)
Definition GetSlotInfo : list Z :=
  let slotSingle := 1 in
  let slotDouble := 2 in
  if SIM_SLOT_COUNT =? slotSingle then [DEFAULT_SIM_SLOT_ID]
  else if SIM_SLOT_COUNT =? slotDouble then [SIM_SLOT_0; SIM_SLOT_1]
  else [].

Definition GetCsControl (slotId : Z) (s : CellularCallService) : option CSControl :=
  if negb (IsValidSlotId slotId) then None else csControlMap_ s !! slotId.
Definition GetImsControl (slotId : Z) (s : CellularCallService) : option IMSControl :=
  if negb (IsValidSlotId slotId) then None else imsControlMap_ s !! slotId.
(** The one accessor without a check of the slot. *)
Definition GetSatelliteControl (slotId : Z) (s : CellularCallService) : option SatelliteControl :=
  satelliteControlMap_ s !! slotId.

Definition SetCsControl (slotId : Z) (c : option CSControl) (s : CellularCallService)
    : CellularCallService :=
  if negb (IsValidSlotId slotId) then s
  else set_csControlMap (partial_alter (λ _, c) slotId (csControlMap_ s)) s.
Definition SetImsControl (slotId : Z) (c : option IMSControl) (s : CellularCallService)
    : CellularCallService :=
  if negb (IsValidSlotId slotId) then s
  else set_imsControlMap (partial_alter (λ _, c) slotId (imsControlMap_ s)) s.
Definition SetSatelliteControl (slotId : Z) (c : option SatelliteControl)
    (s : CellularCallService) : CellularCallService :=
  if negb (IsValidSlotId slotId) then s
  else set_satelliteControlMap (partial_alter (λ _, c) slotId (satelliteControlMap_ s)) s.
End Tables.

(** The three tables, seen the same way; the laws are those of a table. *)
Class ControlTable `{CallConsts, ServiceEnv} (C : Type) := {
  GetControl : Z → CellularCallService → option C;
  SetControl_ : Z → option C → CellularCallService → CellularCallService;
  new_control : C;
  GetControl_set : ∀ slotId c s, IsValidSlotId slotId = true →
    GetControl slotId (SetControl_ slotId c s) = c;
  SetControl_same : ∀ slotId c s, GetControl slotId s = Some c →
    SetControl_ slotId (Some c) s = s
}.
#[export] Program Instance CsTable `{CallConsts, ServiceEnv} : ControlTable CSControl := {
  GetControl := GetCsControl; SetControl_ := SetCsControl; new_control := CSControl_new
}.
Next Obligation.
  intros ? ? slotId c s Hv. unfold GetCsControl, SetCsControl. rewrite Hv.
  apply lookup_partial_alter_eq.
Qed.
Next Obligation.
  intros ? ? slotId c s. unfold GetCsControl, SetCsControl. destruct (IsValidSlotId slotId); [|done].
  simpl. intros Hc. unfold set_csControlMap. rewrite <-Hc, partial_alter_self. by destruct s.
Qed.
#[export] Program Instance ImsTable `{CallConsts, ServiceEnv} : ControlTable IMSControl := {
  GetControl := GetImsControl; SetControl_ := SetImsControl; new_control := IMSControl_new
}.
Next Obligation.
  intros ? ? slotId c s Hv. unfold GetImsControl, SetImsControl. rewrite Hv.
  apply lookup_partial_alter_eq.
Qed.
Next Obligation.
  intros ? ? slotId c s. unfold GetImsControl, SetImsControl. destruct (IsValidSlotId slotId); [|done].
  simpl. intros Hc. unfold set_imsControlMap. rewrite <-Hc, partial_alter_self. by destruct s.
Qed.
#[export] Program Instance SatTable `{CallConsts, ServiceEnv} : ControlTable SatelliteControl := {
  GetControl := GetSatelliteControl; SetControl_ := SetSatelliteControl;
  new_control := SatelliteControl_new
}.
Next Obligation.
  intros ? ? slotId c s Hv. unfold GetSatelliteControl, SetSatelliteControl. rewrite Hv.
  apply lookup_partial_alter_eq.
Qed.
Next Obligation.
  intros ? ? slotId c s. unfold GetSatelliteControl, SetSatelliteControl. destruct (IsValidSlotId slotId); [|done].
  simpl. intros Hc. unfold set_satelliteControlMap. rewrite <-Hc, partial_alter_self. by destruct s.
Qed.

(** ** Calling a control

    A control asks the service for the calls of other controls and for the
    radio flag; [linked] answers from the tables as they are when the control is
    called, and everything else as the environment does. *)

Section Linked.
Context `{CallConsts, ServiceEnv}.

Definition linked (E : Env) (s : CellularCallService) : Env :=
  {| CELLULAR_CALL_SATELLITE := @CELLULAR_CALL_SATELLITE E;
     BASE_POWER_IMPROVEMENT_FEATURE := @BASE_POWER_IMPROVEMENT_FEATURE E;
     char_is_signed := @char_is_signed E;
     reply := @reply E; reply_bool := @reply_bool E;
     service_instance := λ _, true;
     register_instance := @register_instance E;
     ims_client_instance := @ims_client_instance E; ims_call_proxy := @ims_call_proxy E;
     satellite_client_instance := @satellite_client_instance E;
     hisysevent_instance := @hisysevent_instance E;
     GetHandler := @GetHandler E;
     ims_connections := λ _ slotId,
       (λ c, sm_size (ImsControl.connectionMap_ c)) <$> GetImsControl slotId s;
     cs_connections := λ _ slotId,
       (λ c, sm_size (CsControl.connectionMap_ c)) <$> GetCsControl slotId s;
     satellite_connections := λ _ slotId,
       (λ c, sm_size (SatelliteControl.connectionMap_ c)) <$> GetSatelliteControl slotId s;
     isRadioOnFlag := λ _ slotId, isRadioOnFlag_ s slotId;
     IsCallManagerCallBackRegistered := @IsCallManagerCallBackRegistered E;
     IsReadyToCall := @IsReadyToCall E;
     wakeups_before_timeout := @wakeups_before_timeout E;
     GetEccCallList := @GetEccCallList E; GetMcc := @GetMcc E;
     core_GetRadioState := @core_GetRadioState E;
     core_GetAirplaneMode := @core_GetAirplaneMode E;
     core_HasSimCard := @core_HasSimCard E; core_IsSimActive := @core_IsSimActive E;
     core_GetCsRegState := @core_GetCsRegState E; core_GetPsRegState := @core_GetPsRegState E;
     core_GetPhoneType := @core_GetPhoneType E;
     core_GetIsoCountryCodeForNetwork := @core_GetIsoCountryCodeForNetwork E;
     core_GetISOCountryCodeForSim := @core_GetISOCountryCodeForSim E;
     core_IsSatelliteEnabled := @core_IsSatelliteEnabled E;
     core_GetMaxSimCount := @core_GetMaxSimCount E;
     IsEmergencyNumber := @IsEmergencyNumber E;
     DYNAMIC_POWEROFF_MODEM := @DYNAMIC_POWEROFF_MODEM E;
     ext_isMmiCode := @ext_isMmiCode E;
     memset_s_ok := @memset_s_ok E; strcpy_s_ok := @strcpy_s_ok E;
     memcpy_s_ok := @memcpy_s_ok E |}.

Lemma linked_securec (E : Env) s : SecurecOk → @SecurecOk (linked E s).
Proof. intros [Hm Hs Hc]. by split. Qed.
End Linked.

Section Controls.
Context `{CallConsts, E : Env, ServiceEnv} {C : Type} `{!ControlTable C}.

(** [control->m()] for the pointer [c0]: the table's control of the slot when
    there is one, else an object only the caller holds. *)
Definition on_control {A} (slotId : Z) (c0 : C) (m : Env → Op C A) : Op CellularCallService A :=
  λ s h,
    let '(a, c', e) := m (linked E s) (default c0 (GetControl slotId s)) h in
    (a, match GetControl slotId s with
        | Some _ => SetControl_ slotId (Some c') s
        | None => s
        end, e).

(** [auto control = GetControl(slotId); if (control == nullptr) absent; control->m()] *)
Definition with_control {A} (slotId : Z) (absent : Op CellularCallService A)
    (m : Env → Op C A) : Op CellularCallService A :=
  let! control := mgets (GetControl slotId) in
  match control with
  | None => absent
  | Some c => on_control slotId c m
  end.

(** [if (control == nullptr) { control = make_shared(); SetControl(slotId, control); }] *)
Definition with_new_control {A} (slotId : Z) (m : Env → Op C A) : Op CellularCallService A :=
  let! control := mgets (GetControl slotId) in
  match control with
  | None => mmodify (SetControl_ slotId (Some new_control)) ;; on_control slotId new_control m
  | Some c => on_control slotId c m
  end.
End Controls.
#[global] Arguments with_control {_ _ _ _ _ _} _ _ _.

(** ** Operations *)

Section Service.
Context `{CallConsts, E : Env, ServiceEnv}.

Definition IsEmergencyPhoneNumber (h : list Effect) (slotId : Z) (phoneNum : string)
    (enabled : bool) : Z * bool :=
  if negb (IsValidSlotId slotId) then (CALL_ERR_INVALID_SLOT_ID, enabled)
  else IsEmergencyCall h slotId phoneNum enabled.

Definition IsNeedIms (h : list Effect) (slotId : Z) : bool :=
  core_ImsRegistered h slotId && negb (bool_decide (GetPreferenceMode h slotId = CS_VOICE_ONLY)) &&
  NeedCallImsService h.

Definition UseImsForEmergency (h : list Effect) (callInfo : CellularCallInfo) (isEcc : bool)
    : bool :=
  isEcc && NeedCallImsService h && GetImsPreferForEmergencyConfig h (ci_slotId callInfo).

Definition DialNormalCall (callInfo : CellularCallInfo) (isEcc : bool)
    : Op CellularCallService Z :=
  let! useImsForEmergency := ask (λ h, UseImsForEmergency h callInfo isEcc) in
  let! needIms := ask (λ h, IsNeedIms h (ci_slotId callInfo)) in
  if needIms || useImsForEmergency then
    with_new_control (ci_slotId callInfo) (λ E, ImsControl.Dial callInfo isEcc)
  else
    with_new_control (ci_slotId callInfo) (λ E, CsControl.Dial callInfo isEcc).

Definition dial_fault (callInfo : CellularCallInfo) (err : Z) (desc : string)
    : Op CellularCallService () :=
  hisys (WriteDialCallFaultEvent (ci_accountId callInfo) (ci_callType callInfo)
           (ci_videoState callInfo) err desc).

Definition Dial (callInfo : CellularCallInfo) : Op CellularCallService Z :=
  if negb (IsValidSlotId (ci_slotId callInfo)) then
    dial_fault callInfo CALL_ERR_INVALID_SLOT_ID "invalid slot id" ;;
    mret CALL_ERR_INVALID_SLOT_ID
  else
    let! srvcc := mgets srvccState_ in
    if srvcc =? STARTED then
      dial_fault callInfo CALL_ERROR_UNEXPECTED_SRVCC_STATE "srvccState_ is STARTED" ;;
      mret TELEPHONY_ERR_FAIL
    else
      let! (_, isEcc) := ask (λ h, IsEmergencyPhoneNumber h (ci_slotId callInfo)
                                     (ci_phoneNum callInfo) false) in
      let! satelliteStatusOn := ask core_IsSatelliteEnabled in
      if CELLULAR_CALL_SATELLITE && satelliteStatusOn then
        with_new_control (ci_slotId callInfo) (λ E, SatelliteControl.Dial callInfo isEcc)
      else DialNormalCall callInfo isEcc.

(** The number is a reference parameter: the answer and what the number became. *)
Definition IsMmiCode (slotId : Z) (number : string) : Op CellularCallService (bool * string) :=
  let parse (number : string) : Op CellularCallService (bool * string) :=
    let! s := mget in
    let! (needed, mmiCodeUtils) :=
      with_local (@IsNeedExecuteMmi (linked E s) number false) MMICodeUtils_new in
    if negb needed then mret (false, number)
    else
      let mmiData := mmiData_ mmiCodeUtils in
      if negb (string_empty (serviceCode mmiData)) && negb (string_empty (dialString mmiData)) &&
         (bool_decide (actionString mmiData = "*") || bool_decide (actionString mmiData = "#"))
      then mret (false, number) else mret (true, number) in
  if negb (IsValidSlotId slotId) then mret (false, number)
  else
    match ext_isMmiCode with
    | Some isMmiCode =>
        let! (isMmi, number') := ask (λ h, isMmiCode h slotId number) in
        if negb isMmi then mret (false, number') else parse number'
    | None => parse number
    end.

(** *** A call whose control is gone *)

(** [CellularCallService::EncapsulationCallReportInfo] *)
Definition EncapsulationCallReportInfo (callInfo : CellularCallInfo) : CallReportInfo :=
  if negb memset_s_ok then CallReportInfo_init
  else
    let cpyLen := size_t (string_size (ci_phoneNum callInfo) + 1) in
    if size_t (kMaxNumberLen + 1) <? cpyLen then CallReportInfo_zero
    else if negb (strcpy_s_ok cpyLen (ci_phoneNum callInfo)) then CallReportInfo_zero
    else
      {| cr_accountNum := ci_phoneNum callInfo; cr_index := ci_index callInfo;
         cr_accountId := ci_slotId callInfo; cr_voiceDomain := 0;
         cr_state := CALL_STATUS_DISCONNECTED; cr_callType := ci_callType callInfo;
         cr_callMode := 0; cr_mpty := 0; cr_name := ""; cr_namePresentation := 0;
         cr_reason := 0; cr_message := ""; cr_crsType := 0; cr_originalCallType := 0;
         cr_newCallUseBox := 0; cr_rttState := 0; cr_rttChannelId := 0; cr_imsDomain := 0;
         cr_isPendingHold := false |}.

Definition HandleCellularControlException (callInfo : CellularCallInfo)
    : Op CellularCallService () :=
  let! register := ask register_instance in
  if negb register then mret ()
  else report (ReportCallsInfo {| crs_callVec := [EncapsulationCallReportInfo callInfo];
                                  crs_slotId := ci_slotId callInfo |}).

(** [fault; HandleCellularControlException(callInfo); return TELEPHONY_ERR_LOCAL_PTR_NULL;] *)
Definition control_missing (fault : Op CellularCallService ()) (callInfo : CellularCallInfo)
    : Op CellularCallService Z :=
  fault ;; HandleCellularControlException callInfo ;; mret TELEPHONY_ERR_LOCAL_PTR_NULL.

(** *** Hang up, reject, answer *)

Definition hangup_fault (callInfo : CellularCallInfo) (err : Z) (desc : string)
    : Op CellularCallService () :=
  hisys (WriteHangUpFaultEvent (ci_slotId callInfo) (ci_callId callInfo) err desc).
Definition answer_fault (callInfo : CellularCallInfo) (err : Z) (desc : string)
    : Op CellularCallService () :=
  hisys (WriteAnswerCallFaultEvent (ci_slotId callInfo) (ci_callId callInfo)
           (ci_videoState callInfo) err desc).
Definition call_parameters (callInfo : CellularCallInfo) : Op CellularCallService () :=
  hisys (SetCallParameterInfo (ci_slotId callInfo) (ci_callType callInfo)
           (ci_videoState callInfo) (ci_isRTT callInfo)).

Definition HangUpSatelliteCall (callInfo : CellularCallInfo) (type : Z)
    : Op CellularCallService Z :=
  with_control (ci_slotId callInfo)
    (control_missing (hangup_fault callInfo TELEPHONY_ERR_LOCAL_PTR_NULL
                        "HangUp satelliteControl is nullptr") callInfo)
    (λ E, SatelliteControl.HangUp callInfo type).

Definition HangUp (callInfo : CellularCallInfo) (type : Z) : Op CellularCallService Z :=
  call_parameters callInfo ;;
  if negb (IsValidSlotId (ci_slotId callInfo)) then
    hangup_fault callInfo CALL_ERR_INVALID_SLOT_ID "HangUp invalid slot id" ;;
    mret CALL_ERR_INVALID_SLOT_ID
  else
    let! srvcc := mgets srvccState_ in
    if srvcc =? STARTED then
      hangup_fault callInfo CALL_ERROR_UNEXPECTED_SRVCC_STATE "HangUp srvccState_ is STARTED" ;;
      mret TELEPHONY_ERR_FAIL
    else if CELLULAR_CALL_SATELLITE && bool_decide (TYPE_SATELLITE = ci_callType callInfo) then
      HangUpSatelliteCall callInfo type
    else if bool_decide (TYPE_CS = ci_callType callInfo) then
      with_control (ci_slotId callInfo)
        (control_missing (hangup_fault callInfo TELEPHONY_ERR_LOCAL_PTR_NULL
                            "HangUp csControl is nullptr") callInfo)
        (λ E, CsControl.HangUp callInfo type)
    else if bool_decide (TYPE_IMS = ci_callType callInfo) then
      with_control (ci_slotId callInfo)
        (control_missing (hangup_fault callInfo TELEPHONY_ERR_LOCAL_PTR_NULL
                            "HangUp imsControl is nullptr") callInfo)
        (λ E, ImsControl.HangUp callInfo type)
    else
      hangup_fault callInfo TELEPHONY_ERR_ARGUMENT_INVALID "HangUp call type error" ;;
      mret TELEPHONY_ERR_ARGUMENT_INVALID.

Definition RejectSatelliteCall (callInfo : CellularCallInfo) : Op CellularCallService Z :=
  with_control (ci_slotId callInfo)
    (control_missing (hangup_fault callInfo TELEPHONY_ERR_LOCAL_PTR_NULL
                        "Reject satelliteControl is nullptr") callInfo)
    (λ E, SatelliteControl.Reject callInfo).

Definition Reject (callInfo : CellularCallInfo) : Op CellularCallService Z :=
  call_parameters callInfo ;;
  if negb (IsValidSlotId (ci_slotId callInfo)) then
    hangup_fault callInfo TELEPHONY_ERR_ARGUMENT_INVALID "Reject call type error" ;;
    mret CALL_ERR_INVALID_SLOT_ID
  else
    let! srvcc := mgets srvccState_ in
    if srvcc =? STARTED then
      hangup_fault callInfo CALL_ERROR_UNEXPECTED_SRVCC_STATE "Reject srvccState_ is STARTED" ;;
      mret TELEPHONY_ERR_FAIL
    else if CELLULAR_CALL_SATELLITE && bool_decide (TYPE_SATELLITE = ci_callType callInfo) then
      RejectSatelliteCall callInfo
    else if bool_decide (TYPE_CS = ci_callType callInfo) then
      with_control (ci_slotId callInfo)
        (control_missing (hangup_fault callInfo TELEPHONY_ERR_LOCAL_PTR_NULL
                            "Reject csControl is nullptr") callInfo)
        (λ E, CsControl.Reject callInfo)
    else if bool_decide (TYPE_IMS = ci_callType callInfo) then
      with_control (ci_slotId callInfo)
        (control_missing (hangup_fault callInfo TELEPHONY_ERR_LOCAL_PTR_NULL
                            "Reject imsControl is nullptr") callInfo)
        (λ E, ImsControl.Reject callInfo)
    else
      hangup_fault callInfo TELEPHONY_ERR_ARGUMENT_INVALID "Reject call type error" ;;
      mret TELEPHONY_ERR_ARGUMENT_INVALID.

Definition AnswerSatelliteCall (callInfo : CellularCallInfo) : Op CellularCallService Z :=
  with_control (ci_slotId callInfo)
    (control_missing (answer_fault callInfo TELEPHONY_ERR_LOCAL_PTR_NULL
                        "satelliteControl is nullptr") callInfo)
    (λ E, SatelliteControl.Answer callInfo).

Definition Answer (callInfo : CellularCallInfo) : Op CellularCallService Z :=
  call_parameters callInfo ;;
  if negb (IsValidSlotId (ci_slotId callInfo)) then
    answer_fault callInfo CALL_ERR_INVALID_SLOT_ID "invalid slot id" ;;
    mret CALL_ERR_INVALID_SLOT_ID
  else
    let! srvcc := mgets srvccState_ in
    if srvcc =? STARTED then
      answer_fault callInfo CALL_ERROR_UNEXPECTED_SRVCC_STATE "srvccState_ is STARTED" ;;
      mret TELEPHONY_ERR_FAIL
    else if CELLULAR_CALL_SATELLITE && bool_decide (TYPE_SATELLITE = ci_callType callInfo) then
      AnswerSatelliteCall callInfo
    else if bool_decide (TYPE_CS = ci_callType callInfo) then
      with_control (ci_slotId callInfo)
        (control_missing (answer_fault callInfo TELEPHONY_ERR_LOCAL_PTR_NULL
                            "csControl is nullptr") callInfo)
        (λ E, CsControl.Answer callInfo)
    else if bool_decide (TYPE_IMS = ci_callType callInfo) then
      with_control (ci_slotId callInfo)
        (control_missing (answer_fault callInfo TELEPHONY_ERR_LOCAL_PTR_NULL
                            "imsControl is nullptr") callInfo)
        (λ E, ImsControl.Answer callInfo)
    else
      answer_fault callInfo TELEPHONY_ERR_LOCAL_PTR_NULL "call type error" ;;
      mret TELEPHONY_ERR_ARGUMENT_INVALID.
End Service.

Section CallOperations.
Context `{CallConsts, E : Env, ServiceEnv}.

(** [if (!IsValidSlotId(slotId)) return ...; if (srvccState_ == STARTED) return ...;],
    the head of the operations below. *)
Definition unless_srvcc (slotId : Z) (k : Op CellularCallService Z) : Op CellularCallService Z :=
  if negb (IsValidSlotId slotId) then mret CALL_ERR_INVALID_SLOT_ID
  else
    let! srvcc := mgets srvccState_ in
    if srvcc =? STARTED then mret TELEPHONY_ERR_FAIL else k.

(** [if (control == nullptr) return TELEPHONY_ERR_LOCAL_PTR_NULL; return control->m();] *)
Definition or_null {C} `{!ControlTable C} (slotId : Z) (m : Env → Op C Z)
    : Op CellularCallService Z :=
  with_control slotId (mret TELEPHONY_ERR_LOCAL_PTR_NULL) m.

Definition HoldCall (callInfo : CellularCallInfo) : Op CellularCallService Z :=
  let slotId := ci_slotId callInfo in
  unless_srvcc slotId
    (if CELLULAR_CALL_SATELLITE && bool_decide (TYPE_SATELLITE = ci_callType callInfo) then
       or_null slotId (λ E, SatelliteControl.HoldCall slotId false : Op SatelliteControl Z)
     else if bool_decide (TYPE_IMS = ci_callType callInfo) then
       or_null slotId (λ E, ImsControl.HoldCall slotId (ci_isRTT callInfo))
     else if bool_decide (TYPE_CS = ci_callType callInfo) then
       or_null slotId (λ E, CsControl.HoldCall slotId)
     else mret TELEPHONY_ERR_ARGUMENT_INVALID).

Definition UnHoldCall (callInfo : CellularCallInfo) : Op CellularCallService Z :=
  let slotId := ci_slotId callInfo in
  unless_srvcc slotId
    (if CELLULAR_CALL_SATELLITE && bool_decide (TYPE_SATELLITE = ci_callType callInfo) then
       or_null slotId (λ E, SatelliteControl.UnHoldCall slotId false : Op SatelliteControl Z)
     else if bool_decide (TYPE_IMS = ci_callType callInfo) then
       or_null slotId (λ E, ImsControl.UnHoldCall slotId (ci_isRTT callInfo))
     else if bool_decide (TYPE_CS = ci_callType callInfo) then
       or_null slotId (λ E, CsControl.UnHoldCall slotId)
     else mret TELEPHONY_ERR_ARGUMENT_INVALID).

(** The satellite branch calls [UnHoldCall]. *)
Definition SwitchCall (callInfo : CellularCallInfo) : Op CellularCallService Z :=
  let slotId := ci_slotId callInfo in
  unless_srvcc slotId
    (if CELLULAR_CALL_SATELLITE && bool_decide (TYPE_SATELLITE = ci_callType callInfo) then
       or_null slotId (λ E, SatelliteControl.UnHoldCall slotId false : Op SatelliteControl Z)
     else if bool_decide (TYPE_IMS = ci_callType callInfo) then
       or_null slotId (λ E, ImsControl.SwitchCall slotId (ci_isRTT callInfo))
     else if bool_decide (TYPE_CS = ci_callType callInfo) then
       or_null slotId (λ E, CsControl.SwitchCall slotId)
     else mret TELEPHONY_ERR_ARGUMENT_INVALID).

Definition CombineConference (callInfo : CellularCallInfo) : Op CellularCallService Z :=
  let slotId := ci_slotId callInfo in
  unless_srvcc slotId
    (if bool_decide (TYPE_IMS = ci_callType callInfo) then
       or_null slotId (λ E, ImsControl.CombineConference slotId : Op IMSControl Z)
     else if bool_decide (TYPE_CS = ci_callType callInfo) then
       or_null slotId (λ E, CsControl.CombineConference slotId : Op CSControl Z)
     else mret TELEPHONY_ERR_ARGUMENT_INVALID).

Definition SeparateConference (callInfo : CellularCallInfo) : Op CellularCallService Z :=
  let slotId := ci_slotId callInfo in
  if negb (IsValidSlotId slotId) then mret CALL_ERR_INVALID_SLOT_ID
  else if bool_decide (TYPE_CS = ci_callType callInfo) then
    or_null slotId (λ E, CsControl.SeparateConference slotId (ci_phoneNum callInfo)
                           (ci_index callInfo))
  else mret TELEPHONY_ERR_ARGUMENT_INVALID.

Definition InviteToConference (slotId : Z) (numberList : list string)
    : Op CellularCallService Z :=
  or_null slotId (λ E, ImsControl.InviteToConference slotId numberList : Op IMSControl Z).

Definition UpdateImsRttCallMode (slotId callId mode : Z) : Op CellularCallService Z :=
  or_null slotId (λ E, ImsControl.UpdateImsRttCallMode slotId callId mode : Op IMSControl Z).

Definition KickOutFromConference (callInfo : CellularCallInfo) : Op CellularCallService Z :=
  let slotId := ci_slotId callInfo in
  if negb (IsValidSlotId slotId) then mret CALL_ERR_INVALID_SLOT_ID
  else if bool_decide (TYPE_IMS = ci_callType callInfo) then
    or_null slotId (λ E, ImsControl.KickOutFromConference slotId (ci_phoneNum callInfo)
                           (ci_index callInfo))
  else if bool_decide (TYPE_CS = ci_callType callInfo) then
    or_null slotId (λ E, CsControl.HangUp callInfo TYPE_DEFAULT)
  else mret TELEPHONY_ERR_ARGUMENT_INVALID.

Definition StartDtmf (cDtmfCode : ascii) (callInfo : CellularCallInfo)
    : Op CellularCallService Z :=
  let slotId := ci_slotId callInfo in
  unless_srvcc slotId
    (if bool_decide (TYPE_IMS = ci_callType callInfo) then
       or_null slotId (λ E, let! m := mgets ImsControl.connectionMap_ in
                            ControlBase.StartDtmf m cDtmfCode callInfo)
     else if bool_decide (TYPE_CS = ci_callType callInfo) then
       or_null slotId (λ E, let! m := mgets CsControl.connectionMap_ in
                            ControlBase.StartDtmf m cDtmfCode callInfo)
     else if CELLULAR_CALL_SATELLITE && bool_decide (TYPE_SATELLITE = ci_callType callInfo) then
       or_null slotId (λ E, let! m := SatelliteControl.GetConnectionMap in
                            ControlBase.StartDtmf m cDtmfCode callInfo)
     else mret TELEPHONY_ERR_ARGUMENT_INVALID).

Definition StopDtmf (callInfo : CellularCallInfo) : Op CellularCallService Z :=
  let slotId := ci_slotId callInfo in
  unless_srvcc slotId
    (if bool_decide (TYPE_IMS = ci_callType callInfo) then
       or_null slotId (λ E, let! m := mgets ImsControl.connectionMap_ in
                            ControlBase.StopDtmf m callInfo)
     else if bool_decide (TYPE_CS = ci_callType callInfo) then
       or_null slotId (λ E, let! m := mgets CsControl.connectionMap_ in
                            ControlBase.StopDtmf m callInfo)
     else if CELLULAR_CALL_SATELLITE && bool_decide (TYPE_SATELLITE = ci_callType callInfo) then
       or_null slotId (λ E, let! m := SatelliteControl.GetConnectionMap in
                            ControlBase.StopDtmf m callInfo)
     else mret TELEPHONY_ERR_ARGUMENT_INVALID).

Definition SendDtmf (cDtmfCode : ascii) (callInfo : CellularCallInfo)
    : Op CellularCallService Z :=
  let slotId := ci_slotId callInfo in
  unless_srvcc slotId
    (if bool_decide (TYPE_IMS = ci_callType callInfo) then
       or_null slotId (λ E, let! m := mgets ImsControl.connectionMap_ in
                            ControlBase.SendDtmf m cDtmfCode callInfo)
     else if bool_decide (TYPE_CS = ci_callType callInfo) then
       or_null slotId (λ E, let! m := mgets CsControl.connectionMap_ in
                            ControlBase.SendDtmf m cDtmfCode callInfo)
     else if CELLULAR_CALL_SATELLITE && bool_decide (TYPE_SATELLITE = ci_callType callInfo) then
       or_null slotId (λ E, let! m := SatelliteControl.GetConnectionMap in
                            ControlBase.SendDtmf m cDtmfCode callInfo)
     else mret TELEPHONY_ERR_ARGUMENT_INVALID).

Definition PostDialProceed (callInfo : CellularCallInfo) (proceed : bool)
    : Op CellularCallService Z :=
  let slotId := ci_slotId callInfo in
  unless_srvcc slotId
    (if bool_decide (ci_callType callInfo = TYPE_IMS) then
       or_null slotId (λ E, ImsControl.PostDialProceed callInfo proceed)
     else if bool_decide (ci_callType callInfo = TYPE_CS) then
       or_null slotId (λ E, CsControl.PostDialProceed callInfo proceed)
     else if CELLULAR_CALL_SATELLITE && bool_decide (TYPE_SATELLITE = ci_callType callInfo) then
       or_null slotId (λ E, SatelliteControl.PostDialProceed callInfo proceed)
     else mret TELEPHONY_ERR_ARGUMENT_INVALID).
End CallOperations.

(** ** Operations on every slot *)

Section Slots.
Context `{CallConsts, E : Env, ServiceEnv}.

(** [if (GetXControl(slotId)) GetXControl(slotId)->m();] *)
Definition if_control {C} `{!ControlTable C} {A} (slotId : Z) (m : Env → Op C A)
    : Op CellularCallService () :=
  with_control slotId (mret ()) (λ E, m E ;; mret ()).

(** [HangUpAllConnection()]: [Some r] is the early return. *)
Definition HangUpAllConnection : Op CellularCallService Z :=
  let! r := mfor_return GetSlotInfo (λ it,
    if_control it (λ E, CsControl.HangUpAllConnection it : Op CSControl Z) ;;
    let! imsControl := mgets (GetImsControl it) in
    match imsControl with
    | None => mret None
    | Some c =>
        if BASE_POWER_IMPROVEMENT_FEATURE && isPendingEmcFlag c then
          mret (Some TELEPHONY_SUCCESS)
        else
          if_control it (λ E, ImsControl.HangUpAllConnection it) ;; mret None
    end) in
  mret (default TELEPHONY_SUCCESS r).

(** [HangUpAllConnection(int32_t slotId)] *)
Definition HangUpAllConnection_slot (slotId : Z) : Op CellularCallService Z :=
  if_control slotId (λ E, CsControl.HangUpAllConnection slotId : Op CSControl Z) ;;
  if_control slotId (λ E, ImsControl.HangUpAllConnection slotId) ;;
  (if CELLULAR_CALL_SATELLITE then
     if_control slotId (λ E, SatelliteControl.HangUpAllConnection slotId : Op SatelliteControl Z)
   else mret ()) ;;
  mret TELEPHONY_SUCCESS.

Definition SetReadyToCall (slotId callType : Z) (isReadyToCall : bool)
    : Op CellularCallService Z :=
  if negb (IsValidSlotId slotId) then mret CALL_ERR_INVALID_SLOT_ID
  else
    if_control slotId (λ E, ControlBase.SetReadyToCall slotId isReadyToCall : Op CSControl Z) ;;
    if_control slotId (λ E, ControlBase.SetReadyToCall slotId isReadyToCall : Op IMSControl Z) ;;
    (if CELLULAR_CALL_SATELLITE then
       if_control slotId
         (λ E, ControlBase.SetReadyToCall slotId isReadyToCall : Op SatelliteControl Z)
     else mret ()) ;;
    mret TELEPHONY_SUCCESS.

Definition HandleCallManagerException : Op CellularCallService () :=
  mfor GetSlotInfo (λ it,
    if_control it (λ E, CsControl.HangUpAllConnection it : Op CSControl Z) ;;
    if_control it (λ E, ImsControl.HangUpAllConnection it)).

(** *** Calls left from before a restart of this process *)

Definition ensure_control {C} `{!ControlTable C} (slotId : Z) : CellularCallService →
    CellularCallService :=
  λ s, match GetControl slotId s with
       | None => SetControl_ slotId (Some new_control) s
       | Some _ => s
       end.

Definition SetControl (info : CellularCallInfo) : Op CellularCallService Z :=
  (if bool_decide (ci_callType info = TYPE_CS) then
     mmodify (ensure_control (C := CSControl) (ci_slotId info))
   else mret ()) ;;
  (if bool_decide (ci_callType info = TYPE_IMS) then
     mmodify (ensure_control (C := IMSControl) (ci_slotId info))
   else mret ()) ;;
  mret TELEPHONY_SUCCESS.

Definition HangUpWithCellularCallRestart (infos : list CellularCallInfo)
    : Op CellularCallService () :=
  mfor GetSlotInfo (λ it,
    if_control it (λ E,
      CsControl.ReportHangUp infos it ;; (CsControl.HangUpAllConnection it : Op CSControl Z)) ;;
    if_control it (λ E,
      (ImsControl.ReportHangUp infos it : Op IMSControl Z) ;;
      ImsControl.RestoreConnection infos it ;;
      ImsControl.HangUpAllConnection it ;;
      ImsControl.ReleaseAllConnection)).

Definition ClearAllCalls (infos : list CellularCallInfo) : Op CellularCallService Z :=
  match infos with
  | [] => mret TELEPHONY_ERR_ARGUMENT_INVALID
  | _ =>
      let! failed := mfor_return infos (λ info,
        let! r := SetControl info in
        mret (if bool_decide (r ≠ TELEPHONY_SUCCESS) then Some TELEPHONY_ERR_LOCAL_PTR_NULL
              else None)) in
      match failed with
      | Some r => mret r
      | None => HangUpWithCellularCallRestart infos ;; mret TELEPHONY_SUCCESS
      end
  end.

(** *** Video calls: passed to [ImsVideoCallControl] *)

Definition with_video (m : Op CellularCallService Z) : Op CellularCallService Z :=
  let! video := ask video_instance in
  if negb video then mret TELEPHONY_ERR_LOCAL_PTR_NULL else m.

Definition SendUpdateCallMediaModeRequest (callInfo : CellularCallInfo) (mode : Z)
    : Op CellularCallService Z :=
  with_video (VideoControl.SendUpdateCallMediaModeRequest callInfo mode).
Definition SendUpdateCallMediaModeResponse (callInfo : CellularCallInfo) (mode : Z)
    : Op CellularCallService Z :=
  with_video (VideoControl.SendUpdateCallMediaModeResponse callInfo mode).
Definition CancelCallUpgrade (slotId callIndex : Z) : Op CellularCallService Z :=
  with_video (VideoControl.CancelCallUpgrade slotId callIndex).
Definition RequestCameraCapabilities (slotId callIndex : Z) : Op CellularCallService Z :=
  with_video (VideoControl.RequestCameraCapabilities slotId callIndex).
Definition ControlCamera (slotId index : Z) (cameraId : string) : Op CellularCallService Z :=
  with_video (VideoControl.ControlCamera slotId index cameraId).
Definition SetPreviewWindow (slotId index : Z) (surfaceId : string) (surface : Z)
    : Op CellularCallService Z :=
  with_video (VideoControl.SetPreviewWindow slotId index surfaceId surface).
Definition SetDisplayWindow (slotId index : Z) (surfaceId : string) (surface : Z)
    : Op CellularCallService Z :=
  with_video (VideoControl.SetDisplayWindow slotId index surfaceId surface).
Definition SetCameraZoom (zoomRatio : Z) : Op CellularCallService Z :=
  with_video (VideoControl.SetCameraZoom zoomRatio).
Definition SetPausePicture (slotId index : Z) (path : string) : Op CellularCallService Z :=
  with_video (VideoControl.SetPausePicture slotId index path).
Definition SetDeviceDirection (slotId callIndex rotation : Z) : Op CellularCallService Z :=
  with_video (VideoControl.SetDeviceDirection slotId callIndex rotation).
End Slots.
