(* ===== verification/ServiceFacts.v ===== *)
(** * ServiceFacts: what an operation of the service does to the controls

    An operation reaches a control only through its slot and only with the
    control's own operations; so what every operation of a control preserves,
    every operation of the service preserves, and the other slots are left
    alone.  [closed_in] is that interface between the service and a table. *)

From stdpp Require Import base tactics option list numbers strings gmap relations.
From Stdlib Require Import ZArith Lia Ascii String.
From S2P Require Import Prelude Platform Samples Standardize StdMap Connection MmiCode.
From S2P Require Import Emergency ControlBase CallMap CallReport ConnectionCS CsControl.
From S2P Require Import CsControlFacts ConnectionIMS ImsControl ImsControlFacts.
From S2P Require Import ConnectionSatellite SatelliteControl SatelliteFacts VideoControl Service.

Open Scope Z_scope.

(** ** Tables and their invariants *)

Class ControlSpec `{CallConsts, ServiceEnv} (C : Type) `{!ControlTable C} := {
  control_inv : C → Prop;
  new_control_inv : control_inv new_control
}.
#[export] Program Instance CsSpec `{CallConsts, ServiceEnv} : ControlSpec CSControl :=
  { control_inv := conns_inv }.
Next Obligation. intros. split; [apply conns_ok_nil|apply unmarked_nil]. Qed.
#[export] Program Instance ImsSpec `{CallConsts, ServiceEnv} : ControlSpec IMSControl :=
  { control_inv := conns_inv }.
Next Obligation. intros. split; [apply conns_ok_nil|apply unmarked_nil]. Qed.
#[export] Program Instance SatSpec `{CallConsts, ServiceEnv} : ControlSpec SatelliteControl :=
  { control_inv := conns_inv }.
Next Obligation. intros. split; [apply conns_ok_nil|apply unmarked_nil]. Qed.

Section Closed.
Context `{CallConsts, E : Env, ServiceEnv}.
Implicit Types (s : CellularCallService) (I : CellularCallService → Prop).

(** [I] survives when the control of [slotId] runs an operation of its own, is
    created, or is dropped. *)
Record closed_in C `{!ControlTable C, !ControlSpec C} (slotId : Z) I : Prop := {
  closed_run s c c' : I s → GetControl slotId s = Some c →
    (control_inv c → control_inv c') → I (SetControl_ slotId (Some c') s);
  closed_new s : I s → I (SetControl_ slotId (Some new_control) s);
  closed_drop s : I s → I (SetControl_ slotId None s)
}.
Definition slot_closed (slotId : Z) I : Prop :=
  closed_in CSControl slotId I ∧ closed_in IMSControl slotId I ∧
  closed_in SatelliteControl slotId I.

Section Table.
Context {C : Type} `{!ControlTable C, !ControlSpec C} (slotId : Z) I.
Hypothesis Hclosed : closed_in C slotId I.

Lemma preserves_on_control {A} c0 (m : Env → Op C A) :
  (∀ E', preserves control_inv (m E')) → preserves I (on_control slotId c0 m).
Proof.
  intros Hm s h Hs. unfold wp, on_control.
  destruct (GetControl slotId s) as [c|] eqn:Hc; simpl.
  - specialize (Hm (linked E s) c h). unfold wp in Hm.
    destruct (m _ _ _) as [[a c'] e]. by eapply (closed_run C).
  - by destruct (m _ _ _) as [[a c'] e].
Qed.
Lemma preserves_with_control {A} absent (m : Env → Op C A) :
  (∀ E', preserves control_inv (m E')) → preserves I absent →
  preserves I (with_control slotId absent m).
Proof.
  intros Hm Ha. unfold with_control. apply preserves_then; [apply preserves_keeps; auto with cc|].
  intros [c|]; [by apply preserves_on_control|done].
Qed.
Lemma preserves_with_new_control {A} (m : Env → Op C A) :
  (∀ E', preserves control_inv (m E')) → preserves I (with_new_control slotId m).
Proof.
  intros Hm. unfold with_new_control. apply preserves_then; [apply preserves_keeps; auto with cc|].
  intros [c|]; [by apply preserves_on_control|].
  apply preserves_then; [|intros ?; by apply preserves_on_control].
  apply preserves_modify. intros s. by apply (closed_new C).
Qed.
Lemma preserves_if_control {A} (m : Env → Op C A) :
  (∀ E', preserves control_inv (m E')) → preserves I (if_control slotId m).
Proof.
  intros Hm. unfold if_control. apply preserves_with_control; [|by mauto].
  intros E'. apply preserves_then; [apply Hm|by mauto].
Qed.
Lemma preserves_ensure_control : preserves I (mmodify (ensure_control (C := C) slotId) : Op CellularCallService ()).
Proof.
  apply preserves_modify. intros s Hs. unfold ensure_control.
  destruct (GetControl slotId s); [done|]. by apply (closed_new C).
Qed.
End Table.
Lemma preserves_or_null {C} `{!ControlTable C, !ControlSpec C} slotId I (m : Env → Op C Z) :
  closed_in C slotId I → (∀ E', preserves control_inv (m E')) →
  preserves I (or_null slotId m).
Proof. intros Hc Hm. apply preserves_with_control; [done|done|by mauto]. Qed.
End Closed.

(** ** Operations of one slot *)

(** The operations of call_manager that name one slot. *)
Inductive call_op :=
  | OpDial (callInfo : CellularCallInfo)
  | OpHangUp (callInfo : CellularCallInfo) (type : Z)
  | OpReject (callInfo : CellularCallInfo)
  | OpAnswer (callInfo : CellularCallInfo)
  | OpHoldCall (callInfo : CellularCallInfo)
  | OpUnHoldCall (callInfo : CellularCallInfo)
  | OpSwitchCall (callInfo : CellularCallInfo)
  | OpCombineConference (callInfo : CellularCallInfo)
  | OpStartDtmf (c : ascii) (callInfo : CellularCallInfo)
  | OpStopDtmf (callInfo : CellularCallInfo)
  | OpSendDtmf (c : ascii) (callInfo : CellularCallInfo)
  | OpPostDialProceed (callInfo : CellularCallInfo) (proceed : bool)
  | OpSeparateConference (callInfo : CellularCallInfo)
  | OpKickOutFromConference (callInfo : CellularCallInfo)
  | OpInviteToConference (slotId : Z) (numberList : list string)
  | OpUpdateImsRttCallMode (slotId callId mode : Z)
  | OpHangUpAllConnection_slot (slotId : Z)
  | OpSetReadyToCall (slotId callType : Z) (isReadyToCall : bool).

Definition op_slot (op : call_op) : Z :=
  match op with
  | OpDial ci | OpHangUp ci _ | OpReject ci | OpAnswer ci | OpHoldCall ci | OpUnHoldCall ci
  | OpSwitchCall ci | OpCombineConference ci | OpStartDtmf _ ci | OpStopDtmf ci
  | OpSendDtmf _ ci | OpPostDialProceed ci _ | OpSeparateConference ci
  | OpKickOutFromConference ci => ci_slotId ci
  | OpInviteToConference slotId _ | OpUpdateImsRttCallMode slotId _ _
  | OpHangUpAllConnection_slot slotId | OpSetReadyToCall slotId _ _ => slotId
  end.

Section CallOps.
Context `{CallConsts, E : Env, ServiceEnv}.

Definition run_call (op : call_op) : Op CellularCallService Z :=
  match op with
  | OpDial ci => Dial ci
  | OpHangUp ci t => HangUp ci t
  | OpReject ci => Reject ci
  | OpAnswer ci => Answer ci
  | OpHoldCall ci => HoldCall ci
  | OpUnHoldCall ci => UnHoldCall ci
  | OpSwitchCall ci => SwitchCall ci
  | OpCombineConference ci => CombineConference ci
  | OpStartDtmf c ci => StartDtmf c ci
  | OpStopDtmf ci => StopDtmf ci
  | OpSendDtmf c ci => SendDtmf c ci
  | OpPostDialProceed ci b => PostDialProceed ci b
  | OpSeparateConference ci => SeparateConference ci
  | OpKickOutFromConference ci => KickOutFromConference ci
  | OpInviteToConference slotId l => InviteToConference slotId l
  | OpUpdateImsRttCallMode slotId i mode => UpdateImsRttCallMode slotId i mode
  | OpHangUpAllConnection_slot slotId => HangUpAllConnection_slot slotId
  | OpSetReadyToCall slotId t b => SetReadyToCall slotId t b
  end.
End CallOps.

#[export] Hint Resolve cs_preserves_Dial cs_preserves_HangUp cs_preserves_Reject
  cs_keeps_HoldCall keeps_UnHoldCall cs_keeps_SwitchCall keeps_SeparateConference
  CsControlFacts.keeps_Answer cs_preserves_PostDialProceed cs_keeps_StartDtmf cs_keeps_StopDtmf
  cs_keeps_SendDtmf cs_preserves_ReportHangUp
  ims_preserves_Dial ims_preserves_HangUp ims_preserves_Reject ims_preserves_Answer
  ims_keeps_HoldCall preserves_UnHoldCall ims_keeps_SwitchCall keeps_HangUpAllConnection
  keeps_KickOutFromConference ims_preserves_PostDialProceed ims_keeps_StartDtmf
  ims_keeps_StopDtmf ims_keeps_SendDtmf preserves_RestoreConnection keeps_ReportHangUp
  sat_preserves_Dial sat_preserves_HangUp SatelliteFacts.keeps_Reject sat_preserves_Answer
  sat_preserves_PostDialProceed sat_keeps_StartDtmf sat_keeps_StopDtmf sat_keeps_SendDtmf
  : cc.

(** Reduce an operation of the service to the operations of the controls. *)
Ltac service_step :=
  lazymatch goal with
  | |- preserves _ (with_control _ _ _) =>
      apply preserves_with_control; [solve [auto]| intros ?; cbn [control_inv CsSpec ImsSpec SatSpec] |]
  | |- preserves _ (with_new_control _ _) =>
      apply preserves_with_new_control; [solve [auto]| intros ?; cbn [control_inv CsSpec ImsSpec SatSpec]]
  | |- preserves _ (or_null _ _) =>
      apply preserves_or_null; [solve [auto]| intros ?; cbn [control_inv CsSpec ImsSpec SatSpec]]
  | |- preserves _ (if_control _ _) =>
      apply preserves_if_control; [solve [auto]| intros ?; cbn [control_inv CsSpec ImsSpec SatSpec]]
  | |- preserves _ (mmodify (ensure_control _)) => apply preserves_ensure_control; solve [auto]
  end.
Ltac mstep_hook ::= service_step.

Ltac close_table :=
  intros; unfold GetControl, SetControl_, CsTable, ImsTable, SatTable, SetCsControl, SetImsControl,
    SetSatelliteControl, GetCsControl, GetImsControl, GetSatelliteControl in *;
  destruct (IsValidSlotId _) eqn:?; simpl in *; try done.

Section Closure.
Context `{CallConsts, E : Env, ServiceEnv}.

Lemma preserves_call I op : slot_closed (op_slot op) I → preserves I (run_call op).
Proof.
  intros (Hcs & Hims & Hsat). destruct op; simpl in *;
    unfold Dial, DialNormalCall, HangUp, HangUpSatelliteCall, Reject, RejectSatelliteCall, Answer,
      AnswerSatelliteCall, control_missing, HandleCellularControlException, call_parameters,
      dial_fault, hangup_fault, answer_fault, HoldCall, UnHoldCall, SwitchCall, CombineConference,
      StartDtmf, StopDtmf, SendDtmf, PostDialProceed, SeparateConference, KickOutFromConference,
      InviteToConference, UpdateImsRttCallMode, HangUpAllConnection_slot, SetReadyToCall,
      unless_srvcc; mauto;
    unfold SatelliteControl.HoldCall, SatelliteControl.UnHoldCall, GetConnectionMap,
      SatelliteControl.HangUpAllConnection, ImsControl.CombineConference; mauto.
Qed.

(** Every control is under a slot of the device and satisfies its invariant. *)
Definition table_ok {C} (inv : C → Prop) (m : gmap Z C) : Prop :=
  map_Forall (λ slotId c, IsValidSlotId slotId = true ∧ inv c) m.
Definition service_inv (s : CellularCallService) : Prop :=
  table_ok conns_inv (csControlMap_ s) ∧ table_ok conns_inv (imsControlMap_ s) ∧
  table_ok conns_inv (satelliteControlMap_ s).

(** What the service has for slot [j]. *)
Definition slot_view (j : Z) (s : CellularCallService) :=
  (csControlMap_ s !! j, imsControlMap_ s !! j, satelliteControlMap_ s !! j, isRadioOn_ s !! j).
(** Only slot [slotId] may differ from [s0]. *)
Definition only_slot (slotId : Z) (s0 s : CellularCallService) : Prop :=
  srvccState_ s = srvccState_ s0 ∧ ∀ j, j ≠ slotId → slot_view j s = slot_view j s0.

Lemma table_ok_alter {C} (inv : C → Prop) m slotId oc :
  IsValidSlotId slotId = true → (∀ c, oc = Some c → inv c) → table_ok inv m →
  table_ok inv (partial_alter (λ _, oc) slotId m).
Proof.
  intros Hv Hc Hm j c. destruct (decide (j = slotId)) as [->|Hne].
  - rewrite lookup_partial_alter_eq. auto.
  - rewrite lookup_partial_alter_ne by done. apply Hm.
Qed.

Lemma service_inv_closed slotId : slot_closed slotId service_inv.
Proof.
  split_and!; split; close_table;
    match goal with Hs : service_inv _ |- _ => destruct Hs as (Hcs & Hims & Hsat) end;
    split_and!; simpl; try done; apply table_ok_alter; try done;
    try (by intros ? [= <-]; split; [apply conns_ok_nil|apply unmarked_nil]);
    intros ? [= <-];
    match goal with Hi : conns_inv _ → _ |- _ => apply Hi end.
  - by eapply Hcs.
  - by eapply Hims.
  - by eapply Hsat.
Qed.
Lemma only_slot_closed slotId s0 : slot_closed slotId (only_slot slotId s0).
Proof.
  split_and!; split; close_table;
    match goal with Hs : only_slot _ _ _ |- _ => destruct Hs as [Hsr Hv] end;
    (split; [done|]); intros j Hj; rewrite <-Hv by done; unfold slot_view; simpl;
    by rewrite lookup_partial_alter_ne.
Qed.
Lemma slot_closed_and slotId (I J : CellularCallService → Prop) :
  slot_closed slotId I → slot_closed slotId J → slot_closed slotId (λ s, I s ∧ J s).
Proof.
  intros (I1 & I2 & I3) (J1 & J2 & J3).
  split_and!; split; intros; destruct_and!; split;
    (by eapply closed_run) || (by eapply closed_new) || (by eapply closed_drop).
Qed.
End Closure.
