(* ===== verification/Handler.v ===== *)
(** * Handler: the events of one slot
    (services/manager/src/cellular_call_handler.cpp)

    Answers and reports of the modem, of the IMS and of the satellite service
    arrive as events.  The handler of the slot turns call lists into operations
    of the slot's controls, creates a control for the first call and drops it
    with the last one, and follows the SRVCC and reverse SRVCC state. *)

From stdpp Require Import base tactics option list numbers strings gmap.
From Stdlib Require Import ZArith Lia Ascii String.
From S2P Require Import Prelude Platform Standardize StdMap Connection Regex MmiCode.
From S2P Require Import ControlBase CallMap ConnectionCS CsControl ConnectionIMS ImsControl.
From S2P Require Import ConnectionSatellite SatelliteControl Service.

Open Scope Z_scope.

(** ** State *)

(** What the handler reads of the platform and of parts modelled elsewhere. *)
Class HandlerEnv := {
  CALL_MANAGER_AUTO_START_OPTIMIZE : bool;
  CELLULAR_CALL_REDCAP_ABILITY : bool;
  ErrType_NONE : Z;
  ERR_CMD_NO_CARRIER : Z;
  DISCONNECTED_REASON_NORMAL : Z;
  (* a CallInfoList (tel_ril_call_parcel.h) as declared *)
  CallInfoList_init : CallInfoList;
  core_GetIMSI : list Effect → Z → string;
  CurrentTimeMillis : list Effect → Z;
  (* ResourceUtils *)
  GetCallFailedMessageName : list Effect → Z → option string;
  GetStringValueByName : list Effect → string → string;
  (* CellularCallConfig, CellularCallRdbHelper *)
  IsVolteSupport : list Effect → Z → bool;
  HasSimProfile : list Effect → Z → bool
}.

(** An [ImsCurrentCallList] as declared: no call. *)
Definition ImsCurrentCallList_init : ImsCurrentCallList :=
  {| iml_callSize := 0; iml_flag := 0; iml_calls := [] |}.

Record SsRequestCommand := {
  ss_cfAction : Z;
  ss_cfReason : Z;
  ss_number : string;
  ss_enable : bool;
  ss_clirAction : Z;
  ss_facility : string;
  ss_password : string;
  ss_classType : Z;
  ss_action : Z;
  ss_flag : Z;
  ss_isIncludeCallForwardingNumber : bool
}.
Definition SS_FROM_MMI_CODE : Z := 0.
Definition SsRequestCommand_init : SsRequestCommand :=
  {| ss_cfAction := 0; ss_cfReason := 0; ss_number := ""; ss_enable := false;
     ss_clirAction := 0; ss_facility := ""; ss_password := ""; ss_classType := 0;
     ss_action := 0; ss_flag := SS_FROM_MMI_CODE; ss_isIncludeCallForwardingNumber := false |}.

Record CellularCallHandler := {
  slotId_ : Z;
  srvccState_ : Z;
  registerInstance_ : bool;
  isDuringRSRVCC_ : bool;
  indexCommand_ : Z;
  utCommandMap_ : smap SsRequestCommand;
  currentCallList_ : ImsCurrentCallList;
  currentCsCallInfoList_ : CallInfoList
}.
Definition CellularCallHandler_new `{HandlerEnv} (slotId : Z) (registerInstance : bool)
    : CellularCallHandler :=
  {| slotId_ := slotId; srvccState_ := SRVCC_NONE; registerInstance_ := registerInstance;
     isDuringRSRVCC_ := false; indexCommand_ := 0; utCommandMap_ := [];
     currentCallList_ := ImsCurrentCallList_init; currentCsCallInfoList_ := CallInfoList_init |}.
Definition set_srvccState (v : Z) (t : CellularCallHandler) : CellularCallHandler :=
  {| slotId_ := slotId_ t; srvccState_ := v; registerInstance_ := registerInstance_ t;
     isDuringRSRVCC_ := isDuringRSRVCC_ t; indexCommand_ := indexCommand_ t;
     utCommandMap_ := utCommandMap_ t; currentCallList_ := currentCallList_ t;
     currentCsCallInfoList_ := currentCsCallInfoList_ t |}.
Definition set_isDuringRSRVCC (v : bool) (t : CellularCallHandler) : CellularCallHandler :=
  {| slotId_ := slotId_ t; srvccState_ := srvccState_ t;
     registerInstance_ := registerInstance_ t; isDuringRSRVCC_ := v;
     indexCommand_ := indexCommand_ t; utCommandMap_ := utCommandMap_ t;
     currentCallList_ := currentCallList_ t;
     currentCsCallInfoList_ := currentCsCallInfoList_ t |}.
Definition set_commands (i : Z) (m : smap SsRequestCommand) (t : CellularCallHandler)
    : CellularCallHandler :=
  {| slotId_ := slotId_ t; srvccState_ := srvccState_ t;
     registerInstance_ := registerInstance_ t; isDuringRSRVCC_ := isDuringRSRVCC_ t;
     indexCommand_ := i; utCommandMap_ := m; currentCallList_ := currentCallList_ t;
     currentCsCallInfoList_ := currentCsCallInfoList_ t |}.
Definition set_currentCallList (l : ImsCurrentCallList) (t : CellularCallHandler)
    : CellularCallHandler :=
  {| slotId_ := slotId_ t; srvccState_ := srvccState_ t;
     registerInstance_ := registerInstance_ t; isDuringRSRVCC_ := isDuringRSRVCC_ t;
     indexCommand_ := indexCommand_ t; utCommandMap_ := utCommandMap_ t;
     currentCallList_ := l; currentCsCallInfoList_ := currentCsCallInfoList_ t |}.
Definition set_currentCsCallInfoList (l : CallInfoList) (t : CellularCallHandler)
    : CellularCallHandler :=
  {| slotId_ := slotId_ t; srvccState_ := srvccState_ t;
     registerInstance_ := registerInstance_ t; isDuringRSRVCC_ := isDuringRSRVCC_ t;
     indexCommand_ := indexCommand_ t; utCommandMap_ := utCommandMap_ t;
     currentCallList_ := currentCallList_ t; currentCsCallInfoList_ := l |}.

(** What a handler works on: itself, the service, and the static members
    ([strEnterEventResult_] points to the result of a broadcast, or is null). *)
Record HandlerState := {
  this : CellularCallHandler;
  serviceInstance : CellularCallService;
  strEnterEventResult_ : option nat
}.
Definition upd_this (f : CellularCallHandler → CellularCallHandler) (s : HandlerState)
    : HandlerState :=
  {| this := f (this s); serviceInstance := serviceInstance s;
     strEnterEventResult_ := strEnterEventResult_ s |}.
Definition upd_service (f : CellularCallService → CellularCallService) (s : HandlerState)
    : HandlerState :=
  {| this := this s; serviceInstance := f (serviceInstance s);
     strEnterEventResult_ := strEnterEventResult_ s |}.
Definition set_strEnterEventResult (v : option nat) (s : HandlerState) : HandlerState :=
  {| this := this s; serviceInstance := serviceInstance s; strEnterEventResult_ := v |}.

(** A call on the service. *)
Definition on_service {A} (m : Op CellularCallService A) : Op HandlerState A :=
  λ s h, let '(a, sv, e) := m (serviceInstance s) h in (a, upd_service (λ _, sv) s, e).

Definition DELAY_TIME : Z := 100.
Definition MAX_ACTIVE_CALL_NUM : Z := 2.

(** ** Numbers in a call list *)

Definition CN_INTERNATIONAL_NUMBER_PREFIX : string := "+86".
Definition INTERNATION_CODE : Z := 145.

(** [number.compare(0, p.length(), p) == 0]: [number] starts with [p]. *)
Definition starts_with (p number : string) : bool := String.prefix p number.
Definition drop_string (n : nat) (s : string) : string :=
  String.substring n (String.length s - n) s.

(** DUPLICATIVE_CN_INTERNATIONAL_NUMBER_PREFIX_FORMAT:
    [^(\+?86)(?:86)?(13\[0-9\]|14\[0-9\]|15\[0-9\]|162|165|166|167|17\[0-9\]|18\[0-9\]|19\[0-9\])(\d{8}$)] *)
Definition rdigit : re := RChar is_digit.
Fixpoint rdigits (n : nat) : re :=
  match n with
  | O => RStar (λ _, false)
  | S n' => RSeq rdigit (rdigits n')
  end.
(** [1dx] *)
Definition segment (d : ascii) (x : re) : re := RSeq (rlit "1") (RSeq (rlit d) x).
Definition re_segments : re :=
  RAlt (segment "3" rdigit) (RAlt (segment "4" rdigit) (RAlt (segment "5" rdigit)
    (RAlt (segment "6" (rlit "2")) (RAlt (segment "6" (rlit "5"))
      (RAlt (segment "6" (rlit "6")) (RAlt (segment "6" (rlit "7"))
        (RAlt (segment "7" rdigit) (RAlt (segment "8" rdigit) (segment "9" rdigit))))))))).
Definition re_phone_context : re :=
  RSeq (RGroup 1 (RSeq (ROpt (rlit "+")) (RSeq (rlit "8") (rlit "6"))))
    (RSeq (ROpt (RSeq (rlit "8") (rlit "6")))
      (RSeq (RGroup 2 re_segments) (RGroup 3 (rdigits 8)))).

(** The number of one call of the list, in [ProcessRedundantCode]'s loop. *)
Definition redundant_code (type : Z) (number : string) : string :=
  let DOUBLE_PHONE_CONTEXT_NUMBER_LENGTH := 16 in
  if negb (string_size number =? DOUBLE_PHONE_CONTEXT_NUMBER_LENGTH - 1) &&
     negb (string_size number =? DOUBLE_PHONE_CONTEXT_NUMBER_LENGTH) then number
  else
    let prefix := if type =? INTERNATION_CODE then "+8686" else "8686" in
    if negb (bool_decide (String.substring 0 (String.length prefix) number = prefix)) then number
    else
      match regex_match re_phone_context number with
      | Some _ => CN_INTERNATIONAL_NUMBER_PREFIX +:+ drop_string (String.length prefix) number
      | None => number
      end.

Definition ca_set_number (v : string) (c : CallInfo) : CallInfo :=
  {| ca_index := ca_index c; ca_dir := ca_dir c; ca_state := ca_state c; ca_mpty := ca_mpty c;
     ca_voiceDomain := ca_voiceDomain c; ca_number := v; ca_type := ca_type c;
     ca_name := ca_name c; ca_namePresentation := ca_namePresentation c |}.
Definition im_set_number (v : string) (c : ImsCurrentCall) : ImsCurrentCall :=
  {| im_index := im_index c; im_dir := im_dir c; im_state := im_state c; im_mode := im_mode c;
     im_mpty := im_mpty c; im_voiceDomain := im_voiceDomain c; im_callType := im_callType c;
     im_number := v; im_name := im_name c; im_type := im_type c; im_alpha := im_alpha c;
     im_toa := im_toa c; im_toneType := im_toneType c;
     im_callInitialType := im_callInitialType c; im_namePresentation := im_namePresentation c;
     im_newCallUseBox := im_newCallUseBox c; im_rttState := im_rttState c;
     im_rttChannelId := im_rttChannelId c; im_imsDomain := im_imsDomain c |}.

Definition ProcessRedundantCode (l : CallInfoList) : CallInfoList :=
  if (cal_callSize l =? 0) || bool_decide (cal_calls l = []) then l
  else {| cal_callSize := cal_callSize l;
          cal_calls := (λ c, ca_set_number (redundant_code (ca_type c) (ca_number c)) c)
                         <$> cal_calls l |}.

Section Numbers.
Context `{HandlerEnv}.

Definition replacePrefix (h : list Effect) (slotId : Z) (number : string) : string :=
  let imsi := core_GetIMSI h slotId in
  if string_empty imsi then number
  else if negb (bool_decide (String.substring 0 3 imsi = "460")) then number
  else
    let prefix1 := "0086" in
    let prefix2 := "086" in
    if (string_size prefix1 <? string_size number) && starts_with prefix1 number then
      CN_INTERNATIONAL_NUMBER_PREFIX +:+ drop_string (String.length prefix1) number
    else if (string_size prefix2 <? string_size number) && starts_with prefix2 number then
      CN_INTERNATIONAL_NUMBER_PREFIX +:+ drop_string (String.length prefix2) number
    else number.

Definition ProcessCsPhoneNumber (h : list Effect) (slotId : Z) (l : CallInfoList) : CallInfoList :=
  if (cal_callSize l =? 0) || bool_decide (cal_calls l = []) then l
  else {| cal_callSize := cal_callSize l;
          cal_calls := (λ c, ca_set_number (replacePrefix h slotId (ca_number c)) c)
                         <$> cal_calls l |}.
Definition ProcessImsPhoneNumber (h : list Effect) (slotId : Z) (l : ImsCurrentCallList)
    : ImsCurrentCallList :=
  if (iml_callSize l =? 0) || bool_decide (iml_calls l = []) then l
  else {| iml_callSize := iml_callSize l; iml_flag := iml_flag l;
          iml_calls := (λ c, im_set_number (replacePrefix h slotId (im_number c)) c)
                         <$> iml_calls l |}.
End Numbers.

(** ** Call lists *)

Section CallLists.
Context `{CallConsts, E : Env, ServiceEnv, HandlerEnv}.

Definition my_slot : Op HandlerState Z := mgets (λ s, slotId_ (this s)).

Definition ProcessFinishCommonEvent : Op HandlerState () :=
  let! waiting := mgets strEnterEventResult_ in
  match waiting with
  | Some result => send (FinishCommonEvent result) ;; mmodify (set_strEnterEventResult None)
  | None => mret ()
  end.
(** [#ifdef BASE_POWER_IMPROVEMENT_FEATURE ProcessFinishCommonEvent(); #endif] *)
Definition finish_common_event : Op HandlerState () :=
  if BASE_POWER_IMPROVEMENT_FEATURE then ProcessFinishCommonEvent else mret ().

(** The first calls of the lists, when each has one. *)
Definition IsSilentCsRedial (t : CellularCallHandler) : bool :=
  let imsCallList := currentCallList_ t in
  let csCallList := currentCsCallInfoList_ t in
  if negb (iml_callSize imsCallList =? 1) || negb (cal_callSize csCallList =? 1) then false
  else
    match iml_calls imsCallList, cal_calls csCallList with
    | imsCall :: _, csCall :: _ =>
        (im_index imsCall =? ca_index csCall) && (im_dir imsCall =? ca_dir csCall) &&
        (im_state imsCall =? CALL_STATUS_DIALING) && (ca_state csCall =? im_state imsCall) &&
        bool_decide (im_number imsCall = ca_number csCall)
    | _, _ => false
    end.

Definition ReportNoCsCallsData (callInfoList : CallInfoList) : Op HandlerState () :=
  let! slotId := my_slot in
  let! t := mgets this in
  if isDuringRSRVCC_ t then mmodify (upd_this (set_isDuringRSRVCC false))
  else
    let! csControl := mgets (λ s, GetCsControl slotId (serviceInstance s)) in
    match csControl with
    | None => mret ()
    | Some c =>
        finish_common_event ;;
        on_service (on_control slotId c (λ E,
          CsControl.ReportCsCallsData slotId callInfoList true)) ;;
        let! unresolved := on_service (on_control slotId c (λ E,
          mgets (λ c, CsControl.HasEndCallWithoutReason (CsControl.connectionMap_ c)
                        callInfoList))) in
        if negb unresolved then mmodify (upd_service (SetCsControl slotId None)) else mret ()
    end.

Definition ReportCsCallsData (callInfoList : CallInfoList) : Op HandlerState () :=
  let! slotId := my_slot in
  mmodify (upd_this (set_currentCsCallInfoList callInfoList)) ;;
  if cal_callSize callInfoList =? 0 then ReportNoCsCallsData callInfoList
  else
    let! t := mgets this in
    if isDuringRSRVCC_ t then mret ()
    else
      (if cal_callSize callInfoList =? 1 then
         mmodify (upd_service (ensure_control (C := CSControl) slotId))
       else mret ()) ;;
      let! csControl := mgets (λ s, GetCsControl slotId (serviceInstance s)) in
      match csControl with
      | None => mret ()
      | Some c =>
          on_service (on_control slotId c (λ E,
            CsControl.ReportCsCallsData slotId callInfoList true)) ;;
          let! t := mgets this in
          if IsSilentCsRedial t then
            on_service (if_control slotId (λ E,
              mmodify (SetSilentCsRedialFlag true) : Op IMSControl ()))
          else mret ()
      end.

Definition ReportNoImsCallsData (imsCallInfoList : ImsCurrentCallList) : Op HandlerState () :=
  let! slotId := my_slot in
  let! imsControl := mgets (λ s, GetImsControl slotId (serviceInstance s)) in
  match imsControl with
  | None => mret ()
  | Some c =>
      finish_common_event ;;
      let! hasEndCallWithoutReason := on_service (on_control slotId c (λ E,
        mgets (λ c, ImsControl.HasEndCallWithoutReason (ImsControl.connectionMap_ c)
                      imsCallInfoList))) in
      on_service (on_control slotId c (λ E,
        ReportImsCallsData slotId imsCallInfoList hasEndCallWithoutReason)) ;;
      if negb hasEndCallWithoutReason then mmodify (upd_service (SetImsControl slotId None))
      else mret ()
  end.

(** [CellularCallHandler::ReportImsCallsData] *)
Definition ReportImsCallList (imsCallInfoList : ImsCurrentCallList) : Op HandlerState () :=
  let! slotId := my_slot in
  mmodify (upd_this (set_currentCallList imsCallInfoList)) ;;
  if iml_callSize imsCallInfoList =? 0 then ReportNoImsCallsData imsCallInfoList
  else
    let! t := mgets this in
    if srvccState_ t =? STARTED then mret ()
    else
      (if (0 <? iml_callSize imsCallInfoList) &&
          (iml_callSize imsCallInfoList <=? MAX_ACTIVE_CALL_NUM) then
         mmodify (upd_service (ensure_control (C := IMSControl) slotId))
       else mret ()) ;;
      let! imsControl := mgets (λ s, GetImsControl slotId (serviceInstance s)) in
      match imsControl with
      | None => mret ()
      | Some c =>
          let! hasEndCallWithoutReason := on_service (on_control slotId c (λ E,
            mgets (λ c, ImsControl.HasEndCallWithoutReason (ImsControl.connectionMap_ c)
                          imsCallInfoList))) in
          on_service (on_control slotId c (λ E,
            ReportImsCallsData slotId imsCallInfoList hasEndCallWithoutReason)) ;;
          mret ()
      end.

Definition ReportSatelliteCallsData (callInfoList : SatelliteCurrentCallList)
    : Op HandlerState () :=
  let! slotId := my_slot in
  if sal_callSize callInfoList =? 0 then
    let! satelliteControl := mgets (λ s, GetSatelliteControl slotId (serviceInstance s)) in
    match satelliteControl with
    | None => mret ()
    | Some c =>
        on_service (on_control slotId c (λ E,
          SatelliteControl.ReportSatelliteCallsData slotId callInfoList)) ;;
        mmodify (upd_service (SetSatelliteControl slotId None))
    end
  else
    (if sal_callSize callInfoList =? 1 then
       mmodify (upd_service (ensure_control (C := SatelliteControl) slotId))
     else mret ()) ;;
    let! satelliteControl := mgets (λ s, GetSatelliteControl slotId (serviceInstance s)) in
    match satelliteControl with
    | None => mret ()
    | Some c =>
        on_service (on_control slotId c (λ E,
          SatelliteControl.ReportSatelliteCallsData slotId callInfoList)) ;; mret ()
    end.

(** The shared object of an answer: the data, an error, or neither. *)
Inductive response (A : Type) :=
  | Data (a : A)
  | Error (info : RadioResponseInfo)
  | Nothing.
#[global] Arguments Data {A} _.
#[global] Arguments Error {A} _.
#[global] Arguments Nothing {A}.

(** [if (registerInstance_ == nullptr) return; registerInstance_->...] *)
Definition to_register (rp : RegisterReport) : Op HandlerState () :=
  let! t := mgets this in
  if negb (registerInstance_ t) then mret () else report rp.

Definition GetCsCallsDataResponse (event : response CallInfoList) : Op HandlerState () :=
  match event with
  | Nothing => mret ()
  | Error rilResponseInfo =>
      if rr_error rilResponseInfo =? ErrType_NONE then mret ()
      else to_register (ReportEventResultInfo RESULT_GET_CURRENT_CALLS_FAILED)
  | Data callInfoList =>
      let! slotId := my_slot in
      let! callInfoList := ask (λ h, ProcessCsPhoneNumber h slotId callInfoList) in
      ReportCsCallsData (ProcessRedundantCode callInfoList)
  end.

Definition GetImsCallsDataResponse (event : response ImsCurrentCallList) : Op HandlerState () :=
  match event with
  | Nothing => mret ()
  | Error rilResponseInfo =>
      if rr_error rilResponseInfo =? ErrType_NONE then mret ()
      else to_register (ReportGetCallDataResult (rr_error rilResponseInfo))
  | Data imsCallInfoList =>
      let! slotId := my_slot in
      let! imsCallInfoList := ask (λ h, ProcessImsPhoneNumber h slotId imsCallInfoList) in
      ReportImsCallList imsCallInfoList
  end.

(** No list in the answer counts as an empty list. *)
Definition GetSatelliteCallsDataResponse (event : option SatelliteCurrentCallList)
    : Op HandlerState () :=
  ReportSatelliteCallsData
    (default {| sal_callSize := 0; sal_flag := 0; sal_calls := [] |} event).
End CallLists.

(** ** Answers to requests *)

Section Responses.
Context `{CallConsts, E : Env, ServiceEnv, HandlerEnv}.

Definition CommonResultEventHandling (event : RadioEvent) (eventId : RequestResultEventId)
    : RequestResultEventId :=
  match event with
  | RADIO_HANGUP_CONNECT => RESULT_END_SEND_FAILED
  | RADIO_REJECT_CALL => RESULT_REJECT_SEND_FAILED
  | RADIO_ACCEPT_CALL => RESULT_ACCEPT_SEND_FAILED
  | RADIO_HOLD_CALL => RESULT_HOLD_SEND_FAILED
  | RADIO_ACTIVE_CALL => RESULT_ACTIVE_SEND_FAILED
  | RADIO_SWAP_CALL => RESULT_SWAP_SEND_FAILED
  | RADIO_COMBINE_CALL | RADIO_JOIN_CALL => RESULT_COMBINE_SEND_FAILED
  | RADIO_SPLIT_CALL => RESULT_SPLIT_SEND_FAILED
  | RADIO_CALL_SUPPLEMENT => RESULT_SUPPLEMENT_SEND_FAILED
  | _ => eventId
  end.

(** [DialResponse] and [DialSatelliteResponse], which are the same. *)
Definition DialResponse (result : option RadioResponseInfo) : Op HandlerState () :=
  match result with
  | None => mret ()
  | Some result =>
      let! callHiSysEvent := ask hisysevent_instance in
      if negb callHiSysEvent then mret ()
      else if negb (rr_error result =? ErrType_NONE) then
        let eventId := if rr_error result =? ERR_CMD_NO_CARRIER then RESULT_DIAL_NO_CARRIER
                       else RESULT_DIAL_SEND_FAILED in
        let! t := mgets this in
        if negb (registerInstance_ t) then mret ()
        else report (ReportEventResultInfo eventId) ;; hisys (WriteDialCallBehaviorEvent false)
      else hisys (WriteDialCallBehaviorEvent true)
  end.

Definition CommonResultResponse (event : RadioEvent) (result : option RadioResponseInfo)
    : Op HandlerState () :=
  match result with
  | None => mret ()
  | Some result =>
      let! callHiSysEvent := ask hisysevent_instance in
      if negb callHiSysEvent then mret ()
      else if negb (rr_error result =? ErrType_NONE) then
        let eventId := CommonResultEventHandling event INVALID_REQUEST_RESULT_EVENT_ID in
        (if bool_decide (eventId = RESULT_END_SEND_FAILED) ||
            bool_decide (eventId = RESULT_REJECT_SEND_FAILED) then
           hisys (WriteHangUpCallBehaviorEvent false)
         else if bool_decide (eventId = RESULT_ACCEPT_SEND_FAILED) then
           hisys (WriteAnswerCallBehaviorEvent false)
         else mret ()) ;;
        to_register (ReportEventResultInfo eventId)
      else
        match event with
        | RADIO_HANGUP_CONNECT | RADIO_REJECT_CALL => hisys (WriteHangUpCallBehaviorEvent true)
        | RADIO_ACCEPT_CALL => hisys (WriteAnswerCallBehaviorEvent true)
        | _ => mret ()
        end
  end.

(** The event of a delayed post-dial character. *)
Definition ExecutePostDial (postDialData : option PostDialData) : Op HandlerState () :=
  match postDialData with
  | None => mret ()
  | Some data =>
      let! slotId := my_slot in
      let callId := pd_callId data in
      if pd_isIms data then
        on_service (if_control slotId (λ E, ImsControl.ExecutePostDial slotId callId))
      else
        on_service (if_control slotId (λ E, CsControl.ExecutePostDial slotId callId))
  end.

Definition SwapCallResponse (callType : Z) (result : option RadioResponseInfo)
    : Op HandlerState () :=
  let! slotId := my_slot in
  let! imsControl := mgets (λ s, GetImsControl slotId (serviceInstance s)) in
  let finish (imsControl : option IMSControl) : Op HandlerState () :=
    match result with
    | None => mret ()
    | Some result =>
        if negb (rr_error result =? ErrType_NONE) then
          to_register (ReportEventResultInfo
            (CommonResultEventHandling RADIO_SWAP_CALL INVALID_REQUEST_RESULT_EVENT_ID))
        else
          match imsControl with
          | None => mret ()
          | Some c => on_service (on_control slotId c (λ E, DialAfterHold slotId))
          end
    end in
  if bool_decide (callType = TYPE_IMS) then
    match imsControl with
    | None => mret ()
    | Some c => on_service (on_control slotId c (λ E, RecoverPendingHold)) ;; finish imsControl
    end
  else finish None.

Definition SendDtmfResponse (callType : Z) (result : option RadioResponseInfo)
    : Op HandlerState () :=
  match result with
  | None => mret ()
  | Some result =>
      let! slotId := my_slot in
      send (SendEvent slotId (EVENT_EXECUTE_POST_DIAL
        {| pd_callId := rr_flag result; pd_isIms := bool_decide (callType = TYPE_IMS) |}
        DELAY_TIME)) ;;
      to_register (ReportEventResultInfo
        (if negb (rr_error result =? ErrType_NONE) then RESULT_SEND_DTMF_FAILED
         else RESULT_SEND_DTMF_SUCCESS))
  end.

Definition StartDtmfResponse (result : option RadioResponseInfo) : Op HandlerState () :=
  match result with
  | None => mret ()
  | Some result => to_register (ReportStartDtmfResult (rr_error result))
  end.
Definition StopDtmfResponse (result : option RadioResponseInfo) : Op HandlerState () :=
  match result with
  | None => mret ()
  | Some result => to_register (ReportStopDtmfResult (rr_error result))
  end.

(** An MMI code that [IsNeedExecuteMMI] sent here. *)
Definition GetMMIResponse `{!SupplementOps HandlerState} (mmiCodeUtils : option MMICodeUtils)
    : Op HandlerState () :=
  match mmiCodeUtils with
  | None => mret ()
  | Some m => let! slotId := my_slot in ExecuteMmiCode m slotId ;; mret ()
  end.

(** ** Queries of the call lists *)

Definition GetCsCallData : Op HandlerState () :=
  let! slotId := my_slot in send (SendEvent slotId GET_CS_CALL_DATA_ID).
Definition GetImsCallData : Op HandlerState () :=
  let! slotId := my_slot in send (SendEvent slotId GET_IMS_CALL_DATA_ID).
Definition GetSatelliteCallData : Op HandlerState () :=
  let! slotId := my_slot in send (SendEvent slotId GET_SATELLITE_CALL_DATA_ID).

Definition CsCallStatusInfoReport : Op HandlerState () :=
  let! t := mgets this in
  if srvccState_ t =? STARTED then mret () else GetCsCallData.
Definition ImsCallStatusInfoReport : Op HandlerState () := GetImsCallData.
Definition SatelliteCallStatusInfoReport : Op HandlerState () :=
  let! t := mgets this in
  if srvccState_ t =? STARTED then mret () else GetSatelliteCallData.

(** [lastCallsDataFlag_], the time of the query, is only passed on. *)
Definition GetCsCallsDataRequest : Op HandlerState () :=
  let! slotId := my_slot in
  let! now := ask CurrentTimeMillis in CS_GetCsCallsDataRequest slotId now ;; mret ().
Definition GetImsCallsDataRequest : Op HandlerState () :=
  let! slotId := my_slot in
  let! now := ask CurrentTimeMillis in
  ConnectionIMS.GetImsCallsDataRequest slotId now ;; mret ().
Definition GetSatelliteCallsDataRequest : Op HandlerState () :=
  let! slotId := my_slot in
  let! now := ask CurrentTimeMillis in
  ConnectionSatellite.GetSatelliteCallsDataRequest slotId now ;; mret ().
End Responses.

(** ** SRVCC, the end of calls, the modem *)

Section Events.
Context `{CallConsts, E : Env, ServiceEnv, HandlerEnv}.

Definition SrvccStateCompleted : Op HandlerState () :=
  let! t := mgets this in
  if negb (srvccState_ t =? COMPLETED) then mret ()
  else
    let! slotId := my_slot in
    mmodify (upd_this (set_isDuringRSRVCC false)) ;;
    let! csControl := mgets (λ s, GetCsControl slotId (serviceInstance s)) in
    match csControl with
    | Some c =>
        on_service (on_control slotId c (λ E, CsControl.ReleaseAllConnection)) ;;
        mmodify (upd_service (SetCsControl slotId None))
    | None => mmodify (upd_service (SetCsControl slotId (Some CSControl_new)))
    end ;;
    let! imsControl := mgets (λ s, GetImsControl slotId (serviceInstance s)) in
    match imsControl with
    | Some c =>
        on_service (on_control slotId c (λ E, ImsControl.ReleaseAllConnection)) ;;
        mmodify (upd_service (SetImsControl slotId None))
    | None => mret ()
    end ;;
    mmodify (upd_this (set_srvccState SRVCC_NONE)).

Definition UpdateSrvccStateReport (srvccStatus : option Z) : Op HandlerState () :=
  match srvccStatus with
  | None => mret ()
  | Some status =>
      mmodify (upd_this (set_srvccState status)) ;;
      let! t := mgets this in
      if negb (registerInstance_ t) then mret ()
      else
        mmodify (upd_service (SetSrvccState status)) ;;
        if negb (status =? COMPLETED) then mret () else SrvccStateCompleted
  end.

(** Reverse SRVCC: the calls move from CS to IMS. *)
Definition UpdateRsrvccStateReport : Op HandlerState () :=
  let! slotId := my_slot in
  mmodify (upd_this (set_isDuringRSRVCC true)) ;;
  mmodify (upd_service (SetCsControl slotId None)).

Definition HandleCallDisconnectReason (reason : Z) (message : string) : Op HandlerState () :=
  let! slotId := my_slot in
  let! imsControl := mgets (λ s, GetImsControl slotId (serviceInstance s)) in
  let! csControl := mgets (λ s, GetCsControl slotId (serviceInstance s)) in
  let! t := mgets this in
  let imsCallList := currentCallList_ t in
  let csCallList := currentCsCallInfoList_ t in
  let drop_empty : Op HandlerState () :=
    (if iml_callSize imsCallList =? 0 then mmodify (upd_service (SetImsControl slotId None))
     else mret ()) ;;
    (if cal_callSize csCallList =? 0 then mmodify (upd_service (SetCsControl slotId None))
     else mret ()) in
  match imsControl, csControl with
  | Some c, _ =>
      on_service (on_control slotId c (λ E,
        ImsControl.UpdateDisconnectedReason imsCallList reason message ;;
        ReportImsCallsData slotId imsCallList false)) ;;
      drop_empty
  | None, Some c =>
      on_service (on_control slotId c (λ E,
        CsControl.UpdateDisconnectedReason csCallList reason ;;
        CsControl.ReportCsCallsData slotId csCallList false)) ;;
      drop_empty
  | None, None => mret ()
  end.

(** The object of the answer: a number, a [DisconnectedDetails], or neither. *)
Inductive fail_reason :=
  | FailReason (reason : Z)
  | FailDetails (reason : Z) (message : string)
  | NoReason.

Definition GetCallFailReasonResponse (event : fail_reason) : Op HandlerState () :=
  let! slotId := my_slot in
  let found (reason : Z) (message : string) : Op HandlerState () :=
    send (ConfigSetClearCode slotId reason) ;;
    let finish (message : string) : Op HandlerState () :=
      hisys (WriteCallEndBehaviorEvent slotId reason) ;;
      to_register (ReportCallFailReason reason message) ;;
      HandleCallDisconnectReason reason message in
    if string_empty message then
      let! name := ask (λ h, GetCallFailedMessageName h reason) in
      match name with
      | None => HandleCallDisconnectReason DISCONNECTED_REASON_NORMAL ""
      | Some name => let! message := ask (λ h, GetStringValueByName h name) in finish message
      end
    else finish message in
  match event with
  | NoReason => HandleCallDisconnectReason DISCONNECTED_REASON_NORMAL ""
  | FailReason reason => found reason ""
  | FailDetails reason message => found reason message
  end.

Definition OnRilAdapterHostDied : Op HandlerState () :=
  let! slotId := my_slot in
  let! csControl := mgets (λ s, GetCsControl slotId (serviceInstance s)) in
  match csControl with
  | None => mret ()
  | Some c =>
      let! r := on_service (on_control slotId c (λ E, CsControl.ReportHangUpInfo slotId)) in
      if bool_decide (r ≠ TELEPHONY_SUCCESS) then mret ()
      else mmodify (upd_service (SetCsControl slotId None))
  end ;;
  let! imsControl := mgets (λ s, GetImsControl slotId (serviceInstance s)) in
  match imsControl with
  | None => mret ()
  | Some c =>
      let! r := on_service (on_control slotId c (λ E, ImsControl.ReportHangUpInfo slotId)) in
      if bool_decide (r ≠ TELEPHONY_SUCCESS) then mret ()
      else mmodify (upd_service (SetImsControl slotId None))
  end ;;
  if CELLULAR_CALL_SATELLITE then
    let! satelliteControl := mgets (λ s, GetSatelliteControl slotId (serviceInstance s)) in
    match satelliteControl with
    | None => mret ()
    | Some c =>
        let! r := on_service (on_control slotId c (λ E,
                    SatelliteControl.ReportHangUpInfo slotId)) in
        if bool_decide (r ≠ TELEPHONY_SUCCESS) then mret ()
        else mmodify (upd_service (SetSatelliteControl slotId None))
    end
  else mret ().

Definition GetImsSwitchStatusRequest : Op HandlerState () :=
  let! slotId := my_slot in
  let! hasSimCard := ask (λ h, core_HasSimCard h slotId) in
  if negb hasSimCard then mret ()
  else
    let! volte := ask (λ h, IsVolteSupport h slotId) in
    let! registered := ask (λ h, core_ImsRegistered h slotId) in
    if volte || (registered && negb volte) then send (ConfigGetImsSwitchStatusRequest slotId)
    else mret ().

(** The radio came on: a pending emergency dial goes out. *)
Definition DialPendingEmc : Op HandlerState () :=
  let! slotId := my_slot in
  let! imsControl := mgets (λ s, GetImsControl slotId (serviceInstance s)) in
  match imsControl with
  | None => mret ()
  | Some c =>
      on_service (on_control slotId c (λ E, SkipWaitForRadioOn)) ;;
      let! pending := on_service (on_control slotId c (λ E, mgets isPendingEmcFlag)) in
      if (pending : bool) then
        let! callInfo := on_service (on_control slotId c (λ E, mgets GetPendingEmcCallInfo)) in
        let! ret := on_service (on_control slotId c (λ E, ImsControl.Dial callInfo true)) in
        (if bool_decide (ret ≠ TELEPHONY_ERR_SUCCESS) then
           on_service (on_control slotId c (λ E, ImsControl.ReportHangUpInfo slotId)) ;; mret ()
         else mret ()) ;;
        on_service (on_control slotId c (λ E, mmodify (setPendingEmcFlag false)))
      else mret ()
  end.

Definition RadioStateChangeProcess (state : option Z) : Op HandlerState () :=
  match state with
  | None => mret ()
  | Some data =>
      let! slotId := my_slot in
      if bool_decide (data = CORE_SERVICE_POWER_ON) then
        (if CALL_MANAGER_AUTO_START_OPTIMIZE then send StartCallManager else mret ()) ;;
        mmodify (upd_service (setRadioOnFlag true slotId)) ;;
        (if CELLULAR_CALL_REDCAP_ABILITY then send (ConfigSetRadioOn true) else mret ()) ;;
        GetImsSwitchStatusRequest ;;
        if BASE_POWER_IMPROVEMENT_FEATURE then DialPendingEmc else mret ()
      else
        mmodify (upd_service (setRadioOnFlag false slotId)) ;;
        if CELLULAR_CALL_REDCAP_ABILITY then send (ConfigSetRadioOn false) else mret ()
  end.

(** A control of some slot has a call (IMS or CS). *)
Definition IsCellularCallExist (s : CellularCallService) : bool :=
  existsb (λ it,
    match GetImsControl it s with
    | Some c => negb (sm_empty (ImsControl.connectionMap_ c)) | None => false end ||
    match GetCsControl it s with
    | Some c => negb (sm_empty (CsControl.connectionMap_ c)) | None => false end) GetSlotInfo.

(** [OnReceiveEvent] for ENTER_STR_TELEPHONY_NOTIFY, the device going to sleep.
    [GoAsyncCommonEvent()] gives the result of this broadcast, an object of its own;
    its name is the number of effects that came before. *)
Definition OnEnterStr (isNvCfgFinish : bool) : Op HandlerState () :=
  let! slotId := my_slot in
  let! hasSimProfile := ask (λ h, HasSimProfile h slotId) in
  let! exists_ := mgets (λ s, IsCellularCallExist (serviceInstance s)) in
  if hasSimProfile && (exists_ || negb isNvCfgFinish) then
    let! result := ask (@Datatypes.length Effect) in
    send (GoAsyncCommonEvent result) ;;
    mmodify (set_strEnterEventResult (Some result)) ;;
    on_service HangUpAllConnection ;; mret ()
  else mret ().
End Events.

(** ** Commands of the supplementary services

    A request to the network carries an index; the command it belongs to waits
    in the map until the answer with that index arrives. *)

Section Commands.
Context `{CallConsts, E : Env}.

Definition MAX_REQUEST_COUNT : Z := 50.
Definition INVALID_INDEX : Z := -1.

Definition RequestSsRequestCommandIndex : Op CellularCallHandler Z :=
  let! t := mget in
  let index := if MAX_REQUEST_COUNT <=? indexCommand_ t then 0 else i32 (indexCommand_ t + 1) in
  mmodify (set_commands index (utCommandMap_ t)) ;;
  mret index.

(** The index given to it is not used. *)
Definition SaveSsRequestCommand (utCommand : option SsRequestCommand) (index : Z)
    : Op CellularCallHandler () :=
  match utCommand with
  | None => mret ()
  | Some utCommand =>
      let! t := mget in
      let indexCommand := indexCommand_ t in
      mmodify (set_commands indexCommand (sm_insert indexCommand utCommand (utCommandMap_ t)))
  end.

(** The answer, and the references [flag] and [action]. *)
Definition ConfirmAndRemoveSsRequestCommand (index flag action : Z)
    : Op CellularCallHandler (Z * Z * Z) :=
  if index =? INVALID_INDEX then mret (TELEPHONY_ERROR, flag, action)
  else
    let! t := mget in
    match sm_lookup index (utCommandMap_ t) with
    | None => mret (TELEPHONY_ERROR, flag, action)
    | Some ss =>
        mmodify (set_commands (indexCommand_ t)
          (sm_erase index (utCommandMap_ t))) ;;
        mret (TELEPHONY_SUCCESS, ss_flag ss, ss_action ss)
    end.

(** The answer, and the reference [ss]; [isIncludeCallForwardingNumber] is not
    among the fields it copies. *)
Definition GetSsRequestCommand (index : Z) (ss : SsRequestCommand)
    : Op CellularCallHandler (Z * SsRequestCommand) :=
  let! t := mget in
  match sm_lookup index (utCommandMap_ t) with
  | None => mret (TELEPHONY_ERROR, ss)
  | Some found =>
      let copied (password : string) (classType action flag : Z) :=
        {| ss_cfAction := ss_cfAction found; ss_cfReason := ss_cfReason found;
           ss_number := ss_number found; ss_enable := ss_enable found;
           ss_clirAction := ss_clirAction found; ss_facility := ss_facility found;
           ss_password := password; ss_classType := classType; ss_action := action;
           ss_flag := flag;
           ss_isIncludeCallForwardingNumber := ss_isIncludeCallForwardingNumber ss |} in
      if negb (strcpy_s_ok (kMaxNumberLen + 1) (ss_password found)) then
        mret (TELEPHONY_ERR_STRCPY_FAIL,
              copied "" (ss_classType ss) (ss_action ss) (ss_flag ss))
      else
        mret (TELEPHONY_SUCCESS,
              copied (ss_password found) (ss_classType found) (ss_action found) (ss_flag found))
  end.
End Commands.
