(* ===== verification/PhoneNumber.v ===== *)
(** * PhoneNumber: the numbers of a call list are normalised

    Networks report the same Chinese number in several forms.  The handler
    writes the trunk prefixes 0086 and 086 as +86 for a Chinese SIM, and drops a
    country code that is there twice; the regular expression it uses for the
    second is compared with a plain test for a mobile number. *)

From stdpp Require Import base tactics option list numbers strings gmap.
From Stdlib Require Import ZArith Lia Ascii String Btauto.
From S2P Require Import Prelude Platform Samples Standardize StdMap Connection Regex MmiCode Service Handler.

Open Scope Z_scope.
#[local] Arguments String.append : simpl nomatch.

Definition one_of (l : list ascii) (c : ascii) : bool := existsb (λ x, char_eq x c) l.
(** A Chinese mobile number without the country code. *)
Definition is_mobile (n : string) : bool :=
  match n with
  | String a (String b (String c rest)) =>
      char_eq "1" a &&
      ((one_of ["3";"4";"5";"7";"8";"9"]%char b && is_digit c) ||
       (char_eq "6" b && one_of ["2";"5";"6";"7"]%char c)) &&
      (String.length rest =? 8)%nat && string_all is_digit rest
  | _ => false
  end.
Lemma rdigits_bmatch n s : bmatch (rdigits n) s string_empty = (String.length s =? n)%nat && string_all is_digit s.
Proof.
  revert s. induction n as [|n IH]; intros s; simpl.
  - destruct s; simpl; done.
  - destruct s as [|c s]; simpl; [done|]. rewrite IH. destruct (is_digit c); simpl; [done|by rewrite andb_false_r].
Qed.

Lemma re_segments_mobile s :
  bmatch re_segments s (λ s', bmatch (rdigits 8) s' string_empty) = is_mobile s.
Proof.
  destruct s as [|a [|b [|c s]]].
  1-3: unfold re_segments, segment, rlit, rdigit; cbn [bmatch is_mobile];
    by repeat (destruct (char_eq _ _); cbn [andb orb]).
  unfold re_segments, segment, rlit. cbn [bmatch]. rewrite !rdigits_bmatch.
  unfold rdigit. cbn [bmatch]. rewrite !rdigits_bmatch. unfold is_mobile, one_of. cbn [existsb].
  generalize ((String.length s =? 8)%nat) (string_all is_digit s); intros; btauto.
Qed.

Lemma re_phone_mobile (plus : bool) s :
  is_some (regex_match re_phone_context ((if plus then "+8686" else "8686") +:+ s)) = is_mobile s.
Proof.
  rewrite regex_match_bmatch. unfold re_phone_context.
  set (tail := RSeq (RGroup 2 re_segments) (RGroup 3 (rdigits 8))).
  assert (∀ s, bmatch tail s string_empty = is_mobile s) as Ht by exact re_segments_mobile. clearbody tail.
  destruct plus; cbn; rewrite !Ht; destruct (is_mobile s), s; reflexivity.
Qed.

Lemma is_mobile_length n : is_mobile n = true → String.length n = 11%nat.
Proof.
  destruct n as [|a [|b [|c n]]]; try done. cbn [is_mobile]. rewrite !andb_true_iff.
  intros [[_ Hl%Nat.eqb_eq] _]. simpl. lia.
Qed.
Lemma drop_string_app p n : drop_string (String.length p) (p +:+ n) = n.
Proof.
  unfold drop_string. rewrite string_app_length. induction p as [|c p IH]; simpl; [|done].
  rewrite Nat.sub_0_r. induction n; simpl; congruence.
Qed.
Lemma redundant_code_spec type number :
  let prefix := if type =? INTERNATION_CODE then "+8686" else "8686" in
  (∀ n, is_mobile n = true → number = prefix +:+ n →
     redundant_code type number = CN_INTERNATIONAL_NUMBER_PREFIX +:+ n) ∧
  ((∀ n, is_mobile n = true → number ≠ prefix +:+ n) → redundant_code type number = number).
Proof.
  assert (∀ p n, String.substring 0 (String.length p) (p +:+ n) = p) as Htake.
  { intros p n. induction p as [|c p IH]; simpl; [by destruct n|congruence]. }
  assert (∀ p n, bool_decide (String.substring 0 (String.length p) n = p) = true →
    n = p +:+ drop_string (String.length p) n) as Hsplit.
  { intros p n Hp%bool_decide_eq_true. revert n Hp. unfold drop_string.
    induction p as [|c p IH]; intros n; simpl.
    - intros _. rewrite Nat.sub_0_r. induction n; simpl; congruence.
    - destruct n as [|c' n]; [done|]. intros [= -> Hp]. simpl. f_equal. by apply IH. }
  intros prefix. split.
  - intros n Hn ->. unfold redundant_code. fold prefix. rewrite Htake, drop_string_app.
    rewrite bool_decide_true by done. cbn [negb].
    pose proof (re_phone_mobile (type =? INTERNATION_CODE) n) as Hre. fold prefix in Hre.
    destruct (regex_match _ _); [|simpl in Hre; congruence].
    replace (_ && _) with false; [done|]. unfold string_size. rewrite string_app_length.
    apply is_mobile_length in Hn. rewrite Hn. unfold prefix. by destruct (type =? _).
  - intros Hn. unfold redundant_code. fold prefix. destruct (_ && _); [done|].
    destruct (bool_decide _) eqn:Hp; [|done]. apply Hsplit in Hp. cbn [negb].
    pose proof (re_phone_mobile (type =? INTERNATION_CODE) (drop_string (String.length prefix) number)) as Hre.
    fold prefix in Hre. rewrite <-Hp in Hre. destruct (regex_match _ _); [|done].
    exfalso. by eapply Hn.
Qed.

Section Normal.
Context `{HandlerEnv}.

(** [p] is in front of a number that is longer. *)
Lemma trunk_prefix p n :
  n ≠ "" → (string_size p <? string_size (p +:+ n)) && starts_with p (p +:+ n) = true.
Proof.
  intros Hn. unfold string_size. rewrite string_app_length. apply andb_true_iff. split.
  - destruct n; [done|]. apply Z.ltb_lt. cbn [String.length]. lia.
  - unfold starts_with. induction p as [|c p IH]; simpl; [by destruct n|].
    destruct (ascii_dec c c); done.
Qed.
(** A number with a plus in front keeps its form. *)
Lemma replacePrefix_plus h slotId n : replacePrefix h slotId ("+" +:+ n) = "+" +:+ n.
Proof. unfold replacePrefix. rewrite !andb_false_r. by repeat case_match. Qed.

(** One number has one form.  For a SIM of country code 460, 0086 and 086 in
    front of a number become +86; any other SIM leaves every number alone; doing
    it twice changes nothing more.  A mobile number behind a doubled country code
    (+8686 for the international type, 8686 otherwise) keeps one, and every
    other number is left as it is, so the regular expression accepts exactly the
    doubled mobile numbers. *)
Theorem call_number_normal_form h slotId type number :
  (if bool_decide (String.substring 0 3 (core_GetIMSI h slotId) = "460") then
     ∀ n, n ≠ "" → replacePrefix h slotId ("0086" +:+ n) = "+86" +:+ n ∧
                   replacePrefix h slotId ("086" +:+ n) = "+86" +:+ n
   else replacePrefix h slotId number = number) ∧
  replacePrefix h slotId (replacePrefix h slotId number) = replacePrefix h slotId number ∧
  let prefix := if type =? INTERNATION_CODE then "+8686" else "8686" in
  (∀ n, is_mobile n = true → number = prefix +:+ n →
     redundant_code type number = CN_INTERNATIONAL_NUMBER_PREFIX +:+ n) ∧
  ((∀ n, is_mobile n = true → number ≠ prefix +:+ n) → redundant_code type number = number).
Proof.
  split_and!; [| |apply redundant_code_spec..].
  - unfold replacePrefix. case_bool_decide as Hi.
    + intros n Hn. destruct (string_empty (core_GetIMSI h slotId)) eqn:He.
      { apply string_empty_true in He. by rewrite He in Hi. }
      rewrite !trunk_prefix by done. cbn [negb]. rewrite !drop_string_app.
      split; [done|]. replace (starts_with "0086" ("086" +:+ n)) with false by done.
      by rewrite andb_false_r.
    + by destruct (string_empty _).
  - assert (replacePrefix h slotId number = number ∨
            ∃ n, replacePrefix h slotId number = "+" +:+ n) as [He|[n ->]].
    { unfold replacePrefix. repeat case_match; eauto; right; by eexists ("86" +:+ _). }
    + by rewrite !He.
    + apply replacePrefix_plus.
Qed.
End Normal.
