(* ===== verification/SupplementRequestCs.v ===== *)
(** * SupplementRequestCs: supplementary service requests to the modem
    (services/common/src/supplement_request_cs.cpp)

    Also [SupplementEnv]: what the supplementary services read of headers and
    components outside the model. *)

From stdpp Require Import base tactics option list numbers strings.
From Stdlib Require Import ZArith Lia Ascii String.
From S2P Require Import Prelude SsTypes Platform Standardize.

Open Scope Z_scope.

Class SupplementEnv := {
  (* build flag *)
  SECURITY_GUARDE_ENABLE : bool;
  (* error codes *)
  IMS_ERROR_UT_NO_CONNECTION : Z;
  CALL_ERR_UT_NO_CONNECTION : Z;
  TELEPHONY_ERR_RIL_CMD_FAIL : Z;
  (* CallTransferType, CallTransferSettingType *)
  TRANSFER_TYPE_UNCONDITIONAL : Z;
  TRANSFER_TYPE_BUSY : Z;
  TRANSFER_TYPE_NO_REPLY : Z;
  TRANSFER_TYPE_NOT_REACHABLE : Z;
  TRANSFER_TYPE_ALL : Z;
  TRANSFER_TYPE_CONDITIONAL : Z;
  CALL_TRANSFER_DISABLE : Z;
  CALL_TRANSFER_ENABLE : Z;
  CALL_TRANSFER_REGISTRATION : Z;
  CALL_TRANSFER_ERASURE : Z;
  MIN_HOUR : Z;
  MIN_MINUTE : Z;
  (* CallRestrictionType, CallRestrictionMode *)
  RESTRICTION_TYPE_ALL_OUTGOING : Z;
  RESTRICTION_TYPE_INTERNATIONAL : Z;
  RESTRICTION_TYPE_INTERNATIONAL_EXCLUDING_HOME : Z;
  RESTRICTION_TYPE_ALL_INCOMING : Z;
  RESTRICTION_TYPE_ROAMING_INCOMING : Z;
  RESTRICTION_TYPE_ALL_CALLS : Z;
  RESTRICTION_TYPE_OUTGOING_SERVICES : Z;
  RESTRICTION_TYPE_INCOMING_SERVICES : Z;
  RESTRICTION_MODE_DEACTIVATION : Z;
  RESTRICTION_MODE_ACTIVATION : Z;
  (* SsRequestType *)
  SS_ACTIVATION : Z;
  SS_DEACTIVATION : Z;
  SS_REGISTRATION : Z;
  SS_ERASURE : Z;
  SS_INTERROGATION : Z;
  (* structs as declared, sizes of their buffers *)
  MmiCodeInfo_init : MmiCodeInfo;
  CallTransferInfo_init : CallTransferInfo;
  CallForwardQueryResult_init : CallForwardQueryResult;
  sizeof_mmi_message : Z;
  sizeof_mmi_number : Z;
  sizeof_transfer_number : Z;
  sizeof_restriction_password : Z;
  (* [callForwardingSlotId_], which no constructor sets *)
  callForwardingSlotId_init : Z;
  (* [atoi] of a number that is no [int] *)
  atoi_overflow : string → Z;
  (* what [CoreManagerInner] and the IMS service answer by reference *)
  pin_answer : list Effect → Effect → PinPukResponse;
  CanSetCallTransferTime_answer : list Effect → Z → bool → bool;
  (* CellularCallConfig *)
  GetCallWaitingServiceClassConfig : list Effect → Z → Z;
  (* TELEPHONY_EXT_WRAPPER: each may be null *)
  ext_isEmptyMmiResultFiltered : option (list Effect → Z → bool);
  ext_unescapeHtmlCode : option (list Effect → Z → string → string);
  ext_isUssdReleaseMsgFiltered : option (list Effect → Z → bool);
  (* OHOS::system::GetParameter("const.telephony.hw_show_mmi_error", "true") *)
  showMmiErrStr : list Effect → string;
  TrimStr : string → string
}.

(** What the headers document of them. *)
Class SupplementEnvOk `{CallConsts, SupplementEnv} : Prop := {
  transfer_types :
    [TRANSFER_TYPE_UNCONDITIONAL; TRANSFER_TYPE_BUSY; TRANSFER_TYPE_NO_REPLY;
     TRANSFER_TYPE_NOT_REACHABLE; TRANSFER_TYPE_ALL; TRANSFER_TYPE_CONDITIONAL] =
    [0; 1; 2; 3; 4; 5];
  transfer_settings :
    [CALL_TRANSFER_DISABLE; CALL_TRANSFER_ENABLE; CALL_TRANSFER_REGISTRATION;
     CALL_TRANSFER_ERASURE] = [0; 1; 3; 4];
  restriction_modes :
    RESTRICTION_MODE_DEACTIVATION = 0 ∧ RESTRICTION_MODE_ACTIVATION = 1;
  restriction_types_nodup :
    NoDup [RESTRICTION_TYPE_ALL_OUTGOING; RESTRICTION_TYPE_INTERNATIONAL;
           RESTRICTION_TYPE_INTERNATIONAL_EXCLUDING_HOME; RESTRICTION_TYPE_ALL_INCOMING;
           RESTRICTION_TYPE_ROAMING_INCOMING; RESTRICTION_TYPE_ALL_CALLS;
           RESTRICTION_TYPE_OUTGOING_SERVICES; RESTRICTION_TYPE_INCOMING_SERVICES];
  mmi_message_room : 100 ≤ sizeof_mmi_message;
  ss_errors_not_success :
    TELEPHONY_SUCCESS ≠ CALL_ERR_UT_NO_CONNECTION ∧ TELEPHONY_SUCCESS ≠ TELEPHONY_ERR_RIL_CMD_FAIL
}.

(** [strcpy_s] into a buffer of [n] bytes: on failure the buffer is emptied. *)
Definition strcpy_to `{Env} (n : Z) (s : string) : string :=
  if strcpy_s_ok n (c_str s) then c_str s else "".

Section SupplementRequestCs.
Context `{CallConsts, E : Env, SupplementEnv} {S : Type}.

Definition GetClipRequest (slotId index : Z) : Op S Z :=
  request (RilSs slotId RADIO_GET_CALL_CLIP index CsGetClip).
Definition SetClirRequest (slotId action index : Z) : Op S Z :=
  request (RilSs slotId RADIO_SET_CALL_CLIR index (CsSetClir action)).
Definition GetClirRequest (slotId index : Z) : Op S Z :=
  request (RilSs slotId RADIO_GET_CALL_CLIR index CsGetClir).
Definition GetCallTransferRequest (slotId reason index : Z) : Op S Z :=
  request (RilSs slotId RADIO_GET_CALL_FORWARD index (CsGetCallTransferInfo reason)).
Definition SetCallTransferRequest (slotId : Z) (callTransferParam : CallTransferParam) (index : Z)
    : Op S Z :=
  request (RilSs slotId RADIO_SET_CALL_FORWARD index (CsSetCallTransferInfo callTransferParam)).
Definition GetCallRestrictionRequest (slotId : Z) (fac : string) (index : Z) : Op S Z :=
  request (RilSs slotId RADIO_GET_CALL_RESTRICTION index (CsGetCallRestriction fac)).
Definition SetCallRestrictionRequest (slotId : Z) (fac : string) (mode : Z) (pw : string)
    (index : Z) : Op S Z :=
  let cpyLen := strlen pw + 1 in
  let maxCpyLen := sizeof_restriction_password in
  if negb (strcpy_s_ok (if maxCpyLen <? cpyLen then maxCpyLen else cpyLen) (c_str pw))
  then mret TELEPHONY_ERR_STRCPY_FAIL
  else
    request (RilSs slotId RADIO_SET_CALL_RESTRICTION index
      (CsSetCallRestriction {| rp_mode := mode; rp_fac := fac; rp_password := c_str pw |})).
Definition SetBarringPasswordRequest (slotId : Z) (restrictionType : string) (index : Z)
    (oldPassword newPassword : string) : Op S Z :=
  request (RilSs slotId RADIO_SET_CALL_RESTRICTION_PWD index
    (CsSetBarringPassword oldPassword newPassword restrictionType)).
(** The class of the service is not passed on. *)
Definition SetCallWaitingRequest (slotId : Z) (activate : bool) (classType index : Z) : Op S Z :=
  request (RilSs slotId RADIO_SET_CALL_WAIT index (CsSetCallWaiting activate)).
Definition GetCallWaitingRequest (slotId index : Z) : Op S Z :=
  request (RilSs slotId RADIO_GET_CALL_WAIT index CsGetCallWaiting).

Definition SendUssdRequest (slotId : Z) (msg : string) : Op S Z :=
  request (RilSetUssd slotId msg).
Definition CloseUnFinishedUssdRequest (slotId : Z) : Op S Z :=
  request (RilCloseUnFinishedUssd slotId).

Definition GetMMIHandler (h : list Effect) (slotId : Z) : bool :=
  service_instance h && GetHandler h slotId.

(** [AlterPinPassword], [UnlockPuk], [AlterPin2Password] and [UnlockPuk2],
    which differ in the call of [CoreManagerInner] only. *)
Definition pin_request (op : PinOperation) (slotId : Z) (newPin old : string) : Op S Z :=
  let rq := SimPin slotId op newPin old in
  let! response := ask (λ h, pin_answer h rq) in
  let! result := request rq in
  if bool_decide (result = TELEPHONY_SUCCESS) then
    let! ccHandler := ask (λ h, GetMMIHandler h slotId) in
    if negb ccHandler then mret TELEPHONY_ERR_LOCAL_PTR_NULL
    else
      let! ret := request_bool (SendEvent slotId (EVENT_SET_UNLOCK_PIN_PUK_ID response)) in
      if negb ret then mret TELEPHONY_ERR_FAIL else mret TELEPHONY_SUCCESS
  else mret TELEPHONY_ERROR.
Definition AlterPinPassword : Z → string → string → Op S Z := pin_request AlterPin.
Definition UnlockPuk : Z → string → string → Op S Z := pin_request UnlockPuk_.
Definition AlterPin2Password : Z → string → string → Op S Z := pin_request AlterPin2.
Definition UnlockPuk2 : Z → string → string → Op S Z := pin_request UnlockPuk2_.
End SupplementRequestCs.
