(* ===== verification/SupplementRequestIms.v ===== *)
(** * SupplementRequestIms: supplementary service requests to the IMS service
    (services/common/src/supplement_request_ims.cpp) *)

From stdpp Require Import base tactics option list numbers strings.
From Stdlib Require Import ZArith Lia Ascii String.
From S2P Require Import Prelude SsTypes Platform SupplementRequestCs.

Open Scope Z_scope.

Section SupplementRequestIms.
Context `{CallConsts, E : Env, SupplementEnv} {S : Type}.

(** [if (imsCallClient == nullptr) return CALL_ERR_RESOURCE_UNAVAILABLE;] *)
Definition ims_ss_request (slotId index : Z) (rq : ImsSsRequest) : Op S Z :=
  let! imsCallClient := ask ims_client_instance in
  if negb imsCallClient then mret CALL_ERR_RESOURCE_UNAVAILABLE
  else request (ImsSs slotId index rq).

Definition SetClipRequest (slotId action index : Z) : Op S Z :=
  ims_ss_request slotId index (ImsSetClip action).
Definition GetClipRequest (slotId index : Z) : Op S Z := ims_ss_request slotId index ImsGetClip.
Definition SetClirRequest (slotId action index : Z) : Op S Z :=
  ims_ss_request slotId index (ImsSetClir action).
Definition GetClirRequest (slotId index : Z) : Op S Z := ims_ss_request slotId index ImsGetClir.
Definition GetCallTransferRequest (slotId reason index : Z) : Op S Z :=
  ims_ss_request slotId index (ImsGetCallTransfer reason).
Definition SetCallTransferRequest (slotId : Z) (cfInfo : CallTransferInfo) (classType index : Z)
    : Op S Z :=
  ims_ss_request slotId index (ImsSetCallTransfer cfInfo classType).
Definition GetCallRestrictionRequest (slotId : Z) (fac : string) (index : Z) : Op S Z :=
  ims_ss_request slotId index (ImsGetCallRestriction fac).
Definition SetCallRestrictionRequest (slotId : Z) (fac : string) (mode : Z) (pw : string)
    (index : Z) : Op S Z :=
  ims_ss_request slotId index (ImsSetCallRestriction fac mode pw).
Definition SetCallWaitingRequest (slotId : Z) (activate : bool) (classType index : Z) : Op S Z :=
  ims_ss_request slotId index (ImsSetCallWaiting activate classType).
Definition GetCallWaitingRequest (slotId index : Z) : Op S Z :=
  ims_ss_request slotId index ImsGetCallWaiting.
Definition SetColrRequest (slotId presentation index : Z) : Op S Z :=
  ims_ss_request slotId index (ImsSetColr presentation).
Definition GetColrRequest (slotId index : Z) : Op S Z := ims_ss_request slotId index ImsGetColr.
Definition SetColpRequest (slotId action index : Z) : Op S Z :=
  ims_ss_request slotId index (ImsSetColp action).
Definition GetColpRequest (slotId index : Z) : Op S Z := ims_ss_request slotId index ImsGetColp.

(** The answer and the reference [result]. *)
Definition CanSetCallTransferTime (slotId : Z) (result : bool) : Op S (Z * bool) :=
  let! imsCallClient := ask ims_client_instance in
  if negb imsCallClient then mret (CALL_ERR_RESOURCE_UNAVAILABLE, result)
  else
    let! answer := ask (λ h, CanSetCallTransferTime_answer h slotId result) in
    let! ret := request (ImsCanSetCallTransferTime slotId) in
    mret (ret, answer).
End SupplementRequestIms.
