(* ===== verification/Supplement.v ===== *)
(** * Supplement: the supplementary services
    (services/utils/src/cellular_call_supplement.cpp)

    Call forwarding, call barring, call waiting, the identity services, USSD
    and the PIN codes: requests that come from a dialled MMI code ([Handle...])
    or from the settings, and what is reported of the answers ([Event...]).

    The methods work on the handler [GetHandler(slotId)] returns, which keeps
    the commands that wait for an answer: it is the state.  Whether there is a
    handler is an answer of the environment. *)

From stdpp Require Import base tactics option list numbers strings pretty.
From Stdlib Require Import ZArith Lia Ascii String.
From S2P Require Import Prelude SsTypes Platform Standardize MmiCode ControlBase Handler.
From S2P Require Import SupplementRequestCs SupplementRequestIms.

Open Scope Z_scope.

(** ** Constants of the component *)

Definition SS_FROM_SETTING_MENU : Z := 1.
Definition NUM_PRESENTATION_ALLOWED : Z := 0.
Definition NUM_PRESENTATION_RESTRICTED : Z := 1.
Definition ACTIVATE_ACTION : Z := 1.
Definition DEACTIVATE_ACTION : Z := 2.
Definition USSD_MODE_NOTIFY : Z := 0.
Definition USSD_MODE_REQUEST : Z := 1.
Definition USSD_MODE_NW_RELEASE : Z := 2.
Definition USSD_SUCCESS : Z := 0.
Definition USSD_FAILED : Z := 2.
Definition RESULT_SUCCESS : Z := 0.
Definition MMI_CODE_FAILED : Z := 1.
Definition PIN_PUK_MIN : Z := 4.
Definition PIN_PUK_MAX : Z := 8.

(** mmi_code_message.h *)
Definition TRANSFER_UNCONDITIONAL_SUCCESS : string := "Transfer unconditional success".
Definition TRANSFER_BUSY_SUCCESS : string := "Transfer busy success".
Definition TRANSFER_NO_REPLYL_SUCCESS : string := "Transfer no replay success".
Definition TRANSFER_NOT_REACHABLE_SUCCESS : string := "Transfer not reachable success".
Definition QUERY_SS_SUCCESS : string := "Query SS success".
Definition QUERY_SS_FAILED : string := "Query SS failed".
Definition INVALID_MMI_CODE : string := "Invalid MMI code".
Definition GET_CLIP_SUCCESS : string := "Get clip success".
Definition GET_CLIR_SUCCESS : string := "Get clir success".
Definition GET_COLR_SUCCESS : string := "Get colr success".
Definition GET_COLP_SUCCESS : string := "Get colp success".
Definition MIS_MATCH_PIN_PUK : string := "PIN or PUK don't match".
Definition INVAILD_PIN_PUK : string := "Invaild PIN or PUK numbers".
Definition GENERIC_FAILURE : string := "Generic fail, please retry".
Definition SUB_TYPE_QUERY : Z := 0.
Definition SUB_TYPE_ACTIVE : Z := 1.
Definition SUB_TYPE_DEACTIVE : Z := 2.
Definition SC_WAIT : Z := 43.
Definition SC_CFU : Z := 21.
Definition SC_BAOC : Z := 33.
Definition SC_CLIP : Z := 30.
Definition SC_CLIR : Z := 31.
Definition SC_COLP : Z := 76.
Definition SC_COLR : Z := 77.
Definition SC_USSD : Z := 10001.

(** [enum ServiceClassType] *)
Definition NONE : Z := 0.
Definition VOICE : Z := 1.
Definition FAX : Z := 4.
Definition SHORT_MESSAGE_SERVICE : Z := 8.
Definition DATA_CIRCUIT_SYNC : Z := 16.
Definition DATA_CIRCUIT_ASYNC : Z := 32.
Definition DEDICATED_PACKET_ACCESS : Z := 64.
Definition DEDICATED_PAD_ACCESS : Z := 128.

(** ** The fields of a command and of a report *)

Definition ss_set_flag (v : Z) (c : SsRequestCommand) : SsRequestCommand :=
  {| ss_cfAction := ss_cfAction c; ss_cfReason := ss_cfReason c; ss_number := ss_number c;
     ss_enable := ss_enable c; ss_clirAction := ss_clirAction c; ss_facility := ss_facility c;
     ss_password := ss_password c; ss_classType := ss_classType c; ss_action := ss_action c;
     ss_flag := v; ss_isIncludeCallForwardingNumber := ss_isIncludeCallForwardingNumber c |}.
Definition ss_set_action (v : Z) (c : SsRequestCommand) : SsRequestCommand :=
  {| ss_cfAction := ss_cfAction c; ss_cfReason := ss_cfReason c; ss_number := ss_number c;
     ss_enable := ss_enable c; ss_clirAction := ss_clirAction c; ss_facility := ss_facility c;
     ss_password := ss_password c; ss_classType := ss_classType c; ss_action := v;
     ss_flag := ss_flag c; ss_isIncludeCallForwardingNumber := ss_isIncludeCallForwardingNumber c |}.
Definition ss_set_enable (v : bool) (c : SsRequestCommand) : SsRequestCommand :=
  {| ss_cfAction := ss_cfAction c; ss_cfReason := ss_cfReason c; ss_number := ss_number c;
     ss_enable := v; ss_clirAction := ss_clirAction c; ss_facility := ss_facility c;
     ss_password := ss_password c; ss_classType := ss_classType c; ss_action := ss_action c;
     ss_flag := ss_flag c; ss_isIncludeCallForwardingNumber := ss_isIncludeCallForwardingNumber c |}.
Definition ss_set_classType (v : Z) (c : SsRequestCommand) : SsRequestCommand :=
  {| ss_cfAction := ss_cfAction c; ss_cfReason := ss_cfReason c; ss_number := ss_number c;
     ss_enable := ss_enable c; ss_clirAction := ss_clirAction c; ss_facility := ss_facility c;
     ss_password := ss_password c; ss_classType := v; ss_action := ss_action c;
     ss_flag := ss_flag c; ss_isIncludeCallForwardingNumber := ss_isIncludeCallForwardingNumber c |}.
Definition ss_set_barring (facility password : string) (c : SsRequestCommand) : SsRequestCommand :=
  {| ss_cfAction := ss_cfAction c; ss_cfReason := ss_cfReason c; ss_number := ss_number c;
     ss_enable := ss_enable c; ss_clirAction := ss_clirAction c; ss_facility := facility;
     ss_password := password; ss_classType := ss_classType c; ss_action := ss_action c;
     ss_flag := ss_flag c; ss_isIncludeCallForwardingNumber := ss_isIncludeCallForwardingNumber c |}.
Definition ss_set_forward (cfAction cfReason : Z) (number : string) (c : SsRequestCommand)
    : SsRequestCommand :=
  {| ss_cfAction := cfAction; ss_cfReason := cfReason; ss_number := number;
     ss_enable := ss_enable c; ss_clirAction := ss_clirAction c; ss_facility := ss_facility c;
     ss_password := ss_password c; ss_classType := ss_classType c; ss_action := ss_action c;
     ss_flag := ss_flag c; ss_isIncludeCallForwardingNumber := ss_isIncludeCallForwardingNumber c |}.
Definition ss_set_include (v : bool) (c : SsRequestCommand) : SsRequestCommand :=
  {| ss_cfAction := ss_cfAction c; ss_cfReason := ss_cfReason c; ss_number := ss_number c;
     ss_enable := ss_enable c; ss_clirAction := ss_clirAction c; ss_facility := ss_facility c;
     ss_password := ss_password c; ss_classType := ss_classType c; ss_action := ss_action c;
     ss_flag := ss_flag c; ss_isIncludeCallForwardingNumber := v |}.

Section Info.
Context `{SupplementEnv}.
(** A declared [MmiCodeInfo] whose result and message are set. *)
Definition mmi_info (result : Z) (message : string) : MmiCodeInfo :=
  {| mi_result := result; mi_message := message;
     mi_mmiCodeType := mi_mmiCodeType MmiCodeInfo_init; mi_action := mi_action MmiCodeInfo_init;
     mi_status := mi_status MmiCodeInfo_init; mi_classCw := mi_classCw MmiCodeInfo_init;
     mi_reason := mi_reason MmiCodeInfo_init; mi_number := mi_number MmiCodeInfo_init;
     mi_time := mi_time MmiCodeInfo_init |}.
End Info.
Definition mi_set_code (mmiCodeType action : Z) (i : MmiCodeInfo) : MmiCodeInfo :=
  {| mi_result := mi_result i; mi_message := mi_message i; mi_mmiCodeType := mmiCodeType;
     mi_action := action; mi_status := mi_status i; mi_classCw := mi_classCw i;
     mi_reason := mi_reason i; mi_number := mi_number i; mi_time := mi_time i |}.
Definition mi_set_type (mmiCodeType : Z) (i : MmiCodeInfo) : MmiCodeInfo :=
  mi_set_code mmiCodeType (mi_action i) i.
Definition mi_set_status (v : Z) (i : MmiCodeInfo) : MmiCodeInfo :=
  {| mi_result := mi_result i; mi_message := mi_message i; mi_mmiCodeType := mi_mmiCodeType i;
     mi_action := mi_action i; mi_status := v; mi_classCw := mi_classCw i;
     mi_reason := mi_reason i; mi_number := mi_number i; mi_time := mi_time i |}.
Definition mi_set_classCw (v : Z) (i : MmiCodeInfo) : MmiCodeInfo :=
  {| mi_result := mi_result i; mi_message := mi_message i; mi_mmiCodeType := mi_mmiCodeType i;
     mi_action := mi_action i; mi_status := mi_status i; mi_classCw := v;
     mi_reason := mi_reason i; mi_number := mi_number i; mi_time := mi_time i |}.
Definition mi_set_number (v : string) (i : MmiCodeInfo) : MmiCodeInfo :=
  {| mi_result := mi_result i; mi_message := mi_message i; mi_mmiCodeType := mi_mmiCodeType i;
     mi_action := mi_action i; mi_status := mi_status i; mi_classCw := mi_classCw i;
     mi_reason := mi_reason i; mi_number := v; mi_time := mi_time i |}.
Definition mi_set_query (reason time : Z) (i : MmiCodeInfo) : MmiCodeInfo :=
  {| mi_result := mi_result i; mi_message := mi_message i; mi_mmiCodeType := mi_mmiCodeType i;
     mi_action := mi_action i; mi_status := mi_status i; mi_classCw := mi_classCw i;
     mi_reason := reason; mi_number := mi_number i; mi_time := time |}.

(** ** Codes of the MMI grammar *)

(** [atoi]: white space, a sign, digits; the rest is ignored. *)
Definition is_space (c : ascii) : bool :=
  char_eq c " " || char_in "009" "013" c.
Fixpoint skip_space (s : string) : string :=
  match s with
  | String c s' => if is_space c then skip_space s' else s
  | EmptyString => EmptyString
  end.
Fixpoint digits_value (acc : Z) (s : string) : Z :=
  match s with
  | String c s' =>
      if is_digit c then digits_value (10 * acc + (Z.of_nat (nat_of_ascii c) - 48)) s' else acc
  | EmptyString => acc
  end.
Definition signed_value (s : string) : Z :=
  match skip_space s with
  | String c s' =>
      if char_eq c "-" then - digits_value 0 s'
      else if char_eq c "+" then digits_value 0 s'
      else digits_value 0 (String c s')
  | EmptyString => 0
  end.

Section Codes.
Context `{CallConsts, E : Env, SupplementEnv}.

Definition atoi (s : string) : Z :=
  let v := signed_value s in
  if (- 2 ^ 31 <=? v) && (v <? 2 ^ 31) then v else atoi_overflow s.

Definition ObtainServiceCode (serviceInfoB : string) : Z :=
  if string_empty serviceInfoB then NONE
  else
    let intServiceInfoB := atoi (c_str serviceInfoB) in
    if intServiceInfoB =? 10 then SHORT_MESSAGE_SERVICE + FAX + VOICE
    else if intServiceInfoB =? 11 then VOICE
    else if intServiceInfoB =? 12 then SHORT_MESSAGE_SERVICE + FAX
    else if intServiceInfoB =? 13 then FAX
    else if intServiceInfoB =? 16 then SHORT_MESSAGE_SERVICE
    else if intServiceInfoB =? 19 then FAX + VOICE
    else if intServiceInfoB =? 20 then DATA_CIRCUIT_ASYNC + DATA_CIRCUIT_SYNC
    else if intServiceInfoB =? 21 then DEDICATED_PAD_ACCESS + DATA_CIRCUIT_ASYNC
    else if intServiceInfoB =? 22 then DEDICATED_PACKET_ACCESS + DATA_CIRCUIT_SYNC
    else if intServiceInfoB =? 24 then DATA_CIRCUIT_SYNC
    else if intServiceInfoB =? 25 then DATA_CIRCUIT_ASYNC
    else if intServiceInfoB =? 99 then DEDICATED_PACKET_ACCESS
    else NONE.

(** [switch (StandardizeUtils::Hash_(code))] with a case per literal. *)
Fixpoint hash_switch {A} (code : Z) (cases : list (string * A)) (dflt : A) : A :=
  match cases with
  | [] => dflt
  | (p, a) :: cases' => if code =? HashCompileTime p then a else hash_switch code cases' dflt
  end.

(** The action, or the error code. *)
Definition ObtainCallTrasferAction (actionString phoneNumber : string) : Z + Z :=
  hash_switch (Hash_ actionString)
    [("*", inl (if string_empty phoneNumber then CALL_TRANSFER_ENABLE
                else CALL_TRANSFER_REGISTRATION));
     ("#", inl CALL_TRANSFER_DISABLE);
     ("**", inl CALL_TRANSFER_REGISTRATION);
     ("##", inl CALL_TRANSFER_ERASURE)]
    (inr TELEPHONY_ERR_ARGUMENT_MISMATCH).

Definition ObtainCause (actionStr : string) : Z :=
  if string_empty actionStr then TELEPHONY_ERROR
  else
    hash_switch (Hash_ actionStr)
      [("21", TRANSFER_TYPE_UNCONDITIONAL); ("67", TRANSFER_TYPE_BUSY);
       ("61", TRANSFER_TYPE_NO_REPLY); ("62", TRANSFER_TYPE_NOT_REACHABLE);
       ("002", TRANSFER_TYPE_ALL); ("004", TRANSFER_TYPE_CONDITIONAL)]
      TELEPHONY_ERROR.

Definition ObtainBarringInstallation (serviceInfoC : string) : string :=
  if string_empty serviceInfoC then ""
  else
    hash_switch (Hash_ serviceInfoC)
      [("33", "AO"); ("331", "OI"); ("332", "OX"); ("351", "IR"); ("35", "AI");
       ("330", "AB"); ("333", "AG"); ("353", "AC")] "".

(** The facility, or the error code. *)
Definition CheckCallRestrictionType (facType : Z) : string + Z :=
  if facType =? RESTRICTION_TYPE_ALL_OUTGOING then inl "AO"
  else if facType =? RESTRICTION_TYPE_INTERNATIONAL then inl "OI"
  else if facType =? RESTRICTION_TYPE_INTERNATIONAL_EXCLUDING_HOME then inl "OX"
  else if facType =? RESTRICTION_TYPE_ALL_INCOMING then inl "AI"
  else if facType =? RESTRICTION_TYPE_ROAMING_INCOMING then inl "IR"
  else if facType =? RESTRICTION_TYPE_ALL_CALLS then inl "AB"
  else if facType =? RESTRICTION_TYPE_OUTGOING_SERVICES then inl "AG"
  else if facType =? RESTRICTION_TYPE_INCOMING_SERVICES then inl "AC"
  else inr CALL_ERR_PARAMETER_OUT_OF_RANGE.

Definition CheckSetCallTransferInfo (cfInfo : CallTransferInfo) : Z :=
  if strlen (ct_transferNum cfInfo) =? 0 then TELEPHONY_ERR_ARGUMENT_INVALID
  else if (TRANSFER_TYPE_NOT_REACHABLE <? ct_type cfInfo) ||
          (ct_type cfInfo <? TRANSFER_TYPE_UNCONDITIONAL) ||
          (CALL_TRANSFER_ERASURE <? ct_settingType cfInfo) ||
          (ct_settingType cfInfo <? CALL_TRANSFER_DISABLE)
  then CALL_ERR_PARAMETER_OUT_OF_RANGE
  else TELEPHONY_SUCCESS.
End Codes.

(** ** Requests of an MMI code *)

Section Mmi.
Context `{CallConsts, E : Env, SupplementEnv}.

Definition PhoneTypeGsmOrNot (h : list Effect) (slotId : Z) : bool :=
  bool_decide (GetNetworkStatus h slotId = PHONE_TYPE_IS_GSM).
Definition NeedUseImsToHandle (h : list Effect) (slotId : Z) : bool := NeedCallImsService h.

(** [ReportMmiCodeMessage(const MmiCodeInfo &)] *)
Definition ReportMmiCodeInfo {S} (mmiCodeInfo : MmiCodeInfo) : Op S () :=
  let! callRegister := ask register_instance in
  if negb callRegister then mret () else report (ReportSs (ReportMmiCodeResult mmiCodeInfo)).

Definition ReportMmiCodeMessage {S} (result : Z) (successMsg failedMsg : string) : Op S () :=
  let message := if result =? RESULT_SUCCESS then successMsg else failedMsg in
  if negb (strcpy_s_ok sizeof_mmi_message (c_str message)) then mret ()
  else ReportMmiCodeInfo (mmi_info result (c_str message)).

(** [ReportMmiCodeMessage(MMI_CODE_FAILED, "", message)] *)
Definition mmi_failed {S} (message : string) : Op S () :=
  ReportMmiCodeMessage MMI_CODE_FAILED "" message.

(** The end of every [Handle...]: a request that was not taken is reported,
    the command of one that was waits for its answer. *)
Definition mmi_finish (result : Z) (utCommand : SsRequestCommand) (index : Z)
    : Op CellularCallHandler () :=
  if bool_decide (result ≠ TELEPHONY_SUCCESS) then mmi_failed GENERIC_FAILURE
  else SaveSsRequestCommand (Some utCommand) index.

(** The start of most of them: [k] runs when there is an action and a handler. *)
Definition with_mmi_handler (slotId : Z) (k : Op CellularCallHandler ())
    : Op CellularCallHandler () :=
  let! handler := ask (λ h, GetHandler h slotId) in
  if negb handler then mmi_failed GENERIC_FAILURE else k.
Definition with_action (actionString : string) (k : Op CellularCallHandler ())
    : Op CellularCallHandler () :=
  if string_empty actionString then mmi_failed INVALID_MMI_CODE else k.

Definition interrogate : string := "*#".
Definition activate : string := "*".
Definition deactivate : string := "#".
Definition same_action (actionString action : string) : bool := bool_decide (actionString = action).

(** Over IMS when the IMS service is there, else over CS. *)
Definition ims_or_cs {S} (slotId : Z) (ims cs : Op S Z) : Op S Z :=
  let! need := ask (λ h, NeedUseImsToHandle h slotId) in
  if (need : bool) then ims else cs.

(** [result] stays TELEPHONY_ERROR. *)
Definition no_request {S} : Op S Z := mret TELEPHONY_ERROR.

Definition HandleClip (slotId : Z) (mmiData : MMIData) : Op CellularCallHandler () :=
  let action := actionString mmiData in
  with_action action (with_mmi_handler slotId (
    let! index := RequestSsRequestCommandIndex in
    if same_action action activate then
      let! result := SupplementRequestIms.SetClipRequest slotId ACTIVATE_ACTION index in
      mmi_finish result (ss_set_action ACTIVATE_ACTION SsRequestCommand_init) index
    else if same_action action deactivate then
      let! result := SupplementRequestIms.SetClipRequest slotId DEACTIVATE_ACTION index in
      mmi_finish result (ss_set_action DEACTIVATE_ACTION SsRequestCommand_init) index
    else
      let! result :=
        if same_action action interrogate then
          ims_or_cs slotId (SupplementRequestIms.GetClipRequest slotId index)
                           (SupplementRequestCs.GetClipRequest slotId index)
        else no_request in
      mmi_finish result SsRequestCommand_init index)).

Definition HandleClir (slotId : Z) (mmiData : MMIData) : Op CellularCallHandler () :=
  let action := actionString mmiData in
  with_action action (with_mmi_handler slotId (
    let! index := RequestSsRequestCommandIndex in
    let set (a : Z) :=
      let! result := ims_or_cs slotId (SupplementRequestIms.SetClirRequest slotId a index)
                                      (SupplementRequestCs.SetClirRequest slotId a index) in
      mmi_finish result (ss_set_action a SsRequestCommand_init) index in
    if same_action action activate then set ACTIVATE_ACTION
    else if same_action action deactivate then set DEACTIVATE_ACTION
    else
      let! result :=
        if same_action action interrogate then
          ims_or_cs slotId (SupplementRequestIms.GetClirRequest slotId index)
                           (SupplementRequestCs.GetClirRequest slotId index)
        else no_request in
      mmi_finish result SsRequestCommand_init index)).

Definition HandleColr (slotId : Z) (mmiData : MMIData) : Op CellularCallHandler () :=
  let action := actionString mmiData in
  with_action action (with_mmi_handler slotId (
    let! index := RequestSsRequestCommandIndex in
    let set (a presentation : Z) :=
      let! result :=
        ims_or_cs slotId (SupplementRequestIms.SetColrRequest slotId presentation index)
                         no_request in
      mmi_finish result (ss_set_action a SsRequestCommand_init) index in
    if same_action action activate then set ACTIVATE_ACTION NUM_PRESENTATION_ALLOWED
    else if same_action action deactivate then set DEACTIVATE_ACTION NUM_PRESENTATION_RESTRICTED
    else
      let! result :=
        if same_action action interrogate then
          ims_or_cs slotId (SupplementRequestIms.GetColrRequest slotId index) no_request
        else no_request in
      mmi_finish result SsRequestCommand_init index)).

Definition HandleColp (slotId : Z) (mmiData : MMIData) : Op CellularCallHandler () :=
  let action := actionString mmiData in
  with_action action (with_mmi_handler slotId (
    let! index := RequestSsRequestCommandIndex in
    let set (a : Z) :=
      let! result :=
        ims_or_cs slotId (SupplementRequestIms.SetColpRequest slotId a index) no_request in
      mmi_finish result (ss_set_action a SsRequestCommand_init) index in
    if same_action action activate then set ACTIVATE_ACTION
    else if same_action action deactivate then set DEACTIVATE_ACTION
    else
      let! result :=
        if same_action action interrogate then
          ims_or_cs slotId (SupplementRequestIms.GetColpRequest slotId index) no_request
        else no_request in
      mmi_finish result SsRequestCommand_init index)).

Definition HandleGetCallTransfer (slotId cause : Z) : Op CellularCallHandler () :=
  with_mmi_handler slotId (
    let! index := RequestSsRequestCommandIndex in
    let! result :=
      ims_or_cs slotId (SupplementRequestIms.GetCallTransferRequest slotId cause index)
                       (SupplementRequestCs.GetCallTransferRequest slotId cause index) in
    mmi_finish result (ss_set_forward 0 cause "" SsRequestCommand_init) index).

Definition HandleSetCallTransfer (slotId serviceCode cause : Z) (phoneNumber : string)
    (callTransferAction : Z) : Op CellularCallHandler () :=
  with_mmi_handler slotId (
    (if SECURITY_GUARDE_ENABLE &&
        ((callTransferAction =? CALL_TRANSFER_REGISTRATION) ||
         (callTransferAction =? CALL_TRANSFER_ERASURE)) then
       hisys (WriteCallTansferEvent (if callTransferAction =? CALL_TRANSFER_ERASURE then 0 else 1))
     else mret ()) ;;
    let utCommand :=
      ss_set_action callTransferAction
        (ss_set_forward callTransferAction cause phoneNumber SsRequestCommand_init) in
    let! index := RequestSsRequestCommandIndex in
    let! need := ask (λ h, NeedUseImsToHandle h slotId) in
    if (need : bool) then
      if negb (memcpy_s_ok kMaxNumberLen (string_size phoneNumber)) then mmi_failed GENERIC_FAILURE
      else
        let cfInfo :=
          {| ct_transferNum := c_str (phoneNumber +:+ drop_string (String.length phoneNumber)
                                        (ct_transferNum CallTransferInfo_init));
             ct_settingType := callTransferAction; ct_type := cause;
             ct_startHour := MIN_HOUR; ct_startMinute := MIN_MINUTE;
             ct_endHour := MIN_HOUR; ct_endMinute := MIN_MINUTE |} in
        let! result :=
          SupplementRequestIms.SetCallTransferRequest slotId cfInfo serviceCode index in
        mmi_finish result utCommand index
    else
      let callTransferParam :=
        {| tp_mode := callTransferAction; tp_reason := cause; tp_number := phoneNumber;
           tp_classx := serviceCode |} in
      let! result :=
        SupplementRequestCs.SetCallTransferRequest slotId callTransferParam index in
      mmi_finish result utCommand index).

Definition HandleCallTransfer (slotId : Z) (mmiData : MMIData) : Op CellularCallHandler () :=
  let serviceCode_ := ObtainServiceCode (serviceInfoB mmiData) in
  let cause := ObtainCause (serviceCode mmiData) in
  let action := actionString mmiData in
  if negb (string_empty action) && same_action action interrogate then HandleGetCallTransfer slotId cause
  else
    let phoneNumber := serviceInfoA mmiData in
    with_action action (
      match ObtainCallTrasferAction action phoneNumber with
      | inr _ => mmi_failed GENERIC_FAILURE
      | inl callTransferAction =>
          HandleSetCallTransfer slotId serviceCode_ cause phoneNumber callTransferAction
      end).

(** [strcpy_s] into [utCommand->password]. *)
Definition copy_password (info : string) : option string :=
  let cpyLen := strlen info + 1 in
  let maxCpyLen := kMaxNumberLen + 1 in
  if strcpy_s_ok (if maxCpyLen <? cpyLen then maxCpyLen else cpyLen) (c_str info)
  then Some (c_str info) else None.

Definition HandleCallRestriction (slotId : Z) (mmiData : MMIData) : Op CellularCallHandler () :=
  let infoA := serviceInfoA mmiData in
  let facType := ObtainBarringInstallation (serviceCode mmiData) in
  let action := actionString mmiData in
  with_action action (with_mmi_handler slotId (
    let! index := RequestSsRequestCommandIndex in
    if same_action action interrogate then
      let! result :=
        ims_or_cs slotId (SupplementRequestIms.GetCallRestrictionRequest slotId facType index)
                         (SupplementRequestCs.GetCallRestrictionRequest slotId facType index) in
      mmi_finish result (ss_set_barring facType "" SsRequestCommand_init) index
    else if same_action action activate || same_action action deactivate then
      let enable := same_action action activate in
      match copy_password infoA with
      | None => mret ()
      | Some password =>
          let mode := if enable then 1 else 0 in
          let! result :=
            ims_or_cs slotId
              (SupplementRequestIms.SetCallRestrictionRequest slotId facType mode infoA index)
              (SupplementRequestCs.SetCallRestrictionRequest slotId facType mode infoA index) in
          mmi_finish result
            (ss_set_action (if enable then SUB_TYPE_ACTIVE else SUB_TYPE_DEACTIVE)
              (ss_set_enable enable (ss_set_barring facType password SsRequestCommand_init)))
            index
      end
    else
      let! result := no_request in
      mmi_finish result (ss_set_barring facType "" SsRequestCommand_init) index)).

Definition HandleCallWaiting (slotId : Z) (mmiData : MMIData) : Op CellularCallHandler () :=
  let action := actionString mmiData in
  with_action action (with_mmi_handler slotId (
    let classType := ObtainServiceCode (serviceInfoA mmiData) in
    let utCommand := ss_set_classType classType SsRequestCommand_init in
    let! index := RequestSsRequestCommandIndex in
    if same_action action activate || same_action action deactivate then
      let on := same_action action activate in
      let! result :=
        ims_or_cs slotId
          (SupplementRequestIms.SetCallWaitingRequest slotId on classType index)
          (SupplementRequestCs.SetCallWaitingRequest slotId on classType index) in
      mmi_finish result
        (ss_set_action (if on then 1 else 0) (ss_set_enable on utCommand)) index
    else
      let! result :=
        if same_action action interrogate then
          ims_or_cs slotId (SupplementRequestIms.GetCallWaitingRequest slotId index)
                           (SupplementRequestCs.GetCallWaitingRequest slotId index)
        else no_request in
      mmi_finish result utCommand index)).

(** *** PIN and PUK *)

Definition IsVaildPinOrPuk {S} (newPinOrPuk newPinOrPukCheck : string) : Op S bool :=
  if negb (bool_decide (newPinOrPuk = newPinOrPukCheck)) then
    mmi_failed MIS_MATCH_PIN_PUK ;; mret false
  else if (i32 (string_size newPinOrPuk) <? PIN_PUK_MIN) ||
          (PIN_PUK_MAX <? i32 (string_size newPinOrPuk)) then
    mmi_failed INVAILD_PIN_PUK ;; mret false
  else mret true.

(** [AlterPinPassword], [UnlockPuk], [AlterPin2Password] and [UnlockPuk2],
    which differ in the request only. *)
Definition pin_or_puk {S} (rq : Z → string → string → Op S Z) (slotId : Z) (mmiData : MMIData)
    : Op S () :=
  if string_empty (actionString mmiData) then mret ()
  else
    let old := serviceInfoA mmiData in
    let newPin := serviceInfoB mmiData in
    let newPinCheck := serviceInfoC mmiData in
    let! valid := IsVaildPinOrPuk newPin newPinCheck in
    if negb valid then mret ()
    else
      let! result := rq slotId newPin old in
      if bool_decide (result ≠ TELEPHONY_SUCCESS) then mmi_failed GENERIC_FAILURE else mret ().
Definition AlterPinPassword {S} : Z → MMIData → Op S () :=
  pin_or_puk SupplementRequestCs.AlterPinPassword.
Definition UnlockPuk {S} : Z → MMIData → Op S () := pin_or_puk SupplementRequestCs.UnlockPuk.
Definition AlterPin2Password {S} : Z → MMIData → Op S () :=
  pin_or_puk SupplementRequestCs.AlterPin2Password.
Definition UnlockPuk2 {S} : Z → MMIData → Op S () := pin_or_puk SupplementRequestCs.UnlockPuk2.

Definition SendUssd {S} (slotId : Z) (msg : string) : Op S Z :=
  let! result := SendUssdRequest slotId msg in
  (if bool_decide (result ≠ TELEPHONY_SUCCESS) then
     ReportMmiCodeInfo (mi_set_type SC_USSD
       (mmi_info USSD_FAILED (strcpy_to sizeof_mmi_message GENERIC_FAILURE)))
   else mret ()) ;;
  mret result.

(** The method a code is bound to. *)
Definition run_mmi_handler (f : MmiHandler) : Z → MMIData → Op CellularCallHandler () :=
  match f with
  | MmiCode.HandleCallTransfer => HandleCallTransfer
  | MmiCode.HandleCallRestriction => HandleCallRestriction
  | MmiCode.HandleClip => HandleClip
  | MmiCode.HandleClir => HandleClir
  | MmiCode.AlterPinPassword => AlterPinPassword
  | MmiCode.UnlockPuk => UnlockPuk
  | MmiCode.AlterPin2Password => AlterPin2Password
  | MmiCode.UnlockPuk2 => UnlockPuk2
  | MmiCode.HandleCallWaiting => HandleCallWaiting
  | MmiCode.HandleColp => HandleColp
  | MmiCode.HandleColr => HandleColr
  end.
End Mmi.

(** ** What is reported of the answers *)

Section Answers.
Context `{CallConsts, E : Env, HandlerEnv, SupplementEnv} {S : Type}.

Definition on_register (k : Op S ()) : Op S () :=
  let! callRegister := ask register_instance in
  if negb callRegister then mret () else k.
Definition report_ss (rp : SsReport) : Op S () := report (ReportSs rp).

(** An error of the UT interface as call_manager knows it. *)
Definition ut_error (result : Z) : Z :=
  if result =? IMS_ERROR_UT_NO_CONNECTION then CALL_ERR_UT_NO_CONNECTION else result.
Definition mmi_message (message : string) : string := strcpy_to sizeof_mmi_message message.

(** The message [CreateGetCallWaitingResultMessage] makes is dropped. *)
Definition EventGetCallWaiting (waitingInfo : CallWaitResult) (message : string) (flag : Z)
    : Op S () :=
  let result := ut_error (sb_result (cw_result waitingInfo)) in
  on_register (
    if flag =? SS_FROM_MMI_CODE then
      ReportMmiCodeInfo
        (mi_set_classCw (cw_classCw waitingInfo) (mi_set_status (cw_status waitingInfo)
          (mi_set_code SC_WAIT SUB_TYPE_QUERY (mmi_info result (mmi_message message)))))
    else
      report_ss (ReportGetWaitingResult
        {| sr_result := result; sr_status := cw_status waitingInfo;
           sr_classCw := cw_classCw waitingInfo |})).

Definition EventSetCallWaiting (result : Z) (message : string) (flag action : Z) : Op S () :=
  on_register (
    if flag =? SS_FROM_MMI_CODE then
      ReportMmiCodeInfo
        (mi_set_code SC_WAIT (if negb (action =? 0) then SUB_TYPE_ACTIVE else SUB_TYPE_DEACTIVE)
          (mmi_info result (mmi_message message)))
    else report_ss (ReportSetWaitingResult result)).

Definition BuildCallForwardQueryInfo (queryResult : CallForwardQueryResult) (message : string)
    (flag : Z) (isIncludeCallForwardingNumber : bool) : Op S () :=
  if negb memset_s_ok then mret ()
  else
    let number := if isIncludeCallForwardingNumber then cq_number queryResult else "" in
    if negb (strcpy_s_ok sizeof_transfer_number (c_str number)) then mret ()
    else if flag =? SS_FROM_MMI_CODE then
      ReportMmiCodeInfo
        (mi_set_query (cq_reason queryResult) (cq_time queryResult)
          (mi_set_number (strcpy_to sizeof_mmi_number (cq_number queryResult))
            (mi_set_status (cq_status queryResult) (mi_set_classCw (cq_classx queryResult)
              (mi_set_code SC_CFU SUB_TYPE_QUERY
                (mmi_info (cq_result queryResult) (mmi_message message)))))))
    else
      on_register (report_ss (ReportGetTransferResult
        {| tr_result := cq_result queryResult; tr_status := cq_status queryResult;
           tr_classx := cq_classx queryResult; tr_number := c_str number;
           tr_type := cq_type queryResult; tr_reason := cq_reason queryResult;
           tr_time := cq_time queryResult; tr_startHour := cq_startHour queryResult;
           tr_startMinute := cq_startMinute queryResult; tr_endHour := cq_endHour queryResult;
           tr_endMinute := cq_endMinute queryResult |})).

Definition fail_query (result reason : Z) : CallForwardQueryResult :=
  let d := CallForwardQueryResult_init in
  {| cq_serial := cq_serial d; cq_result := result; cq_status := cq_status d; cq_classx := cq_classx d;
     cq_number := cq_number d; cq_type := cq_type d; cq_reason := reason; cq_time := cq_time d;
     cq_startHour := cq_startHour d; cq_startMinute := cq_startMinute d;
     cq_endHour := cq_endHour d; cq_endMinute := cq_endMinute d |}.

(** [queryResult.classx > 0 && (queryResult.classx & VOICE) != 0] *)
Definition is_voice (queryResult : CallForwardQueryResult) : bool :=
  (0 <? cq_classx queryResult) && negb (Z.land (cq_classx queryResult) VOICE =? 0).

Definition EventGetCallTransferInfo (cFQueryList : CallForwardQueryInfoList) (message : string)
    (flag : Z) (isIncludeCallForwardingNumber : bool) : Op S () :=
  let base := cfl_result cFQueryList in
  (if bool_decide (sb_result base ≠ TELEPHONY_SUCCESS) && (cfl_callSize cFQueryList =? 0) then
     BuildCallForwardQueryInfo (fail_query (sb_result base) (sb_reason base)) message flag
       isIncludeCallForwardingNumber
   else mret ()) ;;
  mfor (cfl_calls cFQueryList) (λ queryResult,
    if is_voice queryResult then
      BuildCallForwardQueryInfo queryResult message flag isIncludeCallForwardingNumber
    else mret ()).

Definition EventSetCallTransferInfo (result : Z) (message : string) (flag action : Z)
    (targetNumber : string) : Op S () :=
  on_register (
    if flag =? SS_FROM_MMI_CODE then
      ReportMmiCodeInfo
        (mi_set_number (strcpy_to sizeof_mmi_number targetNumber)
          (mi_set_code SC_CFU (if negb (action =? 0) then SUB_TYPE_ACTIVE else SUB_TYPE_DEACTIVE)
            (mmi_info result (mmi_message message))))
    else report_ss (ReportSetTransferResult result)).

Definition EventGetCallRestriction (result : CallRestrictionResult) (message : string) (flag : Z)
    : Op S () :=
  on_register (
    let r := ut_error (sb_result (rs_result result)) in
    if flag =? SS_FROM_MMI_CODE then
      ReportMmiCodeInfo
        (mi_set_status (rs_status result)
          (mi_set_code SC_BAOC SUB_TYPE_QUERY (mmi_info r (mmi_message message))))
    else
      report_ss (ReportGetRestrictionResult
        {| sr_result := r; sr_status := rs_status result; sr_classCw := rs_classCw result |})).

Definition EventSetCallRestriction (result : Z) (message : string) (flag action : Z) : Op S () :=
  on_register (
    if flag =? SS_FROM_MMI_CODE then
      ReportMmiCodeInfo (mi_set_code SC_BAOC action (mmi_info result (mmi_message message)))
    else report_ss (ReportSetRestrictionResult result)).

Definition EventSetBarringPassword (result : Z) (message : string) (flag : Z) : Op S () :=
  on_register (
    if flag =? SS_FROM_MMI_CODE then
      ReportMmiCodeInfo
        (mi_set_code SC_BAOC SUB_TYPE_ACTIVE (mmi_info result (mmi_message message)))
    else report_ss (ReportSetBarringPasswordResult result)).

(** [action == ACTIVATE_ACTION ? SUB_TYPE_ACTIVE : SUB_TYPE_DEACTIVE] *)
Definition sub_type (action : Z) : Z :=
  if action =? ACTIVATE_ACTION then SUB_TYPE_ACTIVE else SUB_TYPE_DEACTIVE.

Definition EventGetClip (getClipResult : IdentityResult) (message : string) (flag : Z) : Op S () :=
  let result := ut_error (sb_result (id_result getClipResult)) in
  on_register (
    if flag =? SS_FROM_MMI_CODE then
      ReportMmiCodeInfo (mi_set_status (id_stat getClipResult)
        (mi_set_code SC_CLIP SUB_TYPE_QUERY (mmi_info result (mmi_message GET_CLIP_SUCCESS))))
    else
      report_ss (ReportGetClipResult
        {| ip_result := result; ip_action := id_action getClipResult;
           ip_stat := id_stat getClipResult |})).

Definition EventSetClip (result : Z) (message : string) (flag action : Z) : Op S () :=
  if flag =? SS_FROM_MMI_CODE then
    ReportMmiCodeInfo (mi_set_code SC_CLIP (sub_type action)
      (mmi_info result (mmi_message message)))
  else mret ().

Definition EventGetClir (r : IdentityResult) (message : string) (flag : Z) : Op S () :=
  let result := ut_error (sb_result (id_result r)) in
  on_register (
    if flag =? SS_FROM_MMI_CODE then
      ReportMmiCodeInfo (mi_set_classCw (id_action r) (mi_set_status (id_stat r)
        (mi_set_code SC_CLIR SUB_TYPE_QUERY (mmi_info result (mmi_message GET_CLIR_SUCCESS)))))
    else
      report_ss (ReportGetClirResult
        {| ip_result := result; ip_action := id_action r; ip_stat := id_stat r |})).

Definition EventSetClir (result : Z) (message : string) (flag action : Z) : Op S () :=
  on_register (
    if flag =? SS_FROM_MMI_CODE then
      ReportMmiCodeInfo (mi_set_code SC_CLIR (sub_type action)
        (mmi_info result (mmi_message message)))
    else report_ss (ReportSetClirResult result)).

Definition EventGetColr (r : IdentityResult) (message : string) (flag : Z) : Op S () :=
  if flag =? SS_FROM_MMI_CODE then
    ReportMmiCodeInfo (mi_set_status (id_stat r)
      (mi_set_code SC_COLR SUB_TYPE_QUERY
        (mmi_info (ut_error (sb_result (id_result r))) (mmi_message GET_COLR_SUCCESS))))
  else mret ().
Definition EventSetColr (result : Z) (message : string) (flag action : Z) : Op S () :=
  if flag =? SS_FROM_MMI_CODE then
    ReportMmiCodeInfo (mi_set_code SC_COLR (sub_type action)
      (mmi_info result (mmi_message message)))
  else mret ().
Definition EventGetColp (r : IdentityResult) (message : string) (flag : Z) : Op S () :=
  if flag =? SS_FROM_MMI_CODE then
    ReportMmiCodeInfo (mi_set_status (id_stat r)
      (mi_set_code SC_COLP SUB_TYPE_QUERY
        (mmi_info (ut_error (sb_result (id_result r))) (mmi_message GET_COLP_SUCCESS))))
  else mret ().
Definition EventSetColp (result : Z) (message : string) (flag action : Z) : Op S () :=
  if flag =? SS_FROM_MMI_CODE then
    ReportMmiCodeInfo (mi_set_code SC_COLP (sub_type action)
      (mmi_info result (mmi_message message)))
  else mret ().

(** *** USSD, notices, PIN *)

Definition EventSendUssd (responseInfo : RadioResponseInfo) : Op S () :=
  on_register (
    report_ss (ReportSendUssdResult (rr_error responseInfo)) ;;
    if rr_error responseInfo =? ErrType_NONE then mret ()
    else ReportMmiCodeInfo (mi_set_type SC_USSD
           (mmi_info USSD_FAILED (mi_message MmiCodeInfo_init)))).

Definition GetMessage (ssNoticeInfo : SsNoticeInfo) : string :=
  let type := sn_serviceType ssNoticeInfo in
  mmi_message
    (if negb (sn_result ssNoticeInfo =? 0) then QUERY_SS_FAILED
     else if type =? TRANSFER_TYPE_UNCONDITIONAL then TRANSFER_UNCONDITIONAL_SUCCESS
     else if type =? TRANSFER_TYPE_BUSY then TRANSFER_BUSY_SUCCESS
     else if type =? TRANSFER_TYPE_NO_REPLY then TRANSFER_NO_REPLYL_SUCCESS
     else if type =? TRANSFER_TYPE_NOT_REACHABLE then TRANSFER_NOT_REACHABLE_SUCCESS
     else QUERY_SS_SUCCESS).

Definition EventSsNotify (ssNoticeInfo : SsNoticeInfo) : Op S () :=
  if bool_decide (sn_requestType ssNoticeInfo ∈
       [SS_ACTIVATION; SS_DEACTIVATION; SS_REGISTRATION; SS_ERASURE; SS_INTERROGATION])
  then ReportMmiCodeInfo (mmi_info (sn_result ssNoticeInfo) (GetMessage ssNoticeInfo))
  else mret ().

(** The result and the text of a USSD notice, once the text is unescaped. *)
Definition ussd_result (h : list Effect) (isUssdError : bool) (m : Z) (str : string)
    : Z * string :=
  if negb isUssdError && negb (string_empty str) then (m, str)
  else if isUssdError && negb (m =? USSD_MODE_NW_RELEASE) then (USSD_FAILED, INVALID_MMI_CODE)
  else
    let isMmiErr := string_empty (TrimStr str) && bool_decide (showMmiErrStr h = "true"%string) in
    (if isMmiErr then USSD_FAILED else USSD_SUCCESS, str).

Definition EventUssdNotify (ussdNoticeInfo : UssdNoticeInfo) (slotId : Z) : Op S () :=
  let m := un_m ussdNoticeInfo in
  let! filtered := ask (λ h,
    match ext_isEmptyMmiResultFiltered with
    | Some f => string_empty (un_str ussdNoticeInfo) && f h slotId
    | None => false
    end) in
  if (filtered : bool) then mret ()
  else
    let! str := ask (λ h,
      match ext_unescapeHtmlCode with
      | Some f => f h slotId (un_str ussdNoticeInfo)
      | None => un_str ussdNoticeInfo
      end) in
    let! released := ask (λ h,
      match ext_isUssdReleaseMsgFiltered with Some f => f h slotId | None => false end) in
    let isUssdError :=
      negb (m =? USSD_MODE_NOTIFY) && negb (m =? USSD_MODE_REQUEST) &&
      (negb released || negb (m =? USSD_MODE_NW_RELEASE)) in
    let! r := ask (λ h, ussd_result h isUssdError m str) in
    if negb (strcpy_s_ok sizeof_mmi_message (c_str r.2)) then mret ()
    else ReportMmiCodeInfo (mi_set_code SC_USSD slotId (mmi_info r.1 (c_str r.2))).

Definition EventSetPinPuk (pinPukResponse : PinPukResponse) : Op S () :=
  ReportMmiCodeInfo
    (mmi_info (pp_result pinPukResponse) (mmi_message (pretty (pp_remain pinPukResponse)))).

Definition EventCloseUnFinishedUssd (responseInfo : RadioResponseInfo) : Op S () :=
  on_register (report_ss (ReportCloseUnFinishedUssdResult
    (if rr_error responseInfo =? ErrType_NONE then TELEPHONY_SUCCESS
     else TELEPHONY_ERR_RIL_CMD_FAIL))).
End Answers.

(** ** Requests of the settings *)

Section Settings.
Context `{CallConsts, E : Env, SupplementEnv}.

Definition setting_command : SsRequestCommand :=
  ss_set_flag SS_FROM_SETTING_MENU SsRequestCommand_init.

(** [if (handler == nullptr) return TELEPHONY_ERR_LOCAL_PTR_NULL;] *)
Definition with_setting_handler (slotId : Z) (k : Op CellularCallHandler Z)
    : Op CellularCallHandler Z :=
  let! handler := ask (λ h, GetHandler h slotId) in
  if negb handler then mret TELEPHONY_ERR_LOCAL_PTR_NULL else k.

(** An index, the request, and the command when the request was taken. *)
Definition setting_request (utCommand : SsRequestCommand)
    (rq : Z → Op CellularCallHandler Z) : Op CellularCallHandler Z :=
  let! index := RequestSsRequestCommandIndex in
  let! result := rq index in
  (if bool_decide (result = TELEPHONY_SUCCESS) then SaveSsRequestCommand (Some utCommand) index
   else mret ()) ;;
  mret result.

(** The CS channel of a setting is for GSM only. *)
Definition if_gsm (slotId : Z) (k : Op CellularCallHandler Z) : Op CellularCallHandler Z :=
  let! gsm := ask (λ h, PhoneTypeGsmOrNot h slotId) in
  if negb gsm then mret CALL_ERR_UNSUPPORTED_NETWORK_TYPE else k.

Definition SetCallTransferInfoByIms (slotId : Z) (cfInfo : CallTransferInfo)
    (command : SsRequestCommand) : Op CellularCallHandler Z :=
  with_setting_handler slotId (setting_request command
    (λ index, SupplementRequestIms.SetCallTransferRequest slotId cfInfo VOICE index)).

Definition SetCallTransferInfo (slotId : Z) (cfInfo : CallTransferInfo)
    : Op CellularCallHandler Z :=
  let result := CheckSetCallTransferInfo cfInfo in
  if bool_decide (result ≠ TELEPHONY_SUCCESS) then mret result
  else with_setting_handler slotId (
    let dialString := ct_transferNum cfInfo in
    let utCommand :=
      ss_set_classType VOICE
        (ss_set_forward (ct_settingType cfInfo) (ct_type cfInfo) dialString setting_command) in
    ims_or_cs slotId (SetCallTransferInfoByIms slotId cfInfo utCommand)
      (if_gsm slotId (
         let callTransferParam :=
           {| tp_mode := ct_settingType cfInfo; tp_reason := ct_type cfInfo;
              tp_number := dialString; tp_classx := VOICE |} in
         setting_request utCommand
           (SupplementRequestCs.SetCallTransferRequest slotId callTransferParam)))).

(** The answer and the reference [result]. *)
Definition CanSetCallTransferTime (slotId : Z) (result : bool)
    : Op CellularCallHandler (Z * bool) :=
  let! need := ask NeedCallImsService in
  if negb need then mret (CALL_ERR_RESOURCE_UNAVAILABLE, result)
  else SupplementRequestIms.CanSetCallTransferTime slotId result.

Definition GetCallTransferInfo (slotId type : Z) (isIncludeCallForwardingNumber : bool)
    : Op CellularCallHandler Z :=
  with_setting_handler slotId (
    let utCommand := ss_set_include isIncludeCallForwardingNumber
                       (ss_set_forward 0 type "" setting_command) in
    ims_or_cs slotId
      (setting_request utCommand (SupplementRequestIms.GetCallTransferRequest slotId type))
      (if_gsm slotId (setting_request utCommand
         (SupplementRequestCs.GetCallTransferRequest slotId type)))).

Definition SetCallWaiting (slotId : Z) (activate : bool) : Op CellularCallHandler Z :=
  with_setting_handler slotId (
    let! classType := ask (λ h, GetCallWaitingServiceClassConfig h slotId) in
    let utCommand := ss_set_action (if activate then 1 else 0) (ss_set_enable activate
                       (ss_set_classType classType setting_command)) in
    ims_or_cs slotId
      (setting_request utCommand
         (SupplementRequestIms.SetCallWaitingRequest slotId activate classType))
      (if_gsm slotId (setting_request utCommand
         (SupplementRequestCs.SetCallWaitingRequest slotId activate classType)))).

Definition GetCallWaiting (slotId : Z) : Op CellularCallHandler Z :=
  with_setting_handler slotId (
    ims_or_cs slotId
      (setting_request setting_command (SupplementRequestIms.GetCallWaitingRequest slotId))
      (if_gsm slotId (setting_request setting_command
         (SupplementRequestCs.GetCallWaitingRequest slotId)))).

Definition SetCallRestrictionByIms (slotId : Z) (fac : string) (mode : Z) (pw : string)
    (command : SsRequestCommand) : Op CellularCallHandler Z :=
  with_setting_handler slotId (setting_request command
    (SupplementRequestIms.SetCallRestrictionRequest slotId fac mode pw)).

Definition SetCallRestriction (slotId : Z) (cRInfo : CallRestrictionInfo)
    : Op CellularCallHandler Z :=
  match CheckCallRestrictionType (cri_fac cRInfo) with
  | inr result => mret result
  | inl fac =>
      let mode := cri_mode cRInfo in
      if (mode <? RESTRICTION_MODE_DEACTIVATION) || (RESTRICTION_MODE_ACTIVATION <? mode) then
        mret CALL_ERR_PARAMETER_OUT_OF_RANGE
      else with_setting_handler slotId (
        let info := cri_password cRInfo in
        match copy_password info with
        | None => mret TELEPHONY_ERR_STRCPY_FAIL
        | Some password =>
            let utCommand := ss_set_action mode (ss_set_enable (negb (mode =? 0))
                               (ss_set_barring fac password setting_command)) in
            ims_or_cs slotId (SetCallRestrictionByIms slotId fac mode info utCommand)
              (if_gsm slotId (setting_request utCommand
                 (SupplementRequestCs.SetCallRestrictionRequest slotId fac mode info)))
        end)
  end.

Definition GetCallRestriction (slotId facType : Z) : Op CellularCallHandler Z :=
  match CheckCallRestrictionType facType with
  | inr result => mret result
  | inl fac =>
      with_setting_handler slotId (
        let utCommand := ss_set_barring fac "" setting_command in
        ims_or_cs slotId
          (setting_request utCommand
             (SupplementRequestIms.GetCallRestrictionRequest slotId fac))
          (if_gsm slotId (setting_request utCommand
             (SupplementRequestCs.GetCallRestrictionRequest slotId fac))))
  end.

Definition SetBarringPassword (slotId facType : Z) (oldPassword newPassword : string)
    : Op CellularCallHandler Z :=
  match CheckCallRestrictionType facType with
  | inr result => mret result
  | inl fac =>
      with_setting_handler slotId (
        let utCommand := ss_set_barring fac "" setting_command in
        if_gsm slotId (setting_request utCommand (λ index,
          SupplementRequestCs.SetBarringPasswordRequest slotId fac index oldPassword newPassword)))
  end.

Definition CloseUnFinishedUssd {S} (slotId : Z) : Op S Z :=
  let! gsm := ask (λ h, PhoneTypeGsmOrNot h slotId) in
  if negb gsm then mret CALL_ERR_UNSUPPORTED_NETWORK_TYPE
  else CloseUnFinishedUssdRequest slotId.
End Settings.
