(* ===== verification/MmiCodeMessage.v ===== *)
(** * MmiCodeMessage: the texts of the results of the supplementary services
    (services/common/src/mmi_code_message.cpp)

    A text is made from the bits of a service class, which a mask runs over, and is
    written into a buffer of a fixed size first where it has fields. *)

From stdpp Require Import base tactics option list numbers strings pretty.
From Stdlib Require Import ZArith Lia Ascii String.
From S2P Require Import Prelude SsTypes ConfigTypes Platform Standardize Supplement.

Open Scope Z_scope.

Definition CLIR_OUTGOING_DEFAULT : Z := 0.
Definition CLIR_OUTGOING_INVOCATION : Z := 1.
Definition CLIR_OUTGOING_SUPPRESSION : Z := 2.
Definition CLIR_STATUS_NOT_PROVISIONED : Z := 0.
Definition CLIR_STATUS_PROVISIONED_PERMANENT : Z := 1.
Definition CLIR_STATUS_TEMPORARILY_RESTRICTED : Z := 3.
Definition CLIR_STATUS_TEMPORARILY_ALLOWED : Z := 4.
Definition SS_DISABLED : Z := 0.
Definition SS_ENABLED : Z := 1.
Definition MAX_MESSAGE_NUMBER : Z := 500.
Definition TRANSFER_REASON_TYPE_NO_REPLY : Z := 2.
Definition SERVICE_ENABLE : string := "Service was enabled".
Definition SERVICE_ENABLE_FOR : string := "Service was enabled for:".
Definition SERVICE_DISABLE : string := "Service has been disabled".
Definition SERVICE_NOT_PROVISIONED : string := "Service not provisioned".
Definition CLIR_PERMANENT : string := "You can not change the caller ID setting".
Definition CLIR_DEFAULT_ON_NEXT_ON : string := "Caller ID defaults to restricted. Next call: Restricted".
Definition CLIR_DEFAULT_ON_NEXT_OFF : string := "Caller ID defaults to restricted. Next call: Not restricted".
Definition CLIR_DEFAULT_OFF_NEXT_OFF : string :=
  "Caller ID defaults to not restricted. Next call: Not restricted".
Definition CLIR_DEFAULT_OFF_NEXT_ON : string := "Caller ID defaults to not restricted. Next call: Restricted".
Definition line_feed : string := String (Ascii.ascii_of_nat 10) "".

Definition GetServiceClassName (classex : Z) : string :=
  if classex =? VOICE then "Voice"
  else if classex =? FAX then "Fax"
  else if classex =? SHORT_MESSAGE_SERVICE then "Message"
  else if classex =? DATA_CIRCUIT_SYNC then "Sync"
  else if classex =? DATA_CIRCUIT_ASYNC then "Async"
  else if classex =? DEDICATED_PACKET_ACCESS then "Package"
  else if classex =? DEDICATED_PAD_ACCESS then "Pad"
  else "Unknow".

(** [for (uint32_t classMask = 1; classMask <= DEDICATED_PAD_ACCESS; classMask <<= 1)]
    around [if (classex > 0 && (classex & classMask) != 0)]; [None]: more turns than
    the fuel has. *)
Fixpoint each_class (fuel : nat) (classMask classex : Z) (body : string → Z → string) (resultMessage : string)
    : option string :=
  match fuel with
  | O => None
  | S fuel =>
      if negb (classMask <=? DEDICATED_PAD_ACCESS) then Some resultMessage
      else
        let both := Z.land (classex mod 2 ^ 32) classMask in
        each_class fuel (Z.shiftl classMask 1 mod 2 ^ 32) classex body
          (if (0 <? classex) && negb (both =? 0) then body resultMessage both else resultMessage)
  end.
Definition class_fuel : nat := 9.

Definition CreateServiceClassMessage (resultMessage : string) (classex : Z) : option string :=
  each_class class_fuel 1 classex (λ m both, m +:+ line_feed +:+ GetServiceClassName both) resultMessage.

(** [sprintf_s(tempMessage, sizeof(tempMessage), ...)]: [None] is -1. *)
Definition sprintf_s (text : string) : option string :=
  if Z.of_nat (String.length text) <? MAX_MESSAGE_NUMBER then Some text else None.
Definition appended (resultMessage : string) (temp : option string) : string :=
  match temp with Some text => resultMessage +:+ text | None => resultMessage end.
Definition MakeCallTransferMessageEx (resultMessage : string) (response : CallTransferResponse) (classex : Z) : string :=
  let needTime := tr_reason response =? TRANSFER_REASON_TYPE_NO_REPLY in
  let className := GetServiceClassName classex in
  if tr_status response =? SS_ENABLED then
    if needTime then
      appended resultMessage
        (sprintf_s (className +:+ ": " +:+ tr_number response +:+ " after " +:+ pretty (tr_time response) +:+ " seconds"))
    else appended resultMessage (sprintf_s (className +:+ ": " +:+ tr_number response))
  else appended resultMessage (sprintf_s (className +:+ ": Not forwarded")).

Section Messages.
Context `{CallConsts}.

(** A text is made of a result that is a success. *)
Definition if_success (result : Z) (resultMessage : string) (k : string → option string) : option string :=
  if bool_decide (result = TELEPHONY_SUCCESS) then k (resultMessage +:+ line_feed) else Some resultMessage.
Definition CreateGetCallWaitingResultMessage (resultMessage : string) (response : StatusResponse) : option string :=
  if_success (sr_result response) resultMessage (λ m,
    if sr_status response =? 1 then CreateServiceClassMessage (m +:+ SERVICE_ENABLE_FOR) (sr_classCw response)
    else Some (m +:+ SERVICE_DISABLE)).
Definition CreateSuppSvcQueryResultMessage (resultMessage : string) (result status : Z) : option string :=
  if_success result resultMessage (λ m,
    Some (if status =? SS_ENABLED then m +:+ SERVICE_ENABLE
          else if status =? SS_DISABLED then m +:+ SERVICE_DISABLE else m)).
Definition CreateGetCallTransferResultMessage (resultMessage : string) (response : CallTransferResponse)
    : option string :=
  if_success (tr_result response) resultMessage (λ m,
    each_class class_fuel 1 (tr_classx response) (λ m both, MakeCallTransferMessageEx m response both) m).
Definition CreateGetClirResultMessage (resultMessage : string) (response : IdentityResponse) : option string :=
  if_success (ip_result response) resultMessage (λ m,
    let clirInfoN := ip_action response in
    let clirInfoM := ip_stat response in
    Some (m +:+
      (if clirInfoM =? CLIR_STATUS_NOT_PROVISIONED then SERVICE_NOT_PROVISIONED
       else if clirInfoM =? CLIR_STATUS_PROVISIONED_PERMANENT then CLIR_PERMANENT
       else if clirInfoM =? CLIR_STATUS_TEMPORARILY_RESTRICTED then
         if (clirInfoN =? CLIR_OUTGOING_DEFAULT) || (clirInfoN =? CLIR_OUTGOING_INVOCATION)
         then CLIR_DEFAULT_ON_NEXT_ON
         else if clirInfoN =? CLIR_OUTGOING_SUPPRESSION then CLIR_DEFAULT_ON_NEXT_OFF
         else SERVICE_NOT_PROVISIONED
       else if clirInfoM =? CLIR_STATUS_TEMPORARILY_ALLOWED then
         if (clirInfoN =? CLIR_OUTGOING_SUPPRESSION) || (clirInfoN =? CLIR_OUTGOING_DEFAULT)
         then CLIR_DEFAULT_OFF_NEXT_OFF
         else if clirInfoN =? CLIR_OUTGOING_INVOCATION then CLIR_DEFAULT_OFF_NEXT_ON
         else SERVICE_NOT_PROVISIONED
       else SERVICE_NOT_PROVISIONED))).

(** ** The classes of a text *)

(** The classes of a service class value, lowest bit first. *)
Definition class_bits (classex : Z) : list Z :=
  if 0 <? classex then filter (λ b, Z.testbit classex b) (seqZ 0 8) else [].
Lemma land_bit c b : 0 ≤ b < 32 → Z.land (c mod 2 ^ 32) (2 ^ b) = if Z.testbit c b then 2 ^ b else 0.
Proof.
  intros Hb. apply Z.bits_inj'. intros i Hi. rewrite Z.land_spec.
  destruct (decide (i = b)) as [->|Hne].
  - rewrite Z.pow2_bits_true, andb_true_r, Z.mod_pow2_bits_low by lia.
    destruct (Z.testbit c b); [by rewrite Z.pow2_bits_true by lia|by rewrite Z.bits_0].
  - rewrite Z.pow2_bits_false, andb_false_r by lia.
    destruct (Z.testbit c b); [by rewrite Z.pow2_bits_false by lia|by rewrite Z.bits_0].
Qed.
(** A turn of the loop is a turn for the bit. *)
Lemma each_class_turn fuel b classex body m : 0 ≤ b < 8 →
  each_class (S fuel) (2 ^ b) classex body m =
    each_class fuel (2 ^ (b + 1)) classex body
      (if (0 <? classex) && Z.testbit classex b then body m (2 ^ b) else m).
Proof.
  intros Hb. cbn [each_class]. unfold DEDICATED_PAD_ACCESS.
  assert (2 ^ b ≤ 2 ^ 7) as Hle by (apply Z.pow_le_mono_r; lia).
  replace (2 ^ b <=? 128) with true by (symmetry; apply Z.leb_le; exact Hle). cbn [negb].
  rewrite land_bit by lia. rewrite Z.shiftl_mul_pow2, <-Z.pow_add_r by lia.
  rewrite (Z.mod_small (2 ^ (b + 1))) by (split; [lia|]; apply Z.pow_lt_mono_r; lia).
  assert (0 < 2 ^ b) by lia. f_equal. destruct (Z.testbit classex b).
  - replace (2 ^ b =? 0) with false by (symmetry; apply Z.eqb_neq; lia). done.
  - by destruct (0 <? classex).
Qed.
Lemma each_class_bits classex body m :
  each_class class_fuel 1 classex body m = Some (foldl (λ m b, body m (2 ^ b)) m (class_bits classex)).
Proof.
  assert (∀ k b m, (k ≤ 8)%nat → b = 8 - Z.of_nat k →
    each_class (S k) (2 ^ b) classex body m =
      Some (foldl (λ m b, body m (2 ^ b)) m
        (if 0 <? classex then filter (λ b, Z.testbit classex b) (seqZ b (Z.of_nat k)) else []))) as Hloop.
  { induction k as [|k IH]; intros b m' Hk ->; [by destruct (0 <? classex)|].
    rewrite each_class_turn by lia. rewrite (IH (8 - Z.of_nat (S k) + 1)) by lia. f_equal.
    destruct (0 <? classex); cbn [andb]; [|done].
    rewrite (seqZ_cons (8 - Z.of_nat (S k))) by lia. rewrite filter_cons.
    replace (Z.succ (8 - Z.of_nat (S k))) with (8 - Z.of_nat (S k) + 1) by lia.
    replace (Z.pred (Z.of_nat (S k))) with (Z.of_nat k) by lia.
    by destruct (Z.testbit classex (8 - Z.of_nat (S k))). }
  apply (Hloop 8%nat 0 m); lia.
Qed.

(** A decimal numeral of an [int32_t]. *)
Lemma pretty_N_length k x s : (x < 10 ^ N.of_nat k)%N → (String.length (pretty_N_go x s) ≤ k + String.length s)%nat.
Proof.
  revert x s. induction k as [|k IH]; intros x s Hx.
  { assert (x = 0)%N as -> by (cbn in Hx; lia). by rewrite pretty_N_go_0. }
  destruct (decide (x = 0)%N) as [->|Hne]; [rewrite pretty_N_go_0; lia|].
  rewrite pretty_N_go_step by lia. etrans; [apply IH|cbn; lia].
  apply N.Div0.div_lt_upper_bound. rewrite Nat2N.inj_succ, N.pow_succ_r' in Hx. lia.
Qed.
Lemma pretty_int32_length z : - 2 ^ 31 ≤ z < 2 ^ 31 → (String.length (pretty z) ≤ 11)%nat.
Proof.
  assert (∀ p, (N.pos p < 10000000000)%N → (String.length (pretty (N.pos p)) ≤ 10)%nat) as Hp.
  { intros p Hlt. unfold pretty, pretty_N. rewrite decide_False by done.
    etrans; [by apply (pretty_N_length 10)|]. done. }
  intros Hz. destruct z as [|p|p]; [cbn; lia|..]; unfold pretty, pretty_Z.
  - etrans; [apply Hp; lia|lia].
  - rewrite string_app_length. change (pretty p) with (pretty (N.pos p)). pose proof (Hp p ltac:(lia)). cbn; lia.
Qed.
Lemma class_name_length c : (String.length (GetServiceClassName c) ≤ 7)%nat.
Proof. unfold GetServiceClassName. repeat case_match; cbn; lia. Qed.
Lemma sprintf_fits text : (String.length text < 500)%nat → sprintf_s text = Some text.
Proof. intros Hl. unfold sprintf_s, MAX_MESSAGE_NUMBER. by rewrite (proj2 (Z.ltb_lt _ _)) by lia. Qed.

(** The texts about a service class end, and name the classes of the value and no
    other, lowest bit first: the result of a query of call waiting one line for each,
    the result of a query of call forwarding one entry for each; a value that is not
    positive names none.  No text is cut: what is written into the buffer of 500
    characters fits whatever a result of the network can hold. *)
Theorem class_messages m (waiting : StatusResponse) (response : CallTransferResponse) :
  sr_result waiting = TELEPHONY_SUCCESS → sr_status waiting = 1 → tr_result response = TELEPHONY_SUCCESS →
  (String.length (tr_number response) ≤ 100)%nat → - 2 ^ 31 ≤ tr_time response < 2 ^ 31 →
  CreateGetCallWaitingResultMessage m waiting =
    Some (foldl (λ m b, m +:+ line_feed +:+ GetServiceClassName (2 ^ b)) (m +:+ line_feed +:+ SERVICE_ENABLE_FOR)
      (class_bits (sr_classCw waiting))) ∧
  CreateGetCallTransferResultMessage m response =
    Some (foldl (λ m b, m +:+ GetServiceClassName (2 ^ b) +:+
      (if tr_status response =? SS_ENABLED then
         ": " +:+ tr_number response +:+
         (if tr_reason response =? TRANSFER_REASON_TYPE_NO_REPLY then " after " +:+ pretty (tr_time response) +:+ " seconds"
          else "")
       else ": Not forwarded")) (m +:+ line_feed) (class_bits (tr_classx response))).
Proof.
  intros Hw Hs Ht Hn Htime. unfold CreateGetCallWaitingResultMessage, CreateGetCallTransferResultMessage, if_success.
  rewrite !bool_decide_true by done. rewrite Hs. cbn [Z.eqb Pos.eqb]. unfold CreateServiceClassMessage.
  rewrite !each_class_bits, string_app_assoc. split; [done|]. f_equal.
  generalize (m +:+ line_feed). induction (class_bits (tr_classx response)) as [|b l IH]; intros m'; [done|]. cbn [foldl].
  rewrite IH. f_equal. unfold MakeCallTransferMessageEx.
  pose proof (class_name_length (2 ^ b)) as Hc. pose proof (pretty_int32_length _ Htime) as Hp.
  destruct (tr_status response =? SS_ENABLED), (tr_reason response =? TRANSFER_REASON_TYPE_NO_REPLY);
    rewrite sprintf_fits by (rewrite !string_app_length; cbn [String.length]; lia); cbn [appended]; try done.
  by rewrite string_app_nil_r.
Qed.
End Messages.
