(* ===== verification/SupplementCodes.v ===== *)
(** * SupplementCodes: the codes of a supplementary service command

    The switches of [CellularCallSupplement] go by the hash of a code; no two
    codes of the MMI grammar collide on an entry.  A basic service code is read
    with [atoi] and stands for a set of service classes. *)

From stdpp Require Import base tactics option list numbers strings gmap pretty.
From Stdlib Require Import ZArith Lia Ascii String.
From S2P Require Import Prelude SsTypes Platform Standardize MmiCode.
From S2P Require Import SupplementRequestCs Supplement.

Open Scope Z_scope.

(** ** Switches *)

(** [switch] by name. *)
Fixpoint name_switch {A} (code : string) (cases : list (string * A)) (dflt : A) : A :=
  match cases with
  | [] => dflt
  | (p, a) :: cases' => if bool_decide (code = p) then a else name_switch code cases' dflt
  end.
Definition no_collision (keys codes : list string) : bool :=
  forallb (λ code,
    string_all is_ascii7 code &&
    forallb (λ p, Bool.eqb (ascii_hash code cellular_call_b =? ascii_hash p cellular_call_b)
                           (bool_decide (code = p))) keys) codes.
Lemma hash_switch_by_name `{Env} {A} codes code (cases : list (string * A)) dflt :
  forallb (string_all is_ascii7) cases.*1 = true → no_collision cases.*1 codes = true →
  code ∈ codes → hash_switch (Hash_ code) cases dflt = name_switch code cases dflt.
Proof.
  unfold no_collision. rewrite !forallb_forall. intros Hc Hn Hin%list_elem_of_In.
  apply Hn in Hin as [Ha Hk]%andb_prop. rewrite forallb_forall in Hk.
  rewrite Hash_ascii by done. clear Hn.
  induction cases as [|[p a] cases IH]; simpl; [done|].
  rewrite HashCompileTime_ascii by (apply Hc; by left).
  rewrite (Bool.eqb_prop _ _ (Hk p (or_introl eq_refl))). case_bool_decide; [done|].
  apply IH; intros q Hq; [apply Hc|apply Hk]; by right.
Qed.

Section Tables.
Context `{CallConsts, E : Env, SupplementEnv}.

Definition transfer_actions (phoneNumber : string) : list (string * (Z + Z)) :=
  [("*", inl (if string_empty phoneNumber then CALL_TRANSFER_ENABLE
              else CALL_TRANSFER_REGISTRATION));
   ("#", inl CALL_TRANSFER_DISABLE);
   ("**", inl CALL_TRANSFER_REGISTRATION);
   ("##", inl CALL_TRANSFER_ERASURE)].
Definition causes : list (string * Z) :=
  [("21", TRANSFER_TYPE_UNCONDITIONAL); ("67", TRANSFER_TYPE_BUSY);
   ("61", TRANSFER_TYPE_NO_REPLY); ("62", TRANSFER_TYPE_NOT_REACHABLE);
   ("002", TRANSFER_TYPE_ALL); ("004", TRANSFER_TYPE_CONDITIONAL)].
Definition installations : list (string * string) :=
  [("33", "AO"); ("331", "OI"); ("332", "OX"); ("351", "IR"); ("35", "AI");
   ("330", "AB"); ("333", "AG"); ("353", "AC")].

Lemma transfer_action_by_name action number :
  action ∈ mmi_actions →
  ObtainCallTrasferAction action number =
    name_switch action (transfer_actions number) (inr TELEPHONY_ERR_ARGUMENT_MISMATCH).
Proof. intros Ha. by apply (hash_switch_by_name mmi_actions). Qed.
Lemma cause_by_name code :
  code ∈ service_codes → ObtainCause code = name_switch code causes TELEPHONY_ERROR.
Proof.
  intros Hc. unfold ObtainCause. case_match eqn:He.
  { destruct code; [by vm_compute in Hc|done]. }
  apply (hash_switch_by_name service_codes); [done| |done]. by vm_compute.
Qed.
Lemma installation_by_name code :
  code ∈ service_codes → ObtainBarringInstallation code = name_switch code installations "".
Proof.
  intros Hc. unfold ObtainBarringInstallation. case_match eqn:He.
  { destruct code; [by vm_compute in Hc|done]. }
  apply (hash_switch_by_name service_codes); [done| |done]. by vm_compute.
Qed.

(** *** Numbers *)

Definition starts_digit (s : string) : bool :=
  match s with String c _ => is_digit c | EmptyString => false end.
Lemma pretty_char_digit d :
  (d < 10)%N →
  is_digit (pretty_N_char d) = true ∧ Z.of_nat (nat_of_ascii (pretty_N_char d)) - 48 = Z.of_N d.
Proof.
  intros Hd. assert (d ∈ [0; 1; 2; 3; 4; 5; 6; 7; 8; 9]%N) as Hin by (rewrite !elem_of_cons; lia).
  repeat (apply elem_of_cons in Hin as [->|Hin]); try done. by apply elem_of_nil in Hin.
Qed.
Lemma digits_value_go x s :
  digits_value 0 (pretty_N_go x s) = digits_value (Z.of_N x) s ∧
  ((0 < x)%N ∨ starts_digit s = true → starts_digit (pretty_N_go x s) = true) ∧
  (string_all is_digit s = true → string_all is_digit (pretty_N_go x s) = true).
Proof.
  revert s. induction (N.lt_wf_0 x) as [x _ IH]. intros s.
  destruct (decide (x = 0)%N) as [->|Hx].
  { rewrite pretty_N_go_0. split_and!; [done| |done]. intros [?|?]; [lia|done]. }
  rewrite pretty_N_go_step by lia.
  destruct (pretty_char_digit (x mod 10)) as [Hdig Hval]; [apply N.mod_lt; lia|].
  destruct (IH (x `div` 10)%N ltac:(apply N.div_lt; lia) (String (pretty_N_char (x mod 10)) s))
    as (Hv & Hs & Ha).
  split_and!; [|intros _; by apply Hs; right|].
  - rewrite Hv. simpl. rewrite Hdig, Hval. f_equal. pose proof (N.div_mod x 10). lia.
  - intros Hall. apply Ha. simpl. by rewrite Hdig.
Qed.
Lemma atoi_pretty n : 0 ≤ n < 2 ^ 31 → atoi (pretty n) = n.
Proof.
  intros Hn. assert (signed_value (pretty n) = n) as Hv.
  { destruct n as [|p|p]; [done| |lia]. change (pretty (Z.pos p)) with (pretty_N_go (N.pos p) "").
    destruct (digits_value_go (N.pos p) "") as (Hv & Hs & _).
    specialize (Hs ltac:(left; lia)). destruct (pretty_N_go (N.pos p) "") as [|c s]; [done|].
    simpl in Hs. unfold signed_value. simpl.
    assert (is_space c = false ∧ char_eq c "-" = false ∧ char_eq c "+" = false) as (-> & -> & ->).
    { clear Hv. by destruct c as [[][][][][][][][]]. }
    exact Hv. }
  unfold atoi. rewrite Hv. destruct (Z.leb_spec (- 2 ^ 31) n), (Z.ltb_spec n (2 ^ 31)); simpl; lia.
Qed.

(** The classes a basic service code stands for (the table at [CFServiceCode] in
    services/common/include/cellular_call_data_struct.h); any other is no class. *)
Definition class_table : list (Z * list Z) :=
  [(10, [SHORT_MESSAGE_SERVICE; FAX; VOICE]); (11, [VOICE]); (12, [SHORT_MESSAGE_SERVICE; FAX]);
   (13, [FAX]); (16, [SHORT_MESSAGE_SERVICE]); (19, [FAX; VOICE]);
   (20, [DATA_CIRCUIT_ASYNC; DATA_CIRCUIT_SYNC]); (21, [DEDICATED_PAD_ACCESS; DATA_CIRCUIT_ASYNC]);
   (22, [DEDICATED_PACKET_ACCESS; DATA_CIRCUIT_SYNC]); (24, [DATA_CIRCUIT_SYNC]);
   (25, [DATA_CIRCUIT_ASYNC]); (99, [DEDICATED_PACKET_ACCESS])].
Definition classes_of (code : Z) : list Z :=
  match list_find (λ e, e.1 = code) class_table with Some (_, e) => e.2 | None => [] end.

Lemma c_str_digits s : string_all is_digit s = true → c_str s = s.
Proof.
  induction s as [|c s IH]; simpl; [done|]. intros [Hc Hs]%andb_prop.
  case_bool_decide; [by subst|]. by rewrite IH.
Qed.
Lemma pretty_digits n : 0 ≤ n → string_all is_digit (pretty n) = true ∧ pretty n ≠ "".
Proof.
  intros Hn. destruct n as [|p|p]; [done| |lia]. change (pretty (Z.pos p)) with (pretty_N_go (N.pos p) "").
  destruct (digits_value_go (N.pos p) "") as (_ & Hs & Ha). split; [by apply Ha|].
  specialize (Hs ltac:(left; lia)). by destruct (pretty_N_go _ _).
Qed.
Lemma service_class_bits n bit :
  0 ≤ n < 2 ^ 31 → 0 ≤ bit →
  Z.testbit (ObtainServiceCode (pretty n)) bit = bool_decide (2 ^ bit ∈ classes_of n).
Proof.
  intros Hn Hb. destruct (pretty_digits n) as [Hd Hne]; [lia|].
  unfold ObtainServiceCode. apply string_empty_false in Hne as ->.
  rewrite c_str_digits, atoi_pretty by done.
  assert (∀ v cs, 0 ≤ v < 256 → Forall (λ c, c < 256) cs →
    forallb (λ b, Bool.eqb (Z.testbit v b) (bool_decide (2 ^ b ∈ cs))) [0;1;2;3;4;5;6;7] = true →
    Z.testbit v bit = bool_decide (2 ^ bit ∈ cs)) as Hbits.
  { intros v cs Hv Hcs Hall. destruct (Z.lt_ge_cases bit 8) as [Hlt|Hge].
    - rewrite forallb_forall in Hall. apply Bool.eqb_prop, Hall, list_elem_of_In.
      rewrite !elem_of_cons. lia.
    - rewrite bool_decide_false.
      + rewrite Z.bits_above_log2; [done|lia|]. destruct (decide (v = 0)) as [->|]; [simpl; lia|].
        apply Z.log2_lt_pow2; [lia|]. apply Z.lt_le_trans with (2 ^ 8); [lia|].
        by apply Z.pow_le_mono_r.
      + intros Hin. rewrite Forall_forall in Hcs. apply Hcs in Hin.
        pose proof (Z.pow_le_mono_r 2 8 bit). lia. }
  repeat match goal with
  | |- context [n =? ?k] =>
      destruct (Z.eqb_spec n k) as [->|?];
      [apply Hbits; [by vm_compute|by repeat constructor|by vm_compute]|]
  end.
  assert (classes_of n = []) as ->; [|by rewrite bool_decide_false, Z.testbit_0_l by set_solver].
  unfold classes_of. replace (list_find _ class_table) with (@None (nat * (Z * list Z))); [done|].
  symmetry. apply list_find_None. by repeat constructor.
Qed.

(** The codes of a dialled command mean what 3GPP TS 22.030 says.  For every
    action and every service code the grammar can produce, the switches by hash
    choose by name: the forwarding action, the forwarding cause, the barring
    facility; nothing collides.  A basic service code, written in decimal, stands
    for exactly the teleservices and bearer services of the table in the header,
    one bit per class. *)
Theorem mmi_code_tables action number code n bit :
  action ∈ mmi_actions → code ∈ service_codes → 0 ≤ n < 2 ^ 31 → 0 ≤ bit →
  ObtainCallTrasferAction action number =
    name_switch action (transfer_actions number) (inr TELEPHONY_ERR_ARGUMENT_MISMATCH) ∧
  ObtainCause code = name_switch code causes TELEPHONY_ERROR ∧
  ObtainBarringInstallation code = name_switch code installations "" ∧
  Z.testbit (ObtainServiceCode (pretty n)) bit = bool_decide (2 ^ bit ∈ classes_of n).
Proof.
  intros Ha Hc Hn Hb. split_and!;
    [by apply transfer_action_by_name|by apply cause_by_name|by apply installation_by_name|].
  by apply service_class_bits.
Qed.
End Tables.
