(* ===== verification/SupplementHandler.v ===== *)
(** * SupplementHandler: the supplementary services in the handler and the service

    - the answers of the network ([Get...Response], [Set...Response] of
      services/manager/src/cellular_call_handler.cpp): each finds the command it
      belongs to and has it reported;
    - the codes a handler executes: [CellularCallSupplement] is the
      [SupplementOps] of [MMICodeUtils];
    - the operations of the settings in
      services/manager/src/cellular_call_service.cpp. *)

From stdpp Require Import base tactics option list numbers strings gmap.
From Stdlib Require Import ZArith Lia Ascii String.
From S2P Require Import Prelude SsTypes Platform Standardize MmiCode ControlBase Service Handler.
From S2P Require Import SupplementRequestCs SupplementRequestIms Supplement.

Open Scope Z_scope.

(** The handler's own methods. *)
Definition on_this {A} (m : Op CellularCallHandler A) : Op HandlerState A :=
  λ s h, let '(a, t, e) := m (this s) h in (a, upd_this (λ _, t) s, e).

Section Execute.
Context `{CallConsts, E : Env, SupplementEnv}.

#[export] Instance HandlerSupplement : SupplementOps HandlerState := {
  supplement_handle := λ f slotId mmiData, on_this (run_mmi_handler f slotId mmiData);
  MmiCode.SendUssd := λ slotId msg, Supplement.SendUssd slotId msg ;; mret ()
}.
End Execute.

(** ** Answers *)

Section Responses.
Context `{CallConsts, E : Env, ServiceEnv, HandlerEnv, SupplementEnv}.

(** [if (result == nullptr) return;] *)
Definition with_result {A} (result : option A) (k : A → Op HandlerState ()) : Op HandlerState () :=
  match result with None => mret () | Some r => k r end.

(** The flag and the action of the command the answer is for; [k] runs when
    there is such a command, which is then removed. *)
Definition confirmed (index action : Z) (k : Z → Z → Op HandlerState ()) : Op HandlerState () :=
  let! r := on_this (ConfirmAndRemoveSsRequestCommand index SS_FROM_MMI_CODE action) in
  let '(ret, flag, action) := r in
  if bool_decide (ret ≠ TELEPHONY_SUCCESS) then mret () else k flag action.

(** [if (result->result != TELEPHONY_SUCCESS) result->result = TELEPHONY_ERR_RIL_CMD_FAIL;] *)
Definition cmd_fail (result : Z) : Z :=
  if bool_decide (result ≠ TELEPHONY_SUCCESS) then TELEPHONY_ERR_RIL_CMD_FAIL else result.

(** An answer that carries data, and one that carries a result only; the
    confirmation of the first has no action. *)
Definition get_response {A} (base : A → SsBaseResult)
    (event : A → string → Z → Op HandlerState ()) (result : option A) : Op HandlerState () :=
  with_result result (λ r,
    confirmed (sb_index (base r)) 0 (λ flag _, event r (sb_message (base r)) flag)).
Definition set_response (event : Z → string → Z → Z → Op HandlerState ())
    (fail : Z → Z) (result : option SsBaseResult) : Op HandlerState () :=
  with_result result (λ r,
    confirmed (sb_index r) INVALID_INDEX (λ flag action,
      event (fail (sb_result r)) (sb_message r) flag action)).

Definition GetCallWaitingResponse : option CallWaitResult → Op HandlerState () :=
  get_response cw_result EventGetCallWaiting.
Definition SetCallWaitingResponse : option SsBaseResult → Op HandlerState () :=
  set_response EventSetCallWaiting cmd_fail.
Definition GetClirResponse : option IdentityResult → Op HandlerState () :=
  get_response id_result EventGetClir.
Definition SetClirResponse : option SsBaseResult → Op HandlerState () :=
  set_response EventSetClir (λ r, r).
Definition GetClipResponse : option IdentityResult → Op HandlerState () :=
  get_response id_result EventGetClip.
Definition SetClipResponse : option SsBaseResult → Op HandlerState () :=
  set_response EventSetClip (λ r, r).
Definition GetColrResponse : option IdentityResult → Op HandlerState () :=
  get_response id_result EventGetColr.
Definition SetColrResponse : option SsBaseResult → Op HandlerState () :=
  set_response EventSetColr (λ r, r).
Definition GetColpResponse : option IdentityResult → Op HandlerState () :=
  get_response id_result EventGetColp.
Definition SetColpResponse : option SsBaseResult → Op HandlerState () :=
  set_response EventSetColp (λ r, r).
Definition GetCallRestrictionResponse : option CallRestrictionResult → Op HandlerState () :=
  get_response rs_result EventGetCallRestriction.
Definition SetCallRestrictionResponse : option SsBaseResult → Op HandlerState () :=
  set_response EventSetCallRestriction cmd_fail.
Definition SetBarringPasswordResponse : option SsBaseResult → Op HandlerState () :=
  set_response (λ result message flag _, EventSetBarringPassword result message flag) cmd_fail.

Definition sb_set_reason (v : Z) (b : SsBaseResult) : SsBaseResult :=
  {| sb_index := sb_index b; sb_result := sb_result b; sb_reason := v; sb_message := sb_message b |}.
(** TRANSFER_TYPE_UNCONDITIONAL or TRANSFER_TYPE_ALL *)
Definition is_unconditional (reason : Z) : bool :=
  (reason =? TRANSFER_TYPE_UNCONDITIONAL) || (reason =? TRANSFER_TYPE_ALL).

(** [CellularCallHandler::ReportCallTransferStatus] *)
Definition ReportTransferStatus (slotId : Z) (enabled : bool) : Op HandlerState () :=
  to_register (ReportCallTransferStatus slotId enabled).
Definition HandleCallTransferQueryResult (slotId : Z) (cFQueryList : CallForwardQueryInfoList)
    : Op HandlerState () :=
  if bool_decide (sb_result (cfl_result cFQueryList) ≠ TELEPHONY_SUCCESS) &&
     (cfl_callSize cFQueryList =? 0) then mret ()
  else ReportTransferStatus slotId (existsb (λ call, cq_status call =? 1) (cfl_calls cFQueryList)).

Definition GetCallTransferResponse (cFQueryList : option CallForwardQueryInfoList)
    : Op HandlerState () :=
  with_result cFQueryList (λ l,
    let index := sb_index (cfl_result l) in
    let! found := on_this (GetSsRequestCommand index SsRequestCommand_init) in
    let '(ret, ss) := found in
    let ok := bool_decide (ret = TELEPHONY_SUCCESS) in
    let l := if ok then {| cfl_result := sb_set_reason (ss_cfReason ss) (cfl_result l);
                           cfl_callSize := cfl_callSize l; cfl_flag := cfl_flag l;
                           cfl_calls := cfl_calls l |} else l in
    let isIncludeCallForwardingNumber :=
      if ok then ss_isIncludeCallForwardingNumber ss else true in
    confirmed index 0 (λ flag _,
      let! slotId := my_slot in
      EventGetCallTransferInfo l (sb_message (cfl_result l)) flag isIncludeCallForwardingNumber ;;
      if is_unconditional (sb_reason (cfl_result l)) then HandleCallTransferQueryResult slotId l
      else mret ())).

(** [CellularCallHiSysEvent::GetCallForwardingInfo]: what the last
    [SetCallForwardingInfo] left. *)
Definition maxNumberLen : Z := 100.
Definition forwarding_set (info : Z * bool * string) (e : Effect) : Z * bool * string :=
  match e with
  | SetCallForwardingInfo slotId enable number => (slotId, enable, number)
  | _ => info
  end.
Definition GetCallForwardingInfo (h : list Effect) : Z * bool * string :=
  let '(slotId, enable, number) := foldl forwarding_set (callForwardingSlotId_init, false, "") h in
  (slotId, enable,
   if maxNumberLen <? string_size number then ""%string
   else strcpy_to (string_size number + 1) number).

Definition SetCallTransferInfoResponse (result : option SsBaseResult) : Op HandlerState () :=
  with_result result (λ r,
    let! found := on_this (GetSsRequestCommand (sb_index r) SsRequestCommand_init) in
    let '(getSsRet, ss) := found in
    confirmed (sb_index r) INVALID_INDEX (λ flag action,
      let! callHiSysEvent := ask hisysevent_instance in
      if negb callHiSysEvent then mret ()
      else
        let! info := ask GetCallForwardingInfo in
        let '(slotId, enable, number) := info in
        (if bool_decide (sb_result r = TELEPHONY_SUCCESS) then
           send (CoreSetVoiceCallForwarding slotId enable number) ;;
           if bool_decide (getSsRet = TELEPHONY_SUCCESS) && is_unconditional (ss_cfReason ss)
           then ReportTransferStatus slotId enable else mret ()
         else mret ()) ;;
        EventSetCallTransferInfo (cmd_fail (sb_result r)) (sb_message r) flag action number)).

Definition SendUssdResponse (result : option RadioResponseInfo) : Op HandlerState () :=
  with_result result EventSendUssd.
Definition SsNotifyResponse (result : option SsNoticeInfo) : Op HandlerState () :=
  with_result result EventSsNotify.
Definition SendUnlockPinPukResponse (result : option PinPukResponse) : Op HandlerState () :=
  with_result result EventSetPinPuk.
Definition UssdNotifyResponse (result : option UssdNoticeInfo) : Op HandlerState () :=
  with_result result (λ r, let! slotId := my_slot in EventUssdNotify r slotId).
Definition CloseUnFinishedUssdResponse (result : option RadioResponseInfo) : Op HandlerState () :=
  with_result result EventCloseUnFinishedUssd.

(** An event of the supplementary services, as [InitSupplementFuncMap] and
    [InitActiveReportFuncMap] bind them. *)
Inductive ss_event :=
  | OnGetCallWaiting (r : option CallWaitResult)
  | OnSetCallWaiting (r : option SsBaseResult)
  | OnGetClir (r : option IdentityResult)
  | OnSetClir (r : option SsBaseResult)
  | OnGetClip (r : option IdentityResult)
  | OnSetClip (r : option SsBaseResult)
  | OnGetColr (r : option IdentityResult)
  | OnSetColr (r : option SsBaseResult)
  | OnGetColp (r : option IdentityResult)
  | OnSetColp (r : option SsBaseResult)
  | OnGetCallForward (r : option CallForwardQueryInfoList)
  | OnSetCallForward (r : option SsBaseResult)
  | OnGetCallRestriction (r : option CallRestrictionResult)
  | OnSetCallRestriction (r : option SsBaseResult)
  | OnSetBarringPassword (r : option SsBaseResult)
  | OnSendUssd (r : option RadioResponseInfo)
  | OnSsNotice (r : option SsNoticeInfo)
  | OnUnlockPinPuk (r : option PinPukResponse)
  | OnUssdNotice (r : option UssdNoticeInfo)
  | OnCloseUnFinishedUssd (r : option RadioResponseInfo).
Definition run_ss_event (ev : ss_event) : Op HandlerState () :=
  match ev with
  | OnGetCallWaiting r => GetCallWaitingResponse r
  | OnSetCallWaiting r => SetCallWaitingResponse r
  | OnGetClir r => GetClirResponse r
  | OnSetClir r => SetClirResponse r
  | OnGetClip r => GetClipResponse r
  | OnSetClip r => SetClipResponse r
  | OnGetColr r => GetColrResponse r
  | OnSetColr r => SetColrResponse r
  | OnGetColp r => GetColpResponse r
  | OnSetColp r => SetColpResponse r
  | OnGetCallForward r => GetCallTransferResponse r
  | OnSetCallForward r => SetCallTransferInfoResponse r
  | OnGetCallRestriction r => GetCallRestrictionResponse r
  | OnSetCallRestriction r => SetCallRestrictionResponse r
  | OnSetBarringPassword r => SetBarringPasswordResponse r
  | OnSendUssd r => SendUssdResponse r
  | OnSsNotice r => SsNotifyResponse r
  | OnUnlockPinPuk r => SendUnlockPinPukResponse r
  | OnUssdNotice r => UssdNotifyResponse r
  | OnCloseUnFinishedUssd r => CloseUnFinishedUssdResponse r
  end.
End Responses.

(** ** Operations of the service *)

Section Operations.
Context `{CallConsts, E : Env, ServiceEnv, HandlerEnv, SupplementEnv}.

Definition valid_slot (slotId : Z) (k : Op CellularCallHandler Z) : Op CellularCallHandler Z :=
  if negb (IsValidSlotId slotId) then mret CALL_ERR_INVALID_SLOT_ID else k.

(** [CellularCallService::SetCallTransferInfo] *)
Definition service_SetCallTransferInfo (slotId : Z) (cTInfo : CallTransferInfo)
    : Op CellularCallHandler Z :=
  valid_slot slotId (
    (if ct_settingType cTInfo =? CALL_TRANSFER_DISABLE then
       send (SetCallForwardingInfo slotId false (ct_transferNum cTInfo))
     else if (ct_settingType cTInfo =? CALL_TRANSFER_ENABLE) ||
             (ct_settingType cTInfo =? CALL_TRANSFER_REGISTRATION) then
       send (SetCallForwardingInfo slotId true (ct_transferNum cTInfo))
     else mret ()) ;;
    SetCallTransferInfo slotId cTInfo).

(** The flag is a reference parameter. *)
Definition service_CanSetCallTransferTime (slotId : Z) (result : bool)
    : Op CellularCallHandler (Z * bool) :=
  if negb (IsValidSlotId slotId) then mret (CALL_ERR_INVALID_SLOT_ID, result)
  else CanSetCallTransferTime slotId result.
Definition service_GetCallTransferInfo (slotId type : Z) (isIncludeCallForwardingNumber : bool)
    : Op CellularCallHandler Z :=
  valid_slot slotId (GetCallTransferInfo slotId type isIncludeCallForwardingNumber).
Definition service_SetCallWaiting (slotId : Z) (activate : bool) : Op CellularCallHandler Z :=
  valid_slot slotId (SetCallWaiting slotId activate).
Definition service_GetCallWaiting (slotId : Z) : Op CellularCallHandler Z :=
  valid_slot slotId (GetCallWaiting slotId).
Definition service_SetCallRestriction (slotId : Z) (crInfo : CallRestrictionInfo)
    : Op CellularCallHandler Z :=
  valid_slot slotId (SetCallRestriction slotId crInfo).
Definition service_GetCallRestriction (slotId facType : Z) : Op CellularCallHandler Z :=
  valid_slot slotId (GetCallRestriction slotId facType).
Definition SetCallRestrictionPassword (slotId facType : Z) (oldPassword newPassword : string)
    : Op CellularCallHandler Z :=
  valid_slot slotId (SetBarringPassword slotId facType oldPassword newPassword).
Definition service_CloseUnFinishedUssd (slotId : Z) : Op CellularCallHandler Z :=
  valid_slot slotId (CloseUnFinishedUssd slotId).
(** [CellularCallService::SendUssdResponse] *)
Definition service_SendUssdResponse (slotId : Z) (content : string) : Op CellularCallHandler Z :=
  valid_slot slotId (Supplement.SendUssd slotId content).

(** The operations on the supplementary services of a slot. *)
Inductive setting_op :=
  | OpSetCallTransferInfo (slotId : Z) (cTInfo : CallTransferInfo)
  | OpCanSetCallTransferTime (slotId : Z) (result : bool)
  | OpGetCallTransferInfo (slotId type : Z) (isIncludeCallForwardingNumber : bool)
  | OpSetCallWaiting (slotId : Z) (activate : bool)
  | OpGetCallWaiting (slotId : Z)
  | OpSetCallRestriction (slotId : Z) (crInfo : CallRestrictionInfo)
  | OpGetCallRestriction (slotId facType : Z)
  | OpSetCallRestrictionPassword (slotId facType : Z) (oldPassword newPassword : string)
  | OpCloseUnFinishedUssd (slotId : Z)
  | OpSendUssdResponse (slotId : Z) (content : string).
Definition setting_slot (op : setting_op) : Z :=
  match op with
  | OpSetCallTransferInfo slotId _ | OpCanSetCallTransferTime slotId _
  | OpGetCallTransferInfo slotId _ _ | OpSetCallWaiting slotId _ | OpGetCallWaiting slotId
  | OpSetCallRestriction slotId _ | OpGetCallRestriction slotId _
  | OpSetCallRestrictionPassword slotId _ _ _ | OpCloseUnFinishedUssd slotId
  | OpSendUssdResponse slotId _ => slotId
  end.
Definition run_setting (op : setting_op) : Op CellularCallHandler Z :=
  match op with
  | OpSetCallTransferInfo slotId cTInfo => service_SetCallTransferInfo slotId cTInfo
  | OpCanSetCallTransferTime slotId result =>
      let! r := service_CanSetCallTransferTime slotId result in mret r.1
  | OpGetCallTransferInfo slotId type b => service_GetCallTransferInfo slotId type b
  | OpSetCallWaiting slotId activate => service_SetCallWaiting slotId activate
  | OpGetCallWaiting slotId => service_GetCallWaiting slotId
  | OpSetCallRestriction slotId crInfo => service_SetCallRestriction slotId crInfo
  | OpGetCallRestriction slotId facType => service_GetCallRestriction slotId facType
  | OpSetCallRestrictionPassword slotId facType oldPassword newPassword =>
      SetCallRestrictionPassword slotId facType oldPassword newPassword
  | OpCloseUnFinishedUssd slotId => service_CloseUnFinishedUssd slotId
  | OpSendUssdResponse slotId content => service_SendUssdResponse slotId content
  end.
End Operations.
