(* ===== verification/SupplementFacts.v ===== *)
(** * SupplementFacts: the store of commands, and what the services keep

    - the store of the commands that wait for an answer: its invariant, the
      index a command gets, saving a command;
    - what every operation of the supplementary services keeps of the handler;
    - one request: taken with its command saved, or refused and reported. *)

From stdpp Require Import base tactics option list numbers strings gmap.
From Stdlib Require Import ZArith Lia Ascii String.
From S2P Require Import Prelude SsTypes Platform Standardize StdMap MmiCode ControlBase Service Handler.
From S2P Require Import SupplementRequestCs SupplementRequestIms Supplement SupplementHandler.

Open Scope Z_scope.

(** ** The store of commands *)

Section Commands.
Context `{CallConsts, E : Env}.
Implicit Types (t : CellularCallHandler) (c : SsRequestCommand).

(** The map is ordered and its keys are indices the handler gives out. *)
Definition commands_ok t : Prop :=
  smap_ok (utCommandMap_ t) ∧ 0 ≤ indexCommand_ t ≤ MAX_REQUEST_COUNT ∧
  ∀ k, k ∈ sm_keys (utCommandMap_ t) → 0 ≤ k ≤ MAX_REQUEST_COUNT.
Definition next_index t : Z :=
  if MAX_REQUEST_COUNT <=? indexCommand_ t then 0 else indexCommand_ t + 1.

(** [RequestSsRequestCommandIndex(index); SaveSsRequestCommand(c, index)] *)
Definition save_command c : Op CellularCallHandler Z :=
  let! index := RequestSsRequestCommandIndex in
  SaveSsRequestCommand (Some c) index ;;
  mret index.
(** [c] as [GetSsRequestCommand] copies it into [ss]. *)
Definition copied c (ss : SsRequestCommand) : SsRequestCommand :=
  {| ss_cfAction := ss_cfAction c; ss_cfReason := ss_cfReason c; ss_number := ss_number c;
     ss_enable := ss_enable c; ss_clirAction := ss_clirAction c; ss_facility := ss_facility c;
     ss_password := ss_password c; ss_classType := ss_classType c; ss_action := ss_action c;
     ss_flag := ss_flag c; ss_isIncludeCallForwardingNumber := ss_isIncludeCallForwardingNumber ss |}.

Lemma save_command_run c t h :
  commands_ok t →
  save_command c t h =
    (next_index t, set_commands (next_index t) (sm_insert (next_index t) c (utCommandMap_ t)) t, []).
Proof.
  intros (_ & Hi & _). unfold save_command, RequestSsRequestCommandIndex, SaveSsRequestCommand,
    next_index, MAX_REQUEST_COUNT in *. mrun.
  destruct (Z.leb_spec 50 (indexCommand_ t)); [done|]. by rewrite i32_id by lia.
Qed.
Lemma next_index_range t : commands_ok t → 0 ≤ next_index t ≤ MAX_REQUEST_COUNT ∧ next_index t ≠ indexCommand_ t.
Proof.
  intros (_ & Hi & _). unfold next_index, MAX_REQUEST_COUNT in *.
  destruct (Z.leb_spec 50 (indexCommand_ t)); lia.
Qed.
Lemma save_command_ok c t h : commands_ok t → wp (save_command c) (λ _ t' _, commands_ok t') t h.
Proof.
  intros Hok. unfold wp. rewrite save_command_run by done. pose proof (next_index_range t Hok) as [Hn _].
  destruct Hok as (Hs & Hi & Hk). split_and!; simpl; try lia; [by apply smap_ok_insert|].
  intros k. rewrite sm_elem_of_keys_insert. intros [->|Hin]; [done|by apply Hk].
Qed.

Lemma request_index_run t h :
  commands_ok t →
  RequestSsRequestCommandIndex t h =
    (next_index t, set_commands (next_index t) (utCommandMap_ t) t, []).
Proof.
  intros (_ & Hi & _). unfold RequestSsRequestCommandIndex, next_index, MAX_REQUEST_COUNT in *. mrun.
  destruct (Z.leb_spec 50 (indexCommand_ t)); [done|]. by rewrite i32_id by lia.
Qed.

(** What the supplementary services keep of the handler of [slotId]. *)
Definition handler_ok (slotId : Z) t : Prop := slotId_ t = slotId ∧ commands_ok t.

Lemma handler_ok_new `{HandlerEnv} slotId b : handler_ok slotId (CellularCallHandler_new slotId b).
Proof.
  split; [done|]. split; [|split].
  - apply smap_ok_nil.
  - unfold MAX_REQUEST_COUNT. simpl. lia.
  - intros k Hk. by apply not_elem_of_nil in Hk.
Qed.
Lemma preserves_RequestIndex slotId : preserves (handler_ok slotId) RequestSsRequestCommandIndex.
Proof.
  intros t h [Hs Hok]. unfold wp. rewrite request_index_run by done.
  split; [done|]. pose proof (next_index_range t Hok) as [Hn _]. destruct Hok as (Hm & Hi & Hk).
  split_and!; simpl; [done|lia|lia|done].
Qed.
Lemma preserves_SaveCommand slotId o index :
  preserves (handler_ok slotId) (SaveSsRequestCommand o index).
Proof.
  intros t h [Hs (Hm & Hi & Hk)]. destruct o as [c|]; [|done].
  unfold wp, SaveSsRequestCommand. mrun. split; [done|]. split_and!; simpl; [by apply smap_ok_insert|lia|lia|].
  intros k. rewrite sm_elem_of_keys_insert. intros [->|Hin]; [lia|by apply Hk].
Qed.
Lemma preserves_Confirm slotId index flag action :
  preserves (handler_ok slotId) (ConfirmAndRemoveSsRequestCommand index flag action).
Proof.
  intros t h Hok. unfold ConfirmAndRemoveSsRequestCommand. case_match; [done|]. wsteps.
  case_match; wsteps; [|done]. destruct Hok as [Hs (Hm & Hi & Hk)].
  split; [done|]. split_and!; simpl; [by apply smap_ok_erase|lia|lia|].
  intros k Hin. apply Hk. revert Hin. by apply sm_keys_erase.
Qed.
Lemma keeps_GetSsRequestCommand index ss : keeps (GetSsRequestCommand index ss).
Proof. unfold GetSsRequestCommand. mauto. Qed.
End Commands.
#[export] Hint Resolve preserves_RequestIndex preserves_SaveCommand preserves_Confirm
  keeps_GetSsRequestCommand : cc.

(** ** What the operations keep *)

Section Kept.
Context `{CallConsts, E : Env, ServiceEnv, HandlerEnv, SupplementEnv}.

Lemma keeps_mmi_failed {S} message : keeps (mmi_failed message : Op S ()).
Proof. unfold mmi_failed, ReportMmiCodeMessage, ReportMmiCodeInfo. mauto. Qed.
Lemma keeps_ReportMmiCodeInfo {S} i : keeps (ReportMmiCodeInfo i : Op S ()).
Proof. unfold ReportMmiCodeInfo. mauto. Qed.
Lemma keeps_ims_ss_request {S} slotId index rq : keeps (ims_ss_request slotId index rq : Op S Z).
Proof. unfold ims_ss_request. mauto. Qed.
Lemma keeps_pin_request {S} op slotId newPin old : keeps (pin_request op slotId newPin old : Op S Z).
Proof. unfold pin_request. mauto. Qed.
Lemma keeps_IsVaildPinOrPuk {S} p q : keeps (IsVaildPinOrPuk p q : Op S bool).
Proof. unfold IsVaildPinOrPuk. mauto; apply keeps_mmi_failed. Qed.
Lemma keeps_SendUssd {S} slotId msg : keeps (Supplement.SendUssd slotId msg : Op S Z).
Proof. unfold Supplement.SendUssd, SendUssdRequest. mauto; apply keeps_ReportMmiCodeInfo. Qed.
End Kept.
#[export] Hint Resolve keeps_mmi_failed keeps_ReportMmiCodeInfo keeps_ims_ss_request
  keeps_pin_request keeps_IsVaildPinOrPuk keeps_SendUssd : cc.

Ltac unfold_requests :=
  unfold SupplementRequestIms.SetClipRequest, SupplementRequestIms.GetClipRequest,
    SupplementRequestIms.SetClirRequest, SupplementRequestIms.GetClirRequest,
    SupplementRequestIms.SetColrRequest, SupplementRequestIms.GetColrRequest,
    SupplementRequestIms.SetColpRequest, SupplementRequestIms.GetColpRequest,
    SupplementRequestIms.SetCallTransferRequest, SupplementRequestIms.GetCallTransferRequest,
    SupplementRequestIms.SetCallRestrictionRequest, SupplementRequestIms.GetCallRestrictionRequest,
    SupplementRequestIms.SetCallWaitingRequest, SupplementRequestIms.GetCallWaitingRequest,
    SupplementRequestIms.CanSetCallTransferTime,
    SupplementRequestCs.GetClipRequest, SupplementRequestCs.SetClirRequest,
    SupplementRequestCs.GetClirRequest, SupplementRequestCs.SetCallTransferRequest,
    SupplementRequestCs.GetCallTransferRequest, SupplementRequestCs.SetCallRestrictionRequest,
    SupplementRequestCs.GetCallRestrictionRequest, SupplementRequestCs.SetCallWaitingRequest,
    SupplementRequestCs.GetCallWaitingRequest, SupplementRequestCs.SetBarringPasswordRequest,
    CloseUnFinishedUssdRequest, ims_or_cs, no_request in *.

Section Preserved.
Context `{CallConsts, E : Env, ServiceEnv, HandlerEnv, SupplementEnv}.

Lemma preserves_mmi_handler slotId f sl data : preserves (handler_ok slotId) (run_mmi_handler f sl data).
Proof.
  destruct f; simpl;
    unfold HandleCallTransfer, HandleGetCallTransfer, HandleSetCallTransfer, HandleCallRestriction,
      HandleClip, HandleClir, HandleColp, HandleColr, HandleCallWaiting,
      AlterPinPassword, UnlockPuk, AlterPin2Password, UnlockPuk2, pin_or_puk,
      SupplementRequestCs.AlterPinPassword, SupplementRequestCs.UnlockPuk,
      SupplementRequestCs.AlterPin2Password, SupplementRequestCs.UnlockPuk2,
      with_action, with_mmi_handler, mmi_finish; unfold_requests; mauto.
Qed.
Lemma preserves_setting slotId op : preserves (handler_ok slotId) (run_setting op).
Proof.
  destruct op; simpl;
    unfold service_SetCallTransferInfo, service_CanSetCallTransferTime, service_GetCallTransferInfo,
      service_SetCallWaiting, service_GetCallWaiting, service_SetCallRestriction,
      service_GetCallRestriction, SetCallRestrictionPassword, service_CloseUnFinishedUssd,
      service_SendUssdResponse, valid_slot, SetCallTransferInfo, SetCallTransferInfoByIms,
      CanSetCallTransferTime, GetCallTransferInfo, SetCallWaiting, GetCallWaiting,
      SetCallRestriction, SetCallRestrictionByIms, GetCallRestriction, SetBarringPassword,
      CloseUnFinishedUssd, with_setting_handler, if_gsm, setting_request; unfold_requests; mauto.
Qed.
End Preserved.
#[export] Hint Resolve preserves_mmi_handler preserves_setting : cc.
