(* ===== verification/SupplementUser.v ===== *)
(** * SupplementUser: what a supplementary service request amounts to

    From a dialled code or a setting to the request, from the answer to the
    report; the PIN codes; call forwarding. *)

From stdpp Require Import base tactics option list numbers strings gmap pretty.
From Stdlib Require Import ZArith Lia Ascii String.
From S2P Require Import Prelude SsTypes Platform Standardize StdMap MmiCode ControlBase Service Handler.
From S2P Require Import SupplementRequestCs SupplementRequestIms Supplement SupplementHandler SupplementFacts SupplementCodes.

Open Scope Z_scope.

(** ** One request *)

Section Request.
Context `{CallConsts, E : Env, ServiceEnv, HandlerEnv, SupplementEnv}.
Implicit Types (t : CellularCallHandler) (h e : list Effect) (c : SsRequestCommand).

(** A supplementary service request of [slotId] whose answer carries [index]. *)
Definition ss_request (slotId index : Z) (x : Effect) : Prop :=
  match x with
  | RilSs s _ i _ => s = slotId ∧ i = index
  | ImsSs s i _ => s = slotId ∧ i = index
  | _ => False
  end.
(** [rq] either sends nothing and fails, or sends one request and returns its result. *)
Definition asks_once {S} (slotId index : Z) (rq : Op S Z) : Prop :=
  ∀ s h, wp rq (λ r s' e, s' = s ∧
    ((e = [] ∧ r ≠ TELEPHONY_SUCCESS) ∨
     ∃ x, e = [x] ∧ ss_request slotId index x ∧ r = reply h x)) s h.

End Request.

(** Solve [asks_once] by running the request: its guards fail with an error code. *)
Ltac asks :=
  intros ? ?; unfold_requests; unfold ims_ss_request;
  repeat (wsteps; case_match); wsteps;
  (split; [done|]); first [ left; split; [done|err_ne] | right; eexists; done ].

Section Outcome.
Context `{CallConsts, !CallConstsOk, E : Env, !SecurecOk, ServiceEnv, HandlerEnv}.
Context `{SupplementEnv, !SupplementEnvOk}.
Implicit Types (t : CellularCallHandler) (h e : list Effect) (c : SsRequestCommand).

(** The dialog's message for a code that was not carried out. *)
Definition mmi_failure (message : string) : Effect :=
  Report (ReportSs (ReportMmiCodeResult (mmi_info MMI_CODE_FAILED message))).
Definition is_record (x : Effect) : Prop := match x with HiSys _ => True | _ => False end.
(** The handler after [c] was saved under the next index. *)
Definition saved t c : CellularCallHandler :=
  set_commands (next_index t) (sm_insert (next_index t) c (utCommandMap_ t)) t.

(** What becomes of the command [c] of an accepted request: it waits, beside
    the commands that waited before, when nothing waits under the next index;
    when an older command still does (the index wraps), the older one stays
    and [c] is lost. *)
Definition kept_or_lost t c t' : Prop :=
  indexCommand_ t' = next_index t ∧
  match sm_lookup (next_index t) (utCommandMap_ t) with
  | None => sm_lookup (next_index t) (utCommandMap_ t') = Some c ∧
            sm_erase (next_index t) (utCommandMap_ t') = utCommandMap_ t
  | Some _ => utCommandMap_ t' = utCommandMap_ t
  end.
Lemma saved_ok t c : commands_ok t → commands_ok (saved t c).
Proof.
  intros Hok. pose proof (save_command_ok c t [] Hok) as Hs. unfold wp in Hs.
  by rewrite save_command_run in Hs by done.
Qed.
Lemma saved_kept_or_lost t c : commands_ok t → kept_or_lost t c (saved t c).
Proof.
  intros (Hm & _). split; [done|]. simpl. destruct (sm_lookup _ _) eqn:Hl.
  - by rewrite sm_insert_present.
  - rewrite sm_lookup_insert_fresh, bool_decide_true by done. split; [done|by apply sm_erase_insert].
Qed.

(** One request was sent and taken, and its command, which satisfies [P], was
    saved under the index the answer will carry. *)
Definition taken (slotId : Z) (P : SsRequestCommand → Prop) t h t' e : Prop :=
  ∃ pre x c, e = pre ++ [x] ∧ Forall is_record pre ∧ ss_request slotId (next_index t) x ∧
    reply (h ++ pre) x = TELEPHONY_SUCCESS ∧ P c ∧ t' = saved t c ∧ kept_or_lost t c t'.
(** At most one request was sent, none was taken, no command waits for it and
    the user is told. *)
Definition refused (slotId : Z) t h t' e : Prop :=
  ∃ pre rq message, e = pre ++ rq ++ [mmi_failure message] ∧ Forall is_record pre ∧
    message ∈ [GENERIC_FAILURE; INVALID_MMI_CODE] ∧
    utCommandMap_ t' = utCommandMap_ t ∧
    (rq = [] ∨ ∃ x, rq = [x] ∧ ss_request slotId (next_index t) x ∧
                    reply (h ++ pre) x ≠ TELEPHONY_SUCCESS).
Definition outcome (slotId : Z) (P : SsRequestCommand → Prop) t h t' e : Prop :=
  taken slotId P t h t' e ∨ refused slotId t h t' e.

Context (Hreg : ∀ h, register_instance h = true).

Lemma mmi_failed_run {S} message (s : S) h :
  c_str message = message → Z.of_nat (String.length message) < 100 →
  mmi_failed message s h = ((), s, [mmi_failure message]).
Proof.
  intros Hc Hl. unfold mmi_failed, ReportMmiCodeMessage, ReportMmiCodeInfo. mrun.
  rewrite Hc, strcpy_s_EOK by (pose proof mmi_message_room; lia). cbn. by rewrite Hreg.
Qed.
Lemma mmi_failed_refused slotId P message t h t' pre :
  message ∈ [GENERIC_FAILURE; INVALID_MMI_CODE] → utCommandMap_ t' = utCommandMap_ t →
  Forall is_record pre →
  wp (mmi_failed message) (λ _ t' e, outcome slotId P t h t' (pre ++ e)) t' (h ++ pre).
Proof.
  intros Hm Ht Hpre. unfold wp.
  assert (message = GENERIC_FAILURE ∨ message = INVALID_MMI_CODE) as [-> | ->] by set_solver.
  all: rewrite mmi_failed_run by (done || (simpl; lia)).
  all: right; eexists pre, [], _; by split_and!; [..|left].
Qed.
Lemma mmi_failed_refused_nil slotId P message t h :
  message ∈ [GENERIC_FAILURE; INVALID_MMI_CODE] →
  wp (mmi_failed message) (λ _ t' e, outcome slotId P t h t' e) t h.
Proof.
  intros Hm. pose proof (mmi_failed_refused slotId P message t h t [] Hm eq_refl) as Hw.
  rewrite app_nil_r in Hw. apply Hw. constructor.
Qed.
Lemma mmi_finish_outcome slotId P (rq : Op CellularCallHandler Z) c t h pre :
  commands_ok t → asks_once slotId (next_index t) rq → P c → Forall is_record pre →
  wp (let! result := rq in mmi_finish result c (next_index t))
    (λ _ t' e, outcome slotId P t h t' (pre ++ e))
    (set_commands (next_index t) (utCommandMap_ t) t) (h ++ pre).
Proof.
  intros Hok Hrq HP Hpre. apply wp_then. eapply wp_mono; [apply Hrq|].
  intros r t' e (-> & Hr). unfold mmi_finish. case_bool_decide as Hs.
  - unfold wp. rewrite mmi_failed_run by (done || (simpl; lia)).
    right. exists pre, e, GENERIC_FAILURE. split_and!; [done|done|by left|done|].
    destruct Hr as [[-> _]|(x & -> & Hx & ->)]; eauto.
  - destruct Hr as [[-> Hn]|(x & -> & Hx & ->)]; [done|].
    unfold wp, SaveSsRequestCommand. mrun. left. exists pre, x, c. rewrite app_nil_r.
    pose proof (saved_kept_or_lost t c Hok). by split_and!.
Qed.

(** A handler bound to a code that needs an answer of the network. *)
Definition is_service (f : MmiHandler) : Prop :=
  f ∈ [MmiCode.HandleCallTransfer; MmiCode.HandleCallRestriction; MmiCode.HandleClip;
       MmiCode.HandleClir; MmiCode.HandleCallWaiting; MmiCode.HandleColp; MmiCode.HandleColr].
(** The action of the command a code saves. *)
Definition command_action (f : MmiHandler) (data : MMIData) : Z :=
  let a := actionString data in
  match f with
  | MmiCode.HandleCallTransfer =>
      if same_action a interrogate then 0
      else match ObtainCallTrasferAction a (serviceInfoA data) with inl v => v | inr _ => 0 end
  | MmiCode.HandleCallWaiting => if same_action a activate then 1 else 0
  | _ => if same_action a activate then ACTIVATE_ACTION
         else if same_action a deactivate then DEACTIVATE_ACTION else 0
  end.
(** The command a code saves, field by field. *)
Definition code_command (f : MmiHandler) (data : MMIData) : SsRequestCommand :=
  let a := actionString data in
  match f with
  | MmiCode.HandleCallTransfer =>
      let cause := ObtainCause (serviceCode data) in
      if same_action a interrogate then ss_set_forward 0 cause "" SsRequestCommand_init
      else ss_set_action (command_action f data)
             (ss_set_forward (command_action f data) cause (serviceInfoA data) SsRequestCommand_init)
  | MmiCode.HandleCallRestriction =>
      let facility := ObtainBarringInstallation (serviceCode data) in
      if same_action a activate || same_action a deactivate then
        ss_set_action (command_action f data)
          (ss_set_enable (same_action a activate)
            (ss_set_barring facility (c_str (serviceInfoA data)) SsRequestCommand_init))
      else ss_set_barring facility "" SsRequestCommand_init
  | MmiCode.HandleCallWaiting =>
      let on := same_action a activate in
      ss_set_action (if on then 1 else 0)
        (ss_set_enable on (ss_set_classType (ObtainServiceCode (serviceInfoA data)) SsRequestCommand_init))
  | _ => ss_set_action (command_action f data) SsRequestCommand_init
  end.
Definition of_code (f : MmiHandler) (data : MMIData) c : Prop := c = code_command f data.
Lemma of_code_fields f data c :
  of_code f data c → ss_flag c = SS_FROM_MMI_CODE ∧ ss_action c = command_action f data.
Proof.
  intros ->. unfold code_command, command_action. by destruct f; repeat (case_match; try done).
Qed.

Lemma wp_with_action_handler slotId P (Q : CellularCallHandler → list Effect → Prop) a k t h :
  (∀ t' e, outcome slotId P t h t' e → Q t' e) →
  wp k (λ _ t' e, Q t' e) t h →
  wp (with_action a (with_mmi_handler slotId k)) (λ _ t' e, Q t' e) t h.
Proof.
  intros HQ Hk.
  assert (∀ message, message ∈ [GENERIC_FAILURE; INVALID_MMI_CODE] →
    wp (mmi_failed message) (λ _ t' e, Q t' e) t h) as Hf.
  { intros m Hm. eapply wp_mono; [by apply (mmi_failed_refused_nil slotId P)|]. intros [] t2 e2. apply HQ. }
  unfold with_action. case_match; [apply Hf; set_solver|].
  unfold with_mmi_handler. wsteps. case_match; [apply Hf; set_solver|done].
Qed.
Lemma wp_with_index (Q : CellularCallHandler → list Effect → Prop)
    (k : Z → Op CellularCallHandler ()) t h :
  commands_ok t →
  wp (k (next_index t)) (λ _ t' e, Q t' e)
    (set_commands (next_index t) (utCommandMap_ t) t) h →
  wp (let! index := RequestSsRequestCommandIndex in k index) (λ _ t' e, Q t' e) t h.
Proof.
  intros Hok Hk. apply wp_then. unfold wp at 1. rewrite request_index_run by done.
  by rewrite app_nil_r.
Qed.
Lemma mmi_finish_outcome_nil slotId P (rq : Op CellularCallHandler Z) c t h :
  commands_ok t → asks_once slotId (next_index t) rq → P c →
  wp (let! result := rq in mmi_finish result c (next_index t))
    (λ _ t' e, outcome slotId P t h t' e) (set_commands (next_index t) (utCommandMap_ t) t) h.
Proof.
  intros Hok Hrq HP. pose proof (mmi_finish_outcome slotId P rq c t h [] Hok Hrq HP) as Hw.
  rewrite app_nil_r in Hw. apply Hw. constructor.
Qed.

(** A barring code whose password the command's buffer does not hold. *)
Definition password_lost (f : MmiHandler) (data : MMIData) : Prop :=
  f = MmiCode.HandleCallRestriction ∧ copy_password (serviceInfoA data) = None ∧
  kMaxNumberLen < strlen (serviceInfoA data).
Lemma password_copied s :
  copy_password s = Some (c_str s) ∨ copy_password s = None ∧ kMaxNumberLen < strlen s.
Proof.
  unfold copy_password. destruct (Z.lt_ge_cases kMaxNumberLen (strlen s)).
  - case_match; auto.
  - left. unfold strlen in *. rewrite strcpy_s_EOK; [done|]. case_match; lia.
Qed.

Lemma set_transfer_outcome slotId code action data t h :
  commands_ok t → actionString data ≠ interrogate →
  ObtainCallTrasferAction (actionString data) (serviceInfoA data) = inl action →
  wp (HandleSetCallTransfer slotId code (ObtainCause (serviceCode data)) (serviceInfoA data) action)
    (λ _ t' e, outcome slotId (of_code MmiCode.HandleCallTransfer data) t h t' e) t h.
Proof.
  intros Hok Ha Hact. unfold HandleSetCallTransfer, with_mmi_handler. wsteps.
  assert (of_code MmiCode.HandleCallTransfer data
    (ss_set_action action (ss_set_forward action (ObtainCause (serviceCode data)) (serviceInfoA data)
       SsRequestCommand_init))) as Hof.
  { unfold of_code, code_command, command_action, same_action. by rewrite bool_decide_false, Hact by done. }
  case_match; [apply mmi_failed_refused_nil; set_solver|].
  apply (wp_then_quiet is_record); [mauto|mauto; done|]. intros [] pre Hpre.
  apply wp_then. unfold wp at 1. rewrite request_index_run by done. cbn iota beta zeta.
  rewrite app_nil_r. wsteps. case_match.
  - case_match; [apply mmi_failed_refused; [set_solver|done|done]|].
    apply mmi_finish_outcome; [done|asks|done|done].
  - apply mmi_finish_outcome; [done|asks|done|done].
Qed.

(** What a code comes to: [outcome], or nothing at all for a barring code
    whose password was lost. *)
Definition code_outcome (f : MmiHandler) (slotId : Z) (data : MMIData) t h t' e : Prop :=
  outcome slotId (of_code f data) t h t' e ∨
  (password_lost f data ∧ e = [] ∧ utCommandMap_ t' = utCommandMap_ t).

Lemma restriction_outcome slotId data t h :
  commands_ok t →
  wp (HandleCallRestriction slotId data)
    (λ _ t' e, code_outcome MmiCode.HandleCallRestriction slotId data t h t' e) t h.
Proof.
  intros Hok.
  assert (interrogate ≠ activate ∧ interrogate ≠ deactivate ∧ deactivate ≠ activate)
    as (Hia & Hid & Hda) by done.
  unfold HandleCallRestriction.
  apply (wp_with_action_handler slotId (of_code MmiCode.HandleCallRestriction data)); [by left|].
  apply wp_with_index; [done|].
  assert (∀ rq c, asks_once slotId (next_index t) rq →
    of_code MmiCode.HandleCallRestriction data c →
    wp (let! result := rq in mmi_finish result c (next_index t))
      (λ _ t' e, code_outcome MmiCode.HandleCallRestriction slotId data t h t' e)
      (set_commands (next_index t) (utCommandMap_ t) t) h) as Hfin.
  { intros rq c Hrq Hc. eapply wp_mono; [by apply (mmi_finish_outcome_nil slotId (of_code MmiCode.HandleCallRestriction data) rq c)|]. by left. }
  destruct (password_copied (serviceInfoA data)) as [Hp|[Hp Hl]]; rewrite Hp;
    unfold of_code, code_command, command_action, same_action in *;
    repeat case_bool_decide; simpl in *; try congruence;
    try (apply Hfin; [asks|done]); by right.
Qed.

Lemma mmi_handler_outcome f slotId data t h :
  is_service f → commands_ok t →
  wp (run_mmi_handler f slotId data) (λ _ t' e, code_outcome f slotId data t h t' e) t h.
Proof.
  intros Hf Hok.
  assert (f = MmiCode.HandleCallRestriction ∨ f ≠ MmiCode.HandleCallRestriction) as [->|Hr]
    by (by destruct f; auto).
  { by apply restriction_outcome. }
  apply (wp_mono _ (λ _ t' e, outcome slotId (of_code f data) t h t' e)); [|by left].
  assert (interrogate ≠ activate ∧ interrogate ≠ deactivate ∧ deactivate ≠ activate)
    as (Hia & Hid & Hda) by done.
  destruct f; try (exfalso; unfold is_service in Hf; set_solver); simpl; try done.
  { unfold HandleCallTransfer, same_action. case_match eqn:Hq.
    - apply andb_prop in Hq as [_ Hq%bool_decide_eq_true]. unfold HandleGetCallTransfer, with_mmi_handler.
      wsteps. case_match; [apply mmi_failed_refused_nil; set_solver|].
      apply wp_with_index; [done|]. apply mmi_finish_outcome_nil; [done|asks|].
      unfold of_code, code_command, same_action. by rewrite bool_decide_true.
    - unfold with_action. case_match eqn:He; [apply mmi_failed_refused_nil; set_solver|].
      simpl in Hq. apply bool_decide_eq_false in Hq.
      case_match eqn:Hact; [|apply mmi_failed_refused_nil; set_solver].
      by apply set_transfer_outcome. }
  all: unfold HandleClip, HandleClir, HandleCallWaiting, HandleColp, HandleColr.
  all: eapply wp_with_action_handler; [intros t' e Ho; exact Ho|]; apply wp_with_index; [done|].
  all: unfold of_code, code_command, command_action, same_action.
  all: repeat case_bool_decide; simpl; try congruence.
  all: apply mmi_finish_outcome_nil; [done|asks|done].
Qed.
(** C17: a dialled supplementary service code is either taken or refused, never
    both, while the register is there.  Taken: exactly one request goes out, to
    the IMS service or to the modem, and is accepted; the command of the code,
    marked as coming from the dialler and with the fields of the code, is saved
    under the index the answer will carry.  There it waits beside those that
    waited before, unless an older command still holds that index (they are
    given out in a circle of 51): then the older command stays and the new one
    is lost.  Refused: no accepted request is left behind, the commands that
    wait are the ones that waited before, and the user is told with exactly one
    message.  The one code that is neither is a barring code with a password
    longer than the buffer of its command: it sends nothing, saves nothing and
    tells the user nothing. *)
Theorem mmi_code_outcome f slotId data t h (Hf : is_service f) (Hok : commands_ok t) :
  wp (run_mmi_handler f slotId data) (λ _ t' e,
    taken slotId (of_code f data) t h t' e ∨ refused slotId t h t' e ∨
    (password_lost f data ∧ e = [] ∧ utCommandMap_ t' = utCommandMap_ t)) t h.
Proof.
  eapply wp_mono; [by apply mmi_handler_outcome|]. intros [] t2 e2 [[Ht|Hr]|Hp]; auto.
Qed.
End Outcome.

(** ** The answer *)

Section Answer.
Context `{CallConsts, !CallConstsOk, E : Env, !SecurecOk, ServiceEnv, HandlerEnv}.
Context `{SupplementEnv, !SupplementEnvOk}.
Implicit Types (s : HandlerState) (h e : list Effect) (c : SsRequestCommand).

Lemma wp_on_this {A} (m : Op CellularCallHandler A) (Q : A → HandlerState → list Effect → Prop) s h :
  wp m (λ a t e, Q a (upd_this (λ _, t) s) e) (this s) h → wp (on_this m) Q s h.
Proof. unfold wp, on_this. by destruct (m (this s) h) as [[a t] e]. Qed.

(** [s] without the command that waits under [index]. *)
Definition answered (index : Z) s : HandlerState :=
  upd_this (λ t, set_commands (indexCommand_ t) (sm_erase index (utCommandMap_ t)) t) s.

(** An answer of which nobody knows the question does nothing; else its
    command is removed and the rest runs with its flag and action. *)
Lemma wp_confirmed index action k (Q : () → HandlerState → list Effect → Prop) s h :
  commands_ok (this s) →
  match sm_lookup index (utCommandMap_ (this s)) with
  | None => Q () s []
  | Some c => wp (k (ss_flag c) (ss_action c)) Q (answered index s) h
  end →
  wp (confirmed index action k) Q s h.
Proof.
  intros (_ & _ & Hk) HQ. unfold confirmed. apply wp_then, wp_on_this.
  unfold ConfirmAndRemoveSsRequestCommand.
  assert (upd_this (λ _, this s) s = s) as Hs by (by destruct s).
  destruct (Z.eqb_spec index INVALID_INDEX) as [->|].
  - wsteps. rewrite bool_decide_true by err_ne. wsteps.
    destruct (sm_lookup INVALID_INDEX _) as [c|] eqn:Hl; [|by rewrite Hs].
    destruct (Hk INVALID_INDEX) as [Hneg _]; [apply sm_lookup_keys; eauto|].
    by unfold INVALID_INDEX in Hneg.
  - wsteps. destruct (sm_lookup index (utCommandMap_ (this s))) as [c|]; wsteps.
    + by rewrite bool_decide_false by (intros Hn; by apply Hn).
    + rewrite bool_decide_true by err_ne. wsteps. by rewrite Hs.
Qed.

(** Looking a command up changes nothing. *)
Lemma wp_lookup_command index ss0 (k : Z → SsRequestCommand → Op HandlerState ())
    (Q : () → HandlerState → list Effect → Prop) s h :
  (∀ ret ss, wp (k ret ss) Q s h) →
  wp (let! found := on_this (GetSsRequestCommand index ss0) in let '(ret, ss) := found in k ret ss)
    Q s h.
Proof.
  intros Hk. apply wp_then, wp_on_this.
  eapply (wp_quiet (λ _, False)); [apply keeps_GetSsRequestCommand|unfold GetSsRequestCommand; mauto|].
  intros [ret ss] e He. assert (e = []) as -> by (destruct He; done).
  rewrite app_nil_r. destruct s. apply Hk.
Qed.

(** The index an answer carries. *)
Definition answer_index (ev : ss_event) : option Z :=
  match ev with
  | OnGetCallWaiting (Some r) => Some (sb_index (cw_result r))
  | OnGetCallRestriction (Some r) => Some (sb_index (rs_result r))
  | OnGetClir (Some r) | OnGetClip (Some r) | OnGetColr (Some r) | OnGetColp (Some r) =>
      Some (sb_index (id_result r))
  | OnGetCallForward (Some r) => Some (sb_index (cfl_result r))
  | OnSetCallWaiting (Some r) | OnSetClir (Some r) | OnSetClip (Some r) | OnSetColr (Some r)
  | OnSetColp (Some r) | OnSetCallForward (Some r) | OnSetCallRestriction (Some r)
  | OnSetBarringPassword (Some r) => Some (sb_index r)
  | _ => None
  end.
(** A report of an answer goes to the dialog or to the settings. *)
Definition to_dialog (x : Effect) : Prop :=
  match x with Report (ReportSs (ReportMmiCodeResult _)) => True | Report (ReportSs _) => False
  | _ => True end.
Definition to_settings (x : Effect) : Prop :=
  match x with Report (ReportSs (ReportMmiCodeResult _)) => False | _ => True end.
Definition routed (flag : Z) (x : Effect) : Prop :=
  if flag =? SS_FROM_MMI_CODE then to_dialog x else to_settings x.

Ltac unfold_events :=
  unfold EventGetCallWaiting, EventSetCallWaiting, EventGetCallTransferInfo,
    BuildCallForwardQueryInfo, EventSetCallTransferInfo, EventGetCallRestriction,
    EventSetCallRestriction, EventSetBarringPassword, EventGetClip, EventSetClip, EventGetClir,
    EventSetClir, EventGetColr, EventSetColr, EventGetColp, EventSetColp, on_register,
    report_ss, ReportMmiCodeInfo, HandleCallTransferQueryResult, ReportTransferStatus, to_register,
    my_slot in *.

(** C21: an answer finds the command it belongs to.  An answer that carries an index
    under which no command waits does nothing at all; otherwise the command is
    removed, and what is reported goes to the dialog when the command came from the
    dialler and to the settings when it came from there, never to the other one. *)
Theorem answers_find_their_command ev index s h (Hi : answer_index ev = Some index)
  (Hok : commands_ok (this s)) :
  wp (run_ss_event ev) (λ _ s' e,
    match sm_lookup index (utCommandMap_ (this s)) with
    | None => s' = s ∧ e = []
    | Some c => s' = answered index s ∧ Forall (routed (ss_flag c)) e
    end) s h.
Proof.
  assert (∀ (m : Op HandlerState ()) c s h, keeps m → sends (routed (ss_flag c)) m →
    wp m (λ _ s' e, s' = s ∧ Forall (routed (ss_flag c)) e) s h) as Hquiet.
  { intros m c s0 h0 Hk Hs. by eapply wp_quiet. }
  assert (∀ i a k, (∀ flag action, keeps (k flag action)) →
    (∀ flag action, sends (routed flag) (k flag action)) →
    wp (confirmed i a k) (λ _ s' e,
      match sm_lookup i (utCommandMap_ (this s)) with
      | None => s' = s ∧ e = []
      | Some c => s' = answered i s ∧ Forall (routed (ss_flag c)) e
      end) s h) as Hconf.
  { intros i a k Hk Hs. apply wp_confirmed; [done|].
    destruct (sm_lookup i _) as [c|]; [by apply Hquiet|done]. }
  destruct ev as [[r|]|[r|]|[r|]|[r|]|[r|]|[r|]|[r|]|[r|]|[r|]|[r|]|[r|]|[r|]|[r|]|[r|]|[r|]|r|r|r|r|r];
    try discriminate Hi; injection Hi as <-; simpl.
  all: try (apply Hconf; intros flag action; unfold_events; mauto;
            unfold routed; repeat case_match; done).
  all: apply wp_lookup_command; intros ret ss; apply Hconf; intros flag action; unfold_events;
    mauto; unfold routed; repeat case_match; done.
Qed.

(** *** Setting a service from the dialler *)

(** The answer to a code that sets a service, the service the dialog shows for
    it, and the result it shows. *)
Definition set_answer (f : MmiHandler) (r : SsBaseResult) : ss_event :=
  match f with
  | MmiCode.HandleCallTransfer => OnSetCallForward (Some r)
  | MmiCode.HandleCallRestriction => OnSetCallRestriction (Some r)
  | MmiCode.HandleClip => OnSetClip (Some r)
  | MmiCode.HandleClir => OnSetClir (Some r)
  | MmiCode.HandleColp => OnSetColp (Some r)
  | MmiCode.HandleColr => OnSetColr (Some r)
  | _ => OnSetCallWaiting (Some r)
  end.
Definition shown_type (f : MmiHandler) : Z :=
  match f with
  | MmiCode.HandleCallTransfer => SC_CFU
  | MmiCode.HandleCallRestriction => SC_BAOC
  | MmiCode.HandleClip => SC_CLIP
  | MmiCode.HandleClir => SC_CLIR
  | MmiCode.HandleColp => SC_COLP
  | MmiCode.HandleColr => SC_COLR
  | _ => SC_WAIT
  end.
Definition shown_result (f : MmiHandler) (r : SsBaseResult) : Z :=
  match f with
  | MmiCode.HandleCallTransfer | MmiCode.HandleCallRestriction | MmiCode.HandleCallWaiting =>
      cmd_fail (sb_result r)
  | _ => sb_result r
  end.
Definition dialog_infos (e : list Effect) : list MmiCodeInfo :=
  omap (λ x, match x with Report (ReportSs (ReportMmiCodeResult i)) => Some i | _ => None end) e.
Definition saved_at (s : HandlerState) (c : SsRequestCommand) : HandlerState :=
  upd_this (λ t, saved t c) s.

(** Only hash-deactivation is shown as a deactivation. *)
Definition shown_action (action : string) : Z :=
  if same_action action deactivate then SUB_TYPE_DEACTIVE else SUB_TYPE_ACTIVE.

Lemma set_transfer_action action number :
  action ∈ mmi_actions → action ≠ interrogate →
  match ObtainCallTrasferAction action number with
  | inl v => negb (v =? 0) = negb (same_action action deactivate)
  | inr _ => False
  end.
Proof.
  intros Ha Hi. rewrite transfer_action_by_name by done. unfold transfer_actions. pose proof transfer_settings as [= -> -> -> ->].
  unfold mmi_actions in Ha. repeat (apply elem_of_cons in Ha as [->|Ha]); try done; [..|by apply elem_of_nil in Ha].
  by destruct number.
Qed.

(** A code that sets a service: star activates, hash deactivates; forwarding can
    also be registered and erased. *)
Definition code_set (f : MmiHandler) (data : MMIData) : Prop :=
  is_service f ∧
  actionString data ∈ match f with
                      | MmiCode.HandleCallTransfer => [activate; deactivate; "**"; "##"]
                      | _ => [activate; deactivate]
                      end.

Lemma dialog_infos_app e1 e2 : dialog_infos (e1 ++ e2) = dialog_infos e1 ++ dialog_infos e2.
Proof. apply omap_app. Qed.

(** The activation the dialog shows for the action of a command. *)
Definition answered_action (f : MmiHandler) (action : Z) : Z :=
  match f with
  | MmiCode.HandleCallTransfer | MmiCode.HandleCallWaiting =>
      if negb (action =? 0) then SUB_TYPE_ACTIVE else SUB_TYPE_DEACTIVE
  | MmiCode.HandleCallRestriction => action
  | _ => sub_type action
  end.
(** What the answer to a command with [flag] and [action] shows: one message of
    the dialog when the command came from the dialler, else none. *)
Definition shows (f : MmiHandler) (r : SsBaseResult) (flag action : Z) e : Prop :=
  if flag =? SS_FROM_MMI_CODE then
    ∃ info, dialog_infos e = [info] ∧ mi_mmiCodeType info = shown_type f ∧
      mi_action info = answered_action f action ∧ mi_result info = shown_result f r
  else dialog_infos e = [].

Lemma answered_action_of_code f data :
  code_set f data → answered_action f (command_action f data) = shown_action (actionString data).
Proof.
  intros [Hf Ha].
  destruct f; try (exfalso; unfold is_service in Hf; set_solver); unfold command_action;
    try (repeat (apply elem_of_cons in Ha as [->|Ha]); try done; by apply elem_of_nil in Ha).
  pose proof (set_transfer_action (actionString data) (serviceInfoA data)) as Hs.
  assert (actionString data ∈ mmi_actions ∧ actionString data ≠ interrogate) as [Hin Hne].
  { repeat (apply elem_of_cons in Ha as [->|Ha]); try (split; [|done]; unfold mmi_actions; set_solver).
    by apply elem_of_nil in Ha. }
  specialize (Hs Hin Hne). unfold same_action at 1. rewrite bool_decide_false by done.
  destruct (ObtainCallTrasferAction _ _); [|done]. unfold answered_action. rewrite Hs.
  unfold shown_action. by destruct (same_action _ _).
Qed.

(** The answer to a setting finds whatever command waits under its index. *)
Lemma wp_set_answer f c i r s h :
  (∀ h, register_instance h = true) → (∀ h, hisysevent_instance h = true) → is_service f →
  commands_ok (this s) → sb_index r = i → sm_lookup i (utCommandMap_ (this s)) = Some c →
  wp (run_ss_event (set_answer f r)) (λ _ s' e,
    s' = answered i s ∧ shows f r (ss_flag c) (ss_action c) e) s h.
Proof.
  intros Hreg Hhis Hf Hok <- Hl. unfold shows.
  destruct f; try (exfalso; unfold is_service in Hf; set_solver); simpl.
  { unfold SetCallTransferInfoResponse, with_result. apply wp_lookup_command. intros ret ss.
    apply wp_confirmed; [done|]. rewrite Hl. wsteps. rewrite Hhis. simpl. wsteps.
    destruct (GetCallForwardingInfo h) as [[slotId enable] number].
    apply (wp_then_quiet (λ x, dialog_infos [x] = [])).
    { unfold ReportTransferStatus, to_register. mauto. }
    { unfold ReportTransferStatus, to_register. mauto; done. }
    intros [] e He.
    assert (dialog_infos e = []) as Hnone.
    { induction He as [|x e Hx _ IH]; [done|]. unfold dialog_infos in Hx. simpl in Hx |- *.
      by case_match. }
    unfold EventSetCallTransferInfo, on_register, ReportMmiCodeInfo, report_ss. simpl.
    destruct (ss_flag c =? SS_FROM_MMI_CODE); repeat (wsteps; rewrite Hreg; simpl); wsteps;
      (split; [done|]); rewrite dialog_infos_app, Hnone; [|done].
    by eexists. }
  all: apply wp_confirmed; [done|]; rewrite Hl;
    unfold EventSetCallRestriction, EventSetCallWaiting, EventSetClip, EventSetClir, EventSetColp,
      EventSetColr, on_register, ReportMmiCodeInfo, report_ss; simpl;
    destruct (ss_flag c =? SS_FROM_MMI_CODE); repeat (wsteps; rewrite ?Hreg; simpl); wsteps;
    (split; [done|]); [by eexists|done].
Qed.

Lemma dialog_infos_records e : Forall is_record e → dialog_infos e = [].
Proof.
  induction 1 as [|x e Hx _ IH]; [done|]. unfold dialog_infos in *. simpl. by destruct x; try done.
Qed.
Lemma dialog_infos_request slotId index x : ss_request slotId index x → dialog_infos [x] = [].
Proof. by destruct x. Qed.

(** C5: setting a service from the dialler, from the code to the dialog, while
    the register and the event recorder are there.  Either the code is refused
    with one failure message and nothing waits; or it is a barring code whose
    password is too long, which does nothing; or one request goes out, the dialog
    stays as it is, and when the answer to it arrives:
    - if no command waited under the request's index, the dialog shows exactly one
      message, with the service of the code, an activation or a deactivation as the
      code says, and the result of the network (forwarding, barring and waiting show
      every failure as one code), and what waits is what waited before the code;
    - if an older command waited there, the answer is taken for its answer: it is
      removed, and one message shows its action, or none when it came from the
      settings.
    Erasing a forwarding is shown as an activation. *)
Theorem set_code_end_to_end f slotId data s h r
  (Hreg : ∀ h, register_instance h = true) (Hhis : ∀ h, hisysevent_instance h = true)
  (Hset : code_set f data) (Hok : commands_ok (this s))
  (Hr : sb_index r = next_index (this s)) :
  let index := next_index (this s) in
  wp (supplement_handle f slotId data) (λ _ s1 e1,
    (utCommandMap_ (this s1) = utCommandMap_ (this s) ∧
     ∃ m, dialog_infos e1 = [m] ∧ mi_result m = MMI_CODE_FAILED) ∨
    (password_lost f data ∧ e1 = [] ∧ utCommandMap_ (this s1) = utCommandMap_ (this s)) ∨
    (dialog_infos e1 = [] ∧
     (∃ pre x, e1 = pre ++ [x] ∧ Forall is_record pre ∧ ss_request slotId index x) ∧
     ∀ h1, wp (run_ss_event (set_answer f r)) (λ _ s2 e2,
       match sm_lookup index (utCommandMap_ (this s)) with
       | None =>
           utCommandMap_ (this s2) = utCommandMap_ (this s) ∧
           ∃ info, dialog_infos e2 = [info] ∧ mi_mmiCodeType info = shown_type f ∧
             mi_action info = shown_action (actionString data) ∧
             mi_result info = shown_result f r
       | Some old =>
           utCommandMap_ (this s2) = sm_erase index (utCommandMap_ (this s)) ∧
           shows f r (ss_flag old) (ss_action old) e2
       end) s1 h1)) s h.
Proof.
  apply wp_on_this. eapply wp_mono; [by apply mmi_handler_outcome; [..|apply Hset|]|].
  intros [] t1 e [[(pre & x & c & -> & Hpre & Hx & _ & Hc & -> & _ & Hkeep)|
                  (pre & rq & m & -> & Hpre & _ & Hmap & Hrq)]|Hp]; [| |by auto].
  - right; right. split_and!; [|by eauto|].
    + by rewrite dialog_infos_app, dialog_infos_records, (dialog_infos_request _ _ _ Hx).
    + intros h1. apply of_code_fields in Hc as [Hflag Hact].
      destruct (sm_lookup (next_index (this s)) (utCommandMap_ (this s))) as [old|] eqn:Hl.
      * eapply wp_mono; [apply (wp_set_answer f old); [done|done|apply Hset|by apply saved_ok|done|]|].
        { cbn [this upd_this]. by rewrite Hkeep. }
        intros [] s2 e2 [-> Hi]. split; [|done]. cbn. cbn in Hkeep. by rewrite Hkeep.
      * destruct Hkeep as [Hkeep Her].
        eapply wp_mono; [apply (wp_set_answer f c); [done|done|apply Hset|by apply saved_ok|done|done]|].
        intros [] s2 e2 [-> Hi]. split; [exact Her|].
        unfold shows in Hi. by rewrite Hflag, Hact, answered_action_of_code in Hi by done.
  - left. split; [done|]. eexists. rewrite !dialog_infos_app, dialog_infos_records by done.
    destruct Hrq as [->|(x & -> & Hx & _)]; [done|]. by rewrite (dialog_infos_request _ _ _ Hx).
Qed.
End Answer.

(** ** Requests of the settings *)

Section Settings.
Context `{CallConsts, !CallConstsOk, E : Env, ServiceEnv, HandlerEnv, SupplementEnv, !SupplementEnvOk}.
Implicit Types (t : CellularCallHandler) (h e : list Effect) (c : SsRequestCommand).

(** The operations whose answer is awaited. *)
Definition awaits_answer (op : setting_op) : Prop :=
  match op with
  | OpCanSetCallTransferTime _ _ | OpCloseUnFinishedUssd _ | OpSendUssdResponse _ _ => False
  | _ => True
  end.
Definition is_forwarding_info (x : Effect) : Prop :=
  match x with SetCallForwardingInfo _ _ _ => True | _ => False end.
(** The result tells whether a command waits. *)
Definition setting_done (slotId : Z) t h (r : Z) t' e : Prop :=
  (r = TELEPHONY_SUCCESS ∧ ∃ x c, e = [x] ∧ ss_request slotId (next_index t) x ∧
     reply h x = TELEPHONY_SUCCESS ∧ ss_flag c = SS_FROM_SETTING_MENU ∧ t' = saved t c ∧
     kept_or_lost t c t') ∨
  (r ≠ TELEPHONY_SUCCESS ∧ utCommandMap_ t' = utCommandMap_ t ∧
     (e = [] ∨ ∃ x, e = [x] ∧ ss_request slotId (next_index t) x ∧ reply h x ≠ TELEPHONY_SUCCESS)).
Definition settles (slotId : Z) (m : Op CellularCallHandler Z) : Prop :=
  ∀ t h, commands_ok t → wp m (λ r t' e, setting_done slotId t h r t' e) t h.

Lemma settles_error slotId r : r ≠ TELEPHONY_SUCCESS → settles slotId (mret r).
Proof. intros Hr t h _. right. by split_and!; [..|left]. Qed.
Lemma settles_if slotId (q : list Effect → bool) m1 m2 :
  settles slotId m1 → settles slotId m2 → settles slotId (let! b := ask q in if b then m1 else m2).
Proof.
  intros Hm1 Hm2 t h Hok. apply wp_then, wp_ask. rewrite app_nil_r.
  by destruct (q h); [apply Hm1|apply Hm2].
Qed.
Lemma settles_ask {A} slotId (q : list Effect → A) k :
  (∀ a, settles slotId (k a)) → settles slotId (let! a := ask q in k a).
Proof. intros Hk t h Hok. apply wp_then, wp_ask. rewrite app_nil_r. by apply Hk. Qed.
Lemma settles_handler slotId sl m : settles slotId m → settles slotId (with_setting_handler sl m).
Proof.
  intros Hm t h Hok. unfold with_setting_handler. wsteps. case_match; [|by apply Hm].
  apply settles_error; [err_ne|done].
Qed.
Lemma settles_gsm slotId sl m : settles slotId m → settles slotId (if_gsm sl m).
Proof.
  intros Hm t h Hok. unfold if_gsm. wsteps. case_match; [|by apply Hm].
  apply settles_error; [err_ne|done].
Qed.
Lemma settles_channel slotId sl m1 m2 :
  settles slotId m1 → settles slotId m2 → settles slotId (ims_or_cs sl m1 m2).
Proof. intros Hm1 Hm2. unfold ims_or_cs. by apply (settles_if slotId (λ h, NeedUseImsToHandle h sl)). Qed.
Lemma settles_request slotId c rq :
  ss_flag c = SS_FROM_SETTING_MENU → (∀ index, asks_once slotId index (rq index)) →
  settles slotId (setting_request c rq).
Proof.
  intros Hc Hrq t h Hok. unfold setting_request. apply wp_then. unfold wp at 1.
  rewrite request_index_run by done. cbn iota beta. rewrite app_nil_r. apply wp_then.
  eapply wp_mono; [apply (Hrq (next_index t))|]. intros r t' e [-> Hr]. cbn beta.
  case_bool_decide as Hs; unfold wp, SaveSsRequestCommand; mrun; rewrite ?app_nil_r.
  - destruct Hr as [[_ Hn]|(x & -> & Hx & ->)]; [done|]. left. split; [done|].
    exists x, c. pose proof (saved_kept_or_lost t c Hok). by split_and!.
  - right. destruct Hr as [[-> _]|(x & -> & Hx & ->)]; split_and!; eauto.
Qed.
End Settings.
Ltac settle :=
  repeat first [ apply settles_handler | apply settles_channel | apply settles_gsm
               | apply settles_request; [done|intros ?; asks] | apply settles_error; err_ne
               | apply settles_ask; intros ? | match goal with
                 | |- settles _ (if ?b then _ else _) => destruct b eqn:?
                 | |- settles _ (match ?x with _ => _ end) => destruct x eqn:? end ].

Section SettingsApi.
Context `{CallConsts, !CallConstsOk, E : Env, ServiceEnv, HandlerEnv, SupplementEnv, !SupplementEnvOk}.
Implicit Types (t : CellularCallHandler) (h e : list Effect) (c : SsRequestCommand).

Lemma settles_SetCallTransferInfo slotId info : settles slotId (SetCallTransferInfo slotId info).
Proof.
  unfold SetCallTransferInfo, SetCallTransferInfoByIms. case_bool_decide as Hc; [by apply settles_error|].
  settle.
Qed.
Lemma settles_valid slotId sl m : settles slotId m → settles slotId (valid_slot sl m).
Proof. intros Hm. unfold valid_slot. destruct (negb _); [settle|done]. Qed.

Lemma settles_setting op slotId :
  awaits_answer op → setting_slot op = slotId →
  match op with OpSetCallTransferInfo _ _ => True | _ => settles slotId (run_setting op) end.
Proof.
  intros Ha <-. destruct op; simpl; try done; apply settles_valid.
  all: unfold GetCallTransferInfo, SetCallWaiting, GetCallWaiting, SetCallRestriction,
    SetCallRestrictionByIms, GetCallRestriction, SetBarringPassword.
  all: try (destruct (CheckCallRestrictionType _) as [fac|r] eqn:Hfac;
            [|apply settles_error; unfold CheckCallRestrictionType in Hfac;
              repeat case_match; simplify_eq/=; err_ne]).
  all: settle.
Qed.

(** C22: the result of a setting tells the truth.  Setting or querying call
    forwarding, waiting or barring succeeds exactly when one request went out and
    was taken, and then its command, marked as coming from the settings, is saved
    under the index the answer will carry: it waits there beside those that
    waited before, unless an older command still holds that index; then the older
    one stays and the new one is lost.  On every error the commands that wait are
    those that waited before, and no accepted request is left behind.  (The forwarding of the device is recorded
    before the request, also when that fails.) *)
Theorem setting_outcome op t h (Hop : awaits_answer op) (Hok : commands_ok t) :
  wp (run_setting op) (λ r t' e, ∃ pre e', e = pre ++ e' ∧ Forall is_forwarding_info pre ∧
    setting_done (setting_slot op) t (h ++ pre) r t' e') t h.
Proof.
  assert (∀ m : Op CellularCallHandler Z, settles (setting_slot op) m →
    wp m (λ r t' e, ∃ pre e', e = pre ++ e' ∧ Forall is_forwarding_info pre ∧
      setting_done (setting_slot op) t (h ++ pre) r t' e') t h) as Hs.
  { intros m Hm. eapply wp_mono; [by apply Hm|]. intros r t' e Hd. exists [], e.
    rewrite app_nil_r. by split_and!. }
  pose proof (settles_setting op _ Hop eq_refl) as Hset.
  destruct op as [slotId info| | | | | | | | |]; try by apply Hs.
  simpl in Hs |- *. unfold service_SetCallTransferInfo, valid_slot.
  destruct (negb (IsValidSlotId slotId)); [apply Hs; settle|].
  apply (wp_then_quiet is_forwarding_info); [mauto|mauto; done|]. intros [] pre Hpre.
  eapply wp_mono; [by apply settles_SetCallTransferInfo|]. intros r t' e Hd. by exists pre, e.
Qed.
End SettingsApi.

(** ** PIN codes *)

Section Pin.
Context `{CallConsts, !CallConstsOk, E : Env, !SecurecOk, ServiceEnv, HandlerEnv}.
Context `{SupplementEnv, !SupplementEnvOk}.

(** The request of [CoreManagerInner] a PIN code makes. *)
Definition pin_operation (f : MmiHandler) : option PinOperation :=
  match f with
  | MmiCode.AlterPinPassword => Some AlterPin
  | MmiCode.UnlockPuk => Some UnlockPuk_
  | MmiCode.AlterPin2Password => Some AlterPin2
  | MmiCode.UnlockPuk2 => Some UnlockPuk2_
  | _ => None
  end.
(** The complaint about a new PIN and its repetition. *)
Definition pin_complaint (newPin newPinCheck : string) : option string :=
  if negb (bool_decide (newPin = newPinCheck)) then Some MIS_MATCH_PIN_PUK
  else if (string_size newPin <? 4) || (8 <? string_size newPin)
       then Some INVAILD_PIN_PUK else None.

(** A PIN code goes to the card only when the new PIN has four to eight
    characters and was repeated correctly; otherwise nothing goes out and the user
    is told which of the two is wrong.  A request that was taken hands the card's
    answer to the handler of the slot, and a request that failed is reported; the
    handler's store is not touched. *)
Theorem pin_code_outcome f op slotId data t h (Hf : pin_operation f = Some op)
  (Hreg : ∀ h, register_instance h = true) (Hh : ∀ h, GetMMIHandler h slotId = true)
  (Hsend : ∀ h ev, reply_bool h (SendEvent slotId ev) = true)
  (Ha : actionString data ≠ "") (Hsize : string_size (serviceInfoB data) < 2 ^ 31) :
  let rq := SimPin slotId op (serviceInfoB data) (serviceInfoA data) in
  run_mmi_handler f slotId data t h =
    ((), t,
     match pin_complaint (serviceInfoB data) (serviceInfoC data) with
     | Some message => [mmi_failure message]
     | None =>
         rq :: if bool_decide (reply h rq = TELEPHONY_SUCCESS)
               then [SendEvent slotId (EVENT_SET_UNLOCK_PIN_PUK_ID (pin_answer h rq))]
               else [mmi_failure GENERIC_FAILURE]
     end).
Proof.
  intros rq. apply string_empty_false in Ha.
  assert (run_mmi_handler f slotId data t h = pin_or_puk (pin_request op) slotId data t h) as ->.
  { by destruct f; simplify_eq/=. }
  assert (0 ≤ string_size (serviceInfoB data)) as Hpos by (unfold string_size; lia).
  unfold pin_or_puk, IsVaildPinOrPuk, pin_complaint, PIN_PUK_MIN, PIN_PUK_MAX. rewrite Ha, i32_id by lia.
  destruct (negb (bool_decide _)).
  { unfold mthen at 1 2. rewrite (mmi_failed_run Hreg) by (done || (simpl; lia)). done. }
  destruct ((_ <? 4) || _).
  { unfold mthen at 1 2. rewrite (mmi_failed_run Hreg) by (done || (simpl; lia)). done. }
  unfold pin_request. fold rq. unfold mthen, request, request_bool, ask, call, query, mret. simpl.
  rewrite !app_nil_r. destruct (bool_decide (reply h rq = TELEPHONY_SUCCESS)) eqn:Hs; simpl.
  - rewrite Hh. simpl. rewrite Hsend. simpl. rewrite bool_decide_false by (intros Hn; by apply Hn). done.
  - rewrite bool_decide_true by err_ne. by rewrite (mmi_failed_run Hreg) by (done || (simpl; lia)).
Qed.
End Pin.

(** ** Call forwarding *)

Section Forwarding.
Context `{CallConsts, !CallConstsOk, E : Env, !SecurecOk, ServiceEnv, HandlerEnv}.
Context `{SupplementEnv, !SupplementEnvOk}.

Lemma get_command_run c index t h :
  sm_lookup index (utCommandMap_ t) = Some c → string_size (ss_password c) ≤ kMaxNumberLen →
  GetSsRequestCommand index SsRequestCommand_init t h =
    (TELEPHONY_SUCCESS, copied c SsRequestCommand_init, t, []).
Proof.
  intros Hc Hpw. unfold GetSsRequestCommand. mrun. rewrite Hc. unfold string_size in Hpw.
  by rewrite strcpy_s_EOK by lia.
Qed.

(** The forwarding number is never reported to the settings.  They can ask for
    it when they query a forwarding, and the command keeps the wish; but the copy of
    the command the answer is handled with leaves that field out, so whatever was
    asked and whatever the network says, the number reported is empty. *)
Theorem forwarding_number_never_reported l c s h
  (Hok : commands_ok (this s))
  (Hc : sm_lookup (sb_index (cfl_result l)) (utCommandMap_ (this s)) = Some c)
  (Hpw : string_size (ss_password c) ≤ kMaxNumberLen) :
  wp (GetCallTransferResponse (Some l)) (λ _ _ e,
    ∀ response, Report (ReportSs (ReportGetTransferResult response)) ∈ e →
      tr_number response = "") s h.
Proof.
  set (P := λ x : Effect, ∀ response,
    x = Report (ReportSs (ReportGetTransferResult response)) → tr_number response = "").
  assert (∀ m : Op HandlerState (), sends P m →
    wp m (λ _ _ e, ∀ response, Report (ReportSs (ReportGetTransferResult response)) ∈ e →
      tr_number response = "") (answered (sb_index (cfl_result l)) s) h) as Hsends.
  { intros m Hm. eapply wp_mono; [apply Hm|]. intros [] s' e He response Hin.
    rewrite Forall_forall in He. by apply (He _ Hin). }
  unfold GetCallTransferResponse, with_result. apply wp_then, wp_on_this. unfold wp at 1.
  rewrite (get_command_run c) by done. cbn beta iota zeta.
  replace (upd_this (λ _, this s) s) with s by (by destruct s).
  rewrite app_nil_r, bool_decide_true by done. cbn [ss_isIncludeCallForwardingNumber copied SsRequestCommand_init].
  apply wp_confirmed; [done|]. rewrite Hc. apply Hsends.
  unfold EventGetCallTransferInfo, BuildCallForwardQueryInfo, HandleCallTransferQueryResult,
    ReportTransferStatus, to_register, on_register, report_ss, ReportMmiCodeInfo, my_slot.
  mauto; unfold P; intros ? Heq; by simplify_eq/=.
Qed.

(** A forwarding set from the dialler is recorded as the last one set from the
    settings.  The code of a forwarding never changes what the answer handler reads,
    so when the network confirms it, the device is told the slot, the state and the
    number of whatever the settings set last. *)
Theorem dialled_forwarding_records_last_setting slotId data s h r c
  (Hhis : ∀ h, hisysevent_instance h = true) (Hok : commands_ok (this s))
  (Hc : sm_lookup (sb_index r) (utCommandMap_ (this s)) = Some c)
  (Hr : sb_result r = TELEPHONY_SUCCESS) :
  wp (supplement_handle MmiCode.HandleCallTransfer slotId data) (λ _ _ e,
    GetCallForwardingInfo (h ++ e) = GetCallForwardingInfo h) s h ∧
  wp (SetCallTransferInfoResponse (Some r)) (λ _ _ e,
    let '(slot, enable, number) := GetCallForwardingInfo h in
    ∃ e', e = CoreSetVoiceCallForwarding slot enable number :: e') s h.
Proof.
  split.
  - apply wp_on_this.
    assert (sends (λ x, ∀ i, forwarding_set i x = i)
              (run_mmi_handler MmiCode.HandleCallTransfer slotId data)) as Hs.
    { simpl.
      unfold HandleCallTransfer, HandleGetCallTransfer, HandleSetCallTransfer, with_mmi_handler,
        with_action, mmi_finish, mmi_failed, ReportMmiCodeMessage, ReportMmiCodeInfo,
        RequestSsRequestCommandIndex, SaveSsRequestCommand.
      unfold_requests. unfold ims_ss_request. mauto; done. }
    eapply wp_mono; [apply Hs|]. intros [] t e He. unfold GetCallForwardingInfo. rewrite foldl_app.
    generalize (foldl forwarding_set (callForwardingSlotId_init, false, "") h) as i. intros i.
    assert (foldl forwarding_set i e = i) as ->; [|done].
    induction He as [|x e Hx _ IH]; [done|]. simpl. by rewrite Hx.
  - unfold SetCallTransferInfoResponse, with_result. apply wp_lookup_command. intros ret ss.
    apply wp_confirmed; [done|]. rewrite Hc. wsteps. rewrite Hhis. simpl. wsteps.
    destruct (GetCallForwardingInfo h) as [[slot enable] number].
    rewrite bool_decide_true by done. apply wp_then. wsteps.
    match goal with |- wp ?m _ ?s ?h => destruct (m s h) as [[[] s'] e'] eqn:Hm end.
    unfold wp at 1. rewrite Hm. simpl.
    match goal with |- wp ?m _ ?s ?h => destruct (m s h) as [[[] s2] e2] eqn:Hm2 end.
    unfold wp. rewrite Hm2. by eexists.
Qed.
End Forwarding.
