(* ===== verification/ConfigRequest.v ===== *)
(** * ConfigRequest: the requests of the configuration
    (services/utils/src/config_request.cpp)

    A request goes to the IMS service, when there is one, or to the modem with
    the slot's handler to receive the answer.  Also [ConfigEnv]: what the
    configuration reads of headers and components outside the model. *)

From stdpp Require Import base tactics option list numbers strings.
From Stdlib Require Import ZArith Lia Ascii String.
From S2P Require Import Prelude ConfigTypes Platform Standardize ControlBase ConnectionIMS.

Open Scope Z_scope.

Class ConfigEnv := {
  (* build flag *)
  SUPPORT_RTT_CALL : bool;
  (* error codes *)
  TELEPHONY_ERR_SLOTID_INVALID : Z;
  TELEPHONY_ERR_DATABASE_WRITE_FAIL : Z;
  TELEPHONY_ERR_NO_SIM_CARD : Z;
  CALL_ERR_VOLTE_NOT_SUPPORT : Z;
  CALL_ERR_VOLTE_PROVISIONING_DISABLED : Z;
  (* DomainPreferenceMode: with CS_VOICE_ONLY the smallest *)
  IMS_PS_VOICE_PREFERRED : Z;
  IMS_PS_VOICE_ONLY : Z;
  (* SimState *)
  SIM_STATE_UNKNOWN : Z;
  SIM_STATE_READY : Z;
  SIM_STATE_LOADED : Z;
  (* PreferredNetworkMode, NrMode, CARRIER_NR_AVAILABILITY *)
  CORE_NETWORK_MODE_NR : Z;
  CORE_NETWORK_MODE_NR_LTE_TDSCDMA_WCDMA_GSM_EVDO_CDMA : Z;
  CORE_NETWORK_MODE_MAX_VALUE : Z;
  NR_MODE_UNKNOWN : Z;
  NR_MODE_SA_ONLY : Z;
  NR_MODE_NSA_AND_SA : Z;
  CARRIER_NR_AVAILABILITY_NSA : Z;
  CARRIER_NR_AVAILABILITY_SA : Z;
  (* FeatureType *)
  TYPE_VOICE_OVER_LTE : Z;
  TYPE_SS_OVER_UT : Z;
  (* EccType, SimpresentType, AbnormalServiceType *)
  TYPE_CATEGORY : Z;
  TYPE_HAS_CARD : Z;
  TYPE_NO_CARD : Z;
  TYPE_ALL : Z;
  (* EmergencyCall::operator== *)
  EmergencyCall_eqb : EmergencyCall → EmergencyCall → bool;
  (* operator_config_types.h: keys, and values before the operator's are known *)
  KEY_IMS_SWITCH_ON_BY_DEFAULT_BOOL : string;
  KEY_HIDE_IMS_SWITCH_BOOL : string;
  KEY_VOLTE_SUPPORTED_BOOL : string;
  KEY_VOLTE_PROVISIONING_SUPPORTED_BOOL : string;
  KEY_CARRIER_VT_AVAILABLE_BOOL : string;
  KEY_SS_OVER_UT_SUPPORTED_BOOL : string;
  KEY_IMS_GBA_REQUIRED_BOOL : string;
  KEY_UT_PROVISIONING_SUPPORTED_BOOL : string;
  KEY_IMS_PREFER_FOR_EMERGENCY_BOOL : string;
  KEY_FORCE_VOLTE_SWITCH_ON_BOOL : string;
  KEY_VIDEO_CALL_WAITING_ON_BOOL : string;
  KEY_NR_MODE_SUPPORTED_LIST_INT_ARRAY : string;
  KEY_CALL_WAITING_SERVICE_CLASS_INT : string;
  KEY_IMS_CALL_DISCONNECT_REASONINFO_MAPPING_STRING_ARRAY : string;
  KEY_EMERGENCY_CALL_STRING_ARRAY : string;
  DEFAULT_CALL_WAITING_SERVICE_CLASS_CONFIG : Z;
  IMS_CALL_DISCONNECT_REASONINFO_MAPPING_CONFIG : list string;
  (* CoreManagerInner: an answer by reference is a function of what the
     variable held before *)
  core_GetSimId : list Effect → Z → Z;
  core_QueryImsSwitch : list Effect → Z → Z → Z * Z;
  core_GetSimState : list Effect → Z → Z → Z;
  core_GetSimOperatorNumeric : list Effect → Z → string;
  core_GetOperatorNumeric : list Effect → Z → string;
  core_GetNetworkStatus : list Effect → Z → option NetworkState;
  core_GetOperatorConfigs : list Effect → Z → Z * OperatorConfig;
  core_GetSimIst : list Effect → Z → string;
  core_GetSimIccId : list Effect → Z → string;
  core_GetNrOptionMode : list Effect → Z → Z → Z * Z;
  (* syspara: the value, into a buffer of so many bytes; an integer *)
  GetParameter : list Effect → string → string → Z → string;
  GetIntParameter : list Effect → string → Z → Z;
  GetBoolParameter : list Effect → string → bool → bool;
  (* CellularCallRdbHelper *)
  rdb_instance : list Effect → bool;
  rdb_QueryEccList : list Effect → string → Z * list EccNum;
  rdb_Query : list Effect → string → string → Z * string;
  (* string_ex.h: the variable after [StrToInt(value, variable)] *)
  StrToInt : string → Z → Z;
  (* the variable after [ImsCallClient::GetImsFeatureValue(type, variable)], and
     the value of an [int32_t] that was never assigned *)
  GetImsFeatureValue_answer : list Effect → Z → Z → Z;
  indeterminate : list Effect → Z
}.

(** What is documented of them. *)
Class ConfigEnvOk `{CallConsts, ConfigEnv} : Prop := {
  (* a system parameter is read into the buffer with its terminating NUL *)
  GetParameter_fits : ∀ h key def n, 0 < n → string_size (GetParameter h key def n) < n;
  sim_present_codes : TYPE_HAS_CARD ≠ TYPE_NO_CARD;
  config_errors_not_success :
    TELEPHONY_SUCCESS ∉ [TELEPHONY_ERR_SLOTID_INVALID; TELEPHONY_ERR_DATABASE_WRITE_FAIL;
      TELEPHONY_ERR_NO_SIM_CARD; CALL_ERR_VOLTE_NOT_SUPPORT;
      CALL_ERR_VOLTE_PROVISIONING_DISABLED]
}.

Section ConfigRequest.
Context `{CallConsts, E : Env, ConfigEnv} {S : Type}.

Definition config (e : ConfigEffect) : Op S () := send (Config e).
Definition config_request (e : ConfigEffect) : Op S Z := request (Config e).

(** [if (moduleUtils_.NeedCallImsService()) { ... }] around a request that the
    modem answers otherwise: [rq] to the handler of the slot. *)
Definition ims_or_ril (slotId : Z) (ims ril : ConfigEffect) : Op S Z :=
  let! need := ask NeedCallImsService in
  if (need : bool) then
    let! client := ask ims_client_instance in
    if negb client then mret CALL_ERR_RESOURCE_UNAVAILABLE else config_request ims
  else
    let! handle := ask (λ h, GetHandler h slotId) in
    if negb handle then mret CALL_ERR_RESOURCE_UNAVAILABLE
    else config ril ;; mret TELEPHONY_SUCCESS.

(** [if (imsCallClient == nullptr || imsCallClient->GetImsCallProxy() == nullptr)] *)
Definition with_ims_proxy (k : Op S Z) : Op S Z :=
  let! ready := ask (λ h, ims_client_instance h && ims_call_proxy h) in
  if negb ready then mret CALL_ERR_RESOURCE_UNAVAILABLE else k.
Definition ims_config (e : ConfigEffect) : Op S Z := with_ims_proxy (config_request e).

Definition SetDomainPreferenceModeRequest (slotId mode : Z) : Op S Z :=
  ims_or_ril slotId (ImsSetDomainPreferenceMode slotId mode) (RilSetCallPreferenceMode slotId mode).
Definition GetDomainPreferenceModeRequest (slotId : Z) : Op S Z :=
  ims_or_ril slotId (ImsGetDomainPreferenceMode slotId) (RilGetCallPreferenceMode slotId).
Definition SetImsSwitchStatusRequest (slotId : Z) (active : bool) : Op S Z :=
  ims_config (ImsSetImsSwitchStatus slotId active).
Definition SetCarrierVtConfigRequest (slotId : Z) (active : bool) : Op S Z :=
  ims_config (ImsSetCarrierVtConfig slotId active).

Definition SetVoNRSwitchStatusRequest (slotId state : Z) : Op S Z :=
  let! handle := ask (λ h, GetHandler h slotId) in
  if negb handle then mret CALL_ERR_RESOURCE_UNAVAILABLE
  else config (RilSetVoNRSwitch slotId state) ;; mret TELEPHONY_SUCCESS.

Definition GetImsSwitchStatusRequest (slotId : Z) : Op S Z :=
  ims_config (ImsGetImsSwitchStatus slotId).
Definition SetImsConfigRequest_string (item : Z) (value : string) : Op S Z :=
  ims_config (ImsSetImsConfigString item value).
Definition SetImsConfigRequest_int (item value : Z) : Op S Z :=
  ims_config (ImsSetImsConfigInt item value).
Definition GetImsConfigRequest (item : Z) : Op S Z := ims_config (ImsGetImsConfig item).
Definition SetImsFeatureValueRequest (type value : Z) : Op S Z :=
  ims_config (ImsSetImsFeatureValue type value).

(** The code, and what is in [value] afterwards. *)
Definition GetImsFeatureValueRequest (type value : Z) : Op S (Z * Z) :=
  let! ready := ask (λ h, ims_client_instance h && ims_call_proxy h) in
  if negb ready then mret (CALL_ERR_RESOURCE_UNAVAILABLE, value)
  else
    let! value' := ask (λ h, GetImsFeatureValue_answer h type value) in
    let! ret := config_request (ImsGetImsFeatureValue type) in
    mret (ret, value').

Definition SetMuteRequest (slotId mute : Z) : Op S Z :=
  ims_or_ril slotId (ImsSetMute slotId mute) (RilSetMuteMode slotId mute).
Definition GetMuteRequest (slotId : Z) : Op S Z :=
  ims_or_ril slotId (ImsGetMute slotId) (RilGetMuteMode slotId).

Definition GetEmergencyCallListRequest (slotId : Z) : Op S Z :=
  let! handle := ask (λ h, GetHandler h slotId) in
  if negb handle then mret CALL_ERR_RESOURCE_UNAVAILABLE
  else config (RilGetEmergencyCallList slotId) ;; mret TELEPHONY_SUCCESS.
Definition SetEmergencyCallListRequest (slotId : Z) (eccVec : list EmergencyCall) : Op S Z :=
  let! handle := ask (λ h, GetHandler h slotId) in
  if negb handle then mret CALL_ERR_RESOURCE_UNAVAILABLE
  else config_request (RilSetEmergencyCallList slotId eccVec).

Definition UpdateImsCapabilities_request (slotId : Z) (l : list ImsCapability) : Op S Z :=
  ims_config (ImsUpdateImsCapabilities slotId l).
Definition NotifyOperatorConfigChanged (slotId state : Z) : Op S Z :=
  ims_config (ImsNotifyOperatorConfigChanged slotId state).
Definition SetVideoCallWaiting (slotId : Z) (activate : bool) : Op S Z :=
  with_ims_proxy (config (ImsSetVideoCallWaiting slotId activate) ;; mret TELEPHONY_SUCCESS).
End ConfigRequest.
