(* ===== verification/Config.v ===== *)
(** * Config: the configuration of the slots (services/utils/cellular_call_config)

    [CellularCallConfig] has only static data: every object of the class sees
    the same maps, guarded by five static mutexes.  This file models the
    operator configuration, the IMS and VoNR switches, the preferred domain and
    the clear code; [ConfigEcc] models the emergency number lists. *)

From stdpp Require Import base tactics option list numbers strings pretty gmap functions.
From Stdlib Require Import ZArith Lia Ascii String.
From S2P Require Import Prelude ConfigTypes Platform Standardize ControlBase ConnectionIMS Service Handler.
From S2P Require Import ConfigRequest.

Open Scope Z_scope.

(** ** State *)

(** The static members of type [std::map<int32_t, bool>], by name. *)
Inductive BoolMap :=
  | imsSwitchOnByDefault_ | hideImsSwitch_ | volteSupported_ | carrierVtAvailable_
  | volteProvisioningSupported_ | ssOverUtSupported_ | imsGbaRequired_
  | utProvisioningSupported_ | imsPreferForEmergency_ | forceVolteSwitchOn_
  | videoCallWaiting_ | readyToCall_ | imsSipCauseEnable_ | shouldCheckImsAfterNvUpdate_.
#[export] Instance BoolMap_eq_dec : EqDecision BoolMap.
Proof. solve_decision. Defined.
(** Those of type [std::map<int32_t, int32_t>]. *)
Inductive IntMap := modeMap_ | modeTempMap_ | callWaitingServiceClass_ | vonrSwithStatus_ | simState_.
#[export] Instance IntMap_eq_dec : EqDecision IntMap.
Proof. solve_decision. Defined.
(** Those of type [std::map<int32_t, std::vector<EmergencyCall>>]. *)
Inductive EccMap := eccListRadioMap_ | allEccList_.
#[export] Instance EccMap_eq_dec : EqDecision EccMap.
Proof. solve_decision. Defined.
(** Those of type [std::vector<EccList>]. *)
Inductive EccVector := hplmnEccList_ | currentPlmnEccList_ | hplmnFakeEccList_.
#[export] Instance EccVector_eq_dec : EqDecision EccVector.
Proof. solve_decision. Defined.
(** The flags. *)
Inductive Flag := isOperatorConfigInit_ | isRadioOn_ | isOperatorConfigChanged_.
#[export] Instance Flag_eq_dec : EqDecision Flag.
Proof. solve_decision. Defined.

Record cellularNetworkState := { isInService_ : bool; isRoaming_ : bool }.
Definition cellularNetworkState_new : cellularNetworkState :=
  {| isInService_ := false; isRoaming_ := false |}.

Record EccList := { ecl_plmn : string; ecl_eccInfoList : list EmergencyCall }.
Definition EccList_new : EccList := {| ecl_plmn := ""; ecl_eccInfoList := [] |}.

Record CellularCallConfig := {
  bool_maps : BoolMap → gmap Z bool;
  int_maps : IntMap → gmap Z Z;
  ecc_maps : EccMap → gmap Z (list EmergencyCall);
  ecc_vectors : EccVector → list EccList;
  flags : Flag → bool;
  nrModeSupportedList_ : gmap Z (list Z);
  imsCallDisconnectResoninfoMapping_ : gmap Z (list string);
  networkServiceState_ : gmap Z cellularNetworkState;
  curPlmn_ : gmap Z string;
  eccList3gppHasSim_ : list EmergencyCall;
  eccList3gppNoSim_ : list EmergencyCall;
  lastDisconnectCode_ : Z
}.

Definition set_bool (m : BoolMap) (slotId : Z) (v : bool) (s : CellularCallConfig) :
    CellularCallConfig :=
  {| bool_maps := <[m := <[slotId := v]> (bool_maps s m)]> (bool_maps s);
     int_maps := int_maps s; ecc_maps := ecc_maps s; ecc_vectors := ecc_vectors s;
     flags := flags s; nrModeSupportedList_ := nrModeSupportedList_ s;
     imsCallDisconnectResoninfoMapping_ := imsCallDisconnectResoninfoMapping_ s;
     networkServiceState_ := networkServiceState_ s; curPlmn_ := curPlmn_ s;
     eccList3gppHasSim_ := eccList3gppHasSim_ s; eccList3gppNoSim_ := eccList3gppNoSim_ s;
     lastDisconnectCode_ := lastDisconnectCode_ s |}.
Definition set_int (m : IntMap) (slotId v : Z) (s : CellularCallConfig) : CellularCallConfig :=
  {| bool_maps := bool_maps s;
     int_maps := <[m := <[slotId := v]> (int_maps s m)]> (int_maps s);
     ecc_maps := ecc_maps s; ecc_vectors := ecc_vectors s;
     flags := flags s; nrModeSupportedList_ := nrModeSupportedList_ s;
     imsCallDisconnectResoninfoMapping_ := imsCallDisconnectResoninfoMapping_ s;
     networkServiceState_ := networkServiceState_ s; curPlmn_ := curPlmn_ s;
     eccList3gppHasSim_ := eccList3gppHasSim_ s; eccList3gppNoSim_ := eccList3gppNoSim_ s;
     lastDisconnectCode_ := lastDisconnectCode_ s |}.
Definition set_ecc_map (m : EccMap) (f : gmap Z (list EmergencyCall) → gmap Z (list EmergencyCall))
    (s : CellularCallConfig) : CellularCallConfig :=
  {| bool_maps := bool_maps s; int_maps := int_maps s;
     ecc_maps := <[m := f (ecc_maps s m)]> (ecc_maps s); ecc_vectors := ecc_vectors s;
     flags := flags s; nrModeSupportedList_ := nrModeSupportedList_ s;
     imsCallDisconnectResoninfoMapping_ := imsCallDisconnectResoninfoMapping_ s;
     networkServiceState_ := networkServiceState_ s; curPlmn_ := curPlmn_ s;
     eccList3gppHasSim_ := eccList3gppHasSim_ s; eccList3gppNoSim_ := eccList3gppNoSim_ s;
     lastDisconnectCode_ := lastDisconnectCode_ s |}.
Definition set_vector (m : EccVector) (v : list EccList) (s : CellularCallConfig) :
    CellularCallConfig :=
  {| bool_maps := bool_maps s; int_maps := int_maps s; ecc_maps := ecc_maps s;
     ecc_vectors := <[m := v]> (ecc_vectors s);
     flags := flags s; nrModeSupportedList_ := nrModeSupportedList_ s;
     imsCallDisconnectResoninfoMapping_ := imsCallDisconnectResoninfoMapping_ s;
     networkServiceState_ := networkServiceState_ s; curPlmn_ := curPlmn_ s;
     eccList3gppHasSim_ := eccList3gppHasSim_ s; eccList3gppNoSim_ := eccList3gppNoSim_ s;
     lastDisconnectCode_ := lastDisconnectCode_ s |}.
Definition set_flag (m : Flag) (v : bool) (s : CellularCallConfig) : CellularCallConfig :=
  {| bool_maps := bool_maps s; int_maps := int_maps s; ecc_maps := ecc_maps s;
     ecc_vectors := ecc_vectors s; flags := <[m := v]> (flags s);
     nrModeSupportedList_ := nrModeSupportedList_ s;
     imsCallDisconnectResoninfoMapping_ := imsCallDisconnectResoninfoMapping_ s;
     networkServiceState_ := networkServiceState_ s; curPlmn_ := curPlmn_ s;
     eccList3gppHasSim_ := eccList3gppHasSim_ s; eccList3gppNoSim_ := eccList3gppNoSim_ s;
     lastDisconnectCode_ := lastDisconnectCode_ s |}.
Definition set_nrModeSupportedList (slotId : Z) (v : list Z) (s : CellularCallConfig) :
    CellularCallConfig :=
  {| bool_maps := bool_maps s; int_maps := int_maps s; ecc_maps := ecc_maps s;
     ecc_vectors := ecc_vectors s; flags := flags s;
     nrModeSupportedList_ := <[slotId := v]> (nrModeSupportedList_ s);
     imsCallDisconnectResoninfoMapping_ := imsCallDisconnectResoninfoMapping_ s;
     networkServiceState_ := networkServiceState_ s; curPlmn_ := curPlmn_ s;
     eccList3gppHasSim_ := eccList3gppHasSim_ s; eccList3gppNoSim_ := eccList3gppNoSim_ s;
     lastDisconnectCode_ := lastDisconnectCode_ s |}.
Definition set_reasonMapping (slotId : Z) (v : list string) (s : CellularCallConfig) :
    CellularCallConfig :=
  {| bool_maps := bool_maps s; int_maps := int_maps s; ecc_maps := ecc_maps s;
     ecc_vectors := ecc_vectors s; flags := flags s;
     nrModeSupportedList_ := nrModeSupportedList_ s;
     imsCallDisconnectResoninfoMapping_ := <[slotId := v]> (imsCallDisconnectResoninfoMapping_ s);
     networkServiceState_ := networkServiceState_ s; curPlmn_ := curPlmn_ s;
     eccList3gppHasSim_ := eccList3gppHasSim_ s; eccList3gppNoSim_ := eccList3gppNoSim_ s;
     lastDisconnectCode_ := lastDisconnectCode_ s |}.
Definition set_networkState (slotId : Z) (v : cellularNetworkState) (s : CellularCallConfig) :
    CellularCallConfig :=
  {| bool_maps := bool_maps s; int_maps := int_maps s; ecc_maps := ecc_maps s;
     ecc_vectors := ecc_vectors s; flags := flags s;
     nrModeSupportedList_ := nrModeSupportedList_ s;
     imsCallDisconnectResoninfoMapping_ := imsCallDisconnectResoninfoMapping_ s;
     networkServiceState_ := <[slotId := v]> (networkServiceState_ s); curPlmn_ := curPlmn_ s;
     eccList3gppHasSim_ := eccList3gppHasSim_ s; eccList3gppNoSim_ := eccList3gppNoSim_ s;
     lastDisconnectCode_ := lastDisconnectCode_ s |}.
Definition set_curPlmn (slotId : Z) (v : string) (s : CellularCallConfig) : CellularCallConfig :=
  {| bool_maps := bool_maps s; int_maps := int_maps s; ecc_maps := ecc_maps s;
     ecc_vectors := ecc_vectors s; flags := flags s;
     nrModeSupportedList_ := nrModeSupportedList_ s;
     imsCallDisconnectResoninfoMapping_ := imsCallDisconnectResoninfoMapping_ s;
     networkServiceState_ := networkServiceState_ s;
     curPlmn_ := <[slotId := v]> (curPlmn_ s);
     eccList3gppHasSim_ := eccList3gppHasSim_ s; eccList3gppNoSim_ := eccList3gppNoSim_ s;
     lastDisconnectCode_ := lastDisconnectCode_ s |}.
Definition set_ecc3gpp (hasSim noSim : list EmergencyCall) (s : CellularCallConfig) :
    CellularCallConfig :=
  {| bool_maps := bool_maps s; int_maps := int_maps s; ecc_maps := ecc_maps s;
     ecc_vectors := ecc_vectors s; flags := flags s;
     nrModeSupportedList_ := nrModeSupportedList_ s;
     imsCallDisconnectResoninfoMapping_ := imsCallDisconnectResoninfoMapping_ s;
     networkServiceState_ := networkServiceState_ s; curPlmn_ := curPlmn_ s;
     eccList3gppHasSim_ := hasSim; eccList3gppNoSim_ := noSim;
     lastDisconnectCode_ := lastDisconnectCode_ s |}.
Definition set_lastDisconnectCode (v : Z) (s : CellularCallConfig) : CellularCallConfig :=
  {| bool_maps := bool_maps s; int_maps := int_maps s; ecc_maps := ecc_maps s;
     ecc_vectors := ecc_vectors s; flags := flags s;
     nrModeSupportedList_ := nrModeSupportedList_ s;
     imsCallDisconnectResoninfoMapping_ := imsCallDisconnectResoninfoMapping_ s;
     networkServiceState_ := networkServiceState_ s; curPlmn_ := curPlmn_ s;
     eccList3gppHasSim_ := eccList3gppHasSim_ s; eccList3gppNoSim_ := eccList3gppNoSim_ s;
     lastDisconnectCode_ := v |}.

(** A read of [m\[slotId\]]: a missing entry is value-initialised and stays in
    the map, which nothing observes but a later [find]. *)
Definition bool_at (s : CellularCallConfig) (m : BoolMap) (slotId : Z) : bool :=
  default false (bool_maps s m !! slotId).
Definition int_at (s : CellularCallConfig) (m : IntMap) (slotId : Z) : Z :=
  default 0 (int_maps s m !! slotId).
Definition ecc_at (s : CellularCallConfig) (m : EccMap) (slotId : Z) : list EmergencyCall :=
  default [] (ecc_maps s m !! slotId).

Section Index.
Context `{E : Env}.

Definition read_bool (m : BoolMap) (slotId : Z) : Op CellularCallConfig bool :=
  let! s := mget in
  mmodify (set_bool m slotId (bool_at s m slotId)) ;; mret (bool_at s m slotId).
Definition read_int (m : IntMap) (slotId : Z) : Op CellularCallConfig Z :=
  let! s := mget in
  mmodify (set_int m slotId (int_at s m slotId)) ;; mret (int_at s m slotId).
Definition read_ecc (m : EccMap) (slotId : Z) : Op CellularCallConfig (list EmergencyCall) :=
  let! s := mget in
  mmodify (set_ecc_map m <[slotId := ecc_at s m slotId]>) ;; mret (ecc_at s m slotId).
Definition read_nrMode (slotId : Z) : Op CellularCallConfig (list Z) :=
  let! s := mget in
  let v := default [] (nrModeSupportedList_ s !! slotId) in
  mmodify (set_nrModeSupportedList slotId v) ;; mret v.
Definition read_reasonMapping (slotId : Z) : Op CellularCallConfig (list string) :=
  let! s := mget in
  let v := default [] (imsCallDisconnectResoninfoMapping_ s !! slotId) in
  mmodify (set_reasonMapping slotId v) ;; mret v.
Definition read_curPlmn (slotId : Z) : Op CellularCallConfig string :=
  let! s := mget in
  let v := default "" (curPlmn_ s !! slotId) in
  mmodify (set_curPlmn slotId v) ;; mret v.

(** [v\[i\]] of a vector: undefined past its end. *)
Definition read_vector (m : EccVector) (i : Z) : Op CellularCallConfig EccList :=
  let! s := mget in
  match ecc_vectors s m !! Z.to_nat i with
  | Some l => if i <? 0 then send (Config (OutOfRange i)) ;; mret l else mret l
  | None => send (Config (OutOfRange i)) ;; mret EccList_new
  end.
(** [v\[i\] = x] *)
Definition write_vector (m : EccVector) (i : Z) (x : EccList) : Op CellularCallConfig () :=
  let! s := mget in
  if (0 <=? i) && (i <? Z.of_nat (Datatypes.length (ecc_vectors s m)))
  then mmodify (set_vector m (<[Z.to_nat i := x]> (ecc_vectors s m)))
  else send (Config (OutOfRange i)).

(** The scope of [std::lock_guard] or of [std::unique_lock]; of [std::shared_lock]. *)
Definition locked {S A} (m : Mutex) (k : Op S A) : Op S A :=
  send (Config (Lock m false)) ;; let! r := k in send (Config (Unlock m)) ;; mret r.
Definition shared_locked {S A} (m : Mutex) (k : Op S A) : Op S A :=
  send (Config (Lock m true)) ;; let! r := k in send (Config (Unlock m)) ;; mret r.
End Index.

(** ** Constants of the file *)

Definition SIM_PRESENT : Z := 1.
Definition SIM_ABSENT : Z := 0.
Definition IMS_SWITCH_STATUS_UNKNOWN : Z := -1.
Definition IMS_SWITCH_STATUS_OFF : Z := 0.
Definition IMS_SWITCH_STATUS_ON : Z := 1.
Definition VONR_SWITCH_STATUS_UNKNOWN : Z := -1.
Definition VONR_SWITCH_STATUS_OFF : Z := 0.
Definition VONR_SWITCH_STATUS_ON : Z := 1.
(** The results of [SaveImsSwitch]. *)
Inductive SaveImsSwitchResult :=
  | SAVE_IMS_SWITCH_FAILED | SAVE_IMS_SWITCH_SUCCESS_CHANGED | SAVE_IMS_SWITCH_SUCCESS_NOT_CHANGED.
Definition INVALID_SIM_ID : Z := 0.
Definition IMS_GBA_BIT : Z := 0x02.
Definition SYSTEM_PARAMETER_LENGTH : Z := 0x02.
Definition IMS_CAUSE_BASE : Z := 18432.
Definition INVALID_OPERATOR_CONFIG_STATE : Z := -1.
Definition IMS_FEATURE_INT_VALUE_ENABLED : Z := 1.
Definition DISCONNECT_CODE : string := "telephony.call.disconnectCode".
Definition KEY_IMS_SIP_CAUSE_CODE_ENABLE_ON_BOOL : string := "ims_sip_cause_code_enable".
Definition NETWORK_SEARCH_SETTING_URI : string :=
  "datashare:///com.ohos.settingsdata/entry/settingsdata/SETTINGSDATA?Proxy=true&key=preferred_network_mode".
Definition PREFERRED_NETWORK_MODE : string := "settings.telephony.preferrednetworkmode".
Definition LAST_ICCID_KEY : string := "persist.telephony.last_iccid".
Definition IMSSWITCH_STATE : string := "persist.telephony.imsswitch".
Definition VONR_STATE : string := "persist.telephony.vonrswitch".

(** A key with the number of its slot. *)
Definition slot_key (key : string) (slotId : Z) : string := key +:+ pretty slotId.

Definition BooleanToImsSwitchValue (value : bool) : Z :=
  if value then IMS_SWITCH_STATUS_ON else IMS_SWITCH_STATUS_OFF.

Section Config.
Context `{CallConsts, E : Env, ServiceEnv, HandlerEnv, ConfigEnv}.
Abbreviation Cfg A := (Op CellularCallConfig A).

Definition NR_MODE_MIN : Z := CORE_NETWORK_MODE_NR.
Definition NR_MODE_MAX : Z := CORE_NETWORK_MODE_NR_LTE_TDSCDMA_WCDMA_GSM_EVDO_CDMA.
Definition DEFAULT_NETWORK_MODE : Z := CORE_NETWORK_MODE_MAX_VALUE.

Definition IsValidSlotId (slotId : Z) : bool :=
  (DEFAULT_SIM_SLOT_ID <=? slotId) && (slotId <? SIM_SLOT_COUNT).
(** [if (!IsValidSlotId(slotId)) return;] *)
Definition on_valid_slot (slotId : Z) (k : Cfg ()) : Cfg () :=
  if negb (IsValidSlotId slotId) then mret () else k.

(** ** Construction *)

Definition CellularCallConfig_new : CellularCallConfig :=
  {| bool_maps := λ _, ∅; int_maps := λ _, ∅; ecc_maps := λ _, ∅;
     ecc_vectors := λ _, replicate (Z.to_nat SIM_SLOT_COUNT) EccList_new;
     flags := λ _, false; nrModeSupportedList_ := ∅;
     imsCallDisconnectResoninfoMapping_ := ∅; networkServiceState_ := ∅; curPlmn_ := ∅;
     eccList3gppHasSim_ := []; eccList3gppNoSim_ := []; lastDisconnectCode_ := 0 |}.

(** [m.insert(std::pair(i, v))]: nothing when there is an entry. *)
Definition insert_bool (m : BoolMap) (i : Z) (v : bool) (s : CellularCallConfig) :
    CellularCallConfig :=
  match bool_maps s m !! i with Some _ => s | None => set_bool m i v s end.
Definition insert_int (m : IntMap) (i v : Z) (s : CellularCallConfig) : CellularCallConfig :=
  match int_maps s m !! i with Some _ => s | None => set_int m i v s end.

(** The values before the operator's are known, in the order of the code. *)
Definition default_bools : list (BoolMap * bool) :=
  [(imsSwitchOnByDefault_, false); (hideImsSwitch_, false); (volteSupported_, true);
   (carrierVtAvailable_, true); (volteProvisioningSupported_, false);
   (ssOverUtSupported_, false); (imsGbaRequired_, false); (utProvisioningSupported_, false);
   (imsPreferForEmergency_, true); (forceVolteSwitchOn_, false); (readyToCall_, true);
   (videoCallWaiting_, true); (imsSipCauseEnable_, false); (shouldCheckImsAfterNvUpdate_, true)].
Definition init_slot (i : Z) (s : CellularCallConfig) : CellularCallConfig :=
  let s := foldl (λ s p, insert_bool p.1 i p.2 s) s default_bools in
  let s := match nrModeSupportedList_ s !! i with
           | Some _ => s
           | None => set_nrModeSupportedList i
                       [CARRIER_NR_AVAILABILITY_NSA; CARRIER_NR_AVAILABILITY_SA] s
           end in
  let s := insert_int callWaitingServiceClass_ i DEFAULT_CALL_WAITING_SERVICE_CLASS_CONFIG s in
  let s := match imsCallDisconnectResoninfoMapping_ s !! i with
           | Some _ => s
           | None => set_reasonMapping i IMS_CALL_DISCONNECT_REASONINFO_MAPPING_CONFIG s
           end in
  let s := insert_int vonrSwithStatus_ i VONR_SWITCH_STATUS_UNKNOWN s in
  match networkServiceState_ s !! i with
  | Some _ => s
  | None => set_networkState i cellularNetworkState_new s
  end.
(** The slots a [for (i = DEFAULT_SIM_SLOT_ID; i < SIM_SLOT_COUNT; ++i)] visits. *)
Definition all_slots : list Z := seqZ DEFAULT_SIM_SLOT_ID (SIM_SLOT_COUNT - DEFAULT_SIM_SLOT_ID).
Definition InitDefaultOperatorConfig : Cfg () :=
  locked operatorMutex_ (mfor all_slots (λ i, mmodify (init_slot i))).

(** The constructor, run by every [CellularCallConfig config;]. *)
Definition CellularCallConfig_ctor : Cfg () :=
  let! s := mget in
  if flags s isOperatorConfigInit_ then mret ()
  else InitDefaultOperatorConfig ;; mmodify (set_flag isOperatorConfigInit_ true).

(** ** Operator configuration *)

Definition ParseBoolOperatorConfigs (slotId : Z) (config : BoolMap) (poc : OperatorConfig)
    (configName : string) : Cfg () :=
  match boolValue poc !! configName with
  | Some v => mmodify (set_bool config slotId v)
  | None => mret ()
  end.
Definition parsed_bools : list (BoolMap * string) :=
  [(imsSwitchOnByDefault_, KEY_IMS_SWITCH_ON_BY_DEFAULT_BOOL);
   (hideImsSwitch_, KEY_HIDE_IMS_SWITCH_BOOL);
   (volteSupported_, KEY_VOLTE_SUPPORTED_BOOL);
   (volteProvisioningSupported_, KEY_VOLTE_PROVISIONING_SUPPORTED_BOOL);
   (carrierVtAvailable_, KEY_CARRIER_VT_AVAILABLE_BOOL);
   (ssOverUtSupported_, KEY_SS_OVER_UT_SUPPORTED_BOOL);
   (imsGbaRequired_, KEY_IMS_GBA_REQUIRED_BOOL);
   (utProvisioningSupported_, KEY_UT_PROVISIONING_SUPPORTED_BOOL);
   (imsPreferForEmergency_, KEY_IMS_PREFER_FOR_EMERGENCY_BOOL);
   (forceVolteSwitchOn_, KEY_FORCE_VOLTE_SWITCH_ON_BOOL);
   (videoCallWaiting_, KEY_VIDEO_CALL_WAITING_ON_BOOL);
   (imsSipCauseEnable_, KEY_IMS_SIP_CAUSE_CODE_ENABLE_ON_BOOL)].
Definition ParseAndCacheOperatorConfigs (slotId : Z) (poc : OperatorConfig) : Cfg Z :=
  locked operatorMutex_
    (if negb (IsValidSlotId slotId) then mret TELEPHONY_ERROR
     else
       mfor parsed_bools (λ p, ParseBoolOperatorConfigs slotId p.1 poc p.2) ;;
       (match intArrayValue poc !! KEY_NR_MODE_SUPPORTED_LIST_INT_ARRAY with
        | Some v => mmodify (set_nrModeSupportedList slotId v) | None => mret () end) ;;
       (match intValue poc !! KEY_CALL_WAITING_SERVICE_CLASS_INT with
        | Some v => mmodify (set_int callWaitingServiceClass_ slotId v) | None => mret () end) ;;
       (match stringArrayValue poc !! KEY_IMS_CALL_DISCONNECT_REASONINFO_MAPPING_STRING_ARRAY with
        | Some v => mmodify (set_reasonMapping slotId v) | None => mret () end) ;;
       mret TELEPHONY_SUCCESS).

(** ** System parameters *)

Definition set_parameter (key value : string) : Cfg () := config (SetParameter key value).

Definition saveImsSwitchStatusToLocal (slotId imsSwitchStatus : Z) : Cfg () :=
  set_parameter (slot_key IMSSWITCH_STATE slotId) (pretty imsSwitchStatus).
Definition saveImsSwitchStatusToLocalForPowerOn (slotId : Z) : Cfg () :=
  on_valid_slot slotId
    (let! q := ask (λ h, core_QueryImsSwitch h slotId IMS_SWITCH_STATUS_UNKNOWN) in
     let '(ret, imsSwitchStatus) := q in
     let! imsSwitchStatus :=
       (if bool_decide (ret ≠ TELEPHONY_SUCCESS) ||
           (imsSwitchStatus =? IMS_SWITCH_STATUS_UNKNOWN)
        then let! on := read_bool imsSwitchOnByDefault_ slotId in mret (BooleanToImsSwitchValue on)
        else mret imsSwitchStatus) in
     saveImsSwitchStatusToLocal slotId imsSwitchStatus).

Definition SaveVoNRState (slotId state : Z) : Cfg () :=
  config (WriteVoNRSwitchChangeEvent state) ;;
  set_parameter (slot_key VONR_STATE slotId) (pretty state).
Definition ObtainVoNRState (slotId : Z) : Cfg Z :=
  ask (λ h, GetIntParameter h (slot_key VONR_STATE slotId) VONR_SWITCH_STATUS_ON).

Definition SaveImsSwitch (slotId imsSwitchValue : Z) : Cfg SaveImsSwitchResult :=
  let! q := ask (λ h, core_QueryImsSwitch h slotId IMS_SWITCH_STATUS_UNKNOWN) in
  let '(queryRet, lastImsSwitchValue) := q in
  if bool_decide (queryRet ≠ TELEPHONY_SUCCESS) then mret SAVE_IMS_SWITCH_FAILED
  else if imsSwitchValue =? lastImsSwitchValue then mret SAVE_IMS_SWITCH_SUCCESS_NOT_CHANGED
  else
    let! saveRet := config_request (CoreSaveImsSwitch slotId imsSwitchValue) in
    if bool_decide (saveRet ≠ TELEPHONY_SUCCESS) then mret SAVE_IMS_SWITCH_FAILED
    else
      saveImsSwitchStatusToLocal slotId imsSwitchValue ;;
      SaveVoNRState slotId imsSwitchValue ;;
      mret SAVE_IMS_SWITCH_SUCCESS_CHANGED.

(** The switch as an [int32_t]: system parameter, database, operator's default. *)
Definition GetSwitchStatus (slotId : Z) : Cfg Z :=
  let! imsSwitchStatus :=
    ask (λ h, GetIntParameter h (slot_key IMSSWITCH_STATE slotId) IMS_SWITCH_STATUS_UNKNOWN) in
  if imsSwitchStatus =? IMS_SWITCH_STATUS_UNKNOWN then
    let! q := ask (λ h, core_QueryImsSwitch h slotId imsSwitchStatus) in
    let '(ret, imsSwitchStatus) := q in
    if bool_decide (ret ≠ TELEPHONY_SUCCESS) || (imsSwitchStatus =? IMS_SWITCH_STATUS_UNKNOWN)
    then let! on := read_bool imsSwitchOnByDefault_ slotId in mret (BooleanToImsSwitchValue on)
    else mret imsSwitchStatus
  else mret imsSwitchStatus.
(** The returned code and [enabled]. *)
Definition GetImsSwitchStatus (slotId : Z) : Cfg (Z * bool) :=
  let! s := mget in
  if bool_decide (bool_maps s hideImsSwitch_ !! slotId = Some true)
  then mret (TELEPHONY_SUCCESS, true)
  else
    let! status := GetSwitchStatus slotId in
    mret (TELEPHONY_SUCCESS, negb (status =? 0)).

(** [char lastIccid\[SYSTEM_PARAMETER_LENGTH\]] receives the parameter. *)
Definition IsSimChanged (slotId : Z) (iccid : string) : Cfg bool :=
  let key := slot_key LAST_ICCID_KEY slotId in
  let! lastIccid := ask (λ h, GetParameter h key "" SYSTEM_PARAMETER_LENGTH) in
  if negb (bool_decide (iccid = lastIccid))
  then set_parameter key (c_str iccid) ;; mret true
  else mret false.

Definition ResetImsSwitch (slotId : Z) : Cfg () :=
  let! hasSimCard := ask (λ h, core_HasSimCard h slotId) in
  if negb hasSimCard then mret ()
  else
    let! iccId := ask (λ h, core_GetSimIccId h slotId) in
    let! changed := IsSimChanged slotId iccId in
    let! force := (if (changed : bool) then read_bool forceVolteSwitchOn_ slotId else mret false) in
    if (force : bool) then
      let! on := read_bool imsSwitchOnByDefault_ slotId in
      let! ret := config_request (CoreSaveImsSwitch slotId (BooleanToImsSwitchValue on)) in
      if bool_decide (ret ≠ TELEPHONY_SUCCESS) then mret ()
      else saveImsSwitchStatusToLocal slotId (BooleanToImsSwitchValue on)
    else mret ().

(** ** Capabilities *)

Definition IsGbaValid (slotId : Z) : Cfg bool :=
  let! required := read_bool imsGbaRequired_ slotId in
  if (required : bool) then
    let! simist := ask (λ h, core_GetSimIst h slotId) in
    match String.get 1 simist with
    | Some c => mret (negb (Z.land IMS_GBA_BIT (Z.of_N (N_of_ascii c)) =? 0))
    | None => mret true
    end
  else mret true.

Definition preferred_network_key (slotId : Z) : string :=
  PREFERRED_NETWORK_MODE +:+ "_" +:+ pretty slotId.
Definition GetPreferredNetworkModeValue (slotId networkMode : Z) : Cfg Z :=
  let! rdbHelper := ask rdb_instance in
  if negb rdbHelper then mret networkMode
  else
    let! q := ask (λ h, rdb_Query h NETWORK_SEARCH_SETTING_URI (preferred_network_key slotId)) in
    let '(ret, value) := q in
    mret (if ret =? 0 then StrToInt value networkMode else networkMode).

(** A provisioned feature: the IMS service says that it is enabled. *)
Definition feature_enabled (type : Z) : Cfg bool :=
  let! featureValue := ask indeterminate in
  let! r := GetImsFeatureValueRequest type featureValue in
  let '(result, featureValue) := r in
  mret (if bool_decide (result ≠ TELEPHONY_SUCCESS) then false
        else featureValue =? IMS_FEATURE_INT_VALUE_ENABLED).
Definition IsVolteProvisioned (slotId : Z) : Cfg bool :=
  let! supported := read_bool volteProvisioningSupported_ slotId in
  if (supported : bool) then feature_enabled TYPE_VOICE_OVER_LTE else mret true.
Definition IsUtProvisioned (slotId : Z) : Cfg bool :=
  let! supported := read_bool utProvisioningSupported_ slotId in
  if (supported : bool) then feature_enabled TYPE_SS_OVER_UT else mret true.

Definition IsVonrSupported (slotId : Z) (isGbaValid : bool) : Cfg bool :=
  let! l := read_nrMode slotId in
  mret (if bool_decide (CARRIER_NR_AVAILABILITY_SA ∈ l) then isGbaValid else false).
Definition IsVonrSupportedForImsSwitch (slotId : Z) (isGbaValid : bool) : Cfg bool :=
  let! q := ask (λ h, core_GetNrOptionMode h slotId NR_MODE_UNKNOWN) in
  let '(queryRet, nrMode) := q in
  mret (if bool_decide (queryRet ≠ TELEPHONY_SUCCESS) then isGbaValid
        else (nrMode =? NR_MODE_NSA_AND_SA) || (nrMode =? NR_MODE_SA_ONLY)).

Definition IsVolteSupport (slotId : Z) : Cfg bool :=
  if negb (IsValidSlotId slotId) then mret false
  else
    let! r := GetImsSwitchStatus slotId in
    let imsSwitch : bool := r.2 in
    let! isGbaValid := IsGbaValid slotId in
    let! isVolteProvisioned := IsVolteProvisioned slotId in
    let! supported := read_bool volteSupported_ slotId in
    mret (supported && isGbaValid && imsSwitch && isVolteProvisioned).

(** What the code pushes to the back of [imsCapabilityList]. *)
Definition UpdateImsVoiceCapabilities (slotId : Z) : Cfg (list ImsCapability) :=
  let! networkMode := GetPreferredNetworkModeValue slotId DEFAULT_NETWORK_MODE in
  let! vonr :=
    (if (NR_MODE_MIN <=? networkMode) && (networkMode <=? NR_MODE_MAX) then
       let! isGbaValid := IsGbaValid slotId in
       let! on := IsVonrSupportedForImsSwitch slotId isGbaValid in
       mret [{| imsCapabilityType := CAPABILITY_TYPE_VOICE; imsRadioTech := IMS_REG_TECH_NR;
                enable := on |}]
     else mret []) in
  let! volte := IsVolteSupport slotId in
  mret (vonr ++ [{| imsCapabilityType := CAPABILITY_TYPE_VOICE; imsRadioTech := IMS_REG_TECH_LTE;
                    enable := volte |}]).
Definition UpdateImsUtCapabilities (slotId : Z) : Cfg (list ImsCapability) :=
  let! isGbaValid := IsGbaValid slotId in
  let! ut := read_bool ssOverUtSupported_ slotId in
  let! provisioned := (if ut && isGbaValid then IsUtProvisioned slotId else mret false) in
  mret [{| imsCapabilityType := CAPABILITY_TYPE_UT; imsRadioTech := IMS_REG_TECH_LTE;
           enable := provisioned |}].

Definition is_call_capability (c : ImsCapability) : bool :=
  bool_decide (imsCapabilityType c = CAPABILITY_TYPE_VOICE ∨
               imsCapabilityType c = CAPABILITY_TYPE_VIDEO).
Fixpoint IsNeedTurnOnIms (imsCapabilities : list ImsCapability) : bool :=
  match imsCapabilities with
  | [] => false
  | c :: l => if is_call_capability c && enable c then true else IsNeedTurnOnIms l
  end.

Definition UpdateImsCapabilities (slotId : Z) (needUpdateUtCapability isOperatorConfigChanged : bool)
    (state : Z) : Cfg () :=
  let! voice := UpdateImsVoiceCapabilities slotId in
  (if isOperatorConfigChanged then NotifyOperatorConfigChanged slotId state ;; mret ()
   else mret ()) ;;
  let! ut := (if needUpdateUtCapability then UpdateImsUtCapabilities slotId else mret []) in
  let imsCapabilityList := voice ++ ut in
  UpdateImsCapabilities_request slotId imsCapabilityList ;;
  SetImsSwitchStatusRequest slotId (IsNeedTurnOnIms imsCapabilityList) ;; mret ().

Definition UpdateImsConfiguration (slotId configState : Z) (isOpcChanged : bool) : Cfg () :=
  on_valid_slot slotId
    (let! q := ask (λ h, core_GetOperatorConfigs h slotId) in
     let '(ret, operatorConfig) := q in
     if bool_decide (ret ≠ TELEPHONY_SUCCESS) then mret ()
     else
       let! result := ParseAndCacheOperatorConfigs slotId operatorConfig in
       if bool_decide (result ≠ TELEPHONY_SUCCESS) then mret ()
       else
         saveImsSwitchStatusToLocalForPowerOn slotId ;;
         ResetImsSwitch slotId ;;
         UpdateImsCapabilities slotId true isOpcChanged configState ;;
         let! s := mget in
         (match bool_maps s videoCallWaiting_ !! slotId with
          | Some activate => SetVideoCallWaiting slotId activate ;; mret ()
          | None => mret () end) ;;
         (match bool_maps s carrierVtAvailable_ !! slotId with
          | Some active => SetCarrierVtConfigRequest slotId active ;; mret ()
          | None => mret () end)).

(** ** Switches *)

Definition sim_ready (simState : Z) : bool :=
  (simState =? SIM_STATE_LOADED) || (simState =? SIM_STATE_READY).
Definition GetSimState (slotId : Z) : Cfg Z :=
  ask (λ h, core_GetSimState h slotId SIM_STATE_UNKNOWN).

Definition SetImsSwitchStatus (slotId : Z) (active : bool) : Cfg Z :=
  let! supported := read_bool volteSupported_ slotId in
  if negb supported then mret CALL_ERR_VOLTE_NOT_SUPPORT
  else
    let! provisioned := (if active then IsVolteProvisioned slotId else mret true) in
    if active && negb provisioned then mret CALL_ERR_VOLTE_PROVISIONING_DISABLED
    else
      let! simId := ask (λ h, core_GetSimId h slotId) in
      if simId <=? INVALID_SIM_ID then mret TELEPHONY_ERR_SLOTID_INVALID
      else
        let! ret := SaveImsSwitch slotId (BooleanToImsSwitchValue active) in
        match ret with
        | SAVE_IMS_SWITCH_FAILED => mret TELEPHONY_ERR_DATABASE_WRITE_FAIL
        | SAVE_IMS_SWITCH_SUCCESS_NOT_CHANGED => mret TELEPHONY_SUCCESS
        | SAVE_IMS_SWITCH_SUCCESS_CHANGED =>
            let! simState := GetSimState slotId in
            (if sim_ready simState
             then UpdateImsCapabilities slotId (negb active) false INVALID_OPERATOR_CONFIG_STATE
             else mret ()) ;;
            mret TELEPHONY_SUCCESS
        end.

Definition SetVoNRSwitchStatus (slotId state : Z) : Cfg Z :=
  let! isGbaValid := IsGbaValid slotId in
  let! supported := IsVonrSupported slotId isGbaValid in
  if negb supported then mret TELEPHONY_ERR_FAIL
  else
    let! simState := GetSimState slotId in
    if sim_ready simState then
      SetVoNRSwitchStatusRequest slotId state ;;
      locked operatorMutex_ (mmodify (set_int vonrSwithStatus_ slotId state)) ;;
      mret TELEPHONY_SUCCESS
    else mret TELEPHONY_ERR_NO_SIM_CARD.
(** The returned code and [state]. *)
Definition GetVoNRSwitchStatus (slotId : Z) : Cfg (Z * Z) :=
  let! isGbaValid := IsGbaValid slotId in
  let! supported := IsVonrSupported slotId isGbaValid in
  if negb supported then mret (TELEPHONY_SUCCESS, VONR_SWITCH_STATUS_OFF)
  else
    let! state := ObtainVoNRState slotId in
    mret (TELEPHONY_SUCCESS, state).

Definition HandleSetVoNRSwitchResult (slotId result : Z) : Cfg () :=
  if bool_decide (result ≠ ErrType_NONE) then mret ()
  else
    locked operatorMutex_
      (let! state := read_int vonrSwithStatus_ slotId in SaveVoNRState slotId state) ;;
    let! imsCapabilityList := UpdateImsVoiceCapabilities slotId in
    UpdateImsCapabilities_request slotId imsCapabilityList ;; mret ().

Definition HandleFactoryReset (slotId : Z) : Cfg () :=
  on_valid_slot slotId
    (let! hasSimCard := ask (λ h, core_HasSimCard h slotId) in
     if negb hasSimCard then mret ()
     else
       let! on := read_bool imsSwitchOnByDefault_ slotId in
       SaveImsSwitch slotId (BooleanToImsSwitchValue on) ;;
       UpdateImsCapabilities slotId true false INVALID_OPERATOR_CONFIG_STATE ;;
       if CELLULAR_CALL_REDCAP_ABILITY then config (HandleRedcapFactoryReset slotId) else mret ()).

(** [CellularCallConfig::SetRadioOn], a static method of the REDCAP build. *)
Definition SetRadioOn (isRadioOn : bool) : Cfg () :=
  locked mutex_ (mmodify (set_flag isRadioOn_ isRadioOn)).
Definition SetPreferredNetworkByConfig (slotId : Z) : Cfg () :=
  let! isProcess :=
    locked mutex_
      (let! s := mget in
       mmodify (set_flag isOperatorConfigChanged_ false) ;;
       mret (flags s isOperatorConfigChanged_ || flags s isRadioOn_)) in
  if (isProcess : bool) then config (ExtSetPreferredNetworkByConfig slotId) else mret ().
Definition HandleSetLteImsSwitchResult (slotId result : Z) : Cfg () :=
  on_valid_slot slotId
    (if CELLULAR_CALL_REDCAP_ABILITY then SetPreferredNetworkByConfig slotId else mret ()).
Definition HandleOperatorConfigChanged (slotId state : Z) : Cfg () :=
  (if CELLULAR_CALL_REDCAP_ABILITY
   then locked mutex_ (mmodify (set_flag isOperatorConfigChanged_ true)) else mret ()) ;;
  UpdateImsConfiguration slotId state true.

(** ** Preferred domain *)

Definition SetDomainPreferenceMode (slotId mode : Z) : Cfg Z :=
  if (mode <? CS_VOICE_ONLY) || (IMS_PS_VOICE_ONLY <? mode)
  then mret CALL_ERR_PARAMETER_OUT_OF_RANGE
  else
    mmodify (set_int modeTempMap_ slotId mode) ;;
    SetDomainPreferenceModeRequest slotId mode.
Definition GetDomainPreferenceMode (slotId : Z) : Cfg Z := GetDomainPreferenceModeRequest slotId.
Definition GetDomainPreferenceModeResponse (slotId mode : Z) : Cfg () :=
  locked modeMutex_ (on_valid_slot slotId (mmodify (set_int modeMap_ slotId mode))).
Definition SetTempMode (slotId : Z) : Cfg () :=
  locked modeMutex_
    (on_valid_slot slotId
       (let! mode := read_int modeTempMap_ slotId in mmodify (set_int modeMap_ slotId mode))).
Definition GetPreferenceMode (slotId : Z) : Cfg Z :=
  locked modeMutex_ (read_int modeMap_ slotId).

(** ** The clear code of the last call *)

Definition SetClearCode (slotId cause : Z) : Cfg () :=
  on_valid_slot slotId
    (let! s := mget in
     (if negb (lastDisconnectCode_ s =? 0) then
        mmodify (set_lastDisconnectCode 0) ;; set_parameter DISCONNECT_CODE "0"
      else mret ()) ;;
     if negb (IsValidSlotId slotId) || (cause <=? 0) then mret ()
     else
       let! sip := (if IMS_CAUSE_BASE <=? cause then read_bool imsSipCauseEnable_ slotId
                    else mret true) in
       if (IMS_CAUSE_BASE <=? cause) && negb sip then mret ()
       else
         let code := if IMS_CAUSE_BASE <=? cause then cause - IMS_CAUSE_BASE else cause in
         if code =? 0 then mret ()
         else
           mmodify (set_lastDisconnectCode code) ;;
           set_parameter DISCONNECT_CODE (pretty code)).

(** ** Requests without state, and reads *)

Definition SetImsConfig_string (item : Z) (value : string) : Cfg Z :=
  SetImsConfigRequest_string item value.
Definition SetImsConfig_int (item value : Z) : Cfg Z := SetImsConfigRequest_int item value.
Definition GetImsConfig (item : Z) : Cfg Z := GetImsConfigRequest item.
Definition SetImsFeatureValue (type value : Z) : Cfg Z := SetImsFeatureValueRequest type value.
Definition GetImsFeatureValue (type : Z) : Cfg Z :=
  let! imsFeatureValue := ask indeterminate in
  let! r := GetImsFeatureValueRequest type imsFeatureValue in
  let '(ret, imsFeatureValue) := r in
  config (ReportGetImsFeatureResult ret imsFeatureValue) ;; mret ret.
Definition SetRttCapability (slotId : Z) (isEnable : bool) : Cfg Z :=
  SetCarrierVtConfigRequest slotId (negb isEnable).
Definition SetMute (slotId mute : Z) : Cfg Z := SetMuteRequest slotId mute.
Definition GetMute (slotId : Z) : Cfg Z := GetMuteRequest slotId.
Definition GetEmergencyCallList (slotId : Z) : Cfg Z := GetEmergencyCallListRequest slotId.
Definition SetEmergencyCallList (slotId : Z) (eccVec : list EmergencyCall) : Cfg Z :=
  SetEmergencyCallListRequest slotId eccVec.
(** [CellularCallConfig::GetImsSwitchStatusRequest] *)
Definition GetImsSwitchStatus_request (slotId : Z) : Cfg () :=
  ConfigRequest.GetImsSwitchStatusRequest slotId ;; mret ().

(** The code and [enabled]: [false] when the slot has no entry. *)
Definition find_bool (m : BoolMap) (slotId : Z) : Cfg (Z * bool) :=
  let! s := mget in mret (TELEPHONY_SUCCESS, bool_at s m slotId).
Definition GetCarrierVtConfig (slotId : Z) : Cfg (Z * bool) := find_bool carrierVtAvailable_ slotId.
Definition GetVideoCallWaiting (slotId : Z) : Cfg (Z * bool) := find_bool videoCallWaiting_ slotId.

(** [if (!IsValidSlotId(slotId)) return d; return m\[slotId\];] *)
Definition checked_bool (d : bool) (m : BoolMap) (slotId : Z) : Cfg bool :=
  if negb (IsValidSlotId slotId) then mret d else read_bool m slotId.
Definition GetCarrierVtAvailbleConfig := checked_bool false carrierVtAvailable_.
Definition GetImsSwitchOnByDefaultConfig := checked_bool true imsSwitchOnByDefault_.
Definition GethideImsSwitchConfig := checked_bool false hideImsSwitch_.
Definition GetvolteSupportedConfig := checked_bool false volteSupported_.
Definition GetVolteProvisioningSupportedConfig := checked_bool false volteProvisioningSupported_.
Definition GetSsOverUtSupportedConfig := checked_bool false ssOverUtSupported_.
Definition GetImsGbaRequiredConfig := checked_bool false imsGbaRequired_.
Definition GetUtProvisioningSupportedConfig := checked_bool false utProvisioningSupported_.
Definition GetImsPreferForEmergencyConfig := checked_bool true imsPreferForEmergency_.
Definition GetForceVolteSwitchOnConfig := checked_bool false forceVolteSwitchOn_.
Definition IsReadyToCall := checked_bool false readyToCall_.
Definition SetReadyToCall (slotId : Z) (isReadyToCall : bool) : Cfg () :=
  on_valid_slot slotId (mmodify (set_bool readyToCall_ slotId isReadyToCall)).
Definition GetNrModeSupportedListConfig (slotId : Z) : Cfg (list Z) :=
  if negb (IsValidSlotId slotId)
  then mret [CARRIER_NR_AVAILABILITY_NSA; CARRIER_NR_AVAILABILITY_SA]
  else read_nrMode slotId.
Definition GetCallWaitingServiceClassConfig (slotId : Z) : Cfg Z :=
  if negb (IsValidSlotId slotId) then mret 1 else read_int callWaitingServiceClass_ slotId.
Definition GetImsCallDisconnectResoninfoMappingConfig (slotId : Z) : Cfg (list string) :=
  locked operatorMutex_
    (if negb (IsValidSlotId slotId) then mret [] else read_reasonMapping slotId).
End Config.
