(* ===== verification/ConfigEcc.v ===== *)
(** * ConfigEcc: the emergency number lists (services/utils/cellular_call_config)

    The numbers a slot treats as emergency numbers ([allEccList_]) are merged
    from what the modem reports, the built-in 3GPP numbers and the operator's
    fake numbers.  In the other direction the numbers of the operator
    configuration or of the database are sent to the modem, by the SIM's or the
    visited network; the lists last sent are kept per network.  Each function
    follows the function of the same name. *)

From stdpp Require Import base tactics option list numbers strings pretty gmap functions.
From Stdlib Require Import ZArith Lia Ascii String.
From S2P Require Import Prelude ConfigTypes Platform Standardize ControlBase Service Handler.
From S2P Require Import SupplementRequestCs Supplement ConfigRequest Config.

Open Scope Z_scope.

Section Ecc.
Context `{CallConsts, E : Env, ServiceEnv, HandlerEnv, SupplementEnv, ConfigEnv}.
Abbreviation Cfg A := (Op CellularCallConfig A).

Definition MCC_LEN : nat := 3.

(** [StandardizeUtils::Split(s, ",")] *)
Definition split_numbers (s : string) : list string := default [] (Split s ",").

Definition BuildDefaultEmergencyCall (number : string) (simType : Z) : EmergencyCall :=
  match String.index 0 "+" number with
  | Some pos =>
      {| eccNum := String.substring pos (String.length number) number;
         ecc_eccType := atoi (c_str (String.substring 0 pos number));
         ecc_simpresent := simType; ecc_mcc := ""; ecc_abnormalService := TYPE_ALL |}
  | None =>
      {| eccNum := number; ecc_eccType := TYPE_CATEGORY; ecc_simpresent := simType;
         ecc_mcc := ""; ecc_abnormalService := TYPE_ALL |}
  end.
Definition BuildEmergencyCall (from : EmergencyInfo) : EmergencyCall :=
  {| eccNum := ei_eccNum from; ecc_eccType := ei_category from;
     ecc_simpresent := ei_simpresent from; ecc_mcc := ei_mcc from;
     ecc_abnormalService := ei_abnormalService from |}.
(** [ecc.mcc = mcc] *)
Definition set_mcc (mcc : string) (e : EmergencyCall) : EmergencyCall :=
  {| eccNum := eccNum e; ecc_mcc := mcc; ecc_eccType := ecc_eccType e;
     ecc_simpresent := ecc_simpresent e; ecc_abnormalService := ecc_abnormalService e |}.
(** [std::find(l.begin(), l.end(), call) != l.end()] *)
Definition ecc_mem (call : EmergencyCall) (l : list EmergencyCall) : bool :=
  existsb (λ e, EmergencyCall_eqb e call) l.

(** ** What the slot treats as an emergency number *)

Definition InitModeActive : Cfg () :=
  mmodify (set_int modeMap_ DEFAULT_SIM_SLOT_ID IMS_PS_VOICE_PREFERRED) ;;
  locked mutex_
    (mmodify (set_ecc_map eccListRadioMap_ (λ _, ∅)) ;;
     mmodify (set_ecc_map allEccList_ (λ _, ∅)) ;;
     mmodify (set_ecc3gpp
       (map (λ n, BuildDefaultEmergencyCall n TYPE_HAS_CARD) ["112"; "911"])
       (map (λ n, BuildDefaultEmergencyCall n TYPE_NO_CARD)
          ["112"; "911"; "000"; "08"; "110"; "118"; "119"; "999"]))).

Definition GetMcc (slotId : Z) : Cfg string :=
  let! imsi := ask (λ h, core_GetSimOperatorNumeric h slotId) in
  mret (if (MCC_LEN <=? String.length imsi)%nat then String.substring 0 MCC_LEN imsi else imsi).

Definition GetRoamingState (slotId : Z) : Cfg bool :=
  let! networkState := ask (λ h, core_GetNetworkStatus h slotId) in
  mret (match networkState with None => false | Some n => ns_roaming n end).

(** The list without the entries equal to an earlier one. *)
Fixpoint unique_loop (eccList all : list EmergencyCall) : list EmergencyCall :=
  match eccList with
  | [] => all
  | call :: l => unique_loop l (if ecc_mem call all then all else all ++ [call])
  end.
Definition UniqueEccCallList (slotId : Z) (eccList : list EmergencyCall) : Cfg () :=
  mmodify (set_ecc_map allEccList_ <[slotId := unique_loop eccList []]>).

Fixpoint merge_fake (fake eccList : list EmergencyCall) : list EmergencyCall :=
  match fake with
  | [] => eccList
  | eccInfo :: l => merge_fake l (if ecc_mem eccInfo eccList then eccList else eccList ++ [eccInfo])
  end.
(** The new [eccList]. *)
Definition UpdateEccListByFakeEccList (slotId : Z) (eccList : list EmergencyCall)
    : Cfg (list EmergencyCall) :=
  locked plmnMutex_
    (let! fake := read_vector hplmnFakeEccList_ slotId in
     mret (merge_fake (ecl_eccInfoList fake) eccList)).

(** One number of [callList]: the new [eccList] and the new kept list. *)
Definition add_fake (mcc it : string) (eccList kept : list EmergencyCall)
    : list EmergencyCall * list EmergencyCall :=
  let call := set_mcc mcc (BuildDefaultEmergencyCall it TYPE_HAS_CARD) in
  (eccList ++ [call], if ecc_mem call kept then kept else kept ++ [call]).
Fixpoint add_fakes (mcc : string) (callList : list string) (eccList kept : list EmergencyCall)
    : list EmergencyCall * list EmergencyCall :=
  match callList with
  | [] => (eccList, kept)
  | it :: l => let '(eccList, kept) := add_fake mcc it eccList kept in add_fakes mcc l eccList kept
  end.
Definition UpdateHplmnFakeEccList (callList : list string) (hplmn : string) (slotId : Z)
    (eccList : list EmergencyCall) (mcc : string) : Cfg (list EmergencyCall) :=
  match callList with
  | [] => mret eccList
  | _ =>
      locked plmnMutex_
        (let! fake := read_vector hplmnFakeEccList_ slotId in
         let '(eccList, kept) := add_fakes mcc callList eccList (ecl_eccInfoList fake) in
         write_vector hplmnFakeEccList_ slotId {| ecl_plmn := hplmn; ecl_eccInfoList := kept |} ;;
         mret eccList)
  end.

Definition MergeEccCallList (slotId : Z) : Cfg () :=
  let! mcc := GetMcc slotId in
  let! radio := read_ecc eccListRadioMap_ slotId in
  let tempEccList := map (set_mcc mcc) radio in
  let! simState := GetSimState slotId in
  let hasSim := sim_ready simState in
  let! s := mget in
  let tempEccList :=
    tempEccList ++
    (if hasSim then (if string_empty mcc then [] else map (set_mcc mcc) (eccList3gppHasSim_ s))
     else map (set_mcc mcc) (eccList3gppNoSim_ s)) in
  let! hplmn := ask (λ h, core_GetSimOperatorNumeric h slotId) in
  let! roaming := (if hasSim then GetRoamingState slotId else mret true) in
  if hasSim && negb roaming && negb (string_empty hplmn) then
    let! fake := locked plmnMutex_ (read_vector hplmnFakeEccList_ slotId) in
    if bool_decide (ecl_plmn fake = hplmn) then
      let! tempEccList := UpdateEccListByFakeEccList slotId tempEccList in
      UniqueEccCallList slotId tempEccList
    else
      let! q := ask (λ h, rdb_QueryEccList h hplmn) in
      match q.2 with
      | [] => UniqueEccCallList slotId tempEccList
      | ecc :: _ =>
          let callList := split_numbers (ecc_fake ecc) in
          let! tempEccList := UpdateHplmnFakeEccList callList hplmn slotId tempEccList mcc in
          UniqueEccCallList slotId tempEccList
      end
  else UniqueEccCallList slotId tempEccList.

Definition UpdateEmergencyCallFromRadio (slotId : Z) (calls : list EmergencyInfo) : Cfg () :=
  on_valid_slot slotId
    (locked mutex_
       (mmodify (set_ecc_map eccListRadioMap_ <[slotId := map BuildEmergencyCall calls]>) ;;
        MergeEccCallList slotId)).

Definition GetEccCallList (slotId : Z) : Cfg (list EmergencyCall) :=
  shared_locked mutex_ (read_ecc allEccList_ slotId).

(** ** What is sent to the modem *)

(** The code, and [isHomeAndPresent] when the code is success. *)
Definition CheckHomeAndPresentState (slotId : Z) : Cfg (Z * bool) :=
  let! networkState := ask (λ h, core_GetNetworkStatus h slotId) in
  match networkState with
  | None => mret (TELEPHONY_ERR_FAIL, false)
  | Some n =>
      let isNetworkInService := bool_decide (ns_regStatus n = REG_STATE_IN_SERVICE) in
      let isHomeNetRegister := isNetworkInService && negb (ns_roaming n) in
      let! present := shared_locked simStateLock_ (read_int simState_ slotId) in
      mret (TELEPHONY_SUCCESS, isHomeNetRegister && (present =? SIM_PRESENT))
  end.

(** [callListWithCard] and [callListNoCard]: untouched without a row. *)
Definition GetEccListFromResult (eccVec : list EccNum) (callListWithCard callListNoCard : list string)
    : list string * list string :=
  match eccVec with
  | [] => (callListWithCard, callListNoCard)
  | e :: _ => (split_numbers (ecc_withcard e), split_numbers (ecc_nocard e))
  end.

(** [None]: the caller returns ([true] in the code); otherwise
    [isHplmnEccList] and the two lists. *)
Definition ProcessHplmnEccList (slotId : Z) (hplmn : string)
    : Cfg (option (bool * list string * list string)) :=
  let! q := ask (λ h, core_GetOperatorConfigs h slotId) in
  let callListWithCard :=
    default [] (stringArrayValue q.2 !! KEY_EMERGENCY_CALL_STRING_ARRAY) in
  match callListWithCard with
  | [] =>
      config (Lock plmnMutex_ false) ;;
      let! kept := read_vector hplmnEccList_ slotId in
      if bool_decide (ecl_plmn kept = hplmn) then
        SetEmergencyCallList slotId (ecl_eccInfoList kept) ;;
        config (Unlock plmnMutex_) ;; mret None
      else
        config (Unlock plmnMutex_) ;;
        let! r := ask (λ h, rdb_QueryEccList h hplmn) in
        let '(ret, eccVec) := r in
        mret (if bool_decide (ret = TELEPHONY_SUCCESS)
              then let '(w, n) := GetEccListFromResult eccVec [] [] in Some (true, w, n)
              else None)
  | _ =>
      SetEmergencyCallList slotId
        (map (λ it, BuildDefaultEmergencyCall it TYPE_HAS_CARD) callListWithCard) ;;
      mret None
  end.

(** From the comparison with the kept list on, with [plmnMutex_] held. *)
Definition current_plmn_list (slotId : Z) (curPlmn : string)
    : Cfg (option (bool * list string * list string)) :=
  let! kept := read_vector currentPlmnEccList_ slotId in
  if bool_decide (ecl_plmn kept = curPlmn) then
    SetEmergencyCallList slotId (ecl_eccInfoList kept) ;;
    config (Unlock plmnMutex_) ;; mret None
  else
    config (Unlock plmnMutex_) ;;
    let! r := ask (λ h, rdb_QueryEccList h curPlmn) in
    let '(ret, eccVec) := r in
    mret (if bool_decide (ret = TELEPHONY_SUCCESS)
          then let '(w, n) := GetEccListFromResult eccVec [] [] in Some (false, w, n)
          else None).
Definition ProcessCurrentPlmnEccList (slotId : Z)
    : Cfg (option (bool * list string * list string)) :=
  config (Lock plmnMutex_ false) ;;
  let! curPlmn := read_curPlmn slotId in
  if string_empty curPlmn then
    let! rplmn := ask (λ h, core_GetOperatorNumeric h slotId) in
    if string_empty rplmn then config (Unlock plmnMutex_) ;; mret None
    else mmodify (set_curPlmn slotId rplmn) ;; current_plmn_list slotId rplmn
  else current_plmn_list slotId curPlmn.

(** The entries for the numbers of a network. *)
Definition build_ecc_list (callListWithCard callListNoCard : list string) : list EmergencyCall :=
  map (λ it, BuildDefaultEmergencyCall it TYPE_HAS_CARD) callListWithCard ++
  map (λ it, BuildDefaultEmergencyCall it TYPE_NO_CARD) callListNoCard.

Definition UpdateEccNumberList (slotId : Z) : Cfg () :=
  on_valid_slot slotId
    (let! hplmn := ask (λ h, core_GetSimOperatorNumeric h slotId) in
     let! c := CheckHomeAndPresentState slotId in
     let '(ret, isHomeAndPresent) := c in
     if bool_decide (ret ≠ TELEPHONY_SUCCESS) then mret ()
     else
       let! lists :=
         (if negb (string_empty hplmn) && isHomeAndPresent then ProcessHplmnEccList slotId hplmn
          else ProcessCurrentPlmnEccList slotId) in
       match lists with
       | None => mret ()
       | Some (isHplmnEccList, callListWithCard, callListNoCard) =>
           let eccInfoList := build_ecc_list callListWithCard callListNoCard in
           locked plmnMutex_
             (if (isHplmnEccList : bool)
              then write_vector hplmnEccList_ slotId
                     {| ecl_plmn := hplmn; ecl_eccInfoList := eccInfoList |}
              else
                let! curPlmn := read_curPlmn slotId in
                write_vector currentPlmnEccList_ slotId
                  {| ecl_plmn := curPlmn; ecl_eccInfoList := eccInfoList |}) ;;
           SetEmergencyCallList slotId eccInfoList ;; mret ()
       end).

(** ** When the lists are renewed *)

(** Whether the SIM came or went. *)
Definition CheckAndUpdateSimState (slotId : Z) : Cfg bool :=
  let! simState := GetSimState slotId in
  let simStateForEcc := if sim_ready simState then SIM_PRESENT else SIM_ABSENT in
  locked simStateLock_
    (let! old := read_int simState_ slotId in
     mmodify (set_int simState_ slotId simStateForEcc) ;;
     mret (negb (old =? simStateForEcc))).

Definition check_ims_after_nv_update (slotId : Z) : Cfg () :=
  locked operatorMutex_ (mmodify (set_bool shouldCheckImsAfterNvUpdate_ slotId true)).

Definition HandleSimStateChanged (slotId : Z) : Cfg () :=
  on_valid_slot slotId
    (let! changed := CheckAndUpdateSimState slotId in
     (if (changed : bool) then UpdateEccNumberList slotId else mret ()) ;;
     check_ims_after_nv_update slotId).
Definition HandleSimRecordsLoaded (slotId : Z) : Cfg () :=
  on_valid_slot slotId
    (CheckAndUpdateSimState slotId ;; UpdateEccNumberList slotId ;;
     check_ims_after_nv_update slotId).
Definition HandleResidentNetworkChange (slotId : Z) (plmn : string) : Cfg () :=
  on_valid_slot slotId
    (locked modeMutex_ (mmodify (set_curPlmn slotId plmn)) ;;
     CheckAndUpdateSimState slotId ;; UpdateEccNumberList slotId).
Definition HandleSimAccountLoaded (slotId : Z) : Cfg () :=
  on_valid_slot slotId
    (CheckAndUpdateSimState slotId ;;
     UpdateImsConfiguration slotId INVALID_OPERATOR_CONFIG_STATE false ;;
     UpdateEccNumberList slotId).

(** Whether the service or the roaming state changed. *)
Definition update_network_state (slotId : Z) : Cfg bool :=
  let! s := mget in
  match networkServiceState_ s !! slotId with
  | None => mret false
  | Some old =>
      let! networkState := ask (λ h, core_GetNetworkStatus h slotId) in
      match networkState with
      | None => mret false
      | Some n =>
          let isInSrv := bool_decide (ns_regStatus n = REG_STATE_IN_SERVICE) in
          let! check := (if isInSrv then read_bool shouldCheckImsAfterNvUpdate_ slotId
                         else mret false) in
          (if (check : bool) then
             GetImsSwitchStatus_request slotId ;;
             mmodify (set_bool shouldCheckImsAfterNvUpdate_ slotId false)
           else mret ()) ;;
          let isRoam := ns_roaming n in
          if Bool.eqb (isInService_ old) isInSrv && Bool.eqb (isRoaming_ old) isRoam
          then mret false
          else
            mmodify (set_networkState slotId {| isInService_ := isInSrv; isRoaming_ := isRoam |}) ;;
            mret true
      end
  end.
Definition HandleNetworkStateChange (slotId : Z) : Cfg () :=
  on_valid_slot slotId
    (let! changed := locked operatorMutex_ (update_network_state slotId) in
     if (changed : bool) then CheckAndUpdateSimState slotId ;; UpdateEccNumberList slotId
     else mret ()).

Definition ClearCachedEcclist (slotId : Z) : Cfg () :=
  locked plmnMutex_
    (write_vector hplmnEccList_ slotId EccList_new ;;
     write_vector currentPlmnEccList_ slotId EccList_new ;;
     write_vector hplmnFakeEccList_ slotId EccList_new).
Definition HandleEccListChange : Cfg () :=
  mfor (seqZ 0 SIM_SLOT_COUNT) (λ i, ClearCachedEcclist i ;; UpdateEccNumberList i).
End Ecc.
