(* ===== verification/ConfigHandler.v ===== *)
(** * ConfigHandler: who calls the configuration

    - the answers and events [CellularCallHandler] hands on
      (services/manager/src/cellular_call_handler.cpp): the handler's slot and
      whether it has a [registerInstance_] are arguments;
    - the operations of [CellularCallService] for the settings
      (services/manager/src/cellular_call_service.cpp): each checks the slot
      first.

    Every caller makes a [CellularCallConfig] of its own, so every operation
    starts with the constructor. *)

From stdpp Require Import base tactics option list numbers strings pretty gmap functions.
From Stdlib Require Import ZArith Lia Ascii String.
From S2P Require Import Prelude ConfigTypes Platform Standardize ControlBase Service Handler.
From S2P Require Import SupplementRequestCs Supplement ConfigRequest Config ConfigEcc.

Open Scope Z_scope.

Definition KEY_PERSIST_TELEPHONY_VOLTE_CAP_IN_CHIP : string := "persist.telephony.volte_cap_in_chip".

Section ConfigHandler.
Context `{CallConsts, E : Env, ServiceEnv, HandlerEnv, SupplementEnv, ConfigEnv}.
Abbreviation Cfg A := (Op CellularCallConfig A).

(** [CellularCallConfig config; return config.k();] *)
Definition construct {A} (k : Cfg A) : Cfg A := CellularCallConfig_ctor ;; k.

(** ** CellularCallHandler *)

Section Handler.
Variables (slotId : Z) (registerInstance : bool).

(** [if (event->GetSharedObject<T>() == nullptr) return;] *)
Definition with_object {A} (o : option A) (k : A → Cfg ()) : Cfg () :=
  match o with None => mret () | Some x => k x end.
(** [if (registerInstance_ == nullptr) return;] *)
Definition to_register (k : Cfg ()) : Cfg () := if registerInstance then k else mret ().

Definition SimStateChangeReport : Cfg () :=
  construct (HandleSimStateChanged slotId) ;;
  to_register (report (ReportCallTransferStatus slotId false)).
Definition FactoryReset : Cfg () := construct (HandleFactoryReset slotId).
Definition SimRecordsLoadedReport : Cfg () := construct (HandleSimRecordsLoaded slotId).
Definition SimAccountLoadedReport : Cfg () := construct (HandleSimAccountLoaded slotId).
Definition ResidentNetworkChangeReport (result : option string) : Cfg () :=
  with_object result (λ plmn, construct (HandleResidentNetworkChange slotId plmn)).
Definition NetworkStateChangeReport : Cfg () := construct (HandleNetworkStateChange slotId).

(** [info]: the error of the modem's answer. *)
Definition SetDomainPreferenceModeResponse (info : option Z) : Cfg () :=
  with_object info (λ error,
    let success := bool_decide (error = ErrType_NONE) in
    (if success then construct (SetTempMode slotId) else mret ()) ;;
    to_register (config (ReportPreferenceModeResult success))).
Definition GetDomainPreferenceModeResponse (mode : option Z) : Cfg () :=
  with_object mode (λ mode, construct (Config.GetDomainPreferenceModeResponse slotId mode)).

Definition UpdateImsConfiguration : Cfg () :=
  let! hasSimCard := ask (λ h, core_HasSimCard h slotId) in
  if negb hasSimCard then mret ()
  else construct (Config.UpdateImsConfiguration slotId INVALID_OPERATOR_CONFIG_STATE false).
Definition GetImsSwitchStatusRequest : Cfg () :=
  let! hasSimCard := ask (λ h, core_HasSimCard h slotId) in
  if negb hasSimCard then mret ()
  else
    construct
      (let! volte := IsVolteSupport slotId in
       let! wanted :=
         (if (volte : bool) then mret true
          else
            let! registered := ask (λ h, core_ImsRegistered h slotId) in
            if (registered : bool) then let! again := IsVolteSupport slotId in mret (negb again)
            else mret false) in
       if (wanted : bool) then GetImsSwitchStatus_request slotId else mret ()).

Definition SetImsSwitchStatusResponse (info : option Z) : Cfg () :=
  with_object info (λ error,
    to_register (construct (HandleSetLteImsSwitchResult slotId error))).
(** The modem answers with an error ([inl]) or with the state ([inr]). *)
Definition GetImsSwitchStatusResponse (event : option (Z + Z)) : Cfg () :=
  with_object event (λ answer,
    match answer with
    | inl _ => UpdateImsConfiguration
    | inr active =>
        construct
          (let! isVolteSupport := IsVolteSupport slotId in
           if negb (active =? Z.b2z isVolteSupport) then UpdateImsConfiguration
           else if CELLULAR_CALL_REDCAP_ABILITY then SetPreferredNetworkByConfig slotId
           else mret ())
    end).
Definition SetVoNRSwitchStatusResponse (info : option Z) : Cfg () :=
  with_object info (λ error, construct (HandleSetVoNRSwitchResult slotId error)).

Definition SetMuteResponse (info : option Z) : Cfg () :=
  with_object info (λ error, to_register (config (ReportSetMuteResult error))).
(** The modem answers with an error ([inl]) or with the mute state ([inr]);
    [value] is what a [MuteControlResponse] is declared with. *)
Definition GetMuteResponse (value : Z) (event : option (Z + Z)) : Cfg () :=
  with_object event (λ answer,
    to_register
      (match answer with
       | inl error => config (ReportGetMuteResult error value)
       | inr mute => config (ReportGetMuteResult ErrType_NONE mute)
       end)).

Definition GetEmergencyCallListResponse (eccList : option (list EmergencyInfo)) : Cfg () :=
  with_object eccList (λ calls, construct (UpdateEmergencyCallFromRadio slotId calls)).
Definition SetEmergencyCallListResponse (info : option Z) : Cfg () :=
  with_object info (λ error, to_register (config (ReportSetEmergencyCallListResponse error))).
(** A report in parts: the last entry says how many there are. *)
Definition ReportEccChanged (emergencyInfoList : option (list EmergencyInfo)) : Cfg () :=
  with_object emergencyInfoList (λ calls,
    construct
      (match list_basics.list.last calls with
       | Some endCall =>
           if negb (ei_total endCall mod 2 ^ 32 =? size_t (Z.of_nat (Datatypes.length calls))) then
             if ei_index endCall <? ei_total endCall then mret ()
             else GetEmergencyCallList slotId ;; mret ()
           else UpdateEmergencyCallFromRadio slotId calls
       | None => UpdateEmergencyCallFromRadio slotId calls
       end)).

Definition HandleOperatorConfigChanged (state : option Z) : Cfg () :=
  with_object state (λ state, construct (Config.HandleOperatorConfigChanged slotId state)).

Definition GetImsCapabilities : Cfg Z :=
  let! client := ask ims_client_instance in
  if negb client then mret TELEPHONY_ERR_LOCAL_PTR_NULL
  else config_request (ImsGetImsCapabilities slotId).
(** [imsCap]: its [volteCap]. *)
Definition GetImsCapResponse (imsCap : option Z) : Cfg () :=
  match imsCap with
  | None => config (CoreSetMatchSimStateTracker slotId)
  | Some volteCap =>
      let volteCapKey :=
        KEY_PERSIST_TELEPHONY_VOLTE_CAP_IN_CHIP +:+ "_slot" +:+ pretty slotId in
      config (SetParameter volteCapKey (pretty volteCap)) ;;
      config (CoreUpdateImsCapFromChip slotId volteCap) ;;
      UpdateImsConfiguration ;;
      GetImsSwitchStatusRequest
  end.
End Handler.

(** ** CellularCallService *)

(** [if (!IsValidSlotId(slotId)) return CALL_ERR_INVALID_SLOT_ID;] *)
Definition service_config (slotId : Z) (k : Cfg Z) : Cfg Z :=
  if negb (Service.IsValidSlotId slotId) then mret CALL_ERR_INVALID_SLOT_ID else construct k.
(** The same with an out-parameter, which is untouched on an invalid slot. *)
Definition service_read {A} (slotId : Z) (old : A) (k : Cfg (Z * A)) : Cfg (Z * A) :=
  if negb (Service.IsValidSlotId slotId) then mret (CALL_ERR_INVALID_SLOT_ID, old)
  else construct k.

Definition service_SetEmergencyCallList (slotId : Z) (eccVec : list EmergencyCall) : Cfg Z :=
  service_config slotId (SetEmergencyCallList slotId eccVec).
Definition service_SetDomainPreferenceMode (slotId mode : Z) : Cfg Z :=
  service_config slotId (SetDomainPreferenceMode slotId mode).
Definition service_GetDomainPreferenceMode (slotId : Z) : Cfg Z :=
  service_config slotId (GetDomainPreferenceMode slotId).
Definition service_GetCarrierVtConfig (slotId : Z) (enabled : bool) : Cfg (Z * bool) :=
  service_read slotId enabled (GetCarrierVtConfig slotId).
Definition service_SetImsSwitchStatus (slotId : Z) (active : bool) : Cfg Z :=
  service_config slotId (SetImsSwitchStatus slotId active).
Definition service_GetImsSwitchStatus (slotId : Z) (enabled : bool) : Cfg (Z * bool) :=
  service_read slotId enabled (GetImsSwitchStatus slotId).
Definition service_GetVideoCallWaiting (slotId : Z) (enabled : bool) : Cfg (Z * bool) :=
  service_read slotId enabled (GetVideoCallWaiting slotId).
Definition SetVoNRState (slotId state : Z) : Cfg Z :=
  service_config slotId (SetVoNRSwitchStatus slotId state).
Definition GetVoNRState (slotId state : Z) : Cfg (Z * Z) :=
  service_read slotId state (GetVoNRSwitchStatus slotId).
Definition service_SetImsConfig_string (slotId item : Z) (value : string) : Cfg Z :=
  service_config slotId (SetImsConfig_string item value).
Definition service_SetImsConfig_int (slotId item value : Z) : Cfg Z :=
  service_config slotId (SetImsConfig_int item value).
Definition service_GetImsConfig (slotId item : Z) : Cfg Z :=
  service_config slotId (GetImsConfig item).
Definition service_SetImsFeatureValue (slotId type value : Z) : Cfg Z :=
  service_config slotId (SetImsFeatureValue type value).
Definition service_GetImsFeatureValue (slotId type : Z) : Cfg Z :=
  service_config slotId (GetImsFeatureValue type).
Definition service_SetMute (slotId mute : Z) : Cfg Z := service_config slotId (SetMute slotId mute).
Definition service_GetMute (slotId : Z) : Cfg Z := service_config slotId (GetMute slotId).
Definition service_SetRttCapability (slotId : Z) (isEnable : bool) : Cfg Z :=
  service_config slotId (SetRttCapability slotId isEnable).

(** The configuration part of [RegisterCoreServiceHandler], slot by slot of the
    handlers. *)
Definition RegisterCoreServiceHandler_config : Cfg () :=
  mfor GetSlotInfo (λ slot,
    construct InitModeActive ;;
    GetDomainPreferenceMode slot ;; GetEmergencyCallList slot ;; mret ()).
(** [EmergencyInfoObserver::OnChange] *)
Definition EmergencyInfoObserver_OnChange : Cfg () := construct HandleEccListChange.
End ConfigHandler.
