(* ===== verification/ConfigFacts.v ===== *)
(** * ConfigFacts: the mutexes and the vectors of the configuration

    [disciplined held m held']: when the mutexes in [held] are held, a run of
    [m] takes and releases mutexes last in, first out and only in increasing
    rank, ends with [held'] held, reads no vector past its end and keeps the
    lengths of the vectors.  Every operation is disciplined from no mutex to no
    mutex. *)

From stdpp Require Import base tactics option list numbers strings pretty gmap functions.
From Stdlib Require Import ZArith Lia Ascii String.
From S2P Require Import Prelude ConfigTypes Platform Standardize ControlBase ConnectionIMS Service Handler.
From S2P Require Import SupplementRequestCs Supplement ConfigRequest Config ConfigEcc ConfigHandler.

Open Scope Z_scope.

(** The order in which the code nests its mutexes. *)
Definition lock_rank (m : Mutex) : nat :=
  match m with
  | mutex_ => 0 | operatorMutex_ => 1 | simStateLock_ => 2 | plmnMutex_ => 3 | modeMutex_ => 4
  end.
Definition may_lock (held : list Mutex) (m : Mutex) : bool :=
  forallb (λ m', (lock_rank m' <? lock_rank m)%nat) held.

(** The mutexes held after a trace: [None] when it breaks the discipline. *)
Fixpoint lock_run (held : list Mutex) (e : list Effect) : option (list Mutex) :=
  match e with
  | [] => Some held
  | Config (Lock m _) :: e' => if may_lock held m then lock_run (m :: held) e' else None
  | Config (Unlock m) :: e' =>
      match held with
      | m' :: held' => if bool_decide (m = m') then lock_run held' e' else None
      | [] => None
      end
  | Config (OutOfRange _) :: _ => None
  | _ :: e' => lock_run held e'
  end.
Lemma lock_run_app held held' e e' :
  lock_run held e = Some held' → lock_run held (e ++ e') = lock_run held' e'.
Proof.
  revert held. induction e as [|x e IH]; simpl; intros held Hr; [by simplify_eq|].
  destruct x as [| | | | | | | | | | | | | | | | | | | | | | | | | | | |c]; try by apply IH.
  destruct c; try by apply IH.
  - case_match; [by apply IH|done].
  - destruct held; [done|]. case_match; [by apply IH|done].
  - done.
Qed.

(** An effect that is neither a lock nor an index out of range. *)
Definition inert (e : Effect) : bool :=
  match e with
  | Config (Lock _ _) | Config (Unlock _) | Config (OutOfRange _) => false | _ => true
  end.
Lemma lock_run_inert held e : inert e = true → lock_run held [e] = Some held.
Proof. destruct e as [| | | | | | | | | | | | | | | | | | | | | | | | | | | |c]; try done. by destruct c. Qed.

Section Discipline.
Context `{CallConsts, E : Env, ServiceEnv}.
Abbreviation Cfg X := (Op CellularCallConfig X).

(** The vectors have an element per slot, and [J] holds of their contents. *)
Definition cfg_inv (J : (EccVector → list EccList) → Prop) (s : CellularCallConfig) : Prop :=
  (∀ v, Datatypes.length (ecc_vectors s v) = Z.to_nat SIM_SLOT_COUNT) ∧ J (ecc_vectors s).

Definition disciplined {X} (J : (EccVector → list EccList) → Prop) (held : list Mutex)
    (m : Cfg X) (held' : list Mutex) : Prop :=
  ∀ s h, cfg_inv J s → wp m (λ _ s' e, cfg_inv J s' ∧ lock_run held e = Some held') s h.

Context {J : (EccVector → list EccList) → Prop}.

Lemma disciplined_ret {A} held (a : A) : disciplined J held (mret a) held.
Proof. by intros s h Hs. Qed.
Lemma disciplined_then {A B} held1 held2 held3 (m : Cfg A) (f : A → Cfg B) :
  disciplined J held1 m held2 → (∀ a, disciplined J held2 (f a) held3) →
  disciplined J held1 (mthen m f) held3.
Proof.
  intros Hm Hf s h Hs. apply wp_then. eapply wp_mono; [by apply Hm|].
  intros a s' e [Hs' He]. eapply wp_mono; [by apply Hf|].
  intros b s2 e2 [Hs2 He2]. split; [done|]. by rewrite (lock_run_app _ _ _ _ He).
Qed.
Lemma disciplined_ask {A} held (q : list Effect → A) : disciplined J held (ask q) held.
Proof. by intros s h Hs. Qed.
Lemma disciplined_get held : disciplined J held mget held.
Proof. by intros s h Hs. Qed.
Lemma disciplined_gets {A} held (f : CellularCallConfig → A) : disciplined J held (mgets f) held.
Proof. by intros s h Hs. Qed.
Lemma disciplined_modify held (f : CellularCallConfig → CellularCallConfig) :
  (∀ s, cfg_inv J s → cfg_inv J (f s)) → disciplined J held (mmodify f) held.
Proof. intros Hf s h Hs. by split; [apply Hf|]. Qed.
Lemma disciplined_send held e : inert e = true → disciplined J held (send e) held.
Proof. intros He s h Hs. by split; [|apply lock_run_inert]. Qed.
Lemma disciplined_request held e : inert e = true → disciplined J held (request e) held.
Proof. intros He s h Hs. by split; [|apply lock_run_inert]. Qed.
Lemma disciplined_lock held m shared :
  may_lock held m = true → disciplined J held (config (Lock m shared)) (m :: held).
Proof. intros Hm s h Hs. split; [done|]. simpl. by rewrite Hm. Qed.
Lemma disciplined_unlock held m : disciplined J (m :: held) (config (Unlock m)) held.
Proof. intros s h Hs. split; [done|]. simpl. by rewrite bool_decide_true. Qed.
Lemma disciplined_locked {A} held m (k : Cfg A) :
  may_lock held m = true → disciplined J (m :: held) k (m :: held) →
  disciplined J held (locked m k) held.
Proof.
  intros Hm Hk. eapply disciplined_then; [by apply disciplined_lock|]. intros _.
  eapply disciplined_then; [done|]. intros r.
  eapply disciplined_then; [apply disciplined_unlock|]. intros _. apply disciplined_ret.
Qed.
Lemma disciplined_shared {A} held m (k : Cfg A) :
  may_lock held m = true → disciplined J (m :: held) k (m :: held) →
  disciplined J held (shared_locked m k) held.
Proof.
  intros Hm Hk. eapply disciplined_then; [by apply disciplined_lock|]. intros _.
  eapply disciplined_then; [done|]. intros r.
  eapply disciplined_then; [apply disciplined_unlock|]. intros _. apply disciplined_ret.
Qed.
Lemma disciplined_mfor {A} held (l : list A) (body : A → Cfg ()) :
  (∀ x, x ∈ l → disciplined J held (body x) held) → disciplined J held (mfor l body) held.
Proof.
  induction l as [|x l IH]; simpl; intros Hb; [apply disciplined_ret|].
  eapply disciplined_then; [apply Hb; by left|]. intros _. apply IH. intros y Hy. apply Hb. by right.
Qed.
End Discipline.

Create HintDb cfg discriminated.
#[export] Hint Resolve disciplined_ret disciplined_ask disciplined_get disciplined_gets : cfg.

(** One step on a [disciplined] goal. *)
Ltac cfg_step :=
  match goal with
  | |- disciplined _ _ (mthen _ _) _ => eapply disciplined_then; [|intros ?]
  | |- disciplined _ _ (mmodify _) _ => apply disciplined_modify; intros ? Hinv; try exact Hinv
  | |- disciplined _ _ (send _) _ => apply disciplined_send; reflexivity
  | |- disciplined _ _ (config (Lock _ _)) _ => apply disciplined_lock; reflexivity
  | |- disciplined _ _ (config (Unlock _)) _ => apply disciplined_unlock
  | |- disciplined _ _ (config _) _ => apply disciplined_send; reflexivity
  | |- disciplined _ _ (report _) _ => apply disciplined_send; reflexivity
  | |- disciplined _ _ (request _) _ => apply disciplined_request; reflexivity
  | |- disciplined _ _ (config_request _) _ => apply disciplined_request; reflexivity
  | |- disciplined _ _ (locked _ _) _ => apply disciplined_locked; [reflexivity|]
  | |- disciplined _ _ (shared_locked _ _) _ => apply disciplined_shared; [reflexivity|]
  | |- disciplined _ _ (if ?b then _ else _) _ => destruct b eqn:?
  | |- disciplined _ _ (match ?x with _ => _ end) _ => destruct x eqn:?
  | |- disciplined _ _ (let '_ := ?x in _) _ => destruct x eqn:?
  end.
Ltac cfg_auto := repeat first [ progress cbn beta iota | solve [eauto with cfg] | cfg_step ].

Section Ops.
Context `{CallConsts, E : Env, ServiceEnv, HandlerEnv, SupplementEnv, ConfigEnv}.
Context {J : (EccVector → list EccList) → Prop}.
Implicit Types (held : list Mutex).

Lemma read_bool_ok held m slotId : disciplined J held (read_bool m slotId) held.
Proof. unfold read_bool. cfg_auto. Qed.
Lemma read_int_ok held m slotId : disciplined J held (read_int m slotId) held.
Proof. unfold read_int. cfg_auto. Qed.
Lemma read_ecc_ok held m slotId : disciplined J held (read_ecc m slotId) held.
Proof. unfold read_ecc. cfg_auto. Qed.
Lemma read_nrMode_ok held slotId : disciplined J held (read_nrMode slotId) held.
Proof. unfold read_nrMode. cfg_auto. Qed.
Lemma read_reasonMapping_ok held slotId : disciplined J held (read_reasonMapping slotId) held.
Proof. unfold read_reasonMapping. cfg_auto. Qed.
Lemma read_curPlmn_ok held slotId : disciplined J held (read_curPlmn slotId) held.
Proof. unfold read_curPlmn. cfg_auto. Qed.

(** A slot number that indexes the vectors. *)
Definition in_vectors (slotId : Z) : Prop := 0 ≤ slotId < SIM_SLOT_COUNT.
Lemma read_vector_ok held v slotId :
  in_vectors slotId → disciplined J held (read_vector v slotId) held.
Proof.
  intros Hslot s h Hs. unfold in_vectors in Hslot. unfold wp, read_vector, mthen, mget.
  destruct (lookup_lt_is_Some_2 (ecc_vectors s v) (Z.to_nat slotId)) as [l Hl].
  { rewrite (proj1 Hs). lia. }
  rewrite Hl. destruct (Z.ltb_spec slotId 0); [lia|]. done.
Qed.
Lemma write_vector_ok held v slotId x :
  in_vectors slotId → (∀ f, J f → J (<[v := <[Z.to_nat slotId := x]> (f v)]> f)) →
  disciplined J held (write_vector v slotId x) held.
Proof.
  intros Hslot HJ s h [Hs Hv]. unfold in_vectors in Hslot. unfold wp, write_vector, mthen, mget.
  rewrite (Hs v). destruct (Z.leb_spec 0 slotId); [|lia].
  destruct (Z.ltb_spec slotId (Z.of_nat (Z.to_nat SIM_SLOT_COUNT))); [|lia].
  split; [|done]. split; [|by apply HJ]. intros v'. simpl. destruct (decide (v = v')) as [<-|].
  - rewrite fn_lookup_insert, length_insert. apply Hs.
  - rewrite fn_lookup_insert_ne by done. apply Hs.
Qed.
Lemma on_valid_slot_ok held slotId k :
  (IsValidSlotId slotId = true → disciplined J held k held) →
  disciplined J held (on_valid_slot slotId k) held.
Proof. unfold on_valid_slot. intros Hk. destruct (IsValidSlotId slotId); simpl; cfg_auto. Qed.
End Ops.
#[export] Hint Resolve read_bool_ok read_int_ok read_ecc_ok read_nrMode_ok read_reasonMapping_ok
  read_curPlmn_ok read_vector_ok write_vector_ok : cfg.

(** ** Requests and the operator configuration *)

Section Plain.
Context `{CallConsts, E : Env, ServiceEnv, HandlerEnv, SupplementEnv, ConfigEnv}.
Context {J : (EccVector → list EccList) → Prop}.
Implicit Types (held : list Mutex).

Lemma with_ims_proxy_ok held k : disciplined J held k held → disciplined J held (with_ims_proxy k) held.
Proof. intros Hk. unfold with_ims_proxy. cfg_auto. Qed.
Lemma ims_config_ok held e : inert (Config e) = true → disciplined J held (ims_config e) held.
Proof. intros He. apply with_ims_proxy_ok. by apply disciplined_request. Qed.
Lemma ims_or_ril_ok held slotId ims ril :
  inert (Config ims) = true → inert (Config ril) = true →
  disciplined J held (ims_or_ril slotId ims ril) held.
Proof.
  intros Hi Hr. unfold ims_or_ril. eapply disciplined_then; [apply disciplined_ask|]. intros [];
    (eapply disciplined_then; [apply disciplined_ask|]; intros []; simpl; try apply disciplined_ret).
  - by apply disciplined_request.
  - eapply disciplined_then; [by apply disciplined_send|]. intros _. apply disciplined_ret.
Qed.
Lemma SetDomainPreferenceModeRequest_ok held slotId mode : disciplined J held (SetDomainPreferenceModeRequest slotId mode) held.
Proof. by apply ims_or_ril_ok. Qed.
Lemma GetDomainPreferenceModeRequest_ok held slotId : disciplined J held (GetDomainPreferenceModeRequest slotId) held.
Proof. by apply ims_or_ril_ok. Qed.
Lemma SetImsSwitchStatusRequest_ok held slotId active : disciplined J held (SetImsSwitchStatusRequest slotId active) held.
Proof. by apply ims_config_ok. Qed.
Lemma SetCarrierVtConfigRequest_ok held slotId active : disciplined J held (SetCarrierVtConfigRequest slotId active) held.
Proof. by apply ims_config_ok. Qed.
Lemma GetImsSwitchStatusRequest_ok held slotId : disciplined J held (ConfigRequest.GetImsSwitchStatusRequest slotId) held.
Proof. by apply ims_config_ok. Qed.
Lemma SetImsConfigRequest_string_ok held item value : disciplined J held (SetImsConfigRequest_string item value) held.
Proof. by apply ims_config_ok. Qed.
Lemma SetImsConfigRequest_int_ok held item value : disciplined J held (SetImsConfigRequest_int item value) held.
Proof. by apply ims_config_ok. Qed.
Lemma GetImsConfigRequest_ok held item : disciplined J held (GetImsConfigRequest item) held.
Proof. by apply ims_config_ok. Qed.
Lemma SetImsFeatureValueRequest_ok held type value : disciplined J held (SetImsFeatureValueRequest type value) held.
Proof. by apply ims_config_ok. Qed.
Lemma SetMuteRequest_ok held slotId mute : disciplined J held (SetMuteRequest slotId mute) held.
Proof. by apply ims_or_ril_ok. Qed.
Lemma GetMuteRequest_ok held slotId : disciplined J held (GetMuteRequest slotId) held.
Proof. by apply ims_or_ril_ok. Qed.
Lemma UpdateImsCapabilities_request_ok held slotId l : disciplined J held (UpdateImsCapabilities_request slotId l) held.
Proof. by apply ims_config_ok. Qed.
Lemma NotifyOperatorConfigChanged_ok held slotId state : disciplined J held (NotifyOperatorConfigChanged slotId state) held.
Proof. by apply ims_config_ok. Qed.
Lemma SetVoNRSwitchStatusRequest_ok held slotId state : disciplined J held (SetVoNRSwitchStatusRequest slotId state) held.
Proof. unfold SetVoNRSwitchStatusRequest. cfg_auto. Qed.
Lemma GetImsFeatureValueRequest_ok held type value : disciplined J held (GetImsFeatureValueRequest type value) held.
Proof. unfold GetImsFeatureValueRequest. cfg_auto. Qed.
Lemma GetEmergencyCallListRequest_ok held slotId : disciplined J held (GetEmergencyCallListRequest slotId) held.
Proof. unfold GetEmergencyCallListRequest. cfg_auto. Qed.
Lemma SetEmergencyCallListRequest_ok held slotId eccVec : disciplined J held (SetEmergencyCallListRequest slotId eccVec) held.
Proof. unfold SetEmergencyCallListRequest. cfg_auto. Qed.
Lemma SetVideoCallWaiting_ok held slotId activate :
  disciplined J held (SetVideoCallWaiting slotId activate) held.
Proof. apply with_ims_proxy_ok. cfg_auto. Qed.
#[local] Hint Resolve SetDomainPreferenceModeRequest_ok GetDomainPreferenceModeRequest_ok SetImsSwitchStatusRequest_ok SetCarrierVtConfigRequest_ok GetImsSwitchStatusRequest_ok SetImsConfigRequest_string_ok SetImsConfigRequest_int_ok GetImsConfigRequest_ok SetImsFeatureValueRequest_ok SetMuteRequest_ok GetMuteRequest_ok UpdateImsCapabilities_request_ok NotifyOperatorConfigChanged_ok SetVoNRSwitchStatusRequest_ok GetImsFeatureValueRequest_ok GetEmergencyCallListRequest_ok SetEmergencyCallListRequest_ok SetVideoCallWaiting_ok : cfg.

Lemma set_parameter_ok held key value : disciplined J held (set_parameter key value) held.
Proof. unfold set_parameter. cfg_auto. Qed.
#[local] Hint Resolve set_parameter_ok : cfg.
Lemma saveImsSwitchStatusToLocal_ok held slotId imsSwitchStatus : disciplined J held (saveImsSwitchStatusToLocal slotId imsSwitchStatus) held.
Proof. unfold saveImsSwitchStatusToLocal. cfg_auto. Qed.
#[local] Hint Resolve saveImsSwitchStatusToLocal_ok : cfg.
Lemma SaveVoNRState_ok held slotId state : disciplined J held (SaveVoNRState slotId state) held.
Proof. unfold SaveVoNRState. cfg_auto. Qed.
#[local] Hint Resolve SaveVoNRState_ok : cfg.
Lemma ObtainVoNRState_ok held slotId : disciplined J held (ObtainVoNRState slotId) held.
Proof. unfold ObtainVoNRState. cfg_auto. Qed.
#[local] Hint Resolve ObtainVoNRState_ok : cfg.
Lemma GetSwitchStatus_ok held slotId : disciplined J held (GetSwitchStatus slotId) held.
Proof. unfold GetSwitchStatus. cfg_auto. Qed.
#[local] Hint Resolve GetSwitchStatus_ok : cfg.
Lemma IsSimChanged_ok held slotId iccid : disciplined J held (IsSimChanged slotId iccid) held.
Proof. unfold IsSimChanged. cfg_auto. Qed.
#[local] Hint Resolve IsSimChanged_ok : cfg.
Lemma GetSimState_ok held slotId : disciplined J held (GetSimState slotId) held.
Proof. unfold GetSimState. cfg_auto. Qed.
#[local] Hint Resolve GetSimState_ok : cfg.
Lemma IsGbaValid_ok held slotId : disciplined J held (IsGbaValid slotId) held.
Proof. unfold IsGbaValid. cfg_auto. Qed.
#[local] Hint Resolve IsGbaValid_ok : cfg.
Lemma GetPreferredNetworkModeValue_ok held slotId networkMode : disciplined J held (GetPreferredNetworkModeValue slotId networkMode) held.
Proof. unfold GetPreferredNetworkModeValue. cfg_auto. Qed.
#[local] Hint Resolve GetPreferredNetworkModeValue_ok : cfg.
Lemma feature_enabled_ok held type : disciplined J held (feature_enabled type) held.
Proof. unfold feature_enabled. cfg_auto. Qed.
#[local] Hint Resolve feature_enabled_ok : cfg.
Lemma IsVolteProvisioned_ok held slotId : disciplined J held (IsVolteProvisioned slotId) held.
Proof. unfold IsVolteProvisioned. cfg_auto. Qed.
#[local] Hint Resolve IsVolteProvisioned_ok : cfg.
Lemma IsUtProvisioned_ok held slotId : disciplined J held (IsUtProvisioned slotId) held.
Proof. unfold IsUtProvisioned. cfg_auto. Qed.
#[local] Hint Resolve IsUtProvisioned_ok : cfg.
Lemma IsVonrSupported_ok held slotId isGbaValid : disciplined J held (IsVonrSupported slotId isGbaValid) held.
Proof. unfold IsVonrSupported. cfg_auto. Qed.
#[local] Hint Resolve IsVonrSupported_ok : cfg.
Lemma IsVonrSupportedForImsSwitch_ok held slotId isGbaValid : disciplined J held (IsVonrSupportedForImsSwitch slotId isGbaValid) held.
Proof. unfold IsVonrSupportedForImsSwitch. cfg_auto. Qed.
#[local] Hint Resolve IsVonrSupportedForImsSwitch_ok : cfg.
Lemma SaveImsSwitch_ok held slotId imsSwitchValue : disciplined J held (SaveImsSwitch slotId imsSwitchValue) held.
Proof. unfold SaveImsSwitch. cfg_auto. Qed.
#[local] Hint Resolve SaveImsSwitch_ok : cfg.
Lemma GetImsSwitchStatus_ok held slotId : disciplined J held (GetImsSwitchStatus slotId) held.
Proof. unfold GetImsSwitchStatus. cfg_auto. Qed.
#[local] Hint Resolve GetImsSwitchStatus_ok : cfg.
Lemma IsVolteSupport_ok held slotId : disciplined J held (IsVolteSupport slotId) held.
Proof. unfold IsVolteSupport. cfg_auto. Qed.
#[local] Hint Resolve IsVolteSupport_ok : cfg.
Lemma UpdateImsVoiceCapabilities_ok held slotId : disciplined J held (UpdateImsVoiceCapabilities slotId) held.
Proof. unfold UpdateImsVoiceCapabilities. cfg_auto. Qed.
#[local] Hint Resolve UpdateImsVoiceCapabilities_ok : cfg.
Lemma UpdateImsUtCapabilities_ok held slotId : disciplined J held (UpdateImsUtCapabilities slotId) held.
Proof. unfold UpdateImsUtCapabilities. cfg_auto. Qed.
#[local] Hint Resolve UpdateImsUtCapabilities_ok : cfg.
Lemma ResetImsSwitch_ok held slotId : disciplined J held (ResetImsSwitch slotId) held.
Proof. unfold ResetImsSwitch. cfg_auto. Qed.
#[local] Hint Resolve ResetImsSwitch_ok : cfg.
Lemma UpdateImsCapabilities_ok held slotId ut changed state : disciplined J held (UpdateImsCapabilities slotId ut changed state) held.
Proof. unfold UpdateImsCapabilities. cfg_auto. Qed.
#[local] Hint Resolve UpdateImsCapabilities_ok : cfg.
Lemma saveImsSwitchStatusToLocalForPowerOn_ok held slotId :
  disciplined J held (saveImsSwitchStatusToLocalForPowerOn slotId) held.
Proof. apply on_valid_slot_ok. intros _. cfg_auto. Qed.
Lemma ParseBoolOperatorConfigs_ok held slotId m poc name :
  disciplined J held (ParseBoolOperatorConfigs slotId m poc name) held.
Proof. unfold ParseBoolOperatorConfigs. cfg_auto. Qed.
#[local] Hint Resolve saveImsSwitchStatusToLocalForPowerOn_ok ParseBoolOperatorConfigs_ok : cfg.
Lemma ParseAndCacheOperatorConfigs_ok slotId poc :
  disciplined J [] (ParseAndCacheOperatorConfigs slotId poc) [].
Proof.
  unfold ParseAndCacheOperatorConfigs. cfg_auto. apply disciplined_mfor. intros [m name] _. cfg_auto.
Qed.
#[local] Hint Resolve ParseAndCacheOperatorConfigs_ok : cfg.
Lemma UpdateImsConfiguration_ok slotId state changed :
  disciplined J [] (Config.UpdateImsConfiguration slotId state changed) [].
Proof. apply on_valid_slot_ok. intros _. cfg_auto. Qed.
#[local] Hint Resolve UpdateImsConfiguration_ok : cfg.
Lemma SetImsSwitchStatus_ok slotId active : disciplined J [] (SetImsSwitchStatus slotId active) [].
Proof. unfold SetImsSwitchStatus. cfg_auto. Qed.
#[local] Hint Resolve SetImsSwitchStatus_ok : cfg.
Lemma SetVoNRSwitchStatus_ok slotId state : disciplined J [] (SetVoNRSwitchStatus slotId state) [].
Proof. unfold SetVoNRSwitchStatus. cfg_auto. Qed.
#[local] Hint Resolve SetVoNRSwitchStatus_ok : cfg.
Lemma GetVoNRSwitchStatus_ok slotId : disciplined J [] (GetVoNRSwitchStatus slotId) [].
Proof. unfold GetVoNRSwitchStatus. cfg_auto. Qed.
#[local] Hint Resolve GetVoNRSwitchStatus_ok : cfg.
Lemma HandleSetVoNRSwitchResult_ok slotId result : disciplined J [] (HandleSetVoNRSwitchResult slotId result) [].
Proof. unfold HandleSetVoNRSwitchResult. cfg_auto. Qed.
#[local] Hint Resolve HandleSetVoNRSwitchResult_ok : cfg.
Lemma SetRadioOn_ok on : disciplined J [] (SetRadioOn on) [].
Proof. unfold SetRadioOn. cfg_auto. Qed.
#[local] Hint Resolve SetRadioOn_ok : cfg.
Lemma SetPreferredNetworkByConfig_ok slotId : disciplined J [] (SetPreferredNetworkByConfig slotId) [].
Proof. unfold SetPreferredNetworkByConfig. cfg_auto. Qed.
#[local] Hint Resolve SetPreferredNetworkByConfig_ok : cfg.
Lemma HandleOperatorConfigChanged_ok slotId state : disciplined J [] (Config.HandleOperatorConfigChanged slotId state) [].
Proof. unfold Config.HandleOperatorConfigChanged. cfg_auto. Qed.
#[local] Hint Resolve HandleOperatorConfigChanged_ok : cfg.
Lemma SetDomainPreferenceMode_ok slotId mode : disciplined J [] (SetDomainPreferenceMode slotId mode) [].
Proof. unfold SetDomainPreferenceMode. cfg_auto. Qed.
#[local] Hint Resolve SetDomainPreferenceMode_ok : cfg.
Lemma GetPreferenceMode_ok slotId : disciplined J [] (GetPreferenceMode slotId) [].
Proof. unfold GetPreferenceMode. cfg_auto. Qed.
#[local] Hint Resolve GetPreferenceMode_ok : cfg.
Lemma GetImsFeatureValue_ok type : disciplined J [] (GetImsFeatureValue type) [].
Proof. unfold GetImsFeatureValue. cfg_auto. Qed.
#[local] Hint Resolve GetImsFeatureValue_ok : cfg.
Lemma GetImsSwitchStatus_request_ok slotId : disciplined J [] (GetImsSwitchStatus_request slotId) [].
Proof. unfold GetImsSwitchStatus_request. cfg_auto. Qed.
#[local] Hint Resolve GetImsSwitchStatus_request_ok : cfg.
Lemma find_bool_ok m slotId : disciplined J [] (find_bool m slotId) [].
Proof. unfold find_bool. cfg_auto. Qed.
#[local] Hint Resolve find_bool_ok : cfg.
Lemma checked_bool_ok d m slotId : disciplined J [] (checked_bool d m slotId) [].
Proof. unfold checked_bool. cfg_auto. Qed.
#[local] Hint Resolve checked_bool_ok : cfg.
End Plain.
#[export] Hint Resolve SetDomainPreferenceModeRequest_ok GetDomainPreferenceModeRequest_ok SetImsSwitchStatusRequest_ok SetCarrierVtConfigRequest_ok GetImsSwitchStatusRequest_ok SetImsConfigRequest_string_ok SetImsConfigRequest_int_ok GetImsConfigRequest_ok SetImsFeatureValueRequest_ok SetMuteRequest_ok GetMuteRequest_ok UpdateImsCapabilities_request_ok NotifyOperatorConfigChanged_ok SetVoNRSwitchStatusRequest_ok GetImsFeatureValueRequest_ok GetEmergencyCallListRequest_ok SetEmergencyCallListRequest_ok SetVideoCallWaiting_ok set_parameter_ok saveImsSwitchStatusToLocal_ok SaveVoNRState_ok ObtainVoNRState_ok GetSwitchStatus_ok IsSimChanged_ok GetSimState_ok IsGbaValid_ok GetPreferredNetworkModeValue_ok feature_enabled_ok IsVolteProvisioned_ok IsUtProvisioned_ok IsVonrSupported_ok IsVonrSupportedForImsSwitch_ok SaveImsSwitch_ok GetImsSwitchStatus_ok IsVolteSupport_ok UpdateImsVoiceCapabilities_ok UpdateImsUtCapabilities_ok ResetImsSwitch_ok UpdateImsCapabilities_ok saveImsSwitchStatusToLocalForPowerOn_ok ParseBoolOperatorConfigs_ok ParseAndCacheOperatorConfigs_ok UpdateImsConfiguration_ok SetImsSwitchStatus_ok SetVoNRSwitchStatus_ok GetVoNRSwitchStatus_ok HandleSetVoNRSwitchResult_ok SetRadioOn_ok SetPreferredNetworkByConfig_ok HandleOperatorConfigChanged_ok SetDomainPreferenceMode_ok GetPreferenceMode_ok GetImsFeatureValue_ok GetImsSwitchStatus_request_ok find_bool_ok checked_bool_ok : cfg.

(** ** The emergency lists, and everything that starts with a check of the slot *)

Section Slots.
Context `{CallConsts, E : Env, ServiceEnv, HandlerEnv, SupplementEnv, ConfigEnv}.
(** Slots are numbered from 0. *)
Context (Hslot0 : 0 ≤ DEFAULT_SIM_SLOT_ID).
(** What is known of the vectors survives the writes of the fake numbers, the
    clearing of a slot, and the update of its list. *)
Context {J : (EccVector → list EccList) → Prop}.
Context (Hfake : ∀ f i x, J f → J (<[hplmnFakeEccList_ := <[i := x]> (f hplmnFakeEccList_)]> f)).
Context (Hclear : ∀ f v i, J f → J (<[v := <[i := EccList_new]> (f v)]> f)).
Context (Hupdate : ∀ slotId, disciplined J [] (UpdateEccNumberList slotId) []).
Implicit Types (held : list Mutex).

Lemma valid_in_vectors slotId : IsValidSlotId slotId = true → in_vectors slotId.
Proof. unfold IsValidSlotId, in_vectors. lia. Qed.

#[local] Hint Extern 1 (disciplined _ _ (on_valid_slot _ _) _) =>
  apply on_valid_slot_ok; intros ?%valid_in_vectors; cfg_auto : cfg.

Lemma HandleFactoryReset_ok slotId : disciplined J [] (HandleFactoryReset slotId) [].
Proof. unfold HandleFactoryReset. cfg_auto. Qed.
Lemma HandleSetLteImsSwitchResult_ok slotId r :
  disciplined J [] (HandleSetLteImsSwitchResult slotId r) [].
Proof. unfold HandleSetLteImsSwitchResult. cfg_auto. Qed.
Lemma GetDomainPreferenceModeResponse_ok slotId mode :
  disciplined J [] (Config.GetDomainPreferenceModeResponse slotId mode) [].
Proof. unfold Config.GetDomainPreferenceModeResponse. cfg_auto. Qed.
Lemma SetTempMode_ok slotId : disciplined J [] (SetTempMode slotId) [].
Proof. unfold SetTempMode. cfg_auto. Qed.
Lemma SetClearCode_ok slotId cause : disciplined J [] (SetClearCode slotId cause) [].
Proof. unfold SetClearCode. cfg_auto. Qed.
Lemma SetReadyToCall_ok slotId b : disciplined J [] (SetReadyToCall slotId b) [].
Proof. unfold SetReadyToCall. cfg_auto. Qed.

Lemma init_slot_inv i s : cfg_inv J s → cfg_inv J (init_slot i s).
Proof.
  intros Hs. unfold init_slot.
  assert (∀ l s, cfg_inv J s →
    cfg_inv J (foldl (λ s p, insert_bool p.1 i p.2 s) s l)) as Hl.
  { induction l as [|[m v] l IH]; simpl; intros s' Hs'; [done|]. apply IH.
    unfold insert_bool. case_match; [done|]. apply Hs'. }
  specialize (Hl default_bools s Hs). revert Hl. generalize (foldl (λ s p, insert_bool p.1 i p.2 s) s default_bools).
  intros s' Hs'. unfold insert_int. repeat case_match; apply Hs'.
Qed.
Lemma CellularCallConfig_ctor_ok : disciplined J [] CellularCallConfig_ctor [].
Proof.
  unfold CellularCallConfig_ctor, InitDefaultOperatorConfig. cfg_auto.
  apply disciplined_mfor. intros i _. apply disciplined_modify. apply init_slot_inv.
Qed.
#[local] Hint Resolve HandleFactoryReset_ok HandleSetLteImsSwitchResult_ok
  GetDomainPreferenceModeResponse_ok SetTempMode_ok SetClearCode_ok SetReadyToCall_ok
  CellularCallConfig_ctor_ok : cfg.

Lemma InitModeActive_ok : disciplined J [] InitModeActive [].
Proof. unfold InitModeActive. cfg_auto. Qed.
Lemma GetMcc_ok held slotId : disciplined J held (GetMcc slotId) held.
Proof. unfold GetMcc. cfg_auto. Qed.
Lemma GetRoamingState_ok held slotId : disciplined J held (GetRoamingState slotId) held.
Proof. unfold GetRoamingState. cfg_auto. Qed.
Lemma UniqueEccCallList_ok held slotId l : disciplined J held (UniqueEccCallList slotId l) held.
Proof. unfold UniqueEccCallList. cfg_auto. Qed.
#[local] Hint Resolve InitModeActive_ok GetMcc_ok GetRoamingState_ok UniqueEccCallList_ok : cfg.
Lemma UpdateEccListByFakeEccList_ok slotId l :
  in_vectors slotId → disciplined J [mutex_] (UpdateEccListByFakeEccList slotId l) [mutex_].
Proof. intros Hv. unfold UpdateEccListByFakeEccList. cfg_auto. Qed.
Lemma UpdateHplmnFakeEccList_ok callList hplmn slotId l mcc :
  in_vectors slotId →
  disciplined J [mutex_] (UpdateHplmnFakeEccList callList hplmn slotId l mcc) [mutex_].
Proof. intros Hv. unfold UpdateHplmnFakeEccList. cfg_auto. Qed.
#[local] Hint Resolve UpdateEccListByFakeEccList_ok UpdateHplmnFakeEccList_ok : cfg.
Lemma MergeEccCallList_ok slotId :
  in_vectors slotId → disciplined J [mutex_] (MergeEccCallList slotId) [mutex_].
Proof. intros Hv. unfold MergeEccCallList. cfg_auto. Qed.
#[local] Hint Resolve MergeEccCallList_ok : cfg.
Lemma UpdateEmergencyCallFromRadio_ok slotId calls :
  disciplined J [] (UpdateEmergencyCallFromRadio slotId calls) [].
Proof. unfold UpdateEmergencyCallFromRadio. cfg_auto. Qed.
Lemma GetEccCallList_ok slotId : disciplined J [] (GetEccCallList slotId) [].
Proof. unfold GetEccCallList. cfg_auto. Qed.
Lemma SetEmergencyCallList_ok held slotId l : disciplined J held (SetEmergencyCallList slotId l) held.
Proof. unfold SetEmergencyCallList. cfg_auto. Qed.
Lemma CheckHomeAndPresentState_ok slotId : disciplined J [] (CheckHomeAndPresentState slotId) [].
Proof. unfold CheckHomeAndPresentState. cfg_auto. Qed.
#[local] Hint Resolve UpdateEmergencyCallFromRadio_ok GetEccCallList_ok SetEmergencyCallList_ok
  CheckHomeAndPresentState_ok : cfg.
Lemma ProcessHplmnEccList_ok slotId hplmn :
  in_vectors slotId → disciplined J [] (ProcessHplmnEccList slotId hplmn) [].
Proof. intros Hv. unfold ProcessHplmnEccList. cfg_auto. Qed.
Lemma ProcessCurrentPlmnEccList_ok slotId :
  in_vectors slotId → disciplined J [] (ProcessCurrentPlmnEccList slotId) [].
Proof.
  intros Hv. unfold ProcessCurrentPlmnEccList, current_plmn_list. cfg_auto.
Qed.
#[local] Hint Resolve ProcessHplmnEccList_ok ProcessCurrentPlmnEccList_ok : cfg.
Lemma CheckAndUpdateSimState_ok slotId : disciplined J [] (CheckAndUpdateSimState slotId) [].
Proof. unfold CheckAndUpdateSimState. cfg_auto. Qed.
Lemma check_ims_after_nv_update_ok slotId : disciplined J [] (check_ims_after_nv_update slotId) [].
Proof. unfold check_ims_after_nv_update. cfg_auto. Qed.
#[local] Hint Resolve Hupdate CheckAndUpdateSimState_ok
  check_ims_after_nv_update_ok : cfg.
Lemma HandleSimStateChanged_ok slotId : disciplined J [] (HandleSimStateChanged slotId) [].
Proof. unfold HandleSimStateChanged. cfg_auto. Qed.
Lemma HandleSimRecordsLoaded_ok slotId : disciplined J [] (HandleSimRecordsLoaded slotId) [].
Proof. unfold HandleSimRecordsLoaded. cfg_auto. Qed.
Lemma HandleResidentNetworkChange_ok slotId plmn :
  disciplined J [] (HandleResidentNetworkChange slotId plmn) [].
Proof. unfold HandleResidentNetworkChange. cfg_auto. Qed.
Lemma HandleSimAccountLoaded_ok slotId : disciplined J [] (HandleSimAccountLoaded slotId) [].
Proof. unfold HandleSimAccountLoaded. cfg_auto. Qed.
Lemma HandleNetworkStateChange_ok slotId : disciplined J [] (HandleNetworkStateChange slotId) [].
Proof.
  unfold HandleNetworkStateChange, update_network_state, GetImsSwitchStatus_request. cfg_auto.
Qed.
Lemma ClearCachedEcclist_ok slotId :
  in_vectors slotId → disciplined J [] (ClearCachedEcclist slotId) [].
Proof. intros Hv. unfold ClearCachedEcclist. cfg_auto. Qed.
#[local] Hint Resolve HandleSimStateChanged_ok HandleSimRecordsLoaded_ok
  HandleResidentNetworkChange_ok HandleSimAccountLoaded_ok HandleNetworkStateChange_ok
  ClearCachedEcclist_ok : cfg.
Lemma HandleEccListChange_ok : disciplined J [] HandleEccListChange [].
Proof.
  unfold HandleEccListChange. apply disciplined_mfor. intros i Hi%elem_of_seqZ.
  assert (in_vectors i) by (unfold in_vectors; lia). cfg_auto.
Qed.
End Slots.
