(* ===== verification/ConfigEccFacts.v ===== *)
(** * ConfigEccFacts: what the emergency lists hold

    - the merged list of a slot against its sources, and the numbers the modem
      reported;
    - the lists kept per network: with a database that does not change, they are
      what a query would give ([cache_ok]), and the list sent to the modem is
      the one a routine without the kept lists to_modem. *)

From stdpp Require Import base tactics option list numbers strings pretty gmap functions.
From Stdlib Require Import ZArith Lia Ascii String.
From S2P Require Import Prelude ConfigTypes Platform Standardize Emergency ControlBase ConnectionIMS Service Handler.
From S2P Require Import SupplementRequestCs Supplement ConfigRequest Config ConfigEcc ConfigHandler ConfigFacts.

Open Scope Z_scope.

Section Wp.
Context `{CallConsts, E : Env, ServiceEnv, ConfigEnv}.
Implicit Types (Q : () → CellularCallConfig → list Effect → Prop).

Lemma wp_config e Q s h : Q () s [Config e] → wp (config e) Q s h.
Proof. done. Qed.
Lemma wp_config_request e (Q : Z → CellularCallConfig → list Effect → Prop) s h :
  Q (reply h (Config e)) s [Config e] → wp (config_request e) Q s h.
Proof. done. Qed.
Lemma wp_read_int m i (Q : Z → CellularCallConfig → list Effect → Prop) s h :
  Q (int_at s m i) (set_int m i (int_at s m i) s) [] → wp (read_int m i) Q s h.
Proof. done. Qed.
Lemma wp_read_bool m i (Q : bool → CellularCallConfig → list Effect → Prop) s h :
  Q (bool_at s m i) (set_bool m i (bool_at s m i) s) [] → wp (read_bool m i) Q s h.
Proof. done. Qed.
Lemma wp_read_ecc m i (Q : list EmergencyCall → CellularCallConfig → list Effect → Prop) s h :
  Q (ecc_at s m i) (set_ecc_map m <[i := ecc_at s m i]> s) [] → wp (read_ecc m i) Q s h.
Proof. done. Qed.
Lemma wp_read_curPlmn i (Q : string → CellularCallConfig → list Effect → Prop) s h :
  Q (default "" (curPlmn_ s !! i)) (set_curPlmn i (default "" (curPlmn_ s !! i)) s) [] →
  wp (read_curPlmn i) Q s h.
Proof. done. Qed.
Lemma wp_read_vector J v i (Q : EccList → CellularCallConfig → list Effect → Prop) s h :
  in_vectors i → cfg_inv J s →
  (∀ l, ecc_vectors s v !! Z.to_nat i = Some l → Q l s []) → wp (read_vector v i) Q s h.
Proof.
  intros Hi [Hs _] HQ. unfold in_vectors in Hi. unfold wp, read_vector, mthen, mget.
  destruct (lookup_lt_is_Some_2 (ecc_vectors s v) (Z.to_nat i)) as [l Hl]; [rewrite Hs; lia|].
  rewrite Hl. destruct (Z.ltb_spec i 0); [lia|]. by apply HQ.
Qed.
Lemma wp_write_vector J v i x Q s h :
  in_vectors i → cfg_inv J s →
  Q () (set_vector v (<[Z.to_nat i := x]> (ecc_vectors s v)) s) [] →
  wp (write_vector v i x) Q s h.
Proof.
  intros Hi [Hs _] HQ. unfold in_vectors in Hi. unfold wp, write_vector, mthen, mget.
  rewrite (Hs v). destruct (Z.leb_spec 0 i); [|lia].
  by destruct (Z.ltb_spec i (Z.of_nat (Z.to_nat SIM_SLOT_COUNT))); [|lia].
Qed.
Lemma wp_locked {A} m (k : Op CellularCallConfig A) (Q : A → CellularCallConfig → list Effect → Prop) s h :
  wp k (λ a s' e, Q a s' ([Config (Lock m false)] ++ e ++ [Config (Unlock m)])) s
    (h ++ [Config (Lock m false)]) →
  wp (locked m k) Q s h.
Proof.
  intros Hk. unfold locked, config. apply wp_then, wp_send. cbn beta.
  apply wp_then. eapply wp_mono; [exact Hk|]. intros a s' e HQ.
  apply wp_then, wp_send. apply wp_ret. exact HQ.
Qed.
Lemma wp_shared {A} m (k : Op CellularCallConfig A) (Q : A → CellularCallConfig → list Effect → Prop) s h :
  wp k (λ a s' e, Q a s' ([Config (Lock m true)] ++ e ++ [Config (Unlock m)])) s
    (h ++ [Config (Lock m true)]) →
  wp (shared_locked m k) Q s h.
Proof.
  intros Hk. unfold shared_locked, config. apply wp_then, wp_send. cbn beta.
  apply wp_then. eapply wp_mono; [exact Hk|]. intros a s' e HQ.
  apply wp_then, wp_send. apply wp_ret. exact HQ.
Qed.
End Wp.
(** Symbolic execution with the primitives of the configuration. *)
Ltac cwstep :=
  lazymatch goal with
  | |- wp (config _) _ _ _ => apply wp_config
  | |- wp (config_request _) _ _ _ => apply wp_config_request
  | |- wp (read_int _ _) _ _ _ => apply wp_read_int
  | |- wp (read_bool _ _) _ _ _ => apply wp_read_bool
  | |- wp (read_ecc _ _) _ _ _ => apply wp_read_ecc
  | |- wp (read_curPlmn _) _ _ _ => apply wp_read_curPlmn
  | |- wp (locked _ _) _ _ _ => apply wp_locked
  | |- wp (shared_locked _ _) _ _ _ => apply wp_shared
  | |- _ => wstep
  end.
Ltac cw := repeat (cwstep; cbn beta iota).

(** The emergency lists a trace to_modem to the modem. *)
Fixpoint ecc_sent (e : list Effect) : list (Z * list EmergencyCall) :=
  match e with
  | [] => []
  | Config (RilSetEmergencyCallList slotId l) :: e' => (slotId, l) :: ecc_sent e'
  | _ :: e' => ecc_sent e'
  end.

Lemma ecc_sent_app e e' : ecc_sent (e ++ e') = ecc_sent e ++ ecc_sent e'.
Proof.
  induction e as [|x e IH]; simpl; [done|]. rewrite IH.
  destruct x as [| | | | | | | | | | | | | | | | | | | | | | | | | | | |c]; try done. by destruct c.
Qed.

(** What is asked while an operation runs is asked after its start. *)
Ltac later := repeat apply prefix_app_r; assumption.

Section Kept.
Context `{CallConsts, !CallConstsOk, E : Env, ServiceEnv, HandlerEnv, SupplementEnv, ConfigEnv}.

(** The database: the rows it has for a network. *)
Variable db : string → list EccNum.
Context (Hdb : ∀ h p, rdb_QueryEccList h p = (TELEPHONY_SUCCESS, db p)).

(** The list for the numbers the database has for a network. *)
Definition network_list (plmn : string) : list EmergencyCall :=
  let '(w, n) := GetEccListFromResult (db plmn) [] [] in build_ecc_list w n.

(** A list kept for a network is the network's list. *)
Definition cache_ok (vectors : EccVector → list EccList) : Prop :=
  ∀ v i l, v ≠ hplmnFakeEccList_ → vectors v !! i = Some l →
    ecl_plmn l = "" ∨ ecl_eccInfoList l = network_list (ecl_plmn l).

Lemma cache_ok_insert f v i x :
  cache_ok f →
  (v ≠ hplmnFakeEccList_ → ecl_plmn x = "" ∨ ecl_eccInfoList x = network_list (ecl_plmn x)) →
  cache_ok (<[v := <[i := x]> (f v)]> f).
Proof.
  intros Hf Hx v' j l Hv' Hl. destruct (decide (v = v')) as [<-|].
  - rewrite fn_lookup_insert in Hl. apply list_lookup_insert_Some in Hl as [(?&<-&?)|[? Hl]]; [auto|].
    by apply (Hf v j).
  - rewrite fn_lookup_insert_ne in Hl by done. by apply (Hf v' j).
Qed.

Lemma cfg_inv_write s v i x :
  cfg_inv cache_ok s →
  (v ≠ hplmnFakeEccList_ → ecl_plmn x = "" ∨ ecl_eccInfoList x = network_list (ecl_plmn x)) →
  cfg_inv cache_ok (set_vector v (<[i := x]> (ecc_vectors s v)) s).
Proof.
  intros [Hl Hc] Hx. split; [|by apply cache_ok_insert]. intros v'. simpl.
  destruct (decide (v = v')) as [<-|]; [by rewrite fn_lookup_insert, length_insert|].
  by rewrite fn_lookup_insert_ne.
Qed.

(** Whatever the other answers are, a list that is going to be kept is its
    network's. *)
Lemma wp_any {A} (m : Op CellularCallConfig A) (Q : A → CellularCallConfig → list Effect → Prop) s h :
  (∀ a s' e, Q a s' e) → wp m Q s h.
Proof. unfold wp. by destruct (m s h) as [[a s'] e]. Qed.
Lemma query_result (b b' : bool) p (r : Z * list EccNum) w n :
  r.2 = db p →
  (if bool_decide (r.1 = TELEPHONY_SUCCESS)
   then let '(w, n) := GetEccListFromResult r.2 [] [] in Some (b, w, n) else None) = Some (b', w, n) →
  b' = b ∧ build_ecc_list w n = network_list p.
Proof.
  intros Hr. case_bool_decide; [|done]. rewrite Hr. unfold network_list.
  destruct (GetEccListFromResult _ _ _) as [w' n']. by intros [= <- <- <-].
Qed.
Lemma ProcessHplmnEccList_result slotId p s h :
  in_vectors slotId → cfg_inv cache_ok s →
  wp (ProcessHplmnEccList slotId p)
    (λ r s' _, ∀ b w n, r = Some (b, w, n) → b = true ∧ build_ecc_list w n = network_list p) s h.
Proof.
  intros Hi Hs. unfold ProcessHplmnEccList. cw. destruct (default _ _) as [|it l]; cw.
  - eapply wp_read_vector; [done..|]. intros kept _. cw. case_bool_decide; cw.
    + apply wp_any. intros. by cw.
    + rewrite Hdb. cw. intros b w n. by apply (query_result true b p (_, _)).
  - apply wp_any. intros. by cw.
Qed.
Lemma current_plmn_list_result slotId p s h :
  in_vectors slotId → cfg_inv cache_ok s → curPlmn_ s !! slotId = Some p →
  wp (current_plmn_list slotId p) (λ r s' _, ∀ b w n, r = Some (b, w, n) →
    b = false ∧ curPlmn_ s' !! slotId = Some p ∧ build_ecc_list w n = network_list p) s h.
Proof.
  intros Hi Hs Hp. unfold current_plmn_list. cw. eapply wp_read_vector; [done..|]. intros kept _.
  cw. case_bool_decide; cw.
  - apply wp_any. intros. by cw.
  - rewrite Hdb. cw. intros b w n Hr. by apply (query_result false b p (_, _)) in Hr as [-> ->].
Qed.
Lemma ProcessCurrentPlmnEccList_result slotId s h :
  in_vectors slotId → cfg_inv cache_ok s →
  wp (ProcessCurrentPlmnEccList slotId) (λ r s' _, ∀ b w n, r = Some (b, w, n) →
    b = false ∧ ∃ p, curPlmn_ s' !! slotId = Some p ∧ build_ecc_list w n = network_list p) s h.
Proof.
  intros Hi Hs. unfold ProcessCurrentPlmnEccList. cw.
  assert (∀ s2 p h, cfg_inv cache_ok s2 → curPlmn_ s2 !! slotId = Some p →
    wp (current_plmn_list slotId p) (λ r s' _, ∀ b w n, r = Some (b, w, n) →
      b = false ∧ ∃ p, curPlmn_ s' !! slotId = Some p ∧ build_ecc_list w n = network_list p) s2 h) as Hl.
  { intros s2 p h2 Hs2 Hp. eapply wp_mono; [by apply current_plmn_list_result|].
    intros r s' e Hr b w n Hbwn. destruct (Hr b w n Hbwn) as (?&?&?). eauto. }
  destruct (string_empty _); cw; [destruct (string_empty _); cw; [done|]|];
    (apply Hl; [exact Hs|apply lookup_insert_eq]).
Qed.
Lemma UpdateEccNumberList_cache slotId (Hslot0 : 0 ≤ DEFAULT_SIM_SLOT_ID) :
  disciplined cache_ok [] (UpdateEccNumberList slotId) [].
Proof.
  unfold UpdateEccNumberList. apply on_valid_slot_ok. intros Hi%(valid_in_vectors Hslot0).
  cfg_step; [cfg_auto|]. cfg_step; [apply CheckHomeAndPresentState_ok|].
  destruct a0 as [ret home]. cfg_step; [cfg_auto|]. 
  intros s h Hs. apply wp_then.
  set (P := λ (r : option (bool * list string * list string)) (s' : CellularCallConfig),
    ∀ b w n, r = Some (b, w, n) →
      (b = true ∧ build_ecc_list w n = network_list a) ∨
      (b = false ∧ ∃ p, curPlmn_ s' !! slotId = Some p ∧ build_ecc_list w n = network_list p)).
  eapply (wp_mono _ (λ r s' e, P r s' ∧ cfg_inv cache_ok s' ∧ lock_run [] e = Some [])).
  { destruct (negb (string_empty a) && home).
    - eapply wp_mono; [apply wp_and; [by apply (ProcessHplmnEccList_result slotId a)|
        by apply (ProcessHplmnEccList_ok (J := cache_ok) slotId a Hi)]|].
      intros r s' e Hr. cbn beta in Hr. destruct Hr as [Hr ?].
      split; [|done]. intros b w n Hbwn. left. by apply Hr.
    - eapply wp_mono; [apply wp_and; [by apply (ProcessCurrentPlmnEccList_result slotId)|
        by apply (ProcessCurrentPlmnEccList_ok (J := cache_ok) slotId Hi)]|].
      intros r s' e Hr. cbn beta in Hr. destruct Hr as [Hr ?].
      split; [|done]. intros b w n Hbwn. right. by apply Hr. }
  intros r s' e HPs. cbn beta in HPs. destruct HPs as (HP & Hs' & He). cbn beta.
  destruct r as [[[b w] n]|]; [|cw; by rewrite app_nil_r].
  apply (wp_mono _ (λ _ s2 e2, cfg_inv cache_ok s2 ∧ lock_run [] e2 = Some []));
    [|intros [] s2 e2 Hs2; cbn beta in Hs2; destruct Hs2; split; [done|];
      by rewrite (lock_run_app _ _ _ _ He)].
  assert (∀ l h2 s2, cfg_inv cache_ok s2 →
    wp (SetEmergencyCallList slotId l ;; mret ())
      (λ _ s2 e2, cfg_inv cache_ok s2 ∧ lock_run [] e2 = Some []) s2 h2) as Hsend.
  { intros l h2 s2' Hx. apply wp_then. eapply wp_mono;
      [by apply (SetEmergencyCallList_ok (J := cache_ok) [] slotId)|].
    intros ? s2 e2 Hs2. cbn beta in Hs2. cw. by rewrite app_nil_r. }
  destruct (HP b w n eq_refl) as [[-> Hl]|(-> & p & Hp & Hl)]; cw.
  - eapply wp_write_vector; [done..|]. apply Hsend.
    apply cfg_inv_write; [done|]. right. exact Hl.
  - rewrite Hp. eapply wp_write_vector; [done|exact Hs'|]. apply Hsend.
    apply (cfg_inv_write _ currentPlmnEccList_); [exact Hs'|]. right. exact Hl.
Qed.

(** What the slot knows from [h0] on.  Before it the answers are any. *)
Variables (slotId : Z) (hplmn rplmn : string) (network : option NetworkState).
Variables (configured : list string) (handler : bool).
Definition slot_answers (h : list Effect) : Prop :=
  core_GetSimOperatorNumeric h slotId = hplmn ∧ core_GetOperatorNumeric h slotId = rplmn ∧
  core_GetNetworkStatus h slotId = network ∧
  default [] (stringArrayValue (core_GetOperatorConfigs h slotId).2 !!
    KEY_EMERGENCY_CALL_STRING_ARRAY) = configured ∧
  GetHandler h slotId = handler.
Variable h0 : list Effect.
Context (Hanswers : ∀ h, h0 `prefix_of` h → slot_answers h).

Definition home_and_present (n : NetworkState) (s : CellularCallConfig) : bool :=
  bool_decide (ns_regStatus n = REG_STATE_IN_SERVICE) && negb (ns_roaming n) &&
  (int_at s simState_ slotId =? SIM_PRESENT).
(** Sending a list reaches the modem when the slot has a handler. *)
Definition to_modem (l : list EmergencyCall) : list (Z * list EmergencyCall) :=
  if handler then [(slotId, l)] else [].
(** The list to send, without the kept lists: at home the operator's own list
    or the home network's, elsewhere the current network's, if that is known;
    nothing when the state of the network cannot be had. *)
Definition reference_sent (s : CellularCallConfig) : list (Z * list EmergencyCall) :=
  match network with
  | None => []
  | Some n =>
      if negb (string_empty hplmn) && home_and_present n s then
        match configured with
        | [] => to_modem (network_list hplmn)
        | _ => to_modem (map (λ it, BuildDefaultEmergencyCall it TYPE_HAS_CARD) configured)
        end
      else
        let curPlmn := default "" (curPlmn_ s !! slotId) in
        let plmn := if string_empty curPlmn then rplmn else curPlmn in
        if string_empty plmn then [] else to_modem (network_list plmn)
  end.

Ltac answer :=
  match goal with
  | |- context [core_GetSimOperatorNumeric ?h slotId] => destruct (Hanswers h) as (-> & _); [later|]
  | |- context [core_GetOperatorNumeric ?h slotId] => destruct (Hanswers h) as (_ & -> & _); [later|]
  | |- context [core_GetNetworkStatus ?h slotId] =>
      destruct (Hanswers h) as (_ & _ & -> & _); [later|]
  | |- context [core_GetOperatorConfigs ?h slotId] =>
      destruct (Hanswers h) as (_ & _ & _ & -> & _); [later|]
  | |- context [GetHandler ?h slotId] => destruct (Hanswers h) as (_ & _ & _ & _ & ->); [later|]
  end.

Lemma SetEmergencyCallList_run l s h (Hh : h0 `prefix_of` h) :
  wp (SetEmergencyCallList slotId l) (λ _ s' e, s' = s ∧ ecc_sent e = to_modem l) s h.
Proof.
  unfold SetEmergencyCallList, SetEmergencyCallListRequest, to_modem. cw. answer.
  destruct handler; cbn [negb]; by cw.
Qed.

Lemma kept_list J v s l :
  in_vectors slotId → cfg_inv J s → (∀ f, J f → cache_ok f) → v ≠ hplmnFakeEccList_ →
  ecc_vectors s v !! Z.to_nat slotId = Some l → ecl_plmn l ≠ "" →
  ecl_eccInfoList l = network_list (ecl_plmn l).
Proof. intros ? [_ HJ] Hc Hv Hl Hne. by destruct (Hc _ HJ v _ l Hv Hl). Qed.

Lemma ProcessHplmnEccList_run s h (Hh : h0 `prefix_of` h) :
  in_vectors slotId → cfg_inv cache_ok s → hplmn ≠ "" →
  wp (ProcessHplmnEccList slotId hplmn) (λ r s' e,
    s' = s ∧
    match r with
    | None =>
        ecc_sent e =
          match configured with
          | [] => to_modem (network_list hplmn)
          | _ => to_modem (map (λ it, BuildDefaultEmergencyCall it TYPE_HAS_CARD) configured)
          end
    | Some (b, w, n) =>
        b = true ∧ configured = [] ∧ build_ecc_list w n = network_list hplmn ∧ ecc_sent e = []
    end) s h.
Proof.
  intros Hi Hs Hne. unfold ProcessHplmnEccList. cw. answer. cbn beta iota.
  destruct configured as [|it l]; cw.
  - eapply wp_read_vector; [done..|]. intros kept Hkept. cw. case_bool_decide as Hp; cw.
    + eapply wp_mono; [apply SetEmergencyCallList_run; later|]. intros _ s' e [-> He]. cw.
      split; [done|]. rewrite ?ecc_sent_app, He. simpl.
      rewrite (kept_list cache_ok hplmnEccList_ s kept);
        [by rewrite Hp, app_nil_r|done..|congruence].
    + rewrite Hdb. cw. rewrite bool_decide_true by done. unfold network_list.
      by destruct (GetEccListFromResult _ _ _) as [w n'].
  - eapply wp_mono; [apply SetEmergencyCallList_run; later|]. intros _ s' e [-> He]. cw.
    split; [done|]. rewrite ?ecc_sent_app, He. apply app_nil_r.
Qed.

(** The network whose numbers count away from home: the resident network, or
    what the modem is registered on when that is not known. *)
Definition current_plmn (s : CellularCallConfig) : string :=
  let curPlmn := default "" (curPlmn_ s !! slotId) in
  if string_empty curPlmn then rplmn else curPlmn.

Lemma current_plmn_list_run s p h (Hh : h0 `prefix_of` h) :
  in_vectors slotId → cfg_inv cache_ok s → string_empty p = false →
  curPlmn_ s !! slotId = Some p →
  wp (current_plmn_list slotId p)
    (λ r s' e, ecc_vectors s' = ecc_vectors s ∧
       match r with
       | None => ecc_sent e = to_modem (network_list p)
       | Some (b, w, n) =>
           b = false ∧ string_empty p = false ∧ build_ecc_list w n = network_list p ∧
           curPlmn_ s' !! slotId = Some p ∧ ecc_sent e = []
       end) s h.
Proof.
  intros Hi Hs Hp Hcur. unfold current_plmn_list.
  cw. eapply wp_read_vector; [done..|]. intros kept Hkept. cw. case_bool_decide as Heq; cw.
  - eapply wp_mono; [apply SetEmergencyCallList_run; later|]. intros _ s' e [-> He]. cw.
    split; [done|]. apply string_empty_false in Hp. rewrite ?ecc_sent_app, He. simpl.
    rewrite (kept_list cache_ok currentPlmnEccList_ s kept);
      [by rewrite Heq, app_nil_r|done..|congruence].
  - rewrite Hdb. cw. rewrite bool_decide_true by done. unfold network_list.
    by destruct (GetEccListFromResult _ _ _) as [w n'].
Qed.

Lemma ProcessCurrentPlmnEccList_run s h (Hh : h0 `prefix_of` h) :
  in_vectors slotId → cfg_inv cache_ok s →
  wp (ProcessCurrentPlmnEccList slotId) (λ r s' e,
    ecc_vectors s' = ecc_vectors s ∧
    match r with
    | None =>
        ecc_sent e = if string_empty (current_plmn s) then []
                     else to_modem (network_list (current_plmn s))
    | Some (b, w, n) =>
        b = false ∧ string_empty (current_plmn s) = false ∧
        build_ecc_list w n = network_list (current_plmn s) ∧
        curPlmn_ s' !! slotId = Some (current_plmn s) ∧ ecc_sent e = []
    end) s h.
Proof.
  intros Hi Hs. unfold ProcessCurrentPlmnEccList, current_plmn. cw.
  set (cur := default "" (curPlmn_ s !! slotId)).
  destruct (string_empty cur) eqn:Hcur; cw.
  - answer. destruct (string_empty rplmn) eqn:Hr; cw; [done|].
    eapply wp_mono; [by apply current_plmn_list_run; [later|..|apply lookup_insert_eq]|].
    intros r s' e Hr'. cbn beta in Hr'. rewrite Hr in Hr'. exact Hr'.
  - eapply wp_mono; [by apply current_plmn_list_run; [later|..|apply lookup_insert_eq]|].
    intros r s' e Hr'. cbn beta in Hr'. rewrite Hcur in *. exact Hr'.
Qed.

Lemma UpdateEccNumberList_reference s h (Hh : h0 `prefix_of` h) :
  in_vectors slotId → IsValidSlotId slotId = true → cfg_inv cache_ok s →
  wp (UpdateEccNumberList slotId)
    (λ _ s' e, cfg_inv cache_ok s' ∧ ecc_sent e = reference_sent s) s h.
Proof.
  intros Hi Hv Hs. unfold UpdateEccNumberList, on_valid_slot. rewrite Hv. cbn [negb].
  unfold CheckHomeAndPresentState. cw. do 2 answer. unfold reference_sent.
  destruct network as [n|]; [|cw; rewrite bool_decide_true by err_ne; by cw].
  cw. rewrite bool_decide_false by auto.
  change (bool_decide _ && _ && _) with (home_and_present n s).
  apply wp_then. destruct (negb (string_empty hplmn) && home_and_present n s) eqn:Hhome.
  - apply andb_true_iff in Hhome as [Hne _]. apply negb_true_iff, string_empty_false in Hne.
    eapply wp_mono; [by apply ProcessHplmnEccList_run; [later|..]|].
    intros r s' e [-> Hr]. cbn beta. destruct r as [[[b w] n']|]; cw.
    + destruct Hr as (-> & Hc & Hl & He). cw.
      eapply wp_write_vector; [done..|]. apply wp_then.
      eapply wp_mono; [apply SetEmergencyCallList_run; later|]. intros _ s2 e2 [-> He2]. cw.
      rewrite Hc, Hl. split; [by apply cfg_inv_write; [..|right]|]. 
      rewrite ?ecc_sent_app, He, He2, Hl. simpl. by rewrite app_nil_r.
    + rewrite ?ecc_sent_app, Hr. simpl. by rewrite app_nil_r.
  - eapply wp_mono; [by apply ProcessCurrentPlmnEccList_run; [later|..]|].
    intros r s' e [Hvec Hr]. cbn beta.
    assert (cfg_inv cache_ok s') as Hs' by (unfold cfg_inv; rewrite Hvec; exact Hs).
    unfold current_plmn in Hr.
    change (curPlmn_ (set_int simState_ slotId (int_at s simState_ slotId) s)) with (curPlmn_ s) in Hr.
    destruct r as [[[b w] n']|]; cw.
    + destruct Hr as (-> & Hp & Hl & Hcur & He). cw. rewrite Hcur. cbn [default from_option id].
      eapply wp_write_vector; [done|exact Hs'|]. apply wp_then.
      eapply wp_mono; [apply SetEmergencyCallList_run; later|]. intros _ s2 e2 [-> He2]. cw.
      rewrite Hl. split; [by apply cfg_inv_write; [..|right]|].
      rewrite ?ecc_sent_app, Hp, He, He2, Hl. simpl. by rewrite app_nil_r.
    + split; [done|]. rewrite ?ecc_sent_app, Hr. simpl. by rewrite app_nil_r.
Qed.
End Kept.
(** ** The merged list *)

Section Merge.
Context `{CallConsts, E : Env, ServiceEnv, HandlerEnv, SupplementEnv, ConfigEnv}.

(** No entry of [l] equals a later one. *)
Definition distinct (l : list EmergencyCall) : Prop :=
  ∀ i j a b, (i < j)%nat → l !! i = Some a → l !! j = Some b → EmergencyCall_eqb a b = false.
(** An entry of [l] or one equal to it is in [r]. *)
Definition covers (r l : list EmergencyCall) : Prop :=
  ∀ e, e ∈ l → e ∈ r ∨ ∃ e', e' ∈ r ∧ EmergencyCall_eqb e' e = true.

Lemma ecc_mem_true call l : ecc_mem call l = true ↔ ∃ e, e ∈ l ∧ EmergencyCall_eqb e call = true.
Proof. unfold ecc_mem. rewrite existsb_exists. by setoid_rewrite list_elem_of_In. Qed.
Lemma ecc_mem_false call l e : ecc_mem call l = false → e ∈ l → EmergencyCall_eqb e call = false.
Proof.
  intros Hm He. apply not_true_iff_false. intros Heq.
  apply not_true_iff_false in Hm. apply Hm, ecc_mem_true. eauto.
Qed.
Lemma distinct_snoc l call : distinct l → ecc_mem call l = false → distinct (l ++ [call]).
Proof.
  intros Hl Hm i j a b Hij Ha Hb. pose proof (lookup_lt_Some _ _ _ Hb) as Hj.
  rewrite length_app in Hj. simpl in Hj.
  destruct (decide (j < Datatypes.length l)%nat) as [Hlt|Hge].
  - rewrite lookup_app_l in Ha, Hb by lia. by apply (Hl i j).
  - rewrite lookup_app_l in Ha by lia. rewrite lookup_app_r in Hb by lia.
    replace (j - Datatypes.length l)%nat with 0%nat in Hb by lia. simplify_eq/=.
    eapply ecc_mem_false; [done|by eapply list_elem_of_lookup_2].
Qed.

(** [unique_loop] keeps the first of equal entries, in order. *)
Lemma unique_loop_spec l : ∀ all, distinct all →
  distinct (unique_loop l all) ∧ (∃ k, unique_loop l all = all ++ k ∧ k `sublist_of` l) ∧
  covers (unique_loop l all) l.
Proof.
  induction l as [|call l IH]; simpl; intros all Hall.
  { split_and!; [done| |by intros e ?%not_elem_of_nil]. exists []. by rewrite app_nil_r. }
  destruct (ecc_mem call all) eqn:Hm.
  - destruct (IH all Hall) as (Hd & (k & Hk & Hsub) & Hc). split_and!; [done| |].
    + exists k. split; [done|]. by constructor.
    + intros e [->|He]%elem_of_cons; [|by apply Hc]. right.
      apply ecc_mem_true in Hm as (e' & He' & Heq). exists e'. rewrite Hk, elem_of_app. eauto.
  - destruct (IH (all ++ [call]) (distinct_snoc _ _ Hall Hm)) as (Hd & (k & Hk & Hsub) & Hc).
    split_and!; [done| |].
    + exists (call :: k). rewrite Hk, <-app_assoc. split; [done|by constructor].
    + intros e [->|He]%elem_of_cons; [|by apply Hc]. left. rewrite Hk, !elem_of_app. left. right.
      by left.
Qed.
Lemma unique_list l :
  distinct (unique_loop l []) ∧ unique_loop l [] `sublist_of` l ∧ covers (unique_loop l []) l.
Proof.
  destruct (unique_loop_spec l []) as (Hd & (k & Hk & Hsub) & Hc); [by intros i j a b _ ?|].
  split_and!; [done|by rewrite Hk|done].
Qed.

Lemma merge_fake_app fake l : ∃ k, merge_fake fake l = l ++ k ∧ k `sublist_of` fake ∧
  covers (merge_fake fake l) fake.
Proof.
  revert l. induction fake as [|x fake IH]; simpl; intros l.
  { exists []. rewrite app_nil_r. split_and!; [done|done|by intros e ?%not_elem_of_nil]. }
  destruct (ecc_mem x l) eqn:Hm.
  - destruct (IH l) as (k & Hk & Hsub & Hc). exists k. split_and!; [done|by constructor|].
    intros e [->|He]%elem_of_cons; [|by apply Hc]. right.
    apply ecc_mem_true in Hm as (e' & He' & Heq). exists e'. rewrite Hk, elem_of_app. eauto.
  - destruct (IH (l ++ [x])) as (k & Hk & Hsub & Hc). exists (x :: k). rewrite Hk, <-app_assoc.
    split_and!; [done|by constructor|]. 
    intros e [->|He]%elem_of_cons; [left; apply elem_of_app; right; by left|].
    specialize (Hc e He). by rewrite Hk, <-app_assoc in Hc.
Qed.
Lemma add_fakes_spec mcc callList eccList kept :
  let calls := map (λ it, set_mcc mcc (BuildDefaultEmergencyCall it TYPE_HAS_CARD)) callList in
  (add_fakes mcc callList eccList kept).1 = eccList ++ calls ∧
  ∃ k, (add_fakes mcc callList eccList kept).2 = kept ++ k ∧ k `sublist_of` calls.
Proof.
  revert eccList kept. induction callList as [|it l IH]; simpl; intros eccList kept.
  { rewrite app_nil_r. split; [done|]. exists []. by rewrite app_nil_r. }
  set (call := set_mcc mcc (BuildDefaultEmergencyCall it TYPE_HAS_CARD)).
  destruct (ecc_mem call kept).
  - destruct (IH (eccList ++ [call]) kept) as [-> (k & -> & Hk)]. rewrite <-app_assoc.
    split; [done|]. exists k. split; [done|by constructor].
  - destruct (IH (eccList ++ [call]) (kept ++ [call])) as [-> (k & -> & Hk)]. rewrite <-!app_assoc.
    split; [done|]. exists (call :: k). split; [done|by constructor].
Qed.

(** The SIM from [h0] on, while the report is handled. *)
Variables (slotId : Z) (op : string) (hasSim : bool) (h0 : list Effect).
Definition sim_answers (h : list Effect) : Prop :=
  core_GetSimOperatorNumeric h slotId = op ∧
  ∀ d, sim_ready (core_GetSimState h slotId d) = hasSim.
Context (Hanswers : ∀ h, h0 `prefix_of` h → sim_answers h).

(** The country of the SIM: the first digits of its operator's number. *)
Definition sim_mcc : string :=
  if (MCC_LEN <=? String.length op)%nat then String.substring 0 MCC_LEN op else op.
(** What does not depend on the network: the modem's numbers and, with a SIM
    whose country is known or without a SIM, the built-in ones. *)
Definition ecc_sources (s : CellularCallConfig) (calls : list EmergencyInfo) : list EmergencyCall :=
  map (set_mcc sim_mcc) (map BuildEmergencyCall calls) ++
  (if hasSim then (if string_empty sim_mcc then [] else map (set_mcc sim_mcc) (eccList3gppHasSim_ s))
   else map (set_mcc sim_mcc) (eccList3gppNoSim_ s)).

(** At home all the time, with a SIM whose operator is known. *)
Definition steadily_home : Prop :=
  hasSim = true ∧ op ≠ "" ∧
  ∀ h, h0 `prefix_of` h → ∃ n, core_GetNetworkStatus h slotId = Some n ∧ ns_roaming n = false.

(** The state after a report of the modem.  The merged list has the sources and
    [extra], the operator's fake numbers, which are there only with a SIM; the
    numbers kept for the SIM's operator are among them.  When the kept list is
    another operator's, its entries stay in front of those read from the
    database. *)
Definition merged (calls : list EmergencyInfo) (s s' : CellularCallConfig) : Prop :=
  (∃ extra,
     ecc_at s' allEccList_ slotId = unique_loop (ecc_sources s calls ++ extra) [] ∧
     (hasSim && negb (string_empty op) = false → extra = []) ∧
     ∀ kept, steadily_home → ecc_vectors s hplmnFakeEccList_ !! Z.to_nat slotId = Some kept →
       ecl_plmn kept = op → covers (ecc_sources s calls ++ extra) (ecl_eccInfoList kept)) ∧
  (∀ kept, steadily_home → ecc_vectors s hplmnFakeEccList_ !! Z.to_nat slotId = Some kept →
     ecl_plmn kept ≠ op →
     (∀ h, ∃ row rows, (rdb_QueryEccList h op).2 = row :: rows ∧ split_numbers (ecc_fake row) ≠ []) →
     ∃ k, ecc_vectors s' hplmnFakeEccList_ !! Z.to_nat slotId =
            Some {| ecl_plmn := op; ecl_eccInfoList := ecl_eccInfoList kept ++ k |}) ∧
  cfg_inv (λ _, True) s'.

Lemma unique_merged calls s s3 extra h :
  (hasSim && negb (string_empty op) = false → extra = []) →
  (∀ kept, steadily_home → ecc_vectors s hplmnFakeEccList_ !! Z.to_nat slotId = Some kept →
     ecl_plmn kept = op → covers (ecc_sources s calls ++ extra) (ecl_eccInfoList kept)) →
  (∀ kept, steadily_home → ecc_vectors s hplmnFakeEccList_ !! Z.to_nat slotId = Some kept →
     ecl_plmn kept ≠ op →
     (∀ h, ∃ row rows, (rdb_QueryEccList h op).2 = row :: rows ∧ split_numbers (ecc_fake row) ≠ []) →
     ∃ k, ecc_vectors s3 hplmnFakeEccList_ !! Z.to_nat slotId =
            Some {| ecl_plmn := op; ecl_eccInfoList := ecl_eccInfoList kept ++ k |}) →
  cfg_inv (λ _, True) s3 →
  wp (UniqueEccCallList slotId (ecc_sources s calls ++ extra)) (λ _ s' _, merged calls s s') s3 h.
Proof.
  intros He Hk Hkept Hs3. unfold UniqueEccCallList. cw. split_and!; [|done|done]. exists extra.
  split; [|done]. unfold ecc_at. simpl. by rewrite fn_lookup_insert, lookup_insert_eq.
Qed.

Ltac sim_answer :=
  match goal with
  | |- context [core_GetSimOperatorNumeric ?h slotId] => destruct (Hanswers h) as (-> & _); [later|]
  | |- context [core_GetSimState ?h slotId ?d] => destruct (Hanswers h) as (_ & ->); [later|]
  end.
Lemma UpdateEmergencyCallFromRadio_run calls s h (Hh : h0 `prefix_of` h) :
  in_vectors slotId → IsValidSlotId slotId = true → cfg_inv (λ _, True) s →
  wp (UpdateEmergencyCallFromRadio slotId calls) (λ _ s' _, merged calls s s') s h.
Proof.
  intros Hi Hv Hs. unfold UpdateEmergencyCallFromRadio, on_valid_slot. rewrite Hv. cbn [negb].
  unfold MergeEccCallList, GetMcc, GetSimState. cw. repeat sim_answer.
  change (if (MCC_LEN <=? String.length op)%nat then String.substring 0 MCC_LEN op else op)
    with sim_mcc.
  set (s1 := set_ecc_map eccListRadioMap_ _ s).
  assert (ecc_at s1 eccListRadioMap_ slotId = map BuildEmergencyCall calls) as Hradio.
  { unfold ecc_at, s1. simpl. by rewrite fn_lookup_insert, lookup_insert_eq. }
  rewrite Hradio. change (eccList3gppHasSim_ (set_ecc_map _ _ s1)) with (eccList3gppHasSim_ s).
  change (eccList3gppNoSim_ (set_ecc_map _ _ s1)) with (eccList3gppNoSim_ s).
  fold (ecc_sources s calls). set (s2 := set_ecc_map eccListRadioMap_ _ s1).
  assert (cfg_inv (λ _, True) s2) as Hs2 by exact Hs.
  eapply (wp_mono _ (λ roaming s' _, s' = s2 ∧ (steadily_home → roaming = false))).
  { destruct hasSim eqn:Hb; unfold GetRoamingState; cw; (split; [done|]).
    - intros (_ & _ & Hn). match goal with |- context [core_GetNetworkStatus ?h _] =>
        destruct (Hn h) as (n & -> & ?); [later|] end. done.
    - intros [? _]. congruence. }
  intros roaming s' e1 Hr. cbn beta in Hr. destruct Hr as [-> Hr]. cbn beta.
  destruct (hasSim && negb roaming && negb (string_empty op)) eqn:Hhome.
  2:{ assert (¬ steadily_home) as Hn.
      { intros Hst. pose proof Hst as (Hs1' & Hne & _). rewrite Hs1', (Hr Hst) in Hhome.
        apply string_empty_false in Hne. by rewrite Hne in Hhome. }
      rewrite <-(app_nil_r (ecc_sources s calls)) at 1. by apply unique_merged. }
  assert (∀ k : list EmergencyCall, hasSim && negb (string_empty op) = false → k = []) as Hno.
  { revert Hhome. by destruct hasSim, roaming, (string_empty op). }
  cw. eapply wp_read_vector; [done..|]. intros fake Hfake. cbn beta iota.
  case_bool_decide as Hp; cw.
  - unfold UpdateEccListByFakeEccList. cw. eapply wp_read_vector; [done..|].
    intros fake' Hfake'.
    assert (fake' = fake) as -> by (apply (inj Some); by rewrite <-Hfake, <-Hfake'). cw.
    destruct (merge_fake_app (ecl_eccInfoList fake) (ecc_sources s calls)) as (k & Hk & _ & Hc).
    rewrite Hk in *. apply unique_merged; [apply Hno| |..|done].
    + intros kept _ Hkept _. by simplify_eq/=.
    + intros kept _ Hkept ?. by simplify_eq/=.
  - match goal with |- context [rdb_QueryEccList ?h op] => set (q := rdb_QueryEccList h op) end.
    destruct q.2 as [|row rows] eqn:Hq.
    { rewrite <-(app_nil_r (ecc_sources s calls)) at 1. apply unique_merged; [apply Hno|..|done].
      - intros kept _ Hkept ?. by simplify_eq/=.
      - intros kept _ _ _ Hrow. match goal with q := rdb_QueryEccList ?h op |- _ =>
          destruct (Hrow h) as (?&?&Hrow'&_) end. unfold q in Hq. congruence. }
    cw. unfold UpdateHplmnFakeEccList. destruct (split_numbers (ecc_fake row)) as [|n ns] eqn:Hsp; cw.
    { rewrite <-(app_nil_r (ecc_sources s calls)) at 1. apply unique_merged; [apply Hno|..|done].
      - intros kept _ Hkept ?. by simplify_eq/=.
      - intros kept _ _ _ Hrow. match goal with q := rdb_QueryEccList ?h op |- _ =>
          destruct (Hrow h) as (?&?&Hrow'&?) end. unfold q in Hq. congruence. }
    eapply wp_read_vector; [done..|]. intros fake' Hfake'.
    assert (fake' = fake) as -> by (apply (inj Some); by rewrite <-Hfake, <-Hfake'). cw.
    destruct (add_fakes_spec sim_mcc (n :: ns) (ecc_sources s calls) (ecl_eccInfoList fake))
      as [Hadd (k & Hk & _)].
    destruct (add_fakes sim_mcc (n :: ns) _ _) as [l kept]. simpl in Hadd, Hk. cw.
    eapply wp_write_vector; [done..|]. cw. rewrite Hadd.
    assert (Z.to_nat slotId < Datatypes.length (ecc_vectors s hplmnFakeEccList_))%nat as Hlt
      by (by eapply lookup_lt_Some).
    apply unique_merged; [apply Hno| |..].
    + intros kept' _ Hkept' ?. by simplify_eq/=.
    + intros kept' _ Hkept' _ _. simplify_eq/=. exists k.
      by rewrite fn_lookup_insert, list_lookup_insert_eq.
    + destruct Hs as [Hl _]. split; [|done]. intros v. simpl.
      destruct (decide (hplmnFakeEccList_ = v)) as [<-|];
        [rewrite fn_lookup_insert, length_insert; apply Hl|rewrite fn_lookup_insert_ne by done; apply Hl].
Qed.
End Merge.
