(* ===== verification/ConfigSystem.v ===== *)
(** * ConfigSystem: the configuration as the rest of the program uses it

    [ConfigAction] lists what the handlers, the service and the controls call;
    a run of the component is a sequence of actions from the initial state.
    The last part puts the mutexes of several threads together.

    Modules [ConfigUser] and [ConfigSwitch]: what the configuration
    promises its users, and what the switch and the capabilities do. *)

From stdpp Require Import base tactics option list numbers strings pretty gmap functions relations.
From Stdlib Require Import ZArith Lia Ascii String.
From S2P Require Import Prelude ConfigTypes Platform Standardize Emergency ControlBase ConnectionIMS Service Handler.
From S2P Require Import SupplementRequestCs Supplement ConfigRequest Config ConfigEcc ConfigHandler ConfigFacts ConfigEccFacts.

Open Scope Z_scope.

Section System.
Context `{CallConsts, E : Env, ServiceEnv, HandlerEnv, SupplementEnv, ConfigEnv}.
Abbreviation Cfg A := (Op CellularCallConfig A).

Inductive ConfigAction :=
  (* events of a slot's handler *)
  | ActSimStateChange (slotId : Z) (reg : bool)
  | ActFactoryReset (slotId : Z)
  | ActSimRecordsLoaded (slotId : Z)
  | ActSimAccountLoaded (slotId : Z)
  | ActResidentNetworkChange (slotId : Z) (result : option string)
  | ActNetworkStateChange (slotId : Z)
  | ActSetDomainPreferenceModeResponse (slotId : Z) (reg : bool) (info : option Z)
  | ActGetDomainPreferenceModeResponse (slotId : Z) (mode : option Z)
  | ActSetImsSwitchStatusResponse (slotId : Z) (reg : bool) (info : option Z)
  | ActGetImsSwitchStatusResponse (slotId : Z) (event : option (Z + Z))
  | ActSetVoNRSwitchStatusResponse (slotId : Z) (info : option Z)
  | ActGetEmergencyCallListResponse (slotId : Z) (eccList : option (list EmergencyInfo))
  | ActReportEccChanged (slotId : Z) (eccList : option (list EmergencyInfo))
  | ActOperatorConfigChanged (slotId : Z) (state : option Z)
  | ActGetImsCapResponse (slotId : Z) (imsCap : option Z)
  | ActUpdateImsConfiguration (slotId : Z)
  | ActGetImsSwitchStatusRequest (slotId : Z)
  (* operations of the service *)
  | ActSetEmergencyCallList (slotId : Z) (eccVec : list EmergencyCall)
  | ActSetDomainPreferenceMode (slotId mode : Z)
  | ActSetImsSwitchStatus (slotId : Z) (active : bool)
  | ActGetImsSwitchStatus (slotId : Z) (enabled : bool)
  | ActSetVoNRState (slotId state : Z)
  | ActGetVoNRState (slotId state : Z)
  | ActGetImsFeatureValue (slotId type : Z)
  | ActRegisterCoreService
  | ActEccListChange
  (* the controls and the handler *)
  | ActReadBool (d : bool) (m : BoolMap) (slotId : Z)
  | ActGetPreferenceMode (slotId : Z)
  | ActGetEccCallList (slotId : Z)
  | ActSetReadyToCall (slotId : Z) (isReadyToCall : bool)
  | ActSetClearCode (slotId cause : Z)
  | ActSetRadioOn (isRadioOn : bool).

Definition ignore {A} (m : Cfg A) : Cfg () := m ;; mret ().
Definition run_action (act : ConfigAction) : Cfg () :=
  match act with
  | ActSimStateChange slotId reg => SimStateChangeReport slotId reg
  | ActFactoryReset slotId => FactoryReset slotId
  | ActSimRecordsLoaded slotId => SimRecordsLoadedReport slotId
  | ActSimAccountLoaded slotId => SimAccountLoadedReport slotId
  | ActResidentNetworkChange slotId result => ResidentNetworkChangeReport slotId result
  | ActNetworkStateChange slotId => NetworkStateChangeReport slotId
  | ActSetDomainPreferenceModeResponse slotId reg info =>
      SetDomainPreferenceModeResponse slotId reg info
  | ActGetDomainPreferenceModeResponse slotId mode => GetDomainPreferenceModeResponse slotId mode
  | ActSetImsSwitchStatusResponse slotId reg info => SetImsSwitchStatusResponse slotId reg info
  | ActGetImsSwitchStatusResponse slotId event => GetImsSwitchStatusResponse slotId event
  | ActSetVoNRSwitchStatusResponse slotId info => SetVoNRSwitchStatusResponse slotId info
  | ActGetEmergencyCallListResponse slotId l => GetEmergencyCallListResponse slotId l
  | ActReportEccChanged slotId l => ReportEccChanged slotId l
  | ActOperatorConfigChanged slotId state => HandleOperatorConfigChanged slotId state
  | ActGetImsCapResponse slotId imsCap => GetImsCapResponse slotId imsCap
  | ActUpdateImsConfiguration slotId => UpdateImsConfiguration slotId
  | ActGetImsSwitchStatusRequest slotId => GetImsSwitchStatusRequest slotId
  | ActSetEmergencyCallList slotId l => ignore (service_SetEmergencyCallList slotId l)
  | ActSetDomainPreferenceMode slotId mode => ignore (service_SetDomainPreferenceMode slotId mode)
  | ActSetImsSwitchStatus slotId active => ignore (service_SetImsSwitchStatus slotId active)
  | ActGetImsSwitchStatus slotId enabled => ignore (service_GetImsSwitchStatus slotId enabled)
  | ActSetVoNRState slotId state => ignore (SetVoNRState slotId state)
  | ActGetVoNRState slotId state => ignore (GetVoNRState slotId state)
  | ActGetImsFeatureValue slotId type => ignore (service_GetImsFeatureValue slotId type)
  | ActRegisterCoreService => RegisterCoreServiceHandler_config
  | ActEccListChange => EmergencyInfoObserver_OnChange
  | ActReadBool d m slotId => ignore (construct (checked_bool d m slotId))
  | ActGetPreferenceMode slotId => ignore (construct (GetPreferenceMode slotId))
  | ActGetEccCallList slotId => ignore (construct (GetEccCallList slotId))
  | ActSetReadyToCall slotId b => construct (SetReadyToCall slotId b)
  | ActSetClearCode slotId cause => construct (SetClearCode slotId cause)
  | ActSetRadioOn on => SetRadioOn on
  end.
Definition run_actions (acts : list ConfigAction) : Cfg () := mfor acts run_action.

Section Disciplined.
Context (Hslot0 : 0 ≤ DEFAULT_SIM_SLOT_ID).
Context {J : (EccVector → list EccList) → Prop}.
Context (Hfake : ∀ f i x, J f → J (<[hplmnFakeEccList_ := <[i := x]> (f hplmnFakeEccList_)]> f)).
Context (Hclear : ∀ f v i, J f → J (<[v := <[i := EccList_new]> (f v)]> f)).
Context (Hupdate : ∀ slotId, disciplined J [] (UpdateEccNumberList slotId) []).

Lemma construct_ok {A} (k : Cfg A) : disciplined J [] k [] → disciplined J [] (construct k) [].
Proof. intros Hk. unfold construct. cfg_step; [apply CellularCallConfig_ctor_ok|done]. Qed.
Lemma ignore_ok {A} (k : Cfg A) : disciplined J [] k [] → disciplined J [] (ignore k) [].
Proof. intros Hk. unfold ignore. cfg_step; [done|]. cfg_auto. Qed.
Lemma service_config_ok slotId k : disciplined J [] k [] → disciplined J [] (service_config slotId k) [].
Proof. intros Hk. unfold service_config. cfg_step; [cfg_auto|by apply construct_ok]. Qed.
Lemma service_read_ok {A} slotId (old : A) k :
  disciplined J [] k [] → disciplined J [] (service_read slotId old k) [].
Proof. intros Hk. unfold service_read. cfg_step; [cfg_auto|by apply construct_ok]. Qed.

#[local] Hint Extern 1 (disciplined _ _ (construct _) _) => apply construct_ok; cfg_auto : cfg.
#[local] Hint Extern 1 (disciplined _ _ (ignore _) _) => apply ignore_ok; cfg_auto : cfg.
#[local] Hint Extern 1 (disciplined _ _ (service_config _ _) _) =>
  apply service_config_ok; cfg_auto : cfg.
#[local] Hint Extern 1 (disciplined _ _ (service_read _ _ _) _) =>
  apply service_read_ok; cfg_auto : cfg.
#[local] Hint Resolve HandleSimStateChanged_ok HandleSimRecordsLoaded_ok
  HandleResidentNetworkChange_ok HandleSimAccountLoaded_ok HandleNetworkStateChange_ok
  HandleEccListChange_ok HandleFactoryReset_ok HandleSetLteImsSwitchResult_ok
  ConfigFacts.GetDomainPreferenceModeResponse_ok SetTempMode_ok SetClearCode_ok SetReadyToCall_ok
  InitModeActive_ok UpdateEmergencyCallFromRadio_ok GetEccCallList_ok SetEmergencyCallList_ok : cfg.

Lemma handler_UpdateImsConfiguration_ok slotId :
  disciplined J [] (UpdateImsConfiguration slotId) [].
Proof. unfold UpdateImsConfiguration. cfg_auto. Qed.
Lemma handler_GetImsSwitchStatusRequest_ok slotId :
  disciplined J [] (GetImsSwitchStatusRequest slotId) [].
Proof. unfold GetImsSwitchStatusRequest. cfg_auto. Qed.
#[local] Hint Resolve handler_UpdateImsConfiguration_ok handler_GetImsSwitchStatusRequest_ok : cfg.

Lemma run_action_ok act : disciplined J [] (run_action act) [].
Proof.
  destruct act; cbn [run_action];
    unfold SimStateChangeReport, FactoryReset, SimRecordsLoadedReport, SimAccountLoadedReport,
      ResidentNetworkChangeReport, NetworkStateChangeReport, SetDomainPreferenceModeResponse,
      GetDomainPreferenceModeResponse, SetImsSwitchStatusResponse, GetImsSwitchStatusResponse,
      SetVoNRSwitchStatusResponse, GetEmergencyCallListResponse, ReportEccChanged,
      HandleOperatorConfigChanged, GetImsCapResponse, with_object, to_register,
      service_SetEmergencyCallList, service_SetDomainPreferenceMode, service_SetImsSwitchStatus,
      service_GetImsSwitchStatus, SetVoNRState, GetVoNRState, service_GetImsFeatureValue,
      RegisterCoreServiceHandler_config, EmergencyInfoObserver_OnChange; cfg_auto.
  apply disciplined_mfor. intros slot _. 
  unfold GetDomainPreferenceMode, GetEmergencyCallList. cfg_auto.
Qed.
Lemma run_actions_ok acts : disciplined J [] (run_actions acts) [].
Proof. apply disciplined_mfor. intros act _. apply run_action_ok. Qed.
End Disciplined.
End System.

(** ** Threads

    A thread works off the effects of its runs in order; taking a mutex waits
    until no other thread holds it (a reader waits like a writer, which is more
    than [std::shared_mutex] asks). *)

Record Thread := { th_held : list Mutex; th_todo : list Effect }.

(** [m.unlock()] takes [m] out of what the thread holds. *)
Fixpoint release (m : Mutex) (held : list Mutex) : list Mutex :=
  match held with
  | [] => []
  | m' :: held' => if bool_decide (m = m') then held' else m' :: release m held'
  end.
(** The mutexes held after an effect that was let through. *)
Definition held_after (held : list Mutex) (e : Effect) : list Mutex :=
  match e with
  | Config (Lock m _) => m :: held
  | Config (Unlock m) => release m held
  | _ => held
  end.
Definition waits_for (t : Thread) : option Mutex :=
  match th_todo t with Config (Lock m _) :: _ => Some m | _ => None end.
Definition free_for (ts : list Thread) (i : nat) (m : Mutex) : Prop :=
  ∀ j t, ts !! j = Some t → j ≠ i → m ∉ th_held t.

Inductive threads_step (ts : list Thread) : list Thread → Prop :=
  | thread_works i held e todo :
      ts !! i = Some {| th_held := held; th_todo := e :: todo |} →
      (∀ m, waits_for {| th_held := held; th_todo := e :: todo |} = Some m → free_for ts i m) →
      threads_step ts (<[i := {| th_held := held_after held e; th_todo := todo |}]> ts).

(** The thread ends with nothing held and respects the ranks. *)
Definition thread_ok (t : Thread) : Prop := lock_run (th_held t) (th_todo t) = Some [].

Lemma lock_run_cons held e todo r :
  lock_run held (e :: todo) = Some r → lock_run (held_after held e) todo = Some r.
Proof.
  destruct e as [| | | | | | | | | | | | | | | | | | | | | | | | | | | |c]; try done.
  destruct c; try done; simpl; [by case_match|].
  destruct held as [|m' held]; [done|]. simpl. by case_bool_decide.
Qed.
Lemma threads_step_ok ts ts' : threads_step ts ts' → Forall thread_ok ts → Forall thread_ok ts'.
Proof.
  intros [i held e todo Hi _] Hts. apply Forall_insert; [done|].
  rewrite Forall_lookup in Hts. by apply lock_run_cons, (Hts i _ Hi).
Qed.

(** A mutex that is not free is held by a thread that still has work, and waits,
    if it waits, for a mutex of a higher rank. *)
Lemma holder_goes_on ts i m :
  Forall thread_ok ts → ¬ free_for ts i m →
  ∃ j held e todo, ts !! j = Some {| th_held := held; th_todo := e :: todo |} ∧
    ∀ m', waits_for {| th_held := held; th_todo := e :: todo |} = Some m' →
      (lock_rank m < lock_rank m')%nat.
Proof.
  intros Hts Hf.
  assert (∃ j t, ts !! j = Some t ∧ m ∈ th_held t) as (j & [held todo] & Hj & Hm).
  { destruct (decide (Exists (λ t, m ∈ th_held t) ts)) as [(t & Ht & Hm)%Exists_exists|Hn].
    - apply list_elem_of_lookup in Ht as [j Hj]. eauto.
    - exfalso. apply Hf. intros j t Hj _ Hm. apply Hn, Exists_exists. exists t.
      split; [by eapply list_elem_of_lookup_2|done]. }
  rewrite Forall_lookup in Hts. pose proof (Hts j _ Hj) as Hok. unfold thread_ok in Hok. simpl in *.
  destruct todo as [|e todo]; simpl in Hok; [simplify_eq; by apply not_elem_of_nil in Hm|].
  exists j, held, e, todo. split; [done|]. intros m'. unfold waits_for. simpl.
  destruct e as [| | | | | | | | | | | | | | | | | | | | | | | | | | | |c]; try done.
  destruct c; try done. intros [= ->].
  destruct (may_lock held m') eqn:Hlock; [|done]. unfold may_lock in Hlock.
  rewrite forallb_forall in Hlock. apply list_elem_of_In in Hm. apply Hlock in Hm.
  by apply Nat.ltb_lt.
Qed.

Lemma thread_runs ts k : ∀ i held e todo,
  Forall thread_ok ts → ts !! i = Some {| th_held := held; th_todo := e :: todo |} →
  (∀ m, waits_for {| th_held := held; th_todo := e :: todo |} = Some m → 5 - lock_rank m ≤ k)%nat →
  ∃ ts', threads_step ts ts'.
Proof.
  induction k as [|k IH]; intros i held e todo Hts Hi Hk.
  - destruct (waits_for {| th_held := held; th_todo := e :: todo |}) as [m|] eqn:Hw.
    + specialize (Hk m eq_refl). destruct m; simpl in Hk; lia.
    + eexists. eapply thread_works; [exact Hi|]. intros m. by rewrite Hw.
  - destruct (waits_for {| th_held := held; th_todo := e :: todo |}) as [m|] eqn:Hw.
    + destruct (decide (Forall (λ jt, jt.1 ≠ i → m ∉ th_held jt.2) (imap pair ts))) as [Hf|Hf].
      * eexists. eapply thread_works; [exact Hi|]. intros m' Hm'. rewrite Hw in Hm'.
        injection Hm' as <-. intros j t Hj Hji. rewrite Forall_lookup in Hf. apply (Hf j (j, t)); [|done].
        by rewrite list_lookup_imap, Hj.
      * destruct (holder_goes_on ts i m) as (j & held' & e' & todo' & Hj & Hr); [done| |].
        { intros Hfree. apply Hf, Forall_lookup. intros j [j' t] Hjt Hne.
          rewrite list_lookup_imap in Hjt. destruct (ts !! j) as [t'|] eqn:Ht; [|done].
          injection Hjt as <- <-. by apply (Hfree j t'). }
        apply (IH j held' e' todo' Hts Hj). intros m' Hm'. specialize (Hr m' Hm').
        specialize (Hk m eq_refl). lia.
    + eexists. eapply thread_works; [exact Hi|]. intros m. by rewrite Hw.
Qed.

(** ** ConfigUser: what the configuration promises its users

    The properties of [CellularCallConfig]: its mutexes and vectors, the
    emergency numbers, the IMS switch and the capabilities announced to the IMS
    service, the clear code. *)

Module ConfigUser.
Open Scope Z_scope.

Section Locks.
Context `{CallConsts, E : Env, ServiceEnv, HandlerEnv, SupplementEnv, ConfigEnv}.

Definition no_fact (_ : EccVector → list EccList) : Prop := True.
Lemma cfg_inv_new J : J (ecc_vectors CellularCallConfig_new) → cfg_inv J CellularCallConfig_new.
Proof. intros HJ. split; [|done]. intros v. apply length_replicate. Qed.
Lemma UpdateEccNumberList_ok (Hslot0 : 0 ≤ DEFAULT_SIM_SLOT_ID) slotId :
  disciplined no_fact [] (UpdateEccNumberList slotId) [].
Proof.
  unfold UpdateEccNumberList. apply on_valid_slot_ok. intros Hi%(valid_in_vectors Hslot0).
  assert (∀ held v x, disciplined no_fact held (write_vector v slotId x) held) as Hw.
  { intros held v x. by apply write_vector_ok. }
  cfg_step; [cfg_auto|]. cfg_step; [apply CheckHomeAndPresentState_ok|].
  destruct a0 as [ret home]. cfg_step; [cfg_auto|]. cfg_step.
  { destruct (_ && home); [by apply ProcessHplmnEccList_ok|by apply ProcessCurrentPlmnEccList_ok]. }
  cfg_auto; apply SetEmergencyCallList_ok.
Qed.
Lemma run_actions_disciplined (Hslot0 : 0 ≤ DEFAULT_SIM_SLOT_ID) acts :
  disciplined no_fact [] (run_actions acts) [].
Proof. apply run_actions_ok; try done. by apply UpdateEccNumberList_ok. Qed.

(** C23: whatever is called on the configuration, in whatever order, every mutex
    taken is released, last in, first out, and is taken only above all mutexes
    held; and no vector of the emergency lists is read or written past its end,
    each keeping one element per slot. *)
Theorem config_discipline acts h (Hslot0 : 0 ≤ DEFAULT_SIM_SLOT_ID) :
  let '(_, s, e) := run_actions acts CellularCallConfig_new h in
  lock_run [] e = Some [] ∧
  ∀ v, Datatypes.length (ecc_vectors s v) = Z.to_nat SIM_SLOT_COUNT.
Proof.
  pose proof (run_actions_disciplined Hslot0 acts CellularCallConfig_new h
    (cfg_inv_new no_fact I)) as Hwp. unfold wp in Hwp.
  destruct (run_actions acts CellularCallConfig_new h) as [[u s] e]. by destruct Hwp as [[Hl _] He].
Qed.

(** C27: threads that use the configuration never block each other for good: as
    long as one of them has work left, one of them can go on. *)
Theorem config_threads_progress ts ts' (Hslot0 : 0 ≤ DEFAULT_SIM_SLOT_ID)
  (Hthreads : Forall (λ t, th_held t = [] ∧ ∃ acts s h u s',
     cfg_inv no_fact s ∧ run_actions acts s h = (u, s', th_todo t)) ts)
  (Hrun : rtc threads_step ts ts') :
  Forall (λ t, th_todo t = []) ts' ∨ ∃ ts'', threads_step ts' ts''.
Proof.
  assert (Forall thread_ok ts) as Hok.
  { eapply Forall_impl; [exact Hthreads|]. intros [held todo] (Hh & acts & s & h & u & s' & Hs & Hr).
    simpl in *. subst. pose proof (run_actions_disciplined Hslot0 acts s h Hs) as Hwp.
    unfold wp in Hwp. rewrite Hr in Hwp. by destruct Hwp. }
  assert (Forall thread_ok ts') as Hok'.
  { clear Hthreads. induction Hrun as [|x y z Hxy _ IH]; [done|]. by apply IH, (threads_step_ok x). }
  destruct (decide (Forall (λ t, th_todo t = []) ts')) as [|Hn]; [by left|right].
  apply not_Forall_Exists, Exists_exists in Hn as (t & Ht & Hw); [|solve_decision].
  apply list_elem_of_lookup in Ht as [i Hi]. destruct t as [held [|e todo]].
  { by destruct Hw. }
  apply (thread_runs ts' 5 i held e todo Hok' Hi). intros m _. lia.
Qed.
End Locks.

(** ** Emergency numbers *)

Section EmergencyNumbers.
Context `{CallConsts, !CallConstsOk, E : Env, ServiceEnv, HandlerEnv, SupplementEnv, ConfigEnv}.

Lemma cache_ok_new db : cache_ok db (ecc_vectors CellularCallConfig_new).
Proof.
  intros v i l _ Hl. apply lookup_replicate in Hl as [-> _]. by left.
Qed.
Lemma run_actions_cache db (Hslot0 : 0 ≤ DEFAULT_SIM_SLOT_ID)
    (Hdb : ∀ h p, rdb_QueryEccList h p = (TELEPHONY_SUCCESS, db p)) acts :
  disciplined (cache_ok db) [] (run_actions acts) [].
Proof.
  apply run_actions_ok; [done|..].
  - intros f i x Hf. by apply (cache_ok_insert db f hplmnFakeEccList_).
  - intros f v i Hf. apply cache_ok_insert; [done|]. by left.
  - intros slotId. by apply UpdateEccNumberList_cache.
Qed.

(** C24: with a database that does not change, keeping the lists of networks is
    invisible.  Whatever the configuration did before, with whatever answers
    about SIM and network, updating a slot sends the modem exactly the list a
    routine without kept lists sends for what is true during the update (the
    operator's own numbers or the home network's at home, the current network's
    elsewhere; nothing without a network state, a network or a handler): a list
    kept for a network that has changed is not sent.  The answers about the slot
    are taken not to change while the update runs. *)
Theorem kept_lists_invisible db acts slotId hplmn rplmn network configured handler h
  (Hslot0 : 0 ≤ DEFAULT_SIM_SLOT_ID) (Hvalid : IsValidSlotId slotId = true)
  (Hdb : ∀ h p, rdb_QueryEccList h p = (TELEPHONY_SUCCESS, db p)) :
  let '(_, s, e) := run_actions acts CellularCallConfig_new h in
  (∀ h', h ++ e `prefix_of` h' → slot_answers slotId hplmn rplmn network configured handler h') →
  wp (UpdateEccNumberList slotId)
    (λ _ _ e', ecc_sent e' = reference_sent db slotId hplmn rplmn network configured handler s)
    s (h ++ e).
Proof.
  pose proof (run_actions_cache db Hslot0 Hdb acts CellularCallConfig_new h
    (cfg_inv_new _ (cache_ok_new db))) as Hwp. unfold wp in Hwp.
  destruct (run_actions acts CellularCallConfig_new h) as [[u s] e]. destruct Hwp as [Hs _].
  intros Hanswers.
  eapply wp_mono; [by apply (UpdateEccNumberList_reference db Hdb slotId hplmn rplmn network
    configured handler (h ++ e)); [..|apply valid_in_vectors| |]|]. by intros _ s' e' [_ ?].
Qed.

Lemma merged_list_spec slotId op hasSim h calls s s' :
  merged slotId op hasSim h calls s s' →
  ∃ extra : list EmergencyCall, let l := ecc_at s' allEccList_ slotId in
  let sources := ecc_sources op hasSim s calls ++ extra in
  distinct l ∧ l `sublist_of` sources ∧ covers l sources ∧
  (hasSim && negb (string_empty op) = false → extra = []).
Proof.
  intros [(extra & Hl & He & _) _]. exists extra. simpl. rewrite Hl.
  by destruct (unique_list (ecc_sources op hasSim s calls ++ extra)) as (?&?&?).
Qed.

(** After a report of the modem the list of the slot is made of the modem's
    numbers, the built-in ones for a known SIM country or for no SIM, all with the
    SIM's country, and, with a SIM only, the operator's fake numbers: in this
    order, none missing, none twice. *)
Theorem ecc_list_after_report slotId op hasSim calls s h
  (Hslot0 : 0 ≤ DEFAULT_SIM_SLOT_ID) (Hvalid : IsValidSlotId slotId = true)
  (Hs : cfg_inv no_fact s)
  (Hanswers : ∀ h', h `prefix_of` h' → sim_answers slotId op hasSim h') :
  wp (UpdateEmergencyCallFromRadio slotId calls ;; ConfigEcc.GetEccCallList slotId)
    (λ l _ _, ∃ extra, let sources := ecc_sources op hasSim s calls ++ extra in
       distinct l ∧ l `sublist_of` sources ∧ covers l sources ∧
       (hasSim && negb (string_empty op) = false → extra = [])) s h.
Proof.
  apply wp_then.
  eapply wp_mono; [by apply (UpdateEmergencyCallFromRadio_run slotId op hasSim h);
    [..|apply valid_in_vectors| |]|].
  intros ? s' e' Hm. cbn beta in *. unfold ConfigEcc.GetEccCallList. cw. by eapply merged_list_spec.
Qed.



(** The fake numbers kept for one operator outlive a change of the SIM: when
    the modem reports twice with a SIM of another operator, every number kept for
    the first operator is in the slot's list. *)
Theorem fake_numbers_outlive_sim slotId op calls kept s h
  (Hslot0 : 0 ≤ DEFAULT_SIM_SLOT_ID) (Hvalid : IsValidSlotId slotId = true)
  (Hs : cfg_inv no_fact s)
  (Hanswers : ∀ h', h `prefix_of` h' → sim_answers slotId op true h')
  (Hhome : steadily_home slotId op true h)
  (Hkept : ecc_vectors s hplmnFakeEccList_ !! Z.to_nat slotId = Some kept)
  (Hother : ecl_plmn kept ≠ op)
  (Heqb : ∀ a b c, EmergencyCall_eqb a b = true → EmergencyCall_eqb b c = true →
     EmergencyCall_eqb a c = true)
  (Hrows : ∀ h, ∃ row rows,
     (rdb_QueryEccList h op).2 = row :: rows ∧ split_numbers (ecc_fake row) ≠ []) :
  wp (UpdateEmergencyCallFromRadio slotId calls ;; UpdateEmergencyCallFromRadio slotId calls)
    (λ _ s' _, covers (ecc_at s' allEccList_ slotId) (ecl_eccInfoList kept)) s h.
Proof.
  pose proof (valid_in_vectors Hslot0 _ Hvalid) as Hi. apply wp_then.
  eapply wp_mono; [by apply (UpdateEmergencyCallFromRadio_run slotId op true h)|].
  intros ? s1 e1 (_ & Hk & Hs1). cbn beta. destruct (Hk kept) as [k Hk1]; [done..|].
  eapply wp_mono; [apply (UpdateEmergencyCallFromRadio_run slotId op true h);
    first [done|by apply prefix_app_r]|].
  intros ? s2 e2 ((extra & Hall & _ & Hc) & _). cbn beta. rewrite Hall.
  specialize (Hc _ Hhome Hk1 eq_refl).
  destruct (unique_list (ecc_sources op true s1 calls ++ extra)) as (_ & _ & Hu).
  intros e He. destruct (Hc e) as [Hin|(e' & Hin & Heq)]; [simpl; apply elem_of_app; by left|..].
  - by apply Hu.
  - destruct (Hu e' Hin) as [?|(e'' & Hin' & Heq')]; right; [eauto|]. exists e''. eauto.
Qed.

(** A number the database or the operator writes with a category before it
    ("1+110") never makes a call an emergency call: the entry keeps the '+' and the
    check rejects every dialled number that starts with one. *)
Theorem category_entry_never_matches number simType h slotId n enabled
  (Hplus : String.index 0 "+" number ≠ None)
  (Hdialled : n = eccNum (BuildDefaultEmergencyCall number simType)) :
  IsEmergencyCall h slotId n enabled = (TELEPHONY_ERR_ARGUMENT_INVALID, enabled).
Proof.
  subst n. apply IsEmergencyCall_rejected. right; right; right.
  unfold BuildDefaultEmergencyCall. destruct (String.index 0 "+" number) as [pos|] eqn:Hpos; [|done].
  cbn [eccNum]. apply String.index_correct1 in Hpos.
  assert (String.length number ≠ 0%nat) as Hl by (by destruct number, pos).
  revert Hpos Hl. generalize (String.length number) as k. clear. revert pos.
  induction number as [|c number IH]; intros [|pos] [|k] Hp Hl; simpl in *; try done.
  - destruct number; simpl in Hp; by simplify_eq.
  - by apply IH.
Qed.
End EmergencyNumbers.

End ConfigUser.

(** ** ConfigSwitch: the IMS switch, the capabilities and the clear code

    What the configuration stores and what it tells the IMS service when the
    switch is set, when a SIM comes in, when a call ends and when the service
    starts. *)

Module ConfigSwitch.
Open Scope Z_scope.

(** ** What a trace stores and announces *)

Definition parameter_of (e : Effect) : option (string * string) :=
  match e with Config (SetParameter key value) => Some (key, value) | _ => None end.
Definition switch_of (e : Effect) : option (Z * bool) :=
  match e with Config (ImsSetImsSwitchStatus slotId active) => Some (slotId, active) | _ => None end.
Definition capabilities_of (e : Effect) : option (Z * list ImsCapability) :=
  match e with Config (ImsUpdateImsCapabilities slotId l) => Some (slotId, l) | _ => None end.
Definition preference_of (e : Effect) : option Z :=
  match e with Config (ImsGetDomainPreferenceMode slotId) => Some slotId | _ => None end.
(** The system parameters written, the switch positions and the capabilities
    sent to the IMS service, in order. *)
Definition parameters : list Effect → list (string * string) := omap parameter_of.
Definition switched : list Effect → list (Z * bool) := omap switch_of.
Definition capabilities : list Effect → list (Z * list ImsCapability) := omap capabilities_of.

(** Effects that store and announce nothing. *)
Definition silent (e : Effect) : Prop :=
  parameter_of e = None ∧ switch_of e = None ∧ capabilities_of e = None.
Lemma omap_none {A B} (f : A → option B) l : Forall (λ x, f x = None) l → omap f l = [].
Proof. induction 1 as [|x l Hx _ IH]; [done|]. simpl. by rewrite Hx. Qed.
Lemma silent_parameters e : Forall silent e → parameters e = [].
Proof. intros He. apply omap_none. by eapply List.Forall_impl; [|exact He]; intros x (?&?&?). Qed.
Lemma silent_switched e : Forall silent e → switched e = [].
Proof. intros He. apply omap_none. by eapply List.Forall_impl; [|exact He]; intros x (?&?&?). Qed.
Lemma silent_capabilities e : Forall silent e → capabilities e = [].
Proof. intros He. apply omap_none. by eapply List.Forall_impl; [|exact He]; intros x (?&?&?). Qed.
Lemma parameters_app e e' : parameters (e ++ e') = parameters e ++ parameters e'.
Proof. apply omap_app. Qed.
Lemma switched_app e e' : switched (e ++ e') = switched e ++ switched e'.
Proof. apply omap_app. Qed.
Lemma capabilities_app e e' : capabilities (e ++ e') = capabilities e ++ capabilities e'.
Proof. apply omap_app. Qed.

Section Switch.
Context `{CallConsts, E : Env, ServiceEnv, HandlerEnv, SupplementEnv, ConfigEnv}.
Abbreviation Cfg A := (Op CellularCallConfig A).

Lemma read_bool_silent m i : sends silent (read_bool m i : Cfg bool).
Proof. intros s h. constructor. Qed.
Lemma IsGbaValid_silent slotId : sends silent (IsGbaValid slotId).
Proof. unfold IsGbaValid. mauto; apply read_bool_silent. Qed.
Lemma feature_enabled_silent type : sends silent (feature_enabled type).
Proof.
  unfold feature_enabled, GetImsFeatureValueRequest, config_request. mauto; by repeat split.
Qed.
Lemma IsVolteProvisioned_silent slotId : sends silent (IsVolteProvisioned slotId).
Proof. unfold IsVolteProvisioned. mauto; [apply read_bool_silent|apply feature_enabled_silent]. Qed.
Lemma UpdateImsVoiceCapabilities_silent slotId : sends silent (UpdateImsVoiceCapabilities slotId).
Proof.
  unfold UpdateImsVoiceCapabilities, GetPreferredNetworkModeValue, IsVonrSupportedForImsSwitch,
    IsVolteSupport, GetImsSwitchStatus, GetSwitchStatus.
  mauto; first [apply IsGbaValid_silent|apply IsVolteProvisioned_silent|apply read_bool_silent].
Qed.
Lemma UpdateImsUtCapabilities_silent slotId : sends silent (UpdateImsUtCapabilities slotId).
Proof.
  unfold UpdateImsUtCapabilities, IsUtProvisioned.
  mauto; first [apply IsGbaValid_silent|apply feature_enabled_silent|apply read_bool_silent].
Qed.

Lemma wp_true {A} (m : Cfg A) s h : wp m (λ _ _ _, True) s h.
Proof. unfold wp. by destruct (m s h) as [[??]?]. Qed.

(** ** The switch *)

(** What one update sends, when the IMS service can be reached: a list of
    capabilities, then the switch, on iff the list has a call capability on. *)
Lemma UpdateImsCapabilities_told (P : list ImsCapability → Prop) slotId ut changed st s h
  (HP : ∀ s h, wp (UpdateImsVoiceCapabilities slotId) (λ l _ _, P l) s h)
  (Hims : ∀ h, ims_client_instance h && ims_call_proxy h = true) :
  wp (UpdateImsCapabilities slotId ut changed st) (λ _ _ e, parameters e = [] ∧
    ∃ voice l, P voice ∧ capabilities e = [(slotId, voice ++ l)] ∧
      switched e = [(slotId, IsNeedTurnOnIms (voice ++ l))]) s h.
Proof.
  unfold UpdateImsCapabilities. apply wp_then.
  eapply wp_mono; [apply (wp_and _ (λ l _ _, P l) (λ _ _ e, Forall silent e)); [done|apply UpdateImsVoiceCapabilities_silent]|].
  intros voice s1 e1 [HPv H1']. cbn beta in *.
  apply wp_then.
  eapply (wp_mono _ (λ _ _ e, Forall silent e)).
  { destruct changed; [|by constructor].
    unfold NotifyOperatorConfigChanged, ims_config, with_ims_proxy. cw. rewrite Hims. cbn.
    cw. by repeat constructor. }
  intros _ s2 e2 H2'. cbn beta in *. apply wp_then.
  eapply (wp_mono _ (λ _ _ e, Forall silent e)).
  { destruct ut; [apply UpdateImsUtCapabilities_silent|by constructor]. }
  intros utc s3 e3 H3'. cbn beta in *.
  unfold UpdateImsCapabilities_request, SetImsSwitchStatusRequest, ims_config, with_ims_proxy.
  cw. rewrite !Hims. cbn. cw. cbn. rewrite !Hims. cbn. cw.
  rewrite !parameters_app, !capabilities_app, !switched_app.
  rewrite !silent_parameters, !silent_capabilities, !silent_switched by done. cbn.
  split; [done|]. by exists voice, utc.
Qed.

(** The parameters a change of the switch writes. *)
Definition switch_parameters (slotId v : Z) : list (string * string) :=
  [(slot_key IMSSWITCH_STATE slotId, pretty v); (slot_key VONR_STATE slotId, pretty v)].

(** What the service's steady answers make of a request to set the switch: *)
Definition volte_provisioned (s : CellularCallConfig) (slotId ret value : Z) : bool :=
  negb (bool_at s volteProvisioningSupported_ slotId) ||
  bool_decide (ret = TELEPHONY_SUCCESS) && (value =? IMS_FEATURE_INT_VALUE_ENABLED).

Lemma IsVolteProvisioned_run slotId s h ret value
  (Hims : ∀ h, ims_client_instance h && ims_call_proxy h = true)
  (Hret : ∀ h, reply h (Config (ImsGetImsFeatureValue TYPE_VOICE_OVER_LTE)) = ret)
  (Hvalue : ∀ h v, GetImsFeatureValue_answer h TYPE_VOICE_OVER_LTE v = value) :
  wp (IsVolteProvisioned slotId) (λ b s' e, b = volte_provisioned s slotId ret value ∧ Forall silent e) s h.
Proof.
  apply (wp_and _ (λ b _ _, b = volte_provisioned s slotId ret value) (λ _ _ e, Forall silent e));
    [|apply IsVolteProvisioned_silent].
  unfold IsVolteProvisioned, volte_provisioned, feature_enabled, GetImsFeatureValueRequest. cw.
  destruct (bool_at s volteProvisioningSupported_ slotId); cw; [|done].
  rewrite Hims. cbn. cw. rewrite Hret, Hvalue. by repeat case_bool_decide.
Qed.

Lemma SaveImsSwitch_run slotId v q last save s h
  (Hquery : ∀ h d, core_QueryImsSwitch h slotId d = (q, last))
  (Hsave : ∀ h, reply h (Config (CoreSaveImsSwitch slotId v)) = save) :
  wp (SaveImsSwitch slotId v) (λ r s' e, s' = s ∧
    match r with
    | SAVE_IMS_SWITCH_FAILED => (q ≠ TELEPHONY_SUCCESS ∨ last ≠ v ∧ save ≠ TELEPHONY_SUCCESS) ∧ Forall silent e
    | SAVE_IMS_SWITCH_SUCCESS_NOT_CHANGED => q = TELEPHONY_SUCCESS ∧ last = v ∧ Forall silent e
    | SAVE_IMS_SWITCH_SUCCESS_CHANGED =>
        q = TELEPHONY_SUCCESS ∧ last ≠ v ∧ save = TELEPHONY_SUCCESS ∧
        parameters e = switch_parameters slotId v ∧ switched e = [] ∧ capabilities e = []
    end) s h.
Proof.
  unfold SaveImsSwitch, saveImsSwitchStatusToLocal, SaveVoNRState, set_parameter. cw.
  rewrite Hquery. case_bool_decide; [cw; split; [done|]; by auto|].
  destruct (Z.eqb_spec v last); [by cw|].
  cw. rewrite Hsave. case_bool_decide; cw.
  - split_and!; [done|by auto|by repeat constructor].
  - by split_and!.
Qed.

(** What is to come of a request: its result and its trace, when it is admitted
    and not. *)
Definition switch_outcome (admitted : Prop) (slotId v last save st r : Z) (e : list Effect) : Prop :=
  let stored := admitted ∧ last ≠ v ∧ save = TELEPHONY_SUCCESS in
  (r = TELEPHONY_SUCCESS ↔ admitted ∧ (last = v ∨ save = TELEPHONY_SUCCESS)) ∧
  (stored → parameters e = switch_parameters slotId v ∧
     Datatypes.length (switched e) = if sim_ready st then 1%nat else 0%nat) ∧
  (¬ stored → Forall silent e).
Lemma outcome_failed admitted slotId v last save st r e :
  (admitted → last ≠ v ∧ save ≠ TELEPHONY_SUCCESS) → r ≠ TELEPHONY_SUCCESS → Forall silent e →
  switch_outcome admitted slotId v last save st r e.
Proof.
  intros Hn Hr He. split_and!; [split; [done|by intros [[??]%Hn []]]|by intros [[??]%Hn []]|done].
Qed.
Lemma outcome_unchanged (admitted : Prop) slotId v last save st e :
  admitted → last = v → Forall silent e →
  switch_outcome admitted slotId v last save st TELEPHONY_SUCCESS e.
Proof. intros Ha Hl He. split_and!; [split; [by auto|done]|by intros (_&?&_)|done]. Qed.
Lemma outcome_changed (admitted : Prop) slotId v last save st e :
  admitted → last ≠ v → save = TELEPHONY_SUCCESS →
  parameters e = switch_parameters slotId v →
  Datatypes.length (switched e) = (if sim_ready st then 1%nat else 0%nat) →
  switch_outcome admitted slotId v last save st TELEPHONY_SUCCESS e.
Proof. intros Ha Hl Hs Hp Hn. split_and!; [split; [by auto|done]|done|intros []; by split_and!]. Qed.

(** C26: setting the switch succeeds iff the operator supports VoLTE, it is
    provisioned when the switch goes on, the slot has a SIM known to the database,
    and the database has the value or stores it.  The parameters of the switch and
    of VoNR are written exactly when the database stored a new value; the IMS
    service is told then, if the SIM is ready, and in no other case. *)
Theorem SetImsSwitchStatus_outcome `{!ConfigEnvOk} slotId active ret value q last id save st s h
  (v := BooleanToImsSwitchValue active)
  (Hims : ∀ h, ims_client_instance h && ims_call_proxy h = true)
  (Hret : ∀ h, reply h (Config (ImsGetImsFeatureValue TYPE_VOICE_OVER_LTE)) = ret)
  (Hvalue : ∀ h v, GetImsFeatureValue_answer h TYPE_VOICE_OVER_LTE v = value)
  (Hid : ∀ h, core_GetSimId h slotId = id)
  (Hquery : ∀ h d, core_QueryImsSwitch h slotId d = (q, last))
  (Hsave : ∀ h, reply h (Config (CoreSaveImsSwitch slotId v)) = save)
  (Hst : ∀ h d, core_GetSimState h slotId d = st) :
  wp (SetImsSwitchStatus slotId active) (λ r _ e,
    switch_outcome
      (bool_at s volteSupported_ slotId = true ∧
       (active = true → volte_provisioned s slotId ret value = true) ∧
       INVALID_SIM_ID < id ∧ q = TELEPHONY_SUCCESS) slotId v last save st r e) s h.
Proof.
  pose proof config_errors_not_success as Herr.
  repeat setoid_rewrite not_elem_of_cons in Herr. destruct Herr as (?&?&?&?&?&_).
  unfold SetImsSwitchStatus. cw.
  destruct (bool_at s volteSupported_ slotId) eqn:Hsup; cw;
    [|apply outcome_failed; [by intros [? _]|by apply not_eq_sym|constructor]].
  apply wp_then.
  eapply (wp_mono _ (λ b _ e, (b = negb active || volte_provisioned s slotId ret value) ∧ Forall silent e)).
  { destruct active; [|by cw]. eapply wp_mono; [by apply (IsVolteProvisioned_run _ _ _ ret value)|].
    intros b s' e [-> ?]. by split. }
  intros b s1 e1 [-> He1]. cbn beta in *.
  destruct (active && negb _) eqn:Hprov; cw.
  { apply outcome_failed; [|by apply not_eq_sym|by rewrite app_nil_r]. intros (_&Hp&_).
    destruct active; [|done]. simpl in Hprov. by rewrite Hp in Hprov. }
  assert (active = true → volte_provisioned s slotId ret value = true) as Hp.
  { intros ->. simpl in Hprov. by apply negb_false_iff in Hprov. }
  rewrite Hid. destruct (Z.leb_spec id INVALID_SIM_ID).
  { cw. apply outcome_failed; [intros (_&_&?&_); lia|by apply not_eq_sym|by rewrite app_nil_r]. }
  apply wp_then. eapply wp_mono; [by apply (SaveImsSwitch_run _ _ q last save)|].
  intros r s2 e2 [-> Hr]. cbn beta in *. destruct r; cw.
  - destruct Hr as [Hr He2]. apply outcome_failed; [|by apply not_eq_sym|].
    + intros (_&_&_&?). by destruct Hr as [|?].
    + simpl. rewrite app_nil_r. by apply Forall_app.
  - destruct Hr as (->&Hl&->&Hps&Hss&_). unfold GetSimState. cw. rewrite Hst.
    eapply (wp_mono _ (λ _ _ e, parameters e = [] ∧
      Datatypes.length (switched e) = if sim_ready st then 1%nat else 0%nat)).
    { destruct (sim_ready st); [|by cw].
      eapply wp_mono; [by apply (UpdateImsCapabilities_told (λ _, True)); [by intros ??; apply wp_true|]|].
      intros _ s3 e3 (?&?&l&_&_&->). by split. }
    intros _ s3 e3 [Hp3 Hn3]. cw. apply outcome_changed; [done..| |].
    + rewrite !parameters_app, (silent_parameters e1), Hps, Hp3 by done. done.
    + rewrite !switched_app, (silent_switched e1), Hss by done. simpl. by rewrite app_nil_r.
  - destruct Hr as (->&Hl&He2). apply outcome_unchanged; [done..|].
    simpl. rewrite app_nil_r. by apply Forall_app.
Qed.

(** A trace that tells the IMS service nothing of the switch. *)
Definition untold (e : list Effect) : Prop := switched e = [] ∧ capabilities e = [].
Lemma silent_untold e : Forall silent e → untold e.
Proof. intros He. split; [by apply silent_switched|by apply silent_capabilities]. Qed.
Lemma untold_app e e' : untold e → untold e' → untold (e ++ e').
Proof. intros [H1' H2'] [H3' H4']. split; [rewrite switched_app|rewrite capabilities_app]; by simplify_list_eq; rewrite ?H1', ?H2', ?H3', ?H4'. Qed.
Lemma agreed e :
  untold e → switched e = map (λ c, (c.1, IsNeedTurnOnIms c.2)) (capabilities e).
Proof. by intros [-> ->]. Qed.
Lemma SaveImsSwitch_untold slotId v s h : wp (SaveImsSwitch slotId v) (λ _ _ e, untold e) s h.
Proof.
  unfold SaveImsSwitch, saveImsSwitchStatusToLocal, SaveVoNRState, set_parameter. cw.
  destruct (core_QueryImsSwitch _ _ _) as [q last]. case_bool_decide; cw; [done|].
  destruct (v =? last); cw; [done|]. by case_bool_decide; cw.
Qed.

(** The IMS service is told that IMS is on iff it was just told that voice or
    video over LTE or NR is: the switch always agrees with the capabilities. *)
Theorem switch_agrees_with_capabilities slotId active s h
  (Hims : ∀ h, ims_client_instance h && ims_call_proxy h = true) :
  wp (SetImsSwitchStatus slotId active) (λ _ _ e,
    switched e = map (λ c, (c.1, IsNeedTurnOnIms c.2)) (capabilities e)) s h.
Proof.
  assert (∀ e, Forall silent e → untold e) as Hq by (by intros e He; apply silent_untold).
  unfold SetImsSwitchStatus. cw. destruct (bool_at _ _ _); cw; [|by apply agreed, Hq]. apply wp_then.
  eapply (wp_mono _ (λ _ _ e, Forall silent e)).
  { destruct active; [apply IsVolteProvisioned_silent|by cw]. }
  intros b s1 e1 He1%Hq. cbn beta in *.
  destruct (active && negb _); cw; [by apply agreed; rewrite app_nil_r|].
  destruct (_ <=? _); [cw; by apply agreed; rewrite app_nil_r|].
  apply wp_then. eapply wp_mono; [apply SaveImsSwitch_untold|]. intros r s2 e2 He2. cbn beta in *.
  destruct r; unfold GetSimState; cw; try (by apply agreed; simpl; rewrite app_nil_r; apply untold_app).
  eapply (wp_mono _ (λ _ _ e, switched e = map (λ c, (c.1, IsNeedTurnOnIms c.2)) (capabilities e))).
  { destruct (sim_ready _); [|by cw].
    eapply wp_mono; [by apply (UpdateImsCapabilities_told (λ _, True)); [by intros ??; apply wp_true|]|].
    by intros _ s3 e3 (_&?&l&_&->&->). }
  intros _ s3 e3 He3. cw. destruct He1 as [H1' H1''], He2 as [H2' H2''].
  by rewrite !switched_app, !capabilities_app, H1', H1'', H2', H2'', !map_app, He3.
Qed.

Definition voice_over_nr : ImsCapability :=
  {| imsCapabilityType := CAPABILITY_TYPE_VOICE; imsRadioTech := IMS_REG_TECH_NR; enable := true |}.
Lemma IsNeedTurnOnIms_voice c l :
  c ∈ l → is_call_capability c = true → enable c = true → IsNeedTurnOnIms l = true.
Proof.
  intros Hc Ht He. induction Hc as [|c c' l Hc IH]; simpl; [by rewrite Ht, He|].
  by case_match; [|apply IH].
Qed.
Lemma UpdateImsVoiceCapabilities_nr slotId mode nr s h
  (Hmode : ∀ s h, wp (GetPreferredNetworkModeValue slotId DEFAULT_NETWORK_MODE) (λ m _ _, m = mode) s h)
  (Hrange : NR_MODE_MIN ≤ mode ≤ NR_MODE_MAX)
  (Hnr : ∀ h d, core_GetNrOptionMode h slotId d = (TELEPHONY_SUCCESS, nr))
  (Hsa : nr = NR_MODE_NSA_AND_SA ∨ nr = NR_MODE_SA_ONLY) :
  wp (UpdateImsVoiceCapabilities slotId) (λ l _ _, voice_over_nr ∈ l) s h.
Proof.
  unfold UpdateImsVoiceCapabilities. apply wp_then.
  eapply wp_mono; [apply Hmode|]. intros m s1 e1 ->. cbn beta.
  destruct (Z.leb_spec NR_MODE_MIN mode), (Z.leb_spec mode NR_MODE_MAX); try lia. cbn.
  apply wp_then. eapply (wp_mono _ (λ l _ _, l = [voice_over_nr])).
  { apply wp_then. eapply wp_mono; [apply wp_true|]. intros gba s2 e2 _.
    unfold IsVonrSupportedForImsSwitch. cw. rewrite Hnr. rewrite bool_decide_false by auto. cw.
    unfold voice_over_nr. do 2 f_equal. destruct Hsa as [->| ->]; by rewrite Z.eqb_refl, ?orb_true_r. }
  intros l s2 e2 ->. cbn beta. apply wp_then. eapply wp_mono; [apply wp_true|].
  intros b s3 e3 _. cw. by left.
Qed.

(** With a preferred network mode that includes NR and a modem in SA mode,
    setting the switch to off announces voice over NR as enabled and tells the IMS
    service that IMS is on: only VoLTE depends on the switch. *)
Theorem switching_off_keeps_ims_on slotId last mode nr st s h
  (Hims : ∀ h, ims_client_instance h && ims_call_proxy h = true)
  (Hsup : bool_at s volteSupported_ slotId = true)
  (Hid : ∀ h, INVALID_SIM_ID < core_GetSimId h slotId)
  (Hquery : ∀ h d, core_QueryImsSwitch h slotId d = (TELEPHONY_SUCCESS, last))
  (Hlast : last ≠ IMS_SWITCH_STATUS_OFF)
  (Hsave : ∀ h, reply h (Config (CoreSaveImsSwitch slotId IMS_SWITCH_STATUS_OFF)) = TELEPHONY_SUCCESS)
  (Hst : ∀ h d, core_GetSimState h slotId d = st) (Hready : sim_ready st = true)
  (Hmode : ∀ s h, wp (GetPreferredNetworkModeValue slotId DEFAULT_NETWORK_MODE) (λ m _ _, m = mode) s h)
  (Hrange : NR_MODE_MIN ≤ mode ≤ NR_MODE_MAX)
  (Hnr : ∀ h d, core_GetNrOptionMode h slotId d = (TELEPHONY_SUCCESS, nr))
  (Hsa : nr = NR_MODE_NSA_AND_SA ∨ nr = NR_MODE_SA_ONLY) :
  wp (SetImsSwitchStatus slotId false) (λ r _ e, r = TELEPHONY_SUCCESS ∧
    switched e = [(slotId, true)] ∧
    ∃ l, capabilities e = [(slotId, l)] ∧
      voice_over_nr ∈ l) s h.
Proof.
  unfold SetImsSwitchStatus. cw. rewrite Hsup. cbn [negb]. cw. cbn [negb andb]. cw.
  rewrite (proj2 (Z.leb_gt _ _) (Hid _)).
  apply wp_then. eapply wp_mono; [by apply (SaveImsSwitch_run _ _ TELEPHONY_SUCCESS last TELEPHONY_SUCCESS)|].
  intros r s2 e2 [-> Hr]. cbn beta in *. destruct r; [naive_solver| |naive_solver].
  destruct Hr as (_&_&_&_&Hsw&Hcap). unfold GetSimState. cw. rewrite Hst, Hready.
  eapply wp_mono; [apply (UpdateImsCapabilities_told (λ l, voice_over_nr ∈ l))|];
    [by intros ??; apply (UpdateImsVoiceCapabilities_nr _ mode nr)|done|].
  intros _ s3 e3 (_&voice&l&Hv&Hc&Hs3). cw. split; [done|].
  rewrite !switched_app, !capabilities_app, Hsw, Hcap, Hc, Hs3. simpl.
  rewrite (IsNeedTurnOnIms_voice voice_over_nr) by (try done; by apply elem_of_app; left).
  split; [done|]. exists (voice ++ l). split; [done|]. by apply elem_of_app; left.
Qed.

(** ** A new SIM *)

Lemma IsSimChanged_always `{!ConfigEnvOk} slotId iccid s h :
  1 < string_size iccid →
  wp (IsSimChanged slotId iccid) (λ b _ e, b = true ∧
    parameters e = [(slot_key LAST_ICCID_KEY slotId, c_str iccid)]) s h.
Proof.
  intros Hl. unfold IsSimChanged, set_parameter. cw.
  rewrite bool_decide_false; [by cw|]. intros Hi.
  pose proof (GetParameter_fits h (slot_key LAST_ICCID_KEY slotId) "" SYSTEM_PARAMETER_LENGTH
    ltac:(done)) as Hf. rewrite <-Hi in Hf. unfold SYSTEM_PARAMETER_LENGTH in Hf. lia.
Qed.

Lemma IsSimChanged_keeps slotId iccid s h :
  wp (IsSimChanged slotId iccid) (λ _ s' _, s' = s) s h.
Proof. unfold IsSimChanged, set_parameter. cw. by case_match; cw. Qed.

(** The ICCID kept to recognise the SIM is read into two bytes, so a SIM with
    an ICCID of two characters or more is always taken for another one: with the
    operator's force flag, each load of the operator's configuration resets the
    user's switch to the operator's default, whatever SIM was there before. *)
Theorem same_sim_resets_switch `{!ConfigEnvOk} slotId iccid on s h
  (Hcard : ∀ h, core_HasSimCard h slotId = true)
  (Hiccid : ∀ h, core_GetSimIccId h slotId = iccid) (Hlong : 1 < string_size iccid)
  (Hforce : bool_at s forceVolteSwitchOn_ slotId = true)
  (Hon : bool_at s imsSwitchOnByDefault_ slotId = on)
  (Hsave : ∀ h, reply h (Config (CoreSaveImsSwitch slotId (BooleanToImsSwitchValue on))) = TELEPHONY_SUCCESS) :
  wp (ResetImsSwitch slotId) (λ _ _ e, parameters e =
    [(slot_key LAST_ICCID_KEY slotId, c_str iccid);
     (slot_key IMSSWITCH_STATE slotId, pretty (BooleanToImsSwitchValue on))]) s h.
Proof.
  unfold ResetImsSwitch. cw. rewrite Hcard. cbn [negb]. cw. rewrite Hiccid.
  eapply wp_mono; [apply wp_and; [by apply IsSimChanged_always|apply (IsSimChanged_keeps _ _ s)]|].
  intros b s1 e1 [[-> He1] ->]. cbn beta iota. cw. rewrite Hforce. cw.
  assert (bool_at (set_bool forceVolteSwitchOn_ slotId true s) imsSwitchOnByDefault_ slotId = on) as ->.
  { unfold bool_at. simpl. by rewrite fn_lookup_insert_ne. }
  rewrite Hsave, bool_decide_false by auto. unfold saveImsSwitchStatusToLocal, set_parameter. cw.
  by rewrite !parameters_app, He1.
Qed.

(** ** The clear code *)

(** The code published for a cause: a SIP cause without its base when the
    operator lets it through, nothing (0) for no cause. *)
Definition clear_code (sip : bool) (cause : Z) : Z :=
  if cause <=? 0 then 0
  else if IMS_CAUSE_BASE <=? cause then if sip then cause - IMS_CAUSE_BASE else 0
  else cause.
(** The parameter after a trace, "0" before any write. *)
Definition published_code (e : list Effect) : string :=
  foldl (λ v p, if bool_decide (p.1 = DISCONNECT_CODE) then p.2 else v) "0" (parameters e).

Lemma bool_at_set m i b s m' i' : b = bool_at s m i → bool_at (set_bool m i b s) m' i' = bool_at s m' i'.
Proof.
  intros ->. unfold bool_at. simpl. destruct (decide (m = m')) as [<-|]; [|by rewrite fn_lookup_insert_ne].
  rewrite fn_lookup_insert. destruct (decide (i = i')) as [<-|]; [by rewrite lookup_insert_eq|].
  by rewrite lookup_insert_ne.
Qed.

Lemma published_snoc e e' v : published_code (e ++ e' ++ [Config (SetParameter DISCONNECT_CODE v)]) = v.
Proof. unfold published_code. rewrite !parameters_app, !foldl_app. done. Qed.
Lemma SetClearCode_run slotId cause (s : CellularCallConfig) h e0 :
  published_code e0 = pretty (lastDisconnectCode_ s) →
  wp (SetClearCode slotId cause) (λ _ s' e,
    published_code (e0 ++ e) = pretty (lastDisconnectCode_ s') ∧
    (∀ i, bool_at s' imsSipCauseEnable_ i = bool_at s imsSipCauseEnable_ i) ∧
    lastDisconnectCode_ s' = (if IsValidSlotId slotId
      then clear_code (bool_at s imsSipCauseEnable_ slotId) cause else lastDisconnectCode_ s)) s h.
Proof.
  intros He. unfold SetClearCode, on_valid_slot. destruct (IsValidSlotId slotId) eqn:Hv; [|cbn [negb]; cw; by rewrite app_nil_r].
  cbn [negb]. cw.
  eapply (wp_mono _ (λ _ s' e, s' = set_lastDisconnectCode 0 s ∧ published_code (e0 ++ e) = "0")).
  { destruct (Z.eqb_spec (lastDisconnectCode_ s) 0) as [Hz|]; cbn [negb]; unfold set_parameter; cw.
    - rewrite app_nil_r, He, Hz. split; [|done]. destruct s; simpl in *; by subst.
    - split; [done|]. by rewrite published_snoc. }
  intros _ s1 e1 [-> He1]. cbn beta. unfold clear_code, set_parameter. cbn [negb orb].
  destruct (Z.leb_spec cause 0); [cw; by rewrite app_nil_r|].
  destruct (Z.leb_spec IMS_CAUSE_BASE cause); cw.
  - destruct (bool_at _ imsSipCauseEnable_ slotId) eqn:Hsip; cbn [negb andb].
    2:{ cw. simpl. rewrite app_nil_r. split_and!; [done| |done]. intros i. by apply (bool_at_set _ slotId _ (set_lastDisconnectCode 0 s) _ i). }
    destruct (Z.eqb_spec (cause - IMS_CAUSE_BASE) 0) as [Hz|]; cw; simpl.
    + rewrite app_nil_r, Hz. split_and!; [done| |done]. intros i. by apply (bool_at_set _ slotId _ (set_lastDisconnectCode 0 s) _ i).
    + rewrite published_snoc. split_and!; [done| |done].
      intros i. by apply (bool_at_set imsSipCauseEnable_ slotId true (set_lastDisconnectCode 0 s)).
  - cbn [andb]. destruct (Z.eqb_spec cause 0); [lia|]. cw. simpl. by rewrite published_snoc.
Qed.

(** The clear code of the last call and the system parameter that publishes
    it agree after any sequence of calls, and are what the last cause on a valid
    slot makes them. *)
Theorem clear_code_published (calls : list (Z * Z)) (s : CellularCallConfig) h
  (Hnew : lastDisconnectCode_ s = 0) :
  wp (mfor calls (λ c, SetClearCode c.1 c.2)) (λ _ s' e,
    published_code e = pretty (lastDisconnectCode_ s') ∧
    lastDisconnectCode_ s' = foldl (λ code c, if IsValidSlotId c.1
      then clear_code (bool_at s imsSipCauseEnable_ c.1) c.2 else code) 0 calls) s h.
Proof.
  assert (∀ e0 s1 h, published_code e0 = pretty (lastDisconnectCode_ s1) →
    (∀ i, bool_at s1 imsSipCauseEnable_ i = bool_at s imsSipCauseEnable_ i) →
    wp (mfor calls (λ c, SetClearCode c.1 c.2)) (λ _ s' e,
      published_code (e0 ++ e) = pretty (lastDisconnectCode_ s') ∧
      lastDisconnectCode_ s' = foldl (λ code c, if IsValidSlotId c.1
        then clear_code (bool_at s imsSipCauseEnable_ c.1) c.2 else code)
        (lastDisconnectCode_ s1) calls) s1 h) as Hgen.
  { induction calls as [|[slotId cause] calls IH]; intros e0 s1 h1 He Hsip; simpl; [cw; by rewrite app_nil_r|].
    apply wp_then. eapply wp_mono; [by apply SetClearCode_run|].
    intros _ s2 e2 (He2&Hsip2&Hl). cbn beta.
    eapply wp_mono; [apply (IH (e0 ++ e2)); [done|intros i; by rewrite Hsip2]|].
    intros _ s3 e3 [He3 Hl3]. cbn beta. rewrite <-app_assoc in He3. split; [done|].
    by rewrite Hl3, Hl, Hsip. }
  eapply wp_mono; [apply (Hgen [] s h); [by rewrite Hnew|done]|].
  intros _ s' e [? Hl]. by rewrite Hnew in Hl.
Qed.
End Switch.

End ConfigSwitch.
