(* ===== verification/Parcel.v ===== *)
(** * Parcel: messages between processes

    A [MessageParcel] as the list of the values written into it, with the writes
    and reads the proxies and stubs of this repository use.  A write may fail; a
    read of something else than what comes next is the library's (a parameter).
    [WriteRawData] copies a struct of one of the types of [RawData]; the reader
    names the type it casts the memory to. *)

From stdpp Require Import base tactics option list numbers strings.
From Stdlib Require Import ZArith Lia Ascii String.
From S2P Require Import Prelude SsTypes ConfigTypes Platform.

Open Scope Z_scope.

(** ** Values *)

Inductive RawData :=
  | RawResponseInfo (info : RadioResponseInfo)
  | RawMute (info : MuteControlResponse)
  | RawRingback (info : RingbackVoice)
  | RawMediaMode (info : ImsCallModeReceiveInfo)
  | RawSessionEvent (info : ImsCallSessionEventInfo)
  | RawPeerDimensions (info : ImsCallPeerDimensionsInfo)
  | RawDataUsage (info : ImsCallDataUsageInfo)
  | RawCamera (info : CameraCapabilitiesInfo)
  | RawImsCall (info : ImsCallInfo)
  | RawCall (info : CellularCallInfo)
  | RawTransfer (info : CallTransferInfo)
  | RawRestriction (info : CallRestrictionInfo)
  | RawSatelliteCall (info : SatelliteCallInfo).

(** A struct type a pointer into a parcel is cast to. *)
Class RawStruct (T : Type) := {
  to_raw : T → RawData;
  of_raw : RawData → option T;
  of_to_raw x : of_raw (to_raw x) = Some x
}.
#[export] Instance raw_RadioResponseInfo : RawStruct RadioResponseInfo :=
  {| to_raw := RawResponseInfo; of_raw := λ d, match d with RawResponseInfo x => Some x | _ => None end;
     of_to_raw := λ _, eq_refl |}.
#[export] Instance raw_MuteControlResponse : RawStruct MuteControlResponse :=
  {| to_raw := RawMute; of_raw := λ d, match d with RawMute x => Some x | _ => None end;
     of_to_raw := λ _, eq_refl |}.
#[export] Instance raw_RingbackVoice : RawStruct RingbackVoice :=
  {| to_raw := RawRingback; of_raw := λ d, match d with RawRingback x => Some x | _ => None end;
     of_to_raw := λ _, eq_refl |}.
#[export] Instance raw_ImsCallModeReceiveInfo : RawStruct ImsCallModeReceiveInfo :=
  {| to_raw := RawMediaMode; of_raw := λ d, match d with RawMediaMode x => Some x | _ => None end;
     of_to_raw := λ _, eq_refl |}.
#[export] Instance raw_ImsCallSessionEventInfo : RawStruct ImsCallSessionEventInfo :=
  {| to_raw := RawSessionEvent; of_raw := λ d, match d with RawSessionEvent x => Some x | _ => None end;
     of_to_raw := λ _, eq_refl |}.
#[export] Instance raw_ImsCallPeerDimensionsInfo : RawStruct ImsCallPeerDimensionsInfo :=
  {| to_raw := RawPeerDimensions; of_raw := λ d, match d with RawPeerDimensions x => Some x | _ => None end;
     of_to_raw := λ _, eq_refl |}.
#[export] Instance raw_ImsCallDataUsageInfo : RawStruct ImsCallDataUsageInfo :=
  {| to_raw := RawDataUsage; of_raw := λ d, match d with RawDataUsage x => Some x | _ => None end;
     of_to_raw := λ _, eq_refl |}.
#[export] Instance raw_CameraCapabilitiesInfo : RawStruct CameraCapabilitiesInfo :=
  {| to_raw := RawCamera; of_raw := λ d, match d with RawCamera x => Some x | _ => None end;
     of_to_raw := λ _, eq_refl |}.
#[export] Instance raw_ImsCallInfo : RawStruct ImsCallInfo :=
  {| to_raw := RawImsCall; of_raw := λ d, match d with RawImsCall x => Some x | _ => None end;
     of_to_raw := λ _, eq_refl |}.
#[export] Instance raw_CellularCallInfo : RawStruct CellularCallInfo :=
  {| to_raw := RawCall; of_raw := λ d, match d with RawCall x => Some x | _ => None end;
     of_to_raw := λ _, eq_refl |}.
#[export] Instance raw_CallTransferInfo : RawStruct CallTransferInfo :=
  {| to_raw := RawTransfer; of_raw := λ d, match d with RawTransfer x => Some x | _ => None end;
     of_to_raw := λ _, eq_refl |}.
#[export] Instance raw_CallRestrictionInfo : RawStruct CallRestrictionInfo :=
  {| to_raw := RawRestriction; of_raw := λ d, match d with RawRestriction x => Some x | _ => None end;
     of_to_raw := λ _, eq_refl |}.

#[export] Instance raw_SatelliteCallInfo : RawStruct SatelliteCallInfo :=
  {| to_raw := RawSatelliteCall; of_raw := λ d, match d with RawSatelliteCall x => Some x | _ => None end;
     of_to_raw := λ _, eq_refl |}.

(** One written value; a remote object is the number of the object it stands for. *)
Inductive Item :=
  | IToken (descriptor : string)
  | IInt8 (c : ascii)
  | IInt32 (v : Z)
  | IInt64 (v : Z)
  | IBool (b : bool)
  | IFloat (v : Z)
  | IString (s : string)
  | IStringVector (l : list string)
  | IRaw (d : RawData)
  | IRemote (object : Z).
Abbreviation Parcel := (list Item).

(** ** The library *)

(** What a write answers ([E]: the effects the writer sends). *)
Class ParcelWrites (E : Type) := {
  write_ok : list E → Parcel → Item → bool
}.

(** Error codes, and what a read makes of a parcel whose next value is not of
    the kind read. *)
Class ParcelEnv := {
  ERR_NONE : Z;
  TELEPHONY_ERR_WRITE_DESCRIPTOR_TOKEN_FAIL : Z;
  TELEPHONY_ERR_WRITE_DATA_FAIL : Z;
  TELEPHONY_ERR_WRITE_REPLY_FAIL : Z;
  TELEPHONY_ERR_DESCRIPTOR_MISMATCH : Z;
  TELEPHONY_ERR_IPC_CONNECT_STUB_FAIL : Z;
  TELEPHONY_ERR_PERMISSION_ERR : Z;
  CALL_ERROR_SEND_REQUEST_FAIL : Z;
  (* the enumerators of [ImsRegTech] (ims_core_service_types.h) *)
  ImsRegTech_value : ImsRegTech → Z;
  ReadInterfaceToken_other : Parcel → string * Parcel;
  ReadInt8_other : Parcel → ascii * Parcel;
  ReadInt32_other : Parcel → Z * Parcel;
  ReadBool_other : Parcel → bool * Parcel;
  ReadFloat_other : Parcel → Z * Parcel;
  ReadString_other : Parcel → string * Parcel;
  ReadStringVector_other : Parcel → option (list string) * Parcel;
  ReadRawData_other : ∀ T, RawStruct T → Parcel → option T * Parcel;
  ReadRemoteObject_other : Parcel → option Z * Parcel;
  (* the object may be gone *)
  remote_alive : Z → bool
}.

(** The codes a caller can tell from success. *)
Class ParcelEnvOk `{CallConsts, ParcelEnv} : Prop := {
  ipc_errors_not_success :
    TELEPHONY_SUCCESS ∉ [TELEPHONY_ERR_WRITE_DESCRIPTOR_TOKEN_FAIL; TELEPHONY_ERR_WRITE_DATA_FAIL;
      TELEPHONY_ERR_WRITE_REPLY_FAIL; TELEPHONY_ERR_DESCRIPTOR_MISMATCH;
      TELEPHONY_ERR_IPC_CONNECT_STUB_FAIL; TELEPHONY_ERR_PERMISSION_ERR]
}.

Section Reads.
Context `{ParcelEnv}.

Definition ReadInterfaceToken (p : Parcel) : string * Parcel :=
  match p with IToken d :: p => (d, p) | _ => ReadInterfaceToken_other p end.
Definition ReadInt8 (p : Parcel) : ascii * Parcel :=
  match p with IInt8 c :: p => (c, p) | _ => ReadInt8_other p end.
Definition ReadInt32 (p : Parcel) : Z * Parcel :=
  match p with IInt32 v :: p => (v, p) | _ => ReadInt32_other p end.
Definition ReadBool (p : Parcel) : bool * Parcel :=
  match p with IBool b :: p => (b, p) | _ => ReadBool_other p end.
Definition ReadFloat (p : Parcel) : Z * Parcel :=
  match p with IFloat v :: p => (v, p) | _ => ReadFloat_other p end.
(** [ReadString], and [ReadCString] copied into a string. *)
Definition ReadString (p : Parcel) : string * Parcel :=
  match p with IString s :: p => (s, p) | _ => ReadString_other p end.
Definition ReadStringVector (p : Parcel) : option (list string) * Parcel :=
  match p with IStringVector l :: p => (Some l, p) | _ => ReadStringVector_other p end.
(** [static_cast<const T *>(data.ReadRawData(sizeof(T)))], [None]: null. *)
Definition ReadRawData {T} `{!RawStruct T} (p : Parcel) : option T * Parcel :=
  match p with
  | IRaw d :: p' => match of_raw d with Some x => (Some x, p') | None => ReadRawData_other T _ p end
  | _ => ReadRawData_other T _ p
  end.
Definition ReadRemoteObject (p : Parcel) : option Z * Parcel :=
  match p with IRemote o :: p => (if remote_alive o then Some o else None, p) | _ => ReadRemoteObject_other p end.
(** [for (int32_t i = 0; i < len; i++)] *)
Fixpoint read_list {T} (read : Parcel → T * Parcel) (len : nat) (data : Parcel) : list T * Parcel :=
  match len with
  | O => ([], data)
  | S len =>
      let '(x, data) := read data in
      let '(l, data) := read_list read len data in (x :: l, data)
  end.
Lemma read_list_items {T} (read : Parcel → T * Parcel) (items : T → list Item) l rest :
  (∀ x rest, read (items x ++ rest) = (x, rest)) →
  read_list read (Datatypes.length l) ((l ≫= items) ++ rest) = (l, rest).
Proof.
  intros Hr. induction l as [|x l IH]; [done|]. cbn [Datatypes.length read_list].
  rewrite bind_cons, <-app_assoc, Hr, IH. done.
Qed.
Lemma ReadRawData_cons {T} `{!RawStruct T} (x : T) p : ReadRawData (IRaw (to_raw x) :: p) = (Some x, p).
Proof. simpl. by rewrite of_to_raw. Qed.
End Reads.

(** ** Writes *)

Section Writes.
Context {E : Type} `{!ParcelWrites E} {S : Type}.

(** One write: whether it succeeded, and the parcel. *)
Definition Write (p : Parcel) (x : Item) : M E S (bool * Parcel) :=
  let! ok := query (λ h, write_ok h p x) in mret (ok, if (ok : bool) then p ++ [x] else p).
(** [if (!p.Write(x)) return failed; k] *)
Definition write {A} (p : Parcel) (x : Item) (failed : M E S A) (k : Parcel → M E S A)
    : M E S A :=
  let! w := Write p x in let '(ok, p) := w in if negb ok then failed else k p.
(** [reply.WriteInt32(m()); return TELEPHONY_SUCCESS;]: the code of the
    transaction, and the reply. *)
Definition reply_with `{CallConsts} (m : M E S Z) : M E S (Z * Parcel) :=
  let! r := m in let! w := Write [] (IInt32 r) in mret (TELEPHONY_SUCCESS, w.2).
End Writes.

(** Symbolic execution of the actions of any effect type. *)
Section WpGeneric.
Context {E S : Type}.
Implicit Types (s : S) (h : list E).
Lemma wp_query {A} (q : list E → A) (Q : A → S → list E → Prop) s h : Q (q h) s [] → wp (query q) Q s h.
Proof. done. Qed.
Lemma wp_emit ev (Q : () → S → list E → Prop) s h : Q () s [ev] → wp (emit ev) Q s h.
Proof. done. Qed.
Lemma wp_call {A} (an : list E → E → A) ev (Q : A → S → list E → Prop) s h :
  Q (an h ev) s [ev] → wp (call an ev) Q s h.
Proof. done. Qed.
Lemma wp_mget (Q : S → S → list E → Prop) s h : Q s s [] → wp mget Q s h.
Proof. done. Qed.
Lemma wp_mgets {A} (f : S → A) (Q : A → S → list E → Prop) s h : Q (f s) s [] → wp (mgets f) Q s h.
Proof. done. Qed.
Lemma wp_mmodify (f : S → S) (Q : () → S → list E → Prop) s h : Q () (f s) [] → wp (mmodify f) Q s h.
Proof. done. Qed.
Lemma wp_write `{!ParcelWrites E} {A} p x (failed : M E S A) k Q s h :
  (write_ok h p x = false → wp failed Q s h) → (write_ok h p x = true → wp (k (p ++ [x])) Q s h) →
  wp (write p x failed k) Q s h.
Proof.
  intros Hf Hk. unfold write, Write. apply wp_then, wp_then, wp_query. rewrite app_nil_r.
  destruct (write_ok h p x) eqn:Hw; apply wp_ret; cbn; rewrite app_nil_r; auto.
Qed.
End WpGeneric.
(** Membership of a written element in a written list. *)
Ltac list_in := hnf; repeat first [by left | right].
(** The function a term applies. *)
Ltac head_of t := lazymatch t with ?f _ => head_of f | _ => t end.
(** One step of symbolic execution, whatever the effects. *)
Ltac pstep :=
  lazymatch goal with
  | |- wp (mret _) _ _ _ => apply wp_ret
  | |- wp (mthen _ _) _ _ _ => apply wp_then
  | |- wp (query _) _ _ _ => apply wp_query
  | |- wp (emit _) _ _ _ => apply wp_emit
  | |- wp (call _ _) _ _ _ => apply wp_call
  | |- wp mget _ _ _ => apply wp_mget
  | |- wp (mgets _) _ _ _ => apply wp_mgets
  | |- wp (mmodify _) _ _ _ => apply wp_mmodify
  end.
Ltac psteps := repeat (pstep; cbn beta iota); rewrite ?app_nil_r; cbn beta iota.

(** ** Requests to another process *)

(** The mutexes of a client: the IMS client has the first two, the satellite client
    the last two. *)
Inductive ClientMutex := clientLock_ | mutexMap_ | mutexProxy_.
#[export] Instance ClientMutex_eq_dec : EqDecision ClientMutex.
Proof. solve_decision. Defined.
(** What a proxy and a client do: a transaction with the remote object, a fault
    record; a lock and its release; a call through a null proxy; a subscription
    to the service; a death recipient set or taken back. *)
Inductive IpcEvent :=
  | Transact (code : Z) (data : Parcel)
  | Fault (ev : HiSysEvent)
  | Acquire (m : ClientMutex) (shared : bool)
  | Release (m : ClientMutex)
  | NullProxy
  | SubscribeSystemAbility
  | DeathRecipient (added : bool).

(** [Remote() != nullptr]; what [SendRequest] returns and the reply it fills;
    what a write answers. *)
Class IpcEnv := {
  Remote : list IpcEvent → bool;
  remote_SendRequest : list IpcEvent → Z → Parcel → Z * Parcel;
  ipc_write_ok : list IpcEvent → Parcel → Item → bool
}.
#[export] Instance ipc_writes `{IpcEnv} : ParcelWrites IpcEvent := {| write_ok := ipc_write_ok |}.

Section Transactions.
Context `{ParcelEnv, IpcEnv} {S : Type}.

(** [remote->SendRequest(code, in, out, option)] *)
Definition transact (code : Z) (data : Parcel) : M IpcEvent S (Z * Parcel) :=
  call (λ h e, match e with Transact c d => remote_SendRequest h c d | _ => (ERR_NONE, []) end)
    (Transact code data).
Definition fault (ev : HiSysEvent) : M IpcEvent S () := emit (Fault ev).
End Transactions.
