(* ===== verification/IpcCodes.v ===== *)
(** * IpcCodes: the codes of the requests between processes

    - [ImsCallCallbackInterfaceCode]: what the IMS service reports
      (interfaces/innerkits/ims/ims_call_callback_ipc_interface_code.h);
    - [ImsCallInterfaceCode]: what the IMS service is asked
      (interfaces/innerkits/ims/ims_call_ipc_interface_code.h).

    An enumerator without a value follows the one before it, and the ones for
    real-time text exist in builds with SUPPORT_RTT_CALL only. *)

From stdpp Require Import base tactics option list numbers.
From Stdlib Require Import ZArith Lia.
From S2P Require Import Prelude ConfigTypes Platform ConfigRequest.

Open Scope Z_scope.

(** The enumerators from [first] on. *)
Definition group {A} (first : Z) (l : list A) : list (A * Z) :=
  imap (λ i c, (c, first + Z.of_nat i)) l.
(** The value of an enumerator, and the enumerator of a value. *)
Definition enum_value {A} `{EqDecision A} (enum : list (A * Z)) (c : A) : option Z :=
  list_find (λ p, p.1 = c) enum ≫= λ p, Some p.2.2.
Definition enum_code {A} (enum : list (A * Z)) (v : Z) : option A :=
  list_find (λ p, p.2 = v) enum ≫= λ p, Some p.2.1.

Module ImsCallCallbackInterfaceCode.
Inductive CallbackCode :=
  | IMS_DIAL | IMS_HANG_UP | IMS_REJECT | IMS_ANSWER | IMS_HOLD | IMS_UN_HOLD | IMS_SWITCH
  | IMS_COMBINE_CONFERENCE | IMS_INVITE_TO_CONFERENCE | IMS_KICK_OUT_CONFERENCE
  | IMS_RECV_CALL_MEDIA_MODE_REQUEST | IMS_EMERGENCY_CALL | IMS_CALL_STATE_CHANGE
  | IMS_SERVICE_STATUS | IMS_LAST_CALL_FAIL_REASON | IMS_GET_CALLS_DATA | IMS_SRVCC_STATE
  | IMS_VT_OR_WFC | IMS_CALL_CRING | IMS_RECV_CALL_MEDIA_MODE_RESPONSE
  | IMS_CALL_SESSION_EVENT_CHANGED | IMS_CALL_PEER_DIMENSIONS_CHANGED
  | IMS_CALL_DATA_USAGE_CHANGED | IMS_CALL_CAMERA_CAPABILITIES_CHANGED | IMS_START_DTMF
  | IMS_SEND_DTMF | IMS_STOP_DTMF | IMS_START_RTT | IMS_STOP_RTT
  | IMS_UPGRADE_OR_DOWNGRADE_RTT_EVT | IMS_UPGRADE_OR_DOWNGRADE_RTT_ERR | IMS_SET_PRE_MODE
  | IMS_GET_PRE_MODE | IMS_SET_SWITCH_STATUS | IMS_GET_SWITCH_STATUS | IMS_SET_CONFIG
  | IMS_GET_CONFIG | IMS_SET_FEATURE | IMS_GET_FEATURE | IMS_SET_MUTE | IMS_GET_MUTE
  | IMS_GET_EMERGENCY_CALL_LIST | IMS_GET_IMS_CAPABILITY | IMS_CONTROL_CAMERA
  | IMS_SET_PREVIEW_WINDOW | IMS_SET_DISPLAY_WINDOW | IMS_SET_CAMERA_ZOOM
  | IMS_SET_PAUSE_IMAGE | IMS_SET_DEVICE_DIRECTION | IMS_GET_CALL_CLIP | IMS_SET_CALL_CLIP
  | IMS_GET_CALL_CLIR | IMS_SET_CALL_CLIR | IMS_GET_CALL_FORWARD | IMS_SET_CALL_FORWARD
  | IMS_GET_CALL_RESTRICTION | IMS_SET_CALL_RESTRICTION | IMS_GET_CALL_WAIT
  | IMS_SET_CALL_WAIT | IMS_GET_CALL_COLR | IMS_SET_CALL_COLR | IMS_SET_CALL_COLP
  | IMS_GET_CALL_COLP | IMS_SUPP_EXT_CHANGED.
#[export] Instance CallbackCode_eq_dec : EqDecision CallbackCode.
Proof. solve_decision. Defined.

Definition callback_codes `{ConfigEnv} : list (CallbackCode * Z) :=
  group 0 ([
    IMS_DIAL; IMS_HANG_UP; IMS_REJECT; IMS_ANSWER; IMS_HOLD; IMS_UN_HOLD; IMS_SWITCH
    ; IMS_COMBINE_CONFERENCE; IMS_INVITE_TO_CONFERENCE; IMS_KICK_OUT_CONFERENCE
    ; IMS_RECV_CALL_MEDIA_MODE_REQUEST; IMS_EMERGENCY_CALL; IMS_CALL_STATE_CHANGE
    ; IMS_SERVICE_STATUS; IMS_LAST_CALL_FAIL_REASON; IMS_GET_CALLS_DATA; IMS_SRVCC_STATE
    ; IMS_VT_OR_WFC; IMS_CALL_CRING; IMS_RECV_CALL_MEDIA_MODE_RESPONSE
    ; IMS_CALL_SESSION_EVENT_CHANGED; IMS_CALL_PEER_DIMENSIONS_CHANGED
    ; IMS_CALL_DATA_USAGE_CHANGED; IMS_CALL_CAMERA_CAPABILITIES_CHANGED; IMS_START_DTMF
    ; IMS_SEND_DTMF; IMS_STOP_DTMF] ++
    (if SUPPORT_RTT_CALL then [
    IMS_START_RTT; IMS_STOP_RTT; IMS_UPGRADE_OR_DOWNGRADE_RTT_EVT
    ; IMS_UPGRADE_OR_DOWNGRADE_RTT_ERR] else []) ++
    [
    IMS_SET_PRE_MODE; IMS_GET_PRE_MODE; IMS_SET_SWITCH_STATUS; IMS_GET_SWITCH_STATUS
    ; IMS_SET_CONFIG; IMS_GET_CONFIG; IMS_SET_FEATURE; IMS_GET_FEATURE; IMS_SET_MUTE
    ; IMS_GET_MUTE; IMS_GET_EMERGENCY_CALL_LIST; IMS_GET_IMS_CAPABILITY; IMS_CONTROL_CAMERA
    ; IMS_SET_PREVIEW_WINDOW; IMS_SET_DISPLAY_WINDOW; IMS_SET_CAMERA_ZOOM
    ; IMS_SET_PAUSE_IMAGE; IMS_SET_DEVICE_DIRECTION; IMS_GET_CALL_CLIP; IMS_SET_CALL_CLIP
    ; IMS_GET_CALL_CLIR; IMS_SET_CALL_CLIR; IMS_GET_CALL_FORWARD; IMS_SET_CALL_FORWARD
    ; IMS_GET_CALL_RESTRICTION; IMS_SET_CALL_RESTRICTION; IMS_GET_CALL_WAIT
    ; IMS_SET_CALL_WAIT; IMS_GET_CALL_COLR; IMS_SET_CALL_COLR; IMS_SET_CALL_COLP
    ; IMS_GET_CALL_COLP; IMS_SUPP_EXT_CHANGED]).
End ImsCallCallbackInterfaceCode.

Module ImsCallInterfaceCode.
Inductive ServiceCode :=
  | IMS_DIAL | IMS_HANG_UP | IMS_REJECT_WITH_REASON | IMS_ANSWER | IMS_HOLD | IMS_UN_HOLD
  | IMS_SWITCH | IMS_COMBINE_CONFERENCE | IMS_INVITE_TO_CONFERENCE
  | IMS_KICK_OUT_CONFERENCE | IMS_SEND_CALL_MEDIA_MODE_REQUEST | IMS_CALL_STATE_CHANGE
  | IMS_GET_CALL_DATA | IMS_GET_LAST_CALL_FAIL_REASON | IMS_SEND_CALL_MEDIA_MODE_RESPONSE
  | IMS_CANCEL_CALL_UPGRADE | IMS_REQUEST_CAMERA_CAPABILITIES | IMS_START_DTMF
  | IMS_SEND_DTMF | IMS_STOP_DTMF | IMS_START_RTT | IMS_STOP_RTT
  | IMS_UPDATE_RTT_CALL_MODE | IMS_SET_DOMAIN_PREFERENCE_MODE
  | IMS_GET_DOMAIN_PREFERENCE_MODE | IMS_SET_SWITCH_STATUS | IMS_GET_SWITCH_STATUS
  | IMS_SET_IMS_CONFIG_STRING | IMS_SET_IMS_CONFIG_INT | IMS_GET_IMS_CONFIG
  | IMS_SET_VT_CONFIG | IMS_SET_IMS_FEATURE | IMS_GET_IMS_FEATURE | IMS_SET_MUTE
  | IMS_GET_MUTE | IMS_SET_IMS_REG_ERROR_REPORT | IMS_UPDATE_CAPABILITY
  | IMS_GET_IMPU_FROM_NETWORK | IMS_OPERATOR_CONFIG_CHANGED | IMS_GET_IMS_CAPABILITY
  | IMS_CTRL_CAMERA | IMS_SET_PREVIEW_WINDOW | IMS_SET_DISPLAY_WINDOW
  | IMS_SET_CAMERA_ZOOM | IMS_SET_PAUSE_IMAGE | IMS_SET_DEVICE_DIRECTION | IMS_GET_CLIP
  | IMS_SET_CLIP | IMS_SET_CLIR | IMS_GET_CLIR | IMS_SET_CALL_TRANSFER
  | IMS_GET_CALL_TRANSFER | IMS_CAN_SET_CALL_TRANSFER_TIME | IMS_SET_CALL_RESTRICTION
  | IMS_GET_CALL_RESTRICTION | IMS_SET_CALL_WAITING | IMS_GET_CALL_WAITING | IMS_SET_COLR
  | IMS_GET_COLR | IMS_SET_COLP | IMS_GET_COLP | IMS_SET_VIDEO_CALL_WAITING
  | IMS_CALL_REGISTER_CALLBACK.
#[export] Instance ServiceCode_eq_dec : EqDecision ServiceCode.
Proof. solve_decision. Defined.

Definition service_codes `{ConfigEnv} : list (ServiceCode * Z) :=
  group 5000 ([
    IMS_DIAL; IMS_HANG_UP; IMS_REJECT_WITH_REASON; IMS_ANSWER; IMS_HOLD; IMS_UN_HOLD
    ; IMS_SWITCH; IMS_COMBINE_CONFERENCE; IMS_INVITE_TO_CONFERENCE; IMS_KICK_OUT_CONFERENCE
    ; IMS_SEND_CALL_MEDIA_MODE_REQUEST; IMS_CALL_STATE_CHANGE; IMS_GET_CALL_DATA
    ; IMS_GET_LAST_CALL_FAIL_REASON; IMS_SEND_CALL_MEDIA_MODE_RESPONSE
    ; IMS_CANCEL_CALL_UPGRADE; IMS_REQUEST_CAMERA_CAPABILITIES]) ++
  group 5100 ([
    IMS_START_DTMF; IMS_SEND_DTMF; IMS_STOP_DTMF] ++
    (if SUPPORT_RTT_CALL then [
    IMS_START_RTT; IMS_STOP_RTT; IMS_UPDATE_RTT_CALL_MODE] else [])) ++
  group 5200 ([
    IMS_SET_DOMAIN_PREFERENCE_MODE; IMS_GET_DOMAIN_PREFERENCE_MODE; IMS_SET_SWITCH_STATUS
    ; IMS_GET_SWITCH_STATUS; IMS_SET_IMS_CONFIG_STRING; IMS_SET_IMS_CONFIG_INT
    ; IMS_GET_IMS_CONFIG; IMS_SET_VT_CONFIG; IMS_SET_IMS_FEATURE; IMS_GET_IMS_FEATURE
    ; IMS_SET_MUTE; IMS_GET_MUTE; IMS_SET_IMS_REG_ERROR_REPORT; IMS_UPDATE_CAPABILITY
    ; IMS_GET_IMPU_FROM_NETWORK; IMS_OPERATOR_CONFIG_CHANGED; IMS_GET_IMS_CAPABILITY]) ++
  group 5300 ([
    IMS_CTRL_CAMERA; IMS_SET_PREVIEW_WINDOW; IMS_SET_DISPLAY_WINDOW; IMS_SET_CAMERA_ZOOM
    ; IMS_SET_PAUSE_IMAGE; IMS_SET_DEVICE_DIRECTION]) ++
  group 5400 ([
    IMS_GET_CLIP; IMS_SET_CLIP; IMS_SET_CLIR; IMS_GET_CLIR; IMS_SET_CALL_TRANSFER
    ; IMS_GET_CALL_TRANSFER; IMS_CAN_SET_CALL_TRANSFER_TIME; IMS_SET_CALL_RESTRICTION
    ; IMS_GET_CALL_RESTRICTION; IMS_SET_CALL_WAITING; IMS_GET_CALL_WAITING; IMS_SET_COLR
    ; IMS_GET_COLR; IMS_SET_COLP; IMS_GET_COLP; IMS_SET_VIDEO_CALL_WAITING]) ++
  group 5500 ([
    IMS_CALL_REGISTER_CALLBACK]).
End ImsCallInterfaceCode.
