(* ===== verification/CellularCallRdbHelper.v ===== *)
(** * CellularCallRdbHelper: the readings of the databases
    (services/common/src/cellular_call_rdb_helper.cpp)

    The rows of the emergency number table of a network, and one value of the
    settings.  What the data share library answers is an environment; a variable the
    library is to fill is handed to it with the value it has.  The loop over the rows
    uses its counter for the columns as well, so it need not end: it has fuel, and
    [None] is a loop that was not done when the fuel was.

    Module [RdbHelperFacts]: what the readings return, and what they release. *)

From stdpp Require Import base tactics option list numbers strings.
From Stdlib Require Import ZArith Lia String.
From S2P Require Import Prelude SsTypes ConfigTypes Platform.
From S2P Require Service ConfigRequest Config ConfigEcc Parcel.

Open Scope Z_scope.

Inductive RdbEvent :=
  | HelperCreator (uri extUri : string)
  | HelperQuery (uri field value : string)
  | RowCount
  | GoToRow (row : Z)
  | GoToFirstRow
  | ColumnIndex (name : string)
  | ReadInt (column : Z)
  | ReadString (column : Z)
  | ResultClose
  | HelperRelease
  | HelperObserver (uri : string).

(** The library and the names of core_service's global_params_data.h. *)
Class RdbEnv := {
  GLOBAL_PARAMS_URI : string;
  EccData_ID : string;
  EccData_NAME : string;
  EccData_MCC : string;
  EccData_MNC : string;
  EccData_NUMERIC : string;
  EccData_ECC_WITH_CARD : string;
  EccData_ECC_NO_CARD : string;
  EccData_ECC_FAKE : string;
  EccNum_init : EccNum;
  TELEPHONY_ERR_DATABASE_READ_FAIL : Z;
  rdb_GetSystemAbilityManager : list RdbEvent → bool;
  rdb_GetSystemAbility : list RdbEvent → bool;
  Creator_answer : list RdbEvent → bool;
  Query_answer : list RdbEvent → bool;
  GetRowCount_answer : list RdbEvent → Z → Z;
  GoToFirstRow_ok : list RdbEvent → bool;
  GetColumnIndex_answer : list RdbEvent → string → Z → Z;
  GetInt_answer : list RdbEvent → Z → Z → Z;
  GetString_answer : list RdbEvent → Z → string → string
}.

Section Rdb.
Context `{CallConsts, RdbEnv}.
Abbreviation Rdb A := (M RdbEvent () A).

Definition GLOBAL_ECC_URI_SELECTION : string := "datashare:///com.ohos.globalparamsability/globalparams/ecc_data".
Definition SETTINGS_DATASHARE_URI : string :=
  "datashare:///com.ohos.settingsdata/entry/settingsdata/SETTINGSDATA?Proxy=true".
Definition SETTINGS_DATASHARE_EXT_URI : string := "datashare:///com.ohos.settingsdata.DataAbility".
Definition globalEccUri_ : string := GLOBAL_ECC_URI_SELECTION.

(** Whether the helper made is not null. *)
Definition CreateDataAbilityHelper (uri extUri : string) : Rdb bool :=
  let! saManager := query rdb_GetSystemAbilityManager in
  if negb saManager then mret false
  else
    let! remoteObj := query rdb_GetSystemAbility in
    if negb remoteObj then mret false else emit (HelperCreator uri extUri) ;; query Creator_answer.

(** [result->GetColumnIndex(name, index)] *)
Definition GetColumnIndex (name : string) (index : Z) : Rdb Z :=
  emit (ColumnIndex name) ;; query (λ h, GetColumnIndex_answer h name index).
(** [result->GetInt(index, value)] *)
Definition GetInt (index value : Z) : Rdb Z := emit (ReadInt index) ;; query (λ h, GetInt_answer h index value).
Definition GetString (index : Z) (value : string) : Rdb string :=
  emit (ReadString index) ;; query (λ h, GetString_answer h index value).

(** One turn of the loop: the row, and the counter after it. *)
Definition read_bean (index : Z) : Rdb (EccNum * Z) :=
  let bean := EccNum_init in
  emit (GoToRow index) ;;
  let! index := GetColumnIndex EccData_ID index in
  let! id := GetInt index (bean_id bean) in
  let! index := GetColumnIndex EccData_NAME index in
  let! name := GetString index (bean_name bean) in
  let! index := GetColumnIndex EccData_MCC index in
  let! mcc := GetString index (bean_mcc bean) in
  let! index := GetColumnIndex EccData_MNC index in
  let! mnc := GetString index (bean_mnc bean) in
  let! index := GetColumnIndex EccData_NUMERIC index in
  let! numeric := GetString index (bean_numeric bean) in
  let! index := GetColumnIndex EccData_ECC_WITH_CARD index in
  let! withcard := GetString index (ecc_withcard bean) in
  let! index := GetColumnIndex EccData_ECC_NO_CARD index in
  let! nocard := GetString index (ecc_nocard bean) in
  let! index := GetColumnIndex EccData_ECC_FAKE index in
  let! fake := GetString index (ecc_fake bean) in
  mret ({| bean_id := id; bean_name := name; bean_mcc := mcc; bean_mnc := mnc; bean_numeric := numeric;
           ecc_withcard := withcard; ecc_nocard := nocard; ecc_fake := fake |}, index).
Fixpoint read_beans (fuel : nat) (rowCnt index : Z) (eccVec : list EccNum) : Rdb (option (list EccNum)) :=
  match fuel with
  | O => mret None
  | S fuel =>
      if negb (index <? rowCnt) then mret (Some eccVec)
      else
        let! r := read_bean index in
        let '(bean, index) := r in
        read_beans fuel rowCnt (index + 1) (eccVec ++ [bean])
  end.
Definition QueryEccList (fuel : nat) (numeric : string) (eccVec : list EccNum) : Rdb (option (Z * list EccNum)) :=
  let! dataShareHelper := CreateDataAbilityHelper GLOBAL_PARAMS_URI "" in
  if negb dataShareHelper then mret (Some (TELEPHONY_ERR_LOCAL_PTR_NULL, eccVec))
  else
    emit (HelperQuery globalEccUri_ EccData_NUMERIC numeric) ;;
    let! result := query Query_answer in
    if negb result then emit HelperRelease ;; mret (Some (TELEPHONY_ERR_LOCAL_PTR_NULL, eccVec))
    else
      emit RowCount ;;
      let! rowCnt := query (λ h, GetRowCount_answer h 0) in
      let! r := read_beans fuel rowCnt 0 eccVec in
      match r with
      | None => mret None
      | Some eccVec => emit ResultClose ;; emit HelperRelease ;; mret (Some (TELEPHONY_SUCCESS, eccVec))
      end.

(** The answer and the value; the value is as it was unless the answer is success. *)
Definition Query (uriString key value : string) : Rdb (Z * string) :=
  let! settingHelper := CreateDataAbilityHelper SETTINGS_DATASHARE_URI SETTINGS_DATASHARE_EXT_URI in
  if negb settingHelper then mret (TELEPHONY_ERR_LOCAL_PTR_NULL, value)
  else
    emit (HelperQuery uriString "KEYWORD" key) ;;
    let! result := query Query_answer in
    if negb result then emit HelperRelease ;; mret (TELEPHONY_ERR_LOCAL_PTR_NULL, value)
    else
      emit GoToFirstRow ;;
      let! first := query GoToFirstRow_ok in
      if negb first then
        emit ResultClose ;; emit HelperRelease ;; mret (TELEPHONY_ERR_DATABASE_READ_FAIL, value)
      else
        let! columnIndex := GetColumnIndex "VALUE" 0 in
        let! value := GetString columnIndex value in
        emit ResultClose ;; emit HelperRelease ;; mret (TELEPHONY_SUCCESS, value).

Definition RegisterEccDataObserver (settingsCallback : bool) : Rdb () :=
  if negb settingsCallback then mret ()
  else
    let! dataShareHelper := CreateDataAbilityHelper GLOBAL_PARAMS_URI "" in
    if negb dataShareHelper then mret ()
    else emit (HelperObserver GLOBAL_ECC_URI_SELECTION) ;; emit HelperRelease.

(** [ModuleServiceUtils::HasSimProfile]; the card is that of core_service. *)
Definition SETTINGS_HAS_ESIM_PROFILE : string := "has_esim_profile".
Definition ESIM_SEARCH_SETTING_URI : string :=
  "datashare:///com.ohos.settingsdata/entry/settingsdata/SETTINGSDATA?Proxy=true&key=has_esim_profile".
Inductive SimType := PSIM | ESIM | OTHER_SIM.
Definition HasSimProfile (simType : SimType) (HasSimCard : bool) : Rdb bool :=
  match simType with
  | ESIM =>
      let! r := Query ESIM_SEARCH_SETTING_URI SETTINGS_HAS_ESIM_PROFILE "" in
      let '(_, hasEsimProfileSettingValue) := r in
      mret (negb (bool_decide (hasEsimProfileSettingValue = "") || bool_decide (hasEsimProfileSettingValue = "0")))
  | PSIM => mret HasSimCard
  | OTHER_SIM => mret false
  end.
End Rdb.

(** ** RdbHelperFacts: when the reading of the emergency numbers ends, and with what;
    every helper and result is given back *)

Module RdbHelperFacts.
Import Service ConfigRequest Config ConfigEcc Parcel.

Open Scope Z_scope.

Section Facts.
Context `{CallConsts, RdbEnv}.
Abbreviation Rdb A := (M RdbEvent () A).

(** ** What is made is released *)

(** Helpers and results in hand after the trace [e], of those in hand before it;
    [None] when something is used or given back that is not in hand. *)
Fixpoint in_hand (h : list RdbEvent) (helpers results : nat) (e : list RdbEvent) : option (nat * nat) :=
  match e with
  | [] => Some (helpers, results)
  | ev :: e =>
      let h := h ++ [ev] in
      match ev with
      | HelperCreator _ _ => in_hand h (if Creator_answer h then S helpers else helpers) results e
      | HelperQuery _ _ _ =>
          match helpers with O => None | S _ => in_hand h helpers (if Query_answer h then S results else results) e end
      | HelperObserver _ => match helpers with O => None | S _ => in_hand h helpers results e end
      | HelperRelease => match helpers with O => None | S helpers => in_hand h helpers results e end
      | ResultClose => match results with O => None | S results => in_hand h helpers results e end
      | RowCount | GoToRow _ | GoToFirstRow | ColumnIndex _ | ReadInt _ | CellularCallRdbHelper.ReadString _ =>
          match results with O => None | S _ => in_hand h helpers results e end
      end
  end.
Lemma in_hand_app h a b e e' :
  in_hand h a b (e ++ e') = in_hand h a b e ≫= λ x, in_hand (h ++ e) x.1 x.2 e'.
Proof.
  revert h a b. induction e as [|ev e IH]; intros h a b; cbn [in_hand app].
  { by rewrite app_nil_r. }
  rewrite (cons_middle ev h e), app_assoc.
  destruct ev; cbn; try apply IH; destruct a, b; try done; apply IH.
Qed.
Definition clean {A} (m : Rdb A) : Prop := ∀ h, wp m (λ _ _ e, in_hand h 0 0 e = Some (0%nat, 0%nat)) () h.

Lemma helper_run uri extUri (Q : bool → () → list RdbEvent → Prop) h :
  (∀ e, in_hand h 0 0 e = Some (0%nat, 0%nat) → Q false () e) →
  (∀ e, in_hand h 0 0 e = Some (1%nat, 0%nat) → Q true () e) →
  wp (CreateDataAbilityHelper uri extUri) Q () h.
Proof.
  intros Hn Hs. unfold CreateDataAbilityHelper. psteps.
  destruct (rdb_GetSystemAbilityManager h); cbn [negb]; psteps; [|by apply Hn].
  destruct (rdb_GetSystemAbility h); cbn [negb]; psteps; [|by apply Hn].
  destruct (Creator_answer _) eqn:Hc; [apply Hs|apply Hn]; cbn; by rewrite Hc.
Qed.
(** A reading of the result in hand. *)
Lemma read_bean_hand index h :
  wp (read_bean index) (λ _ _ e, in_hand h 1 1 e = Some (1%nat, 1%nat)) () h.
Proof. unfold read_bean, GetColumnIndex, GetInt, GetString. psteps. done. Qed.
Lemma read_beans_hand fuel rowCnt index eccVec h :
  wp (read_beans fuel rowCnt index eccVec) (λ _ _ e, in_hand h 1 1 e = Some (1%nat, 1%nat)) () h.
Proof.
  revert index eccVec h. induction fuel as [|fuel IH]; intros index eccVec h; cbn [read_beans]; [by apply wp_ret|].
  destruct (index <? rowCnt); cbn [negb]; [|by apply wp_ret].
  apply wp_then. eapply wp_mono; [apply read_bean_hand|]. intros [bean i] [] e He.
  eapply wp_mono; [apply IH|]. intros r s e' He'. by rewrite in_hand_app, He.
Qed.

(** Whatever the library answers, the helper that is made and the result that is
    found are used only when they are there, and given back exactly once on every
    way out of a reading, of a reading of the settings and of the registration of an
    observer; only a reading of the rows that does not end keeps them. *)
Theorem rdb_gives_back (numeric uri key value : string) fuel eccVec (callback : bool) simType card h :
  wp (QueryEccList fuel numeric eccVec) (λ r _ e,
    match r with Some _ => in_hand h 0 0 e = Some (0%nat, 0%nat) | None => True end) () h ∧
  clean (Query uri key value) ∧ clean (RegisterEccDataObserver callback) ∧ clean (HasSimProfile simType card).
Proof.
  assert (∀ uri key value, clean (Query uri key value)) as Hquery.
  { intros u k v h0. unfold Query. apply wp_then, helper_run; intros e He; cbn [negb]; psteps; [done|].
    destruct (Query_answer _) eqn:Hq; cbn [negb]; unfold GetColumnIndex, GetString; psteps.
    - destruct (GoToFirstRow_ok _); cbn [negb]; psteps; rewrite in_hand_app, He; cbn; by rewrite Hq.
    - rewrite in_hand_app, He. cbn. by rewrite Hq. }
  split_and!; [|done| |].
  - unfold QueryEccList. apply wp_then, helper_run; intros e He; cbn [negb]; psteps; [done|].
    destruct (Query_answer _) eqn:Hq; cbn [negb]; psteps.
    + eapply wp_mono; [apply read_beans_hand|]. intros r [] e' He'. destruct r as [r|]; psteps; [|done].
      rewrite in_hand_app, He. cbn. rewrite Hq, in_hand_app.
      rewrite <-!app_assoc in He'. cbn in He'. rewrite <-!app_assoc. cbn. by rewrite He'.
    + rewrite in_hand_app, He. cbn. by rewrite Hq.
  - intros h0. unfold RegisterEccDataObserver. destruct callback; cbn [negb]; [|by apply wp_ret].
    apply wp_then, helper_run; intros e He; cbn [negb]; psteps; [done|]. rewrite in_hand_app, He. done.
  - intros h0. unfold HasSimProfile. destruct simType; [by apply wp_ret| |by apply wp_ret].
    apply wp_then. eapply wp_mono; [apply Hquery|]. intros [ret v] s e He. psteps. done.
Qed.

(** ** The rows of the emergency numbers *)

(** Where the result stands. *)
Definition cursor (h : list RdbEvent) : Z :=
  fold_left (λ row ev, match ev with
                       | GoToRow row => row
                       | GoToFirstRow => 0
                       | HelperQuery _ _ _ => -1
                       | _ => row
                       end) h (-1).
Lemma cursor_app h e : cursor (h ++ e) = fold_left (λ row ev, match ev with
  | GoToRow row => row | GoToFirstRow => 0 | HelperQuery _ _ _ => -1 | _ => row end) e (cursor h).
Proof. apply fold_left_app. Qed.

(** The result of a query is a table of [n] rows. *)
Record EccTable (n : Z) (row : Z → EccNum) (column : string → Z) : Prop := {
  table_found : ∀ h, rdb_GetSystemAbilityManager h = true ∧ rdb_GetSystemAbility h = true ∧
    Creator_answer h = true ∧ Query_answer h = true;
  table_count : ∀ h old, GetRowCount_answer h old = n;
  table_column : ∀ h name old, GetColumnIndex_answer h name old = column name;
  table_id : ∀ h old, 0 ≤ cursor h < n → GetInt_answer h (column EccData_ID) old = bean_id (row (cursor h));
  table_cell : ∀ h name field old, 0 ≤ cursor h < n →
    (name, field) ∈ [(EccData_NAME, bean_name); (EccData_MCC, bean_mcc); (EccData_MNC, bean_mnc);
                     (EccData_NUMERIC, bean_numeric); (EccData_ECC_WITH_CARD, ecc_withcard);
                     (EccData_ECC_NO_CARD, ecc_nocard); (EccData_ECC_FAKE, ecc_fake)] →
    GetString_answer h (column name) old = field (row (cursor h))
}.
Definition rows_read (e : list RdbEvent) : list Z := omap (λ ev, match ev with GoToRow row => Some row | _ => None end) e.

Section Table.
Context {n : Z} {row : Z → EccNum} {column : string → Z} (T : EccTable n row column).

Lemma cell_at index name field h old :
  (name, field) ∈ [(EccData_NAME, bean_name); (EccData_MCC, bean_mcc); (EccData_MNC, bean_mnc);
                   (EccData_NUMERIC, bean_numeric); (EccData_ECC_WITH_CARD, ecc_withcard);
                   (EccData_ECC_NO_CARD, ecc_nocard); (EccData_ECC_FAKE, ecc_fake)] →
  0 ≤ index < n → cursor h = index → GetString_answer h (column name) old = field (row index).
Proof. intros Hin Hi <-. by apply (table_cell _ _ _ T). Qed.
Lemma id_at index h old : 0 ≤ index < n → cursor h = index → GetInt_answer h (column EccData_ID) old = bean_id (row index).
Proof. intros Hi <-. by apply (table_id _ _ _ T). Qed.
Lemma read_bean_run index h : 0 ≤ index < n →
  wp (read_bean index) (λ r _ e, r = (row index, column EccData_ECC_FAKE) ∧ rows_read e = [index]) () h.
Proof.
  intros Hi. unfold read_bean, GetColumnIndex, GetInt, GetString. psteps. split; [|done].
  rewrite !(table_column _ _ _ T).
  rewrite (id_at index); [|done|by rewrite !cursor_app].
  rewrite (cell_at index EccData_NAME bean_name), (cell_at index EccData_MCC bean_mcc),
    (cell_at index EccData_MNC bean_mnc), (cell_at index EccData_NUMERIC bean_numeric),
    (cell_at index EccData_ECC_WITH_CARD ecc_withcard), (cell_at index EccData_ECC_NO_CARD ecc_nocard),
    (cell_at index EccData_ECC_FAKE ecc_fake); try done; try (by rewrite !cursor_app);
    try (rewrite !elem_of_cons; tauto).
  by destruct (row index).
Qed.
Abbreviation after := (column EccData_ECC_FAKE + 1).
Lemma read_beans_end fuel index eccVec h : n ≤ index →
  wp (read_beans (S fuel) n index eccVec) (λ r _ e, r = Some eccVec ∧ rows_read e = []) () h.
Proof. intros Hi. cbn [read_beans]. rewrite (proj2 (Z.ltb_ge _ _) Hi). by apply wp_ret. Qed.
(** A turn of the loop leads to the row after the last column. *)
Lemma read_beans_turn fuel index eccVec (Q : option (list EccNum) → () → list RdbEvent → Prop) h : 0 ≤ index < n →
  (∀ e, rows_read e = [index] →
     wp (read_beans fuel n after (eccVec ++ [row index])) (λ r s e', Q r s (e ++ e')) () (h ++ e)) →
  wp (read_beans (S fuel) n index eccVec) Q () h.
Proof.
  intros Hi Hk. cbn [read_beans]. rewrite (proj2 (Z.ltb_lt _ _) (proj2 Hi)). cbn [negb].
  apply wp_then. eapply wp_mono; [by apply read_bean_run|]. intros r [] e [-> He]. by apply Hk.
Qed.
Lemma rows_read_app e e' : rows_read (e ++ e') = rows_read e ++ rows_read e'.
Proof. apply omap_app. Qed.
Lemma read_beans_forever fuel eccVec h : 0 ≤ after < n →
  wp (read_beans fuel n after eccVec) (λ r _ e, r = None ∧ rows_read e = replicate fuel after) () h.
Proof.
  intros Hi. revert eccVec h. induction fuel as [|fuel IH]; intros eccVec h; [by apply wp_ret|].
  apply read_beans_turn; [done|]. intros e He. eapply wp_mono; [apply IH|]. intros r [] e' [-> He'].
  by rewrite rows_read_app, He, He'.
Qed.
(** A query that finds its helper and its result. *)
Lemma query_run fuel numeric eccVec (Q : option (Z * list EccNum) → () → list RdbEvent → Prop) h :
  (∀ e0 h', rows_read e0 = [] → wp (read_beans fuel n 0 eccVec) (λ r _ e,
     ∀ e1, rows_read e1 = [] → Q ((λ v, (TELEPHONY_SUCCESS, v)) <$> r) () (e0 ++ e ++ e1)) () h') →
  wp (QueryEccList fuel numeric eccVec) Q () h.
Proof.
  intros Hk. unfold QueryEccList, CreateDataAbilityHelper. psteps.
  destruct (table_found _ _ _ T h) as (Hm & Ha & _). rewrite Hm. cbn [negb]. psteps. rewrite Ha. cbn [negb]. psteps.
  rewrite (proj1 (proj2 (proj2 (table_found _ _ _ T _)))). cbn [negb]. psteps.
  rewrite (proj2 (proj2 (proj2 (table_found _ _ _ T _)))). cbn [negb]. psteps. rewrite (table_count _ _ _ T).
  eapply wp_mono; [by apply (Hk [HelperCreator GLOBAL_PARAMS_URI ""; HelperQuery globalEccUri_ EccData_NUMERIC numeric; RowCount])|].
  intros r [] e HQ. destruct r as [v|]; psteps.
  - by apply (HQ [ResultClose; HelperRelease]).
  - specialize (HQ [] eq_refl). by rewrite app_nil_r in HQ.
Qed.

(** C31: the loop over the rows of a network's emergency numbers writes the column it
    last looked up into its own counter.  With at most as many rows as columns up to
    the fake numbers it ends after its first turn, and the numbers with a card,
    without one and the fake ones are those of the first row, the only one the
    configuration looks at; the other rows are lost.  With more rows it never ends:
    the row after that column is read and added over and over. *)
Theorem ecc_query_outcome (numeric : string) (eccVec : list EccNum) h :
  0 ≤ column EccData_ECC_FAKE →
  (n ≤ after → ∀ fuel, (2 ≤ fuel)%nat →
     wp (QueryEccList fuel numeric []) (λ r _ e, ∃ found, r = Some (TELEPHONY_SUCCESS, found) ∧
       found = take 1 (row <$> seqZ 0 n) ∧ rows_read e = take 1 (seqZ 0 n) ∧
       ∀ withCard noCard, GetEccListFromResult found withCard noCard =
         GetEccListFromResult (row <$> seqZ 0 n) withCard noCard) () h) ∧
  (after < n → ∀ fuel,
     wp (QueryEccList fuel numeric eccVec) (λ r _ e,
       r = None ∧ rows_read e = take fuel (0 :: replicate fuel after)) () h).
Proof.
  intros Hc. split.
  - intros Hn fuel Hf. destruct fuel as [|[|fuel]]; [lia..|]. apply query_run. intros e0 h' He0.
    destruct (decide (n ≤ 0)) as [Hle|Hgt].
    + eapply wp_mono; [by apply read_beans_end|]. intros r [] e [-> He] e1 He1. exists [].
      rewrite !rows_read_app, He0, He, He1. replace (seqZ 0 n) with (@nil Z); [done|].
      symmetry. apply seqZ_nil. lia.
    + apply read_beans_turn; [lia|]. intros e He. eapply wp_mono; [by apply read_beans_end|].
      intros r [] e' [-> He'] e1 He1. exists [row 0]. rewrite !rows_read_app, He0, He, He', He1.
      rewrite seqZ_cons by lia. done.
  - intros Hn fuel. apply query_run. intros e0 h' He0. destruct fuel as [|fuel].
    { apply wp_ret. intros e1 He1. by rewrite !rows_read_app, He0, He1. }
    apply read_beans_turn; [lia|]. intros e He. eapply wp_mono; [apply read_beans_forever; lia|].
    intros r [] e' [-> He'] e1 He1. rewrite !rows_read_app, He0, He, He', He1. split; [done|].
    cbn [take app]. rewrite app_nil_r, take_replicate, Nat.min_l by lia. done.
Qed.
End Table.
End Facts.

End RdbHelperFacts.
