(* ===== verification/CellularCallHiSysEvent.v ===== *)
(** * CellularCallHiSysEvent: the records of faults and of behaviour
    (services/common/src/cellular_call_hisysevent.cpp)

    The other components record through it, which is an effect of theirs; here is
    what is written for each, from the members that the requests leave in the one
    object of the process. *)

From stdpp Require Import base tactics option list numbers strings pretty.
From Stdlib Require Import ZArith Lia String.
From S2P Require Import Prelude SsTypes ConfigTypes Platform Standardize Supplement Parcel.

Open Scope Z_scope.

Inductive CallErrorCode :=
  | CALL_ERROR_CALL_LOCAL_PTR_NULL | CALL_ERROR_ARGUMENT_INVALID | CALL_ERROR_IPC_CONNECT_STUB_FAIL
  | CALL_ERROR_IPC_WRITE_DESCRIPTOR_TOKEN_FAIL | CALL_ERROR_IPC_WRITE_DATA_FAIL | CALL_ERROR_PERMISSION_ERR
  | CALL_ERROR_MEMSET_FAIL | CALL_ERROR_MEMCPY_FAIL
  | CALL_ERROR_INVALID_SLOT_ID | CALL_ERROR_INVALID_CALLID | CALL_ERROR_PHONE_NUMBER_EMPTY
  | CALL_ERROR_NUMBER_OUT_OF_RANGE | CALL_ERROR_UNSUPPORTED_NETWORK_TYPE | CALL_ERROR_INVALID_DIAL_SCENE
  | CALL_ERROR_INVALID_VIDEO_STATE | CALL_ERROR_UNKNOW_DIAL_TYPE | CALL_ERROR_UNKNOW_CALL_TYPE
  | CALL_ERROR_CALL_OBJECT_IS_NULL
  | CALL_ERROR_DIAL_IS_BUSY | CALL_ERROR_ILLEGAL_CALL_OPERATION | CALL_ERROR_PHONE_CALLSTATE_NOTIFY_FAILED
  | CALL_ERROR_SYSTEM_EVENT_HANDLE_FAILURE | CALL_ERROR_CALL_COUNTS_EXCEED_LIMIT
  | CALL_ERROR_GET_RADIO_STATE_FAILED | CALL_ERROR_INCOMING_TIME_OUT.
(** The codes of call_manager that only the records know, the values of
    telephony_hisysevent.h, and the clock. *)
Class HiSysEnv := {
  CALL_ERR_INVALID_CALLID : Z;
  CALL_ERR_NUMBER_OUT_OF_RANGE : Z;
  CALL_ERR_INVALID_DIAL_SCENE : Z;
  CALL_ERR_INVALID_VIDEO_STATE : Z;
  CALL_ERR_UNKNOW_DIAL_TYPE : Z;
  CALL_ERR_UNKNOW_CALL_TYPE : Z;
  CALL_ERR_CALL_OBJECT_IS_NULL : Z;
  CALL_ERR_DIAL_IS_BUSY : Z;
  CALL_ERR_ILLEGAL_CALL_OPERATION : Z;
  CALL_ERR_PHONE_CALLSTATE_NOTIFY_FAILED : Z;
  CALL_ERR_SYSTEM_EVENT_HANDLE_FAILURE : Z;
  CallErrorCode_value : CallErrorCode → Z;
  (* [localtime] and [strftime]; [None]: one of them failed *)
  occurTime : option string
}.

(** What is written. *)
Inductive HiValue := HiInt (v : Z) | HiString (s : string).
Inductive HiRecord :=
  | HiWriteFaultEvent (event : string) (params : list (string * HiValue))
  | HiWriteBehaviorEvent (event : string) (params : list (string * HiValue))
  | ReportSecurityInfo (time : string) (transferState : Z).

(** The members. *)
Record CellularCallHiSysEvent := {
  callForwardingEnable_ : bool; callForwardingSlotId_ : Z; callForwardingNumber_ : string;
  dfxSlotId_ : Z; dfxCallType_ : Z; dfxIsRTT_ : bool; dfxVideoState_ : Z;
  dfxIncomingCallType_ : Z; dfxIncomingVideoState_ : Z; incomingStartTime_ : Z
}.
Record CallBehaviorParameterInfo := {
  bp_slotId : Z; bp_callType : Z; bp_videoState : Z; bp_incomingCallType : Z; bp_incomingVideoState : Z
}.
Inductive CallModeBehaviorType := SEND_REQUEST_EVENT | SEND_RESPONSE_EVENT | RECEIVE_REQUEST_EVENT | RECEIVE_RESPONSE_EVENT.

Definition INVALID_VALUE : Z := -1.
Definition CS_CALL_TYPE : Z := 0.
Definition IMS_CALL_TYPE : Z := 1.
Definition VOICE_TYPE : Z := 0.
Definition VIDEO_TYPE : Z := 1.
Definition NORMAL_INCOMING_TIME : Z := 500.
Definition CELLULAR_CALL_MODULE : string := "CELLULAR_CALL".
Definition CallResponseResult_value (success : bool) : Z := if success then 1 else 0.
Inductive DialCallType := IMS_VOICE_DIAL | IMS_VIDEO_DIAL | CS_VOICE_DIAL.
Definition DialCallType_value (t : DialCallType) : Z :=
  match t with IMS_VOICE_DIAL => 0 | IMS_VIDEO_DIAL => 1 | CS_VOICE_DIAL => 2 end.
Inductive HangUpCallType := IMS_VOICE_CALL | IMS_VIDEO_CALL | CS_VOICE_CALL.
Definition HangUpCallType_value (t : HangUpCallType) : Z :=
  match t with IMS_VOICE_CALL => 0 | IMS_VIDEO_CALL => 1 | CS_VOICE_CALL => 2 end.
Inductive AnswerCallType := IMS_VOICE_ANSWER | IMS_VIDEO_TO_VOICE_ANSWER | IMS_VIDEO_TO_VIDEO_ANSWER | CS_VOICE_ANSWER.
Definition AnswerCallType_value (t : AnswerCallType) : Z :=
  match t with
  | IMS_VOICE_ANSWER => 0 | IMS_VIDEO_TO_VOICE_ANSWER => 1 | IMS_VIDEO_TO_VIDEO_ANSWER => 2 | CS_VOICE_ANSWER => 3
  end.

Section HiSys.
Context `{CallConsts, ParcelEnv, HiSysEnv}.

(** ** Error codes *)

(** A [switch] over codes. *)
Fixpoint switch_code (cases : list (Z * CallErrorCode)) (errCode : Z) : option CallErrorCode :=
  match cases with
  | [] => None
  | (code, value) :: cases => if errCode =? code then Some value else switch_code cases errCode
  end.
Definition TelephonyErrorCodeConversion : Z → option CallErrorCode := switch_code
  [(TELEPHONY_ERR_LOCAL_PTR_NULL, CALL_ERROR_CALL_LOCAL_PTR_NULL);
   (TELEPHONY_ERR_ARGUMENT_INVALID, CALL_ERROR_ARGUMENT_INVALID);
   (TELEPHONY_ERR_IPC_CONNECT_STUB_FAIL, CALL_ERROR_IPC_CONNECT_STUB_FAIL);
   (TELEPHONY_ERR_WRITE_DESCRIPTOR_TOKEN_FAIL, CALL_ERROR_IPC_WRITE_DESCRIPTOR_TOKEN_FAIL);
   (TELEPHONY_ERR_WRITE_DATA_FAIL, CALL_ERROR_IPC_WRITE_DATA_FAIL);
   (TELEPHONY_ERR_PERMISSION_ERR, CALL_ERROR_PERMISSION_ERR);
   (TELEPHONY_ERR_MEMSET_FAIL, CALL_ERROR_MEMSET_FAIL);
   (TELEPHONY_ERR_MEMCPY_FAIL, CALL_ERROR_MEMCPY_FAIL)].
Definition CallDataErrorCodeConversion : Z → option CallErrorCode := switch_code
  [(CALL_ERR_INVALID_SLOT_ID, CALL_ERROR_INVALID_SLOT_ID);
   (CALL_ERR_INVALID_CALLID, CALL_ERROR_INVALID_CALLID);
   (CALL_ERR_PHONE_NUMBER_EMPTY, CALL_ERROR_PHONE_NUMBER_EMPTY);
   (CALL_ERR_NUMBER_OUT_OF_RANGE, CALL_ERROR_NUMBER_OUT_OF_RANGE);
   (CALL_ERR_UNSUPPORTED_NETWORK_TYPE, CALL_ERROR_UNSUPPORTED_NETWORK_TYPE);
   (CALL_ERR_INVALID_DIAL_SCENE, CALL_ERROR_INVALID_DIAL_SCENE);
   (CALL_ERR_INVALID_VIDEO_STATE, CALL_ERROR_INVALID_VIDEO_STATE);
   (CALL_ERR_UNKNOW_DIAL_TYPE, CALL_ERROR_UNKNOW_DIAL_TYPE);
   (CALL_ERR_UNKNOW_CALL_TYPE, CALL_ERROR_UNKNOW_CALL_TYPE);
   (CALL_ERR_CALL_OBJECT_IS_NULL, CALL_ERROR_CALL_OBJECT_IS_NULL)].
Definition CallInterfaceErrorCodeConversion : Z → option CallErrorCode := switch_code
  [(CALL_ERR_DIAL_IS_BUSY, CALL_ERROR_DIAL_IS_BUSY);
   (CALL_ERR_ILLEGAL_CALL_OPERATION, CALL_ERROR_ILLEGAL_CALL_OPERATION);
   (CALL_ERR_PHONE_CALLSTATE_NOTIFY_FAILED, CALL_ERROR_PHONE_CALLSTATE_NOTIFY_FAILED);
   (CALL_ERR_SYSTEM_EVENT_HANDLE_FAILURE, CALL_ERROR_SYSTEM_EVENT_HANDLE_FAILURE);
   (CALL_ERR_CALL_COUNTS_EXCEED_LIMIT, CALL_ERROR_CALL_COUNTS_EXCEED_LIMIT);
   (CALL_ERR_GET_RADIO_STATE_FAILED, CALL_ERROR_GET_RADIO_STATE_FAILED)].
Definition ErrorCodeConversion (errCode : Z) : option CallErrorCode :=
  match CallDataErrorCodeConversion errCode with
  | Some v => Some v
  | None =>
      match CallInterfaceErrorCodeConversion errCode with
      | Some v => Some v
      | None => TelephonyErrorCodeConversion errCode
      end
  end.
(** The error type of a fault record. *)
Definition error_type (errCode : Z) : Z :=
  match ErrorCodeConversion errCode with Some value => CallErrorCode_value value | None => errCode end.

(** ** Records *)

Definition WriteFoundationRestartFaultEvent (count : Z) : list HiRecord :=
  [HiWriteFaultEvent "FOUNDATION_RESTART" [("RESTART_COUNT", HiInt count)]].
Definition WriteCallEndBehaviorEvent (slotId cause : Z) : list HiRecord :=
  [HiWriteBehaviorEvent "CALL_END_EXCEPTION" [("SLOT_ID", HiInt slotId); ("FAIL_CAUSE", HiInt cause)]].
Definition behavior (event : string) (slotId : Z) (type : option Z) (success : bool) : list HiRecord :=
  match type with
  | None => []
  | Some type =>
      [HiWriteBehaviorEvent event [("SLOT_ID", HiInt slotId); ("CALL_TYPE", HiInt type);
                                   ("RESULT", HiInt (CallResponseResult_value success))]]
  end.
Definition WriteDialCallBehaviorEvent (info : CallBehaviorParameterInfo) (success : bool) : list HiRecord :=
  let cs := bp_callType info =? CS_CALL_TYPE in
  let ims := bp_callType info =? IMS_CALL_TYPE in
  let voice := bp_videoState info =? VOICE_TYPE in
  behavior "DIAL" (bp_slotId info)
    (if cs && voice then Some (DialCallType_value CS_VOICE_DIAL)
     else if ims && voice then Some (DialCallType_value IMS_VOICE_DIAL)
     else if ims && (bp_videoState info =? VIDEO_TYPE) then Some (DialCallType_value IMS_VIDEO_DIAL)
     else None) success.
Definition WriteHangUpCallBehaviorEvent (info : CallBehaviorParameterInfo) (success : bool) : list HiRecord :=
  let cs := bp_callType info =? CS_CALL_TYPE in
  let ims := bp_callType info =? IMS_CALL_TYPE in
  let voice := bp_videoState info =? VOICE_TYPE in
  behavior "HANG_UP" (bp_slotId info)
    (if cs && voice then Some (HangUpCallType_value CS_VOICE_CALL)
     else if ims && voice then Some (HangUpCallType_value IMS_VOICE_CALL)
     else if ims && (bp_videoState info =? VIDEO_TYPE) then Some (HangUpCallType_value IMS_VIDEO_CALL)
     else None) success.
Definition WriteAnswerCallBehaviorEvent (info : CallBehaviorParameterInfo) (success : bool) : list HiRecord :=
  let answer (incoming incomingVideo call video : Z) :=
    (bp_incomingCallType info =? incoming) && (bp_incomingVideoState info =? incomingVideo) &&
    (bp_callType info =? call) && (bp_videoState info =? video) in
  behavior "ANSWER" (bp_slotId info)
    (if answer IMS_CALL_TYPE VOICE_TYPE IMS_CALL_TYPE VOICE_TYPE then Some (AnswerCallType_value IMS_VOICE_ANSWER)
     else if answer IMS_CALL_TYPE VIDEO_TYPE IMS_CALL_TYPE VOICE_TYPE then
       Some (AnswerCallType_value IMS_VIDEO_TO_VOICE_ANSWER)
     else if answer IMS_CALL_TYPE VIDEO_TYPE IMS_CALL_TYPE VIDEO_TYPE then
       Some (AnswerCallType_value IMS_VIDEO_TO_VIDEO_ANSWER)
     else if answer CS_CALL_TYPE VOICE_TYPE CS_CALL_TYPE VOICE_TYPE then Some (AnswerCallType_value CS_VOICE_ANSWER)
     else None) success.
Definition call_fault (event : string) (slotId callType videoState errCode : Z) (desc : string) : list HiRecord :=
  [HiWriteFaultEvent event [("MODULE", HiString CELLULAR_CALL_MODULE); ("SLOT_ID", HiInt slotId);
     ("CALL_TYPE", HiInt callType); ("VIDEO_STATE", HiInt videoState); ("ERROR_TYPE", HiInt (error_type errCode));
     ("ERROR_MSG", HiString desc)]].
Definition WriteIncomingCallFaultEvent := call_fault "CALL_INCOMING_FAILED".
Definition WriteDialCallFaultEvent := call_fault "CALL_DIAL_FAILED".
Definition WriteAnswerCallFaultEvent (slotId callId videoState errorCode : Z) (desc : string) : list HiRecord :=
  [HiWriteFaultEvent "CALL_ANSWER_FAILED" [("MODULE", HiString CELLULAR_CALL_MODULE); ("SLOT_ID", HiInt slotId);
     ("CALL_ID", HiInt callId); ("VIDEO_STATE", HiInt videoState); ("ERROR_TYPE", HiInt (error_type errorCode));
     ("ERROR_MSG", HiString desc)]].
Definition WriteHangUpFaultEvent (slotId callId errorCode : Z) (desc : string) : list HiRecord :=
  [HiWriteFaultEvent "CALL_HANGUP_FAILED" [("MODULE", HiString CELLULAR_CALL_MODULE); ("SLOT_ID", HiInt slotId);
     ("CALL_ID", HiInt callId); ("ERROR_TYPE", HiInt (error_type errorCode)); ("ERROR_MSG", HiString desc)]].
Definition WriteVoNRSwitchChangeEvent (enable : Z) : list HiRecord :=
  [HiWriteBehaviorEvent "VONR_SWITCH_STATE" [("SWITCH_KEY", HiInt enable)]].
Definition mode_event (type : CallModeBehaviorType) : string :=
  match type with
  | SEND_REQUEST_EVENT => "CALL_MODE_SEND_REQUEST"
  | SEND_RESPONSE_EVENT => "CALL_MODE_SEND_RESPONSE"
  | RECEIVE_REQUEST_EVENT => "CALL_MODE_RECEIVE_REQUEST"
  | RECEIVE_RESPONSE_EVENT => "CALL_MODE_RECEIVE_RESPONSE"
  end.
Definition WriteImsCallModeBehaviorEvent (type : CallModeBehaviorType) (info : CallBehaviorParameterInfo)
    (requestResult : Z) : list HiRecord :=
  [HiWriteBehaviorEvent (mode_event type)
     ([("MODULE", HiString CELLULAR_CALL_MODULE); ("SLOT_ID", HiInt (bp_slotId info));
       ("CALL_TYPE", HiInt (bp_callType info)); ("VIDEO_STATE", HiInt (bp_videoState info))] ++
      if requestResult =? INVALID_VALUE then [] else [("RESULT", HiInt requestResult)])].
(** SECURITY_GUARDE_ENABLE *)
Definition WriteCallTansferEvent (state : Z) : list HiRecord :=
  match occurTime with None => [] | Some time => [ReportSecurityInfo time state] end.

(** ** Members *)

(** The fields a constructor does not set have some value. *)
Definition CellularCallHiSysEvent_new (any : Z) (rtt : bool) : CellularCallHiSysEvent :=
  {| callForwardingEnable_ := false; callForwardingSlotId_ := any; callForwardingNumber_ := ""; dfxSlotId_ := any;
     dfxCallType_ := any; dfxIsRTT_ := rtt; dfxVideoState_ := any; dfxIncomingCallType_ := any;
     dfxIncomingVideoState_ := any; incomingStartTime_ := 0 |}.
Definition SetCallParameterInfo (slotId callType videoState : Z) (isRTT : bool) (t : CellularCallHiSysEvent)
    : CellularCallHiSysEvent :=
  {| callForwardingEnable_ := callForwardingEnable_ t; callForwardingSlotId_ := callForwardingSlotId_ t;
     callForwardingNumber_ := callForwardingNumber_ t; dfxSlotId_ := slotId; dfxCallType_ := callType;
     dfxIsRTT_ := isRTT; dfxVideoState_ := videoState; dfxIncomingCallType_ := dfxIncomingCallType_ t;
     dfxIncomingVideoState_ := dfxIncomingVideoState_ t; incomingStartTime_ := incomingStartTime_ t |}.
Definition SetIncomingCallParameterInfo (incomingCallType incomingVideoState : Z) (t : CellularCallHiSysEvent)
    : CellularCallHiSysEvent :=
  {| callForwardingEnable_ := callForwardingEnable_ t; callForwardingSlotId_ := callForwardingSlotId_ t;
     callForwardingNumber_ := callForwardingNumber_ t; dfxSlotId_ := dfxSlotId_ t; dfxCallType_ := dfxCallType_ t;
     dfxIsRTT_ := dfxIsRTT_ t; dfxVideoState_ := dfxVideoState_ t; dfxIncomingCallType_ := incomingCallType;
     dfxIncomingVideoState_ := incomingVideoState; incomingStartTime_ := incomingStartTime_ t |}.
Definition GetCallParameterInfo (t : CellularCallHiSysEvent) : CallBehaviorParameterInfo :=
  {| bp_slotId := dfxSlotId_ t; bp_callType := dfxCallType_ t; bp_videoState := dfxVideoState_ t;
     bp_incomingCallType := dfxIncomingCallType_ t; bp_incomingVideoState := dfxIncomingVideoState_ t |}.
Definition SetIncomingStartTime (now : Z) (t : CellularCallHiSysEvent) : CellularCallHiSysEvent :=
  {| callForwardingEnable_ := callForwardingEnable_ t; callForwardingSlotId_ := callForwardingSlotId_ t;
     callForwardingNumber_ := callForwardingNumber_ t; dfxSlotId_ := dfxSlotId_ t; dfxCallType_ := dfxCallType_ t;
     dfxIsRTT_ := dfxIsRTT_ t; dfxVideoState_ := dfxVideoState_ t; dfxIncomingCallType_ := dfxIncomingCallType_ t;
     dfxIncomingVideoState_ := dfxIncomingVideoState_ t; incomingStartTime_ := now |}.
(** The text has the time the wrong way round, start minus end. *)
Definition JudgingIncomingTimeOut (now slotId callType videoState : Z) (t : CellularCallHiSysEvent) : list HiRecord :=
  if now - incomingStartTime_ t <=? NORMAL_INCOMING_TIME then []
  else WriteIncomingCallFaultEvent slotId callType videoState (CallErrorCode_value CALL_ERROR_INCOMING_TIME_OUT)
         ("incoming time out " +:+ pretty (incomingStartTime_ t - now)).
Definition SetCallForwardingInfo (slotId : Z) (enable : bool) (number : string) (t : CellularCallHiSysEvent)
    : CellularCallHiSysEvent :=
  {| callForwardingEnable_ := enable; callForwardingSlotId_ := slotId; callForwardingNumber_ := number;
     dfxSlotId_ := dfxSlotId_ t; dfxCallType_ := dfxCallType_ t; dfxIsRTT_ := dfxIsRTT_ t;
     dfxVideoState_ := dfxVideoState_ t; dfxIncomingCallType_ := dfxIncomingCallType_ t;
     dfxIncomingVideoState_ := dfxIncomingVideoState_ t; incomingStartTime_ := incomingStartTime_ t |}.

(** ** The object in the process *)

Definition set_bp_videoState (v : Z) (i : CallBehaviorParameterInfo) : CallBehaviorParameterInfo :=
  {| bp_slotId := bp_slotId i; bp_callType := bp_callType i; bp_videoState := v;
     bp_incomingCallType := bp_incomingCallType i; bp_incomingVideoState := bp_incomingVideoState i |}.
(** What an effect of the program records, given the members. *)
Definition record (t : CellularCallHiSysEvent) (ev : HiSysEvent) : list HiRecord :=
  let info := GetCallParameterInfo t in
  match ev with
  | Platform.SetCallParameterInfo _ _ _ _ => []
  | Platform.WriteDialCallFaultEvent slotId callType videoState errCode desc =>
      WriteDialCallFaultEvent slotId callType videoState errCode desc
  | Platform.WriteHangUpFaultEvent slotId callId errCode desc => WriteHangUpFaultEvent slotId callId errCode desc
  | Platform.WriteAnswerCallFaultEvent slotId callId videoState errCode desc =>
      WriteAnswerCallFaultEvent slotId callId videoState errCode desc
  | WriteImsCallModeBehaviorEvent_request mode =>
      WriteImsCallModeBehaviorEvent SEND_REQUEST_EVENT (set_bp_videoState mode info) INVALID_VALUE
  | WriteImsCallModeBehaviorEvent_response mode =>
      WriteImsCallModeBehaviorEvent SEND_RESPONSE_EVENT (set_bp_videoState mode info) INVALID_VALUE
  | WriteImsCallModeBehaviorEvent_received_request result =>
      WriteImsCallModeBehaviorEvent RECEIVE_REQUEST_EVENT info result
  | WriteImsCallModeBehaviorEvent_received_response mode result =>
      WriteImsCallModeBehaviorEvent RECEIVE_RESPONSE_EVENT (set_bp_videoState mode info) result
  | Platform.WriteDialCallBehaviorEvent success => WriteDialCallBehaviorEvent info success
  | Platform.WriteHangUpCallBehaviorEvent success => WriteHangUpCallBehaviorEvent info success
  | Platform.WriteAnswerCallBehaviorEvent success => WriteAnswerCallBehaviorEvent info success
  | Platform.WriteCallEndBehaviorEvent slotId reason => WriteCallEndBehaviorEvent slotId reason
  | Platform.WriteFoundationRestartFaultEvent count => WriteFoundationRestartFaultEvent count
  | Platform.WriteCallTansferEvent state => WriteCallTansferEvent state
  end.
Definition hisys_step (t : CellularCallHiSysEvent) (e : Effect) : CellularCallHiSysEvent * list HiRecord :=
  match e with
  | HiSys (Platform.SetCallParameterInfo slotId callType videoState isRTT) =>
      (SetCallParameterInfo slotId callType videoState isRTT t, [])
  | HiSys ev => (t, record t ev)
  | Platform.SetCallForwardingInfo slotId enable number => (SetCallForwardingInfo slotId enable number t, [])
  | _ => (t, [])
  end.
(** The records of a trace of the program. *)
Fixpoint hisys_run (t : CellularCallHiSysEvent) (e : list Effect) : CellularCallHiSysEvent * list HiRecord :=
  match e with
  | [] => (t, [])
  | x :: e =>
      let '(t, r) := hisys_step t x in
      let '(t, rs) := hisys_run t e in (t, r ++ rs)
  end.

(** The last parameters set in a trace. *)
Definition last_parameters (t : CellularCallHiSysEvent) (e : list Effect) : Z * Z * Z :=
  foldl (λ p x, match x with
                | HiSys (Platform.SetCallParameterInfo slotId callType videoState _) => (slotId, callType, videoState)
                | _ => p
                end) (dfxSlotId_ t, dfxCallType_ t, dfxVideoState_ t) e.
Lemma hisys_parameters t e :
  let t' := (hisys_run t e).1 in (dfxSlotId_ t', dfxCallType_ t', dfxVideoState_ t') = last_parameters t e.
Proof.
  revert t. induction e as [|x e IH]; intros t; [done|]. cbn [hisys_run].
  assert (last_parameters t (x :: e) = last_parameters (hisys_step t x).1 e) as ->
    by (destruct x; try done; match goal with ev : HiSysEvent |- _ => by destruct ev end).
  specialize (IH (hisys_step t x).1). destruct (hisys_step t x) as [t1 r]. cbn [fst] in *.
  by destruct (hisys_run t1 e) as [t2 rs].
Qed.

(** The result of a dial is recorded under the slot and the type of the last call
    request of the process, of whatever slot, and not of the dial it answers: once a
    request of another slot has come in between, its parameters are in the record.  Only
    voice over CS and IMS and video over IMS are recorded. *)
Theorem dial_recorded_under_last_request t e success :
  let '(slotId, callType, videoState) := last_parameters t e in
  record (hisys_run t e).1 (Platform.WriteDialCallBehaviorEvent success) =
    match (if (callType =? CS_CALL_TYPE) && (videoState =? VOICE_TYPE) then Some CS_VOICE_DIAL
           else if (callType =? IMS_CALL_TYPE) && (videoState =? VOICE_TYPE) then Some IMS_VOICE_DIAL
           else if (callType =? IMS_CALL_TYPE) && (videoState =? VIDEO_TYPE) then Some IMS_VIDEO_DIAL
           else None) with
    | Some type =>
        [HiWriteBehaviorEvent "DIAL" [("SLOT_ID", HiInt slotId); ("CALL_TYPE", HiInt (DialCallType_value type));
                                      ("RESULT", HiInt (if success then 1 else 0))]]
    | None => []
    end.
Proof.
  pose proof (hisys_parameters t e) as Hp. cbv zeta in Hp. destruct (last_parameters t e) as [[slotId callType] videoState].
  injection Hp as Hs Hc Hv. cbn [record]. unfold WriteDialCallBehaviorEvent, GetCallParameterInfo.
  cbn [bp_slotId bp_callType bp_videoState]. rewrite Hs, Hc, Hv. by repeat case_match.
Qed.
End HiSys.
