(* ===== verification/CellularCallStub.v ===== *)
(** * CellularCallStub: call_manager's requests arrive
    (services/manager/src/cellular_call_stub.cpp)

    A transaction is checked for its descriptor, found by its code, its caller
    checked for the permission, then read and handed to the method it is about.
    The methods are those of [CellularCallInterface], which the stub leaves to the
    class derived from it: an interface here too, instantiated with the service in
    CellularEntry.

    Module [CellularStubFacts]: what a transaction asks of the service. *)

From stdpp Require Import base tactics option list numbers strings.
From Stdlib Require Import ZArith Lia Ascii String.
From S2P Require Import Prelude SsTypes ConfigTypes Platform ConfigRequest Parcel IpcCodes.

Open Scope Z_scope.

(** ** The interface *)

Module CellularCallInterface.
(** A call of a method, with the type of what it answers; an out-parameter is an
    argument with its old value, and its new value is part of the answer. *)
Inductive StubCall : Type → Type :=
  | Dial (callInfo : CellularCallInfo) : StubCall Z
  | HangUp (callInfo : CellularCallInfo) (type : Z) : StubCall Z
  | Reject (callInfo : CellularCallInfo) : StubCall Z
  | Answer (callInfo : CellularCallInfo) : StubCall Z
  | IsEmergencyPhoneNumber (slotId : Z) (phoneNum : string) (enabled : bool) : StubCall (Z * bool)
  | SetEmergencyCallList (slotId : Z) (eccVec : list EmergencyCall) : StubCall Z
  | HoldCall (callInfo : CellularCallInfo) : StubCall Z
  | UnHoldCall (callInfo : CellularCallInfo) : StubCall Z
  | SwitchCall (callInfo : CellularCallInfo) : StubCall Z
  | CombineConference (callInfo : CellularCallInfo) : StubCall Z
  | SeparateConference (callInfo : CellularCallInfo) : StubCall Z
  | InviteToConference (slotId : Z) (numberList : list string) : StubCall Z
  | KickOutFromConference (callInfo : CellularCallInfo) : StubCall Z
  | HangUpAllConnection : StubCall Z
  | SetReadyToCall (slotId callType : Z) (isReadyToCall : bool) : StubCall Z
  | ClearAllCalls (callInfos : list CellularCallInfo) : StubCall Z
  | StartDtmf (cDtmfCode : ascii) (callInfo : CellularCallInfo) : StubCall Z
  | StopDtmf (callInfo : CellularCallInfo) : StubCall Z
  | PostDialProceed (callInfo : CellularCallInfo) (proceed : bool) : StubCall Z
  | SendDtmf (cDtmfCode : ascii) (callInfo : CellularCallInfo) : StubCall Z
  | UpdateImsRttCallMode (slotId callId mode : Z) : StubCall Z
  | SetRttCapability (slotId : Z) (isEnable : bool) : StubCall Z
  | SetDomainPreferenceMode (slotId mode : Z) : StubCall Z
  | GetDomainPreferenceMode (slotId : Z) : StubCall Z
  | SetImsSwitchStatus (slotId : Z) (active : bool) : StubCall Z
  | GetImsSwitchStatus (slotId : Z) (enabled : bool) : StubCall (Z * bool)
  | GetCarrierVtConfig (slotId : Z) (enabled : bool) : StubCall (Z * bool)
  | SetVoNRState (slotId state : Z) : StubCall Z
  | GetVoNRState (slotId state : Z) : StubCall (Z * Z)
  | SetImsConfig_string (slotId item : Z) (value : string) : StubCall Z
  | SetImsConfig_int (slotId item value : Z) : StubCall Z
  | GetImsConfig (slotId item : Z) : StubCall Z
  | SetImsFeatureValue (slotId type value : Z) : StubCall Z
  | GetImsFeatureValue (slotId type : Z) : StubCall Z
  | SetMute (slotId mute : Z) : StubCall Z
  | GetMute (slotId : Z) : StubCall Z
  | ControlCamera (slotId callIndex : Z) (cameraId : string) : StubCall Z
  | SetPreviewWindow (slotId callIndex : Z) (surfaceID : string) (surface : option Z) : StubCall Z
  | SetDisplayWindow (slotId callIndex : Z) (surfaceID : string) (surface : option Z) : StubCall Z
  | SetCameraZoom (zoomRatio : Z) : StubCall Z
  | SetPausePicture (slotId callIndex : Z) (path : string) : StubCall Z
  | SetDeviceDirection (slotId callIndex rotation : Z) : StubCall Z
  | SendUpdateCallMediaModeRequest (callInfo : CellularCallInfo) (mode : Z) : StubCall Z
  | SendUpdateCallMediaModeResponse (callInfo : CellularCallInfo) (mode : Z) : StubCall Z
  | CancelCallUpgrade (slotId callIndex : Z) : StubCall Z
  | RequestCameraCapabilities (slotId callIndex : Z) : StubCall Z
  | SetCallTransferInfo (slotId : Z) (cTInfo : CallTransferInfo) : StubCall Z
  | GetCallTransferInfo (slotId type : Z) (isIncludeCallForwardingNumber : bool) : StubCall Z
  | CanSetCallTransferTime (slotId : Z) (result : bool) : StubCall (Z * bool)
  | SetCallWaiting (slotId : Z) (activate : bool) : StubCall Z
  | GetCallWaiting (slotId : Z) : StubCall Z
  | SetCallRestriction (slotId : Z) (cRInfo : CallRestrictionInfo) : StubCall Z
  | GetCallRestriction (slotId facType : Z) : StubCall Z
  | SetCallRestrictionPassword (slotId facType : Z) (oldPassword newPassword : string) : StubCall Z
  | RegisterCallManagerCallBack (callback : Z) : StubCall Z
  | UnRegisterCallManagerCallBack : StubCall Z
  | CloseUnFinishedUssd (slotId : Z) : StubCall Z
  | GetVideoCallWaiting (slotId : Z) (enabled : bool) : StubCall (Z * bool)
  | SendUssdResponse (slotId : Z) (content : string) : StubCall Z
  | IsMmiCode (slotId : Z) (number : string) : StubCall bool.
End CellularCallInterface.

(** What a derived class promises the stub: the methods. *)
Class CellularCallMethods (E S : Type) := {
  invoke : ∀ {A}, CellularCallInterface.StubCall A → M E S A
}.

(** The keys of [requestFuncMap_]; the values of the enumeration are declared
    elsewhere. *)
Module CellularCallInterfaceCode.
Inductive CellularCode :=
  | DIAL | HANG_UP | REJECT | ANSWER | EMERGENCY_CALL | SET_EMERGENCY_CALL_LIST | HOLD_CALL
  | UN_HOLD_CALL | SWITCH_CALL | COMBINE_CONFERENCE | SEPARATE_CONFERENCE | INVITE_TO_CONFERENCE
  | KICK_OUT_CONFERENCE | HANG_UP_ALL_CONNECTION | SET_READY_TO_CALL | CLEAR_ALL_CALLS
  | START_DTMF | STOP_DTMF | POST_DIAL_PROCEED | SEND_DTMF | UPDATE_RTT_CALL_MODE
  | RTT_CAPABILITY_SETTING | SET_DOMAIN_PREFERENCE_MODE | GET_DOMAIN_PREFERENCE_MODE
  | SET_IMS_SWITCH_STATUS | GET_IMS_SWITCH_STATUS | GET_CARRIER_VT_CONFIG
  | SET_VONR_SWITCH_STATUS | GET_VONR_SWITCH_STATUS | SET_IMS_CONFIG_STRING | SET_IMS_CONFIG_INT
  | GET_IMS_CONFIG | SET_IMS_FEATURE | GET_IMS_FEATURE | SET_MUTE | GET_MUTE | CTRL_CAMERA
  | SET_PREVIEW_WINDOW | SET_DISPLAY_WINDOW | SET_CAMERA_ZOOM | SET_PAUSE_IMAGE
  | SET_DEVICE_DIRECTION | SEND_CALL_MEDIA_MODE_REQUEST | SEND_CALL_MEDIA_MODE_RESPONSE
  | CANCEL_CALL_UPGRADE | REQUEST_CAMERA_CAPABILITY | SET_CALL_TRANSFER | GET_CALL_TRANSFER
  | CAN_SET_CALL_TRANSFER_TIME | SET_CALL_WAITING | GET_CALL_WAITING | SET_CALL_RESTRICTION
  | GET_CALL_RESTRICTION | SET_CALL_RESTRICTION_PWD | REGISTER_CALLBACK | UNREGISTER_CALLBACK
  | CLOSE_UNFINISHED_USSD | GET_VIDEO_CALL_WAITING | SEND_USSD_RESPONSE | IS_MMI_CODE.
#[export] Instance CellularCode_eq_dec : EqDecision CellularCode.
Proof. solve_decision. Defined.
End CellularCallInterfaceCode.
Import CellularCallInterfaceCode.

(** The library: the caller, its permissions, the enumeration, the descriptor, a
    surface for a producer, the memory of an uninitialised variable. *)
Class CellularStubEnv (E : Type) := {
  CellularCallInterface_descriptor : string;
  CellularCallInterfaceCode_value : CellularCode → Z;
  GetCallingUid : list E → Z;
  CheckPermission_CONNECT_CELLULAR_CALL_SERVICE : list E → bool;
  cellular_OnRemoteRequest : list E → Z → Parcel → Z * Parcel;
  cellular_write_ok : list E → Parcel → Item → bool;
  CreateSurfaceAsProducer : Z → option Z;
  uninit_bool : list E → bool;
  uninit_int : list E → Z
}.
(** The enumerators of an enumeration without repeated values. *)
Class CellularCodesOk {E} `{!CellularStubEnv E} : Prop := {
  cellular_codes_inj : Inj (=) (=) CellularCallInterfaceCode_value
}.
#[export] Instance cellular_writes {E} `{!CellularStubEnv E} : ParcelWrites E :=
  {| write_ok := cellular_write_ok |}.

Definition MAX_SIZE : Z := 10.
Definition MAX_ECC_SIZE : Z := 1000.
Definition FOUNDATION_UID : Z := 5523.
Definition MAX_CALL_NUM : Z := 10.

Section Stub.
Context `{CallConsts, ConfigEnv, ParcelEnv} {E S : Type} `{!CellularStubEnv E, !CellularCallMethods E S}.
Abbreviation St A := (M E S A).

(** ** Reading and replying *)

(** [if (size <= 0) return error]; the size is 0 when it is over [MAX_SIZE]. *)
Definition sized (data : Parcel) (k : Parcel → St (Z * Parcel)) : St (Z * Parcel) :=
  let '(size, data) := ReadInt32 data in
  let size := if MAX_SIZE <? size then 0 else size in
  if size <=? 0 then mret (TELEPHONY_ERR_FAIL, []) else k data.
(** A struct, refused when there is none. *)
Definition with_struct {T} `{!RawStruct T} (data : Parcel) (k : T → Parcel → St (Z * Parcel)) : St (Z * Parcel) :=
  match ReadRawData data with
  | (None, _) => mret (TELEPHONY_ERR_ARGUMENT_INVALID, [])
  | (Some x, data) => k x data
  end.
(** The methods that read a [CellularCallInfo] and nothing else. *)
Definition on_call (m : CellularCallInfo → CellularCallInterface.StubCall Z) (data : Parcel) : St (Z * Parcel) :=
  sized data (λ data, with_struct data (λ callInfo _, reply_with (invoke (m callInfo)))).
(** The methods that read the slot and nothing else. *)
Definition on_slot (m : Z → CellularCallInterface.StubCall Z) (data : Parcel) : St (Z * Parcel) :=
  sized data (λ data, let '(slotId, _) := ReadInt32 data in reply_with (invoke (m slotId))).
(** The slot and an integer; two integers; a string; a flag. *)
Definition on_slot_int (m : Z → Z → CellularCallInterface.StubCall Z) (data : Parcel) : St (Z * Parcel) :=
  sized data (λ data,
    let '(slotId, data) := ReadInt32 data in
    let '(v, _) := ReadInt32 data in reply_with (invoke (m slotId v))).
Definition on_slot_int2 (m : Z → Z → Z → CellularCallInterface.StubCall Z) (data : Parcel) : St (Z * Parcel) :=
  sized data (λ data,
    let '(slotId, data) := ReadInt32 data in
    let '(v, data) := ReadInt32 data in
    let '(w, _) := ReadInt32 data in reply_with (invoke (m slotId v w))).
Definition on_slot_int_string (m : Z → Z → string → CellularCallInterface.StubCall Z) (data : Parcel) : St (Z * Parcel) :=
  sized data (λ data,
    let '(slotId, data) := ReadInt32 data in
    let '(v, data) := ReadInt32 data in
    let '(w, _) := ReadString data in reply_with (invoke (m slotId v w))).
Definition on_slot_bool (m : Z → bool → CellularCallInterface.StubCall Z) (data : Parcel) : St (Z * Parcel) :=
  sized data (λ data,
    let '(slotId, data) := ReadInt32 data in
    let '(v, _) := ReadBool data in reply_with (invoke (m slotId v))).
(** [reply.WriteBool(result.2); reply.WriteInt32(result.1)] *)
Definition reply_flag (r : Z * bool) : St (Z * Parcel) :=
  let! w := Write [] (IBool r.2) in
  let! w := Write w.2 (IInt32 r.1) in mret (TELEPHONY_SUCCESS, w.2).
(** [ret], checked, then the flag when [ret] is success, checked. *)
Definition reply_checked (r : Z * bool) : St (Z * Parcel) :=
  write [] (IInt32 r.1) (mret (TELEPHONY_ERR_WRITE_DATA_FAIL, [])) (λ p,
    if bool_decide (r.1 ≠ TELEPHONY_SUCCESS) then mret (r.1, p)
    else write p (IBool r.2) (mret (TELEPHONY_ERR_WRITE_DATA_FAIL, p)) (λ p, mret (TELEPHONY_SUCCESS, p))).

(** ** Calls *)

Definition OnDialInner : Parcel → St (Z * Parcel) := on_call CellularCallInterface.Dial.
Definition OnIsMmiCodeInner (data : Parcel) : St (Z * Parcel) :=
  sized data (λ data,
    let '(slotId, data) := ReadInt32 data in
    let '(number, _) := ReadString data in
    let! result := invoke (CellularCallInterface.IsMmiCode slotId number) in
    let! w := Write [] (IBool result) in mret (TELEPHONY_SUCCESS, w.2)).
Definition OnHangUpInner (data : Parcel) : St (Z * Parcel) :=
  sized data (λ data, with_struct data (λ callInfo data,
    let '(type, _) := ReadInt32 data in reply_with (invoke (CellularCallInterface.HangUp callInfo type)))).
Definition OnRejectInner : Parcel → St (Z * Parcel) := on_call CellularCallInterface.Reject.
Definition OnAnswerInner : Parcel → St (Z * Parcel) := on_call CellularCallInterface.Answer.
Definition OnIsEmergencyPhoneNumberInner (data : Parcel) : St (Z * Parcel) :=
  sized data (λ data,
    let '(slotId, data) := ReadInt32 data in
    let '(phoneNum, _) := ReadString data in
    let! r := invoke (CellularCallInterface.IsEmergencyPhoneNumber slotId phoneNum false) in reply_checked r).
Definition ReadEmergencyCall (data : Parcel) : EmergencyCall * Parcel :=
  let '(eccNum, data) := ReadString data in
  let '(mcc, data) := ReadString data in
  let '(eccType, data) := ReadInt32 data in
  let '(simpresent, data) := ReadInt32 data in
  let '(abnormalService, data) := ReadInt32 data in
  ({| eccNum := eccNum; ecc_mcc := mcc; ecc_eccType := eccType; ecc_simpresent := simpresent;
      ecc_abnormalService := abnormalService |}, data).
Definition OnSetEmergencyCallList (data : Parcel) : St (Z * Parcel) :=
  sized data (λ data,
    let '(slotId, data) := ReadInt32 data in
    let '(len, data) := ReadInt32 data in
    if (len <=? 0) || (MAX_ECC_SIZE <=? len) then mret (TELEPHONY_ERR_FAIL, [])
    else reply_with (invoke (CellularCallInterface.SetEmergencyCallList slotId
                               (read_list ReadEmergencyCall (Z.to_nat len) data).1))).
Definition OnRegisterCallBackInner (data : Parcel) : St (Z * Parcel) :=
  sized data (λ data,
    match (ReadRemoteObject data).1 with
    | None =>
        let result := TELEPHONY_ERR_LOCAL_PTR_NULL in
        let! w := Write [] (IInt32 result) in mret (result, w.2)
    | Some remote => reply_with (invoke (CellularCallInterface.RegisterCallManagerCallBack remote))
    end).
(** The result is the code of the transaction too. *)
Definition OnUnRegisterCallBackInner (data : Parcel) : St (Z * Parcel) :=
  sized data (λ _,
    let! result := invoke CellularCallInterface.UnRegisterCallManagerCallBack in
    let! w := Write [] (IInt32 result) in mret (result, w.2)).
Definition OnHoldCallInner : Parcel → St (Z * Parcel) := on_call CellularCallInterface.HoldCall.
Definition OnUnHoldCallInner : Parcel → St (Z * Parcel) := on_call CellularCallInterface.UnHoldCall.
Definition OnSwitchCallInner : Parcel → St (Z * Parcel) := on_call CellularCallInterface.SwitchCall.
Definition OnCombineConferenceInner : Parcel → St (Z * Parcel) :=
  on_call CellularCallInterface.CombineConference.
Definition OnSeparateConferenceInner : Parcel → St (Z * Parcel) :=
  on_call CellularCallInterface.SeparateConference.
Definition OnInviteToConferenceInner (data : Parcel) : St (Z * Parcel) :=
  sized data (λ data,
    let '(slotId, data) := ReadInt32 data in
    match (ReadStringVector data).1 with
    | None => mret (TELEPHONY_ERR_ARGUMENT_INVALID, [])
    | Some numberList => reply_with (invoke (CellularCallInterface.InviteToConference slotId numberList))
    end).
Definition OnKickOutFromConferenceInner : Parcel → St (Z * Parcel) :=
  on_call CellularCallInterface.KickOutFromConference.
Definition OnHangUpAllConnectionInner (data : Parcel) : St (Z * Parcel) :=
  sized data (λ _, reply_with (invoke CellularCallInterface.HangUpAllConnection)).
(** No size is read, and the write is checked. *)
Definition OnSetReadyToCallInner (data : Parcel) : St (Z * Parcel) :=
  let '(slotId, data) := ReadInt32 data in
  let '(callType, data) := ReadInt32 data in
  let '(isReadyToCall, _) := ReadBool data in
  let! error := invoke (CellularCallInterface.SetReadyToCall slotId callType isReadyToCall) in
  write [] (IInt32 error) (mret (TELEPHONY_ERR_WRITE_REPLY_FAIL, [])) (λ p, mret (TELEPHONY_SUCCESS, p)).
(** As many structs as the size says; those that cannot be read are left out. *)
Definition OnClearAllCallsInner (data : Parcel) : St (Z * Parcel) :=
  let '(size, data) := ReadInt32 data in
  if (size <=? 0) || (MAX_CALL_NUM <? size) then mret (TELEPHONY_ERR_ARGUMENT_INVALID, [])
  else reply_with (invoke (CellularCallInterface.ClearAllCalls
                             (omap id (read_list ReadRawData (Z.to_nat size) data).1))).
Definition OnSendUpdateCallMediaModeRequestInner (data : Parcel) : St (Z * Parcel) :=
  sized data (λ data, with_struct data (λ callInfo data,
    let '(mode, _) := ReadInt32 data in
    reply_with (invoke (CellularCallInterface.SendUpdateCallMediaModeRequest callInfo mode)))).
Definition OnSendUpdateCallMediaModeResponseInner (data : Parcel) : St (Z * Parcel) :=
  sized data (λ data, with_struct data (λ callInfo data,
    let '(mode, _) := ReadInt32 data in
    reply_with (invoke (CellularCallInterface.SendUpdateCallMediaModeResponse callInfo mode)))).
Definition OnCancelCallUpgradeInner : Parcel → St (Z * Parcel) :=
  on_slot_int CellularCallInterface.CancelCallUpgrade.
Definition OnRequestCameraCapabilitiesInner : Parcel → St (Z * Parcel) :=
  on_slot_int CellularCallInterface.RequestCameraCapabilities.
Definition OnStartDtmfInner (data : Parcel) : St (Z * Parcel) :=
  sized data (λ data,
    let '(pDtmf, data) := ReadInt8 data in
    with_struct data (λ callInfo _, reply_with (invoke (CellularCallInterface.StartDtmf pDtmf callInfo)))).
Definition OnSendDtmfInner (data : Parcel) : St (Z * Parcel) :=
  sized data (λ data,
    let '(pDtmf, data) := ReadInt8 data in
    with_struct data (λ callInfo _, reply_with (invoke (CellularCallInterface.SendDtmf pDtmf callInfo)))).
Definition OnStopDtmfInner : Parcel → St (Z * Parcel) := on_call CellularCallInterface.StopDtmf.
Definition OnPostDialProceedInner (data : Parcel) : St (Z * Parcel) :=
  sized data (λ data, with_struct data (λ info data,
    let '(proceed, _) := ReadBool data in
    reply_with (invoke (CellularCallInterface.PostDialProceed info proceed)))).
(** SUPPORT_RTT_CALL *)
Definition OnUpdateImsRttCallModeInner : Parcel → St (Z * Parcel) :=
  on_slot_int2 CellularCallInterface.UpdateImsRttCallMode.
Definition OnSetRttCapabilityInner : Parcel → St (Z * Parcel) :=
  on_slot_bool CellularCallInterface.SetRttCapability.

(** ** Supplementary services *)

Definition OnSetCallTransferInner (data : Parcel) : St (Z * Parcel) :=
  sized data (λ data,
    let '(slotId, data) := ReadInt32 data in
    with_struct data (λ info _, reply_with (invoke (CellularCallInterface.SetCallTransferInfo slotId info)))).
Definition OnSetCallRestrictionInner (data : Parcel) : St (Z * Parcel) :=
  sized data (λ data,
    let '(slotId, data) := ReadInt32 data in
    with_struct data (λ info _, reply_with (invoke (CellularCallInterface.SetCallRestriction slotId info)))).
Definition OnCanSetCallTransferTimeInner (data : Parcel) : St (Z * Parcel) :=
  sized data (λ data,
    let '(slotId, data) := ReadInt32 data in
    let '(result, _) := ReadBool data in
    let! r := invoke (CellularCallInterface.CanSetCallTransferTime slotId result) in reply_flag r).
Definition OnGetCallTransferInner (data : Parcel) : St (Z * Parcel) :=
  sized data (λ data,
    let '(slotId, data) := ReadInt32 data in
    let '(type, data) := ReadInt32 data in
    let '(isIncludeCallForwardingNumber, _) := ReadBool data in
    reply_with (invoke (CellularCallInterface.GetCallTransferInfo slotId type isIncludeCallForwardingNumber))).
Definition OnSetCallWaitingInner : Parcel → St (Z * Parcel) :=
  on_slot_bool CellularCallInterface.SetCallWaiting.
Definition OnGetCallWaitingInner : Parcel → St (Z * Parcel) := on_slot CellularCallInterface.GetCallWaiting.
Definition OnGetVideoCallWaitingInner (data : Parcel) : St (Z * Parcel) :=
  sized data (λ data,
    let '(slotId, _) := ReadInt32 data in
    let! r := invoke (CellularCallInterface.GetVideoCallWaiting slotId false) in reply_flag r).
Definition OnGetCallRestrictionInner : Parcel → St (Z * Parcel) :=
  on_slot_int CellularCallInterface.GetCallRestriction.
Definition OnSetCallRestrictionPasswordInner (data : Parcel) : St (Z * Parcel) :=
  sized data (λ data,
    let '(slotId, data) := ReadInt32 data in
    let '(facType, data) := ReadInt32 data in
    let '(oldPassword, data) := ReadString data in
    let '(newPassword, _) := ReadString data in
    reply_with (invoke (CellularCallInterface.SetCallRestrictionPassword slotId facType oldPassword newPassword))).
Definition OnCloseUnFinishedUssdInner : Parcel → St (Z * Parcel) :=
  on_slot CellularCallInterface.CloseUnFinishedUssd.
(** [enable] is never set. *)
Definition OnSendUssdResponse (data : Parcel) : St (Z * Parcel) :=
  sized data (λ data,
    let '(slotId, data) := ReadInt32 data in
    let '(content, _) := ReadString data in
    let! ret := invoke (CellularCallInterface.SendUssdResponse slotId content) in
    reply_checked (ret, false)).

(** ** Configuration *)

Definition OnSetDomainPreferenceModeInner : Parcel → St (Z * Parcel) :=
  on_slot_int CellularCallInterface.SetDomainPreferenceMode.
Definition OnGetDomainPreferenceModeInner : Parcel → St (Z * Parcel) :=
  on_slot CellularCallInterface.GetDomainPreferenceMode.
Definition OnSetImsSwitchStatusInner : Parcel → St (Z * Parcel) :=
  on_slot_bool CellularCallInterface.SetImsSwitchStatus.
(** [bool enabled;] *)
Definition OnGetImsSwitchStatusInner (data : Parcel) : St (Z * Parcel) :=
  sized data (λ data,
    let '(slotId, _) := ReadInt32 data in
    let! enabled := query uninit_bool in
    let! r := invoke (CellularCallInterface.GetImsSwitchStatus slotId enabled) in reply_flag r).
Definition OnGetCarrierVtConfigInner (data : Parcel) : St (Z * Parcel) :=
  sized data (λ data,
    let '(slotId, _) := ReadInt32 data in
    let! enabled := query uninit_bool in
    let! r := invoke (CellularCallInterface.GetCarrierVtConfig slotId enabled) in reply_flag r).
Definition OnSetVoNRStateInner : Parcel → St (Z * Parcel) := on_slot_int CellularCallInterface.SetVoNRState.
Definition OnGetVoNRStateInner (data : Parcel) : St (Z * Parcel) :=
  sized data (λ data,
    let '(slotId, _) := ReadInt32 data in
    let! state := query uninit_int in
    let! r := invoke (CellularCallInterface.GetVoNRState slotId state) in
    let! w := Write [] (IInt32 r.2) in
    let! w := Write w.2 (IInt32 r.1) in mret (TELEPHONY_SUCCESS, w.2)).
Definition OnSetImsConfigStringInner : Parcel → St (Z * Parcel) :=
  on_slot_int_string CellularCallInterface.SetImsConfig_string.
Definition OnSetImsConfigIntInner : Parcel → St (Z * Parcel) :=
  on_slot_int2 CellularCallInterface.SetImsConfig_int.
Definition OnGetImsConfigInner : Parcel → St (Z * Parcel) := on_slot_int CellularCallInterface.GetImsConfig.
Definition OnSetImsFeatureValueInner : Parcel → St (Z * Parcel) :=
  on_slot_int2 CellularCallInterface.SetImsFeatureValue.
Definition OnGetImsFeatureValueInner : Parcel → St (Z * Parcel) :=
  on_slot_int CellularCallInterface.GetImsFeatureValue.
Definition OnSetMuteInner : Parcel → St (Z * Parcel) := on_slot_int CellularCallInterface.SetMute.
Definition OnGetMuteInner : Parcel → St (Z * Parcel) := on_slot CellularCallInterface.GetMute.

(** ** Video *)

Definition OnControlCameraInner : Parcel → St (Z * Parcel) :=
  on_slot_int_string CellularCallInterface.ControlCamera.
(** The surface of the producer that came with it, if any. *)
Definition on_window (m : Z → Z → string → option Z → CellularCallInterface.StubCall Z) (data : Parcel)
    : St (Z * Parcel) :=
  sized data (λ data,
    let '(slotId, data) := ReadInt32 data in
    let '(callIndex, data) := ReadInt32 data in
    let '(surfaceID, data) := ReadString data in
    let surface := (ReadRemoteObject data).1 ≫= CreateSurfaceAsProducer in
    reply_with (invoke (m slotId callIndex surfaceID surface))).
Definition OnSetPreviewWindowInner : Parcel → St (Z * Parcel) :=
  on_window CellularCallInterface.SetPreviewWindow.
Definition OnSetDisplayWindowInner : Parcel → St (Z * Parcel) :=
  on_window CellularCallInterface.SetDisplayWindow.
Definition OnSetCameraZoomInner (data : Parcel) : St (Z * Parcel) :=
  sized data (λ data,
    let '(zoomRatio, _) := ReadFloat data in reply_with (invoke (CellularCallInterface.SetCameraZoom zoomRatio))).
Definition OnSetPausePictureInner : Parcel → St (Z * Parcel) :=
  on_slot_int_string CellularCallInterface.SetPausePicture.
Definition OnSetDeviceDirectionInner : Parcel → St (Z * Parcel) :=
  on_slot_int2 CellularCallInterface.SetDeviceDirection.

(** ** Dispatch *)

(** The method [InitFuncMap] puts under a key, and the keys it has: those of
    real-time text in builds with it only. *)
Definition requestFunc (code : CellularCode) : Parcel → St (Z * Parcel) :=
  match code with
  | DIAL => OnDialInner
  | HANG_UP => OnHangUpInner
  | REJECT => OnRejectInner
  | ANSWER => OnAnswerInner
  | EMERGENCY_CALL => OnIsEmergencyPhoneNumberInner
  | SET_EMERGENCY_CALL_LIST => OnSetEmergencyCallList
  | HOLD_CALL => OnHoldCallInner
  | UN_HOLD_CALL => OnUnHoldCallInner
  | SWITCH_CALL => OnSwitchCallInner
  | COMBINE_CONFERENCE => OnCombineConferenceInner
  | SEPARATE_CONFERENCE => OnSeparateConferenceInner
  | INVITE_TO_CONFERENCE => OnInviteToConferenceInner
  | KICK_OUT_CONFERENCE => OnKickOutFromConferenceInner
  | HANG_UP_ALL_CONNECTION => OnHangUpAllConnectionInner
  | SET_READY_TO_CALL => OnSetReadyToCallInner
  | CLEAR_ALL_CALLS => OnClearAllCallsInner
  | START_DTMF => OnStartDtmfInner
  | STOP_DTMF => OnStopDtmfInner
  | POST_DIAL_PROCEED => OnPostDialProceedInner
  | SEND_DTMF => OnSendDtmfInner
  | UPDATE_RTT_CALL_MODE => OnUpdateImsRttCallModeInner
  | RTT_CAPABILITY_SETTING => OnSetRttCapabilityInner
  | SET_DOMAIN_PREFERENCE_MODE => OnSetDomainPreferenceModeInner
  | GET_DOMAIN_PREFERENCE_MODE => OnGetDomainPreferenceModeInner
  | SET_IMS_SWITCH_STATUS => OnSetImsSwitchStatusInner
  | GET_IMS_SWITCH_STATUS => OnGetImsSwitchStatusInner
  | GET_CARRIER_VT_CONFIG => OnGetCarrierVtConfigInner
  | SET_VONR_SWITCH_STATUS => OnSetVoNRStateInner
  | GET_VONR_SWITCH_STATUS => OnGetVoNRStateInner
  | SET_IMS_CONFIG_STRING => OnSetImsConfigStringInner
  | SET_IMS_CONFIG_INT => OnSetImsConfigIntInner
  | GET_IMS_CONFIG => OnGetImsConfigInner
  | SET_IMS_FEATURE => OnSetImsFeatureValueInner
  | GET_IMS_FEATURE => OnGetImsFeatureValueInner
  | SET_MUTE => OnSetMuteInner
  | GET_MUTE => OnGetMuteInner
  | CTRL_CAMERA => OnControlCameraInner
  | SET_PREVIEW_WINDOW => OnSetPreviewWindowInner
  | SET_DISPLAY_WINDOW => OnSetDisplayWindowInner
  | SET_CAMERA_ZOOM => OnSetCameraZoomInner
  | SET_PAUSE_IMAGE => OnSetPausePictureInner
  | SET_DEVICE_DIRECTION => OnSetDeviceDirectionInner
  | SEND_CALL_MEDIA_MODE_REQUEST => OnSendUpdateCallMediaModeRequestInner
  | SEND_CALL_MEDIA_MODE_RESPONSE => OnSendUpdateCallMediaModeResponseInner
  | CANCEL_CALL_UPGRADE => OnCancelCallUpgradeInner
  | REQUEST_CAMERA_CAPABILITY => OnRequestCameraCapabilitiesInner
  | SET_CALL_TRANSFER => OnSetCallTransferInner
  | GET_CALL_TRANSFER => OnGetCallTransferInner
  | CAN_SET_CALL_TRANSFER_TIME => OnCanSetCallTransferTimeInner
  | SET_CALL_WAITING => OnSetCallWaitingInner
  | GET_CALL_WAITING => OnGetCallWaitingInner
  | SET_CALL_RESTRICTION => OnSetCallRestrictionInner
  | GET_CALL_RESTRICTION => OnGetCallRestrictionInner
  | SET_CALL_RESTRICTION_PWD => OnSetCallRestrictionPasswordInner
  | REGISTER_CALLBACK => OnRegisterCallBackInner
  | UNREGISTER_CALLBACK => OnUnRegisterCallBackInner
  | CLOSE_UNFINISHED_USSD => OnCloseUnFinishedUssdInner
  | GET_VIDEO_CALL_WAITING => OnGetVideoCallWaitingInner
  | SEND_USSD_RESPONSE => OnSendUssdResponse
  | IS_MMI_CODE => OnIsMmiCodeInner
  end.
Definition requestKeys : list CellularCode :=
  [DIAL; HANG_UP; REJECT; ANSWER; EMERGENCY_CALL; SET_EMERGENCY_CALL_LIST; HOLD_CALL; UN_HOLD_CALL;
   SWITCH_CALL; COMBINE_CONFERENCE; SEPARATE_CONFERENCE; INVITE_TO_CONFERENCE; KICK_OUT_CONFERENCE;
   HANG_UP_ALL_CONNECTION; SET_READY_TO_CALL; CLEAR_ALL_CALLS; START_DTMF; STOP_DTMF;
   POST_DIAL_PROCEED; SEND_DTMF] ++
  (if SUPPORT_RTT_CALL then [UPDATE_RTT_CALL_MODE; RTT_CAPABILITY_SETTING] else []) ++
  [SET_DOMAIN_PREFERENCE_MODE; GET_DOMAIN_PREFERENCE_MODE; SET_IMS_SWITCH_STATUS;
   GET_IMS_SWITCH_STATUS; GET_CARRIER_VT_CONFIG; SET_VONR_SWITCH_STATUS; GET_VONR_SWITCH_STATUS;
   SET_IMS_CONFIG_STRING; SET_IMS_CONFIG_INT; GET_IMS_CONFIG; SET_IMS_FEATURE; GET_IMS_FEATURE;
   SET_MUTE; GET_MUTE; CTRL_CAMERA; SET_PREVIEW_WINDOW; SET_DISPLAY_WINDOW; SET_CAMERA_ZOOM;
   SET_PAUSE_IMAGE; SET_DEVICE_DIRECTION; SEND_CALL_MEDIA_MODE_REQUEST;
   SEND_CALL_MEDIA_MODE_RESPONSE; CANCEL_CALL_UPGRADE; REQUEST_CAMERA_CAPABILITY; SET_CALL_TRANSFER;
   GET_CALL_TRANSFER; CAN_SET_CALL_TRANSFER_TIME; SET_CALL_WAITING; GET_CALL_WAITING;
   SET_CALL_RESTRICTION; GET_CALL_RESTRICTION; SET_CALL_RESTRICTION_PWD; REGISTER_CALLBACK;
   UNREGISTER_CALLBACK; CLOSE_UNFINISHED_USSD; GET_VIDEO_CALL_WAITING; SEND_USSD_RESPONSE;
   IS_MMI_CODE].
(** [requestFuncMap_.find(code)] *)
Definition requestFuncMap (code : Z) : option CellularCode :=
  list_find (λ c, CellularCallInterfaceCode_value c = code) requestKeys ≫= λ p, Some p.2.
(** The caller is the foundation process or has the permission. *)
Definition permitted (h : list E) : bool :=
  (GetCallingUid h =? FOUNDATION_UID) || CheckPermission_CONNECT_CELLULAR_CALL_SERVICE h.
(** The code of the transaction, and the reply. *)
Definition OnRemoteRequest (code : Z) (data : Parcel) : St (Z * Parcel) :=
  let '(remoteDescriptor, data) := ReadInterfaceToken data in
  if bool_decide (CellularCallInterface_descriptor ≠ remoteDescriptor)
  then mret (TELEPHONY_ERR_DESCRIPTOR_MISMATCH, [])
  else
    match requestFuncMap code with
    | Some c =>
        let! allowed := query permitted in
        if negb allowed then mret (TELEPHONY_ERR_PERMISSION_ERR, []) else requestFunc c data
    | None => query (λ h, cellular_OnRemoteRequest h code data)
    end.
End Stub.

(** ** CellularStubFacts: what a transaction asks of the service

    The wire format of [CellularCallInterface], method by method: the code, the
    parcel and the reply ([call_code], [call_data], [answer]).  A transaction
    written that way is served by exactly that method; whatever else arrives, at
    most one method runs, and only for a caller with the permission. *)

Module CellularStubFacts.
Import CellularCallInterface CellularCallInterfaceCode.

Open Scope Z_scope.

Create HintDb cellular_stub.
#[local] Hint Unfold OnDialInner OnIsMmiCodeInner OnHangUpInner OnRejectInner OnAnswerInner
  OnIsEmergencyPhoneNumberInner OnSetEmergencyCallList OnRegisterCallBackInner OnUnRegisterCallBackInner
  OnHoldCallInner OnUnHoldCallInner OnSwitchCallInner OnCombineConferenceInner OnSeparateConferenceInner
  OnInviteToConferenceInner OnKickOutFromConferenceInner OnHangUpAllConnectionInner OnSetReadyToCallInner
  OnClearAllCallsInner OnSendUpdateCallMediaModeRequestInner OnSendUpdateCallMediaModeResponseInner
  OnCancelCallUpgradeInner OnRequestCameraCapabilitiesInner OnStartDtmfInner OnSendDtmfInner OnStopDtmfInner
  OnPostDialProceedInner OnUpdateImsRttCallModeInner OnSetRttCapabilityInner OnSetCallTransferInner
  OnSetCallRestrictionInner OnCanSetCallTransferTimeInner OnGetCallTransferInner OnSetCallWaitingInner
  OnGetCallWaitingInner OnGetVideoCallWaitingInner OnGetCallRestrictionInner
  OnSetCallRestrictionPasswordInner OnCloseUnFinishedUssdInner OnSendUssdResponse
  OnSetDomainPreferenceModeInner OnGetDomainPreferenceModeInner OnSetImsSwitchStatusInner
  OnGetImsSwitchStatusInner OnGetCarrierVtConfigInner OnSetVoNRStateInner OnGetVoNRStateInner
  OnSetImsConfigStringInner OnSetImsConfigIntInner OnGetImsConfigInner OnSetImsFeatureValueInner
  OnGetImsFeatureValueInner OnSetMuteInner OnGetMuteInner OnControlCameraInner OnSetPreviewWindowInner
  OnSetDisplayWindowInner OnSetCameraZoomInner OnSetPausePictureInner OnSetDeviceDirectionInner on_call
  on_slot on_slot_int on_slot_int2 on_slot_int_string on_slot_bool on_window : cellular_stub.

(** The key of a method. *)
Definition call_code {A} (c : StubCall A) : CellularCode :=
  match c with
  | Dial _ => DIAL
  | HangUp _ _ => HANG_UP
  | Reject _ => REJECT
  | Answer _ => ANSWER
  | IsEmergencyPhoneNumber _ _ _ => EMERGENCY_CALL
  | SetEmergencyCallList _ _ => SET_EMERGENCY_CALL_LIST
  | HoldCall _ => HOLD_CALL
  | UnHoldCall _ => UN_HOLD_CALL
  | SwitchCall _ => SWITCH_CALL
  | CombineConference _ => COMBINE_CONFERENCE
  | SeparateConference _ => SEPARATE_CONFERENCE
  | InviteToConference _ _ => INVITE_TO_CONFERENCE
  | KickOutFromConference _ => KICK_OUT_CONFERENCE
  | HangUpAllConnection => HANG_UP_ALL_CONNECTION
  | SetReadyToCall _ _ _ => SET_READY_TO_CALL
  | ClearAllCalls _ => CLEAR_ALL_CALLS
  | StartDtmf _ _ => START_DTMF
  | StopDtmf _ => STOP_DTMF
  | PostDialProceed _ _ => POST_DIAL_PROCEED
  | SendDtmf _ _ => SEND_DTMF
  | UpdateImsRttCallMode _ _ _ => UPDATE_RTT_CALL_MODE
  | SetRttCapability _ _ => RTT_CAPABILITY_SETTING
  | SetDomainPreferenceMode _ _ => SET_DOMAIN_PREFERENCE_MODE
  | GetDomainPreferenceMode _ => GET_DOMAIN_PREFERENCE_MODE
  | SetImsSwitchStatus _ _ => SET_IMS_SWITCH_STATUS
  | GetImsSwitchStatus _ _ => GET_IMS_SWITCH_STATUS
  | GetCarrierVtConfig _ _ => GET_CARRIER_VT_CONFIG
  | SetVoNRState _ _ => SET_VONR_SWITCH_STATUS
  | GetVoNRState _ _ => GET_VONR_SWITCH_STATUS
  | SetImsConfig_string _ _ _ => SET_IMS_CONFIG_STRING
  | SetImsConfig_int _ _ _ => SET_IMS_CONFIG_INT
  | GetImsConfig _ _ => GET_IMS_CONFIG
  | SetImsFeatureValue _ _ _ => SET_IMS_FEATURE
  | GetImsFeatureValue _ _ => GET_IMS_FEATURE
  | SetMute _ _ => SET_MUTE
  | GetMute _ => GET_MUTE
  | ControlCamera _ _ _ => CTRL_CAMERA
  | SetPreviewWindow _ _ _ _ => SET_PREVIEW_WINDOW
  | SetDisplayWindow _ _ _ _ => SET_DISPLAY_WINDOW
  | SetCameraZoom _ => SET_CAMERA_ZOOM
  | SetPausePicture _ _ _ => SET_PAUSE_IMAGE
  | SetDeviceDirection _ _ _ => SET_DEVICE_DIRECTION
  | SendUpdateCallMediaModeRequest _ _ => SEND_CALL_MEDIA_MODE_REQUEST
  | SendUpdateCallMediaModeResponse _ _ => SEND_CALL_MEDIA_MODE_RESPONSE
  | CancelCallUpgrade _ _ => CANCEL_CALL_UPGRADE
  | RequestCameraCapabilities _ _ => REQUEST_CAMERA_CAPABILITY
  | SetCallTransferInfo _ _ => SET_CALL_TRANSFER
  | GetCallTransferInfo _ _ _ => GET_CALL_TRANSFER
  | CanSetCallTransferTime _ _ => CAN_SET_CALL_TRANSFER_TIME
  | SetCallWaiting _ _ => SET_CALL_WAITING
  | GetCallWaiting _ => GET_CALL_WAITING
  | SetCallRestriction _ _ => SET_CALL_RESTRICTION
  | GetCallRestriction _ _ => GET_CALL_RESTRICTION
  | SetCallRestrictionPassword _ _ _ _ => SET_CALL_RESTRICTION_PWD
  | RegisterCallManagerCallBack _ => REGISTER_CALLBACK
  | UnRegisterCallManagerCallBack => UNREGISTER_CALLBACK
  | CloseUnFinishedUssd _ => CLOSE_UNFINISHED_USSD
  | GetVideoCallWaiting _ _ => GET_VIDEO_CALL_WAITING
  | SendUssdResponse _ _ => SEND_USSD_RESPONSE
  | IsMmiCode _ _ => IS_MMI_CODE
  end.

Definition ecc_items (e : EmergencyCall) : list Item :=
  [IString (eccNum e); IString (ecc_mcc e); IInt32 (ecc_eccType e); IInt32 (ecc_simpresent e);
   IInt32 (ecc_abnormalService e)].
(** The arguments, in the order they are written; [object]: the producer of a
    surface. *)
Definition call_items (object : Z) {A} (c : StubCall A) : list Item :=
  match c with
  | Dial ci | Reject ci | Answer ci | HoldCall ci | UnHoldCall ci | SwitchCall ci
  | CombineConference ci | SeparateConference ci | KickOutFromConference ci | StopDtmf ci =>
      [IRaw (RawCall ci)]
  | HangUp ci v | SendUpdateCallMediaModeRequest ci v | SendUpdateCallMediaModeResponse ci v =>
      [IRaw (RawCall ci); IInt32 v]
  | PostDialProceed ci b => [IRaw (RawCall ci); IBool b]
  | StartDtmf ch ci | SendDtmf ch ci => [IInt8 ch; IRaw (RawCall ci)]
  | HangUpAllConnection | UnRegisterCallManagerCallBack => []
  | ClearAllCalls l => (λ ci, IRaw (RawCall ci)) <$> l
  | IsMmiCode slotId s | IsEmergencyPhoneNumber slotId s _ | SendUssdResponse slotId s =>
      [IInt32 slotId; IString s]
  | SetEmergencyCallList slotId l =>
      [IInt32 slotId; IInt32 (Z.of_nat (Datatypes.length l))] ++ (l ≫= ecc_items)
  | InviteToConference slotId l => [IInt32 slotId; IStringVector l]
  | SetReadyToCall slotId v b | GetCallTransferInfo slotId v b => [IInt32 slotId; IInt32 v; IBool b]
  | UpdateImsRttCallMode slotId v w | SetImsConfig_int slotId v w | SetImsFeatureValue slotId v w
  | SetDeviceDirection slotId v w => [IInt32 slotId; IInt32 v; IInt32 w]
  | SetRttCapability slotId b | SetImsSwitchStatus slotId b | CanSetCallTransferTime slotId b
  | SetCallWaiting slotId b => [IInt32 slotId; IBool b]
  | GetDomainPreferenceMode slotId | GetMute slotId | GetCallWaiting slotId | CloseUnFinishedUssd slotId
  | GetImsSwitchStatus slotId _ | GetCarrierVtConfig slotId _ | GetVoNRState slotId _
  | GetVideoCallWaiting slotId _ => [IInt32 slotId]
  | SetDomainPreferenceMode slotId v | SetVoNRState slotId v | GetImsConfig slotId v
  | GetImsFeatureValue slotId v | SetMute slotId v | CancelCallUpgrade slotId v
  | RequestCameraCapabilities slotId v | GetCallRestriction slotId v => [IInt32 slotId; IInt32 v]
  | SetImsConfig_string slotId v s | ControlCamera slotId v s | SetPausePicture slotId v s =>
      [IInt32 slotId; IInt32 v; IString s]
  | SetPreviewWindow slotId v s _ | SetDisplayWindow slotId v s _ =>
      [IInt32 slotId; IInt32 v; IString s; IRemote object]
  | SetCameraZoom v => [IFloat v]
  | SetCallTransferInfo slotId info => [IInt32 slotId; IRaw (RawTransfer info)]
  | SetCallRestriction slotId info => [IInt32 slotId; IRaw (RawRestriction info)]
  | SetCallRestrictionPassword slotId v s s' => [IInt32 slotId; IInt32 v; IString s; IString s']
  | RegisterCallManagerCallBack callback => [IRemote callback]
  end.
(** What comes before the arguments: the size, the number of calls, or nothing. *)
Definition call_data (object size : Z) {A} (c : StubCall A) : Parcel :=
  match c with
  | SetReadyToCall _ _ _ => []
  | ClearAllCalls l => [IInt32 (Z.of_nat (Datatypes.length l))]
  | _ => [IInt32 size]
  end ++ call_items object c.

Section Spec.
Context `{CallConsts, ConfigEnv, ParcelEnv} {E S : Type} `{!CellularStubEnv E, !CellularCallMethods E S}.
Abbreviation St A := (M E S A).
Implicit Types (h : list E) (s : S) (data rest : Parcel).

(** The code is a key of the map. *)
Definition in_build (c : CellularCode) : bool :=
  SUPPORT_RTT_CALL || negb (bool_decide (c ∈ [UPDATE_RTT_CALL_MODE; RTT_CAPABILITY_SETTING])).
(** What may be asked: lists of a bounded length, a live object, the flags the
    stub starts from. *)
Definition call_ok (object : Z) h {A} (c : StubCall A) : Prop :=
  match c with
  | SetEmergencyCallList _ l => 0 < Z.of_nat (Datatypes.length l) < MAX_ECC_SIZE
  | ClearAllCalls l => 0 < Z.of_nat (Datatypes.length l) ≤ MAX_CALL_NUM
  | RegisterCallManagerCallBack callback => remote_alive callback = true
  | SetPreviewWindow _ _ _ surface | SetDisplayWindow _ _ _ surface =>
      remote_alive object = true ∧ CreateSurfaceAsProducer object = surface
  | IsEmergencyPhoneNumber _ _ b | GetVideoCallWaiting _ b => b = false
  | GetImsSwitchStatus _ b | GetCarrierVtConfig _ b => b = uninit_bool h
  | GetVoNRState _ v => v = uninit_int h
  | _ => True
  end.
(** The lists that reach the service are bounded. *)
Definition bounded {A} (c : StubCall A) : Prop :=
  match c with
  | SetEmergencyCallList _ l => 0 < Z.of_nat (Datatypes.length l) < MAX_ECC_SIZE
  | ClearAllCalls l => Z.of_nat (Datatypes.length l) ≤ MAX_CALL_NUM
  | _ => True
  end.

Definition reply_int (r : Z) : St (Z * Parcel) :=
  let! w := Write [] (IInt32 r) in mret (TELEPHONY_SUCCESS, w.2).
(** What is made of the answer of a method. *)
Definition answer {A} (c : StubCall A) : A → St (Z * Parcel) :=
  match c in StubCall A return A → St (Z * Parcel) with
  | IsEmergencyPhoneNumber _ _ _ => reply_checked
  | CanSetCallTransferTime _ _ | GetVideoCallWaiting _ _ | GetImsSwitchStatus _ _
  | GetCarrierVtConfig _ _ => reply_flag
  | GetVoNRState _ _ => λ r,
      let! w := Write [] (IInt32 r.2) in
      let! w := Write w.2 (IInt32 r.1) in mret (TELEPHONY_SUCCESS, w.2)
  | SetReadyToCall _ _ _ => λ r,
      write [] (IInt32 r) (mret (TELEPHONY_ERR_WRITE_REPLY_FAIL, [])) (λ p, mret (TELEPHONY_SUCCESS, p))
  | SendUssdResponse _ _ => λ r, reply_checked (r, false)
  | UnRegisterCallManagerCallBack => λ r, let! w := Write [] (IInt32 r) in mret (r, w.2)
  | IsMmiCode _ _ => λ r, let! w := Write [] (IBool r) in mret (TELEPHONY_SUCCESS, w.2)
  | _ => reply_int
  end.
Definition serve {A} (c : StubCall A) : St (Z * Parcel) := let! r := invoke c in answer c r.

(** ** Whatever arrives *)

(** [m] serves one method under a key, or leaves everything as it is. *)
Definition serves (code : CellularCode) (m : St (Z * Parcel)) : Prop :=
  ∀ s h, (∃ r, m s h = (r, s, [])) ∨ ∃ A (c : StubCall A), call_code c = code ∧ bounded c ∧ m s h = serve c s h.

Lemma serves_nothing code r : serves code (mret r).
Proof. intros s h. left. by eexists. Qed.
Lemma serves_call {A} (c : StubCall A) : bounded c → serves (call_code c) (serve c).
Proof. intros Hc s h. right. by exists A, c. Qed.
Lemma then_query {A B} (q : list E → A) (k : A → St B) s h : (let! x := query q in k x) s h = k (q h) s h.
Proof. unfold mthen, query. cbn beta iota. rewrite app_nil_r. by destruct (k (q h) s h) as [[r s'] e]. Qed.
Lemma serves_query {A} code (q : list E → A) k : (∀ x, serves code (k x)) → serves code (let! x := query q in k x).
Proof.
  intros Hk s h. rewrite then_query. apply Hk.
Qed.
Lemma serves_write code data x k : (∀ w, serves code (k w)) → serves code (let! w := Write data x in k w).
Proof.
  intros Hk s h. unfold Write, mthen, query, mret. cbn beta iota. rewrite !app_nil_r.
  match goal with |- context [k ?w s h] => pose proof (Hk w s h) as Hq; by destruct (k w s h) as [[r s'] e] end.
Qed.
Lemma serves_sized code data k : (∀ data, serves code (k data)) → serves code (sized data k).
Proof.
  intros Hk. unfold sized. destruct (ReadInt32 data). case_match; [apply serves_nothing|done].
Qed.
Lemma serves_struct {T} `{!RawStruct T} code data (k : T → Parcel → St (Z * Parcel)) :
  (∀ x data, serves code (k x data)) → serves code (with_struct data k).
Proof.
  intros Hk. unfold with_struct. destruct (ReadRawData data) as [[x|] data']; [done|apply serves_nothing].
Qed.

Lemma read_list_length {T} (read : Parcel → T * Parcel) n data : Datatypes.length (read_list read n data).1 = n.
Proof.
  revert data. induction n as [|n IH]; intros data; simpl; [done|].
  destruct (read data) as [x data']. specialize (IH data'). destruct (read_list read n data') as [l data''].
  simpl in *. by rewrite IH.
Qed.
Lemma length_omap {T U} (f : T → option U) l : (Datatypes.length (omap f l) ≤ Datatypes.length l)%nat.
Proof. induction l as [|x l IH]; csimpl; [done|]. destruct (f x); csimpl; lia. Qed.

Lemma requestFunc_serves code data : serves code (requestFunc code data).
Proof.
  destruct code; cbn [requestFunc]; autounfold with cellular_stub.
  all: repeat first
    [ apply serves_sized; intros
    | apply serves_struct; intros
    | apply serves_query; intros
    | apply serves_write; intros
    | apply serves_nothing
    | match goal with
      | |- serves _ (let '(_, _) := ?x in _) => destruct x
      | |- serves _ (match ?x with _ => _ end) => destruct x eqn:?
      end ].
  all: match goal with |- context [invoke ?c] => apply (serves_call c) end; try done; cbn [bounded].
  - rewrite read_list_length. unfold MAX_ECC_SIZE in *. lia.
  - match goal with |- Z.of_nat (Datatypes.length (omap ?f ?l)) ≤ _ => pose proof (length_omap f l) as Hl end.
    rewrite read_list_length in Hl. unfold MAX_CALL_NUM in *. lia.
Qed.

Lemma requestFuncMap_find code c :
  requestFuncMap code = Some c → CellularCallInterfaceCode_value c = code ∧ c ∈ requestKeys.
Proof.
  unfold requestFuncMap. intros Hf. apply bind_Some in Hf as [[i c'] [Hl [= <-]]].
  apply list_find_Some in Hl as (Hi & Hv & _). split; [done|by eapply list_elem_of_lookup_2].
Qed.
Lemma elem_of_keys c : in_build c = true ↔ c ∈ requestKeys.
Proof.
  unfold in_build, requestKeys.
  destruct SUPPORT_RTT_CALL; destruct c; split; intros Hin; try done; try (vm_compute; list_in).
  all: by apply (bool_decide_pack _) in Hin.
Qed.

Definition no_or_one (code : Z) data s h : Prop :=
  (∃ r, OnRemoteRequest code data s h = (r, s, [])) ∨
  ∃ A (c : StubCall A),
    permitted h = true ∧ (ReadInterfaceToken data).1 = CellularCallInterface_descriptor ∧
    CellularCallInterfaceCode_value (call_code c) = code ∧ in_build (call_code c) = true ∧ bounded c ∧
    OnRemoteRequest code data s h = serve c s h.
Lemma transaction_cases code data s h : no_or_one code data s h.
Proof.
  unfold no_or_one, OnRemoteRequest. destruct (ReadInterfaceToken data) as [token data'] eqn:Ht.
  case_bool_decide as Hd; [left; by eexists|].
  destruct (requestFuncMap code) as [c|] eqn:Hc; [|left; by eexists].
  apply requestFuncMap_find in Hc as [Hv Hk]. apply elem_of_keys in Hk.
  rewrite then_query.
  destruct (permitted h) eqn:Hp; cbn [negb]; [|left; by eexists].
  destruct (requestFunc_serves c data' s h) as [Hr|(A & m & <- & Hb & Hr)]; [by left|right].
  exists A, m. split_and!; try done.
Qed.

(** C7: a transaction either leaves the service as it is, or runs exactly one
    method, whose code it carries, for the foundation process or a caller with the
    permission, under the descriptor of the interface; and the reply is that
    method's answer.  The lists it passes are of bounded length, but for the
    numbers of [InviteToConference], which are read without a bound. *)
Theorem transaction_guard code data s h :
  (∃ r, OnRemoteRequest code data s h = (r, s, [])) ∨
  ∃ A (c : StubCall A),
    permitted h = true ∧ (ReadInterfaceToken data).1 = CellularCallInterface_descriptor ∧
    CellularCallInterfaceCode_value (call_code c) = code ∧ in_build (call_code c) = true ∧ bounded c ∧
    OnRemoteRequest code data s h = serve c s h.
Proof.
  exact (transaction_cases code data s h).
Qed.

(** ** What call_manager asks for *)

Lemma requestFuncMap_value `{!CellularCodesOk} c :
  in_build c = true → requestFuncMap (CellularCallInterfaceCode_value c) = Some c.
Proof.
  intros Hb%elem_of_keys. unfold requestFuncMap.
  destruct (list_find_elem_of (λ c', CellularCallInterfaceCode_value c' = CellularCallInterfaceCode_value c)
              requestKeys c) as [[i c'] Hf]; [done|done|].
  rewrite Hf. simpl. apply list_find_Some in Hf as (_ & Hv & _). f_equal. by apply cellular_codes_inj.
Qed.

Lemma sized_ok size data k s h : 0 < size ≤ MAX_SIZE → sized (IInt32 size :: data) k s h = k data s h.
Proof.
  intros Hs. unfold sized. cbn [ReadInt32]. unfold MAX_SIZE in *.
  by rewrite (proj2 (Z.ltb_ge 10 size)), (proj2 (Z.leb_gt size 0)) by lia.
Qed.
Lemma read_structs {T} `{!RawStruct T} (l : list T) rest :
  read_list ReadRawData (Datatypes.length l) (((λ x, IRaw (to_raw x)) <$> l) ++ rest) = (Some <$> l, rest).
Proof.
  induction l as [|x l IH]; [done|]. rewrite !fmap_cons. cbn [Datatypes.length read_list app].
  by rewrite ReadRawData_cons, IH.
Qed.
Lemma omap_Some_fmap {T} (l : list T) : omap id (Some <$> l) = l.
Proof. induction l as [|x l IH]; csimpl; [done|]. by rewrite IH. Qed.
Lemma call_served_here object size s h rest {A} (c : StubCall A) :
  0 < size ≤ MAX_SIZE → call_ok object h c →
  requestFunc (call_code c) (call_data object size c ++ rest) s h = serve c s h.
Proof.
  intros Hsize Hok. destruct c; cbn [call_code requestFunc call_data call_items app call_ok] in *.
  all: autounfold with cellular_stub; rewrite ?sized_ok by done; try done.
  all: cbn [ReadInt32 ReadString app fmap list_fmap fst]; rewrite ?then_query; try by subst.
  - rewrite (proj2 (Z.leb_gt _ 0)), (proj2 (Z.leb_gt MAX_ECC_SIZE _)) by lia. cbn [orb].
    by rewrite Nat2Z.id, (read_list_items _ ecc_items) by (by intros [] ?).
  - rewrite (proj2 (Z.leb_gt _ 0)), (proj2 (Z.ltb_ge MAX_CALL_NUM _)) by lia. cbn [orb].
    pose proof (read_structs callInfos rest) as Hr. cbn [to_raw raw_CellularCallInfo] in Hr.
    rewrite Nat2Z.id, Hr. cbn [fst]. by rewrite omap_Some_fmap.
  - destruct Hok as [Ha <-]. cbn. by rewrite Ha.
  - destruct Hok as [Ha <-]. cbn. by rewrite Ha.
  - cbn. by rewrite Hok.
Qed.

(** C8: a transaction that carries a method of the interface, in a build that has
    it, for a permitted caller, is served by that method with exactly the arguments
    written, and the reply is what it answers. *)
Theorem call_served `{!CellularCodesOk} object size s h rest {A} (c : StubCall A) :
  permitted h = true → in_build (call_code c) = true → 0 < size ≤ MAX_SIZE → call_ok object h c →
  OnRemoteRequest (CellularCallInterfaceCode_value (call_code c))
    (IToken CellularCallInterface_descriptor :: call_data object size c ++ rest) s h = serve c s h.
Proof.
  intros Hp Hb Hsize Hok. unfold OnRemoteRequest. cbn [ReadInterfaceToken].
  rewrite bool_decide_false, requestFuncMap_value, then_query, Hp by auto. by apply call_served_here.
Qed.
End Spec.

End CellularStubFacts.
