(* ===== verification/ImsCallProxy.v ===== *)
(** * ImsCallProxy: requests to the IMS service
    (services/ims_service_interaction/src/ims_call_proxy.cpp)

    Each method writes its arguments into a parcel, sends it under its code and
    returns the first integer of the reply.  A method ends at the first write
    that fails.

    Module [ImsCallProxyFacts]: what a request puts on the wire. *)

From stdpp Require Import base tactics option list numbers strings.
From Stdlib Require Import ZArith Lia Ascii String.
From S2P Require Import Prelude SsTypes ConfigTypes Platform ConfigRequest Parcel IpcCodes.

Import ImsCallInterfaceCode.

Open Scope Z_scope.

(** [ImsCallInterface::GetDescriptor()] *)
Definition ImsCallInterface_descriptor : string := "OHOS.Telephony.ImsCallInterface".
Definition CLIRMode_value (mode : CLIRMode) : Z :=
  match mode with DEFAULT => 0 | TRANSFER => 1 | INHIBITION => 2 end.
Definition ImsCapabilityType_value (t : ImsCapabilityType) : Z :=
  match t with CAPABILITY_TYPE_VOICE => 0 | CAPABILITY_TYPE_VIDEO => 1 | CAPABILITY_TYPE_UT => 2 end.

Section Proxy.
Context `{CallConsts, ConfigEnv, ParcelEnv, IpcEnv} {S : Type}.
Abbreviation Ipc A := (M IpcEvent S A).

(** [static_cast<int32_t>(code)]; a method whose code the build does not have is
    not in the build either. *)
Definition code_value (code : ServiceCode) : Z := default 0 (enum_value service_codes code).

(** [if (!in.Write(x)) return TELEPHONY_ERR_WRITE_DATA_FAIL; k] *)
Definition put (p : Parcel) (x : Item) (k : Parcel → Ipc Z) : Ipc Z :=
  write p x (mret TELEPHONY_ERR_WRITE_DATA_FAIL) k.
Definition put_token (k : Parcel → Ipc Z) : Ipc Z :=
  write [] (IToken ImsCallInterface_descriptor) (mret TELEPHONY_ERR_WRITE_DESCRIPTOR_TOKEN_FAIL) k.

Definition WriteCommonInfo (slotId : Z) (p : Parcel) : Ipc (Z * Parcel) :=
  write p (IToken ImsCallInterface_descriptor) (mret (TELEPHONY_ERR_WRITE_DESCRIPTOR_TOKEN_FAIL, p)) (λ p,
  write p (IInt32 slotId) (mret (TELEPHONY_ERR_WRITE_DATA_FAIL, p)) (λ p, mret (TELEPHONY_SUCCESS, p))).
Definition WriteCommonInfo_type (slotId : Z) (p : Parcel) (callType : Z) : Ipc (Z * Parcel) :=
  let! r := WriteCommonInfo slotId p in
  let '(ret, p) := r in
  if bool_decide (ret ≠ TELEPHONY_SUCCESS) then mret (ret, p)
  else write p (IInt32 callType) (mret (TELEPHONY_ERR_WRITE_DATA_FAIL, p)) (λ p, mret (TELEPHONY_SUCCESS, p)).

(** [if (ret != TELEPHONY_SUCCESS) return ret; k] *)
Definition written (m : Ipc (Z * Parcel)) (k : Parcel → Ipc Z) : Ipc Z :=
  let! r := m in
  let '(ret, p) := r in
  if bool_decide (ret ≠ TELEPHONY_SUCCESS) then mret ret else k p.
Definition with_common (slotId : Z) (k : Parcel → Ipc Z) : Ipc Z := written (WriteCommonInfo slotId []) k.
Definition with_common_type (slotId callType : Z) (k : Parcel → Ipc Z) : Ipc Z :=
  written (WriteCommonInfo_type slotId [] callType) k.

(** Both overloads, which differ in their logs. *)
Definition SendRequest (p : Parcel) (eventId : ServiceCode) : Ipc Z :=
  let! remote := query Remote in
  if negb remote then mret TELEPHONY_ERR_IPC_CONNECT_STUB_FAIL
  else
    let! r := transact (code_value eventId) p in
    let '(error, out) := r in
    if error =? ERR_NONE then mret (ReadInt32 out).1 else mret TELEPHONY_ERR_IPC_CONNECT_STUB_FAIL.

(** ** Calls *)

(** [fail]: the fault event of an error code; a return after it. *)
Definition faulted (ev : HiSysEvent) (code : Z) : Ipc Z := fault ev ;; mret code.

Definition Dial (callInfo : ImsCallInfo) (mode : CLIRMode) : Ipc Z :=
  let event err desc :=
    WriteDialCallFaultEvent (ic_slotId callInfo) INVALID_PARAMETER (ic_videoState callInfo) err desc in
  write [] (IToken ImsCallInterface_descriptor)
    (faulted (event TELEPHONY_ERR_WRITE_DESCRIPTOR_TOKEN_FAIL "ims call proxy write descriptor token fail"%string)
       TELEPHONY_ERR_WRITE_DESCRIPTOR_TOKEN_FAIL) (λ p,
  write p (IRaw (to_raw callInfo))
    (faulted (event TELEPHONY_ERR_WRITE_DATA_FAIL "ims call proxy write data fail"%string)
       TELEPHONY_ERR_WRITE_DATA_FAIL) (λ p,
  write p (IInt32 (CLIRMode_value mode))
    (faulted (event TELEPHONY_ERR_WRITE_DATA_FAIL "ims call proxy write data fail"%string)
       TELEPHONY_ERR_WRITE_DATA_FAIL) (λ p,
  let! remote := query Remote in
  if negb remote then
    faulted (event TELEPHONY_ERR_LOCAL_PTR_NULL "ims call proxy remote is null"%string) TELEPHONY_ERR_LOCAL_PTR_NULL
  else
    let! r := transact (code_value IMS_DIAL) p in
    let '(error, out) := r in
    if error =? ERR_NONE then mret (ReadInt32 out).1
    else faulted (event CALL_ERROR_SEND_REQUEST_FAIL "ims call proxy send request fail"%string)
           TELEPHONY_ERR_IPC_CONNECT_STUB_FAIL))).

(** The end of [HangUp], [RejectWithReason] and [Answer]. *)
Definition send_call (p : Parcel) (eventId : ServiceCode) (failed : HiSysEvent) : Ipc Z :=
  let! remote := query Remote in
  if negb remote then mret TELEPHONY_ERR_LOCAL_PTR_NULL
  else
    let! r := transact (code_value eventId) p in
    let '(error, out) := r in
    if error =? ERR_NONE then mret (ReadInt32 out).1
    else faulted failed TELEPHONY_ERR_IPC_CONNECT_STUB_FAIL.

Definition HangUp (callInfo : ImsCallInfo) : Ipc Z :=
  let event err desc := WriteHangUpFaultEvent (ic_slotId callInfo) INVALID_PARAMETER err desc in
  write [] (IToken ImsCallInterface_descriptor)
    (faulted (event TELEPHONY_ERR_WRITE_DESCRIPTOR_TOKEN_FAIL "HangUp ims call proxy write descriptor token fail"%string)
       TELEPHONY_ERR_WRITE_DESCRIPTOR_TOKEN_FAIL) (λ p,
  write p (IRaw (to_raw callInfo))
    (faulted (event TELEPHONY_ERR_WRITE_DATA_FAIL "HangUp ims call proxy write data fail"%string)
       TELEPHONY_ERR_WRITE_DATA_FAIL) (λ p,
  send_call p IMS_HANG_UP
    (event CALL_ERROR_SEND_REQUEST_FAIL "HangUp ims call proxy send request fail"%string))).

(** The fault record of a failed write of the call carries the connection's
    error code. *)
Definition RejectWithReason (callInfo : ImsCallInfo) (reason : Z) : Ipc Z :=
  let event err desc := WriteHangUpFaultEvent (ic_slotId callInfo) INVALID_PARAMETER err desc in
  write [] (IToken ImsCallInterface_descriptor)
    (faulted (event TELEPHONY_ERR_WRITE_DESCRIPTOR_TOKEN_FAIL "Reject ims call proxy write descriptor token fail"%string)
       TELEPHONY_ERR_WRITE_DESCRIPTOR_TOKEN_FAIL) (λ p,
  write p (IRaw (to_raw callInfo))
    (faulted (event TELEPHONY_ERR_IPC_CONNECT_STUB_FAIL "Reject ims call proxy write data fail"%string)
       TELEPHONY_ERR_WRITE_DATA_FAIL) (λ p,
  put p (IInt32 reason) (λ p,
  send_call p IMS_REJECT_WITH_REASON
    (event CALL_ERROR_SEND_REQUEST_FAIL "Reject ims call proxy send request fail"%string)))).

Definition Answer (callInfo : ImsCallInfo) : Ipc Z :=
  let event err desc :=
    WriteAnswerCallFaultEvent (ic_slotId callInfo) INVALID_PARAMETER (ic_videoState callInfo) err desc in
  write [] (IToken ImsCallInterface_descriptor)
    (faulted (event TELEPHONY_ERR_WRITE_DESCRIPTOR_TOKEN_FAIL "ims call proxy write descriptor token fail"%string)
       TELEPHONY_ERR_WRITE_DESCRIPTOR_TOKEN_FAIL) (λ p,
  write p (IRaw (to_raw callInfo))
    (faulted (event TELEPHONY_ERR_WRITE_DATA_FAIL "ims call proxy write data fail"%string)
       TELEPHONY_ERR_WRITE_DATA_FAIL) (λ p,
  send_call p IMS_ANSWER (event CALL_ERROR_SEND_REQUEST_FAIL "ims call proxy send request fail"%string))).

Definition HoldCall (slotId callType : Z) (isRTT : bool) : Ipc Z :=
  with_common_type slotId callType (λ p, put p (IBool isRTT) (λ p, SendRequest p IMS_HOLD)).
Definition UnHoldCall (slotId callType : Z) (isRTT : bool) : Ipc Z :=
  with_common_type slotId callType (λ p, put p (IBool isRTT) (λ p, SendRequest p IMS_UN_HOLD)).
Definition SwitchCall (slotId callType : Z) (isRTT : bool) : Ipc Z :=
  with_common_type slotId callType (λ p, put p (IBool isRTT) (λ p, SendRequest p IMS_SWITCH)).
Definition CombineConference (slotId : Z) : Ipc Z :=
  with_common slotId (λ p, SendRequest p IMS_COMBINE_CONFERENCE).
Definition InviteToConference (slotId : Z) (numberList : list string) : Ipc Z :=
  with_common slotId (λ p, put p (IStringVector numberList) (λ p, SendRequest p IMS_INVITE_TO_CONFERENCE)).
Definition KickOutFromConference (slotId index : Z) : Ipc Z :=
  with_common slotId (λ p, put p (IInt32 index) (λ p, SendRequest p IMS_KICK_OUT_CONFERENCE)).
Definition SendUpdateCallMediaModeRequest (callInfo : ImsCallInfo) (callType : Z) : Ipc Z :=
  put_token (λ p, put p (IRaw (to_raw callInfo)) (λ p, put p (IInt32 callType) (λ p,
    SendRequest p IMS_SEND_CALL_MEDIA_MODE_REQUEST))).
Definition SendUpdateCallMediaModeResponse (callInfo : ImsCallInfo) (callType : Z) : Ipc Z :=
  put_token (λ p, put p (IRaw (to_raw callInfo)) (λ p, put p (IInt32 callType) (λ p,
    SendRequest p IMS_SEND_CALL_MEDIA_MODE_RESPONSE))).
Definition CancelCallUpgrade (slotId callIndex : Z) : Ipc Z :=
  put_token (λ p, put p (IInt32 slotId) (λ p, put p (IInt32 callIndex) (λ p,
    SendRequest p IMS_CANCEL_CALL_UPGRADE))).
Definition RequestCameraCapabilities (slotId callIndex : Z) : Ipc Z :=
  put_token (λ p, put p (IInt32 slotId) (λ p, put p (IInt32 callIndex) (λ p,
    SendRequest p IMS_REQUEST_CAMERA_CAPABILITIES))).
Definition GetImsCallsDataRequest (slotId lastCallsDataFlag : Z) : Ipc Z :=
  with_common slotId (λ p, put p (IInt64 lastCallsDataFlag) (λ p, SendRequest p IMS_GET_CALL_DATA)).
Definition GetLastCallFailReason (slotId : Z) : Ipc Z :=
  with_common slotId (λ p, SendRequest p IMS_GET_LAST_CALL_FAIL_REASON).
Definition StartDtmf (slotId : Z) (cDtmfCode : ascii) (index : Z) : Ipc Z :=
  with_common slotId (λ p, put p (IInt8 cDtmfCode) (λ p, put p (IInt32 index) (λ p, SendRequest p IMS_START_DTMF))).
Definition SendDtmf (slotId : Z) (cDtmfCode : ascii) (index : Z) : Ipc Z :=
  with_common slotId (λ p, put p (IInt8 cDtmfCode) (λ p, put p (IInt32 index) (λ p, SendRequest p IMS_SEND_DTMF))).
Definition StopDtmf (slotId index : Z) : Ipc Z :=
  with_common slotId (λ p, put p (IInt32 index) (λ p, SendRequest p IMS_STOP_DTMF)).
(** SUPPORT_RTT_CALL *)
Definition UpdateImsRttCallMode (slotId callId mode : Z) : Ipc Z :=
  with_common slotId (λ p, put p (IInt32 callId) (λ p, put p (IInt32 mode) (λ p,
    SendRequest p IMS_UPDATE_RTT_CALL_MODE))).

(** ** Configuration *)

Definition SetDomainPreferenceMode (slotId mode : Z) : Ipc Z :=
  with_common slotId (λ p, put p (IInt32 mode) (λ p, SendRequest p IMS_SET_DOMAIN_PREFERENCE_MODE)).
Definition GetDomainPreferenceMode (slotId : Z) : Ipc Z :=
  with_common slotId (λ p, SendRequest p IMS_GET_DOMAIN_PREFERENCE_MODE).
Definition SetCarrierVtConfig (slotId active : Z) : Ipc Z :=
  with_common slotId (λ p, put p (IInt32 active) (λ p, SendRequest p IMS_SET_VT_CONFIG)).
Definition SetImsSwitchStatus (slotId active : Z) : Ipc Z :=
  with_common slotId (λ p, put p (IInt32 active) (λ p, SendRequest p IMS_SET_SWITCH_STATUS)).
Definition GetImsSwitchStatus (slotId : Z) : Ipc Z :=
  with_common slotId (λ p, SendRequest p IMS_GET_SWITCH_STATUS).
Definition SetImsConfig_string (item : Z) (value : string) : Ipc Z :=
  put_token (λ p, put p (IInt32 item) (λ p, put p (IString value) (λ p, SendRequest p IMS_SET_IMS_CONFIG_STRING))).
Definition SetImsConfig_int (item value : Z) : Ipc Z :=
  put_token (λ p, put p (IInt32 item) (λ p, put p (IInt32 value) (λ p, SendRequest p IMS_SET_IMS_CONFIG_INT))).
Definition GetImsConfig (item : Z) : Ipc Z :=
  put_token (λ p, put p (IInt32 item) (λ p, SendRequest p IMS_GET_IMS_CONFIG)).
Definition SetImsFeatureValue (type value : Z) : Ipc Z :=
  put_token (λ p, put p (IInt32 type) (λ p, put p (IInt32 value) (λ p, SendRequest p IMS_SET_IMS_FEATURE))).
(** The answer, and the reference [value], which stays as it was. *)
Definition GetImsFeatureValue (type value : Z) : Ipc (Z * Z) :=
  let! ret := put_token (λ p, put p (IInt32 type) (λ p, SendRequest p IMS_GET_IMS_FEATURE)) in
  mret (ret, value).
Definition SetMute (slotId mute : Z) : Ipc Z :=
  with_common slotId (λ p, put p (IInt32 mute) (λ p, SendRequest p IMS_SET_MUTE)).
Definition GetMute (slotId : Z) : Ipc Z := with_common slotId (λ p, SendRequest p IMS_GET_MUTE).

(** ** Video *)

Definition ControlCamera (slotId callIndex : Z) (cameraId : string) : Ipc Z :=
  with_common slotId (λ p, put p (IInt32 callIndex) (λ p, put p (IString cameraId) (λ p,
    SendRequest p IMS_CTRL_CAMERA))).
(** [surface]: the object of its producer, [None] when either is null; whether it
    was written is not looked at. *)
Definition write_surface (p : Parcel) (surface : option Z) : Ipc Parcel :=
  match surface with
  | None => mret p
  | Some producer => let! w := Write p (IRemote producer) in mret w.2
  end.
Definition SetPreviewWindow (slotId callIndex : Z) (surfaceID : string) (surface : option Z) : Ipc Z :=
  with_common slotId (λ p, put p (IInt32 callIndex) (λ p, put p (IString surfaceID) (λ p,
    let! p := write_surface p surface in SendRequest p IMS_SET_PREVIEW_WINDOW))).
Definition SetDisplayWindow (slotId callIndex : Z) (surfaceID : string) (surface : option Z) : Ipc Z :=
  with_common slotId (λ p, put p (IInt32 callIndex) (λ p, put p (IString surfaceID) (λ p,
    let! p := write_surface p surface in SendRequest p IMS_SET_DISPLAY_WINDOW))).
Definition SetCameraZoom (zoomRatio : Z) : Ipc Z :=
  put_token (λ p, put p (IFloat zoomRatio) (λ p, SendRequest p IMS_SET_CAMERA_ZOOM)).
Definition SetPausePicture (slotId callIndex : Z) (path : string) : Ipc Z :=
  with_common slotId (λ p, put p (IInt32 callIndex) (λ p, put p (IString path) (λ p,
    SendRequest p IMS_SET_PAUSE_IMAGE))).
Definition SetDeviceDirection (slotId callIndex rotation : Z) : Ipc Z :=
  with_common slotId (λ p, put p (IInt32 callIndex) (λ p, put p (IInt32 rotation) (λ p,
    SendRequest p IMS_SET_DEVICE_DIRECTION))).

(** ** Supplementary services *)

Definition SetClip (slotId action index : Z) : Ipc Z :=
  with_common slotId (λ p, put p (IInt32 action) (λ p, put p (IInt32 index) (λ p, SendRequest p IMS_SET_CLIP))).
Definition GetClip (slotId index : Z) : Ipc Z :=
  with_common slotId (λ p, put p (IInt32 index) (λ p, SendRequest p IMS_GET_CLIP)).
Definition SetClir (slotId action index : Z) : Ipc Z :=
  with_common slotId (λ p, put p (IInt32 action) (λ p, put p (IInt32 index) (λ p, SendRequest p IMS_SET_CLIR))).
Definition GetClir (slotId index : Z) : Ipc Z :=
  with_common slotId (λ p, put p (IInt32 index) (λ p, SendRequest p IMS_GET_CLIR)).
Definition SetCallTransfer (slotId : Z) (cfInfo : CallTransferInfo) (classType index : Z) : Ipc Z :=
  with_common slotId (λ p, put p (IRaw (to_raw cfInfo)) (λ p, put p (IInt32 classType) (λ p,
    put p (IInt32 index) (λ p, SendRequest p IMS_SET_CALL_TRANSFER)))).
(** The answer, and the reference [result]. *)
Definition CanSetCallTransferTime (slotId : Z) (result : bool) : Ipc (Z * bool) :=
  let! r := WriteCommonInfo slotId [] in
  let '(ret, p) := r in
  if bool_decide (ret ≠ TELEPHONY_SUCCESS) then mret (ret, result)
  else
    write p (IBool result) (mret (TELEPHONY_ERR_WRITE_DATA_FAIL, result)) (λ p,
      let! remote := query Remote in
      if negb remote then mret (TELEPHONY_ERR_IPC_CONNECT_STUB_FAIL, result)
      else
        let! r := transact (code_value IMS_CAN_SET_CALL_TRANSFER_TIME) p in
        let '(error, out) := r in
        if error =? ERR_NONE then
          let (result, out) := ReadBool out in mret ((ReadInt32 out).1, result)
        else mret (TELEPHONY_ERR_IPC_CONNECT_STUB_FAIL, result)).
Definition GetCallTransfer (slotId reason index : Z) : Ipc Z :=
  with_common slotId (λ p, put p (IInt32 reason) (λ p, put p (IInt32 index) (λ p,
    SendRequest p IMS_GET_CALL_TRANSFER))).
Definition SetCallRestriction (slotId : Z) (fac : string) (mode : Z) (pw : string) (index : Z) : Ipc Z :=
  with_common slotId (λ p, put p (IString fac) (λ p, put p (IInt32 mode) (λ p, put p (IString pw) (λ p,
    put p (IInt32 index) (λ p, SendRequest p IMS_SET_CALL_RESTRICTION))))).
Definition GetCallRestriction (slotId : Z) (fac : string) (index : Z) : Ipc Z :=
  with_common slotId (λ p, put p (IString fac) (λ p, put p (IInt32 index) (λ p,
    SendRequest p IMS_GET_CALL_RESTRICTION))).
Definition SetCallWaiting (slotId : Z) (activate : bool) (classType index : Z) : Ipc Z :=
  with_common slotId (λ p, put p (IBool activate) (λ p, put p (IInt32 classType) (λ p, put p (IInt32 index) (λ p,
    SendRequest p IMS_SET_CALL_WAITING)))).
Definition SetVideoCallWaiting (slotId : Z) (activate : bool) : Ipc Z :=
  with_common slotId (λ p, put p (IBool activate) (λ p, SendRequest p IMS_SET_VIDEO_CALL_WAITING)).
Definition GetCallWaiting (slotId index : Z) : Ipc Z :=
  with_common slotId (λ p, put p (IInt32 index) (λ p, SendRequest p IMS_GET_CALL_WAITING)).
Definition SetColr (slotId presentation index : Z) : Ipc Z :=
  with_common slotId (λ p, put p (IInt32 presentation) (λ p, put p (IInt32 index) (λ p, SendRequest p IMS_SET_COLR))).
Definition GetColr (slotId index : Z) : Ipc Z :=
  with_common slotId (λ p, put p (IInt32 index) (λ p, SendRequest p IMS_GET_COLR)).
Definition SetColp (slotId action index : Z) : Ipc Z :=
  with_common slotId (λ p, put p (IInt32 action) (λ p, put p (IInt32 index) (λ p, SendRequest p IMS_SET_COLP))).
Definition GetColp (slotId index : Z) : Ipc Z :=
  with_common slotId (λ p, put p (IInt32 index) (λ p, SendRequest p IMS_GET_COLP)).

(** ** Registration and the rest *)

(** [callback]: the object of the callback, [None]: null. *)
Definition RegisterImsCallCallback (callback : option Z) : Ipc Z :=
  match callback with
  | None => mret TELEPHONY_ERR_ARGUMENT_INVALID
  | Some object => put_token (λ p, put p (IRemote object) (λ p, SendRequest p IMS_CALL_REGISTER_CALLBACK))
  end.
Definition capability_items (c : ImsCapability) : list Item :=
  [IInt32 (ImsCapabilityType_value (imsCapabilityType c)); IInt32 (ImsRegTech_value (imsRadioTech c));
   IBool (enable c)].
(** One after the other, each checked. *)
Fixpoint put_all (p : Parcel) (l : list Item) (k : Parcel → Ipc Z) : Ipc Z :=
  match l with [] => k p | x :: l => put p x (λ p, put_all p l k) end.
Definition UpdateImsCapabilities (slotId : Z) (imsCapabilities : list ImsCapability) : Ipc Z :=
  with_common slotId (λ p, put p (IInt32 (i32 (Z.of_nat (Datatypes.length imsCapabilities)))) (λ p,
    put_all p (imsCapabilities ≫= capability_items) (λ p, SendRequest p IMS_UPDATE_CAPABILITY))).
(** The answer, and the reference [impu], which stays as it was. *)
Definition GetUtImpuFromNetwork (slotId : Z) (impu : string) : Ipc (Z * string) :=
  let! ret := with_common slotId (λ p, put p (IString impu) (λ p, SendRequest p IMS_GET_IMPU_FROM_NETWORK)) in
  mret (ret, impu).
Definition NotifyOperatorConfigChanged (slotId state : Z) : Ipc Z :=
  with_common slotId (λ p, put p (IInt32 state) (λ p, SendRequest p IMS_OPERATOR_CONFIG_CHANGED)).
Definition GetImsCapabilities (slotId : Z) : Ipc Z :=
  with_common slotId (λ p, SendRequest p IMS_GET_IMS_CAPABILITY).
End Proxy.

(** ** ImsCallProxyFacts: what a request puts on the wire

    For each method of [ImsCallProxy], the one message it may send; and that the
    message determines the request. *)

Module ImsCallProxyFacts.
Import ImsCallInterfaceCode.

Open Scope Z_scope.

Definition transaction_of (e : IpcEvent) : option (Z * Parcel) :=
  match e with Transact code data => Some (code, data) | _ => None end.
(** The messages of a trace, in order. *)
Definition transactions : list IpcEvent → list (Z * Parcel) := omap transaction_of.
(** Effects of a proxy: messages and fault records. *)
Definition of_proxy (e : IpcEvent) : Prop :=
  match e with Transact _ _ | Fault _ => True | _ => False end.
Lemma transactions_app e e' : transactions (e ++ e') = transactions e ++ transactions e'.
Proof. apply omap_app. Qed.

(** ** One method *)

Section Spec.
Context `{CallConsts, ConfigEnv, ParcelEnv, IpcEnv, !ParcelEnvOk} {S A : Type}.
Implicit Types (m : M IpcEvent S A) (p data : Parcel).

(** What a method answers of its own when no reply arrives. *)
Definition ipc_errors : list Z :=
  [TELEPHONY_ERR_WRITE_DESCRIPTOR_TOKEN_FAIL; TELEPHONY_ERR_WRITE_DATA_FAIL;
   TELEPHONY_ERR_IPC_CONNECT_STUB_FAIL; TELEPHONY_ERR_LOCAL_PTR_NULL; TELEPHONY_ERR_ARGUMENT_INVALID].

(** [m] sends nothing and fails, or sends one message, which is one of [datas],
    and answers what the reply holds or fails.  It touches nothing of its own. *)
Definition proxy_spec m (code : Z) (datas : list Parcel) (failed : A → Prop) (answer : Parcel → A) : Prop :=
  ∀ s h, wp m (λ a s' e, s' = s ∧ Forall of_proxy e ∧
    (transactions e = [] ∧ failed a ∨
     ∃ data, data ∈ datas ∧ transactions e = [(code, data)] ∧
       (failed a ∨ ∃ h' out, remote_SendRequest h' code data = (ERR_NONE, out) ∧ a = answer out))) s h.
Lemma proxy_fails a code datas (failed : A → Prop) answer (ev : option HiSysEvent) :
  failed a → proxy_spec (match ev with None => mret a | Some ev => fault ev ;; mret a end)
               code datas failed answer.
Proof.
  intros Hf s h. destruct ev; [apply wp_then; unfold wp; cbn|apply wp_ret];
    (split; [done|split; [by repeat constructor|by left]]).
Qed.
Lemma proxy_write p x code datas failed answer (bad : M IpcEvent S A) k :
  proxy_spec bad code datas failed answer →
  proxy_spec (k (p ++ [x])) code datas failed answer →
  proxy_spec (write p x bad k) code datas failed answer.
Proof.
  intros Hb Hk s h. apply wp_write; intros _; [apply Hb|apply Hk].
Qed.
(** The end of a method. *)
Lemma proxy_send (p : Parcel) code datas (failed : A → Prop) answer (lost no_remote_m : M IpcEvent S A)
    (ok : Parcel → M IpcEvent S A) :
  p ∈ datas → (∀ s h, wp lost (λ a s' e, s' = s ∧ Forall of_proxy e ∧ transactions e = [] ∧ failed a) s h) →
  proxy_spec no_remote_m code datas failed answer →
  (∀ out, ok out = mret (answer out)) →
  proxy_spec (let! remote := query Remote in
    if negb remote then no_remote_m
    else let! r := transact code p in
         let '(error, out) := r in if error =? ERR_NONE then ok out else lost) code datas failed answer.
Proof.
  intros Hp Hl Hn Hok s h. psteps. destruct (Remote h); cbn [negb]; [|apply Hn].
  unfold transact. psteps.
  destruct (remote_SendRequest h code p) as [error out] eqn:Hr.
  destruct (error =? ERR_NONE) eqn:He.
  - apply Z.eqb_eq in He as ->. rewrite Hok. apply wp_ret. cbn. split; [done|split; [by repeat constructor|]].
    right. exists p. split_and!; [done..|]. right. eauto.
  - eapply wp_mono; [apply Hl|]. intros a s' e (-> & Hf & Ht & Ha). split; [done|].
    split; [constructor; [done|exact Hf]|]. right. exists p. split_and!; [done| |by left].
    cbn. by rewrite Ht.
Qed.
End Spec.

(** The methods that answer an error code and the first integer of the reply. *)
Section Codes.
Context `{CallConsts, ConfigEnv, ParcelEnv, IpcEnv, !ParcelEnvOk} {S : Type}.
Implicit Types (p data : Parcel).

Definition code_spec (m : M IpcEvent S Z) (code : Z) (datas : list Parcel) : Prop :=
  proxy_spec m code datas (λ a, a ∈ ipc_errors) (λ out, (ReadInt32 out).1).

Lemma code_error a c datas : a ∈ ipc_errors → code_spec (mret a) c datas.
Proof. intros Ha. by apply (proxy_fails _ _ _ _ _ None). Qed.
Lemma code_faulted ev a c datas : a ∈ ipc_errors → code_spec (faulted ev a) c datas.
Proof. intros Ha. by apply (proxy_fails _ _ _ _ _ (Some ev)). Qed.
Lemma code_put p x k c datas : code_spec (k (p ++ [x])) c datas → code_spec (put p x k) c datas.
Proof. intros Hk. apply proxy_write; [|done]. apply code_error. list_in. Qed.
Lemma code_token k c datas :
  code_spec (k [IToken ImsCallInterface_descriptor]) c datas → code_spec (put_token k) c datas.
Proof. intros Hk. apply proxy_write; [|done]. apply code_error. list_in. Qed.
Lemma code_write p x bad k c datas :
  code_spec bad c datas → code_spec (k (p ++ [x])) c datas → code_spec (write p x bad k) c datas.
Proof. apply proxy_write. Qed.
Lemma code_written (m : M IpcEvent S (Z * Parcel)) p k c datas :
  (∀ s h, wp m (λ r s' e, s' = s ∧ e = [] ∧
     (r.1 ∈ ipc_errors ∧ r.1 ≠ TELEPHONY_SUCCESS ∨ r = (TELEPHONY_SUCCESS, p))) s h) →
  code_spec (k p) c datas → code_spec (written m k) c datas.
Proof.
  intros Hm Hk s h. unfold written. apply wp_then. eapply wp_mono; [apply Hm|].
  intros [ret q] s' e (-> & -> & [[Hin Hne]|[= -> ->]]); cbn in *.
  - rewrite bool_decide_true by done. rewrite app_nil_r. by apply code_error.
  - rewrite bool_decide_false by (intros Hc; by apply Hc). rewrite app_nil_r. apply Hk.
Qed.
Lemma descriptor_error : TELEPHONY_ERR_WRITE_DESCRIPTOR_TOKEN_FAIL ≠ TELEPHONY_SUCCESS.
Proof. intros Hc. apply ipc_errors_not_success. rewrite <-Hc. list_in. Qed.
Lemma data_error : TELEPHONY_ERR_WRITE_DATA_FAIL ≠ TELEPHONY_SUCCESS.
Proof. intros Hc. apply ipc_errors_not_success. rewrite <-Hc. list_in. Qed.

Lemma WriteCommonInfo_spec slotId s h :
  wp (WriteCommonInfo slotId [] : M IpcEvent S _) (λ r s' e, s' = s ∧ e = [] ∧
    (r.1 ∈ ipc_errors ∧ r.1 ≠ TELEPHONY_SUCCESS ∨
     r = (TELEPHONY_SUCCESS, [IToken ImsCallInterface_descriptor; IInt32 slotId]))) s h.
Proof.
  unfold WriteCommonInfo. apply wp_write; intros _; [|apply wp_write; intros _]; apply wp_ret;
    (split; [done|split; [done|]]); [left|left|by right];
    (split; [list_in|apply descriptor_error || apply data_error]).
Qed.
Lemma WriteCommonInfo_type_spec slotId callType s h :
  wp (WriteCommonInfo_type slotId [] callType : M IpcEvent S _) (λ r s' e, s' = s ∧ e = [] ∧
    (r.1 ∈ ipc_errors ∧ r.1 ≠ TELEPHONY_SUCCESS ∨
     r = (TELEPHONY_SUCCESS, [IToken ImsCallInterface_descriptor; IInt32 slotId; IInt32 callType]))) s h.
Proof.
  unfold WriteCommonInfo_type. apply wp_then. eapply wp_mono; [apply WriteCommonInfo_spec|].
  intros [ret q] s' e (-> & -> & [[Hin Hne]|[= -> ->]]); cbn in *.
  - rewrite bool_decide_true by done. apply wp_ret. split; [done|split; [done|]]. by left.
  - rewrite bool_decide_false by (intros Hc; by apply Hc).
    apply wp_write; intros _; apply wp_ret; (split; [done|split; [done|]]); [left|by right].
    split; [list_in|apply data_error].
Qed.
Lemma code_common slotId k c datas :
  code_spec (k [IToken ImsCallInterface_descriptor; IInt32 slotId]) c datas →
  code_spec (with_common slotId k) c datas.
Proof. apply code_written. apply WriteCommonInfo_spec. Qed.
Lemma code_common_type slotId callType k c datas :
  code_spec (k [IToken ImsCallInterface_descriptor; IInt32 slotId; IInt32 callType]) c datas →
  code_spec (with_common_type slotId callType k) c datas.
Proof. apply code_written. apply WriteCommonInfo_type_spec. Qed.
Lemma code_put_all l p k c datas : code_spec (k (p ++ l)) c datas → code_spec (put_all p l k) c datas.
Proof.
  revert p. induction l as [|x l IH]; intros p Hk; cbn; [by rewrite app_nil_r in Hk|].
  apply code_put, IH. by rewrite <-app_assoc.
Qed.
Lemma code_surface p surface k c datas :
  code_spec (k p) c datas →
  (∀ o, surface = Some o → code_spec (k (p ++ [IRemote o])) c datas) →
  code_spec (let! p := write_surface p surface in k p) c datas.
Proof.
  intros Hp Hs s h. destruct surface as [o|]; unfold write_surface, Write; psteps; [|apply Hp].
  destruct (write_ok h p (IRemote o)); [by apply Hs|apply Hp].
Qed.

Lemma wp_lost a s h :
  a ∈ ipc_errors →
  wp (mret a : M IpcEvent S Z) (λ a s' e, s' = s ∧ Forall of_proxy e ∧ transactions e = [] ∧ a ∈ ipc_errors) s h.
Proof. intros Ha. by apply wp_ret. Qed.
Lemma wp_lost_fault ev a s h :
  a ∈ ipc_errors →
  wp (faulted ev a : M IpcEvent S Z)
    (λ a s' e, s' = s ∧ Forall of_proxy e ∧ transactions e = [] ∧ a ∈ ipc_errors) s h.
Proof. intros Ha. unfold faulted, fault. psteps. split_and!; [done|by repeat constructor|done|done]. Qed.
Lemma code_send p c datas : p ∈ datas → code_spec (SendRequest p c) (code_value c) datas.
Proof.
  intros Hp. unfold SendRequest. apply (proxy_send p); [done| | |by intros].
  - intros s h. apply wp_lost. list_in.
  - apply code_error. list_in.
Qed.
Lemma code_send_call p c datas ev : p ∈ datas → code_spec (send_call p c ev) (code_value c) datas.
Proof.
  intros Hp. unfold send_call. apply (proxy_send p); [done| | |by intros].
  - intros s h. apply wp_lost_fault. list_in.
  - apply code_error. list_in.
Qed.
End Codes.

End ImsCallProxyFacts.
