(* ===== verification/SatelliteCallProxy.v ===== *)
(** * SatelliteCallProxy: requests to the satellite service
    (services/satellite_service_interaction/src/satellite_call_proxy.cpp,
    interfaces/innerkits/satellite/satellite_call_ipc_interface_code.h)

    As [ImsCallProxy]: each method writes its arguments into a parcel, sends it
    under its code and returns the first integer of the reply. *)

From stdpp Require Import base tactics option list numbers strings.
From Stdlib Require Import ZArith Lia Ascii String.
From S2P Require Import Prelude SsTypes ConfigTypes Platform ConfigRequest Parcel IpcCodes.
From S2P Require ImsCallProxy.

Open Scope Z_scope.

#[local] Abbreviation put := ImsCallProxy.put.
#[local] Abbreviation written := ImsCallProxy.written.
#[local] Abbreviation faulted := ImsCallProxy.faulted.
#[local] Abbreviation CLIRMode_value := ImsCallProxy.CLIRMode_value.

Module SatelliteCallInterfaceCode.
Inductive SatelliteCode :=
  | SATELLITE_DIAL | SATELLITE_HANG_UP | SATELLITE_REJECT | SATELLITE_ANSWER | SATELLITE_HOLD
  | SATELLITE_UN_HOLD | SATELLITE_SWITCH | SATELLITE_CALL_STATE_CHANGE | SATELLITE_GET_CALL_DATA
  | SATELLITE_CALL_REGISTER_CALLBACK.
#[export] Instance SatelliteCode_eq_dec : EqDecision SatelliteCode.
Proof. solve_decision. Defined.
Definition satellite_codes : list (SatelliteCode * Z) :=
  group 5000
    [SATELLITE_DIAL; SATELLITE_HANG_UP; SATELLITE_REJECT; SATELLITE_ANSWER; SATELLITE_HOLD;
     SATELLITE_UN_HOLD; SATELLITE_SWITCH; SATELLITE_CALL_STATE_CHANGE; SATELLITE_GET_CALL_DATA;
     SATELLITE_CALL_REGISTER_CALLBACK].
End SatelliteCallInterfaceCode.
Import SatelliteCallInterfaceCode.

(** [SatelliteCallInterface::GetDescriptor()] *)
Definition SatelliteCallInterface_descriptor : string := "OHOS.Telephony.SatelliteCallInterface".

Section Proxy.
Context `{CallConsts, ConfigEnv, ParcelEnv, IpcEnv} {S : Type}.
Abbreviation Ipc A := (M IpcEvent S A).

Definition satellite_code_value (code : SatelliteCode) : Z := default 0 (enum_value satellite_codes code).

(** [if (!in.WriteInterfaceToken(...)) { failed; return ...; } k] *)
Definition put_token (ev : option HiSysEvent) (k : Parcel → Ipc Z) : Ipc Z :=
  let code := TELEPHONY_ERR_WRITE_DESCRIPTOR_TOKEN_FAIL in
  write [] (IToken SatelliteCallInterface_descriptor)
    (match ev with None => mret code | Some ev => faulted ev code end) k.
(** A write whose failure is recorded. *)
Definition put_fault (ev : HiSysEvent) (p : Parcel) (x : Item) (k : Parcel → Ipc Z) : Ipc Z :=
  write p x (faulted ev TELEPHONY_ERR_WRITE_DATA_FAIL) k.
(** The remote object, the request, the reply; what is recorded when there is no
    remote object and when the request fails. *)
Definition send_call (no_remote : option HiSysEvent) (failed : HiSysEvent) (p : Parcel) (code : SatelliteCode)
    : Ipc Z :=
  let! remote := query Remote in
  if negb remote then
    match no_remote with
    | None => mret TELEPHONY_ERR_LOCAL_PTR_NULL
    | Some ev => faulted ev TELEPHONY_ERR_LOCAL_PTR_NULL
    end
  else
    let! r := transact (satellite_code_value code) p in
    let '(error, out) := r in
    if error =? ERR_NONE then mret (ReadInt32 out).1 else faulted failed TELEPHONY_ERR_IPC_CONNECT_STUB_FAIL.

Definition Dial (callInfo : SatelliteCallInfo) (mode : CLIRMode) : Ipc Z :=
  let event := WriteDialCallFaultEvent (sc_slotId callInfo) INVALID_PARAMETER INVALID_PARAMETER in
  put_token (Some (event TELEPHONY_ERR_WRITE_DESCRIPTOR_TOKEN_FAIL
                     "satellite call proxy write descriptor token fail"%string)) (λ p,
  let data_failed := event TELEPHONY_ERR_WRITE_DATA_FAIL "satellite call proxy write data fail"%string in
  put_fault data_failed p (IRaw (to_raw callInfo)) (λ p,
  put_fault data_failed p (IInt32 (CLIRMode_value mode)) (λ p,
  send_call (Some (event TELEPHONY_ERR_LOCAL_PTR_NULL "satellite call proxy remote is null"%string))
    (event CALL_ERROR_SEND_REQUEST_FAIL "satellite call proxy send request fail"%string) p SATELLITE_DIAL))).

(** A write that fails is recorded as a failed dial. *)
Definition HangUp (slotId index : Z) : Ipc Z :=
  let event := WriteHangUpFaultEvent slotId INVALID_PARAMETER in
  put_token (Some (event TELEPHONY_ERR_WRITE_DESCRIPTOR_TOKEN_FAIL
                     "HangUp satellite call proxy write descriptor token fail"%string)) (λ p,
  let data_failed := WriteDialCallFaultEvent slotId INVALID_PARAMETER INVALID_PARAMETER
                       TELEPHONY_ERR_WRITE_DATA_FAIL "satellite call proxy write data fail"%string in
  put_fault data_failed p (IInt32 slotId) (λ p,
  put_fault data_failed p (IInt32 index) (λ p,
  send_call None (event CALL_ERROR_SEND_REQUEST_FAIL "HangUp ims call proxy send request fail"%string)
    p SATELLITE_HANG_UP))).
Definition Reject (slotId : Z) : Ipc Z :=
  let event := WriteHangUpFaultEvent slotId INVALID_PARAMETER in
  put_token (Some (event TELEPHONY_ERR_WRITE_DESCRIPTOR_TOKEN_FAIL
                     "Reject satellite call proxy write descriptor token fail"%string)) (λ p,
  put p (IInt32 slotId) (λ p,
  send_call None (event CALL_ERROR_SEND_REQUEST_FAIL "Reject satellite call proxy send request fail"%string)
    p SATELLITE_REJECT)).
Definition Answer (slotId : Z) : Ipc Z :=
  let event := WriteAnswerCallFaultEvent slotId INVALID_PARAMETER INVALID_PARAMETER in
  put_token (Some (event TELEPHONY_ERR_WRITE_DESCRIPTOR_TOKEN_FAIL
                     "satellite call proxy write descriptor token fail"%string)) (λ p,
  put p (IInt32 slotId) (λ p,
  send_call None (event CALL_ERROR_SEND_REQUEST_FAIL "satellite call proxy send request fail"%string)
    p SATELLITE_ANSWER)).

Definition WriteCommonInfo (slotId : Z) (p : Parcel) : Ipc (Z * Parcel) :=
  write p (IToken SatelliteCallInterface_descriptor) (mret (TELEPHONY_ERR_WRITE_DESCRIPTOR_TOKEN_FAIL, p)) (λ p,
  write p (IInt32 slotId) (mret (TELEPHONY_ERR_WRITE_DATA_FAIL, p)) (λ p, mret (TELEPHONY_SUCCESS, p))).
(** The overload with a call type, which no method calls. *)
Definition WriteCommonInfo_type (slotId : Z) (p : Parcel) (callType : Z) : Ipc (Z * Parcel) :=
  let! r := WriteCommonInfo slotId p in
  let '(ret, p) := r in
  if bool_decide (ret ≠ TELEPHONY_SUCCESS) then mret (ret, p)
  else write p (IInt32 callType) (mret (TELEPHONY_ERR_WRITE_DATA_FAIL, p)) (λ p, mret (TELEPHONY_SUCCESS, p)).
(** Both overloads, which differ in their logs. *)
Definition SendRequest (p : Parcel) (eventId : SatelliteCode) : Ipc Z :=
  let! remote := query Remote in
  if negb remote then mret TELEPHONY_ERR_IPC_CONNECT_STUB_FAIL
  else
    let! r := transact (satellite_code_value eventId) p in
    let '(error, out) := r in
    if error =? ERR_NONE then mret (ReadInt32 out).1 else mret TELEPHONY_ERR_IPC_CONNECT_STUB_FAIL.
Definition GetSatelliteCallsDataRequest (slotId : Z) : Ipc Z :=
  written (WriteCommonInfo slotId []) (λ p, SendRequest p SATELLITE_GET_CALL_DATA).
Definition RegisterSatelliteCallCallback (callback : option Z) : Ipc Z :=
  match callback with
  | None => mret TELEPHONY_ERR_ARGUMENT_INVALID
  | Some callback =>
      put_token None (λ p, put p (IRemote callback) (λ p, SendRequest p SATELLITE_CALL_REGISTER_CALLBACK))
  end.
End Proxy.
