(* ===== verification/SatelliteCallClient.v ===== *)
(** * SatelliteCallClient: the connection to the satellite service
    (services/satellite_service_interaction/src/satellite_call_client.cpp)

    The client finds the service, watches for its death, registers the callback and
    keeps the handlers of the slots.  When the service dies the calls of every
    slot are reported as ended. *)

From stdpp Require Import base tactics option list numbers strings gmap.
From Stdlib Require Import ZArith Lia Ascii String.
From S2P Require Import Prelude SsTypes ConfigTypes Platform SatelliteControl Service ConfigRequest Parcel IpcCodes.
From S2P Require SatelliteCallProxy.

Open Scope Z_scope.

(** The system ability manager, the objects it hands out, and the death
    recipients; a service is known by the number of its object. *)
Class SatelliteClientEnv := {
  sat_GetSystemAbilityManager : list IpcEvent → bool;
  sat_CheckSystemAbility : list IpcEvent → option Z;
  new_SatelliteServiceDeathRecipient : list IpcEvent → bool;
  IsProxyObject : Z → bool;
  AddDeathRecipient_answer : list IpcEvent → bool;
  cast_ISatelliteService : list IpcEvent → Z → bool;
  sat_GetProxyObjectPtr : list IpcEvent → bool;
  cast_SatelliteCallInterface : list IpcEvent → bool;
  new_SatelliteCallCallbackStub : list IpcEvent → option Z;
  (* the proxy's object, which may be gone *)
  AsObject : list IpcEvent → Z → option Z
}.

(** What the client does with the satellite service, and what is done in this process. *)
Inductive SatelliteEvent :=
  | SatIpc (e : IpcEvent)
  | SatCore (e : Effect).
Definition sat_ipc_of (h : list SatelliteEvent) : list IpcEvent :=
  omap (λ e, match e with SatIpc e => Some e | SatCore _ => None end) h.
Definition sat_core_of (h : list SatelliteEvent) : list Effect :=
  omap (λ e, match e with SatCore e => Some e | SatIpc _ => None end) h.

Record SatelliteCallClient := {
  satelliteServiceProxy_ : option Z;
  satelliteCallProxy_ : bool;
  satelliteCallCallback_ : option Z;
  handlerMap_ : gmap Z bool;
  deathRecipient_ : bool
}.
Definition SatelliteCallClient_new : SatelliteCallClient :=
  {| satelliteServiceProxy_ := None; satelliteCallProxy_ := false; satelliteCallCallback_ := None;
     handlerMap_ := ∅; deathRecipient_ := false |}.
Definition set_serviceProxy (v : option Z) (t : SatelliteCallClient) : SatelliteCallClient :=
  {| satelliteServiceProxy_ := v; satelliteCallProxy_ := satelliteCallProxy_ t;
     satelliteCallCallback_ := satelliteCallCallback_ t; handlerMap_ := handlerMap_ t;
     deathRecipient_ := deathRecipient_ t |}.
Definition set_callProxy (v : bool) (t : SatelliteCallClient) : SatelliteCallClient :=
  {| satelliteServiceProxy_ := satelliteServiceProxy_ t; satelliteCallProxy_ := v;
     satelliteCallCallback_ := satelliteCallCallback_ t; handlerMap_ := handlerMap_ t;
     deathRecipient_ := deathRecipient_ t |}.
Definition set_callCallback (v : option Z) (t : SatelliteCallClient) : SatelliteCallClient :=
  {| satelliteServiceProxy_ := satelliteServiceProxy_ t; satelliteCallProxy_ := satelliteCallProxy_ t;
     satelliteCallCallback_ := v; handlerMap_ := handlerMap_ t; deathRecipient_ := deathRecipient_ t |}.
Definition set_handlerMap (v : gmap Z bool) (t : SatelliteCallClient) : SatelliteCallClient :=
  {| satelliteServiceProxy_ := satelliteServiceProxy_ t; satelliteCallProxy_ := satelliteCallProxy_ t;
     satelliteCallCallback_ := satelliteCallCallback_ t; handlerMap_ := v; deathRecipient_ := deathRecipient_ t |}.
Definition set_deathRecipient (v : bool) (t : SatelliteCallClient) : SatelliteCallClient :=
  {| satelliteServiceProxy_ := satelliteServiceProxy_ t; satelliteCallProxy_ := satelliteCallProxy_ t;
     satelliteCallCallback_ := satelliteCallCallback_ t; handlerMap_ := handlerMap_ t; deathRecipient_ := v |}.

Section Client.
Context `{CallConsts, ConfigEnv, ParcelEnv, IpcEnv, SatelliteClientEnv}.
Abbreviation Cl A := (M IpcEvent SatelliteCallClient A).

(** [std::lock_guard<std::mutex> lock(m)] *)
Definition locked {A} (m : ClientMutex) (k : Cl A) : Cl A :=
  emit (Acquire m false) ;; let! r := k in emit (Release m) ;; mret r.

(** ** Connection *)

Definition IsConnect : Cl bool := locked mutexProxy_ (mgets satelliteCallProxy_).

Definition RegisterSatelliteCallCallback : Cl Z :=
  let! t := mget in
  if negb (satelliteCallProxy_ t) then mret TELEPHONY_ERR_LOCAL_PTR_NULL
  else
    let! stub := query new_SatelliteCallCallbackStub in
    mmodify (set_callCallback stub) ;;
    match stub with
    | None => mret TELEPHONY_ERR_LOCAL_PTR_NULL
    | Some _ =>
        let! ret := SatelliteCallProxy.RegisterSatelliteCallCallback stub in
        if negb (ret =? 0) then mret TELEPHONY_ERR_FAIL else mret TELEPHONY_SUCCESS
    end.

(** [remoteObjectPtr->IsProxyObject() && !remoteObjectPtr->AddDeathRecipient(dr)] *)
Definition AddDeathRecipient (remoteObjectPtr : Z) : Cl bool :=
  if IsProxyObject remoteObjectPtr then
    let! added := query AddDeathRecipient_answer in
    (if (added : bool) then emit (DeathRecipient true) else mret ()) ;; mret added
  else mret true.
Definition GetSatelliteCallProxy : Cl bool :=
  locked mutexProxy_
    (let! t := mget in
     if satelliteCallProxy_ t then mret true
     else
       let! managerPtr := query sat_GetSystemAbilityManager in
       if negb managerPtr then mret false
       else
         let! remoteObjectPtr := query sat_CheckSystemAbility in
         match remoteObjectPtr with
         | None => mret false
         | Some remote =>
             let! recipient := query new_SatelliteServiceDeathRecipient in
             if negb recipient then mret false
             else
               let! watched := AddDeathRecipient remote in
               if negb watched then mret false
               else
                 let! service := query (λ h, cast_ISatelliteService h remote) in
                 mmodify (set_serviceProxy (if (service : bool) then Some remote else None)) ;;
                 if negb service then mret false
                 else
                   let! object := query sat_GetProxyObjectPtr in
                   if negb object then mret false
                   else
                     let! proxy := query cast_SatelliteCallInterface in
                     mmodify (set_callProxy proxy) ;;
                     mmodify (set_deathRecipient true) ;;
                     RegisterSatelliteCallCallback ;;
                     mgets satelliteCallProxy_
         end).

(** The proxy is looked at without the mutex. *)
Definition ReConnectService : Cl Z :=
  let! t := mget in
  if negb (satelliteCallProxy_ t) then
    GetSatelliteCallProxy ;;
    let! t := mget in
    if negb (satelliteCallProxy_ t) then mret TELEPHONY_ERR_IPC_CONNECT_STUB_FAIL
    else mret TELEPHONY_SUCCESS
  else mret TELEPHONY_SUCCESS.

(** What is under the last lock is only logged. *)
Definition Init : Cl () :=
  let! connected := IsConnect in
  if connected then mret ()
  else GetSatelliteCallProxy ;; locked mutexProxy_ (mret ()).
Definition Clean : Cl () :=
  locked mutexProxy_ (mmodify (set_callProxy false) ;; mmodify (set_callCallback None)).
Definition UnInit : Cl () := Clean ;; locked mutexMap_ (mmodify (set_handlerMap ∅)).

(** ** Handlers *)

(** [handlerMap_.insert]: an entry that is there stays. *)
Definition RegisterSatelliteCallCallbackHandler (slotId : Z) (handler : bool) : Cl Z :=
  if negb handler then mret TELEPHONY_ERR_LOCAL_PTR_NULL
  else
    locked mutexMap_
      (mmodify (λ t, set_handlerMap
         (match handlerMap_ t !! slotId with
          | Some _ => handlerMap_ t
          | None => <[slotId := handler]> (handlerMap_ t)
          end) t) ;;
       mret TELEPHONY_SUCCESS).
(** [handlerMap_\[slotId\]]: a null entry is made when there is none. *)
Definition GetHandler (slotId : Z) : Cl bool :=
  locked mutexMap_
    (let! t := mget in
     match handlerMap_ t !! slotId with
     | Some handler => mret handler
     | None => mmodify (set_handlerMap (<[slotId := false]> (handlerMap_ t))) ;; mret false
     end).

(** ** Requests *)

(** [satelliteCallProxy_->f()] *)
Definition through_proxy (k : Cl Z) : Cl Z :=
  let! t := mget in if satelliteCallProxy_ t then k else emit NullProxy ;; mret TELEPHONY_ERR_LOCAL_PTR_NULL.
Definition with_service (failed : Cl ()) (k : Cl Z) : Cl Z :=
  let! ret := ReConnectService in
  if bool_decide (ret ≠ TELEPHONY_SUCCESS) then failed ;; mret TELEPHONY_ERR_IPC_CONNECT_STUB_FAIL
  else locked mutexProxy_ (through_proxy k).

Definition Dial (callInfo : SatelliteCallInfo) (mode : CLIRMode) : Cl Z :=
  with_service
    (fault (WriteDialCallFaultEvent (sc_slotId callInfo) INVALID_PARAMETER INVALID_PARAMETER
              TELEPHONY_ERR_IPC_CONNECT_STUB_FAIL "ipc reconnect failed"))
    (SatelliteCallProxy.Dial callInfo mode).
Definition HangUp (slotId index : Z) : Cl Z :=
  with_service
    (fault (WriteHangUpFaultEvent slotId INVALID_PARAMETER TELEPHONY_ERR_IPC_CONNECT_STUB_FAIL
              "HangUp satellite ipc reconnect failed"))
    (SatelliteCallProxy.HangUp slotId index).
Definition Reject (slotId : Z) : Cl Z :=
  with_service
    (fault (WriteHangUpFaultEvent slotId INVALID_PARAMETER TELEPHONY_ERR_IPC_CONNECT_STUB_FAIL
              "Reject satellite ipc reconnect failed"))
    (SatelliteCallProxy.Reject slotId).
Definition Answer (slotId : Z) : Cl Z :=
  with_service
    (fault (WriteAnswerCallFaultEvent slotId INVALID_PARAMETER INVALID_PARAMETER
              TELEPHONY_ERR_IPC_CONNECT_STUB_FAIL "answer satellite ipc reconnect failed"))
    (SatelliteCallProxy.Answer slotId).
(** [lastCallsDataFlag] goes nowhere. *)
Definition GetSatelliteCallsDataRequest (slotId lastCallsDataFlag : Z) : Cl Z :=
  with_service (mret ()) (SatelliteCallProxy.GetSatelliteCallsDataRequest slotId).

(** ** The death of the service *)

(** The object that died, if it can still be named. *)
Definition RemoveDeathRecipient (remote : option Z) : Cl () :=
  match remote with
  | None => mret ()
  | Some remote =>
      locked mutexProxy_
        (let! t := mget in
         match satelliteServiceProxy_ t with
         | None => mret ()
         | Some service =>
             let! serviceRemote := query (λ h, AsObject h service) in
             match serviceRemote with
             | None => mret ()
             | Some serviceRemote =>
                 if bool_decide (serviceRemote ≠ remote) then mret ()
                 else
                   emit (DeathRecipient false) ;;
                   mmodify (set_serviceProxy None) ;; mmodify (set_callProxy false)
             end
         end)
  end.
End Client.

(** The client and the service whose calls it ends. *)
Record ClientAndCalls := { cc_client : SatelliteCallClient; cc_calls : CellularCallService }.

Section Calls.
Context `{CallConsts, E : Env, ConfigEnv, ParcelEnv, IpcEnv, SatelliteClientEnv, ServiceEnv}.
Abbreviation Died A := (M SatelliteEvent ClientAndCalls A).

(** Every slot, whatever died. *)
Definition ClearAllCallsInfo : Op CellularCallService () :=
  let! serviceInstance := ask service_instance in
  if negb serviceInstance then mret ()
  else
    mfor (seqZ DEFAULT_SIM_SLOT_ID (SIM_SLOT_COUNT - DEFAULT_SIM_SLOT_ID)) (λ slotId,
      if_control slotId (λ E, SatelliteControl.ReportHangUpInfo slotId)).

Definition client_part {A} (m : M IpcEvent SatelliteCallClient A) : Died A :=
  λ s h, let '(a, c, e) := m (cc_client s) (sat_ipc_of h) in
         (a, {| cc_client := c; cc_calls := cc_calls s |}, SatIpc <$> e).
Definition calls_part {A} (m : Op CellularCallService A) : Died A :=
  λ s h, let '(a, v, e) := m (cc_calls s) (sat_core_of h) in
         (a, {| cc_client := cc_client s; cc_calls := v |}, SatCore <$> e).
Definition OnRemoteDied (remote : option Z) : Died () :=
  client_part (RemoveDeathRecipient remote) ;; calls_part ClearAllCallsInfo.
End Calls.
