(* ===== verification/SatelliteCallCallbackProxy.v ===== *)
(** * SatelliteCallCallbackProxy: the reports of the satellite service
    (services/satellite_service_interaction/src/satellite_call_callback_proxy.cpp,
    interfaces/innerkits/satellite/satellite_call_callback_ipc_interface_code.h)

    The satellite service's end of the callback: each method writes a report into
    a parcel and sends it under its code. *)

From stdpp Require Import base tactics option list numbers strings gmap.
From Stdlib Require Import ZArith Lia Ascii String.
From S2P Require Import Prelude SsTypes ConfigTypes Platform ControlBase ConfigRequest Parcel IpcCodes.
From S2P Require ImsCallProxy.

Open Scope Z_scope.

#[local] Abbreviation put := ImsCallProxy.put.
#[local] Abbreviation put_all := ImsCallProxy.put_all.
#[local] Abbreviation written := ImsCallProxy.written.

Module SatelliteCallCallbackInterfaceCode.
Inductive SatelliteCallbackCode :=
  | SATELLITE_DIAL | SATELLITE_HANG_UP | SATELLITE_REJECT | SATELLITE_ANSWER
  | SATELLITE_CALL_STATE_CHANGE | SATELLITE_GET_CALLS_DATA.
#[export] Instance SatelliteCallbackCode_eq_dec : EqDecision SatelliteCallbackCode.
Proof. solve_decision. Defined.
Definition satellite_callback_codes : list (SatelliteCallbackCode * Z) :=
  group 0
    [SATELLITE_DIAL; SATELLITE_HANG_UP; SATELLITE_REJECT; SATELLITE_ANSWER; SATELLITE_CALL_STATE_CHANGE;
     SATELLITE_GET_CALLS_DATA].
End SatelliteCallCallbackInterfaceCode.
Import SatelliteCallCallbackInterfaceCode.

(** [SatelliteCallCallbackInterface::GetDescriptor()] *)
Definition SatelliteCallCallbackInterface_descriptor : string := "OHOS.Telephony.SatelliteCallCallback".

Section Proxy.
Context `{CallConsts, ConfigEnv, ParcelEnv, IpcEnv} {S : Type}.
Abbreviation Ipc A := (M IpcEvent S A).

Definition code_value (code : SatelliteCallbackCode) : Z := default 0 (enum_value satellite_callback_codes code).
Definition SendResponseInfo (eventId : SatelliteCallbackCode) (p : Parcel) : Ipc Z :=
  let! remote := query Remote in
  if negb remote then mret TELEPHONY_ERR_LOCAL_PTR_NULL
  else
    let! r := transact (code_value eventId) p in
    let '(error, out) := r in
    if error =? ERR_NONE then mret (ReadInt32 out).1 else mret TELEPHONY_ERR_IPC_CONNECT_STUB_FAIL.
Definition WriteCommonInfo (slotId : Z) (p : Parcel) : Ipc (Z * Parcel) :=
  write p (IToken SatelliteCallCallbackInterface_descriptor)
    (mret (TELEPHONY_ERR_WRITE_DESCRIPTOR_TOKEN_FAIL, p)) (λ p,
  write p (IInt32 slotId) (mret (TELEPHONY_ERR_WRITE_DATA_FAIL, p)) (λ p, mret (TELEPHONY_SUCCESS, p))).
Definition WriteCommonInfo_info (slotId : Z) (p : Parcel) (info : RadioResponseInfo) : Ipc (Z * Parcel) :=
  let! r := WriteCommonInfo slotId p in
  let '(ret, p) := r in
  if bool_decide (ret ≠ TELEPHONY_SUCCESS) then mret (ret, p)
  else write p (IRaw (to_raw info)) (mret (TELEPHONY_ERR_WRITE_DATA_FAIL, p)) (λ p, mret (TELEPHONY_SUCCESS, p)).

Definition respond (eventId : SatelliteCallbackCode) (slotId : Z) (info : RadioResponseInfo) : Ipc Z :=
  written (WriteCommonInfo_info slotId [] info) (λ p, SendResponseInfo eventId p).
Definition DialSatelliteResponse : Z → RadioResponseInfo → Ipc Z := respond SATELLITE_DIAL.
Definition HangUpSatelliteResponse : Z → RadioResponseInfo → Ipc Z := respond SATELLITE_HANG_UP.
Definition RejectSatelliteResponse : Z → RadioResponseInfo → Ipc Z := respond SATELLITE_REJECT.
Definition AnswerSatelliteResponse : Z → RadioResponseInfo → Ipc Z := respond SATELLITE_ANSWER.
Definition CallStateChangeReport (slotId : Z) : Ipc Z :=
  written (WriteCommonInfo slotId []) (λ p, SendResponseInfo SATELLITE_CALL_STATE_CHANGE p).
Definition GetSatelliteCallsDataResponse_info : Z → RadioResponseInfo → Ipc Z := respond SATELLITE_GET_CALLS_DATA.
Definition call_items (call : SatelliteCurrentCall) : list Item :=
  [IInt32 (sa_index call); IInt32 (sa_dir call); IInt32 (sa_state call); IInt32 (sa_mode call);
   IInt32 (sa_mpty call); IInt32 (sa_voiceDomain call); IInt32 (sa_callType call); IString (sa_number call);
   IInt32 (sa_type call); IString (sa_alpha call); IInt32 (sa_toa call)].
(** The slot is written twice. *)
Definition GetSatelliteCallsDataResponse_list (slotId : Z) (callList : SatelliteCurrentCallList) : Ipc Z :=
  written (WriteCommonInfo slotId []) (λ p,
  put p (IInt32 slotId) (λ p,
  put p (IInt32 (sal_callSize callList)) (λ p,
  put p (IInt32 (sal_flag callList)) (λ p,
  put p (IInt32 (i32 (Z.of_nat (Datatypes.length (sal_calls callList))))) (λ p,
  put_all p (sal_calls callList ≫= call_items) (λ p, SendResponseInfo SATELLITE_GET_CALLS_DATA p)))))).
(** No method calls it. *)
Definition WriteSsBaseResultCommonInfo (slotId : Z) (p : Parcel) (ssResult : SsBaseResult) : Ipc (Z * Parcel) :=
  let failed p : Ipc (Z * Parcel) := mret (TELEPHONY_ERR_WRITE_DATA_FAIL, p) in
  let! r := WriteCommonInfo slotId p in
  let '(ret, p) := r in
  if bool_decide (ret ≠ TELEPHONY_SUCCESS) then mret (ret, p)
  else
    write p (IInt32 (sb_index ssResult)) (failed p) (λ p,
    write p (IInt32 (sb_result ssResult)) (failed p) (λ p,
    write p (IInt32 (sb_reason ssResult)) (failed p) (λ p,
    write p (IString (sb_message ssResult)) (failed p) (λ p, mret (TELEPHONY_SUCCESS, p))))).
End Proxy.
