(* ===== verification/SatelliteCallCallbackStub.v ===== *)
(** * SatelliteCallCallbackStub: the reports read
    (services/satellite_service_interaction/src/satellite_call_callback_stub.cpp)

    This process's end of the callback: a report is read and posted as an event to
    the handler of its slot, which [SatelliteCallClient] knows. *)

From stdpp Require Import base tactics option list numbers strings gmap.
From Stdlib Require Import ZArith Lia Ascii String.
From S2P Require Import Prelude SsTypes ConfigTypes Platform ControlBase ConfigRequest Parcel IpcCodes.
From S2P Require Import SatelliteCallCallbackProxy.
From S2P Require Import SatelliteCallClient.

Open Scope Z_scope.
Import SatelliteCallCallbackInterfaceCode.

(** The library. *)
Class SatelliteStubEnv := {
  sat_IPCObjectStub_OnRemoteRequest : list SatelliteEvent → Z → Parcel → Z * Parcel;
  sat_stub_write_ok : list SatelliteEvent → Parcel → Item → bool
}.
#[export] Instance sat_stub_writes `{SatelliteStubEnv} : ParcelWrites SatelliteEvent :=
  {| write_ok := sat_stub_write_ok |}.

Definition MAX_SIZE : Z := 10.

Section Stub.
Context `{CallConsts, E : Env, ConfigEnv, ParcelEnv, SatelliteStubEnv}.
Abbreviation St A := (M SatelliteEvent SatelliteCallClient A).

Definition on_client {A} (m : M IpcEvent SatelliteCallClient A) : St A :=
  λ s h, let '(a, s', e) := m s (sat_ipc_of h) in (a, s', SatIpc <$> e).
(** [TelEventHandler::SendTelEvent] *)
Definition SendTelEvent (slotId : Z) (ev : TelEvent) : St bool :=
  λ s h, let '(a, _, e) := request_bool (SendEvent slotId (TEL_EVENT ev)) () (sat_core_of h) in (a, s, SatCore <$> e).
(** A look for the handler, the event, and the answer of all methods. *)
Definition post (slotId : Z) (eventId : RadioEvent) (object : TelObject) : St Z :=
  let! handler := on_client (GetHandler slotId) in
  if negb handler then mret TELEPHONY_ERR_LOCAL_PTR_NULL
  else
    let! ret := SendTelEvent slotId {| te_id := Basic eventId; te_object := object; te_param := 0 |} in
    if negb ret then mret TELEPHONY_ERR_FAIL else mret TELEPHONY_SUCCESS.
Definition SatSendEvent (slotId : Z) (eventId : RadioEvent) (info : RadioResponseInfo) : St Z :=
  post slotId eventId (ObjResponseInfo info).

Definition DialSatelliteResponse (slotId : Z) : RadioResponseInfo → St Z := SatSendEvent slotId SATELLITE_RADIO_DIAL.
Definition HangUpSatelliteResponse (slotId : Z) : RadioResponseInfo → St Z :=
  SatSendEvent slotId SATELLITE_RADIO_HANGUP.
Definition RejectSatelliteResponse (slotId : Z) : RadioResponseInfo → St Z :=
  SatSendEvent slotId SATELLITE_RADIO_REJECT.
Definition AnswerSatelliteResponse (slotId : Z) : RadioResponseInfo → St Z :=
  SatSendEvent slotId SATELLITE_RADIO_ANSWER.
Definition CallStateChangeReport (slotId : Z) : St Z := post slotId SATELLITE_RADIO_CALL_STATE_CHANGED NoObject.
Definition GetSatelliteCallsDataResponse_info (slotId : Z) : RadioResponseInfo → St Z :=
  SatSendEvent slotId SATELLITE_RADIO_GET_CALL_DATA.
Definition GetSatelliteCallsDataResponse_list (slotId : Z) (callList : SatelliteCurrentCallList) : St Z :=
  post slotId SATELLITE_RADIO_GET_CALL_DATA (ObjSatelliteCalls callList).

Definition with_raw (k : Z → RadioResponseInfo → St Z) (data : Parcel) : St (Z * Parcel) :=
  let '(slotId, data) := ReadInt32 data in
  match (ReadRawData data).1 with
  | None => mret (TELEPHONY_ERR_ARGUMENT_INVALID, [])
  | Some info => reply_with (k slotId info)
  end.
Definition OnDialResponseInner : Parcel → St (Z * Parcel) := with_raw DialSatelliteResponse.
Definition OnHangUpResponseInner : Parcel → St (Z * Parcel) := with_raw HangUpSatelliteResponse.
Definition OnRejectResponseInner : Parcel → St (Z * Parcel) := with_raw RejectSatelliteResponse.
Definition OnAnswerResponseInner : Parcel → St (Z * Parcel) := with_raw AnswerSatelliteResponse.
Definition OnCallStateChangeReportInner (data : Parcel) : St (Z * Parcel) :=
  let '(slotId, _) := ReadInt32 data in reply_with (CallStateChangeReport slotId).
Definition ReadCall (data : Parcel) : SatelliteCurrentCall * Parcel :=
  let '(index, data) := ReadInt32 data in
  let '(dir, data) := ReadInt32 data in
  let '(state, data) := ReadInt32 data in
  let '(mode, data) := ReadInt32 data in
  let '(mpty, data) := ReadInt32 data in
  let '(voiceDomain, data) := ReadInt32 data in
  let '(callType, data) := ReadInt32 data in
  let '(number, data) := ReadString data in
  let '(type, data) := ReadInt32 data in
  let '(alpha, data) := ReadString data in
  let '(toa, data) := ReadInt32 data in
  ({| sa_index := index; sa_dir := dir; sa_state := state; sa_mode := mode; sa_mpty := mpty;
      sa_voiceDomain := voiceDomain; sa_callType := callType; sa_number := number; sa_type := type;
      sa_alpha := alpha; sa_toa := toa |}, data).
Definition OnGetSatelliteCallsDataResponseInner (data : Parcel) : St (Z * Parcel) :=
  let '(slotId, data) := ReadInt32 data in
  match ReadRawData data with
  | (None, data) =>
      let '(callSize, data) := ReadInt32 data in
      let '(flag, data) := ReadInt32 data in
      let '(len, data) := ReadInt32 data in
      if (len <? 0) || (MAX_SIZE <? len) then mret (TELEPHONY_ERR_FAIL, [])
      else
        reply_with (GetSatelliteCallsDataResponse_list slotId
          {| sal_callSize := callSize; sal_flag := flag;
             sal_calls := (read_list ReadCall (Z.to_nat len) data).1 |})
  | (Some info, _) => reply_with (GetSatelliteCallsDataResponse_info slotId info)
  end.
Definition requestFuncMap (code : SatelliteCallbackCode) : Parcel → St (Z * Parcel) :=
  match code with
  | SATELLITE_DIAL => OnDialResponseInner
  | SATELLITE_HANG_UP => OnHangUpResponseInner
  | SATELLITE_REJECT => OnRejectResponseInner
  | SATELLITE_ANSWER => OnAnswerResponseInner
  | SATELLITE_CALL_STATE_CHANGE => OnCallStateChangeReportInner
  | SATELLITE_GET_CALLS_DATA => OnGetSatelliteCallsDataResponseInner
  end.
Definition OnRemoteRequest (code : Z) (data : Parcel) : St (Z * Parcel) :=
  let '(remoteDescriptor, data) := ReadInterfaceToken data in
  if bool_decide (SatelliteCallCallbackInterface_descriptor ≠ remoteDescriptor)
  then mret (TELEPHONY_ERR_DESCRIPTOR_MISMATCH, [])
  else
    match enum_code satellite_callback_codes code with
    | Some c => requestFuncMap c data
    | None => query (λ h, sat_IPCObjectStub_OnRemoteRequest h code data)
    end.
End Stub.
