(* ===== verification/ImsCallClient.v ===== *)
(** * ImsCallClient: the connection to the IMS service
    (services/ims_service_interaction/src/ims_call_client.cpp)

    The client finds the service, registers the callback and keeps the handlers
    of the slots.  Every request first reconnects when there is no proxy, then
    goes through the proxy under a shared lock.  Each lock taken and released is
    an effect; an operation is one uninterrupted run. *)

From stdpp Require Import base tactics option list numbers strings gmap.
From Stdlib Require Import ZArith Lia Ascii String.
From S2P Require Import Prelude SsTypes ConfigTypes Platform ConfigRequest Parcel IpcCodes.
From S2P Require ImsCallProxy.

Open Scope Z_scope.

(** The system ability manager and the objects it hands out. *)
Class ClientEnv := {
  GetSystemAbilityManager : list IpcEvent → bool;
  CheckSystemAbility : list IpcEvent → bool;
  cast_ImsCoreServiceInterface : list IpcEvent → bool;
  GetProxyObjectPtr : list IpcEvent → bool;
  cast_ImsCallInterface : list IpcEvent → bool;
  new_SystemAbilityListener : list IpcEvent → bool;
  new_ImsCallCallbackStub : list IpcEvent → option Z;
  SubscribeSystemAbility_answer : list IpcEvent → Z;
  CheckInputSysAbilityId : Z → bool
}.

(** Pointers are null or not; the callback is its object; a handler of the map
    may be null. *)
Record ImsCallClient := {
  imsCoreServiceProxy_ : bool;
  imsCallProxy_ : bool;
  imsCallCallback_ : option Z;
  handlerMap_ : gmap Z bool;
  statusChangeListener_ : bool
}.
Definition ImsCallClient_new : ImsCallClient :=
  {| imsCoreServiceProxy_ := false; imsCallProxy_ := false; imsCallCallback_ := None;
     handlerMap_ := ∅; statusChangeListener_ := false |}.
Definition set_imsCoreServiceProxy (v : bool) (t : ImsCallClient) : ImsCallClient :=
  {| imsCoreServiceProxy_ := v; imsCallProxy_ := imsCallProxy_ t; imsCallCallback_ := imsCallCallback_ t;
     handlerMap_ := handlerMap_ t; statusChangeListener_ := statusChangeListener_ t |}.
Definition set_imsCallProxy (v : bool) (t : ImsCallClient) : ImsCallClient :=
  {| imsCoreServiceProxy_ := imsCoreServiceProxy_ t; imsCallProxy_ := v; imsCallCallback_ := imsCallCallback_ t;
     handlerMap_ := handlerMap_ t; statusChangeListener_ := statusChangeListener_ t |}.
Definition set_imsCallCallback (v : option Z) (t : ImsCallClient) : ImsCallClient :=
  {| imsCoreServiceProxy_ := imsCoreServiceProxy_ t; imsCallProxy_ := imsCallProxy_ t; imsCallCallback_ := v;
     handlerMap_ := handlerMap_ t; statusChangeListener_ := statusChangeListener_ t |}.
Definition set_handlerMap (v : gmap Z bool) (t : ImsCallClient) : ImsCallClient :=
  {| imsCoreServiceProxy_ := imsCoreServiceProxy_ t; imsCallProxy_ := imsCallProxy_ t;
     imsCallCallback_ := imsCallCallback_ t; handlerMap_ := v;
     statusChangeListener_ := statusChangeListener_ t |}.
Definition set_statusChangeListener (v : bool) (t : ImsCallClient) : ImsCallClient :=
  {| imsCoreServiceProxy_ := imsCoreServiceProxy_ t; imsCallProxy_ := imsCallProxy_ t;
     imsCallCallback_ := imsCallCallback_ t; handlerMap_ := handlerMap_ t; statusChangeListener_ := v |}.

Section Client.
Context `{CallConsts, ConfigEnv, ParcelEnv, IpcEnv, ClientEnv}.
Abbreviation Cl A := (M IpcEvent ImsCallClient A).

Definition locked {A} (m : ClientMutex) (shared : bool) (k : Cl A) : Cl A :=
  emit (Acquire m shared) ;; let! r := k in emit (Release m) ;; mret r.

(** ** Connection *)

Definition IsConnect : Cl bool := locked clientLock_ true (mgets imsCallProxy_).

Definition RegisterImsCallCallback : Cl Z :=
  let! t := mget in
  if negb (imsCallProxy_ t) then mret TELEPHONY_ERR_LOCAL_PTR_NULL
  else
    let! stub := query new_ImsCallCallbackStub in
    mmodify (set_imsCallCallback stub) ;;
    match stub with
    | None => mret TELEPHONY_ERR_LOCAL_PTR_NULL
    | Some _ =>
        let! ret := ImsCallProxy.RegisterImsCallCallback stub in
        if negb (ret =? 0) then mret TELEPHONY_ERR_FAIL else mret TELEPHONY_SUCCESS
    end.

Definition GetImsCallProxy : Cl bool :=
  let! connected := locked clientLock_ true (mgets imsCallProxy_) in
  if connected then mret true
  else
    let! manager := query GetSystemAbilityManager in
    if negb manager then mret false
    else
      let! remote := query CheckSystemAbility in
      if negb remote then mret false
      else
        locked clientLock_ false
          (let! core := query cast_ImsCoreServiceInterface in
           mmodify (set_imsCoreServiceProxy core) ;;
           if negb core then mret false
           else
             let! object := query GetProxyObjectPtr in
             if negb object then mret false
             else
               let! proxy := query cast_ImsCallInterface in
               mmodify (set_imsCallProxy proxy) ;;
               if negb proxy then mret false
               else RegisterImsCallCallback ;; mret true).

Definition ReConnectService : Cl Z :=
  let! t := mget in
  if negb (imsCallProxy_ t) then
    GetImsCallProxy ;;
    let! t := mget in
    if negb (imsCallProxy_ t) then mret TELEPHONY_ERR_IPC_CONNECT_STUB_FAIL
    else mret TELEPHONY_SUCCESS
  else mret TELEPHONY_SUCCESS.

(** The shared lock is held from the look at the proxy to the end. *)
Definition Init : Cl () :=
  let! connected := IsConnect in
  if connected then mret ()
  else
    GetImsCallProxy ;;
    locked clientLock_ true
      (let! listener := query new_SystemAbilityListener in
       mmodify (set_statusChangeListener listener) ;;
       if negb listener then mret ()
       else
         let! manager := query GetSystemAbilityManager in
         if negb manager then mret ()
         else call (λ h _, SubscribeSystemAbility_answer h) SubscribeSystemAbility ;; mret ()).

Definition Clean : Cl () :=
  locked clientLock_ false
    (mmodify (set_imsCoreServiceProxy false) ;;
     mmodify (set_imsCallProxy false) ;;
     mmodify (set_imsCallCallback None)).

Definition UnInit : Cl () :=
  Clean ;;
  mmodify (set_statusChangeListener false) ;;
  locked mutexMap_ false (mmodify (set_handlerMap ∅)).

(** ** The listener *)

Definition OnAddSystemAbility (systemAbilityId : Z) : Cl () :=
  if negb (CheckInputSysAbilityId systemAbilityId) then mret ()
  else
    let! connected := IsConnect in
    if connected then mret () else Clean ;; ReConnectService ;; mret ().
Definition OnRemoveSystemAbility : Cl () :=
  let! connected := IsConnect in
  if negb connected then mret () else Clean.

(** ** Handlers *)

(** [handlerMap_.insert]: an entry that is there stays. *)
Definition RegisterImsCallCallbackHandler (slotId : Z) (handler : bool) : Cl Z :=
  if negb handler then mret TELEPHONY_ERR_LOCAL_PTR_NULL
  else
    locked mutexMap_ false
      (mmodify (λ t, set_handlerMap
         (match handlerMap_ t !! slotId with
          | Some _ => handlerMap_ t
          | None => <[slotId := handler]> (handlerMap_ t)
          end) t) ;;
       mret TELEPHONY_SUCCESS).
(** [handlerMap_\[slotId\]]: a null entry is made when there is none. *)
Definition GetHandler (slotId : Z) : Cl bool :=
  locked mutexMap_ false
    (let! t := mget in
     match handlerMap_ t !! slotId with
     | Some handler => mret handler
     | None => mmodify (set_handlerMap (<[slotId := false]> (handlerMap_ t))) ;; mret false
     end).

(** ** Requests *)

(** [imsCallProxy_->f()] *)
Definition through_proxy {A} (crashed : A) (k : Cl A) : Cl A :=
  let! t := mget in if imsCallProxy_ t then k else emit NullProxy ;; mret crashed.
(** [failed]: what is recorded when the reconnection fails; [result] gives the
    answer its type. *)
Definition with_service {A} (failed : Cl ()) (result : Z → A) (k : Cl A) : Cl A :=
  let! ret := ReConnectService in
  if bool_decide (ret ≠ TELEPHONY_SUCCESS) then
    failed ;; mret (result TELEPHONY_ERR_IPC_CONNECT_STUB_FAIL)
  else locked clientLock_ true (through_proxy (result TELEPHONY_ERR_LOCAL_PTR_NULL) k).
Definition forward (k : Cl Z) : Cl Z := with_service (mret ()) (λ r, r) k.
Definition forward_fault (ev : HiSysEvent) (k : Cl Z) : Cl Z := with_service (fault ev) (λ r, r) k.

Definition Dial (callInfo : ImsCallInfo) (mode : CLIRMode) : Cl Z :=
  forward_fault (WriteDialCallFaultEvent (ic_slotId callInfo) INVALID_PARAMETER (ic_videoState callInfo)
    TELEPHONY_ERR_IPC_CONNECT_STUB_FAIL "ipc reconnect failed") (ImsCallProxy.Dial callInfo mode).
Definition HangUp (callInfo : ImsCallInfo) : Cl Z :=
  forward_fault (WriteHangUpFaultEvent (ic_slotId callInfo) INVALID_PARAMETER
    TELEPHONY_ERR_IPC_CONNECT_STUB_FAIL "HangUp ims ipc reconnect failed") (ImsCallProxy.HangUp callInfo).
(** [ImsRejectReason::USER_DECLINE] *)
Definition USER_DECLINE : Z := 1.
Definition Reject (callInfo : ImsCallInfo) : Cl Z :=
  forward_fault (WriteHangUpFaultEvent (ic_slotId callInfo) INVALID_PARAMETER
    TELEPHONY_ERR_IPC_CONNECT_STUB_FAIL "Reject ims ipc reconnect failed")
    (ImsCallProxy.RejectWithReason callInfo USER_DECLINE).
Definition RejectWithReason (callInfo : ImsCallInfo) (reason : Z) : Cl Z :=
  forward (ImsCallProxy.RejectWithReason callInfo reason).
Definition Answer (callInfo : ImsCallInfo) : Cl Z :=
  forward_fault (WriteAnswerCallFaultEvent (ic_slotId callInfo) INVALID_PARAMETER (ic_videoState callInfo)
    TELEPHONY_ERR_IPC_CONNECT_STUB_FAIL "answer ims ipc reconnect failed") (ImsCallProxy.Answer callInfo).
Definition HoldCall (slotId callType : Z) (isRTT : bool) : Cl Z :=
  forward (ImsCallProxy.HoldCall slotId callType isRTT).
Definition UnHoldCall (slotId callType : Z) (isRTT : bool) : Cl Z :=
  forward (ImsCallProxy.UnHoldCall slotId callType isRTT).
Definition SwitchCall (slotId callType : Z) (isRTT : bool) : Cl Z :=
  forward (ImsCallProxy.SwitchCall slotId callType isRTT).
Definition CombineConference (slotId : Z) : Cl Z := forward (ImsCallProxy.CombineConference slotId).
Definition InviteToConference (slotId : Z) (numberList : list string) : Cl Z :=
  forward (ImsCallProxy.InviteToConference slotId numberList).
Definition KickOutFromConference (slotId index : Z) : Cl Z :=
  forward (ImsCallProxy.KickOutFromConference slotId index).
Definition SendUpdateCallMediaModeRequest (callInfo : ImsCallInfo) (callType : Z) : Cl Z :=
  forward (ImsCallProxy.SendUpdateCallMediaModeRequest callInfo callType).
Definition SendUpdateCallMediaModeResponse (callInfo : ImsCallInfo) (callType : Z) : Cl Z :=
  forward (ImsCallProxy.SendUpdateCallMediaModeResponse callInfo callType).
Definition CancelCallUpgrade (slotId callIndex : Z) : Cl Z :=
  forward (ImsCallProxy.CancelCallUpgrade slotId callIndex).
Definition RequestCameraCapabilities (slotId callIndex : Z) : Cl Z :=
  forward (ImsCallProxy.RequestCameraCapabilities slotId callIndex).
Definition GetImsCallsDataRequest (slotId lastCallsDataFlag : Z) : Cl Z :=
  forward (ImsCallProxy.GetImsCallsDataRequest slotId lastCallsDataFlag).
Definition GetLastCallFailReason (slotId : Z) : Cl Z :=
  forward (ImsCallProxy.GetLastCallFailReason slotId).
Definition StartDtmf (slotId : Z) (cDtmfCode : ascii) (index : Z) : Cl Z :=
  forward (ImsCallProxy.StartDtmf slotId cDtmfCode index).
Definition SendDtmf (slotId : Z) (cDtmfCode : ascii) (index : Z) : Cl Z :=
  forward (ImsCallProxy.SendDtmf slotId cDtmfCode index).
Definition StopDtmf (slotId index : Z) : Cl Z := forward (ImsCallProxy.StopDtmf slotId index).
Definition UpdateImsRttCallMode (slotId callId mode : Z) : Cl Z :=
  forward (ImsCallProxy.UpdateImsRttCallMode slotId callId mode).
Definition SetDomainPreferenceMode (slotId mode : Z) : Cl Z :=
  forward (ImsCallProxy.SetDomainPreferenceMode slotId mode).
Definition GetDomainPreferenceMode (slotId : Z) : Cl Z :=
  forward (ImsCallProxy.GetDomainPreferenceMode slotId).
Definition SetCarrierVtConfig (slotId active : Z) : Cl Z :=
  forward (ImsCallProxy.SetCarrierVtConfig slotId active).
Definition SetImsSwitchStatus (slotId active : Z) : Cl Z :=
  forward (ImsCallProxy.SetImsSwitchStatus slotId active).
Definition GetImsSwitchStatus (slotId : Z) : Cl Z := forward (ImsCallProxy.GetImsSwitchStatus slotId).
Definition SetImsConfig_string (item : Z) (value : string) : Cl Z :=
  forward (ImsCallProxy.SetImsConfig_string item value).
Definition SetImsConfig_int (item value : Z) : Cl Z :=
  forward (ImsCallProxy.SetImsConfig_int item value).
Definition GetImsConfig (item : Z) : Cl Z := forward (ImsCallProxy.GetImsConfig item).
Definition SetImsFeatureValue (type value : Z) : Cl Z :=
  forward (ImsCallProxy.SetImsFeatureValue type value).
(** The answer, and the reference [value]. *)
Definition GetImsFeatureValue (type value : Z) : Cl (Z * Z) :=
  with_service (mret ()) (λ r, (r, value)) (ImsCallProxy.GetImsFeatureValue type value).
Definition SetMute (slotId mute : Z) : Cl Z := forward (ImsCallProxy.SetMute slotId mute).
Definition GetMute (slotId : Z) : Cl Z := forward (ImsCallProxy.GetMute slotId).
Definition ControlCamera (slotId callIndex : Z) (cameraId : string) : Cl Z :=
  forward (ImsCallProxy.ControlCamera slotId callIndex cameraId).
Definition SetPreviewWindow (slotId callIndex : Z) (surfaceID : string) (surface : option Z) : Cl Z :=
  forward (ImsCallProxy.SetPreviewWindow slotId callIndex surfaceID surface).
Definition SetDisplayWindow (slotId callIndex : Z) (surfaceID : string) (surface : option Z) : Cl Z :=
  forward (ImsCallProxy.SetDisplayWindow slotId callIndex surfaceID surface).
Definition SetCameraZoom (zoomRatio : Z) : Cl Z := forward (ImsCallProxy.SetCameraZoom zoomRatio).
Definition SetPausePicture (slotId callIndex : Z) (path : string) : Cl Z :=
  forward (ImsCallProxy.SetPausePicture slotId callIndex path).
Definition SetDeviceDirection (slotId callIndex rotation : Z) : Cl Z :=
  forward (ImsCallProxy.SetDeviceDirection slotId callIndex rotation).
Definition SetClip (slotId action index : Z) : Cl Z :=
  forward (ImsCallProxy.SetClip slotId action index).
Definition GetClip (slotId index : Z) : Cl Z := forward (ImsCallProxy.GetClip slotId index).
Definition SetClir (slotId action index : Z) : Cl Z :=
  forward (ImsCallProxy.SetClir slotId action index).
Definition GetClir (slotId index : Z) : Cl Z := forward (ImsCallProxy.GetClir slotId index).
Definition SetCallTransfer (slotId : Z) (cfInfo : CallTransferInfo) (classType index : Z) : Cl Z :=
  forward (ImsCallProxy.SetCallTransfer slotId cfInfo classType index).
(** The answer, and the reference [result]. *)
Definition CanSetCallTransferTime (slotId : Z) (result : bool) : Cl (Z * bool) :=
  with_service (mret ()) (λ r, (r, result)) (ImsCallProxy.CanSetCallTransferTime slotId result).
Definition GetCallTransfer (slotId reason index : Z) : Cl Z :=
  forward (ImsCallProxy.GetCallTransfer slotId reason index).
Definition SetCallRestriction (slotId : Z) (fac : string) (mode : Z) (pw : string) (index : Z) : Cl Z :=
  forward (ImsCallProxy.SetCallRestriction slotId fac mode pw index).
Definition GetCallRestriction (slotId : Z) (fac : string) (index : Z) : Cl Z :=
  forward (ImsCallProxy.GetCallRestriction slotId fac index).
Definition SetCallWaiting (slotId : Z) (activate : bool) (classType index : Z) : Cl Z :=
  forward (ImsCallProxy.SetCallWaiting slotId activate classType index).
(** The one request that takes no lock. *)
Definition SetVideoCallWaiting (slotId : Z) (activate : bool) : Cl Z :=
  let! ret := ReConnectService in
  if bool_decide (ret ≠ TELEPHONY_SUCCESS) then mret TELEPHONY_ERR_IPC_CONNECT_STUB_FAIL
  else through_proxy TELEPHONY_ERR_LOCAL_PTR_NULL (ImsCallProxy.SetVideoCallWaiting slotId activate).
Definition GetCallWaiting (slotId index : Z) : Cl Z :=
  forward (ImsCallProxy.GetCallWaiting slotId index).
Definition SetColr (slotId presentation index : Z) : Cl Z :=
  forward (ImsCallProxy.SetColr slotId presentation index).
Definition GetColr (slotId index : Z) : Cl Z := forward (ImsCallProxy.GetColr slotId index).
Definition SetColp (slotId action index : Z) : Cl Z :=
  forward (ImsCallProxy.SetColp slotId action index).
Definition GetColp (slotId index : Z) : Cl Z := forward (ImsCallProxy.GetColp slotId index).
Definition UpdateImsCapabilities (slotId : Z) (imsCapabilityList : list ImsCapability) : Cl Z :=
  forward (ImsCallProxy.UpdateImsCapabilities slotId imsCapabilityList).
(** The answer, and the reference [impu]. *)
Definition GetUtImpuFromNetwork (slotId : Z) (impu : string) : Cl (Z * string) :=
  with_service (mret ()) (λ r, (r, impu)) (ImsCallProxy.GetUtImpuFromNetwork slotId impu).
Definition NotifyOperatorConfigChanged (slotId state : Z) : Cl Z :=
  forward (ImsCallProxy.NotifyOperatorConfigChanged slotId state).
Definition GetImsCapabilities (slotId : Z) : Cl Z := forward (ImsCallProxy.GetImsCapabilities slotId).
End Client.
