(* ===== verification/ServiceLife.v ===== *)
(** * ServiceLife: the system ability from its start to its stop
    (services/manager/src/cellular_call_service.cpp,
    services/utils/src/cellular_call_dump_helper.cpp)

    The start makes a handler for every slot, registers it with the IMS client and
    the system ability manager and posts itself an event; the handler of that event
    waits for the core service and registers the handlers with it.  Handlers and
    listeners are objects with an identity, because the maps that hold them do not
    always hold the same one. *)

From stdpp Require Import base tactics option list numbers strings pretty gmap.
From Stdlib Require Import ZArith Lia Ascii String.
From S2P Require Import Prelude SsTypes ConfigTypes Platform Standardize StdMap CsControl ImsControl Service Handler.
From S2P Require Import SupplementRequestCs Supplement ConfigRequest Config ConfigEcc ConfigHandler Parcel IpcCodes.
From S2P Require ImsCallClient SatelliteCallClient.

Open Scope Z_scope.

Inductive ServiceRunningState := STATE_STOPPED | STATE_RUNNING.
#[export] Instance ServiceRunningState_eq_dec : EqDecision ServiceRunningState.
Proof. solve_decision. Defined.
Definition ServiceRunningState_value (s : ServiceRunningState) : Z :=
  match s with STATE_STOPPED => 0 | STATE_RUNNING => 1 end.

(** The broadcasts a handler subscribes to. *)
Inductive CommonEvent :=
  | COMMON_EVENT_OPERATOR_CONFIG_CHANGED
  | COMMON_EVENT_NETWORK_STATE_CHANGED
  | ENTER_STR_TELEPHONY_NOTIFY.
(** The events of the core service a handler is registered for. *)
Inductive CoreNotify :=
  | RADIO_AVAIL | RADIO_NOT_AVAIL | RADIO_SIM_STATE_CHANGE | RADIO_SIM_RECORDS_LOADED
  | RADIO_SIM_ACCOUNT_LOADED | RADIO_CALL_STATUS_INFO | RADIO_CALL_USSD_NOTICE | RADIO_CALL_SS_NOTICE
  | RADIO_CALL_EMERGENCY_NUMBER_REPORT | RADIO_CALL_RINGBACK_VOICE | RADIO_CALL_SRVCC_STATUS
  | RADIO_CALL_RSRVCC_STATUS | RADIO_RESIDENT_NETWORK_CHANGE | RADIO_RIL_ADAPTER_HOST_DIED
  | RADIO_FACTORY_RESET | RADIO_NV_REFRESH_FINISHED | RADIO_STATE_CHANGED.
#[export] Instance CoreNotify_eq_dec : EqDecision CoreNotify.
Proof. solve_decision. Defined.

(** A handler as the start makes it, and a listener of the system ability manager. *)
Record HandlerObject := {
  ho_slotId : Z; ho_events : list CommonEvent; ho_priority : Z; ho_permission : string
}.
Record SystemAbilityStatusChangeListener := { cellularCallHandler_ : option nat; count_ : Z }.

Inductive LifeEvent :=
  | RegisterCoreNotify (slotId : Z) (handler : option nat) (what : CoreNotify)
  | UnRegisterCoreNotify (slotId : Z) (handler : option nat) (what : CoreNotify)
  | CoreGetRadioState (slotId : Z) (handler : option nat)
  | RegisterCellularCallObject
  | SendRegisterHandler (handler : nat) (delay : Z)
  | SubscribeAbility (systemAbilityId : Z) (listener : nat)
  | SubscribeCommonEvent (handler : nat)
  | UnSubscribeCommonEvent (handler : nat)
  | SleepFor (milliseconds : Z)
  | Publish
  | InitTelephonyExtWrapper
  | RegisterEccDataObserver
  | LoadCallManager
  | LockHandlerMap
  | UnlockHandlerMap
  | LifeCore (e : Effect)
  | LifeIms (e : IpcEvent)
  | LifeSat (e : IpcEvent).
Definition life_core (h : list LifeEvent) : list Effect :=
  omap (λ ev, match ev with LifeCore e => Some e | _ => None end) h.
Definition life_ims_of (h : list LifeEvent) : list IpcEvent :=
  omap (λ ev, match ev with LifeIms e => Some e | _ => None end) h.
Definition life_sat_of (h : list LifeEvent) : list IpcEvent :=
  omap (λ ev, match ev with LifeSat e => Some e | _ => None end) h.

(** The platform: the system ability manager, the core service, the clock. *)
Class LifeEnv := {
  OHOS_BUILD_ENABLE_TELEPHONY_EXT : bool;
  TELEPHONY_CALL_MANAGER_SYS_ABILITY_ID : Z;
  COMMON_EVENT_SERVICE_ID : Z;
  FIRST_PRIORITY : Z;
  samgr : list LifeEvent → bool;
  new_callManagerListener : list LifeEvent → bool;
  IsInitFinished : list LifeEvent → bool;
  system_clock_now : list LifeEvent → Z;
  dprintf_answer : list LifeEvent → Z → string → Z
}.
Definition CONNECT_MAX_TRY_COUNT : nat := 20.
Definition CONNECT_CORE_SERVICE_WAIT_TIME : Z := 2000.
Definition TELEPHONY_SATELLITE_SYS_ABILITY_ID : Z := 4012.
Definition PERMISSION_STARTUP_COMPLETED : string := "ohos.permission.RECEIVER_STARTUP_COMPLETED".

(** The service, the objects it made, the handlers by slot and which of them the
    clients hold; the clients, the tables of the controls, and the configuration. *)
Record ServiceLife := {
  state_ : ServiceRunningState;
  bindTime_ : Z; endTime_ : Z; spendTime_ : Z;
  objects : list HandlerObject;
  listeners : list SystemAbilityStatusChangeListener;
  handlerMap_ : smap (option nat);
  ims_handlers : gmap Z nat;
  satellite_handlers : gmap Z nat;
  networkSearchCallBack_ : bool;
  statusChangeListener_ : option nat;
  callManagerListener_ : option nat;
  settingsCallback_ : bool;
  life_service : CellularCallService;
  life_config : CellularCallConfig;
  life_ims : ImsCallClient.ImsCallClient;
  life_satellite : SatelliteCallClient.SatelliteCallClient
}.
Definition ServiceLife_new `{ServiceEnv} : ServiceLife :=
  {| state_ := STATE_STOPPED; bindTime_ := 0; endTime_ := 0; spendTime_ := 0; objects := []; listeners := [];
     handlerMap_ := []; ims_handlers := ∅; satellite_handlers := ∅; networkSearchCallBack_ := false;
     statusChangeListener_ := None; callManagerListener_ := None; settingsCallback_ := false;
     life_service := CellularCallService_new; life_config := CellularCallConfig_new;
     life_ims := ImsCallClient.ImsCallClient_new; life_satellite := SatelliteCallClient.SatelliteCallClient_new |}.
Definition set_state (v : ServiceRunningState) (s : ServiceLife) : ServiceLife :=
  {| state_ := v; bindTime_ := bindTime_ s; endTime_ := endTime_ s; spendTime_ := spendTime_ s; objects :=
     objects s; listeners := listeners s; handlerMap_ := handlerMap_ s; ims_handlers := ims_handlers s;
     satellite_handlers := satellite_handlers s; networkSearchCallBack_ := networkSearchCallBack_ s;
     statusChangeListener_ := statusChangeListener_ s; callManagerListener_ := callManagerListener_ s;
     settingsCallback_ := settingsCallback_ s; life_service := life_service s; life_config := life_config s;
     life_ims := life_ims s; life_satellite := life_satellite s |}.
Definition set_bindTime (v : Z) (s : ServiceLife) : ServiceLife :=
  {| state_ := state_ s; bindTime_ := v; endTime_ := endTime_ s; spendTime_ := spendTime_ s; objects := objects
     s; listeners := listeners s; handlerMap_ := handlerMap_ s; ims_handlers := ims_handlers s;
     satellite_handlers := satellite_handlers s; networkSearchCallBack_ := networkSearchCallBack_ s;
     statusChangeListener_ := statusChangeListener_ s; callManagerListener_ := callManagerListener_ s;
     settingsCallback_ := settingsCallback_ s; life_service := life_service s; life_config := life_config s;
     life_ims := life_ims s; life_satellite := life_satellite s |}.
Definition set_endTime (v : Z) (s : ServiceLife) : ServiceLife :=
  {| state_ := state_ s; bindTime_ := bindTime_ s; endTime_ := v; spendTime_ := spendTime_ s; objects := objects
     s; listeners := listeners s; handlerMap_ := handlerMap_ s; ims_handlers := ims_handlers s;
     satellite_handlers := satellite_handlers s; networkSearchCallBack_ := networkSearchCallBack_ s;
     statusChangeListener_ := statusChangeListener_ s; callManagerListener_ := callManagerListener_ s;
     settingsCallback_ := settingsCallback_ s; life_service := life_service s; life_config := life_config s;
     life_ims := life_ims s; life_satellite := life_satellite s |}.
Definition set_spendTime (v : Z) (s : ServiceLife) : ServiceLife :=
  {| state_ := state_ s; bindTime_ := bindTime_ s; endTime_ := endTime_ s; spendTime_ := v; objects := objects
     s; listeners := listeners s; handlerMap_ := handlerMap_ s; ims_handlers := ims_handlers s;
     satellite_handlers := satellite_handlers s; networkSearchCallBack_ := networkSearchCallBack_ s;
     statusChangeListener_ := statusChangeListener_ s; callManagerListener_ := callManagerListener_ s;
     settingsCallback_ := settingsCallback_ s; life_service := life_service s; life_config := life_config s;
     life_ims := life_ims s; life_satellite := life_satellite s |}.
Definition set_objects (v : list HandlerObject) (s : ServiceLife) : ServiceLife :=
  {| state_ := state_ s; bindTime_ := bindTime_ s; endTime_ := endTime_ s; spendTime_ := spendTime_ s; objects
     := v; listeners := listeners s; handlerMap_ := handlerMap_ s; ims_handlers := ims_handlers s;
     satellite_handlers := satellite_handlers s; networkSearchCallBack_ := networkSearchCallBack_ s;
     statusChangeListener_ := statusChangeListener_ s; callManagerListener_ := callManagerListener_ s;
     settingsCallback_ := settingsCallback_ s; life_service := life_service s; life_config := life_config s;
     life_ims := life_ims s; life_satellite := life_satellite s |}.
Definition set_listeners (v : list SystemAbilityStatusChangeListener) (s : ServiceLife) : ServiceLife :=
  {| state_ := state_ s; bindTime_ := bindTime_ s; endTime_ := endTime_ s; spendTime_ := spendTime_ s; objects
     := objects s; listeners := v; handlerMap_ := handlerMap_ s; ims_handlers := ims_handlers s;
     satellite_handlers := satellite_handlers s; networkSearchCallBack_ := networkSearchCallBack_ s;
     statusChangeListener_ := statusChangeListener_ s; callManagerListener_ := callManagerListener_ s;
     settingsCallback_ := settingsCallback_ s; life_service := life_service s; life_config := life_config s;
     life_ims := life_ims s; life_satellite := life_satellite s |}.
Definition set_handlerMap (v : smap (option nat)) (s : ServiceLife) : ServiceLife :=
  {| state_ := state_ s; bindTime_ := bindTime_ s; endTime_ := endTime_ s; spendTime_ := spendTime_ s; objects
     := objects s; listeners := listeners s; handlerMap_ := v; ims_handlers := ims_handlers s;
     satellite_handlers := satellite_handlers s; networkSearchCallBack_ := networkSearchCallBack_ s;
     statusChangeListener_ := statusChangeListener_ s; callManagerListener_ := callManagerListener_ s;
     settingsCallback_ := settingsCallback_ s; life_service := life_service s; life_config := life_config s;
     life_ims := life_ims s; life_satellite := life_satellite s |}.
Definition set_networkSearchCallBack (v : bool) (s : ServiceLife) : ServiceLife :=
  {| state_ := state_ s; bindTime_ := bindTime_ s; endTime_ := endTime_ s; spendTime_ := spendTime_ s; objects
     := objects s; listeners := listeners s; handlerMap_ := handlerMap_ s; ims_handlers := ims_handlers s;
     satellite_handlers := satellite_handlers s; networkSearchCallBack_ := v; statusChangeListener_ :=
     statusChangeListener_ s; callManagerListener_ := callManagerListener_ s; settingsCallback_ :=
     settingsCallback_ s; life_service := life_service s; life_config := life_config s; life_ims := life_ims s;
     life_satellite := life_satellite s |}.
Definition set_statusChangeListener (v : option nat) (s : ServiceLife) : ServiceLife :=
  {| state_ := state_ s; bindTime_ := bindTime_ s; endTime_ := endTime_ s; spendTime_ := spendTime_ s; objects
     := objects s; listeners := listeners s; handlerMap_ := handlerMap_ s; ims_handlers := ims_handlers s;
     satellite_handlers := satellite_handlers s; networkSearchCallBack_ := networkSearchCallBack_ s;
     statusChangeListener_ := v; callManagerListener_ := callManagerListener_ s; settingsCallback_ :=
     settingsCallback_ s; life_service := life_service s; life_config := life_config s; life_ims := life_ims s;
     life_satellite := life_satellite s |}.
Definition set_callManagerListener (v : option nat) (s : ServiceLife) : ServiceLife :=
  {| state_ := state_ s; bindTime_ := bindTime_ s; endTime_ := endTime_ s; spendTime_ := spendTime_ s; objects
     := objects s; listeners := listeners s; handlerMap_ := handlerMap_ s; ims_handlers := ims_handlers s;
     satellite_handlers := satellite_handlers s; networkSearchCallBack_ := networkSearchCallBack_ s;
     statusChangeListener_ := statusChangeListener_ s; callManagerListener_ := v; settingsCallback_ :=
     settingsCallback_ s; life_service := life_service s; life_config := life_config s; life_ims := life_ims s;
     life_satellite := life_satellite s |}.
Definition set_settingsCallback (v : bool) (s : ServiceLife) : ServiceLife :=
  {| state_ := state_ s; bindTime_ := bindTime_ s; endTime_ := endTime_ s; spendTime_ := spendTime_ s; objects
     := objects s; listeners := listeners s; handlerMap_ := handlerMap_ s; ims_handlers := ims_handlers s;
     satellite_handlers := satellite_handlers s; networkSearchCallBack_ := networkSearchCallBack_ s;
     statusChangeListener_ := statusChangeListener_ s; callManagerListener_ := callManagerListener_ s;
     settingsCallback_ := v; life_service := life_service s; life_config := life_config s; life_ims := life_ims
     s; life_satellite := life_satellite s |}.
Definition set_service (v : CellularCallService) (s : ServiceLife) : ServiceLife :=
  {| state_ := state_ s; bindTime_ := bindTime_ s; endTime_ := endTime_ s; spendTime_ := spendTime_ s; objects
     := objects s; listeners := listeners s; handlerMap_ := handlerMap_ s; ims_handlers := ims_handlers s;
     satellite_handlers := satellite_handlers s; networkSearchCallBack_ := networkSearchCallBack_ s;
     statusChangeListener_ := statusChangeListener_ s; callManagerListener_ := callManagerListener_ s;
     settingsCallback_ := settingsCallback_ s; life_service := v; life_config := life_config s; life_ims :=
     life_ims s; life_satellite := life_satellite s |}.
Definition set_config (v : CellularCallConfig) (s : ServiceLife) : ServiceLife :=
  {| state_ := state_ s; bindTime_ := bindTime_ s; endTime_ := endTime_ s; spendTime_ := spendTime_ s; objects
     := objects s; listeners := listeners s; handlerMap_ := handlerMap_ s; ims_handlers := ims_handlers s;
     satellite_handlers := satellite_handlers s; networkSearchCallBack_ := networkSearchCallBack_ s;
     statusChangeListener_ := statusChangeListener_ s; callManagerListener_ := callManagerListener_ s;
     settingsCallback_ := settingsCallback_ s; life_service := life_service s; life_config := v; life_ims :=
     life_ims s; life_satellite := life_satellite s |}.
Definition set_ims (v0 : gmap Z nat) (v1 : ImsCallClient.ImsCallClient) (s : ServiceLife) : ServiceLife :=
  {| state_ := state_ s; bindTime_ := bindTime_ s; endTime_ := endTime_ s; spendTime_ := spendTime_ s; objects
     := objects s; listeners := listeners s; handlerMap_ := handlerMap_ s; ims_handlers := v0;
     satellite_handlers := satellite_handlers s; networkSearchCallBack_ := networkSearchCallBack_ s;
     statusChangeListener_ := statusChangeListener_ s; callManagerListener_ := callManagerListener_ s;
     settingsCallback_ := settingsCallback_ s; life_service := life_service s; life_config := life_config s;
     life_ims := v1; life_satellite := life_satellite s |}.
Definition set_satellite (v0 : gmap Z nat) (v1 : SatelliteCallClient.SatelliteCallClient) (s : ServiceLife) : ServiceLife :=
  {| state_ := state_ s; bindTime_ := bindTime_ s; endTime_ := endTime_ s; spendTime_ := spendTime_ s; objects
     := objects s; listeners := listeners s; handlerMap_ := handlerMap_ s; ims_handlers := ims_handlers s;
     satellite_handlers := v0; networkSearchCallBack_ := networkSearchCallBack_ s; statusChangeListener_ :=
     statusChangeListener_ s; callManagerListener_ := callManagerListener_ s; settingsCallback_ :=
     settingsCallback_ s; life_service := life_service s; life_config := life_config s; life_ims := life_ims s;
     life_satellite := v1 |}.

Section Life.
Context `{CallConsts, E : Env, ServiceEnv, HandlerEnv, SupplementEnv, ConfigEnv}.
Context `{ParcelEnv, IpcEnv, ImsCallClient.ClientEnv, SatelliteCallClient.SatelliteClientEnv, LifeEnv}.
Abbreviation Life A := (M LifeEvent ServiceLife A).

(** Operations of the other components. *)
Definition on_service {A} (m : Op CellularCallService A) : Life A :=
  λ s h, let '(a, v, e) := m (life_service s) (life_core h) in (a, set_service v s, LifeCore <$> e).
Definition on_config {A} (m : Op CellularCallConfig A) : Life A :=
  λ s h, let '(a, v, e) := m (life_config s) (life_core h) in (a, set_config v s, LifeCore <$> e).
Definition on_ims {A} (m : M IpcEvent ImsCallClient.ImsCallClient A) : Life A :=
  λ s h, let '(a, c, e) := m (life_ims s) (life_ims_of h) in (a, set_ims (ims_handlers s) c s, LifeIms <$> e).
Definition on_satellite {A} (m : M IpcEvent SatelliteCallClient.SatelliteCallClient A) : Life A :=
  λ s h, let '(a, c, e) := m (life_satellite s) (life_sat_of h) in
         (a, set_satellite (satellite_handlers s) c s, LifeSat <$> e).
(** [std::unique_lock<std::mutex> lock(handlerMapMutex_)] *)
Definition map_locked {A} (k : Life A) : Life A :=
  emit LockHandlerMap ;; let! r := k in emit UnlockHandlerMap ;; mret r.
(** [handlerMap_\[slotId\]]: a null entry is made when there is none. *)
Definition handler_at (slotId : Z) : Life (option nat) :=
  mmodify (λ s, set_handlerMap (sm_insert slotId None (handlerMap_ s)) s) ;;
  mgets (λ s, default None (sm_lookup slotId (handlerMap_ s))).
Definition GetHandler (slotId : Z) : Life (option nat) := map_locked (handler_at slotId).

(** ** Handlers *)

Definition new_handler (o : HandlerObject) : Life nat :=
  let! s := mget in mmodify (set_objects (objects s ++ [o])) ;; mret (Datatypes.length (objects s)).
Definition new_listener (handler : option nat) : Life nat :=
  let! s := mget in
  mmodify (set_listeners (listeners s ++ [{| cellularCallHandler_ := handler; count_ := 0 |}])) ;;
  mret (Datatypes.length (listeners s)).
Definition SetSlotId (handler : nat) (id : Z) : Life () :=
  mmodify (λ s, set_objects (alter (λ o,
    {| ho_slotId := id; ho_events := ho_events o; ho_priority := ho_priority o; ho_permission := ho_permission o |})
    handler (objects s)) s).
Definition slot_of (handler : nat) (s : ServiceLife) : Z :=
  default DEFAULT_SIM_SLOT_ID (ho_slotId <$> objects s !! handler).
(** The client keeps the handler it has, so [handler] is held only when the slot has
    none. *)
Definition RegisterImsCallCallbackHandler (handler : nat) : Life () :=
  let! client := query (λ h, ims_client_instance (life_core h)) in
  if negb client then mret ()
  else
    let! slotId := mgets (slot_of handler) in
    mmodify (λ s, set_ims (match ImsCallClient.handlerMap_ (life_ims s) !! slotId with
                           | Some _ => ims_handlers s
                           | None => <[slotId := handler]> (ims_handlers s)
                           end) (life_ims s) s) ;;
    on_ims (ImsCallClient.RegisterImsCallCallbackHandler slotId true) ;; mret ().
Definition RegisterSatelliteCallCallbackHandler (handler : nat) : Life () :=
  let! client := query (λ h, satellite_client_instance (life_core h)) in
  if negb client then mret ()
  else
    let! slotId := mgets (slot_of handler) in
    mmodify (λ s, set_satellite (match SatelliteCallClient.handlerMap_ (life_satellite s) !! slotId with
                                 | Some _ => satellite_handlers s
                                 | None => <[slotId := handler]> (satellite_handlers s)
                                 end) (life_satellite s) s) ;;
    on_satellite (SatelliteCallClient.RegisterSatelliteCallCallbackHandler slotId true) ;; mret ().

(** The handler of a slot and its subscriptions; [true]: there is no system ability
    manager, and the function returns. *)
Definition SubscribeToEvents_slot (events : list CommonEvent) (priority : Z) (permission : string) (it : Z)
    : Life bool :=
  let! handler := new_handler {| ho_slotId := DEFAULT_SIM_SLOT_ID; ho_events := events; ho_priority := priority;
                                 ho_permission := permission |} in
  SetSlotId handler it ;;
  RegisterImsCallCallbackHandler handler ;;
  map_locked (mmodify (λ s, set_handlerMap (sm_insert it (Some handler) (handlerMap_ s)) s)) ;;
  let! samgrProxy := query samgr in
  if negb samgrProxy then mret true
  else
    let! listener := new_listener (Some handler) in
    mmodify (set_statusChangeListener (Some listener)) ;;
    emit (SubscribeAbility COMMON_EVENT_SERVICE_ID listener) ;;
    emit (SubscribeAbility TELEPHONY_SATELLITE_SYS_ABILITY_ID listener) ;;
    mret false.
Definition SubscribeToEvents (events : list CommonEvent) (priority : Z) (permission : string) : Life () :=
  mfor_return GetSlotInfo (λ it,
    let! returned := SubscribeToEvents_slot events priority permission it in
    mret (if (returned : bool) then Some () else None)) ;;
  mret ().
Definition StartDisorderEventSubscriber : Life () :=
  SubscribeToEvents [COMMON_EVENT_OPERATOR_CONFIG_CHANGED; COMMON_EVENT_NETWORK_STATE_CHANGED] 0 "".
Definition StartOrderEventSubscriber : Life () :=
  SubscribeToEvents [ENTER_STR_TELEPHONY_NOTIFY] FIRST_PRIORITY PERMISSION_STARTUP_COMPLETED.
Definition CreateHandler : Life () :=
  StartDisorderEventSubscriber ;;
  if BASE_POWER_IMPROVEMENT_FEATURE then StartOrderEventSubscriber else mret ().

(** Of the first slot only. *)
Definition SendEventRegisterHandler : Life () :=
  let delayTime := 1000 in
  map_locked
    (let! handler := handler_at DEFAULT_SIM_SLOT_ID in
     match handler with None => mret () | Some handler => emit (SendRegisterHandler handler delayTime) end).

(** ** The core service *)

Definition core_events : list CoreNotify :=
  [RADIO_AVAIL; RADIO_NOT_AVAIL; RADIO_SIM_STATE_CHANGE; RADIO_SIM_RECORDS_LOADED; RADIO_SIM_ACCOUNT_LOADED;
   RADIO_CALL_STATUS_INFO; RADIO_CALL_USSD_NOTICE; RADIO_CALL_SS_NOTICE; RADIO_CALL_EMERGENCY_NUMBER_REPORT;
   RADIO_CALL_RINGBACK_VOICE; RADIO_CALL_SRVCC_STATUS; RADIO_CALL_RSRVCC_STATUS; RADIO_RESIDENT_NETWORK_CHANGE;
   RADIO_RIL_ADAPTER_HOST_DIED; RADIO_FACTORY_RESET; RADIO_NV_REFRESH_FINISHED; RADIO_STATE_CHANGED].
(** The mutex of the map is given back while the configuration is asked. *)
Definition RegisterCoreServiceHandler : Life () :=
  emit LockHandlerMap ;;
  let! handlers := mgets handlerMap_ in
  mfor handlers (λ '(slot, handler),
    match handler with
    | Some _ =>
        mfor core_events (λ what, emit (RegisterCoreNotify slot handler what)) ;;
        emit (CoreGetRadioState slot handler)
    | None => mret ()
    end ;;
    emit UnlockHandlerMap ;;
    on_config (construct InitModeActive ;; GetDomainPreferenceMode slot ;; GetEmergencyCallList slot) ;;
    emit LockHandlerMap) ;;
  emit UnlockHandlerMap.

Fixpoint RegisterHandler_loop (tries : nat) : Life () :=
  match tries with
  | O => mret ()
  | S tries =>
      emit (SleepFor CONNECT_CORE_SERVICE_WAIT_TIME) ;;
      let! finished := query IsInitFinished in
      if (finished : bool) then RegisterCoreServiceHandler ;; emit RegisterCellularCallObject
      else RegisterHandler_loop tries
  end.
Definition RegisterHandler : Life () :=
  mmodify (set_networkSearchCallBack true) ;; RegisterHandler_loop CONNECT_MAX_TRY_COUNT.

(** The events that are taken back, of a handler that was reset before. *)
Definition unregistered_events : list CoreNotify :=
  [RADIO_AVAIL; RADIO_NOT_AVAIL; RADIO_SIM_RECORDS_LOADED; RADIO_SIM_ACCOUNT_LOADED; RADIO_CALL_STATUS_INFO;
   RADIO_CALL_USSD_NOTICE; RADIO_CALL_SS_NOTICE; RADIO_CALL_RINGBACK_VOICE; RADIO_CALL_EMERGENCY_NUMBER_REPORT;
   RADIO_CALL_SRVCC_STATUS; RADIO_CALL_RSRVCC_STATUS; RADIO_RESIDENT_NETWORK_CHANGE; RADIO_RIL_ADAPTER_HOST_DIED;
   RADIO_FACTORY_RESET; RADIO_STATE_CHANGED].
Definition HandlerResetUnRegister : Life () :=
  map_locked
    (let! handlers := mgets handlerMap_ in
     mfor handlers (λ '(slot, handler),
       (* [if (handler != nullptr) handler.reset();], of the copy *)
       let handler : option nat := match handler with Some _ => None | None => handler end in
       mfor unregistered_events (λ what, emit (UnRegisterCoreNotify slot handler what)) ;;
       on_service
         (if_control slot (λ E, CsControl.ReleaseAllConnection) ;;
          if_control slot (λ E, ImsControl.ReleaseAllConnection)))).

(** ** Start and stop *)

(** The observer may be there from an earlier start. *)
Definition RegisterEccListener : Life () :=
  mmodify (set_settingsCallback true) ;; emit RegisterEccDataObserver.
(** [isRadioOn_.insert] *)
Definition insert_radio_flags (s : CellularCallService) : CellularCallService :=
  foldl (λ s i, match Service.isRadioOn_ s !! i with Some _ => s | None => Service.setRadioOnFlag false i s end) s
    (seqZ DEFAULT_SIM_SLOT_ID (SIM_SLOT_COUNT - DEFAULT_SIM_SLOT_ID)).
Definition Init : Life bool :=
  (if OHOS_BUILD_ENABLE_TELEPHONY_EXT then emit InitTelephonyExtWrapper else mret ()) ;;
  CreateHandler ;;
  SendEventRegisterHandler ;;
  on_service (mmodify insert_radio_flags) ;;
  let! samgrProxy := query samgr in
  let! made := query new_callManagerListener in
  (if (made : bool) then
     let! listener := new_listener None in mmodify (set_callManagerListener (Some listener))
   else mmodify (set_callManagerListener None)) ;;
  let! s := mget in
  match callManagerListener_ s with
  | Some listener =>
      if (samgrProxy : bool) then emit (SubscribeAbility TELEPHONY_CALL_MANAGER_SYS_ABILITY_ID listener)
      else mret ()
  | None => mret ()
  end ;;
  on_ims ImsCallClient.Init ;;
  RegisterEccListener ;;
  mret true.
(** Whether [Publish] succeeds is only logged. *)
Definition OnStart : Life () :=
  let! now := query system_clock_now in
  mmodify (set_bindTime now) ;;
  let! s := mget in
  if bool_decide (state_ s = STATE_RUNNING) then mret ()
  else
    let! done := Init in
    if negb done then mret ()
    else
      mmodify (set_state STATE_RUNNING) ;;
      emit Publish ;;
      let! now := query system_clock_now in
      mmodify (set_endTime now).
Definition OnStop : Life () :=
  on_ims ImsCallClient.UnInit ;;
  mmodify (λ s, set_ims ∅ (life_ims s) s) ;;
  mmodify (set_state STATE_STOPPED) ;;
  HandlerResetUnRegister.

(** ** Listeners of the system ability manager *)

(** CELLULAR_CALL_SATELLITE: without it the satellite service's id is passed over. *)
Definition OnAddSystemAbility (listener : nat) (systemAbilityId : Z) : Life () :=
  let! s := mget in
  let handler := listeners s !! listener ≫= cellularCallHandler_ in
  if bool_decide (systemAbilityId ≠ COMMON_EVENT_SERVICE_ID) &&
     bool_decide (systemAbilityId ≠ TELEPHONY_SATELLITE_SYS_ABILITY_ID)
  then mret ()
  else
    match handler with
    | None => mret ()
    | Some handler =>
        if bool_decide (systemAbilityId = COMMON_EVENT_SERVICE_ID) then emit (SubscribeCommonEvent handler)
        else if CELLULAR_CALL_SATELLITE && bool_decide (systemAbilityId = TELEPHONY_SATELLITE_SYS_ABILITY_ID) then
          on_satellite SatelliteCallClient.Init ;;
          RegisterSatelliteCallCallbackHandler handler
        else mret ()
    end.
Definition count_foundation (listener : nat) : Life () :=
  mmodify (λ s, set_listeners (alter (λ l,
    {| cellularCallHandler_ := cellularCallHandler_ l; count_ := i32 (count_ l + 1) |}) listener (listeners s)) s) ;;
  let! s := mget in
  emit (LifeCore (HiSys (WriteFoundationRestartFaultEvent (default 0 (count_ <$> listeners s !! listener))))).
Definition OnRemoveSystemAbility (listener : nat) (systemAbilityId : Z) : Life () :=
  if bool_decide (systemAbilityId = TELEPHONY_CALL_MANAGER_SYS_ABILITY_ID) then
    let! instance := query (λ h, service_instance (life_core h)) in
    if negb instance then mret ()
    else on_service HandleCallManagerException ;; count_foundation listener
  else if bool_decide (systemAbilityId = COMMON_EVENT_SERVICE_ID) then
    let! s := mget in
    match listeners s !! listener ≫= cellularCallHandler_ with
    | None => mret ()
    | Some handler => emit (UnSubscribeCommonEvent handler)
    end
  else if CELLULAR_CALL_SATELLITE && bool_decide (systemAbilityId = TELEPHONY_SATELLITE_SYS_ABILITY_ID) then
    on_satellite SatelliteCallClient.UnInit ;;
    mmodify (λ s, set_satellite ∅ (life_satellite s) s)
  else mret ().

(** The observer of the emergency data. *)
Definition OnChange : Life () := on_config EmergencyInfoObserver_OnChange.

(** CALL_MANAGER_AUTO_START_OPTIMIZE; whether the object is found is only logged. *)
Definition StartCallManagerService : Life () :=
  let! managerPtr := query samgr in
  if negb managerPtr then mret () else emit LoadCallManager.

(** ** What the service says of itself *)

(** [int64_t] *)
Definition i64 (z : Z) : Z := (z + 2 ^ 63) mod 2 ^ 64 - 2 ^ 63.

Definition GetServiceRunningState : Life Z := mgets (λ s, ServiceRunningState_value (state_ s)).
Definition GetBindTime : Life string := mgets (λ s, pretty (bindTime_ s)).
Definition GetEndTime : Life string := mgets (λ s, pretty (endTime_ s)).
Definition GetSpendTime : Life string :=
  mmodify (λ s, set_spendTime (i64 (endTime_ s - bindTime_ s)) s) ;; mgets (λ s, pretty (spendTime_ s)).

(** [CellularCallDumpHelper] *)
Definition newline : string := String (Ascii.ascii_of_nat 10) "".
Definition ShowHelp : string :=
  "Usage       : dump <command> [options]" +:+ newline +:+
  "Description :" +:+ newline +:+
  "    -cellular_call_info      : " +:+
  "dump all cellular_call information in the system" +:+ newline.
Definition dump_line (name value : string) : string := name +:+ value +:+ newline.
Definition WhetherHasSimCard (slotId : Z) : Life bool := query (λ h, core_HasSimCard (life_core h) slotId).
Definition dump_slot (i : Z) : Life string :=
  let! hasSimCard := WhetherHasSimCard i in
  if negb hasSimCard then mret ""%string
  else
    let! r := on_config (construct
      (let! switch := GetImsSwitchStatus i in
       let! mode := Config.GetPreferenceMode i in
       let! force := GetForceVolteSwitchOnConfig i in
       mret (switch.2, mode, force))) in
    let '(imsSwitchStatus, mode, force) := r in
    mret (dump_line "SlotId                    : " (pretty i) +:+
          dump_line "ImsServiceRunningState    : " (pretty (Z.b2z imsSwitchStatus)) +:+
          dump_line "DomainPreferenceMode      : " (pretty mode) +:+
          dump_line "VoiceActivationState      : " (pretty (Z.b2z force))).
Fixpoint dump_slots (l : list Z) : Life string :=
  match l with
  | [] => mret ""%string
  | i :: l => let! info := dump_slot i in let! rest := dump_slots l in mret (info +:+ rest)
  end.
Definition ShowCellularCallInfo : Life string :=
  let! bindTime := GetBindTime in
  let! endTime := GetEndTime in
  let! spendTime := GetSpendTime in
  let! state := GetServiceRunningState in
  let! srvcc := mgets (λ s, GetSrvccState (life_service s)) in
  let! slots := dump_slots (seqZ 0 SIM_SLOT_COUNT) in
  mret (newline +:+ "*******************CellularCallInfo*********************" +:+ newline +:+
        dump_line "CellularCallBindTime      : " bindTime +:+
        dump_line "CellularCallEndTime       : " endTime +:+
        dump_line "CellularCallSpendTime     : " spendTime +:+
        dump_line "ServiceRunningState       : " (pretty state) +:+
        dump_line "SrvccState                : " (pretty srvcc) +:+
        slots).
(** The arguments of the dump do not matter. *)
Definition Dump (fd : Z) : Life Z :=
  if fd <? 0 then mret TELEPHONY_ERR_FAIL
  else
    let! info := ShowCellularCallInfo in
    let result := ShowHelp +:+ info in
    let! ret := query (λ h, dprintf_answer h fd (c_str result)) in
    if ret <? 0 then mret TELEPHONY_ERR_FAIL else mret TELEPHONY_SUCCESS.
End Life.
