(* ===== verification/ImsClientFacts.v ===== *)
(** * ImsClientFacts: a request from its caller to the wire

    Every method of [ImsCallClient] as a request, what is sent for it, what its
    caller gets, and that the message determines the request. *)

From stdpp Require Import base tactics option list numbers strings gmap.
From Stdlib Require Import ZArith Lia Ascii String.
From S2P Require Import Prelude SsTypes ConfigTypes Platform ConfigRequest Parcel IpcCodes.
From S2P Require ImsCallProxy ImsCallClient.
Import ImsCallProxy.ImsCallProxyFacts ImsCallClient.
From S2P Require ImsCallProxy.
Import ImsCallInterfaceCode.

Open Scope Z_scope.

(** ** The requests *)

(** A reference that is only written is no argument. *)
Inductive ClientRequest :=
  | RqDial (callInfo : ImsCallInfo) (mode : CLIRMode)
  | RqHangUp (callInfo : ImsCallInfo)
  | RqRejectWithReason (callInfo : ImsCallInfo) (reason : Z)
  | RqReject (callInfo : ImsCallInfo)
  | RqAnswer (callInfo : ImsCallInfo)
  | RqHoldCall (slotId callType : Z) (isRTT : bool)
  | RqUnHoldCall (slotId callType : Z) (isRTT : bool)
  | RqSwitchCall (slotId callType : Z) (isRTT : bool)
  | RqCombineConference (slotId : Z)
  | RqInviteToConference (slotId : Z) (numberList : list string)
  | RqKickOutFromConference (slotId index : Z)
  | RqSendUpdateCallMediaModeRequest (callInfo : ImsCallInfo) (callType : Z)
  | RqSendUpdateCallMediaModeResponse (callInfo : ImsCallInfo) (callType : Z)
  | RqCancelCallUpgrade (slotId callIndex : Z)
  | RqRequestCameraCapabilities (slotId callIndex : Z)
  | RqGetImsCallsDataRequest (slotId lastCallsDataFlag : Z)
  | RqGetLastCallFailReason (slotId : Z)
  | RqStartDtmf (slotId : Z) (cDtmfCode : ascii) (index : Z)
  | RqSendDtmf (slotId : Z) (cDtmfCode : ascii) (index : Z)
  | RqStopDtmf (slotId index : Z)
  | RqUpdateImsRttCallMode (slotId callId mode : Z)
  | RqSetDomainPreferenceMode (slotId mode : Z)
  | RqGetDomainPreferenceMode (slotId : Z)
  | RqSetCarrierVtConfig (slotId active : Z)
  | RqSetImsSwitchStatus (slotId active : Z)
  | RqGetImsSwitchStatus (slotId : Z)
  | RqSetImsConfig_string (item : Z) (value : string)
  | RqSetImsConfig_int (item value : Z)
  | RqGetImsConfig (item : Z)
  | RqSetImsFeatureValue (type value : Z)
  | RqGetImsFeatureValue (type : Z)
  | RqSetMute (slotId mute : Z)
  | RqGetMute (slotId : Z)
  | RqControlCamera (slotId callIndex : Z) (cameraId : string)
  | RqSetPreviewWindow (slotId callIndex : Z) (surfaceID : string) (surface : option Z)
  | RqSetDisplayWindow (slotId callIndex : Z) (surfaceID : string) (surface : option Z)
  | RqSetCameraZoom (zoomRatio : Z)
  | RqSetPausePicture (slotId callIndex : Z) (path : string)
  | RqSetDeviceDirection (slotId callIndex rotation : Z)
  | RqSetClip (slotId action index : Z)
  | RqGetClip (slotId index : Z)
  | RqSetClir (slotId action index : Z)
  | RqGetClir (slotId index : Z)
  | RqSetCallTransfer (slotId : Z) (cfInfo : CallTransferInfo) (classType index : Z)
  | RqCanSetCallTransferTime (slotId : Z) (result : bool)
  | RqGetCallTransfer (slotId reason index : Z)
  | RqSetCallRestriction (slotId : Z) (fac : string) (mode : Z) (pw : string) (index : Z)
  | RqGetCallRestriction (slotId : Z) (fac : string) (index : Z)
  | RqSetCallWaiting (slotId : Z) (activate : bool) (classType index : Z)
  | RqSetVideoCallWaiting (slotId : Z) (activate : bool)
  | RqGetCallWaiting (slotId index : Z)
  | RqSetColr (slotId presentation index : Z)
  | RqGetColr (slotId index : Z)
  | RqSetColp (slotId action index : Z)
  | RqGetColp (slotId index : Z)
  | RqUpdateImsCapabilities (slotId : Z) (imsCapabilities : list ImsCapability)
  | RqGetUtImpuFromNetwork (slotId : Z) (impu : string)
  | RqNotifyOperatorConfigChanged (slotId state : Z)
  | RqGetImsCapabilities (slotId : Z).

Section Requests.
Context `{CallConsts, ConfigEnv, ParcelEnv, IpcEnv, ClientEnv}.

(** The result code of a method that also answers through a reference. *)
Definition code_of {S A} (m : M IpcEvent S (Z * A)) : M IpcEvent S Z := let! r := m in mret r.1.

Definition run_proxy {S} (rq : ClientRequest) : M IpcEvent S Z :=
  match rq with
  | RqDial callInfo mode => ImsCallProxy.Dial callInfo mode
  | RqHangUp callInfo => ImsCallProxy.HangUp callInfo
  | RqRejectWithReason callInfo reason => ImsCallProxy.RejectWithReason callInfo reason
  | RqReject callInfo => ImsCallProxy.RejectWithReason callInfo USER_DECLINE
  | RqAnswer callInfo => ImsCallProxy.Answer callInfo
  | RqHoldCall slotId callType isRTT => ImsCallProxy.HoldCall slotId callType isRTT
  | RqUnHoldCall slotId callType isRTT => ImsCallProxy.UnHoldCall slotId callType isRTT
  | RqSwitchCall slotId callType isRTT => ImsCallProxy.SwitchCall slotId callType isRTT
  | RqCombineConference slotId => ImsCallProxy.CombineConference slotId
  | RqInviteToConference slotId numberList => ImsCallProxy.InviteToConference slotId numberList
  | RqKickOutFromConference slotId index => ImsCallProxy.KickOutFromConference slotId index
  | RqSendUpdateCallMediaModeRequest callInfo callType =>
      ImsCallProxy.SendUpdateCallMediaModeRequest callInfo callType
  | RqSendUpdateCallMediaModeResponse callInfo callType =>
      ImsCallProxy.SendUpdateCallMediaModeResponse callInfo callType
  | RqCancelCallUpgrade slotId callIndex => ImsCallProxy.CancelCallUpgrade slotId callIndex
  | RqRequestCameraCapabilities slotId callIndex => ImsCallProxy.RequestCameraCapabilities slotId callIndex
  | RqGetImsCallsDataRequest slotId lastCallsDataFlag =>
      ImsCallProxy.GetImsCallsDataRequest slotId lastCallsDataFlag
  | RqGetLastCallFailReason slotId => ImsCallProxy.GetLastCallFailReason slotId
  | RqStartDtmf slotId cDtmfCode index => ImsCallProxy.StartDtmf slotId cDtmfCode index
  | RqSendDtmf slotId cDtmfCode index => ImsCallProxy.SendDtmf slotId cDtmfCode index
  | RqStopDtmf slotId index => ImsCallProxy.StopDtmf slotId index
  | RqUpdateImsRttCallMode slotId callId mode => ImsCallProxy.UpdateImsRttCallMode slotId callId mode
  | RqSetDomainPreferenceMode slotId mode => ImsCallProxy.SetDomainPreferenceMode slotId mode
  | RqGetDomainPreferenceMode slotId => ImsCallProxy.GetDomainPreferenceMode slotId
  | RqSetCarrierVtConfig slotId active => ImsCallProxy.SetCarrierVtConfig slotId active
  | RqSetImsSwitchStatus slotId active => ImsCallProxy.SetImsSwitchStatus slotId active
  | RqGetImsSwitchStatus slotId => ImsCallProxy.GetImsSwitchStatus slotId
  | RqSetImsConfig_string item value => ImsCallProxy.SetImsConfig_string item value
  | RqSetImsConfig_int item value => ImsCallProxy.SetImsConfig_int item value
  | RqGetImsConfig item => ImsCallProxy.GetImsConfig item
  | RqSetImsFeatureValue type value => ImsCallProxy.SetImsFeatureValue type value
  | RqGetImsFeatureValue type => code_of (ImsCallProxy.GetImsFeatureValue type 0)
  | RqSetMute slotId mute => ImsCallProxy.SetMute slotId mute
  | RqGetMute slotId => ImsCallProxy.GetMute slotId
  | RqControlCamera slotId callIndex cameraId => ImsCallProxy.ControlCamera slotId callIndex cameraId
  | RqSetPreviewWindow slotId callIndex surfaceID surface =>
      ImsCallProxy.SetPreviewWindow slotId callIndex surfaceID surface
  | RqSetDisplayWindow slotId callIndex surfaceID surface =>
      ImsCallProxy.SetDisplayWindow slotId callIndex surfaceID surface
  | RqSetCameraZoom zoomRatio => ImsCallProxy.SetCameraZoom zoomRatio
  | RqSetPausePicture slotId callIndex path => ImsCallProxy.SetPausePicture slotId callIndex path
  | RqSetDeviceDirection slotId callIndex rotation =>
      ImsCallProxy.SetDeviceDirection slotId callIndex rotation
  | RqSetClip slotId action index => ImsCallProxy.SetClip slotId action index
  | RqGetClip slotId index => ImsCallProxy.GetClip slotId index
  | RqSetClir slotId action index => ImsCallProxy.SetClir slotId action index
  | RqGetClir slotId index => ImsCallProxy.GetClir slotId index
  | RqSetCallTransfer slotId cfInfo classType index =>
      ImsCallProxy.SetCallTransfer slotId cfInfo classType index
  | RqCanSetCallTransferTime slotId result => code_of (ImsCallProxy.CanSetCallTransferTime slotId result)
  | RqGetCallTransfer slotId reason index => ImsCallProxy.GetCallTransfer slotId reason index
  | RqSetCallRestriction slotId fac mode pw index =>
      ImsCallProxy.SetCallRestriction slotId fac mode pw index
  | RqGetCallRestriction slotId fac index => ImsCallProxy.GetCallRestriction slotId fac index
  | RqSetCallWaiting slotId activate classType index =>
      ImsCallProxy.SetCallWaiting slotId activate classType index
  | RqSetVideoCallWaiting slotId activate => ImsCallProxy.SetVideoCallWaiting slotId activate
  | RqGetCallWaiting slotId index => ImsCallProxy.GetCallWaiting slotId index
  | RqSetColr slotId presentation index => ImsCallProxy.SetColr slotId presentation index
  | RqGetColr slotId index => ImsCallProxy.GetColr slotId index
  | RqSetColp slotId action index => ImsCallProxy.SetColp slotId action index
  | RqGetColp slotId index => ImsCallProxy.GetColp slotId index
  | RqUpdateImsCapabilities slotId imsCapabilities =>
      ImsCallProxy.UpdateImsCapabilities slotId imsCapabilities
  | RqGetUtImpuFromNetwork slotId impu => code_of (ImsCallProxy.GetUtImpuFromNetwork slotId impu)
  | RqNotifyOperatorConfigChanged slotId state => ImsCallProxy.NotifyOperatorConfigChanged slotId state
  | RqGetImsCapabilities slotId => ImsCallProxy.GetImsCapabilities slotId
  end.
Definition run_client (rq : ClientRequest) : M IpcEvent ImsCallClient Z :=
  match rq with
  | RqDial callInfo mode => ImsCallClient.Dial callInfo mode
  | RqHangUp callInfo => ImsCallClient.HangUp callInfo
  | RqRejectWithReason callInfo reason => ImsCallClient.RejectWithReason callInfo reason
  | RqReject callInfo => ImsCallClient.Reject callInfo
  | RqAnswer callInfo => ImsCallClient.Answer callInfo
  | RqHoldCall slotId callType isRTT => ImsCallClient.HoldCall slotId callType isRTT
  | RqUnHoldCall slotId callType isRTT => ImsCallClient.UnHoldCall slotId callType isRTT
  | RqSwitchCall slotId callType isRTT => ImsCallClient.SwitchCall slotId callType isRTT
  | RqCombineConference slotId => ImsCallClient.CombineConference slotId
  | RqInviteToConference slotId numberList => ImsCallClient.InviteToConference slotId numberList
  | RqKickOutFromConference slotId index => ImsCallClient.KickOutFromConference slotId index
  | RqSendUpdateCallMediaModeRequest callInfo callType =>
      ImsCallClient.SendUpdateCallMediaModeRequest callInfo callType
  | RqSendUpdateCallMediaModeResponse callInfo callType =>
      ImsCallClient.SendUpdateCallMediaModeResponse callInfo callType
  | RqCancelCallUpgrade slotId callIndex => ImsCallClient.CancelCallUpgrade slotId callIndex
  | RqRequestCameraCapabilities slotId callIndex => ImsCallClient.RequestCameraCapabilities slotId callIndex
  | RqGetImsCallsDataRequest slotId lastCallsDataFlag =>
      ImsCallClient.GetImsCallsDataRequest slotId lastCallsDataFlag
  | RqGetLastCallFailReason slotId => ImsCallClient.GetLastCallFailReason slotId
  | RqStartDtmf slotId cDtmfCode index => ImsCallClient.StartDtmf slotId cDtmfCode index
  | RqSendDtmf slotId cDtmfCode index => ImsCallClient.SendDtmf slotId cDtmfCode index
  | RqStopDtmf slotId index => ImsCallClient.StopDtmf slotId index
  | RqUpdateImsRttCallMode slotId callId mode => ImsCallClient.UpdateImsRttCallMode slotId callId mode
  | RqSetDomainPreferenceMode slotId mode => ImsCallClient.SetDomainPreferenceMode slotId mode
  | RqGetDomainPreferenceMode slotId => ImsCallClient.GetDomainPreferenceMode slotId
  | RqSetCarrierVtConfig slotId active => ImsCallClient.SetCarrierVtConfig slotId active
  | RqSetImsSwitchStatus slotId active => ImsCallClient.SetImsSwitchStatus slotId active
  | RqGetImsSwitchStatus slotId => ImsCallClient.GetImsSwitchStatus slotId
  | RqSetImsConfig_string item value => ImsCallClient.SetImsConfig_string item value
  | RqSetImsConfig_int item value => ImsCallClient.SetImsConfig_int item value
  | RqGetImsConfig item => ImsCallClient.GetImsConfig item
  | RqSetImsFeatureValue type value => ImsCallClient.SetImsFeatureValue type value
  | RqGetImsFeatureValue type => code_of (ImsCallClient.GetImsFeatureValue type 0)
  | RqSetMute slotId mute => ImsCallClient.SetMute slotId mute
  | RqGetMute slotId => ImsCallClient.GetMute slotId
  | RqControlCamera slotId callIndex cameraId => ImsCallClient.ControlCamera slotId callIndex cameraId
  | RqSetPreviewWindow slotId callIndex surfaceID surface =>
      ImsCallClient.SetPreviewWindow slotId callIndex surfaceID surface
  | RqSetDisplayWindow slotId callIndex surfaceID surface =>
      ImsCallClient.SetDisplayWindow slotId callIndex surfaceID surface
  | RqSetCameraZoom zoomRatio => ImsCallClient.SetCameraZoom zoomRatio
  | RqSetPausePicture slotId callIndex path => ImsCallClient.SetPausePicture slotId callIndex path
  | RqSetDeviceDirection slotId callIndex rotation =>
      ImsCallClient.SetDeviceDirection slotId callIndex rotation
  | RqSetClip slotId action index => ImsCallClient.SetClip slotId action index
  | RqGetClip slotId index => ImsCallClient.GetClip slotId index
  | RqSetClir slotId action index => ImsCallClient.SetClir slotId action index
  | RqGetClir slotId index => ImsCallClient.GetClir slotId index
  | RqSetCallTransfer slotId cfInfo classType index =>
      ImsCallClient.SetCallTransfer slotId cfInfo classType index
  | RqCanSetCallTransferTime slotId result => code_of (ImsCallClient.CanSetCallTransferTime slotId result)
  | RqGetCallTransfer slotId reason index => ImsCallClient.GetCallTransfer slotId reason index
  | RqSetCallRestriction slotId fac mode pw index =>
      ImsCallClient.SetCallRestriction slotId fac mode pw index
  | RqGetCallRestriction slotId fac index => ImsCallClient.GetCallRestriction slotId fac index
  | RqSetCallWaiting slotId activate classType index =>
      ImsCallClient.SetCallWaiting slotId activate classType index
  | RqSetVideoCallWaiting slotId activate => ImsCallClient.SetVideoCallWaiting slotId activate
  | RqGetCallWaiting slotId index => ImsCallClient.GetCallWaiting slotId index
  | RqSetColr slotId presentation index => ImsCallClient.SetColr slotId presentation index
  | RqGetColr slotId index => ImsCallClient.GetColr slotId index
  | RqSetColp slotId action index => ImsCallClient.SetColp slotId action index
  | RqGetColp slotId index => ImsCallClient.GetColp slotId index
  | RqUpdateImsCapabilities slotId imsCapabilities =>
      ImsCallClient.UpdateImsCapabilities slotId imsCapabilities
  | RqGetUtImpuFromNetwork slotId impu => code_of (ImsCallClient.GetUtImpuFromNetwork slotId impu)
  | RqNotifyOperatorConfigChanged slotId state => ImsCallClient.NotifyOperatorConfigChanged slotId state
  | RqGetImsCapabilities slotId => ImsCallClient.GetImsCapabilities slotId
  end.

(** The code of a request, its fields after the token, and what its answer is in
    the reply. *)
Definition request_code (rq : ClientRequest) : ServiceCode :=
  match rq with
  | RqDial _ _ => IMS_DIAL
  | RqHangUp _ => IMS_HANG_UP
  | RqRejectWithReason _ _ => IMS_REJECT_WITH_REASON
  | RqReject _ => IMS_REJECT_WITH_REASON
  | RqAnswer _ => IMS_ANSWER
  | RqHoldCall _ _ _ => IMS_HOLD
  | RqUnHoldCall _ _ _ => IMS_UN_HOLD
  | RqSwitchCall _ _ _ => IMS_SWITCH
  | RqCombineConference _ => IMS_COMBINE_CONFERENCE
  | RqInviteToConference _ _ => IMS_INVITE_TO_CONFERENCE
  | RqKickOutFromConference _ _ => IMS_KICK_OUT_CONFERENCE
  | RqSendUpdateCallMediaModeRequest _ _ => IMS_SEND_CALL_MEDIA_MODE_REQUEST
  | RqSendUpdateCallMediaModeResponse _ _ => IMS_SEND_CALL_MEDIA_MODE_RESPONSE
  | RqCancelCallUpgrade _ _ => IMS_CANCEL_CALL_UPGRADE
  | RqRequestCameraCapabilities _ _ => IMS_REQUEST_CAMERA_CAPABILITIES
  | RqGetImsCallsDataRequest _ _ => IMS_GET_CALL_DATA
  | RqGetLastCallFailReason _ => IMS_GET_LAST_CALL_FAIL_REASON
  | RqStartDtmf _ _ _ => IMS_START_DTMF
  | RqSendDtmf _ _ _ => IMS_SEND_DTMF
  | RqStopDtmf _ _ => IMS_STOP_DTMF
  | RqUpdateImsRttCallMode _ _ _ => IMS_UPDATE_RTT_CALL_MODE
  | RqSetDomainPreferenceMode _ _ => IMS_SET_DOMAIN_PREFERENCE_MODE
  | RqGetDomainPreferenceMode _ => IMS_GET_DOMAIN_PREFERENCE_MODE
  | RqSetCarrierVtConfig _ _ => IMS_SET_VT_CONFIG
  | RqSetImsSwitchStatus _ _ => IMS_SET_SWITCH_STATUS
  | RqGetImsSwitchStatus _ => IMS_GET_SWITCH_STATUS
  | RqSetImsConfig_string _ _ => IMS_SET_IMS_CONFIG_STRING
  | RqSetImsConfig_int _ _ => IMS_SET_IMS_CONFIG_INT
  | RqGetImsConfig _ => IMS_GET_IMS_CONFIG
  | RqSetImsFeatureValue _ _ => IMS_SET_IMS_FEATURE
  | RqGetImsFeatureValue _ => IMS_GET_IMS_FEATURE
  | RqSetMute _ _ => IMS_SET_MUTE
  | RqGetMute _ => IMS_GET_MUTE
  | RqControlCamera _ _ _ => IMS_CTRL_CAMERA
  | RqSetPreviewWindow _ _ _ _ => IMS_SET_PREVIEW_WINDOW
  | RqSetDisplayWindow _ _ _ _ => IMS_SET_DISPLAY_WINDOW
  | RqSetCameraZoom _ => IMS_SET_CAMERA_ZOOM
  | RqSetPausePicture _ _ _ => IMS_SET_PAUSE_IMAGE
  | RqSetDeviceDirection _ _ _ => IMS_SET_DEVICE_DIRECTION
  | RqSetClip _ _ _ => IMS_SET_CLIP
  | RqGetClip _ _ => IMS_GET_CLIP
  | RqSetClir _ _ _ => IMS_SET_CLIR
  | RqGetClir _ _ => IMS_GET_CLIR
  | RqSetCallTransfer _ _ _ _ => IMS_SET_CALL_TRANSFER
  | RqCanSetCallTransferTime _ _ => IMS_CAN_SET_CALL_TRANSFER_TIME
  | RqGetCallTransfer _ _ _ => IMS_GET_CALL_TRANSFER
  | RqSetCallRestriction _ _ _ _ _ => IMS_SET_CALL_RESTRICTION
  | RqGetCallRestriction _ _ _ => IMS_GET_CALL_RESTRICTION
  | RqSetCallWaiting _ _ _ _ => IMS_SET_CALL_WAITING
  | RqSetVideoCallWaiting _ _ => IMS_SET_VIDEO_CALL_WAITING
  | RqGetCallWaiting _ _ => IMS_GET_CALL_WAITING
  | RqSetColr _ _ _ => IMS_SET_COLR
  | RqGetColr _ _ => IMS_GET_COLR
  | RqSetColp _ _ _ => IMS_SET_COLP
  | RqGetColp _ _ => IMS_GET_COLP
  | RqUpdateImsCapabilities _ _ => IMS_UPDATE_CAPABILITY
  | RqGetUtImpuFromNetwork _ _ => IMS_GET_IMPU_FROM_NETWORK
  | RqNotifyOperatorConfigChanged _ _ => IMS_OPERATOR_CONFIG_CHANGED
  | RqGetImsCapabilities _ => IMS_GET_IMS_CAPABILITY
  end.
Definition request_items (rq : ClientRequest) : list Item :=
  match rq with
  | RqDial callInfo mode => [IRaw (to_raw callInfo); IInt32 (ImsCallProxy.CLIRMode_value mode)]
  | RqHangUp callInfo => [IRaw (to_raw callInfo)]
  | RqRejectWithReason callInfo reason => [IRaw (to_raw callInfo); IInt32 reason]
  | RqReject callInfo => [IRaw (to_raw callInfo); IInt32 USER_DECLINE]
  | RqAnswer callInfo => [IRaw (to_raw callInfo)]
  | RqHoldCall slotId callType isRTT => [IInt32 slotId; IInt32 callType; IBool isRTT]
  | RqUnHoldCall slotId callType isRTT => [IInt32 slotId; IInt32 callType; IBool isRTT]
  | RqSwitchCall slotId callType isRTT => [IInt32 slotId; IInt32 callType; IBool isRTT]
  | RqCombineConference slotId => [IInt32 slotId]
  | RqInviteToConference slotId numberList => [IInt32 slotId; IStringVector numberList]
  | RqKickOutFromConference slotId index => [IInt32 slotId; IInt32 index]
  | RqSendUpdateCallMediaModeRequest callInfo callType => [IRaw (to_raw callInfo); IInt32 callType]
  | RqSendUpdateCallMediaModeResponse callInfo callType => [IRaw (to_raw callInfo); IInt32 callType]
  | RqCancelCallUpgrade slotId callIndex => [IInt32 slotId; IInt32 callIndex]
  | RqRequestCameraCapabilities slotId callIndex => [IInt32 slotId; IInt32 callIndex]
  | RqGetImsCallsDataRequest slotId lastCallsDataFlag => [IInt32 slotId; IInt64 lastCallsDataFlag]
  | RqGetLastCallFailReason slotId => [IInt32 slotId]
  | RqStartDtmf slotId cDtmfCode index => [IInt32 slotId; IInt8 cDtmfCode; IInt32 index]
  | RqSendDtmf slotId cDtmfCode index => [IInt32 slotId; IInt8 cDtmfCode; IInt32 index]
  | RqStopDtmf slotId index => [IInt32 slotId; IInt32 index]
  | RqUpdateImsRttCallMode slotId callId mode => [IInt32 slotId; IInt32 callId; IInt32 mode]
  | RqSetDomainPreferenceMode slotId mode => [IInt32 slotId; IInt32 mode]
  | RqGetDomainPreferenceMode slotId => [IInt32 slotId]
  | RqSetCarrierVtConfig slotId active => [IInt32 slotId; IInt32 active]
  | RqSetImsSwitchStatus slotId active => [IInt32 slotId; IInt32 active]
  | RqGetImsSwitchStatus slotId => [IInt32 slotId]
  | RqSetImsConfig_string item value => [IInt32 item; IString value]
  | RqSetImsConfig_int item value => [IInt32 item; IInt32 value]
  | RqGetImsConfig item => [IInt32 item]
  | RqSetImsFeatureValue type value => [IInt32 type; IInt32 value]
  | RqGetImsFeatureValue type => [IInt32 type]
  | RqSetMute slotId mute => [IInt32 slotId; IInt32 mute]
  | RqGetMute slotId => [IInt32 slotId]
  | RqControlCamera slotId callIndex cameraId => [IInt32 slotId; IInt32 callIndex; IString cameraId]
  | RqSetPreviewWindow slotId callIndex surfaceID surface =>
      [IInt32 slotId; IInt32 callIndex; IString surfaceID] ++ option_list (IRemote <$> surface)
  | RqSetDisplayWindow slotId callIndex surfaceID surface =>
      [IInt32 slotId; IInt32 callIndex; IString surfaceID] ++ option_list (IRemote <$> surface)
  | RqSetCameraZoom zoomRatio => [IFloat zoomRatio]
  | RqSetPausePicture slotId callIndex path => [IInt32 slotId; IInt32 callIndex; IString path]
  | RqSetDeviceDirection slotId callIndex rotation => [IInt32 slotId; IInt32 callIndex; IInt32 rotation]
  | RqSetClip slotId action index => [IInt32 slotId; IInt32 action; IInt32 index]
  | RqGetClip slotId index => [IInt32 slotId; IInt32 index]
  | RqSetClir slotId action index => [IInt32 slotId; IInt32 action; IInt32 index]
  | RqGetClir slotId index => [IInt32 slotId; IInt32 index]
  | RqSetCallTransfer slotId cfInfo classType index =>
      [IInt32 slotId; IRaw (to_raw cfInfo); IInt32 classType; IInt32 index]
  | RqCanSetCallTransferTime slotId result => [IInt32 slotId; IBool result]
  | RqGetCallTransfer slotId reason index => [IInt32 slotId; IInt32 reason; IInt32 index]
  | RqSetCallRestriction slotId fac mode pw index =>
      [IInt32 slotId; IString fac; IInt32 mode; IString pw; IInt32 index]
  | RqGetCallRestriction slotId fac index => [IInt32 slotId; IString fac; IInt32 index]
  | RqSetCallWaiting slotId activate classType index =>
      [IInt32 slotId; IBool activate; IInt32 classType; IInt32 index]
  | RqSetVideoCallWaiting slotId activate => [IInt32 slotId; IBool activate]
  | RqGetCallWaiting slotId index => [IInt32 slotId; IInt32 index]
  | RqSetColr slotId presentation index => [IInt32 slotId; IInt32 presentation; IInt32 index]
  | RqGetColr slotId index => [IInt32 slotId; IInt32 index]
  | RqSetColp slotId action index => [IInt32 slotId; IInt32 action; IInt32 index]
  | RqGetColp slotId index => [IInt32 slotId; IInt32 index]
  | RqUpdateImsCapabilities slotId imsCapabilities =>
      [IInt32 slotId; IInt32 (i32 (Z.of_nat (Datatypes.length imsCapabilities)))] ++
      (imsCapabilities ≫= ImsCallProxy.capability_items)
  | RqGetUtImpuFromNetwork slotId impu => [IInt32 slotId; IString impu]
  | RqNotifyOperatorConfigChanged slotId state => [IInt32 slotId; IInt32 state]
  | RqGetImsCapabilities slotId => [IInt32 slotId]
  end.

Definition request_data (rq : ClientRequest) : Parcel :=
  IToken ImsCallProxy.ImsCallInterface_descriptor :: request_items rq.
(** A window whose object could not be written is sent without it. *)
Definition without_surface (rq : ClientRequest) : ClientRequest :=
  match rq with
  | RqSetPreviewWindow slotId callIndex surfaceID _ => RqSetPreviewWindow slotId callIndex surfaceID None
  | RqSetDisplayWindow slotId callIndex surfaceID _ => RqSetDisplayWindow slotId callIndex surfaceID None
  | rq => rq
  end.
(** What the answer is in the reply. *)
Definition request_answer (rq : ClientRequest) (out : Parcel) : Z :=
  match rq with
  | RqCanSetCallTransferTime _ _ => (ReadInt32 (ReadBool out).2).1
  | _ => (ReadInt32 out).1
  end.
(** The two ways to reject a call. *)
Definition normal (rq : ClientRequest) : ClientRequest :=
  match rq with RqReject callInfo => RqRejectWithReason callInfo USER_DECLINE | rq => rq end.
(** Methods that only builds with SUPPORT_RTT_CALL have. *)
Definition in_build (rq : ClientRequest) : Prop :=
  match rq with RqUpdateImsRttCallMode _ _ _ => SUPPORT_RTT_CALL = true | _ => True end.

Definition request_spec {S} (m : M IpcEvent S Z) (rq : ClientRequest) : Prop :=
  proxy_spec m (ImsCallProxy.code_value (request_code rq)) [request_data rq; request_data (without_surface rq)]
    (λ a, a ∈ ipc_errors) (request_answer rq).
End Requests.

(** ** The proxy *)

Section ProxySpec.
Context `{CallConsts, ConfigEnv, ParcelEnv, IpcEnv, ClientEnv, !ParcelEnvOk} {S : Type}.

Lemma proxy_spec_bind {A B} (m : M IpcEvent S A) (f : A → B) code datas (failed : A → Prop) answer
    (failed' : B → Prop) answer' :
  proxy_spec m code datas failed answer →
  (∀ a, failed a → failed' (f a)) → (∀ out, f (answer out) = answer' out) →
  proxy_spec (let! a := m in mret (f a)) code datas failed' answer'.
Proof.
  intros Hm Hf Ha s h. apply wp_then. eapply wp_mono; [apply Hm|].
  intros a s' e (-> & He & Hc). apply wp_ret. rewrite app_nil_r. split; [done|split; [done|]].
  destruct Hc as [[Ht Hfa]|(data & Hd & Ht & [Hfa|(h' & out & Hr & ->)])];
    [left|right; exists data; split_and!; [done..|]; by left; auto|right; exists data; split_and!; [done..|]]; auto.
  right. exists h', out. by rewrite Ha.
Qed.
Lemma CanSetCallTransferTime_spec slotId result :
  request_spec (code_of (ImsCallProxy.CanSetCallTransferTime slotId result) : M IpcEvent S Z)
    (RqCanSetCallTransferTime slotId result).
Proof.
  apply (proxy_spec_bind _ fst _ _ (λ a, a.1 ∈ ipc_errors)
    (λ out, ((ReadInt32 (ReadBool out).2).1, (ReadBool out).1))); [|done..].
  intros s h. unfold ImsCallProxy.CanSetCallTransferTime. apply wp_then.
  eapply wp_mono; [apply WriteCommonInfo_spec|].
  intros [ret p] s' e (-> & -> & [[Hin Hne]|[= -> ->]]); cbn [fst] in *.
  { rewrite bool_decide_true by done. apply wp_ret. rewrite !app_nil_r. split_and!; [done|done|by left]. }
  rewrite bool_decide_false by (intros Hc; by apply Hc). rewrite app_nil_r.
  apply wp_write; intros _.
  { apply wp_ret. split_and!; [done|done|left]. split; [done|list_in]. }
  apply (proxy_send _ _ _ _ _); [by left| | |].
  - intros s' h'. apply wp_ret. split_and!; [done|done|done|list_in].
  - apply (proxy_fails _ _ _ _ _ None). list_in.
  - intros out. by destruct (ReadBool out).
Qed.
Lemma code_ref {A} (m : M IpcEvent S Z) (v : A) c datas :
  code_spec m c datas → code_spec (code_of (let! ret := m in mret (ret, v))) c datas.
Proof.
  intros Hm. apply (proxy_spec_bind (let! ret := m in mret (ret, v)) fst _ _ (λ a, a.1 ∈ ipc_errors)
    (λ out, ((ReadInt32 out).1, v))); [|done..].
  by apply (proxy_spec_bind m (λ ret, (ret, v)) _ _ (λ a, a ∈ ipc_errors) (λ out, (ReadInt32 out).1)).
Qed.
Ltac request_step :=
  first [ apply code_common | apply code_common_type | apply code_token | apply code_put
        | apply code_put_all | apply code_ref | apply code_send; list_in | apply code_send_call; list_in
        | apply code_surface; [|intros ? ->] | apply code_write; [apply code_faulted; list_in|] ].
Ltac request_method :=
  lazymatch goal with
  | |- request_spec ?m ?rq =>
      change (code_spec m (ImsCallProxy.code_value (request_code rq)) [request_data rq; request_data (without_surface rq)])
  end.
Ltac unfold_method :=
  lazymatch goal with
  | |- code_spec (code_of ?m) _ _ => let f := head_of m in unfold f
  | |- code_spec ?m _ _ => let f := head_of m in unfold f
  end.
Lemma run_proxy_spec rq : request_spec (run_proxy rq : M IpcEvent S Z) rq.
Proof.
  destruct rq; cbn [run_proxy]; try apply CanSetCallTransferTime_spec; request_method.
  { unfold ImsCallProxy.Dial. do 3 request_step. apply (proxy_send _ _ _ _ _); [by left| | |by intros].
    + intros s h. apply wp_lost_fault. list_in.
    + apply code_faulted. list_in. }
  all: unfold_method; repeat request_step.
Qed.
End ProxySpec.

(** ** What the message says *)

Section Determined.
Context `{CallConsts, ConfigEnv, ParcelEnv, IpcEnv, ClientEnv}.

Lemma service_code_value code :
  (SUPPORT_RTT_CALL = true ∨ code ∉ [IMS_START_RTT; IMS_STOP_RTT; IMS_UPDATE_RTT_CALL_MODE]) →
  enum_code service_codes (ImsCallProxy.code_value code) = Some code.
Proof.
  unfold ImsCallProxy.code_value, service_codes. intros Hc. destruct SUPPORT_RTT_CALL; [by destruct code|].
  destruct Hc as [?|Hc]; [done|]. destruct code; try done; exfalso; apply Hc; list_in.
Qed.
Lemma capability_items_inj (l l' : list ImsCapability) :
  ImsRegTech_value IMS_REG_TECH_LTE ≠ ImsRegTech_value IMS_REG_TECH_NR →
  l ≫= ImsCallProxy.capability_items = l' ≫= ImsCallProxy.capability_items → l = l'.
Proof.
  intros Hne. revert l'. induction l as [|[t r b] l IH]; intros [|[t' r' b'] l']; [done..|]. cbn.
  intros [= Ht Hr Hb Hl]. apply IH in Hl as ->. subst b'.
  assert (t = t') as -> by (by destruct t, t').
  assert (r = r') as -> by (destruct r, r'; congruence). done.
Qed.
(** The message determines the request: one with the same code and the same
    fields is the same request (the two ways to reject a call with the same
    reason are one). *)
Lemma message_determines_request rq rq' :
  ImsRegTech_value IMS_REG_TECH_LTE ≠ ImsRegTech_value IMS_REG_TECH_NR → in_build rq → in_build rq' →
  ImsCallProxy.code_value (request_code rq) = ImsCallProxy.code_value (request_code rq') →
  request_data rq = request_data rq' → normal rq = normal rq'.
Proof.
  intros Hne Hb Hb' Hc Hd.
  assert (∀ rq, in_build rq →
    enum_code service_codes (ImsCallProxy.code_value (request_code rq)) = Some (request_code rq)) as Hcode.
  { intros q Hq. apply service_code_value. destruct q; try (left; exact Hq); right; cbn; set_unfold; naive_solver. }
  pose proof (Hcode rq Hb) as Hsame. rewrite Hc, (Hcode rq' Hb') in Hsame. injection Hsame as Hsame. clear Hc Hcode Hb Hb'.
  destruct rq, rq'; try discriminate Hsame; cbn in Hd; simplify_eq; try done.
  - by destruct mode, mode0.
  - by destruct surface, surface0; simplify_eq.
  - by destruct surface, surface0; simplify_eq.
  - cbn. f_equal. by apply capability_items_inj.
Qed.
Lemma in_build_without_surface rq : in_build rq → in_build (without_surface rq).
Proof. by destruct rq. Qed.
End Determined.
