(* ===== verification/ImsClientUser.v ===== *)
(** * ImsClientUser: the client as its users and the IMS service see it

    What a request does whether or not the client is connected, what a refused
    registration and an early report leave behind, and what another thread can
    do between two steps of a request. *)

From stdpp Require Import base tactics option list numbers strings gmap relations.
From Stdlib Require Import ZArith Lia Ascii String.
From S2P Require Import Prelude SsTypes ConfigTypes Platform ConfigRequest Parcel IpcCodes.
From S2P Require ImsCallProxy ImsCallClient ImsClientFacts.
Import ImsCallProxy.ImsCallProxyFacts ImsCallClient ImsClientFacts.
From S2P Require ImsCallProxy.
Import ImsCallInterfaceCode.

Open Scope Z_scope.

(** ** Locks *)

(** The mutexes held after a trace, [None] when one is taken twice or released
    out of order. *)
Fixpoint client_locks (held : list ClientMutex) (e : list IpcEvent) : option (list ClientMutex) :=
  match e with
  | [] => Some held
  | Acquire m _ :: e => if bool_decide (m ∈ held) then None else client_locks (m :: held) e
  | Release m :: e =>
      match held with
      | m' :: held => if bool_decide (m = m') then client_locks held e else None
      | [] => None
      end
  | _ :: e => client_locks held e
  end.
(** A trace that gives back what it takes and calls through no null proxy. *)
Definition tidy (held : list ClientMutex) (e : list IpcEvent) : Prop :=
  client_locks held e = Some held ∧ NullProxy ∉ e.
Lemma client_locks_app held e e' :
  client_locks held (e ++ e') = client_locks held e ≫= λ held, client_locks held e'.
Proof.
  revert held. induction e as [|[| |m sh|m| | |] e IH]; intros held; cbn; try done.
  - by case_bool_decide.
  - destruct held as [|m' held]; [done|]. by case_bool_decide.
Qed.
Lemma tidy_nil held : tidy held [].
Proof. split; [done|]. apply not_elem_of_nil. Qed.
Lemma tidy_app held e e' : tidy held e → tidy held e' → tidy held (e ++ e').
Proof.
  intros [He Hn] [He' Hn']. split; [by rewrite client_locks_app, He|].
  rewrite elem_of_app. by intros [|].
Qed.
Lemma tidy_proxy held e : Forall of_proxy e → tidy held e.
Proof.
  induction 1 as [|x e Hx _ [IH Hn]]; [apply tidy_nil|].
  split; [by destruct x|]. rewrite elem_of_cons. intros [<-|?]; done.
Qed.
Lemma tidy_locked held m shared e :
  m ∉ held → tidy (m :: held) e → tidy held (Acquire m shared :: e ++ [Release m]).
Proof.
  intros Hm [He Hn]. split.
  - cbn. rewrite bool_decide_false by done. rewrite client_locks_app, He. cbn. by rewrite bool_decide_true.
  - rewrite elem_of_cons, elem_of_app, list_elem_of_singleton. naive_solver.
Qed.
Lemma tidy_looked m shared : tidy [] [Acquire m shared; Release m].
Proof. apply (tidy_locked [] m shared []); [apply not_elem_of_nil|apply tidy_nil]. Qed.
Lemma transactions_locked m shared e : transactions (Acquire m shared :: e ++ [Release m]) = transactions e.
Proof. cbn. rewrite transactions_app. apply app_nil_r. Qed.

Section User.
Context `{CallConsts, ConfigEnv, ParcelEnv, IpcEnv, ClientEnv, !ParcelEnvOk}.
Abbreviation Cl A := (M IpcEvent ImsCallClient A).
Implicit Types (s : ImsCallClient) (h e : list IpcEvent).

Lemma wp_client_locked {A} m shared (k : Cl A) (Q : A → ImsCallClient → list IpcEvent → Prop) s h :
  wp k (λ a s' e, Q a s' (Acquire m shared :: e ++ [Release m])) s (h ++ [Acquire m shared]) →
  wp (locked m shared k) Q s h.
Proof.
  intros Hk. unfold locked. psteps. eapply wp_mono; [exact Hk|]. intros a s' e Hq. by psteps.
Qed.

(** ** Registration *)

(** The message that registers a callback. *)
Definition registration (m : Z * Parcel) : Prop :=
  ∃ o, m = (ImsCallProxy.code_value IMS_CALL_REGISTER_CALLBACK,
            [IToken ImsCallProxy.ImsCallInterface_descriptor; IRemote o]).
(** What a look for the service leaves: the handlers as they were; nothing sent
    when there is a proxy, and at most a registration otherwise. *)
Definition connects s s' e : Prop :=
  handlerMap_ s' = handlerMap_ s ∧
  (imsCallProxy_ s = true → s' = s ∧ transactions e = []) ∧
  (transactions e = [] ∨ ∃ m, registration m ∧ transactions e = [m]).

Lemma RegisterImsCallCallback_proxy object s h :
  wp (ImsCallProxy.RegisterImsCallCallback (Some object) : Cl Z) (λ _ s' e, s' = s ∧ Forall of_proxy e ∧
    (transactions e = [] ∨ ∃ m, registration m ∧ transactions e = [m])) s h.
Proof.
  assert (code_spec (ImsCallProxy.RegisterImsCallCallback (Some object) : Cl Z) (ImsCallProxy.code_value IMS_CALL_REGISTER_CALLBACK)
    [[IToken ImsCallProxy.ImsCallInterface_descriptor; IRemote object]]) as Hs.
  { apply code_token, code_put, code_send. list_in. }
  eapply wp_mono; [apply Hs|]. intros a s' e (-> & He & Hc). split; [done|split; [done|]].
  destruct Hc as [[Ht _]|(data & ->%list_elem_of_singleton & Ht & _)]; [by left|right].
  eexists; split; [|done]. by eexists.
Qed.
Lemma RegisterImsCallCallback_run s h :
  wp (ImsCallClient.RegisterImsCallCallback : Cl Z) (λ _ s' e,
    handlerMap_ s' = handlerMap_ s ∧ imsCallProxy_ s' = imsCallProxy_ s ∧ Forall of_proxy e ∧
    (transactions e = [] ∨ ∃ m, registration m ∧ transactions e = [m])) s h.
Proof.
  unfold ImsCallClient.RegisterImsCallCallback. psteps. destruct (imsCallProxy_ s) eqn:Hp; cbn [negb].
  2:{ psteps. split_and!; [done..|by constructor|by left]. }
  psteps. destruct (new_ImsCallCallbackStub h) as [o|]; psteps.
  2:{ split_and!; [done|done|by constructor|by left]. }
  eapply wp_mono; [apply RegisterImsCallCallback_proxy|]. intros ret s' e (-> & He & Ht).
  destruct (ret =? 0); cbn; psteps; by split_and!.
Qed.
Lemma GetImsCallProxy_run s h :
  wp (GetImsCallProxy : Cl bool) (λ b s' e, connects s s' e ∧ tidy [] e) s h.
Proof.
  assert (∀ e, Forall of_proxy e → tidy [] ([Acquire clientLock_ true; Release clientLock_] ++ e)) as Hl.
  { intros e He. apply tidy_app; [|by apply tidy_proxy]. apply tidy_looked. }
  unfold GetImsCallProxy. apply wp_then, wp_client_locked. psteps.
  destruct (imsCallProxy_ s) eqn:Hp.
  { psteps. split; [split_and!; [done..|by left]|]. by apply (Hl []). }
  assert (connects s s [Acquire clientLock_ true; Release clientLock_]) as Hc.
  { split_and!; [done|by rewrite Hp|by left]. }
  psteps. destruct (GetSystemAbilityManager _); cbn [negb]; psteps; [|by split; [|by apply (Hl [])]].
  destruct (CheckSystemAbility _); cbn [negb]; psteps; [|by split; [|by apply (Hl [])]].
  unfold connects. rewrite Hp. apply wp_client_locked.
  eapply (wp_mono _ (λ _ s' e, handlerMap_ s' = handlerMap_ s ∧ Forall of_proxy e ∧
    (transactions e = [] ∨ ∃ m, registration m ∧ transactions e = [m]))).
  { psteps. destruct (cast_ImsCoreServiceInterface _); cbn [negb]; psteps; [|by split_and!; [..|left]].
    destruct (GetProxyObjectPtr _); cbn [negb]; psteps; [|by split_and!; [..|left]].
    destruct (cast_ImsCallInterface _); cbn [negb]; psteps; [|by split_and!; [..|left]].
    eapply wp_mono; [apply RegisterImsCallCallback_run|]. intros ? s' e (Hm & _ & He & Ht). by psteps. }
  intros ? s' e (Hm & He & Ht). split.
  - split_and!; [done..|]. cbn. rewrite transactions_app. cbn. by rewrite app_nil_r.
  - apply (tidy_app _ [_; _]); [apply tidy_looked|].
    apply tidy_locked; [by apply not_elem_of_nil|]. by apply tidy_proxy.
Qed.
Lemma ReConnectService_run s h :
  wp (ReConnectService : Cl Z) (λ ret s' e, connects s s' e ∧ tidy [] e ∧
    (ret = TELEPHONY_SUCCESS ∧ imsCallProxy_ s' = true ∨ ret = TELEPHONY_ERR_IPC_CONNECT_STUB_FAIL)) s h.
Proof.
  unfold ReConnectService. psteps. destruct (imsCallProxy_ s) eqn:Hp; cbn [negb]; psteps.
  { split_and!; [by split_and!; [..|left]|apply tidy_nil|by left]. }
  eapply wp_mono; [apply GetImsCallProxy_run|]. intros _ s' e [Hc Ht]. psteps.
  destruct (imsCallProxy_ s') eqn:Hp'; cbn [negb]; psteps; split_and!; try done; [by left|by right].
Qed.

(** ** A request *)

(** What a request makes of a trace: a registration when there was no proxy,
    then nothing and an error, or the message of the request, answered with what
    the reply holds or with an error. *)
Definition requested s (rq : ClientRequest) (a : Z) e : Prop :=
  ∃ reg sent, transactions e = reg ++ sent ∧
    (reg = [] ∨ imsCallProxy_ s = false ∧ ∃ m, registration m ∧ reg = [m]) ∧
    (sent = [] ∧ a ∈ ipc_errors ∨
     ∃ data, data ∈ [request_data rq; request_data (without_surface rq)] ∧
       sent = [(ImsCallProxy.code_value (request_code rq), data)] ∧
       (a ∈ ipc_errors ∨ ∃ h' out,
          remote_SendRequest h' (ImsCallProxy.code_value (request_code rq)) data = (ERR_NONE, out) ∧
          a = request_answer rq out)).

Lemma through_proxy_run rq (k : Cl Z) c s h :
  imsCallProxy_ s = true → request_spec k rq →
  wp (through_proxy c k) (λ a s' e, s' = s ∧ Forall of_proxy e ∧
    (transactions e = [] ∧ a ∈ ipc_errors ∨
     ∃ data, data ∈ [request_data rq; request_data (without_surface rq)] ∧
       transactions e = [(ImsCallProxy.code_value (request_code rq), data)] ∧
       (a ∈ ipc_errors ∨ ∃ h' out,
          remote_SendRequest h' (ImsCallProxy.code_value (request_code rq)) data = (ERR_NONE, out) ∧
          a = request_answer rq out))) s h.
Proof. intros Hp Hk. unfold through_proxy. psteps. rewrite Hp. apply Hk. Qed.

(** The steps of a request that keep a lock or not ([lock]), with what is
    recorded when there is no service ([failed]). *)
Definition served (lock : bool) (failed : Cl ()) (k : Cl Z) : Cl Z :=
  let! ret := ReConnectService in
  if bool_decide (ret ≠ TELEPHONY_SUCCESS) then failed ;; mret TELEPHONY_ERR_IPC_CONNECT_STUB_FAIL
  else if lock then locked clientLock_ true (through_proxy TELEPHONY_ERR_LOCAL_PTR_NULL k)
  else through_proxy TELEPHONY_ERR_LOCAL_PTR_NULL k.
Lemma served_run lock failed rq (k : Cl Z) s h :
  (∀ s h, wp failed (λ _ s' e, s' = s ∧ Forall of_proxy e ∧ transactions e = []) s h) →
  request_spec k rq →
  wp (served lock failed k) (λ a s' e, requested s rq a e ∧ tidy [] e ∧
    handlerMap_ s' = handlerMap_ s ∧ (imsCallProxy_ s = true → s' = s)) s h.
Proof.
  intros Hf Hk. unfold served. apply wp_then. eapply wp_mono; [apply ReConnectService_run|].
  intros ret s1 e1 ((Hm & Hs & Ht) & He1 & Hret). cbn beta in *.
  assert (∃ reg, transactions e1 = reg ∧
    (reg = [] ∨ imsCallProxy_ s = false ∧ ∃ m, registration m ∧ reg = [m])) as (reg & Hreg & Hreg').
  { eexists; split; [done|]. destruct Ht as [?|(m & ? & ?)]; [by left|].
    destruct (imsCallProxy_ s); [left; by apply Hs|right; split; [done|by exists m]]. }
  case_bool_decide as Hne.
  - apply wp_then. eapply wp_mono; [apply Hf|]. intros _ s2 e2 (-> & He2 & Ht2). apply wp_ret.
    rewrite app_nil_r. split_and!; [|by apply tidy_app; [|apply tidy_proxy]|done|by intros Hc; apply Hs].
    exists reg, []. rewrite transactions_app, Hreg, Ht2. split_and!; [done..|]. left. split; [done|list_in].
  - destruct Hret as [[_ Hp]|Hc]; [|exfalso; apply ipc_errors_not_success;
      rewrite <-Hne, Hc; list_in].
    assert (∀ Q, (∀ a e, Forall of_proxy e → (transactions e = [] ∧ a ∈ ipc_errors ∨
     ∃ data, data ∈ [request_data rq; request_data (without_surface rq)] ∧
       transactions e = [(ImsCallProxy.code_value (request_code rq), data)] ∧
       (a ∈ ipc_errors ∨ ∃ h' out,
          remote_SendRequest h' (ImsCallProxy.code_value (request_code rq)) data = (ERR_NONE, out) ∧
          a = request_answer rq out)) → Q a s1 e) →
      ∀ h, wp (through_proxy TELEPHONY_ERR_LOCAL_PTR_NULL k) Q s1 h) as Hthrough.
    { intros Q HQ h'. eapply wp_mono; [by apply through_proxy_run|]. intros a s2 e2 (-> & ? & ?). by apply HQ. }
    destruct lock; [apply wp_client_locked|]; apply Hthrough; intros a e He Ht2;
      (split_and!; [|apply tidy_app; [done|]|done|by intros Hc; apply Hs]).
    + exists reg, (transactions e). rewrite transactions_app, transactions_locked, Hreg. by split_and!.
    + apply tidy_locked; [apply not_elem_of_nil|by apply tidy_proxy].
    + exists reg, (transactions e). rewrite transactions_app, Hreg. by split_and!.
    + by apply tidy_proxy.
Qed.
Lemma no_fault_run s h :
  wp (mret () : Cl ()) (λ _ s' e, s' = s ∧ Forall of_proxy e ∧ transactions e = []) s h.
Proof. by apply wp_ret. Qed.
Lemma fault_run ev s h :
  wp (fault ev : Cl ()) (λ _ s' e, s' = s ∧ Forall of_proxy e ∧ transactions e = []) s h.
Proof. unfold fault. psteps. split_and!; [done|by repeat constructor|done]. Qed.
Lemma code_of_served {A} (v : A) (k : Cl (Z * A)) s h :
  run (code_of (with_service (mret ()) (λ r, (r, v)) k)) s h = run (served true (mret ()) (code_of k)) s h.
Proof.
  unfold code_of, with_service, served, through_proxy, locked, run, mthen, mret, mget, emit.
  destruct (ReConnectService s h) as [[ret s1] e1]. cbn. case_bool_decide; cbn; [by rewrite app_nil_r|].
  destruct (imsCallProxy_ s1); cbn; [|by rewrite !app_nil_r].
  destruct (k s1 _) as [[a s2] e2]. cbn. by rewrite !app_nil_r.
Qed.
Lemma wp_eq {A} (m m' : Cl A) Q s h : run m s h = run m' s h → wp m' Q s h → wp m Q s h.
Proof. unfold wp, run. by intros ->. Qed.
Lemma run_client_run rq s h :
  wp (run_client rq) (λ a s' e, requested s rq a e ∧ tidy [] e ∧
    handlerMap_ s' = handlerMap_ s ∧ (imsCallProxy_ s = true → s' = s)) s h.
Proof.
  pose proof (run_proxy_spec (S := ImsCallClient) rq) as Hk.
  destruct rq; cbn [run_client run_proxy] in *;
    first [ by eapply wp_eq; [apply code_of_served|]; apply (served_run true); [apply no_fault_run|]
          | by apply (served_run false (mret ())); [apply no_fault_run|]
          | by apply (served_run true (mret ())); [apply no_fault_run|]
          | by apply (served_run true (fault _)); [apply fault_run|] ].
Qed.

(** C6: a request, run without another thread in between, is sent at most once,
    after a registration when there was no proxy and nothing else, with its
    locks given back and through no null proxy.  The message carries the code
    of the request and all its arguments in the order of the interface (a window
    possibly without its surface), and no other request has that message.  The
    caller gets what the service's reply holds or a code that says why there is
    none. *)
Theorem request_reaches_service rq s h
  (Hbuild : in_build rq) (Htech : ImsRegTech_value IMS_REG_TECH_LTE ≠ ImsRegTech_value IMS_REG_TECH_NR) :
  wp (run_client rq) (λ a _ e, tidy [] e ∧
    ∃ reg sent, transactions e = reg ++ sent ∧
      (reg = [] ∨ imsCallProxy_ s = false ∧ ∃ m, registration m ∧ reg = [m]) ∧
      (sent = [] ∧ a ∈ ipc_errors ∨
       ∃ rq1, (rq1 = rq ∨ rq1 = without_surface rq) ∧
         let code := ImsCallProxy.code_value (request_code rq1) in
         let data := request_data rq1 in
         sent = [(code, data)] ∧
         (∀ rq', in_build rq' → ImsCallProxy.code_value (request_code rq') = code →
            request_data rq' = data → normal rq' = normal rq1) ∧
         (a ∈ ipc_errors ∨
          ∃ h' out, remote_SendRequest h' code data = (ERR_NONE, out) ∧ a = request_answer rq out))) s h.
Proof.
  eapply wp_mono; [apply run_client_run|]. intros a s' e ((reg & sent & Ht & Hreg & Hsent) & Htidy & _).
  split; [done|]. exists reg, sent. split_and!; [done..|].
  destruct Hsent as [?|(data & Hd & -> & Ha)]; [by left|right].
  assert (request_code (without_surface rq) = request_code rq) as Hcode by by destruct rq.
  assert (∀ rq1, in_build rq1 → ∀ rq', in_build rq' →
    ImsCallProxy.code_value (request_code rq') = ImsCallProxy.code_value (request_code rq1) →
    request_data rq' = request_data rq1 → normal rq' = normal rq1) as Hdet.
  { intros rq1 Hb1 rq' Hb' Hc1 Hd1. by apply message_determines_request. }
  rewrite !elem_of_cons in Hd. destruct Hd as [->|[->|[]%not_elem_of_nil]].
  - exists rq. split; [by left|]. split_and!; [done|by apply Hdet|done].
  - exists (without_surface rq). split; [by right|]. rewrite Hcode.
    split_and!; [done| |done]. rewrite <-Hcode. by apply Hdet, in_build_without_surface.
Qed.

(** ** Registration and handlers over many uses *)

Inductive client_action :=
  | AcRequest (rq : ClientRequest)
  | AcInit
  | AcAdded (systemAbilityId : Z)
  | AcRemoved
  | AcRegister (slotId : Z)
  | AcHandler (slotId : Z).
Definition run_action (a : client_action) : Cl () :=
  match a with
  | AcRequest rq => run_client rq ;; mret ()
  | AcInit => Init
  | AcAdded systemAbilityId => OnAddSystemAbility systemAbilityId
  | AcRemoved => OnRemoveSystemAbility
  | AcRegister slotId => RegisterImsCallCallbackHandler slotId true ;; mret ()
  | AcHandler slotId => GetHandler slotId ;; mret ()
  end.

(** What an action keeps when the client has a proxy: the proxy, and no
    registration is sent. *)
Definition registration_code : Z := ImsCallProxy.code_value IMS_CALL_REGISTER_CALLBACK.
Definition registrations e : list (Z * Parcel) :=
  filter (λ m, m.1 = registration_code) (transactions e).
Lemma registrations_app e e' : registrations (e ++ e') = registrations e ++ registrations e'.
Proof. unfold registrations. by rewrite transactions_app, filter_app. Qed.
Lemma request_is_no_registration rq : ImsCallProxy.code_value (request_code rq) ≠ registration_code.
Proof.
  unfold registration_code, ImsCallProxy.code_value, service_codes.
  destruct SUPPORT_RTT_CALL; destruct rq; cbn [request_code]; vm_compute; discriminate.
Qed.
Lemma registrations_request s rq a e :
  imsCallProxy_ s = true → requested s rq a e → registrations e = [].
Proof.
  intros Hp (reg & sent & Ht & Hreg & Hsent). unfold registrations. rewrite Ht.
  destruct Hreg as [->|[? _]]; [|congruence]. destruct Hsent as [[-> _]|(data & _ & -> & _)]; [done|].
  rewrite app_nil_l, filter_cons_False; [done|apply request_is_no_registration].
Qed.

Lemma Init_connected s h :
  imsCallProxy_ s = true → wp (Init : Cl ()) (λ _ s' e, s' = s ∧ registrations e = []) s h.
Proof. intros Hp. unfold Init. apply wp_then. unfold IsConnect. apply wp_client_locked. psteps. rewrite Hp. by psteps. Qed.
Lemma OnAdd_connected id s h :
  imsCallProxy_ s = true → wp (OnAddSystemAbility id : Cl ()) (λ _ s' e, s' = s ∧ registrations e = []) s h.
Proof.
  intros Hp. unfold OnAddSystemAbility. destruct (CheckInputSysAbilityId id); cbn [negb]; [|by psteps].
  apply wp_then. unfold IsConnect. apply wp_client_locked. psteps. rewrite Hp. by psteps.
Qed.
Lemma run_action_connected a s h :
  imsCallProxy_ s = true → a ≠ AcRemoved →
  wp (run_action a) (λ _ s' e, imsCallProxy_ s' = true ∧ registrations e = []) s h.
Proof.
  intros Hp Ha. destruct a as [rq| |id| |slotId|slotId]; cbn [run_action]; [..|done| |].
  - apply wp_then. eapply wp_mono; [apply run_client_run|]. intros a s' e (Hr & _ & _ & Hs). psteps.
    rewrite Hs by done. split; [done|]. by apply (registrations_request s rq a).
  - eapply wp_mono; [by apply Init_connected|]. by intros _ s' e [-> ?].
  - eapply wp_mono; [by apply OnAdd_connected|]. by intros _ s' e [-> ?].
  - unfold RegisterImsCallCallbackHandler. cbn [negb]. apply wp_then, wp_client_locked. by psteps.
  - unfold GetHandler. apply wp_then, wp_client_locked. psteps. by destruct (handlerMap_ s !! slotId); psteps.
Qed.
Lemma run_actions_connected acts s h :
  imsCallProxy_ s = true → AcRemoved ∉ acts →
  wp (mfor acts run_action) (λ _ s' e, imsCallProxy_ s' = true ∧ registrations e = []) s h.
Proof.
  revert s h. induction acts as [|a acts IH]; intros s h Hp Hn; cbn [mfor]; [by apply wp_ret|].
  rewrite not_elem_of_cons in Hn. destruct Hn as [Ha Hn].
  apply wp_then. eapply wp_mono; [by apply run_action_connected|]. intros _ s1 e1 [Hp1 He1]. cbn beta.
  eapply wp_mono; [by apply IH|]. intros _ s2 e2 [Hp2 He2]. cbn beta. split; [done|].
  by rewrite registrations_app, He1, He2.
Qed.
Lemma registrations_locked m shared e :
  registrations (Acquire m shared :: e ++ [Release m]) = registrations e.
Proof. unfold registrations. by rewrite transactions_locked. Qed.

Lemma registration_sent d : Datatypes.length (registrations [Transact registration_code d]) = 1%nat.
Proof. unfold registrations. cbn [transactions omap list_omap transaction_of]. by rewrite filter_cons_True. Qed.

(** The callback is registered once and never again: when the first look for
    the service finds it, [Init] sends one registration, and whatever the service
    answers to it, nothing the client does until the service goes away sends
    another.  A service that refused the first one never reports anything. *)
Theorem one_registration acts h (Hstays : AcRemoved ∉ acts)
  (Hmanager : ∀ h, GetSystemAbilityManager h = true) (Hcheck : ∀ h, CheckSystemAbility h = true)
  (Hcore : ∀ h, cast_ImsCoreServiceInterface h = true) (Hobject : ∀ h, GetProxyObjectPtr h = true)
  (Hcast : ∀ h, cast_ImsCallInterface h = true) (Hstub : ∀ h, ∃ o, new_ImsCallCallbackStub h = Some o)
  (Hremote : ∀ h, Remote h = true) (Hwrites : ∀ h p x, ipc_write_ok h p x = true) :
  wp (Init ;; mfor acts run_action) (λ _ s' e,
    imsCallProxy_ s' = true ∧ Datatypes.length (registrations e) = 1%nat) ImsCallClient_new h.
Proof.
  apply wp_then.
  eapply (wp_mono _ (λ _ s' e, imsCallProxy_ s' = true ∧ Datatypes.length (registrations e) = 1%nat)).
  2:{ intros _ s e [Hs He]. cbn beta. eapply wp_mono; [by apply run_actions_connected|].
      intros _ s' e' [Hs' He']. cbn beta. split; [done|]. by rewrite registrations_app, He', app_nil_r. }
  unfold Init. apply wp_then. unfold IsConnect. apply wp_client_locked. psteps. cbn [imsCallProxy_ ImsCallClient_new].
  apply wp_then. eapply (wp_mono _ (λ _ s' e, imsCallProxy_ s' = true ∧ Datatypes.length (registrations e) = 1%nat)).
  2:{ intros _ s e [Hs He]. cbn beta. apply wp_client_locked. psteps.
      destruct (new_SystemAbilityListener _); cbn [negb]; psteps;
        [rewrite Hmanager; cbn [negb]; psteps|]; (split; [done|]); by rewrite !registrations_app, !length_app, He. }
  unfold GetImsCallProxy. apply wp_then, wp_client_locked. psteps. cbn [imsCallProxy_ ImsCallClient_new].
  psteps. rewrite Hmanager. cbn [negb]. psteps. rewrite Hcheck. cbn [negb]. apply wp_client_locked.
  psteps. rewrite Hcore. cbn [negb]. psteps. rewrite Hobject. cbn [negb]. psteps. rewrite Hcast. cbn [negb].
  psteps. unfold ImsCallClient.RegisterImsCallCallback. psteps.
  cbn [imsCallProxy_ set_imsCallProxy negb]. psteps.
  match goal with |- context [new_ImsCallCallbackStub ?h] => destruct (Hstub h) as [o ->] end. psteps.
  unfold ImsCallProxy.RegisterImsCallCallback, ImsCallProxy.put_token, ImsCallProxy.put.
  apply wp_write; [cbn; by rewrite Hwrites|]. intros _. apply wp_write; [cbn; by rewrite Hwrites|]. intros _.
  unfold ImsCallProxy.SendRequest. psteps. rewrite Hremote. cbn [negb]. unfold transact. psteps.
  destruct (remote_SendRequest _ _ _) as [error out].
  destruct (error =? ERR_NONE); psteps; destruct (_ =? 0); cbn [negb]; psteps;
    (split; [done|]); apply registration_sent.
Qed.

(** ** A slot whose handler is null *)

Definition deaf (slotId : Z) s : Prop := handlerMap_ s !! slotId = Some false.
Lemma deaf_GetHandler slotId i : preserves (deaf slotId) (GetHandler i : Cl bool).
Proof.
  intros s h Hd. unfold GetHandler. apply wp_client_locked. psteps. unfold deaf in *.
  destruct (handlerMap_ s !! i) eqn:Hi; psteps; [done|]. cbn. rewrite lookup_insert_ne; congruence.
Qed.
Lemma GetHandler_deaf slotId s h : deaf slotId s → wp (GetHandler slotId : Cl bool) (λ b _ _, b = false) s h.
Proof. intros Hd. unfold GetHandler. apply wp_client_locked. psteps. rewrite Hd. by psteps. Qed.
Lemma deaf_Register slotId i : preserves (deaf slotId) (RegisterImsCallCallbackHandler i true : Cl Z).
Proof.
  intros s h Hd. unfold RegisterImsCallCallbackHandler. cbn [negb]. apply wp_client_locked. psteps.
  unfold deaf in *. cbn. destruct (handlerMap_ s !! i) eqn:Hi; [done|]. rewrite lookup_insert_ne; congruence.
Qed.
Lemma deaf_Clean slotId : preserves (deaf slotId) (Clean : Cl ()).
Proof. intros s h Hd. unfold Clean. apply wp_client_locked. by psteps. Qed.
Lemma deaf_ReConnectService slotId : preserves (deaf slotId) (ReConnectService : Cl Z).
Proof.
  intros s h Hd. eapply wp_mono; [apply ReConnectService_run|]. intros ? s' e' ((Hm & _) & _).
  unfold deaf. by rewrite Hm.
Qed.
Lemma deaf_Init slotId : preserves (deaf slotId) (Init : Cl ()).
Proof.
  intros s h Hd. unfold Init. apply wp_then. unfold IsConnect. apply wp_client_locked. psteps.
  destruct (imsCallProxy_ s); psteps; [done|]. eapply wp_mono; [apply GetImsCallProxy_run|].
  intros _ s' e' ((Hm & _) & _). apply wp_client_locked. psteps. unfold deaf in *. rewrite <-Hm in Hd.
  destruct (new_SystemAbilityListener _); cbn [negb]; psteps; [|done].
  by destruct (GetSystemAbilityManager _); cbn [negb]; psteps.
Qed.
Lemma deaf_OnAdd slotId id : preserves (deaf slotId) (OnAddSystemAbility id : Cl ()).
Proof.
  intros s h Hd. unfold OnAddSystemAbility. destruct (CheckInputSysAbilityId id); cbn [negb]; [|by psteps].
  apply wp_then. unfold IsConnect. apply wp_client_locked. psteps. destruct (imsCallProxy_ s); psteps; [done|].
  eapply wp_mono; [by apply deaf_Clean|]. intros ? s' e Hd'. cbn beta in *. psteps.
  eapply wp_mono; [apply (deaf_ReConnectService slotId); exact Hd'|]. intros ? s'' e' Hd''. by psteps.
Qed.
Lemma deaf_OnRemove slotId : preserves (deaf slotId) (OnRemoveSystemAbility : Cl ()).
Proof.
  intros s h Hd. unfold OnRemoveSystemAbility. apply wp_then. unfold IsConnect. apply wp_client_locked. psteps.
  destruct (imsCallProxy_ s); cbn [negb]; psteps; [by apply deaf_Clean|done].
Qed.
Lemma deaf_action slotId a : preserves (deaf slotId) (run_action a).
Proof.
  destruct a as [rq| |id| |i|i]; cbn [run_action]; [|apply deaf_Init|apply deaf_OnAdd|apply deaf_OnRemove|..];
    (apply preserves_then; [|intros ?; apply preserves_ret]).
  - intros s h Hd. eapply wp_mono; [apply run_client_run|]. intros a s' e' (_ & _ & Hm & _).
    unfold deaf. by rewrite Hm.
  - apply deaf_Register.
  - apply deaf_GetHandler.
Qed.

(** A report that comes before the handler of its slot is registered makes
    the slot deaf: the look for the handler leaves a null entry, which the
    registration that follows does not replace, and every later report of the
    slot finds it, whatever the client does until it is shut down. *)
Theorem early_report_deafens_slot slotId acts s h (Hnone : handlerMap_ s !! slotId = None) :
  wp (GetHandler slotId ;; RegisterImsCallCallbackHandler slotId true ;; mfor acts run_action ;;
      GetHandler slotId) (λ handler _ _, handler = false) s h.
Proof.
  apply wp_then. eapply (wp_mono _ (λ _ s' _, deaf slotId s')).
  { unfold GetHandler. apply wp_client_locked. psteps. rewrite Hnone. psteps. unfold deaf. cbn. by rewrite lookup_insert_eq. }
  intros _ s1 e1 Hd1. cbn beta. apply wp_then. eapply wp_mono; [by apply deaf_Register|].
  intros ? s2 e2 Hd2. cbn beta. apply wp_then.
  eapply wp_mono; [by apply (preserves_mfor (deaf slotId)); [intros; apply deaf_action|]|].
  intros ? s3 e3 Hd3. by apply GetHandler_deaf.
Qed.
End User.
