(* ===== verification/ServiceLifeFacts.v ===== *)
(** * ServiceLifeFacts: what a start, a stop and a second start leave

    After the first start every slot has a handler, the one the reports of the IMS
    service are posted to as well; the core service is told of all of them once it is
    ready, or never.  A stop takes nothing back, and after a second start the two are
    different handlers. *)

From stdpp Require Import base tactics option list numbers strings gmap.
From Stdlib Require Import ZArith Lia Ascii String.
From S2P Require Import Prelude SsTypes ConfigTypes Platform StdMap Service Handler.
From S2P Require Import SupplementRequestCs Supplement ConfigRequest Config ConfigEcc ConfigHandler Parcel IpcCodes.
From S2P Require Import ServiceLife.
From S2P Require ImsCallClient ImsClientUser SatelliteCallClient.

Open Scope Z_scope.

Section Facts.
Context `{CallConsts, E : Env, ServiceEnv, HandlerEnv, SupplementEnv, ConfigEnv}.
Context `{ParcelEnv, IpcEnv, ImsCallClient.ClientEnv, SatelliteCallClient.SatelliteClientEnv, LifeEnv, !ParcelEnvOk}.
Abbreviation Life A := (M LifeEvent ServiceLife A).
Implicit Types (s : ServiceLife).

(** ** Operations of the components *)

Lemma wp_on_ims {A} (m : M IpcEvent ImsCallClient.ImsCallClient A) (Q : A → ServiceLife → list LifeEvent → Prop) s h :
  wp m (λ a c e, Q a (set_ims (ims_handlers s) c s) (LifeIms <$> e)) (life_ims s) (life_ims_of h) → wp (on_ims m) Q s h.
Proof. unfold wp, on_ims. by destruct (m _ _) as [[a c] e]. Qed.
Lemma wp_life_on_service {A} (m : Op CellularCallService A) (Q : A → ServiceLife → list LifeEvent → Prop) s h :
  wp m (λ a v e, Q a (set_service v s) (LifeCore <$> e)) (life_service s) (life_core h) → wp (on_service m) Q s h.
Proof. unfold wp, on_service. by destruct (m _ _) as [[a c] e]. Qed.
Lemma wp_map_locked {A} (k : Life A) (Q : A → ServiceLife → list LifeEvent → Prop) s h :
  wp k (λ a s' e, Q a s' (LockHandlerMap :: e ++ [UnlockHandlerMap])) s (h ++ [LockHandlerMap]) →
  wp (map_locked k) Q s h.
Proof.
  intros Hk. unfold map_locked. psteps. eapply wp_mono; [exact Hk|]. intros a s' e HQ. by psteps.
Qed.
Abbreviation client_map s := (ImsCallClient.handlerMap_ (life_ims s)).
Lemma client_registers slotId (c : ImsCallClient.ImsCallClient) g :
  wp (ImsCallClient.RegisterImsCallCallbackHandler slotId true) (λ _ c' _,
    ImsCallClient.handlerMap_ c' = match ImsCallClient.handlerMap_ c !! slotId with
                                   | Some _ => ImsCallClient.handlerMap_ c
                                   | None => <[slotId := true]> (ImsCallClient.handlerMap_ c)
                                   end) c g.
Proof. unfold ImsCallClient.RegisterImsCallCallbackHandler. cbn [negb]. apply ImsClientUser.wp_client_locked. by psteps. Qed.
Lemma client_init (c : ImsCallClient.ImsCallClient) g :
  wp ImsCallClient.Init (λ _ c' _, ImsCallClient.handlerMap_ c' = ImsCallClient.handlerMap_ c) c g.
Proof.
  unfold ImsCallClient.Init. apply wp_then. unfold ImsCallClient.IsConnect. apply ImsClientUser.wp_client_locked.
  psteps. destruct (ImsCallClient.imsCallProxy_ c); psteps; [done|].
  eapply wp_mono; [apply ImsClientUser.GetImsCallProxy_run|]. intros b c' e [[Hm _] _].
  apply ImsClientUser.wp_client_locked. psteps.
  destruct (ImsCallClient.new_SystemAbilityListener _); cbn [negb]; psteps; [|done].
  destruct (ImsCallClient.GetSystemAbilityManager _); cbn [negb]; by psteps.
Qed.
Lemma client_uninit (c : ImsCallClient.ImsCallClient) g :
  wp ImsCallClient.UnInit (λ _ c' _, ImsCallClient.handlerMap_ c' = ∅) c g.
Proof.
  unfold ImsCallClient.UnInit, ImsCallClient.Clean. apply wp_then, ImsClientUser.wp_client_locked. psteps.
  apply ImsClientUser.wp_client_locked. by psteps.
Qed.

(** ** A slot subscribed *)

Definition object_slots s : list Z := ho_slotId <$> objects s.
Definition fresh s : nat := Datatypes.length (objects s).
(** What a subscription for the slot [it] does to the handlers. *)
Definition subscribed it s s' : Prop :=
  object_slots s' = object_slots s ++ [it] ∧
  handlerMap_ s' = sm_insert it (Some (fresh s)) (handlerMap_ s) ∧
  client_map s' = match client_map s !! it with Some _ => client_map s | None => <[it := true]> (client_map s) end ∧
  ims_handlers s' = match client_map s !! it with Some _ => ims_handlers s | None => <[it := fresh s]> (ims_handlers s) end ∧
  state_ s' = state_ s ∧ life_service s' = life_service s.
Definition made events priority permission it : HandlerObject :=
  {| ho_slotId := it; ho_events := events; ho_priority := priority; ho_permission := permission |}.
Lemma new_handler_run o s h :
  wp (new_handler o) (λ n s' _, n = fresh s ∧ s' = set_objects (objects s ++ [o]) s) s h.
Proof. unfold new_handler. by psteps. Qed.
Lemma set_slot_run events priority permission it s h :
  wp (SetSlotId (fresh s) it)
    (λ _ s' _, s' = set_objects (objects s ++ [made events priority permission it]) s)
    (set_objects (objects s ++ [made events priority permission DEFAULT_SIM_SLOT_ID]) s) h.
Proof.
  unfold SetSlotId. psteps. cbn [objects set_objects]. unfold fresh.
  rewrite alter_app_r_alt by lia. rewrite Nat.sub_diag. done.
Qed.
(** Registration with the IMS client keeps the handler it holds. *)
Lemma register_ims_run handler s h :
  (∀ h, ims_client_instance h = true) →
  let it := slot_of handler s in
  wp (RegisterImsCallCallbackHandler handler) (λ _ s' _,
    ∃ c, s' = set_ims (match client_map s !! it with Some _ => ims_handlers s | None => <[it := handler]> (ims_handlers s) end) c s ∧
      ImsCallClient.handlerMap_ c = match client_map s !! it with Some _ => client_map s | None => <[it := true]> (client_map s) end) s h.
Proof.
  intros Hims it. unfold RegisterImsCallCallbackHandler. psteps. rewrite Hims. cbn [negb]. psteps. apply wp_on_ims.
  eapply wp_mono; [apply client_registers|]. intros r c e Hc. psteps. exists c. split; [done|exact Hc].
Qed.
Lemma subscribe_slot events priority permission it s h :
  (∀ h, samgr h = true) → (∀ h, ims_client_instance h = true) →
  wp (SubscribeToEvents_slot events priority permission it) (λ r s' _, r = false ∧ subscribed it s s') s h.
Proof.
  intros Hsam Hims. unfold SubscribeToEvents_slot. apply wp_then.
  eapply wp_mono; [apply new_handler_run|]. intros handler s1 e1 [-> ->].
  apply wp_then. eapply wp_mono; [apply set_slot_run|]. intros [] s2 e2 ->.
  apply wp_then. eapply wp_mono; [by apply register_ims_run|]. intros [] s3 e3 (c & -> & Hc).
  assert (slot_of (fresh s) (set_objects (objects s ++ [made events priority permission it]) s) = it) as Hslot.
  { unfold slot_of, fresh. cbn [objects set_objects]. by rewrite lookup_app_r, Nat.sub_diag by lia. }
  rewrite Hslot in *. clear Hslot.
  apply wp_then, wp_map_locked. psteps. rewrite Hsam. cbn [negb]. unfold new_listener. psteps.
  split; [done|]. unfold subscribed, object_slots. cbn. rewrite fmap_app. split_and!; done.
Qed.

(** ** Every slot subscribed *)

(** The loop, for a property [I] of the state and what each slot gets, [D]. *)
Lemma subscribe_all (I : ServiceLife → Prop) (D : Z → ServiceLife → Prop) events priority permission s h :
  (∀ h, samgr h = true) → (∀ h, ims_client_instance h = true) →
  (∀ it s s', it ∈ GetSlotInfo → subscribed it s s' → I s → I s' ∧ D it s' ∧ ∀ j, D j s → D j s') →
  I s →
  wp (SubscribeToEvents events priority permission) (λ _ s' _,
    I s' ∧ (∀ j, j ∈ GetSlotInfo → D j s') ∧ (∀ j, D j s → D j s') ∧
    state_ s' = state_ s ∧ life_service s' = life_service s) s h.
Proof.
  intros Hsam Hims Hstep HI0. unfold SubscribeToEvents.
  assert (∀ slots s h, (∀ j, j ∈ slots → j ∈ GetSlotInfo) → I s →
    wp (mfor_return slots (λ it, let! returned := SubscribeToEvents_slot events priority permission it in
                                 mret (if (returned : bool) then Some () else None)))
      (λ _ s' _, I s' ∧ (∀ j, j ∈ slots → D j s') ∧ (∀ j, D j s → D j s') ∧
        state_ s' = state_ s ∧ life_service s' = life_service s) s h) as Hloop.
  { induction slots as [|it slots IH]; intros s0 h0 Hin HI; cbn [mfor_return].
    { apply wp_ret. split_and!; try done. by intros j ?%not_elem_of_nil. }
    apply wp_then, wp_then. eapply wp_mono; [by apply subscribe_slot|]. intros r s1 e1 [-> Hs]. apply wp_ret.
    destruct (Hstep it s0 s1 (Hin it (list_elem_of_here _ _)) Hs HI) as (HI1 & Hd & Hk).
    eapply wp_mono; [apply IH; [intros j Hj; apply Hin; by right|exact HI1]|].
    intros r s2 e2 (HI2 & Hd2 & Hk2 & Hst & Hsv). destruct Hs as (_ & _ & _ & _ & Hst' & Hsv').
    split_and!; [done| |by auto|congruence|congruence].
    intros j [->|?]%elem_of_cons; auto. }
  apply wp_then. eapply wp_mono; [by apply Hloop|]. intros r s' e HQ. by apply wp_ret.
Qed.

(** A slot whose handler is the one the IMS reports are posted to; a slot nothing
    knows of; every slot is one or the other. *)
Definition served it s : Prop :=
  ∃ handler, sm_lookup it (handlerMap_ s) = Some (Some handler) ∧ object_slots s !! handler = Some it ∧
    ims_handlers s !! it = Some handler ∧ client_map s !! it = Some true.
Definition absent it s : Prop := sm_lookup it (handlerMap_ s) = None ∧ client_map s !! it = None.
Definition aligned s : Prop := smap_ok (handlerMap_ s) ∧ ∀ it, served it s ∨ absent it s.

Lemma sm_lookup_insert_old {V} k k' (v x : V) (m : smap V) :
  smap_ok m → sm_lookup k' m = Some x → sm_lookup k' (sm_insert k v m) = Some x.
Proof.
  intros Hok Hx. destruct (sm_lookup k m) eqn:Hk; [rewrite sm_insert_present; [done|done|by eexists]|].
  rewrite sm_lookup_insert_fresh by done. case_bool_decide; [congruence|done].
Qed.
Lemma served_keeps it j s s' : smap_ok (handlerMap_ s) → subscribed it s s' → served j s → served j s'.
Proof.
  intros Hok (Hos & Hm & Hc & Hi & _) (handler & Hl & Ho & Hh & Hcm). exists handler.
  rewrite Hos, Hm, Hc, Hi. split_and!.
  - by apply sm_lookup_insert_old.
  - by apply lookup_app_l_Some.
  - destruct (client_map s !! it) eqn:Hit; [done|]. rewrite lookup_insert_ne; [done|]. intros ->. congruence.
  - destruct (client_map s !! it) eqn:Hit; [done|]. rewrite lookup_insert_ne; [done|]. intros ->. congruence.
Qed.
Lemma subscribed_aligned it s s' :
  subscribed it s s' → aligned s → aligned s' ∧ served it s' ∧ ∀ j, served j s → served j s'.
Proof.
  intros Hs [Hok Hal]. pose proof (λ j, served_keeps it j s s' Hok Hs) as Hk.
  destruct Hs as (Hos & Hm & Hc & Hi & _).
  assert (served it s') as Hit.
  { destruct (Hal it) as [?|[Hl Hcm]]; [by apply Hk|]. exists (fresh s). rewrite Hos, Hm, Hc, Hi, Hcm. split_and!.
    - rewrite sm_lookup_insert_fresh by done. by rewrite bool_decide_true.
    - unfold fresh, object_slots. rewrite lookup_app_r; rewrite length_fmap; [|lia]. by rewrite Nat.sub_diag.
    - by rewrite lookup_insert_eq.
    - by rewrite lookup_insert_eq. }
  split_and!; [|done|done]. split; [rewrite Hm; by apply smap_ok_insert|].
  intros j. destruct (decide (j = it)) as [->|Hne]; [by left|].
  destruct (Hal j) as [?|[Hl Hcm]]; [left; by apply Hk|right]. split.
  - rewrite Hm. destruct (Hal it) as [(x & Hx & _)|[Hx _]].
    + rewrite sm_insert_present; [done|done|by eexists].
    + rewrite sm_lookup_insert_fresh by done. by rewrite bool_decide_false.
  - rewrite Hc. destruct (client_map s !! it); [done|]. by rewrite lookup_insert_ne.
Qed.

(** ** A start *)

(** The handlers and who holds them, unchanged. *)
Definition same_handlers s s' : Prop :=
  object_slots s' = object_slots s ∧ handlerMap_ s' = handlerMap_ s ∧ ims_handlers s' = ims_handlers s ∧
  client_map s' = client_map s.
Lemma same_served it s s' : same_handlers s s' → served it s → served it s'.
Proof. intros (Ho & Hm & Hi & Hc). unfold served. by rewrite Ho, Hm, Hi, Hc. Qed.

Lemma CreateHandler_run (I : ServiceLife → Prop) (D : Z → ServiceLife → Prop) s h :
  (∀ h, samgr h = true) → (∀ h, ims_client_instance h = true) →
  (∀ it s s', it ∈ GetSlotInfo → subscribed it s s' → I s → I s' ∧ D it s' ∧ ∀ j, D j s → D j s') →
  I s →
  wp CreateHandler (λ _ s' _, I s' ∧ (∀ j, j ∈ GetSlotInfo → D j s') ∧
    state_ s' = state_ s ∧ life_service s' = life_service s) s h.
Proof.
  intros Hsam Hims Hstep HI. unfold CreateHandler, StartDisorderEventSubscriber, StartOrderEventSubscriber.
  apply wp_then. eapply wp_mono; [by apply (subscribe_all I D)|]. intros [] s1 e1 (HI1 & Hd1 & _ & Hst1 & Hsv1).
  destruct BASE_POWER_IMPROVEMENT_FEATURE; [|by apply wp_ret].
  eapply wp_mono; [by apply (subscribe_all I D)|]. intros [] s2 e2 (HI2 & Hd2 & _ & Hst2 & Hsv2).
  split_and!; [done|done|congruence|congruence].
Qed.
Lemma SendEventRegisterHandler_run handler s h :
  smap_ok (handlerMap_ s) → sm_lookup DEFAULT_SIM_SLOT_ID (handlerMap_ s) = Some (Some handler) →
  wp SendEventRegisterHandler (λ _ s' e, s' = s ∧
    e = [LockHandlerMap; SendRegisterHandler handler 1000; UnlockHandlerMap]) s h.
Proof.
  intros Hok Hl. unfold SendEventRegisterHandler, handler_at. apply wp_map_locked. psteps.
  cbn [handlerMap_ set_handlerMap]. rewrite sm_insert_present by (done || by eexists). rewrite Hl. cbn [default]. psteps.
  split; [by destruct s|done].
Qed.
Lemma radio_flags_foldl (l : list Z) (v : CellularCallService) :
  let v' := foldl (λ sv i, match Service.isRadioOn_ sv !! i with Some _ => sv | None => Service.setRadioOnFlag false i sv end) v l in
  (∀ i, i ∈ l ∨ is_Some (Service.isRadioOn_ v !! i) → is_Some (Service.isRadioOn_ v' !! i)) ∧
  (∀ i, Service.isRadioOn_ v !! i ≠ Some true → Service.isRadioOn_ v' !! i ≠ Some true).
Proof.
  revert v. induction l as [|x l IH]; intros v; cbn [foldl].
  { split; [|done]. intros i [?%not_elem_of_nil|?]; done. }
  specialize (IH (match Service.isRadioOn_ v !! x with Some _ => v | None => Service.setRadioOnFlag false x v end)).
  destruct IH as [IHs IHn]. destruct (Service.isRadioOn_ v !! x) as [b|] eqn:Hx.
  - split; [|exact IHn]. intros i [[->|?]%elem_of_cons|?]; apply IHs; [right; by eexists|by left|by right].
  - unfold Service.setRadioOnFlag in IHs, IHn. cbn [Service.isRadioOn_] in IHs, IHn. split.
    + intros i [[->|?]%elem_of_cons|?]; apply IHs.
      * right. rewrite lookup_insert_eq. by eexists.
      * by left.
      * right. destruct (decide (i = x)) as [->|]; [rewrite lookup_insert_eq; by eexists|by rewrite lookup_insert_ne].
    + intros i Hi. apply IHn. destruct (decide (i = x)) as [->|]; [by rewrite lookup_insert_eq|by rewrite lookup_insert_ne].
Qed.

(** What is left of a start once the handlers are there. *)
Lemma start_rest_run s h :
  wp (on_service (mmodify insert_radio_flags) ;;
      let! samgrProxy := query samgr in
      let! made := query new_callManagerListener in
      (if (made : bool) then
         let! listener := new_listener None in mmodify (set_callManagerListener (Some listener))
       else mmodify (set_callManagerListener None)) ;;
      let! s := mget in
      match callManagerListener_ s with
      | Some listener =>
          if (samgrProxy : bool) then emit (SubscribeAbility TELEPHONY_CALL_MANAGER_SYS_ABILITY_ID listener)
          else mret ()
      | None => mret ()
      end ;;
      on_ims ImsCallClient.Init ;;
      RegisterEccListener ;;
      mret true)
    (λ r s' _, r = true ∧ same_handlers s s' ∧ life_service s' = insert_radio_flags (life_service s) ∧
      state_ s' = state_ s) s h.
Proof.
  apply wp_then, wp_life_on_service. psteps. unfold new_listener.
  destruct (new_callManagerListener _); psteps; cbn [callManagerListener_ set_callManagerListener];
    [destruct (samgr _); psteps|]; (try apply wp_then); apply wp_on_ims; (eapply wp_mono; [apply client_init|]);
    intros ? c e Hc; unfold RegisterEccListener; psteps; unfold same_handlers; cbn in *; by split_and!.
Qed.

(** A start that is not one too many, for whatever the subscriptions establish. *)
Section Start.
Context (I : ServiceLife → Prop) (D : Z → ServiceLife → Prop).
Context (Hsam : ∀ h, samgr h = true) (Hims : ∀ h, ims_client_instance h = true).
Context (Hstep : ∀ it s s', it ∈ GetSlotInfo → subscribed it s s' → I s → I s' ∧ D it s' ∧ ∀ j, D j s → D j s').
Context (Hok : ∀ s, I s → smap_ok (handlerMap_ s)).
Context (Hhandler : ∀ j s, D j s → ∃ handler, sm_lookup j (handlerMap_ s) = Some (Some handler)).
Context (Hsame : ∀ s s', same_handlers s s' → (I s → I s') ∧ ∀ j, D j s → D j s').
Context (Hdef : DEFAULT_SIM_SLOT_ID ∈ GetSlotInfo).
Definition started s s' (e : list LifeEvent) : Prop :=
  (∀ j, j ∈ GetSlotInfo → D j s') ∧ life_service s' = insert_radio_flags (life_service s) ∧
  ∃ handler, sm_lookup DEFAULT_SIM_SLOT_ID (handlerMap_ s') = Some (Some handler) ∧ SendRegisterHandler handler 1000 ∈ e.
Lemma Init_run s h : I s → wp Init (λ r s' e, r = true ∧ state_ s' = state_ s ∧ I s' ∧ started s s' e) s h.
Proof.
  intros HI. unfold Init.
  assert (∀ h', wp (if OHOS_BUILD_ENABLE_TELEPHONY_EXT then emit InitTelephonyExtWrapper else mret () : Life ())
    (λ _ s' _, s' = s) s h') as Hext by (intros h'; by destruct OHOS_BUILD_ENABLE_TELEPHONY_EXT; psteps).
  apply wp_then. eapply wp_mono; [apply Hext|]. intros [] s0 e0 ->.
  apply wp_then. eapply wp_mono; [by apply (CreateHandler_run I D)|]. intros [] s1 e1 (HI1 & Hd1 & Hst1 & Hsv1).
  destruct (Hhandler _ s1 (Hd1 _ Hdef)) as [handler Hl].
  apply wp_then. eapply wp_mono; [by apply (SendEventRegisterHandler_run handler); [apply Hok|]|].
  intros [] s2 e2 [-> ->]. eapply wp_mono; [apply start_rest_run|].
  intros r s3 e3 (-> & Hsm & Hsv & Hst). destruct (Hsame _ _ Hsm) as [HsI HsD].
  split_and!; [done|congruence|by apply HsI|]. split_and!; [by intros j Hj; apply HsD, Hd1|congruence|].
  exists handler. destruct Hsm as (_ & -> & _). split; [done|]. rewrite !elem_of_app. right. right. left. right. left.
Qed.
Lemma OnStart_run s h :
  state_ s = STATE_STOPPED → I s →
  wp OnStart (λ _ s' e, state_ s' = STATE_RUNNING ∧ I s' ∧ started s s' e) s h.
Proof.
  intros Hst HI. unfold OnStart. psteps. cbn [state_ set_bindTime]. rewrite Hst, bool_decide_false by done. psteps.
  set (s0 := set_bindTime _ s). assert (I s0) as HI0 by (eapply Hsame; [|exact HI]; done).
  eapply wp_mono; [by apply Init_run|]. intros r s1 e1 (-> & _ & HI1 & Hd & Hsv & handler & Hl & He). cbn [negb]. psteps.
  match goal with |- _ ∧ I ?s2 ∧ _ => assert (same_handlers s1 s2) as Hsm by done end.
  split_and!; [done|by eapply Hsame|]. split_and!; [by intros j Hj; eapply Hsame; [exact Hsm|]; apply Hd|done|].
  exists handler. split; [done|]. rewrite !elem_of_app. set_solver.
Qed.
End Start.

Lemma aligned_new : aligned ServiceLife_new.
Proof. split; [apply smap_ok_nil|]. intros it. right. split; [done|apply lookup_empty]. Qed.
Lemma same_aligned s s' : same_handlers s s' → aligned s → aligned s'.
Proof.
  intros Hsm [Hok Hal]. pose proof Hsm as (_ & Hm & _ & Hc). split; [by rewrite Hm|]. intros it.
  destruct (Hal it) as [?|[Hl Hcm]]; [left; by eapply same_served|right]. split; congruence.
Qed.
Lemma first_start_run s h :
  (∀ h, samgr h = true) → (∀ h, ims_client_instance h = true) → DEFAULT_SIM_SLOT_ID ∈ GetSlotInfo →
  state_ s = STATE_STOPPED → aligned s →
  wp OnStart (λ _ s' e, state_ s' = STATE_RUNNING ∧ aligned s' ∧ started served s s' e) s h.
Proof.
  intros Hsam Hims Hdef Hst Hal. apply (OnStart_run aligned served); try done.
  - intros it s0 s1 _. apply subscribed_aligned.
  - by intros s0 [? _].
  - intros j s0 (handler & Hl & _). by exists handler.
  - intros s0 s1 Hsm. split; [by apply same_aligned|]. intros j. by apply same_served.
Qed.

(** C33: after the first start every slot has a handler, and it is the one the reports
    of the IMS service are posted to; no slot's radio is taken to be on; and the
    handler of the first slot is sent the event that makes the process register with
    the core service. *)
Theorem start_serves_every_slot h
  (Hsam : ∀ h, samgr h = true) (Hims : ∀ h, ims_client_instance h = true) (Hdef : DEFAULT_SIM_SLOT_ID ∈ GetSlotInfo) :
  wp OnStart (λ _ s e,
    state_ s = STATE_RUNNING ∧ (∀ it, it ∈ GetSlotInfo → served it s) ∧
    (∀ it, DEFAULT_SIM_SLOT_ID ≤ it < SIM_SLOT_COUNT → Service.isRadioOn_ (life_service s) !! it = Some false) ∧
    ∃ handler, sm_lookup DEFAULT_SIM_SLOT_ID (handlerMap_ s) = Some (Some handler) ∧
      SendRegisterHandler handler 1000 ∈ e) ServiceLife_new h.
Proof.
  eapply wp_mono; [apply first_start_run; [done..|apply aligned_new]|].
  intros [] s e (Hst & _ & Hd & Hsv & Hhd). split_and!; [done..| |done]. intros it Hit. rewrite Hsv.
  destruct (radio_flags_foldl (seqZ DEFAULT_SIM_SLOT_ID (SIM_SLOT_COUNT - DEFAULT_SIM_SLOT_ID)) CellularCallService_new)
    as [Hs Hn].
  destruct (Hs it) as [b Hb]; [left; apply elem_of_seqZ; lia|]. specialize (Hn it). unfold insert_radio_flags.
  cbn [life_service ServiceLife_new]. rewrite Hb in *. destruct b; [|done]. by destruct Hn.
Qed.

(** ** A stop *)

Definition takes_nothing_back (e : list LifeEvent) : Prop :=
  Forall (λ ev, match ev with UnRegisterCoreNotify _ handler _ => handler = None | _ => True end) e.
Lemma takes_nothing_core (e : list Effect) : takes_nothing_back (LifeCore <$> e).
Proof. apply Forall_fmap, Forall_true. done. Qed.
Lemma takes_nothing_ims (e : list IpcEvent) : takes_nothing_back (LifeIms <$> e).
Proof. apply Forall_fmap, Forall_true. done. Qed.
Lemma unregister_loop slot (l : list CoreNotify) s h :
  wp (mfor l (λ what, emit (UnRegisterCoreNotify slot None what)) : Life ())
    (λ _ s' e, s' = s ∧ takes_nothing_back e) s h.
Proof.
  revert h. induction l as [|what l IH]; intros h; cbn [mfor]; [apply wp_ret; split; [done|constructor]|]. psteps.
  eapply wp_mono; [apply IH|]. intros [] s' e [-> He]. split; [done|]. by constructor.
Qed.
Lemma HandlerResetUnRegister_run s h :
  wp HandlerResetUnRegister (λ _ s' e, same_handlers s s' ∧ state_ s' = state_ s ∧ takes_nothing_back e) s h.
Proof.
  unfold HandlerResetUnRegister. apply wp_map_locked. psteps.
  assert (∀ l s h, wp (mfor l (λ '(slot, handler),
       let handler : option nat := match handler with Some _ => None | None => handler end in
       mfor unregistered_events (λ what, emit (UnRegisterCoreNotify slot handler what)) ;;
       on_service
         (if_control slot (λ E, CsControl.ReleaseAllConnection) ;;
          if_control slot (λ E, ImsControl.ReleaseAllConnection))) : Life ())
    (λ _ s' e, same_handlers s s' ∧ state_ s' = state_ s ∧ takes_nothing_back e) s h) as Hloop.
  { induction l as [|[slot handler] l IH]; intros s0 h0; cbn [mfor]; [apply wp_ret; split_and!; [done|done|constructor]|].
    replace (match handler with Some _ => None | None => handler end) with (@None nat) by by destruct handler.
    apply wp_then, wp_then. eapply wp_mono; [apply unregister_loop|]. intros [] s1 e1 [-> He1].
    apply wp_life_on_service. unfold wp at 1. destruct ((_ ;; _) _ _) as [[[] v] e2].
    eapply wp_mono; [apply IH|]. intros [] s3 e3 (Hsm & Hst & He3). split_and!; [done|done|].
    repeat (apply Forall_app; split); [done|apply takes_nothing_core|done]. }
  eapply wp_mono; [apply Hloop|]. intros [] s' e (Hsm & Hst & He). split_and!; [done|done|].
  constructor; [done|]. apply Forall_app. split; [done|]. by repeat constructor.
Qed.
Lemma OnStop_run s h :
  wp OnStop (λ _ s' e, state_ s' = STATE_STOPPED ∧ object_slots s' = object_slots s ∧ handlerMap_ s' = handlerMap_ s ∧
    client_map s' = ∅ ∧ takes_nothing_back e) s h.
Proof.
  unfold OnStop. apply wp_then, wp_on_ims. eapply wp_mono; [apply client_uninit|]. intros [] c e Hc. psteps.
  eapply wp_mono; [apply HandlerResetUnRegister_run|]. intros [] s' e' ((Ho & Hm & _ & Hcm) & Hst & He').
  split_and!; [done|done|done|by rewrite Hcm|].
  repeat (apply Forall_app; split); [apply takes_nothing_ims|constructor..|done].
Qed.

(** ** A second start *)

(** The slot's handler and the one the IMS reports are posted to differ. *)
Definition parted it s : Prop :=
  ∃ old new, sm_lookup it (handlerMap_ s) = Some (Some old) ∧ object_slots s !! old = Some it ∧
    ims_handlers s !! it = Some new ∧ client_map s !! it = Some true ∧ object_slots s !! new = Some it ∧ old ≠ new.
Definition stopped s : Prop :=
  smap_ok (handlerMap_ s) ∧
  ∀ it, it ∈ GetSlotInfo →
    (∃ old, sm_lookup it (handlerMap_ s) = Some (Some old) ∧ object_slots s !! old = Some it) ∧
    (client_map s !! it = None ∨ parted it s).
Lemma parted_keeps it j s s' : smap_ok (handlerMap_ s) → subscribed it s s' → parted j s → parted j s'.
Proof.
  intros Hok (Hos & Hm & Hc & Hi & _) (old & new & Hl & Ho & Hh & Hcm & Hn & Hne). exists old, new.
  rewrite Hos, Hm, Hc, Hi. split_and!; [by apply sm_lookup_insert_old|by apply lookup_app_l_Some| | |by apply lookup_app_l_Some|done];
    (destruct (client_map s !! it) eqn:Hit; [done|]); (rewrite lookup_insert_ne; [done|]); intros ->; congruence.
Qed.
Lemma subscribed_stopped it s s' :
  it ∈ GetSlotInfo → subscribed it s s' → stopped s → stopped s' ∧ parted it s' ∧ ∀ j, parted j s → parted j s'.
Proof.
  intros Hin Hs [Hok Hst]. pose proof (λ j, parted_keeps it j s s' Hok Hs) as Hk.
  destruct Hs as (Hos & Hm & Hc & Hi & _).
  assert (parted it s') as Hit.
  { destruct (Hst it Hin) as [(old & Hl & Ho) [Hcm|?]]; [|by apply Hk]. exists old, (fresh s).
    rewrite Hos, Hm, Hc, Hi, Hcm.
    split_and!; [by apply sm_lookup_insert_old|by apply lookup_app_l_Some|by rewrite lookup_insert_eq..| |].
    - unfold fresh, object_slots. rewrite lookup_app_r; rewrite length_fmap; [|lia]. by rewrite Nat.sub_diag.
    - apply lookup_lt_Some in Ho. unfold object_slots in Ho. rewrite length_fmap in Ho. unfold fresh. lia. }
  split_and!; [|done|done]. split; [rewrite Hm; by apply smap_ok_insert|].
  intros j Hj. destruct (Hst j Hj) as [(old & Hl & Ho) Hp]. split.
  - exists old. rewrite Hos, Hm. split; [by apply sm_lookup_insert_old|by apply lookup_app_l_Some].
  - destruct (decide (j = it)) as [->|Hne]; [by right|]. destruct Hp as [Hcm|?]; [left|right; by apply Hk].
    rewrite Hc. destruct (client_map s !! it); [done|]. by rewrite lookup_insert_ne.
Qed.
Lemma same_parted it s s' : same_handlers s s' → parted it s → parted it s'.
Proof. intros (Ho & Hm & Hi & Hc). unfold parted. by rewrite Ho, Hm, Hi, Hc. Qed.
Lemma same_stopped s s' : same_handlers s s' → stopped s → stopped s'.
Proof.
  intros Hsm [Hok Hst]. pose proof Hsm as (Ho & Hm & _ & Hc). split; [by rewrite Hm|]. intros it Hin.
  destruct (Hst it Hin) as [Hold Hp]. rewrite Ho, Hm, Hc. split; [done|].
  destruct Hp; [by left|right; by eapply same_parted].
Qed.

(** C35: a stop takes no handler back from the core service, because every one is
    unregistered as a null pointer; and a start after it leaves each slot with two
    handlers: the one the service finds, and saves the commands of the supplementary
    services in, and the one the answers and reports of the IMS service go to. *)
Theorem restart_parts_handlers h
  (Hsam : ∀ h, samgr h = true) (Hims : ∀ h, ims_client_instance h = true) (Hdef : DEFAULT_SIM_SLOT_ID ∈ GetSlotInfo) :
  wp OnStart (λ _ s1 _, ∀ h1,
    wp OnStop (λ _ s2 e2, takes_nothing_back e2 ∧ ∀ h2,
      wp OnStart (λ _ s3 _, state_ s3 = STATE_RUNNING ∧ ∀ it, it ∈ GetSlotInfo → parted it s3) s2 h2) s1 h1)
    ServiceLife_new h.
Proof.
  eapply wp_mono; [apply first_start_run; [done..|apply aligned_new]|].
  intros [] s1 e1 (_ & [Hok _] & Hd & _) h1. eapply wp_mono; [apply OnStop_run|].
  intros [] s2 e2 (Hst & Ho & Hm & Hc & Hb). split; [done|]. intros h2.
  eapply wp_mono; [apply (OnStart_run stopped parted); try done|].
  - intros it s s' Hin Hs. by apply subscribed_stopped.
  - by intros s [? _].
  - intros j s (old & _ & Hl & _). by exists old.
  - intros s s' Hsm. split; [by apply same_stopped|]. intros j. by apply same_parted.
  - split; [by rewrite Hm|]. intros it Hin. destruct (Hd it Hin) as (handler & Hl & Hos & _).
    rewrite Ho, Hm, Hc, lookup_empty. split; [by exists handler|by left].
  - intros [] s3 e3 (? & _ & Hp & _). done.
Qed.

(** ** The core service *)

Definition registered (e : list LifeEvent) : list (Z * option nat * CoreNotify) :=
  omap (λ ev, match ev with RegisterCoreNotify slot handler what => Some (slot, handler, what) | _ => None end) e.
Lemma registered_app e e' : registered (e ++ e') = registered e ++ registered e'.
Proof. apply omap_app. Qed.
(** The mutex of the map after a trace: [None] when it is taken twice, given back
    twice, or held while another component works. *)
Fixpoint map_lock (held : bool) (e : list LifeEvent) : option bool :=
  match e with
  | [] => Some held
  | LockHandlerMap :: e => if held then None else map_lock true e
  | UnlockHandlerMap :: e => if held then map_lock false e else None
  | (LifeCore _ | LifeIms _ | LifeSat _ | SleepFor _) :: e => if held then None else map_lock held e
  | _ :: e => map_lock held e
  end.
Lemma map_lock_app held e e' : map_lock held (e ++ e') = map_lock held e ≫= λ held, map_lock held e'.
Proof. revert held. induction e as [|[] e IH]; intros []; cbn; try done; apply IH. Qed.
Lemma map_lock_core (e : list Effect) : map_lock false (LifeCore <$> e) = Some false.
Proof. by induction e. Qed.
Lemma registered_core (e : list Effect) : registered (LifeCore <$> e) = [].
Proof. by induction e. Qed.
(** What the core service is told of a handler. *)
Definition all_events (x : Z * option nat) : list (Z * option nat * CoreNotify) :=
  let '(slot, handler) := x in
  match handler with Some _ => (λ what, (slot, handler, what)) <$> core_events | None => [] end.

Lemma register_loop slot handler (l : list CoreNotify) s h :
  wp (mfor l (λ what, emit (RegisterCoreNotify slot handler what)) : Life ())
    (λ _ s' e, s' = s ∧ registered e = (λ what, (slot, handler, what)) <$> l ∧ ∀ held, map_lock held e = Some held) s h.
Proof.
  revert h. induction l as [|what l IH]; intros h; cbn [mfor]; [by apply wp_ret|]. psteps.
  eapply wp_mono; [apply IH|]. intros [] s' e (-> & He & Hl). split_and!; [done| |done]. cbn. by f_equal.
Qed.
Lemma wp_on_config {A} (m : Op CellularCallConfig A) (Q : A → ServiceLife → list LifeEvent → Prop) s h :
  wp m (λ a v e, Q a (set_config v s) (LifeCore <$> e)) (life_config s) (life_core h) → wp (on_config m) Q s h.
Proof. unfold wp, on_config. by destruct (m _ _) as [[a c] e]. Qed.
Lemma RegisterCoreServiceHandler_run s h :
  wp RegisterCoreServiceHandler (λ _ s' e, same_handlers s s' ∧ registered e = handlerMap_ s ≫= all_events ∧
    map_lock false e = Some false) s h.
Proof.
  unfold RegisterCoreServiceHandler. psteps.
  match goal with |- wp (mfor _ ?body) _ _ _ =>
    assert (∀ l s h, wp (mfor l body) (λ _ s' e, same_handlers s s' ∧ registered e = l ≫= all_events ∧
      map_lock true e = Some true) s h) as Hloop end.
  { induction l as [|[slot handler] l IH]; intros s0 h0; cbn [mfor]; [by apply wp_ret|].
    apply wp_then, wp_then. eapply (wp_mono _ (λ _ s' e, s' = s0 ∧ registered e = all_events (slot, handler) ∧
      map_lock true e = Some true)).
    { destruct handler; [|by apply wp_ret]. apply wp_then. eapply wp_mono; [apply register_loop|].
      intros [] s1 e1 (-> & He & Hl). psteps. rewrite registered_app, map_lock_app, He, Hl, app_nil_r. done. }
    intros [] s1 e1 (-> & He1 & Hl1). psteps. apply wp_on_config. unfold wp at 1.
    destruct ((_ ;; _) _ _) as [[? v] e2]. psteps. eapply wp_mono; [apply IH|].
    intros [] s3 e3 (Hsm & He3 & Hl3). split_and!; [done| |].
    - rewrite !registered_app, registered_core, He1, He3. cbn.
      by rewrite app_nil_r.
    - rewrite !map_lock_app, Hl1. cbn. rewrite map_lock_app, map_lock_core. exact Hl3. }
  eapply wp_mono; [apply Hloop|]. intros [] s' e (Hsm & He & Hl). psteps. split_and!; [done| |].
  - cbn. rewrite registered_app. cbn. by rewrite app_nil_r.
  - cbn. by rewrite map_lock_app, Hl.
Qed.

(** The wait after which the core service is found ready. *)
Fixpoint first_ready (tries : nat) h : option nat :=
  match tries with
  | O => None
  | S tries =>
      let h := h ++ [SleepFor CONNECT_CORE_SERVICE_WAIT_TIME] in
      if IsInitFinished h then Some O else S <$> first_ready tries h
  end.
Definition waits (n : nat) : list LifeEvent := replicate n (SleepFor CONNECT_CORE_SERVICE_WAIT_TIME).

(** C34: the process waits for the core service two seconds at a time and at most
    twenty times.  Once it is ready each handler of the map is registered for each of
    its seventeen events, exactly once, with the mutex of the map given back whenever
    the configuration is asked; if it never gets ready in that time no handler is
    registered, and no call of the modem will be heard of. *)
Theorem registration_bounded s h :
  wp RegisterHandler (λ _ s' e, same_handlers s s' ∧
    match first_ready CONNECT_MAX_TRY_COUNT h with
    | Some n =>
        (n < CONNECT_MAX_TRY_COUNT)%nat ∧
        ∃ rest, e = waits (S n) ++ rest ++ [RegisterCellularCallObject] ∧
          registered rest = handlerMap_ s ≫= all_events ∧ map_lock false rest = Some false
    | None => e = waits CONNECT_MAX_TRY_COUNT
    end) s h.
Proof.
  unfold RegisterHandler. psteps.
  assert (∀ tries h, wp (RegisterHandler_loop tries) (λ _ s' e, same_handlers s s' ∧
    match first_ready tries h with
    | Some n => (n < tries)%nat ∧ ∃ rest, e = waits (S n) ++ rest ++ [RegisterCellularCallObject] ∧
          registered rest = handlerMap_ s ≫= all_events ∧ map_lock false rest = Some false
    | None => e = waits tries
    end) (set_networkSearchCallBack true s) h) as Hloop.
  { induction tries as [|tries IH]; intros h0; cbn [RegisterHandler_loop first_ready]; [by apply wp_ret|]. psteps.
    destruct (IsInitFinished _).
    - apply wp_then. eapply wp_mono; [apply RegisterCoreServiceHandler_run|]. intros [] s1 e1 (Hsm & He & Hl). psteps.
      split; [done|]. split; [lia|]. by exists e1.
    - eapply wp_mono; [apply IH|]. intros [] s1 e1 [Hsm He]. split; [done|].
      destruct (first_ready tries _) as [n|]; cbn; [|by rewrite He].
      destruct He as (Hn & rest & -> & Hr). split; [lia|]. by exists rest. }
  apply Hloop.
Qed.
End Facts.
