(* ===== verification/SatelliteClientFacts.v ===== *)
(** * SatelliteClientFacts: what a request to the satellite service sends

    The requests of the client as values, the message of each, and what the
    client does to send it: the connection when there is none, with the callback
    registered, then the message under the mutex. *)

From stdpp Require Import base tactics option list numbers strings gmap.
From Stdlib Require Import ZArith Lia Ascii String.
From S2P Require Import Prelude SsTypes ConfigTypes Platform ConfigRequest Parcel IpcCodes.
From S2P Require ImsCallProxy ImsClientUser SatelliteCallClient.
Import ImsCallProxy.ImsCallProxyFacts ImsClientUser SatelliteCallClient.
From S2P Require ImsCallProxy SatelliteCallProxy.
Import SatelliteCallProxy.SatelliteCallInterfaceCode.

Open Scope Z_scope.

Inductive SatelliteRequest :=
  | SqDial (callInfo : SatelliteCallInfo) (mode : CLIRMode)
  | SqHangUp (slotId index : Z)
  | SqReject (slotId : Z)
  | SqAnswer (slotId : Z)
  | SqCallsData (slotId lastCallsDataFlag : Z).
Definition request_code (rq : SatelliteRequest) : SatelliteCode :=
  match rq with
  | SqDial _ _ => SATELLITE_DIAL
  | SqHangUp _ _ => SATELLITE_HANG_UP
  | SqReject _ => SATELLITE_REJECT
  | SqAnswer _ => SATELLITE_ANSWER
  | SqCallsData _ _ => SATELLITE_GET_CALL_DATA
  end.
(** The message of a request; [lastCallsDataFlag] is not in it. *)
Definition request_data (rq : SatelliteRequest) : Parcel :=
  IToken SatelliteCallProxy.SatelliteCallInterface_descriptor ::
  match rq with
  | SqDial callInfo mode => [IRaw (to_raw callInfo); IInt32 (ImsCallProxy.CLIRMode_value mode)]
  | SqHangUp slotId index => [IInt32 slotId; IInt32 index]
  | SqReject slotId | SqAnswer slotId | SqCallsData slotId _ => [IInt32 slotId]
  end.
(** Effects that are about no mutex and no null proxy. *)
Definition lockless (e : IpcEvent) : Prop :=
  match e with Acquire _ _ | Release _ | NullProxy => False | _ => True end.

Section Requests.
Context `{CallConsts, ConfigEnv, ParcelEnv, IpcEnv, SatelliteClientEnv, !ParcelEnvOk}.
Abbreviation Cl A := (M IpcEvent SatelliteCallClient A).
Implicit Types (s : SatelliteCallClient) (h e : list IpcEvent).

Definition run_proxy (rq : SatelliteRequest) : Cl Z :=
  match rq with
  | SqDial callInfo mode => SatelliteCallProxy.Dial callInfo mode
  | SqHangUp slotId index => SatelliteCallProxy.HangUp slotId index
  | SqReject slotId => SatelliteCallProxy.Reject slotId
  | SqAnswer slotId => SatelliteCallProxy.Answer slotId
  | SqCallsData slotId _ => SatelliteCallProxy.GetSatelliteCallsDataRequest slotId
  end.
Definition run_client (rq : SatelliteRequest) : Cl Z :=
  match rq with
  | SqDial callInfo mode => Dial callInfo mode
  | SqHangUp slotId index => HangUp slotId index
  | SqReject slotId => Reject slotId
  | SqAnswer slotId => Answer slotId
  | SqCallsData slotId lastCallsDataFlag => GetSatelliteCallsDataRequest slotId lastCallsDataFlag
  end.

(** ** The messages *)

Lemma code_put_token ev k c datas :
  code_spec (k [IToken SatelliteCallProxy.SatelliteCallInterface_descriptor] : Cl Z) c datas →
  code_spec (SatelliteCallProxy.put_token ev k) c datas.
Proof.
  intros Hk. unfold SatelliteCallProxy.put_token. apply code_write; [|exact Hk].
  destruct ev; [apply code_faulted|apply code_error]; list_in.
Qed.
Lemma code_put_fault ev p x k c datas :
  code_spec (k (p ++ [x]) : Cl Z) c datas → code_spec (SatelliteCallProxy.put_fault ev p x k) c datas.
Proof. intros Hk. apply code_write; [|exact Hk]. apply code_faulted. list_in. Qed.
Lemma code_send_sat no_remote ev p c datas :
  p ∈ datas → code_spec (SatelliteCallProxy.send_call no_remote ev p c : Cl Z)
    (SatelliteCallProxy.satellite_code_value c) datas.
Proof.
  intros Hp. unfold SatelliteCallProxy.send_call. apply (proxy_send p); [done| | |by intros].
  - intros s h. apply wp_lost_fault. list_in.
  - destruct no_remote; [apply code_faulted|apply code_error]; list_in.
Qed.
Lemma code_send_request p c datas :
  p ∈ datas → code_spec (SatelliteCallProxy.SendRequest p c : Cl Z)
    (SatelliteCallProxy.satellite_code_value c) datas.
Proof.
  intros Hp. unfold SatelliteCallProxy.SendRequest. apply (proxy_send p); [done| | |by intros].
  - intros s h. apply wp_lost. list_in.
  - apply code_error. list_in.
Qed.
Lemma sat_WriteCommonInfo_spec slotId s h :
  wp (SatelliteCallProxy.WriteCommonInfo slotId [] : Cl _) (λ r s' e, s' = s ∧ e = [] ∧
    (r.1 ∈ ipc_errors ∧ r.1 ≠ TELEPHONY_SUCCESS ∨
     r = (TELEPHONY_SUCCESS, [IToken SatelliteCallProxy.SatelliteCallInterface_descriptor; IInt32 slotId]))) s h.
Proof.
  unfold SatelliteCallProxy.WriteCommonInfo.
  apply wp_write; intros _; [|apply wp_write; intros _]; apply wp_ret;
    (split; [done|split; [done|]]); [left|left|by right];
    (split; [list_in|apply descriptor_error || apply data_error]).
Qed.
Lemma sat_run_proxy_spec rq :
  code_spec (run_proxy rq) (SatelliteCallProxy.satellite_code_value (request_code rq)) [request_data rq].
Proof.
  destruct rq; cbn [run_proxy];
    match goal with |- code_spec ?m _ _ => let f := head_of m in unfold f end;
    try (eapply code_written; [apply sat_WriteCommonInfo_spec|]);
    repeat first [apply code_put_token | apply code_put_fault | apply code_put
                 | apply code_send_sat; list_in | apply code_send_request; list_in].
Qed.

(** ** The connection *)

(** The message that registers a callback. *)
Definition registration (m : Z * Parcel) : Prop :=
  ∃ o, m = (SatelliteCallProxy.satellite_code_value SATELLITE_CALL_REGISTER_CALLBACK,
            [IToken SatelliteCallProxy.SatelliteCallInterface_descriptor; IRemote o]).
Definition at_most_registration e : Prop :=
  transactions e = [] ∨ ∃ m, registration m ∧ transactions e = [m].
Lemma tidy_lockless held e : Forall lockless e → tidy held e.
Proof.
  induction 1 as [|x e Hx _ [IH Hn]]; [apply tidy_nil|].
  split; [by destruct x|]. rewrite elem_of_cons. intros [<-|?]; done.
Qed.
Lemma of_proxy_lockless e : Forall of_proxy e → Forall lockless e.
Proof. intros He. eapply Forall_impl; [exact He|]. by intros []. Qed.

Lemma proxy_registers object s h :
  wp (SatelliteCallProxy.RegisterSatelliteCallCallback (Some object) : Cl Z) (λ _ s' e, s' = s ∧
    Forall of_proxy e ∧ at_most_registration e) s h.
Proof.
  assert (code_spec (SatelliteCallProxy.RegisterSatelliteCallCallback (Some object) : Cl Z)
    (SatelliteCallProxy.satellite_code_value SATELLITE_CALL_REGISTER_CALLBACK)
    [[IToken SatelliteCallProxy.SatelliteCallInterface_descriptor; IRemote object]]) as Hs.
  { apply code_put_token, code_put, code_send_request. list_in. }
  eapply wp_mono; [apply Hs|]. intros a s' e (-> & He & Hc). split; [done|split; [done|]].
  destruct Hc as [[Ht _]|(data & ->%list_elem_of_singleton & Ht & _)]; [by left|right].
  eexists; split; [|done]. by eexists.
Qed.
(** The callback is the only part that changes. *)
Lemma RegisterSatelliteCallCallback_run s h :
  wp (RegisterSatelliteCallCallback : Cl Z) (λ _ s' e,
    (∃ callback, s' = set_callCallback callback s) ∧ Forall of_proxy e ∧ at_most_registration e) s h.
Proof.
  unfold RegisterSatelliteCallCallback. psteps. destruct (satelliteCallProxy_ s) eqn:Hp; cbn [negb].
  2:{ psteps. split_and!; [exists (satelliteCallCallback_ s); by destruct s|by constructor|by left]. }
  psteps. destruct (new_SatelliteCallCallbackStub h) as [o|]; psteps.
  2:{ split_and!; [by eexists|by constructor|by left]. }
  eapply wp_mono; [apply proxy_registers|]. intros ret s' e (-> & He & Ht).
  destruct (ret =? 0); cbn; psteps; split_and!; try done; by eexists.
Qed.

(** What a look for the service leaves: the handlers; nothing sent and nothing
    changed when there is a proxy, and at most a registration otherwise. *)
Definition connects s s' e : Prop :=
  handlerMap_ s' = handlerMap_ s ∧ tidy [] e ∧
  if satelliteCallProxy_ s then s' = s ∧ transactions e = [] else at_most_registration e.

Lemma wp_sat_locked {A} m (k : Cl A) (Q : A → SatelliteCallClient → list IpcEvent → Prop) s h :
  wp k (λ a s' e, Q a s' (Acquire m false :: e ++ [Release m])) s (h ++ [Acquire m false]) →
  wp (locked m k) Q s h.
Proof.
  intros Hk. unfold locked. psteps. eapply wp_mono; [exact Hk|]. intros a s' e Hq. by psteps.
Qed.
Lemma AddDeathRecipient_run object s h :
  wp (AddDeathRecipient object : Cl bool) (λ _ s' e, s' = s ∧ Forall lockless e ∧ transactions e = []) s h.
Proof.
  unfold AddDeathRecipient. destruct (IsProxyObject object); psteps; [|split_and!; [done|constructor|done]].
  destruct (AddDeathRecipient_answer h); psteps; (split_and!; [done|by repeat constructor|done]).
Qed.
Lemma GetSatelliteCallProxy_run s h :
  wp (GetSatelliteCallProxy : Cl bool) (λ _ s' e, connects s s' e) s h.
Proof.
  unfold GetSatelliteCallProxy. apply wp_sat_locked. unfold connects.
  eapply (wp_mono _ (λ _ s' e, handlerMap_ s' = handlerMap_ s ∧ Forall lockless e ∧
    if satelliteCallProxy_ s then s' = s ∧ transactions e = [] else at_most_registration e)).
  2:{ intros _ s' e (Hm & He & Hs). split_and!; [done| |].
      - apply tidy_locked; [apply not_elem_of_nil|by apply tidy_lockless].
      - unfold at_most_registration in *. by rewrite transactions_locked. }
  assert (handlerMap_ s = handlerMap_ s ∧ Forall lockless [] ∧ at_most_registration []) as Hn
    by (split_and!; [done|constructor|by left]).
  psteps. destruct (satelliteCallProxy_ s) eqn:Hp; psteps; [split_and!; [done|constructor|done|done]|].
  destruct (sat_GetSystemAbilityManager _); cbn [negb]; psteps; [|done].
  destruct (sat_CheckSystemAbility _) as [object|]; psteps; [|done].
  destruct (new_SatelliteServiceDeathRecipient _); cbn [negb]; psteps; [|done].
  eapply wp_mono; [apply AddDeathRecipient_run|]. intros watched s1 e1 (-> & He1 & Ht1).
  assert (at_most_registration e1) as Hr1 by by left.
  destruct watched; cbn [negb]; psteps; [|by split_and!].
  destruct (cast_ISatelliteService _ object); cbn [negb]; psteps; [|by split_and!].
  destruct (sat_GetProxyObjectPtr _); cbn [negb]; psteps; [|by split_and!].
  eapply wp_mono; [apply RegisterSatelliteCallCallback_run|]. intros ret s2 e2 ([callback ->] & He2 & Ht2). psteps. cbn [app].
  split_and!; [done|apply Forall_app; split; [done|by apply of_proxy_lockless]|].
  unfold at_most_registration in *. by rewrite transactions_app, Ht1.
Qed.
Lemma Sat_ReConnectService_run s h :
  wp (ReConnectService : Cl Z) (λ ret s' e, connects s s' e ∧
    (ret = TELEPHONY_SUCCESS ∧ satelliteCallProxy_ s' = true ∨ ret = TELEPHONY_ERR_IPC_CONNECT_STUB_FAIL)) s h.
Proof.
  unfold ReConnectService, connects. psteps. destruct (satelliteCallProxy_ s) eqn:Hp; cbn [negb]; psteps.
  { split_and!; [done|apply tidy_nil|done|done|by left]. }
  eapply wp_mono; [apply GetSatelliteCallProxy_run|]. intros b s' e Hc. unfold connects in Hc. rewrite Hp in Hc. psteps.
  destruct (satelliteCallProxy_ s') eqn:Hp'; cbn [negb]; psteps; (split; [exact Hc|]); [by left|by right].
Qed.

(** ** A request *)

(** What a request adds to a trace: nothing and an error, or its message. *)
Definition sent (rq : SatelliteRequest) (a : Z) (messages : list (Z * Parcel)) : Prop :=
  messages = [] ∧ a ∈ ipc_errors ∨
  messages = [(SatelliteCallProxy.satellite_code_value (request_code rq), request_data rq)] ∧
    (a ∈ ipc_errors ∨
     ∃ h' out, remote_SendRequest h' (SatelliteCallProxy.satellite_code_value (request_code rq)) (request_data rq)
                 = (ERR_NONE, out) ∧ a = (ReadInt32 out).1).
Definition requested rq s a s' e : Prop :=
  tidy [] e ∧ handlerMap_ s' = handlerMap_ s ∧ (satelliteCallProxy_ s = true → s' = s) ∧
  ∃ reg messages, transactions e = reg ++ messages ∧ sent rq a messages ∧
    (reg = [] ∨ satelliteCallProxy_ s = false ∧ ∃ m, registration m ∧ reg = [m]).

Lemma with_service_run failed rq (k : Cl Z) s h :
  (∀ s h, wp failed (λ _ s' e, s' = s ∧ Forall of_proxy e ∧ transactions e = []) s h) →
  code_spec k (SatelliteCallProxy.satellite_code_value (request_code rq)) [request_data rq] →
  wp (with_service failed k) (λ a s' e, requested rq s a s' e) s h.
Proof.
  intros Hf Hk. unfold with_service. apply wp_then. eapply wp_mono; [apply Sat_ReConnectService_run|].
  intros ret s1 e1 ((Hm & He1 & Hs) & Hret).
  assert ((satelliteCallProxy_ s = true → s1 = s) ∧
    (transactions e1 = [] ∨ satelliteCallProxy_ s = false ∧ ∃ m, registration m ∧ transactions e1 = [m]))
    as [Hsame Hreg].
  { destruct (satelliteCallProxy_ s); [split; [tauto|left; tauto]|]. split; [done|].
    destruct Hs as [?|?]; [by left|by right]. }
  clear Hs. case_bool_decide as Hne.
  - apply wp_then. eapply wp_mono; [apply Hf|]. intros _ s2 e2 (-> & He2 & Ht2). apply wp_ret. rewrite app_nil_r.
    split_and!; [by apply tidy_app; [|apply tidy_proxy]|done|done|].
    exists (transactions e1), []. rewrite transactions_app, Ht2. split_and!; [done| |done].
    left. split; [done|list_in].
  - destruct Hret as [[_ Hp]|Hc]; [|exfalso; apply ipc_errors_not_success; rewrite <-Hne, Hc; list_in].
    apply wp_sat_locked. unfold through_proxy. psteps. rewrite Hp.
    eapply wp_mono; [apply Hk|]. intros a s2 e2 (-> & He2 & Ha). split_and!; [|done|done|].
    + apply tidy_app; [done|]. apply tidy_locked; [apply not_elem_of_nil|by apply tidy_proxy].
    + exists (transactions e1), (transactions e2). rewrite transactions_app, transactions_locked.
      split_and!; [done| |done].
      destruct Ha as [?|(data & ->%list_elem_of_singleton & ? & ?)]; [by left|by right].
Qed.
Lemma no_record_run s h :
  wp (mret () : Cl ()) (λ _ s' e, s' = s ∧ Forall of_proxy e ∧ transactions e = []) s h.
Proof. by apply wp_ret. Qed.
Lemma record_run ev s h :
  wp (Parcel.fault ev : Cl ()) (λ _ s' e, s' = s ∧ Forall of_proxy e ∧ transactions e = []) s h.
Proof. unfold Parcel.fault. psteps. split_and!; [done|by repeat constructor|done]. Qed.

(** C38: one request of the satellite client, run without another thread in
    between (a service that dies between its look at the proxy and its lock can
    leave it with a null proxy), sends at most its own message, with all its
    arguments but the flag of a look for the calls, after the registration of a
    callback when the client had no proxy and after nothing else when it had one;
    it leaves the handlers alone, gives its mutexes back, calls through no null
    proxy, and answers what the service answered or an error of the transport. *)
Theorem satellite_request_sent rq s h : wp (run_client rq) (λ a s' e, requested rq s a s' e) s h.
Proof.
  pose proof (sat_run_proxy_spec rq) as Hk.
  destruct rq; (apply with_service_run; [apply record_run || apply no_record_run|exact Hk]).
Qed.
End Requests.
