(* ===== verification/ImsCallCallbackProxy.v ===== *)
(** * ImsCallCallbackProxy: what the IMS service reports
    (services/ims_service_interaction/src/ims_call_callback_proxy.cpp)

    The IMS service's side of the callback: each method writes a report into a
    parcel, sends it under its code and returns the first integer of the reply. *)

From stdpp Require Import base tactics option list numbers strings.
From Stdlib Require Import ZArith Lia Ascii String.
From S2P Require Import Prelude SsTypes ConfigTypes Platform ConfigRequest Parcel IpcCodes.
From S2P Require ImsCallProxy.
Import ImsCallCallbackInterfaceCode.

Open Scope Z_scope.

#[local] Abbreviation put := ImsCallProxy.put.
#[local] Abbreviation put_all := ImsCallProxy.put_all.
#[local] Abbreviation written := ImsCallProxy.written.

(** [ImsCallCallbackInterface::GetDescriptor()] *)
Definition ImsCallCallbackInterface_descriptor : string := "OHOS.Telephony.ImsCallCallback".

Section Proxy.
Context `{CallConsts, ConfigEnv, ParcelEnv, IpcEnv} {S : Type}.
Abbreviation Ipc A := (M IpcEvent S A).

(** [static_cast<int32_t>(code)]; a method whose code the build does not have is
    not in the build either. *)
Definition code_value (code : CallbackCode) : Z := default 0 (enum_value callback_codes code).

Definition SendResponseInfo (eventId : CallbackCode) (p : Parcel) : Ipc Z :=
  let! remote := query Remote in
  if negb remote then mret TELEPHONY_ERR_LOCAL_PTR_NULL
  else
    let! r := transact (code_value eventId) p in
    let '(error, out) := r in
    if error =? ERR_NONE then mret (ReadInt32 out).1 else mret TELEPHONY_ERR_IPC_CONNECT_STUB_FAIL.

Definition WriteCommonInfo (slotId : Z) (p : Parcel) : Ipc (Z * Parcel) :=
  write p (IToken ImsCallCallbackInterface_descriptor) (mret (TELEPHONY_ERR_WRITE_DESCRIPTOR_TOKEN_FAIL, p)) (λ p,
  write p (IInt32 slotId) (mret (TELEPHONY_ERR_WRITE_DATA_FAIL, p)) (λ p, mret (TELEPHONY_SUCCESS, p))).
Definition WriteCommonInfo_info (slotId : Z) (p : Parcel) (info : RadioResponseInfo) : Ipc (Z * Parcel) :=
  let! r := WriteCommonInfo slotId p in
  let '(ret, p) := r in
  if bool_decide (ret ≠ TELEPHONY_SUCCESS) then mret (ret, p)
  else write p (IRaw (to_raw info)) (mret (TELEPHONY_ERR_WRITE_DATA_FAIL, p)) (λ p, mret (TELEPHONY_SUCCESS, p)).
Definition WriteSsBaseResultCommonInfo (slotId : Z) (p : Parcel) (ssResult : SsBaseResult) : Ipc (Z * Parcel) :=
  let failed p : Ipc (Z * Parcel) := mret (TELEPHONY_ERR_WRITE_DATA_FAIL, p) in
  let! r := WriteCommonInfo slotId p in
  let '(ret, p) := r in
  if bool_decide (ret ≠ TELEPHONY_SUCCESS) then mret (ret, p)
  else
    write p (IInt32 (sb_index ssResult)) (failed p) (λ p,
    write p (IInt32 (sb_result ssResult)) (failed p) (λ p,
    write p (IInt32 (sb_reason ssResult)) (failed p) (λ p,
    write p (IString (sb_message ssResult)) (failed p) (λ p, mret (TELEPHONY_SUCCESS, p))))).

(** The methods that write an answer and nothing else. *)
Definition respond (eventId : CallbackCode) (slotId : Z) (info : RadioResponseInfo) : Ipc Z :=
  written (WriteCommonInfo_info slotId [] info) (λ p, SendResponseInfo eventId p).
Definition with_common (slotId : Z) (k : Parcel → Ipc Z) : Ipc Z := written (WriteCommonInfo slotId []) k.
Definition with_result (slotId : Z) (ssResult : SsBaseResult) (k : Parcel → Ipc Z) : Ipc Z :=
  written (WriteSsBaseResultCommonInfo slotId [] ssResult) k.
Definition respond_result (eventId : CallbackCode) (slotId : Z) (resultInfo : SsBaseResult) : Ipc Z :=
  with_result slotId resultInfo (λ p, SendResponseInfo eventId p).
(** A struct after the slot. *)
Definition report_raw {T} `{!RawStruct T} (eventId : CallbackCode) (slotId : Z) (info : T) : Ipc Z :=
  with_common slotId (λ p, put p (IRaw (to_raw info)) (λ p, SendResponseInfo eventId p)).

(** ** Calls *)

Definition DialResponse : Z → RadioResponseInfo → Ipc Z := respond IMS_DIAL.
Definition HangUpResponse : Z → RadioResponseInfo → Ipc Z := respond IMS_HANG_UP.
Definition RejectWithReasonResponse : Z → RadioResponseInfo → Ipc Z := respond IMS_REJECT.
Definition AnswerResponse : Z → RadioResponseInfo → Ipc Z := respond IMS_ANSWER.
Definition HoldCallResponse : Z → RadioResponseInfo → Ipc Z := respond IMS_HOLD.
Definition UnHoldCallResponse : Z → RadioResponseInfo → Ipc Z := respond IMS_UN_HOLD.
Definition SwitchCallResponse : Z → RadioResponseInfo → Ipc Z := respond IMS_SWITCH.
Definition StartDtmfResponse : Z → RadioResponseInfo → Ipc Z := respond IMS_START_DTMF.
(** SUPPORT_RTT_CALL *)
Definition StartRttResponse : Z → RadioResponseInfo → Ipc Z := respond IMS_START_RTT.
Definition StopRttResponse : Z → RadioResponseInfo → Ipc Z := respond IMS_STOP_RTT.
(** The index of the call comes after the struct. *)
Definition SendDtmfResponse (slotId : Z) (info : RadioResponseInfo) (callIndex : Z) : Ipc Z :=
  written (WriteCommonInfo_info slotId [] info) (λ p, put p (IInt32 callIndex) (λ p,
    SendResponseInfo IMS_SEND_DTMF p)).
Definition StopDtmfResponse : Z → RadioResponseInfo → Ipc Z := respond IMS_STOP_DTMF.
Definition CallStateChangeReport (slotId : Z) : Ipc Z :=
  with_common slotId (λ p, SendResponseInfo IMS_CALL_STATE_CHANGE p).
Definition GetImsCallsDataResponse_info : Z → RadioResponseInfo → Ipc Z := respond IMS_GET_CALLS_DATA.
Definition call_items (call : ImsCurrentCall) : list Item :=
  [IInt32 (im_index call); IInt32 (im_dir call); IInt32 (im_state call); IInt32 (im_mode call);
   IInt32 (im_mpty call); IInt32 (im_voiceDomain call); IInt32 (im_callType call);
   IString (im_number call); IString (im_name call); IInt32 (im_type call); IString (im_alpha call);
   IInt32 (im_toa call); IInt32 (im_toneType call); IInt32 (im_callInitialType call);
   IInt32 (im_namePresentation call); IInt32 (im_newCallUseBox call); IInt32 (im_rttState call);
   IInt32 (im_rttChannelId call); IInt32 (im_imsDomain call)].
Definition GetImsCallsDataResponse_list (slotId : Z) (callList : ImsCurrentCallList) : Ipc Z :=
  with_common slotId (λ p, put p (IInt32 (iml_callSize callList)) (λ p,
    put p (IInt32 (iml_flag callList)) (λ p,
    put p (IInt32 (i32 (Z.of_nat (Datatypes.length (iml_calls callList))))) (λ p,
    put_all p (iml_calls callList ≫= call_items) (λ p, SendResponseInfo IMS_GET_CALLS_DATA p))))).
Definition CombineConferenceResponse : Z → RadioResponseInfo → Ipc Z := respond IMS_COMBINE_CONFERENCE.
Definition InviteToConferenceResponse : Z → RadioResponseInfo → Ipc Z := respond IMS_INVITE_TO_CONFERENCE.
Definition ReceiveUpdateCallMediaModeRequest : Z → ImsCallModeReceiveInfo → Ipc Z :=
  report_raw IMS_RECV_CALL_MEDIA_MODE_REQUEST.
Definition ReceiveUpdateCallMediaModeResponse : Z → ImsCallModeReceiveInfo → Ipc Z :=
  report_raw IMS_RECV_CALL_MEDIA_MODE_RESPONSE.
Definition CallSessionEventChanged : Z → ImsCallSessionEventInfo → Ipc Z :=
  report_raw IMS_CALL_SESSION_EVENT_CHANGED.
Definition PeerDimensionsChanged : Z → ImsCallPeerDimensionsInfo → Ipc Z :=
  report_raw IMS_CALL_PEER_DIMENSIONS_CHANGED.
Definition CallDataUsageChanged : Z → ImsCallDataUsageInfo → Ipc Z :=
  report_raw IMS_CALL_DATA_USAGE_CHANGED.
Definition CameraCapabilitiesChanged : Z → CameraCapabilitiesInfo → Ipc Z :=
  report_raw IMS_CALL_CAMERA_CAPABILITIES_CHANGED.
Definition CallRingBackReport : Z → RingbackVoice → Ipc Z := report_raw IMS_CALL_CRING.
Definition LastCallFailReasonResponse (slotId : Z) (details : DisconnectedDetails) : Ipc Z :=
  with_common slotId (λ p, put p (IInt32 (dd_reason details)) (λ p,
    put p (IString (dd_message details)) (λ p, SendResponseInfo IMS_LAST_CALL_FAIL_REASON p))).
Definition GetImsSuppExtResponse (slotId code callId : Z) : Ipc Z :=
  with_common slotId (λ p, put p (IInt32 code) (λ p, put p (IInt32 callId) (λ p,
    SendResponseInfo IMS_SUPP_EXT_CHANGED p))).
(** SUPPORT_RTT_CALL *)
Definition ReceiveUpdateImsCallRttEvtResponse (slotId : Z) (rttEvtInfo : ImsCallRttEventInfo) : Ipc Z :=
  with_common slotId (λ p, put p (IInt32 (re_callId rttEvtInfo)) (λ p,
    put p (IInt32 (re_eventType rttEvtInfo)) (λ p, put p (IInt32 (re_reason rttEvtInfo)) (λ p,
    SendResponseInfo IMS_UPGRADE_OR_DOWNGRADE_RTT_EVT p)))).
Definition ReceiveUpdateImsCallRttErrResponse (slotId : Z) (rttErrInfo : ImsCallRttErrorInfo) : Ipc Z :=
  with_common slotId (λ p, put p (IInt32 (rx_callId rttErrInfo)) (λ p,
    put p (IInt32 (rx_causeCode rttErrInfo)) (λ p, put p (IInt32 (rx_operationType rttErrInfo)) (λ p,
    put p (IString (rx_reasonText rttErrInfo)) (λ p,
    SendResponseInfo IMS_UPGRADE_OR_DOWNGRADE_RTT_ERR p))))).

(** ** Configuration *)

Definition SetImsSwitchResponse : Z → RadioResponseInfo → Ipc Z := respond IMS_SET_SWITCH_STATUS.
Definition GetImsSwitchResponse_info : Z → RadioResponseInfo → Ipc Z := respond IMS_GET_SWITCH_STATUS.
Definition GetImsSwitchResponse_active (slotId active : Z) : Ipc Z :=
  with_common slotId (λ p, put p (IInt32 active) (λ p, SendResponseInfo IMS_GET_SWITCH_STATUS p)).
Definition SetMuteResponse : Z → MuteControlResponse → Ipc Z := report_raw IMS_SET_MUTE.
Definition GetImsCapResponse (slotId : Z) (imsCap : ImsCapFromChip) : Ipc Z :=
  with_common slotId (λ p, put p (IInt32 (volteCap imsCap)) (λ p, put p (IInt32 (vowifiCap imsCap)) (λ p,
    put p (IInt32 (vonrCap imsCap)) (λ p, put p (IInt32 (vtCap imsCap)) (λ p,
    SendResponseInfo IMS_GET_IMS_CAPABILITY p))))).

(** ** Supplementary services *)

Definition respond_identity (eventId : CallbackCode) (slotId : Z) (result : IdentityResult) : Ipc Z :=
  with_result slotId (id_result result) (λ p, put p (IInt32 (id_action result)) (λ p,
    put p (IInt32 (id_stat result)) (λ p, SendResponseInfo eventId p))).
Definition SetClipResponse : Z → SsBaseResult → Ipc Z := respond_result IMS_SET_CALL_CLIP.
Definition GetClipResponse : Z → IdentityResult → Ipc Z := respond_identity IMS_GET_CALL_CLIP.
Definition GetClirResponse : Z → IdentityResult → Ipc Z := respond_identity IMS_GET_CALL_CLIR.
Definition SetClirResponse : Z → SsBaseResult → Ipc Z := respond_result IMS_SET_CALL_CLIR.
Definition forward_items (call : CallForwardQueryResult) : list Item :=
  [IInt32 (cq_serial call); IInt32 (cq_result call); IInt32 (cq_status call); IInt32 (cq_classx call);
   IString (cq_number call); IInt32 (cq_type call); IInt32 (cq_reason call); IInt32 (cq_time call);
   IInt32 (cq_startHour call); IInt32 (cq_startMinute call); IInt32 (cq_endHour call);
   IInt32 (cq_endMinute call)].
Definition GetCallTransferResponse (slotId : Z) (cFQueryList : CallForwardQueryInfoList) : Ipc Z :=
  with_result slotId (cfl_result cFQueryList) (λ p, put p (IInt32 (cfl_callSize cFQueryList)) (λ p,
    put p (IInt32 (cfl_flag cFQueryList)) (λ p,
    put p (IInt32 (i32 (Z.of_nat (Datatypes.length (cfl_calls cFQueryList))))) (λ p,
    put_all p (cfl_calls cFQueryList ≫= forward_items) (λ p, SendResponseInfo IMS_GET_CALL_FORWARD p))))).
Definition SetCallTransferResponse : Z → SsBaseResult → Ipc Z := respond_result IMS_SET_CALL_FORWARD.
Definition GetCallRestrictionResponse (slotId : Z) (result : CallRestrictionResult) : Ipc Z :=
  with_result slotId (rs_result result) (λ p, put p (IInt32 (rs_status result)) (λ p,
    put p (IInt32 (rs_classCw result)) (λ p, SendResponseInfo IMS_GET_CALL_RESTRICTION p))).
Definition SetCallRestrictionResponse : Z → SsBaseResult → Ipc Z := respond_result IMS_SET_CALL_RESTRICTION.
Definition GetCallWaitingResponse (slotId : Z) (result : CallWaitResult) : Ipc Z :=
  with_result slotId (cw_result result) (λ p, put p (IInt32 (cw_status result)) (λ p,
    put p (IInt32 (cw_classCw result)) (λ p, SendResponseInfo IMS_GET_CALL_WAIT p))).
Definition SetCallWaitingResponse : Z → SsBaseResult → Ipc Z := respond_result IMS_SET_CALL_WAIT.
Definition SetColrResponse : Z → SsBaseResult → Ipc Z := respond_result IMS_SET_CALL_COLR.
Definition GetColrResponse : Z → IdentityResult → Ipc Z := respond_identity IMS_GET_CALL_COLR.
Definition SetColpResponse : Z → SsBaseResult → Ipc Z := respond_result IMS_SET_CALL_COLP.
Definition GetColpResponse : Z → IdentityResult → Ipc Z := respond_identity IMS_GET_CALL_COLP.
End Proxy.
