(* ===== verification/ImsCallCallbackStub.v ===== *)
(** * ImsCallCallbackStub: the IMS service's reports arrive
    (services/ims_service_interaction/src/ims_call_callback_stub.cpp)

    A transaction is checked for its descriptor, found by its code, read and
    handed to the method it is about.  Most methods post an event to the handler
    of the slot, which [ImsCallClient] knows; an answer of a supplementary service
    that asks for the circuit-switched network sends the request again, from the
    command the handler of the service still holds. *)

From stdpp Require Import base tactics option list numbers strings gmap.
From Stdlib Require Import ZArith Lia Ascii String.
From S2P Require Import Prelude SsTypes ConfigTypes Platform Standardize StdMap Service Handler.
From S2P Require Import SupplementRequestCs Supplement ConfigRequest Config ConfigHandler Parcel IpcCodes.
From S2P Require ImsCallClient ImsCallCallbackProxy.
Import ImsCallCallbackInterfaceCode.

Open Scope Z_scope.

(** What the client does, and what the platform does. *)
Inductive StubEvent :=
  | Ipc (e : IpcEvent)
  | Core (e : Effect).
Definition ipc_of (h : list StubEvent) : list IpcEvent :=
  omap (λ e, match e with Ipc e => Some e | Core _ => None end) h.
Definition core_of (h : list StubEvent) : list Effect :=
  omap (λ e, match e with Core e => Some e | Ipc _ => None end) h.

(** The singletons the stub works on: the client, the configuration, and the
    handlers of [CellularCallService] ([GetHandler] of a slot without one leaves
    a null entry there, which every look reads as none). *)
Record StubState := {
  st_client : ImsCallClient.ImsCallClient;
  st_config : CellularCallConfig;
  st_handlers : gmap Z CellularCallHandler
}.
Definition set_client (c : ImsCallClient.ImsCallClient) (s : StubState) : StubState :=
  {| st_client := c; st_config := st_config s; st_handlers := st_handlers s |}.
Definition set_config (c : CellularCallConfig) (s : StubState) : StubState :=
  {| st_client := st_client s; st_config := c; st_handlers := st_handlers s |}.
Definition set_handler (slotId : Z) (t : CellularCallHandler) (s : StubState) : StubState :=
  {| st_client := st_client s; st_config := st_config s;
     st_handlers := <[slotId := t]> (st_handlers s) |}.

Definition on_client {A} (m : M IpcEvent ImsCallClient.ImsCallClient A) : M StubEvent StubState A :=
  λ s h, let '(a, c, e) := m (st_client s) (ipc_of h) in (a, set_client c s, Ipc <$> e).
(** An operation of the platform on a part of the state. *)
Definition on_core {X A} (get : StubState → X) (set : X → StubState → StubState) (m : Op X A)
    : M StubEvent StubState A :=
  λ s h, let '(a, x, e) := m (get s) (core_of h) in (a, set x s, Core <$> e).
Definition on_config {A} (m : Op CellularCallConfig A) : M StubEvent StubState A :=
  on_core st_config set_config m.
Definition on_platform {A} (m : Op () A) : M StubEvent StubState A :=
  on_core (λ _, ()) (λ _ s, s) m.

(** The library: what an unknown code is answered, whether a reply can be
    written, the flag a [CallForwardQueryInfoList] is declared with. *)
Class StubEnv := {
  CallForwardQueryInfoList_flag : Z;
  IPCObjectStub_OnRemoteRequest : list StubEvent → Z → Parcel → Z * Parcel;
  stub_write_ok : list StubEvent → Parcel → Item → bool
}.
#[export] Instance stub_writes `{StubEnv} : ParcelWrites StubEvent := {| write_ok := stub_write_ok |}.

Definition MAX_SIZE : Z := 10.
Definition IMS_CALL : Z := 1.

(** ** Text of a mapping *)

(** The pieces between the delimiters. *)
Fixpoint pieces (d : ascii) (s : string) : list string :=
  match s with
  | EmptyString => [""%string]
  | String c s =>
      match pieces d s with
      | [] => []
      | x :: l => if bool_decide (c = d) then ""%string :: x :: l else String c x :: l
      end
  end.
(** What [strtok_r] gives, call after call. *)
Definition tokens (d : ascii) (s : string) : list string := filter (λ x, x ≠ ""%string) (pieces d s).

Section Stub.
Context `{CallConsts, E : Env, ServiceEnv, HandlerEnv, SupplementEnv, ConfigEnv, ParcelEnv, StubEnv}.
Abbreviation St A := (M StubEvent StubState A).

(** The enumerator after [IMS_ERROR_UT_NO_CONNECTION]. *)
Definition IMS_ERROR_UT_CS_FALLBACK : Z := IMS_ERROR_UT_NO_CONNECTION + 1.

(** ** Events for the handler *)

(** [DelayedSingleton<ImsCallClient>::GetInstance()->GetHandler(slotId)], and
    [TelEventHandler::SendTelEvent]. *)
Definition GetHandler (slotId : Z) : St bool := on_client (ImsCallClient.GetHandler slotId).
Definition SendTelEvent (slotId : Z) (ev : TelEvent) : St bool :=
  on_platform (request_bool (SendEvent slotId (TEL_EVENT ev))).
(** A look for the handler, the event, and the answer of all methods but one. *)
Definition post (slotId : Z) (ev : TelEvent) : St Z :=
  let! handler := GetHandler slotId in
  if negb handler then mret TELEPHONY_ERR_LOCAL_PTR_NULL
  else
    let! ret := SendTelEvent slotId ev in
    if negb ret then mret TELEPHONY_ERR_FAIL else mret TELEPHONY_SUCCESS.
Definition post_object (slotId : Z) (id : TelEventId) (object : TelObject) : St Z :=
  post slotId {| te_id := id; te_object := object; te_param := 0 |}.

(** The overloads of [SendEvent]. *)
Definition SendEvent_info (slotId : Z) (eventId : TelEventId) (info : RadioResponseInfo) : St Z :=
  post_object slotId eventId (ObjResponseInfo info).
Definition SendEvent_result (slotId : Z) (eventId : TelEventId) (resultInfo : SsBaseResult) : St Z :=
  post slotId {| te_id := eventId; te_object := ObjSsResult resultInfo; te_param := sb_index resultInfo |}.
Definition SendEvent_mode (slotId : Z) (eventId : TelEventId) (info : ImsCallModeReceiveInfo) : St Z :=
  post_object slotId eventId (ObjMediaMode info).

(** ** Calls *)

Definition DialResponse (slotId : Z) (info : RadioResponseInfo) : St Z :=
  SendEvent_info slotId (Basic RADIO_DIAL) info.
Definition HangUpResponse (slotId : Z) (info : RadioResponseInfo) : St Z :=
  SendEvent_info slotId (Basic RADIO_HANGUP_CONNECT) info.
Definition RejectWithReasonResponse (slotId : Z) (info : RadioResponseInfo) : St Z :=
  SendEvent_info slotId (Basic RADIO_REJECT_CALL) info.
Definition AnswerResponse (slotId : Z) (info : RadioResponseInfo) : St Z :=
  SendEvent_info slotId (Basic RADIO_ACCEPT_CALL) info.
Definition HoldCallResponse (slotId : Z) (info : RadioResponseInfo) : St Z :=
  SendEvent_info slotId (Basic RADIO_HOLD_CALL) info.
Definition UnHoldCallResponse (slotId : Z) (info : RadioResponseInfo) : St Z :=
  SendEvent_info slotId (Basic RADIO_ACTIVE_CALL) info.
Definition SwitchCallResponse (slotId : Z) (info : RadioResponseInfo) : St Z :=
  post slotId {| te_id := Basic RADIO_SWAP_CALL; te_object := ObjResponseInfo info; te_param := IMS_CALL |}.
Definition StartDtmfResponse (slotId : Z) (info : RadioResponseInfo) : St Z :=
  SendEvent_info slotId (Basic RADIO_START_DTMF) info.
(** The flag carries the index of the call to the handler. *)
Definition SendDtmfResponse (slotId : Z) (info : RadioResponseInfo) (callIndex : Z) : St Z :=
  post slotId {| te_id := Basic RADIO_SEND_DTMF;
                 te_object := ObjResponseInfo {| rr_flag := callIndex; rr_error := rr_error info |};
                 te_param := IMS_CALL |}.
Definition StopDtmfResponse (slotId : Z) (info : RadioResponseInfo) : St Z :=
  SendEvent_info slotId (Basic RADIO_STOP_DTMF) info.
Definition CallStateChangeReport (slotId : Z) : St Z :=
  post_object slotId RADIO_IMS_CALL_STATUS_INFO NoObject.
Definition GetImsCallsDataResponse_info (slotId : Z) (info : RadioResponseInfo) : St Z :=
  SendEvent_info slotId RADIO_IMS_GET_CALL_DATA info.
Definition GetImsCallsDataResponse_list (slotId : Z) (callList : ImsCurrentCallList) : St Z :=
  post_object slotId RADIO_IMS_GET_CALL_DATA (ObjCallList callList).
Definition CallRingBackReport (slotId : Z) (info : RingbackVoice) : St Z :=
  post_object slotId RADIO_CALL_RINGBACK_VOICE (ObjRingback info).
Definition CombineConferenceResponse (slotId : Z) (info : RadioResponseInfo) : St Z :=
  SendEvent_info slotId (Basic RADIO_COMBINE_CALL) info.
Definition InviteToConferenceResponse (slotId : Z) (info : RadioResponseInfo) : St Z :=
  SendEvent_info slotId (Basic RADIO_JOIN_CALL) info.
Definition ReceiveUpdateCallMediaModeRequest (slotId : Z) (callModeRequest : ImsCallModeReceiveInfo) : St Z :=
  SendEvent_mode slotId RADIO_RECV_CALL_MEDIA_MODE_REQUEST callModeRequest.
Definition ReceiveUpdateCallMediaModeResponse (slotId : Z) (callModeResponse : ImsCallModeReceiveInfo) : St Z :=
  SendEvent_mode slotId RADIO_RECV_CALL_MEDIA_MODE_RESPONSE callModeResponse.
(** SUPPORT_RTT_CALL *)
Definition StartRttResponse (slotId : Z) (info : RadioResponseInfo) : St Z :=
  SendEvent_info slotId RADIO_START_RTT info.
Definition StopRttResponse (slotId : Z) (info : RadioResponseInfo) : St Z :=
  SendEvent_info slotId RADIO_STOP_RTT info.
Definition ReceiveUpdateImsCallRttEvtResponse (slotId : Z) (rttEvtInfo : ImsCallRttEventInfo) : St Z :=
  post_object slotId RADIO_RTT_UPGRADE_OR_DOWNGRADE_EVT (ObjRttEvent rttEvtInfo).
Definition ReceiveUpdateImsCallRttErrResponse (slotId : Z) (rttErrInfo : ImsCallRttErrorInfo) : St Z :=
  post_object slotId RADIO_RTT_UPGRADE_OR_DOWNGRADE_ERR (ObjRttError rttErrInfo).
Definition CallSessionEventChanged (slotId : Z) (info : ImsCallSessionEventInfo) : St Z :=
  post_object slotId RADIO_CALL_SESSION_EVENT_CHANGED (ObjSessionEvent info).
Definition PeerDimensionsChanged (slotId : Z) (info : ImsCallPeerDimensionsInfo) : St Z :=
  post_object slotId RADIO_CALL_PEER_DIMENSIONS_CHANGED (ObjPeerDimensions info).
Definition CallDataUsageChanged (slotId : Z) (info : ImsCallDataUsageInfo) : St Z :=
  post_object slotId RADIO_CALL_DATA_USAGE_CHANGED (ObjDataUsage info).
Definition CameraCapabilitiesChanged (slotId : Z) (info : CameraCapabilitiesInfo) : St Z :=
  post_object slotId RADIO_CAMERA_CAPABILITIES_CHANGED (ObjCamera info).
Definition GetImsSuppExtResponse (slotId code callId : Z) : St Z :=
  post_object slotId RADIO_SUPP_EXT_CHANGED
    (ObjSuppExt {| sx_slotId := slotId; sx_code := code; sx_callId := callId |}).

(** The pieces after the first while the first is the reason: the text, then the
    reason; whether there was a text. *)
Fixpoint map_reason (tmpReason : Z) (fields : list string) (flag : bool) (details : DisconnectedDetails)
    : bool * DisconnectedDetails :=
  if tmpReason =? dd_reason details then
    match fields with
    | [] => (flag, details)
    | ptr :: fields =>
        if flag then map_reason tmpReason fields true {| dd_reason := atoi ptr; dd_message := dd_message details |}
        else map_reason tmpReason fields true {| dd_reason := dd_reason details; dd_message := ptr |}
    end
  else (flag, details).
(** The first entry of the configuration that maps the reason. *)
Fixpoint map_reasons (vecReasonInfo : list string) (details : DisconnectedDetails) : DisconnectedDetails :=
  match vecReasonInfo with
  | [] => details
  | reasonInfo :: rest =>
      match tokens "|" (c_str reasonInfo) with
      | [] => map_reasons rest details
      | ptr :: fields =>
          let '(flag, details) := map_reason (atoi ptr) fields false details in
          if (flag : bool) then details else map_reasons rest details
      end
  end.
Definition LastCallFailReasonResponse (slotId : Z) (details : DisconnectedDetails) : St Z :=
  let! handler := GetHandler slotId in
  if negb handler then mret TELEPHONY_ERR_LOCAL_PTR_NULL
  else
    let! vecReasonInfo := on_config (construct (GetImsCallDisconnectResoninfoMappingConfig slotId)) in
    let! ret := SendTelEvent slotId
      {| te_id := Basic RADIO_GET_CALL_FAIL_REASON;
         te_object := ObjDetails (map_reasons vecReasonInfo details); te_param := 0 |} in
    if negb ret then mret TELEPHONY_ERR_FAIL else mret TELEPHONY_SUCCESS.

(** ** Configuration *)

Definition SetImsSwitchResponse (slotId : Z) (info : RadioResponseInfo) : St Z :=
  SendEvent_info slotId RADIO_SET_IMS_SWITCH_STATUS info.
Definition GetImsSwitchResponse_info (slotId : Z) (info : RadioResponseInfo) : St Z :=
  SendEvent_info slotId RADIO_GET_IMS_SWITCH_STATUS info.
(** Success whether or not the event was sent. *)
Definition GetImsSwitchResponse_active (slotId active : Z) : St Z :=
  let! handler := GetHandler slotId in
  if negb handler then mret TELEPHONY_ERR_LOCAL_PTR_NULL
  else
    SendTelEvent slotId
      {| te_id := RADIO_GET_IMS_SWITCH_STATUS; te_object := ObjInt32 active; te_param := 0 |} ;;
    mret TELEPHONY_SUCCESS.
(** Nothing is done with it. *)
Definition SetMuteResponse (slotId : Z) (response : MuteControlResponse) : St Z := mret TELEPHONY_SUCCESS.
Definition GetImsCapResponse (slotId : Z) (imsCap : ImsCapFromChip) : St Z :=
  post_object slotId RADIO_GET_IMS_CAPABILITY_FINISHED (ObjImsCap imsCap).

(** ** Supplementary services *)

(** The answer, and the reference [ss]. *)
Definition GetSsRequestCommand (slotId index : Z) (ss : SsRequestCommand) : St (Z * SsRequestCommand) :=
  let! s := mget in
  match st_handlers s !! slotId with
  | None => mret (TELEPHONY_ERR_LOCAL_PTR_NULL, ss)
  | Some t => on_core (λ _, t) (set_handler slotId) (Handler.GetSsRequestCommand index ss)
  end.
(** The request again, from the command. *)
Definition cs_request (slotId index : Z) (request : SsRequestCommand → Op () Z) : St Z :=
  let! found := GetSsRequestCommand slotId index SsRequestCommand_init in
  let '(ret, ss) := found in
  if bool_decide (ret ≠ TELEPHONY_SUCCESS) then mret ret else on_platform (request ss).
(** [if (r.result == IMS_ERROR_UT_CS_FALLBACK) return request; k] *)
Definition cs_fallback (r : SsBaseResult) (request k : St Z) : St Z :=
  if sb_result r =? IMS_ERROR_UT_CS_FALLBACK then request else k.

Definition SetClipResponse (slotId : Z) (resultInfo : SsBaseResult) : St Z :=
  SendEvent_result slotId (Supplementary RADIO_SET_CALL_CLIP) resultInfo.
Definition GetClipResponse (slotId : Z) (result : IdentityResult) : St Z :=
  let r := id_result result in
  cs_fallback r (on_platform (SupplementRequestCs.GetClipRequest slotId (sb_index r)))
    (post slotId {| te_id := Supplementary RADIO_GET_CALL_CLIP; te_object := ObjClip result;
                    te_param := sb_index r |}).
Definition GetClirResponse (slotId : Z) (result : IdentityResult) : St Z :=
  let r := id_result result in
  cs_fallback r (on_platform (SupplementRequestCs.GetClirRequest slotId (sb_index r)))
    (post slotId {| te_id := Supplementary RADIO_GET_CALL_CLIR; te_object := ObjClir result;
                    te_param := sb_index r |}).
Definition SetClirResponse (slotId : Z) (r : SsBaseResult) : St Z :=
  cs_fallback r
    (cs_request slotId (sb_index r)
       (λ ss, SupplementRequestCs.SetClirRequest slotId (ss_clirAction ss) (sb_index r)))
    (SendEvent_result slotId (Supplementary RADIO_SET_CALL_CLIR) r).
(** The flag of the list is not copied: it is the one a list is made with. *)
Definition BuildCallForwardInfo (cFQueryList : CallForwardQueryInfoList) : CallForwardQueryInfoList :=
  {| cfl_result := cfl_result cFQueryList; cfl_callSize := cfl_callSize cFQueryList;
     cfl_flag := CallForwardQueryInfoList_flag; cfl_calls := cfl_calls cFQueryList |}.
Definition GetCallTransferResponse (slotId : Z) (cFQueryList : CallForwardQueryInfoList) : St Z :=
  let r := cfl_result cFQueryList in
  cs_fallback r
    (cs_request slotId (sb_index r)
       (λ ss, SupplementRequestCs.GetCallTransferRequest slotId (ss_cfReason ss) (sb_index r)))
    (post slotId {| te_id := Supplementary RADIO_GET_CALL_FORWARD;
                    te_object := ObjForwarding (BuildCallForwardInfo cFQueryList);
                    te_param := sb_index r |}).
Definition SetCallTransferResponse (slotId : Z) (r : SsBaseResult) : St Z :=
  cs_fallback r
    (cs_request slotId (sb_index r)
       (λ ss, SupplementRequestCs.SetCallTransferRequest slotId
                {| tp_mode := ss_cfAction ss; tp_reason := ss_cfReason ss; tp_number := ss_number ss;
                   tp_classx := ss_classType ss |} (sb_index r)))
    (SendEvent_result slotId (Supplementary RADIO_SET_CALL_FORWARD) r).
Definition GetCallRestrictionResponse (slotId : Z) (result : CallRestrictionResult) : St Z :=
  let r := rs_result result in
  cs_fallback r
    (cs_request slotId (sb_index r)
       (λ ss, SupplementRequestCs.GetCallRestrictionRequest slotId (ss_facility ss) (sb_index r)))
    (post slotId {| te_id := Supplementary RADIO_GET_CALL_RESTRICTION; te_object := ObjRestriction result;
                    te_param := sb_index r |}).
Definition SetCallRestrictionResponse (slotId : Z) (r : SsBaseResult) : St Z :=
  cs_fallback r
    (cs_request slotId (sb_index r)
       (λ ss, SupplementRequestCs.SetCallRestrictionRequest slotId (ss_facility ss) (Z.b2z (ss_enable ss))
                (ss_password ss) (sb_index r)))
    (SendEvent_result slotId (Supplementary RADIO_SET_CALL_RESTRICTION) r).
Definition GetCallWaitingResponse (slotId : Z) (result : CallWaitResult) : St Z :=
  let r := cw_result result in
  cs_fallback r (on_platform (SupplementRequestCs.GetCallWaitingRequest slotId (sb_index r)))
    (post slotId {| te_id := Supplementary RADIO_GET_CALL_WAIT; te_object := ObjWaiting result;
                    te_param := sb_index r |}).
Definition SetCallWaitingResponse (slotId : Z) (r : SsBaseResult) : St Z :=
  cs_fallback r
    (cs_request slotId (sb_index r)
       (λ ss, SupplementRequestCs.SetCallWaitingRequest slotId (ss_enable ss) (ss_classType ss) (sb_index r)))
    (SendEvent_result slotId (Supplementary RADIO_SET_CALL_WAIT) r).
Definition SetColrResponse (slotId : Z) (resultInfo : SsBaseResult) : St Z :=
  SendEvent_result slotId (Supplementary RADIO_IMS_SET_COLR) resultInfo.
Definition GetColrResponse (slotId : Z) (result : IdentityResult) : St Z :=
  post slotId {| te_id := Supplementary RADIO_IMS_GET_COLR; te_object := ObjColr result;
                 te_param := sb_index (id_result result) |}.
Definition SetColpResponse (slotId : Z) (resultInfo : SsBaseResult) : St Z :=
  SendEvent_result slotId (Supplementary RADIO_IMS_SET_COLP) resultInfo.
Definition GetColpResponse (slotId : Z) (result : IdentityResult) : St Z :=
  post slotId {| te_id := Supplementary RADIO_IMS_GET_COLP; te_object := ObjColp result;
                 te_param := sb_index (id_result result) |}.

(** ** Reading *)

(** The slot and a struct, refused when there is none. *)
Definition with_raw {T} `{!RawStruct T} (k : Z → T → St Z) (data : Parcel) : St (Z * Parcel) :=
  let '(slotId, data) := ReadInt32 data in
  match (ReadRawData data).1 with
  | None => mret (TELEPHONY_ERR_ARGUMENT_INVALID, [])
  | Some info => reply_with (k slotId info)
  end.
Definition ReadSsBaseResult (data : Parcel) : SsBaseResult * Parcel :=
  let '(index, data) := ReadInt32 data in
  let '(result, data) := ReadInt32 data in
  let '(reason, data) := ReadInt32 data in
  let '(message, data) := ReadString data in
  ({| sb_index := index; sb_result := result; sb_reason := reason; sb_message := message |}, data).
(** [if (index == INVALID_INDEX) reply success; else reply m()] *)
Definition unless_invalid (r : SsBaseResult) (m : St Z) : St (Z * Parcel) :=
  reply_with (if sb_index r =? INVALID_INDEX then mret TELEPHONY_SUCCESS else m).
Definition with_result (k : Z → SsBaseResult → St Z) (data : Parcel) : St (Z * Parcel) :=
  let '(slotId, data) := ReadInt32 data in
  let '(resultInfo, _) := ReadSsBaseResult data in
  unless_invalid resultInfo (k slotId resultInfo).
(** A result and two integers more. *)
Definition with_result_2 (k : Z → SsBaseResult → Z → Z → St Z) (data : Parcel) : St (Z * Parcel) :=
  let '(slotId, data) := ReadInt32 data in
  let '(result, data) := ReadSsBaseResult data in
  let '(a, data) := ReadInt32 data in
  let '(b, _) := ReadInt32 data in
  unless_invalid result (k slotId result a b).

Definition OnDialResponseInner : Parcel → St (Z * Parcel) := with_raw DialResponse.
Definition OnHangUpResponseInner : Parcel → St (Z * Parcel) := with_raw HangUpResponse.
Definition OnRejectResponseInner : Parcel → St (Z * Parcel) := with_raw RejectWithReasonResponse.
Definition OnAnswerResponseInner : Parcel → St (Z * Parcel) := with_raw AnswerResponse.
Definition OnHoldCallResponseInner : Parcel → St (Z * Parcel) := with_raw HoldCallResponse.
Definition OnUnHoldCallResponseInner : Parcel → St (Z * Parcel) := with_raw UnHoldCallResponse.
Definition OnSwitchCallResponseInner : Parcel → St (Z * Parcel) := with_raw SwitchCallResponse.
Definition OnStartDtmfResponseInner : Parcel → St (Z * Parcel) := with_raw StartDtmfResponse.
(** The index is read before the struct. *)
Definition OnSendDtmfResponseInner (data : Parcel) : St (Z * Parcel) :=
  let '(slotId, data) := ReadInt32 data in
  let '(callIndex, data) := ReadInt32 data in
  match (ReadRawData data).1 with
  | None => mret (TELEPHONY_ERR_ARGUMENT_INVALID, [])
  | Some info => reply_with (SendDtmfResponse slotId info callIndex)
  end.
Definition OnStopDtmfResponseInner : Parcel → St (Z * Parcel) := with_raw StopDtmfResponse.
Definition OnCallStateChangeReportInner (data : Parcel) : St (Z * Parcel) :=
  let '(slotId, _) := ReadInt32 data in reply_with (CallStateChangeReport slotId).
Definition OnSetImsSwitchResponseInner : Parcel → St (Z * Parcel) := with_raw SetImsSwitchResponse.
(** Without a struct, the state is read from where the struct was looked for. *)
Definition OnGetImsSwitchResponseInner (data : Parcel) : St (Z * Parcel) :=
  let '(slotId, data) := ReadInt32 data in
  match ReadRawData data with
  | (None, data) =>
      let '(active, _) := ReadInt32 data in reply_with (GetImsSwitchResponse_active slotId active)
  | (Some info, _) => reply_with (GetImsSwitchResponse_info slotId info)
  end.
Definition ReadCall (data : Parcel) : ImsCurrentCall * Parcel :=
  let '(index, data) := ReadInt32 data in
  let '(dir, data) := ReadInt32 data in
  let '(state, data) := ReadInt32 data in
  let '(mode, data) := ReadInt32 data in
  let '(mpty, data) := ReadInt32 data in
  let '(voiceDomain, data) := ReadInt32 data in
  let '(callType, data) := ReadInt32 data in
  let '(number, data) := ReadString data in
  let '(name, data) := ReadString data in
  let '(type, data) := ReadInt32 data in
  let '(alpha, data) := ReadString data in
  let '(toa, data) := ReadInt32 data in
  let '(toneType, data) := ReadInt32 data in
  let '(callInitialType, data) := ReadInt32 data in
  let '(namePresentation, data) := ReadInt32 data in
  let '(newCallUseBox, data) := ReadInt32 data in
  let '(rttState, data) := ReadInt32 data in
  let '(rttChannelId, data) := ReadInt32 data in
  let '(imsDomain, data) := ReadInt32 data in
  ({| im_index := index; im_dir := dir; im_state := state; im_mode := mode; im_mpty := mpty;
      im_voiceDomain := voiceDomain; im_callType := callType; im_number := number; im_name := name;
      im_type := type; im_alpha := alpha; im_toa := toa; im_toneType := toneType;
      im_callInitialType := callInitialType; im_namePresentation := namePresentation;
      im_newCallUseBox := newCallUseBox; im_rttState := rttState; im_rttChannelId := rttChannelId;
      im_imsDomain := imsDomain |}, data).
(** The two sizes, the flag and the entries, at most [MAX_SIZE] of them. *)
Definition with_list {T} (read : Parcel → T * Parcel) (data : Parcel) (k : Z → Z → list T → St (Z * Parcel))
    : St (Z * Parcel) :=
  let '(callSize, data) := ReadInt32 data in
  let '(flag, data) := ReadInt32 data in
  let '(len, data) := ReadInt32 data in
  if (len <? 0) || (MAX_SIZE <? len) then mret (TELEPHONY_ERR_FAIL, [])
  else k callSize flag (read_list read (Z.to_nat len) data).1.
Definition OnGetImsCallsDataResponseInner (data : Parcel) : St (Z * Parcel) :=
  let '(slotId, data) := ReadInt32 data in
  match ReadRawData data with
  | (None, data) =>
      with_list ReadCall data (λ callSize flag calls,
        reply_with (GetImsCallsDataResponse_list slotId
          {| iml_callSize := callSize; iml_flag := flag; iml_calls := calls |}))
  | (Some info, _) => reply_with (GetImsCallsDataResponse_info slotId info)
  end.
Definition OnSetMuteResponseInner : Parcel → St (Z * Parcel) := with_raw SetMuteResponse.
Definition OnCallRingBackReportInner : Parcel → St (Z * Parcel) := with_raw CallRingBackReport.
Definition OnLastCallFailReasonResponseInner (data : Parcel) : St (Z * Parcel) :=
  let '(slotId, data) := ReadInt32 data in
  let '(reason, data) := ReadInt32 data in
  let '(message, _) := ReadString data in
  reply_with (LastCallFailReasonResponse slotId {| dd_reason := reason; dd_message := message |}).
Definition identity (result : SsBaseResult) (action stat : Z) : IdentityResult :=
  {| id_result := result; id_action := action; id_stat := stat |}.
Definition OnSetClipResponseInner : Parcel → St (Z * Parcel) := with_result SetClipResponse.
Definition OnGetClipResponseInner : Parcel → St (Z * Parcel) :=
  with_result_2 (λ slotId r a b, GetClipResponse slotId (identity r a b)).
Definition OnGetClirResponseInner : Parcel → St (Z * Parcel) :=
  with_result_2 (λ slotId r a b, GetClirResponse slotId (identity r a b)).
Definition OnSetClirResponseInner : Parcel → St (Z * Parcel) := with_result SetClirResponse.
Definition ReadForward (data : Parcel) : CallForwardQueryResult * Parcel :=
  let '(serial, data) := ReadInt32 data in
  let '(result, data) := ReadInt32 data in
  let '(status, data) := ReadInt32 data in
  let '(classx, data) := ReadInt32 data in
  let '(number, data) := ReadString data in
  let '(type, data) := ReadInt32 data in
  let '(reason, data) := ReadInt32 data in
  let '(time, data) := ReadInt32 data in
  let '(startHour, data) := ReadInt32 data in
  let '(startMinute, data) := ReadInt32 data in
  let '(endHour, data) := ReadInt32 data in
  let '(endMinute, data) := ReadInt32 data in
  ({| cq_serial := serial; cq_result := result; cq_status := status; cq_classx := classx;
      cq_number := number; cq_type := type; cq_reason := reason; cq_time := time;
      cq_startHour := startHour; cq_startMinute := startMinute; cq_endHour := endHour;
      cq_endMinute := endMinute |}, data).
Definition OnGetCallTransferResponseInner (data : Parcel) : St (Z * Parcel) :=
  let '(slotId, data) := ReadInt32 data in
  let '(result, data) := ReadSsBaseResult data in
  with_list ReadForward data (λ callSize flag calls,
    unless_invalid result (GetCallTransferResponse slotId
      {| cfl_result := result; cfl_callSize := callSize; cfl_flag := flag; cfl_calls := calls |})).
Definition OnSetCallTransferResponseInner : Parcel → St (Z * Parcel) := with_result SetCallTransferResponse.
Definition OnGetCallRestrictionResponseInner : Parcel → St (Z * Parcel) :=
  with_result_2 (λ slotId r a b,
    GetCallRestrictionResponse slotId {| rs_result := r; rs_status := a; rs_classCw := b |}).
Definition OnSetCallRestrictionResponseInner : Parcel → St (Z * Parcel) := with_result SetCallRestrictionResponse.
Definition OnGetCallWaitingResponseInner : Parcel → St (Z * Parcel) :=
  with_result_2 (λ slotId r a b,
    GetCallWaitingResponse slotId {| cw_result := r; cw_status := a; cw_classCw := b |}).
Definition OnSetCallWaitingResponseInner : Parcel → St (Z * Parcel) := with_result SetCallWaitingResponse.
Definition OnSetColrResponseInner : Parcel → St (Z * Parcel) := with_result SetColrResponse.
Definition OnGetColrResponseInner : Parcel → St (Z * Parcel) :=
  with_result_2 (λ slotId r a b, GetColrResponse slotId (identity r a b)).
Definition OnSetColpResponseInner : Parcel → St (Z * Parcel) := with_result SetColpResponse.
Definition OnGetColpResponseInner : Parcel → St (Z * Parcel) :=
  with_result_2 (λ slotId r a b, GetColpResponse slotId (identity r a b)).
Definition OnCombineConferenceResponseInner : Parcel → St (Z * Parcel) := with_raw CombineConferenceResponse.
Definition OnInviteToConferenceResponseInner : Parcel → St (Z * Parcel) := with_raw InviteToConferenceResponse.
Definition OnReceiveUpdateCallMediaModeRequestInner : Parcel → St (Z * Parcel) :=
  with_raw ReceiveUpdateCallMediaModeRequest.
Definition OnReceiveUpdateCallMediaModeResponseInner : Parcel → St (Z * Parcel) :=
  with_raw ReceiveUpdateCallMediaModeResponse.
Definition OnCallSessionEventChangedInner : Parcel → St (Z * Parcel) := with_raw CallSessionEventChanged.
Definition OnPeerDimensionsChangedInner : Parcel → St (Z * Parcel) := with_raw PeerDimensionsChanged.
Definition OnCallDataUsageChangedInner : Parcel → St (Z * Parcel) := with_raw CallDataUsageChanged.
Definition OnCameraCapabilitiesChangedInner : Parcel → St (Z * Parcel) := with_raw CameraCapabilitiesChanged.
(** SUPPORT_RTT_CALL *)
Definition OnStartRttResponseInner : Parcel → St (Z * Parcel) := with_raw StartRttResponse.
Definition OnStopRttResponseInner : Parcel → St (Z * Parcel) := with_raw StopRttResponse.
Definition OnReceiveUpdateCallRttEvtResponseInner (data : Parcel) : St (Z * Parcel) :=
  let '(slotId, data) := ReadInt32 data in
  let '(callId, data) := ReadInt32 data in
  let '(eventType, data) := ReadInt32 data in
  let '(reason, _) := ReadInt32 data in
  reply_with (ReceiveUpdateImsCallRttEvtResponse slotId
    {| re_callId := callId; re_eventType := eventType; re_reason := reason |}).
Definition OnReceiveUpdateCallRttErrResponseInner (data : Parcel) : St (Z * Parcel) :=
  let '(slotId, data) := ReadInt32 data in
  let '(callId, data) := ReadInt32 data in
  let '(causeCode, data) := ReadInt32 data in
  let '(operationType, data) := ReadInt32 data in
  let '(reasonText, _) := ReadString data in
  reply_with (ReceiveUpdateImsCallRttErrResponse slotId
    {| rx_callId := callId; rx_operationType := operationType; rx_causeCode := causeCode;
       rx_reasonText := reasonText |}).
Definition OnGetImsCapResponseInner (data : Parcel) : St (Z * Parcel) :=
  let '(slotId, data) := ReadInt32 data in
  let '(volteCap, data) := ReadInt32 data in
  let '(vowifiCap, data) := ReadInt32 data in
  let '(vonrCap, data) := ReadInt32 data in
  let '(vtCap, _) := ReadInt32 data in
  reply_with (GetImsCapResponse slotId
    {| volteCap := volteCap; vowifiCap := vowifiCap; vonrCap := vonrCap; vtCap := vtCap |}).
Definition OnImsSuppExtResponseInner (data : Parcel) : St (Z * Parcel) :=
  let '(slotId, data) := ReadInt32 data in
  let '(code, data) := ReadInt32 data in
  let '(callId, _) := ReadInt32 data in
  reply_with (GetImsSuppExtResponse slotId code callId).

(** ** Dispatch *)

(** What [InitFuncMap] puts under a code; a code with no entry has none. *)
Definition requestFuncMap (code : CallbackCode) : option (Parcel → St (Z * Parcel)) :=
  match code with
  | IMS_DIAL => Some OnDialResponseInner
  | IMS_HANG_UP => Some OnHangUpResponseInner
  | IMS_REJECT => Some OnRejectResponseInner
  | IMS_ANSWER => Some OnAnswerResponseInner
  | IMS_HOLD => Some OnHoldCallResponseInner
  | IMS_UN_HOLD => Some OnUnHoldCallResponseInner
  | IMS_SWITCH => Some OnSwitchCallResponseInner
  | IMS_CALL_STATE_CHANGE => Some OnCallStateChangeReportInner
  | IMS_LAST_CALL_FAIL_REASON => Some OnLastCallFailReasonResponseInner
  | IMS_CALL_CRING => Some OnCallRingBackReportInner
  | IMS_COMBINE_CONFERENCE => Some OnCombineConferenceResponseInner
  | IMS_INVITE_TO_CONFERENCE => Some OnInviteToConferenceResponseInner
  | IMS_RECV_CALL_MEDIA_MODE_REQUEST => Some OnReceiveUpdateCallMediaModeRequestInner
  | IMS_RECV_CALL_MEDIA_MODE_RESPONSE => Some OnReceiveUpdateCallMediaModeResponseInner
  | IMS_CALL_SESSION_EVENT_CHANGED => Some OnCallSessionEventChangedInner
  | IMS_CALL_PEER_DIMENSIONS_CHANGED => Some OnPeerDimensionsChangedInner
  | IMS_CALL_DATA_USAGE_CHANGED => Some OnCallDataUsageChangedInner
  | IMS_CALL_CAMERA_CAPABILITIES_CHANGED => Some OnCameraCapabilitiesChangedInner
  | IMS_START_DTMF => Some OnStartDtmfResponseInner
  | IMS_SEND_DTMF => Some OnSendDtmfResponseInner
  | IMS_STOP_DTMF => Some OnStopDtmfResponseInner
  | IMS_START_RTT => Some OnStartRttResponseInner
  | IMS_STOP_RTT => Some OnStopRttResponseInner
  | IMS_UPGRADE_OR_DOWNGRADE_RTT_EVT => Some OnReceiveUpdateCallRttEvtResponseInner
  | IMS_UPGRADE_OR_DOWNGRADE_RTT_ERR => Some OnReceiveUpdateCallRttErrResponseInner
  | IMS_SET_SWITCH_STATUS => Some OnSetImsSwitchResponseInner
  | IMS_GET_SWITCH_STATUS => Some OnGetImsSwitchResponseInner
  | IMS_GET_CALLS_DATA => Some OnGetImsCallsDataResponseInner
  | IMS_SET_MUTE => Some OnSetMuteResponseInner
  | IMS_GET_IMS_CAPABILITY => Some OnGetImsCapResponseInner
  | IMS_SUPP_EXT_CHANGED => Some OnImsSuppExtResponseInner
  | IMS_SET_CALL_CLIP => Some OnSetClipResponseInner
  | IMS_GET_CALL_CLIP => Some OnGetClipResponseInner
  | IMS_GET_CALL_CLIR => Some OnGetClirResponseInner
  | IMS_SET_CALL_CLIR => Some OnSetClirResponseInner
  | IMS_GET_CALL_FORWARD => Some OnGetCallTransferResponseInner
  | IMS_SET_CALL_FORWARD => Some OnSetCallTransferResponseInner
  | IMS_GET_CALL_RESTRICTION => Some OnGetCallRestrictionResponseInner
  | IMS_SET_CALL_RESTRICTION => Some OnSetCallRestrictionResponseInner
  | IMS_GET_CALL_WAIT => Some OnGetCallWaitingResponseInner
  | IMS_SET_CALL_WAIT => Some OnSetCallWaitingResponseInner
  | IMS_GET_CALL_COLR => Some OnGetColrResponseInner
  | IMS_SET_CALL_COLR => Some OnSetColrResponseInner
  | IMS_SET_CALL_COLP => Some OnSetColpResponseInner
  | IMS_GET_CALL_COLP => Some OnGetColpResponseInner
  | _ => None
  end.
(** The code of the transaction, and the reply. *)
Definition OnRemoteRequest (code : Z) (data : Parcel) : St (Z * Parcel) :=
  let '(remoteDescriptor, data) := ReadInterfaceToken data in
  if bool_decide (ImsCallCallbackProxy.ImsCallCallbackInterface_descriptor ≠ remoteDescriptor)
  then mret (TELEPHONY_ERR_DESCRIPTOR_MISMATCH, [])
  else
    match enum_code callback_codes code ≫= requestFuncMap with
    | Some requestFunc => requestFunc data
    | None => query (λ h, IPCObjectStub_OnRemoteRequest h code data)
    end.
End Stub.
