(* ===== verification/HandlerEvents.v ===== *)
(** * HandlerEvents: the events of the IMS service, dispatched
    (services/manager/src/cellular_call_handler.cpp)

    An event carries an id and a shared object; [ProcessEvent] finds the method
    of the id, which casts the object to the type it expects: a cast to another
    type gives null.  The reports about video calls, real-time text and ringback
    tones, which go up to call_manager as they are, are here too. *)

From stdpp Require Import base tactics option list numbers strings gmap.
From Stdlib Require Import ZArith Lia Ascii String.
From S2P Require Import Prelude SsTypes ConfigTypes Platform Standardize Service Handler.
From S2P Require Import SupplementRequestCs Supplement SupplementHandler ConfigRequest Config.
From S2P Require ConfigHandler.

Open Scope Z_scope.

(** [event->GetSharedObject<T>()] *)
Definition as_info (o : TelObject) : option RadioResponseInfo :=
  match o with ObjResponseInfo x => Some x | _ => None end.
Definition as_int (o : TelObject) : option Z := match o with ObjInt32 x => Some x | _ => None end.
Definition as_call_list (o : TelObject) : option ImsCurrentCallList :=
  match o with ObjCallList x => Some x | _ => None end.
Definition as_ringback (o : TelObject) : option RingbackVoice :=
  match o with ObjRingback x => Some x | _ => None end.
Definition as_details (o : TelObject) : option DisconnectedDetails :=
  match o with ObjDetails x => Some x | _ => None end.
Definition as_result (o : TelObject) : option SsBaseResult :=
  match o with ObjSsResult x => Some x | _ => None end.
Definition as_clip (o : TelObject) : option IdentityResult := match o with ObjClip x => Some x | _ => None end.
Definition as_clir (o : TelObject) : option IdentityResult := match o with ObjClir x => Some x | _ => None end.
Definition as_colr (o : TelObject) : option IdentityResult := match o with ObjColr x => Some x | _ => None end.
Definition as_colp (o : TelObject) : option IdentityResult := match o with ObjColp x => Some x | _ => None end.
Definition as_restriction (o : TelObject) : option CallRestrictionResult :=
  match o with ObjRestriction x => Some x | _ => None end.
Definition as_waiting (o : TelObject) : option CallWaitResult :=
  match o with ObjWaiting x => Some x | _ => None end.
Definition as_forwarding (o : TelObject) : option CallForwardQueryInfoList :=
  match o with ObjForwarding x => Some x | _ => None end.
Definition as_media_mode (o : TelObject) : option ImsCallModeReceiveInfo :=
  match o with ObjMediaMode x => Some x | _ => None end.
Definition as_session_event (o : TelObject) : option ImsCallSessionEventInfo :=
  match o with ObjSessionEvent x => Some x | _ => None end.
Definition as_peer_dimensions (o : TelObject) : option ImsCallPeerDimensionsInfo :=
  match o with ObjPeerDimensions x => Some x | _ => None end.
Definition as_data_usage (o : TelObject) : option ImsCallDataUsageInfo :=
  match o with ObjDataUsage x => Some x | _ => None end.
Definition as_camera (o : TelObject) : option CameraCapabilitiesInfo :=
  match o with ObjCamera x => Some x | _ => None end.
Definition as_rtt_event (o : TelObject) : option ImsCallRttEventInfo :=
  match o with ObjRttEvent x => Some x | _ => None end.
Definition as_rtt_error (o : TelObject) : option ImsCallRttErrorInfo :=
  match o with ObjRttError x => Some x | _ => None end.
Definition as_supp_ext (o : TelObject) : option ImsSuppExtInfo :=
  match o with ObjSuppExt x => Some x | _ => None end.
Definition as_ims_cap (o : TelObject) : option ImsCapFromChip :=
  match o with ObjImsCap x => Some x | _ => None end.
(** A list or an error; a reason or its details. *)
Definition as_ims_calls (o : TelObject) : response ImsCurrentCallList :=
  match as_call_list o with
  | Some l => Data l
  | None => match as_info o with Some info => Error info | None => Nothing end
  end.
Definition as_satellite_calls (o : TelObject) : option SatelliteCurrentCallList :=
  match o with ObjSatelliteCalls l => Some l | _ => None end.
Definition as_fail_reason (o : TelObject) : fail_reason :=
  match as_int o with
  | Some reason => FailReason reason
  | None =>
      match as_details o with
      | Some info => FailDetails (dd_reason info) (dd_message info)
      | None => NoReason
      end
  end.
Definition as_switch (o : TelObject) : option (Z + Z) :=
  match as_info o with
  | Some info => Some (inl (rr_error info))
  | None => inr <$> as_int o
  end.

Section Reports.
Context `{CallConsts, E : Env, ServiceEnv, HandlerEnv}.

(** A result that goes to [registerInstance_]. *)
Definition with_register {T} (result : option T) (rp : T → RegisterReport) : Op HandlerState () :=
  match result with None => mret () | Some result => to_register (rp result) end.

(** SUPPORT_RTT_CALL *)
Definition StartRttResponse (result : option RadioResponseInfo) : Op HandlerState () :=
  with_register result (λ result, ReportStartRttResult (rr_error result)).
Definition StopRttResponse (result : option RadioResponseInfo) : Op HandlerState () :=
  with_register result (λ result, ReportStopRttResult (rr_error result)).

(** A report of the media mode is recorded after it went up. *)
Definition media_mode (result : option ImsCallModeReceiveInfo)
    (rp : Z → ImsCallModeReceiveInfo → RegisterReport) (record : ImsCallModeReceiveInfo → HiSysEvent)
    : Op HandlerState () :=
  let! callHiSysEvent := ask hisysevent_instance in
  if negb callHiSysEvent then mret ()
  else
    match result with
    | None => mret ()
    | Some result =>
        let! slotId := my_slot in
        let! t := mgets this in
        if negb (registerInstance_ t) then mret ()
        else report (rp slotId result) ;; hisys (record result)
    end.
Definition ReceiveUpdateCallMediaModeRequest (result : option ImsCallModeReceiveInfo) : Op HandlerState () :=
  media_mode result ReportMediaModeRequest
    (λ result, WriteImsCallModeBehaviorEvent_received_request (mr_result result)).
Definition ReceiveUpdateCallMediaModeResponse (result : option ImsCallModeReceiveInfo) : Op HandlerState () :=
  media_mode result ReportMediaModeResponse
    (λ result, WriteImsCallModeBehaviorEvent_received_response (mr_callType result) (mr_result result)).
Definition HandleCallSessionEventChanged (result : option ImsCallSessionEventInfo) : Op HandlerState () :=
  with_register result ReportSessionEvent.
Definition HandlePeerDimensionsChanged (result : option ImsCallPeerDimensionsInfo) : Op HandlerState () :=
  with_register result ReportPeerDimensions.
Definition HandleCallDataUsageChanged (result : option ImsCallDataUsageInfo) : Op HandlerState () :=
  with_register result ReportDataUsage.
Definition HandleCameraCapabilitiesChanged (result : option CameraCapabilitiesInfo) : Op HandlerState () :=
  with_register result ReportCameraCapabilities.
Definition HandleImsSuppExtResponse (result : option ImsSuppExtInfo) : Op HandlerState () :=
  with_register result ReportSuppExt.
Definition CallRingBackVoiceResponse (ringBackVoice : option RingbackVoice) : Op HandlerState () :=
  with_register ringBackVoice (λ voice, ReportCallRingBackResult (rb_status voice)).
(** SUPPORT_RTT_CALL *)
Definition ReceiveUpdateCallRttEvtResponse (result : option ImsCallRttEventInfo) : Op HandlerState () :=
  let! slotId := my_slot in with_register result (ReportRttEvent slotId).
Definition ReceiveUpdateCallRttErrResponse (result : option ImsCallRttErrorInfo) : Op HandlerState () :=
  let! slotId := my_slot in with_register result (ReportRttError slotId).
End Reports.

(** ** Dispatch *)

(** The handler and the configuration its answers are about. *)
Record EventState := { es_handler : HandlerState; es_config : CellularCallConfig }.
Definition on_handler {A} (m : Op HandlerState A) : Op EventState A :=
  λ s h, let '(a, t, e) := m (es_handler s) h in (a, {| es_handler := t; es_config := es_config s |}, e).
Definition on_configuration {A} (m : Op CellularCallConfig A) : Op EventState A :=
  λ s h, let '(a, c, e) := m (es_config s) h in (a, {| es_handler := es_handler s; es_config := c |}, e).

Section Dispatch.
Context `{CallConsts, E : Env, ServiceEnv, HandlerEnv, SupplementEnv, ConfigEnv}.

(** A method that is in builds with real-time text only. *)
Definition if_rtt (m : Op HandlerState ()) : Op EventState () :=
  if SUPPORT_RTT_CALL then on_handler m else mret ().

(** CELLULAR_CALL_SATELLITE *)
Definition if_satellite (m : Op HandlerState ()) : Op EventState () :=
  if CELLULAR_CALL_SATELLITE then on_handler m else mret ().

(** The method [requestFuncMap_] has for the id, on an event with [o] and
    [param]. *)
Definition process_basic (id : RadioEvent) (o : TelObject) (param : Z) : Op EventState () :=
  match id with
  | RADIO_DIAL => on_handler (DialResponse (as_info o))
  | RADIO_HANGUP_CONNECT | RADIO_REJECT_CALL | RADIO_ACCEPT_CALL | RADIO_HOLD_CALL | RADIO_ACTIVE_CALL
  | RADIO_COMBINE_CALL | RADIO_JOIN_CALL | RADIO_SPLIT_CALL | RADIO_CALL_SUPPLEMENT =>
      on_handler (CommonResultResponse id (as_info o))
  | RADIO_SWAP_CALL => on_handler (SwapCallResponse param (as_info o))
  | RADIO_SEND_DTMF => on_handler (SendDtmfResponse param (as_info o))
  | RADIO_START_DTMF => on_handler (StartDtmfResponse (as_info o))
  | RADIO_STOP_DTMF => on_handler (StopDtmfResponse (as_info o))
  | RADIO_CURRENT_CALLS =>
      on_handler (GetCsCallsDataResponse (match as_info o with Some info => Error info | None => Nothing end))
  | RADIO_GET_CALL_FAIL_REASON => on_handler (GetCallFailReasonResponse (as_fail_reason o))
  | RADIO_SET_CMUT =>
      let! t := mgets (λ s, this (es_handler s)) in
      on_configuration (ConfigHandler.SetMuteResponse (registerInstance_ t) (rr_error <$> as_info o))
  | SATELLITE_RADIO_CALL_STATE_CHANGED => if_satellite SatelliteCallStatusInfoReport
  | SATELLITE_RADIO_DIAL => if_satellite (DialResponse (as_info o))
  | SATELLITE_RADIO_HANGUP | SATELLITE_RADIO_ANSWER | SATELLITE_RADIO_REJECT =>
      if_satellite (CommonResultResponse id (as_info o))
  | SATELLITE_RADIO_GET_CALL_DATA => if_satellite (GetSatelliteCallsDataResponse (as_satellite_calls o))
  end.
Definition process_supplementary (id : SsEvent) (o : TelObject) : Op HandlerState () :=
  match id with
  | RADIO_GET_CALL_WAIT => GetCallWaitingResponse (as_waiting o)
  | RADIO_SET_CALL_WAIT => SetCallWaitingResponse (as_result o)
  | RADIO_GET_CALL_FORWARD => GetCallTransferResponse (as_forwarding o)
  | RADIO_SET_CALL_FORWARD => SetCallTransferInfoResponse (as_result o)
  | RADIO_GET_CALL_CLIP => GetClipResponse (as_clip o)
  | RADIO_SET_CALL_CLIP => SetClipResponse (as_result o)
  | RADIO_GET_CALL_CLIR => GetClirResponse (as_clir o)
  | RADIO_SET_CALL_CLIR => SetClirResponse (as_result o)
  | RADIO_IMS_GET_COLR => GetColrResponse (as_colr o)
  | RADIO_IMS_SET_COLR => SetColrResponse (as_result o)
  | RADIO_IMS_GET_COLP => GetColpResponse (as_colp o)
  | RADIO_IMS_SET_COLP => SetColpResponse (as_result o)
  | RADIO_GET_CALL_RESTRICTION => GetCallRestrictionResponse (as_restriction o)
  | RADIO_SET_CALL_RESTRICTION => SetCallRestrictionResponse (as_result o)
  | RADIO_SET_CALL_RESTRICTION_PWD => SetBarringPasswordResponse (as_result o)
  end.
Definition ProcessEvent (event : TelEvent) : Op EventState () :=
  let o := te_object event in
  let! slotId := mgets (λ s, slotId_ (this (es_handler s))) in
  match te_id event with
  | Basic id => process_basic id o (te_param event)
  | Supplementary id => on_handler (process_supplementary id o)
  | RADIO_IMS_CALL_STATUS_INFO => on_handler ImsCallStatusInfoReport
  | RADIO_IMS_GET_CALL_DATA => on_handler (GetImsCallsDataResponse (as_ims_calls o))
  | RADIO_CALL_RINGBACK_VOICE => on_handler (CallRingBackVoiceResponse (as_ringback o))
  | RADIO_SET_IMS_SWITCH_STATUS =>
      let! t := mgets (λ s, this (es_handler s)) in
      on_configuration (ConfigHandler.SetImsSwitchStatusResponse slotId (registerInstance_ t)
        (rr_error <$> as_info o))
  | RADIO_GET_IMS_SWITCH_STATUS =>
      on_configuration (ConfigHandler.GetImsSwitchStatusResponse slotId (as_switch o))
  | RADIO_GET_IMS_CAPABILITY_FINISHED =>
      on_configuration (ConfigHandler.GetImsCapResponse slotId (volteCap <$> as_ims_cap o))
  | RADIO_RECV_CALL_MEDIA_MODE_REQUEST => on_handler (ReceiveUpdateCallMediaModeRequest (as_media_mode o))
  | RADIO_RECV_CALL_MEDIA_MODE_RESPONSE => on_handler (ReceiveUpdateCallMediaModeResponse (as_media_mode o))
  | RADIO_CALL_SESSION_EVENT_CHANGED => on_handler (HandleCallSessionEventChanged (as_session_event o))
  | RADIO_CALL_PEER_DIMENSIONS_CHANGED => on_handler (HandlePeerDimensionsChanged (as_peer_dimensions o))
  | RADIO_CALL_DATA_USAGE_CHANGED => on_handler (HandleCallDataUsageChanged (as_data_usage o))
  | RADIO_CAMERA_CAPABILITIES_CHANGED => on_handler (HandleCameraCapabilitiesChanged (as_camera o))
  | RADIO_START_RTT => if_rtt (StartRttResponse (as_info o))
  | RADIO_STOP_RTT => if_rtt (StopRttResponse (as_info o))
  | RADIO_RTT_UPGRADE_OR_DOWNGRADE_EVT => if_rtt (ReceiveUpdateCallRttEvtResponse (as_rtt_event o))
  | RADIO_RTT_UPGRADE_OR_DOWNGRADE_ERR => if_rtt (ReceiveUpdateCallRttErrResponse (as_rtt_error o))
  | RADIO_SUPP_EXT_CHANGED => on_handler (HandleImsSuppExtResponse (as_supp_ext o))
  end.
End Dispatch.
