(* ===== verification/ModemEvents.v ===== *)
(** * ModemEvents: every event and broadcast a handler receives
    (services/manager/src/cellular_call_handler.cpp)

    The handlers are the objects the service made; they share the service, the
    configuration and two static members: the answer to a broadcast that is waiting,
    and whether the modem has its configuration.  [ProcessEvent] finds the method of
    an event; [OnReceiveEvent] is what a handler does with a broadcast.

    Module [ModemFacts]: the answer to the sleep of the device. *)

From stdpp Require Import base tactics option list numbers strings gmap.
From Stdlib Require Import ZArith Lia Ascii String.
From S2P Require Import Prelude SsTypes ConfigTypes Platform StdMap MmiCode Service Handler.
From S2P Require Import SupplementRequestCs Supplement SupplementHandler ConfigRequest Config ConfigEcc ConfigHandler.
From S2P Require Import Parcel IpcCodes ServiceLife HandlerEvents.
From S2P Require ControlBase ConnectionCS CsControl ConnectionIMS ImsControl SatelliteCallClient.
From S2P Require ImsCallClient.

Open Scope Z_scope.

Definition STATE_NV_REFRESH_FINISHED : Z := 1.
Definition STATE_NV_REFRESH_ALREADY_FINISHED : Z := 4.
Definition KEY_CONST_TELEPHONY_IS_USE_CLOUD_IMS_NV : string := "const.telephony.is_use_cloud_ims_nv".

(** The object of an event: those of the IMS and satellite services and of the
    modem's answers to the same ids, and those only the modem sends. *)
Inductive EventObject :=
  | Shared (o : TelObject)
  | ObjCallInfoList (l : CallInfoList)
  | ObjEmergencyInfoList (l : list EmergencyInfo)
  | ObjString (plmn : string)
  | ObjUssdNotice (info : UssdNoticeInfo)
  | ObjSsNotice (info : SsNoticeInfo)
  | ObjSrvccStatus (status : Z)
  | ObjInt32Parcel (data : Z)
  | ObjRadioState (state : Z).
Definition shared (o : EventObject) : TelObject := match o with Shared o => o | _ => NoObject end.
Definition as_cs_calls (o : EventObject) : response CallInfoList :=
  match o with
  | ObjCallInfoList l => Data l
  | _ => match as_info (shared o) with Some info => Error info | None => Nothing end
  end.
Definition as_emergency (o : EventObject) : option (list EmergencyInfo) :=
  match o with ObjEmergencyInfoList l => Some l | _ => None end.
Definition as_string (o : EventObject) : option string := match o with ObjString s => Some s | _ => None end.
Definition as_ussd (o : EventObject) : option UssdNoticeInfo := match o with ObjUssdNotice i => Some i | _ => None end.
Definition as_ss (o : EventObject) : option SsNoticeInfo := match o with ObjSsNotice i => Some i | _ => None end.
Definition as_srvcc (o : EventObject) : option Z := match o with ObjSrvccStatus s => Some s | _ => None end.
Definition as_int32 (o : EventObject) : option Z := match o with ObjInt32Parcel d => Some d | _ => None end.
Definition as_radio_state (o : EventObject) : option Z := match o with ObjRadioState s => Some s | _ => None end.
(** The mute state or an error. *)
Definition as_mute (o : EventObject) : option (Z + Z) :=
  match as_int (shared o) with
  | Some mute => Some (inr mute)
  | None => (λ info, inl (rr_error info)) <$> as_info (shared o)
  end.

(** Answers of the modem that no other service gives. *)
Inductive ModemAnswer :=
  | RADIO_GET_CMUT | RADIO_SET_CALL_PREFERENCE_MODE | RADIO_GET_CALL_PREFERENCE_MODE
  | RADIO_SET_VONR_SWITCH_STATUS | RADIO_SET_EMERGENCY_CALL_LIST | RADIO_GET_EMERGENCY_CALL_LIST
  | RADIO_SET_USSD | RADIO_CLOSE_UNFINISHED_USSD | RADIO_GET_STATUS.
Inductive InnerEvent :=
  | Own (ev : HandlerEvent)
  | Answer (id : TelEventId) (o : EventObject) (param : Z)
  | Modem (id : ModemAnswer) (o : EventObject)
  | Notify (what : CoreNotify) (o : EventObject)
  | REGISTER_HANDLER_ID.

Class ModemEnv := {
  DEFAULT_OPERATOR_STATE : Z;
  MuteControlResponse_value : Z;
  new_register : list LifeEvent → bool;
  system_GetBoolParameter : list LifeEvent → string → bool → bool
}.

(** The process: the service and its clients, the members of the handlers, and the
    static members. *)
Record ServiceProcess := {
  life : ServiceLife;
  members : gmap nat CellularCallHandler;
  strEnterEvent : option nat;
  isNvCfgFinish_ : bool
}.
Definition set_life (v : ServiceLife) (p : ServiceProcess) : ServiceProcess :=
  {| life := v; members := members p; strEnterEvent := strEnterEvent p; isNvCfgFinish_ := isNvCfgFinish_ p |}.
Definition set_isNvCfgFinish (v : bool) (p : ServiceProcess) : ServiceProcess :=
  {| life := life p; members := members p; strEnterEvent := strEnterEvent p; isNvCfgFinish_ := v |}.

Section Modem.
Context `{CallConsts, E : Env, ServiceEnv, HandlerEnv, SupplementEnv, ConfigEnv}.
Context `{ParcelEnv, IpcEnv, ImsCallClient.ClientEnv, SatelliteCallClient.SatelliteClientEnv, LifeEnv, ModemEnv}.
Abbreviation Proc A := (M LifeEvent ServiceProcess A).

Definition on_life {A} (m : M LifeEvent ServiceLife A) : Proc A :=
  λ p h, let '(a, s, e) := m (life p) h in (a, set_life s p, e).
(** The members of a handler, which are as they were made until it has an event. *)
Definition member (n : nat) (registered : bool) (p : ServiceProcess) : CellularCallHandler :=
  default (CellularCallHandler_new (slot_of n (life p)) registered) (members p !! n).
(** A method of the handler [n]. *)
Definition on_event {A} (n : nat) (m : Op EventState A) : Proc A :=
  λ p h,
    let state := {| es_handler := {| this := member n (new_register h) p; serviceInstance := life_service (life p);
                                     strEnterEventResult_ := strEnterEvent p |};
                    es_config := life_config (life p) |} in
    let '(a, st, e) := m state (life_core h) in
    (a, {| life := set_service (serviceInstance (es_handler st)) (set_config (es_config st) (life p));
           members := <[n := this (es_handler st)]> (members p);
           strEnterEvent := strEnterEventResult_ (es_handler st);
           isNvCfgFinish_ := isNvCfgFinish_ p |}, LifeCore <$> e).
Definition on_method {A} (n : nat) (m : Op HandlerState A) : Proc A := on_event n (on_handler m).
(** A method that works on the configuration of the handler's slot. *)
Definition on_settings {A} (n : nat) (m : Z → bool → Op CellularCallConfig A) : Proc A :=
  on_event n (let! t := mgets (λ s, this (es_handler s)) in on_configuration (m (slotId_ t) (registerInstance_ t))).

Definition handler_StartCallManagerService : Proc () :=
  if CALL_MANAGER_AUTO_START_OPTIMIZE then on_life StartCallManagerService else mret ().
Definition GetRadioStateProcess (object : option Z) : Proc () :=
  match object with
  | None => mret ()
  | Some state => if bool_decide (state = CORE_SERVICE_POWER_ON) then handler_StartCallManagerService else mret ()
  end.
Definition NvCfgFinishedIndication (n : nat) (object : option Z) : Proc () :=
  match object with
  | None => mret ()
  | Some data =>
      if negb ((data =? STATE_NV_REFRESH_FINISHED) || (STATE_NV_REFRESH_ALREADY_FINISHED <=? data)) then
        if BASE_POWER_IMPROVEMENT_FEATURE then mmodify (set_isNvCfgFinish false) else mret ()
      else
        (if BASE_POWER_IMPROVEMENT_FEATURE then
           mmodify (set_isNvCfgFinish true) ;; on_method n ProcessFinishCommonEvent
         else mret ()) ;;
        let! hasSimCard := on_event n (let! t := mgets (λ s, this (es_handler s)) in
                                       ask (λ h, core_HasSimCard h (slotId_ t))) in
        if negb hasSimCard then mret ()
        else
          let! isUseCloudImsNV := query (λ h, system_GetBoolParameter h KEY_CONST_TELEPHONY_IS_USE_CLOUD_IMS_NV true) in
          let! asked := (if (isUseCloudImsNV : bool) then
                           let! ret := on_settings n (λ slotId _, GetImsCapabilities slotId) in
                           mret (bool_decide (ret = TELEPHONY_ERR_SUCCESS))
                         else mret false) in
          if (asked : bool) then mret ()
          else
            on_settings n (λ _ _, construct (mfor GetSlotInfo (λ it,
              UpdateImsCapabilities it true false INVALID_OPERATOR_CONFIG_STATE)))
  end.

(** ** Dispatch *)

Definition process_notify (n : nat) (what : CoreNotify) (o : EventObject) : Proc () :=
  match what with
  | RADIO_AVAIL | RADIO_NOT_AVAIL => on_method n GetCsCallData
  | RADIO_SIM_STATE_CHANGE => on_settings n SimStateChangeReport
  | RADIO_SIM_RECORDS_LOADED => on_settings n (λ slotId _, SimRecordsLoadedReport slotId)
  | RADIO_SIM_ACCOUNT_LOADED => on_settings n (λ slotId _, SimAccountLoadedReport slotId)
  | RADIO_CALL_STATUS_INFO => on_method n CsCallStatusInfoReport
  | RADIO_CALL_USSD_NOTICE => on_method n (UssdNotifyResponse (as_ussd o))
  | RADIO_CALL_SS_NOTICE => on_method n (SsNotifyResponse (as_ss o))
  | RADIO_CALL_EMERGENCY_NUMBER_REPORT => on_settings n (λ slotId _, ReportEccChanged slotId (as_emergency o))
  | ServiceLife.RADIO_CALL_RINGBACK_VOICE => on_method n (CallRingBackVoiceResponse (as_ringback (shared o)))
  | RADIO_CALL_SRVCC_STATUS => on_method n (UpdateSrvccStateReport (as_srvcc o))
  | RADIO_CALL_RSRVCC_STATUS => on_method n UpdateRsrvccStateReport
  | RADIO_RESIDENT_NETWORK_CHANGE => on_settings n (λ slotId _, ResidentNetworkChangeReport slotId (as_string o))
  | RADIO_RIL_ADAPTER_HOST_DIED => on_method n OnRilAdapterHostDied
  | RADIO_FACTORY_RESET => on_settings n (λ slotId _, FactoryReset slotId)
  | RADIO_NV_REFRESH_FINISHED => NvCfgFinishedIndication n (as_int32 o)
  | RADIO_STATE_CHANGED => on_method n (RadioStateChangeProcess (as_int32 o))
  end.
Definition process_modem (n : nat) (id : ModemAnswer) (o : EventObject) : Proc () :=
  match id with
  | RADIO_GET_CMUT => on_settings n (λ _ registered, GetMuteResponse registered MuteControlResponse_value (as_mute o))
  | RADIO_SET_CALL_PREFERENCE_MODE =>
      on_settings n (λ slotId registered, SetDomainPreferenceModeResponse slotId registered
        (rr_error <$> as_info (shared o)))
  | RADIO_GET_CALL_PREFERENCE_MODE =>
      on_settings n (λ slotId _, ConfigHandler.GetDomainPreferenceModeResponse slotId (as_int (shared o)))
  | RADIO_SET_VONR_SWITCH_STATUS =>
      on_settings n (λ slotId _, SetVoNRSwitchStatusResponse slotId (rr_error <$> as_info (shared o)))
  | RADIO_SET_EMERGENCY_CALL_LIST =>
      on_settings n (λ _ registered, SetEmergencyCallListResponse registered (rr_error <$> as_info (shared o)))
  | RADIO_GET_EMERGENCY_CALL_LIST =>
      on_settings n (λ slotId _, GetEmergencyCallListResponse slotId (as_emergency o))
  | RADIO_SET_USSD => on_method n (SupplementHandler.SendUssdResponse (as_info (shared o)))
  | RADIO_CLOSE_UNFINISHED_USSD => on_method n (CloseUnFinishedUssdResponse (as_info (shared o)))
  | RADIO_GET_STATUS => GetRadioStateProcess (as_radio_state o)
  end.
Definition process_own (n : nat) (ev : HandlerEvent) : Proc () :=
  match ev with
  | EVENT_MMI_Id data isNeedUseIms =>
      on_method n (GetMMIResponse (Some {| mmiData_ := data; isNeedUseIms_ := isNeedUseIms |}))
  | EVENT_EXECUTE_POST_DIAL data _ => on_method n (ExecutePostDial (Some data))
  | GET_CS_CALL_DATA_ID => on_method n GetCsCallsDataRequest
  | GET_IMS_CALL_DATA_ID => on_method n GetImsCallsDataRequest
  | GET_SATELLITE_CALL_DATA_ID => on_event n (if_satellite GetSatelliteCallsDataRequest)
  | EVENT_SET_UNLOCK_PIN_PUK_ID pinResData => on_method n (SendUnlockPinPukResponse (Some pinResData))
  | OPERATOR_CONFIG_CHANGED_ID operatorState _ =>
      on_settings n (λ slotId _, ConfigHandler.HandleOperatorConfigChanged slotId (Some operatorState))
  | NETWORK_STATE_CHANGED => on_settings n (λ slotId _, NetworkStateChangeReport slotId)
  | TEL_EVENT event => on_event n (HandlerEvents.ProcessEvent event)
  end.
Definition ProcessEvent (n : nat) (event : InnerEvent) : Proc () :=
  match event with
  | Own ev => process_own n ev
  | Answer id o param =>
      match id with
      | Basic RADIO_CURRENT_CALLS => on_method n (GetCsCallsDataResponse (as_cs_calls o))
      | _ => on_event n (HandlerEvents.ProcessEvent {| te_id := id; te_object := shared o; te_param := param |})
      end
  | Modem id o => process_modem n id o
  | Notify what o => process_notify n what o
  | REGISTER_HANDLER_ID => on_life RegisterHandler
  end.

(** ** Broadcasts *)

End Modem.

(** ** ModemFacts: the device goes to sleep while the modem is not configured *)

Module ModemFacts.
Import ControlBase CsControl ImsControl ConnectionCS ConnectionIMS.

Open Scope Z_scope.

Lemma sends_on_control `{CallConsts, E : Env, ServiceEnv} {C} `{!ControlTable C} {A} P slotId (c : C) (m : Env → Op C A) :
  (∀ E', sends P (m E')) → sends P (on_control slotId c m).
Proof.
  intros Hm s h. unfold on_control. pose proof (Hm (linked E s) (default c (GetControl slotId s)) h) as Hw.
  unfold wp in *. by destruct (m _ _ _) as [[a c'] e].
Qed.
(** Unfold whatever operation a [sends] goal is stuck on. *)
Ltac head_of m := lazymatch m with ?f _ => head_of f | _ => m end.
Ltac opened :=
  repeat (mauto; try done;
          lazymatch goal with
          | |- sends _ (on_control _ _ _) => apply sends_on_control; intros ?
          | |- sends _ ?m => let f := head_of m in progress unfold f
          end).

Section Facts.
Context `{CallConsts, E : Env, ServiceEnv, HandlerEnv, SupplementEnv, ConfigEnv}.
Context `{ParcelEnv, IpcEnv, ImsCallClient.ClientEnv, SatelliteCallClient.SatelliteClientEnv, LifeEnv, ModemEnv}.
Abbreviation Proc A := (M LifeEvent ServiceProcess A).

Definition no_answer (e : Effect) : Prop :=
  match e with FinishCommonEvent _ | GoAsyncCommonEvent _ => False | _ => True end.

Lemma update_no_answer slotId x b st : sends no_answer (construct (UpdateImsCapabilities slotId x b st)).
Proof. opened. Qed.

(** ** A broadcast *)


Section Sleep.
Context (Hpower : BASE_POWER_IMPROVEMENT_FEATURE = true).





End Sleep.
End Facts.

End ModemFacts.
