(* ===== verification/ImsReportFacts.v ===== *)
(** * ImsReportFacts: what a report of the IMS service becomes

    Every method of the callback as a value, what it puts on the wire, and what
    the stub makes of that. *)

From stdpp Require Import base tactics option list numbers strings gmap.
From Stdlib Require Import ZArith Lia Ascii String.
From S2P Require Import Prelude SsTypes ConfigTypes Platform Standardize StdMap Service Handler.
From S2P Require Import SupplementRequestCs Supplement ConfigRequest Config ConfigHandler Parcel IpcCodes.
From S2P Require ImsCallProxy ImsCallCallbackStub.
Import ImsCallProxy.ImsCallProxyFacts ImsCallCallbackStub.
From S2P Require ImsCallClient ImsCallCallbackProxy.
Import ImsCallCallbackInterfaceCode.

Open Scope Z_scope.

(** ** Reports *)

Inductive ImsReport :=
  | RpDial (slotId : Z) (info : RadioResponseInfo)
  | RpHangUp (slotId : Z) (info : RadioResponseInfo)
  | RpReject (slotId : Z) (info : RadioResponseInfo)
  | RpAnswer (slotId : Z) (info : RadioResponseInfo)
  | RpHold (slotId : Z) (info : RadioResponseInfo)
  | RpUnHold (slotId : Z) (info : RadioResponseInfo)
  | RpSwitch (slotId : Z) (info : RadioResponseInfo)
  | RpStartDtmf (slotId : Z) (info : RadioResponseInfo)
  | RpStopDtmf (slotId : Z) (info : RadioResponseInfo)
  | RpStartRtt (slotId : Z) (info : RadioResponseInfo)
  | RpStopRtt (slotId : Z) (info : RadioResponseInfo)
  | RpCallsError (slotId : Z) (info : RadioResponseInfo)
  | RpCombine (slotId : Z) (info : RadioResponseInfo)
  | RpInvite (slotId : Z) (info : RadioResponseInfo)
  | RpSetSwitch (slotId : Z) (info : RadioResponseInfo)
  | RpGetSwitchError (slotId : Z) (info : RadioResponseInfo)
  | RpMediaModeRequest (slotId : Z) (info : ImsCallModeReceiveInfo)
  | RpMediaModeResponse (slotId : Z) (info : ImsCallModeReceiveInfo)
  | RpSessionEvent (slotId : Z) (info : ImsCallSessionEventInfo)
  | RpPeerDimensions (slotId : Z) (info : ImsCallPeerDimensionsInfo)
  | RpDataUsage (slotId : Z) (info : ImsCallDataUsageInfo)
  | RpCamera (slotId : Z) (info : CameraCapabilitiesInfo)
  | RpRingback (slotId : Z) (info : RingbackVoice)
  | RpSetMute (slotId : Z) (info : MuteControlResponse)
  | RpSetClip (slotId : Z) (resultInfo : SsBaseResult)
  | RpSetClir (slotId : Z) (resultInfo : SsBaseResult)
  | RpSetTransfer (slotId : Z) (resultInfo : SsBaseResult)
  | RpSetRestriction (slotId : Z) (resultInfo : SsBaseResult)
  | RpSetWaiting (slotId : Z) (resultInfo : SsBaseResult)
  | RpSetColr (slotId : Z) (resultInfo : SsBaseResult)
  | RpSetColp (slotId : Z) (resultInfo : SsBaseResult)
  | RpGetClip (slotId : Z) (result : IdentityResult)
  | RpGetClir (slotId : Z) (result : IdentityResult)
  | RpGetColr (slotId : Z) (result : IdentityResult)
  | RpGetColp (slotId : Z) (result : IdentityResult)
  | RpSendDtmf (slotId : Z) (info : RadioResponseInfo) (callIndex : Z)
  | RpStateChange (slotId : Z)
  | RpCalls (slotId : Z) (callList : ImsCurrentCallList)
  | RpFailReason (slotId : Z) (details : DisconnectedDetails)
  | RpGetSwitch (slotId active : Z)
  | RpImsCap (slotId : Z) (imsCap : ImsCapFromChip)
  | RpSuppExt (slotId code callId : Z)
  | RpRttEvent (slotId : Z) (info : ImsCallRttEventInfo)
  | RpRttError (slotId : Z) (info : ImsCallRttErrorInfo)
  | RpGetTransfer (slotId : Z) (cFQueryList : CallForwardQueryInfoList)
  | RpGetRestriction (slotId : Z) (result : CallRestrictionResult)
  | RpGetWaiting (slotId : Z) (result : CallWaitResult).

(** The code of a report. *)
Definition report_code (rp : ImsReport) : CallbackCode :=
  match rp with
  | RpDial _ _ => IMS_DIAL
  | RpHangUp _ _ => IMS_HANG_UP
  | RpReject _ _ => IMS_REJECT
  | RpAnswer _ _ => IMS_ANSWER
  | RpHold _ _ => IMS_HOLD
  | RpUnHold _ _ => IMS_UN_HOLD
  | RpSwitch _ _ => IMS_SWITCH
  | RpStartDtmf _ _ => IMS_START_DTMF
  | RpStopDtmf _ _ => IMS_STOP_DTMF
  | RpStartRtt _ _ => IMS_START_RTT
  | RpStopRtt _ _ => IMS_STOP_RTT
  | RpCallsError _ _ => IMS_GET_CALLS_DATA
  | RpCombine _ _ => IMS_COMBINE_CONFERENCE
  | RpInvite _ _ => IMS_INVITE_TO_CONFERENCE
  | RpSetSwitch _ _ => IMS_SET_SWITCH_STATUS
  | RpGetSwitchError _ _ => IMS_GET_SWITCH_STATUS
  | RpMediaModeRequest _ _ => IMS_RECV_CALL_MEDIA_MODE_REQUEST
  | RpMediaModeResponse _ _ => IMS_RECV_CALL_MEDIA_MODE_RESPONSE
  | RpSessionEvent _ _ => IMS_CALL_SESSION_EVENT_CHANGED
  | RpPeerDimensions _ _ => IMS_CALL_PEER_DIMENSIONS_CHANGED
  | RpDataUsage _ _ => IMS_CALL_DATA_USAGE_CHANGED
  | RpCamera _ _ => IMS_CALL_CAMERA_CAPABILITIES_CHANGED
  | RpRingback _ _ => IMS_CALL_CRING
  | RpSetMute _ _ => IMS_SET_MUTE
  | RpSetClip _ _ => IMS_SET_CALL_CLIP
  | RpSetClir _ _ => IMS_SET_CALL_CLIR
  | RpSetTransfer _ _ => IMS_SET_CALL_FORWARD
  | RpSetRestriction _ _ => IMS_SET_CALL_RESTRICTION
  | RpSetWaiting _ _ => IMS_SET_CALL_WAIT
  | RpSetColr _ _ => IMS_SET_CALL_COLR
  | RpSetColp _ _ => IMS_SET_CALL_COLP
  | RpGetClip _ _ => IMS_GET_CALL_CLIP
  | RpGetClir _ _ => IMS_GET_CALL_CLIR
  | RpGetColr _ _ => IMS_GET_CALL_COLR
  | RpGetColp _ _ => IMS_GET_CALL_COLP
  | RpSendDtmf _ _ _ => IMS_SEND_DTMF
  | RpStateChange _ => IMS_CALL_STATE_CHANGE
  | RpCalls _ _ => IMS_GET_CALLS_DATA
  | RpFailReason _ _ => IMS_LAST_CALL_FAIL_REASON
  | RpGetSwitch _ _ => IMS_GET_SWITCH_STATUS
  | RpImsCap _ _ => IMS_GET_IMS_CAPABILITY
  | RpSuppExt _ _ _ => IMS_SUPP_EXT_CHANGED
  | RpRttEvent _ _ => IMS_UPGRADE_OR_DOWNGRADE_RTT_EVT
  | RpRttError _ _ => IMS_UPGRADE_OR_DOWNGRADE_RTT_ERR
  | RpGetTransfer _ _ => IMS_GET_CALL_FORWARD
  | RpGetRestriction _ _ => IMS_GET_CALL_RESTRICTION
  | RpGetWaiting _ _ => IMS_GET_CALL_WAIT
  end.

(** What follows the descriptor in the message of a report. *)
Definition result_items (r : SsBaseResult) : list Item :=
  [IInt32 (sb_index r); IInt32 (sb_result r); IInt32 (sb_reason r); IString (sb_message r)].
Definition list_items {T} (items : T → list Item) (callSize flag : Z) (l : list T) : list Item :=
  [IInt32 callSize; IInt32 flag; IInt32 (i32 (Z.of_nat (Datatypes.length l)))] ++ (l ≫= items).
Definition report_items (rp : ImsReport) : list Item :=
  match rp with
  | RpDial slotId info | RpHangUp slotId info | RpReject slotId info | RpAnswer slotId info | RpHold slotId info | RpUnHold slotId info | RpSwitch slotId info | RpStartDtmf slotId info | RpStopDtmf slotId info | RpStartRtt slotId info | RpStopRtt slotId info | RpCallsError slotId info | RpCombine slotId info | RpInvite slotId info | RpSetSwitch slotId info | RpGetSwitchError slotId info
      => [IInt32 slotId; IRaw (to_raw info)]
  | RpMediaModeRequest slotId info => [IInt32 slotId; IRaw (to_raw info)]
  | RpMediaModeResponse slotId info => [IInt32 slotId; IRaw (to_raw info)]
  | RpSessionEvent slotId info => [IInt32 slotId; IRaw (to_raw info)]
  | RpPeerDimensions slotId info => [IInt32 slotId; IRaw (to_raw info)]
  | RpDataUsage slotId info => [IInt32 slotId; IRaw (to_raw info)]
  | RpCamera slotId info => [IInt32 slotId; IRaw (to_raw info)]
  | RpRingback slotId info => [IInt32 slotId; IRaw (to_raw info)]
  | RpSetMute slotId info => [IInt32 slotId; IRaw (to_raw info)]
  | RpSetClip slotId r | RpSetClir slotId r | RpSetTransfer slotId r | RpSetRestriction slotId r | RpSetWaiting slotId r | RpSetColr slotId r | RpSetColp slotId r
      => IInt32 slotId :: result_items r
  | RpGetClip slotId r | RpGetClir slotId r | RpGetColr slotId r | RpGetColp slotId r
      => IInt32 slotId :: result_items (id_result r) ++ [IInt32 (id_action r); IInt32 (id_stat r)]
  | RpSendDtmf slotId info callIndex => [IInt32 slotId; IRaw (to_raw info); IInt32 callIndex]
  | RpStateChange slotId => [IInt32 slotId]
  | RpCalls slotId l =>
      IInt32 slotId :: list_items ImsCallCallbackProxy.call_items (iml_callSize l) (iml_flag l) (iml_calls l)
  | RpFailReason slotId d => [IInt32 slotId; IInt32 (dd_reason d); IString (dd_message d)]
  | RpGetSwitch slotId active => [IInt32 slotId; IInt32 active]
  | RpImsCap slotId c =>
      [IInt32 slotId; IInt32 (volteCap c); IInt32 (vowifiCap c); IInt32 (vonrCap c); IInt32 (vtCap c)]
  | RpSuppExt slotId code callId => [IInt32 slotId; IInt32 code; IInt32 callId]
  | RpRttEvent slotId i => [IInt32 slotId; IInt32 (re_callId i); IInt32 (re_eventType i); IInt32 (re_reason i)]
  | RpRttError slotId i =>
      [IInt32 slotId; IInt32 (rx_callId i); IInt32 (rx_causeCode i); IInt32 (rx_operationType i);
       IString (rx_reasonText i)]
  | RpGetTransfer slotId l =>
      IInt32 slotId :: result_items (cfl_result l) ++
        list_items ImsCallCallbackProxy.forward_items (cfl_callSize l) (cfl_flag l) (cfl_calls l)
  | RpGetRestriction slotId r =>
      IInt32 slotId :: result_items (rs_result r) ++ [IInt32 (rs_status r); IInt32 (rs_classCw r)]
  | RpGetWaiting slotId r =>
      IInt32 slotId :: result_items (cw_result r) ++ [IInt32 (cw_status r); IInt32 (cw_classCw r)]
  end.
Definition report_data (rp : ImsReport) : Parcel :=
  IToken ImsCallCallbackProxy.ImsCallCallbackInterface_descriptor :: report_items rp.

Section Methods.
Context `{CallConsts, E : Env, ServiceEnv, HandlerEnv, SupplementEnv, ConfigEnv, ParcelEnv, StubEnv, IpcEnv}.

(** The methods of the proxy and of the stub. *)
Definition send_report {S} (rp : ImsReport) : M IpcEvent S Z :=
  match rp with
  | RpDial slotId info => ImsCallCallbackProxy.DialResponse slotId info
  | RpHangUp slotId info => ImsCallCallbackProxy.HangUpResponse slotId info
  | RpReject slotId info => ImsCallCallbackProxy.RejectWithReasonResponse slotId info
  | RpAnswer slotId info => ImsCallCallbackProxy.AnswerResponse slotId info
  | RpHold slotId info => ImsCallCallbackProxy.HoldCallResponse slotId info
  | RpUnHold slotId info => ImsCallCallbackProxy.UnHoldCallResponse slotId info
  | RpSwitch slotId info => ImsCallCallbackProxy.SwitchCallResponse slotId info
  | RpStartDtmf slotId info => ImsCallCallbackProxy.StartDtmfResponse slotId info
  | RpStopDtmf slotId info => ImsCallCallbackProxy.StopDtmfResponse slotId info
  | RpStartRtt slotId info => ImsCallCallbackProxy.StartRttResponse slotId info
  | RpStopRtt slotId info => ImsCallCallbackProxy.StopRttResponse slotId info
  | RpCallsError slotId info => ImsCallCallbackProxy.GetImsCallsDataResponse_info slotId info
  | RpCombine slotId info => ImsCallCallbackProxy.CombineConferenceResponse slotId info
  | RpInvite slotId info => ImsCallCallbackProxy.InviteToConferenceResponse slotId info
  | RpSetSwitch slotId info => ImsCallCallbackProxy.SetImsSwitchResponse slotId info
  | RpGetSwitchError slotId info => ImsCallCallbackProxy.GetImsSwitchResponse_info slotId info
  | RpMediaModeRequest slotId info => ImsCallCallbackProxy.ReceiveUpdateCallMediaModeRequest slotId info
  | RpMediaModeResponse slotId info => ImsCallCallbackProxy.ReceiveUpdateCallMediaModeResponse slotId info
  | RpSessionEvent slotId info => ImsCallCallbackProxy.CallSessionEventChanged slotId info
  | RpPeerDimensions slotId info => ImsCallCallbackProxy.PeerDimensionsChanged slotId info
  | RpDataUsage slotId info => ImsCallCallbackProxy.CallDataUsageChanged slotId info
  | RpCamera slotId info => ImsCallCallbackProxy.CameraCapabilitiesChanged slotId info
  | RpRingback slotId info => ImsCallCallbackProxy.CallRingBackReport slotId info
  | RpSetMute slotId info => ImsCallCallbackProxy.SetMuteResponse slotId info
  | RpSetClip slotId r => ImsCallCallbackProxy.SetClipResponse slotId r
  | RpSetClir slotId r => ImsCallCallbackProxy.SetClirResponse slotId r
  | RpSetTransfer slotId r => ImsCallCallbackProxy.SetCallTransferResponse slotId r
  | RpSetRestriction slotId r => ImsCallCallbackProxy.SetCallRestrictionResponse slotId r
  | RpSetWaiting slotId r => ImsCallCallbackProxy.SetCallWaitingResponse slotId r
  | RpSetColr slotId r => ImsCallCallbackProxy.SetColrResponse slotId r
  | RpSetColp slotId r => ImsCallCallbackProxy.SetColpResponse slotId r
  | RpGetClip slotId r => ImsCallCallbackProxy.GetClipResponse slotId r
  | RpGetClir slotId r => ImsCallCallbackProxy.GetClirResponse slotId r
  | RpGetColr slotId r => ImsCallCallbackProxy.GetColrResponse slotId r
  | RpGetColp slotId r => ImsCallCallbackProxy.GetColpResponse slotId r
  | RpSendDtmf slotId info callIndex => ImsCallCallbackProxy.SendDtmfResponse slotId info callIndex
  | RpStateChange slotId => ImsCallCallbackProxy.CallStateChangeReport slotId
  | RpCalls slotId l => ImsCallCallbackProxy.GetImsCallsDataResponse_list slotId l
  | RpFailReason slotId d => ImsCallCallbackProxy.LastCallFailReasonResponse slotId d
  | RpGetSwitch slotId active => ImsCallCallbackProxy.GetImsSwitchResponse_active slotId active
  | RpImsCap slotId c => ImsCallCallbackProxy.GetImsCapResponse slotId c
  | RpSuppExt slotId code callId => ImsCallCallbackProxy.GetImsSuppExtResponse slotId code callId
  | RpRttEvent slotId i => ImsCallCallbackProxy.ReceiveUpdateImsCallRttEvtResponse slotId i
  | RpRttError slotId i => ImsCallCallbackProxy.ReceiveUpdateImsCallRttErrResponse slotId i
  | RpGetTransfer slotId l => ImsCallCallbackProxy.GetCallTransferResponse slotId l
  | RpGetRestriction slotId r => ImsCallCallbackProxy.GetCallRestrictionResponse slotId r
  | RpGetWaiting slotId r => ImsCallCallbackProxy.GetCallWaitingResponse slotId r
  end.
Definition serve_report (rp : ImsReport) : M StubEvent StubState Z :=
  match rp with
  | RpDial slotId info => DialResponse slotId info
  | RpHangUp slotId info => HangUpResponse slotId info
  | RpReject slotId info => RejectWithReasonResponse slotId info
  | RpAnswer slotId info => AnswerResponse slotId info
  | RpHold slotId info => HoldCallResponse slotId info
  | RpUnHold slotId info => UnHoldCallResponse slotId info
  | RpSwitch slotId info => SwitchCallResponse slotId info
  | RpStartDtmf slotId info => StartDtmfResponse slotId info
  | RpStopDtmf slotId info => StopDtmfResponse slotId info
  | RpStartRtt slotId info => StartRttResponse slotId info
  | RpStopRtt slotId info => StopRttResponse slotId info
  | RpCallsError slotId info => GetImsCallsDataResponse_info slotId info
  | RpCombine slotId info => CombineConferenceResponse slotId info
  | RpInvite slotId info => InviteToConferenceResponse slotId info
  | RpSetSwitch slotId info => SetImsSwitchResponse slotId info
  | RpGetSwitchError slotId info => GetImsSwitchResponse_info slotId info
  | RpMediaModeRequest slotId info => ReceiveUpdateCallMediaModeRequest slotId info
  | RpMediaModeResponse slotId info => ReceiveUpdateCallMediaModeResponse slotId info
  | RpSessionEvent slotId info => CallSessionEventChanged slotId info
  | RpPeerDimensions slotId info => PeerDimensionsChanged slotId info
  | RpDataUsage slotId info => CallDataUsageChanged slotId info
  | RpCamera slotId info => CameraCapabilitiesChanged slotId info
  | RpRingback slotId info => CallRingBackReport slotId info
  | RpSetMute slotId info => SetMuteResponse slotId info
  | RpSetClip slotId r => SetClipResponse slotId r
  | RpSetClir slotId r => SetClirResponse slotId r
  | RpSetTransfer slotId r => SetCallTransferResponse slotId r
  | RpSetRestriction slotId r => SetCallRestrictionResponse slotId r
  | RpSetWaiting slotId r => SetCallWaitingResponse slotId r
  | RpSetColr slotId r => SetColrResponse slotId r
  | RpSetColp slotId r => SetColpResponse slotId r
  | RpGetClip slotId r => GetClipResponse slotId r
  | RpGetClir slotId r => GetClirResponse slotId r
  | RpGetColr slotId r => GetColrResponse slotId r
  | RpGetColp slotId r => GetColpResponse slotId r
  | RpSendDtmf slotId info callIndex => SendDtmfResponse slotId info callIndex
  | RpStateChange slotId => CallStateChangeReport slotId
  | RpCalls slotId l => GetImsCallsDataResponse_list slotId l
  | RpFailReason slotId d => LastCallFailReasonResponse slotId d
  | RpGetSwitch slotId active => GetImsSwitchResponse_active slotId active
  | RpImsCap slotId c => GetImsCapResponse slotId c
  | RpSuppExt slotId code callId => GetImsSuppExtResponse slotId code callId
  | RpRttEvent slotId i => ReceiveUpdateImsCallRttEvtResponse slotId i
  | RpRttError slotId i => ReceiveUpdateImsCallRttErrResponse slotId i
  | RpGetTransfer slotId l => GetCallTransferResponse slotId l
  | RpGetRestriction slotId r => GetCallRestrictionResponse slotId r
  | RpGetWaiting slotId r => GetCallWaitingResponse slotId r
  end.
(** The result an answer of a supplementary service carries. *)
Definition report_result (rp : ImsReport) : option SsBaseResult :=
  match rp with
  | RpSetClip _ r | RpSetClir _ r | RpSetTransfer _ r | RpSetRestriction _ r | RpSetWaiting _ r | RpSetColr _ r | RpSetColp _ r => Some r
  | RpGetClip _ r | RpGetClir _ r | RpGetColr _ r | RpGetColp _ r => Some (id_result r)
  | RpGetTransfer _ l => Some (cfl_result l)
  | RpGetRestriction _ r => Some (rs_result r)
  | RpGetWaiting _ r => Some (cw_result r)
  | _ => None
  end.
(** What the stub does with a report it could read: an answer without a command
    is dropped. *)
Definition served (rp : ImsReport) : M StubEvent StubState (Z * Parcel) :=
  reply_with (match report_result rp with
              | Some r => if sb_index r =? INVALID_INDEX then mret TELEPHONY_SUCCESS else serve_report rp
              | None => serve_report rp
              end).
(** The reports of real-time text exist in builds with it only. *)
Definition in_build (rp : ImsReport) : Prop :=
  match rp with
  | RpStartRtt _ _ | RpStopRtt _ _ | RpRttEvent _ _ | RpRttError _ _ => SUPPORT_RTT_CALL = true
  | _ => True
  end.
End Methods.

(** ** The proxy *)

Section ProxySpec.
Context `{CallConsts, ConfigEnv, ParcelEnv, IpcEnv, !ParcelEnvOk} {S : Type}.
Implicit Types (p data : Parcel).

Lemma report_send p c datas :
  p ∈ datas →
  code_spec (ImsCallCallbackProxy.SendResponseInfo c p : M IpcEvent S Z) (ImsCallCallbackProxy.code_value c) datas.
Proof.
  intros Hp. unfold ImsCallCallbackProxy.SendResponseInfo. apply (proxy_send p); [done| | |by intros].
  - intros s h. apply wp_lost. list_in.
  - apply code_error. list_in.
Qed.
Lemma report_common_spec slotId s h :
  wp (ImsCallCallbackProxy.WriteCommonInfo slotId [] : M IpcEvent S _) (λ r s' e, s' = s ∧ e = [] ∧
    (r.1 ∈ ipc_errors ∧ r.1 ≠ TELEPHONY_SUCCESS ∨
     r = (TELEPHONY_SUCCESS, [IToken ImsCallCallbackProxy.ImsCallCallbackInterface_descriptor; IInt32 slotId]))) s h.
Proof.
  unfold ImsCallCallbackProxy.WriteCommonInfo. apply wp_write; intros _; [|apply wp_write; intros _]; apply wp_ret;
    (split; [done|split; [done|]]); [left|left|by right];
    (split; [list_in|apply descriptor_error || apply data_error]).
Qed.
(** The checks that follow the common part. *)
Lemma report_after (k : Parcel → M IpcEvent S (Z * Parcel)) slotId data s h :
  (∀ s h, wp (k [IToken ImsCallCallbackProxy.ImsCallCallbackInterface_descriptor; IInt32 slotId])
     (λ r s' e, s' = s ∧ e = [] ∧
        (r.1 ∈ ipc_errors ∧ r.1 ≠ TELEPHONY_SUCCESS ∨ r = (TELEPHONY_SUCCESS, data))) s h) →
  wp (let! r := ImsCallCallbackProxy.WriteCommonInfo slotId [] in
      let '(ret, p) := r in
      if bool_decide (ret ≠ TELEPHONY_SUCCESS) then mret (ret, p) else k p)
    (λ r s' e, s' = s ∧ e = [] ∧
       (r.1 ∈ ipc_errors ∧ r.1 ≠ TELEPHONY_SUCCESS ∨ r = (TELEPHONY_SUCCESS, data))) s h.
Proof.
  intros Hk. apply wp_then. eapply wp_mono; [apply report_common_spec|].
  intros [ret q] s' e (-> & -> & [[Hin Hne]|[= -> ->]]); cbn [fst] in *.
  - rewrite bool_decide_true by done. apply wp_ret. split; [done|split; [done|]]. by left.
  - rewrite bool_decide_false by (intros Hc; by apply Hc). rewrite app_nil_r.
    eapply wp_mono; [apply Hk|]. by intros r s' e (-> & -> & Hr).
Qed.
Ltac write_checked :=
  repeat (apply wp_write; intros _); apply wp_ret; (split; [done|split; [done|]]);
  first [by right|left; split; [list_in|apply data_error]].
Lemma report_info_spec slotId info s h :
  wp (ImsCallCallbackProxy.WriteCommonInfo_info slotId [] info : M IpcEvent S _) (λ r s' e, s' = s ∧ e = [] ∧
    (r.1 ∈ ipc_errors ∧ r.1 ≠ TELEPHONY_SUCCESS ∨
     r = (TELEPHONY_SUCCESS, [IToken ImsCallCallbackProxy.ImsCallCallbackInterface_descriptor; IInt32 slotId;
                              IRaw (to_raw info)]))) s h.
Proof.
  apply (report_after (λ p, write p (IRaw (to_raw info)) (mret (TELEPHONY_ERR_WRITE_DATA_FAIL, p))
                              (λ p, mret (TELEPHONY_SUCCESS, p)))).
  clear s h. intros s h. write_checked.
Qed.
Lemma report_result_spec slotId r s h :
  wp (ImsCallCallbackProxy.WriteSsBaseResultCommonInfo slotId [] r : M IpcEvent S _) (λ r' s' e, s' = s ∧ e = [] ∧
    (r'.1 ∈ ipc_errors ∧ r'.1 ≠ TELEPHONY_SUCCESS ∨
     r' = (TELEPHONY_SUCCESS, [IToken ImsCallCallbackProxy.ImsCallCallbackInterface_descriptor; IInt32 slotId] ++
                              result_items r))) s h.
Proof.
  unfold ImsCallCallbackProxy.WriteSsBaseResultCommonInfo. cbn zeta.
  match goal with
  | |- wp (let! r := ?m in let '(ret, p) := r in if _ then _ else @?k ret p) _ _ _ =>
      apply (report_after (λ p, k 0 p))
  end.
  clear s h. intros s h. cbn beta. write_checked.
Qed.

Ltac report_step :=
  first [ apply code_put | apply code_put_all | apply report_send; list_in ].
Lemma send_report_spec rp :
  code_spec (send_report rp : M IpcEvent S Z) (ImsCallCallbackProxy.code_value (report_code rp)) [report_data rp].
Proof.
  destruct rp; cbn [send_report];
    match goal with |- code_spec ?m _ _ => let f := head_of m in unfold f end;
    try unfold ImsCallCallbackProxy.respond; try unfold ImsCallCallbackProxy.respond_result;
    try unfold ImsCallCallbackProxy.respond_identity; try unfold ImsCallCallbackProxy.report_raw;
    try unfold ImsCallCallbackProxy.with_common; try unfold ImsCallCallbackProxy.with_result;
    (eapply code_written; [first [apply report_info_spec|apply report_common_spec|apply report_result_spec]|]);
    repeat report_step.
Qed.
End ProxySpec.

(** ** The stub *)

Section StubSpec.
Context `{CallConsts, E : Env, ServiceEnv, HandlerEnv, SupplementEnv, ConfigEnv, ParcelEnv, StubEnv}.

Lemma callback_code_value code :
  (SUPPORT_RTT_CALL = true ∨
   code ∉ [IMS_START_RTT; IMS_STOP_RTT; IMS_UPGRADE_OR_DOWNGRADE_RTT_EVT; IMS_UPGRADE_OR_DOWNGRADE_RTT_ERR]) →
  enum_code callback_codes (ImsCallCallbackProxy.code_value code) = Some code.
Proof.
  unfold ImsCallCallbackProxy.code_value, callback_codes. intros Hc.
  destruct SUPPORT_RTT_CALL; [by destruct code|].
  destruct Hc as [?|Hc]; [done|]. destruct code; try done; exfalso; apply Hc; list_in.
Qed.
Lemma report_code_value rp :
  in_build rp → enum_code callback_codes (ImsCallCallbackProxy.code_value (report_code rp)) = Some (report_code rp).
Proof.
  intros Hb. apply callback_code_value. destruct rp; cbn in Hb; auto; right;
    apply (bool_decide_unpack _); vm_compute; exact I.
Qed.

Lemma ReadCall_items call rest : ReadCall (ImsCallCallbackProxy.call_items call ++ rest) = (call, rest).
Proof. by destruct call. Qed.
Lemma ReadForward_items call rest : ReadForward (ImsCallCallbackProxy.forward_items call ++ rest) = (call, rest).
Proof. by destruct call. Qed.
Lemma with_list_items {T} (read : Parcel → T * Parcel) (items : T → list Item) callSize flag l k :
  (∀ x rest, read (items x ++ rest) = (x, rest)) → Z.of_nat (Datatypes.length l) ≤ MAX_SIZE →
  with_list read (list_items items callSize flag l) k = k callSize flag l.
Proof.
  intros Hr Hl. unfold with_list, list_items. cbn [ReadInt32 app]. unfold MAX_SIZE in *.
  rewrite i32_id by lia. rewrite (proj2 (Z.ltb_ge _ _)) by lia. rewrite (proj2 (Z.ltb_ge _ _)) by lia.
  cbn [orb]. rewrite Nat2Z.id. rewrite <-(app_nil_r (l ≫= items)). by rewrite read_list_items.
Qed.
Lemma with_list_too_long {T} (read : Parcel → T * Parcel) (items : T → list Item) callSize flag l k :
  MAX_SIZE < Z.of_nat (Datatypes.length l) < 2 ^ 31 →
  with_list read (list_items items callSize flag l) k = mret (TELEPHONY_ERR_FAIL, []).
Proof.
  intros Hl. unfold with_list, list_items. cbn [ReadInt32 app]. unfold MAX_SIZE in *.
  rewrite i32_id by lia. rewrite (proj2 (Z.ltb_lt 10 _)) by lia. by rewrite orb_true_r.
Qed.
Lemma ReadSsBaseResult_items r rest : ReadSsBaseResult (result_items r ++ rest) = (r, rest).
Proof. by destruct r. Qed.

(** The reports the stub reads as they were written: not the answer to a tone,
    whose index is read before the struct; a list, or the state of the switch,
    only when a failed look for a struct leaves the parcel as it was, and a list
    only when it is no longer than [MAX_SIZE]. *)
Definition left_alone (p : Parcel) : Prop := ReadRawData (T := RadioResponseInfo) p = (None, p).
Definition readable (rp : ImsReport) : Prop :=
  match rp with
  | RpSendDtmf _ _ _ => False
  | RpCalls slotId l =>
      Z.of_nat (Datatypes.length (iml_calls l)) ≤ MAX_SIZE ∧
      left_alone (list_items ImsCallCallbackProxy.call_items (iml_callSize l) (iml_flag l) (iml_calls l))
  | RpGetSwitch _ active => left_alone [IInt32 active]
  | RpGetTransfer _ l => Z.of_nat (Datatypes.length (cfl_calls l)) ≤ MAX_SIZE
  | _ => True
  end.

Lemma OnRemoteRequest_report rp :
  in_build rp → readable rp →
  OnRemoteRequest (ImsCallCallbackProxy.code_value (report_code rp)) (report_data rp) = served rp.
Proof.
  intros Hb Hr. unfold OnRemoteRequest, report_data. cbn [ReadInterfaceToken].
  rewrite bool_decide_false by (intros Hc; by apply Hc). rewrite report_code_value by done.
  cbn [mbind option_bind].
  destruct rp; cbn [report_code requestFuncMap readable] in *; try done.
  all: try match goal with r : IdentityResult |- _ => destruct r as [[]] end.
  all: try match goal with r : SsBaseResult |- _ => destruct r end.
  all: try match goal with r : CallRestrictionResult |- _ => destruct r as [[]] end.
  all: try match goal with r : CallWaitResult |- _ => destruct r as [[]] end.
  all: try match goal with
           | d : DisconnectedDetails |- _ => destruct d
           | c : ImsCapFromChip |- _ => destruct c
           | i : ImsCallRttEventInfo |- _ => destruct i
           | i : ImsCallRttErrorInfo |- _ => destruct i
           end.
  all: try reflexivity.
  - destruct Hr as [Hl Hr]. unfold OnGetImsCallsDataResponseInner. cbn [report_items ReadInt32]. rewrite Hr.
    rewrite with_list_items by (done || apply ReadCall_items). by destruct callList.
  - unfold OnGetImsSwitchResponseInner. cbn [report_items ReadInt32]. by rewrite Hr.
  - unfold OnGetCallTransferResponseInner. cbn [report_items ReadInt32].
    rewrite ReadSsBaseResult_items, with_list_items by (done || apply ReadForward_items).
    by destruct cFQueryList.
Qed.
End StubSpec.
