(* ===== verification/ImsReportUser.v ===== *)
(** * ImsReportUser: what the IMS service's reports amount to

    A report arrives as it was sent; every event posted carries the object its
    method expects; a dialled code the IMS service gives up on goes to the modem. *)

From stdpp Require Import base tactics option list numbers strings gmap.
From Stdlib Require Import ZArith Lia Ascii String.
From S2P Require Import Prelude SsTypes ConfigTypes Platform Standardize StdMap MmiCode Service Handler.
From S2P Require Import SupplementRequestCs Supplement SupplementFacts SupplementUser.
From S2P Require Import ConfigRequest Config ConfigHandler Parcel IpcCodes.
From S2P Require ImsCallProxy ImsCallCallbackStub SupplementHandler HandlerEvents ImsReportFacts.
Import ImsCallProxy.ImsCallProxyFacts ImsCallCallbackStub HandlerEvents ImsReportFacts.
From S2P Require ImsCallClient ImsCallCallbackProxy.
Import ImsCallCallbackInterfaceCode.

Open Scope Z_scope.

(** ** A report *)

Section Arrives.
Context `{CallConsts, E : Env, ServiceEnv, HandlerEnv, SupplementEnv, ConfigEnv, ParcelEnv, StubEnv, IpcEnv, !ParcelEnvOk}.

(** C28: A report of the IMS service arrives as it was sent: a method of the callback
    proxy sends at most one message, and that message, given to the callback stub,
    is served as the very report the method was called with, every field of it, or
    dropped when it answers no command ([served]).  What the method returns is
    what the stub replied, or an error of its own.  The reports that are not read
    back ([readable]): the answer to a tone, whose index the stub reads before the
    struct the proxy wrote first; a list of more than ten calls; and the two
    reports that share a code with an error answer, unless a failed look for the
    error's struct leaves the parcel as it was. *)
Theorem report_arrives {S} rp (s : S) h (Hb : in_build rp) (Hr : readable rp) :
  wp (send_report rp) (λ a s' e, s' = s ∧
    (transactions e = [] ∧ a ∈ ipc_errors ∨
     ∃ m, transactions e = [m] ∧ OnRemoteRequest m.1 m.2 = served rp ∧
       (a ∈ ipc_errors ∨ ∃ h' out, remote_SendRequest h' m.1 m.2 = (ERR_NONE, out) ∧ a = (ReadInt32 out).1))) s h.
Proof.
  eapply wp_mono; [apply send_report_spec|]. intros a s' e (-> & _ & He). split; [done|].
  destruct He as [?|(data & ->%list_elem_of_singleton & Ht & Ha)]; [by left|right].
  eexists. split; [exact Ht|]. split; [by apply OnRemoteRequest_report|exact Ha].
Qed.
End Arrives.

(** ** The events *)

Section Typed.
Context `{CallConsts, E : Env, ServiceEnv, HandlerEnv, SupplementEnv, ConfigEnv, ParcelEnv, StubEnv}.

(** What the handler is to do with an event: the method of the event's id, on
    the very object the event carries.  No entry has a null object; an event
    whose object is not of the type of its id has no entry. *)
Definition method_on (ev : TelEvent) : option (Op EventState ()) :=
  let run m := Some (on_handler m) in
  let slot k := Some (let! slotId := mgets (λ s, slotId_ (this (es_handler s))) in k slotId) in
  match te_id ev, te_object ev with
  | Basic RADIO_DIAL, ObjResponseInfo x => run (Handler.DialResponse (Some x))
  | Basic ((RADIO_HANGUP_CONNECT | RADIO_REJECT_CALL | RADIO_ACCEPT_CALL | RADIO_HOLD_CALL
          | RADIO_ACTIVE_CALL | RADIO_COMBINE_CALL | RADIO_JOIN_CALL | RADIO_SPLIT_CALL
          | RADIO_CALL_SUPPLEMENT) as id), ObjResponseInfo x =>
      run (Handler.CommonResultResponse id (Some x))
  | Basic RADIO_SWAP_CALL, ObjResponseInfo x => run (Handler.SwapCallResponse (te_param ev) (Some x))
  | Basic RADIO_SEND_DTMF, ObjResponseInfo x => run (Handler.SendDtmfResponse (te_param ev) (Some x))
  | Basic RADIO_START_DTMF, ObjResponseInfo x => run (Handler.StartDtmfResponse (Some x))
  | Basic RADIO_STOP_DTMF, ObjResponseInfo x => run (Handler.StopDtmfResponse (Some x))
  | Basic RADIO_GET_CALL_FAIL_REASON, ObjDetails x =>
      run (Handler.GetCallFailReasonResponse (FailDetails (dd_reason x) (dd_message x)))
  | Supplementary RADIO_GET_CALL_WAIT, ObjWaiting x => run (SupplementHandler.GetCallWaitingResponse (Some x))
  | Supplementary RADIO_SET_CALL_WAIT, ObjSsResult x => run (SupplementHandler.SetCallWaitingResponse (Some x))
  | Supplementary RADIO_GET_CALL_FORWARD, ObjForwarding x => run (SupplementHandler.GetCallTransferResponse (Some x))
  | Supplementary RADIO_SET_CALL_FORWARD, ObjSsResult x => run (SupplementHandler.SetCallTransferInfoResponse (Some x))
  | Supplementary RADIO_GET_CALL_CLIP, ObjClip x => run (SupplementHandler.GetClipResponse (Some x))
  | Supplementary RADIO_SET_CALL_CLIP, ObjSsResult x => run (SupplementHandler.SetClipResponse (Some x))
  | Supplementary RADIO_GET_CALL_CLIR, ObjClir x => run (SupplementHandler.GetClirResponse (Some x))
  | Supplementary RADIO_SET_CALL_CLIR, ObjSsResult x => run (SupplementHandler.SetClirResponse (Some x))
  | Supplementary RADIO_IMS_GET_COLR, ObjColr x => run (SupplementHandler.GetColrResponse (Some x))
  | Supplementary RADIO_IMS_SET_COLR, ObjSsResult x => run (SupplementHandler.SetColrResponse (Some x))
  | Supplementary RADIO_IMS_GET_COLP, ObjColp x => run (SupplementHandler.GetColpResponse (Some x))
  | Supplementary RADIO_IMS_SET_COLP, ObjSsResult x => run (SupplementHandler.SetColpResponse (Some x))
  | Supplementary RADIO_GET_CALL_RESTRICTION, ObjRestriction x =>
      run (SupplementHandler.GetCallRestrictionResponse (Some x))
  | Supplementary RADIO_SET_CALL_RESTRICTION, ObjSsResult x =>
      run (SupplementHandler.SetCallRestrictionResponse (Some x))
  | Supplementary RADIO_SET_CALL_RESTRICTION_PWD, ObjSsResult x =>
      run (SupplementHandler.SetBarringPasswordResponse (Some x))
  | RADIO_IMS_CALL_STATUS_INFO, _ => run Handler.ImsCallStatusInfoReport
  | RADIO_IMS_GET_CALL_DATA, ObjCallList x => run (Handler.GetImsCallsDataResponse (Data x))
  | RADIO_IMS_GET_CALL_DATA, ObjResponseInfo x => run (Handler.GetImsCallsDataResponse (Error x))
  | RADIO_CALL_RINGBACK_VOICE, ObjRingback x => run (HandlerEvents.CallRingBackVoiceResponse (Some x))
  | RADIO_SET_IMS_SWITCH_STATUS, ObjResponseInfo x =>
      slot (λ slotId, let! t := mgets (λ s, this (es_handler s)) in
        on_configuration (ConfigHandler.SetImsSwitchStatusResponse slotId (registerInstance_ t)
          (Some (rr_error x))))
  | RADIO_GET_IMS_SWITCH_STATUS, ObjResponseInfo x =>
      slot (λ slotId,
        on_configuration (ConfigHandler.GetImsSwitchStatusResponse slotId (Some (inl (rr_error x)))))
  | RADIO_GET_IMS_SWITCH_STATUS, ObjInt32 v =>
      slot (λ slotId, on_configuration (ConfigHandler.GetImsSwitchStatusResponse slotId (Some (inr v))))
  | RADIO_GET_IMS_CAPABILITY_FINISHED, ObjImsCap x =>
      slot (λ slotId, on_configuration (ConfigHandler.GetImsCapResponse slotId (Some (volteCap x))))
  | RADIO_RECV_CALL_MEDIA_MODE_REQUEST, ObjMediaMode x =>
      run (HandlerEvents.ReceiveUpdateCallMediaModeRequest (Some x))
  | RADIO_RECV_CALL_MEDIA_MODE_RESPONSE, ObjMediaMode x =>
      run (HandlerEvents.ReceiveUpdateCallMediaModeResponse (Some x))
  | RADIO_CALL_SESSION_EVENT_CHANGED, ObjSessionEvent x =>
      run (HandlerEvents.HandleCallSessionEventChanged (Some x))
  | RADIO_CALL_PEER_DIMENSIONS_CHANGED, ObjPeerDimensions x =>
      run (HandlerEvents.HandlePeerDimensionsChanged (Some x))
  | RADIO_CALL_DATA_USAGE_CHANGED, ObjDataUsage x =>
      run (HandlerEvents.HandleCallDataUsageChanged (Some x))
  | RADIO_CAMERA_CAPABILITIES_CHANGED, ObjCamera x =>
      run (HandlerEvents.HandleCameraCapabilitiesChanged (Some x))
  | RADIO_START_RTT, ObjResponseInfo x => Some (if_rtt (HandlerEvents.StartRttResponse (Some x)))
  | RADIO_STOP_RTT, ObjResponseInfo x => Some (if_rtt (HandlerEvents.StopRttResponse (Some x)))
  | RADIO_RTT_UPGRADE_OR_DOWNGRADE_EVT, ObjRttEvent x =>
      Some (if_rtt (HandlerEvents.ReceiveUpdateCallRttEvtResponse (Some x)))
  | RADIO_RTT_UPGRADE_OR_DOWNGRADE_ERR, ObjRttError x =>
      Some (if_rtt (HandlerEvents.ReceiveUpdateCallRttErrResponse (Some x)))
  | RADIO_SUPP_EXT_CHANGED, ObjSuppExt x => run (HandlerEvents.HandleImsSuppExtResponse (Some x))
  | _, _ => None
  end.
(** [ProcessEvent], given the event, does that. *)
Definition processed (ev : TelEvent) : Prop :=
  ∃ m, method_on ev = Some m ∧ ∀ s h, ProcessEvent ev s h = m s h.
(** Of what the stub does, the events it posts are processed so. *)
Definition well_typed (x : StubEvent) : Prop :=
  match x with Core (SendEvent _ (TEL_EVENT ev)) => processed ev | _ => True end.
(** Effects of the platform that are no such event. *)
Definition no_event (x : Effect) : Prop :=
  match x with SendEvent _ (TEL_EVENT _) => False | _ => True end.

Lemma sends_on_client {A} (m : M IpcEvent ImsCallClient.ImsCallClient A) : sends well_typed (on_client m).
Proof.
  intros s h. unfold wp, on_client. destruct (m _ _) as [[a c] e]. apply Forall_fmap.
  by apply Forall_true.
Qed.
Lemma sends_on_core {X A} (get : StubState → X) set (m : Op X A) :
  sends no_event m → sends well_typed (on_core get set m).
Proof.
  intros Hm s h. specialize (Hm (get s) (core_of h)). unfold wp, on_core in *.
  destruct (m _ _) as [[a c] e]. apply Forall_fmap. eapply Forall_impl; [exact Hm|].
  intros x Hx. destruct x; try done. simpl in *. by case_match.
Qed.
Lemma sends_SendTelEvent slotId ev : processed ev → sends well_typed (SendTelEvent slotId ev).
Proof. intros Hev s h. unfold wp, SendTelEvent, on_platform, on_core, request_bool. by repeat constructor. Qed.
Lemma sends_post slotId ev : processed ev → sends well_typed (post slotId ev).
Proof. intros Hev. unfold post. mauto; [apply sends_on_client|by apply sends_SendTelEvent]. Qed.
Lemma sends_reply_with (m : M StubEvent StubState Z) : sends well_typed m → sends well_typed (reply_with m).
Proof. intros Hm. unfold reply_with, Write. mauto. Qed.
Lemma sends_unless_invalid r (m : M StubEvent StubState Z) :
  sends well_typed m → sends well_typed (unless_invalid r m).
Proof. intros Hm. apply sends_reply_with. case_match; [apply sends_ret|done]. Qed.
Lemma sends_with_raw {T} `{!RawStruct T} (k : Z → T → M StubEvent StubState Z) data :
  (∀ slotId x, sends well_typed (k slotId x)) → sends well_typed (with_raw k data).
Proof. intros Hk. unfold with_raw. repeat case_match; [by apply sends_reply_with|apply sends_ret]. Qed.
Lemma sends_with_result k data :
  (∀ slotId r, sends well_typed (k slotId r)) → sends well_typed (with_result k data).
Proof. intros Hk. unfold with_result. repeat case_match. by apply sends_unless_invalid. Qed.
Lemma sends_with_result_2 k data :
  (∀ slotId r a b, sends well_typed (k slotId r a b)) → sends well_typed (with_result_2 k data).
Proof. intros Hk. unfold with_result_2. repeat case_match. by apply sends_unless_invalid. Qed.
Lemma sends_with_list {T} (read : Parcel → T * Parcel) data k :
  (∀ callSize flag l, sends well_typed (k callSize flag l)) → sends well_typed (with_list read data k).
Proof. intros Hk. unfold with_list. repeat case_match; first [apply Hk|apply sends_ret]. Qed.

(** The configuration sends no events. *)
Lemma mapping_no_event slotId :
  sends no_event (construct (GetImsCallDisconnectResoninfoMappingConfig slotId)).
Proof.
  unfold construct, CellularCallConfig_ctor, InitDefaultOperatorConfig,
    GetImsCallDisconnectResoninfoMappingConfig, locked, read_reasonMapping, send. mauto; done.
Qed.
Lemma sends_cs_fallback r (request k : M StubEvent StubState Z) :
  sends well_typed request → sends well_typed k → sends well_typed (cs_fallback r request k).
Proof. intros Hr Hk. unfold cs_fallback. by case_match. Qed.
Lemma sends_cs_request slotId index request :
  (∀ ss, sends no_event (request ss)) → sends well_typed (cs_request slotId index request).
Proof.
  intros Hr. unfold cs_request, ImsCallCallbackStub.GetSsRequestCommand, on_platform. mauto.
  - apply sends_on_core. unfold Handler.GetSsRequestCommand. mauto.
  - by apply sends_on_core.
Qed.

Ltac unfold_response :=
  match goal with |- sends _ (?m ?x) => let f := head_of m in unfold f | |- sends _ ?m => let f := head_of m in unfold f end.
(** The dispatch of one event, run. *)
Ltac processed_as :=
  eexists; split; [reflexivity|]; intros ? ?; unfold ProcessEvent; rewrite ?mthen_gets;
  cbn [te_id te_object]; rewrite ?mthen_gets; reflexivity.
Ltac typed :=
  repeat first
    [ apply sends_ret | apply sends_query
    | apply sends_post; processed_as
    | apply sends_with_raw; intros | apply sends_with_result; intros | apply sends_with_result_2; intros
    | apply sends_with_list; intros | apply sends_unless_invalid | apply sends_reply_with
    | apply sends_cs_fallback
    | apply sends_cs_request; intros; unfold_requests; unfold request; mauto; done
    | apply sends_on_core; unfold_requests; unfold request; mauto; done
    | apply sends_on_core, mapping_no_event
    | apply sends_on_client
    | apply sends_SendTelEvent; processed_as
    | apply sends_then; intros
    | case_match
    | unfold_response ].

(** C29: no cast of [ProcessEvent] gives null on a report of the IMS service.
    Every event the callback stub posts to a handler, for any code and any
    parcel, carries an object of the type of its id, and [ProcessEvent], given
    that event, runs the method of the id on that very object, from any state
    of the handler and the configuration. *)
Theorem posts_typed_events code data : sends well_typed (OnRemoteRequest code data).
Proof.
  unfold OnRemoteRequest. case_match. case_bool_decide; [apply sends_ret|].
  destruct (enum_code callback_codes code) as [c|]; [|apply sends_query].
  destruct c; cbn [mbind option_bind requestFuncMap]; typed.
Qed.
End Typed.

(** ** A code the IMS service gives up on *)

Section Fallback.
Context `{CallConsts, !CallConstsOk, E : Env, !SecurecOk, ServiceEnv, HandlerEnv}.
Context `{SupplementEnv, !SupplementEnvOk, ConfigEnv, ParcelEnv, StubEnv}.
Implicit Types (s : StubState) (g : list StubEvent) (c : SsRequestCommand) (r : SsBaseResult).

Lemma wp_reply_with (m : M StubEvent StubState Z) (Q : Z * Parcel → StubState → list StubEvent → Prop) s g :
  wp m (λ a s' e, ∀ p, p = [] ∨ p = [IInt32 a] → Q (TELEPHONY_SUCCESS, p) s' e) s g → wp (reply_with m) Q s g.
Proof.
  intros Hm. unfold reply_with, Write. apply wp_then. eapply wp_mono; [exact Hm|]. intros a s' e HQ.
  psteps. apply HQ. cbn [snd app]. destruct (write_ok (g ++ e) [] (IInt32 a)); auto.
Qed.
Lemma wp_cs_request slotId index request t c (Q : Z → StubState → list StubEvent → Prop) s g :
  st_handlers s !! slotId = Some t → sm_lookup index (utCommandMap_ t) = Some c →
  Z.of_nat (String.length (ss_password c)) ≤ kMaxNumberLen →
  wp (on_platform (request (copied c SsRequestCommand_init))) Q s g →
  wp (cs_request slotId index request) Q s g.
Proof.
  intros Ht Hc Hp HQ. unfold cs_request, ImsCallCallbackStub.GetSsRequestCommand. psteps. rewrite Ht.
  unfold Handler.GetSsRequestCommand, on_core at 1, wp at 1. mrun. rewrite Hc.
  rewrite strcpy_s_EOK by lia. cbn. psteps.
  rewrite bool_decide_false by (intros Hn; by apply Hn). unfold set_handler.
  rewrite insert_id by done. destruct s. exact HQ.
Qed.

(** The answer of the IMS service to the request of a code: [r], and what the
    answer to a query holds. *)
Definition code_answer (f : MmiHandler) (data : MMIData) (slotId : Z) r (a b : Z) (l : CallForwardQueryInfoList)
    : ImsReport :=
  let q := same_action (actionString data) interrogate in
  match f with
  | MmiCode.HandleCallTransfer =>
      if q then RpGetTransfer slotId {| cfl_result := r; cfl_callSize := cfl_callSize l; cfl_flag := cfl_flag l;
                                        cfl_calls := cfl_calls l |}
      else RpSetTransfer slotId r
  | MmiCode.HandleCallRestriction =>
      if q then RpGetRestriction slotId {| rs_result := r; rs_status := a; rs_classCw := b |}
      else RpSetRestriction slotId r
  | MmiCode.HandleCallWaiting =>
      if q then RpGetWaiting slotId {| cw_result := r; cw_status := a; cw_classCw := b |}
      else RpSetWaiting slotId r
  | MmiCode.HandleClip => if q then RpGetClip slotId (identity r a b) else RpSetClip slotId r
  | MmiCode.HandleClir => if q then RpGetClir slotId (identity r a b) else RpSetClir slotId r
  | MmiCode.HandleColp => if q then RpGetColp slotId (identity r a b) else RpSetColp slotId r
  | _ => if q then RpGetColr slotId (identity r a b) else RpSetColr slotId r
  end.
(** The request to the modem the stub builds from a command, after the answer
    to a query ([q]) or to a setting. *)
Definition fallback_request (f : MmiHandler) (q : bool) c : option (SsEvent * CsSsRequest) :=
  match f with
  | MmiCode.HandleCallTransfer =>
      if q then Some (RADIO_GET_CALL_FORWARD, CsGetCallTransferInfo (ss_cfReason c))
      else Some (RADIO_SET_CALL_FORWARD, CsSetCallTransferInfo
             {| tp_mode := ss_cfAction c; tp_reason := ss_cfReason c; tp_number := ss_number c;
                tp_classx := ss_classType c |})
  | MmiCode.HandleCallRestriction =>
      if q then Some (RADIO_GET_CALL_RESTRICTION, CsGetCallRestriction (ss_facility c))
      else Some (RADIO_SET_CALL_RESTRICTION, CsSetCallRestriction
             {| rp_mode := Z.b2z (ss_enable c); rp_fac := ss_facility c;
                rp_password := c_str (ss_password c) |})
  | MmiCode.HandleCallWaiting =>
      if q then Some (RADIO_GET_CALL_WAIT, CsGetCallWaiting)
      else Some (RADIO_SET_CALL_WAIT, CsSetCallWaiting (ss_enable c))
  | MmiCode.HandleClip => if q then Some (RADIO_GET_CALL_CLIP, CsGetClip) else None
  | MmiCode.HandleClir =>
      if q then Some (RADIO_GET_CALL_CLIR, CsGetClir)
      else Some (RADIO_SET_CALL_CLIR, CsSetClir (ss_clirAction c))
  | _ => None
  end.
(** The request that repeats what was dialled, for the services the modem has. *)
Definition instead (f : MmiHandler) (data : MMIData) : option (SsEvent * CsSsRequest) :=
  let action := actionString data in
  let q := same_action action interrogate in
  match f with
  | MmiCode.HandleCallTransfer =>
      let cause := ObtainCause (serviceCode data) in
      if q then Some (RADIO_GET_CALL_FORWARD, CsGetCallTransferInfo cause)
      else Some (RADIO_SET_CALL_FORWARD, CsSetCallTransferInfo
             {| tp_mode := command_action f data; tp_reason := cause; tp_number := serviceInfoA data;
                tp_classx := ss_classType SsRequestCommand_init |})
  | MmiCode.HandleCallRestriction =>
      let facility := ObtainBarringInstallation (serviceCode data) in
      if q then Some (RADIO_GET_CALL_RESTRICTION, CsGetCallRestriction facility)
      else Some (RADIO_SET_CALL_RESTRICTION, CsSetCallRestriction
             {| rp_mode := Z.b2z (same_action action activate); rp_fac := facility;
                rp_password := c_str (serviceInfoA data) |})
  | MmiCode.HandleCallWaiting =>
      if q then Some (RADIO_GET_CALL_WAIT, CsGetCallWaiting)
      else Some (RADIO_SET_CALL_WAIT, CsSetCallWaiting (same_action action activate))
  | MmiCode.HandleClip => if q then Some (RADIO_GET_CALL_CLIP, CsGetClip) else None
  | MmiCode.HandleClir =>
      if q then Some (RADIO_GET_CALL_CLIR, CsGetClir)
      else Some (RADIO_SET_CALL_CLIR, CsSetClir (ss_clirAction SsRequestCommand_init))
  | _ => None
  end.
(** A trace without a request to the modem. *)
Definition no_cs (x : StubEvent) : Prop := match x with Core (RilSs _ _ _ _) => False | _ => True end.
(** The stub's answer to a request it repeats, or hands to the handler. *)
Definition resent (slotId index : Z) (rq : option (SsEvent * CsSsRequest)) s s' (e : list StubEvent) : Prop :=
  match rq with
  | Some (ev, rq) => s' = s ∧ e = [Core (RilSs slotId ev index rq)]
  | None => Forall no_cs e
  end.

Lemma c_str_idem (x : string) : c_str (c_str x) = c_str x.
Proof. induction x as [|a x IH]; [done|]. cbn. case_match eqn:Ha; [done|]. cbn. by rewrite Ha, IH. Qed.
(** The buffers of the stub hold the password of a command. *)
Definition password_fits c : Prop :=
  strlen (ss_password c) ≤ kMaxNumberLen ∧ strlen (ss_password c) < sizeof_restriction_password ∧
  c_str (ss_password c) = ss_password c.

Lemma post_no_cs slotId ev : sends no_cs (post slotId ev).
Proof.
  unfold post, SendTelEvent, on_platform, ImsCallCallbackStub.GetHandler. mauto.
  - intros s h. unfold wp, on_client. destruct (ImsCallClient.GetHandler _ _ _) as [[? ?] e].
    apply Forall_fmap. by apply Forall_true.
  - intros s h. unfold wp, on_core, request_bool. by repeat constructor.
Qed.
Lemma wp_request_cs slotId ev index rq rq' s g :
  rq = rq' → wp (on_platform (request (RilSs slotId ev index rq))) (λ _ s' e, resent slotId index (Some (ev, rq')) s s' e) s g.
Proof. by intros ->. Qed.
(** A code that asks or sets a service. *)
Definition code_ok (f : MmiHandler) (data : MMIData) : Prop :=
  is_service f ∧ (actionString data = interrogate ∨ code_set f data).

Lemma fallback_request_of_code f data :
  code_ok f data →
  fallback_request f (same_action (actionString data) interrogate) (code_command f data) = instead f data.
Proof.
  intros (Hf & Ha).
  destruct f; try (exfalso; clear -Hf; unfold is_service in Hf; set_solver);
    cbn [fallback_request instead]; unfold code_command;
    destruct (same_action (actionString data) interrogate) eqn:Hq; try done.
  - by destruct (_ || _).
  - unfold same_action in Hq. apply bool_decide_eq_false in Hq. destruct Ha as [?|[_ Hin]]; [done|].
    assert (same_action (actionString data) activate || same_action (actionString data) deactivate = true)
      as ->.
    { unfold same_action. repeat (apply elem_of_cons in Hin as [Hin|Hin]);
        try (by apply not_elem_of_nil in Hin); by rewrite Hin. }
    cbn. by rewrite c_str_idem.
Qed.

(** An answer that asks for the modem, whatever command waits for it. *)
Lemma code_answer_resent f data slotId t c r a b l s g :
  is_service f → st_handlers s !! slotId = Some t →
  sm_lookup (sb_index r) (utCommandMap_ t) = Some c → password_fits c →
  sb_result r = IMS_ERROR_UT_CS_FALLBACK →
  wp (serve_report (code_answer f data slotId r a b l))
    (λ _ s' e, resent slotId (sb_index r)
                 (fallback_request f (same_action (actionString data) interrogate) c) s s' e) s g.
Proof.
  intros Hf Ht Hl (Hp & Hroom & Hcs) Hr.
  assert (Z.of_nat (String.length (ss_password c)) ≤ kMaxNumberLen) as Hp'
    by (unfold strlen in Hp; by rewrite Hcs in Hp).
  destruct f; try (exfalso; clear -Hf; unfold is_service in Hf; set_solver);
    cbn [code_answer fallback_request].
  all: destruct (same_action (actionString data) interrogate) eqn:Hq; cbn [serve_report].
  all: match goal with |- wp ?m _ _ _ => let f := head_of m in unfold f end.
  all: unfold cs_fallback; cbn [sb_result id_result identity rs_result cw_result cfl_result];
    rewrite ?Hr, ?Z.eqb_refl; cbn zeta.
  all: try (eapply wp_mono; [apply post_no_cs|done]).
  all: try (eapply wp_cs_request; [done|done|done|]).
  all: unfold_requests; try (apply wp_request_cs; try done).
  cbn [copied ss_password ss_enable ss_facility]. unfold strlen in *.
  rewrite strcpy_s_EOK by (case_match; lia). by apply wp_request_cs.
Qed.

Lemma code_answer_result f data slotId r a b l :
  is_service f → report_result (code_answer f data slotId r a b l) = Some r.
Proof.
  intros Hf. destruct f; try (exfalso; clear -Hf; unfold is_service in Hf; set_solver); cbn; by case_match.
Qed.
Lemma code_answer_build f data slotId r a b l : in_build (code_answer f data slotId r a b l).
Proof. by destruct f; cbn; repeat case_match. Qed.
Lemma code_answer_readable f data slotId r a b l :
  Z.of_nat (Datatypes.length (cfl_calls l)) ≤ MAX_SIZE → readable (code_answer f data slotId r a b l).
Proof. by destruct f; cbn; repeat case_match. Qed.

(** C30: a dialled supplementary service code over IMS that the IMS service gives
    up on (an answer with IMS_ERROR_UT_CS_FALLBACK) is sent once more, to the
    modem, under the same index, from the command that waits under it, and nothing
    is posted; that command still waits, for the modem's answer.  This holds while
    the register is there and when the waiting command's password fits the buffers
    it is copied through; a barring code whose password is too long for its command
    sends nothing.  When no command waited under the index before, what is sent is
    what was dialled, but hiding the own number is sent with action 0, because no
    handler stores the action in the field the fallback reads, and forwarding with
    class 0.  When an older command held the index, the request is built from the
    fields of that command, of whatever service it was.  The services the modem does
    not have (setting the caller's line, the connected lines) are not sent. *)
Theorem dialled_code_falls_back f slotId data t h (Hreg : ∀ h, register_instance h = true)
  (Hcode : code_ok f data) (Hok : commands_ok t) :
  wp (run_mmi_handler f slotId data) (λ _ t' e,
    refused slotId t h t' e ∨ password_lost f data ∨
    ∀ s g r a b l, st_handlers s !! slotId = Some t' → sb_index r = next_index t →
      sb_result r = IMS_ERROR_UT_CS_FALLBACK → Z.of_nat (Datatypes.length (cfl_calls l)) ≤ MAX_SIZE →
      let rp := code_answer f data slotId r a b l in
      let answers rq :=
        wp (OnRemoteRequest (ImsCallCallbackProxy.code_value (report_code rp)) (report_data rp))
          (λ _ s' e, resent slotId (next_index t) rq s s' e) s g in
      match sm_lookup (next_index t) (utCommandMap_ t) with
      | None => password_fits (code_command f data) → answers (instead f data)
      | Some old =>
          password_fits old →
          answers (fallback_request f (same_action (actionString data) interrogate) old)
      end) t h.
Proof.
  eapply wp_mono; [by apply mmi_handler_outcome; [..|apply Hcode|]|].
  intros [] t' e [[(pre & x & c & _ & _ & _ & _ & -> & -> & _ & Hkeep)|Hr]|Hp]; [|by left|right; left; apply Hp].
  right; right. intros s g r a b l Hs Hi Hr Hl rp answers.
  assert (∀ c', sm_lookup (next_index t) (utCommandMap_ (saved t (code_command f data))) = Some c' →
    password_fits c' →
    answers (fallback_request f (same_action (actionString data) interrogate) c')) as Hans.
  { intros c' Hc' Hfits. unfold answers, rp.
    rewrite OnRemoteRequest_report by (apply code_answer_build || by apply code_answer_readable).
    unfold served. rewrite code_answer_result by apply Hcode. rewrite Hi.
    destruct (next_index_range t Hok) as [Hn _].
    rewrite (proj2 (Z.eqb_neq _ _)) by (unfold INVALID_INDEX; lia).
    apply wp_reply_with.
    eapply wp_mono; [eapply code_answer_resent; [apply Hcode|exact Hs|by rewrite Hi|done|done]|].
    cbn. intros ? s' e' Hrs _ _. by rewrite <-Hi. }
  destruct (sm_lookup (next_index t) (utCommandMap_ t)) as [old|] eqn:Hold; intros Hfits.
  - apply Hans; [|done]. by rewrite Hkeep.
  - destruct Hkeep as [Hkeep _]. rewrite <-(fallback_request_of_code f data Hcode). by apply Hans.
Qed.
End Fallback.
