(* ===== verification/HandlerFacts.v ===== *)
(** * HandlerFacts: the events of a slot

    An event does to the service only what the operations of the slot's own
    controls do to them, and keeps the handler's store of commands. *)

From stdpp Require Import base tactics option list numbers strings gmap relations.
From Stdlib Require Import ZArith Lia Ascii String.
From S2P Require Import Prelude Platform Samples Standardize StdMap Connection MmiCode.
From S2P Require Import Emergency ControlBase CallMap CallReport ConnectionCS CsControl.
From S2P Require Import CsControlFacts ConnectionIMS ImsControl ImsControlFacts.
From S2P Require Import ConnectionSatellite SatelliteControl SatelliteFacts Service ServiceFacts.
From S2P Require Import Handler SsTypes SupplementRequestCs Supplement SupplementHandler SupplementFacts.

Open Scope Z_scope.

(** The events of a slot, and what each runs. *)
Inductive event :=
  | EvCsCallsData (r : response CallInfoList)
  | EvImsCallsData (r : response ImsCurrentCallList)
  | EvSatelliteCallsData (r : option SatelliteCurrentCallList)
  | EvDialResponse (r : option RadioResponseInfo)
  | EvCommonResult (ev : RadioEvent) (r : option RadioResponseInfo)
  | EvExecutePostDial (data : option PostDialData)
  | EvSwapCall (callType : Z) (r : option RadioResponseInfo)
  | EvSendDtmf (callType : Z) (r : option RadioResponseInfo)
  | EvStartDtmf (r : option RadioResponseInfo)
  | EvStopDtmf (r : option RadioResponseInfo)
  | EvCsCallStatusInfo | EvImsCallStatusInfo | EvSatelliteCallStatusInfo
  | EvGetCsCallData | EvGetImsCallData | EvGetSatelliteCallData
  | EvSrvccState (status : option Z)
  | EvRsrvccState
  | EvCallFailReason (r : fail_reason)
  | EvRilAdapterHostDied
  | EvRadioState (state : option Z)
  | EvMmi (mmiCodeUtils : option MMICodeUtils)
  | EvSupplement (ev : ss_event).

Section Run.
Context `{CallConsts, E : Env, ServiceEnv, HandlerEnv, SupplementEnv}.

Definition run_event (ev : event) : Op HandlerState () :=
  match ev with
  | EvCsCallsData r => GetCsCallsDataResponse r
  | EvImsCallsData r => GetImsCallsDataResponse r
  | EvSatelliteCallsData r => GetSatelliteCallsDataResponse r
  | EvDialResponse r => DialResponse r
  | EvCommonResult e r => CommonResultResponse e r
  | EvExecutePostDial d => ExecutePostDial d
  | EvSwapCall t r => SwapCallResponse t r
  | EvSendDtmf t r => SendDtmfResponse t r
  | EvStartDtmf r => StartDtmfResponse r
  | EvStopDtmf r => StopDtmfResponse r
  | EvCsCallStatusInfo => CsCallStatusInfoReport
  | EvImsCallStatusInfo => ImsCallStatusInfoReport
  | EvSatelliteCallStatusInfo => SatelliteCallStatusInfoReport
  | EvGetCsCallData => GetCsCallsDataRequest
  | EvGetImsCallData => GetImsCallsDataRequest
  | EvGetSatelliteCallData => GetSatelliteCallsDataRequest
  | EvSrvccState st => UpdateSrvccStateReport st
  | EvRsrvccState => UpdateRsrvccStateReport
  | EvCallFailReason r => GetCallFailReasonResponse r
  | EvRilAdapterHostDied => OnRilAdapterHostDied
  | EvRadioState st => RadioStateChangeProcess st
  | EvMmi m => GetMMIResponse m
  | EvSupplement ev => run_ss_event ev
  end.
End Run.

#[export] Hint Resolve preserves_SkipWaitForRadioOn preserves_DialAfterHold
  preserves_RecoverPendingHold cs_preserves_ExecutePostDial ims_preserves_ExecutePostDial
  cs_preserves_ReportHangUpInfo ims_preserves_ReportHangUpInfo sat_preserves_ReportHangUpInfo
  cs_preserves_ReportIncomingInfo ims_preserves_ReportIncomingInfo
  sat_preserves_ReportIncomingInfo ims_preserves_ReportUpdateInfo
  cs_preserves_UpdateDisconnectedReason ims_preserves_UpdateDisconnectedReason
  cs_keeps_GetCallFailReason ims_keeps_GetCallFailReason : cc.

(** ** One event *)

Section Events.
Context `{CallConsts, E : Env, ServiceEnv, HandlerEnv, SupplementEnv}.
Implicit Types (I : CellularCallService → Prop) (s : HandlerState).

(** What an event of [slotId] may do to the service. *)
Definition event_closed (slotId : Z) (ev : event) I : Prop :=
  slot_closed slotId I ∧
  (∀ st, ev = EvSrvccState st → ∀ sv v, I sv → I (SetSrvccState v sv)) ∧
  (∀ sv b, I sv → I (setRadioOnFlag b slotId sv)).
Definition at_slot (slotId : Z) I (s : HandlerState) : Prop :=
  handler_ok slotId (this s) ∧ I (serviceInstance s).

Context (slotId : Z) (I : CellularCallService → Prop).
#[local] Abbreviation J := (at_slot slotId I).

Lemma preserves_my_slot {A} (k : Z → Op HandlerState A) :
  preserves J (k slotId) → preserves J (mthen my_slot k).
Proof.
  intros Hk s h Hs. apply wp_then, wp_gets. destruct Hs as [[Hsl Hok] HI]. rewrite Hsl. by apply Hk.
Qed.
Lemma preserves_on_this {A} (m : Op CellularCallHandler A) :
  preserves (handler_ok slotId) m → preserves J (on_this m).
Proof.
  intros Hm s h [Hs HI]. specialize (Hm (this s) h Hs). unfold wp, on_this in *.
  by destruct (m _ h) as [[a t] e].
Qed.
Lemma preserves_on_service {A} (m : Op CellularCallService A) :
  preserves I m → preserves J (on_service m).
Proof.
  intros Hm s h [Hs HI]. specialize (Hm (serviceInstance s) h HI). unfold wp, on_service in *.
  by destruct (m _ h) as [[a sv] e].
Qed.
Lemma preserves_upd_service f :
  (∀ sv, I sv → I (f sv)) → preserves J (mmodify (upd_service f) : Op HandlerState ()).
Proof. intros Hf. apply preserves_modify. intros s [Hs HI]. split; [done|]. by apply Hf. Qed.
Lemma preserves_upd_this f :
  (∀ t, handler_ok slotId t → handler_ok slotId (f t)) →
  preserves J (mmodify (upd_this f) : Op HandlerState ()).
Proof. intros Hf. apply preserves_modify. intros s [Hs HI]. split; [by apply Hf|done]. Qed.
Lemma closed_ensure {C} `{!ControlTable C, !ControlSpec C} sv :
  closed_in C slotId I → I sv → I (ensure_control (C := C) slotId sv).
Proof.
  intros Hc Hs. unfold ensure_control. destruct (GetControl slotId sv); [done|].
  by apply (closed_new C).
Qed.
End Events.

(** Reduce an event to the operations of the service and of the controls. *)
Ltac event_step :=
  lazymatch goal with
  | |- preserves (at_slot _ _) (mthen my_slot _) => apply preserves_my_slot
  | |- preserves (at_slot _ _) (on_service _) => apply preserves_on_service
  | |- preserves (at_slot _ _) (mmodify (upd_this _)) => apply preserves_upd_this; intros ? Hok; exact Hok
  | |- preserves (at_slot _ _) (on_this _) => apply preserves_on_this
  | |- preserves (at_slot _ _) (mmodify (upd_service _)) => apply preserves_upd_service; intros ? ?
  | |- preserves (at_slot _ _) (mmodify (set_strEnterEventResult _)) =>
      apply preserves_modify; intros ? ?; assumption
  | |- preserves _ (on_control _ _ _) =>
      apply preserves_on_control; [assumption| intros ?; cbn [control_inv CsSpec ImsSpec SatSpec]]
  | |- ?I (SetSrvccState _ _) => solve [auto]
  | |- ?I (setRadioOnFlag _ _ _) => solve [auto]
  | |- ?I (SetCsControl ?sl None ?sv) => refine (closed_drop CSControl sl I _ sv _); assumption
  | |- ?I (SetImsControl ?sl None ?sv) => refine (closed_drop IMSControl sl I _ sv _); assumption
  | |- ?I (SetSatelliteControl ?sl None ?sv) => refine (closed_drop SatelliteControl sl I _ sv _); assumption
  | |- ?I (SetCsControl ?sl (Some CSControl_new) ?sv) => refine (closed_new CSControl sl I _ sv _); assumption
  | |- ?I (ensure_control (C := ?C) ?sl ?sv) => refine (closed_ensure sl I (C := C) sv _ _); assumption
  | |- _ => service_step
  end.
Ltac mstep_hook ::= event_step.

Section EventPreservation.
Context `{CallConsts, E : Env, ServiceEnv, HandlerEnv, SupplementEnv}.

Lemma preserves_confirmed slotId I index action k :
  (∀ flag action, preserves (at_slot slotId I) (k flag action)) →
  preserves (at_slot slotId I) (confirmed index action k).
Proof.
  intros Hk. unfold confirmed. apply preserves_then; [apply preserves_on_this; auto with cc|].
  intros [[ret flag] a]. mauto.
Qed.
Lemma preserves_ss_event slotId I ev : preserves (at_slot slotId I) (run_ss_event ev).
Proof.
  destruct ev; simpl;
    unfold GetCallWaitingResponse, SetCallWaitingResponse, GetClirResponse, SetClirResponse,
      GetClipResponse, SetClipResponse, GetColrResponse, SetColrResponse, GetColpResponse,
      SetColpResponse, GetCallRestrictionResponse, SetCallRestrictionResponse,
      SetBarringPasswordResponse, GetCallTransferResponse, SetCallTransferInfoResponse,
      SendUssdResponse, SsNotifyResponse, SendUnlockPinPukResponse, UssdNotifyResponse,
      CloseUnFinishedUssdResponse, get_response, set_response, with_result,
      HandleCallTransferQueryResult, ReportTransferStatus, to_register;
    repeat first [ apply preserves_confirmed; intros ? ? | progress mauto ];
    unfold EventGetCallWaiting, EventSetCallWaiting, EventGetCallTransferInfo,
      BuildCallForwardQueryInfo, EventSetCallTransferInfo, EventGetCallRestriction,
      EventSetCallRestriction, EventSetBarringPassword, EventGetClip, EventSetClip, EventGetClir,
      EventSetClir, EventGetColr, EventSetColr, EventGetColp, EventSetColp, EventSendUssd,
      EventSsNotify, EventUssdNotify, EventSetPinPuk, EventCloseUnFinishedUssd, on_register,
      report_ss; mauto.
Qed.
Lemma preserves_GetMMIResponse slotId I m :
  preserves (at_slot slotId I) (GetMMIResponse m).
Proof.
  destruct m as [m|]; [|apply preserves_ret]. simpl. apply preserves_my_slot.
  apply preserves_then; [|intros ?; apply preserves_ret]. unfold ExecuteMmiCode. simpl. mauto.
Qed.

(** An event of [slotId] does to the service only what its controls do to
    themselves. *)
Lemma preserves_event slotId I ev :
  event_closed slotId ev I → preserves (at_slot slotId I) (run_event ev).
Proof.
  intros ((Hcs & Hims & Hsat) & Hsr & Hr).
  destruct ev; try apply preserves_GetMMIResponse; try apply preserves_ss_event; simpl;
    try (pose proof (Hsr _ eq_refl) as Hsrvcc; clear Hsr);
    unfold GetCsCallsDataResponse, GetImsCallsDataResponse, GetSatelliteCallsDataResponse,
      ReportCsCallsData, ReportNoCsCallsData, ReportImsCallList, ReportNoImsCallsData,
      ReportSatelliteCallsData, finish_common_event, ProcessFinishCommonEvent, DialResponse,
      CommonResultResponse, ExecutePostDial, SwapCallResponse, SendDtmfResponse, StartDtmfResponse,
      StopDtmfResponse, CsCallStatusInfoReport, ImsCallStatusInfoReport,
      SatelliteCallStatusInfoReport, GetCsCallData, GetImsCallData, GetSatelliteCallData,
      GetCsCallsDataRequest, GetImsCallsDataRequest, GetSatelliteCallsDataRequest,
      UpdateSrvccStateReport, SrvccStateCompleted, UpdateRsrvccStateReport,
      GetCallFailReasonResponse, HandleCallDisconnectReason, OnRilAdapterHostDied,
      RadioStateChangeProcess, GetImsSwitchStatusRequest, DialPendingEmc, to_register,
      CsControl.ReportCsCallsData, ReportImsCallsData, SatelliteControl.ReportSatelliteCallsData,
      CsControl.ReleaseAllConnection, ImsControl.ReleaseAllConnection;
    mauto;
    unfold ConnectionIMS.GetImsCallsDataRequest, ConnectionSatellite.GetSatelliteCallsDataRequest,
      with_ims_client, with_sat_client; mauto.
Qed.
End EventPreservation.
