(* ===== verification/System.v ===== *)
(** * System: service, handlers and controls together

    The state is the service and the handlers of its slots.  An activity is an
    operation of call_manager, an event of a slot, or an operation on every
    slot; between two activities the rest of the system does as it likes.  Over
    every sequence of activities each control keeps its invariant and sits under
    a slot of the device, and each handler keeps its slot. *)

From stdpp Require Import base tactics option list numbers strings gmap relations.
From Stdlib Require Import ZArith Lia Ascii String.
From S2P Require Import Prelude Platform Samples Standardize StdMap Connection MmiCode.
From S2P Require Import Emergency ControlBase CallMap CallReport ConnectionCS CsControl.
From S2P Require Import CsControlFacts CsUser ConnectionIMS ImsControl ImsControlFacts.
From S2P Require Import ConnectionSatellite SatelliteControl SatelliteFacts Service ServiceFacts.
From S2P Require Import Handler SsTypes SupplementRequestCs Supplement SupplementHandler SupplementFacts.
From S2P Require Import HandlerFacts.

Open Scope Z_scope.

Record System := {
  sys_service : CellularCallService;
  handlerMap_ : gmap Z CellularCallHandler;
  sys_strEnter : option nat
}.

(** What one thread of the program does without another of the same slot
    getting in between. *)
Inductive activity :=
  | ActCall (op : call_op)
  | ActEvent (slotId : Z) (ev : event)
  | ActSetting (op : setting_op)
  | ActEnterStr (slotId : Z) (isNvCfgFinish : bool)
  | ActHangUpAllConnection
  | ActCallManagerException
  | ActClearAllCalls (infos : list CellularCallInfo).

(** The slot an activity is about, when it is about one. *)
Definition activity_slot (a : activity) : option Z :=
  match a with
  | ActCall op => Some (op_slot op)
  | ActEvent slotId _ => Some slotId
  | ActSetting op => Some (setting_slot op)
  | _ => None
  end.

Section System.
Context `{CallConsts, E : Env, ServiceEnv, HandlerEnv, SupplementEnv}.

(** [CreateHandler]: one handler for each slot. *)
Definition CreateHandler (registerInstance : bool) : gmap Z CellularCallHandler :=
  list_to_map ((λ it, (it, CellularCallHandler_new it registerInstance)) <$> GetSlotInfo).
Definition System_new (registerInstance : bool) : System :=
  {| sys_service := CellularCallService_new; handlerMap_ := CreateHandler registerInstance;
     sys_strEnter := None |}.

Definition run_service {A} (m : Op CellularCallService A) : Op System () :=
  λ s h, let '(_, sv, e) := m (sys_service s) h in
         ((), {| sys_service := sv; handlerMap_ := handlerMap_ s;
                 sys_strEnter := sys_strEnter s |}, e).
(** [GetHandler(slotId)->m()]; an event of a slot without a handler is lost. *)
Definition run_handler (slotId : Z) (m : Op HandlerState ()) : Op System () :=
  λ s h,
    match handlerMap_ s !! slotId with
    | None => ((), s, [])
    | Some t =>
        let '(_, st, e) := m {| this := t; serviceInstance := sys_service s;
                                strEnterEventResult_ := sys_strEnter s |} h in
        ((), {| sys_service := serviceInstance st;
                handlerMap_ := <[slotId := this st]> (handlerMap_ s);
                sys_strEnter := strEnterEventResult_ st |}, e)
    end.

Definition run_activity (a : activity) : Op System () :=
  match a with
  | ActCall op => run_service (run_call op)
  | ActEvent slotId ev => run_handler slotId (run_event ev)
  | ActSetting op => run_handler (setting_slot op) (on_this (run_setting op) ;; mret ())
  | ActEnterStr slotId b => run_handler slotId (OnEnterStr b)
  | ActHangUpAllConnection => run_service HangUpAllConnection
  | ActCallManagerException => run_service HandleCallManagerException
  | ActClearAllCalls infos => run_service (ClearAllCalls infos)
  end.

(** One activity, or anything of the rest of the system. *)
Inductive sys_step : System * list Effect → System * list Effect → Prop :=
  | Step_activity a s h s' e :
      run (run_activity a) s h = ((), s', e) → sys_step (s, h) (s', h ++ e)
  | Step_world s h e : sys_step (s, h) (s, h ++ e).

Definition handlers_ok (m : gmap Z CellularCallHandler) : Prop :=
  map_Forall handler_ok m.
Definition sys_inv (s : System) : Prop :=
  service_inv (sys_service s) ∧ handlers_ok (handlerMap_ s).
End System.

Section Reach.
Context `{CallConsts, E : Env, ServiceEnv, HandlerEnv, SupplementEnv}.
Implicit Types (s : System) (I : CellularCallService → Prop).

Lemma preserves_run_service {A} I (J : gmap Z CellularCallHandler → Prop)
    (m : Op CellularCallService A) :
  preserves I m → preserves (λ s, I (sys_service s) ∧ J (handlerMap_ s)) (run_service m).
Proof.
  intros Hm s h [HI HJ]. specialize (Hm (sys_service s) h HI). unfold wp, run_service in *.
  by destruct (m _ h) as [[a sv] e].
Qed.
Lemma preserves_run_handler I (J : gmap Z CellularCallHandler → Prop) slotId m :
  preserves (at_slot slotId I) m →
  (∀ hs t, J hs → handler_ok slotId t → J (<[slotId := t]> hs)) →
  (∀ hs t, J hs → hs !! slotId = Some t → handler_ok slotId t) →
  preserves (λ s, I (sys_service s) ∧ J (handlerMap_ s)) (run_handler slotId m).
Proof.
  intros Hm Hins Hid s h [HI HJ]. unfold wp, run_handler.
  destruct (handlerMap_ s !! slotId) as [t|] eqn:Ht; [|done].
  specialize (Hm {| this := t; serviceInstance := sys_service s;
                    strEnterEventResult_ := sys_strEnter s |} h).
  unfold wp, at_slot in Hm. simpl in Hm.
  destruct (m _ h) as [[a st] e]. destruct Hm as [Hsl HI']; [by eauto|]. simpl. eauto.
Qed.

(** The operations on every slot. *)
Lemma preserves_all_slots I :
  (∀ slotId, slot_closed slotId I) →
  preserves I HangUpAllConnection ∧ preserves I HandleCallManagerException ∧
  ∀ infos, preserves I (ClearAllCalls infos).
Proof.
  intros Hc.
  assert (∀ sl, closed_in CSControl sl I) as Hcs by apply Hc.
  assert (∀ sl, closed_in IMSControl sl I) as Hims by apply Hc.
  split_and!; [| |intros infos].
  all: unfold HangUpAllConnection, HandleCallManagerException, ClearAllCalls, SetControl,
    HangUpWithCellularCallRestart, ImsControl.ReleaseAllConnection; mauto.
Qed.

Lemma preserves_ActSetting I op slotId :
  preserves (at_slot slotId I) (on_this (run_setting op) ;; mret () : Op HandlerState ()).
Proof.
  apply preserves_then; [apply preserves_on_this, preserves_setting|intros ?; apply preserves_ret].
Qed.
Lemma preserves_OnEnterStr I slotId b :
  (∀ slotId, slot_closed slotId I) → preserves (at_slot slotId I) (OnEnterStr b).
Proof. intros Hc. destruct (preserves_all_slots I Hc) as (Hall & _ & _). unfold OnEnterStr. mauto. Qed.

Lemma preserves_activity a : preserves sys_inv (run_activity a).
Proof.
  pose proof (λ sl, service_inv_closed sl) as Hcl.
  assert (∀ sl ev, event_closed sl ev service_inv) as Hev by (intros sl ev; split; [apply Hcl|done]).
  destruct (preserves_all_slots service_inv Hcl) as (Hall & Hex & Hclear).
  destruct a; simpl;
    first [ apply preserves_run_service | apply preserves_run_handler ];
    try (by intros; apply map_Forall_insert_2); try (intros ? ? Hm; by apply Hm);
    auto using preserves_call, preserves_event, preserves_OnEnterStr, preserves_ActSetting.
Qed.
Lemma sys_step_inv s h s' h' : sys_inv s → sys_step (s, h) (s', h') → sys_inv s'.
Proof.
  intros Hs Hstep. inversion Hstep as [a ? ? ? e Hrun|]; subst; [|done].
  pose proof (preserves_activity a s h Hs) as Hp. unfold wp, run in *. by rewrite Hrun in Hp.
Qed.

Lemma CreateHandler_ok registerInstance : handlers_ok (CreateHandler registerInstance).
Proof.
  intros slotId t Ht%elem_of_list_to_map_2%list_elem_of_fmap. destruct Ht as (it & [= -> ->] & _).
  apply handler_ok_new.
Qed.

(** C2: whatever call_manager and the settings ask and whatever events arrive, in
    any order and with any other activity in between, every control sits under a
    slot of the device and has an ordered map whose calls sit under their own index
    with no mark left; and the handler found for a slot is the handler of that slot,
    with its last index and the indices of its waiting commands between 0 and 50. *)
Theorem system_reachable_inv registerInstance h0 s h
  (Hreach : rtc sys_step (System_new registerInstance, h0) (s, h)) :
  service_inv (sys_service s) ∧
  (∀ slotId t, handlerMap_ s !! slotId = Some t →
     slotId_ t = slotId ∧ 0 ≤ indexCommand_ t ≤ MAX_REQUEST_COUNT ∧
     ∀ k, k ∈ sm_keys (utCommandMap_ t) → 0 ≤ k ≤ MAX_REQUEST_COUNT) ∧
  ∀ slotId c i, GetCsControl slotId (sys_service s) = Some c →
    IsValidSlotId slotId = true ∧
    FindConnectionByIndex (CsControl.connectionMap_ c) i =
      (λ cn, (i, cn)) <$> sm_lookup i (CsControl.connectionMap_ c).
Proof.
  assert (sys_inv s) as [Hsv Hhs].
  { assert (∀ x y, rtc sys_step x y → sys_inv x.1 → sys_inv y.1) as Hrtc.
    { induction 1 as [|[s1 h1] [s2 h2] y Hstep _ IH]; [done|]. eauto using sys_step_inv. }
    apply (Hrtc _ _ Hreach). split; [done|apply CreateHandler_ok]. }
  split_and!; [done|by intros slotId t Ht; apply Hhs in Ht as (? & ? & ? & ?)|].
  intros slotId c i. unfold GetCsControl.
  destruct (IsValidSlotId slotId) eqn:Hv; simpl; [|done]. intros Hc. split; [done|].
  apply FindConnectionByIndex_lookup. by eapply Hsv.
Qed.

Definition others_kept (slotId : Z) (s0 s : CellularCallService) : Prop :=
  ∀ j, j ≠ slotId → slot_view j s = slot_view j s0.
Lemma slot_closed_others slotId sv0 : slot_closed slotId (others_kept slotId sv0).
Proof.
  split_and!; split; close_table; intros j Hj;
    match goal with Hs : others_kept _ _ _ |- _ => rewrite <-(Hs j Hj) end;
    unfold slot_view; simpl; by rewrite lookup_partial_alter_ne.
Qed.
Lemma slot_closed_srvcc slotId v : slot_closed slotId (λ sv, Service.srvccState_ sv = v).
Proof. split_and!; split; close_table. Qed.
Lemma others_radio slotId sv0 sv b :
  others_kept slotId sv0 sv → others_kept slotId sv0 (setRadioOnFlag b slotId sv).
Proof.
  intros Hs j Hj. rewrite <-(Hs j Hj). unfold slot_view. simpl. by rewrite lookup_insert_ne.
Qed.

Lemma slot_closed_impl slotId (P : Prop) I :
  slot_closed slotId I → slot_closed slotId (λ sv, P → I sv).
Proof.
  intros (I1 & I2 & I3). split_and!; split; intros;
    (by eapply closed_run; eauto) || (by eapply closed_new; eauto) || (by eapply closed_drop; eauto).
Qed.

(** C13: slots do not interfere.  An operation or an event of one slot leaves the
    controls, the radio flag and the handler of every other slot as they were;
    the SRVCC state of the whole service changes only with an SRVCC report. *)
Theorem slot_isolation a slotId s h (Hslot : activity_slot a = Some slotId)
  (Hhs : handlers_ok (handlerMap_ s)) :
  wp (run_activity a) (λ _ s' _,
    (∀ j, j ≠ slotId → slot_view j (sys_service s') = slot_view j (sys_service s) ∧
                       handlerMap_ s' !! j = handlerMap_ s !! j) ∧
    ((∀ st, a ≠ ActEvent slotId (EvSrvccState st)) →
       Service.srvccState_ (sys_service s') = Service.srvccState_ (sys_service s))) s h.
Proof.
  set (I := λ sv, others_kept slotId (sys_service s) sv ∧
    ((∀ st, a ≠ ActEvent slotId (EvSrvccState st)) →
       Service.srvccState_ sv = Service.srvccState_ (sys_service s))).
  set (J := λ hs : gmap Z CellularCallHandler, handlers_ok hs ∧
    ∀ j, j ≠ slotId → hs !! j = handlerMap_ s !! j).
  assert (preserves (λ s, I (sys_service s) ∧ J (handlerMap_ s)) (run_activity a)) as Hp.
  { assert (slot_closed slotId I) as HI.
    { apply slot_closed_and; [apply slot_closed_others|].
      apply slot_closed_impl, slot_closed_srvcc. }
    assert (∀ m : Op HandlerState (), preserves (at_slot slotId I) m →
      preserves (λ s, I (sys_service s) ∧ J (handlerMap_ s)) (run_handler slotId m)) as Hhandler.
    { intros m Hm. apply preserves_run_handler; [done| |].
      - intros hs t [Hok Hj] Ht. split; [by apply map_Forall_insert_2|].
        intros j Hne. rewrite lookup_insert_ne by done. by apply Hj.
      - intros hs t [Hok _]. apply Hok. }
    destruct a; simplify_eq/=.
    - apply preserves_run_service, preserves_call. by apply HI.
    - apply Hhandler, preserves_event. split_and!; [done| |].
      + intros st -> sv v [Ho _]. split; [done|]. intros Hn. by destruct (Hn st).
      + intros sv b [Ho Hsr]. split; [by apply others_radio|done].
    - apply Hhandler, preserves_ActSetting. }
  eapply wp_mono; [apply Hp; by split_and!|].
  intros [] s' e [[Ho Hsr] [_ Hj]]. split; [|done]. intros j Hne. split; [by apply Ho|by apply Hj].
Qed.
End Reach.
