(* ===== verification/CellularEntry.v ===== *)
(** * CellularEntry: the process call_manager talks to

    The stub, the service with its handlers, the configuration and the register
    together: [CellularCallService] implements the methods of
    [CellularCallInterface] (services/manager/src/cellular_call_service.cpp), and
    each report on the way goes up to the object registered.

    Module [CellularEntryFacts]: the process under any transactions. *)

From stdpp Require Import base tactics option list numbers strings gmap relations.
From Stdlib Require Import ZArith Lia Ascii String.
From S2P Require Import Prelude SsTypes ConfigTypes Platform Service Handler SupplementRequestCs Supplement.
From S2P Require Import SupplementHandler ConfigRequest Config ConfigEcc ConfigHandler ConfigSystem System.
From S2P Require Import Parcel IpcCodes CellularCallStub CellularCallRegister.
From S2P Require ServiceFacts SupplementFacts HandlerFacts.

Import CellularCallInterface.

Open Scope Z_scope.

Record CellularCallProcess := {
  process_system : System;
  process_config : CellularCallConfig;
  process_register : CellularCallRegister
}.
Definition set_system (s : System) (p : CellularCallProcess) : CellularCallProcess :=
  {| process_system := s; process_config := process_config p; process_register := process_register p |}.
Definition set_config (s : CellularCallConfig) (p : CellularCallProcess) : CellularCallProcess :=
  {| process_system := process_system p; process_config := s; process_register := process_register p |}.
Definition set_register (s : CellularCallRegister) (p : CellularCallProcess) : CellularCallProcess :=
  {| process_system := process_system p; process_config := process_config p; process_register := s |}.
Definition set_service (s : CellularCallService) (p : CellularCallProcess) : CellularCallProcess :=
  set_system {| sys_service := s; handlerMap_ := handlerMap_ (process_system p);
                sys_strEnter := sys_strEnter (process_system p) |} p.

(** What the core of the program does, and what the register does. *)
Inductive ProcessEvent :=
  | Core (e : Effect)
  | Up (ev : RegisterEvent).
Definition cores (h : list ProcessEvent) : list Effect :=
  omap (λ ev, match ev with Core e => Some e | Up _ => None end) h.
Definition ups (h : list ProcessEvent) : list RegisterEvent :=
  omap (λ ev, match ev with Up ev => Some ev | Core _ => None end) h.

(** The surface that is null. *)
Class EntryEnv := { null_surface : Z }.

Section Process.
Context `{CallConsts, E : Env, ServiceEnv, HandlerEnv, SupplementEnv, ConfigEnv, RegisterEnv, EntryEnv}.
Abbreviation Proc A := (M ProcessEvent CellularCallProcess A).

(** The answers that are this process's own: its handlers, and whether an object
    is registered. *)
Definition within (p : CellularCallProcess) : Env :=
  {| CELLULAR_CALL_SATELLITE := @CELLULAR_CALL_SATELLITE E;
     BASE_POWER_IMPROVEMENT_FEATURE := @BASE_POWER_IMPROVEMENT_FEATURE E;
     char_is_signed := @char_is_signed E;
     reply := @reply E; reply_bool := @reply_bool E;
     service_instance := @service_instance E;
     register_instance := @register_instance E;
     ims_client_instance := @ims_client_instance E; ims_call_proxy := @ims_call_proxy E;
     satellite_client_instance := @satellite_client_instance E;
     hisysevent_instance := @hisysevent_instance E;
     GetHandler := λ _ slotId, bool_decide (is_Some (handlerMap_ (process_system p) !! slotId));
     ims_connections := @ims_connections E; cs_connections := @cs_connections E;
     satellite_connections := @satellite_connections E;
     isRadioOnFlag := @isRadioOnFlag E;
     Platform.IsCallManagerCallBackRegistered := λ _, bool_decide (is_Some (callManagerCallBack_ (process_register p)));
     Platform.IsReadyToCall := @Platform.IsReadyToCall E;
     wakeups_before_timeout := @wakeups_before_timeout E;
     Platform.GetEccCallList := @Platform.GetEccCallList E; Platform.GetMcc := @Platform.GetMcc E;
     core_GetRadioState := @core_GetRadioState E;
     core_GetAirplaneMode := @core_GetAirplaneMode E;
     core_HasSimCard := @core_HasSimCard E; core_IsSimActive := @core_IsSimActive E;
     core_GetCsRegState := @core_GetCsRegState E; core_GetPsRegState := @core_GetPsRegState E;
     core_GetPhoneType := @core_GetPhoneType E;
     core_GetIsoCountryCodeForNetwork := @core_GetIsoCountryCodeForNetwork E;
     core_GetISOCountryCodeForSim := @core_GetISOCountryCodeForSim E;
     core_IsSatelliteEnabled := @core_IsSatelliteEnabled E;
     core_GetMaxSimCount := @core_GetMaxSimCount E;
     IsEmergencyNumber := @IsEmergencyNumber E;
     DYNAMIC_POWEROFF_MODEM := @DYNAMIC_POWEROFF_MODEM E;
     ext_isMmiCode := @ext_isMmiCode E;
     memset_s_ok := @memset_s_ok E; strcpy_s_ok := @strcpy_s_ok E;
     memcpy_s_ok := @memcpy_s_ok E |}.

(** An operation of the register. *)
Definition on_register {A} (m : M RegisterEvent CellularCallRegister A) : Proc A :=
  λ p h, let '(a, s, e) := m (process_register p) (ups h) in (a, set_register s p, Up <$> e).
(** The effects of the core happen, each report through the register. *)
Definition deliver (es : list Effect) : Proc () := mfor es (λ e, emit (Core e) ;; on_register (run_effect e)).
(** An operation of a component of the core, with the answers of this process. *)
Definition on_core {S A} (get : CellularCallProcess → S) (set : S → CellularCallProcess → CellularCallProcess)
    (m : Env → Op S A) : Proc A :=
  λ p h, let '(a, s, es) := m (within p) (get p) (cores h) in (deliver es ;; mret a) (set s p) h.

Definition on_service {A} : (Env → Op CellularCallService A) → Proc A :=
  on_core (λ p, sys_service (process_system p)) set_service.
Definition on_config {A} : (Env → Op CellularCallConfig A) → Proc A := on_core process_config set_config.
(** The handler of the slot; an operation that finds none is refused by [GetHandler]
    before it looks at one. *)
Definition on_handler {A} (slotId : Z) : (Env → Op CellularCallHandler A) → Proc A :=
  on_core (λ p, default (CellularCallHandler_new slotId false) (handlerMap_ (process_system p) !! slotId))
    (λ t p, match handlerMap_ (process_system p) !! slotId with
            | None => p
            | Some _ =>
                set_system {| sys_service := sys_service (process_system p);
                              handlerMap_ := <[slotId := t]> (handlerMap_ (process_system p));
                              sys_strEnter := sys_strEnter (process_system p) |} p
            end).

(** An operation of the service and the handlers together. *)
Definition on_system {A} : (Env → Op System A) → Proc A := on_core process_system set_system.

(** [CellularCallService::RegisterCallManagerCallBack] and the reverse. *)
Definition with_register (k : Proc Z) : Proc Z :=
  let! instance := query (λ h, register_instance (cores h)) in
  if negb instance then mret TELEPHONY_ERR_LOCAL_PTR_NULL else k.
Definition service_RegisterCallManagerCallBack (callback : option Z) : Proc Z :=
  with_register (on_register (CellularCallRegister.RegisterCallManagerCallBack callback)).
Definition service_UnRegisterCallManagerCallBack : Proc Z :=
  with_register (on_register CellularCallRegister.UnRegisterCallManagerCallBack).

Definition service_invoke {A} (c : StubCall A) : Proc A :=
  match c in StubCall A return Proc A with
  | Dial ci => on_service (λ E, Service.Dial ci)
  | HangUp ci type => on_service (λ E, Service.HangUp ci type)
  | Reject ci => on_service (λ E, Service.Reject ci)
  | Answer ci => on_service (λ E, Service.Answer ci)
  | IsEmergencyPhoneNumber slotId phoneNum enabled =>
      on_service (λ E, ask (λ h, Service.IsEmergencyPhoneNumber h slotId phoneNum enabled))
  | SetEmergencyCallList slotId eccVec => on_config (λ E, service_SetEmergencyCallList slotId eccVec)
  | HoldCall ci => on_service (λ E, Service.HoldCall ci)
  | UnHoldCall ci => on_service (λ E, Service.UnHoldCall ci)
  | SwitchCall ci => on_service (λ E, Service.SwitchCall ci)
  | CombineConference ci => on_service (λ E, Service.CombineConference ci)
  | SeparateConference ci => on_service (λ E, Service.SeparateConference ci)
  | InviteToConference slotId numberList => on_service (λ E, Service.InviteToConference slotId numberList)
  | KickOutFromConference ci => on_service (λ E, Service.KickOutFromConference ci)
  | HangUpAllConnection => on_service (λ E, Service.HangUpAllConnection)
  | SetReadyToCall slotId callType b => on_service (λ E, Service.SetReadyToCall slotId callType b)
  | ClearAllCalls infos => on_service (λ E, Service.ClearAllCalls infos)
  | StartDtmf ch ci => on_service (λ E, Service.StartDtmf ch ci)
  | StopDtmf ci => on_service (λ E, Service.StopDtmf ci)
  | PostDialProceed ci proceed => on_service (λ E, Service.PostDialProceed ci proceed)
  | SendDtmf ch ci => on_service (λ E, Service.SendDtmf ch ci)
  | UpdateImsRttCallMode slotId callId mode => on_service (λ E, Service.UpdateImsRttCallMode slotId callId mode)
  | SetRttCapability slotId b => on_config (λ E, service_SetRttCapability slotId b)
  | SetDomainPreferenceMode slotId mode => on_config (λ E, service_SetDomainPreferenceMode slotId mode)
  | GetDomainPreferenceMode slotId => on_config (λ E, service_GetDomainPreferenceMode slotId)
  | SetImsSwitchStatus slotId active => on_config (λ E, service_SetImsSwitchStatus slotId active)
  | GetImsSwitchStatus slotId enabled => on_config (λ E, service_GetImsSwitchStatus slotId enabled)
  | GetCarrierVtConfig slotId enabled => on_config (λ E, service_GetCarrierVtConfig slotId enabled)
  | SetVoNRState slotId state => on_config (λ E, ConfigHandler.SetVoNRState slotId state)
  | GetVoNRState slotId state => on_config (λ E, ConfigHandler.GetVoNRState slotId state)
  | SetImsConfig_string slotId item value => on_config (λ E, service_SetImsConfig_string slotId item value)
  | SetImsConfig_int slotId item value => on_config (λ E, service_SetImsConfig_int slotId item value)
  | GetImsConfig slotId item => on_config (λ E, service_GetImsConfig slotId item)
  | SetImsFeatureValue slotId type value => on_config (λ E, service_SetImsFeatureValue slotId type value)
  | GetImsFeatureValue slotId type => on_config (λ E, service_GetImsFeatureValue slotId type)
  | SetMute slotId mute => on_config (λ E, service_SetMute slotId mute)
  | GetMute slotId => on_config (λ E, service_GetMute slotId)
  | ControlCamera slotId callIndex cameraId => on_service (λ E, Service.ControlCamera slotId callIndex cameraId)
  | SetPreviewWindow slotId callIndex surfaceID surface =>
      on_service (λ E, Service.SetPreviewWindow slotId callIndex surfaceID (default null_surface surface))
  | SetDisplayWindow slotId callIndex surfaceID surface =>
      on_service (λ E, Service.SetDisplayWindow slotId callIndex surfaceID (default null_surface surface))
  | SetCameraZoom zoomRatio => on_service (λ E, Service.SetCameraZoom zoomRatio)
  | SetPausePicture slotId callIndex path => on_service (λ E, Service.SetPausePicture slotId callIndex path)
  | SetDeviceDirection slotId callIndex rotation =>
      on_service (λ E, Service.SetDeviceDirection slotId callIndex rotation)
  | SendUpdateCallMediaModeRequest ci mode => on_service (λ E, Service.SendUpdateCallMediaModeRequest ci mode)
  | SendUpdateCallMediaModeResponse ci mode => on_service (λ E, Service.SendUpdateCallMediaModeResponse ci mode)
  | CancelCallUpgrade slotId callIndex => on_service (λ E, Service.CancelCallUpgrade slotId callIndex)
  | RequestCameraCapabilities slotId callIndex => on_service (λ E, Service.RequestCameraCapabilities slotId callIndex)
  | SetCallTransferInfo slotId info => on_handler slotId (λ E, service_SetCallTransferInfo slotId info)
  | GetCallTransferInfo slotId type b => on_handler slotId (λ E, service_GetCallTransferInfo slotId type b)
  | CanSetCallTransferTime slotId result => on_handler slotId (λ E, service_CanSetCallTransferTime slotId result)
  | SetCallWaiting slotId activate => on_handler slotId (λ E, service_SetCallWaiting slotId activate)
  | GetCallWaiting slotId => on_handler slotId (λ E, service_GetCallWaiting slotId)
  | SetCallRestriction slotId info => on_handler slotId (λ E, service_SetCallRestriction slotId info)
  | GetCallRestriction slotId facType => on_handler slotId (λ E, service_GetCallRestriction slotId facType)
  | SetCallRestrictionPassword slotId facType oldPassword newPassword =>
      on_handler slotId (λ E, SupplementHandler.SetCallRestrictionPassword slotId facType oldPassword newPassword)
  | RegisterCallManagerCallBack callback => service_RegisterCallManagerCallBack (Some callback)
  | UnRegisterCallManagerCallBack => service_UnRegisterCallManagerCallBack
  | CloseUnFinishedUssd slotId => on_handler slotId (λ E, service_CloseUnFinishedUssd slotId)
  | GetVideoCallWaiting slotId enabled => on_config (λ E, service_GetVideoCallWaiting slotId enabled)
  | SendUssdResponse slotId content => on_handler slotId (λ E, service_SendUssdResponse slotId content)
  | IsMmiCode slotId number => on_service (λ E, let! r := Service.IsMmiCode slotId number in mret r.1)
  end.
#[export] Instance service_methods : CellularCallMethods ProcessEvent CellularCallProcess :=
  {| invoke := @service_invoke |}.

(** ** Runs of the process *)

Definition CellularCallProcess_new (registerInstance : bool) : CellularCallProcess :=
  {| process_system := System_new registerInstance; process_config := CellularCallConfig_new;
     process_register := CellularCallRegister_new |}.

Context `{ParcelEnv, !CellularStubEnv ProcessEvent}.
(** A transaction; an activity of the service and the handlers, or of the
    configuration; something else that reports nothing. *)
Inductive process_step : CellularCallProcess * list ProcessEvent → CellularCallProcess * list ProcessEvent → Prop :=
  | Step_transaction code data p h r p' e :
      OnRemoteRequest code data p h = (r, p', e) → process_step (p, h) (p', h ++ e)
  | Step_system a p h p' e :
      on_system (λ E, run_activity a) p h = ((), p', e) → process_step (p, h) (p', h ++ e)
  | Step_config act p h p' e :
      on_config (λ E, run_action act) p h = ((), p', e) → process_step (p, h) (p', h ++ e)
  | Step_other e p h :
      (∀ rp, e ≠ Report rp) → (∀ c, e ≠ Config c) → process_step (p, h) (p, h ++ [Core e]).
End Process.

(** ** CellularEntryFacts: the process under transactions

    What the controls and the handlers promise holds over every sequence of
    transactions and events, whatever the parcels hold; and call_manager is told,
    under the mutex, the reports the core made. *)

Module CellularEntryFacts.
Import ServiceFacts SupplementFacts HandlerFacts CellularCallStub.CellularStubFacts CellularCallRegister.CellularRegisterFacts.

Import CellularCallInterface.

Open Scope Z_scope.

(** ** What the methods keep, whatever the environment *)

Section Methods.
Context `{CallConsts, E : Env, ServiceEnv, HandlerEnv, SupplementEnv}.
Lemma video_ok (m : Op CellularCallService Z) : keeps m → preserves service_inv (with_video m).
Proof. intros Hm. unfold with_video. mauto. Qed.
Lemma keeps_IsMmiCode slotId number : keeps (Service.IsMmiCode slotId number).
Proof. unfold Service.IsMmiCode. mauto. Qed.
Lemma keeps_with_video_client (rq : Op CellularCallService Z) : keeps rq → keeps (VideoControl.with_video_client rq).
Proof. intros Hrq. unfold VideoControl.with_video_client. mauto. Qed.
Lemma keeps_send_media_mode ev rq callInfo mode :
  keeps (VideoControl.send_media_mode ev rq callInfo mode : Op CellularCallService Z).
Proof. unfold VideoControl.send_media_mode. mauto. Qed.
Lemma preserves_CanSetCallTransferTime slotId sl result :
  preserves (handler_ok slotId) (service_CanSetCallTransferTime sl result).
Proof.
  unfold service_CanSetCallTransferTime, Supplement.CanSetCallTransferTime, SupplementRequestIms.CanSetCallTransferTime. mauto.
Qed.
End Methods.

Section Facts.
Context `{CallConsts, E : Env, ServiceEnv, HandlerEnv, SupplementEnv, ConfigEnv, RegisterEnv, EntryEnv}.
Context `{ParcelEnv, !CellularStubEnv ProcessEvent}.
Abbreviation Proc A := (M ProcessEvent CellularCallProcess A).
Implicit Types (p : CellularCallProcess).

(** ** What a step of the process does *)

(** The reports of the new effects, to the object registered before; the state of
    the register and the rest apart. *)
Definition told (o : option Z) (es : list ProcessEvent) : Prop :=
  callbacks (ups es) = deliveries o (ActEffect <$> cores es) ∧ under_lock false (ups es).
Lemma told_app o es es' : told o es → told o es' → told o (es ++ es').
Proof.
  intros [Hc Hl] [Hc' Hl']. unfold told, ups, cores, callbacks in *.
  rewrite !omap_app. split; [|by apply under_lock_app].
  by rewrite Hc, Hc', <-deliveries_app.
Qed.
Lemma ups_Up es : ups (Up <$> es) = es.
Proof. unfold ups. induction es as [|e es IH]; csimpl; [done|]. by rewrite IH. Qed.
Lemma cores_Up es : cores (Up <$> es) = [].
Proof. unfold cores. induction es as [|e es IH]; csimpl; [done|]. by rewrite IH. Qed.

Lemma deliver_spec es p h :
  wp (deliver es) (λ _ p' e, p' = p ∧ cores e = es ∧ told (callManagerCallBack_ (process_register p)) e) p h.
Proof.
  revert p h. induction es as [|e es IH]; intros p h; [done|].
  unfold deliver. cbn [mfor]. apply wp_then, wp_then. pstep. cbn beta. 
  unfold wp at 1, on_register.
  pose proof (register_action_does (ActEffect e) (process_register p) (ups (h ++ [Core e]))) as Hd.
  unfold wp in Hd. cbn [run_register_action] in Hd.
  destruct (run_effect e _ _) as [[a s] e']. destruct Hd as (Hs & Hc & Hl).
  assert (set_register s p = p) as Hp.
  { destruct p as [? ? [o]], s as [o']. cbn in Hs. by subst. }
  fold (deliver es). rewrite Hp. eapply wp_mono; [apply IH|].
  intros _ p' e2 (-> & He & Ht). split_and!; [done|..].
  - rewrite <-He. unfold cores. rewrite omap_app. csimpl. fold (cores (Up <$> e')). by rewrite cores_Up.
  - apply told_app; [|done]. unfold told. unfold ups, cores. csimpl. fold (ups (Up <$> e')) (cores (Up <$> e')).
    by rewrite ups_Up, cores_Up.
Qed.
Lemma on_core_spec {S A} get set (m : Env → Op S A) p h :
  (∀ s, callManagerCallBack_ (process_register (set s p)) = callManagerCallBack_ (process_register p)) →
  wp (on_core get set m)
    (λ a p' e, ∃ s' es, m (within p) (get p) (cores h) = (a, s', es) ∧ p' = set s' p ∧ cores e = es ∧
                        told (callManagerCallBack_ (process_register p)) e) p h.
Proof.
  intros Hset. unfold wp, on_core. destruct (m (within p) (get p) (cores h)) as [[a s'] es].
  pose proof (deliver_spec es (set s' p) h) as Hd. unfold wp, mthen, mret in *.
  destruct (deliver es _ _) as [[u p'] e]. destruct Hd as (-> & He & Ht).
  rewrite app_nil_r. rewrite Hset in Ht. eauto 10.
Qed.

(** ** The methods *)

Definition entry_ok {A} (m : Proc A) : Prop :=
  ∀ p h, wp m (λ _ p' e, (sys_inv (process_system p) → sys_inv (process_system p')) ∧
                         told (callManagerCallBack_ (process_register p)) e) p h.
Lemma entry_on_service {A} (m : Env → Op CellularCallService A) :
  (∀ E, preserves service_inv (m E)) → entry_ok (on_service m).
Proof.
  intros Hm p h. eapply wp_mono; [by apply on_core_spec|].
  intros a p' e (s' & es & Hr & -> & He & Ht). split; [|done]. intros [Hs Hh]. split; [|done].
  specialize (Hm (within p) _ (cores h) Hs). unfold wp in Hm. by rewrite Hr in Hm.
Qed.
Lemma entry_on_config {A} (m : Env → Op CellularCallConfig A) : entry_ok (on_config m).
Proof.
  intros p h. eapply wp_mono; [by apply on_core_spec|]. by intros a p' e (s' & es & Hr & -> & He & Ht).
Qed.
Lemma entry_on_handler {A} slotId (m : Env → Op CellularCallHandler A) :
  (∀ E, preserves (handler_ok slotId) (m E)) → entry_ok (on_handler slotId m).
Proof.
  intros Hm p h. eapply wp_mono; [apply on_core_spec|].
  { intros t. by destruct (handlerMap_ _ !! _). }
  intros a p' e (t & es & Hr & -> & He & Ht). split; [|done]. intros [Hs Hh].
  destruct (handlerMap_ (process_system p) !! slotId) as [t0|] eqn:Hlk; [|done]. unfold default, id in Hr.
  split; [done|]. apply map_Forall_insert_2; [|done].
  specialize (Hm (within p) t0 (cores h) (Hh _ _ Hlk)). unfold wp in Hm. cbn in Hr. by rewrite Hr in Hm.
Qed.
Lemma entry_with_register (m : M RegisterEvent CellularCallRegister Z) act :
  run_register_action act = (m ;; mret ()) → deliveries None [act] = [] → (∀ o, deliveries (Some o) [act] = []) →
  entry_ok (with_register (on_register m)).
Proof.
  intros Hm Hn Hsome p h. unfold with_register. apply wp_then. pstep. cbn beta.
  destruct (negb _); [by split|]. unfold wp, on_register.
  pose proof (register_action_does act (process_register p) (ups (h ++ []))) as Hd.
  unfold wp in Hd. rewrite Hm in Hd. unfold mthen, mret in Hd.
  destruct (m _ _) as [[a s] e]. destruct Hd as (_ & Hc & Hl). rewrite app_nil_r in Hc, Hl.
  split; [done|]. unfold told. cbn [app]. rewrite ups_Up, cores_Up. split; [|done].
  rewrite Hc. by destruct (callManagerCallBack_ _).
Qed.
(** A method of the service is one of the operations whose invariant is known. *)
Ltac by_call :=
  let go op := exact (preserves_call service_inv op (service_inv_closed _)) in
  lazymatch goal with
  | |- preserves _ (Service.Dial ?ci) => go (OpDial ci)
  | |- preserves _ (Service.HangUp ?ci ?t) => go (OpHangUp ci t)
  | |- preserves _ (Service.Reject ?ci) => go (OpReject ci)
  | |- preserves _ (Service.Answer ?ci) => go (OpAnswer ci)
  | |- preserves _ (Service.HoldCall ?ci) => go (OpHoldCall ci)
  | |- preserves _ (Service.UnHoldCall ?ci) => go (OpUnHoldCall ci)
  | |- preserves _ (Service.SwitchCall ?ci) => go (OpSwitchCall ci)
  | |- preserves _ (Service.CombineConference ?ci) => go (OpCombineConference ci)
  | |- preserves _ (Service.SeparateConference ?ci) => go (OpSeparateConference ci)
  | |- preserves _ (Service.InviteToConference ?sl ?l) => go (OpInviteToConference sl l)
  | |- preserves _ (Service.KickOutFromConference ?ci) => go (OpKickOutFromConference ci)
  | |- preserves _ (Service.SetReadyToCall ?sl ?t ?b) => go (OpSetReadyToCall sl t b)
  | |- preserves _ (Service.StartDtmf ?c ?ci) => go (OpStartDtmf c ci)
  | |- preserves _ (Service.StopDtmf ?ci) => go (OpStopDtmf ci)
  | |- preserves _ (Service.PostDialProceed ?ci ?b) => go (OpPostDialProceed ci b)
  | |- preserves _ (Service.SendDtmf ?c ?ci) => go (OpSendDtmf c ci)
  | |- preserves _ (Service.UpdateImsRttCallMode ?sl ?i ?m) => go (OpUpdateImsRttCallMode sl i m)
  end.
Ltac by_setting :=
  let go op := exact (preserves_setting _ op) in
  lazymatch goal with
  | |- preserves _ (service_SetCallTransferInfo ?sl ?i) => go (OpSetCallTransferInfo sl i)
  | |- preserves _ (service_GetCallTransferInfo ?sl ?t ?b) => go (OpGetCallTransferInfo sl t b)
  | |- preserves _ (service_SetCallWaiting ?sl ?b) => go (OpSetCallWaiting sl b)
  | |- preserves _ (service_GetCallWaiting ?sl) => go (OpGetCallWaiting sl)
  | |- preserves _ (service_SetCallRestriction ?sl ?i) => go (OpSetCallRestriction sl i)
  | |- preserves _ (service_GetCallRestriction ?sl ?t) => go (OpGetCallRestriction sl t)
  | |- preserves _ (SupplementHandler.SetCallRestrictionPassword ?sl ?t ?o ?n) => go (OpSetCallRestrictionPassword sl t o n)
  | |- preserves _ (service_CloseUnFinishedUssd ?sl) => go (OpCloseUnFinishedUssd sl)
  | |- preserves _ (service_SendUssdResponse ?sl ?c) => go (OpSendUssdResponse sl c)
  end.
Ltac by_video := apply video_ok; first [apply keeps_with_video_client; mauto | apply keeps_send_media_mode].

Lemma invoke_ok {A} (c : StubCall A) : entry_ok (invoke c).
Proof.
  destruct c; cbn [invoke service_methods service_invoke].
  all: first [ apply entry_on_service | apply entry_on_config | apply entry_on_handler | idtac ];
    try (intros E'; first [by_call | by_setting | apply preserves_CanSetCallTransferTime]).
  all: try (intros E'; first [by_video | apply preserves_CanSetCallTransferTime]).
  - intros E'. mauto.
  - intros E'. apply (preserves_all_slots service_inv), service_inv_closed.
  - intros E'. apply (preserves_all_slots service_inv), service_inv_closed.
  - by apply (entry_with_register _ (ActRegister (Some callback))).
  - by apply (entry_with_register _ ActUnregister).
  - intros E'. apply preserves_then; [apply preserves_keeps, keeps_IsMmiCode|intros r; apply preserves_ret].
Qed.

(** ** Transactions *)

(** No effect and no change of state. *)
Definition quiet {A} (m : Proc A) : Prop := ∀ p h, ∃ x, m p h = (x, p, []).
Lemma quiet_ret {A} (a : A) : quiet (mret a).
Proof. intros p h. by eexists. Qed.
Lemma quiet_then {A B} (m : Proc A) (f : A → Proc B) : quiet m → (∀ a, quiet (f a)) → quiet (mthen m f).
Proof.
  intros Hm Hf p h. unfold mthen. destruct (Hm p h) as [a ->]. destruct (Hf a p (h ++ [])) as [b ->].
  by eexists.
Qed.
Lemma quiet_Write data x : quiet (Write data x).
Proof. unfold Write. apply quiet_then; [intros p h; by eexists|intros ?; apply quiet_ret]. Qed.
Lemma quiet_write {A} data x (failed : Proc A) k : quiet failed → (∀ q, quiet (k q)) → quiet (write data x failed k).
Proof. intros Hf Hk. unfold write. apply quiet_then; [apply quiet_Write|]. intros [[] q]; cbn [negb]; auto. Qed.
#[local] Hint Resolve quiet_ret quiet_then quiet_Write quiet_write : core.
Lemma quiet_answer {A} (c : StubCall A) (r : A) : quiet (answer c r).
Proof.
  destruct c; cbn [answer]; unfold reply_int, reply_checked, reply_flag; auto.
  all: apply quiet_write; [auto|]; intros q; case_bool_decide; auto.
Qed.
Lemma serve_ok {A} (c : StubCall A) : entry_ok (serve c).
Proof.
  intros p h. unfold serve. apply wp_then. eapply wp_mono; [apply invoke_ok|].
  intros r p' e [Hs Ht]. cbn beta. destruct (quiet_answer c r p' (h ++ e)) as [x Hx].
  unfold wp. by rewrite Hx, app_nil_r.
Qed.
Lemma transaction_ok code data : entry_ok (OnRemoteRequest code data).
Proof.
  intros p h. destruct (transaction_cases code data p h) as [[r Hr]|(A & c & _ & _ & _ & _ & _ & Hr)].
  - unfold wp. by rewrite Hr.
  - pose proof (serve_ok c p h) as Hok. unfold wp in *. by rewrite Hr.
Qed.
Lemma entry_on_system {A} (m : Env → Op System A) : (∀ E, preserves sys_inv (m E)) → entry_ok (on_system m).
Proof.
  intros Hm p h. eapply wp_mono; [by apply on_core_spec|].
  intros a p' e (s' & es & Hr & -> & He & Ht). split; [|done]. intros Hs.
  specialize (Hm (within p) _ (cores h) Hs). unfold wp in Hm. by rewrite Hr in Hm.
Qed.

(** What a run of the process keeps. *)
Definition process_inv (p : CellularCallProcess) (h : list ProcessEvent) : Prop :=
  sys_inv (process_system p) ∧ under_lock false (ups h) ∧
  ∀ o m, (o, m) ∈ callbacks (ups h) → ∃ e, e ∈ cores h ∧ message e = Some m.
Lemma elem_of_deliveries o o' m es :
  (o', m) ∈ deliveries o (ActEffect <$> es) → o = Some o' ∧ ∃ e, e ∈ es ∧ message e = Some m.
Proof.
  induction es as [|e es IH]; csimpl; [by intros ?%elem_of_nil|].
  destruct o as [o|], (message e) eqn:He.
  - intros [[= <- <-]|Hin]%elem_of_cons; [split; [done|]; exists e; split; [left|done]|].
    destruct (IH Hin) as (? & e' & ? & ?). split; [done|]. exists e'. split; [by right|done].
  - intros Hin. destruct (IH Hin) as (? & e' & ? & ?). split; [done|]. exists e'. split; [by right|done].
  - intros Hin. by destruct (IH Hin).
  - intros Hin. by destruct (IH Hin).
Qed.
Lemma process_inv_app {A} (m : Proc A) a p h p' e :
  entry_ok m → m p h = (a, p', e) → process_inv p h → process_inv p' (h ++ e).
Proof.
  intros Hm Hr (Hs & Hl & Hc). specialize (Hm p h). unfold wp in Hm. rewrite Hr in Hm.
  destruct Hm as (Hs' & Ht & Hl'). split_and!; [auto|..].
  - unfold ups. rewrite omap_app. by apply under_lock_app.
  - intros o mm Hin. unfold callbacks, ups, cores in *. rewrite !omap_app in *. rewrite elem_of_app in Hin.
    destruct Hin as [Hin|Hin].
    + destruct (Hc o mm Hin) as (e' & ? & ?). exists e'. rewrite elem_of_app. auto.
    + rewrite Ht in Hin. apply elem_of_deliveries in Hin as (_ & e' & ? & ?). exists e'. rewrite elem_of_app. auto.
Qed.
Lemma process_step_inv p h p' h' : process_inv p h → process_step (p, h) (p', h') → process_inv p' h'.
Proof.
  intros Hi Hstep. inversion Hstep as [code data ? ? r ? e Hr|a ? ? ? e Hr|act ? ? ? e Hr|e ? ? Hn Hn']; subst.
  - eapply process_inv_app; [apply (transaction_ok code data)|exact Hr|done].
  - eapply process_inv_app; [apply entry_on_system; intros E'; apply preserves_activity|exact Hr|done].
  - eapply process_inv_app; [apply entry_on_config|exact Hr|done].
  - destruct Hi as (Hs & Hl & Hc). unfold process_inv, ups, cores, callbacks in *. rewrite !omap_app. csimpl.
    rewrite !app_nil_r. split_and!; [done|done|]. intros o m Hin.
    destruct (Hc o m Hin) as (e' & ? & ?). exists e'. rewrite elem_of_app. auto.
Qed.

(** C4: whatever transactions arrive, with whatever in their parcels, and whatever
    else the process does in between, every control sits under a slot of the device
    with its calls under their own index and every handler keeps its slot and a
    request index within bounds; the callbacks are made with the register's mutex
    held, which is free at the end, and each is the message of a report of the core. *)
Theorem process_reachable_inv registerInstance p h
  (Hreach : rtc process_step (CellularCallProcess_new registerInstance, []) (p, h)) :
  service_inv (sys_service (process_system p)) ∧ handlers_ok (handlerMap_ (process_system p)) ∧
  under_lock false (ups h) ∧
  ∀ o m, (o, m) ∈ callbacks (ups h) → ∃ e, e ∈ cores h ∧ message e = Some m.
Proof.
  assert (process_inv p h) as ([Hs Hh] & Hl & Hc); [|done].
  assert (∀ x y, rtc process_step x y → process_inv x.1 x.2 → process_inv y.1 y.2) as Hrtc.
  { induction 1 as [|[p1 h1] [p2 h2] y Hstep _ IH]; [done|]. eauto using process_step_inv. }
  apply (Hrtc _ _ Hreach). split_and!; [|done|by intros o m ?%elem_of_nil].
  split; [done|apply CreateHandler_ok].
Qed.

(** During a transaction the object registered before it, if any, is told
    exactly the messages of the reports the transaction makes, in order, under the
    register's mutex; without one nothing is told. *)
Theorem transaction_told code data p h :
  wp (OnRemoteRequest code data)
    (λ _ _ e, callbacks (ups e) =
                match callManagerCallBack_ (process_register p) with
                | Some o => (λ m, (o, m)) <$> omap message (cores e)
                | None => []
                end ∧ under_lock false (ups e)) p h.
Proof.
  eapply wp_mono; [apply transaction_ok|]. intros r p' e (_ & -> & Hl). split; [|done].
  induction (cores e) as [|ev es IH]; csimpl; [by destruct (callManagerCallBack_ _)|].
  destruct (callManagerCallBack_ _), (message ev); csimpl; by rewrite ?IH.
Qed.
End Facts.

End CellularEntryFacts.
