(* ===== verification/ServiceUser.v ===== *)
(** * ServiceUser: the operations of the service on every branch

    Which bearer a dial goes to; what a refused operation does; what becomes of
    a call whose control no longer exists. *)

From stdpp Require Import base tactics option list numbers strings gmap.
From Stdlib Require Import ZArith Lia Ascii String.
From S2P Require Import Prelude Platform Samples Standardize StdMap Connection MmiCode.
From S2P Require Import Emergency ControlBase CallMap CallReport ConnectionCS CsControl.
From S2P Require Import ConnectionIMS ImsControl ConnectionSatellite SatelliteControl.
From S2P Require Import Service ServiceFacts.

Open Scope Z_scope.

(** ** Refused operations *)

(** The operations that check the slot and the SRVCC state. *)
Definition guarded (op : call_op) : bool :=
  match op with
  | OpSeparateConference _ | OpKickOutFromConference _ | OpInviteToConference _ _
  | OpUpdateImsRttCallMode _ _ _ | OpHangUpAllConnection_slot _ | OpSetReadyToCall _ _ _ => false
  | _ => true
  end.
Definition is_hisys (e : Effect) : Prop := match e with HiSys _ => True | _ => False end.

Section Refused.
Context `{CallConsts, E : Env, ServiceEnv}.

(** The error of a call the service does not accept. *)
Definition refusal (s : CellularCallService) (slotId : Z) : option Z :=
  if negb (IsValidSlotId slotId) then Some CALL_ERR_INVALID_SLOT_ID
  else if srvccState_ s =? STARTED then Some TELEPHONY_ERR_FAIL
  else None.

(** [m] neither asks for nor changes the SRVCC state: it does the same
    whatever that state is. *)
Definition ignores_srvcc {A} (m : Op CellularCallService A) : Prop :=
  ∀ v s h, m (SetSrvccState v s) h = let '(r, s', e) := m s h in (r, SetSrvccState v s', e).

Lemma ignores_ret {A} (a : A) : ignores_srvcc (mret a).
Proof. done. Qed.
Lemma ignores_then {A B} (m : Op CellularCallService A) (f : A → Op CellularCallService B) :
  ignores_srvcc m → (∀ a, ignores_srvcc (f a)) → ignores_srvcc (mthen m f).
Proof.
  intros Hm Hf v s h. unfold mthen. rewrite Hm. destruct (m s h) as [[a s1] e1].
  rewrite Hf. by destruct (f a s1 (h ++ e1)) as [[b s2] e2].
Qed.

(** A table of controls in which the SRVCC state has no part. *)
Class SrvccFree (C : Type) `{!ControlTable C} : Prop := {
  srvcc_get : ∀ v slotId s, GetControl slotId (SetSrvccState v s) = GetControl (C := C) slotId s;
  srvcc_set : ∀ v slotId (c : option C) s,
    SetControl_ slotId c (SetSrvccState v s) = SetSrvccState v (SetControl_ slotId c s)
}.
#[local] Instance cs_srvcc_free : SrvccFree CSControl.
Proof. split; [done|]. intros. simpl. unfold SetCsControl. by case_match. Qed.
#[local] Instance ims_srvcc_free : SrvccFree IMSControl.
Proof. split; [done|]. intros. simpl. unfold SetImsControl. by case_match. Qed.
#[local] Instance sat_srvcc_free : SrvccFree SatelliteControl.
Proof. split; [done|]. intros. simpl. unfold SetSatelliteControl. by case_match. Qed.

Lemma ignores_with_control {C A} `{!ControlTable C, !SrvccFree C} slotId
    (absent : Op CellularCallService A) (m : Env → Op C A) :
  ignores_srvcc absent → ignores_srvcc (with_control slotId absent m).
Proof.
  intros Ha v s h. unfold with_control. rewrite !mthen_gets, srvcc_get.
  destruct (GetControl slotId s) as [c|] eqn:Hc; [|apply Ha].
  unfold on_control. rewrite srvcc_get, Hc.
  change (linked E (SetSrvccState v s)) with (linked E s).
  destruct (m (linked E s) _ h) as [[a c'] e]. by rewrite srvcc_set.
Qed.

(** C15: while calls move from IMS to CS (SRVCC started), and for a slot the
    device does not have, dialling, hanging up, rejecting, answering, holding,
    unholding, switching, combining, the three DTMF operations and
    [PostDialProceed] are refused: the operation returns the error of the
    case, no control is touched, and nothing but records of the fault leaves
    the service.  The other operations on calls (separating and kicking out of
    a conference, inviting to one, the RTT mode, hanging up all calls of a
    slot, the ready-to-call flag) do not look at the SRVCC state: they do
    exactly the same whatever it is, during SRVCC too, and leave it alone. *)
Theorem refused_call op s h :
  if guarded op then
    ∀ r, refusal s (op_slot op) = Some r →
      wp (run_call op) (λ r' s' e, r' = r ∧ s' = s ∧ Forall is_hisys e) s h
  else
    ∀ v, run_call op (SetSrvccState v s) h =
      let '(r, s', e) := run_call op s h in (r, SetSrvccState v s', e).
Proof.
  destruct (guarded op) eqn:Hop.
  - intros r Hr. unfold refusal in Hr.
    destruct op; simplify_eq/=;
      unfold Dial, HangUp, Reject, Answer, HoldCall, UnHoldCall, SwitchCall, CombineConference,
        StartDtmf, StopDtmf, SendDtmf, PostDialProceed, unless_srvcc, call_parameters, dial_fault,
        hangup_fault, answer_fault;
      destruct (IsValidSlotId (ci_slotId callInfo)); simplify_eq/=;
      destruct (srvccState_ s =? STARTED) eqn:Hst; simplify_eq/=;
      wsteps; rewrite ?Hst; wsteps; split_and!; try done; repeat constructor.
  - intros v. revert v s h. change (ignores_srvcc (run_call op)).
    destruct op; try discriminate Hop; cbn [run_call];
      unfold SeparateConference, KickOutFromConference, InviteToConference, UpdateImsRttCallMode,
        HangUpAllConnection_slot, SetReadyToCall, or_null, if_control;
      repeat case_match;
      repeat first [apply ignores_with_control | apply ignores_ret | apply ignores_then; intros].
Qed.
End Refused.

(** ** A call whose control is gone *)

(** The three operations on one existing call. *)
Inductive single_call_op : call_op → CellularCallInfo → Prop :=
  | Single_hangup ci t : single_call_op (OpHangUp ci t) ci
  | Single_reject ci : single_call_op (OpReject ci) ci
  | Single_answer ci : single_call_op (OpAnswer ci) ci.

Section Missing.
Context `{CallConsts, E : Env, ServiceEnv}.

(** The table of the call's type has no control for its slot. *)
Definition control_gone (s : CellularCallService) (ci : CellularCallInfo) : Prop :=
  (ci_callType ci = TYPE_CS ∧ GetCsControl (ci_slotId ci) s = None) ∨
  (ci_callType ci = TYPE_IMS ∧ GetImsControl (ci_slotId ci) s = None) ∨
  (CELLULAR_CALL_SATELLITE = true ∧ ci_callType ci = TYPE_SATELLITE ∧
   GetSatelliteControl (ci_slotId ci) s = None).

Lemma with_control_absent {C} `{!ControlTable C} {A} slotId absent (m : Env → Op C A) Q s h :
  GetControl slotId s = None → wp absent Q s h → wp (with_control slotId absent m) Q s h.
Proof. intros Hc Hw. unfold with_control. wsteps. rewrite Hc. done. Qed.

Lemma EncapsulationCallReportInfo_number ci `{!SecurecOk} :
  string_size (ci_phoneNum ci) ≤ kMaxNumberLen → kMaxNumberLen < 2 ^ 15 →
  EncapsulationCallReportInfo ci =
    cr_set_state CALL_STATUS_DISCONNECTED
      {| cr_accountNum := ci_phoneNum ci; cr_index := ci_index ci; cr_accountId := ci_slotId ci;
         cr_voiceDomain := 0; cr_state := 0; cr_callType := ci_callType ci;
         cr_callMode := 0; cr_mpty := 0; cr_name := ""; cr_namePresentation := 0;
         cr_reason := 0; cr_message := ""; cr_crsType := 0; cr_originalCallType := 0;
         cr_newCallUseBox := 0; cr_rttState := 0; cr_rttChannelId := 0; cr_imsDomain := 0;
         cr_isPendingHold := false |}.
Proof.
  intros Hlen Hmax. unfold EncapsulationCallReportInfo. rewrite memset_s_EOK. simpl.
  unfold string_size in *.
  rewrite !size_t_id, strcpy_s_EOK by lia. case_match eqn:Hc; [lia|done].
Qed.

(** The report of the missing control, after the records [e0]. *)
Lemma control_missing_spec fault e0 ci s h `{!CallConstsOk, !SecurecOk} :
  (∀ h, register_instance h = true) → string_size (ci_phoneNum ci) ≤ kMaxNumberLen →
  Forall is_hisys e0 →
  wp (control_missing (hisys fault) ci) (λ r s' e,
    r = TELEPHONY_ERR_LOCAL_PTR_NULL ∧ s' = s ∧
    ∃ e1 info, e0 ++ e = e1 ++ [Report (ReportCallsInfo
                            {| crs_callVec := [info]; crs_slotId := ci_slotId ci |})] ∧
      Forall is_hisys e1 ∧
      cr_state info = CALL_STATUS_DISCONNECTED ∧ cr_index info = ci_index ci ∧
      cr_accountId info = ci_slotId ci ∧ cr_callType info = ci_callType ci ∧
      cr_accountNum info = ci_phoneNum ci) s h.
Proof.
  intros Hreg Hlen He. pose proof kMaxNumberLen_pos.
  unfold control_missing, HandleCellularControlException. wsteps. rewrite Hreg. wsteps.
  split_and!; [done|done|]. exists (e0 ++ [HiSys fault]), (EncapsulationCallReportInfo ci).
  rewrite EncapsulationCallReportInfo_number by tauto. split_and!;
    [simpl; by rewrite <-app_assoc|apply Forall_app; by repeat constructor|done..].
Qed.
Lemma call_types_differ `{!CallConstsOk} :
  TYPE_CS ≠ TYPE_IMS ∧ TYPE_CS ≠ TYPE_SATELLITE ∧ TYPE_IMS ≠ TYPE_SATELLITE.
Proof.
  pose proof call_type_nodup as Hty. rewrite !NoDup_cons in Hty.
  split_and!; intros Heq; rewrite Heq in Hty; set_solver.
Qed.

(** Hanging up, rejecting or answering a call whose control is gone (it ended
    meanwhile) tells call_manager, so that its record of the call ends too: the
    call of that index, slot and number is reported once as disconnected, the
    operation fails, and no control changes. *)
Theorem gone_call_is_reported op ci s h `{!CallConstsOk, !SecurecOk}
  (Hop : single_call_op op ci) (Hok : refusal s (ci_slotId ci) = None)
  (Hgone : control_gone s ci) (Hreg : ∀ h, register_instance h = true)
  (Hlen : string_size (ci_phoneNum ci) ≤ kMaxNumberLen) :
  wp (run_call op) (λ r s' e,
    r = TELEPHONY_ERR_LOCAL_PTR_NULL ∧ s' = s ∧
    ∃ e1 info, e = e1 ++ [Report (ReportCallsInfo
                            {| crs_callVec := [info]; crs_slotId := ci_slotId ci |})] ∧
      Forall is_hisys e1 ∧
      cr_state info = CALL_STATUS_DISCONNECTED ∧ cr_index info = ci_index ci ∧
      cr_accountId info = ci_slotId ci ∧ cr_callType info = ci_callType ci ∧
      cr_accountNum info = ci_phoneNum ci) s h.
Proof.
  unfold refusal in Hok.
  destruct (IsValidSlotId (ci_slotId ci)) eqn:Hv; simplify_eq/=.
  destruct (srvccState_ s =? STARTED) eqn:Hst; simplify_eq/=.
  destruct call_types_differ as (Hci & Hcs & His).
  destruct Hop; cbn [run_call]; unfold HangUp, Reject, Answer, call_parameters; wsteps;
    rewrite Hv; cbn [negb]; wsteps; rewrite Hst;
    destruct Hgone as [[Ht Hc]|[[Ht Hc]|(Hsat & Ht & Hc)]];
    repeat (case_bool_decide; try congruence); rewrite ?Hsat, ?andb_false_r; simpl;
    unfold HangUpSatelliteCall, RejectSatelliteCall, AnswerSatelliteCall;
    (apply with_control_absent; [done|]);
    apply (control_missing_spec _ [_]); try done; by repeat constructor.
Qed.
End Missing.

(** ** Which bearer a dial uses *)

Section Channel.
Context `{CallConsts, E : Env, ServiceEnv}.
Implicit Types (s : CellularCallService) (h : list Effect).

(** [m] on the control of the slot, a new one when there is none; the control
    it leaves is the slot's. *)
Definition run_on_slot {C} `{!ControlTable C} (slotId : Z) (m : Env → Op C Z)
    s h : Z * CellularCallService * list Effect :=
  let s1 := ensure_control (C := C) slotId s in
  let '(r, c, e) := m (linked E s1) (default new_control (GetControl slotId s)) h in
  (r, SetControl_ slotId (Some c) s1, e).

Lemma with_new_control_run {C} `{!ControlTable C} slotId (m : Env → Op C Z) s h :
  IsValidSlotId slotId = true → with_new_control slotId m s h = run_on_slot slotId m s h.
Proof.
  intros Hv. unfold with_new_control, run_on_slot, ensure_control.
  rewrite mthen_gets.
  destruct (GetControl slotId s) as [c|] eqn:Hc; unfold on_control.
  - by rewrite Hc.
  - erewrite mthen_silent by done. by rewrite GetControl_set.
Qed.

(** The state of the service on the network when a call is dialled. *)
Definition satellite_on h : Prop :=
  CELLULAR_CALL_SATELLITE = true ∧ core_IsSatelliteEnabled h = true.
Definition ims_chosen h (ci : CellularCallInfo) (isEcc : bool) : Prop :=
  NeedCallImsService h = true ∧
  ((core_ImsRegistered h (ci_slotId ci) = true ∧
    GetPreferenceMode h (ci_slotId ci) ≠ CS_VOICE_ONLY) ∨
   (isEcc = true ∧ GetImsPreferForEmergencyConfig h (ci_slotId ci) = true)).

(** C14: an accepted dial goes to exactly one bearer.  Over the satellite when it is
    on; else over IMS when the IMS service is there and either the slot is
    registered and not restricted to CS voice, or the call is an emergency call
    and the operator prefers IMS for those; else over CS.  The bearer's control is
    created if the slot has none, the dial of that control gives the result, its
    requests and its emergency flag, and no other control is touched. *)
Theorem Dial_channel ci s h (Hok : refusal s (ci_slotId ci) = None) :
  let slotId := ci_slotId ci in
  let isEcc := (IsEmergencyCall h slotId (ci_phoneNum ci) false).2 in
  (satellite_on h →
     Dial ci s h = run_on_slot slotId (λ E, SatelliteControl.Dial ci isEcc) s h) ∧
  (¬ satellite_on h → ims_chosen h ci isEcc →
     Dial ci s h = run_on_slot slotId (λ E, ImsControl.Dial ci isEcc) s h) ∧
  (¬ satellite_on h → ¬ ims_chosen h ci isEcc →
     Dial ci s h = run_on_slot slotId (λ E, CsControl.Dial ci isEcc) s h).
Proof.
  unfold refusal in Hok.
  destruct (IsValidSlotId (ci_slotId ci)) eqn:Hv; [|done].
  destruct (srvccState_ s =? STARTED) eqn:Hst; [done|]. intros slotId isEcc.
  unfold Dial, IsEmergencyPhoneNumber. rewrite Hv. cbn [negb]. rewrite mthen_gets, Hst, !mthen_ask.
  destruct (IsEmergencyCall h (ci_slotId ci) (ci_phoneNum ci) false) as [v ecc] eqn:Hecc.
  rewrite !mthen_ask. unfold satellite_on, isEcc, slotId. rewrite Hecc. cbn [snd].
  destruct (CELLULAR_CALL_SATELLITE && core_IsSatelliteEnabled h) eqn:Hsat.
  { apply andb_true_iff in Hsat. rewrite with_new_control_run by done. tauto. }
  apply not_true_iff_false in Hsat. rewrite andb_true_iff in Hsat.
  unfold DialNormalCall. rewrite !mthen_ask.
  assert (IsNeedIms h (ci_slotId ci) || UseImsForEmergency h ci ecc = true ↔ ims_chosen h ci ecc)
    as Hims.
  { unfold IsNeedIms, UseImsForEmergency, ims_chosen.
    rewrite orb_true_iff, !andb_true_iff, negb_true_iff, bool_decide_eq_false. tauto. }
  destruct (IsNeedIms _ _ || _); rewrite with_new_control_run by done; split_and!; intros; (done || exfalso; naive_solver).
Qed.
End Channel.
