(* ===== verification/HandlerUser.v ===== *)
(** * HandlerUser: what the events of a slot amount to

    The commands of supplementary services that wait for their answer; the
    numbers of a call list; the end of a call, from the empty call list to the
    report with its reason; SRVCC; the emergency dial that waited for the radio. *)

From stdpp Require Import base tactics option list numbers strings gmap.
From Stdlib Require Import ZArith Lia Ascii String.
From S2P Require Import Prelude Platform Samples Standardize StdMap Connection Regex MmiCode.
From S2P Require Import Emergency ControlBase CallMap CallReport ConnectionCS CsControl.
From S2P Require Import CsControlFacts CsUser ConnectionIMS ImsControl ImsControlFacts ImsUser.
From S2P Require Import ConnectionSatellite SatelliteControl Service ServiceFacts ServiceUser.
From S2P Require Import Handler SupplementFacts HandlerFacts.

Open Scope Z_scope.

(** ** Commands of the supplementary services *)

Section Commands.
Context `{CallConsts, E : Env}.
Implicit Types (t : CellularCallHandler) (c : SsRequestCommand).

(** The answer of the network finds the command it answers.  A command is saved
    under an index between 0 and 50 that differs from the last one; while no older
    command still waits under that index, looking it up returns the command (all
    but the one field the copy leaves out), and confirming it returns its flag and
    action and leaves exactly the commands that waited before.  When an older
    command still waits there, because its answer never came, the new command is
    lost: the lookup and the answer belong to the old one. *)
Theorem ss_command_roundtrip c t h ss flag action `{!SecurecOk} (Hok : commands_ok t)
  (Hpw : string_size (ss_password c) ≤ kMaxNumberLen) :
  wp (save_command c) (λ index t1 e,
    e = [] ∧ 0 ≤ index ≤ MAX_REQUEST_COUNT ∧ index ≠ indexCommand_ t ∧
    match sm_lookup index (utCommandMap_ t) with
    | None =>
        GetSsRequestCommand index ss t1 h = (TELEPHONY_SUCCESS, copied c ss, t1, []) ∧
        wp (ConfirmAndRemoveSsRequestCommand index flag action) (λ r t2 e,
          r = (TELEPHONY_SUCCESS, ss_flag c, ss_action c) ∧
          utCommandMap_ t2 = utCommandMap_ t ∧ e = []) t1 h
    | Some old =>
        utCommandMap_ t1 = utCommandMap_ t ∧
        wp (ConfirmAndRemoveSsRequestCommand index flag action) (λ r _ _,
          r = (TELEPHONY_SUCCESS, ss_flag old, ss_action old)) t1 h
    end) t h.
Proof.
  unfold wp at 1. rewrite save_command_run by done.
  pose proof (next_index_range t Hok) as [Hn Hne]. destruct Hok as (Hs & Hi & Hk).
  set (index := next_index t) in *. set (m1 := sm_insert index c (utCommandMap_ t)).
  split_and!; [done|lia|lia|done|]. assert ((index =? INVALID_INDEX) = false) as Hinv.
  { unfold INVALID_INDEX. lia. }
  destruct (sm_lookup index (utCommandMap_ t)) as [old|] eqn:Hold.
  - assert (m1 = utCommandMap_ t) as Hm1 by (apply sm_insert_present; eauto).
    split; [done|]. unfold ConfirmAndRemoveSsRequestCommand. rewrite Hinv. wsteps.
    cbn [utCommandMap_ set_commands]. rewrite Hm1, Hold. by wsteps.
  - assert (sm_lookup index m1 = Some c) as Hm1.
    { unfold m1. by rewrite sm_lookup_insert_fresh, bool_decide_true. }
    split.
    + unfold GetSsRequestCommand. mrun. rewrite Hm1. unfold string_size in Hpw.
      rewrite strcpy_s_EOK by lia. done.
    + unfold ConfirmAndRemoveSsRequestCommand. rewrite Hinv. wsteps.
      cbn [utCommandMap_ set_commands]. rewrite Hm1. wsteps. split_and!; [done| |done].
      unfold m1. simpl. by apply sm_erase_insert.
Qed.
End Commands.

(** ** Running a control from an event *)

Section Running.
Context `{CallConsts, E : Env, ServiceEnv, HandlerEnv}.

Lemma wp_on_service {A} (m : Op CellularCallService A) Q s h :
  wp m (λ a sv e, Q a (upd_service (λ _, sv) s) e) (serviceInstance s) h →
  wp (on_service m) Q s h.
Proof. unfold wp, on_service. by destruct (m _ h) as [[a sv] e]. Qed.
Lemma wp_on_control {C} `{!ControlTable C} {A} slotId c0 c (m : Env → Op C A) Q s h :
  GetControl slotId s = Some c →
  wp (m (linked E s)) (λ a c' e, Q a (SetControl_ slotId (Some c') s) e) c h →
  wp (on_control slotId c0 m) Q s h.
Proof.
  intros Hc. unfold wp, on_control. rewrite Hc. simpl. by destruct (m _ c h) as [[a c'] e].
Qed.
(** Reading a control leaves the service as it is. *)
Lemma wp_read_control {C} `{!ControlTable C} {A} slotId c0 c (f : C → A) Q s h :
  GetControl slotId (serviceInstance s) = Some c → Q (f c) s [] →
  wp (on_service (on_control slotId c0 (λ E, mgets f))) Q s h.
Proof.
  intros Hc HQ. apply wp_on_service. eapply wp_on_control; [done|]. wsteps.
  rewrite SetControl_same by done. by destruct s.
Qed.
Lemma GetCsControl_valid slotId c s : GetCsControl slotId s = Some c → IsValidSlotId slotId = true.
Proof. unfold GetCsControl. by destruct (IsValidSlotId slotId). Qed.
Lemma GetCsControl_drop slotId s : GetCsControl slotId (SetCsControl slotId None s) = None.
Proof.
  unfold GetCsControl, SetCsControl. destruct (IsValidSlotId slotId); [|done].
  apply lookup_partial_alter_eq.
Qed.
Lemma GetImsControl_drop slotId s : GetImsControl slotId (SetImsControl slotId None s) = None.
Proof.
  unfold GetImsControl, SetImsControl. destruct (IsValidSlotId slotId); [|done].
  apply lookup_partial_alter_eq.
Qed.
Lemma GetImsControl_SetCs slotId j c s :
  GetImsControl slotId (SetCsControl j c s) = GetImsControl slotId s.
Proof. unfold SetCsControl. by destruct (negb _). Qed.
Definition is_finish (x : Effect) : Prop := match x with FinishCommonEvent _ => True | _ => False end.
Lemma wp_finish_common_event (Q : () → HandlerState → list Effect → Prop) s h :
  (∀ b e, Forall is_finish e →
     Q () {| this := this s; serviceInstance := serviceInstance s; strEnterEventResult_ := b |} e) →
  wp finish_common_event Q s h.
Proof.
  intros HQ. unfold finish_common_event, ProcessFinishCommonEvent.
  destruct BASE_POWER_IMPROVEMENT_FEATURE; [|wsteps; destruct s; by apply HQ].
  wsteps. destruct (strEnterEventResult_ s) eqn:Hb; wsteps; simpl.
  - apply HQ. by constructor.
  - destruct s. by apply HQ.
Qed.
End Running.

(** ** The end of the calls of a slot *)

Section Reported.
Context `{CallConsts, E : Env, !CallConstsOk}.
Implicit Types (c : CSControl) (h : list Effect).

Definition no_calls (l : CallInfoList) : Prop := cal_callSize l = 0 ∧ cal_calls l = [].
(** How an ended call is reported. *)
Definition ended_call (slotId reason : Z) (cn : CellularCallConnectionCS) : CallReportInfo :=
  cr_set_reason (if bool_decide (GetDisconnectReason cn = DISCONNECTED_REASON_INVALID) then reason else GetDisconnectReason cn)
    (cr_set_accountId slotId
      (cr_set_state CALL_STATUS_DISCONNECTED (GetCallReportInfo (conn_base cn)))).
Definition ended_calls (slotId reason : Z) c : list CallReportInfo :=
  (λ '(_, cn), ended_call slotId reason cn) <$> CsControl.connectionMap_ c.

Lemma wp_CsReportHangUpInfo slotId c h :
  (∀ h, register_instance h = true) → CsControl.isIgnoredIncomingCall_ c = false →
  CsControl.connectionMap_ c ≠ [] →
  wp (CsControl.ReportHangUpInfo slotId) (λ r c' e, CsControl.connectionMap_ c' = [] ∧
    e = [Report (ReportCallsInfo {| crs_slotId := slotId; crs_callVec :=
           (λ '(_, cn), cr_set_reason (GetDisconnectReason cn)
              (cr_set_accountId slotId (cr_set_state CALL_STATUS_DISCONNECTED
                 (GetCallReportInfo (conn_base cn))))) <$> CsControl.connectionMap_ c |})]) c h.
Proof.
  intros Hreg Hig Hne. unfold CsControl.ReportHangUpInfo, CsControl.ReleaseAllConnection. wsteps.
  rewrite Hreg. cbn [negb]. wsteps. rewrite Hig. wsteps. apply wp_modify_conns. wsteps.
  split; [done|]. by destruct (CsControl.connectionMap_ c).
Qed.

(** Recording the answered reason, then reporting the end. *)
Lemma wp_update_and_report slotId c l reason h :
  no_calls l → (∀ h, register_instance h = true) → CsControl.isIgnoredIncomingCall_ c = false →
  CsControl.connectionMap_ c ≠ [] →
  wp (CsControl.UpdateDisconnectedReason l reason ;; CsControl.ReportCsCallsData slotId l false)
    (λ _ _ e, e = [Report (ReportCallsInfo {| crs_slotId := slotId;
                     crs_callVec := ended_calls slotId reason c |})]) c h.
Proof.
  intros [Hl0 Hln] Hreg Hig Hne. apply wp_then. unfold CsControl.UpdateDisconnectedReason.
  apply wp_modify_conns. rewrite app_nil_r. cbn [app].
  unfold CsControl.ReportCsCallsData. wsteps. rewrite Hl0. cbn [Z.leb Z.compare andb].
  eapply wp_mono; [apply wp_CsReportHangUpInfo; [done|done|]|].
  - intros Hm. apply Hne. cbn in Hm. unfold sm_map in Hm. by apply map_eq_nil in Hm.
  - intros r c' e [_ ->]. cbn [app].
    match goal with |- [Report (ReportCallsInfo {| crs_callVec := ?v; crs_slotId := _ |})] = _ =>
      enough (v = ended_calls slotId reason c) as -> by done end.
    unfold ended_calls, ended_call. cbn. unfold sm_map.
    rewrite <-list_fmap_compose. apply list_fmap_ext. intros _ [k cn] _. simpl.
    rewrite Hln. simpl.
    repeat case_bool_decide; simpl in *; congruence || tauto.
Qed.
Lemma wp_report_resolved slotId c l h :
  no_calls l → (∀ h, register_instance h = true) → CsControl.isIgnoredIncomingCall_ c = false →
  CsControl.connectionMap_ c ≠ [] →
  CsControl.HasEndCallWithoutReason (CsControl.connectionMap_ c) l = false →
  wp (CsControl.ReportCsCallsData slotId l true) (λ _ c' e, CsControl.connectionMap_ c' = [] ∧
    e = [Report (ReportCallsInfo {| crs_slotId := slotId;
           crs_callVec := ended_calls slotId DISCONNECTED_REASON_INVALID c |})]) c h.
Proof.
  intros [Hl0 Hln] Hreg Hig Hne Hend. unfold CsControl.ReportCsCallsData. wsteps.
  rewrite Hl0, Hend. cbn [Z.leb Z.compare andb].
  eapply wp_mono; [by apply wp_CsReportHangUpInfo|]. intros r c' e [Hm ->]. split; [done|].
  match goal with |- _ ++ [Report (ReportCallsInfo {| crs_callVec := ?v; crs_slotId := _ |})] = _ =>
    enough (v = ended_calls slotId DISCONNECTED_REASON_INVALID c) as -> by done end.
  unfold ended_calls, ended_call. apply list_fmap_ext. intros _ [k cn] _. simpl.
  by case_bool_decide as Hn; [rewrite Hn|].
Qed.
Lemma wp_report_query slotId c l h :
  (∀ h, reachable_slot h slotId = true) →
  CsControl.HasEndCallWithoutReason (CsControl.connectionMap_ c) l = true →
  wp (CsControl.ReportCsCallsData slotId l true) (λ _ c' e, c' = c ∧
    e = [Ril slotId RADIO_GET_CALL_FAIL_REASON RilGetCallFailReason]) c h.
Proof. intros Hr Hend. unfold wp. by rewrite ReportCsCallsData_query. Qed.
End Reported.

Section EndOfCalls.
Context `{CallConsts, E : Env, ServiceEnv, HandlerEnv, !CallConstsOk}.
Implicit Types (s : HandlerState) (c : CSControl) (h : list Effect).

(** The slot carries CS calls and nothing is being moved between bearers. *)
Record carries_cs (slotId : Z) c s : Prop := {
  cc_slot : slotId_ (this s) = slotId;
  cc_control : GetCsControl slotId (serviceInstance s) = Some c;
  cc_no_ims : GetImsControl slotId (serviceInstance s) = None;
  cc_rsrvcc : isDuringRSRVCC_ (this s) = false;
  cc_inv : conns_inv c;
  cc_seen : CsControl.isIgnoredIncomingCall_ c = false
}.
(** The reason the answer [ev] to the query comes to, when it arrives after [h]:
    the answered one, if the answer brings its message or a message is named for
    it; the normal one if there is no such name or the answer has no reason. *)
Definition answered_reason (slotId : Z) (h : list Effect) (ev : fail_reason) : Z :=
  let named reason :=
    match GetCallFailedMessageName (h ++ [ConfigSetClearCode slotId reason]) reason with
    | Some _ => reason
    | None => DISCONNECTED_REASON_NORMAL
    end in
  match ev with
  | NoReason => DISCONNECTED_REASON_NORMAL
  | FailReason reason => named reason
  | FailDetails reason message => if string_empty message then named reason else reason
  end.

Lemma wp_HandleCallDisconnectReason_cs slotId c s l reason message h :
  carries_cs slotId c s → currentCsCallInfoList_ (this s) = l → no_calls l →
  (∀ h, register_instance h = true) → CsControl.connectionMap_ c ≠ [] →
  wp (HandleCallDisconnectReason reason message) (λ _ s2 e2,
    GetCsControl slotId (serviceInstance s2) = None ∧
    e2 = [Report (ReportCallsInfo {| crs_slotId := slotId;
                   crs_callVec := ended_calls slotId reason c |})]) s h.
Proof.
  intros [Hsl Hc Hims Hrs Hinv Hig] Hcur Hl Hreg Hne. pose proof Hl as [Hl0 _].
  unfold HandleCallDisconnectReason, my_slot. wsteps. rewrite Hsl, Hims, Hc, Hcur, Hl0.
  apply wp_then, wp_on_service. eapply wp_on_control; [exact Hc|].
  eapply wp_mono; [by apply wp_update_and_report|]. intros r c' e ->. cbn [Z.eqb app].
  apply wp_then. eapply wp_mono.
  { instantiate (1 := λ _ _ e, e = []). by destruct (_ =? 0); wsteps. }
  intros [] s2 e2 ->. wsteps. split; [apply GetCsControl_drop|done].
Qed.

Lemma wp_GetCallFailReasonResponse_cs slotId c s l ev h :
  carries_cs slotId c s → currentCsCallInfoList_ (this s) = l → no_calls l →
  (∀ h, register_instance h = true) → CsControl.connectionMap_ c ≠ [] →
  wp (GetCallFailReasonResponse ev) (λ _ s2 e2,
    GetCsControl slotId (serviceInstance s2) = None ∧
    ∃ e0, e2 = e0 ++ [Report (ReportCallsInfo {| crs_slotId := slotId;
                         crs_callVec := ended_calls slotId (answered_reason slotId h ev) c |})] ∧
      Forall not_calls_report e0) s h.
Proof.
  intros Hs Hcur Hl Hreg Hne. pose proof (cc_slot _ _ _ Hs) as Hsl.
  assert (∀ reason message e0 h', Forall not_calls_report e0 →
    wp (HandleCallDisconnectReason reason message) (λ _ s2 e2,
      GetCsControl slotId (serviceInstance s2) = None ∧
      ∃ e1, e0 ++ e2 = e1 ++ [Report (ReportCallsInfo {| crs_slotId := slotId;
                         crs_callVec := ended_calls slotId reason c |})] ∧
        Forall not_calls_report e1) s h') as Hend.
  { intros reason message e0 h' He0. eapply wp_mono; [by eapply wp_HandleCallDisconnectReason_cs|].
    intros [] s2 e2 [Hc ->]. split; [done|]. by exists e0. }
  unfold GetCallFailReasonResponse, my_slot, to_register. wsteps. rewrite Hsl.
  destruct ev as [reason|reason message|]; cbn [answered_reason]; [| |by apply (Hend _ _ [])].
  2: destruct (string_empty message).
  3: wsteps.
  1: change (string_empty "") with true.
  1,2: wsteps; destruct (GetCallFailedMessageName _ reason); wsteps;
    [|apply (Hend _ _ [_]); by repeat constructor].
  all: destruct (registerInstance_ (this s)); cbn [negb]; wsteps;
    [apply (Hend _ _ [_; _; _])|apply (Hend _ _ [_; _])]; by repeat constructor.
Qed.

(** C3: CS calls end with their reason, across the two events it takes.  This is
    about a slot that carries CS calls only and normally: it has a CS control
    with calls and no IMS control, no call is coming back from CS to IMS
    (RSRVCC) and no incoming call is being ignored; the handler of the slot and
    the register are there.  An empty call list while the reason of some call is
    unknown sends one query for it and keeps the control.  The answer, whatever
    its form, then reports every call of the slot, once and together, as
    disconnected, and drops the control: a call that had a reason keeps it, any
    other gets the answered one, or the normal reason when the answer holds none
    or no message is named for it ([answered_reason]).  When every reason is
    known the empty list does that at once. *)
Theorem cs_calls_end slotId c s l h
  (Hs : carries_cs slotId c s) (Hl : no_calls l) (Hne : CsControl.connectionMap_ c ≠ [])
  (Hr : ∀ h, GetHandler h slotId = true) (Hreg : ∀ h, register_instance h = true) :
  wp (ReportCsCallsData l) (λ _ s1 e,
    if CsControl.HasEndCallWithoutReason (CsControl.connectionMap_ c) l then
      carries_cs slotId c s1 ∧ serviceInstance s1 = serviceInstance s ∧
      (∃ e0, e = e0 ++ [Ril slotId RADIO_GET_CALL_FAIL_REASON RilGetCallFailReason] ∧
             Forall is_finish e0) ∧
      ∀ ev h',
        wp (GetCallFailReasonResponse ev) (λ _ s2 e2,
          GetCsControl slotId (serviceInstance s2) = None ∧
          ∃ e0, e2 = e0 ++ [Report (ReportCallsInfo {| crs_slotId := slotId;
                crs_callVec := ended_calls slotId (answered_reason slotId h' ev) c |})] ∧
            Forall not_calls_report e0) s1 h'
    else
      GetCsControl slotId (serviceInstance s1) = None ∧
      ∃ e0, e = e0 ++ [Report (ReportCallsInfo {| crs_slotId := slotId;
                 crs_callVec := ended_calls slotId DISCONNECTED_REASON_INVALID c |})] ∧
        Forall is_finish e0) s h.
Proof.
  pose proof Hs as [Hsl Hc Hims Hrs Hinv Hig]. pose proof Hl as [Hl0 Hln].
  unfold ReportCsCallsData, my_slot. wsteps. rewrite Hl0. cbn [Z.eqb].
  unfold ReportNoCsCallsData, my_slot. wsteps. simpl. rewrite Hrs, Hsl. wsteps. simpl. rewrite Hc.
  apply wp_then, wp_finish_common_event. intros b e0 He0.
  apply wp_then, wp_on_service. eapply wp_on_control; [exact Hc|].
  destruct (CsControl.HasEndCallWithoutReason (CsControl.connectionMap_ c) l) eqn:Hend.
  - eapply wp_mono; [apply wp_report_query; [done|done]|]. intros r c' e [-> ->].
    rewrite SetControl_same by done.
    apply wp_then. eapply (wp_read_control (C := CSControl)); [exact Hc|].
    rewrite Hend. cbn [negb]. wsteps.
    assert (carries_cs slotId c {| this := set_currentCsCallInfoList l (this s);
      serviceInstance := serviceInstance s; strEnterEventResult_ := b |}) as Hs1 by by split.
    split_and!; [done|done|by exists e0|]. intros ev h'.
    by eapply wp_GetCallFailReasonResponse_cs.
  - eapply wp_mono; [by apply wp_report_resolved|]. intros r c' e [Hm ->].
    apply wp_then, wp_on_service. eapply wp_on_control;
      [apply (GetControl_set (C := CSControl)); by eapply GetCsControl_valid|].
    wsteps. rewrite Hm. cbn [CsControl.HasEndCallWithoutReason sm_any existsb negb]. wsteps.
    split; [apply GetCsControl_drop|]. exists e0. done.
Qed.
End EndOfCalls.

(** ** SRVCC: the calls of the slot move from IMS to CS *)

Section Srvcc.
Context `{CallConsts, E : Env, ServiceEnv, HandlerEnv}.
Implicit Types (s : HandlerState) (h : list Effect).

(** [if (imsControl) { imsControl->ReleaseAllConnection(); SetImsControl(slotId, nullptr); }] *)
Lemma wp_drop_ims slotId (Q : () → HandlerState → list Effect → Prop) s h :
  IsValidSlotId slotId = true →
  (∀ m, m !! slotId = None →
     (∀ j, j ≠ slotId → m !! j = imsControlMap_ (serviceInstance s) !! j) →
     Q () (upd_service (set_imsControlMap m) s) []) →
  wp match GetImsControl slotId (serviceInstance s) with
     | Some c => on_service (on_control slotId c (λ E, ImsControl.ReleaseAllConnection)) ;;
                 mmodify (upd_service (SetImsControl slotId None))
     | None => mret ()
     end Q s h.
Proof.
  intros Hv HQ. destruct (GetImsControl slotId (serviceInstance s)) as [c|] eqn:Hc.
  - apply wp_then, wp_on_service. eapply wp_on_control; [exact Hc|]. apply wp_modify_conns. wsteps.
    unfold upd_service, SetControl_, ImsTable, SetImsControl. simpl. rewrite !Hv. simpl.
    apply HQ; [apply lookup_partial_alter_eq|]. intros j Hj. by rewrite !lookup_partial_alter_ne.
  - wsteps. unfold GetImsControl in Hc. rewrite Hv in Hc. simpl in Hc.
    replace s with (upd_service (set_imsControlMap (imsControlMap_ (serviceInstance s))) s)
      by (by destruct s as [? [] ?]). by apply HQ.
Qed.
(** A list of two or more calls does not bring back a control that is missing. *)
Lemma ReportCsCallsData_lost slotId s l h :
  slotId_ (this s) = slotId → isDuringRSRVCC_ (this s) = false →
  GetCsControl slotId (serviceInstance s) = None → 2 ≤ cal_callSize l →
  wp (ReportCsCallsData l) (λ _ s2 e2, e2 = [] ∧ serviceInstance s2 = serviceInstance s) s h.
Proof.
  intros Hslot Hrs Hc Hl. unfold ReportCsCallsData, my_slot. wsteps.
  rewrite (proj2 (Z.eqb_neq _ _)) by lia. wsteps. simpl. rewrite Hrs, Hslot.
  rewrite (proj2 (Z.eqb_neq (cal_callSize l) 1)) by lia. wsteps. simpl. rewrite Hc. by wsteps.
Qed.

#[local] Ltac srvcc_view :=
  simpl in *; unfold refusal, GetImsControl, GetCsControl, SetCsControl, slot_view in *;
  repeat match goal with Hv : IsValidSlotId _ = true |- _ => rewrite !Hv in *; clear Hv end; simpl in *.

(** C16: the end of SRVCC hands the slot over to CS.  Silently, the slot's IMS
    control is dropped with its calls, operations on calls are accepted again, and
    nothing of another slot or of the satellite changes.  A slot without CS calls
    gets a new CS control, ready for the list of the moved calls; a slot that had
    CS calls loses its control, and a list of two or more calls is then ignored. *)
Theorem srvcc_completes slotId s h
  (Hslot : slotId_ (this s) = slotId) (Hv : IsValidSlotId slotId = true)
  (Hreg : registerInstance_ (this s) = true) :
  wp (UpdateSrvccStateReport (Some COMPLETED)) (λ _ s1 e,
    let sv := serviceInstance s in
    let sv1 := serviceInstance s1 in
    e = [] ∧ this s1 = set_srvccState SRVCC_NONE (set_isDuringRSRVCC false (this s)) ∧
    GetImsControl slotId sv1 = None ∧ refusal sv1 slotId = None ∧
    (∀ j, GetSatelliteControl j sv1 = GetSatelliteControl j sv) ∧
    (∀ j, j ≠ slotId → slot_view j sv1 = slot_view j sv) ∧
    match GetCsControl slotId sv with
    | None => GetCsControl slotId sv1 = Some CSControl_new
    | Some _ =>
        GetCsControl slotId sv1 = None ∧
        ∀ l h', 2 ≤ cal_callSize l →
          wp (ReportCsCallsData l) (λ _ s2 e2, e2 = [] ∧ serviceInstance s2 = sv1) s1 h'
    end) s h.
Proof.
  unfold UpdateSrvccStateReport, SrvccStateCompleted, my_slot. wsteps. simpl.
  rewrite Hreg. simpl. wsteps. simpl. wsteps. simpl. rewrite Hslot.
  change (GetCsControl slotId (SetSrvccState COMPLETED (serviceInstance s)))
    with (GetCsControl slotId (serviceInstance s)).
  destruct (GetCsControl slotId (serviceInstance s)) as [c|] eqn:Hc.
  - apply wp_then, wp_on_service. eapply wp_on_control; [exact Hc|]. apply wp_modify_conns. wsteps.
    apply wp_drop_ims; [done|]. intros m Hm Hj. wsteps.
    assert (GetCsControl slotId (set_imsControlMap m (SetCsControl slotId None
      (SetCsControl slotId (Some (CsControl.set_connectionMap [] c))
         (SetSrvccState COMPLETED (serviceInstance s))))) = None) as Hcs by apply GetCsControl_drop.
    split_and!; try done; [srvcc_view; done..| |].
    + intros j Hne. srvcc_view. by rewrite !lookup_partial_alter_ne, Hj.
    + intros l h' Hl. by apply (ReportCsCallsData_lost slotId).
  - apply wp_modify. wsteps. apply wp_drop_ims; [done|]. intros m Hm Hj. wsteps.
    split_and!; try done; [srvcc_view; done..| |].
    + intros j Hne. srvcc_view. by rewrite lookup_partial_alter_ne, Hj.
    + srvcc_view. by rewrite lookup_partial_alter_eq.
Qed.
End Srvcc.

(** ** The emergency dial that waited for the radio *)

Section RadioOn.
Context `{CallConsts, E : Env, ServiceEnv, HandlerEnv}.
Implicit Types (s : HandlerState) (h : list Effect).

Definition no_call_effect (e : Effect) : Prop :=
  match e with Ims _ | Ril _ _ _ | Sat _ | Report _ => False | _ => True end.

Lemma wp_SkipWaitForRadioOn (c : IMSControl) h :
  wp SkipWaitForRadioOn (λ _ c' e, c' = set_waitForRadioOn false c ∧ Forall no_call_effect e) c h.
Proof.
  unfold SkipWaitForRadioOn. wsteps. destruct (waitForRadioOn_ c) eqn:Hw; wsteps.
  - split; [done|by repeat constructor].
  - split; [destruct c; simpl in *; by subst|done].
Qed.
Lemma GetImsControl_set slotId c c' sv :
  GetImsControl slotId sv = Some c → GetImsControl slotId (SetImsControl slotId (Some c') sv) = Some c'.
Proof.
  intros Hc. refine (GetControl_set (C := IMSControl) slotId (Some c') sv _). unfold GetImsControl in Hc.
  by destruct (IsValidSlotId slotId).
Qed.
Lemma isRadioOnFlag_SetIms slotId c sv j :
  isRadioOnFlag_ (SetImsControl slotId c sv) j = isRadioOnFlag_ sv j.
Proof. unfold SetImsControl. by destruct (negb _). Qed.
Lemma SetImsControl_twice slotId c c' sv :
  SetImsControl slotId c' (SetImsControl slotId c sv) = SetImsControl slotId c' sv.
Proof.
  unfold SetImsControl. destruct (negb _) eqn:Hv; rewrite ?Hv; [done|].
  unfold set_imsControlMap. simpl. by rewrite partial_alter_partial_alter_eq.
Qed.

(** What follows the dial of the pending call. *)
Lemma wp_pending_dialled slotId (c0 c2 : IMSControl) r s h :
  GetImsControl slotId (serviceInstance s) = Some c2 → (∀ h, register_instance h = true) →
  wp ((if bool_decide (r ≠ TELEPHONY_ERR_SUCCESS) then
         on_service (on_control slotId c0 (λ E, ImsControl.ReportHangUpInfo slotId)) ;; mret ()
       else mret ()) ;;
      on_service (on_control slotId c0 (λ E, mmodify (setPendingEmcFlag false))))
    (λ _ s' e2, ∃ c3, GetImsControl slotId (serviceInstance s') = Some c3 ∧ isPendingEmc_ c3 = false ∧
      isRadioOnFlag_ (serviceInstance s') slotId = isRadioOnFlag_ (serviceInstance s) slotId ∧
      if bool_decide (r = TELEPHONY_ERR_SUCCESS)
      then c3 = setPendingEmcFlag false c2 ∧ e2 = []
      else ImsControl.connectionMap_ c3 = [] ∧
           if ImsControl.isIgnoredIncomingCall_ c2 || isSilentCsRedial_ c2 then e2 = []
           else all_ended slotId e2) s h.
Proof.
  intros Hc2 Hreg.
  assert (∀ (c : IMSControl) s' h', GetImsControl slotId (serviceInstance s') = Some c →
    wp (on_service (on_control slotId c0 (λ E, mmodify (setPendingEmcFlag false))))
      (λ _ s2 e, e = [] ∧
        GetImsControl slotId (serviceInstance s2) = Some (setPendingEmcFlag false c) ∧
        isRadioOnFlag_ (serviceInstance s2) slotId = isRadioOnFlag_ (serviceInstance s') slotId)
      s' h') as Hclear.
  { intros c s' h' Hc. apply wp_on_service. eapply wp_on_control; [exact Hc|]. wsteps. simpl.
    split_and!; [done|by eapply GetImsControl_set|apply isRadioOnFlag_SetIms]. }
  destruct (decide (r = TELEPHONY_ERR_SUCCESS)) as [Hr|Hr].
  - rewrite bool_decide_false, bool_decide_true by tauto. wsteps.
    eapply wp_mono; [by apply Hclear|]. intros [] s' e (-> & Hc & Hf). eauto 10.
  - rewrite bool_decide_true, bool_decide_false by done. apply wp_then, wp_then, wp_on_service.
    eapply wp_on_control; [exact Hc2|]. eapply wp_mono; [by apply ims_wp_ReportHangUpInfo|].
    intros r' c3 e (_ & Hm & He). wsteps.
    eapply wp_mono; [apply Hclear; by eapply GetImsControl_set|].
    intros [] s' e' (-> & Hc & Hf). exists (setPendingEmcFlag false c3). rewrite app_nil_r.
    split_and!; [done|done| |done|done]. rewrite Hf. apply isRadioOnFlag_SetIms.
Qed.

Lemma wp_DialPendingEmc slotId (c : IMSControl) s h
  (Hslot : slotId_ (this s) = slotId)
  (Hims : GetImsControl slotId (serviceInstance s) = Some c)
  (Hpend : isPendingEmc_ c = true) (Hreg : ∀ h, register_instance h = true) :
  let c1 := set_waitForRadioOn false c in
  let sv1 := SetImsControl slotId (Some c1) (serviceInstance s) in
  wp DialPendingEmc (λ _ s' e,
    ∃ e0, Forall no_call_effect e0 ∧
    let '(r, c2, e1) :=
      @ImsControl.Dial _ (linked E sv1) (pendingEmcDialCallInfo_ c) true c1 (h ++ e0) in
    ∃ c3 e2, e = e0 ++ e1 ++ e2 ∧
      GetImsControl slotId (serviceInstance s') = Some c3 ∧ isPendingEmc_ c3 = false ∧
      isRadioOnFlag_ (serviceInstance s') slotId = isRadioOnFlag_ (serviceInstance s) slotId ∧
      if bool_decide (r = TELEPHONY_ERR_SUCCESS)
      then c3 = setPendingEmcFlag false c2 ∧ e2 = []
      else ImsControl.connectionMap_ c3 = [] ∧
           if ImsControl.isIgnoredIncomingCall_ c2 || isSilentCsRedial_ c2 then e2 = []
           else all_ended slotId e2) s h.
Proof.
  unfold DialPendingEmc, my_slot. wsteps. rewrite Hslot, Hims.
  apply wp_then, wp_on_service. eapply wp_on_control; [exact Hims|].
  eapply wp_mono; [apply wp_SkipWaitForRadioOn|]. intros [] c1 e0 [-> He0].
  set (c1 := set_waitForRadioOn false c). cbn [SetControl_ ImsTable serviceInstance upd_service].
  set (sv1 := SetImsControl slotId (Some c1) (serviceInstance s)).
  assert (GetImsControl slotId sv1 = Some c1) as Hc1 by by eapply GetImsControl_set.
  apply wp_then. eapply (wp_read_control (C := IMSControl)); [exact Hc1|].
  change (isPendingEmcFlag c1) with (isPendingEmc_ c). rewrite Hpend.
  apply wp_then. eapply (wp_read_control (C := IMSControl)); [exact Hc1|].
  change (GetPendingEmcCallInfo c1) with (pendingEmcDialCallInfo_ c). rewrite !app_nil_r.
  apply wp_then, wp_on_service. eapply wp_on_control; [exact Hc1|].
  cbn [serviceInstance upd_service]. unfold wp at 1.
  destruct (ImsControl.Dial _ _ _ _) as [[r c2] e1] eqn:Hd.
  eapply wp_mono; [apply (wp_pending_dialled slotId c c2); [by eapply GetImsControl_set|done]|].
  intros [] s' e2 (c3 & Hc3 & Hp3 & Hf & He2). exists e0. split; [done|]. rewrite Hd.
  exists c3, e2. split_and!; try done. rewrite Hf. simpl. unfold sv1. by rewrite !isRadioOnFlag_SetIms.
Qed.

(** A pending emergency dial goes out when the radio comes on.  The event
    stops the timer, sets the radio flag of the slot and then runs the dial of
    the remembered call, once, as an emergency call, in the slot's IMS control;
    the call is no longer pending afterwards.  If the dial fails, the calls of the
    control end and call_manager is told (unless the report is suppressed). *)
Theorem radio_on_dials_pending slotId (c : IMSControl) s h
  (Hslot : slotId_ (this s) = slotId)
  (Hims : GetImsControl slotId (serviceInstance s) = Some c)
  (Hpend : isPendingEmc_ c = true) (Hpower : BASE_POWER_IMPROVEMENT_FEATURE = true)
  (Hreg : ∀ h, register_instance h = true) :
  let c1 := set_waitForRadioOn false c in
  let sv1 := SetImsControl slotId (Some c1) (setRadioOnFlag true slotId (serviceInstance s)) in
  wp (RadioStateChangeProcess (Some CORE_SERVICE_POWER_ON)) (λ _ s' e,
    ∃ e0, Forall no_call_effect e0 ∧
    let '(r, c2, e1) :=
      @ImsControl.Dial _ (linked E sv1) (pendingEmcDialCallInfo_ c) true c1 (h ++ e0) in
    ∃ c3 e2, e = e0 ++ e1 ++ e2 ∧
      GetImsControl slotId (serviceInstance s') = Some c3 ∧ isPendingEmc_ c3 = false ∧
      isRadioOnFlag_ (serviceInstance s') slotId = true ∧
      if bool_decide (r = TELEPHONY_ERR_SUCCESS)
      then c3 = setPendingEmcFlag false c2 ∧ e2 = []
      else ImsControl.connectionMap_ c3 = [] ∧
           if ImsControl.isIgnoredIncomingCall_ c2 || isSilentCsRedial_ c2 then e2 = []
           else all_ended slotId e2) s h.
Proof.
  unfold RadioStateChangeProcess, my_slot. wsteps. rewrite Hslot, bool_decide_true by done.
  apply wp_then, (wp_quiet no_call_effect); [by case_match; mauto..|]. intros [] e1 He1. wsteps.
  apply (wp_quiet no_call_effect); [by case_match; mauto..|]. intros [] e2 He2. apply wp_then.
  apply (wp_quiet no_call_effect);
    [unfold GetImsSwitchStatusRequest, my_slot; mauto; done..|].
  intros [] e3 He3. rewrite Hpower.
  eapply wp_mono; [by apply (wp_DialPendingEmc slotId c)|].
  intros [] s' e (e0 & He0 & He). exists (e1 ++ e2 ++ e3 ++ e0).
  split; [by rewrite !Forall_app|]. rewrite !app_assoc. rewrite <-!app_assoc in He.
  rewrite <-!app_assoc. destruct (ImsControl.Dial _ _ _ _) as [[r c2] ed]. destruct He as (c3 & er & -> & Hc3 & Hp & Hf & Hr).
  exists c3, er. split_and!; try done.
  - simpl. by rewrite <-!app_assoc.
  - rewrite Hf. unfold isRadioOnFlag_. simpl. by rewrite lookup_insert_eq.
Qed.
End RadioOn.

(** ** The end of a CS call behind an idle IMS control *)

Section Blank.
Context `{CallConsts, E : Env}.

Lemma wp_ims_blank_report slotId l reason message (ci : IMSControl) h :
  ImsControl.connectionMap_ ci = [] → ImsControl.isIgnoredIncomingCall_ ci = false →
  isSilentCsRedial_ ci = false → iml_callSize l = 0 → (∀ h, register_instance h = true) →
  wp (ImsControl.UpdateDisconnectedReason l reason message ;; ReportImsCallsData slotId l false)
    (λ _ _ e, e = [Report (ReportCallsInfo {| crs_slotId := slotId; crs_callVec :=
            [cr_set_accountId slotId
               (cr_set_state CALL_STATUS_DISCONNECTED CallReportInfo_init)] |})]) ci h.
Proof.
  intros Hm Hig Hsil Hl Hreg. apply wp_then, wp_modify_conns. wsteps.
  unfold ReportImsCallsData, ImsControl.ReportHangUpInfo, ImsControl.ReleaseAllConnection. wsteps.
  rewrite Hl. cbn [Z.leb Z.compare]. wsteps. rewrite Hreg. simpl. wsteps. simpl.
  rewrite Hm, Hig, Hsil. simpl. wsteps. apply wp_modify_conns. by wsteps.
Qed.
End Blank.

Section Lost.
Context `{CallConsts, E : Env, ServiceEnv, HandlerEnv}.

(** The reason of an ended CS call goes to the IMS control when the slot has
    one, even an idle one that a failed dial left behind.  Whatever calls the CS
    control still holds, both controls are then dropped and the only report is
    that of one blank call: the end of the CS calls is never reported. *)
Theorem cs_end_lost_behind_idle_ims slotId (c : CSControl) (ci : IMSControl) s reason message h
  (Hslot : slotId_ (this s) = slotId)
  (Hcs : GetCsControl slotId (serviceInstance s) = Some c)
  (Hims : GetImsControl slotId (serviceInstance s) = Some ci)
  (Hidle : ImsControl.connectionMap_ ci = [] ∧ ImsControl.isIgnoredIncomingCall_ ci = false ∧
           isSilentCsRedial_ ci = false)
  (Hno_ims : iml_callSize (currentCallList_ (this s)) = 0)
  (Hno_cs : cal_callSize (currentCsCallInfoList_ (this s)) = 0)
  (Hreg : ∀ h, register_instance h = true) :
  wp (HandleCallDisconnectReason reason message) (λ _ s2 e2,
    GetCsControl slotId (serviceInstance s2) = None ∧
    GetImsControl slotId (serviceInstance s2) = None ∧
    e2 = [Report (ReportCallsInfo {| crs_slotId := slotId; crs_callVec :=
            [cr_set_accountId slotId
               (cr_set_state CALL_STATUS_DISCONNECTED CallReportInfo_init)] |})]) s h.
Proof.
  destruct Hidle as (Hm & Hig & Hsil).
  unfold HandleCallDisconnectReason, my_slot. wsteps. rewrite Hslot, Hims, Hno_ims, Hno_cs.
  apply wp_then, wp_on_service. eapply wp_on_control; [exact Hims|].
  eapply wp_mono; [by apply wp_ims_blank_report|]. intros _ ci' e ->. cbn [Z.eqb]. wsteps.
  split_and!; [apply GetCsControl_drop| |done]. simpl.
  rewrite GetImsControl_SetCs. apply GetImsControl_drop.
Qed.
End Lost.
