(* ===== verification/SatelliteIpcFacts.v ===== *)
(** * SatelliteIpcFacts: the two ways between this process and the satellite service

    Every report of the callback as a value, what the proxy puts on the wire and
    what the stub makes of that; and the end of the calls when the service dies. *)

From stdpp Require Import base tactics option list numbers strings gmap.
From Stdlib Require Import ZArith Lia Ascii String.
From S2P Require Import Prelude SsTypes ConfigTypes Platform Connection ControlBase ConnectionSatellite SatelliteControl Service Handler.
From S2P Require Import SupplementRequestCs Supplement ConfigRequest Config Parcel IpcCodes.
From S2P Require ImsCallProxy HandlerEvents SatelliteCallCallbackStub.
Import ImsCallProxy.ImsCallProxyFacts HandlerEvents SatelliteCallCallbackStub.
From S2P Require Import SatelliteCallClient.
From S2P Require Import StdMap CallMap SatelliteFacts ImsUser HandlerUser.
From S2P Require ImsReportFacts SatelliteCallProxy SatelliteCallCallbackProxy.
Import SatelliteCallCallbackProxy.SatelliteCallCallbackInterfaceCode.

Open Scope Z_scope.

(** ** Reports *)

Inductive SatelliteReport :=
  | SrDial (slotId : Z) (info : RadioResponseInfo)
  | SrHangUp (slotId : Z) (info : RadioResponseInfo)
  | SrReject (slotId : Z) (info : RadioResponseInfo)
  | SrAnswer (slotId : Z) (info : RadioResponseInfo)
  | SrStateChange (slotId : Z)
  | SrCallsError (slotId : Z) (info : RadioResponseInfo)
  | SrCalls (slotId : Z) (callList : SatelliteCurrentCallList).

Definition report_code (rp : SatelliteReport) : SatelliteCallbackCode :=
  match rp with
  | SrDial _ _ => SATELLITE_DIAL
  | SrHangUp _ _ => SATELLITE_HANG_UP
  | SrReject _ _ => SATELLITE_REJECT
  | SrAnswer _ _ => SATELLITE_ANSWER
  | SrStateChange _ => SATELLITE_CALL_STATE_CHANGE
  | SrCallsError _ _ | SrCalls _ _ => SATELLITE_GET_CALLS_DATA
  end.
(** What follows the slot in the message of a report. *)
Definition list_items (slotId : Z) (l : SatelliteCurrentCallList) : list Item :=
  [IInt32 slotId; IInt32 (sal_callSize l); IInt32 (sal_flag l);
   IInt32 (i32 (Z.of_nat (Datatypes.length (sal_calls l))))] ++
  (sal_calls l ≫= SatelliteCallCallbackProxy.call_items).
Definition report_items (rp : SatelliteReport) : list Item :=
  match rp with
  | SrDial slotId info | SrHangUp slotId info | SrReject slotId info | SrAnswer slotId info
  | SrCallsError slotId info => [IInt32 slotId; IRaw (to_raw info)]
  | SrStateChange slotId => [IInt32 slotId]
  | SrCalls slotId l => IInt32 slotId :: list_items slotId l
  end.
Definition report_data (rp : SatelliteReport) : Parcel :=
  IToken SatelliteCallCallbackProxy.SatelliteCallCallbackInterface_descriptor :: report_items rp.

Section Reports.
Context `{CallConsts, E : Env, ConfigEnv, ParcelEnv, SatelliteStubEnv, IpcEnv}.
Abbreviation St A := (M SatelliteEvent SatelliteCallClient A).

Definition send_report {S} (rp : SatelliteReport) : M IpcEvent S Z :=
  match rp with
  | SrDial slotId info => SatelliteCallCallbackProxy.DialSatelliteResponse slotId info
  | SrHangUp slotId info => SatelliteCallCallbackProxy.HangUpSatelliteResponse slotId info
  | SrReject slotId info => SatelliteCallCallbackProxy.RejectSatelliteResponse slotId info
  | SrAnswer slotId info => SatelliteCallCallbackProxy.AnswerSatelliteResponse slotId info
  | SrStateChange slotId => SatelliteCallCallbackProxy.CallStateChangeReport slotId
  | SrCallsError slotId info => SatelliteCallCallbackProxy.GetSatelliteCallsDataResponse_info slotId info
  | SrCalls slotId l => SatelliteCallCallbackProxy.GetSatelliteCallsDataResponse_list slotId l
  end.
(** A list is read one place too late: the slot for the number of calls, that number
    for the flag, the flag for the length. *)
Definition misread (slotId : Z) (l : SatelliteCurrentCallList) : SatelliteCurrentCallList :=
  {| sal_callSize := slotId; sal_flag := sal_callSize l;
     sal_calls :=
       (read_list ReadCall (Z.to_nat (sal_flag l))
          (IInt32 (i32 (Z.of_nat (Datatypes.length (sal_calls l)))) ::
           (sal_calls l ≫= SatelliteCallCallbackProxy.call_items))).1 |}.
Definition refused_list : St (Z * Parcel) := mret (TELEPHONY_ERR_FAIL, []).
(** What the stub is to do with the message [data] of a report: post the report
    to the handler of its slot.  A message with a list is first looked at for the
    struct of an error, so what is read of the list depends on where that failed
    look leaves the parcel: the report as it was sent when it took one integer
    away (the slot that is written twice), a list misread by one place when it
    took nothing. *)
Definition arrives (rp : SatelliteReport) (m : Z * Parcel) : Prop :=
  let stub := OnRemoteRequest m.1 m.2 in
  match rp with
  | SrDial slotId info => stub = reply_with (DialSatelliteResponse slotId info)
  | SrHangUp slotId info => stub = reply_with (HangUpSatelliteResponse slotId info)
  | SrReject slotId info => stub = reply_with (RejectSatelliteResponse slotId info)
  | SrAnswer slotId info => stub = reply_with (AnswerSatelliteResponse slotId info)
  | SrStateChange slotId => stub = reply_with (CallStateChangeReport slotId)
  | SrCallsError slotId info => stub = reply_with (GetSatelliteCallsDataResponse_info slotId info)
  | SrCalls slotId l =>
      let items := list_items slotId l in
      (ReadRawData (T := RadioResponseInfo) items = (None, tail items) →
       stub = if MAX_SIZE <? Z.of_nat (Datatypes.length (sal_calls l)) then refused_list
              else reply_with (GetSatelliteCallsDataResponse_list slotId l)) ∧
      (ReadRawData (T := RadioResponseInfo) items = (None, items) →
       stub = if (sal_flag l <? 0) || (MAX_SIZE <? sal_flag l) then refused_list
              else reply_with (GetSatelliteCallsDataResponse_list slotId (misread slotId l)))
  end.
(** The length of a list is an [int32_t]. *)
Definition countable (rp : SatelliteReport) : Prop :=
  match rp with SrCalls _ l => Z.of_nat (Datatypes.length (sal_calls l)) < 2 ^ 31 | _ => True end.

Lemma ReadSatelliteCall_items call rest :
  ReadCall (SatelliteCallCallbackProxy.call_items call ++ rest) = (call, rest).
Proof. by destruct call. Qed.
Lemma Sat_OnRemoteRequest_report rp :
  countable rp → arrives rp (SatelliteCallCallbackProxy.code_value (report_code rp), report_data rp).
Proof.
  intros Hl. unfold arrives, OnRemoteRequest, report_data. cbn [fst snd ReadInterfaceToken].
  rewrite bool_decide_false by (intros Hc; by apply Hc).
  destruct rp as [| | | | | |slotId l]; try reflexivity.
  change (enum_code satellite_callback_codes _) with (Some SATELLITE_GET_CALLS_DATA).
  cbn [requestFuncMap]. unfold OnGetSatelliteCallsDataResponseInner. cbn [report_items ReadInt32].
  split; intros Hr; rewrite Hr; [|done].
  cbn [list_items app tail ReadInt32]. cbn [countable] in Hl. rewrite i32_id by lia.
  rewrite (proj2 (Z.ltb_ge _ 0)) by lia. cbn [orb]. rewrite Nat2Z.id.
  rewrite <-(app_nil_r (sal_calls l ≫= _)), read_list_items by apply ReadSatelliteCall_items.
  by destruct l.
Qed.

Section Sent.
Context `{!ParcelEnvOk} {S : Type}.
Lemma satellite_common_spec slotId (s : S) h :
  wp (SatelliteCallCallbackProxy.WriteCommonInfo slotId [] : M IpcEvent S _) (λ r s' e, s' = s ∧ e = [] ∧
    (r.1 ∈ ipc_errors ∧ r.1 ≠ TELEPHONY_SUCCESS ∨
     r = (TELEPHONY_SUCCESS, [IToken SatelliteCallCallbackProxy.SatelliteCallCallbackInterface_descriptor; IInt32 slotId]))) s h.
Proof.
  unfold SatelliteCallCallbackProxy.WriteCommonInfo.
  apply wp_write; intros _; [|apply wp_write; intros _]; apply wp_ret;
    (split; [done|split; [done|]]); [left|left|by right];
    (split; [list_in|apply descriptor_error || apply data_error]).
Qed.
Lemma satellite_info_spec slotId info (s : S) h :
  wp (SatelliteCallCallbackProxy.WriteCommonInfo_info slotId [] info : M IpcEvent S _) (λ r s' e, s' = s ∧ e = [] ∧
    (r.1 ∈ ipc_errors ∧ r.1 ≠ TELEPHONY_SUCCESS ∨
     r = (TELEPHONY_SUCCESS,
          [IToken SatelliteCallCallbackProxy.SatelliteCallCallbackInterface_descriptor; IInt32 slotId; IRaw (to_raw info)]))) s h.
Proof.
  unfold SatelliteCallCallbackProxy.WriteCommonInfo_info. apply wp_then.
  eapply wp_mono; [apply satellite_common_spec|].
  intros [ret q] s' e (-> & -> & [[Hin Hne]|[= -> ->]]); cbn in *.
  - rewrite bool_decide_true by done. apply wp_ret. split; [done|split; [done|]]. by left.
  - rewrite bool_decide_false by (intros Hc; by apply Hc).
    apply wp_write; intros _; apply wp_ret; (split; [done|split; [done|]]); [left|by right].
    split; [list_in|apply data_error].
Qed.
Lemma satellite_send p c datas :
  p ∈ datas →
  code_spec (SatelliteCallCallbackProxy.SendResponseInfo c p : M IpcEvent S Z)
    (SatelliteCallCallbackProxy.code_value c) datas.
Proof.
  intros Hp. unfold SatelliteCallCallbackProxy.SendResponseInfo. apply (proxy_send p); [done| | |by intros].
  - intros s h. apply wp_lost. list_in.
  - apply code_error. list_in.
Qed.
Lemma sat_send_report_spec rp :
  code_spec (send_report rp : M IpcEvent S Z) (SatelliteCallCallbackProxy.code_value (report_code rp))
    [report_data rp].
Proof.
  destruct rp; cbn [send_report];
    match goal with |- code_spec ?m _ _ => let f := head_of m in unfold f end;
    try unfold SatelliteCallCallbackProxy.respond;
    (eapply code_written; [first [apply satellite_info_spec|apply satellite_common_spec]|]);
    repeat first [apply code_put | apply code_put_all | apply satellite_send; list_in].
Qed.
End Sent.

(** C37: the reports of the satellite service, from the proxy to the stub.  A
    method of the callback's proxy sends at most one message, and the stub, given
    that message, posts the very report the method was called with, every field
    of it ([arrives]).  What the method returns is what the stub replied, or an
    error of its own.  A list of calls is the exception, because its message
    writes the slot twice and shares its code with an error: if a failed look for
    the error's struct takes one integer from the parcel, the list is read as it
    was sent, and refused when it has more than ten calls; if it leaves the
    parcel as it was, the list is misread by one place: the slot is taken for the
    number of calls, that number for the flag, the flag for the length, and it is
    refused when the flag is not between 0 and 10. *)
Theorem satellite_report_arrives {S} `{!ParcelEnvOk} rp (s : S) h (Hl : countable rp) :
  wp (send_report rp) (λ a s' e, s' = s ∧
    (transactions e = [] ∧ a ∈ ipc_errors ∨
     ∃ m, transactions e = [m] ∧ arrives rp m ∧
       (a ∈ ipc_errors ∨ ∃ h' out, remote_SendRequest h' m.1 m.2 = (ERR_NONE, out) ∧ a = (ReadInt32 out).1))) s h.
Proof.
  eapply wp_mono; [apply sat_send_report_spec|]. intros a s' e (-> & _ & He). split; [done|].
  destruct He as [?|(data & ->%list_elem_of_singleton & Ht & Ha)]; [by left|right].
  eexists. split; [exact Ht|]. split; [by apply Sat_OnRemoteRequest_report|exact Ha].
Qed.
End Reports.

(** ** The end of satellite calls *)

Lemma GetSatelliteControl_other `{CallConsts, ServiceEnv} i j c s :
  i ≠ j → GetSatelliteControl i (SetSatelliteControl j c s) = GetSatelliteControl i s.
Proof.
  intros Hij. unfold GetSatelliteControl, SetSatelliteControl. destruct (Service.IsValidSlotId j); [|done].
  apply lookup_partial_alter_ne. congruence.
Qed.

Section Death.
Context `{CallConsts, E : Env, ConfigEnv, ParcelEnv, IpcEnv, SatelliteClientEnv, ServiceEnv}.

(** How the calls of a control are reported when all of them end: each with its
    own report, as disconnected, in the order of the map; one empty report when
    there is no call. *)
Definition disconnected (slotId : Z) (info : CallReportInfo) : CallReportInfo :=
  cr_set_accountId slotId (cr_set_state CALL_STATUS_DISCONNECTED info).
Definition ended_reports (slotId : Z) (m : smap CellularCallConnectionSatellite) : list CallReportInfo :=
  match m with
  | [] => [disconnected slotId CallReportInfo_init]
  | _ => (λ '(_, c), disconnected slotId (GetCallReportInfo (conn_base c))) <$> m
  end.
Definition ended_report (slotId : Z) (c : SatelliteControl) : Effect :=
  Report (ReportCallsInfo {| crs_slotId := slotId;
            crs_callVec := ended_reports slotId (SatelliteControl.connectionMap_ c) |}).

Lemma sat_wp_ReportHangUpInfo slotId c h :
  (∀ h, register_instance h = true) →
  wp (SatelliteControl.ReportHangUpInfo slotId) (λ _ c' e, SatelliteControl.connectionMap_ c' = [] ∧
    e = if SatelliteControl.isIgnoredIncomingCall_ c then [] else [ended_report slotId c]) c h.
Proof.
  intros Hreg. unfold SatelliteControl.ReportHangUpInfo, SatelliteControl.ReleaseAllConnection. wsteps.
  apply wp_fail_reason_loop. wsteps. rewrite Hreg. cbn [negb]. wsteps.
  destruct (SatelliteControl.isIgnoredIncomingCall_ c); wsteps; apply wp_modify_conns; wsteps; (split; [done|]).
  { done. }
  unfold ended_report, ended_reports. by destruct (SatelliteControl.connectionMap_ c).
Qed.
(** What the end of the calls of a slot leaves, and what is reported. *)
Definition calls_ended (slotId : Z) (c : option SatelliteControl) (sv : CellularCallService) (e : list Effect) : Prop :=
  e = match c with
      | None => []
      | Some c => if SatelliteControl.isIgnoredIncomingCall_ c then [] else [ended_report slotId c]
      end ∧
  match GetSatelliteControl slotId sv with
  | Some c' => SatelliteControl.connectionMap_ c' = []
  | None => True
  end.

Lemma if_control_ends slotId sv h :
  (∀ h, register_instance h = true) → Service.IsValidSlotId slotId = true →
  wp (if_control slotId (λ E, SatelliteControl.ReportHangUpInfo slotId))
    (λ _ sv' e, calls_ended slotId (GetSatelliteControl slotId sv) sv' e ∧
      ∀ i, i ≠ slotId → GetSatelliteControl i sv' = GetSatelliteControl i sv) sv h.
Proof.
  intros Hreg Hv. unfold if_control, with_control, calls_ended. wsteps.
  change (GetControl slotId sv) with (GetSatelliteControl slotId sv).
  destruct (GetSatelliteControl slotId sv) as [c|] eqn:Hc; wsteps; [|by rewrite Hc].
  eapply wp_on_control; [exact Hc|]. apply wp_then.
  eapply wp_mono; [by apply sat_wp_ReportHangUpInfo|]. intros r c' e [Hm He]. wsteps.
  pose proof (GetControl_set (C := SatelliteControl) slotId (Some c') sv Hv) as Hs. cbn in Hs |- *.
  split; [split; [exact He|]|].
  - by rewrite Hs.
  - intros i Hi. by apply GetSatelliteControl_other.
Qed.
(** The slots of [l], one after the other; [parts] is what each reports. *)
Lemma slots_end (l : list Z) sv h :
  (∀ h, register_instance h = true) → NoDup l → Forall (λ i, Service.IsValidSlotId i = true) l →
  wp (mfor l (λ slotId, if_control slotId (λ E, SatelliteControl.ReportHangUpInfo slotId)))
    (λ _ sv' e, (∀ i, i ∉ l → GetSatelliteControl i sv' = GetSatelliteControl i sv) ∧
      ∃ parts, e = List.concat parts ∧
        Forall2 (λ i part, calls_ended i (GetSatelliteControl i sv) sv' part) l parts) sv h.
Proof.
  intros Hreg Hnd Hv. revert sv h. induction Hnd as [|i l Hi Hnd IH]; intros sv h; cbn [mfor].
  { apply wp_ret. split; [done|]. by exists []. }
  inversion_clear Hv as [|? ? Hvi Hvl]. apply wp_then. eapply wp_mono; [by apply if_control_ends|].
  intros [] sv1 e1 [He1 Ho1]. eapply wp_mono; [by apply IH|]. intros [] sv2 e2 (Ho2 & parts & -> & Hp). split.
  - intros j [Hji Hjl]%not_elem_of_cons. by rewrite Ho2, Ho1.
  - exists (e1 :: parts). split; [done|]. constructor.
    + unfold calls_ended in *. by rewrite Ho2.
    + revert Hi Hp. clear -Ho1. intros Hi Hp. induction Hp as [|j part l parts Hj Hp IH]; [constructor|].
      apply not_elem_of_cons in Hi as [Hij Hi]. rewrite Ho1 in Hj by done. constructor; [exact Hj|by apply IH].
Qed.
Lemma wp_client_part {A} (m : M IpcEvent SatelliteCallClient A) (Q : A → ClientAndCalls → list SatelliteEvent → Prop) s h :
  wp m (λ a c e, Q a {| cc_client := c; cc_calls := cc_calls s |} (SatIpc <$> e)) (cc_client s) (sat_ipc_of h) →
  wp (client_part m) Q s h.
Proof. unfold wp, client_part. by destruct (m _ _) as [[a c] e]. Qed.
Lemma wp_calls_part {A} (m : Op CellularCallService A) (Q : A → ClientAndCalls → list SatelliteEvent → Prop) s h :
  wp m (λ a v e, Q a {| cc_client := cc_client s; cc_calls := v |} (SatCore <$> e)) (cc_calls s) (sat_core_of h) →
  wp (calls_part m) Q s h.
Proof. unfold wp, calls_part. by destruct (m _ _) as [[a c] e]. Qed.
Lemma sat_core_of_ipc e : sat_core_of (SatIpc <$> e) = [].
Proof. by induction e. Qed.
Lemma sat_core_of_core e : sat_core_of (SatCore <$> e) = e.
Proof. induction e as [|x e IH]; [done|]. cbn. f_equal. exact IH. Qed.

(** The connection is forgotten when the object that died is the service's, and kept
    otherwise. *)
Definition after_death (remote : option Z) (c : SatelliteCallClient) (h : list IpcEvent) : SatelliteCallClient :=
  match remote, satelliteServiceProxy_ c with
  | Some object, Some service =>
      if bool_decide (AsObject (h ++ [Acquire mutexProxy_ false]) service = Some object)
      then set_callProxy false (set_serviceProxy None c)
      else c
  | _, _ => c
  end.
Lemma RemoveDeathRecipient_run remote c h :
  wp (RemoveDeathRecipient remote) (λ _ c' _, c' = after_death remote c h) c h.
Proof.
  unfold RemoveDeathRecipient, locked, after_death. destruct remote as [object|]; psteps; [|done].
  destruct (satelliteServiceProxy_ c) as [service|]; psteps; [|done].
  destruct (AsObject _ service) as [object'|]; psteps; [|done].
  case_bool_decide as Hne; psteps; case_bool_decide; congruence.
Qed.

(** C36: the death of the satellite service ends the calls of every slot, while
    the service and the register of this process are there.  Slot by slot,
    call_manager gets one report, with one entry for each call of the slot's
    control: that call's own report, in the order of the map, marked as
    disconnected and with the slot for its account (one empty entry when the
    control has no call; no report when the slot has no control, or when the end
    of an ignored incoming call is being suppressed); and no connection is left.
    They end even when the object that died is not the service the client is
    connected to, whose connection is kept. *)
Theorem service_death_ends_calls remote (s : ClientAndCalls) h
  (Hinst : ∀ h, service_instance h = true) (Hreg : ∀ h, register_instance h = true)
  (Hslots : Forall (λ i, Service.IsValidSlotId i = true)
              (seqZ DEFAULT_SIM_SLOT_ID (SIM_SLOT_COUNT - DEFAULT_SIM_SLOT_ID))) :
  wp (OnRemoteDied remote) (λ _ s' e,
    cc_client s' = after_death remote (cc_client s) (sat_ipc_of h) ∧
    ∃ parts, sat_core_of e = List.concat parts ∧
      Forall2 (λ slotId part,
          calls_ended slotId (GetSatelliteControl slotId (cc_calls s)) (cc_calls s') part)
        (seqZ DEFAULT_SIM_SLOT_ID (SIM_SLOT_COUNT - DEFAULT_SIM_SLOT_ID)) parts) s h.
Proof.
  unfold OnRemoteDied. apply wp_then, wp_client_part.
  eapply wp_mono; [apply RemoveDeathRecipient_run|]. intros [] c e Hc. apply wp_calls_part.
  unfold ClearAllCallsInfo. wsteps. rewrite Hinst. cbn [negb].
  eapply wp_mono; [apply slots_end; [done|apply NoDup_seqZ|done]|].
  intros [] sv e' (_ & parts & -> & Hp). split; [exact Hc|]. exists parts. split; [|exact Hp].
  unfold sat_core_of. rewrite omap_app. fold (sat_core_of (SatIpc <$> e)).
  rewrite sat_core_of_ipc. apply sat_core_of_core.
Qed.
End Death.
