(* ===== verification/WitnessCalls.v ===== *)
(** * WitnessCalls: the properties of the controls and of the service at concrete inputs

    One module per part; the CS calls of [WitnessCS] are those of slot 0 of the device
    of [WitnessService]. *)

From stdpp Require Import base tactics option list numbers strings gmap sets relations.
From Stdlib Require Import ZArith Lia Ascii String Sorted.
From S2P Require Prelude SsTypes Platform Samples Standardize StdMap Connection MmiCode Emergency.
From S2P Require ControlBase CallMap CallReport ConnectionCS CsControl CsControlFacts CsRefinement.
From S2P Require CsUser ConnectionIMS ImsControl ImsControlFacts ImsUser ConnectionSatellite.
From S2P Require SatelliteControl SatelliteFacts VideoControl Service ServiceFacts Handler PhoneNumber.
From S2P Require SupplementRequestCs Supplement SupplementHandler SupplementFacts HandlerFacts System.
From S2P Require ServiceUser HandlerUser.

(** ** WitnessCS: the circuit-switched properties at concrete inputs

    A control with an active call 1 and a waiting call 2, in the environment of
    [Samples]; each property of the circuit-switched files that has hypotheses
    is applied there. *)

Module WitnessCS.
Import Prelude Platform Samples Standardize StdMap Connection MmiCode Emergency ControlBase.
Import CallMap CallReport ConnectionCS CsControl CsControlFacts CsRefinement CsUser.

Open Scope Z_scope.

#[local] Existing Instances sample_consts sample_env sample_consts_ok sample_env_securec.

(** ** The sample control *)

Definition sample_entry (i state : Z) (number : string) : CallInfo :=
  {| ca_index := i; ca_dir := 0; ca_state := state; ca_mpty := 0; ca_voiceDomain := 0; ca_number := number;
     ca_type := 0; ca_name := ""; ca_namePresentation := 0 |}.
Definition sample_list : CallInfoList :=
  {| cal_callSize := 2;
     cal_calls := [sample_entry 1 CALL_STATUS_ACTIVE "10086";
                   sample_entry 2 CALL_STATUS_WAITING "10010"] |}.
(** Only call 1 is left. *)
Definition sample_list_1 : CallInfoList :=
  {| cal_callSize := 1; cal_calls := [sample_entry 1 CALL_STATUS_ACTIVE "10086"] |}.

Definition sample_call (i state : Z) (number : string) : CellularCallConnectionCS :=
  upd (λ b, SetNumber number (SetStatus state (SetIndex i b))) CellularCallConnectionCS_new.
Definition sample_cs : CSControl :=
  set_connectionMap
    (sm_insert 1 (sample_call 1 CALL_STATUS_ACTIVE "10086")
       (sm_insert 2 (sample_call 2 CALL_STATUS_WAITING "10010") [])) CSControl_new.
Definition sample_info (i : Z) (number : string) : CellularCallInfo :=
  {| ci_callId := i; ci_phoneNum := number; ci_slotId := 0; ci_accountId := 0; ci_callType := 0;
     ci_videoState := 0; ci_index := i; ci_isRTT := false |}.

Lemma sample_cs_inv : conns_inv sample_cs.
Proof.
  split.
  - apply conns_ok_insert; [apply conns_ok_insert; [apply conns_ok_nil|done]|done].
  - apply unmarked_insert; [|apply unmarked_insert; [|apply unmarked_nil|]|]; try done.
    + apply smap_ok_insert, smap_ok_nil.
    + apply smap_ok_nil.
Qed.
Lemma sample_reachable h : reachable_slot h 0 = true.
Proof. done. Qed.

(** ** Reports and reachability *)

Lemma ReportUpdateInfo_diff_witness :
  wp (ReportUpdateInfo 0 sample_list_1)
    (λ r s' e, r = TELEPHONY_SUCCESS ∧
       sm_lookup 2 (connectionMap_ s') = None ∧
       ∃ c, sm_lookup 1 (connectionMap_ s') = Some c ∧ GetNumber (conn_base c) = "10086")
    sample_cs [].
Proof.
  weaken_spec (ReportUpdateInfo_diff 0 sample_list_1 sample_cs [] sample_cs_inv).
  intros r s' e ((_ & _ & Hm) & _ & e1 & _ & Hr). destruct Hr as [-> _].
  split; [done|]. split; [exact (Hm 2)|]. destruct (Hm 1) as (c & Hc & _ & Hn & _). by exists c.
Defined.

Lemma cs_reachable_inv_witness :
  conns_inv CSControl_new ∧
  ∀ i, FindConnectionByIndex (connectionMap_ CSControl_new) i =
         (λ c, (i, c)) <$> sm_lookup i (connectionMap_ CSControl_new).
Proof.
  apply (cs_reachable_inv [] CSControl_new
           (([] : list Effect) ++ (run_op (OpHoldCall 0) CSControl_new []).2)).
  apply rtc_once, (cs_step_op (OpHoldCall 0)). reflexivity.
Defined.

Definition sample_ended_list : CallInfoList :=
  {| cal_callSize := 2;
     cal_calls := [sample_entry 1 CALL_STATUS_DISCONNECTED "10086";
                   sample_entry 2 CALL_STATUS_WAITING "10010"] |}.
Lemma live_list_wf l : Forall (call_wf False) l → list_wf False l.
Proof.
  intros Hl. split; [done|]. intros c1 c2 Hin _ _ Hd. rewrite Forall_forall in Hl.
  by apply (Hl c1 Hin) in Hd.
Qed.
(** Live lists; then one whose first call is listed as disconnected. *)
Lemma cs_view_refines_map_witness :
  wp (mfor [OpReportCallsData 0 sample_list; OpReportCallsData 0 sample_list_1] run_op)
    (λ _ s e, view e = sm_dom (connectionMap_ s)) CSControl_new [] ∧
  wp (mfor [OpReportCallsData 0 sample_ended_list] run_op)
    (λ _ s e, ∀ k, k ∈ view e ↔ ∃ c, sm_lookup k (connectionMap_ s) = Some c ∧
       cr_state (GetCallReportInfo (conn_base c)) ≠ CALL_STATUS_DISCONNECTED) CSControl_new [].
Proof.
  split.
  - eapply wp_mono; [apply (cs_view_refines_map False); [done|done|]|].
    { repeat apply Forall_cons_2; try apply Forall_nil_2; apply live_list_wf;
        repeat apply Forall_cons_2; try apply Forall_nil_2; by split. }
    intros [] s e [_ Hv]. apply Hv. tauto.
  - eapply wp_mono; [apply (cs_view_refines_map True); [done|done|]|].
    { apply Forall_cons_2; [|apply Forall_nil_2]. split.
      - repeat apply Forall_cons_2; try apply Forall_nil_2; by split.
      - intros c1 c2 H1 H2 Heq Hd.
        repeat (apply elem_of_cons in H1 as [->|H1]); try (by apply elem_of_nil in H1);
          repeat (apply elem_of_cons in H2 as [->|H2]); try (by apply elem_of_nil in H2); done. }
    intros [] s e [Hv _]. exact Hv.
Defined.

Lemma end_reason_protocol_witness :
  ReportCsCallsData 0 sample_list_1 true sample_cs [] =
    (TELEPHONY_SUCCESS, sample_cs, [Ril 0 RADIO_GET_CALL_FAIL_REASON RilGetCallFailReason]).
Proof.
  apply (end_reason_protocol 0 sample_list_1 16 sample_cs [] sample_cs_inv sample_reachable);
    [done|].
  exists 2, (sample_call 2 CALL_STATUS_WAITING "10010"). by split_and!.
Defined.

(** ** User operations *)

Lemma HangUp_spec_witness :
  wp (HangUp (sample_info 2 "10010") TYPE_DEFAULT)
    (λ r s' e, r = TELEPHONY_SUCCESS ∧
       e = disconnecting_report [] (sample_call 2 CALL_STATUS_WAITING "10010") ++
           [Ril 0 RADIO_HANGUP_CONNECT (RilHangup 2)]) sample_cs [].
Proof.
  weaken_spec (HangUp_spec (sample_info 2 "10010") TYPE_DEFAULT sample_cs [] sample_cs_inv
              sample_reachable).
  intros r s' e (-> & _ & ->). by split.
Defined.

Lemma Answer_spec_witness :
  wp (Answer (sample_info 2 "10010"))
    (λ r s' e, r = TELEPHONY_SUCCESS ∧
       e = [Ril 0 RADIO_SWAP_CALL RilSwitchCall; Ril 0 RADIO_SET_CMUT (RilSetMute false);
            Ril 0 RADIO_ACCEPT_CALL RilAnswer]) sample_cs [].
Proof.
  weaken_spec (Answer_spec (sample_info 2 "10010") sample_cs [] sample_cs_inv
                 (λ _ _, eq_refl)).
  intros r s' e (_ & -> & ->). by split.
Defined.

Lemma Reject_spec_witness :
  wp (Reject (sample_info 1 "10086"))
    (λ r s' e, r = CALL_ERR_CALL_STATE ∧ s' = sample_cs ∧ Forall is_hisys e) sample_cs [].
Proof.
  exact (Reject_spec (sample_info 1 "10086") sample_cs [] sample_cs_inv sample_reachable).
Defined.

Lemma hold_switch_guard_witness :
  SwitchCall 0 sample_cs [] = (TELEPHONY_SUCCESS, sample_cs, [Ril 0 RADIO_SWAP_CALL RilSwitchCall]).
Proof.
  apply (hold_switch_guard 0 sample_cs [] sample_cs_inv sample_reachable).
  intros (k & c & Hk & Hc). cbn in Hk. repeat case_match; by simplify_eq.
Defined.

Lemma DialGsm_spec_witness :
  wp (DialGsm (sample_info 3 "139-1234,5"))
    (λ r s' e, r = TELEPHONY_SUCCESS ∧ pendingPhoneNumber_ s' = "1391234,5" ∧
       e = [Ril 0 RADIO_SWAP_CALL RilSwitchCall; SetMute 0 0;
            Ril 0 RADIO_DIAL (RilDial "1391234" DEFAULT)]) sample_cs [].
Proof.
  pose proof (DialGsm_spec (sample_info 3 "139-1234,5") sample_cs [] sample_reachable) as Hd.
  cbv zeta in Hd. unfold wp at 1 in Hd.
  assert (IsNeedExecuteMMI (S := CSControl) 0 "1391234,5" DEFAULT false sample_cs [] =
            ((false, "1391234,5"%string, DEFAULT), sample_cs, [])) as Hmmi by (vm_compute; reflexivity).
  change (RemoveSeparatorsPhoneNumber _) with "1391234,5" in Hd.
  change (ci_slotId _) with 0 in Hd. rewrite Hmmi in Hd.
  eapply wp_mono; [exact Hd|]. intros r s' e (-> & -> & ->). by split_and!.
Defined.

Lemma ignored_incoming_is_silent_witness :
  wp (ReportCallsData 0 sample_list_1)
    (λ r s' e, r = TELEPHONY_SUCCESS ∧ isIgnoredIncomingCall_ s' = true)
    (set_isIgnoredIncomingCall true sample_cs) [].
Proof.
  weaken_spec (ignored_incoming_is_silent 0 sample_list_1 (set_isIgnoredIncomingCall true sample_cs) []
              sample_cs_inv eq_refl ltac:(discriminate) (λ _, eq_refl)).
  intros r s' e (-> & _ & -> & _). by split.
Defined.

(** ** Preparing a dial, MMI dispatch *)

Lemma HandleEcc_ready_witness :
  wp (HandleEcc (sample_info 1 "110") true true false)
    (λ r s' e, s' = sample_cs ∧ UpdateRadioOn 0 ∈ e ∧ ecc_done 0 [] r e) sample_cs [].
Proof.
  weaken_spec (HandleEcc_ready (sample_info 1 "110") true true false sample_cs []).
  intros r s' e (-> & _ & Hon & Hdone). split_and!; [done|by apply Hon|done].
Defined.

(** A supplementary service that only notes what it is asked to do. *)
Inductive SupplementNote :=
  | NoteHandled (f : MmiHandler) (slotId : Z) (data : MMIData)
  | NoteUssd (slotId : Z) (msg : string).
#[local] Instance note_supplement : SupplementOps (list SupplementNote) := {
  supplement_handle f slotId data := mmodify (λ s, s ++ [NoteHandled f slotId data]);
  SendUssd slotId msg := mmodify (λ s, s ++ [NoteUssd slotId msg])
}.
Definition sample_mmi : MMIData :=
  data_of {| p_action := "*#"; p_code := "31"; p_si := []; p_dial := "" |}.

Lemma ExecuteMmiCode_dispatch_witness :
  (ExecuteMmiCode {| mmiData_ := sample_mmi; isNeedUseIms_ := false |} 0 [] []).1 =
    (true, [NoteHandled HandleClir 0 sample_mmi]).
Proof.
  pose proof (ExecuteMmiCode_dispatch sample_mmi false 0 (or_introl eq_refl) eq_refl
                ltac:(discriminate)) as Hd.
  rewrite Hd. reflexivity.
Defined.

End WitnessCS.

(** ** WitnessIMS: the IMS properties at concrete inputs

    An IMS control with an active call 1 (its index is 1) and a waiting call 2;
    each IMS property that has hypotheses is applied there. *)

Module WitnessIMS.
Import Prelude Platform Samples Standardize StdMap Connection MmiCode Emergency ControlBase.
Import CallMap CallReport ConnectionCS ConnectionIMS ImsControl ImsControlFacts ImsUser.

Open Scope Z_scope.

#[local] Existing Instances sample_consts sample_env sample_consts_ok sample_env_securec.

(** ** The sample control *)

Definition sample_ims_call (i state : Z) (number : string) : CellularCallConnectionIMS :=
  upd (λ b, SetNumber number (SetStatus state (SetIndex i b))) CellularCallConnectionIMS_new.
Definition sample_ims : IMSControl :=
  set_connectionMap
    (sm_insert 1 (sample_ims_call 1 CALL_STATUS_ACTIVE "10086")
       (sm_insert 2 (sample_ims_call 2 CALL_STATUS_WAITING "10010") [])) IMSControl_new.
Definition sample_ims_info (i : Z) (number : string) : CellularCallInfo :=
  {| ci_callId := i; ci_phoneNum := number; ci_slotId := 0; ci_accountId := 0;
     ci_callType := TYPE_IMS; ci_videoState := 0; ci_index := i; ci_isRTT := false |}.
Definition sample_ims_entry (i state : Z) (number : string) : ImsCurrentCall :=
  {| im_index := i; im_dir := 0; im_state := state; im_mode := 0; im_mpty := 0;
     im_voiceDomain := 0; im_callType := TYPE_VOICE; im_number := number; im_name := "";
     im_type := 0; im_alpha := ""; im_toa := 0; im_toneType := 0; im_callInitialType := 0;
     im_namePresentation := 0; im_newCallUseBox := 0; im_rttState := 0; im_rttChannelId := 0;
     im_imsDomain := 0 |}.
(** Only call 1 is left, now on hold. *)
Definition sample_ims_list : ImsCurrentCallList :=
  {| iml_callSize := 1; iml_flag := 0;
     iml_calls := [sample_ims_entry 1 CALL_STATUS_HOLDING "10086"] |}.

Lemma sample_ims_inv : conns_inv sample_ims.
Proof.
  split.
  - apply conns_ok_insert; [apply conns_ok_insert; [apply conns_ok_nil|done]|done].
  - apply unmarked_insert; [|apply unmarked_insert; [|apply unmarked_nil|]|]; try done.
    + apply smap_ok_insert, smap_ok_nil.
    + apply smap_ok_nil.
Qed.
Lemma sample_ims_service h : NeedCallImsService h = true.
Proof. done. Qed.

Lemma IMS_ReportUpdateInfo_diff_witness :
  wp (ReportUpdateInfo 0 sample_ims_list)
    (λ r s' e, r = TELEPHONY_SUCCESS ∧
       sm_lookup 2 (connectionMap_ s') = None ∧
       ∃ c, sm_lookup 1 (connectionMap_ s') = Some c ∧
         cr_state (GetCallReportInfo (conn_base c)) = CALL_STATUS_HOLDING)
    sample_ims [].
Proof.
  weaken_spec (IMS_ReportUpdateInfo_diff 0 sample_ims_list sample_ims [] sample_ims_inv).
  intros r s' e ((_ & _ & Hm) & _ & e1 & _ & Hr). destruct Hr as [-> _].
  split; [done|]. split; [exact (Hm 2)|]. destruct (Hm 1) as (c & Hc & Hrep & _). exists c.
  split; [done|]. by rewrite Hrep.
Defined.

Lemma ims_reachable_inv_witness :
  conns_inv IMSControl_new ∧
  ∀ i, FindConnectionByIndex (connectionMap_ IMSControl_new) i =
         (λ c, (i, c)) <$> sm_lookup i (connectionMap_ IMSControl_new).
Proof.
  apply (ims_reachable_inv [] IMSControl_new
           (([] : list Effect) ++ (run_op (OpHoldCall 0 false) IMSControl_new []).2)).
  apply rtc_once, (ims_step_op (OpHoldCall 0 false)). reflexivity.
Defined.

Lemma hold_to_dial_once_witness :
  wp (DialJudgment 0 "1391234,5" DEFAULT 0 false)
    (λ r s1 e1, r = TELEPHONY_SUCCESS ∧ e1 = [Ims (ImsSwitchCall 0 0 false)] ∧
       wp (DialAfterHold 0)
         (λ _ s2 e2,
            e2 = [Ims (ImsDial {| ic_phoneNum := "1391234"; ic_slotId := 0; ic_videoState := 0;
                                  ic_index := 0; ic_isRTT := false |} DEFAULT)] ∧
            wp (DialAfterHold 0) (λ _ s3 e3, e3 = [] ∧ s3 = s2) s2 e2) s1 e1) sample_ims [].
Proof.
  weaken_spec (hold_to_dial_once 0 "1391234,5" DEFAULT 0 false sample_ims [] 1
                 (sample_ims_call 1 CALL_STATUS_ACTIVE "10086") sample_ims_inv sample_ims_service
                 ltac:(discriminate) eq_refl eq_refl eq_refl).
  intros r s1 e1 (-> & -> & H1). split; [done|split; [done|]].
  weaken_spec (H1 [Ims (ImsSwitchCall 0 0 false)]). intros [] s2 e2 (-> & _ & H2). split; [done|].
  weaken_spec (H2 [Ims (ImsDial {| ic_phoneNum := "1391234"; ic_slotId := 0; ic_videoState := 0;
                                  ic_index := 0; ic_isRTT := false |} DEFAULT)]).
  intros [] s3 e3 (-> & -> & _). by split.
Defined.

Lemma IMS_Answer_spec_witness :
  wp (Answer (sample_ims_info 2 "10010"))
    (λ r s' e, r = TELEPHONY_SUCCESS ∧ e = [Ims (ImsSwitchCall 0 0 false)] ∧
       ∃ con', sm_lookup 1 (connectionMap_ s') = Some con' ∧ IsPendingHold con' = true)
    sample_ims [].
Proof.
  weaken_spec (IMS_Answer_spec (sample_ims_info 2 "10010") sample_ims [] sample_ims_inv
                 sample_ims_service eq_refl eq_refl).
  intros r s' e (-> & -> & con & Hk & Hp). split_and!; [done|done|]. by exists con.
Defined.

Lemma ims_numbers_fit_witness :
  sends number_fits (IMS_AnswerRequest 0 "10010" 0 2 false : Op IMSControl Z).
Proof. apply (ims_numbers_fit 0 "10010" 0 2 false ImsDialInfoStruct_init). done. Defined.

(** The radio is off, the number is an emergency number. *)
Section RadioOff.
#[local] Existing Instance sample_env_off.

Lemma emergency_dial_waits_for_radio_witness :
  wp (Dial (sample_ims_info 0 "110") true)
    (λ r s1 e1, r = TELEPHONY_SUCCESS ∧ isPendingEmc_ s1 = true ∧
       last e1 = Some (FfrtSubmitRadioOnTimeout WAIT_FOR_RADIO_ON)) IMSControl_new [].
Proof.
  pose proof (emergency_dial_waits_for_radio (sample_ims_info 0 "110") IMSControl_new [] eq_refl
    (λ _, eq_refl)) as Hp.
  cbv zeta in Hp. unfold wp at 1 in Hp.
  destruct (DialPreJudgment _ _ _ _) as [[v s1] e1] eqn:Ed.
  assert (v = CALL_ERR_GET_RADIO_STATE_FAILED) as Hv.
  { pose proof (f_equal (λ x, x.1.1) Ed) as Hx. vm_compute in Hx. by rewrite <-Hx. }
  eapply wp_mono; [exact (Hp Hv)|]. intros r s' e (-> & -> & _ & _ & _ & Hl & _).
  by split_and!.
Defined.
End RadioOff.

End WitnessIMS.

(** ** WitnessSat: the satellite and video properties at concrete inputs

    A satellite control with an active call 1 and a waiting call 2. *)

Module WitnessSat.
Import Prelude Platform Samples Standardize StdMap Connection MmiCode Emergency ControlBase.
Import CallMap CallReport ConnectionCS ConnectionIMS ConnectionSatellite SatelliteControl.
Import SatelliteFacts VideoControl.

Open Scope Z_scope.

#[local] Existing Instances sample_consts sample_env sample_consts_ok sample_env_securec.

Definition sample_sat_call (i state : Z) (number : string) : CellularCallConnectionSatellite :=
  upd (λ b, SetNumber number (SetStatus state (SetIndex i b))) CellularCallConnectionSatellite_new.
Definition sample_sat : SatelliteControl :=
  set_connectionMap
    (sm_insert 1 (sample_sat_call 1 CALL_STATUS_ACTIVE "10086")
       (sm_insert 2 (sample_sat_call 2 CALL_STATUS_WAITING "10010") [])) SatelliteControl_new.
Definition sample_sat_info (i : Z) (number : string) : CellularCallInfo :=
  {| ci_callId := i; ci_phoneNum := number; ci_slotId := 0; ci_accountId := 0;
     ci_callType := TYPE_SATELLITE; ci_videoState := 0; ci_index := i; ci_isRTT := false |}.
(** Only call 1 is left. *)
Definition sample_sat_list : SatelliteCurrentCallList :=
  {| sal_callSize := 1; sal_flag := 0;
     sal_calls := [{| sa_index := 1; sa_dir := 0; sa_state := CALL_STATUS_ACTIVE; sa_mode := 0;
                      sa_mpty := 0; sa_voiceDomain := 0; sa_callType := 0; sa_number := "10086";
                      sa_type := 0; sa_alpha := ""; sa_toa := 0 |}] |}.

Lemma sample_sat_inv : conns_inv sample_sat.
Proof.
  split.
  - apply conns_ok_insert; [apply conns_ok_insert; [apply conns_ok_nil|done]|done].
  - apply unmarked_insert; [|apply unmarked_insert; [|apply unmarked_nil|]|]; try done.
    + apply smap_ok_insert, smap_ok_nil.
    + apply smap_ok_nil.
Qed.

Lemma Sat_ReportUpdateInfo_diff_witness :
  wp (ReportUpdateInfo 0 sample_sat_list)
    (λ r s' e, r = TELEPHONY_SUCCESS ∧ sm_lookup 2 (connectionMap_ s') = None) sample_sat [].
Proof.
  weaken_spec (Sat_ReportUpdateInfo_diff 0 sample_sat_list sample_sat [] sample_sat_inv).
  intros r s' e ((_ & _ & Hm) & _ & Hr). destruct Hr as [-> _].
  split; [done|exact (Hm 2)].
Defined.

Lemma sat_reachable_inv_witness :
  conns_inv SatelliteControl_new ∧
  ∀ i, FindConnectionByIndex (connectionMap_ SatelliteControl_new) i =
         (λ c, (i, c)) <$> sm_lookup i (connectionMap_ SatelliteControl_new).
Proof.
  apply (sat_reachable_inv [] SatelliteControl_new
           (([] : list Effect) ++ (run_op (OpHangUpAllConnection 0) SatelliteControl_new []).2)).
  apply rtc_once, (sat_step_op (OpHangUpAllConnection 0)). reflexivity.
Defined.

Lemma Sat_Answer_spec_witness :
  wp (Answer (sample_sat_info 2 "10010"))
    (λ r s' e, r = TELEPHONY_SUCCESS ∧ s' = sample_sat ∧
       e = [Sat (SatHangUp 0 1); Sat (SatAnswer 0)]) sample_sat [].
Proof.
  weaken_spec (Sat_Answer_spec (sample_sat_info 2 "10010") sample_sat [] sample_sat_inv
                 (λ _, eq_refl)).
  intros r s' e (-> & -> & ->). by split_and!.
Defined.

Lemma media_mode_exchange_witness :
  (SendUpdateCallMediaModeRequest (sample_sat_info 1 "10086") CALL_MODE_SEND_RECEIVE () []).1.1 =
    TELEPHONY_SUCCESS.
Proof.
  destruct (@media_mode_exchange sample_consts sample_env sample_consts_ok
              (sample_env_securec _ _) () (sample_sat_info 1 "10086") CALL_MODE_SEND_RECEIVE () []
              (λ _, eq_refl) (λ _, eq_refl) ltac:(unfold call_modes; set_solver)) as [Hfit _].
  destruct (Hfit eq_refl) as [-> _]. reflexivity.
Defined.

End WitnessSat.

(** ** WitnessService: the properties of the service and of the handlers at concrete inputs

    A device with two slots; slot 0 carries the CS calls of [WitnessCS]. *)

Module WitnessService.
Import Prelude Platform Samples Standardize StdMap Connection MmiCode Emergency ControlBase.
Import CallMap CallReport ConnectionCS CsControl CsControlFacts CsUser ConnectionIMS ImsControl.
Import ImsUser ConnectionSatellite SatelliteControl Service ServiceFacts Handler SsTypes.
Import SupplementRequestCs Supplement SupplementHandler SupplementFacts HandlerFacts System.
Import ServiceUser HandlerUser PhoneNumber WitnessCS.

Open Scope Z_scope.

#[local] Existing Instances sample_consts sample_env sample_consts_ok sample_env_securec.

Definition sample_service_env : ServiceEnv :=
  {| SIM_SLOT_COUNT := 2; DEFAULT_SIM_SLOT_ID := 0; SIM_SLOT_0 := 0; SIM_SLOT_1 := 1;
     CS_VOICE_ONLY := 1; core_ImsRegistered := λ _ slotId, slotId =? 1;
     video_instance := λ _, true; GetPreferenceMode := λ _ _, 3;
     GetImsPreferForEmergencyConfig := λ _ _, true |}.
Definition sample_handler_env : HandlerEnv :=
  {| CALL_MANAGER_AUTO_START_OPTIMIZE := true; CELLULAR_CALL_REDCAP_ABILITY := true;
     ErrType_NONE := 0; ERR_CMD_NO_CARRIER := 1; DISCONNECTED_REASON_NORMAL := 16;
     CallInfoList_init := {| cal_callSize := 0; cal_calls := [] |};
     core_GetIMSI := λ _ _, "460001234567890"; CurrentTimeMillis := λ _, 0;
     GetCallFailedMessageName := λ _ _, Some "normal"; GetStringValueByName := λ _ name, name;
     IsVolteSupport := λ _ _, true; HasSimProfile := λ _ _, true |}.
Definition sample_supplement_env : SupplementEnv :=
  {| SECURITY_GUARDE_ENABLE := true; IMS_ERROR_UT_NO_CONNECTION := 100;
     CALL_ERR_UT_NO_CONNECTION := 101; TELEPHONY_ERR_RIL_CMD_FAIL := 102;
     TRANSFER_TYPE_UNCONDITIONAL := 0; TRANSFER_TYPE_BUSY := 1; TRANSFER_TYPE_NO_REPLY := 2;
     TRANSFER_TYPE_NOT_REACHABLE := 3; TRANSFER_TYPE_ALL := 4; TRANSFER_TYPE_CONDITIONAL := 5;
     CALL_TRANSFER_DISABLE := 0; CALL_TRANSFER_ENABLE := 1; CALL_TRANSFER_REGISTRATION := 3;
     CALL_TRANSFER_ERASURE := 4; MIN_HOUR := 0; MIN_MINUTE := 0;
     RESTRICTION_TYPE_ALL_OUTGOING := 0; RESTRICTION_TYPE_INTERNATIONAL := 1;
     RESTRICTION_TYPE_INTERNATIONAL_EXCLUDING_HOME := 2; RESTRICTION_TYPE_ALL_INCOMING := 3;
     RESTRICTION_TYPE_ROAMING_INCOMING := 4; RESTRICTION_TYPE_ALL_CALLS := 5;
     RESTRICTION_TYPE_OUTGOING_SERVICES := 6; RESTRICTION_TYPE_INCOMING_SERVICES := 7;
     RESTRICTION_MODE_DEACTIVATION := 0; RESTRICTION_MODE_ACTIVATION := 1;
     SS_ACTIVATION := 0; SS_DEACTIVATION := 1; SS_REGISTRATION := 2; SS_ERASURE := 3;
     SS_INTERROGATION := 4;
     MmiCodeInfo_init :=
       {| mi_result := 0; mi_message := ""; mi_mmiCodeType := 0; mi_action := 0; mi_status := 0;
          mi_classCw := 0; mi_reason := 0; mi_number := ""; mi_time := 0 |};
     CallTransferInfo_init :=
       {| ct_transferNum := ""; ct_settingType := 0; ct_type := 0; ct_startHour := 0;
          ct_startMinute := 0; ct_endHour := 0; ct_endMinute := 0 |};
     CallForwardQueryResult_init :=
       {| cq_serial := 0; cq_result := 0; cq_status := 0; cq_classx := 0; cq_number := ""; cq_type := 0;
          cq_reason := 0; cq_time := 0; cq_startHour := 0; cq_startMinute := 0; cq_endHour := 0;
          cq_endMinute := 0 |};
     sizeof_mmi_message := 500; sizeof_mmi_number := 101; sizeof_transfer_number := 101;
     sizeof_restriction_password := 100; callForwardingSlotId_init := 0;
     atoi_overflow := λ _, -1;
     pin_answer := λ _ _, {| pp_result := 0; pp_remain := 3 |};
     CanSetCallTransferTime_answer := λ _ _ b, b;
     GetCallWaitingServiceClassConfig := λ _ _, 1; ext_isEmptyMmiResultFiltered := None;
     ext_unescapeHtmlCode := None; ext_isUssdReleaseMsgFiltered := None;
     showMmiErrStr := λ _, "true"; TrimStr := λ s, s |}.
#[local] Existing Instances sample_service_env sample_handler_env sample_supplement_env.

Lemma sample_supplement_env_ok : SupplementEnvOk.
Proof.
  split; simpl; try done; try lia; try (apply (bool_decide_unpack _); vm_compute; exact I).
Defined.

(** ** The machine *)

Definition sample_activity (a : activity) (x : System * list Effect) : System * list Effect :=
  let '(_, s, e) := run_activity a x.1 x.2 in (s, x.2 ++ e).
Lemma sample_step a x : sys_step x (sample_activity a x).
Proof.
  destruct x as [s h]. unfold sample_activity. simpl.
  destruct (run_activity a s h) as [[[] s'] e] eqn:Hr. by eapply Step_activity.
Qed.
(** Dial on slot 0, and the modem's list of the call. *)
Definition sample_run : System * list Effect :=
  sample_activity (ActEvent 0 (EvCsCallsData (Data sample_list_1)))
    (sample_activity (ActCall (OpDial (sample_info 1 "10086"))) (System_new true, [])).

Lemma system_reachable_inv_witness :
  service_inv (sys_service sample_run.1) ∧
  ∃ c, GetCsControl 0 (sys_service sample_run.1) = Some c ∧
       FindConnectionByIndex (CsControl.connectionMap_ c) 1 ≠ None.
Proof.
  destruct (system_reachable_inv true [] sample_run.1 sample_run.2) as (Hinv & _ & _).
  { rewrite <-surjective_pairing. eapply rtc_r; [|apply sample_step].
    eapply rtc_r; [|apply sample_step]. reflexivity. }
  split; [exact Hinv|]. eexists. split; [vm_compute; reflexivity|by vm_compute].
Defined.

Lemma slot_isolation_witness :
  wp (run_activity (ActCall (OpDial (sample_info 1 "10086"))))
    (λ _ s' _, slot_view 1 (sys_service s') = slot_view 1 CellularCallService_new) (System_new true) [].
Proof.
  eapply wp_mono; [apply (slot_isolation _ 0); [reflexivity|apply CreateHandler_ok]|].
  intros r s' e [Hj _]. by destruct (Hj 1) as [Hv _].
Defined.

(** ** Operations *)

Definition sample_srvcc : CellularCallService := SetSrvccState STARTED CellularCallService_new.

Lemma refused_call_witness :
  wp (run_call (OpAnswer (sample_info 1 "10086")))
    (λ r s' e, r = TELEPHONY_ERR_FAIL ∧ s' = sample_srvcc ∧ Forall is_hisys e) sample_srvcc [] ∧
  (run_call (OpSetReadyToCall 0 0 true) sample_srvcc []).1.1 =
    (run_call (OpSetReadyToCall 0 0 true) CellularCallService_new []).1.1.
Proof.
  split; [by apply (refused_call (OpAnswer (sample_info 1 "10086")))|].
  unfold sample_srvcc.
  pose proof (refused_call (OpSetReadyToCall 0 0 true) CellularCallService_new [] STARTED) as Hp.
  rewrite Hp. by destruct (run_call _ CellularCallService_new []) as [[r s'] e].
Defined.

Lemma gone_call_is_reported_witness :
  wp (run_call (OpHangUp (sample_info 1 "10086") 0))
    (λ r s' e, r = TELEPHONY_ERR_LOCAL_PTR_NULL ∧ s' = CellularCallService_new ∧ e ≠ [])
    CellularCallService_new [].
Proof.
  eapply wp_mono; [apply (gone_call_is_reported _ (sample_info 1 "10086"));
    [exact sample_consts_ok|exact (sample_env_securec false 1)|constructor|reflexivity|left; by split|by intros ?|by vm_compute]|].
  intros r s' e (-> & -> & e1 & info & -> & _). split_and!; [done|done|]. by destruct e1.
Defined.

Lemma Dial_channel_witness :
  Dial (sample_info 1 "10086") CellularCallService_new [] =
    run_on_slot 0 (λ E, CsControl.Dial (sample_info 1 "10086") false) CellularCallService_new [].
Proof.
  destruct (@Dial_channel sample_consts sample_env sample_service_env (sample_info 1 "10086")
    CellularCallService_new [] eq_refl) as (_ & _ & Hcs).
  apply Hcs.
  - intros [_ Hon]. discriminate Hon.
  - intros [_ [[Hreg _]|[Hecc _]]]; [discriminate Hreg|]. vm_compute in Hecc. discriminate Hecc.
Defined.

(** ** Events *)

(** The handler of slot 0, with the given controls in its slot. *)
Definition sample_handler (cs : option CSControl) (ims : option IMSControl) : HandlerState :=
  {| this := CellularCallHandler_new 0 true;
     serviceInstance := SetImsControl 0 ims (SetCsControl 0 cs CellularCallService_new);
     strEnterEventResult_ := None |}.
Definition sample_no_calls : CallInfoList := {| cal_callSize := 0; cal_calls := [] |}.
Definition sample_command : SsRequestCommand :=
  {| ss_cfAction := 1; ss_cfReason := 2; ss_number := "10086"; ss_enable := true;
     ss_clirAction := 0; ss_facility := ""; ss_password := "1234"; ss_classType := 1;
     ss_action := 3; ss_flag := 4; ss_isIncludeCallForwardingNumber := true |}.

Lemma ss_command_roundtrip_witness :
  wp (save_command sample_command) (λ index t1 e,
    index = 1 ∧ GetSsRequestCommand 1 SsRequestCommand_init t1 [] =
      (TELEPHONY_SUCCESS, copied sample_command SsRequestCommand_init, t1, []))
    (CellularCallHandler_new 0 true) [].
Proof.
  assert (commands_ok (CellularCallHandler_new 0 true)) as Hok.
  { split_and!; [apply smap_ok_nil|done|done|]. intros k Hk. by apply elem_of_nil in Hk. }
  assert (string_size (ss_password sample_command) ≤ kMaxNumberLen) as Hpw by by vm_compute.
  pose proof (@ss_command_roundtrip sample_consts sample_env sample_command _ [] SsRequestCommand_init
    0 0 (sample_env_securec false 1) Hok Hpw) as Hp.
  unfold wp in *. rewrite save_command_run in * by done. simpl in Hp.
  destruct Hp as (_ & _ & _ & Hg & _). by split.
Defined.

Lemma cs_calls_end_witness :
  wp (ReportCsCallsData sample_no_calls) (λ _ s1 _,
    carries_cs 0 sample_cs s1 ∧
    wp (GetCallFailReasonResponse (FailReason 17)) (λ _ s2 _,
      GetCsControl 0 (serviceInstance s2) = None) s1 []) (sample_handler (Some sample_cs) None) [].
Proof.
  assert (carries_cs 0 sample_cs (sample_handler (Some sample_cs) None)) as Hs.
  { split; [done|done|done|done|exact sample_cs_inv|done]. }
  eapply wp_mono; [apply (cs_calls_end 0 sample_cs _ sample_no_calls [] Hs);
    [by split|done|done|done]|].
  intros r s1 e Hp. replace (CsControl.HasEndCallWithoutReason _ _) with true in Hp by done.
  destruct Hp as (Hs1 & _ & _ & Hend). split; [done|].
  eapply wp_mono; [apply (Hend (FailReason 17) [])|]. by intros ? s2 ? [Hn _].
Defined.

Lemma srvcc_completes_witness :
  wp (UpdateSrvccStateReport (Some COMPLETED)) (λ _ s1 e,
    e = [] ∧ GetImsControl 0 (serviceInstance s1) = None ∧
    GetCsControl 0 (serviceInstance s1) = Some CSControl_new) (sample_handler None (Some IMSControl_new)) [].
Proof.
  eapply wp_mono; [by apply (srvcc_completes 0)|].
  intros r s1 e (-> & _ & Hims & _ & _ & _ & Hcs). by split_and!.
Defined.

Lemma cs_end_lost_behind_idle_ims_witness :
  wp (HandleCallDisconnectReason 17 "busy") (λ _ s2 e2,
    GetCsControl 0 (serviceInstance s2) = None ∧ List.length e2 = 1%nat)
    (sample_handler (Some sample_cs) (Some IMSControl_new)) [].
Proof.
  eapply wp_mono; [by apply (cs_end_lost_behind_idle_ims 0 sample_cs IMSControl_new)|].
  by intros r s2 e (Hn & _ & ->).
Defined.

(** The radio of the power-saving build comes on for a pending call. *)
Section RadioOn.
#[local] Instance sample_env_power : Env := sample_env_with true 1.
Definition sample_pending : IMSControl :=
  setPendingEmcFlag true (set_pendingEmcDialCallInfo (sample_info 1 "110") IMSControl_new).

Lemma radio_on_dials_pending_witness :
  wp (RadioStateChangeProcess (Some CORE_SERVICE_POWER_ON)) (λ _ s' _,
    ∃ c3, GetImsControl 0 (serviceInstance s') = Some c3 ∧ isPendingEmc_ c3 = false)
    (sample_handler None (Some sample_pending)) [].
Proof.
  pose proof (radio_on_dials_pending 0 sample_pending (sample_handler None (Some sample_pending)) []
    eq_refl eq_refl eq_refl eq_refl (λ _, eq_refl)) as Hp. cbv zeta in Hp.
  eapply wp_mono; [exact Hp|]. intros r s' e (e0 & _ & Hd).
  destruct (ImsControl.Dial _ _ _ _) as [[r' c2] e1]. destruct Hd as (c3 & e2 & _ & Hc & Hf & _).
  by exists c3.
Defined.
End RadioOn.

End WitnessService.
