(* ===== verification/WitnessTables.v ===== *)
(** * WitnessTables: the properties of the supplementary services and of the configuration
    at concrete inputs *)

From stdpp Require Import base tactics option list numbers strings gmap pretty functions relations.
From Stdlib Require Import ZArith Lia Ascii String.
From S2P Require Prelude SsTypes ConfigTypes Platform Samples Standardize StdMap MmiCode Emergency.
From S2P Require ControlBase ConnectionIMS Service Handler SupplementRequestCs SupplementRequestIms.
From S2P Require Supplement SupplementCodes SupplementHandler SupplementFacts SupplementUser.
From S2P Require ConfigRequest Config ConfigEcc ConfigHandler ConfigFacts ConfigEccFacts ConfigSystem.
From S2P Require WitnessCalls.

(** ** WitnessSupplement: the properties of the supplementary services at concrete inputs *)

Module WitnessSupplement.
Import Prelude SsTypes Platform Samples Standardize StdMap MmiCode ControlBase Service Handler.
Import SupplementRequestCs SupplementRequestIms Supplement SupplementCodes SupplementHandler.
Import SupplementFacts SupplementUser WitnessCalls.WitnessService.

Open Scope Z_scope.

#[local] Existing Instances sample_consts sample_env sample_consts_ok.
#[local] Existing Instances sample_service_env sample_handler_env sample_supplement_env.
#[local] Existing Instance sample_supplement_env_ok.
#[local] Instance sample_securec : @SecurecOk sample_env := sample_env_securec false 1.

Definition sample_code (action code a b : string) : MMIData :=
  {| fullString := ""; actionString := action; serviceCode := code; serviceInfoA := a;
     serviceInfoB := b; serviceInfoC := b; pwdString := ""; dialString := "" |}.
Definition sample_t : CellularCallHandler := CellularCallHandler_new 0 true.
Definition sample_idle : HandlerState := sample_handler None None.
Definition sample_result : SsBaseResult :=
  {| sb_index := 1; sb_result := 0; sb_reason := 0; sb_message := "done" |}.

Lemma sample_commands_ok : commands_ok sample_t.
Proof. apply (handler_ok_new 0 true). Qed.
Lemma sample_saved_ok c : commands_ok (saved sample_t c).
Proof. exact (saved_ok sample_t c sample_commands_ok). Qed.

Lemma mmi_code_outcome_witness :
  is_service MmiCode.HandleClir ∧
  wp (run_mmi_handler MmiCode.HandleClir 0 (sample_code "*" "31" "" ""))
    (λ _ t' e, t' = saved sample_t (ss_set_action 1 SsRequestCommand_init) ∧ List.length e = 1%nat)
    sample_t [].
Proof.
  assert (is_service MmiCode.HandleClir) as Hf by (unfold is_service; set_solver).
  split; [exact Hf|].
  pose proof (mmi_code_outcome ltac:(done) MmiCode.HandleClir 0 (sample_code "*" "31" "" "")
    sample_t [] Hf sample_commands_ok) as Hp.
  unfold wp in *. destruct (run_mmi_handler _ _ _ _ _) as [[u t'] e] eqn:Hrun.
  vm_compute in Hrun. injection Hrun as <- <- <-. destruct Hp as [_|_]; by split.
Defined.

(** The state after the code star 31 hash was taken. *)
Definition sample_waiting (flag : Z) : HandlerState :=
  saved_at sample_idle (ss_set_flag flag (ss_set_action 1 SsRequestCommand_init)).

Lemma answers_find_their_command_witness :
  wp (run_ss_event (OnSetClir (Some sample_result)))
    (λ _ s' e, s' = answered 1 (sample_waiting 1) ∧ Forall to_settings e) (sample_waiting 1) [].
Proof.
  eapply wp_mono.
  { apply (answers_find_their_command (OnSetClir (Some sample_result)) 1 (sample_waiting 1) []);
      [reflexivity|apply sample_saved_ok]. }
  intros [] s' e Hp. exact Hp.
Defined.

Lemma set_code_end_to_end_witness :
  shown_action "##" = SUB_TYPE_ACTIVE ∧
  wp (supplement_handle MmiCode.HandleCallTransfer 0 (sample_code "##" "21" "" ""))
    (λ _ s1 _, wp (run_ss_event (OnSetCallForward (Some sample_result))) (λ _ s2 e2,
       ∃ info, dialog_infos e2 = [info] ∧ mi_action info = SUB_TYPE_ACTIVE) s1 []) sample_idle [].
Proof.
  split; [reflexivity|].
  pose proof (set_code_end_to_end MmiCode.HandleCallTransfer 0 (sample_code "##" "21" "" "")
    sample_idle [] sample_result ltac:(done) ltac:(done)
    ltac:(split; [unfold is_service; set_solver|simpl; set_solver])
    sample_commands_ok eq_refl) as Hp.
  unfold wp in Hp at 1 |- * at 1.
  destruct (supplement_handle _ _ _ _ _) as [[u s1] e1] eqn:Hrun.
  destruct Hp as [(_ & m & Hm & _)|[(Hp & _)|(_ & _ & Hans)]].
  - vm_compute in Hrun. injection Hrun as _ _ <-. discriminate Hm.
  - destruct Hp as [[=] _].
  - eapply wp_mono; [apply (Hans [])|]. intros [] s2 e2 (_ & info & Hi & _ & Ha & _).
    exists info. split; [exact Hi|exact Ha].
Defined.

Definition sample_transfer : CallTransferInfo :=
  {| ct_transferNum := "10086"; ct_settingType := 3; ct_type := 0; ct_startHour := 0;
     ct_startMinute := 0; ct_endHour := 0; ct_endMinute := 0 |}.
Lemma setting_outcome_witness :
  wp (run_setting (OpSetCallTransferInfo 0 sample_transfer)) (λ r t' e,
    r = TELEPHONY_SUCCESS ∧ utCommandMap_ t' ≠ [] ∧ List.length e = 2%nat) sample_t [].
Proof.
  pose proof (setting_outcome (OpSetCallTransferInfo 0 sample_transfer) sample_t [] I
    sample_commands_ok) as Hp.
  unfold wp in *. destruct (run_setting _ _ _) as [[r t'] e] eqn:Hrun.
  vm_compute in Hrun. injection Hrun as <- <- <-.
  destruct Hp as (pre & e' & _ & _ & [(Hr & _)|(Hn & _)]); [by split_and!|by destruct Hn].
Defined.

Lemma mmi_code_tables_witness :
  ObtainCallTrasferAction "**" "10086" = inl 3 ∧ ObtainCause "002" = 4 ∧
  ObtainBarringInstallation "353" = "AC" ∧ Z.testbit (ObtainServiceCode (pretty 12)) 3 = true.
Proof.
  pose proof (mmi_code_tables "**" "10086" "002" 12 3) as (-> & -> & _ & ->);
    [by repeat (first [left | right])|by vm_compute; repeat (first [left | right])|done|done|].
  pose proof (mmi_code_tables "**" "10086" "353" 12 3) as (_ & _ & -> & _);
    [by repeat (first [left | right])|by vm_compute; repeat (first [left | right])|done|done|].
  by split_and!.
Defined.

Lemma pin_code_outcome_witness :
  run_mmi_handler MmiCode.AlterPinPassword 0 (sample_code "**" "04" "1234" "5678") sample_t [] =
    ((), sample_t,
     [SimPin 0 AlterPin "5678" "1234";
      SendEvent 0 (EVENT_SET_UNLOCK_PIN_PUK_ID {| pp_result := 0; pp_remain := 3 |})]).
Proof.
  exact (pin_code_outcome MmiCode.AlterPinPassword AlterPin 0 (sample_code "**" "04" "1234" "5678")
    sample_t [] eq_refl ltac:(done) ltac:(done) ltac:(done) ltac:(done) ltac:(by vm_compute)).
Defined.

(** A voice forwarding in force, as the network reports it. *)
Definition sample_forwarding : CallForwardQueryInfoList :=
  {| cfl_result := sample_result; cfl_callSize := 1; cfl_flag := 0;
     cfl_calls := [{| cq_serial := 1; cq_result := 0; cq_status := 1; cq_classx := 1; cq_number := "10086";
                      cq_type := 129; cq_reason := 0; cq_time := 0; cq_startHour := 0;
                      cq_startMinute := 0; cq_endHour := 0; cq_endMinute := 0 |}] |}.
Definition sample_query : HandlerState :=
  saved_at sample_idle (ss_set_include true (ss_set_flag 1 SsRequestCommand_init)).
Lemma forwarding_number_never_reported_witness :
  wp (GetCallTransferResponse (Some sample_forwarding)) (λ _ _ e,
    List.length e = 2%nat ∧ ∀ response,
      Report (ReportSs (ReportGetTransferResult response)) ∈ e → tr_number response = "")
    sample_query [].
Proof.
  assert (sm_lookup 1 (utCommandMap_ (this sample_query)) =
    Some (ss_set_include true (ss_set_flag 1 SsRequestCommand_init))) as Hc by reflexivity.
  assert (string_size (ss_password SsRequestCommand_init) ≤ kMaxNumberLen) as Hpw by by vm_compute.
  pose proof (forwarding_number_never_reported sample_forwarding
    (ss_set_include true (ss_set_flag 1 SsRequestCommand_init)) sample_query []
    (sample_saved_ok _) Hc Hpw) as Hp.
  unfold wp in *. destruct (GetCallTransferResponse _ _ _) as [[u s'] e] eqn:Hrun.
  split; [|exact Hp]. vm_compute in Hrun. by inversion Hrun.
Defined.

(** The settings set a forwarding to 10086 on slot 1; slot 0 dials a code. *)
Lemma dialled_forwarding_records_last_setting_witness :
  wp (SetCallTransferInfoResponse (Some sample_result)) (λ _ _ e, ∃ e',
    e = CoreSetVoiceCallForwarding 1 true "10086" :: e') (sample_waiting 0)
    [SetCallForwardingInfo 1 true "10086"].
Proof.
  assert (sm_lookup 1 (utCommandMap_ (this (sample_waiting 0))) =
    Some (ss_set_flag 0 (ss_set_action 1 SsRequestCommand_init))) as Hc by reflexivity.
  destruct (dialled_forwarding_records_last_setting 0 (sample_code "##" "21" "" "")
    (sample_waiting 0) [SetCallForwardingInfo 1 true "10086"] sample_result _ ltac:(done)
    (sample_saved_ok _) Hc eq_refl) as [_ Hp].
  exact Hp.
Defined.

End WitnessSupplement.

(** ** WitnessConfig: the properties of the configuration at concrete inputs *)

Module WitnessConfig.
Import Prelude ConfigTypes Platform Samples Standardize Emergency ControlBase ConnectionIMS.
Import Service Handler SupplementRequestCs Supplement ConfigRequest Config ConfigEcc.
Import ConfigHandler ConfigFacts ConfigEccFacts ConfigSystem ConfigSystem.ConfigUser ConfigSystem.ConfigSwitch.
Import WitnessCalls.WitnessService.

Open Scope Z_scope.

#[local] Existing Instances sample_consts sample_env sample_consts_ok.
#[local] Existing Instances sample_service_env sample_handler_env sample_supplement_env.

Definition sample_numbers : EccNum :=
  {| bean_id := 1; bean_name := "operator"; bean_mcc := "460"; bean_mnc := "00"; bean_numeric := "46000";
     ecc_withcard := "110"; ecc_nocard := "112"; ecc_fake := "999" |}.
Definition sample_row (plmn : string) : list EccNum := if bool_decide (plmn = "46000") then [sample_numbers] else [].
(** A ready SIM of 460 00 at home, a modem in SA mode with NR preferred, and an
    operator that resets the switch for a new SIM. *)
Definition sample_config_env : ConfigEnv :=
  {| SUPPORT_RTT_CALL := false;
     TELEPHONY_ERR_SLOTID_INVALID := 201; TELEPHONY_ERR_DATABASE_WRITE_FAIL := 202;
     TELEPHONY_ERR_NO_SIM_CARD := 203; CALL_ERR_VOLTE_NOT_SUPPORT := 204;
     CALL_ERR_VOLTE_PROVISIONING_DISABLED := 205;
     IMS_PS_VOICE_PREFERRED := 3; IMS_PS_VOICE_ONLY := 4;
     SIM_STATE_UNKNOWN := 0; SIM_STATE_READY := 4; SIM_STATE_LOADED := 5;
     CORE_NETWORK_MODE_NR := 31; CORE_NETWORK_MODE_NR_LTE_TDSCDMA_WCDMA_GSM_EVDO_CDMA := 64;
     CORE_NETWORK_MODE_MAX_VALUE := 99;
     NR_MODE_UNKNOWN := 0; NR_MODE_SA_ONLY := 2; NR_MODE_NSA_AND_SA := 3;
     CARRIER_NR_AVAILABILITY_NSA := 1; CARRIER_NR_AVAILABILITY_SA := 2;
     TYPE_VOICE_OVER_LTE := 0; TYPE_SS_OVER_UT := 2;
     TYPE_CATEGORY := 0; TYPE_HAS_CARD := 1; TYPE_NO_CARD := 0; TYPE_ALL := 0;
     EmergencyCall_eqb := λ a b, bool_decide (eccNum a = eccNum b ∧ ecc_mcc a = ecc_mcc b);
     KEY_IMS_SWITCH_ON_BY_DEFAULT_BOOL := "ims_switch_on_by_default_bool";
     KEY_HIDE_IMS_SWITCH_BOOL := "hide_ims_switch_bool";
     KEY_VOLTE_SUPPORTED_BOOL := "volte_supported_bool";
     KEY_VOLTE_PROVISIONING_SUPPORTED_BOOL := "volte_provisioning_supported_bool";
     KEY_CARRIER_VT_AVAILABLE_BOOL := "carrier_vt_available_bool";
     KEY_SS_OVER_UT_SUPPORTED_BOOL := "ss_over_ut_supported_bool";
     KEY_IMS_GBA_REQUIRED_BOOL := "ims_gba_required_bool";
     KEY_UT_PROVISIONING_SUPPORTED_BOOL := "ut_provisioning_supported_bool";
     KEY_IMS_PREFER_FOR_EMERGENCY_BOOL := "ims_prefer_for_emergency_bool";
     KEY_FORCE_VOLTE_SWITCH_ON_BOOL := "force_volte_switch_on_bool";
     KEY_VIDEO_CALL_WAITING_ON_BOOL := "video_call_waiting_on_bool";
     KEY_NR_MODE_SUPPORTED_LIST_INT_ARRAY := "nr_mode_supported_list_int_array";
     KEY_CALL_WAITING_SERVICE_CLASS_INT := "call_waiting_service_class_int";
     KEY_IMS_CALL_DISCONNECT_REASONINFO_MAPPING_STRING_ARRAY := "ims_call_disconnect_reasoninfo_mapping";
     KEY_EMERGENCY_CALL_STRING_ARRAY := "emergency_call_string_array";
     DEFAULT_CALL_WAITING_SERVICE_CLASS_CONFIG := 1;
     IMS_CALL_DISCONNECT_REASONINFO_MAPPING_CONFIG := [];
     core_GetSimId := λ _ slotId, slotId + 1;
     core_QueryImsSwitch := λ _ _ _, (TELEPHONY_SUCCESS, IMS_SWITCH_STATUS_ON);
     core_GetSimState := λ _ _ _, 4;
     core_GetSimOperatorNumeric := λ _ _, "46000";
     core_GetOperatorNumeric := λ _ _, "46000";
     core_GetNetworkStatus := λ _ _, Some {| ns_regStatus := 1; ns_roaming := false |};
     core_GetOperatorConfigs := λ _ _, (TELEPHONY_SUCCESS,
       {| boolValue := {["force_volte_switch_on_bool" := true]}; intValue := ∅;
          intArrayValue := ∅; stringArrayValue := ∅ |});
     core_GetSimIst := λ _ _, ""; core_GetSimIccId := λ _ _, "89860";
     core_GetNrOptionMode := λ _ _ _, (TELEPHONY_SUCCESS, 2);
     GetParameter := λ _ _ _ n, if 1 <? n then "8" else "";
     GetIntParameter := λ _ _ d, d; GetBoolParameter := λ _ _ d, d;
     rdb_instance := λ _, true;
     rdb_QueryEccList := λ _ plmn, (TELEPHONY_SUCCESS, sample_row plmn);
     rdb_Query := λ _ _ _, (0, "40"); StrToInt := λ _ _, 40;
     GetImsFeatureValue_answer := λ _ _ _, 0; indeterminate := λ _, 0 |}.
#[local] Existing Instance sample_config_env.
Lemma sample_config_env_ok : ConfigEnvOk.
Proof.
  split; [|done|apply (bool_decide_unpack _); vm_compute; exact I].
  intros h key def n Hn. simpl. destruct (Z.ltb_spec 1 n); unfold string_size; simpl; lia.
Defined.
#[local] Existing Instance sample_config_env_ok.

Lemma sample_slot0 : 0 ≤ DEFAULT_SIM_SLOT_ID.
Proof. done. Qed.

Lemma sample_eqb a b :
  EmergencyCall_eqb a b = true ↔ eccNum a = eccNum b ∧ ecc_mcc a = ecc_mcc b.
Proof. exact (bool_decide_eq_true _). Qed.

Definition sample_report : EmergencyInfo :=
  {| ei_eccNum := "120"; ei_category := 0; ei_simpresent := 1; ei_mcc := "";
     ei_abnormalService := 0; ei_index := 1; ei_total := 1 |}.
Definition sample_reports : list EmergencyInfo := [sample_report].
Definition sample_actions : list ConfigAction :=
  [ActRegisterCoreService; ActOperatorConfigChanged 0 (Some 1); ActSimStateChange 0 true;
   ActReportEccChanged 0 (Some sample_reports); ActNetworkStateChange 0;
   ActResidentNetworkChange 0 (Some "46000"); ActSetImsSwitchStatus 0 false; ActSetClearCode 0 31].
(** The configuration after the service started with this SIM. *)
Definition sample_config : CellularCallConfig :=
  (run_actions sample_actions CellularCallConfig_new []).1.2.
Definition sample_trace : list Effect :=
  (run_actions sample_actions CellularCallConfig_new []).2.

Lemma config_discipline_witness :
  lock_run [] sample_trace = Some [] ∧ (20 < List.length sample_trace)%nat ∧
  ∀ v, Datatypes.length (ecc_vectors sample_config v) = 2%nat.
Proof.
  pose proof (config_discipline sample_actions [] sample_slot0) as Hp.
  unfold sample_config, sample_trace.
  destruct (run_actions sample_actions CellularCallConfig_new []) as [[u s] e] eqn:Hrun.
  destruct Hp as [Hl Hv]. split; [exact Hl|]. split; [|exact Hv].
  assert (Nat.ltb 20 (List.length (run_actions sample_actions CellularCallConfig_new []).2) = true) as Hn
    by (vm_compute; reflexivity).
  rewrite Hrun in Hn. by apply Nat.ltb_lt.
Defined.

Definition sample_thread : Thread := {| th_held := []; th_todo := sample_trace |}.
Lemma config_threads_progress_witness :
  Forall (λ t, th_todo t = []) [sample_thread; sample_thread] ∨
  ∃ ts'', threads_step [sample_thread; sample_thread] ts''.
Proof.
  assert (th_held sample_thread = [] ∧ ∃ acts s h u s',
    cfg_inv no_fact s ∧ run_actions acts s h = (u, s', th_todo sample_thread)) as Ht.
  { split; [reflexivity|]. unfold sample_thread, sample_trace.
    destruct (run_actions sample_actions CellularCallConfig_new []) as [[u s] e] eqn:Hrun.
    exists sample_actions, CellularCallConfig_new, [], u, s.
    split; [exact (cfg_inv_new no_fact I)|exact Hrun]. }
  refine (config_threads_progress [sample_thread; sample_thread] _ sample_slot0 _ (rtc_refl _ _)).
  exact (Forall_cons_2 _ _ _ Ht (Forall_cons_2 _ _ _ Ht (Forall_nil_2 _))).
Defined.

Definition sample_network : NetworkState := {| ns_regStatus := 1; ns_roaming := false |}.
Lemma sample_configured : ∀ h, default [] (stringArrayValue (core_GetOperatorConfigs h 0).2 !!
  KEY_EMERGENCY_CALL_STRING_ARRAY) = [].
Proof. intros h. vm_compute. reflexivity. Qed.
Lemma sample_slot_answers h :
  slot_answers 0 "46000" "46000" (Some sample_network) [] true h.
Proof. split_and!; [reflexivity..|apply sample_configured|reflexivity]. Qed.
Lemma kept_lists_invisible_witness :
  reference_sent sample_row 0 "46000" "46000" (Some sample_network) [] true sample_config =
    [(0, network_list sample_row "46000")] ∧
  let '(_, s, e) := run_actions sample_actions CellularCallConfig_new [] in
  wp (UpdateEccNumberList 0) (λ _ _ e',
    ecc_sent e' = reference_sent sample_row 0 "46000" "46000" (Some sample_network) [] true s)
    s ([] ++ e).
Proof.
  split; [vm_compute; reflexivity|].
  pose proof (kept_lists_invisible sample_row sample_actions 0 "46000" "46000"
    (Some sample_network) [] true [] sample_slot0 eq_refl (λ _ _, eq_refl)) as Hk.
  destruct (run_actions sample_actions CellularCallConfig_new []) as [[u s] e].
  exact (Hk (λ h' _, sample_slot_answers h')).
Defined.

Lemma actions_inv acts h : cfg_inv no_fact (run_actions acts CellularCallConfig_new h).1.2.
Proof.
  pose proof (run_actions_disciplined sample_slot0 acts CellularCallConfig_new h
    (cfg_inv_new no_fact I)) as Hwp. unfold wp in Hwp.
  destruct (run_actions acts CellularCallConfig_new h) as [[u s] e]. exact (proj1 Hwp).
Qed.
Lemma sample_config_inv : cfg_inv no_fact sample_config.
Proof. exact (actions_inv sample_actions []). Qed.

Lemma ecc_list_after_report_witness :
  List.length (ecc_sources "46000" true sample_config sample_reports) = 3%nat ∧
  wp (UpdateEmergencyCallFromRadio 0 sample_reports ;; ConfigEcc.GetEccCallList 0)
    (λ l _ _, distinct l ∧ covers l (ecc_sources "46000" true sample_config sample_reports))
    sample_config sample_trace.
Proof.
  split; [vm_compute; reflexivity|].
  eapply wp_mono; [exact (ecc_list_after_report 0 "46000" true sample_reports sample_config
    sample_trace sample_slot0 eq_refl sample_config_inv
    (λ _ _, conj eq_refl (λ _, eq_refl)))|].
  intros l s e (extra & Hd & _ & Hc & _). split; [exact Hd|].
  intros x Hx. apply Hc, elem_of_app. by left.
Defined.

(** The lists of the SIM before are kept. *)
Definition sample_kept : EccList :=
  {| ecl_plmn := "46001"; ecl_eccInfoList := [BuildDefaultEmergencyCall "777" TYPE_HAS_CARD] |}.
Definition sample_stale : CellularCallConfig :=
  set_vector hplmnFakeEccList_ [sample_kept; EccList_new] sample_config.
Lemma sample_stale_inv : cfg_inv no_fact sample_stale.
Proof.
  split; [|done]. intros v. simpl. destruct (decide (hplmnFakeEccList_ = v)) as [<-|Hv].
  - by rewrite fn_lookup_insert.
  - rewrite fn_lookup_insert_ne by done. apply sample_config_inv.
Qed.
Lemma fake_numbers_outlive_sim_witness :
  wp (UpdateEmergencyCallFromRadio 0 sample_reports ;; UpdateEmergencyCallFromRadio 0 sample_reports)
    (λ _ s' _, covers (ecc_at s' allEccList_ 0) [BuildDefaultEmergencyCall "777" TYPE_HAS_CARD])
    sample_stale sample_trace.
Proof.
  refine (fake_numbers_outlive_sim 0 "46000" sample_reports sample_kept
    sample_stale sample_trace sample_slot0 eq_refl sample_stale_inv
    (λ _ _, conj eq_refl (λ _, eq_refl)) _ eq_refl _ _ _).
  - split_and!; [done|done|]. intros h _. by eexists.
  - done.
  - intros a b c [??]%sample_eqb [??]%sample_eqb. apply sample_eqb. by split; etrans.
  - intros h. exists sample_numbers, [].
    split; [reflexivity|]. by vm_compute.
Defined.

(** ** The switch *)

Lemma sample_on_bool : bool_at sample_config volteSupported_ 0 = true.
Proof. vm_compute. reflexivity. Qed.
Lemma SetImsSwitchStatus_outcome_witness :
  wp (SetImsSwitchStatus 0 false) (λ r _ e, r = TELEPHONY_SUCCESS ∧
    parameters e = switch_parameters 0 0 ∧ List.length (switched e) = 1%nat) sample_config sample_trace.
Proof.
  eapply wp_mono; [exact (SetImsSwitchStatus_outcome 0 false 0 0 TELEPHONY_SUCCESS 1 1 0 4
    sample_config sample_trace (λ _, eq_refl) (λ _, eq_refl) (λ _ _, eq_refl) (λ _, eq_refl)
    (λ _ _, eq_refl) (λ _, eq_refl) (λ _ _, eq_refl))|].
  intros r s e (Hr & Hchanged & _).
  assert (bool_at sample_config volteSupported_ 0 = true ∧
    (false = true → volte_provisioned sample_config 0 0 0 = true) ∧ INVALID_SIM_ID < 1 ∧
    TELEPHONY_SUCCESS = TELEPHONY_SUCCESS) as Ha by (split_and!; [exact sample_on_bool|done..]).
  split; [apply Hr; split; [exact Ha|by right]|]. apply Hchanged. by split_and!.
Defined.

Lemma switching_off_keeps_ims_on_witness :
  wp (SetImsSwitchStatus 0 false) (λ r _ e, r = TELEPHONY_SUCCESS ∧ switched e = [(0, true)])
    sample_config sample_trace.
Proof.
  eapply wp_mono; [refine (switching_off_keeps_ims_on 0 1 40 2 4 sample_config sample_trace
    (λ _, eq_refl) sample_on_bool _ (λ _ _, eq_refl) _ (λ _, eq_refl) (λ _ _, eq_refl) eq_refl
    (λ _ _, eq_refl) _ (λ _ _, eq_refl) _)|].
  - done.
  - done.
  - done.
  - by right.
  - intros r s e (Hr & Hs & _). by split.
Defined.

Lemma same_sim_resets_switch_witness :
  wp (ResetImsSwitch 0) (λ _ _ e, parameters e =
    [(slot_key LAST_ICCID_KEY 0, "89860"); (slot_key IMSSWITCH_STATE 0, "0")])
    sample_config sample_trace.
Proof.
  refine (same_sim_resets_switch 0 "89860" false sample_config sample_trace
    (λ _, eq_refl) (λ _, eq_refl) _ _ _ (λ _, eq_refl)).
  - done.
  - vm_compute. reflexivity.
  - vm_compute. reflexivity.
Defined.

Lemma clear_code_published_witness :
  wp (mfor [(0, 31); (1, 0); (0, 17)] (λ c, SetClearCode c.1 c.2)) (λ _ s' e,
    published_code e = "17" ∧ lastDisconnectCode_ s' = 17) CellularCallConfig_new [].
Proof.
  eapply wp_mono; [exact (clear_code_published [(0, 31); (1, 0); (0, 17)] CellularCallConfig_new [] eq_refl)|].
  intros [] s e [He Hl]. rewrite Hl in He. split; [exact He|exact Hl].
Defined.

(** ** A reported number, with an environment in which the check reads the list *)

Module Reported.
Definition reported_list : list EmergencyCall :=
  ecc_at (UpdateEmergencyCallFromRadio 0 sample_reports sample_config []).1.2 allEccList_ 0.
Definition reported_env : Env := sample_env_ecc reported_list false 1.
#[local] Existing Instance reported_env.
End Reported.

End WitnessConfig.
