(* ===== verification/WitnessProcess.v ===== *)
(** * WitnessProcess: the properties of the messages between the processes and of the life
    of the service at concrete inputs, a module per part *)

From stdpp Require Import base tactics option list numbers strings gmap relations.
From Stdlib Require Import ZArith Lia Ascii String.
From S2P Require Prelude SsTypes ConfigTypes Platform CellularCallRegister Samples Standardize StdMap.
From S2P Require MmiCode ControlBase CallMap SatelliteControl Service ServiceFacts Handler.
From S2P Require SupplementRequestCs Supplement SupplementHandler SupplementFacts SupplementUser.
From S2P Require ConfigRequest Config ConfigEcc Parcel IpcCodes CellularCallRdbHelper CellularCallStub.
From S2P Require ImsCallProxy SatelliteCallClient SatelliteCallCallbackProxy SatelliteCallCallbackStub.
From S2P Require ImsCallClient ServiceLife ImsClientFacts ImsClientUser ServiceLifeFacts.
From S2P Require SatelliteClientFacts ImsCallCallbackProxy ImsCallCallbackStub HandlerEvents ModemEvents.
From S2P Require ImsReportFacts ImsReportUser System CellularEntry SatelliteIpcFacts WitnessCalls.
From S2P Require WitnessTables.

(** ** WitnessIpc: the properties of the processes' messages at concrete inputs *)

Module WitnessIpc.
Import Prelude SsTypes ConfigTypes Platform Samples ConfigRequest Parcel IpcCodes.
Import ImsCallProxy.ImsCallProxyFacts ImsCallClient ImsClientFacts ImsClientUser WitnessTables.WitnessConfig.

Open Scope Z_scope.

#[local] Existing Instances sample_consts sample_config_env.

(** A parcel whose foreign reads give nothing and leave it alone. *)
Definition sample_parcel_env : ParcelEnv :=
  {| ERR_NONE := 0;
     TELEPHONY_ERR_WRITE_DESCRIPTOR_TOKEN_FAIL := 301; TELEPHONY_ERR_WRITE_DATA_FAIL := 302;
     TELEPHONY_ERR_WRITE_REPLY_FAIL := 303; TELEPHONY_ERR_DESCRIPTOR_MISMATCH := 304;
     TELEPHONY_ERR_IPC_CONNECT_STUB_FAIL := 305; TELEPHONY_ERR_PERMISSION_ERR := 306;
     CALL_ERROR_SEND_REQUEST_FAIL := 307;
     ImsRegTech_value := λ t, match t with IMS_REG_TECH_NR => 2 | _ => 1 end;
     ReadInterfaceToken_other := λ p, (""%string, p); ReadInt8_other := λ p, (zero, p);
     ReadInt32_other := λ p, (0, p); ReadBool_other := λ p, (false, p); ReadFloat_other := λ p, (0, p);
     ReadString_other := λ p, (""%string, p); ReadStringVector_other := λ p, (None, p);
     ReadRawData_other := λ _ _ p, (None, p); ReadRemoteObject_other := λ p, (None, p);
     remote_alive := λ _, true |}.
#[local] Existing Instance sample_parcel_env.
Lemma sample_parcel_ok : ParcelEnvOk.
Proof. split. apply (bool_decide_unpack _). vm_compute. exact I. Defined.
#[local] Existing Instance sample_parcel_ok.

(** A service that is there and answers 7 to everything. *)
Definition sample_ipc_env : IpcEnv :=
  {| Remote := λ _, true; remote_SendRequest := λ _ _ _, (0, [IInt32 7]); ipc_write_ok := λ _ _ _, true |}.
#[local] Existing Instance sample_ipc_env.
Definition sample_client_env : ClientEnv :=
  {| GetSystemAbilityManager := λ _, true; CheckSystemAbility := λ _, true;
     cast_ImsCoreServiceInterface := λ _, true; GetProxyObjectPtr := λ _, true;
     cast_ImsCallInterface := λ _, true; new_SystemAbilityListener := λ _, true;
     new_ImsCallCallbackStub := λ _, Some 9; SubscribeSystemAbility_answer := λ _, 0;
     CheckInputSysAbilityId := λ _, true |}.
#[local] Existing Instance sample_client_env.

(** The first request of a client: it registers, then asks, and is answered. *)
Definition sample_request : ClientRequest := RqHoldCall 0 0 false.
Lemma request_reaches_service_witness :
  let '(a, _, e) := run_client sample_request ImsCallClient_new [] in
  a = 7 ∧ tidy [] e ∧ Datatypes.length (transactions e) = 2%nat ∧
  last (transactions e) = Some (ImsCallProxy.code_value (request_code sample_request), request_data sample_request).
Proof.
  pose proof (request_reaches_service sample_request ImsCallClient_new [] I
    (bool_decide_unpack (1 ≠ 2) I)) as Hp.
  unfold wp in Hp. destruct (run_client sample_request ImsCallClient_new []) as [[a s'] e] eqn:Hrun.
  destruct Hp as [Ht _]. split; [|split; [exact Ht|split]].
  - assert ((run_client sample_request ImsCallClient_new []).1.1 = 7) as Ha by (vm_compute; reflexivity).
    rewrite Hrun in Ha. exact Ha.
  - assert (Datatypes.length (transactions (run_client sample_request ImsCallClient_new []).2) = 2%nat) as He
      by (vm_compute; reflexivity).
    rewrite Hrun in He. exact He.
  - assert (last (transactions (run_client sample_request ImsCallClient_new []).2) =
      Some (ImsCallProxy.code_value (request_code sample_request), request_data sample_request)) as He
      by (vm_compute; reflexivity).
    rewrite Hrun in He. exact He.
Defined.

Definition sample_client_actions : list client_action :=
  [AcRequest sample_request; AcInit; AcAdded 4009; AcRegister 0; AcHandler 0].
Lemma one_registration_witness :
  let '(_, s', e) := (Init ;; mfor sample_client_actions run_action) ImsCallClient_new [] in
  imsCallProxy_ s' = true ∧ Datatypes.length (registrations e) = 1%nat.
Proof.
  refine (one_registration sample_client_actions [] _ _ _ _ _ _ _ _ _).
  all: try (intros; reflexivity).
  - unfold sample_client_actions. rewrite !elem_of_cons. intros [?|[?|[?|[?|[?|[]%not_elem_of_nil]]]]]; discriminate.
  - intros h. exists 9. reflexivity.
Defined.

Lemma early_report_deafens_slot_witness :
  ((GetHandler 0 ;; RegisterImsCallCallbackHandler 0 true ;; mfor sample_client_actions run_action ;;
    GetHandler 0) ImsCallClient_new []).1.1 = false.
Proof.
  pose proof (early_report_deafens_slot 0 sample_client_actions ImsCallClient_new [] eq_refl) as Hp.
  unfold wp in Hp.
  destruct ((GetHandler 0 ;; RegisterImsCallCallbackHandler 0 true ;; mfor sample_client_actions run_action ;;
    GetHandler 0) ImsCallClient_new []) as [[b s] e]. exact Hp.
Defined.

End WitnessIpc.

(** ** WitnessReport: the properties of the IMS service's reports at concrete inputs *)

Module WitnessReport.
Import Prelude SsTypes ConfigTypes Platform Samples Standardize StdMap MmiCode Service Handler.
Import SupplementRequestCs Supplement SupplementFacts SupplementUser ConfigRequest Config.
Import Parcel IpcCodes ImsCallProxy.ImsCallProxyFacts ImsCallCallbackStub ImsReportFacts ImsReportUser.
Import WitnessCalls.WitnessService WitnessTables.WitnessSupplement WitnessTables.WitnessConfig WitnessIpc.

Open Scope Z_scope.

#[local] Existing Instances sample_consts sample_env sample_consts_ok.
#[local] Existing Instances sample_service_env sample_handler_env sample_supplement_env.
#[local] Existing Instances sample_supplement_env_ok sample_config_env sample_parcel_env sample_parcel_ok.
#[local] Existing Instances sample_ipc_env sample_client_env.
#[local] Instance sample_reports_securec : @SecurecOk sample_env := sample_env_securec false 1.

Definition sample_stub_env : StubEnv :=
  {| CallForwardQueryInfoList_flag := 0; IPCObjectStub_OnRemoteRequest := λ _ _ _, (0, []);
     stub_write_ok := λ _ _ _, true |}.
#[local] Existing Instance sample_stub_env.

(** A list of one call, ringing. *)
Definition sample_listed : ImsCurrentCall :=
  {| im_index := 1; im_dir := 1; im_state := 4; im_mode := 0; im_mpty := 0; im_voiceDomain := 0;
     im_callType := 0; im_number := "5551000"; im_name := ""; im_type := 129; im_alpha := ""; im_toa := 129;
     im_toneType := 0; im_callInitialType := 0; im_namePresentation := 0; im_newCallUseBox := 0;
     im_rttState := 0; im_rttChannelId := 0; im_imsDomain := 0 |}.
Definition sample_calls : ImsReport :=
  RpCalls 0 {| iml_callSize := 1; iml_flag := 0; iml_calls := [sample_listed] |}.
Lemma report_arrives_witness :
  transactions (send_report sample_calls () []).2 =
    [(ImsCallCallbackProxy.code_value (report_code sample_calls), report_data sample_calls)] ∧
  OnRemoteRequest (ImsCallCallbackProxy.code_value (report_code sample_calls)) (report_data sample_calls) =
    served sample_calls.
Proof.
  assert (transactions (send_report sample_calls () []).2 =
    [(ImsCallCallbackProxy.code_value (report_code sample_calls), report_data sample_calls)]) as He
    by (vm_compute; reflexivity).
  split; [exact He|].
  assert (readable sample_calls) as Hr.
  { split; [apply (bool_decide_unpack _); vm_compute; exact I|reflexivity]. }
  pose proof (report_arrives sample_calls () [] I Hr) as Hp. unfold wp in Hp.
  destruct (send_report sample_calls () []) as [[a s'] e]. cbn [snd] in He.
  destruct Hp as [_ [[Hn _]|(m & Hm & Ho & _)]]; rewrite He in *; [discriminate Hn|].
  injection Hm as <-. exact Ho.
Defined.

(** The code star 31 hash, dialled over IMS, then given up on. *)
Definition sample_clir : MMIData := sample_code "*" "31" "" "".
Definition sample_stub (t : CellularCallHandler) : StubState :=
  {| st_client := ImsCallClient.ImsCallClient_new; st_config := CellularCallConfig_new;
     st_handlers := {[0 := t]} |}.
Definition sample_given_up : SsBaseResult :=
  {| sb_index := 1; sb_result := IMS_ERROR_UT_CS_FALLBACK; sb_reason := 0; sb_message := "" |}.
Lemma dialled_code_falls_back_witness :
  code_ok MmiCode.HandleClir sample_clir ∧
  wp (run_mmi_handler MmiCode.HandleClir 0 sample_clir) (λ _ t' e,
    List.length e = 1%nat ∧
    wp (OnRemoteRequest (ImsCallCallbackProxy.code_value (report_code (RpSetClir 0 sample_given_up)))
          (report_data (RpSetClir 0 sample_given_up)))
      (λ _ s' e', s' = sample_stub t' ∧ e' = [Core (RilSs 0 RADIO_SET_CALL_CLIR 1 (CsSetClir 0))])
      (sample_stub t') []) sample_t [].
Proof.
  assert (code_ok MmiCode.HandleClir sample_clir) as Hc.
  { assert (is_service MmiCode.HandleClir) as Hf by (unfold is_service; set_solver).
    split; [exact Hf|]. right; split; [exact Hf|apply list_elem_of_here]. }
  split; [exact Hc|].
  pose proof (dialled_code_falls_back MmiCode.HandleClir 0 sample_clir sample_t []
    (λ _, eq_refl) Hc sample_commands_ok) as Hp.
  unfold wp at 1 in Hp. unfold wp at 1.
  destruct (run_mmi_handler _ _ _ _ _) as [[u t'] e] eqn:Hrun. vm_compute in Hrun.
  injection Hrun as <- <- <-. split; [reflexivity|].
  destruct Hp as [(pre & rq & message & He & Hpre & _)|[[Hf _]|Hp]]; [|discriminate Hf|].
  - exfalso. destruct pre as [|x pre]; [|inversion Hpre as [|? ? Hx]; injection He as <- _; exact Hx].
    destruct rq as [|x rq]; [discriminate He|]. injection He as _ He. destruct rq; discriminate He.
  - exact (Hp (sample_stub _) [] sample_given_up 0 0
      {| cfl_result := sample_given_up; cfl_callSize := 0; cfl_flag := 0; cfl_calls := [] |}
      eq_refl eq_refl eq_refl (bool_decide_unpack (0 ≤ 10) I)
      (conj (bool_decide_unpack (0 ≤ 255) I) (conj (bool_decide_unpack (0 < 256) I) eq_refl))).
Defined.

End WitnessReport.

(** ** WitnessEntry: the properties of the entry at concrete inputs *)

Module WitnessEntry.
Import Prelude SsTypes ConfigTypes Platform Samples Service ServiceFacts Handler.
Import SupplementRequestCs SupplementHandler ConfigRequest Config System Parcel IpcCodes.
Import CellularCallStub CellularCallStub.CellularStubFacts CellularCallRegister CellularCallRegister.CellularRegisterFacts.
Import CellularEntry CellularEntry.CellularEntryFacts WitnessCalls.WitnessCS WitnessCalls.WitnessService WitnessTables.WitnessConfig WitnessIpc.

Import CellularCallInterface CellularCallInterfaceCode.

Open Scope Z_scope.

#[local] Existing Instances sample_consts sample_env sample_service_env sample_handler_env sample_supplement_env.
#[local] Existing Instances sample_config_env sample_parcel_env.

Definition code_number (c : CellularCode) : Z :=
  match c with
      | DIAL => 1 | HANG_UP => 2 | REJECT => 3 | ANSWER => 4 | EMERGENCY_CALL => 5
      | SET_EMERGENCY_CALL_LIST => 6 | HOLD_CALL => 7 | UN_HOLD_CALL => 8 | SWITCH_CALL => 9
      | COMBINE_CONFERENCE => 10 | SEPARATE_CONFERENCE => 11 | INVITE_TO_CONFERENCE => 12
      | KICK_OUT_CONFERENCE => 13 | HANG_UP_ALL_CONNECTION => 14 | SET_READY_TO_CALL => 15
      | CLEAR_ALL_CALLS => 16 | START_DTMF => 17 | STOP_DTMF => 18 | POST_DIAL_PROCEED => 19
      | SEND_DTMF => 20 | UPDATE_RTT_CALL_MODE => 21 | RTT_CAPABILITY_SETTING => 22
      | SET_DOMAIN_PREFERENCE_MODE => 23 | GET_DOMAIN_PREFERENCE_MODE => 24 | SET_IMS_SWITCH_STATUS => 25
      | GET_IMS_SWITCH_STATUS => 26 | GET_CARRIER_VT_CONFIG => 27 | SET_VONR_SWITCH_STATUS => 28
      | GET_VONR_SWITCH_STATUS => 29 | SET_IMS_CONFIG_STRING => 30 | SET_IMS_CONFIG_INT => 31
      | GET_IMS_CONFIG => 32 | SET_IMS_FEATURE => 33 | GET_IMS_FEATURE => 34 | SET_MUTE => 35
      | GET_MUTE => 36 | CTRL_CAMERA => 37 | SET_PREVIEW_WINDOW => 38 | SET_DISPLAY_WINDOW => 39
      | SET_CAMERA_ZOOM => 40 | SET_PAUSE_IMAGE => 41 | SET_DEVICE_DIRECTION => 42
      | SEND_CALL_MEDIA_MODE_REQUEST => 43 | SEND_CALL_MEDIA_MODE_RESPONSE => 44 | CANCEL_CALL_UPGRADE => 45
      | REQUEST_CAMERA_CAPABILITY => 46 | SET_CALL_TRANSFER => 47 | GET_CALL_TRANSFER => 48
      | CAN_SET_CALL_TRANSFER_TIME => 49 | SET_CALL_WAITING => 50 | GET_CALL_WAITING => 51
      | SET_CALL_RESTRICTION => 52 | GET_CALL_RESTRICTION => 53 | SET_CALL_RESTRICTION_PWD => 54
      | REGISTER_CALLBACK => 55 | UNREGISTER_CALLBACK => 56 | CLOSE_UNFINISHED_USSD => 57
      | GET_VIDEO_CALL_WAITING => 58 | SEND_USSD_RESPONSE => 59 | IS_MMI_CODE => 60
  end.
(** A caller that is the foundation process. *)
Definition sample_stub_env : CellularStubEnv ProcessEvent :=
  {| CellularCallInterface_descriptor := "OHOS.Telephony.ICellularCall";
     CellularCallInterfaceCode_value := code_number;
     GetCallingUid := λ _, 5523; CheckPermission_CONNECT_CELLULAR_CALL_SERVICE := λ _, false;
     cellular_OnRemoteRequest := λ _ _ data, (-1, data); cellular_write_ok := λ _ _ _, true;
     CreateSurfaceAsProducer := Some; uninit_bool := λ _, true; uninit_int := λ _, 77 |}.
#[local] Existing Instance sample_stub_env.
Lemma sample_codes_ok : CellularCodesOk.
Proof. split. intros c c'. destruct c, c'; intros Heq; solve [reflexivity | discriminate Heq]. Defined.
#[local] Existing Instance sample_codes_ok.
Definition sample_register_env : RegisterEnv :=
  {| CALL_STATUS_UNKNOWN := -1; CallDetailInfo_callType := 0; CallDetailInfo_accountId := 0;
     CallDetailInfo_callMode := 0 |}.
#[local] Existing Instance sample_register_env.
Definition sample_entry_env : EntryEnv := {| null_surface := 0 |}.
#[local] Existing Instance sample_entry_env.

(** The wire form of a call, and its transaction. *)
Definition sample_data {A} (c : StubCall A) : Parcel :=
  IToken CellularCallInterface_descriptor :: call_data 4 3 c ++ [].
Definition sample_transaction {A} (c : StubCall A) (x : CellularCallProcess * list ProcessEvent)
    : CellularCallProcess * list ProcessEvent :=
  let '(_, p, e) := OnRemoteRequest (CellularCallInterfaceCode_value (call_code c)) (sample_data c) x.1 x.2 in
  (p, x.2 ++ e).
Lemma sample_transaction_step {A} (c : StubCall A) x : process_step x (sample_transaction c x).
Proof.
  destruct x as [p h]. unfold sample_transaction. cbn [fst snd].
  destruct (OnRemoteRequest _ (sample_data c) p h) as [[r p'] e] eqn:Hr. by eapply Step_transaction.
Qed.

(** call_manager registers object 7, then hangs up a call whose control is gone. *)
Definition sample_registered : CellularCallProcess * list ProcessEvent :=
  sample_transaction (RegisterCallManagerCallBack 7) (CellularCallProcess_new true, []).
Definition sample_hung_up : CellularCallProcess * list ProcessEvent :=
  sample_transaction (HangUp (sample_info 1 "10086") 0) sample_registered.

Lemma process_reachable_inv_witness :
  service_inv (sys_service (process_system sample_hung_up.1)) ∧
  under_lock false (ups sample_hung_up.2) ∧ Datatypes.length (callbacks (ups sample_hung_up.2)) = 1%nat.
Proof.
  destruct (process_reachable_inv true sample_hung_up.1 sample_hung_up.2) as (Hs & _ & Hl & _).
  { rewrite <-surjective_pairing. eapply rtc_r; [|apply sample_transaction_step].
    eapply rtc_r; [|apply sample_transaction_step]. reflexivity. }
  split; [exact Hs|]. split; [exact Hl|]. vm_compute. reflexivity.
Defined.

Definition sample_clear : StubCall Z := ClearAllCalls [sample_info 1 "10086"; sample_info 2 "10010"].
Lemma call_served_witness :
  OnRemoteRequest (code_number CLEAR_ALL_CALLS) (sample_data sample_clear)
    (CellularCallProcess_new true) [] = serve sample_clear (CellularCallProcess_new true) [] ∧
  (serve sample_clear (CellularCallProcess_new true) []).1.1 = (TELEPHONY_SUCCESS, [IInt32 TELEPHONY_SUCCESS]).
Proof.
  split; [|vm_compute; reflexivity].
  exact (call_served 4 3 (CellularCallProcess_new true) [] [] sample_clear eq_refl eq_refl
           (bool_decide_unpack (0 < 3 ≤ MAX_SIZE) I) (bool_decide_unpack (0 < 2 ≤ MAX_CALL_NUM) I)).
Defined.

End WitnessEntry.

(** ** WitnessSatIpc: the properties of the satellite service's messages at concrete inputs

    A list of two calls reported for slot 0, whose control has the same two calls;
    and the death of the service while they last. *)

Module WitnessSatIpc.
Import Prelude SsTypes ConfigTypes Platform Samples StdMap CallMap ControlBase SatelliteControl.
Import Service Handler SupplementRequestCs Supplement ConfigRequest Config Parcel IpcCodes.
Import ImsCallProxy.ImsCallProxyFacts SatelliteCallClient SatelliteCallCallbackStub HandlerEvents.
Import SatelliteIpcFacts WitnessCalls.WitnessSat WitnessCalls.WitnessService WitnessTables.WitnessConfig WitnessIpc.

Open Scope Z_scope.

#[local] Existing Instances sample_consts sample_env sample_service_env sample_handler_env sample_supplement_env.
#[local] Existing Instances sample_config_env sample_parcel_env sample_parcel_ok sample_ipc_env.

Definition sample_sat_stub_env : SatelliteStubEnv :=
  {| sat_IPCObjectStub_OnRemoteRequest := λ _ _ _, (0, []); sat_stub_write_ok := λ _ _ _, true |}.
#[local] Existing Instance sample_sat_stub_env.
(** A service that is there, known as object 4. *)
Definition sample_sat_client_env : SatelliteClientEnv :=
  {| sat_GetSystemAbilityManager := λ _, true; sat_CheckSystemAbility := λ _, Some 4;
     new_SatelliteServiceDeathRecipient := λ _, true; IsProxyObject := λ _, true;
     AddDeathRecipient_answer := λ _, true; cast_ISatelliteService := λ _ _, true;
     sat_GetProxyObjectPtr := λ _, true; cast_SatelliteCallInterface := λ _, true;
     new_SatelliteCallCallbackStub := λ _, Some 9; AsObject := λ _, Some |}.
#[local] Existing Instance sample_sat_client_env.

Definition sample_two_calls : SatelliteCurrentCallList :=
  {| sal_callSize := 2; sal_flag := 2;
     sal_calls := (λ '(i, number),
       {| sa_index := i; sa_dir := 0; sa_state := CALL_STATUS_ACTIVE; sa_mode := 0; sa_mpty := 0;
          sa_voiceDomain := 0; sa_callType := 0; sa_number := number; sa_type := 0; sa_alpha := ""; sa_toa := 0 |})
       <$> [(1, "10086"%string); (2, "10010"%string)] |}.
Definition sample_client : SatelliteCallClient := set_handlerMap {[0 := true]} SatelliteCallClient_new.
Definition sample_calls_service : CellularCallService :=
  SetSatelliteControl 0 (Some sample_sat) CellularCallService_new.
Definition sample_event_state : EventState :=
  {| es_handler := {| this := CellularCallHandler_new 0 true; serviceInstance := sample_calls_service;
                      strEnterEventResult_ := None |};
     es_config := CellularCallConfig_new |}.

Lemma satellite_report_arrives_witness :
  let m := (SatelliteCallCallbackProxy.code_value (report_code (SrCalls 0 sample_two_calls)),
            report_data (SrCalls 0 sample_two_calls)) in
  transactions (send_report (SrCalls 0 sample_two_calls) () []).2 = [m] ∧
  OnRemoteRequest m.1 m.2 = reply_with (GetSatelliteCallsDataResponse_list 0 (misread 0 sample_two_calls)).
Proof.
  cbv zeta.
  assert (transactions (send_report (SrCalls 0 sample_two_calls) () []).2 =
    [(SatelliteCallCallbackProxy.code_value (report_code (SrCalls 0 sample_two_calls)),
      report_data (SrCalls 0 sample_two_calls))]) as He by (vm_compute; reflexivity).
  split; [exact He|].
  pose proof (satellite_report_arrives (SrCalls 0 sample_two_calls) () [] (bool_decide_unpack (2 < 2 ^ 31) I)) as Hp.
  unfold wp in Hp. destruct (send_report _ () []) as [[a s'] e]. cbn [snd] in He.
  destruct Hp as [_ [[Hn _]|(m & Hm & Ho & _)]]; rewrite He in *; [discriminate Hn|].
  injection Hm as <-. exact (proj2 Ho eq_refl).
Defined.

(** Object 5, which is not the service, dies. *)
Definition sample_connected : ClientAndCalls :=
  {| cc_client := set_callProxy true (set_serviceProxy (Some 4) sample_client); cc_calls := sample_calls_service |}.
Lemma service_death_ends_calls_witness :
  wp (OnRemoteDied (Some 5)) (λ _ s' e,
    cc_client s' = cc_client sample_connected ∧ Datatypes.length (sat_core_of e) = 1%nat ∧
    (SatelliteControl.connectionMap_ <$> GetSatelliteControl 0 (cc_calls s')) = Some []) sample_connected [].
Proof.
  pose proof (service_death_ends_calls (Some 5) sample_connected [] (λ _, eq_refl) (λ _, eq_refl)
    (Forall_cons_2 _ 0 _ eq_refl (Forall_cons_2 _ 1 _ eq_refl (Forall_nil_2 _)))) as Hp.
  unfold wp in *. destruct (OnRemoteDied _ _ _) as [[u s'] e] eqn:Hrun.
  destruct Hp as (Hc & parts & He & Hparts). split; [exact Hc|]. vm_compute in Hrun. injection Hrun as _ <- <-.
  split; reflexivity.
Defined.

(** The first request of a client: it connects and registers, then hangs up. *)
Lemma satellite_request_sent_witness :
  let '(a, s', e) := SatelliteClientFacts.run_client (SatelliteClientFacts.SqHangUp 0 1) SatelliteCallClient_new [] in
  a = 7 ∧ Datatypes.length (transactions e) = 2%nat ∧ ImsClientUser.tidy [] e ∧ satelliteCallProxy_ s' = true.
Proof.
  pose proof (SatelliteClientFacts.satellite_request_sent (SatelliteClientFacts.SqHangUp 0 1) SatelliteCallClient_new [])
    as Hp.
  unfold wp in Hp. destruct (SatelliteClientFacts.run_client _ _ _) as [[a s'] e] eqn:Hrun.
  destruct Hp as [Ht _]. vm_compute in Hrun. injection Hrun as <- <- <-.
  split; [reflexivity|split; [reflexivity|split; [exact Ht|reflexivity]]].
Defined.

End WitnessSatIpc.

(** ** WitnessLife: the start and the second start of the system ability on a device of
    two slots, with everything of the platform there *)

Module WitnessLife.
Import Prelude SsTypes ConfigTypes Platform Samples StdMap Service Handler SupplementRequestCs.
Import Supplement ConfigRequest Config Parcel IpcCodes ServiceLife ServiceLifeFacts.
Import WitnessCalls.WitnessService WitnessTables.WitnessConfig WitnessIpc WitnessSatIpc.

Open Scope Z_scope.

#[local] Existing Instances sample_consts sample_env sample_service_env sample_handler_env sample_supplement_env.
#[local] Existing Instances sample_config_env sample_parcel_env sample_parcel_ok sample_ipc_env sample_client_env.
#[local] Existing Instance sample_sat_client_env.

Definition sample_life_env : LifeEnv :=
  {| OHOS_BUILD_ENABLE_TELEPHONY_EXT := false; TELEPHONY_CALL_MANAGER_SYS_ABILITY_ID := 4005;
     COMMON_EVENT_SERVICE_ID := 3299; FIRST_PRIORITY := 1000; samgr := λ _, true;
     new_callManagerListener := λ _, true; IsInitFinished := λ h, (4 <? Z.of_nat (Datatypes.length h));
     system_clock_now := λ _, 0; dprintf_answer := λ _ _ _, 0 |}.
#[local] Existing Instance sample_life_env.

Lemma start_serves_every_slot_witness :
  ∃ s e, OnStart ServiceLife_new [] = ((), s, e) ∧
  state_ s = STATE_RUNNING ∧ served 0 s ∧ served 1 s ∧ Service.isRadioOn_ (life_service s) !! 1 = Some false.
Proof.
  destruct (OnStart ServiceLife_new []) as [[[] s] e] eqn:Hrun.
  pose proof (wp_result _ _ _ _ _ _ _
    (start_serves_every_slot [] (λ _, eq_refl) (λ _, eq_refl) (list_elem_of_here 0 [1])) Hrun) as (Hst & Hd & Hr & _).
  exists s, e. split; [reflexivity|]. split; [exact Hst|].
  split; [exact (Hd 0 (list_elem_of_here 0 [1]))|].
  split; [exact (Hd 1 (list_elem_of_further 1 0 [1] (list_elem_of_here 1 [])))|].
  exact (Hr 1 (conj (bool_decide_unpack (0 ≤ 1) I) (bool_decide_unpack (1 < 2) I))).
Defined.
(** The handlers after the second start, and those the IMS client got in it. *)
Lemma restart_parts_handlers_witness :
  ∃ s1 e1 s2 e2 s3 e3, OnStart ServiceLife_new [] = ((), s1, e1) ∧ OnStop s1 [] = ((), s2, e2) ∧
    OnStart s2 [] = ((), s3, e3) ∧ takes_nothing_back e2 ∧ parted 0 s3 ∧ parted 1 s3.
Proof.
  destruct (OnStart ServiceLife_new []) as [[[] s1] e1] eqn:H1.
  destruct (OnStop s1 []) as [[[] s2] e2] eqn:H2.
  destruct (OnStart s2 []) as [[[] s3] e3] eqn:H3.
  pose proof (wp_result _ _ _ _ _ _ _
    (restart_parts_handlers [] (λ _, eq_refl) (λ _, eq_refl) (list_elem_of_here 0 [1])) H1 []) as Hp.
  pose proof (wp_result _ _ _ _ _ _ _ Hp H2) as [Hn Hp'].
  pose proof (wp_result _ _ _ _ _ _ _ (Hp' []) H3) as [_ Hd].
  exists s1, e1, s2, e2, s3, e3. do 3 (split; [reflexivity || assumption|]). split; [exact Hn|].
  split; [exact (Hd 0 (list_elem_of_here 0 [1]))|].
  exact (Hd 1 (list_elem_of_further 1 0 [1] (list_elem_of_here 1 []))).
Defined.

End WitnessLife.

(** ** WitnessRdb: the emergency numbers of a network in a table of three rows, and in
    one of nine *)

Module WitnessRdb.
Import Prelude SsTypes ConfigTypes Platform Samples ConfigEcc CellularCallRdbHelper.
Import CellularCallRdbHelper.RdbHelperFacts.

Open Scope Z_scope.

#[local] Existing Instance sample_consts.

Definition sample_bean (i : Z) : EccNum :=
  {| bean_id := i; bean_name := "operator"; bean_mcc := "460"; bean_mnc := "00"; bean_numeric := "46000";
     ecc_withcard := if i =? 0 then "110,119" else "120"; ecc_nocard := "112"; ecc_fake := "999" |}.
Definition sample_columns : list (string * (EccNum → string)) :=
  [("id", λ _, ""); ("name", bean_name); ("mcc", bean_mcc); ("mnc", bean_mnc); ("numeric", bean_numeric);
   ("ecc_with_card", ecc_withcard); ("ecc_no_card", ecc_nocard); ("ecc_fake", ecc_fake)]%string.
Fixpoint position {A} (name : string) (l : list (string * A)) : Z :=
  match l with [] => -1 | (x, _) :: l => if bool_decide (x = name) then 0 else 1 + position name l end.
Definition sample_column (name : string) : Z := position name sample_columns.
Definition sample_rdb_env (n : Z) : RdbEnv :=
  {| GLOBAL_PARAMS_URI := "datashare:///com.ohos.globalparamsability";
     EccData_ID := "id"; EccData_NAME := "name"; EccData_MCC := "mcc"; EccData_MNC := "mnc";
     EccData_NUMERIC := "numeric"; EccData_ECC_WITH_CARD := "ecc_with_card"; EccData_ECC_NO_CARD := "ecc_no_card";
     EccData_ECC_FAKE := "ecc_fake"; EccNum_init := sample_bean 7; TELEPHONY_ERR_DATABASE_READ_FAIL := 206;
     rdb_GetSystemAbilityManager := λ _, true; rdb_GetSystemAbility := λ _, true; Creator_answer := λ _, true;
     Query_answer := λ _, true; GetRowCount_answer := λ _ _, n; GoToFirstRow_ok := λ _, true;
     GetColumnIndex_answer := λ _ name _, sample_column name;
     GetInt_answer := λ h _ _, bean_id (sample_bean (cursor h));
     GetString_answer := λ h column old,
       default old ((λ x, x.2 (sample_bean (cursor h))) <$> sample_columns !! Z.to_nat column) |}.
Lemma sample_table n : @EccTable (sample_rdb_env n) n sample_bean sample_column.
Proof.
  split; try done. intros h name field old _ Hin. rewrite !elem_of_cons, elem_of_nil in Hin.
  destruct_or? Hin; by simplify_eq/=.
Qed.

(** Of three rows the first is found, of nine none ever. *)
Lemma ecc_query_outcome_witness :
  let small := sample_rdb_env 3 in
  let large := sample_rdb_env 9 in
  wp (@QueryEccList _ small 2 "46000" []) (λ r _ e, ∃ found, r = Some (0, found) ∧
    found = take 1 (sample_bean <$> seqZ 0 3) ∧ rows_read e = take 1 (seqZ 0 3) ∧
    ∀ withCard noCard, GetEccListFromResult found withCard noCard =
      GetEccListFromResult (sample_bean <$> seqZ 0 3) withCard noCard) () [] ∧
  wp (@QueryEccList _ large 1000 "46000" []) (λ r _ e,
    r = None ∧ rows_read e = take 1000 (0 :: replicate 1000 8)) () [].
Proof.
  split.
  - exact (proj1 (@ecc_query_outcome _ (sample_rdb_env 3) 3 sample_bean sample_column (sample_table 3) "46000" [] []
      (bool_decide_unpack (0 ≤ 7) I)) (bool_decide_unpack (3 ≤ 8) I) 2%nat (le_n 2)).
  - exact (proj2 (@ecc_query_outcome _ (sample_rdb_env 9) 9 sample_bean sample_column (sample_table 9) "46000" [] []
      (bool_decide_unpack (0 ≤ 7) I)) (bool_decide_unpack (8 < 9) I) 1000%nat).
Defined.

End WitnessRdb.

(** ** WitnessModem: the two handlers of a started service that the broadcast of the
    sleep goes to, on a device of two slots *)

Module WitnessModem.
Import Prelude SsTypes ConfigTypes Platform Samples Service Handler SupplementRequestCs.
Import Supplement ConfigRequest Config Parcel IpcCodes ServiceLife ModemEvents ModemEvents.ModemFacts.
Import WitnessCalls.WitnessService WitnessTables.WitnessConfig WitnessIpc WitnessSatIpc WitnessLife.

Open Scope Z_scope.

#[local] Existing Instances sample_consts sample_env_power sample_service_env sample_handler_env sample_supplement_env.
#[local] Existing Instances sample_config_env sample_parcel_env sample_parcel_ok sample_ipc_env sample_client_env.
#[local] Existing Instances sample_sat_client_env sample_life_env.

Definition sample_modem_env : ModemEnv :=
  {| DEFAULT_OPERATOR_STATE := -1; MuteControlResponse_value := 0; new_register := λ _, true;
     system_GetBoolParameter := λ _ _ b, b |}.
#[local] Existing Instance sample_modem_env.


End WitnessModem.
